(* ===== verification/_CoqProject ===== *)
-Q . S2P
Prelude.v
MtArrList.v
Sha256.v
MtCrypto.v
MerkleTree.v
MerkleTheorems.v
MtSerialize.v
CipherUtil.v
Openssl.v
CodecCtx.v
SecureMem.v
PageCodec.v
PageProofs.v
CodecProofs.v
HookProofs.v
CodecWitness.v
Bitvec.v
BitvecProofs.v
Integrity.v
Attach.v
AttachProofs.v
AttachWitness.v
PagerIo.v
Savepoint.v
PagerProofs.v
Reopen.v
Rollback.v
SavepointProofs.v
Pragma.v
PragmaProofs.v
PragmaTypes.v
PragmaWitness.v
SqlKeys.v
Migrate.v
SqlText.v
Export.v
ExportQueries.v
ExportProofs.v
Varint.v
Record.v
RecordProofs.v
Wire.v
NdpInsert.v
WireProofs.v
Ring.v
Pipeline.v
PipelineProofs.v
HostThreads.v
EndToEnd.v
Server.v
ServerProofs.v
Session.v
Start.v
Plain.v
