(* ===== verification/Prelude.v ===== *)
(** * IronSafe: a verification of its C core

    IronSafe splits a SQL query between a storage server, which keeps the
    database encrypted and executes the filtering subquery, and a host, which
    receives the rows and runs the rest of the query on them.  This library
    models the C code of both servers, secure and baseline, and proves what makes
    it correct.

    ** The program and its parts

    - [merkle-tree/src]: an array list of hashes, SHA-224/256, and a Merkle tree
      with the operations add, update, verify, root and size.
    - [serialize/mt_serialize.c]: writes the tree to a file and reads it back when
      the storage server starts.
    - [storage/secure/sec_sqlite3.c]: SQLite with SQLCipher's page codec.  Every
      page the pager writes is encrypted, gets an HMAC and becomes a leaf of the
      tree; every page it reads is checked against both.  IronSafe's additions
      copy result rows out of the virtual machine and make records of them off
      the query thread.
    - [storage/secure/sec_ssd_server.c]: the storage server.  Three threads, joined by
      two rings: one executes the query and queues rows, one makes and serialises
      records, one packs them into packets of 1 MiB and sends them.
    - [host/secure/host_server.c], [host/secure/host_sqlite3.c]: the host.  One thread
      receives packets, another inserts their records into an in-memory table.
    - [storage/non-secure/ssd_server.c], [host/non-secure/host_server.c]: the same
      servers over plain sockets and an unencrypted database.

    The host sends the subquery; the storage server answers with the schema of the
    result and then with the packets.

    ** Files

    Shared: this file ([outcome], the monad [M] over a list of allocation
    results, checked buffer accesses, machine integers as [Z] with [u8] ... [u64],
    [i32], [i64], byte orders, list lemmas, tactics and hint databases).

    The tree: [MtArrList] ([mt_arr_list.c]), [Sha256] ([sha224-256.c] against
    FIPS 180 in its Module [Fips]), [MtCrypto] ([mt_crypto.c] and the interface
    [NodeHash]), [MerkleTree] ([mt_impl.c] with the invariant [tree_rep]),
    [MerkleTheorems] (the abstract tree and the refinement), [MtSerialize]
    ([mt_serialize.c]).

    The page codec: [CipherUtil] (hex, constant-time comparison, byte order),
    [Openssl] ([crypto_openssl.c] against the interface [OpenSSL] with
    [OpenSSLLaws]), [CodecCtx] (contexts, keys, salts, settings), [SecureMem] (the
    memory they occupy: SQLCipher's memory methods on a heap with addresses, the C
    library behind the interface [Libc]), [PageCodec]
    ([sqlcipher_page_cipher], [sqlite3Codec]); [PageProofs], [CodecProofs],
    [HookProofs] and the concrete instances in [CodecWitness]; [Integrity]
    ([sqlcipher_codec_ctx_integrity_check]); [Attach], [AttachProofs] and
    [AttachWitness] ([sqlite3CodecAttach], [sqlite3_key_v2], [sqlite3_rekey_v2], with
    pager and B-tree behind the interface [PagerOps] and its [PagerLaws]);
    [PagerIo] (the functions of the pager that pass pages through the codec, to
    the database file and to the rollback journal), [PagerProofs], [Reopen] and
    [Rollback]; [Savepoint] and [SavepointProofs] (write transactions, journal
    headers, the sub-journal and savepoints); [Bitvec] and [BitvecProofs]
    ([bitvec.c], the sets of saved pages); [Pragma], [PragmaProofs], [PragmaTypes] and [PragmaWitness]
    ([sqlcipher_codec_pragma]); [SqlKeys] (keys from [ATTACH], URI file names and
    [PRAGMA key]), [Migrate] ([sqlcipher_codec_ctx_migrate]), [Export]
    ([sqlcipher_export], with SQLite's virtual machine behind the interface [SqlVm]),
    [SqlText] (reads the fragment of SQL its statements are written in and evaluates
    queries on a schema table), [ExportQueries] (what the statements say) and
    [ExportProofs] (the copy, from the laws [SqlLaws] for statements of the fragment).

    From rows to the host's table: [Varint], [Record] and [RecordProofs] (SQLite's
    record format, [copy_result_row], [make_ssd_record]), [Wire], [NdpInsert] and
    [WireProofs] (serialisation, packets, insertion through the interface
    [BtreeOps] with [BtreeLaws]), [Ring] (the queues between threads),
    [Pipeline] and [PipelineProofs] (the storage server's threads as a step
    relation), [HostThreads] (the host's threads, for any ring of the class
    [HostPool]), [EndToEnd] (threads and packets composed), [Server] and
    [ServerProofs] (subquery, CREATE TABLE statement, transfer loops), [Session]
    (the stages of both [main] functions around the threads, with SQLite's [exec]
    behind the interface [Sql]), [Start] (the storage server's [main] up to its
    socket: database, saved tree and passphrase), [Plain] (the baseline servers where they differ).

    C structures are records and C functions definitions with the names of the
    source; a function that exists on both servers has the prefix [storage_] or
    [host_].  Loops that are not structural get a fuel that suffices by
    construction: the 24 levels of a tree, the length of a buffer, the number of
    columns, the bytes of a journal that are left (every record takes some), the
    nine steps that take a bit vector of 2^32 bits apart, the 124 entries of its
    tables.  Threads are inductive step relations whose steps are the accesses
    to shared memory.

    ** What is proved

    - The tree refines a list of leaves: any sequence of calls behaves as on the
      list, the root is the Merkle root of the list, and verification accepts
      exactly the stored leaf and those hashes for which recomputing the path runs
      into a collision of SHA-256 that is not there for the stored leaf; the
      collision is computed ([tree_collision]).  The streaming hash is
      SHA-256.  What survives saving and reloading, and what does not.
    - Pages: what is written is read back, through [sqlite3Codec] too; a page that is
      accepted is authentic; a page that is not is rejected with the right error
      and a cleared buffer.  Old versions of a page are accepted.
    - The file: pager and codec together are a map from page numbers to pages, for
      any sequence of writing and reading; a file written by one context is read back by another that knows the key; a
      transaction that is rolled back from its encrypted journal leaves the pages
      of before, in the file and in the cache.
    - Savepoints: reading, changing, opening, releasing and rolling back behave
      as on a database that is copied for every savepoint, whichever way the
      sub-journal is kept; a page from an unencrypted sub-journal is encrypted
      before it gets into the file.  Bit vectors behave as sets, and lose but
      never gain numbers when memory runs out.
    - Contexts: reserve sizes, initialisation, key derivation and key
      specifications; every PRAGMA keeps a context well typed (sizes of keys, salts,
      reserve and page buffer agree), the migration aside; freeing a context
      overwrites everything that held a key.
    - Databases: what attaching a codec sets up; what changing the key does to the
      pages and to the keys of both directions, failures included; the integrity
      check reports the damaged pages and no others, and passes a file the codec
      wrote; the storage server starts on a saved tree with a codec that uses it;
      the settings a PRAGMA shows can be set again; an export copies schema
      and rows; giving a database without a codec a key through SQL, and with it
      the migration of old databases, fails on the missing tree.
    - Varints, records, wire format and packets round trip; the unrolled varint
      reader equals the documented format.
    - Threads of the storage server: in every interleaving each row is delivered
      once and in order, no run is infinite, none gets stuck before the end
      packet, and no packet overflows.  The rings refine bounded queues.
    - Threads of the host: when the end packet has been taken, every record of
      every packet has been inserted.  They need not get there: the receiving
      thread reads a batch that the inserting one may have freed, and may stop
      too early or never.
    - The whole way, from the host's command line through subquery, schema and
      packets, on the secure and on the baseline servers: the host's table holds
      the records of the query's rows, except that the first row may have lost
      columns in a race on [num_rec_fields], which is shown to occur, and provided
      that [malloc] gave the storage server's two texts larger blocks than it
      requested; otherwise a block is overrun.
    - Defects are theorems too: buffers one byte short, unchecked error values,
      a leaf count lost on reload, a record format that loses zero-blobs.

    ** Assumptions

    Integers are little endian, [int] has 32 bits, [long] 64.  SQLite's assertions
    are compiled out, the tree library's are not.  A failed allocation is a value
    where the code checks it and a fault ([NullDeref]) where it does not; theorems
    that need memory say so ([all_ok]).  Threads run under sequential
    consistency, and the compiler does not cache the shared counters the code
    polls.  OpenSSL's primitives, the pager, the B-tree, SQL execution, the C
    allocator and the rows a query produces are arguments, with the laws their
    documentation states; each class of laws has an instance.  Blocks are as long as the argument [blk] or
    the step says, never shorter than requested; the record a step of the storage
    server's threads serialises is in a block with a byte to spare, because the
    source reads that byte.  Collision resistance is never assumed: where it
    matters, the theorem computes a collision from the tree, the offset and the
    hash that was accepted.

    ** Not modelled

    SQLite's parser, code generator, virtual machine and B-tree (vendored), and of
    the pager everything but the codec's boundary and savepoints: write-ahead log,
    online backup, the cache's replacement of pages and the spilling of changed
    ones, locks (the theorems on savepoints are about transactions that fit in
    the cache and sectors no larger than a page); mutexes, log and trace output of SQLCipher and what
    its profiling hook prints; opening sockets, the TLS handshake, certificates and
    timing output of the [main] functions; the attestation service, policy
    compiler, benchmarks and plots (other languages).

    ** Plan

    Next are the threads under memory models weaker than sequential consistency,
    and at the codec's boundary the write-ahead log and spilling. *)

From stdpp Require Import base tactics list numbers option.
From Stdlib Require Import ZArith Lia ZifyBool.

Local Open Scope Z_scope.

(** ** Faults and outcomes

    A C function either returns, or does something the C standard or an
    [assert] gives no result for.  [outcome] keeps the two apart, so that the
    theorems can say which calls never fault and which inputs make them. *)

Inductive fault :=
  | AssertFail      (** an [assert] evaluated to 0: the process aborts *)
  | NullDeref       (** a NULL pointer was dereferenced *)
  | OutOfBounds     (** an access outside the bounds of an object *)
  | UninitRead      (** indeterminate bytes were read *)
  | UseAfterFree    (** a freed block was accessed *)
  | DoubleFree.     (** a freed block was freed again *)

#[export] Instance fault_eq_dec : EqDecision fault.
Proof. solve_decision. Defined.

Inductive outcome (A : Type) :=
  | Done (a : A)
  | Fault (f : fault).
Arguments Done {A} a.
Arguments Fault {A} f.

(** Allocation results: the list says which of the next [malloc]/[realloc]
    requests succeed ([true]) or fail ([false]); requests past its end succeed.
    Every finite run of the C allocator is described by such a list. *)
Abbreviation world := (list bool).

(** Effectful C code: the allocator's future is threaded, and the run may fault. *)
Definition M (A : Type) : Type := world -> outcome (A * world).

#[export] Instance M_ret : MRet M := fun A a w => Done (a, w).
#[export] Instance M_bind : MBind M := fun A B f m w =>
  match m w with
  | Done (a, w') => f a w'
  | Fault e => Fault e
  end.

Definition throw {A} (e : fault) : M A := fun _ => Fault e.
Definition lift {A} (o : outcome A) : M A := fun w =>
  match o with Done a => Done (a, w) | Fault e => Fault e end.

(** [assert(b)] *)
Definition c_assert (b : bool) : M unit :=
  if b then mret tt else throw AssertFail.

(** Does the next allocation request succeed? *)
Definition request : M bool := fun w =>
  match w with
  | [] => Done (true, [])
  | b :: w' => Done (b, w')
  end.

Lemma bind_done {A B} (f : A -> M B) (m : M A) w a w' :
  m w = Done (a, w') -> (m ≫= f) w = f a w'.
Proof. intros H. unfold mbind, M_bind. by rewrite H. Qed.

Lemma bind_fault {A B} (f : A -> M B) (m : M A) w e :
  m w = Fault e -> (m ≫= f) w = Fault e.
Proof. intros H. unfold mbind, M_bind. by rewrite H. Qed.

Lemma bind_assert {B} (f : unit -> M B) b w :
  b = true -> (c_assert b ≫= f) w = f tt w.
Proof. by intros ->. Qed.

Lemma bind_assert_false {B} (f : unit -> M B) b w :
  b = false -> (c_assert b ≫= f) w = Fault AssertFail.
Proof. by intros ->. Qed.

(** ** Fixed-width integers *)

Definition u8 (x : Z) : Z := x mod 2 ^ 8.
Definition u16 (x : Z) : Z := x mod 2 ^ 16.
Definition u32 (x : Z) : Z := x mod 2 ^ 32.
Definition u64 (x : Z) : Z := x mod 2 ^ 64.

(** Two's-complement reading of the low 32 (64) bits. *)
Definition i32 (x : Z) : Z := (x + 2 ^ 31) mod 2 ^ 32 - 2 ^ 31.
Definition i64 (x : Z) : Z := (x + 2 ^ 63) mod 2 ^ 64 - 2 ^ 63.

Definition is_byte (x : Z) : Prop := 0 <= x < 256.
Abbreviation bytes := (Forall is_byte).

#[export] Instance is_byte_dec x : Decision (is_byte x).
Proof. unfold is_byte; apply _. Defined.

Lemma u32_small x : 0 <= x < 2 ^ 32 -> u32 x = x.
Proof. apply Z.mod_small. Qed.

Lemma u32_range x : 0 <= u32 x < 2 ^ 32.
Proof. apply Z.mod_pos_bound; lia. Qed.

Lemma u8_small x : is_byte x -> u8 x = x.
Proof. intros []. unfold u8. rewrite Z.mod_small; lia. Qed.

Lemma u8_byte x : is_byte (u8 x).
Proof. unfold is_byte, u8. pose proof (Z.mod_pos_bound x (2 ^ 8)). lia. Qed.

Lemma u64_small x : 0 <= x < 2 ^ 64 -> u64 x = x.
Proof. apply Z.mod_small. Qed.

Lemma i32_small x : - 2 ^ 31 <= x < 2 ^ 31 -> i32 x = x.
Proof. intros. unfold i32. rewrite Z.mod_small; lia. Qed.

Lemma i64_small x : - 2 ^ 63 <= x < 2 ^ 63 -> i64 x = x.
Proof. intros. unfold i64. rewrite Z.mod_small; lia. Qed.

(** ** Little- and big-endian byte strings

    The machines IronSafe runs on (x86-64 hosts, 64-bit ARM storage servers)
    are little endian: an integer copied by [memcpy] or written through a cast
    pointer is [le_bytes]. *)

Fixpoint le_bytes (n : nat) (x : Z) : list Z :=
  match n with
  | O => []
  | S n => u8 x :: le_bytes n (x / 256)
  end.

Fixpoint le_val (bs : list Z) : Z :=
  match bs with
  | [] => 0
  | b :: bs => b + 256 * le_val bs
  end.

Definition be_bytes (n : nat) (x : Z) : list Z := rev (le_bytes n x).
Definition be_val (bs : list Z) : Z := le_val (rev bs).

Lemma length_le_bytes n x : length (le_bytes n x) = n.
Proof. revert x; induction n; simpl; auto. Qed.

Lemma le_bytes_bytes n x : bytes (le_bytes n x).
Proof. revert x; induction n; simpl; constructor; auto using u8_byte. Qed.

Lemma le_val_bytes n x : le_val (le_bytes n x) = x mod 256 ^ Z.of_nat n.
Proof.
  revert x; induction n as [|n IH]; intros x; [by rewrite Z.mod_1_r|].
  cbn [le_bytes le_val]. rewrite IH, Nat2Z.inj_succ, Z.pow_succ_r by lia.
  rewrite Z.rem_mul_r by lia. unfold u8. change (2 ^ 8) with 256. lia.
Qed.

Lemma le_val_bytes_small n x :
  0 <= x < 256 ^ Z.of_nat n -> le_val (le_bytes n x) = x.
Proof. intros. rewrite le_val_bytes. by apply Z.mod_small. Qed.

Lemma le_val_range bs : bytes bs -> 0 <= le_val bs < 256 ^ Z.of_nat (length bs).
Proof.
  induction 1 as [|b bs Hb _ IH]; [cbn; lia|].
  cbn [le_val length]. rewrite Nat2Z.inj_succ, Z.pow_succ_r by lia.
  unfold is_byte in Hb. lia.
Qed.

Lemma le_bytes_val bs : bytes bs -> le_bytes (length bs) (le_val bs) = bs.
Proof.
  induction 1 as [|b bs Hb _ IH]; [done|]. cbn [le_val length le_bytes].
  unfold is_byte in Hb. f_equal.
  - unfold u8. change (2 ^ 8) with 256.
    rewrite Z.mul_comm, Z.mod_add by lia. apply Z.mod_small; lia.
  - rewrite Z.mul_comm, Z.div_add, Z.div_small, Z.add_0_l by lia. done.
Qed.

Lemma length_be_bytes n x : length (be_bytes n x) = n.
Proof. unfold be_bytes. by rewrite length_rev, length_le_bytes. Qed.

Lemma be_bytes_bytes n x : bytes (be_bytes n x).
Proof. apply Forall_rev, le_bytes_bytes. Qed.

(** ** Addressable memory

    A malloc'ed block is its cells; a cell never written is [None].  Reading
    indeterminate bytes or leaving the block is a fault. *)

Abbreviation mem := (list (option Z)).

Definition mem_read (off n : Z) (m : mem) : outcome (list Z) :=
  if (off <? 0) || (n <? 0) || (Z.of_nat (length m) <? off + n)
  then Fault OutOfBounds
  else match mapM id (take (Z.to_nat n) (drop (Z.to_nat off) m)) with
       | Some bs => Done bs
       | None => Fault UninitRead
       end.

Definition mem_write (off : Z) (bs : list Z) (m : mem) : outcome mem :=
  if (off <? 0) || (Z.of_nat (length m) <? off + Z.of_nat (length bs))
  then Fault OutOfBounds
  else Done (take (Z.to_nat off) m ++ (Some <$> bs)
             ++ drop (Z.to_nat off + length bs) m).

(** A pointer returned by the allocator. *)
Inductive cptr :=
  | Null
  | Dangling
  | Live (m : mem).

(** [malloc(n)]: an uninitialised block, or NULL. *)
Definition malloc (n : Z) : M cptr :=
  ok ← request;
  mret (if (ok : bool) then Live (replicate (Z.to_nat n) None) else Null).

(** [realloc(p, n)]: [Null] when it fails, and then [p] is still valid. *)
Definition realloc (p : cptr) (n : Z) : M cptr :=
  match p with
  | Null => malloc n
  | Dangling => throw UseAfterFree
  | Live m =>
      ok ← request;
      mret (if (ok : bool)
            then Live (take (Z.to_nat n) m
                       ++ replicate (Z.to_nat n - length m) None)
            else Null)
  end.

(** [free(p)] *)
Definition free (p : cptr) : M unit :=
  match p with
  | Null | Live _ => mret tt
  | Dangling => throw DoubleFree
  end.

(** [memcpy] into, and reads through, a pointer; a zero-length access touches
    nothing. *)
Definition store_bytes (p : cptr) (off : Z) (bs : list Z) : M cptr :=
  if bool_decide (bs = []) then mret p else
  match p with
  | Null => throw NullDeref
  | Dangling => throw UseAfterFree
  | Live m => m' ← lift (mem_write off bs m); mret (Live m')
  end.

Definition load_bytes (p : cptr) (off n : Z) : M (list Z) :=
  if n =? 0 then mret [] else
  match p with
  | Null => throw NullDeref
  | Dangling => throw UseAfterFree
  | Live m => lift (mem_read off n m)
  end.

Lemma mapM_id_Some (bs : list Z) : mapM id (Some <$> bs) = Some bs.
Proof. by induction bs as [|b bs IH]; [|cbn in *; rewrite IH]. Qed.

(** Reading back a run of initialised cells. *)
Lemma mem_read_at (pre : mem) bs post off n :
  off = Z.of_nat (length pre) -> n = Z.of_nat (length bs) ->
  mem_read off n (pre ++ (Some <$> bs) ++ post) = Done bs.
Proof.
  intros -> ->. unfold mem_read. rewrite !Nat2Z.id, drop_app_length.
  rewrite take_app_length' by (by rewrite length_fmap).
  rewrite mapM_id_Some, !length_app, length_fmap.
  replace (_ || _ || _) with false; [done|lia].
Qed.

Lemma mem_write_at (pre : mem) old bs post off :
  off = Z.of_nat (length pre) -> length old = length bs ->
  mem_write off bs (pre ++ old ++ post) = Done (pre ++ (Some <$> bs) ++ post).
Proof.
  intros -> Hl. unfold mem_write. rewrite !length_app.
  case_match; [lia|]. rewrite Nat2Z.id, take_app_length. do 3 f_equal.
  rewrite app_assoc. by rewrite drop_app_length' by (rewrite length_app; lia).
Qed.

(** ** Powers of two and bit smearing *)

Definition is_pow2 (c : Z) : Prop := exists k, 0 <= k /\ c = 2 ^ k.

(** Bits [s-k+1 .. s] of [x] are set and none above [s] is. *)
Definition smeared (k s x : Z) : Prop :=
  forall i, 0 <= i ->
    (s < i -> Z.testbit x i = false) /\ (s - k < i <= s -> Z.testbit x i = true).

Lemma smear_step k s x :
  0 <= k -> smeared k s x -> smeared (2 * k) s (Z.lor x (Z.shiftr x k)).
Proof.
  intros Hk Hx i Hi. rewrite Z.lor_spec, Z.shiftr_spec by lia. split; intros Hr.
  - rewrite (proj1 (Hx i Hi)) by lia. apply Hx; lia.
  - destruct (decide (s - k < i)).
    + rewrite (proj2 (Hx i Hi)) by lia. done.
    + rewrite (proj2 (Hx (i + k) ltac:(lia))) by lia. apply orb_true_r.
Qed.

Lemma smeared_ones k s x :
  0 <= s < k -> smeared k s x -> x = Z.ones (s + 1).
Proof.
  intros Hs Hx. apply Z.bits_inj'. intros i Hi.
  rewrite Z.testbit_ones_nonneg by lia. destruct (Hx i Hi) as [H0 H1].
  destruct (i <? s + 1) eqn:E; [apply H1|apply H0]; lia.
Qed.

Lemma smeared_log2 x : 0 < x -> smeared 1 (Z.log2 x) x.
Proof.
  intros Hx i Hi. split; intros H; [by apply Z.bits_above_log2; lia|].
  replace i with (Z.log2 x) by lia. by apply Z.bit_log2.
Qed.

(** [land v (v - 1) = 0] says that [v] has one bit. *)
Lemma land_pred_pow2 v : 0 < v -> Z.land v (v - 1) = 0 <-> is_pow2 v.
Proof.
  intros Hv. pose proof (Z.log2_spec v Hv) as [Hl Hu].
  rewrite Z.pow_succ_r in Hu by apply Z.log2_nonneg. split.
  - intros Hz. exists (Z.log2 v). split; [apply Z.log2_nonneg|].
    destruct (decide (v = 2 ^ Z.log2 v)) as [|Hne]; [done|].
    assert (Z.testbit (Z.land v (v - 1)) (Z.log2 v) = true) as Ht.
    { rewrite Z.land_spec, Z.bit_log2 by done. rewrite andb_true_l.
      replace (Z.log2 v) with (Z.log2 (v - 1)); [apply Z.bit_log2; lia|].
      apply Z.log2_unique; [apply Z.log2_nonneg|].
      rewrite Z.pow_succ_r by apply Z.log2_nonneg. lia. }
    by rewrite Hz, Z.bits_0 in Ht.
  - intros (k & Hk & ->). rewrite Z.sub_1_r, <- Z.ones_equiv, Z.land_ones by done.
    apply Z.mod_same. lia.
Qed.

Lemma pow2_double c : is_pow2 c -> is_pow2 (2 * c).
Proof. intros (k & ? & ->). exists (k + 1). rewrite Z.pow_add_r; lia. Qed.

(** Below a power of two a larger power of two is at least its double. *)
Lemma pow2_gap a b : is_pow2 a -> is_pow2 b -> a < b -> 2 * a <= b.
Proof.
  intros (j & ? & ->) (k & ? & ->) Hlt.
  assert (j < k) by (eapply Z.pow_lt_mono_r_iff; [| |exact Hlt]; lia).
  rewrite <- Z.pow_succ_r by lia. apply Z.pow_le_mono_r; lia.
Qed.

(** ** Lists of equally long chunks *)

Section chunks.
  Context {A : Type} (n : nat).
  Implicit Types (l : list (list A)).

Abbreviation uniform := (Forall (fun x : list A => length x = n)).

Lemma length_concat_uniform l :
    uniform l -> length (concat l) = (n * length l)%nat.
  Proof. induction 1; simpl; [|rewrite length_app]; lia. Qed.

Lemma concat_split l i x :
    l !! i = Some x ->
    concat l = concat (take i l) ++ x ++ concat (drop (S i) l).
  Proof.
    intros H. rewrite <- (take_drop_middle l i x H) at 1. by rewrite concat_app.
  Qed.

Lemma concat_insert l i x :
    (i < length l)%nat ->
    concat (<[i:=x]> l) = concat (take i l) ++ x ++ concat (drop (S i) l).
  Proof. intros H. rewrite insert_take_drop by done. by rewrite concat_app. Qed.

Lemma length_concat_take l i :
    uniform l -> (i <= length l)%nat -> length (concat (take i l)) = (n * i)%nat.
  Proof.
    intros Hu Hi. rewrite length_concat_uniform by by apply Forall_take.
    rewrite length_take. f_equal. lia.
  Qed.
End chunks.

(** ** Running the monad

    [mrun] evaluates the binds of a goal as far as the outcome of the next
    statement is known. *)

Lemma bind_ret {A B} (f : A -> M B) a w : ((mret a : M A) ≫= f) w = f a w.
Proof. done. Qed.

Lemma bind_throw {A B} (f : A -> M B) e w : ((throw e : M A) ≫= f) w = Fault e.
Proof. done. Qed.

Lemma bind_assoc {A B C} (m : M A) (f : A -> M B) (g : B -> M C) w :
  ((m ≫= f) ≫= g) w = (m ≫= (fun a => f a ≫= g)) w.
Proof. unfold mbind, M_bind. destruct (m w) as [[a w']|e]; done. Qed.

(** Two computations that start with equal ones, or go on equally. *)
Lemma bind_ext_l {A B} (m m' : M A) (f : A -> M B) w : m w = m' w -> (m ≫= f) w = (m' ≫= f) w.
Proof. unfold mbind, M_bind. by intros ->. Qed.

Lemma bind_ext_r {A B} (m : M A) (f f' : A -> M B) w : (forall a w', f a w' = f' a w') -> (m ≫= f) w = (m ≫= f') w.
Proof. unfold mbind, M_bind. intros H. destruct (m w) as [[a w']|]; [apply H|done]. Qed.

Create Rewrite HintDb crun.
#[export] Hint Rewrite @bind_ret @bind_throw : crun.

Ltac mrun := repeat first
  [ progress (autorewrite with crun)
  | progress cbn beta iota ].

(** [mstep H]: the next statement runs as the equation [H] says. *)
Ltac mstep H := rewrite (bind_done _ _ _ _ _ H); mrun.

(** Every request of the world succeeds. *)
Abbreviation all_ok := (Forall (fun b : bool => b = true)).

Lemma request_cases w :
  exists b w', request w = Done (b, w') /\ (all_ok w -> b = true /\ all_ok w').
Proof.
  destruct w as [|b w]; [exists true, []; auto|exists b, w].
  split; [done|]. by intros [? ?]%Forall_cons_1.
Qed.

(** *** Total correctness with enough memory

    [runs m Q]: when every request succeeds, [m] returns a value that has [Q];
    it does not fault. *)
Definition runs {A} (m : M A) (Q : A -> Prop) : Prop :=
  forall w, all_ok w -> exists a w', m w = Done (a, w') /\ all_ok w' /\ Q a.

Lemma runs_ret {A} (a : A) (Q : A -> Prop) : Q a -> runs (mret a) Q.
Proof. intros HQ w Hw. by exists a, w. Qed.

Lemma runs_bind {A B} (m : M A) (f : A -> M B) (P : A -> Prop) (Q : B -> Prop) :
  runs m P -> (forall a, P a -> runs (f a) Q) -> runs (m ≫= f) Q.
Proof.
  intros Hm Hf w Hw. destruct (Hm w Hw) as (a & w1 & E & Hw1 & Ha).
  destruct (Hf a Ha w1 Hw1) as (b & w2 & E2 & Hw2 & Hb). exists b, w2. by rewrite (bind_done _ _ _ _ _ E).
Qed.

Lemma runs_mono {A} (m : M A) (P Q : A -> Prop) : runs m P -> (forall a, P a -> Q a) -> runs m Q.
Proof. intros Hm HPQ w Hw. destruct (Hm w Hw) as (a & w' & ? & ? & ?). exists a, w'. eauto. Qed.

Lemma runs_request : runs request (fun b => b = true).
Proof.
  intros w Hw. destruct (request_cases w) as (b & w' & Hr & Hok). destruct (Hok Hw) as [-> Hw']. by exists true, w'.
Qed.

(** *** Correctness with any memory

    [tries m Q R]: whichever requests fail, [m] returns a value that has [Q], and
    one that has [R], too, when none does. *)
Definition tries {A} (m : M A) (Q R : A -> Prop) : Prop :=
  forall w, exists a w', m w = Done (a, w') /\ Q a /\ (all_ok w -> all_ok w' /\ R a).

Lemma tries_ret {A} (a : A) (Q R : A -> Prop) : Q a -> R a -> tries (mret a) Q R.
Proof. intros HQ HR w. by exists a, w. Qed.

Lemma tries_bind {A B} (m : M A) (f : A -> M B) (P P' : A -> Prop) (Q R : B -> Prop) :
  tries m P P' -> (forall a, P a -> tries (f a) Q (fun b => P' a -> R b)) -> tries (m ≫= f) Q R.
Proof.
  intros Hm Hf w. destruct (Hm w) as (a & w1 & E & Ha & Hok). destruct (Hf a Ha w1) as (b & w2 & E2 & Hb & Hok2).
  exists b, w2. rewrite (bind_done _ _ _ _ _ E). split; [done|]. split; [done|].
  intros Hw. destruct (Hok Hw) as [Hw1 Ha']. destruct (Hok2 Hw1). auto.
Qed.

Lemma tries_mono {A} (m : M A) (P P' Q R : A -> Prop) :
  tries m P P' -> (forall a, P a -> Q a) -> (forall a, P a -> P' a -> R a) -> tries m Q R.
Proof.
  intros Hm HQ HR w. destruct (Hm w) as (a & w' & ? & ? & Hok). exists a, w'. split; [done|]. split; [auto|].
  intros Hw. destruct (Hok Hw). auto.
Qed.

Lemma tries_request : tries request (fun _ => True) (fun b => b = true).
Proof.
  intros w. destruct (request_cases w) as (b & w' & E & Hok). exists b, w'. split; [done|]. split; [done|].
  intros Hw. by destruct (Hok Hw).
Qed.

Lemma malloc_cases n w :
  exists p w', malloc n w = Done (p, w') /\
    (p = Null \/ p = Live (replicate (Z.to_nat n) None)) /\
    (all_ok w -> p <> Null /\ all_ok w').
Proof.
  destruct (request_cases w) as (b & w' & Hr & Hok). unfold malloc.
  rewrite (bind_done _ _ _ _ _ Hr). unfold mret, M_ret.
  eexists _, w'. split; [done|]. split; [destruct b; auto|].
  intros H. destruct (Hok H) as [-> ?]. done.
Qed.

Lemma realloc_cases m n w :
  exists p w', realloc (Live m) n w = Done (p, w') /\
    (p = Null \/
     p = Live (take (Z.to_nat n) m ++ replicate (Z.to_nat n - length m) None)) /\
    (all_ok w -> p <> Null /\ all_ok w').
Proof.
  destruct (request_cases w) as (b & w' & Hr & Hok). unfold realloc.
  rewrite (bind_done _ _ _ _ _ Hr). unfold mret, M_ret.
  eexists _, w'. split; [done|]. split; [destruct b; auto|].
  intros H. destruct (Hok H) as [-> ?]. done.
Qed.

Lemma store_live m m' off bs w :
  bs <> [] -> mem_write off bs m = Done m' ->
  store_bytes (Live m) off bs w = Done (Live m', w).
Proof.
  intros Hb H. unfold store_bytes. rewrite bool_decide_eq_false_2 by done.
  unfold lift, mbind, M_bind. by rewrite H.
Qed.

Lemma load_live m off n bs w :
  n <> 0 -> mem_read off n m = Done bs ->
  load_bytes (Live m) off n w = Done (bs, w).
Proof.
  intros Hb H. unfold load_bytes. replace (n =? 0) with false by lia.
  unfold lift. by rewrite H.
Qed.

(** Filling a fresh block from the front. *)
Lemma store_fill pre bs k off w :
  off = Z.of_nat (length pre) ->
  store_bytes (Live ((Some <$> pre) ++ replicate (length bs + k) None)) off bs w
  = Done (Live ((Some <$> pre ++ bs) ++ replicate k None), w).
Proof.
  intros ->. destruct (decide (bs = [])) as [->|Hne].
  { by rewrite app_nil_r. }
  apply store_live; [done|].
  rewrite replicate_add, fmap_app, <- app_assoc.
  apply mem_write_at; [by rewrite length_fmap|by rewrite length_replicate].
Qed.

(** Reading a run of an initialised block. *)
Lemma load_run pre bs post off n w :
  off = Z.of_nat (length pre) -> n = Z.of_nat (length bs) ->
  load_bytes (Live (Some <$> pre ++ bs ++ post)) off n w = Done (bs, w).
Proof.
  intros -> ->. destruct (decide (bs = [])) as [->|Hne]; [done|].
  apply load_live; [by destruct bs|]. rewrite !fmap_app.
  apply mem_read_at; [by rewrite length_fmap|done].
Qed.

(** ** Disjoint bit fields *)

Lemma land_low_high a b k : 0 <= k -> 0 <= a < 2 ^ k -> Z.land a (b * 2 ^ k) = 0.
Proof.
  intros Hk Ha. apply Z.bits_inj'. intros i Hi.
  rewrite Z.land_spec, Z.bits_0. destruct (decide (i < k)).
  - by rewrite Z.mul_pow2_bits_low, andb_false_r by lia.
  - destruct (decide (a = 0)) as [->|]; [by rewrite Z.bits_0|].
    rewrite (Z.bits_above_log2 a), andb_false_l; [done|lia|].
    apply Z.log2_lt_pow2; [lia|].
    apply Z.lt_le_trans with (2 ^ k); [lia|]. apply Z.pow_le_mono_r; lia.
Qed.

Lemma lor_low_high a b k :
  0 <= k -> 0 <= a < 2 ^ k -> Z.lor a (b * 2 ^ k) = a + b * 2 ^ k.
Proof.
  intros Hk Ha. rewrite Z.add_nocarry_lxor, Z.lxor_lor by by apply land_low_high.
  done.
Qed.

Lemma lor_high_low a b k :
  0 <= k -> 0 <= a < 2 ^ k -> Z.lor (b * 2 ^ k) a = b * 2 ^ k + a.
Proof. intros. rewrite Z.lor_comm, lor_low_high by done. lia. Qed.

Definition is_word (x : Z) : Prop := 0 <= x < 2 ^ 32.
Abbreviation is_words := (Forall is_word).

Lemma u32_word x : is_word (u32 x).
Proof. apply u32_range. Qed.

Lemma nth_Forall {A} (P : A -> Prop) l i d : P d -> Forall P l -> P (nth i l d).
Proof.
  intros Hd Hl. destruct (decide (i < length l)%nat).
  - rewrite Forall_forall in Hl. by apply Hl, nth_In.
  - by rewrite nth_overflow by lia.
Qed.

Lemma testbit_high x n i : 0 <= x < 2 ^ n -> n <= i -> Z.testbit x i = false.
Proof.
  intros Hx Hi. destruct (decide (x = 0)) as [->|]; [apply Z.bits_0|].
  apply Z.bits_above_log2; [lia|].
  enough (Z.log2 x < n) by lia. apply Z.log2_lt_pow2; lia.
Qed.

(** Values are below [2^n] when their bits from [n] on are clear. *)
Lemma bits_bound x n :
  0 <= x -> 0 <= n -> (forall i, n <= i -> Z.testbit x i = false) -> x < 2 ^ n.
Proof.
  intros Hx Hn Hb. destruct (decide (x = 0)) as [->|]; [lia|].
  apply Z.log2_lt_pow2; [lia|]. destruct (decide (Z.log2 x < n)) as [|Hge]; [done|].
  specialize (Hb (Z.log2 x) ltac:(lia)). rewrite Z.bit_log2 in Hb by lia. done.
Qed.

Lemma lxor_word x y : is_word x -> is_word y -> is_word (Z.lxor x y).
Proof.
  unfold is_word. intros Hx Hy. assert (0 <= Z.lxor x y) by (apply Z.lxor_nonneg; lia).
  split; [done|]. apply bits_bound; [done|lia|]. intros i Hi.
  by rewrite Z.lxor_spec, !(testbit_high _ 32) by lia.
Qed.

Lemma land_word x y : is_word x -> is_word y -> is_word (Z.land x y).
Proof.
  unfold is_word. intros Hx Hy. assert (0 <= Z.land x y) by (apply Z.land_nonneg; lia).
  split; [done|]. apply bits_bound; [done|lia|]. intros i Hi.
  by rewrite Z.land_spec, !(testbit_high _ 32) by lia.
Qed.

Lemma nth_word l i : is_words l -> is_word (nth i l 0).
Proof. apply nth_Forall. unfold is_word. lia. Qed.

Create HintDb words.
#[export] Hint Resolve u32_word lxor_word land_word nth_word : words.
