(* ===== verification/MtArrList.v ===== *)
(** * The resizable array list of the Merkle tree library

    Model of [merkle-tree/src/mt_arr_list.c], with the constants of
    [mt_config.h] and the error codes of [mt_err.h].  A level of the tree is an
    [mt_al_t]: a count and a malloc'ed block of 32-byte hashes whose capacity is
    the next power of two.  [al_rep al hs] says that [al] holds the hashes [hs];
    under it no operation leaves the block, and each operation is the list
    operation it stands for. *)

From stdpp Require Import base tactics list numbers option.
From Stdlib Require Import ZArith Lia ZifyBool.
From S2P Require Import Prelude.

Local Open Scope Z_scope.

(** ** Constants and types *)

Definition HASH_LENGTH : Z := 32.
Definition TREE_LEVELS : Z := 24.
Definition MT_AL_MAX_ELEMS : Z := 4194304.

Inductive mt_error_t :=
  | MT_SUCCESS
  | MT_ERR_OUT_Of_MEMORY
  | MT_ERR_ILLEGAL_PARAM
  | MT_ERR_ILLEGAL_STATE
  | MT_ERR_ROOT_MISMATCH
  | MT_ERR_UNSPECIFIED.

#[export] Instance mt_error_eq_dec : EqDecision mt_error_t.
Proof. solve_decision. Defined.

Definition mt_error_code (e : mt_error_t) : Z :=
  match e with
  | MT_SUCCESS => 0
  | MT_ERR_OUT_Of_MEMORY => -1
  | MT_ERR_ILLEGAL_PARAM => -2
  | MT_ERR_ILLEGAL_STATE => -3
  | MT_ERR_ROOT_MISMATCH => -4
  | MT_ERR_UNSPECIFIED => -5
  end.

Record mt_al_t := Mk_al { al_elems : Z; al_store : cptr }.

Ltac consts := unfold HASH_LENGTH, TREE_LEVELS, MT_AL_MAX_ELEMS in *.

(** Linear arithmetic over the constants of [mt_config.h]. *)
Ltac clia := consts; lia.

(** ** Bit tricks *)

Definition round_next_power_two (v : Z) : Z :=
  let v := u32 (v - 1) in
  let v := Z.lor v (Z.shiftr v 1) in
  let v := Z.lor v (Z.shiftr v 2) in
  let v := Z.lor v (Z.shiftr v 4) in
  let v := Z.lor v (Z.shiftr v 8) in
  let v := Z.lor v (Z.shiftr v 16) in
  let v := u32 (v + 1) in
  u32 (v + (if v =? 0 then 1 else 0)).

Definition is_power_of_two (v : Z) : bool :=
  negb (v =? 0) && (Z.land v (u32 (v - 1)) =? 0).

(** ** Operations

    Pointer arguments the code tests are options.  Every operation evaluates
    [assert(mt_al->elems < MT_AL_MAX_ELEMS)] first, which dereferences [mt_al]:
    the later NULL test of [mt_al] comes too late to matter. *)

Definition deref_al (mt_al : option mt_al_t) : M mt_al_t :=
  match mt_al with None => throw NullDeref | Some al => mret al end.

Definition check_elems (al : mt_al_t) : M unit :=
  c_assert (al_elems al <? MT_AL_MAX_ELEMS).

(** [calloc(1, sizeof(mt_al_t))]: zero elements and a NULL store, or NULL. *)
Definition mt_al_create : M (option mt_al_t) :=
  ok ← request;
  mret (if (ok : bool) then Some (Mk_al 0 Null) else None).

Definition mt_al_delete (mt_al : option mt_al_t) : M unit :=
  al ← deref_al mt_al;
  free (al_store al).

(** [memcpy(&mt_al->store[i * HASH_LENGTH], hash, HASH_LENGTH)] *)
Definition put_hash (al : mt_al_t) (i : Z) (hash : list Z) : M mt_al_t :=
  s ← store_bytes (al_store al) (u32 (i * HASH_LENGTH)) hash;
  mret (Mk_al (al_elems al) s).

Definition mt_al_add (mt_al : option mt_al_t) (hash : option (list Z))
  : M (mt_error_t * mt_al_t) :=
  al ← deref_al mt_al;
  _ ← check_elems al;
  match hash with
  | None => mret (MT_ERR_ILLEGAL_PARAM, al)
  | Some hash =>
      let append al :=
        al ← put_hash al (al_elems al) hash;
        mret (MT_SUCCESS, Mk_al (u32 (al_elems al + 1)) (al_store al)) in
      if al_elems al =? 0 then
        p ← malloc HASH_LENGTH;
        match p with
        | Null => mret (MT_ERR_OUT_Of_MEMORY, Mk_al (al_elems al) Null)
        | _ => append (Mk_al (al_elems al) p)
        end
      else if is_power_of_two (al_elems al) then
        if (u32 (Z.shiftl (al_elems al) 1) <? al_elems al)
           || (MT_AL_MAX_ELEMS <? u32 (Z.shiftl (al_elems al) 1))
        then mret (MT_ERR_ILLEGAL_STATE, al)
        else
          tmp ← realloc (al_store al) (u32 (al_elems al * 2 * HASH_LENGTH));
          match tmp with
          | Null => mret (MT_ERR_OUT_Of_MEMORY, al)
          | _ => append (Mk_al (al_elems al) tmp)
          end
      else append al
  end.

Definition mt_al_update (mt_al : option mt_al_t) (hash : option (list Z))
    (offset : Z) : M (mt_error_t * mt_al_t) :=
  al ← deref_al mt_al;
  _ ← check_elems al;
  match hash with
  | Some hash =>
      if offset <? al_elems al
      then al ← put_hash al offset hash; mret (MT_SUCCESS, al)
      else mret (MT_ERR_ILLEGAL_PARAM, al)
  | None => mret (MT_ERR_ILLEGAL_PARAM, al)
  end.

Definition mt_al_update_if_exists (mt_al : option mt_al_t)
    (hash : option (list Z)) (offset : Z) : M (mt_error_t * mt_al_t) :=
  al ← deref_al mt_al;
  _ ← check_elems al;
  match hash with
  | Some hash =>
      if al_elems al <=? offset then mret (MT_SUCCESS, al)
      else al ← put_hash al offset hash; mret (MT_SUCCESS, al)
  | None => mret (MT_ERR_ILLEGAL_PARAM, al)
  end.

Definition mt_al_add_or_update (mt_al : option mt_al_t)
    (hash : option (list Z)) (offset : Z) : M (mt_error_t * mt_al_t) :=
  al ← deref_al mt_al;
  _ ← check_elems al;
  match hash with
  | None => mret (MT_ERR_ILLEGAL_PARAM, al)
  | Some _ =>
      if al_elems al <? offset then mret (MT_ERR_ILLEGAL_PARAM, al)
      else if offset =? al_elems al then mt_al_add mt_al hash
      else mt_al_update mt_al hash offset
  end.

(** The count is set before the reallocation, and the block freed for
    [elems == 0] is still pointed to by [store]. *)
Definition mt_al_truncate (mt_al : option mt_al_t) (elems : Z)
  : M (mt_error_t * mt_al_t) :=
  al ← deref_al mt_al;
  _ ← check_elems al;
  if negb (elems <? al_elems al) then mret (MT_ERR_ILLEGAL_PARAM, al)
  else if elems =? 0 then
    _ ← free (al_store al);
    mret (MT_SUCCESS, Mk_al elems Dangling)
  else
    tmp ← realloc (al_store al) (u32 (round_next_power_two elems * HASH_LENGTH));
    match tmp with
    | Null => mret (MT_ERR_OUT_Of_MEMORY, Mk_al elems (al_store al))
    | _ => mret (MT_SUCCESS, Mk_al elems tmp)
    end.

(** The pointer returned points into the store; every caller reads the 32
    bytes behind it before anything is written, so the model returns them. *)
Definition mt_al_get (mt_al : option mt_al_t) (offset : Z)
  : M (option (list Z)) :=
  al ← deref_al mt_al;
  _ ← check_elems al;
  if offset <? al_elems al
  then h ← load_bytes (al_store al) (u32 (offset * HASH_LENGTH)) HASH_LENGTH;
       mret (Some h)
  else mret None.

Definition mt_al_has_right_neighbor (mt_al : option mt_al_t) (offset : Z) : bool :=
  match mt_al with
  | None => false
  | Some al => u32 (offset + 1) <? al_elems al
  end.

Definition mt_al_get_size (mt_al : option mt_al_t) : Z :=
  match mt_al with None => 0 | Some al => al_elems al end.

(** ** Debug output

    Text is the list of its character codes. *)

Definition hex_digit (d : Z) : Z := if d <? 10 then 48 + d else 55 + d.

(** [%02X] of a byte *)
Definition fmt_02X (b : Z) : list Z := [hex_digit (b / 16); hex_digit (b mod 16)].

(** [%08X] of a 32-bit value: its big-endian bytes *)
Definition fmt_08X (x : Z) : list Z := concat (fmt_02X <$> be_bytes 4 x).

Definition newline : list Z := [10].

(** What is written on stdout; the NULL case writes to stderr only. *)
Definition mt_al_print_hex_buffer (buffer : option (list Z)) : list Z :=
  match buffer with
  | None => []
  | Some buffer => concat (fmt_02X <$> buffer)
  end.

(** [snprintf(str + i*2, 3, "%02X", buffer[i])] for each byte: two digits and
    a terminating NUL, overwritten by the next digit pair. *)
Fixpoint sprint_hex_loop (p : cptr) (i : Z) (buffer : list Z) : M cptr :=
  match buffer with
  | [] => mret p
  | b :: buffer =>
      p ← store_bytes p (i * 2) (fmt_02X b ++ [0]);
      sprint_hex_loop p (i + 1) buffer
  end.

Definition mt_al_sprint_hex_buffer (buffer : option (list Z)) : M cptr :=
  match buffer with
  | None => mret Null
  | Some buffer =>
      p ← malloc (Z.of_nat (length buffer) * 2 + 1);
      sprint_hex_loop p 0 buffer
  end.

Fixpoint al_print_rows (al : mt_al_t) (i : Z) (n : nat) : M (list Z) :=
  match n with
  | O => mret []
  | S n =>
      h ← load_bytes (al_store al) (u32 (i * HASH_LENGTH)) HASH_LENGTH;
      rest ← al_print_rows al (i + 1) n;
      mret (mt_al_print_hex_buffer (Some h) ++ newline ++ rest)
  end.

Definition mt_al_print (mt_al : option mt_al_t) : M (list Z) :=
  al ← deref_al mt_al;
  _ ← check_elems al;
  rows ← al_print_rows al 0 (Z.to_nat (al_elems al));
  mret ([91] ++ fmt_08X (al_elems al) ++ newline ++ rows ++ [93] ++ newline).

(** ** The bit tricks compute what their names say *)

Lemma round_next_power_two_smear x :
  0 < x < 2 ^ 31 ->
  let v := Z.lor x (Z.shiftr x 1) in
  let v := Z.lor v (Z.shiftr v 2) in
  let v := Z.lor v (Z.shiftr v 4) in
  let v := Z.lor v (Z.shiftr v 8) in
  Z.lor v (Z.shiftr v 16) = 2 ^ (Z.log2 x + 1) - 1.
Proof.
  intros Hx. cbv zeta.
  assert (Z.log2 x < 31) by (apply Z.log2_lt_pow2; lia).
  pose proof (Z.log2_nonneg x).
  rewrite Z.sub_1_r, <- Z.ones_equiv. apply (smeared_ones 32); [lia|].
  apply (smear_step 16); [lia|]. apply (smear_step 8); [lia|].
  apply (smear_step 4); [lia|]. apply (smear_step 2); [lia|].
  apply (smear_step 1); [lia|]. apply smeared_log2. lia.
Qed.

(** For the counts that occur it is the least power of two not below [n]. *)
Lemma round_next_power_two_spec n :
  1 <= n <= 2 ^ 31 ->
  is_pow2 (round_next_power_two n) /\ n <= round_next_power_two n < 2 * n.
Proof.
  intros Hn. unfold round_next_power_two. rewrite (u32_small (n - 1)) by lia.
  destruct (decide (n = 1)) as [->|Hne].
  { split; [by exists 0|]. split; by vm_compute. }
  rewrite round_next_power_two_smear by lia. cbv zeta.
  pose proof (Z.log2_spec (n - 1) ltac:(lia)) as [Hl Hu].
  pose proof (Z.log2_nonneg (n - 1)).
  assert (2 ^ (Z.log2 (n - 1) + 1) <= 2 ^ 31).
  { apply Z.pow_le_mono_r; [lia|]. pose proof (Z.log2_lt_pow2 (n - 1) 31). lia. }
  rewrite Z.pow_succ_r in Hu by done. rewrite Z.pow_add_r in * by lia.
  change (2 ^ 1) with 2 in *.
  rewrite (u32_small (_ - 1 + 1)) by lia.
  rewrite (u32_small (_ + _)) by (case_match; lia).
  replace (_ =? 0) with false by lia. split; [|lia].
  exists (Z.log2 (n - 1) + 1). rewrite Z.pow_add_r by lia. lia.
Qed.

Lemma is_power_of_two_spec n :
  0 <= n < 2 ^ 32 -> is_power_of_two n = true <-> is_pow2 n.
Proof.
  intros Hn. unfold is_power_of_two. destruct (decide (n = 0)) as [->|Hne].
  { split; [done|]. intros (k & ? & ?). lia. }
  rewrite (u32_small (n - 1)), <- land_pred_pow2 by lia. lia.
Qed.

(** ** What an array list holds *)

Definition is_hash (h : list Z) : Prop := length h = 32%nat /\ bytes h.

#[export] Instance is_hash_dec h : Decision (is_hash h).
Proof. unfold is_hash; apply _. Defined.

(** The block holds the hashes, and its capacity, in hashes, is the least power
    of two not below their number; the cells after them are arbitrary. *)
Definition store_rep (p : cptr) (hs : list (list Z)) : Prop :=
  exists junk c,
    p = Live ((Some <$> concat hs) ++ junk) /\
    is_pow2 c /\ Z.of_nat (length hs) <= c < 2 * Z.of_nat (length hs) /\
    Z.of_nat (length (concat hs) + length junk) = HASH_LENGTH * c.

Definition al_rep (al : mt_al_t) (hs : list (list Z)) : Prop :=
  al_elems al = Z.of_nat (length hs) /\ Forall is_hash hs /\
  (hs <> [] -> store_rep (al_store al) hs).

(** ... and the block it points to has not been freed. *)
Definition al_live (al : mt_al_t) : Prop := al_store al <> Dangling.

Lemma is_hash_nonempty h : is_hash h -> h <> [].
Proof. by intros [H _] ->. Qed.

Lemma hashes_uniform hs :
  Forall is_hash hs -> Forall (fun h => length h = 32%nat) hs.
Proof. apply Forall_impl. by intros ? []. Qed.

Lemma length_concat_hashes hs :
  Forall is_hash hs -> Z.of_nat (length (concat hs)) = HASH_LENGTH * Z.of_nat (length hs).
Proof.
  intros H%hashes_uniform. rewrite (length_concat_uniform 32) by done.
  unfold HASH_LENGTH. lia.
Qed.

Lemma length_concat_take_hashes hs i :
  Forall is_hash hs -> (i <= length hs)%nat ->
  length (concat (take i hs)) = (32 * i)%nat.
Proof. intros H%hashes_uniform. by apply length_concat_take. Qed.

Create HintDb hashes.
#[export] Hint Resolve is_hash_nonempty hashes_uniform : hashes.

Lemma al_rep_elems al hs : al_rep al hs -> al_elems al = Z.of_nat (length hs).
Proof. by intros [? _]. Qed.

Lemma al_rep_hash al hs i h : al_rep al hs -> hs !! i = Some h -> is_hash h.
Proof. intros (_ & H & _). by apply Forall_lookup_1. Qed.

(** ** The operations on lists that hold hashes *)

(** The entry assertion passes. *)
Lemma check_elems_ok {B} al hs (f : unit -> M B) w :
  al_rep al hs -> Z.of_nat (length hs) < MT_AL_MAX_ELEMS ->
  (check_elems al ≫= f) w = f tt w.
Proof. intros [He _] Hm. unfold check_elems. rewrite bind_assert; [done|lia]. Qed.

(** Reading: [mt_al_get] is list lookup. *)
Lemma mt_al_get_spec al hs off w :
  al_rep al hs -> Z.of_nat (length hs) < MT_AL_MAX_ELEMS -> 0 <= off ->
  mt_al_get (Some al) off w = Done (hs !! Z.to_nat off, w).
Proof.
  intros Hrep Hmax Hoff. unfold mt_al_get. cbn [deref_al].
  rewrite bind_ret, (check_elems_ok _ _ _ _ Hrep) by done.
  destruct Hrep as (He & Hh & Hs). unfold MT_AL_MAX_ELEMS in *. rewrite He. destruct (off <? _) eqn:Hlt; last first.
  { by rewrite lookup_ge_None_2 by lia. }
  destruct (lookup_lt_is_Some_2 hs (Z.to_nat off)) as [h Hi]; [lia|].
  destruct Hs as (junk & c & -> & _); [by intros ->|].
  rewrite Hi. rewrite (bind_done _ _ _ h w); [done|].
  apply load_live; [done|]. rewrite (concat_split _ _ _ Hi), !fmap_app, <- app_assoc, <- app_assoc.
  apply mem_read_at.
  - rewrite length_fmap, length_concat_take_hashes by (done || lia).
    unfold HASH_LENGTH. rewrite u32_small; lia.
  - by rewrite (proj1 (Forall_lookup_1 _ _ _ _ Hh Hi)).
Qed.

(** Overwriting hash [i] in place. *)
Lemma put_hash_spec al hs h i w :
  al_rep al hs -> is_hash h -> 0 <= i < Z.of_nat (length hs) ->
  Z.of_nat (length hs) <= MT_AL_MAX_ELEMS ->
  exists al', put_hash al i h w = Done (al', w) /\
    al_rep al' (<[Z.to_nat i:=h]> hs) /\ (al_live al -> al_live al').
Proof.
  intros (He & Hh & Hs) Hhash Hi Hmax. unfold MT_AL_MAX_ELEMS in *.
  destruct Hs as (junk & c & Hst & Hp & Hc & Hlen); [intros ->; cbn in *; lia|].
  destruct (lookup_lt_is_Some_2 hs (Z.to_nat i)) as [old Hold]; [lia|].
  assert (Hl : length old = length h).
  { destruct (Forall_lookup_1 _ _ _ _ Hh Hold), Hhash. congruence. }
  assert (Hw : mem_write (u32 (i * HASH_LENGTH)) h ((Some <$> concat hs) ++ junk)
               = Done ((Some <$> concat (<[Z.to_nat i:=h]> hs)) ++ junk)).
  { rewrite (concat_split _ _ _ Hold), concat_insert, !fmap_app, <- !app_assoc by lia.
    apply mem_write_at; [|by rewrite length_fmap].
    rewrite length_fmap, length_concat_take_hashes by (done || lia).
    unfold HASH_LENGTH. rewrite u32_small; lia. }
  unfold put_hash. rewrite Hst, (bind_done _ _ _ _ _ (store_live _ _ _ _ _ (is_hash_nonempty _ Hhash) Hw)).
  eexists. split; [done|]. split; [|done].
  split; [by rewrite length_insert|]. split; [by apply Forall_insert|]. intros _.
  exists junk, c. rewrite length_insert. do 3 (split; [done|]).
  rewrite (length_concat_uniform 32), length_insert
    by (apply hashes_uniform; by apply Forall_insert).
  rewrite (length_concat_uniform 32) in Hlen by by apply hashes_uniform. done.
Qed.

(** Updating: within range it is list insertion, beyond it an error. *)
Lemma mt_al_update_spec al hs h off w :
  al_rep al hs -> is_hash h -> Z.of_nat (length hs) < MT_AL_MAX_ELEMS ->
  0 <= off < Z.of_nat (length hs) ->
  exists al', mt_al_update (Some al) (Some h) off w = Done ((MT_SUCCESS, al'), w) /\
    al_rep al' (<[Z.to_nat off:=h]> hs) /\ (al_live al -> al_live al').
Proof.
  intros Hrep Hh Hmax Hoff. unfold mt_al_update. cbn [deref_al].
  rewrite bind_ret, (check_elems_ok _ _ _ _ Hrep) by done.
  replace (off <? al_elems al) with true by (rewrite (al_rep_elems _ _ Hrep); lia).
  destruct (put_hash_spec al hs h off w) as (al' & Hp & Hrest); [done..|lia|].
  exists al'. by rewrite (bind_done _ _ _ _ _ Hp).
Qed.

Lemma mt_al_update_range al hs h off w :
  al_rep al hs -> Z.of_nat (length hs) < MT_AL_MAX_ELEMS ->
  Z.of_nat (length hs) <= off ->
  mt_al_update (Some al) (Some h) off w = Done ((MT_ERR_ILLEGAL_PARAM, al), w).
Proof.
  intros Hrep Hmax Hoff. unfold mt_al_update. cbn [deref_al].
  rewrite bind_ret, (check_elems_ok _ _ _ _ Hrep) by done.
  replace (off <? al_elems al) with false by (rewrite (al_rep_elems _ _ Hrep); lia).
  done.
Qed.

(** [stdpp]'s list insertion does nothing out of range, and so does
    [mt_al_update_if_exists]. *)
Lemma mt_al_update_if_exists_spec al hs h off w :
  al_rep al hs -> is_hash h -> Z.of_nat (length hs) < MT_AL_MAX_ELEMS -> 0 <= off ->
  exists al', mt_al_update_if_exists (Some al) (Some h) off w
              = Done ((MT_SUCCESS, al'), w) /\
    al_rep al' (<[Z.to_nat off:=h]> hs) /\ (al_live al -> al_live al').
Proof.
  intros Hrep Hh Hmax Hoff. unfold mt_al_update_if_exists. cbn [deref_al].
  rewrite bind_ret, (check_elems_ok _ _ _ _ Hrep) by done.
  rewrite (al_rep_elems _ _ Hrep). destruct (_ <=? off) eqn:E.
  { exists al. split; [done|]. by rewrite list_insert_ge by lia. }
  destruct (put_hash_spec al hs h off w) as (al' & Hp & Hrest); [done|done|lia|lia|].
  exists al'. by rewrite (bind_done _ _ _ _ _ Hp).
Qed.

(** Writing the hash after the last one, into a block with room for it. *)
Lemma append_spec al hs h junk c w :
  al_elems al = Z.of_nat (length hs) -> Forall is_hash hs -> is_hash h ->
  al_store al = Live ((Some <$> concat hs) ++ junk) ->
  is_pow2 c -> Z.of_nat (length hs) < c <= 2 * Z.of_nat (length hs) + 1 ->
  Z.of_nat (length (concat hs) + length junk) = HASH_LENGTH * c ->
  Z.of_nat (length hs) < MT_AL_MAX_ELEMS ->
  exists al', (al ← put_hash al (al_elems al) h;
     mret (MT_SUCCESS, Mk_al (u32 (al_elems al + 1)) (al_store al))) w
    = Done ((MT_SUCCESS, al'), w) /\ al_rep al' (hs ++ [h]) /\ al_live al'.
Proof.
  intros He Hhs Hh Hst Hp Hc Hlen Hmax.
  unfold MT_AL_MAX_ELEMS, put_hash, HASH_LENGTH in *. rewrite Hst, He.
  pose proof (length_concat_hashes _ Hhs) as Hcat. unfold HASH_LENGTH in Hcat.
  rewrite <- (take_drop 32 junk). destruct Hh as [Hl Hb].
  assert (length (take 32 junk) = 32%nat) by (rewrite length_take; lia).
  assert (Hw : mem_write (u32 (Z.of_nat (length hs) * 32)) h
      ((Some <$> concat hs) ++ take 32 junk ++ drop 32 junk)
      = Done ((Some <$> concat hs) ++ (Some <$> h) ++ drop 32 junk)).
  { apply mem_write_at; [|lia]. rewrite length_fmap, u32_small; lia. }
  assert (Hne : h <> []) by by intros ->.
  rewrite bind_assoc, (bind_done _ _ _ _ _ (store_live _ _ _ _ _ Hne Hw)), bind_ret.
  eexists. split; [done|]. split; [|done]. split.
  { cbn. rewrite length_app, u32_small; cbn; lia. }
  split; [apply Forall_app; by repeat constructor|]. intros _.
  exists (drop 32 junk), c. cbn [al_store].
  rewrite concat_app, fmap_app, <- app_assoc, !length_app, length_drop. cbn.
  rewrite app_nil_r. split; [done|]. split; [done|]. clia.
Qed.

(** Appending: either the hash is appended, or the allocator failed and the
    list is unchanged; [MT_ERR_ILLEGAL_STATE] is never returned. *)
Lemma mt_al_add_spec al hs h w :
  al_rep al hs -> is_hash h -> Z.of_nat (length hs) < MT_AL_MAX_ELEMS ->
  exists e al' w', mt_al_add (Some al) (Some h) w = Done ((e, al'), w') /\
    (e = MT_SUCCESS /\ al_rep al' (hs ++ [h]) /\ al_live al' \/
     e = MT_ERR_OUT_Of_MEMORY /\ al_rep al' hs) /\
    (al_live al -> al_live al') /\ (all_ok w -> e = MT_SUCCESS /\ all_ok w').
Proof.
  intros Hrep Hh Hmax. unfold mt_al_add. cbn [deref_al].
  rewrite bind_ret, (check_elems_ok _ _ _ _ Hrep) by done.
  pose proof Hrep as (He & Hhs & Hs). rewrite He. destruct (_ =? 0) eqn:E0.
  - destruct hs; [|cbn in E0; lia].
    destruct (malloc_cases HASH_LENGTH w) as (p & w' & Hm & Hp & Hok).
    rewrite (bind_done _ _ _ _ _ Hm). destruct Hp as [->| ->].
    { eexists _, _, _. split; [done|]. split; [by right|].
      split; [done|]. intros H. by destruct (Hok H). }
    destruct (append_spec (Mk_al 0 (Live (replicate 32 None))) [] h
                (replicate 32 None) 1 w') as (al' & Ha & Hr); [by try exists 0..|].
    cbn [length] in *. eexists _, _, _. split; [exact Ha|].
    destruct Hr. split; [by left|]. split; [done|]. intros Hw. by destruct (Hok Hw).
  - destruct Hs as (junk & c & Hst & Hc & Hcr & Hcl); [by intros ->|].
    unfold MT_AL_MAX_ELEMS in *. destruct (is_power_of_two _) eqn:Ep.
    + apply is_power_of_two_spec in Ep; [|lia].
      assert (Hle : 2 * Z.of_nat (length hs) <= 2 ^ 22).
      { apply pow2_gap; [done|by exists 22|lia]. }
      rewrite Z.shiftl_mul_pow2, (u32_small (_ * 2 ^ 1)) by lia.
      replace (_ || _) with false by lia.
      rewrite Hst, (u32_small (_ * 2 * _)) by clia.
      destruct (realloc_cases ((Some <$> concat hs) ++ junk)
        (Z.of_nat (length hs) * 2 * HASH_LENGTH) w) as (p & w' & Hm & Hp & Hok).
      rewrite (bind_done _ _ _ _ _ Hm). destruct Hp as [->| ->].
      { eexists _, _, _. split; [done|]. split; [by right|].
        split; [done|]. intros H. by destruct (Hok H). }
      assert (Hc1 : c = Z.of_nat (length hs)).
      { destruct (decide (Z.of_nat (length hs) < c)) as [Hlt|]; [|lia].
        pose proof (pow2_gap _ _ Ep Hc Hlt). lia. }
      rewrite take_ge, <- app_assoc by (rewrite length_app, length_fmap; clia).
      set (fresh := replicate _ None).
      destruct (append_spec (Mk_al (Z.of_nat (length hs))
          (Live ((Some <$> concat hs) ++ junk ++ fresh))) hs h (junk ++ fresh)
          (2 * c) w') as (al' & Ha & Hr); [done..| |lia| |clia|].
      { by apply pow2_double. }
      { subst fresh. rewrite !length_app, length_replicate, length_fmap. clia. }
      eexists _, _, _. split; [exact Ha|]. destruct Hr.
      split; [by left|]. split; [done|]. intros Hw. by destruct (Hok Hw).
    + assert (c <> Z.of_nat (length hs)).
      { intros ->. apply is_power_of_two_spec in Hc; [congruence|lia]. }
      destruct (append_spec al hs h junk c w) as (al' & Ha & Hr); [done..|lia|done|clia|].
      rewrite He in Ha. eexists _, _, _. split; [exact Ha|]. destruct Hr.
      split; [by left|]. done.
Qed.

(** [mt_al_add_or_update]: append at the end, overwrite before it, and an error
    beyond it. *)
Lemma mt_al_add_or_update_spec al hs h off w :
  al_rep al hs -> is_hash h -> Z.of_nat (length hs) < MT_AL_MAX_ELEMS ->
  0 <= off <= Z.of_nat (length hs) ->
  exists e al' w', mt_al_add_or_update (Some al) (Some h) off w = Done ((e, al'), w') /\
    (e = MT_SUCCESS /\
     al_rep al' (if off =? Z.of_nat (length hs) then hs ++ [h]
                 else <[Z.to_nat off:=h]> hs) \/
     e = MT_ERR_OUT_Of_MEMORY /\ al_rep al' hs) /\
    (al_live al -> al_live al') /\ (all_ok w -> e = MT_SUCCESS /\ all_ok w').
Proof.
  intros Hrep Hh Hmax Hoff. unfold mt_al_add_or_update. cbn [deref_al].
  rewrite bind_ret, (check_elems_ok _ _ _ _ Hrep) by done.
  rewrite (al_rep_elems _ _ Hrep). replace (_ <? off) with false by lia.
  destruct (off =? _) eqn:E.
  - destruct (mt_al_add_spec al hs h w) as (e & al' & w' & H & Hc & ?); [done..|].
    exists e, al', w'. split; [done|]. split; [|done]. tauto.
  - destruct (mt_al_update_spec al hs h off w) as (al' & H & ? & ?); [done..|lia|].
    eexists _, _, _. split; [exact H|]. split; [by left|]. done.
Qed.

Lemma mt_al_add_or_update_range al hs h off w :
  al_rep al hs -> Z.of_nat (length hs) < MT_AL_MAX_ELEMS ->
  Z.of_nat (length hs) < off ->
  mt_al_add_or_update (Some al) (Some h) off w = Done ((MT_ERR_ILLEGAL_PARAM, al), w).
Proof.
  intros Hrep Hmax Hoff. unfold mt_al_add_or_update. cbn [deref_al].
  rewrite bind_ret, (check_elems_ok _ _ _ _ Hrep) by done.
  rewrite (al_rep_elems _ _ Hrep). by replace (_ <? off) with true by lia.
Qed.

(** Shrinking the block keeps the first [n] hashes. *)
Lemma store_rep_take hs junk n c m :
  Forall is_hash hs -> (0 < n < length hs)%nat -> is_pow2 c ->
  Z.of_nat n <= c < 2 * Z.of_nat n ->
  HASH_LENGTH * c <= Z.of_nat (length (concat hs) + length junk) ->
  m = take (Z.to_nat (c * HASH_LENGTH)) ((Some <$> concat hs) ++ junk)
      ++ replicate (Z.to_nat (c * HASH_LENGTH) - length ((Some <$> concat hs) ++ junk)) None ->
  store_rep (Live m) (take n hs).
Proof.
  intros Hhs Hn Hp Hc Hlen ->. pose proof (length_concat_take_hashes hs n Hhs ltac:(lia)) as Hct.
  assert (Hcat : concat hs = concat (take n hs) ++ concat (drop n hs)).
  { by rewrite <- concat_app, take_drop. }
  rewrite Hcat, fmap_app, <- app_assoc, take_app_ge by (rewrite length_fmap, Hct; clia).
  rewrite <- app_assoc. eexists _, c. split; [done|]. split; [done|].
  rewrite length_take. split; [lia|].
  rewrite Hcat in Hlen. rewrite length_app in Hlen.
  rewrite !length_app, length_take, length_replicate, !length_app, !length_fmap, Hct.
  clia.
Qed.

(** Truncation keeps a prefix of the hashes and gives back the memory beyond
    the next power of two. *)
Lemma mt_al_truncate_spec al hs n w :
  al_rep al hs -> Z.of_nat (length hs) < MT_AL_MAX_ELEMS ->
  (0 < n < length hs)%nat ->
  exists e al' w', mt_al_truncate (Some al) (Z.of_nat n) w = Done ((e, al'), w') /\
    al_elems al' = Z.of_nat n /\
    (e = MT_SUCCESS /\ al_rep al' (take n hs) \/ e = MT_ERR_OUT_Of_MEMORY) /\
    (all_ok w -> e = MT_SUCCESS /\ all_ok w').
Proof.
  intros Hrep Hmax Hn. unfold mt_al_truncate. cbn [deref_al].
  rewrite bind_ret, (check_elems_ok _ _ _ _ Hrep) by done.
  rewrite (al_rep_elems _ _ Hrep). replace (negb _) with false by lia.
  replace (Z.of_nat n =? 0) with false by lia.
  destruct Hrep as (He & Hhs & Hs).
  destruct Hs as (junk & c & Hst & Hc & Hcr & Hcl); [by destruct hs; [cbn in *; lia|]|].
  destruct (round_next_power_two_spec (Z.of_nat n)) as [Hp Hr]; [clia|].
  set (r := round_next_power_two (Z.of_nat n)) in *.
  assert (r <= c).
  { destruct (decide (r <= c)) as [|Hgt]; [done|].
    pose proof (pow2_gap c r Hc Hp ltac:(lia)). lia. }
  rewrite (u32_small (r * _)), Hst by clia.
  destruct (realloc_cases ((Some <$> concat hs) ++ junk) (r * HASH_LENGTH) w)
    as (p & w' & Hm & Hpp & Hok).
  rewrite (bind_done _ _ _ _ _ Hm). destruct Hpp as [->| ->].
  { eexists _, _, _. split; [done|]. split; [done|]. split; [by right|].
    intros H'. by destruct (Hok H'). }
  eexists _, _, _. split; [done|]. split; [done|]. split; [left; split; [done|]|].
  - split; [cbn; rewrite length_take; lia|]. split; [by apply Forall_take|].
    intros _. eapply (store_rep_take hs junk n r); [done..|clia|done].
  - intros H'. by destruct (Hok H').
Qed.

(** Truncating to nothing frees the block and leaves a dangling pointer. *)
Lemma mt_al_truncate_zero al hs w :
  al_rep al hs -> Z.of_nat (length hs) < MT_AL_MAX_ELEMS -> hs <> [] ->
  mt_al_truncate (Some al) 0 w = Done ((MT_SUCCESS, Mk_al 0 Dangling), w).
Proof.
  intros Hrep Hmax Hne. unfold mt_al_truncate. cbn [deref_al].
  rewrite bind_ret, (check_elems_ok _ _ _ _ Hrep) by done.
  rewrite (al_rep_elems _ _ Hrep).
  replace (negb _) with false by (destruct hs; cbn; lia || done).
  destruct Hrep as (_ & _ & Hs). by destruct (Hs Hne) as (junk & c & -> & _).
Qed.

Lemma mt_al_delete_live al w :
  al_live al -> mt_al_delete (Some al) w = Done (tt, w).
Proof.
  unfold mt_al_delete, al_live. cbn [deref_al]. rewrite bind_ret.
  by destruct (al_store al).
Qed.

Lemma al_rep_live al hs : al_rep al hs -> hs <> [] -> al_live al.
Proof. intros (_ & _ & H) Hne. by destruct (H Hne) as (? & ? & E & _); unfold al_live; rewrite E. Qed.

Lemma al_rep_empty p : al_rep (Mk_al 0 p) [].
Proof. by repeat split; [constructor|]. Qed.

(** The list accepts one hash more than the other operations can handle. *)
Lemma append_full al hs h w :
  al_rep al hs -> is_hash h -> Z.of_nat (length hs) = MT_AL_MAX_ELEMS - 1 ->
  exists al', mt_al_add (Some al) (Some h) w = Done ((MT_SUCCESS, al'), w) /\
    al_elems al' = MT_AL_MAX_ELEMS.
Proof.
  intros Hrep Hh Hfull. pose proof Hrep as (He & Hhs & Hs).
  unfold mt_al_add. cbn [deref_al].
  rewrite bind_ret, (check_elems_ok _ _ _ _ Hrep), He, Hfull by clia.
  change (MT_AL_MAX_ELEMS - 1 =? 0) with false.
  change (is_power_of_two (MT_AL_MAX_ELEMS - 1)) with false. cbv iota.
  destruct Hs as (junk & c & Hst & Hc & Hcr & Hcl); [intros ->; cbn in *; clia|].
  assert (c <> Z.of_nat (length hs)).
  { intros ->. apply is_power_of_two_spec in Hc; [|clia]. by rewrite Hfull in Hc. }
  destruct (append_spec al hs h junk c w) as (al' & Ha & Hr & _); [done..|lia|done|clia|].
  exists al'. rewrite He, Hfull in Ha. split; [exact Ha|].
  rewrite (al_rep_elems _ _ Hr), length_app. cbn. clia.
Qed.
