(* ===== verification/Sha256.v ===== *)
(** * SHA-224/256 as the Merkle tree library implements it

    Model of [merkle-tree/src/sha224-256.c] with the constants, macros and the
    context structure of [sha.h].  The functions work on a context
    ([SHA256Context]) the way the C code does: bytes are pushed one at a time
    into a 64-byte block, a full block is compressed, and the final padding is
    written into the block in place.  [Module Fips] states the hash function of
    FIPS 180-4 over whole messages; the theorems say that the streaming code
    computes it for every message shorter than 2^64 bits and every way of
    cutting the message into [SHA256Input] calls. *)

From stdpp Require Import base tactics list numbers option.
From Stdlib Require Import ZArith Lia ZifyBool.
From S2P Require Import Prelude.

Local Open Scope Z_scope.

(** ** Return codes and the context *)

Definition shaSuccess : Z := 0.
Definition shaNull : Z := 1.
Definition shaInputTooLong : Z := 2.
Definition shaStateError : Z := 3.
Definition shaBadParam : Z := 4.

Definition SHA256_Message_Block_Size : Z := 64.
Definition SHA224HashSize : Z := 28.
Definition SHA256HashSize : Z := 32.

Record SHA256Context := Mk_ctx {
  Intermediate_Hash : list Z;     (** 8 words *)
  Length_Low : Z;                 (** message length in bits, low word *)
  Length_High : Z;                (** and high word *)
  Message_Block_Index : Z;
  Message_Block : list Z;         (** 64 bytes *)
  Computed : Z;
  Corrupted : Z;
}.

(** ** Macros *)

Definition SHA256_SHR (bits word : Z) : Z := Z.shiftr word bits.
Definition SHA256_ROTL (bits word : Z) : Z :=
  Z.lor (u32 (Z.shiftl word bits)) (Z.shiftr word (32 - bits)).
Definition SHA256_ROTR (bits word : Z) : Z :=
  Z.lor (Z.shiftr word bits) (u32 (Z.shiftl word (32 - bits))).

Definition SHA256_SIGMA0 (word : Z) : Z :=
  Z.lxor (Z.lxor (SHA256_ROTR 2 word) (SHA256_ROTR 13 word)) (SHA256_ROTR 22 word).
Definition SHA256_SIGMA1 (word : Z) : Z :=
  Z.lxor (Z.lxor (SHA256_ROTR 6 word) (SHA256_ROTR 11 word)) (SHA256_ROTR 25 word).
Definition SHA256_sigma0 (word : Z) : Z :=
  Z.lxor (Z.lxor (SHA256_ROTR 7 word) (SHA256_ROTR 18 word)) (SHA256_SHR 3 word).
Definition SHA256_sigma1 (word : Z) : Z :=
  Z.lxor (Z.lxor (SHA256_ROTR 17 word) (SHA256_ROTR 19 word)) (SHA256_SHR 10 word).

Definition SHA_Ch (x y z : Z) : Z :=
  Z.lxor (Z.land x y) (Z.land (u32 (Z.lnot x)) z).
Definition SHA_Maj (x y z : Z) : Z :=
  Z.lxor (Z.lxor (Z.land x y) (Z.land x z)) (Z.land y z).

(** [SHA224_256AddLength]: adds to the 64-bit counter and sets [Corrupted] to
    whether it wrapped around; the value of the macro is the new flag. *)
Definition SHA224_256AddLength (context : SHA256Context) (len : Z) : SHA256Context :=
  let addTemp := Length_Low context in
  let low := u32 (Length_Low context + len) in
  let carry := low <? addTemp in
  let high := if carry then u32 (Length_High context + 1) else Length_High context in
  let corrupted := if carry && (high =? 0) then 1 else 0 in
  Mk_ctx (Intermediate_Hash context) low high (Message_Block_Index context)
    (Message_Block context) (Computed context) corrupted.

Definition SHA224_H0 : list Z :=
  [0xC1059ED8; 0x367CD507; 0x3070DD17; 0xF70E5939;
   0xFFC00B31; 0x68581511; 0x64F98FA7; 0xBEFA4FA4].

Definition SHA256_H0 : list Z :=
  [0x6A09E667; 0xBB67AE85; 0x3C6EF372; 0xA54FF53A;
   0x510E527F; 0x9B05688C; 0x1F83D9AB; 0x5BE0CD19].

Definition sha_K : list Z := concat [
  [0x428a2f98; 0x71374491; 0xb5c0fbcf; 0xe9b5dba5; 0x3956c25b];
  [0x59f111f1; 0x923f82a4; 0xab1c5ed5; 0xd807aa98; 0x12835b01];
  [0x243185be; 0x550c7dc3; 0x72be5d74; 0x80deb1fe; 0x9bdc06a7];
  [0xc19bf174; 0xe49b69c1; 0xefbe4786; 0x0fc19dc6; 0x240ca1cc];
  [0x2de92c6f; 0x4a7484aa; 0x5cb0a9dc; 0x76f988da; 0x983e5152];
  [0xa831c66d; 0xb00327c8; 0xbf597fc7; 0xc6e00bf3; 0xd5a79147];
  [0x06ca6351; 0x14292967; 0x27b70a85; 0x2e1b2138; 0x4d2c6dfc];
  [0x53380d13; 0x650a7354; 0x766a0abb; 0x81c2c92e; 0x92722c85];
  [0xa2bfe8a1; 0xa81a664b; 0xc24b8b70; 0xc76c51a3; 0xd192e819];
  [0xd6990624; 0xf40e3585; 0x106aa070; 0x19a4c116; 0x1e376c08];
  [0x2748774c; 0x34b0bcb5; 0x391c0cb3; 0x4ed8aa4a; 0x5b9cca4f];
  [0x682e6ff3; 0x748f82ee; 0x78a5636f; 0x84c87814; 0x8cc70208];
  [0x90befffa; 0xa4506ceb; 0xbef9a3f7; 0xc67178f2]
].

(** Array reads of the block and of the tables; the indices are constants or
    loop counters within range. *)
Definition at_ (l : list Z) (i : nat) : Z := nth i l 0.

(** ** The compression of one block *)

(** [W[t]] for [t < 16]: four bytes, big endian. *)
Definition load_word (block : list Z) (t : nat) : Z :=
  Z.lor (Z.lor (Z.lor (u32 (Z.shiftl (at_ block (4 * t)) 24))
                      (u32 (Z.shiftl (at_ block (4 * t + 1)) 16)))
               (u32 (Z.shiftl (at_ block (4 * t + 2)) 8)))
        (at_ block (4 * t + 3)).

(** [for (t = 16; t < 64; t++) W[t] = ...]: [n] further words. *)
Fixpoint extend_W (W : list Z) (n : nat) : list Z :=
  match n with
  | O => W
  | S n =>
      let t := length W in
      extend_W (W ++ [u32 (SHA256_sigma1 (at_ W (t - 2)) + at_ W (t - 7)
                           + SHA256_sigma0 (at_ W (t - 15)) + at_ W (t - 16))]) n
  end.

Definition message_schedule (block : list Z) : list Z :=
  extend_W (load_word block <$> seq 0 16) 48.

(** The word buffers [A] to [H]. *)
Record regs := Regs { rA : Z; rB : Z; rC : Z; rD : Z; rE : Z; rF : Z; rG : Z; rH : Z }.

Definition sha_round (r : regs) (k w : Z) : regs :=
  let temp1 := u32 (rH r + SHA256_SIGMA1 (rE r) + SHA_Ch (rE r) (rF r) (rG r) + k + w) in
  let temp2 := u32 (SHA256_SIGMA0 (rA r) + SHA_Maj (rA r) (rB r) (rC r)) in
  Regs (u32 (temp1 + temp2)) (rA r) (rB r) (rC r)
       (u32 (rD r + temp1)) (rE r) (rF r) (rG r).

Fixpoint sha_rounds (r : regs) (K W : list Z) : regs :=
  match K, W with
  | k :: K, w :: W => sha_rounds (sha_round r k w) K W
  | _, _ => r
  end.

Definition load_regs (H : list Z) : regs :=
  Regs (at_ H 0) (at_ H 1) (at_ H 2) (at_ H 3) (at_ H 4) (at_ H 5) (at_ H 6) (at_ H 7).

Definition add_regs (H : list Z) (r : regs) : list Z :=
  [u32 (at_ H 0 + rA r); u32 (at_ H 1 + rB r); u32 (at_ H 2 + rC r); u32 (at_ H 3 + rD r);
   u32 (at_ H 4 + rE r); u32 (at_ H 5 + rF r); u32 (at_ H 6 + rG r); u32 (at_ H 7 + rH r)].

Definition SHA224_256ProcessMessageBlock (context : SHA256Context) : SHA256Context :=
  let H := Intermediate_Hash context in
  let W := message_schedule (Message_Block context) in
  Mk_ctx (add_regs H (sha_rounds (load_regs H) sha_K W))
    (Length_Low context) (Length_High context) 0
    (Message_Block context) (Computed context) (Corrupted context).

(** ** Operations on the context *)

(** [context->Message_Block[context->Message_Block_Index++] = b] *)
Definition push_byte (context : SHA256Context) (b : Z) : SHA256Context :=
  Mk_ctx (Intermediate_Hash context) (Length_Low context) (Length_High context)
    (Message_Block_Index context + 1)
    (<[Z.to_nat (Message_Block_Index context) := b]> (Message_Block context))
    (Computed context) (Corrupted context).

(** [while (context->Message_Block_Index < limit) ... = 0] *)
Fixpoint push_zeros (n : nat) (context : SHA256Context) : SHA256Context :=
  match n with
  | O => context
  | S n => push_zeros n (push_byte context 0)
  end.

Definition zero_fill_to (limit : Z) (context : SHA256Context) : SHA256Context :=
  push_zeros (Z.to_nat (limit - Message_Block_Index context)) context.

(** The eight assignments [Message_Block[56..63] = ...]. *)
Definition store_length (context : SHA256Context) : SHA256Context :=
  let hi := Length_High context in
  let lo := Length_Low context in
  let bs := [u8 (Z.shiftr hi 24); u8 (Z.shiftr hi 16); u8 (Z.shiftr hi 8); u8 hi;
             u8 (Z.shiftr lo 24); u8 (Z.shiftr lo 16); u8 (Z.shiftr lo 8); u8 lo] in
  Mk_ctx (Intermediate_Hash context) lo hi (Message_Block_Index context)
    (take 56 (Message_Block context) ++ bs) (Computed context) (Corrupted context).

Definition SHA224_256PadMessage (context : SHA256Context) (Pad_Byte : Z) : SHA256Context :=
  let context :=
    if SHA256_Message_Block_Size - 8 <=? Message_Block_Index context
    then SHA224_256ProcessMessageBlock
           (zero_fill_to SHA256_Message_Block_Size (push_byte context Pad_Byte))
    else push_byte context Pad_Byte in
  SHA224_256ProcessMessageBlock
    (store_length (zero_fill_to (SHA256_Message_Block_Size - 8) context)).

Definition SHA224_256Finalize (context : SHA256Context) (Pad_Byte : Z) : SHA256Context :=
  let context := SHA224_256PadMessage context Pad_Byte in
  Mk_ctx (Intermediate_Hash context) 0 0 (Message_Block_Index context)
    (replicate 64 0) 1 (Corrupted context).

(** [SHA224_256Reset]: the block itself is not cleared. *)
Definition SHA224_256Reset (context : option SHA256Context) (H0 : list Z)
  : Z * option SHA256Context :=
  match context with
  | None => (shaNull, None)
  | Some c => (shaSuccess, Some (Mk_ctx H0 0 0 0 (Message_Block c) 0 0))
  end.

(** [while (length-- && !context->Corrupted) ...] over the given bytes. *)
Fixpoint sha_input_loop (context : SHA256Context) (message : list Z) : SHA256Context :=
  match message with
  | [] => context
  | b :: message =>
      if negb (Corrupted context =? 0) then context else
      let context := SHA224_256AddLength (push_byte context (Z.land b 0xFF)) 8 in
      let context :=
        if (Corrupted context =? 0)
           && (Message_Block_Index context =? SHA256_Message_Block_Size)
        then SHA224_256ProcessMessageBlock context else context in
      sha_input_loop context message
  end.

Definition set_corrupted (c : SHA256Context) (v : Z) : SHA256Context :=
  Mk_ctx (Intermediate_Hash c) (Length_Low c) (Length_High c)
    (Message_Block_Index c) (Message_Block c) (Computed c) v.

(** [SHA256Input(context, message_array, length)]; the array holds at least
    [length] bytes, an [unsigned int], so that a call takes fewer than 2^32. *)
Definition SHA256Input (context : option SHA256Context)
    (message_array : option (list Z)) (len : Z) : Z * option SHA256Context :=
  if len =? 0 then (shaSuccess, context) else
  match context, message_array with
  | Some c, Some message =>
      if negb (Computed c =? 0)
      then (shaStateError, Some (set_corrupted c shaStateError))
      else if negb (Corrupted c =? 0) then (Corrupted c, Some c)
      else (shaSuccess, Some (sha_input_loop c (take (Z.to_nat len) message)))
  | _, _ => (shaNull, context)
  end.

Definition sha_masks : list Z := [0x00; 0x80; 0xC0; 0xE0; 0xF0; 0xF8; 0xFC; 0xFE].
Definition sha_markbit : list Z := [0x80; 0x40; 0x20; 0x10; 0x08; 0x04; 0x02; 0x01].

Definition SHA256FinalBits (context : option SHA256Context) (message_bits len : Z)
  : Z * option SHA256Context :=
  if len =? 0 then (shaSuccess, context) else
  match context with
  | None => (shaNull, None)
  | Some c =>
      if negb (Computed c =? 0) || (8 <=? len) || (len =? 0)
      then (shaStateError, Some (set_corrupted c shaStateError))
      else if negb (Corrupted c =? 0) then (Corrupted c, Some c)
      else
        let c := SHA224_256AddLength c len in
        (shaSuccess, Some (SHA224_256Finalize c
           (u8 (Z.lor (Z.land message_bits (at_ sha_masks (Z.to_nat len)))
                      (at_ sha_markbit (Z.to_nat len))))))
  end.

(** [Message_Digest[i] = (uint8_t)(Intermediate_Hash[i>>2] >> 8 * (3 - (i & 3)))] *)
Definition digest_byte (H : list Z) (i : nat) : Z :=
  u8 (Z.shiftr (at_ H (Nat.div i 4)) (8 * (3 - Z.land (Z.of_nat i) 3))).

(** The digest is written only on success; [want] says whether the caller's
    array is there. *)
Definition SHA224_256ResultN (context : option SHA256Context) (want : bool)
    (HashSize : Z) : Z * option SHA256Context * option (list Z) :=
  match context, want with
  | Some c, true =>
      if negb (Corrupted c =? 0) then (Corrupted c, Some c, None)
      else
        let c := if Computed c =? 0 then SHA224_256Finalize c 0x80 else c in
        (shaSuccess, Some c,
         Some (digest_byte (Intermediate_Hash c) <$> seq 0 (Z.to_nat HashSize)))
  | _, _ => (shaNull, context, None)
  end.

Definition SHA256Reset (context : option SHA256Context) := SHA224_256Reset context SHA256_H0.
Definition SHA256Result (context : option SHA256Context) (want : bool) :=
  SHA224_256ResultN context want SHA256HashSize.
Definition SHA224Reset (context : option SHA256Context) := SHA224_256Reset context SHA224_H0.
Definition SHA224Input := SHA256Input.
Definition SHA224FinalBits := SHA256FinalBits.
Definition SHA224Result (context : option SHA256Context) (want : bool) :=
  SHA224_256ResultN context want SHA224HashSize.

(** ** The hash functions of FIPS 180-4, on whole messages *)

Module Fips.

(** Section 2.2.2 and 4.1.2 *)
Definition rotr (n x : Z) : Z := (x / 2 ^ n + x * 2 ^ (32 - n)) mod 2 ^ 32.
Definition shr (n x : Z) : Z := x / 2 ^ n.
Definition Ch (x y z : Z) : Z := Z.lxor (Z.land x y) (Z.ldiff z x).
Definition Maj (x y z : Z) : Z := Z.lxor (Z.lxor (Z.land x y) (Z.land x z)) (Z.land y z).
Definition Sigma0 (x : Z) : Z := Z.lxor (Z.lxor (rotr 2 x) (rotr 13 x)) (rotr 22 x).
Definition Sigma1 (x : Z) : Z := Z.lxor (Z.lxor (rotr 6 x) (rotr 11 x)) (rotr 25 x).
Definition sigma0 (x : Z) : Z := Z.lxor (Z.lxor (rotr 7 x) (rotr 18 x)) (shr 3 x).
Definition sigma1 (x : Z) : Z := Z.lxor (Z.lxor (rotr 17 x) (rotr 19 x)) (shr 10 x).

(** Section 6.2.2, step 1: the schedule of a block of sixteen words. *)
Fixpoint schedule (M : list Z) (n : nat) : list Z :=
  match n with
  | O => []
  | S t =>
      let W := schedule M t in
      W ++ [if (t <? 16)%nat then nth t M 0 else
            (sigma1 (nth (t - 2) W 0) + nth (t - 7) W 0
             + sigma0 (nth (t - 15) W 0) + nth (t - 16) W 0) mod 2 ^ 32]
  end.

(** Steps 2 and 3: the sixty-four rounds, on the eight working variables. *)
Definition round (v : list Z) (kw : Z * Z) : list Z :=
  match v with
  | [a; b; c; d; e; f; g; h] =>
      let T1 := h + Sigma1 e + Ch e f g + kw.1 + kw.2 in
      let T2 := Sigma0 a + Maj a b c in
      [(T1 + T2) mod 2 ^ 32; a; b; c; (d + T1) mod 2 ^ 32; e; f; g]
  | _ => v
  end.

(** The words of a block of bytes. *)
Definition words (block : list Z) : list Z :=
  (fun t => be_val (take 4 (drop (4 * t) block))) <$> seq 0 16.

(** Step 4: the next hash value. *)
Definition compress (H : list Z) (block : list Z) : list Z :=
  zip_with (fun x y => (x + y) mod 2 ^ 32) H
    (foldl round H (zip sha_K (schedule (words block) 64))).

(** Section 5.1.1: a one bit, zeros, and the length in bits on 64 bits. *)
Definition padding (len : Z) : list Z :=
  128 :: replicate (Z.to_nat ((55 - len) mod 64)) 0 ++ be_bytes 8 (8 * len).

Definition pad (m : list Z) : list Z := m ++ padding (Z.of_nat (length m)).

(** [n] blocks of 64 bytes from the front of [m]. *)
Fixpoint hash_blocks (n : nat) (H : list Z) (m : list Z) : list Z :=
  match n with
  | O => H
  | S n => hash_blocks n (compress H (take 64 m)) (drop 64 m)
  end.

Definition digest (H0 : list Z) (m : list Z) : list Z :=
  concat (be_bytes 4 <$> hash_blocks (length (pad m) / 64) H0 (pad m)).

Definition sha256 (m : list Z) : list Z := digest SHA256_H0 m.
Definition sha224 (m : list Z) : list Z := take 28 (digest SHA224_H0 m).

End Fips.

Example sha256_abc : Fips.sha256 [97; 98; 99] =
  [0xba;0x78;0x16;0xbf;0x8f;0x01;0xcf;0xea;0x41;0x41;0x40;0xde;0x5d;0xae;0x22;0x23;
   0xb0;0x03;0x61;0xa3;0x96;0x17;0x7a;0x9c;0xb4;0x10;0xff;0x61;0xf2;0x00;0x15;0xad].
Proof. vm_compute. reflexivity. Qed.

(** ** The macros are the functions of the standard *)

Lemma rotr_eq n x : 0 < n < 32 -> is_word x -> SHA256_ROTR n x = Fips.rotr n x.
Proof.
  intros Hn Hx. unfold SHA256_ROTR, Fips.rotr, u32, is_word in *.
  rewrite Z.shiftr_div_pow2, Z.shiftl_mul_pow2 by lia.
  assert (E : 2 ^ 32 = 2 ^ n * 2 ^ (32 - n)) by (rewrite <- Z.pow_add_r; [f_equal|..]; lia).
  assert (0 < 2 ^ n) by lia. assert (0 < 2 ^ (32 - n)) by lia.
  assert (Hd : 0 <= x / 2 ^ n < 2 ^ (32 - n)).
  { split; [apply Z.div_pos; lia|]. apply Z.div_lt_upper_bound; lia. }
  assert (Hm : (x * 2 ^ (32 - n)) mod 2 ^ 32 = (x mod 2 ^ n) * 2 ^ (32 - n)).
  { rewrite E. apply Z.mul_mod_distr_r; lia. }
  rewrite Hm, lor_low_high by lia.
  pose proof (Z.mod_pos_bound x (2 ^ n) ltac:(lia)).
  rewrite <- Z.add_mod_idemp_r, Hm by lia. symmetry. apply Z.mod_small. nia.
Qed.

Lemma rotr_word n x : is_word (Fips.rotr n x).
Proof. apply u32_range. Qed.

Lemma shr_eq n x : 0 <= n -> SHA256_SHR n x = Fips.shr n x.
Proof. intros. by apply Z.shiftr_div_pow2. Qed.

Lemma shr_word n x : 0 <= n -> is_word x -> is_word (Fips.shr n x).
Proof.
  intros Hn [H0 H1]. unfold Fips.shr. split; [apply Z.div_pos; lia|].
  apply Z.div_lt_upper_bound; [lia|]. nia.
Qed.

#[export] Hint Resolve rotr_word shr_word : words.

Lemma Sigma0_eq x : is_word x -> SHA256_SIGMA0 x = Fips.Sigma0 x.
Proof. intros. unfold SHA256_SIGMA0. by rewrite !rotr_eq. Qed.
Lemma Sigma1_eq x : is_word x -> SHA256_SIGMA1 x = Fips.Sigma1 x.
Proof. intros. unfold SHA256_SIGMA1. by rewrite !rotr_eq. Qed.
Lemma sigma0_eq x : is_word x -> SHA256_sigma0 x = Fips.sigma0 x.
Proof. intros. unfold SHA256_sigma0. by rewrite !rotr_eq, shr_eq. Qed.
Lemma sigma1_eq x : is_word x -> SHA256_sigma1 x = Fips.sigma1 x.
Proof. intros. unfold SHA256_sigma1. by rewrite !rotr_eq, shr_eq. Qed.

Lemma Ch_eq x y z : is_word z -> SHA_Ch x y z = Fips.Ch x y z.
Proof.
  intros Hz. unfold SHA_Ch, Fips.Ch. f_equal. apply Z.bits_inj'. intros i Hi.
  unfold u32. rewrite Z.land_spec, Z.ldiff_spec. destruct (decide (i < 32)).
  - rewrite Z.mod_pow2_bits_low, Z.lnot_spec by lia. apply andb_comm.
  - by rewrite (testbit_high z 32), andb_false_r by (done || lia).
Qed.

Lemma load_word_eq block t :
  bytes block -> length block = 64%nat -> (t < 16)%nat ->
  load_word block t = be_val (take 4 (drop (4 * t) block)).
Proof.
  intros Hb Hl Ht. unfold load_word, at_.
  rewrite <- (take_drop (4 * t) block) at 1 2 3 4.
  assert (Hlt : length (take (4 * t) block) = (4 * t)%nat) by (rewrite length_take; lia).
  rewrite !app_nth2, Hlt by lia.
  replace (4 * t - 4 * t)%nat with 0%nat by lia.
  replace (4 * t + 1 - 4 * t)%nat with 1%nat by lia.
  replace (4 * t + 2 - 4 * t)%nat with 2%nat by lia.
  replace (4 * t + 3 - 4 * t)%nat with 3%nat by lia.
  assert (Hdl : (4 <= length (drop (4 * t) block))%nat) by (rewrite length_drop; lia).
  assert (Hdb : bytes (drop (4 * t) block)) by by apply Forall_drop.
  destruct (drop (4 * t) block) as [|a [|b [|c [|d r]]]]; cbn in Hdl; try lia.
  cbn [nth take]. rewrite take_0. unfold be_val. cbn [rev app le_val].
  repeat match goal with H : bytes (_ :: _) |- _ => apply Forall_cons_1 in H as [? H] end.
  unfold is_byte in *. rewrite !Z.shiftl_mul_pow2, !u32_small by lia.
  rewrite (lor_high_low (b * 2 ^ 16) a 24) by lia.
  replace (a * 2 ^ 24 + b * 2 ^ 16) with ((a * 2 ^ 8 + b) * 2 ^ 16) by lia.
  rewrite lor_high_low by lia.
  replace ((a * 2 ^ 8 + b) * 2 ^ 16 + c * 2 ^ 8)
    with ((a * 2 ^ 16 + b * 2 ^ 8 + c) * 2 ^ 8) by lia.
  rewrite lor_high_low by lia. lia.
Qed.

(** ** The schedule and the rounds *)

Lemma length_schedule M n : length (Fips.schedule M n) = n.
Proof. induction n; cbn; [done|]. rewrite length_app. cbn. lia. Qed.

Lemma schedule_words M n : is_words M -> is_words (Fips.schedule M n).
Proof.
  intros HM. induction n as [|t IH]; cbn [Fips.schedule]; [done|].
  apply Forall_app. split; [done|]. apply Forall_singleton.
  case_match; auto with words. apply u32_word.
Qed.

Lemma schedule_prefix M n : (n <= 16)%nat -> length M = 16%nat ->
  Fips.schedule M n = take n M.
Proof.
  intros Hn HM. induction n as [|t IH]; [done|]. cbn [Fips.schedule].
  rewrite IH by lia. replace (t <? 16)%nat with true by lia.
  assert (t < length M)%nat as [x Hx]%lookup_lt_is_Some_2 by lia.
  erewrite take_S_r by done. do 2 f_equal.
  by apply nth_lookup_Some.
Qed.

Lemma extend_W_eq M t n :
  is_words M -> (16 <= t)%nat ->
  extend_W (Fips.schedule M t) n = Fips.schedule M (t + n).
Proof.
  intros HM. revert t. induction n as [|n IH]; intros t Ht; cbn [extend_W].
  { by rewrite Nat.add_0_r. }
  rewrite length_schedule. unfold at_, u32.
  pose proof (schedule_words M t HM) as Hw.
  rewrite sigma1_eq, sigma0_eq by auto with words.
  replace (t + S n)%nat with (S t + n)%nat by lia. rewrite <- IH by lia.
  cbn [Fips.schedule]. by replace (t <? 16)%nat with false by lia.
Qed.

Lemma words_range block : bytes block -> is_words (Fips.words block).
Proof.
  intros Hb. apply Forall_fmap, Forall_true. intros t. unfold compose, be_val.
  assert (Hx : bytes (rev (take 4 (drop (4 * t) block)))).
  { by apply Forall_rev, Forall_take, Forall_drop. }
  apply le_val_range in Hx as [H0 H1]. split; [done|].
  eapply Z.lt_le_trans; [exact H1|]. change (2 ^ 32) with (256 ^ 4).
  apply Z.pow_le_mono_r; [lia|]. rewrite length_rev, length_take. lia.
Qed.

Lemma message_schedule_eq block :
  bytes block -> length block = 64%nat ->
  message_schedule block = Fips.schedule (Fips.words block) 64.
Proof.
  intros Hb Hl. unfold message_schedule.
  assert (Hw : load_word block <$> seq 0 16 = Fips.words block).
  { apply list_fmap_ext. intros i t Ht%lookup_seq. apply load_word_eq; auto with lia. }
  assert (Hp : Fips.schedule (Fips.words block) 16 = Fips.words block).
  { rewrite schedule_prefix by done. by apply take_ge. }
  rewrite Hw. rewrite <- Hp at 1.
  by apply extend_W_eq; [apply words_range|lia].
Qed.

Definition regs_list (r : regs) : list Z :=
  [rA r; rB r; rC r; rD r; rE r; rF r; rG r; rH r].

Lemma sha_round_eq r k w :
  is_words (regs_list r) ->
  regs_list (sha_round r k w) = Fips.round (regs_list r) (k, w).
Proof.
  intros Hr. unfold regs_list in Hr.
  repeat match goal with H : Forall _ (_ :: _) |- _ => apply Forall_cons_1 in H as [? H] end.
  unfold sha_round, regs_list, Fips.round, u32; cbn [rA rB rC rD rE rF rG rH fst snd].
  rewrite Sigma0_eq, Sigma1_eq, Ch_eq by done.
  change SHA_Maj with Fips.Maj.
  by rewrite <- Z.add_mod, Z.add_mod_idemp_r by done.
Qed.

Lemma sha_round_words r k w :
  is_words (regs_list r) -> is_words (regs_list (sha_round r k w)).
Proof.
  intros Hr. unfold regs_list in *.
  repeat match goal with H : Forall _ (_ :: _) |- _ => apply Forall_cons_1 in H as [? H] end.
  cbn. repeat (apply Forall_cons_2; [auto using u32_word|]). done.
Qed.

Lemma sha_rounds_eq K W r :
  is_words (regs_list r) ->
  regs_list (sha_rounds r K W) = foldl Fips.round (regs_list r) (zip K W).
Proof.
  revert W r. induction K as [|k K IH]; intros [|w W] r Hr; try done.
  cbn [sha_rounds zip zip_with foldl]. rewrite IH by by apply sha_round_words.
  by rewrite sha_round_eq.
Qed.

Lemma process_block_eq c :
  length (Intermediate_Hash c) = 8%nat -> is_words (Intermediate_Hash c) ->
  bytes (Message_Block c) -> length (Message_Block c) = 64%nat ->
  Intermediate_Hash (SHA224_256ProcessMessageBlock c)
  = Fips.compress (Intermediate_Hash c) (Message_Block c).
Proof.
  intros Hl Hw Hb Hbl. cbn [SHA224_256ProcessMessageBlock Intermediate_Hash].
  rewrite message_schedule_eq by done. unfold Fips.compress.
  set (H := Intermediate_Hash c) in *.
  assert (HH : regs_list (load_regs H) = H).
  { do 8 (destruct H as [|? H]; [done|]). by destruct H. }
  rewrite <- HH at 3 4. rewrite <- sha_rounds_eq by by rewrite HH.
  done.
Qed.

Lemma compress_shape H block :
  length H = 8%nat -> length (Fips.compress H block) = 8%nat.
Proof.
  intros Hl. unfold Fips.compress. rewrite length_zip_with.
  assert (Hr : forall l v, length v = 8%nat -> length (foldl Fips.round v l) = 8%nat).
  { induction l as [|kw l IH]; intros v Hv; [done|]. apply IH.
    do 8 (destruct v as [|? v]; [done|]). by destruct v. }
  rewrite Hr by done. lia.
Qed.

Lemma compress_words H block : is_words (Fips.compress H block).
Proof.
  unfold Fips.compress. apply Forall_lookup_2. intros i x Hx.
  rewrite lookup_zip_with in Hx. destruct (H !! i), (foldl _ _ _ !! i); simplify_eq/=.
  apply u32_word.
Qed.

#[local] Opaque message_schedule sha_rounds Fips.compress.

(** ** Blocks of a message *)

Lemma hash_blocks_app n H m m' :
  (64 * n <= length m)%nat -> Fips.hash_blocks n H (m ++ m') = Fips.hash_blocks n H m.
Proof.
  revert H m. induction n as [|n IH]; intros H m Hl; [done|]. cbn [Fips.hash_blocks].
  rewrite take_app_le, drop_app_le by lia. apply IH. rewrite length_drop. lia.
Qed.

Lemma hash_blocks_add n1 n2 H m m' :
  length m = (64 * n1)%nat ->
  Fips.hash_blocks (n1 + n2) H (m ++ m')
  = Fips.hash_blocks n2 (Fips.hash_blocks n1 H m) m'.
Proof.
  revert H m. induction n1 as [|n IH]; intros H m Hl; cbn [Nat.add Fips.hash_blocks].
  { by destruct m. }
  rewrite take_app_le, drop_app_le by lia. apply IH. rewrite length_drop. lia.
Qed.

Lemma hash_blocks_one H block :
  length block = 64%nat -> Fips.hash_blocks 1 H block = Fips.compress H block.
Proof. intros Hl. cbn [Fips.hash_blocks]. by rewrite take_ge by lia. Qed.

Lemma hash_blocks_shape n H m :
  length H = 8%nat -> is_words H ->
  length (Fips.hash_blocks n H m) = 8%nat /\ is_words (Fips.hash_blocks n H m).
Proof.
  revert H m. induction n as [|n IH]; intros H m Hl Hw; [done|].
  apply IH; auto using compress_shape, compress_words.
Qed.

(** ** What a context stands for

    The context has absorbed [m]: whole blocks [pre] are in the hash value, the
    rest [tail] is at the front of the block. *)
Section streaming.
  Context (H0 : list Z) (H0_len : length H0 = 8%nat) (H0_words : is_words H0).

Record sha_rep (c : SHA256Context) (m : list Z) : Prop := {
    sr_bytes : bytes m;
    sr_block : length (Message_Block c) = 64%nat /\ bytes (Message_Block c);
    sr_split : exists n pre tail,
      m = pre ++ tail /\ length pre = (64 * n)%nat /\ (length tail < 64)%nat /\
      Intermediate_Hash c = Fips.hash_blocks n H0 pre /\
      Message_Block_Index c = Z.of_nat (length tail) /\
      take (length tail) (Message_Block c) = tail;
    sr_length : Length_High c * 2 ^ 32 + Length_Low c = 8 * Z.of_nat (length m) /\
      0 <= Length_Low c < 2 ^ 32 /\ 0 <= Length_High c < 2 ^ 32;
    sr_flags : Computed c = 0 /\ Corrupted c = 0;
  }.

Lemma reset_rep c :
    length (Message_Block c) = 64%nat -> bytes (Message_Block c) ->
    exists c', SHA224_256Reset (Some c) H0 = (shaSuccess, Some c') /\ sha_rep c' [].
  Proof.
    intros Hl Hb. eexists. split; [done|].
    split; cbn; try done. 
    exists 0%nat, [], []. cbn. auto 10 with lia.
  Qed.

  (** The bytes of the block once [b] has been put at [length tail]. *)
Lemma take_insert_snoc (block : list Z) tail b :
    (length tail < length block)%nat -> take (length tail) block = tail ->
    take (S (length tail)) (<[length tail:=b]> block) = tail ++ [b].
  Proof.
    intros Hl Ht. rewrite insert_take_drop, Ht by done.
    rewrite take_app_ge by lia. rewrite Nat.sub_succ_l, Nat.sub_diag by lia. done.
  Qed.

Lemma add_length_spec c len m :
    Length_High c * 2 ^ 32 + Length_Low c = m -> 0 <= Length_Low c < 2 ^ 32 ->
    0 <= Length_High c < 2 ^ 32 -> 0 <= len < 2 ^ 32 -> m + len < 2 ^ 64 ->
    let c' := SHA224_256AddLength c len in
    Length_High c' * 2 ^ 32 + Length_Low c' = m + len /\
    0 <= Length_Low c' < 2 ^ 32 /\ 0 <= Length_High c' < 2 ^ 32 /\ Corrupted c' = 0.
  Proof.
    intros Hm Hlo Hhi Hlen Hb. cbn.
    assert (Hsum : u32 (Length_Low c + len) = Length_Low c + len /\ Length_Low c + len < 2 ^ 32
      \/ u32 (Length_Low c + len) = Length_Low c + len - 2 ^ 32 /\ 2 ^ 32 <= Length_Low c + len).
    { unfold u32. destruct (decide (Length_Low c + len < 2 ^ 32)).
      - left. rewrite Z.mod_small; lia.
      - right. split; [|lia]. rewrite <- (Z.mod_add _ (-1)), Z.mod_small; lia. }
    destruct Hsum as [[-> ?]|[-> ?]].
    - replace (_ <? Length_Low c) with false by lia. cbn. lia.
    - replace (_ <? Length_Low c) with true by lia. cbn.
      rewrite u32_small by lia. replace (_ =? 0) with false by lia. lia.
  Qed.

  (** One byte of the input loop. *)
Lemma input_byte c m b :
    sha_rep c m -> is_byte b -> 8 * (Z.of_nat (length m) + 1) < 2 ^ 64 ->
    exists c', sha_rep c' (m ++ [b]) /\
      forall rest, sha_input_loop c (b :: rest) = sha_input_loop c' rest.
  Proof.
    intros [Hm [Hbl Hbb] (n & pre & tail & -> & Hpre & Htail & Hih & Hidx & Htk)
            (Hlen & Hlo & Hhi) [Hcomp Hcorr]] Hb Hbound.
    assert (Hland : Z.land b 255 = b).
    { change 255 with (Z.ones 8). rewrite Z.land_ones by lia. by apply u8_small. }
    destruct (add_length_spec (push_byte c b) 8 (8 * Z.of_nat (length (pre ++ tail))))
      as (HL & HLlo & HLhi & Hcor); [done..|lia|lia|].
    set (c1 := SHA224_256AddLength (push_byte c b) 8) in *.
    assert (Hblock : Message_Block c1 = <[length tail:=b]> (Message_Block c)).
    { cbn. by rewrite Hidx, Nat2Z.id. }
    assert (Hblock_ok : length (Message_Block c1) = 64%nat /\ bytes (Message_Block c1)).
    { rewrite Hblock, length_insert. split; [done|]. by apply Forall_insert. }
    assert (Hm' : bytes ((pre ++ tail) ++ [b])) by (apply Forall_app; by auto).
    assert (Hlen' : 8 * Z.of_nat (length ((pre ++ tail) ++ [b]))
                    = 8 * Z.of_nat (length (pre ++ tail)) + 8) by (rewrite length_app; cbn; lia).
    pose proof (take_insert_snoc (Message_Block c) tail b ltac:(lia) Htk) as Htk'.
    assert (Hfull : Message_Block_Index c1 = Z.of_nat (length tail) + 1) by (cbn; lia).
    destruct (decide (length tail = 63%nat)) as [H63|Hlt].
    - exists (SHA224_256ProcessMessageBlock c1). split.
      + destruct Hblock_ok as [Hbl1 Hbb1].
        split; [done|by split| |by rewrite Hlen'|by split].
        assert (Hfb : Message_Block c1 = tail ++ [b]).
        { rewrite <- Htk', Hblock. symmetry. apply take_ge. rewrite length_insert. lia. }
        exists (S n), ((pre ++ tail) ++ [b]), [].
        split; [by rewrite app_nil_r|]. split; [rewrite !length_app; cbn; lia|].
        split; [cbn; lia|]. split; [|done].
        rewrite process_block_eq; [|cbn; rewrite Hih; by apply hash_blocks_shape..|done|done].
        rewrite <- app_assoc, <- Nat.add_1_r, hash_blocks_add by done.
        rewrite hash_blocks_one by (rewrite length_app; cbn; lia).
        rewrite Hfb. cbn. by rewrite Hih.
      + intros rest. cbn [sha_input_loop]. rewrite Hcorr, Hland. cbn [negb Z.eqb].
        fold c1. rewrite Hcor, Hfull, H63. done.
    - exists c1. split.
      + split; [done|done| |by rewrite Hlen'|done].
        exists n, pre, (tail ++ [b]). rewrite app_assoc, Hblock.
        split; [done|]. split; [done|].
        split; [rewrite length_app; cbn; lia|]. split; [done|].
        rewrite length_app; cbn [length]. split; [lia|]. by rewrite Nat.add_1_r.
      + intros rest. cbn [sha_input_loop]. rewrite Hcorr, Hland. cbn [negb Z.eqb].
        fold c1. rewrite Hcor, Hfull. unfold SHA256_Message_Block_Size.
        replace (_ + 1 =? 64) with false by lia. done.
  Qed.

Lemma input_loop_rep bs c m :
    sha_rep c m -> bytes bs -> 8 * Z.of_nat (length m + length bs) < 2 ^ 64 ->
    sha_rep (sha_input_loop c bs) (m ++ bs).
  Proof.
    revert c m. induction bs as [|b bs IH]; intros c m Hr Hb Hl.
    { by rewrite app_nil_r. }
    apply Forall_cons_1 in Hb as [Hb Hbs]. cbn [length] in Hl.
    destruct (input_byte c m b) as (c' & Hr' & Heq); [done..|lia|].
    rewrite Heq, cons_middle, app_assoc. apply IH; [done..|].
    rewrite length_app. cbn. lia.
  Qed.

  (** [SHA256Input] absorbs the bytes it is given. *)
Lemma input_rep c m bs :
    sha_rep c m -> bytes bs -> 8 * Z.of_nat (length m + length bs) < 2 ^ 64 ->
    exists c', SHA256Input (Some c) (Some bs) (Z.of_nat (length bs)) = (shaSuccess, Some c')
      /\ sha_rep c' (m ++ bs).
  Proof.
    intros Hr Hb Hl. unfold SHA256Input. destruct bs as [|b bs].
    { exists c. by rewrite app_nil_r. }
    replace (_ =? 0) with false by (cbn; lia).
    destruct (sr_flags _ _ Hr) as [-> ->]. eexists. split; [done|].
    rewrite Nat2Z.id, take_ge by lia. by apply input_loop_rep.
  Qed.

  (** *** Padding *)

Lemma push_zeros_spec n c k :
    Message_Block_Index c = Z.of_nat k -> length (Message_Block c) = 64%nat ->
    (k + n <= 64)%nat ->
    let c' := push_zeros n c in
    Message_Block_Index c' = Z.of_nat (k + n) /\ length (Message_Block c') = 64%nat /\
    take (k + n) (Message_Block c') = take k (Message_Block c) ++ replicate n 0 /\
    Intermediate_Hash c' = Intermediate_Hash c /\
    Length_Low c' = Length_Low c /\ Length_High c' = Length_High c /\
    Corrupted c' = Corrupted c.
  Proof.
    revert c k. induction n as [|n IH]; intros c k Hi Hl Hk; cbn [push_zeros].
    { rewrite Nat.add_0_r, app_nil_r. done. }
    destruct (IH (push_byte c 0) (S k)) as (H1 & H2 & H3 & H4 & H5 & H6 & H7);
      [cbn; lia|by cbn; rewrite length_insert|lia|].
    replace (k + S n)%nat with (S k + n)%nat by lia.
    repeat (split; [done|]). split; [|done].
    rewrite H3. cbn [push_byte Message_Block replicate].
    assert (Htl : length (take k (Message_Block c)) = k) by (rewrite length_take; lia).
    pose proof (take_insert_snoc (Message_Block c) (take k (Message_Block c)) 0) as Ht.
    rewrite Htl in Ht. rewrite Hi, Nat2Z.id, Ht by (done || lia).
    by rewrite <- app_assoc.
  Qed.

  (** The eight length bytes are the big-endian length. *)
Lemma length_bytes_eq hi lo :
    0 <= hi < 2 ^ 32 -> 0 <= lo < 2 ^ 32 ->
    [u8 (Z.shiftr hi 24); u8 (Z.shiftr hi 16); u8 (Z.shiftr hi 8); u8 hi;
     u8 (Z.shiftr lo 24); u8 (Z.shiftr lo 16); u8 (Z.shiftr lo 8); u8 lo]
    = be_bytes 8 (hi * 2 ^ 32 + lo).
  Proof.
    intros Hhi Hlo. unfold be_bytes. cbn [le_bytes rev app].
    assert (Hq : (hi * 2 ^ 32 + lo) / 256 / 256 / 256 / 256 = hi).
    { rewrite !Z.div_div by lia. cbn [Z.mul Pos.mul].
      rewrite Z.div_add_l, Z.div_small by lia. lia. }
    rewrite Hq. unfold u8. change (2 ^ 8) with 256.
    rewrite !Z.shiftr_div_pow2, !Z.div_div by lia.
    change (2 ^ 24) with (256 * (256 * 256)). change (2 ^ 16) with (256 * 256).
    change (2 ^ 8) with 256.
    assert (Hl : forall p, 0 < p -> (p * 256 | 2 ^ 32) ->
      (lo / p) mod 256 = ((hi * 2 ^ 32 + lo) / p) mod 256).
    { intros p Hp [q Hq']. rewrite Hq', Z.mul_assoc, Z.mul_assoc.
      replace (hi * q * p * 256 + lo) with (hi * q * 256 * p + lo) by lia.
      rewrite Z.div_add_l, Z.add_comm, Z.mod_add by lia. done. }
    rewrite (Hl (256 * (256 * 256))), (Hl (256 * 256)), (Hl 256) by (lia || by apply Z.mod_divide).
    pose proof (Hl 1 ltac:(lia) ltac:(by apply Z.mod_divide)) as H1.
    rewrite !Z.div_1_r in H1. by rewrite H1.
  Qed.

Lemma bytes_zeros n : bytes (replicate n 0).
  Proof. apply Forall_replicate. unfold is_byte. lia. Qed.

  (** Filling up to the length field and compressing the last block. *)
Lemma last_block c H t len :
    length H = 8%nat -> is_words H -> Intermediate_Hash c = H ->
    Message_Block_Index c = Z.of_nat (length t) -> length (Message_Block c) = 64%nat ->
    take (length t) (Message_Block c) = t -> bytes t -> (length t <= 56)%nat ->
    Length_High c * 2 ^ 32 + Length_Low c = len ->
    0 <= Length_Low c < 2 ^ 32 -> 0 <= Length_High c < 2 ^ 32 ->
    let c' := SHA224_256ProcessMessageBlock (store_length (zero_fill_to 56 c)) in
    Intermediate_Hash c'
    = Fips.compress H (t ++ replicate (56 - length t) 0 ++ be_bytes 8 len) /\
    Corrupted c' = Corrupted c.
  Proof.
    intros HHl HHw HH Hidx Hbl Htk Ht Hle Hlen Hlo Hhi. unfold zero_fill_to.
    rewrite Hidx. replace (Z.to_nat (56 - _)) with (56 - length t)%nat by lia.
    destruct (push_zeros_spec (56 - length t) c (length t))
      as (H1 & H2 & H3 & H4 & H5 & H6 & H7); [done|done|lia|].
    set (c1 := push_zeros _ c) in *.
    replace (length t + (56 - length t))%nat with 56%nat in H3 by lia.
    assert (Hblk : Message_Block (store_length c1)
      = t ++ replicate (56 - length t) 0 ++ be_bytes 8 len).
    { unfold store_length. cbn [Message_Block].
      rewrite H3, length_bytes_eq, Htk, <- app_assoc by (rewrite ?H5, ?H6; done).
      by rewrite H5, H6, Hlen. }
    split; [|done]. rewrite process_block_eq.
    - rewrite Hblk. cbn [store_length Intermediate_Hash]. by rewrite H4, HH.
    - cbn [store_length Intermediate_Hash]. by rewrite H4, HH.
    - cbn [store_length Intermediate_Hash]. by rewrite H4, HH.
    - rewrite Hblk. apply Forall_app_2; [done|]. apply Forall_app_2; [apply bytes_zeros|apply be_bytes_bytes].
    - rewrite Hblk, !length_app, length_replicate, length_be_bytes. lia.
  Qed.

Lemma hash_blocks_last n k pre rest :
    length pre = (64 * n)%nat -> length rest = (64 * k)%nat ->
    Fips.hash_blocks (length (pre ++ rest) / 64) H0 (pre ++ rest)
    = Fips.hash_blocks k (Fips.hash_blocks n H0 pre) rest.
  Proof.
    intros Hp Hr. rewrite <- hash_blocks_add by done. f_equal.
    rewrite length_app, Hp, Hr, <- Nat.mul_add_distr_l, Nat.mul_comm.
    by rewrite Nat.div_mul.
  Qed.

  (** The number of zero bytes of the padding, from the bytes of the last block. *)
Lemma zeros_eq n (pre tail : list Z) :
    length pre = (64 * n)%nat -> (length tail < 64)%nat ->
    Z.to_nat ((55 - Z.of_nat (length (pre ++ tail))) mod 64)
    = if (56 <=? length tail)%nat then (63 - length tail + 56)%nat
      else (55 - length tail)%nat.
  Proof.
    intros Hp Ht. rewrite length_app, Hp.
    replace (55 - Z.of_nat (64 * n + length tail))
      with (55 - Z.of_nat (length tail) + (- Z.of_nat n) * 64) by lia.
    rewrite Z.mod_add by lia. destruct (56 <=? length tail)%nat eqn:E.
    - rewrite <- (Z.mod_add _ 1), Z.mod_small; lia.
    - rewrite Z.mod_small; lia.
  Qed.

Lemma length_padded (tail : list Z) k len :
    length (tail ++ 128 :: replicate k 0 ++ be_bytes 8 len) = (length tail + k + 9)%nat.
  Proof.
    rewrite length_app. cbn [length].
    rewrite length_app, length_replicate, length_be_bytes. lia.
  Qed.

Lemma pad_message_rep c m :
    sha_rep c m -> 8 * Z.of_nat (length m) < 2 ^ 64 ->
    let c' := SHA224_256PadMessage c 128 in
    Intermediate_Hash c' = Fips.hash_blocks (length (Fips.pad m) / 64) H0 (Fips.pad m) /\
    Corrupted c' = 0.
  Proof.
    intros [Hm [Hbl Hbb] (n & pre & tail & -> & Hpre & Htail & Hih & Hidx & Htk)
            (Hlen & Hlo & Hhi) [Hcomp Hcorr]] Hbound.
    destruct (hash_blocks_shape n H0 pre H0_len H0_words) as [Hs1 Hs2].
    set (len := 8 * Z.of_nat (length (pre ++ tail))) in *.
    pose proof (take_insert_snoc (Message_Block c) tail 128 ltac:(lia) Htk) as Htk'.
    apply Forall_app in Hm as [_ Htb].
    assert (Hb128 : bytes (tail ++ [128])).
    { apply Forall_app_2; [done|]. apply Forall_singleton. by split. }
    assert (Hl1 : length (tail ++ [128]) = S (length tail)) by (rewrite length_app; cbn; lia).
    assert (Hp1 : Message_Block (push_byte c 128) = <[length tail:=128]> (Message_Block c)).
    { cbn. by rewrite Hidx, Nat2Z.id. }
    assert (Hi1 : Message_Block_Index (push_byte c 128) = Z.of_nat (length (tail ++ [128]))).
    { cbn. lia. }
    unfold Fips.pad, Fips.padding. rewrite (zeros_eq n pre tail) by done. fold len.
    rewrite <- app_assoc. unfold SHA224_256PadMessage, SHA256_Message_Block_Size.
    change (64 - 8) with 56. rewrite Hidx. destruct (56 <=? length tail)%nat eqn:E.
    - replace (56 <=? _) with true by lia.
      assert (Ez : zero_fill_to 64 (push_byte c 128)
                   = push_zeros (63 - length tail) (push_byte c 128)).
      { unfold zero_fill_to. rewrite Hi1, Hl1. f_equal. lia. }
      rewrite Ez. clear Ez.
      destruct (push_zeros_spec (63 - length tail) (push_byte c 128) (S (length tail)))
        as (P1 & P2 & P3 & P4 & P5 & P6 & P7);
        [by rewrite Hi1, Hl1|by rewrite Hp1, length_insert|lia|].
      set (c1 := push_zeros _ _) in *. rewrite Hp1, Htk' in P3.
      rewrite take_ge in P3 by lia.
      assert (HI1 : Intermediate_Hash (SHA224_256ProcessMessageBlock c1)
        = Fips.compress (Fips.hash_blocks n H0 pre)
            ((tail ++ [128]) ++ replicate (63 - length tail) 0)).
      { rewrite process_block_eq, P3, P4; [by cbn; rewrite Hih|..].
        - rewrite P4. cbn. by rewrite Hih.
        - rewrite P4. cbn. by rewrite Hih.
        - rewrite P3. apply Forall_app_2; [done|apply bytes_zeros].
        - done. }
      destruct (last_block (SHA224_256ProcessMessageBlock c1) _ [] len
                  (compress_shape _ _ Hs1) (compress_words _ _) HI1) as [HA HB];
        try done; [cbn; lia|by cbn; rewrite P5, P6|by cbn; rewrite P5|by cbn; rewrite P6|].
      split; [|rewrite HB; cbn; by rewrite P7]. rewrite HA.
      rewrite (hash_blocks_last n 2) by
        (done || rewrite length_padded; lia).
      assert (Esplit : tail ++ 128 :: replicate (63 - length tail + 56) 0 ++ be_bytes 8 len
        = ((tail ++ [128]) ++ replicate (63 - length tail) 0) ++ replicate 56 0 ++ be_bytes 8 len).
      { by rewrite replicate_add, <- !app_assoc. }
      rewrite Esplit, (hash_blocks_add 1 1) by
        (rewrite !length_app, length_replicate; cbn; lia).
      rewrite !hash_blocks_one; [done|..];
        rewrite !length_app, !length_replicate, ?length_be_bytes; cbn; lia.
    - replace (56 <=? _) with false by lia.
      rewrite (hash_blocks_last n 1) by
        (done || rewrite length_padded; lia).
      rewrite hash_blocks_one by
        (rewrite length_padded; lia).
      destruct (last_block (push_byte c 128) _ (tail ++ [128]) len Hs1 Hs2) as [HA HB];
        try done; [by rewrite Hp1, length_insert|by rewrite Hl1, Hp1|lia|].
      split; [|by rewrite HB]. rewrite HA, Hl1. f_equal. rewrite <- app_assoc. cbn.
      do 3 f_equal.
  Qed.

Lemma digest_bytes_eq H :
    length H = 8%nat -> is_words H ->
    digest_byte H <$> seq 0 32 = concat (be_bytes 4 <$> H).
  Proof.
    intros Hl Hw. do 8 (destruct H as [|? H]; [done|]). destruct H; [|done].
    assert (Hb : forall x, is_word x ->
      [u8 (Z.shiftr x 24); u8 (Z.shiftr x 16); u8 (Z.shiftr x 8); u8 (Z.shiftr x 0)]
      = be_bytes 4 x).
    { intros x Hx. unfold be_bytes. cbn [le_bytes rev app].
      rewrite !Z.shiftr_div_pow2, !Z.div_div, Z.div_1_r by lia. done. }
    repeat match goal with H : Forall _ (_ :: _) |- _ => apply Forall_cons_1 in H as [? H] end.
    cbn [fmap list_fmap concat]. rewrite <- !Hb by done. done.
  Qed.

Lemma length_digest m : length (Fips.digest H0 m) = 32%nat.
  Proof.
    unfold Fips.digest. rewrite (length_concat_uniform 4).
    - rewrite length_fmap, (proj1 (hash_blocks_shape _ H0 _ H0_len H0_words)). done.
    - apply Forall_fmap, Forall_true. intros x. apply length_be_bytes.
  Qed.

Lemma digest_is_bytes m : bytes (Fips.digest H0 m).
  Proof.
    apply Forall_concat, Forall_fmap, Forall_true. intros x. apply be_bytes_bytes.
  Qed.

  (** The result of a context that has absorbed [m]. *)
Lemma result_rep c m HashSize :
    sha_rep c m -> 8 * Z.of_nat (length m) < 2 ^ 64 ->
    0 <= HashSize <= 32 ->
    exists c', SHA224_256ResultN (Some c) true HashSize
      = (shaSuccess, Some c', Some (take (Z.to_nat HashSize) (Fips.digest H0 m))) /\
      Computed c' = 1.
  Proof.
    intros Hr Hb HS. destruct (sr_flags _ _ Hr) as [Hc Hk]. unfold SHA224_256ResultN.
    rewrite Hc, Hk. cbn [Z.eqb negb].
    destruct (pad_message_rep c m Hr Hb) as [Hi _].
    exists (SHA224_256Finalize c 128). split; [|done]. do 2 f_equal. unfold SHA224_256Finalize. cbn [Intermediate_Hash].
    rewrite Hi. unfold Fips.digest.
    set (n := (length (Fips.pad m) / 64)%nat).
    destruct (hash_blocks_shape n H0 (Fips.pad m) H0_len H0_words) as [S1 S2].
    rewrite <- digest_bytes_eq, <- fmap_take by done. do 2 f_equal.
    rewrite take_seq. f_equal. lia.
  Qed.

  (** Feeding chunks one after the other. *)
Fixpoint sha_feed (c : option SHA256Context) (chunks : list (list Z))
    : Z * option SHA256Context :=
    match chunks with
    | [] => (shaSuccess, c)
    | bs :: chunks =>
        let '(err, c') := SHA256Input c (Some bs) (Z.of_nat (length bs)) in
        if err =? shaSuccess then sha_feed c' chunks else (err, c')
    end.

Lemma feed_rep chunks c m :
    sha_rep c m -> Forall bytes chunks ->
    8 * Z.of_nat (length m + length (concat chunks)) < 2 ^ 64 ->
    exists c', sha_feed (Some c) chunks = (shaSuccess, Some c') /\
      sha_rep c' (m ++ concat chunks).
  Proof.
    revert c m. induction chunks as [|bs chunks IH]; intros c m Hr Hf Hl; cbn [sha_feed concat].
    { exists c. by rewrite app_nil_r. }
    apply Forall_cons_1 in Hf as [Hb Hf]. cbn [concat] in Hl. rewrite length_app in Hl.
    destruct (input_rep c m bs) as (c' & -> & Hr'); [done..|lia|].
    cbn [Z.eqb shaSuccess]. rewrite app_assoc. apply IH; [done..|].
    rewrite length_app. lia.
  Qed.
End streaming.

(** ** Correctness of the streaming interface *)

Definition ctx_ok (c : SHA256Context) : Prop :=
  length (Message_Block c) = 64%nat /\ bytes (Message_Block c).

(** C12. SHA-256 as the library computes it is the SHA-256 of FIPS 180-4: on any
    (even uninitialised) context, [SHA256Reset], any sequence of [SHA256Input]
    calls and [SHA256Result] all succeed and deliver the digest of the
    concatenated input, for every message of less than 2^64 bits. *)
Theorem sha256_streaming_correct c chunks :
  ctx_ok c -> Forall bytes chunks -> 8 * Z.of_nat (length (concat chunks)) < 2 ^ 64 ->
  exists c1 c2 c3,
    SHA256Reset (Some c) = (shaSuccess, Some c1) /\
    sha_feed (Some c1) chunks = (shaSuccess, Some c2) /\
    SHA256Result (Some c2) true = (shaSuccess, Some c3, Some (Fips.sha256 (concat chunks))).
Proof.
  intros [Hl Hb] Hf Hlen.
  assert (HW : is_words SHA256_H0) by (by repeat constructor).
  destruct (reset_rep SHA256_H0 eq_refl c Hl Hb) as (c1 & H1 & R1).
  destruct (feed_rep SHA256_H0 eq_refl HW chunks c1 [] R1 Hf Hlen) as (c2 & H2 & R2).
  destruct (result_rep SHA256_H0 eq_refl HW c2 (concat chunks) 32 R2 Hlen ltac:(lia))
    as (c3 & H3 & _).
  exists c1, c2, c3. split; [done|]. split; [done|].
  unfold SHA256Result, SHA256HashSize, Fips.sha256. rewrite H3.
  by rewrite take_ge by (rewrite length_digest by done; cbn; lia).
Qed.

(** SHA-224, which shares the code, returns the first 28 bytes of the digest
    computed from its own initial hash value. *)
Theorem sha224_streaming_correct c chunks :
  ctx_ok c -> Forall bytes chunks -> 8 * Z.of_nat (length (concat chunks)) < 2 ^ 64 ->
  exists c1 c2 c3,
    SHA224Reset (Some c) = (shaSuccess, Some c1) /\
    sha_feed (Some c1) chunks = (shaSuccess, Some c2) /\
    SHA224Result (Some c2) true = (shaSuccess, Some c3, Some (Fips.sha224 (concat chunks))).
Proof.
  intros [Hl Hb] Hf Hlen.
  assert (HW : is_words SHA224_H0) by (by repeat constructor).
  destruct (reset_rep SHA224_H0 eq_refl c Hl Hb) as (c1 & H1 & R1).
  destruct (feed_rep SHA224_H0 eq_refl HW chunks c1 [] R1 Hf Hlen) as (c2 & H2 & R2).
  destruct (result_rep SHA224_H0 eq_refl HW c2 (concat chunks) 28 R2 Hlen ltac:(lia))
    as (c3 & H3 & _).
  by exists c1, c2, c3.
Qed.

(** Input that comes after the digest has been computed is refused, and the
    context is marked so that every later call fails. *)
Theorem sha_input_after_result c bs bits len :
  Computed c = 1 -> bs <> [] -> 0 < len ->
  exists c', SHA256Input (Some c) (Some bs) (Z.of_nat (length bs)) = (shaStateError, Some c') /\
    SHA256FinalBits (Some c) bits len = (shaStateError, Some c') /\
    SHA256Result (Some c') true = (shaStateError, Some c', None).
Proof.
  intros Hc Hbs Hlen. exists (set_corrupted c shaStateError).
  unfold SHA256Input, SHA256FinalBits. rewrite Hc.
  replace (_ =? 0) with false by (destruct bs; cbn; lia || done).
  by replace (len =? 0) with false by lia.
Qed.

(** A context as it lies on the stack before [SHA256Reset]. *)
Definition stack_ctx : SHA256Context :=
  Mk_ctx (replicate 8 1) 7 7 99 (replicate 64 170) 1 3.

(** The five-bit message of the NIST test set. *)
Example sha256_final_bits :
  match SHA256Reset (Some stack_ctx) with
  | (_, c) => match SHA256FinalBits c 0x68 5 with
              | (_, c) => (SHA256Result c true).2
              end
  end = Some
  [0xD6;0xD3;0xE0;0x2A;0x31;0xA8;0x4A;0x8C;0xAA;0x97;0x18;0xED;0x6C;0x20;0x57;0xBE;
   0x09;0xDB;0x45;0xE7;0x82;0x3E;0xB5;0x07;0x9C;0xE7;0xA5;0x73;0xA3;0x76;0x0F;0x95].
Proof. vm_compute. reflexivity. Qed.

Lemma sha256_streaming_witness :
  exists c1 c2 c3,
    SHA256Reset (Some stack_ctx) = (shaSuccess, Some c1) /\
    sha_feed (Some c1) [[97]; []; [98; 99]] = (shaSuccess, Some c2) /\
    SHA256Result (Some c2) true = (shaSuccess, Some c3, Some (Fips.sha256 [97; 98; 99])).
Proof.
  apply (sha256_streaming_correct stack_ctx [[97]; []; [98; 99]]).
  - split; [done|]. by apply Forall_replicate.
  - by repeat constructor.
  - done.
Defined.

Lemma sha224_streaming_witness :
  exists c1 c2 c3,
    SHA224Reset (Some stack_ctx) = (shaSuccess, Some c1) /\
    sha_feed (Some c1) [[97; 98]; [99]] = (shaSuccess, Some c2) /\
    SHA224Result (Some c2) true = (shaSuccess, Some c3, Some (Fips.sha224 [97; 98; 99])).
Proof.
  apply (sha224_streaming_correct stack_ctx [[97; 98]; [99]]).
  - split; [done|]. by apply Forall_replicate.
  - by repeat constructor.
  - done.
Defined.
