(* ===== verification/MtCrypto.v ===== *)
(** * The node hash of the Merkle tree

    Model of [merkle-tree/src/mt_crypto.c]: [mt_hash] hashes two nodes with
    SHA-256.  [NodeHash] is what the tree relies on; the tree's theorems are
    proved against it and [sha256_node_hash] discharges it with [mt_hash]. *)

From stdpp Require Import base tactics list numbers option.
From Stdlib Require Import ZArith Lia ZifyBool.
From S2P Require Import Prelude MtArrList Sha256.

Local Open Scope Z_scope.

(** ** [mt_hash]

    [ctx] is the uninitialised automatic variable; [message_digest] is the
    caller's buffer, which may be one of the inputs. *)
Definition mt_hash (ctx : SHA256Context)
    (left right message_digest : option (list Z)) : mt_error_t * option (list Z) :=
  match left, right, message_digest with
  | Some l, Some r, Some _ =>
      let '(e, c) := SHA256Reset (Some ctx) in
      if negb (e =? shaSuccess) then (MT_ERR_ILLEGAL_STATE, message_digest) else
      let '(e, c) := SHA256Input c (Some l) HASH_LENGTH in
      if negb (e =? shaSuccess) then (MT_ERR_ILLEGAL_STATE, message_digest) else
      let '(e, c) := SHA256Input c (Some r) HASH_LENGTH in
      if negb (e =? shaSuccess) then (MT_ERR_ILLEGAL_STATE, message_digest) else
      let '(e, _, digest) := SHA256Result c true in
      if negb (e =? shaSuccess) then (MT_ERR_ILLEGAL_STATE, message_digest)
      else (MT_SUCCESS, digest)
  | _, _, _ => (MT_ERR_ILLEGAL_PARAM, message_digest)
  end.

(** ** What the tree needs of it *)

Class NodeHash := {
  hash_nodes : option (list Z) -> option (list Z) -> option (list Z) ->
               mt_error_t * option (list Z);
  combine : list Z -> list Z -> list Z;
  combine_is_hash l r : is_hash l -> is_hash r -> is_hash (combine l r);
  hash_nodes_null r d : hash_nodes None r d = (MT_ERR_ILLEGAL_PARAM, d);
  hash_nodes_ok l r d :
    is_hash l -> is_hash r -> hash_nodes (Some l) (Some r) (Some d) = (MT_SUCCESS, Some (combine l r));
}.

(** [mt_hash] is SHA-256 of the concatenation, whatever the stack held. *)
Lemma mt_hash_sha256 ctx l r d :
  ctx_ok ctx -> is_hash l -> is_hash r ->
  mt_hash ctx (Some l) (Some r) (Some d) = (MT_SUCCESS, Some (Fips.sha256 (l ++ r))).
Proof.
  intros [Hcl Hcb] [Hl Hlb] [Hr Hrb].
  assert (HW : is_words SHA256_H0) by (by repeat constructor).
  destruct (reset_rep SHA256_H0 eq_refl ctx Hcl Hcb) as (c1 & H1 & R1).
  destruct (input_rep SHA256_H0 eq_refl HW c1 [] l R1 Hlb) as (c2 & H2 & R2);
    [rewrite Hl; cbn; lia|].
  destruct (input_rep SHA256_H0 eq_refl HW c2 _ r R2 Hrb) as (c3 & H3 & R3);
    [cbn; rewrite Hl, Hr; cbn; lia|].
  destruct (result_rep SHA256_H0 eq_refl HW c3 _ 32 R3) as (c4 & H4 & _);
    [cbn; rewrite length_app, Hl, Hr; cbn; lia|lia|].
  unfold mt_hash, SHA256Reset, SHA256Result, SHA256HashSize, HASH_LENGTH.
  rewrite H1. cbn [negb Z.eqb shaSuccess].
  rewrite Hl in H2. rewrite Hr in H3. change (Z.of_nat 32) with 32 in *.
  rewrite H2. cbn [negb Z.eqb shaSuccess]. rewrite H3. cbn [negb Z.eqb shaSuccess].
  rewrite H4. cbn [negb Z.eqb shaSuccess]. unfold Fips.sha256.
  by rewrite take_ge by (rewrite length_digest by done; cbn; lia).
Qed.

#[export, program] Instance sha256_node_hash : NodeHash := {|
  hash_nodes := mt_hash stack_ctx;
  combine l r := Fips.sha256 (l ++ r);
|}.
Next Obligation.
  intros l r _ _. split.
  - by apply length_digest; [|repeat constructor].
  - by apply digest_is_bytes.
Qed.
Next Obligation. done. Qed.
Next Obligation.
  intros l r d Hl Hr. apply mt_hash_sha256; [|done..].
  split; [done|]. by apply Forall_replicate.
Qed.
