(* ===== verification/MerkleTree.v ===== *)
(** * The Merkle tree

    Model of [merkle-tree/src/mt_impl.c] and the tree type of [merkletree.h].
    A tree is the number of its leaves and 24 array lists, one per level; a node
    is stored at level [l] only once its right child exists, so incomplete right
    edges are found one or more levels further down ([findRightNeighbor]).

    [mth] is the specification: the root of a list of leaves, split at the
    largest power of two below its length (the tree of RFC 6962 without its
    leaf prefix).  [tree_rep mt ls] says that [mt] is the tree of [ls]. *)

From stdpp Require Import base tactics list numbers option strings.
From Stdlib Require Import ZArith Lia ZifyBool.
From S2P Require Import Prelude MtArrList Sha256 MtCrypto.

Local Open Scope Z_scope.

(** ** The type *)

Record mt_t := Mk_mt {
  mt_elems : Z;
  level : list (option mt_al_t);     (** [TREE_LEVELS] pointers *)
}.

(** [mt->level[l]] *)
Definition level_at (mt : mt_t) (l : Z) : M (option mt_al_t) :=
  if (l <? 0) || (TREE_LEVELS <=? l) then throw OutOfBounds
  else match level mt !! Z.to_nat l with
       | Some p => mret p
       | None => throw OutOfBounds
       end.

(** The array list behind [mt->level[l]] after a call that modified it. *)
Definition set_level (mt : mt_t) (l : Z) (al : mt_al_t) : mt_t :=
  Mk_mt (mt_elems mt) (<[Z.to_nat l := Some al]> (level mt)).

(** ** Creation and deletion *)

(** [for (j = 0; j < i; ++j) mt_al_delete(mt->level[j])] *)
Fixpoint delete_levels (ls : list (option mt_al_t)) : M unit :=
  match ls with
  | [] => mret tt
  | l :: ls => _ ← mt_al_delete l; delete_levels ls
  end.

(** The loop of [mt_create]: [n] levels are still to be made. *)
Fixpoint create_levels (n : nat) (made : list (option mt_al_t))
  : M (option (list (option mt_al_t))) :=
  match n with
  | O => mret (Some made)
  | S n =>
      tmp ← mt_al_create;
      match tmp with
      | None => _ ← delete_levels made; mret None
      | Some al => create_levels n (made ++ [Some (Mk_al 0 (al_store al))])
      end
  end.

Definition mt_create : M (option mt_t) :=
  ok ← request;
  if (ok : bool) then
    ls ← create_levels (Z.to_nat TREE_LEVELS) [];
    mret (Mk_mt 0 <$> ls)
  else mret None.

Definition mt_delete (mt : option mt_t) : M unit :=
  match mt with
  | None => mret tt
  | Some mt => delete_levels (take (Z.to_nat TREE_LEVELS) (level mt))
  end.

(** ** Helpers *)

Definition mt_right (offset : Z) : bool := negb (Z.land offset 1 =? 0).
Definition mt_left (offset : Z) : bool := Z.land offset 1 =? 0.

(** [len] bytes of the tag, the rest of the hash zero. *)
Definition mt_init_hash (tag : list Z) (len : Z) : M (list Z) :=
  _ ← c_assert (len <=? HASH_LENGTH);
  if Z.of_nat (length tag) <? len then throw OutOfBounds
  else mret (take (Z.to_nat len) tag ++ replicate (Z.to_nat (HASH_LENGTH - len)) 0).

(** [memcmp(a, p, HASH_LENGTH) == 0] *)
Definition memcmp_eq (a : list Z) (p : option (list Z)) : M bool :=
  match p with
  | None => throw NullDeref
  | Some b => mret (bool_decide (a = b))
  end.

Definition mt_get_size (mt : option mt_t) : M Z :=
  match mt with
  | None => mret (u32 (mt_error_code MT_ERR_ILLEGAL_PARAM))
  | Some mt => l0 ← level_at mt 0; mret (mt_al_get_size l0)
  end.

Definition mt_exists (mt : option mt_t) (offset : Z) : M Z :=
  match mt with
  | None => mret (mt_error_code MT_ERR_ILLEGAL_PARAM)
  | Some mt =>
      if MT_AL_MAX_ELEMS <? offset then mret (mt_error_code MT_ERR_ILLEGAL_PARAM)
      else
        l0 ← level_at mt 0;
        p ← mt_al_get l0 offset;
        mret (match p with Some _ => 1 | None => 0 end)
  end.

(** Both operands of the [&] are evaluated. *)
Definition hasNextLevelExceptRoot (mt : mt_t) (cur_lvl : Z) : M bool :=
  p ← level_at mt (cur_lvl + 1);
  mret ((cur_lvl + 1 <? TREE_LEVELS - 1) && (0 <? mt_al_get_size p)).

(** The [do ... while (l > -1)] loop: [n] is [l + 1]. *)
Fixpoint findRightNeighbor_loop (n : nat) (mt : mt_t) (offset l : Z)
  : M (option (list Z)) :=
  match n with
  | O => mret None
  | S n =>
      p ← level_at mt l;
      if offset <? mt_al_get_size p then mt_al_get p offset
      else findRightNeighbor_loop n mt (u32 (Z.shiftl offset 1)) (l - 1)
  end.

Definition findRightNeighbor (mt : mt_t) (offset l : Z) : M (option (list Z)) :=
  findRightNeighbor_loop (Z.to_nat (l + 1)) mt offset l.

Section tree.
Context {NH : NodeHash}.

(** [MT_ERR_CHK(mt_hash(left, right, message_digest))] on a local digest. *)
Definition hash_chk (left right : option (list Z)) (digest : list Z)
  : mt_error_t * list Z :=
  let '(e, d) := hash_nodes left right (Some digest) in
  (e, default digest d).

(** ** Adding a leaf *)

(** The [while (q > 0 && l < TREE_LEVELS)] loop; [n] is [TREE_LEVELS - l].  The
    result is the error of an early return, or the state after the loop. *)
Fixpoint mt_add_loop (n : nat) (mt : mt_t) (digest : list Z) (q l : Z)
  : M (mt_error_t * mt_t * list Z * Z * Z) :=
  match n with
  | O => mret (MT_SUCCESS, mt, digest, q, l)
  | S n =>
      if q =? 0 then mret (MT_SUCCESS, mt, digest, q, l)
      else if mt_right q then
        pl ← level_at mt l;
        left ← mt_al_get pl (q - 1);
        let '(e, digest) := hash_chk left (Some digest) digest in
        if decide (e = MT_SUCCESS) then
          up ← level_at mt (l + 1);
          r ← mt_al_add_or_update up (Some digest) (Z.shiftr q 1);
          let mt := set_level mt (l + 1) r.2 in
          if decide (r.1 = MT_SUCCESS)
          then mt_add_loop n mt digest (Z.shiftr q 1) (l + 1)
          else mret (r.1, mt, digest, q, l)
        else mret (e, mt, digest, q, l)
      else mt_add_loop n mt digest (Z.shiftr q 1) (l + 1)
  end.

Definition mt_add (mt : option mt_t) (tag : option (list Z)) (len : Z)
  : M (mt_error_t * option mt_t) :=
  match mt, tag with
  | Some mt, Some tag =>
      if len <=? HASH_LENGTH then
        digest ← mt_init_hash tag len;
        l0 ← level_at mt 0;
        r ← mt_al_add l0 (Some digest);
        let mt := set_level mt 0 r.2 in
        if decide (r.1 = MT_SUCCESS) then
          let mt := Mk_mt (u32 (mt_elems mt + 1)) (level mt) in
          if mt_elems mt =? 1 then mret (MT_SUCCESS, Some mt) else
          st ← mt_add_loop (Z.to_nat TREE_LEVELS) mt digest (u32 (mt_elems mt - 1)) 0;
          let '(e, mt, digest, q, l) := st in
          if decide (e = MT_SUCCESS) then
            pl ← level_at mt l;
            top ← mt_al_get pl q;
            same ← memcmp_eq digest top;
            _ ← c_assert same;
            mret (MT_SUCCESS, Some mt)
          else mret (e, Some mt)
        else mret (r.1, Some mt)
      else mret (MT_ERR_ILLEGAL_PARAM, Some mt)
  | _, _ => mret (MT_ERR_ILLEGAL_PARAM, mt)
  end.

(** ** Verifying and updating a leaf *)

(** One level up: the digest of the node above node [q] of level [l]. *)
Definition mt_climb (mt : mt_t) (digest : list Z) (q l : Z) : M (mt_error_t * list Z) :=
  if mt_left q then
    right ← findRightNeighbor mt (u32 (q + 1)) l;
    match right with
    | Some _ => mret (hash_chk (Some digest) right digest)
    | None => mret (MT_SUCCESS, digest)
    end
  else
    pl ← level_at mt l;
    left ← mt_al_get pl (q - 1);
    mret (hash_chk left (Some digest) digest).

(** The loop of [mt_verify].  [hasNextLevelExceptRoot] is false from level 22
    on, so [TREE_LEVELS] iterations are never used up. *)
Fixpoint mt_verify_loop (n : nat) (mt : mt_t) (digest : list Z) (q l : Z)
  : M (mt_error_t * list Z * Z * Z) :=
  match n with
  | O => mret (MT_SUCCESS, digest, q, l)
  | S n =>
      more ← hasNextLevelExceptRoot mt l;
      if (more : bool) then
        r ← mt_climb mt digest q l;
        if decide (r.1 = MT_SUCCESS)
        then mt_verify_loop n mt r.2 (Z.shiftr q 1) (l + 1)
        else mret (r.1, r.2, q, l)
      else mret (MT_SUCCESS, digest, q, l)
  end.

Definition mt_verify (mt : option mt_t) (tag : option (list Z)) (len offset : Z)
  : M mt_error_t :=
  match mt, tag with
  | Some mt, Some tag =>
      if (len <=? HASH_LENGTH) && (offset <? mt_elems mt) then
        digest ← mt_init_hash tag len;
        st ← mt_verify_loop (Z.to_nat TREE_LEVELS) mt digest offset 0;
        let '(e, digest, q, l) := st in
        if decide (e = MT_SUCCESS) then
          pl ← level_at mt l;
          top ← mt_al_get pl q;
          same ← memcmp_eq digest top;
          mret (if (same : bool) then MT_SUCCESS else MT_ERR_ROOT_MISMATCH)
        else mret e
      else mret MT_ERR_ILLEGAL_PARAM
  | _, _ => mret MT_ERR_ILLEGAL_PARAM
  end.

Fixpoint mt_update_loop (n : nat) (mt : mt_t) (digest : list Z) (q l : Z)
  : M (mt_error_t * mt_t * list Z * Z * Z) :=
  match n with
  | O => mret (MT_SUCCESS, mt, digest, q, l)
  | S n =>
      more ← hasNextLevelExceptRoot mt l;
      if (more : bool) then
        r ← mt_climb mt digest q l;
        if decide (r.1 = MT_SUCCESS) then
          let digest := r.2 in
          let q := Z.shiftr q 1 in
          let l := l + 1 in
          up ← level_at mt l;
          r ← mt_al_update_if_exists up (Some digest) q;
          let mt := set_level mt l r.2 in
          if decide (r.1 = MT_SUCCESS)
          then mt_update_loop n mt digest q l
          else mret (r.1, mt, digest, q, l)
        else mret (r.1, mt, r.2, q, l)
      else mret (MT_SUCCESS, mt, digest, q, l)
  end.

Definition mt_update (mt : option mt_t) (tag : option (list Z)) (len offset : Z)
  : M (mt_error_t * option mt_t) :=
  match mt, tag with
  | Some mt, Some tag =>
      if (len <=? HASH_LENGTH) && (offset <? mt_elems mt) then
        digest ← mt_init_hash tag len;
        l0 ← level_at mt 0;
        r ← mt_al_update l0 (Some digest) offset;
        let mt := set_level mt 0 r.2 in
        if decide (r.1 = MT_SUCCESS) then
          st ← mt_update_loop (Z.to_nat TREE_LEVELS) mt digest offset 0;
          let '(e, mt, digest, q, l) := st in
          if decide (e = MT_SUCCESS) then
            pl ← level_at mt l;
            top ← mt_al_get pl q;
            same ← memcmp_eq digest top;
            _ ← c_assert same;
            mret (MT_SUCCESS, Some mt)
          else mret (e, Some mt)
        else mret (r.1, Some mt)
      else mret (MT_ERR_ILLEGAL_PARAM, Some mt)
  | _, _ => mret (MT_ERR_ILLEGAL_PARAM, mt)
  end.

(** ** The root *)

Fixpoint mt_top_loop (n : nat) (mt : mt_t) (l : Z) : M Z :=
  match n with
  | O => mret l
  | S n =>
      more ← hasNextLevelExceptRoot mt l;
      if (more : bool) then mt_top_loop n mt (l + 1) else mret l
  end.

(** The root is copied out; [root] says whether the caller gave a buffer. *)
Definition mt_get_root (mt : option mt_t) (root : bool)
  : M (mt_error_t * option (list Z)) :=
  match mt, root with
  | Some mt, true =>
      l ← mt_top_loop (Z.to_nat TREE_LEVELS) mt 0;
      pl ← level_at mt l;
      p ← mt_al_get pl 0;
      match p with
      | None => throw NullDeref
      | Some h => mret (MT_SUCCESS, Some h)
      end
  | _, _ => mret (MT_ERR_ILLEGAL_PARAM, None)
  end.

End tree.

(** ** Printing *)

Definition text (s : string) : list Z :=
  (fun c => Z.of_N (Ascii.N_of_ascii c)) <$> String.list_ascii_of_string s.

Definition mt_print_hash (hash : option (list Z)) : list Z :=
  (match hash with None => text "[ERROR][mt_print_hash]: Hash NULL" | Some _ => [] end)
  ++ mt_al_print_hex_buffer hash ++ newline.

(** [%02u] of a level number *)
Definition fmt_02u (i : Z) : list Z := [48 + i / 10; 48 + i mod 10].

Fixpoint mt_print_loop (n : nat) (mt : mt_t) (i : Z) : M (list Z) :=
  match n with
  | O => mret []
  | S n =>
      p ← level_at mt i;
      al ← deref_al p;
      if al_elems al =? 0 then mret [] else
      body ← mt_al_print p;
      rest ← mt_print_loop n mt (i + 1);
      mret (text "==================== Merkle Tree level[" ++ fmt_02u i
            ++ text "]: ====================" ++ newline ++ body ++ rest)
  end.

Definition mt_print (mt : option mt_t) : M (list Z) :=
  match mt with
  | None => mret (text "[ERROR][mt_print]: Merkle Tree NULL")
  | Some mt => mt_print_loop (Z.to_nat TREE_LEVELS) mt 0
  end.

(** ** The specification: the root of a list of leaves *)

Section spec.
Context {NH : NodeHash}.

(** The root of at most [2^l] leaves. *)
Fixpoint mth (l : nat) (ls : list (list Z)) : list Z :=
  match l with
  | O => default [] (head ls)
  | S l =>
      if (2 ^ l <? length ls)%nat
      then combine (mth l (take (2 ^ l) ls)) (mth l (drop (2 ^ l) ls))
      else mth l ls
  end.

(** Levels above the leaves: the least [l] with [length ls <= 2^l]. *)
Definition depth (ls : list (list Z)) : nat := Nat.log2_up (length ls).

Definition root (ls : list (list Z)) : list Z := mth (depth ls) ls.

(** Node [j] of level [l]. *)
Definition node (ls : list (list Z)) (l j : nat) : list Z :=
  mth l (take (2 ^ l) (drop (j * 2 ^ l) ls)).

(** How many nodes of level [l] are stored: those with a right child. *)
Definition stored (l n : nat) : nat :=
  match l with
  | O => n
  | S l => (n + 2 ^ l - 1) / 2 ^ S l
  end.

(** Level [l] holds the stored nodes of level [l] of the tree of [ls]. *)
Definition level_rep (mt : mt_t) (ls : list (list Z)) (l : nat) : Prop :=
  exists al, level mt !! l = Some (Some al) /\ al_live al /\
    al_rep al (node ls l <$> seq 0 (stored l (length ls))).

Record tree_rep (mt : mt_t) (ls : list (list Z)) : Prop := {
  tr_elems : mt_elems mt = Z.of_nat (length ls);
  tr_leaves : Forall is_hash ls;
  tr_levels : forall l, (l < 24)%nat -> level_rep mt ls l;
  tr_max : Z.of_nat (length ls) < MT_AL_MAX_ELEMS;
}.

(** ** Facts about the specification *)

Lemma pow2_pos l : (0 < 2 ^ l)%nat.
Proof. apply Nat.neq_0_lt_0, Nat.pow_nonzero. lia. Qed.

Lemma nat_ext a b : (forall j, (j < a)%nat <-> (j < b)%nat) -> a = b.
Proof. intros Hj. pose proof (Hj a). pose proof (Hj b). lia. Qed.

Lemma mth_small l l' ls :
  (l <= l')%nat -> (length ls <= 2 ^ l)%nat -> mth l' ls = mth l ls.
Proof.
  intros Hl Hs. induction Hl as [|m Hl IH]; [done|]. cbn [mth].
  assert (2 ^ l <= 2 ^ m)%nat by (apply Nat.pow_le_mono_r; lia).
  by replace (2 ^ m <? length ls)%nat with false by lia.
Qed.

Lemma depth_spec l ls : ls <> [] -> (l < depth ls)%nat <-> (2 ^ l < length ls)%nat.
Proof.
  intros Hne. unfold depth. rewrite <- Nat.log2_up_lt_pow2; [done|].
  destruct ls; cbn; [done|lia].
Qed.

Lemma root_mth l ls : ls <> [] -> (length ls <= 2 ^ l)%nat -> mth l ls = root ls.
Proof.
  intros Hne Hl. apply mth_small.
  - destruct (decide (l < depth ls)%nat) as [Hd|]; [|lia].
    apply depth_spec in Hd; [lia|done].
  - pose proof (depth_spec (depth ls) ls Hne). lia.
Qed.

Lemma mth_is_hash l ls :
  ls <> [] -> Forall is_hash ls -> is_hash (mth l ls).
Proof.
  revert ls. induction l as [|l IH]; intros ls Hne Hf; cbn [mth].
  { destruct ls; [done|]. by apply Forall_cons_1 in Hf as [? _]. }
  destruct (2 ^ l <? length ls)%nat eqn:E; [|by apply IH].
  assert (0 < 2 ^ l)%nat by apply pow2_pos.
  apply combine_is_hash; apply IH; auto using Forall_take, Forall_drop.
  - intros Ht%(f_equal length). rewrite length_take in Ht. cbn in Ht. lia.
  - intros Ht%(f_equal length). rewrite length_drop in Ht. cbn in Ht. lia.
Qed.

Lemma node_S ls l j :
  node ls (S l) j = if ((2 * j + 1) * 2 ^ l <? length ls)%nat
                    then combine (node ls l (2 * j)) (node ls l (2 * j + 1))
                    else node ls l (2 * j).
Proof.
  unfold node. cbn [mth]. rewrite Nat.pow_succ_r'.
  pose proof (pow2_pos l). set (P := (2 ^ l)%nat) in *.
  replace (j * (2 * P))%nat with (2 * j * P)%nat by lia.
  rewrite length_take, length_drop.
  destruct (P <? _)%nat eqn:E1, (_ <? length ls)%nat eqn:E2; [|lia|lia|].
  - f_equal; f_equal.
    + rewrite take_take. f_equal. lia.
    + rewrite skipn_firstn_comm, drop_drop. f_equal; [lia|]. f_equal. lia.
  - f_equal. rewrite !take_ge; [done|rewrite length_drop; lia..].
Qed.

Lemma node_0 ls j h : ls !! j = Some h -> node ls 0 j = h.
Proof.
  intros Hj. unfold node. cbn [mth]. rewrite Nat.pow_0_r, Nat.mul_1_r.
  by rewrite (drop_S _ _ _ Hj).
Qed.

Lemma node_is_hash ls l j :
  Forall is_hash ls -> (j * 2 ^ l < length ls)%nat -> is_hash (node ls l j).
Proof.
  intros Hf Hj. apply mth_is_hash; [|by apply Forall_take, Forall_drop].
  intros Ht%(f_equal length). rewrite length_take, length_drop in Ht. cbn in Ht.
  assert (0 < 2 ^ l)%nat by apply pow2_pos. lia.
Qed.

Lemma node_root ls l :
  ls <> [] -> (length ls <= 2 ^ l)%nat -> node ls l 0 = root ls.
Proof.
  intros Hne Hl. unfold node. rewrite Nat.mul_0_l, drop_0, take_ge by done.
  by apply root_mth.
Qed.

(** A changed leaf changes only the nodes above it. *)
Lemma node_insert ls i t l j :
  (i < j * 2 ^ l \/ (j + 1) * 2 ^ l <= i)%nat ->
  node (<[i:=t]> ls) l j = node ls l j.
Proof.
  intros [Hi|Hi]; unfold node; f_equal.
  - by rewrite drop_insert_lt by lia.
  - by rewrite drop_insert_ge, take_insert_ge by lia.
Qed.

(** A new leaf changes only the nodes on the right edge. *)
Lemma node_app ls t l j :
  ((j + 1) * 2 ^ l <= length ls)%nat -> node (ls ++ t) l j = node ls l j.
Proof.
  intros Hl. unfold node. f_equal.
  rewrite drop_app_le, take_app_le; [done|rewrite length_drop; lia|lia].
Qed.

Lemma stored_spec l n j :
  (j < stored (S l) n)%nat <-> ((2 * j + 1) * 2 ^ l < n)%nat.
Proof.
  unfold stored. assert (HP : (0 < 2 ^ l)%nat) by apply pow2_pos.
  rewrite Nat.pow_succ_r'. set (P := (2 ^ l)%nat) in *.
  pose proof (Nat.div_mod (n + P - 1) (2 * P) ltac:(lia)) as Hd.
  pose proof (Nat.mod_upper_bound (n + P - 1) (2 * P) ltac:(lia)).
  set (d := ((n + P - 1) / (2 * P))%nat) in *. nia.
Qed.

Lemma stored_le l n j : (j < stored l n)%nat -> (j * 2 ^ l < n)%nat.
Proof.
  destruct l as [|l]; [cbn; lia|]. rewrite stored_spec, Nat.pow_succ_r'. lia.
Qed.

(** A complete node is stored. *)
Lemma stored_complete l n j : ((j + 1) * 2 ^ l <= n)%nat -> (j < stored l n)%nat.
Proof.
  destruct l as [|l]; [cbn; lia|]. rewrite stored_spec, Nat.pow_succ_r'.
  assert (0 < 2 ^ l)%nat by apply pow2_pos. lia.
Qed.

Lemma stored_bound l n : (stored l n <= n)%nat.
Proof.
  destruct (decide (stored l n <= n)%nat) as [|Hgt]; [done|].
  assert (n < stored l n)%nat as Hs%stored_le by lia.
  assert (0 < 2 ^ l)%nat by apply pow2_pos. nia.
Qed.

(** ** Reading levels *)

Lemma level_at_lookup mt l p w :
  (l < 24)%nat -> level mt !! l = Some p -> level_at mt (Z.of_nat l) w = Done (p, w).
Proof.
  intros Hl Hp. unfold level_at, TREE_LEVELS.
  replace (_ || _) with false by lia. by rewrite Nat2Z.id, Hp.
Qed.

Lemma nodes_lookup ls l n j :
  (node ls l <$> seq 0 n) !! j = if (j <? n)%nat then Some (node ls l j) else None.
Proof.
  rewrite list_lookup_fmap. destruct (j <? n)%nat eqn:E.
  - by rewrite lookup_seq_lt by lia.
  - by rewrite lookup_seq_ge by lia.
Qed.

(** The level's size, and a read of it. *)
Lemma level_read mt ls l w :
  level_rep mt ls l -> (l < 24)%nat -> Z.of_nat (length ls) < MT_AL_MAX_ELEMS ->
  exists al, level_at mt (Z.of_nat l) w = Done (Some al, w) /\
    mt_al_get_size (Some al) = Z.of_nat (stored l (length ls)) /\
    forall j, mt_al_get (Some al) (Z.of_nat j) w
      = Done (if (j <? stored l (length ls))%nat then Some (node ls l j) else None, w).
Proof.
  intros (al & Hal & _ & Hrep) Hl Hmax. exists al.
  split; [by apply level_at_lookup|].
  pose proof (stored_bound l (length ls)).
  split; [cbn; by rewrite (al_rep_elems _ _ Hrep), length_fmap, length_seq|].
  intros j. erewrite mt_al_get_spec by
    (done || lia || rewrite length_fmap, length_seq; lia).
  by rewrite Nat2Z.id, nodes_lookup.
Qed.

Lemma hasNext_spec mt ls l w :
  level_rep mt ls (S l) -> (l <= 21)%nat -> Z.of_nat (length ls) < MT_AL_MAX_ELEMS ->
  hasNextLevelExceptRoot mt (Z.of_nat l) w = Done ((2 ^ l <? length ls)%nat, w).
Proof.
  intros Hr Hl Hmax. unfold hasNextLevelExceptRoot.
  destruct (level_read mt ls (S l) w Hr) as (al & Ha & Hsz & _); [lia|done|].
  replace (Z.of_nat l + 1) with (Z.of_nat (S l)) by lia.
  rewrite (bind_done _ _ _ _ _ Ha), Hsz. unfold mret, M_ret, TREE_LEVELS.
  pose proof (stored_spec l (length ls) 0) as Hst. rewrite Nat.mul_0_r, Nat.mul_1_l in Hst.
  do 2 f_equal. lia.
Qed.

Lemma findRightNeighbor_loop_S n mt offset l :
  findRightNeighbor_loop (S n) mt offset l =
  p ← level_at mt l;
  if offset <? mt_al_get_size p then mt_al_get p offset
  else findRightNeighbor_loop n mt (u32 (Z.shiftl offset 1)) (l - 1).
Proof. done. Qed.

(** Where the right neighbour of an incomplete edge is found. *)
Lemma findRightNeighbor_spec mt ls l off w :
  (forall k, (k <= l)%nat -> level_rep mt ls k) -> (l < 24)%nat ->
  Z.of_nat (length ls) < MT_AL_MAX_ELEMS -> Z.of_nat (off * 2 ^ l) < 2 ^ 31 ->
  findRightNeighbor mt (Z.of_nat off) (Z.of_nat l) w
  = Done (if (off * 2 ^ l <? length ls)%nat then Some (node ls l off) else None, w).
Proof.
  unfold findRightNeighbor. replace (Z.to_nat (Z.of_nat l + 1)) with (S l) by lia.
  revert off. induction l as [|l IH]; intros off Hr Hl Hmax Hoff;
    destruct (level_read mt ls _ w (Hr _ (le_n _)) Hl Hmax) as (al & Ha & Hsz & Hget);
    rewrite findRightNeighbor_loop_S, (bind_done _ _ _ _ _ Ha), Hsz.
  - rewrite Nat.pow_0_r, Nat.mul_1_r. destruct (off <? length ls)%nat eqn:E.
    + cbn [stored]. replace (_ <? _) with true by lia. rewrite Hget. cbn [stored]. by rewrite E.
    + cbn [stored]. by replace (_ <? _) with false by lia.
  - pose proof (pow2_pos l). rewrite Nat.pow_succ_r' in *.
    pose proof (stored_spec l (length ls) off) as Hst.
    destruct (Z.of_nat off <? _) eqn:E.
    + rewrite Hget. replace (off <? stored _ _)%nat with true by lia.
      by replace (_ <? _)%nat with true by lia.
    + assert (off * 2 <= off * (2 * 2 ^ l))%nat by nia.
      rewrite node_S. replace ((2 * off + 1) * 2 ^ l <? _)%nat with false by lia.
      rewrite Z.shiftl_mul_pow2, u32_small by lia.
      replace (Z.of_nat off * 2 ^ 1) with (Z.of_nat (2 * off)) by lia.
      replace (Z.of_nat (S l) - 1) with (Z.of_nat l) by lia.
      rewrite IH by (auto with lia || lia).
      by replace (2 * off * 2 ^ l)%nat with (off * (2 * 2 ^ l))%nat by lia.
Qed.

(** The node above node [q] of level [l], when that node is [d]. *)
Definition up (ls : list (list Z)) (l q : nat) (d : list Z) : list Z :=
  if Nat.even q then
    if ((q + 1) * 2 ^ l <? length ls)%nat then combine d (node ls l (q + 1)) else d
  else combine (node ls l (q - 1)) d.

Lemma mt_left_even q : mt_left (Z.of_nat q) = Nat.even q.
Proof.
  unfold mt_left. change 1 with (Z.ones 1). rewrite Z.land_ones by lia.
  destruct (Nat.even q) eqn:E.
  - apply Nat.even_spec in E as [k ->]. rewrite Nat2Z.inj_mul, Z.mul_comm.
    change (2 ^ 1) with 2. by rewrite Z.mod_mul.
  - assert (Nat.odd q = true) as Ho by (by rewrite <- Nat.negb_even, E).
    apply Nat.odd_spec in Ho as [k ->]. change (2 ^ 1) with 2.
    replace (Z.of_nat (2 * k + 1)) with (1 + Z.of_nat k * 2) by lia.
    by rewrite Z.mod_add.
Qed.

Lemma hash_chk_ok l r d :
  is_hash l -> is_hash r -> hash_chk (Some l) (Some r) d = (MT_SUCCESS, combine l r).
Proof. intros. unfold hash_chk. by rewrite hash_nodes_ok. Qed.

Lemma mt_climb_spec mt ls d q l w :
  (forall k, (k <= l)%nat -> level_rep mt ls k) -> (l <= 21)%nat ->
  Z.of_nat (length ls) < MT_AL_MAX_ELEMS -> Forall is_hash ls ->
  (q * 2 ^ l < length ls)%nat -> is_hash d ->
  mt_climb mt d (Z.of_nat q) (Z.of_nat l) w = Done ((MT_SUCCESS, up ls l q d), w).
Proof.
  intros Hr Hl Hmax Hls Hq Hd. unfold mt_climb, up. rewrite mt_left_even.
  pose proof (pow2_pos l). consts.
  assert (Z.of_nat (2 ^ l) <= 2 ^ 21).
  { rewrite Nat2Z.inj_pow. apply Z.pow_le_mono_r; lia. }
  assert (q <= q * 2 ^ l)%nat by nia.
  destruct (Nat.even q) eqn:E.
  - rewrite u32_small by lia. replace (Z.of_nat q + 1) with (Z.of_nat (q + 1)) by lia.
    rewrite (bind_done _ _ _ _ _ (findRightNeighbor_spec mt ls l (q + 1) w Hr
      ltac:(lia) Hmax ltac:(lia))).
    destruct (_ <? _)%nat eqn:E1; [|done].
    rewrite hash_chk_ok; [done|done|apply node_is_hash; [done|lia]].
  - destruct (level_read mt ls l w (Hr l (le_n l))) as (al & Ha & _ & Hget); [lia|done|].
    rewrite (bind_done _ _ _ _ _ Ha).
    destruct q as [|q]; [done|].
    replace (Z.of_nat (S q) - 1) with (Z.of_nat q) by lia.
    rewrite (bind_done _ _ _ _ _ (Hget q)).
    replace (q <? stored _ _)%nat with true by (pose proof (stored_complete l (length ls) q); lia).
    rewrite hash_chk_ok; [by rewrite Nat.sub_1_r|apply node_is_hash; [done|lia]|done].
Qed.

(** Climbing from a changed leaf yields the nodes of the changed tree. *)
Lemma up_path ls i t l q :
  (i < length ls)%nat -> (q * 2 ^ l <= i < (q + 1) * 2 ^ l)%nat ->
  up ls l q (node (<[i:=t]> ls) l q) = node (<[i:=t]> ls) (S l) (q / 2).
Proof.
  intros Hi Hq. unfold up. rewrite node_S, length_insert.
  destruct (Nat.even q) eqn:E.
  - apply Nat.even_spec in E as [k ->].
    replace (2 * k / 2)%nat with k by (symmetry; rewrite Nat.mul_comm; by apply Nat.div_mul).
    case_match; [|done]. by rewrite (node_insert _ _ _ _ (2 * k + 1)) by lia.
  - assert (Nat.odd q = true) as Ho by (by rewrite <- Nat.negb_even, E).
    apply Nat.odd_spec in Ho as [k ->].
    replace ((2 * k + 1) / 2)%nat with k
      by (rewrite Nat.mul_comm, Nat.div_add_l by lia; cbn; lia).
    replace (_ <? _)%nat with true by lia.
    rewrite (node_insert _ _ _ _ (2 * k)) by lia.
    by replace (2 * k + 1 - 1)%nat with (2 * k)%nat by lia.
Qed.

Lemma half_interval q l i :
  (q * 2 ^ l <= i < (q + 1) * 2 ^ l)%nat ->
  (q / 2 * 2 ^ S l <= i < (q / 2 + 1) * 2 ^ S l)%nat.
Proof.
  intros Hq. rewrite Nat.pow_succ_r'.
  pose proof (Nat.div_mod q 2 ltac:(lia)). pose proof (Nat.mod_upper_bound q 2 ltac:(lia)).
  set (k := (q / 2)%nat) in *. pose proof (pow2_pos l). nia.
Qed.

Lemma shiftr_half q : Z.shiftr (Z.of_nat q) 1 = Z.of_nat (q / 2).
Proof. rewrite Z.shiftr_div_pow2 by lia. by rewrite Nat2Z.inj_div. Qed.

Lemma depth_max ls :
  ls <> [] -> Z.of_nat (length ls) < MT_AL_MAX_ELEMS -> (depth ls <= 22)%nat.
Proof.
  intros Hne Hm. destruct (decide (depth ls <= 22)%nat) as [|Hgt]; [done|].
  pose proof (proj1 (depth_spec 22 ls Hne) ltac:(lia)) as H22. consts.
  apply Nat2Z.inj_lt in H22. rewrite Nat2Z.inj_pow in H22. cbn in H22. lia.
Qed.

(** Is there a level above [l] (for the levels a tree reaches)? *)
Lemma hasNext_depth mt ls l w :
  (forall k, (k < 24)%nat -> level_rep mt ls k) -> ls <> [] ->
  Z.of_nat (length ls) < MT_AL_MAX_ELEMS -> (l <= depth ls)%nat ->
  hasNextLevelExceptRoot mt (Z.of_nat l) w = Done ((l <? depth ls)%nat, w).
Proof.
  intros Hr Hne Hmax Hl. pose proof (depth_max ls Hne Hmax).
  destruct (decide (l <= 21)%nat).
  - rewrite (hasNext_spec mt ls) by (done || apply Hr; lia).
    pose proof (depth_spec l ls Hne). do 2 f_equal. lia.
  - replace l with 22%nat by lia. unfold hasNextLevelExceptRoot.
    destruct (level_read mt ls 23 w (Hr 23%nat ltac:(lia))) as (al & Ha & _); [lia|done|].
    change (Z.of_nat 22 + 1) with (Z.of_nat 23). rewrite (bind_done _ _ _ _ _ Ha).
    by replace (22 <? depth ls)%nat with false by lia.
Qed.

(** The loop of [mt_verify] ends at the root level with the root of the tree in
    which leaf [i] is [t]. *)
Lemma mt_verify_loop_spec mt ls i t n l q w :
  tree_rep mt ls -> (i < length ls)%nat -> is_hash t ->
  (q * 2 ^ l <= i < (q + 1) * 2 ^ l)%nat -> (l <= depth ls)%nat -> (depth ls - l < n)%nat ->
  mt_verify_loop n mt (node (<[i:=t]> ls) l q) (Z.of_nat q) (Z.of_nat l) w
  = Done ((MT_SUCCESS, root (<[i:=t]> ls), 0, Z.of_nat (depth ls)), w).
Proof.
  intros [He Hls Hlv Hmax] Hi Ht. assert (Hne : ls <> []) by (intros ->; cbn in Hi; lia).
  pose proof (depth_max ls Hne Hmax) as Hd.
  revert l q. induction n as [|n IH]; intros l q Hq Hl Hn; [lia|].
  cbn [mt_verify_loop].
  rewrite (bind_done _ _ _ _ _ (hasNext_depth mt ls l w Hlv Hne Hmax Hl)).
  destruct (l <? depth ls)%nat eqn:E.
  - assert (Hh : is_hash (node (<[i:=t]> ls) l q)).
    { apply node_is_hash; [by apply Forall_insert|rewrite length_insert; lia]. }
    rewrite (bind_done _ _ _ _ _ (mt_climb_spec mt ls _ q l w
      (fun k Hk => Hlv k ltac:(lia)) ltac:(lia) Hmax Hls ltac:(lia) Hh)).
    cbn [fst snd]. rewrite decide_True by done.
    rewrite up_path, shiftr_half by done.
    replace (Z.of_nat l + 1) with (Z.of_nat (S l)) by lia.
    apply IH; [by apply half_interval|lia..].
  - assert (l = depth ls) as -> by lia.
    pose proof (depth_spec (depth ls) ls Hne).
    assert (q = 0)%nat as -> by nia.
    rewrite node_root; [done| |rewrite length_insert; lia].
    intros Hnil%(f_equal length). rewrite length_insert in Hnil. by destruct ls.
Qed.

(** The root is the first node of the top level. *)
Lemma top_read mt ls w :
  tree_rep mt ls -> ls <> [] ->
  exists al, level_at mt (Z.of_nat (depth ls)) w = Done (Some al, w) /\
    mt_al_get (Some al) 0 w = Done (Some (root ls), w).
Proof.
  intros [He Hls Hlv Hmax] Hne. pose proof (depth_max ls Hne Hmax).
  destruct (level_read mt ls (depth ls) w (Hlv (depth ls) ltac:(lia))) as (al & Ha & _ & Hg);
    [lia|done|].
  exists al. split; [done|]. change 0 with (Z.of_nat 0) at 1. rewrite Hg.
  assert (Hst : (0 < stored (depth ls) (length ls))%nat).
  { destruct (depth ls) as [|k] eqn:E; [destruct ls; [done|cbn; lia]|].
    apply stored_spec. pose proof (depth_spec k ls Hne). lia. }
  replace (_ <? _)%nat with true by lia.
  pose proof (depth_spec (depth ls) ls Hne). by rewrite node_root by (done || lia).
Qed.

(** The bytes of a tag as the tree stores them. *)
Definition leaf_of (tag : list Z) (len : Z) : list Z :=
  take (Z.to_nat len) tag ++ replicate (Z.to_nat (HASH_LENGTH - len)) 0.

Lemma mt_init_hash_spec tag len w :
  0 <= len <= HASH_LENGTH -> len <= Z.of_nat (length tag) ->
  mt_init_hash tag len w = Done (leaf_of tag len, w).
Proof.
  intros Hl Ht. unfold mt_init_hash. rewrite bind_assert by lia.
  by replace (_ <? len) with false by lia.
Qed.

Lemma leaf_is_hash tag len :
  0 <= len <= HASH_LENGTH -> len <= Z.of_nat (length tag) -> bytes tag ->
  is_hash (leaf_of tag len).
Proof.
  intros Hl Ht Hb. unfold leaf_of. split.
  - rewrite length_app, length_take, length_replicate. clia.
  - apply Forall_app_2; [by apply Forall_take|]. by apply Forall_replicate.
Qed.

(** The 32-byte tags of the callers are stored as they are. *)
Lemma leaf_of_hash t : is_hash t -> leaf_of t HASH_LENGTH = t.
Proof. intros [Hl _]. unfold leaf_of, HASH_LENGTH. rewrite take_ge by lia. apply app_nil_r. Qed.

Lemma mt_verify_spec mt ls tag len off w :
  tree_rep mt ls -> 0 <= len <= HASH_LENGTH -> len <= Z.of_nat (length tag) ->
  bytes tag -> 0 <= off < Z.of_nat (length ls) ->
  mt_verify (Some mt) (Some tag) len off w
  = Done (if decide (root (<[Z.to_nat off:=leaf_of tag len]> ls) = root ls)
          then MT_SUCCESS else MT_ERR_ROOT_MISMATCH, w).
Proof.
  intros Hrep Hlen Htag Hb Hoff. unfold mt_verify. rewrite (tr_elems _ _ Hrep).
  replace (_ && _) with true by lia.
  rewrite (bind_done _ _ _ _ _ (mt_init_hash_spec tag len w Hlen Htag)).
  set (t := leaf_of tag len). assert (Ht : is_hash t) by by apply leaf_is_hash.
  assert (Hne : ls <> []) by (intros ->; cbn in *; lia).
  set (i := Z.to_nat off).
  assert (Hn0 : t = node (<[i:=t]> ls) 0 i).
  { symmetry. apply node_0. apply list_lookup_insert_eq. lia. }
  rewrite Hn0 at 1. replace off with (Z.of_nat i) by lia.
  change (mt_verify_loop (Z.to_nat TREE_LEVELS) mt (node (<[i:=t]> ls) 0 i) (Z.of_nat i) 0)
    with (mt_verify_loop 24 mt (node (<[i:=t]> ls) 0 i) (Z.of_nat i) (Z.of_nat 0)).
  pose proof (depth_max ls Hne (tr_max _ _ Hrep)).
  rewrite (bind_done _ _ _ _ _ (mt_verify_loop_spec mt ls i t 24 0 i w Hrep
    ltac:(lia) Ht ltac:(cbn; lia) ltac:(lia) ltac:(lia))).
  rewrite decide_True by done.
  destruct (top_read mt ls w Hrep Hne) as (al & Ha & Hg).
  rewrite (bind_done _ _ _ _ _ Ha), (bind_done _ _ _ _ _ Hg).
  cbn [memcmp_eq]. rewrite bind_ret. by repeat case_decide.
Qed.

(** ** Updating *)

Lemma level_rep_set mt ls l al :
  (l < length (level mt))%nat -> al_live al ->
  al_rep al (node ls l <$> seq 0 (stored l (length ls))) ->
  level_rep (set_level mt (Z.of_nat l) al) ls l.
Proof.
  intros Hl Hlive Hal. exists al. split; [|done]. cbn. rewrite Nat2Z.id.
  by apply list_lookup_insert_eq.
Qed.

Lemma level_rep_other mt ls l l' al :
  l <> l' -> level_rep mt ls l' -> level_rep (set_level mt (Z.of_nat l) al) ls l'.
Proof.
  intros Hl (al' & H' & Hr). exists al'. split; [|done]. cbn.
  by rewrite Nat2Z.id, list_lookup_insert_ne.
Qed.

Lemma level_rep_length mt ls l : level_rep mt ls l -> (l < length (level mt))%nat.
Proof. intros (al & H1 & _). by apply lookup_lt_Some in H1. Qed.

Lemma nodes_insert ls i t l q n :
  (q * 2 ^ l <= i < (q + 1) * 2 ^ l)%nat ->
  <[q:=node (<[i:=t]> ls) l q]> (node ls l <$> seq 0 n) = node (<[i:=t]> ls) l <$> seq 0 n.
Proof.
  intros Hq. apply list_eq. intros j. rewrite nodes_lookup.
  destruct (decide (j = q)) as [->|Hne].
  - destruct (q <? n)%nat eqn:E.
    + apply list_lookup_insert_eq. rewrite length_fmap, length_seq. lia.
    + apply lookup_ge_None_2. rewrite length_insert, length_fmap, length_seq. lia.
  - rewrite list_lookup_insert_ne, nodes_lookup by done.
    case_match; [|done]. f_equal. rewrite node_insert; [done|].
    pose proof (pow2_pos l). nia.
Qed.

(** The loops go up to the root's level. *)
Lemma next_below_root mt ls l w :
  ls <> [] -> Z.of_nat (length ls) < MT_AL_MAX_ELEMS -> (l <= depth ls)%nat ->
  (forall k, (l < k < 24)%nat -> level_rep mt ls k) ->
  hasNextLevelExceptRoot mt (Z.of_nat l) w = Done ((l <? depth ls)%nat, w).
Proof.
  intros Hne Hmax Hl Hhigh. pose proof (depth_max ls Hne Hmax) as Hd. destruct (decide (l = 22)%nat) as [->|].
  - unfold hasNextLevelExceptRoot.
    destruct (level_read mt ls 23 w (Hhigh 23%nat ltac:(lia))) as (al & Ha & _); [lia|done|].
    change (Z.of_nat 22 + 1) with (Z.of_nat 23). rewrite (bind_done _ _ _ _ _ Ha).
    by replace (22 <? depth ls)%nat with false by lia.
  - rewrite (hasNext_spec mt ls) by (done || lia || apply Hhigh; lia).
    pose proof (depth_spec l ls Hne). do 2 f_equal. lia.
Qed.

(** Nothing is stored above the root. *)
Lemma stored_above ls k : ls <> [] -> (depth ls < k)%nat -> stored k (length ls) = 0%nat.
Proof.
  intros Hne Hk. destruct k as [|k]; [lia|]. pose proof (stored_spec k (length ls) 0) as Hs.
  pose proof (depth_spec (depth ls) ls Hne). pose proof (proj1 (depth_spec k ls Hne)).
  destruct (stored (S k) (length ls)); [done|].
  assert (2 ^ depth ls <= 2 ^ k)%nat by (apply Nat.pow_le_mono_r; lia). lia.
Qed.

(** While the loop of [mt_update] is at level [l], the levels up to [l] are those
    of the new tree and the levels above those of the old one. *)
Lemma mt_update_loop_spec ls i t n mt l q w :
  let ls' := <[i:=t]> ls in
  Forall is_hash ls -> is_hash t -> (i < length ls)%nat ->
  Z.of_nat (length ls) < MT_AL_MAX_ELEMS -> mt_elems mt = Z.of_nat (length ls) ->
  (forall k, (k <= l)%nat -> level_rep mt ls' k) ->
  (forall k, (l < k < 24)%nat -> level_rep mt ls k) ->
  (q * 2 ^ l <= i < (q + 1) * 2 ^ l)%nat -> (l <= depth ls)%nat -> (depth ls - l < n)%nat ->
  exists mt', mt_update_loop n mt (node ls' l q) (Z.of_nat q) (Z.of_nat l) w
    = Done ((MT_SUCCESS, mt', root ls', 0, Z.of_nat (depth ls)), w) /\ tree_rep mt' ls'.
Proof.
  intros ls' Hls Ht Hi Hmax. assert (Hne : ls <> []) by (intros ->; cbn in Hi; lia).
  pose proof (depth_max ls Hne Hmax) as Hd.
  assert (Hlen : length ls' = length ls) by apply length_insert.
  assert (Hls' : Forall is_hash ls') by by apply Forall_insert.
  revert mt l q. induction n as [|n IH]; intros mt l q He Hlow Hhigh Hq Hl Hn; [lia|].
  cbn [mt_update_loop].
  rewrite (bind_done _ _ _ _ _ (next_below_root mt ls l w Hne Hmax Hl Hhigh)). destruct (l <? depth ls)%nat eqn:E.
  - assert (Hh : is_hash (node ls' l q)) by (apply node_is_hash; [done|lia]).
    rewrite (bind_done _ _ _ _ _ (mt_climb_spec mt ls' _ q l w Hlow ltac:(lia)
      ltac:(lia) Hls' ltac:(lia) Hh)).
    cbn [fst snd]. rewrite decide_True by done.
    assert (Hup : up ls' l q (node ls' l q) = node ls' (S l) (q / 2)).
    { assert (Hid : <[i:=t]> ls' = ls') by (by apply list_insert_id, list_lookup_insert_eq).
      rewrite <- Hid at 2 3. apply up_path; [lia|done]. }
    rewrite Hup, shiftr_half. apply half_interval in Hq.
    replace (Z.of_nat l + 1) with (Z.of_nat (S l)) by lia.
    destruct (Hhigh (S l) ltac:(lia)) as (al & Ha & Hlive & Hrep).
    rewrite (bind_done _ _ _ _ _ (level_at_lookup mt (S l) _ w ltac:(lia) Ha)).
    destruct (mt_al_update_if_exists_spec al _ (node ls' (S l) (q / 2))
      (Z.of_nat (q / 2)) w Hrep) as (al' & Hup' & Hrep' & Hlive').
    { apply node_is_hash; [done|lia]. }
    { rewrite length_fmap, length_seq. pose proof (stored_bound (S l) (length ls)). lia. }
    { lia. }
    rewrite (bind_done _ _ _ _ _ Hup'). cbn [fst snd]. rewrite decide_True by done.
    rewrite Nat2Z.id in Hrep'. unfold ls' in Hrep'. rewrite nodes_insert in Hrep' by done.
    fold ls' in Hrep'.
    assert (Hsl : (S l < length (level mt))%nat) by by apply lookup_lt_Some in Ha.
    apply IH; [done| | |done|lia|lia].
    + intros k Hk. destruct (decide (k = S l)) as [->|].
      * apply level_rep_set; [done|by apply Hlive'|by rewrite Hlen].
      * apply level_rep_other; [lia|]. apply Hlow. lia.
    + intros k Hk. apply level_rep_other; [lia|]. apply Hhigh. lia.
  - assert (l = depth ls) as -> by lia.
    pose proof (depth_spec (depth ls) ls Hne).
    assert (q = 0)%nat as -> by nia.
    exists mt. rewrite node_root; [|intros Hn0%(f_equal length); rewrite Hlen in Hn0; by destruct ls|lia].
    split; [done|]. split; [by rewrite Hlen|done| |by rewrite Hlen].
    intros k Hk. destruct (decide (k <= depth ls)%nat); [by apply Hlow|].
    destruct (Hhigh k ltac:(lia)) as (al & Ha & Hlv & Hr). exists al.
    split; [done|]. split; [done|]. rewrite Hlen.
    by rewrite (stored_above ls k) in * by (done || lia).
Qed.

Lemma mt_update_spec mt ls tag len off w :
  tree_rep mt ls -> 0 <= len <= HASH_LENGTH -> len <= Z.of_nat (length tag) ->
  bytes tag -> 0 <= off < Z.of_nat (length ls) ->
  exists mt', mt_update (Some mt) (Some tag) len off w = Done ((MT_SUCCESS, Some mt'), w) /\
    tree_rep mt' (<[Z.to_nat off:=leaf_of tag len]> ls).
Proof.
  intros Hrep Hlen Htag Hb Hoff. unfold mt_update. rewrite (tr_elems _ _ Hrep).
  replace (_ && _) with true by lia.
  rewrite (bind_done _ _ _ _ _ (mt_init_hash_spec tag len w Hlen Htag)).
  set (t := leaf_of tag len). assert (Ht : is_hash t) by by apply leaf_is_hash.
  assert (Hne : ls <> []) by (intros ->; cbn in *; lia).
  set (i := Z.to_nat off).
  destruct Hrep as [He Hls Hlv Hmax]. pose proof (depth_max ls Hne Hmax).
  destruct (Hlv 0%nat ltac:(lia)) as (al & Ha & Hlive & Hal).
  pose proof (level_at_lookup mt 0 _ w ltac:(lia) Ha) as Hat. change (Z.of_nat 0) with 0 in Hat.
  rewrite (bind_done _ _ _ _ _ Hat).
  destruct (mt_al_update_spec al _ t off w Hal Ht) as (al' & Hu & Hal' & Hlive').
  { rewrite length_fmap, length_seq. done. }
  { rewrite length_fmap, length_seq. done. }
  rewrite (bind_done _ _ _ _ _ Hu). cbn [fst snd]. rewrite decide_True by done. fold i in Hal'.
  assert (Hn0 : t = node (<[i:=t]> ls) 0 i).
  { symmetry. apply node_0. apply list_lookup_insert_eq. lia. }
  rewrite Hn0, nodes_insert in Hal' by (cbn; lia).
  destruct (mt_update_loop_spec ls i t 24 (set_level mt 0 al') 0 i w) as (mt' & Hloop & Hr');
    [done|done|lia|done|done| | |cbn; lia|lia|lia|].
  { intros k Hk. replace k with 0%nat by lia. apply (level_rep_set mt _ 0).
    - by apply lookup_lt_Some in Ha.
    - by apply Hlive'.
    - by rewrite length_insert. }
  { intros k Hk. apply (level_rep_other mt _ 0); [lia|]. apply Hlv. lia. }
  rewrite <- Hn0 in Hloop. replace (Z.of_nat i) with off in Hloop by lia.
  rewrite (bind_done _ _ _ _ _ Hloop). rewrite decide_True by done.
  destruct (top_read mt' _ w Hr') as (alt & Hat' & Hg).
  { intros Hn%(f_equal length). rewrite length_insert in Hn. by destruct ls. }
  unfold depth in *. rewrite length_insert in Hat'.
  rewrite (bind_done _ _ _ _ _ Hat'), (bind_done _ _ _ _ _ Hg).
  cbn [memcmp_eq]. rewrite bind_ret, bool_decide_eq_true_2, bind_assert by done.
  by exists mt'.
Qed.

(** ** The root *)

Lemma mt_top_loop_spec mt ls n l w :
  tree_rep mt ls -> ls <> [] -> (l <= depth ls)%nat -> (depth ls - l < n)%nat ->
  mt_top_loop n mt (Z.of_nat l) w = Done (Z.of_nat (depth ls), w).
Proof.
  intros Hrep Hne. revert l. induction n as [|n IH]; intros l Hl Hn; [lia|].
  cbn [mt_top_loop].
  rewrite (bind_done _ _ _ _ _ (hasNext_depth mt ls l w (tr_levels _ _ Hrep) Hne
    (tr_max _ _ Hrep) Hl)).
  destruct (l <? depth ls)%nat eqn:E.
  - replace (Z.of_nat l + 1) with (Z.of_nat (S l)) by lia. apply IH; lia.
  - by replace (depth ls) with l by lia.
Qed.

Lemma mt_get_root_spec mt ls w :
  tree_rep mt ls -> ls <> [] ->
  mt_get_root (Some mt) true w = Done ((MT_SUCCESS, Some (root ls)), w).
Proof.
  intros Hrep Hne. unfold mt_get_root. pose proof (depth_max ls Hne (tr_max _ _ Hrep)).
  pose proof (mt_top_loop_spec mt ls 24 0 w Hrep Hne ltac:(lia) ltac:(lia)) as Hl.
  change (Z.of_nat 0) with 0 in Hl. rewrite (bind_done _ _ _ _ _ Hl).
  destruct (top_read mt ls w Hrep Hne) as (al & Ha & Hg).
  by rewrite (bind_done _ _ _ _ _ Ha), (bind_done _ _ _ _ _ Hg).
Qed.

(** [mt_get_root] of a tree without leaves copies from NULL. *)
Lemma mt_get_root_empty mt w :
  tree_rep mt [] -> mt_get_root (Some mt) true w = Fault NullDeref.
Proof.
  intros [_ _ Hlv _]. unfold mt_get_root.
  destruct (level_read mt [] 0 w (Hlv 0%nat ltac:(lia))) as (a0 & H0 & _ & Hg); [lia|done|].
  pose proof (hasNext_spec mt [] 0 w (Hlv 1%nat ltac:(lia)) ltac:(lia) ltac:(done)) as Hn.
  change (Z.of_nat 0) with 0 in *.
  assert (Ht : mt_top_loop (Z.to_nat TREE_LEVELS) mt 0 w = Done (0, w)).
  { change (Z.to_nat TREE_LEVELS) with 24%nat. cbn [mt_top_loop].
    by rewrite (bind_done _ _ _ _ _ Hn). }
  rewrite (bind_done _ _ _ _ _ Ht), (bind_done _ _ _ _ _ H0).
  pose proof (Hg 0%nat) as Hg0. change (Z.of_nat 0) with 0 in Hg0.
  by rewrite (bind_done _ _ _ _ _ Hg0).
Qed.

(** ** Adding *)

Lemma node_lookup_0 ls j h : ls !! j = Some h -> (node ls 0 <$> seq 0 (length ls)) !! j = Some h.
Proof.
  intros Hj. rewrite nodes_lookup. apply node_0 in Hj as Hn.
  apply lookup_lt_Some in Hj. by replace (_ <? _)%nat with true by lia; rewrite Hn.
Qed.

Lemma leaves_eq ls : node ls 0 <$> seq 0 (length ls) = ls.
Proof.
  apply list_eq. intros j. destruct (ls !! j) as [h|] eqn:E.
  - by apply node_lookup_0.
  - rewrite nodes_lookup. apply lookup_ge_None_1 in E.
    by replace (_ <? _)%nat with false by lia.
Qed.

(** Level [l + 1] of the tree with one more leaf, from the old level, when the
    new leaf is under node [q] of level [l]. *)
Lemma nodes_add ls t l q :
  let n := length ls in
  (q * 2 ^ l <= n < (q + 1) * 2 ^ l)%nat ->
  let hs := node ls (S l) <$> seq 0 (stored (S l) n) in
  let hs' := node (ls ++ [t]) (S l) <$> seq 0 (stored (S l) (S n)) in
  if Nat.even q then hs' = hs
  else (q / 2 <= stored (S l) n)%nat /\
    hs' = if (q / 2 =? stored (S l) n)%nat then hs ++ [node (ls ++ [t]) (S l) (q / 2)]
          else <[(q / 2)%nat:=node (ls ++ [t]) (S l) (q / 2)]> hs.
Proof.
  intros n Hq. cbv zeta. pose proof (pow2_pos l).
  assert (Hsame : forall j, (2 * j + 2 <= q)%nat ->
    node (ls ++ [t]) (S l) j = node ls (S l) j).
  { intros j Hj. apply node_app. rewrite Nat.pow_succ_r'. subst n. nia. }
  pose proof (stored_spec l n) as S0. pose proof (stored_spec l (S n)) as S1.
  destruct (Nat.even q) eqn:E.
  - apply Nat.even_spec in E as [k ->].
    assert (Hs : forall j, (j < stored (S l) n <-> j < k)%nat) by (intros j; rewrite S0; nia).
    assert (Hs' : forall j, (j < stored (S l) (S n) <-> j < k)%nat) by (intros j; rewrite S1; nia).
    assert (Hk : stored (S l) (S n) = stored (S l) n).
    { apply nat_ext. intros j. by rewrite Hs, Hs'. }
    rewrite Hk.
    apply list_fmap_ext. intros j x Hx%lookup_seq. apply Hsame.
    pose proof (proj1 (Hs x)). lia.
  - assert (Nat.odd q = true) as Ho by (by rewrite <- Nat.negb_even, E).
    apply Nat.odd_spec in Ho as [k ->].
    replace ((2 * k + 1) / 2)%nat with k
      by (rewrite Nat.mul_comm, Nat.div_add_l by lia; cbn; lia).
    assert (Hs' : stored (S l) (S n) = S k).
    { apply Nat.le_antisymm.
      - apply Nat.nlt_ge. rewrite S1. nia.
      - apply S1. lia. }
    assert (Hk : (k <= stored (S l) n <= S k)%nat).
    { split; apply Nat.nlt_ge; intros Hlt.
      - pose proof (proj2 (S0 (k - 1)%nat)). destruct k; [lia|]. nia.
      - assert (Hlt' := proj1 (S0 (S k)) Hlt). nia. }
    rewrite Hs'. split; [lia|]. destruct (k =? _)%nat eqn:Ek.
    + replace (stored (S l) n) with k by lia. rewrite seq_S, fmap_app. f_equal.
      apply list_fmap_ext. intros j x Hx%lookup_seq. apply Hsame. lia.
    + replace (stored (S l) n) with (S k) by lia. rewrite seq_S, !fmap_app.
      rewrite insert_app_r_alt by (rewrite length_fmap, length_seq; lia).
      rewrite length_fmap, length_seq, Nat.sub_diag. cbn. f_equal.
      apply list_fmap_ext. intros j x Hx%lookup_seq. apply Hsame. lia.
Qed.

(** The carry: the new right edge node one level up. *)
Lemma node_edge ls t l q :
  (q * 2 ^ l <= length ls < (q + 1) * 2 ^ l)%nat ->
  node (ls ++ [t]) (S l) (q / 2)
  = if Nat.even q then node (ls ++ [t]) l q
    else combine (node (ls ++ [t]) l (q - 1)) (node (ls ++ [t]) l q).
Proof.
  intros Hq. rewrite node_S, length_app. cbn [length]. destruct (Nat.even q) eqn:E.
  - apply Nat.even_spec in E as [k ->].
    replace (2 * k / 2)%nat with k by (symmetry; rewrite Nat.mul_comm; by apply Nat.div_mul).
    by replace (_ <? _)%nat with false by lia.
  - assert (Nat.odd q = true) as Ho by (by rewrite <- Nat.negb_even, E).
    apply Nat.odd_spec in Ho as [k ->].
    replace ((2 * k + 1) / 2)%nat with k
      by (rewrite Nat.mul_comm, Nat.div_add_l by lia; cbn; lia).
    replace (_ <? _)%nat with true by lia.
    by replace (2 * k + 1 - 1)%nat with (2 * k)%nat by lia.
Qed.

(** The state of the loop of [mt_add]: levels up to [l] are those of the new
    tree, levels above those of the old one. *)
Record add_inv (mt : mt_t) (ls : list (list Z)) (t : list Z) (l q : nat) : Prop := {
  ai_elems : mt_elems mt = Z.of_nat (S (length ls));
  ai_low : forall k, (k <= l)%nat -> level_rep mt (ls ++ [t]) k;
  ai_high : forall k, (l < k < 24)%nat -> level_rep mt ls k;
  ai_q : (q * 2 ^ l <= length ls < (q + 1) * 2 ^ l)%nat;
  ai_top : l = 0%nat \/ exists k, l = S k /\ (2 ^ k <= length ls)%nat;
}.

(** Why no loop step leaves the array of levels. *)
Lemma level_bound n l :
  (2 ^ l <= n)%nat -> Z.of_nat n < MT_AL_MAX_ELEMS -> (l < 22)%nat.
Proof.
  intros Hl Hn. apply Nat.nle_gt. intros Hge.
  assert (Hp : (2 ^ 22 <= 2 ^ l)%nat) by (apply Nat.pow_le_mono_r; lia).
  apply Nat2Z.inj_le in Hp. rewrite Nat2Z.inj_pow in Hp. consts. cbn in Hp. lia.
Qed.

Lemma add_inv_step mt ls t l q al' :
  add_inv mt ls t l q -> (q <> 0)%nat -> Z.of_nat (length ls) < MT_AL_MAX_ELEMS ->
  al_live al' ->
  al_rep al' (node (ls ++ [t]) (S l) <$> seq 0 (stored (S l) (S (length ls)))) ->
  add_inv (set_level mt (Z.of_nat (S l)) al') ls t (S l) (q / 2).
Proof.
  intros [He Hlow Hhigh Hq Htop] Hq0 Hmax Hlive Hrep.
  assert (Hl : (l < 22)%nat) by (apply (level_bound (length ls)); [nia|done]).
  destruct (Hhigh (S l) ltac:(lia)) as (al & Ha & _). apply lookup_lt_Some in Ha.
  split; [done| | |by apply half_interval|right; exists l; split; [done|nia]].
  - intros k Hk. destruct (decide (k = S l)) as [->|].
    + apply level_rep_set; [done|done|]. by rewrite length_app, Nat.add_1_r.
    + apply level_rep_other; [lia|]. apply Hlow. lia.
  - intros k Hk. apply level_rep_other; [lia|]. apply Hhigh. lia.
Qed.

Lemma add_inv_skip mt ls t l q :
  add_inv mt ls t l q -> (q <> 0)%nat -> Z.of_nat (length ls) < MT_AL_MAX_ELEMS ->
  Nat.even q = true -> add_inv mt ls t (S l) (q / 2).
Proof.
  intros [He Hlow Hhigh Hq Htop] Hq0 Hmax Heven.
  assert (Hl : (l < 22)%nat) by (apply (level_bound (length ls)); [nia|done]).
  pose proof (nodes_add ls t l q Hq) as Hn. rewrite Heven in Hn.
  split; [done| | |by apply half_interval|right; exists l; split; [done|nia]].
  - intros k Hk. destruct (decide (k = S l)) as [->|]; [|apply Hlow; lia].
    destruct (Hhigh (S l) ltac:(lia)) as (al & Ha & Hlive & Hrep).
    exists al. split; [done|]. split; [done|].
    rewrite length_app, Nat.add_1_r. by rewrite Hn.
  - intros k Hk. apply Hhigh. lia.
Qed.

Lemma add_inv_done mt ls t l :
  add_inv mt ls t l 0 -> Forall is_hash (ls ++ [t]) ->
  Z.of_nat (S (length ls)) < MT_AL_MAX_ELEMS -> tree_rep mt (ls ++ [t]).
Proof.
  intros [He Hlow Hhigh Hq Htop] Hls Hmax.
  split; rewrite ?length_app, ?Nat.add_1_r; [done|done| |done].
  intros k Hk. destruct (decide (k <= l)%nat); [by apply Hlow|].
  destruct (Hhigh k ltac:(lia)) as (al & Ha & Hlive & Hrep). exists al.
  split; [done|]. split; [done|]. rewrite length_app, Nat.add_1_r.
  destruct k as [|k]; [lia|].
  assert (2 ^ l <= 2 ^ k)%nat by (apply Nat.pow_le_mono_r; lia).
  assert (Hz : forall m, (m <= S (length ls))%nat -> stored (S k) m = 0%nat).
  { intros m Hm. pose proof (stored_spec k m 0). destruct (stored (S k) m); [done|lia]. }
  rewrite Hz in Hrep |- * by lia. done.
Qed.

Lemma mt_right_even q : mt_right (Z.of_nat q) = negb (Nat.even q).
Proof. unfold mt_right. by rewrite <- mt_left_even. Qed.

Lemma mt_add_loop_spec ls t n mt l q w :
  add_inv mt ls t l q -> Forall is_hash (ls ++ [t]) ->
  Z.of_nat (S (length ls)) < MT_AL_MAX_ELEMS -> (n + l = 24)%nat ->
  exists e mt' d' q' k w',
    mt_add_loop n mt (node (ls ++ [t]) l q) (Z.of_nat q) (Z.of_nat l) w
    = Done ((e, mt', d', q', Z.of_nat k), w') /\
    (e = MT_SUCCESS /\ q' = 0 /\ d' = node (ls ++ [t]) k 0 /\ (k < 24)%nat /\
     add_inv mt' ls t k 0 \/ e = MT_ERR_OUT_Of_MEMORY) /\
    (all_ok w -> e = MT_SUCCESS /\ all_ok w').
Proof.
  intros Hinv Hls Hmax. revert mt l q w Hinv.
  induction n as [|n IH]; intros mt l q w Hinv Hn.
  { exfalso. destruct (ai_top _ _ _ _ _ Hinv) as [|(k & -> & Hk)]; [lia|].
    pose proof (level_bound (length ls) k Hk). lia. }
  cbn [mt_add_loop]. destruct (Z.of_nat q =? 0) eqn:Eq.
  { assert (q = 0)%nat as -> by lia. eexists _, _, _, _, l, _. split; [done|]. split; [|done].
    left. repeat (split; [done || lia|]). done. }
  pose proof (ai_q _ _ _ _ _ Hinv) as Hq.
  assert (Hl : (l < 22)%nat) by (apply (level_bound (length ls)); [nia|lia]).
  rewrite mt_right_even, shiftr_half. replace (Z.of_nat l + 1) with (Z.of_nat (S l)) by lia.
  pose proof (node_edge ls t l q Hq) as Hedge. pose proof (nodes_add ls t l q Hq) as Hadd.
  destruct (Nat.even q) eqn:Ev; cbn [negb].
  { rewrite <- Hedge. apply IH; [apply add_inv_skip; (done || lia)|lia]. }
  destruct Hadd as [Hle Hadd]. destruct q as [|q]; [done|].
  assert (Hlen : length (ls ++ [t]) = S (length ls)) by (rewrite length_app; cbn; lia).
  destruct (level_read mt (ls ++ [t]) l w (ai_low _ _ _ _ _ Hinv l ltac:(lia)))
    as (al & Ha & _ & Hget); [lia|by rewrite Hlen|].
  rewrite (bind_done _ _ _ _ _ Ha).
  replace (Z.of_nat (S q) - 1) with (Z.of_nat q) by lia.
  rewrite (bind_done _ _ _ _ _ (Hget q)).
  replace (q <? stored _ _)%nat with true
    by (pose proof (stored_complete l (length (ls ++ [t])) q); lia).
  rewrite hash_chk_ok by (apply node_is_hash; [done|lia]).
  rewrite decide_True by done. rewrite Nat.sub_1_r in Hedge. cbn [Nat.pred] in Hedge.
  rewrite <- Hedge.
  destruct (ai_high _ _ _ _ _ Hinv (S l) ltac:(lia)) as (up & Hup & Hlive & Hrep).
  rewrite (bind_done _ _ _ _ _ (level_at_lookup mt (S l) _ w ltac:(lia) Hup)).
  destruct (mt_al_add_or_update_spec up _ (node (ls ++ [t]) (S l) (S q / 2))
    (Z.of_nat (S q / 2)) w Hrep) as (e & al' & w' & Hr & Hcase & Hlive' & Hok).
  { apply node_is_hash; [done|]. pose proof (half_interval _ _ _ Hq). lia. }
  { rewrite length_fmap, length_seq. pose proof (stored_bound (S l) (length ls)). lia. }
  { rewrite length_fmap, length_seq. lia. }
  rewrite (bind_done _ _ _ _ _ Hr). cbn [fst snd].
  destruct Hcase as [[-> Hal']|[-> _]].
  - rewrite decide_True by done. rewrite length_fmap, length_seq, Nat2Z.id in Hal'.
    replace (Z.of_nat (S q / 2) =? _) with (S q / 2 =? stored (S l) (length ls))%nat in Hal' by lia.
    rewrite <- Hadd in Hal'.
    destruct (IH (set_level mt (Z.of_nat (S l)) al') (S l) (S q / 2)%nat w')
      as (e & mt' & d' & q' & k & w'' & Hloop & Hres & Hok');
      [apply add_inv_step; [done|lia|lia|by apply Hlive'|done]|lia|].
    eexists _, _, _, _, _, _. split; [exact Hloop|]. split; [done|].
    intros Hw. apply Hok', Hok, Hw.
  - rewrite decide_False by done. eexists _, _, _, _, l, _. split; [done|].
    split; [by right|]. intros Hw. by destruct (Hok Hw).
Qed.

(** The leaf is in its level, the levels above are still those of before. *)
Lemma add_inv_leaf mt ls t al' n :
  (forall l, (l < 24)%nat -> level_rep mt ls l) -> al_live al' -> al_rep al' (ls ++ [t]) -> n = Z.of_nat (S (length ls)) ->
  add_inv (Mk_mt n (level (set_level mt 0 al'))) ls t 0 (length ls).
Proof.
  intros Hlv Hlive Hal ->. split; [done| | |cbn; lia|by left].
  - intros k Hk. replace k with 0%nat by lia. destruct (Hlv 0%nat ltac:(lia)) as (al & Ha & _).
    assert (Hs : level_rep (set_level mt (Z.of_nat 0) al') (ls ++ [t]) 0).
    { apply level_rep_set; [by apply lookup_lt_Some in Ha|done|]. cbn [stored]. by rewrite leaves_eq. }
    destruct Hs as (a & H1 & H2). by exists a.
  - intros k Hk. destruct (level_rep_other mt ls 0 k al' ltac:(lia)) as (a & H1 & H2); [apply Hlv; lia|]. by exists a.
Qed.

(** [mt_add] appends the leaf; only the allocator can make it fail. *)
Lemma mt_add_spec mt ls tag len w :
  tree_rep mt ls -> 0 <= len <= HASH_LENGTH -> len <= Z.of_nat (length tag) ->
  bytes tag -> Z.of_nat (S (length ls)) < MT_AL_MAX_ELEMS ->
  exists e mt' w', mt_add (Some mt) (Some tag) len w = Done ((e, Some mt'), w') /\
    (e = MT_SUCCESS /\ tree_rep mt' (ls ++ [leaf_of tag len]) \/ e = MT_ERR_OUT_Of_MEMORY) /\
    (all_ok w -> e = MT_SUCCESS /\ all_ok w').
Proof.
  intros [He Hls Hlv _] Hlen Htag Hb Hmax. unfold mt_add.
  replace (len <=? _) with true by lia.
  rewrite (bind_done _ _ _ _ _ (mt_init_hash_spec tag len w Hlen Htag)).
  set (t := leaf_of tag len). assert (Ht : is_hash t) by by apply leaf_is_hash.
  assert (Hls' : Forall is_hash (ls ++ [t])) by (apply Forall_app_2; [done|by constructor]).
  assert (Hlen' : length (ls ++ [t]) = S (length ls)) by (rewrite length_app; cbn; lia).
  destruct (Hlv 0%nat ltac:(lia)) as (al & Ha & Hlive & Hal).
  pose proof (level_at_lookup mt 0 _ w ltac:(lia) Ha) as Hat. change (Z.of_nat 0) with 0 in Hat.
  rewrite (bind_done _ _ _ _ _ Hat). cbn [stored] in Hal. rewrite leaves_eq in Hal.
  destruct (mt_al_add_spec al ls t w Hal Ht) as (e & al' & w' & Hadd & Hcase & Hlive' & Hok);
    [lia|].
  rewrite (bind_done _ _ _ _ _ Hadd). cbn [fst snd].
  destruct Hcase as [(-> & Hal' & Hl')|[-> _]]; last first.
  { rewrite decide_False by done. eexists _, _, _. split; [done|]. split; [by right|].
    intros Hw. by destruct (Hok Hw). }
  rewrite decide_True by done. cbn [set_level mt_elems]. rewrite He, u32_small by clia.
  set (mt1 := Mk_mt _ _).
  assert (Hinv : add_inv mt1 ls t 0 (length ls)) by (apply add_inv_leaf; [done..|lia]).
  destruct (Z.of_nat (length ls) + 1 =? 1) eqn:E1.
  { destruct ls; [|cbn in E1; lia].
    eexists _, _, _. split; [done|]. split; [|done]. left. split; [done|].
    by apply (add_inv_done mt1 [] t 0). }
  destruct (mt_add_loop_spec ls t 24 mt1 0 (length ls) w' Hinv Hls' Hmax ltac:(lia))
    as (e & mt' & d' & q' & k & w'' & Hloop & Hres & Hok').
  rewrite (node_0 _ _ t) in Hloop by (by rewrite lookup_app_r, Nat.sub_diag).
  rewrite u32_small, Z.add_simpl_r by clia.
  change (Z.of_nat 0) with 0 in Hloop. change (Z.to_nat TREE_LEVELS) with 24%nat.
  rewrite (bind_done _ _ _ _ _ Hloop).
  destruct Hres as [(-> & -> & -> & Hk & Hinv')| ->]; last first.
  { rewrite decide_False by done. eexists _, _, _. split; [done|]. split; [by right|].
    intros Hw. by destruct (Hok' (proj2 (Hok Hw))). }
  rewrite decide_True by done.
  pose proof (add_inv_done _ _ _ _ Hinv' Hls' Hmax) as Hrep'.
  destruct (level_read mt' (ls ++ [t]) k w'' (tr_levels _ _ Hrep' k Hk)) as (at' & Hat' & _ & Hg);
    [done|by rewrite Hlen'|].
  rewrite (bind_done _ _ _ _ _ Hat'). change 0 with (Z.of_nat 0) at 1.
  assert (Hst : (0 < stored k (length (ls ++ [t])))%nat).
  { destruct (ai_top _ _ _ _ _ Hinv') as [->|(k' & -> & Hk')]; [cbn; lia|].
    apply stored_spec. lia. }
  specialize (Hg 0%nat). replace (0 <? stored _ _)%nat with true in Hg by lia.
  rewrite (bind_done _ _ _ _ _ Hg). cbn [memcmp_eq].
  rewrite bind_ret, bool_decide_eq_true_2, bind_assert by done.
  eexists _, _, _. split; [done|]. split; [by left|]. intros Hw. split; [done|].
  apply Hok', Hok, Hw.
Qed.

(** ** Creation and deletion *)

Lemma delete_levels_live ls w :
  Forall (fun p => exists al, p = Some al /\ al_live al) ls -> delete_levels ls w = Done (tt, w).
Proof.
  induction 1 as [|p ls (al & -> & Hal) _ IH]; [done|]. cbn [delete_levels].
  by rewrite (bind_done _ _ _ _ _ (mt_al_delete_live al w Hal)).
Qed.

Lemma create_levels_spec n k w :
  exists r w', create_levels n (replicate k (Some (Mk_al 0 Null))) w = Done (r, w') /\
    (r = Some (replicate (k + n) (Some (Mk_al 0 Null))) \/ r = None) /\
    (all_ok w -> r <> None /\ all_ok w').
Proof.
  revert k w. induction n as [|n IH]; intros k w; cbn [create_levels].
  { eexists _, _. split; [done|]. rewrite Nat.add_0_r. by split; [left|]. }
  unfold mt_al_create. destruct (request_cases w) as (b & w1 & Hr & Hok).
  rewrite bind_assoc, (bind_done _ _ _ _ _ Hr), bind_ret. destruct b.
  - cbn [al_store]. destruct (IH (S k) w1) as (r & w' & H1 & H2 & H3).
    rewrite replicate_S_end in H1. exists r, w'. split; [done|].
    replace (k + S n)%nat with (S k + n)%nat by lia. split; [done|].
    intros Hw. apply H3, Hok, Hw.
  - rewrite (bind_done _ _ _ _ _ (delete_levels_live _ w1
      ltac:(apply Forall_replicate; by exists (Mk_al 0 Null)))).
    eexists _, _. split; [done|]. split; [by right|]. intros Hw. by destruct (Hok Hw).
Qed.

Lemma empty_tree_rep : tree_rep (Mk_mt 0 (replicate 24 (Some (Mk_al 0 Null)))) [].
Proof.
  split; [done|done| |done]. intros l Hl. exists (Mk_al 0 Null).
  split; [by apply lookup_replicate_2|]. split; [done|]. cbn [length].
  assert (Hz : stored l 0 = 0%nat) by (pose proof (stored_bound l 0); lia).
  rewrite Hz. apply al_rep_empty.
Qed.

(** [mt_create] makes the empty tree, or NULL when memory is short. *)
Lemma mt_create_spec w :
  exists r w', mt_create w = Done (r, w') /\
    (r = None \/ exists mt, r = Some mt /\ tree_rep mt []) /\
    (all_ok w -> r <> None /\ all_ok w').
Proof.
  unfold mt_create. destruct (request_cases w) as (b & w1 & Hr & Hok).
  rewrite (bind_done _ _ _ _ _ Hr). destruct b; last first.
  { eexists _, _. split; [done|]. split; [by left|]. intros Hw. by destruct (Hok Hw). }
  destruct (create_levels_spec 24 0 w1) as (r & w' & H1 & H2 & H3).
  rewrite (bind_done _ _ _ _ _ H1). eexists _, _. split; [done|].
  destruct H2 as [->| ->]; cbn.
  - split; [right; eexists; split; [done|apply empty_tree_rep]|].
    intros Hw. split; [done|]. apply H3, Hok, Hw.
  - split; [by left|]. intros Hw. by destruct (H3 (proj2 (Hok Hw))).
Qed.

(** [mt_delete] frees each level once. *)
Lemma mt_delete_spec mt ls w : tree_rep mt ls -> mt_delete (Some mt) w = Done (tt, w).
Proof.
  intros [_ _ Hlv _]. apply delete_levels_live, Forall_lookup_2. intros i p Hp.
  apply lookup_take_Some in Hp as [Hp Hi]. change (Z.to_nat TREE_LEVELS) with 24%nat in Hi.
  destruct (Hlv i Hi) as (al & Ha & Hlive & _). rewrite Hp in Ha. simplify_eq. by exists al.
Qed.

(** ** Binding: two lists of leaves with one root collide in the node hash

    [find_collision] goes down from a root that two trees share to the first place
    where their nodes differ: the two pairs of children it returns are nodes of
    the given trees, are different, and have the same hash. *)

Fixpoint find_collision (l : nat) (ls ls' : list (list Z)) : option ((list Z * list Z) * (list Z * list Z)) :=
  match l with
  | O => None
  | S l =>
      if (2 ^ l <? length ls)%nat then
        let x := (mth l (take (2 ^ l) ls), mth l (drop (2 ^ l) ls)) in
        let y := (mth l (take (2 ^ l) ls'), mth l (drop (2 ^ l) ls')) in
        if decide (x = y) then
          match find_collision l (take (2 ^ l) ls) (take (2 ^ l) ls') with
          | Some c => Some c
          | None => find_collision l (drop (2 ^ l) ls) (drop (2 ^ l) ls')
          end
        else if decide (combine x.1 x.2 = combine y.1 y.2) then Some (x, y) else None
      else find_collision l ls ls'
  end.

Definition tree_collision (ls ls' : list (list Z)) : option ((list Z * list Z) * (list Z * list Z)) :=
  find_collision (depth ls) ls ls'.

(** What is found is a collision. *)
Definition collides (x y : list Z * list Z) : Prop :=
  is_hash x.1 /\ is_hash x.2 /\ is_hash y.1 /\ is_hash y.2 /\ x <> y /\ combine x.1 x.2 = combine y.1 y.2.

Lemma halves_nonempty l n (x : list (list Z)) : (2 ^ l < n)%nat -> length x = n ->
  take (2 ^ l) x <> [] /\ drop (2 ^ l) x <> [].
Proof.
  intros Hl Hx. pose proof (pow2_pos l).
  split; intros Ht%(f_equal length); rewrite ?length_take, ?length_drop in Ht; cbn in Ht; lia.
Qed.

Lemma find_collision_sound l ls ls' x y :
  length ls = length ls' -> ls <> [] -> Forall is_hash ls -> Forall is_hash ls' ->
  find_collision l ls ls' = Some (x, y) -> collides x y.
Proof.
  revert ls ls'. induction l as [|l IH]; intros ls ls' Hlen Hne Hf Hf' E; cbn [find_collision] in E; [done|].
  destruct (2 ^ l <? length ls)%nat eqn:El; [|by apply (IH ls ls')].
  destruct (halves_nonempty l (length ls) ls ltac:(lia) eq_refl), (halves_nonempty l (length ls) ls' ltac:(lia) (eq_sym Hlen)).
  case_decide as Hxy; [|case_decide; [|done]].
  - destruct (find_collision l (take _ ls) _) as [[x0 y0]|] eqn:Et.
    + injection E as -> ->. eapply IH; [| | | |exact Et]; rewrite ?length_take; auto using Forall_take with lia.
    + eapply IH; [| | | |exact E]; rewrite ?length_drop; auto using Forall_drop with lia.
  - injection E as <- <-. cbn [fst snd] in *. split_and!; try done; apply mth_is_hash; auto using Forall_take, Forall_drop.
Qed.

(** Equal roots mean equal leaves or a collision that is found. *)
Lemma find_collision_iff l ls ls' :
  length ls = length ls' -> (0 < length ls <= 2 ^ l)%nat ->
  mth l ls = mth l ls' <-> ls = ls' \/ is_Some (find_collision l ls ls').
Proof.
  revert ls ls'. induction l as [|l IH]; intros ls ls' Hlen Hl; cbn [mth find_collision].
  { destruct ls as [|a [|]], ls' as [|b [|]]; cbn in *; try lia. split; [intros ->; by left|].
    intros [[= ->]|[? ?]]; done. }
  rewrite <- Hlen. rewrite Nat.pow_succ_r' in Hl. pose proof (pow2_pos l).
  destruct (2 ^ l <? length ls)%nat eqn:E; [|apply IH; [done|lia]].
  pose proof (IH (take (2 ^ l) ls) (take (2 ^ l) ls') ltac:(rewrite !length_take; lia) ltac:(rewrite length_take; lia)) as Ht.
  pose proof (IH (drop (2 ^ l) ls) (drop (2 ^ l) ls') ltac:(rewrite !length_drop; lia) ltac:(rewrite length_drop; lia)) as Hd.
  assert (Hsplit : ls = ls' <-> take (2 ^ l) ls = take (2 ^ l) ls' /\ drop (2 ^ l) ls = drop (2 ^ l) ls').
  { split; [by intros ->|]. intros [H1 H2]. by rewrite <- (take_drop (2 ^ l) ls), H1, H2, take_drop. }
  case_decide as Hxy.
  - injection Hxy as H1 H2. rewrite H1, H2. split; [intros _|done]. rewrite Hsplit.
    apply Ht in H1. apply Hd in H2. destruct (find_collision l (take _ ls) _); [right; eauto|].
    destruct H1 as [H1|[? ?]]; [|done]. destruct H2 as [H2|H2]; [by left|by right].
  - case_decide as Hc; cbn [fst snd] in *; [split; [right; eauto|done]|].
    split; [done|]. intros [(H1 & H2)%Hsplit|[? ?]]; [|done]. by rewrite H1, H2.
Qed.

Lemma root_eq_iff ls ls' : length ls = length ls' -> ls <> [] ->
  root ls = root ls' <-> ls = ls' \/ is_Some (tree_collision ls ls').
Proof.
  intros Hlen Hne. unfold root, tree_collision, depth. rewrite <- Hlen. apply find_collision_iff; [done|].
  pose proof (depth_spec (depth ls) ls Hne). unfold depth in *. destruct ls; [done|]. cbn [length] in *. lia.
Qed.

Lemma tree_collision_sound ls ls' x y :
  length ls = length ls' -> ls <> [] -> Forall is_hash ls -> Forall is_hash ls' ->
  tree_collision ls ls' = Some (x, y) -> collides x y.
Proof. unfold tree_collision. apply find_collision_sound. Qed.

(** One leaf replaced: the root stays if and only if the leaf does, or there is a
    collision on its way to the root. *)
Lemma root_insert_iff ls i h t : ls !! i = Some h ->
  root (<[i := t]> ls) = root ls <-> t = h \/ is_Some (tree_collision (<[i := t]> ls) ls).
Proof.
  intros Hi. pose proof (lookup_lt_Some _ _ _ Hi) as Hlt. rewrite root_eq_iff.
  - assert (<[i := t]> ls = ls <-> t = h) as ->; [|done]. split; [|intros ->; by apply list_insert_id].
    intros E%(f_equal (.!! i)). rewrite list_lookup_insert_eq, Hi in E by done. congruence.
  - apply length_insert.
  - intros E%(f_equal length). rewrite length_insert in E. cbn in E. lia.
Qed.

Lemma insert_collides ls i t x y : Forall is_hash ls -> is_hash t -> (i < length ls)%nat ->
  tree_collision (<[i := t]> ls) ls = Some (x, y) -> collides x y.
Proof.
  intros Hls Ht Hi. apply tree_collision_sound; [apply length_insert| |by apply Forall_insert|done].
  intros E%(f_equal length). rewrite length_insert in E. cbn in E. lia.
Qed.

End spec.

(** ** The library's own test: roots of five leaves before and after an update *)

Definition test_value (i : Z) : list Z := replicate 32 i.

Fixpoint add_all {NH : NodeHash} (mt : option mt_t) (tags : list (list Z))
  : M (mt_error_t * option mt_t) :=
  match tags with
  | [] => mret (MT_SUCCESS, mt)
  | t :: tags =>
      r ← mt_add mt (Some t) 32;
      if decide (r.1 = MT_SUCCESS) then add_all r.2 tags else mret r
  end.

Definition testSimpleTree : M (option (list Z) * list mt_error_t * option (list Z)) :=
  mt ← mt_create;
  r ← add_all mt (test_value <$> [0; 1; 2; 3; 4]);
  v0 ← mt_verify r.2 (Some (test_value 0)) 32 0;
  v1 ← mt_verify r.2 (Some (test_value 1)) 32 1;
  v4 ← mt_verify r.2 (Some (test_value 4)) 32 4;
  bad ← mt_verify r.2 (Some (test_value 3)) 32 4;
  r5_1 ← mt_get_root r.2 true;
  u ← mt_update r.2 (Some (test_value 7)) 32 0;
  r5_2 ← mt_get_root u.2 true;
  _ ← mt_delete u.2;
  mret (r5_1.2, [v0; v1; v4; bad; u.1], r5_2.2).

Definition ROOT_5_1 : list Z :=
  [0x24; 0x39; 0x37; 0xFE; 0x91; 0xB8; 0xAF; 0xCC; 0xF7; 0x79; 0x51; 0xAF; 0x4E; 0x94; 0x6C; 0x99;
   0x3E; 0x21; 0xCF; 0xE1; 0x34; 0x64; 0x4F; 0xAD; 0x15; 0xDA; 0x30; 0x2E; 0xF0; 0x93; 0xAE; 0x68].
Definition ROOT_5_2 : list Z :=
  [0x8F; 0x6F; 0xA8; 0x61; 0x7E; 0x7B; 0x9D; 0x00; 0x4C; 0xF8; 0xE7; 0x4B; 0x54; 0x25; 0xF9; 0xA5;
   0xA7; 0x27; 0x37; 0xFD; 0xE3; 0xAD; 0x35; 0x73; 0xBB; 0xD1; 0x81; 0xD8; 0xD2; 0x60; 0x82; 0x7F].

Example testSimpleTree_passes :
  testSimpleTree [] = Done (Some ROOT_5_1,
    [MT_SUCCESS; MT_SUCCESS; MT_SUCCESS; MT_ERR_ROOT_MISMATCH; MT_SUCCESS], Some ROOT_5_2, []).
Proof. vm_compute. reflexivity. Qed.
