(* ===== verification/MerkleTheorems.v ===== *)
(** * What the Merkle tree promises

    The theorems about [MerkleTree], for every node hash ([NodeHash]) or, where
    it matters, for SHA-256.  [abs_run] is the abstract tree, a list of leaves;
    the C functions refine it. *)

From stdpp Require Import base tactics list numbers option.
From Stdlib Require Import ZArith Lia ZifyBool.
From S2P Require Import Prelude MtArrList Sha256 MtCrypto MerkleTree.

Local Open Scope Z_scope.

(** ** The abstract tree *)

(** Calls a client makes, with 32-byte tags. *)
Inductive mt_op :=
  | OpAdd (tag : list Z)
  | OpUpdate (tag : list Z) (offset : nat)
  | OpVerify (tag : list Z) (offset : nat)
  | OpRoot
  | OpSize.

(** What a call returns. *)
Inductive mt_res :=
  | Code (e : mt_error_t)
  | Root (h : list Z)
  | Size (n : Z).

Section refinement.
Context {NH : NodeHash}.

(** [None]: a call outside the contract (a tag that is not 32 bytes, the root of
    an empty tree, more than 2^22 - 1 leaves). *)
Definition abs_step (ls : list (list Z)) (op : mt_op) : option (list (list Z) * mt_res) :=
  match op with
  | OpAdd t =>
      if bool_decide (is_hash t) && (Z.of_nat (length ls) + 1 <? MT_AL_MAX_ELEMS)
      then Some (ls ++ [t], Code MT_SUCCESS) else None
  | OpUpdate t i =>
      if bool_decide (is_hash t) then
        Some (if (i <? length ls)%nat then (<[i:=t]> ls, Code MT_SUCCESS)
              else (ls, Code MT_ERR_ILLEGAL_PARAM))
      else None
  | OpVerify t i =>
      if bool_decide (is_hash t) then
        Some (ls, Code (if (i <? length ls)%nat then
                          if decide (root (<[i:=t]> ls) = root ls)
                          then MT_SUCCESS else MT_ERR_ROOT_MISMATCH
                        else MT_ERR_ILLEGAL_PARAM))
      else None
  | OpRoot => if bool_decide (ls = []) then None else Some (ls, Root (root ls))
  | OpSize => Some (ls, Size (Z.of_nat (length ls)))
  end.

Fixpoint abs_run (ls : list (list Z)) (ops : list mt_op) : option (list (list Z) * list mt_res) :=
  match ops with
  | [] => Some (ls, [])
  | op :: ops =>
      '(ls, r) ← abs_step ls op;
      '(ls, rs) ← abs_run ls ops;
      Some (ls, r :: rs)
  end.

(** The same calls on the C tree. *)
Definition con_step (mt : mt_t) (op : mt_op) : M (mt_t * mt_res) :=
  match op with
  | OpAdd t => r ← mt_add (Some mt) (Some t) HASH_LENGTH; mret (default mt r.2, Code r.1)
  | OpUpdate t i =>
      r ← mt_update (Some mt) (Some t) HASH_LENGTH (Z.of_nat i);
      mret (default mt r.2, Code r.1)
  | OpVerify t i =>
      e ← mt_verify (Some mt) (Some t) HASH_LENGTH (Z.of_nat i); mret (mt, Code e)
  | OpRoot => r ← mt_get_root (Some mt) true; mret (mt, Root (default [] r.2))
  | OpSize => n ← mt_get_size (Some mt); mret (mt, Size n)
  end.

Fixpoint con_run (mt : mt_t) (ops : list mt_op) : M (mt_t * list mt_res) :=
  match ops with
  | [] => mret (mt, [])
  | op :: ops =>
      r ← con_step mt op;
      s ← con_run r.1 ops;
      mret (s.1, r.2 :: s.2)
  end.

Lemma mt_get_size_spec mt ls w :
  tree_rep mt ls -> mt_get_size (Some mt) w = Done (Z.of_nat (length ls), w).
Proof.
  intros [_ _ Hlv Hmax]. unfold mt_get_size.
  destruct (level_read mt ls 0 w (Hlv 0%nat ltac:(lia))) as (al & Ha & Hs & _); [lia|done|].
  change (Z.of_nat 0) with 0 in Ha. by rewrite (bind_done _ _ _ _ _ Ha), Hs.
Qed.

Lemma mt_verify_range mt tag len off w :
  mt_elems mt <= off -> mt_verify (Some mt) (Some tag) len off w = Done (MT_ERR_ILLEGAL_PARAM, w).
Proof. intros H. unfold mt_verify. by replace (_ && _) with false by lia. Qed.

Lemma mt_update_range mt tag len off w :
  mt_elems mt <= off ->
  mt_update (Some mt) (Some tag) len off w = Done ((MT_ERR_ILLEGAL_PARAM, Some mt), w).
Proof. intros H. unfold mt_update. by replace (_ && _) with false by lia. Qed.

Lemma hash_params t :
  is_hash t -> 0 <= HASH_LENGTH <= HASH_LENGTH /\ HASH_LENGTH <= Z.of_nat (length t) /\ bytes t.
Proof. intros [Hl Hb]. unfold HASH_LENGTH. rewrite Hl. done. Qed.

(** One call of the C tree does what the abstract call does. *)
Lemma step_simulation mt ls op ls' r w :
  tree_rep mt ls -> abs_step ls op = Some (ls', r) -> all_ok w ->
  exists mt' w', con_step mt op w = Done ((mt', r), w') /\ tree_rep mt' ls' /\ all_ok w'.
Proof.
  intros Hrep Habs Hw. destruct op as [t|t i|t i| |]; cbn [abs_step con_step] in *.
  - case_bool_decide as Ht; [|done]. destruct (_ <? _) eqn:E; [|done].
    injection Habs as <- <-. destruct (hash_params t Ht) as (H1 & H2 & H3).
    destruct (mt_add_spec mt ls t HASH_LENGTH w Hrep H1 H2 H3) as (e & mt' & w' & Ha & Hc & Hok);
      [lia|].
    rewrite (bind_done _ _ _ _ _ Ha). destruct (Hok Hw) as [-> Hw'].
    destruct Hc as [[_ Hr]|]; [|done]. rewrite leaf_of_hash in Hr by done. by exists mt', w'.
  - case_bool_decide as Ht; [|done].
    destruct (hash_params t Ht) as (H1 & H2 & H3). destruct (_ <? _)%nat eqn:E;
      injection Habs as <- <-.
    + destruct (mt_update_spec mt ls t HASH_LENGTH (Z.of_nat i) w Hrep H1 H2 H3)
        as (mt' & Hu & Hr); [lia|].
      rewrite (bind_done _ _ _ _ _ Hu). rewrite leaf_of_hash, Nat2Z.id in Hr by done.
      by exists mt', w.
    + rewrite (bind_done _ _ _ _ _ (mt_update_range mt t HASH_LENGTH (Z.of_nat i) w
        ltac:(rewrite (tr_elems _ _ Hrep); lia))). by exists mt, w.
  - case_bool_decide as Ht; [|done]. injection Habs as <- <-.
    destruct (hash_params t Ht) as (H1 & H2 & H3). destruct (_ <? _)%nat eqn:E.
    + rewrite (bind_done _ _ _ _ _ (mt_verify_spec mt ls t HASH_LENGTH (Z.of_nat i) w Hrep
        H1 H2 H3 ltac:(lia))). rewrite leaf_of_hash, Nat2Z.id by done. by exists mt, w.
    + rewrite (bind_done _ _ _ _ _ (mt_verify_range mt t HASH_LENGTH (Z.of_nat i) w
        ltac:(rewrite (tr_elems _ _ Hrep); lia))). by exists mt, w.
  - case_bool_decide as Hne; [done|]. injection Habs as <- <-.
    rewrite (bind_done _ _ _ _ _ (mt_get_root_spec mt ls w Hrep Hne)). by exists mt, w.
  - injection Habs as <- <-.
    rewrite (bind_done _ _ _ _ _ (mt_get_size_spec mt ls w Hrep)). by exists mt, w.
Qed.

Lemma run_simulation ops mt ls ls' rs w :
  tree_rep mt ls -> abs_run ls ops = Some (ls', rs) -> all_ok w ->
  exists mt' w', con_run mt ops w = Done ((mt', rs), w') /\ tree_rep mt' ls' /\ all_ok w'.
Proof.
  revert mt ls rs w. induction ops as [|op ops IH]; intros mt ls rs w Hrep Habs Hw.
  { cbn in Habs. simplify_eq. by exists mt, w. }
  cbn in Habs. destruct (abs_step ls op) as [[ls1 r]|] eqn:E; [|done]. cbn in Habs.
  destruct (abs_run ls1 ops) as [[ls2 rs2]|] eqn:E2; [|done]. cbn in Habs. simplify_eq.
  destruct (step_simulation mt ls op ls1 r w Hrep E Hw) as (mt1 & w1 & H1 & Hr1 & Hw1).
  destruct (IH mt1 ls1 rs2 w1 Hr1 E2 Hw1) as (mt2 & w2 & H2 & Hr2 & Hw2).
  exists mt2, w2. cbn [con_run]. rewrite (bind_done _ _ _ _ _ H1). cbn [fst].
  by rewrite (bind_done _ _ _ _ _ H2).
Qed.

(** A tree of any list of leaves can be built. *)
Lemma build ls w :
  Forall is_hash ls -> Z.of_nat (length ls) < MT_AL_MAX_ELEMS -> all_ok w ->
  exists mt w', tree_rep mt ls /\ all_ok w' /\
    (m ← mt_create; add_all m ls) w = Done ((MT_SUCCESS, Some mt), w').
Proof.
  intros Hls Hmax Hw. destruct (mt_create_spec w) as (r & w1 & Hc & Hr & Hok).
  destruct (Hok Hw) as [Hne Hw1]. destruct Hr as [->|(mt & -> & Hrep)]; [done|].
  setoid_rewrite (bind_done _ _ _ _ _ Hc). clear Hc Hok Hne w Hw.
  enough (Hgo : forall ls0, tree_rep mt ls0 -> Z.of_nat (length (ls0 ++ ls)) < MT_AL_MAX_ELEMS ->
    exists mt' w', tree_rep mt' (ls0 ++ ls) /\ all_ok w' /\
      add_all (Some mt) ls w1 = Done ((MT_SUCCESS, Some mt'), w')) by by apply (Hgo []).
  clear Hrep Hmax. revert mt w1 Hw1.
  induction Hls as [|t ls Ht _ IH]; intros mt w1 Hw1 ls0 Hrep Hmax.
  { exists mt, w1. by rewrite app_nil_r. }
  destruct (hash_params t Ht) as (H1 & H2 & H3). cbn [add_all].
  rewrite length_app in Hmax. cbn [length] in Hmax.
  destruct (mt_add_spec mt ls0 t HASH_LENGTH w1 Hrep H1 H2 H3) as (e & mt' & w' & Ha & Hc & Hok);
    [lia|].
  change HASH_LENGTH with 32 in Ha. rewrite (bind_done _ _ _ _ _ Ha).
  destruct (Hok Hw1) as [-> Hw']. destruct Hc as [[_ Hr]|]; [|done]. cbn [fst snd].
  rewrite decide_True by done. rewrite leaf_of_hash in Hr by done.
  rewrite cons_middle, app_assoc. apply IH; [done..|].
  rewrite !length_app. cbn. lia.
Qed.

End refinement.

(** With 2^22 leaves the first iteration of [mt_add]'s loop aborts. *)
Lemma full_loop_faults {NH : NodeHash} n mt d al w :
  level mt !! 0%nat = Some (Some al) -> al_elems al = MT_AL_MAX_ELEMS ->
  mt_add_loop (S n) mt d 4194303 0 w = Fault AssertFail.
Proof.
  intros Hal Hel. cbn [mt_add_loop]. change (4194303 =? 0) with false.
  change (mt_right 4194303) with true. cbv iota.
  rewrite (bind_done _ _ _ _ _ (level_at_lookup mt 0 _ w ltac:(lia) Hal)).
  apply bind_fault. unfold mt_al_get. cbn [deref_al]. rewrite bind_ret.
  apply bind_fault. unfold check_elems. by rewrite Hel.
Qed.

(** ** The theorems *)

Section theorems.
Context {NH : NodeHash}.

(** C3. Functional refinement: a tree that represents the leaves [ls] answers any
    sequence of add, update, verify, root and size calls inside the contract
    exactly as the abstract list of leaves does, never faults, and still
    represents the abstract leaves afterwards. *)
Theorem mt_refines_leaf_list mt ls ops ls' rs w :
  tree_rep mt ls -> abs_run ls ops = Some (ls', rs) -> all_ok w ->
  exists mt' w', con_run mt ops w = Done ((mt', rs), w') /\ tree_rep mt' ls' /\ all_ok w'.
Proof. apply run_simulation. Qed.

(** From nothing: creating a tree and adding any fewer than 2^22 leaves
    succeeds when memory suffices, the root read back is the Merkle tree hash
    [mth] of the leaves (split at the largest power of two below their number),
    and deleting the tree frees every level once. *)
Theorem mt_build_root ls w :
  Forall is_hash ls -> ls <> [] -> Z.of_nat (length ls) < MT_AL_MAX_ELEMS -> all_ok w ->
  exists mt w', (m ← mt_create; add_all m ls) w = Done ((MT_SUCCESS, Some mt), w') /\
    mt_get_root (Some mt) true w' = Done ((MT_SUCCESS, Some (root ls)), w') /\
    mt_delete (Some mt) w' = Done (tt, w').
Proof.
  intros Hls Hne Hmax Hw. destruct (build ls w Hls Hmax Hw) as (mt & w' & Hrep & Hw' & Hb).
  exists mt, w'. split; [done|]. split; [by apply mt_get_root_spec|by apply (mt_delete_spec mt ls)].
Qed.

(** [mt_add] on a tree with room: under any behaviour of the allocator the
    call returns, and either the new leaf (the tag, zero-padded to 32 bytes) is
    appended and the whole tree is that of the extended leaf list, or the error
    is MT_ERR_OUT_Of_MEMORY. *)
Theorem mt_add_appends mt ls tag len w :
  tree_rep mt ls -> 0 <= len <= HASH_LENGTH -> len <= Z.of_nat (length tag) ->
  bytes tag -> Z.of_nat (S (length ls)) < MT_AL_MAX_ELEMS ->
  exists e mt' w', mt_add (Some mt) (Some tag) len w = Done ((e, Some mt'), w') /\
    (e = MT_SUCCESS /\ tree_rep mt' (ls ++ [leaf_of tag len]) \/ e = MT_ERR_OUT_Of_MEMORY) /\
    (all_ok w -> e = MT_SUCCESS).
Proof.
  intros Hr H1 H2 H3 H4. destruct (mt_add_spec mt ls tag len w Hr H1 H2 H3 H4)
    as (e & mt' & w' & Ha & Hc & Hok).
  exists e, mt', w'. split; [done|]. split; [done|]. intros Hw. by destruct (Hok Hw).
Qed.

(** [mt_verify] decides root equality: for an offset in range it returns
    MT_SUCCESS exactly when replacing that leaf by the tag leaves the root
    unchanged and MT_ERR_ROOT_MISMATCH otherwise; beyond the range it returns
    MT_ERR_ILLEGAL_PARAM.  It never faults and never allocates. *)
Theorem mt_verify_decides mt ls tag len off w :
  tree_rep mt ls -> 0 <= len <= HASH_LENGTH -> len <= Z.of_nat (length tag) ->
  bytes tag -> 0 <= off ->
  mt_verify (Some mt) (Some tag) len off w
  = Done (if off <? Z.of_nat (length ls)
          then if decide (root (<[Z.to_nat off:=leaf_of tag len]> ls) = root ls)
               then MT_SUCCESS else MT_ERR_ROOT_MISMATCH
          else MT_ERR_ILLEGAL_PARAM, w).
Proof.
  intros Hr H1 H2 H3 H4. destruct (_ <? _) eqn:E.
  - apply mt_verify_spec; try done. lia.
  - apply mt_verify_range. rewrite (tr_elems _ _ Hr). lia.
Qed.

(** [mt_update] replaces one leaf: it succeeds for every offset in range and
    leaves the tree of the updated leaf list, so that every stored interior node
    and the root are recomputed. *)
Theorem mt_update_replaces mt ls tag len off w :
  tree_rep mt ls -> 0 <= len <= HASH_LENGTH -> len <= Z.of_nat (length tag) ->
  bytes tag -> 0 <= off < Z.of_nat (length ls) ->
  exists mt', mt_update (Some mt) (Some tag) len off w = Done ((MT_SUCCESS, Some mt'), w) /\
    tree_rep mt' (<[Z.to_nat off:=leaf_of tag len]> ls).
Proof. apply mt_update_spec. Qed.

(** The capacity is one less than MT_AL_MAX_ELEMS: adding the leaf number
    2^22 stores it and then aborts in the assertion of [mt_al_get], although
    [mt_al_add] accepts it. *)
Theorem mt_add_full_aborts mt ls tag w :
  tree_rep mt ls -> Z.of_nat (length ls) = MT_AL_MAX_ELEMS - 1 -> is_hash tag ->
  mt_add (Some mt) (Some tag) HASH_LENGTH w = Fault AssertFail.
Proof.
  intros [He Hls Hlv Hmax] Hfull Ht. unfold mt_add.
  destruct (hash_params tag Ht) as (H1 & H2 & H3).
  replace (HASH_LENGTH <=? _) with true by lia.
  rewrite (bind_done _ _ _ _ _ (mt_init_hash_spec tag _ w H1 H2)), leaf_of_hash by done.
  destruct (Hlv 0%nat ltac:(lia)) as (al & Ha & Hlive & Hal).
  pose proof (level_at_lookup mt 0 _ w ltac:(lia) Ha) as Hat. change (Z.of_nat 0) with 0 in Hat.
  rewrite (bind_done _ _ _ _ _ Hat). cbn [stored] in Hal. rewrite leaves_eq in Hal.
  destruct (append_full al ls tag w Hal Ht Hfull) as (al' & Hadd & Hel).
  rewrite (bind_done _ _ _ _ _ Hadd). cbn [fst snd]. rewrite decide_True by done.
  cbn [set_level mt_elems level]. rewrite He, Hfull.
  change (u32 (MT_AL_MAX_ELEMS - 1 + 1)) with 4194304. cbn [Z.eqb Pos.eqb].
  change (u32 (4194304 - 1)) with 4194303.
  apply bind_fault. apply full_loop_faults with al'; [|done].
  cbn. apply list_lookup_insert_eq. by apply lookup_lt_Some in Ha.
Qed.

End theorems.

(** C16. Integrity of the SHA-256 tree: [mt_verify] accepts a 32-byte tag at a place
    if and only if it is the leaf stored there, or [tree_collision] finds, on the
    way from that place to the root, two different pairs of nodes, one of the
    stored tree and one of the tree with the tag, that have the same SHA-256
    hash.  Nothing is assumed of the hash, and a collision elsewhere is no excuse. *)
Theorem mt_verify_sound mt ls tag i h w :
  tree_rep mt ls -> ls !! i = Some h -> is_hash tag ->
  exists e, mt_verify (Some mt) (Some tag) HASH_LENGTH (Z.of_nat i) w = Done (e, w) /\
    (e = MT_SUCCESS <-> tag = h \/ is_Some (tree_collision (<[i:=tag]> ls) ls)) /\
    forall x y, tree_collision (<[i:=tag]> ls) ls = Some (x, y) ->
      x <> y /\ Fips.sha256 (x.1 ++ x.2) = Fips.sha256 (y.1 ++ y.2).
Proof.
  intros Hrep Hi Ht. destruct (hash_params tag Ht) as (H1 & H2 & H3).
  pose proof (lookup_lt_Some _ _ _ Hi) as Hlt.
  rewrite (mt_verify_spec mt ls tag HASH_LENGTH (Z.of_nat i) w Hrep H1 H2 H3) by lia.
  rewrite leaf_of_hash, Nat2Z.id by done. eexists. split; [done|]. split.
  - rewrite <- (root_insert_iff ls i h tag Hi). by case_decide.
  - intros x y E. by destruct (insert_collides ls i tag x y (tr_leaves _ _ Hrep) Ht Hlt E) as (_ & _ & _ & _ & Hne & Heq).
Qed.

(** ** Witnesses: the five-leaf tree of the library's test *)

Definition leaves5 : list (list Z) := test_value <$> [0; 1; 2; 3; 4].

(** A cheap node hash, for runs that do not depend on SHA-256: the left node
    with its last byte replaced by the sum of all bytes. *)
Definition toy (l r : list Z) : list Z :=
  take 31 l ++ [u8 (foldr Z.add 0 l + 3 * foldr Z.add 0 r)].

Definition toy_nodes (l r d : option (list Z)) : mt_error_t * option (list Z) :=
  match l, r with
  | Some l, Some r => (MT_SUCCESS, Some (toy l r))
  | _, _ => (MT_ERR_ILLEGAL_PARAM, d)
  end.

Lemma toy_is_hash l r : is_hash l -> is_hash r -> is_hash (toy l r).
Proof.
  intros [Hl Hb] _. split.
  - unfold toy. by rewrite length_app, length_take, Hl.
  - apply Forall_app_2; [by apply Forall_take|]. constructor; [apply u8_byte|done].
Qed.

Definition toy_hash : NodeHash :=
  {| hash_nodes := toy_nodes; combine := toy; combine_is_hash := toy_is_hash;
     hash_nodes_null := fun r d => eq_refl; hash_nodes_ok := fun l r d _ _ => eq_refl |}.

Lemma leaves5_hashes : Forall is_hash leaves5.
Proof. by apply (bool_decide_unpack _). Qed.

Lemma test_value_hash i : is_byte i -> is_hash (test_value i).
Proof. intros Hi. split; [done|]. by apply Forall_replicate. Qed.

Lemma mt_refines_leaf_list_witness :
  let ops := [OpAdd (test_value 5); OpVerify (test_value 5) 0; OpUpdate (test_value 6) 0;
              OpSize; OpVerify (test_value 6) 0; OpVerify (test_value 1) 9; OpRoot] in
  exists mt ls' rs mt' w',
    abs_run (NH := toy_hash) [] ops = Some (ls', rs) /\
    rs = [Code MT_SUCCESS; Code MT_SUCCESS; Code MT_SUCCESS; Size 1; Code MT_SUCCESS;
          Code MT_ERR_ILLEGAL_PARAM; Root (test_value 6)] /\
    con_run (NH := toy_hash) mt ops [] = Done ((mt', rs), w').
Proof.
  intros ops. do 3 eexists.
  destruct (mt_refines_leaf_list (NH := toy_hash)
    (Mk_mt 0 (replicate 24 (Some (Mk_al 0 Null)))) [] ops [test_value 6]
    [Code MT_SUCCESS; Code MT_SUCCESS; Code MT_SUCCESS; Size 1; Code MT_SUCCESS;
     Code MT_ERR_ILLEGAL_PARAM; Root (test_value 6)] []) as (mt' & w' & H1 & _).
  - apply empty_tree_rep.
  - vm_compute. reflexivity.
  - constructor.
  - exists mt', w'. split; [vm_compute; reflexivity|]. split; [reflexivity|exact H1].
Defined.

Lemma mt_build_root_witness :
  exists mt w', (m ← mt_create; add_all m leaves5) [] = Done ((MT_SUCCESS, Some mt), w') /\
    mt_get_root (Some mt) true w' = Done ((MT_SUCCESS, Some (root leaves5)), w') /\
    mt_delete (Some mt) w' = Done (tt, w').
Proof.
  apply (mt_build_root leaves5 []).
  - apply leaves5_hashes.
  - done.
  - done.
  - constructor.
Defined.

Lemma tree_of ls :
  Forall is_hash ls -> Z.of_nat (length ls) < MT_AL_MAX_ELEMS -> exists mt, tree_rep mt ls.
Proof.
  intros Hls Hmax. destruct (build ls [] Hls Hmax ltac:(constructor)) as (mt & _ & Hrep & _).
  by exists mt.
Qed.

Lemma mt_add_appends_witness :
  exists mt e mt' w', tree_rep mt leaves5 /\
    mt_add (Some mt) (Some [1; 2; 3]) 2 [true] = Done ((e, Some mt'), w') /\
    (e = MT_SUCCESS /\ tree_rep mt' (leaves5 ++ [[1; 2] ++ replicate 30 0])
     \/ e = MT_ERR_OUT_Of_MEMORY) /\ e = MT_SUCCESS.
Proof.
  destruct (tree_of leaves5 leaves5_hashes ltac:(done)) as (mt & Hrep).
  destruct (mt_add_appends mt leaves5 [1; 2; 3] 2 [true] Hrep) as (e & mt' & w' & H1 & H2 & H3).
  - unfold HASH_LENGTH. lia.
  - cbn. lia.
  - by repeat constructor.
  - done.
  - exists mt, e, mt', w'. split; [done|]. split; [done|]. split; [done|].
    apply H3. by repeat constructor.
Defined.

Lemma mt_verify_decides_witness :
  exists mt, tree_rep mt leaves5 /\
    mt_verify (Some mt) (Some (test_value 4)) 32 4 [] = Done (MT_SUCCESS, []) /\
    mt_verify (Some mt) (Some (test_value 3)) 32 4 [] = Done (MT_ERR_ROOT_MISMATCH, []) /\
    mt_verify (Some mt) (Some (test_value 3)) 32 5 [] = Done (MT_ERR_ILLEGAL_PARAM, []).
Proof.
  destruct (tree_of leaves5 leaves5_hashes ltac:(done)) as (mt & Hrep).
  pose proof (fun i off => mt_verify_decides mt leaves5 (test_value i) 32 off [] Hrep) as Hv.
  exists mt. split; [done|]. repeat split.
  - rewrite Hv; [|unfold HASH_LENGTH; lia|done|by apply test_value_hash|lia]. vm_compute. reflexivity.
  - rewrite Hv; [|unfold HASH_LENGTH; lia|done|by apply test_value_hash|lia]. vm_compute. reflexivity.
  - rewrite Hv; [|unfold HASH_LENGTH; lia|done|by apply test_value_hash|lia]. vm_compute. reflexivity.
Defined.

Lemma mt_update_replaces_witness :
  exists mt mt', tree_rep mt leaves5 /\
    mt_update (Some mt) (Some (test_value 7)) 32 0 [] = Done ((MT_SUCCESS, Some mt'), []) /\
    tree_rep mt' (test_value <$> [7; 1; 2; 3; 4]).
Proof.
  destruct (tree_of leaves5 leaves5_hashes ltac:(done)) as (mt & Hrep).
  destruct (mt_update_replaces mt leaves5 (test_value 7) 32 0 [] Hrep) as (mt' & H1 & H2).
  - unfold HASH_LENGTH. lia.
  - done.
  - by apply test_value_hash.
  - done.
  - by exists mt, mt'.
Defined.

Lemma mt_add_full_aborts_witness :
  exists mt ls, tree_rep mt ls /\ Z.of_nat (length ls) = MT_AL_MAX_ELEMS - 1 /\
    mt_add (Some mt) (Some (test_value 1)) HASH_LENGTH [] = Fault AssertFail.
Proof.
  destruct (Z_of_nat_complete (MT_AL_MAX_ELEMS - 1) ltac:(clia)) as [n Hn].
  assert (Hlen : Z.of_nat (length (replicate n (test_value 0))) = MT_AL_MAX_ELEMS - 1)
    by (rewrite length_replicate; lia).
  destruct (tree_of (replicate n (test_value 0))) as (mt & Hrep).
  - apply Forall_replicate. by apply test_value_hash.
  - rewrite Hlen. lia.
  - exists mt, (replicate n (test_value 0)). split; [exact Hrep|]. split; [exact Hlen|].
    apply (mt_add_full_aborts mt _ (test_value 1) [] Hrep Hlen). by apply test_value_hash.
Defined.

Lemma mt_verify_sound_witness :
  exists mt e, tree_rep mt leaves5 /\
    mt_verify (Some mt) (Some (test_value 2)) HASH_LENGTH 2 [] = Done (e, []) /\ e = MT_SUCCESS.
Proof.
  destruct (tree_of leaves5 leaves5_hashes ltac:(done)) as (mt & Hrep).
  destruct (mt_verify_sound mt leaves5 (test_value 2) 2 (test_value 2) [] Hrep)
    as (e & H1 & H2 & _); [done|by apply test_value_hash|].
  exists mt, e. split; [done|]. split; [exact H1|]. apply H2. by left.
Defined.
