(* ===== verification/MtSerialize.v ===== *)
(** * Saving and reloading the Merkle tree

    Model of [serialize/mt_serialize.c] and the [mt_obj] of
    [include/mt_include/mt_wrapper.h].  The tree is written as its byte count,
    its leaf count and, per level, a count and that many hashes, all in host
    (little-endian) order; [deserialize_init_mt] reads it back from a file.

    The levels survive the round trip.  The leaf count does not: the reader
    takes the byte count for it, and the theorems say what follows for
    [mt_get_root], [mt_verify] and [mt_add] on a reloaded tree. *)

From stdpp Require Import base tactics list numbers option.
From Stdlib Require Import ZArith Lia ZifyBool.
From S2P Require Import Prelude MtArrList Sha256 MtCrypto MerkleTree.

Local Open Scope Z_scope.

Record mt_obj := Mk_obj {
  obj_mt : option mt_t;
  num_blocks : Z;
  obj_write : Z;
}.

Definition next_power_two (n : Z) : Z :=
  let n := u32 (n - 1) in
  let n := Z.lor n (Z.shiftr n 1) in
  let n := Z.lor n (Z.shiftr n 2) in
  let n := Z.lor n (Z.shiftr n 4) in
  let n := Z.lor n (Z.shiftr n 8) in
  let n := Z.lor n (Z.shiftr n 16) in
  u32 (n + 1).

(** ** Writing *)

(** The first loop: the number of bytes, an [int]. *)
Fixpoint serialize_size (ls : list (option mt_al_t)) (num_bytes : Z) : M Z :=
  match ls with
  | [] => mret num_bytes
  | p :: ls =>
      al ← deref_al p;
      let num_bytes := i32 (num_bytes + 4) in
      serialize_size ls (i32 (num_bytes + u32 (al_elems al * HASH_LENGTH)))
  end.

(** The second loop: [pos] is [buffer_ptr - *dest]. *)
Fixpoint serialize_levels (ls : list (option mt_al_t)) (dest : cptr) (pos : Z) : M cptr :=
  match ls with
  | [] => mret dest
  | p :: ls =>
      al ← deref_al p;
      dest ← store_bytes dest pos (le_bytes 4 (al_elems al));
      let n := u32 (al_elems al * HASH_LENGTH) in
      bs ← load_bytes (al_store al) 0 n;
      dest ← store_bytes dest (pos + 4) bs;
      serialize_levels ls dest (pos + 4 + n)
  end.

Definition serialize_mt (mt : option mt_t) : M (Z * cptr) :=
  match mt with
  | None => throw NullDeref
  | Some mt =>
      let ls := take (Z.to_nat TREE_LEVELS) (level mt) in
      num_bytes ← serialize_size ls (i32 (0 + 4));
      let num_bytes := i32 (num_bytes + 4) in
      dest ← malloc num_bytes;
      dest ← store_bytes dest 0 (le_bytes 4 num_bytes);
      dest ← store_bytes dest 4 (le_bytes 4 (mt_elems mt));
      dest ← serialize_levels ls dest 8;
      mret (num_bytes, dest)
  end.

(** ** Reading *)

(** [*((int* )p)] and [*((uint32_t* )p)] *)
Definition read_int (buffer : cptr) (pos : Z) : M Z :=
  bs ← load_bytes buffer pos 4; mret (i32 (le_val bs)).
Definition read_u32 (buffer : cptr) (pos : Z) : M Z :=
  bs ← load_bytes buffer pos 4; mret (u32 (le_val bs)).

Fixpoint deserialize_levels (n : nat) (buffer : cptr) (pos : Z)
  : M (list (option mt_al_t)) :=
  match n with
  | O => mret []
  | S n =>
      ok ← request;
      if (ok : bool) then
        elems ← read_u32 buffer pos;
        store ← malloc (u32 (next_power_two elems * HASH_LENGTH));
        let len := u32 (elems * HASH_LENGTH) in
        bs ← load_bytes buffer (pos + 4) len;
        store ← store_bytes store 0 bs;
        rest ← deserialize_levels n buffer (pos + 4 + len);
        mret (Some (Mk_al elems store) :: rest)
      else throw NullDeref
  end.

(** [file] is the contents of the file, [None] when it cannot be opened: the
    NULL stream is then passed to [fseek].  Both counts are read from the front
    of the buffer, where the byte count is. *)
Definition deserialize_init_mt (file : option (list Z)) : M mt_obj :=
  match file with
  | None => throw NullDeref
  | Some contents =>
      buffer ← malloc (Z.of_nat (length contents));
      buffer ← store_bytes buffer 0 contents;
      mt ← mt_create;
      blocks ← read_int buffer 0;
      match mt with
      | None => throw NullDeref
      | Some mt =>
          elems ← read_int buffer 0;
          levels ← deserialize_levels (Z.to_nat TREE_LEVELS) buffer 8;
          mret (Mk_obj (Some (Mk_mt (u32 elems) levels)) (u32 blocks) 0)
      end
  end.

(** ** The format *)

Definition enc_level (hs : list (list Z)) : list Z :=
  le_bytes 4 (Z.of_nat (length hs)) ++ concat hs.

(** The hashes of all levels. *)
Definition total (hss : list (list (list Z))) : Z := Z.of_nat (length (concat hss)).

Definition enc_levels (hss : list (list (list Z))) : list Z := concat (enc_level <$> hss).

Definition enc_tree (elems : Z) (hss : list (list (list Z))) : list Z :=
  let num_bytes := 8 + 4 * Z.of_nat (length hss) + 32 * total hss in
  le_bytes 4 num_bytes ++ le_bytes 4 elems ++ enc_levels hss.

(** The pointers [ps] point to array lists that hold [hss]. *)
Definition levels_hold (ps : list (option mt_al_t)) (hss : list (list (list Z))) : Prop :=
  Forall2 (fun p hs => exists al, p = Some al /\ al_rep al hs) ps hss.

Lemma total_cons hs hss : total (hs :: hss) = Z.of_nat (length hs) + total hss.
Proof. unfold total. cbn [concat]. rewrite length_app. lia. Qed.

Lemma length_enc_level hs :
  Forall is_hash hs -> Z.of_nat (length (enc_level hs)) = 4 + 32 * Z.of_nat (length hs).
Proof.
  intros Hh. unfold enc_level. rewrite length_app, length_le_bytes, Nat2Z.inj_add.
  rewrite length_concat_hashes by done. clia.
Qed.

Lemma length_enc_levels hss :
  Forall (Forall is_hash) hss ->
  Z.of_nat (length (enc_levels hss)) = 4 * Z.of_nat (length hss) + 32 * total hss.
Proof.
  unfold enc_levels. induction 1 as [|hs hss Hh _ IH]; [done|].
  cbn [fmap list_fmap concat length]. rewrite length_app, Nat2Z.inj_add, IH.
  rewrite length_enc_level, total_cons by done. lia.
Qed.

Lemma levels_hold_hashes ps hss : levels_hold ps hss -> Forall (Forall is_hash) hss.
Proof. induction 1 as [|p hs ps hss (al & _ & _ & Hh & _) _ IH]; by constructor. Qed.

(** ** Writing produces the format *)

Lemma serialize_size_spec ps hss nb w :
  levels_hold ps hss -> 0 <= nb ->
  nb + 4 * Z.of_nat (length hss) + 32 * total hss < 2 ^ 31 ->
  serialize_size ps nb w = Done (nb + 4 * Z.of_nat (length hss) + 32 * total hss, w).
Proof.
  intros Hh. revert nb. induction Hh as [|p hs ps hss (al & -> & Hal) _ IH]; intros nb Hnb Hb.
  { cbn. unfold mret, M_ret, total. cbn. do 2 f_equal. lia. }
  rewrite total_cons in *. cbn [serialize_size deref_al length] in *. rewrite bind_ret.
  rewrite (al_rep_elems _ _ Hal). unfold HASH_LENGTH.
  assert (0 <= total hss) by (unfold total; lia).
  rewrite (i32_small (nb + 4)), (u32_small (_ * 32)), i32_small by lia.
  rewrite IH by lia. do 2 f_equal. lia.
Qed.

(** The bytes of a level, as [memcpy] reads them. *)
Lemma level_bytes al hs w :
  al_rep al hs -> load_bytes (al_store al) 0 (32 * Z.of_nat (length hs)) w = Done (concat hs, w).
Proof.
  intros (He & Hh & Hs). destruct (decide (hs = [])) as [->|Hne]; [done|].
  destruct (Hs Hne) as (junk & c & -> & _).
  apply load_live; [destruct hs; [done|cbn; lia]|].
  apply (mem_read_at [] (concat hs) junk); [done|]. by rewrite length_concat_hashes.
Qed.

Lemma serialize_levels_spec ps hss pre w :
  levels_hold ps hss -> 32 * total hss < 2 ^ 31 ->
  serialize_levels ps (Live ((Some <$> pre) ++ replicate (length (enc_levels hss)) None))
    (Z.of_nat (length pre)) w
  = Done (Live (Some <$> pre ++ enc_levels hss), w).
Proof.
  intros Hh. revert pre. induction Hh as [|p hs ps hss (al & -> & Hal) _ IH]; intros pre Hb.
  { cbn. by rewrite !app_nil_r. }
  rewrite total_cons in Hb. assert (0 <= total hss) by (unfold total; lia).
  unfold enc_levels in *. cbn [fmap list_fmap concat serialize_levels deref_al].
  rewrite bind_ret, (al_rep_elems _ _ Hal). unfold enc_level at 1. rewrite !length_app, <- Nat.add_assoc.
  rewrite (bind_done _ _ _ _ _ (store_fill pre (le_bytes 4 (Z.of_nat (length hs))) _ _ w eq_refl)).
  unfold HASH_LENGTH. rewrite u32_small by lia. rewrite Z.mul_comm.
  rewrite (bind_done _ _ _ _ _ (level_bytes al hs w Hal)).
  erewrite (bind_done _ _ _ _ _ (store_fill (pre ++ le_bytes 4 _) (concat hs) _ _ w _)).
  rewrite <- app_assoc. change (le_bytes 4 _ ++ concat hs) with (enc_level hs).
  replace (_ + 4 + _) with (Z.of_nat (length (pre ++ enc_level hs))); last first.
  { rewrite length_app, Nat2Z.inj_add, length_enc_level by apply Hal. lia. }
  rewrite IH by lia. by rewrite <- app_assoc.
  Unshelve. rewrite length_app, length_le_bytes. lia.
Qed.

Lemma serialize_mt_spec mt hss w :
  levels_hold (take 24 (level mt)) hss ->
  8 + 4 * Z.of_nat (length hss) + 32 * total hss < 2 ^ 31 -> all_ok w ->
  exists w', serialize_mt (Some mt) w
    = Done ((Z.of_nat (length (enc_tree (mt_elems mt) hss)),
             Live (Some <$> enc_tree (mt_elems mt) hss)), w') /\ all_ok w'.
Proof.
  intros Hh Hb Hw. assert (0 <= total hss) by (unfold total; lia).
  unfold serialize_mt. change (Z.to_nat TREE_LEVELS) with 24%nat.
  rewrite (i32_small (0 + 4)) by lia.
  rewrite (bind_done _ _ _ _ _ (serialize_size_spec _ _ (0 + 4) w Hh ltac:(lia) ltac:(lia))).
  rewrite i32_small by lia.
  set (nb := 0 + 4 + _ + _ + 4).
  assert (Hnb : nb = 8 + 4 * Z.of_nat (length hss) + 32 * total hss) by (subst nb; lia).
  assert (Hlen : Z.of_nat (length (enc_tree (mt_elems mt) hss)) = nb).
  { unfold enc_tree. rewrite !length_app, !length_le_bytes, !Nat2Z.inj_add.
    rewrite length_enc_levels by (by eapply levels_hold_hashes). lia. }
  destruct (malloc_cases nb w) as (p & w' & Hm & Hp & Hok).
  rewrite (bind_done _ _ _ _ _ Hm). destruct (Hok Hw) as [Hn Hw'].
  destruct Hp as [->| ->]; [done|]. exists w'. split; [|done].
  replace (Z.to_nat nb) with (length (le_bytes 4 nb) + (length (le_bytes 4 (mt_elems mt))
    + length (enc_levels hss)))%nat; last first.
  { unfold enc_tree in Hlen. rewrite !length_app, !length_le_bytes in Hlen.
    rewrite !length_le_bytes. lia. }
  pose proof (store_fill [] (le_bytes 4 nb) (length (le_bytes 4 (mt_elems mt))
    + length (enc_levels hss)) 0 w' eq_refl) as H1. cbn [fmap list_fmap app] in H1.
  rewrite (bind_done _ _ _ _ _ H1).
  rewrite (bind_done _ _ _ _ _ (store_fill (le_bytes 4 nb) (le_bytes 4 (mt_elems mt)) _ 4 w'
    ltac:(by rewrite length_le_bytes))).
  pose proof (serialize_levels_spec _ _ (le_bytes 4 nb ++ le_bytes 4 (mt_elems mt)) w' Hh
    ltac:(lia)) as H2.
  rewrite length_app, !length_le_bytes in H2. change (Z.of_nat (4 + 4)) with 8 in H2.
  rewrite (bind_done _ _ _ _ _ H2), Hlen. unfold enc_tree. by rewrite <- Hnb, app_assoc.
Qed.

(** ** Reading the format back *)

(** On the counts that occur it is the array list's own rounding. *)
Lemma next_power_two_spec n :
  1 <= n <= 2 ^ 31 -> is_pow2 (next_power_two n) /\ n <= next_power_two n < 2 * n.
Proof.
  intros Hn. destruct (decide (n = 1)) as [->|H1].
  { split; [by exists 0|]. by vm_compute. }
  assert (Heq : round_next_power_two n
    = u32 (next_power_two n + (if next_power_two n =? 0 then 1 else 0))) by reflexivity.
  pose proof (u32_range (next_power_two n + 0)) as Hrange.
  assert (Hv : u32 (next_power_two n + 0) = next_power_two n).
  { rewrite Z.add_0_r. apply u32_small, u32_range. }
  destruct (round_next_power_two_spec n Hn) as [Hp Hr]. rewrite Heq in Hp, Hr.
  destruct (next_power_two n =? 0) eqn:E.
  - replace (next_power_two n) with 0 in Hr by lia. change (u32 (0 + 1)) with 1 in Hr. lia.
  - by rewrite Hv in Hp, Hr.
Qed.

Lemma read_u32_run pre x post w :
  0 <= x < 2 ^ 32 ->
  read_u32 (Live (Some <$> pre ++ le_bytes 4 x ++ post)) (Z.of_nat (length pre)) w = Done (x, w).
Proof.
  intros Hx. unfold read_u32.
  rewrite (bind_done _ _ _ _ _ (load_run pre (le_bytes 4 x) post _ 4 w eq_refl
    ltac:(by rewrite length_le_bytes))).
  rewrite le_val_bytes_small by done. by rewrite u32_small.
Qed.

(** The block a level is read into. *)
Lemma level_block hs w :
  Forall is_hash hs -> Z.of_nat (length hs) < MT_AL_MAX_ELEMS -> all_ok w ->
  exists m m' w',
    malloc (u32 (next_power_two (Z.of_nat (length hs)) * HASH_LENGTH)) w = Done (Live m, w') /\
    store_bytes (Live m) 0 (concat hs) w' = Done (Live m', w') /\ all_ok w' /\
    al_rep (Mk_al (Z.of_nat (length hs)) (Live m')) hs.
Proof.
  intros Hh Hmax Hw. set (c := next_power_two _).
  destruct (malloc_cases (u32 (c * HASH_LENGTH)) w) as (p & w' & Hm & Hp & Hok).
  destruct (Hok Hw) as [Hn Hw']. destruct Hp as [->| ->]; [done|].
  destruct (decide (hs = [])) as [->|Hne].
  { eexists _, _, w'. split; [exact Hm|]. split; [done|]. split; [done|apply al_rep_empty]. }
  destruct (next_power_two_spec (Z.of_nat (length hs))) as [Hc Hcr];
    [destruct hs; [done|cbn in *; clia]|]. fold c in Hc, Hcr.
  pose proof (length_concat_hashes hs Hh) as Hcat. unfold HASH_LENGTH in *.
  rewrite u32_small in * by clia.
  set (k := (Z.to_nat (c * 32) - length (concat hs))%nat).
  replace (Z.to_nat (c * 32)) with (length (concat hs) + k)%nat in Hm by lia.
  pose proof (store_fill [] (concat hs) k 0 w' eq_refl) as Hst. cbn [fmap list_fmap app] in Hst.
  eexists _, _, w'. split; [exact Hm|]. split; [exact Hst|]. split; [done|].
  split; [done|]. split; [done|]. intros _. exists (replicate k None), c.
  split; [done|]. split; [done|]. split; [lia|]. rewrite length_replicate. unfold HASH_LENGTH. lia.
Qed.

Lemma deserialize_levels_spec hss pre post w :
  Forall (fun hs => Forall is_hash hs /\ Z.of_nat (length hs) < MT_AL_MAX_ELEMS) hss -> all_ok w ->
  exists ps w', deserialize_levels (length hss) (Live (Some <$> pre ++ enc_levels hss ++ post))
      (Z.of_nat (length pre)) w = Done (ps, w') /\ all_ok w' /\
    Forall2 (fun p hs => exists al, p = Some al /\ al_live al /\ al_rep al hs) ps hss.
Proof.
  intros Hh. revert pre w. induction Hh as [|hs hss [Hhs Hmax] _ IH]; intros pre w Hw.
  { by exists [], w. }
  cbn [length deserialize_levels].
  destruct (request_cases w) as (b & w1 & Hr & Hok). destruct (Hok Hw) as [-> Hw1].
  rewrite (bind_done _ _ _ _ _ Hr). unfold enc_levels in *. cbn [fmap list_fmap concat].
  assert (Henc : forall x, enc_level hs ++ x
    = le_bytes 4 (Z.of_nat (length hs)) ++ concat hs ++ x).
  { intros x. unfold enc_level. by rewrite <- app_assoc. }
  rewrite <- app_assoc, Henc.
  rewrite (bind_done _ _ _ _ _ (read_u32_run _ (Z.of_nat (length hs)) _ w1 ltac:(clia))).
  destruct (level_block hs w1 Hhs Hmax Hw1) as (m & m' & w2 & Hm & Hst & Hw2 & Hal).
  rewrite (bind_done _ _ _ _ _ Hm).
  pose proof (length_concat_hashes hs Hhs) as Hcat. unfold HASH_LENGTH in *.
  rewrite u32_small by clia.
  rewrite (app_assoc pre (le_bytes 4 _)).
  erewrite (bind_done _ _ _ _ _ (load_run (pre ++ le_bytes 4 _) (concat hs) _ _ _ w2 _ _)).
  rewrite (bind_done _ _ _ _ _ Hst).
  destruct (IH (pre ++ enc_level hs) w2 Hw2) as (ps & w3 & Hd & Hw3 & Hps).
  rewrite length_app, Nat2Z.inj_add, length_enc_level in Hd by done.
  rewrite <- app_assoc, Henc in Hd. rewrite <- app_assoc.
  replace (_ + 4 + _) with (Z.of_nat (length pre) + (4 + 32 * Z.of_nat (length hs))) by lia.
  rewrite (bind_done _ _ _ _ _ Hd). eexists _, w3. split; [done|]. split; [done|].
  constructor; [|done]. by exists (Mk_al (Z.of_nat (length hs)) (Live m')).
  Unshelve.
  - rewrite length_app, length_le_bytes. lia.
  - lia.
Qed.

Lemma read_int_front x post w :
  0 <= x < 2 ^ 31 ->
  read_int (Live (Some <$> le_bytes 4 x ++ post)) 0 w = Done (x, w).
Proof.
  intros Hx. unfold read_int.
  pose proof (load_run [] (le_bytes 4 x) post 0 4 w eq_refl ltac:(by rewrite length_le_bytes)) as Hl.
  cbn [app] in Hl. rewrite (bind_done _ _ _ _ _ Hl).
  rewrite le_val_bytes_small by (cbn; lia). by rewrite i32_small by lia.
Qed.

(** Reading a written tree: the levels are those written, the leaf count is the
    number of bytes. *)
Lemma deserialize_spec elems hss w :
  length hss = 24%nat ->
  Forall (fun hs => Forall is_hash hs /\ Z.of_nat (length hs) < MT_AL_MAX_ELEMS) hss ->
  104 + 32 * total hss < 2 ^ 31 -> all_ok w ->
  exists ps w', deserialize_init_mt (Some (enc_tree elems hss)) w
    = Done (Mk_obj (Some (Mk_mt (104 + 32 * total hss) ps)) (104 + 32 * total hss) 0, w') /\
    all_ok w' /\ Forall2 (fun p hs => exists al, p = Some al /\ al_live al /\ al_rep al hs) ps hss.
Proof.
  intros Hl Hh Hb Hw. assert (0 <= total hss) by (unfold total; lia).
  unfold deserialize_init_mt. set (f := enc_tree elems hss).
  destruct (malloc_cases (Z.of_nat (length f)) w) as (p & w1 & Hm & Hp & Hok).
  rewrite (bind_done _ _ _ _ _ Hm). destruct (Hok Hw) as [Hn Hw1].
  destruct Hp as [->| ->]; [done|]. rewrite Nat2Z.id.
  pose proof (store_fill [] f 0 0 w1 eq_refl) as Hst. rewrite Nat.add_0_r, app_nil_r in Hst.
  cbn [fmap list_fmap app] in Hst. rewrite (bind_done _ _ _ _ _ Hst).
  destruct (mt_create_spec w1) as (r & w2 & Hc & Hr & Hok2).
  rewrite (bind_done _ _ _ _ _ Hc). destruct (Hok2 Hw1) as [Hn2 Hw2].
  destruct Hr as [->|(mt & -> & _)]; [done|].
  subst f. unfold enc_tree. rewrite Hl. cbv zeta.
  replace (8 + 4 * Z.of_nat 24 + 32 * total hss) with (104 + 32 * total hss) by lia.
  rewrite !(bind_done _ _ _ _ _ (read_int_front (104 + 32 * total hss) _ w2 ltac:(lia))).
  destruct (deserialize_levels_spec hss (le_bytes 4 (104 + 32 * total hss) ++ le_bytes 4 elems) []
    w2 Hh Hw2) as (ps & w3 & Hd & Hw3 & Hps).
  rewrite length_app, !length_le_bytes, app_nil_r, <- app_assoc, Hl in Hd.
  change (Z.of_nat (4 + 4)) with 8 in Hd. change (Z.to_nat TREE_LEVELS) with 24%nat.
  rewrite (bind_done _ _ _ _ _ Hd). exists ps, w3. rewrite !u32_small by lia. done.
Qed.

(** ** A tree and its reloaded copy *)

Section reload.
Context {NH : NodeHash}.

Definition level_hashes (ls : list (list Z)) (l : nat) : list (list Z) :=
  node ls l <$> seq 0 (stored l (length ls)).

Definition all_levels (ls : list (list Z)) : list (list (list Z)) :=
  level_hashes ls <$> seq 0 24.

(** The bytes a saved tree takes. *)
Definition saved_size (ls : list (list Z)) : Z := 104 + 32 * total (all_levels ls).

(** [mt] has the levels of [ls], but [saved_size ls] for its leaf count. *)
Definition reloaded_rep (mt : mt_t) (ls : list (list Z)) : Prop :=
  mt_elems mt = saved_size ls /\ tree_rep (Mk_mt (Z.of_nat (length ls)) (level mt)) ls.

Lemma total_app a b : total (a ++ b) = total a + total b.
Proof. unfold total. rewrite concat_app, length_app. lia. Qed.

(** Level [l + 1] has at most half the nodes of level [l]; with room for the
    rounding the sum stays below [2 n + 24]. *)
Lemma stored_half l n : (2 * stored (S l) n <= stored l n + 1)%nat.
Proof.
  destruct (stored (S l) n) as [|j] eqn:E; [lia|].
  assert (Hj : (j < stored (S l) n)%nat) by lia. apply stored_spec in Hj.
  enough (2 * j < stored l n)%nat by lia.
  destruct l as [|l]; [cbn in *; lia|]. apply stored_spec.
  rewrite Nat.pow_succ_r' in Hj. pose proof (pow2_pos l). nia.
Qed.

Lemma total_levels_bound ls k :
  total (level_hashes ls <$> seq 0 (S k)) + Z.of_nat (stored k (length ls))
  <= 2 * Z.of_nat (length ls) + Z.of_nat k.
Proof.
  assert (Hs : forall l, Z.of_nat (length (level_hashes ls l)) = Z.of_nat (stored l (length ls))).
  { intros l. unfold level_hashes. by rewrite length_fmap, length_seq. }
  induction k as [|k IH].
  { cbn [seq fmap list_fmap]. rewrite total_cons, Hs. unfold total. cbn. lia. }
  rewrite seq_S, fmap_app, total_app. cbn [Nat.add fmap list_fmap].
  rewrite total_cons, Hs. change (total []) with 0.
  pose proof (stored_half k (length ls)). lia.
Qed.

Lemma saved_size_bound ls :
  Z.of_nat (length ls) < MT_AL_MAX_ELEMS ->
  104 + 32 * Z.of_nat (length ls) <= saved_size ls < 2 ^ 31.
Proof.
  intros Hmax. unfold saved_size, all_levels.
  pose proof (total_levels_bound ls 23) as Hb. split; [|clia].
  cbn [seq fmap list_fmap]. rewrite total_cons. unfold level_hashes at 1, total.
  rewrite length_fmap, length_seq. cbn [stored]. lia.
Qed.

Lemma tree_levels_hold mt ls :
  tree_rep mt ls ->
  levels_hold (take 24 (level mt)) (all_levels ls).
Proof.
  intros [_ _ Hlv _]. apply Forall2_same_length_lookup_2.
  { unfold all_levels. rewrite length_fmap, length_seq, length_take.
    destruct (Hlv 23%nat ltac:(lia)) as (al & Ha & _). apply lookup_lt_Some in Ha. lia. }
  intros i p hs Hp Hs. apply lookup_take_Some in Hp as [Hp Hi].
  apply list_lookup_fmap_Some in Hs as (l & -> & Hl%lookup_seq). destruct Hl as [-> _].
  destruct (Hlv i Hi) as (al & Ha & _ & Hal). rewrite Hp in Ha. simplify_eq. by exists al.
Qed.

Lemma all_levels_ok mt ls :
  tree_rep mt ls ->
  Forall (fun hs => Forall is_hash hs /\ Z.of_nat (length hs) < MT_AL_MAX_ELEMS) (all_levels ls).
Proof.
  intros [_ Hls _ Hmax]. apply Forall_fmap, Forall_true. intros l. unfold compose, level_hashes.
  rewrite length_fmap, length_seq. pose proof (stored_bound l (length ls)). split; [|lia].
  apply Forall_fmap, Forall_lookup_2. intros i j [-> Hj]%lookup_seq.
  apply node_is_hash; [done|]. by apply stored_le.
Qed.

Lemma length_enc_tree mt ls :
  tree_rep mt ls ->
  Z.of_nat (length (enc_tree (Z.of_nat (length ls)) (all_levels ls))) = saved_size ls.
Proof.
  intros Hrep. unfold enc_tree, saved_size.
  rewrite !length_app, !length_le_bytes, !Nat2Z.inj_add.
  rewrite length_enc_levels by (by eapply levels_hold_hashes, tree_levels_hold).
  unfold all_levels at 1. rewrite length_fmap, length_seq. lia.
Qed.

Lemma save_spec mt ls w :
  tree_rep mt ls -> all_ok w ->
  exists w', serialize_mt (Some mt) w
    = Done ((saved_size ls, Live (Some <$> enc_tree (Z.of_nat (length ls)) (all_levels ls))), w')
    /\ all_ok w'.
Proof.
  intros Hrep Hw. pose proof (saved_size_bound ls (tr_max _ _ Hrep)) as Hb. unfold saved_size in *.
  destruct (serialize_mt_spec mt (all_levels ls) w (tree_levels_hold mt ls Hrep))
    as (w' & Hs & Hw'); [unfold all_levels in *; rewrite length_fmap, length_seq; lia|done|].
  exists w'. split; [|done]. rewrite Hs, (tr_elems _ _ Hrep).
  by rewrite (length_enc_tree mt).
Qed.

Lemma load_spec mt ls w :
  tree_rep mt ls -> all_ok w ->
  exists mt' w',
    deserialize_init_mt (Some (enc_tree (Z.of_nat (length ls)) (all_levels ls))) w
    = Done (Mk_obj (Some mt') (saved_size ls) 0, w') /\ all_ok w' /\ reloaded_rep mt' ls.
Proof.
  intros Hrep Hw. pose proof (saved_size_bound ls (tr_max _ _ Hrep)) as Hb. unfold saved_size in *.
  destruct (deserialize_spec (Z.of_nat (length ls)) (all_levels ls) w) as (ps & w' & Hd & Hw' & Hps);
    [by unfold all_levels; rewrite length_fmap, length_seq|by eapply all_levels_ok|lia|done|].
  eexists _, w'. split; [exact Hd|]. split; [done|]. split; [done|].
  split; [done|apply Hrep| |apply Hrep]. intros l Hl.
  destruct (Forall2_lookup_r _ _ _ l (level_hashes ls l) Hps) as (p & Hp & al & -> & Hlive & Hal).
  { unfold all_levels. by rewrite list_lookup_fmap, lookup_seq_lt. }
  by exists al.
Qed.

(** The leaf count is only looked at by the range checks. *)
Lemma level_at_eq mt mt' l : level mt = level mt' -> level_at mt l = level_at mt' l.
Proof. intros H. unfold level_at. by rewrite H. Qed.

Lemma hasNext_eq mt mt' l :
  level mt = level mt' -> hasNextLevelExceptRoot mt l = hasNextLevelExceptRoot mt' l.
Proof. intros H. unfold hasNextLevelExceptRoot. by rewrite (level_at_eq mt mt'). Qed.

Lemma climb_eq mt mt' d q l : level mt = level mt' -> mt_climb mt d q l = mt_climb mt' d q l.
Proof.
  intros H. assert (Hf : forall n off k,
    findRightNeighbor_loop n mt off k = findRightNeighbor_loop n mt' off k).
  { induction n as [|n IH]; intros off k; [done|].
    rewrite !findRightNeighbor_loop_S, (level_at_eq mt mt') by done. by rewrite IH. }
  unfold mt_climb, findRightNeighbor. by rewrite Hf, (level_at_eq mt mt').
Qed.

Lemma verify_loop_eq mt mt' n d q l w :
  level mt = level mt' -> mt_verify_loop n mt d q l w = mt_verify_loop n mt' d q l w.
Proof.
  intros H. revert d q l w. induction n as [|n IH]; intros d q l w; [done|].
  cbn [mt_verify_loop]. rewrite (hasNext_eq mt mt'), (climb_eq mt mt') by done.
  unfold mbind, M_bind. repeat (case_match; auto).
Qed.

Lemma top_loop_eq mt mt' n l w :
  level mt = level mt' -> mt_top_loop n mt l w = mt_top_loop n mt' l w.
Proof.
  intros H. revert l w. induction n as [|n IH]; intros l w; [done|].
  cbn [mt_top_loop]. rewrite (hasNext_eq mt mt') by done.
  unfold mbind, M_bind. repeat (case_match; auto).
Qed.

Lemma verify_eq mt mt' tag len off w :
  level mt = level mt' -> off < mt_elems mt -> off < mt_elems mt' ->
  mt_verify (Some mt) tag len off w = mt_verify (Some mt') tag len off w.
Proof.
  intros H H1 H2. unfold mt_verify. destruct tag as [tag|]; [|done].
  replace (off <? mt_elems mt) with true by lia.
  replace (off <? mt_elems mt') with true by lia. case_match; [|done].
  unfold mbind, M_bind. destruct (mt_init_hash tag len w) as [[d w']|]; [|done].
  rewrite (verify_loop_eq mt mt') by done.
  destruct (mt_verify_loop _ mt' d off 0 w') as [[[[[e d'] q] l] w'']|]; [|done].
  by rewrite (level_at_eq mt mt').
Qed.

Lemma get_root_eq mt mt' r w :
  level mt = level mt' -> mt_get_root (Some mt) r w = mt_get_root (Some mt') r w.
Proof.
  intros H. unfold mt_get_root. destruct r; [|done]. unfold mbind, M_bind.
  rewrite (top_loop_eq mt mt') by done.
  destruct (mt_top_loop _ mt' 0 w) as [[l w']|]; [|done]. by rewrite (level_at_eq mt mt').
Qed.

(** [mt_add] on a reloaded tree: the leaf count is [8 (13 + 4 t)], so the first
    right node of the path is node [13 + 4 t] of level 3, whose left neighbour
    does not exist. *)
Lemma total_ge_level ls l :
  (l < 24)%nat -> Z.of_nat (stored l (length ls)) <= total (all_levels ls).
Proof.
  intros Hl. unfold all_levels. replace 24%nat with (l + S (23 - l))%nat by lia.
  rewrite seq_app, fmap_app, total_app. cbn [seq fmap list_fmap]. rewrite total_cons.
  unfold level_hashes at 2, total. rewrite length_fmap, length_seq. cbn. lia.
Qed.

Lemma mt_add_loop_skip n mt d q l w :
  0 < q -> mt_add_loop (S n) mt d (2 * q) l w = mt_add_loop n mt d q (l + 1) w.
Proof.
  intros Hq. cbn [mt_add_loop]. replace (2 * q =? 0) with false by lia.
  unfold mt_right. change 1 with (Z.ones 1) at 1. rewrite Z.land_ones by lia.
  change (2 ^ 1) with 2. rewrite (Z.mul_comm 2), Z.mod_mul by lia.
  rewrite Z.shiftr_div_pow2 by lia. change (2 ^ 1) with 2. by rewrite Z.div_mul.
Qed.

(** A right node without its left neighbour stops [mt_add] with an error. *)
Lemma mt_add_loop_orphan n mt ls d j l w :
  level_rep mt ls l -> (l < 24)%nat -> Z.of_nat (length ls) < MT_AL_MAX_ELEMS ->
  (stored l (length ls) <= 2 * j)%nat ->
  mt_add_loop (S n) mt d (Z.of_nat (2 * j + 1)) (Z.of_nat l) w
  = Done ((MT_ERR_ILLEGAL_PARAM, mt, d, Z.of_nat (2 * j + 1), Z.of_nat l), w).
Proof.
  intros Hr Hl Hmax Hj. cbn [mt_add_loop]. replace (_ =? 0) with false by lia.
  rewrite mt_right_even. replace (Nat.even (2 * j + 1)) with false; last first.
  { symmetry. rewrite <- Nat.negb_odd, negb_false_iff. apply Nat.odd_spec. by exists j. }
  cbn [negb]. destruct (level_read mt ls l w Hr Hl Hmax) as (al & Ha & _ & Hg).
  rewrite (bind_done _ _ _ _ _ Ha).
  replace (Z.of_nat (2 * j + 1) - 1) with (Z.of_nat (2 * j)) by lia.
  rewrite (bind_done _ _ _ _ _ (Hg _)). replace (_ <? _)%nat with false by lia.
  unfold hash_chk. rewrite hash_nodes_null. by rewrite decide_False.
Qed.

Lemma mt_add_reloaded mt ls tag0 len w :
  reloaded_rep mt ls -> 0 <= len <= HASH_LENGTH -> len <= Z.of_nat (length tag0) -> bytes tag0 ->
  Z.of_nat (S (length ls)) < MT_AL_MAX_ELEMS ->
  exists e mt' w', mt_add (Some mt) (Some tag0) len w = Done ((e, Some mt'), w') /\
    (e = MT_ERR_ILLEGAL_PARAM \/ e = MT_ERR_OUT_Of_MEMORY) /\
    (all_ok w -> e = MT_ERR_ILLEGAL_PARAM /\
      exists al, level mt' !! 0%nat = Some (Some al) /\ al_rep al (ls ++ [leaf_of tag0 len])).
Proof.
  intros [He [_ Hls Hlv Hmax]] Hlen Hpar Htb Hroom. pose proof (saved_size_bound ls Hmax) as Hb.
  unfold mt_add. replace (len <=? _) with true by lia.
  rewrite (bind_done _ _ _ _ _ (mt_init_hash_spec tag0 len w Hlen Hpar)).
  assert (Ht := leaf_is_hash tag0 len Hlen Hpar Htb). set (tag := leaf_of tag0 len) in *.
  destruct (Hlv 0%nat ltac:(lia)) as (al & Ha & Hlive & Hal).
  pose proof (level_at_lookup mt 0 _ w ltac:(lia) Ha) as Hat. change (Z.of_nat 0) with 0 in Hat.
  rewrite (bind_done _ _ _ _ _ Hat). cbn [stored] in Hal. rewrite leaves_eq in Hal.
  destruct (mt_al_add_spec al ls tag w Hal Ht) as (e & al' & w' & Hadd & Hcase & _ & Hok); [lia|].
  rewrite (bind_done _ _ _ _ _ Hadd). cbn [fst snd].
  destruct Hcase as [(-> & Hal' & _)|[-> _]]; last first.
  { rewrite decide_False by done. eexists _, _, w'. split; [done|]. split; [by right|].
    intros Hw. by destruct (Hok Hw). }
  rewrite decide_True by done. cbn [set_level mt_elems level]. rewrite He, u32_small by lia.
  replace (saved_size ls + 1 =? 1) with false by lia.
  rewrite Z.add_simpl_r, u32_small by lia.
  set (mt1 := Mk_mt _ _).
  set (t := total (all_levels ls)) in *. assert (0 <= t) by (unfold t, total; lia).
  set (j := Z.to_nat (6 + 2 * t)).
  assert (Hloop : mt_add_loop 24 mt1 tag (saved_size ls) 0 w'
    = Done ((MT_ERR_ILLEGAL_PARAM, mt1, tag, Z.of_nat (2 * j + 1), 3), w')).
  { replace (saved_size ls) with (2 * (2 * (2 * Z.of_nat (2 * j + 1))))
      by (unfold saved_size; fold t; lia).
    rewrite !mt_add_loop_skip by lia. apply (mt_add_loop_orphan 20 mt1 ls tag j 3); [|lia|done|].
    - destruct (level_rep_other mt ls 0 3 al' ltac:(lia)) as (a & H1 & H2); [|by exists a].
      destruct (Hlv 3%nat ltac:(lia)) as (a & H1 & H2). by exists a.
    - pose proof (total_ge_level ls 3 ltac:(lia)). lia. }
  change (Z.to_nat TREE_LEVELS) with 24%nat. rewrite (bind_done _ _ _ _ _ Hloop).
  rewrite decide_False by done. eexists _, mt1, w'. split; [done|]. split; [by left|].
  intros _. split; [done|]. exists al'. split; [|done]. cbn.
  apply list_lookup_insert_eq. by apply lookup_lt_Some in Ha.
Qed.

(** ** The theorems *)

(** Saving and reloading preserves the hashes: the bytes [serialize_mt]
    produces (as many as it reports) can be read back by [deserialize_init_mt]
    without a fault, and the reloaded tree has the same root and answers
    [mt_verify] like the saved one for every leaf of the tree. *)
Theorem mt_save_reload mt ls w :
  tree_rep mt ls -> ls <> [] -> all_ok w ->
  exists file w1 mt' w2,
    serialize_mt (Some mt) w = Done ((Z.of_nat (length file), Live (Some <$> file)), w1) /\
    deserialize_init_mt (Some file) w1
      = Done (Mk_obj (Some mt') (Z.of_nat (length file)) 0, w2) /\
    mt_get_root (Some mt') true w2 = Done ((MT_SUCCESS, Some (root ls)), w2) /\
    forall tag off, is_hash tag -> 0 <= off < Z.of_nat (length ls) ->
      mt_verify (Some mt') (Some tag) HASH_LENGTH off w2
      = Done (if decide (root (<[Z.to_nat off:=tag]> ls) = root ls)
              then MT_SUCCESS else MT_ERR_ROOT_MISMATCH, w2).
Proof.
  intros Hrep Hne Hw. destruct (save_spec mt ls w Hrep Hw) as (w1 & Hs & Hw1).
  destruct (load_spec mt ls w1 Hrep Hw1) as (mt' & w2 & Hl & Hw2 & He & Hrep').
  pose proof (saved_size_bound ls (tr_max _ _ Hrep)) as Hb.
  exists (enc_tree (Z.of_nat (length ls)) (all_levels ls)), w1, mt', w2.
  rewrite (length_enc_tree mt) by done.
  split; [done|]. split; [done|]. split.
  { rewrite (get_root_eq mt' (Mk_mt (Z.of_nat (length ls)) (level mt'))) by done.
    by apply mt_get_root_spec. }
  intros tag off Ht Hoff.
  rewrite (verify_eq mt' (Mk_mt (Z.of_nat (length ls)) (level mt'))) by (done || cbn; lia).
  destruct Ht as [Htl Htb].
  rewrite (mt_verify_spec _ ls) by (done || clia). by rewrite leaf_of_hash.
Qed.

(** The leaf count is lost: [deserialize_init_mt] takes the byte count for
    it, so that a reloaded tree believes to have at least 104 + 32 n leaves
    instead of n, and adding a leaf to it never succeeds: with enough memory
    the leaf is appended to the bottom level and MT_ERR_ILLEGAL_PARAM comes
    back before any interior node is updated. *)
Theorem mt_reload_add_fails mt ls tag w :
  tree_rep mt ls -> is_hash tag -> Z.of_nat (S (length ls)) < MT_AL_MAX_ELEMS -> all_ok w ->
  exists file w1 n mt' w2 mt'' w3,
    serialize_mt (Some mt) w = Done ((Z.of_nat (length file), Live (Some <$> file)), w1) /\
    deserialize_init_mt (Some file) w1 = Done (Mk_obj (Some mt') n 0, w2) /\
    mt_elems mt' = Z.of_nat (length file) /\ 104 + 32 * Z.of_nat (length ls) <= mt_elems mt' /\
    mt_add (Some mt') (Some tag) HASH_LENGTH w2 = Done ((MT_ERR_ILLEGAL_PARAM, Some mt''), w3) /\
    exists al, level mt'' !! 0%nat = Some (Some al) /\ al_rep al (ls ++ [tag]).
Proof.
  intros Hrep Ht Hroom Hw. destruct (save_spec mt ls w Hrep Hw) as (w1 & Hs & Hw1).
  destruct (load_spec mt ls w1 Hrep Hw1) as (mt' & w2 & Hl & Hw2 & Hrel).
  pose proof (saved_size_bound ls (tr_max _ _ Hrep)) as Hb.
  pose proof Ht as [Htl Htb].
  destruct (mt_add_reloaded mt' ls tag HASH_LENGTH w2 Hrel ltac:(clia) ltac:(clia) Htb Hroom)
    as (e & mt'' & w3 & Ha & _ & Hok).
  destruct (Hok Hw2) as [-> Hal]. rewrite leaf_of_hash in Hal by done. destruct Hrel as [He _].
  exists (enc_tree (Z.of_nat (length ls)) (all_levels ls)), w1, (saved_size ls), mt', w2, mt'', w3.
  rewrite (length_enc_tree mt), He by done. repeat (split; [done || lia|]). done.
Qed.

(** ... and the range check of [mt_verify] no longer protects it: on a
    reloaded tree of one leaf every offset from 1 up to the file size is
    accepted and ends in a comparison with NULL. *)
Theorem mt_reload_verify_faults mt t tag off w :
  tree_rep mt [t] -> is_hash tag -> all_ok w -> 1 <= off < 136 ->
  exists file w1 n mt' w2,
    serialize_mt (Some mt) w = Done ((Z.of_nat (length file), Live (Some <$> file)), w1) /\
    deserialize_init_mt (Some file) w1 = Done (Mk_obj (Some mt') n 0, w2) /\
    mt_verify (Some mt') (Some tag) HASH_LENGTH off w2 = Fault NullDeref.
Proof.
  intros Hrep Ht Hw Hoff. destruct (save_spec mt [t] w Hrep Hw) as (w1 & Hs & Hw1).
  destruct (load_spec mt [t] w1 Hrep Hw1) as (mt' & w2 & Hl & Hw2 & He & Hrep').
  exists (enc_tree (Z.of_nat (length [t])) (all_levels [t])), w1, (saved_size [t]), mt', w2.
  rewrite (length_enc_tree mt [t]) by done. split; [done|]. split; [done|].
  unfold mt_verify. pose proof (saved_size_bound [t] (tr_max _ _ Hrep)) as Hb. cbn [length] in Hb.
  rewrite He. replace (_ && _) with true by clia.
  assert (Hpar : HASH_LENGTH <= Z.of_nat (length tag)) by (destruct Ht as [-> _]; clia).
  rewrite (bind_done _ _ _ _ _ (mt_init_hash_spec tag HASH_LENGTH w2 ltac:(clia) Hpar)).
  assert (Hlv : forall l, (l < 24)%nat -> level_rep mt' [t] l) by apply (tr_levels _ _ Hrep').
  pose proof (hasNext_spec mt' [t] 0 w2 (Hlv 1%nat ltac:(lia)) ltac:(lia) (tr_max _ _ Hrep)) as Hn.
  change (Z.of_nat 0) with 0 in Hn.
  change (Z.to_nat TREE_LEVELS) with (S 23). unfold mt_verify_loop; fold mt_verify_loop.
  rewrite bind_assoc, (bind_done _ _ _ _ _ Hn). cbn [length Nat.pow Nat.ltb Nat.leb].
  rewrite bind_ret. cbv beta iota. rewrite decide_True by done.
  destruct (level_read mt' [t] 0 w2 (Hlv 0%nat ltac:(lia)) ltac:(lia) (tr_max _ _ Hrep))
    as (al & Ha & _ & Hg).
  change (Z.of_nat 0) with 0 in Ha. rewrite (bind_done _ _ _ _ _ Ha).
  specialize (Hg (Z.to_nat off)). rewrite Z2Nat.id in Hg by lia.
  rewrite (bind_done _ _ _ _ _ Hg). cbn [stored length].
  by replace (_ <? 1)%nat with false by lia.
Qed.

End reload.

(** ** Witnesses *)

Lemma one_leaf_tree :
  exists mt w, tree_rep mt [test_value 9] /\ all_ok w.
Proof.
  destruct (mt_create_spec []) as (r & w & _ & [->|(mt & -> & Hrep)] & Hok).
  { by destruct (Hok ltac:(constructor)). }
  destruct (mt_add_spec mt [] (test_value 9) 32 [] Hrep) as (e & mt' & w' & _ & Hc & Hok');
    [unfold HASH_LENGTH; lia|done|by apply Forall_replicate|done|].
  destruct (Hok' ltac:(constructor)) as [-> Hw]. destruct Hc as [[_ Hr]|]; [|done].
  by exists mt', w'.
Qed.

Lemma mt_save_reload_witness :
  exists mt file w1 mt' w2, tree_rep mt [test_value 9] /\
    serialize_mt (Some mt) [] = Done ((Z.of_nat (length file), Live (Some <$> file)), w1) /\
    deserialize_init_mt (Some file) w1
      = Done (Mk_obj (Some mt') (Z.of_nat (length file)) 0, w2) /\
    mt_get_root (Some mt') true w2 = Done ((MT_SUCCESS, Some (test_value 9)), w2).
Proof.
  destruct one_leaf_tree as (mt & _ & Hrep & _).
  destruct (mt_save_reload mt [test_value 9] [] Hrep) as (file & w1 & mt' & w2 & H1 & H2 & H3 & _).
  - done.
  - constructor.
  - by exists mt, file, w1, mt', w2.
Defined.

Lemma mt_reload_add_fails_witness :
  exists mt file w1 n mt' w2 mt'' w3, tree_rep mt [test_value 9] /\
    serialize_mt (Some mt) [] = Done ((Z.of_nat (length file), Live (Some <$> file)), w1) /\
    deserialize_init_mt (Some file) w1 = Done (Mk_obj (Some mt') n 0, w2) /\
    mt_add (Some mt') (Some (test_value 1)) HASH_LENGTH w2
      = Done ((MT_ERR_ILLEGAL_PARAM, Some mt''), w3).
Proof.
  destruct one_leaf_tree as (mt & _ & Hrep & _).
  destruct (mt_reload_add_fails mt [test_value 9] (test_value 1) [] Hrep)
    as (file & w1 & n & mt' & w2 & mt'' & w3 & H1 & H2 & _ & _ & H3 & _).
  - split; [done|]. by apply Forall_replicate.
  - done.
  - constructor.
  - by exists mt, file, w1, n, mt', w2, mt'', w3.
Defined.

Lemma mt_reload_verify_faults_witness :
  exists mt file w1 n mt' w2, tree_rep mt [test_value 9] /\
    serialize_mt (Some mt) [] = Done ((Z.of_nat (length file), Live (Some <$> file)), w1) /\
    deserialize_init_mt (Some file) w1 = Done (Mk_obj (Some mt') n 0, w2) /\
    mt_verify (Some mt') (Some (test_value 9)) HASH_LENGTH 1 w2 = Fault NullDeref.
Proof.
  destruct one_leaf_tree as (mt & _ & Hrep & _).
  destruct (mt_reload_verify_faults mt (test_value 9) (test_value 9) 1 [] Hrep)
    as (file & w1 & n & mt' & w2 & H1 & H2 & H3).
  - split; [done|]. by apply Forall_replicate.
  - constructor.
  - lia.
  - by exists mt, file, w1, n, mt', w2.
Defined.
