(* ===== verification/CipherUtil.v ===== *)
(** * Byte-level helpers of the page codec

    The routines of [crypto.h] and [crypto_impl.c] (in
    [storage/secure/sec_sqlite3.c]) that work on plain bytes: hexadecimal
    conversion, the constant-time memory routines, page-number encodings and
    the case-insensitive comparison used to recognise raw keys.  Buffers are
    lists of bytes with checked accesses. *)

From stdpp Require Import base tactics list numbers option.
From Stdlib Require Import ZArith Lia ZifyBool.
From S2P Require Import Prelude.

Local Open Scope Z_scope.

(** ** Initialised buffers *)

Definition buf_read (off n : Z) (b : list Z) : M (list Z) :=
  if (off <? 0) || (n <? 0) || (Z.of_nat (length b) <? off + n) then throw OutOfBounds
  else mret (take (Z.to_nat n) (drop (Z.to_nat off) b)).

Definition buf_write (off : Z) (bs b : list Z) : M (list Z) :=
  if (off <? 0) || (Z.of_nat (length b) <? off + Z.of_nat (length bs)) then throw OutOfBounds
  else mret (take (Z.to_nat off) b ++ bs ++ drop (Z.to_nat off + length bs) b).

Lemma buf_read_at pre bs post off n w :
  off = Z.of_nat (length pre) -> n = Z.of_nat (length bs) ->
  buf_read off n (pre ++ bs ++ post) w = Done (bs, w).
Proof.
  intros -> ->. unfold buf_read. rewrite !length_app.
  replace (_ || _ || _) with false by lia.
  by rewrite !Nat2Z.id, drop_app_length, take_app_length.
Qed.

Lemma buf_write_at pre old bs post off w :
  off = Z.of_nat (length pre) -> length old = length bs ->
  buf_write off bs (pre ++ old ++ post) w = Done (pre ++ bs ++ post, w).
Proof.
  intros -> Hl. unfold buf_write. rewrite !length_app.
  replace (_ || _) with false by lia. rewrite Nat2Z.id, take_app_length.
  rewrite (app_assoc pre old), drop_app_length' by (rewrite length_app; lia). done.
Qed.

Lemma runs_read off n b :
  0 <= off -> 0 <= n -> off + n <= Z.of_nat (length b) ->
  runs (buf_read off n b) (fun r => Z.of_nat (length r) = n).
Proof.
  intros Ho Hn Hl. unfold buf_read. replace (_ || _ || _) with false by lia. apply runs_ret.
  rewrite length_take, length_drop. lia.
Qed.

Lemma runs_write off bs b :
  0 <= off -> off + Z.of_nat (length bs) <= Z.of_nat (length b) ->
  runs (buf_write off bs b) (fun r => length r = length b).
Proof.
  intros Ho Hl. unfold buf_write. replace (_ || _) with false by lia. apply runs_ret.
  rewrite !length_app, length_take, length_drop. lia.
Qed.

(** ** Hexadecimal *)

Definition cipher_hex2int (c : Z) : Z :=
  if (48 <=? c) && (c <=? 57) then c - 48
  else if (65 <=? c) && (c <=? 70) then c - 65 + 10
  else if (97 <=? c) && (c <=? 102) then c - 97 + 10 else 0.

(** [sz] characters, two per byte; [out] is written from its start. *)
Fixpoint cipher_hex2bin (hex : list Z) : list Z :=
  match hex with
  | h :: l :: hex =>
      u8 (Z.lor (Z.shiftl (cipher_hex2int h) 4) (cipher_hex2int l)) :: cipher_hex2bin hex
  | _ => []
  end.

(** A digit of [%02x]. *)
Definition hex_lower (d : Z) : Z := if d <? 10 then 48 + d else 87 + d.

(** [sqlite3_snprintf(3, out + i*2, "%02x ", in[i])]: two digits and a NUL (the
    blank does not fit); the NUL is overwritten by the next pair. *)
Fixpoint cipher_bin2hex (input : list Z) (out : list Z) (pos : Z) : M (list Z) :=
  match input with
  | [] => mret out
  | b :: input =>
      out ← buf_write pos [hex_lower (b / 16); hex_lower (b mod 16); 0] out;
      cipher_bin2hex input out (pos + 2)
  end.

Definition is_hex_char (c : Z) : bool :=
  negb (((c <? 48) || (57 <? c)) && ((c <? 65) || (70 <? c)) && ((c <? 97) || (102 <? c))).

Definition cipher_isHex (hex : list Z) : bool := forallb is_hex_char hex.

(** ** Memory *)

Definition sqlcipher_memset (v : option (list Z)) (value len : Z) : M (option (list Z)) :=
  match v with
  | None => mret None
  | Some a => b ← buf_write 0 (replicate (Z.to_nat len) value) a; mret (Some b)
  end.

(** 0 when every byte equals [value], else 1. *)
Definition sqlcipher_ismemset (v : list Z) (value : Z) : Z :=
  let result := fold_left (fun r a => Z.lor r (Z.lxor a value)) v 0 in
  if result =? 0 then 0 else 1.

Fixpoint memcmp_loop (a0 a1 : list Z) (result : Z) : Z :=
  match a0, a1 with
  | x :: a0, y :: a1 => memcmp_loop a0 a1 (Z.lor result (Z.lxor x y))
  | _, _ => result
  end.

Definition sqlcipher_memcmp (v0 v1 : list Z) (len : Z) : Z :=
  let n := Z.to_nat len in
  if memcmp_loop (take n v0) (take n v1) 0 =? 0 then 0 else 1.

(** ** Page numbers *)

Definition sqlcipher_put4byte_le (v : Z) : list Z :=
  [u8 v; u8 (Z.shiftr v 8); u8 (Z.shiftr v 16); u8 (Z.shiftr v 24)].

Definition sqlite3Put4byte (v : Z) : list Z :=
  [u8 (Z.shiftr v 24); u8 (Z.shiftr v 16); u8 (Z.shiftr v 8); u8 v].

Definition sqlite3Get4byte (p : list Z) : Z :=
  match p with
  | [a; b; c; d] =>
      Z.lor (Z.lor (Z.lor (u32 (Z.shiftl a 24)) (Z.shiftl b 16)) (Z.shiftl c 8)) d
  | _ => 0
  end.

(** ** Case-insensitive comparison *)

(** [UpperToLower] on the ASCII letters; other bytes map to themselves. *)
Definition UpperToLower (c : Z) : Z := if (65 <=? c) && (c <=? 90) then c + 32 else c.

(** [sqlite3_strnicmp]: both strings are NUL terminated; a string shorter than
    the loop needs ends with 0. *)
Fixpoint sqlite3_strnicmp (zLeft zRight : list Z) (N : nat) : Z :=
  match N with
  | O => 0
  | S N =>
      let a := hd 0 zLeft in
      let b := hd 0 zRight in
      if negb (a =? 0) && (UpperToLower a =? UpperToLower b)
      then sqlite3_strnicmp (tl zLeft) (tl zRight) N
      else UpperToLower a - UpperToLower b
  end.

(** [sqlite3StrICmp]; the lists are the characters before the terminating NUL. *)
Fixpoint sqlite3StrICmp (zLeft zRight : list Z) : Z :=
  match zLeft with
  | [] => match zRight with [] => 0 | x :: _ => UpperToLower 0 - UpperToLower x end
  | c :: zLeft =>
      match zRight with
      | [] => UpperToLower c - UpperToLower 0
      | x :: zRight =>
          let d := UpperToLower c - UpperToLower x in
          if d =? 0 then sqlite3StrICmp zLeft zRight else d
      end
  end.

(** ** Facts *)

Definition hex_of (bs : list Z) : list Z :=
  concat ((fun b => [hex_lower (b / 16); hex_lower (b mod 16)]) <$> bs).

Lemma length_hex_of bs : length (hex_of bs) = (2 * length bs)%nat.
Proof.
  unfold hex_of. rewrite (length_concat_uniform 2), length_fmap; [done|].
  by apply Forall_fmap, Forall_true.
Qed.

Lemma hex2int_lower d : 0 <= d < 16 -> cipher_hex2int (hex_lower d) = d.
Proof.
  intros Hd. unfold hex_lower, cipher_hex2int. destruct (d <? 10) eqn:E.
  - replace (_ && _) with true by lia. lia.
  - replace ((48 <=? 87 + d) && (87 + d <=? 57)) with false by lia.
    replace ((65 <=? 87 + d) && (87 + d <=? 70)) with false by lia.
    replace (_ && _) with true by lia. lia.
Qed.

Lemma hex_lower_is_hex d : 0 <= d < 16 -> is_hex_char (hex_lower d) = true.
Proof. intros Hd. unfold hex_lower, is_hex_char. case_match; lia. Qed.

Lemma byte_digits b : is_byte b -> 0 <= b / 16 < 16 /\ 0 <= b mod 16 < 16 /\ b / 16 * 16 + b mod 16 = b.
Proof.
  intros [H0 H1]. pose proof (Z.div_mod b 16 ltac:(lia)). pose proof (Z.mod_pos_bound b 16 ltac:(lia)).
  split; [|lia]. split; [apply Z.div_pos; lia|apply Z.div_lt_upper_bound; lia].
Qed.

Lemma isHex_hex_of bs : bytes bs -> cipher_isHex (hex_of bs) = true.
Proof.
  unfold cipher_isHex, hex_of. induction 1 as [|b bs Hb _ IH]; [done|].
  destruct (byte_digits b Hb) as (H1 & H2 & _).
  cbn [fmap list_fmap concat app forallb]. rewrite !hex_lower_is_hex by done. done.
Qed.

(** Hexadecimal conversion loses nothing. *)
Lemma hex2bin_hex_of bs : bytes bs -> cipher_hex2bin (hex_of bs) = bs.
Proof.
  unfold hex_of. induction 1 as [|b bs Hb _ IH]; [done|].
  destruct (byte_digits b Hb) as (H1 & H2 & H3).
  cbn [fmap list_fmap concat app cipher_hex2bin]. rewrite !hex2int_lower by done. f_equal; [|done].
  rewrite Z.shiftl_mul_pow2, lor_high_low by lia. change (2 ^ 4) with 16. rewrite H3.
  by apply u8_small.
Qed.

Lemma hex2bin_length n l : length l = (2 * n)%nat -> length (cipher_hex2bin l) = n.
Proof.
  revert l. induction n as [|n IH]; intros l Hl; [by destruct l|].
  destruct l as [|a [|b l]]; [done|cbn in Hl; lia|]. cbn in *. rewrite IH; lia.
Qed.

(** What [cipher_bin2hex] leaves in the buffer: the digits, then a NUL. *)
Lemma bin2hex_spec bs pre old post pos w :
  pos = Z.of_nat (length pre) -> length old = S (2 * length bs) -> bs <> [] ->
  cipher_bin2hex bs (pre ++ old ++ post) pos w = Done (pre ++ (hex_of bs ++ [0]) ++ post, w).
Proof.
  intros -> Hl Hne. revert pre old Hl. induction bs as [|b bs IH]; intros pre old Hl; [done|].
  cbn [cipher_bin2hex]. clear Hne. cbn [length] in Hl.
  set (chunk := [hex_lower (b / 16); hex_lower (b mod 16); 0]).
  rewrite <- (take_drop 3 old), <- (app_assoc (take 3 old)).
  rewrite (bind_done _ _ _ _ _ (buf_write_at pre (take 3 old) chunk _ _ w eq_refl
    ltac:(cbn; rewrite length_take; lia))).
  destruct (decide (bs = [])) as [->|Hne].
  { cbn. rewrite (drop_ge old) by (cbn in Hl; lia). done. }
  change chunk with ([hex_lower (b / 16); hex_lower (b mod 16)] ++ [0]).
  rewrite <- app_assoc, (app_assoc pre).
  replace (Z.of_nat (length pre) + 2) with
    (Z.of_nat (length (pre ++ [hex_lower (b / 16); hex_lower (b mod 16)])))
    by (rewrite length_app; cbn; lia).
  rewrite (app_assoc [0]), (IH Hne) by (cbn; rewrite length_drop; lia).
  unfold hex_of. cbn [fmap list_fmap concat]. by rewrite <- !app_assoc.
Qed.

Lemma lor_zero_iff a b : Z.lor a b = 0 <-> a = 0 /\ b = 0.
Proof. apply Z.lor_eq_0_iff. Qed.

(** The constant-time comparison decides equality. *)
Lemma memcmp_loop_zero a0 a1 r :
  length a0 = length a1 -> memcmp_loop a0 a1 r = 0 <-> r = 0 /\ a0 = a1.
Proof.
  revert a1 r. induction a0 as [|x a0 IH]; intros [|y a1] r Hl; cbn in *; try lia.
  { tauto. }
  rewrite IH, lor_zero_iff, Z.lxor_eq_0_iff by lia. intuition congruence.
Qed.

Lemma sqlcipher_memcmp_spec v0 v1 len :
  0 <= len -> Z.to_nat len = length v0 -> length v0 = length v1 ->
  sqlcipher_memcmp v0 v1 len = if decide (v0 = v1) then 0 else 1.
Proof.
  intros H0 Hl Hl'. unfold sqlcipher_memcmp. rewrite !take_ge by lia.
  pose proof (memcmp_loop_zero v0 v1 0 Hl') as Hz.
  destruct (_ =? 0) eqn:E; case_decide as Hd; try done.
  - exfalso. apply Hd, Hz. lia.
  - exfalso. assert (memcmp_loop v0 v1 0 = 0) by (by apply Hz). lia.
Qed.

Lemma ismemset_loop v value r :
  fold_left (fun r a => Z.lor r (Z.lxor a value)) v r = 0
  <-> r = 0 /\ v = replicate (length v) value.
Proof.
  revert r. induction v as [|a v IH]; intros r; cbn; [tauto|].
  rewrite IH, lor_zero_iff, Z.lxor_eq_0_iff. intuition congruence.
Qed.

Lemma sqlcipher_ismemset_spec v value :
  sqlcipher_ismemset v value = if decide (v = replicate (length v) value) then 0 else 1.
Proof.
  unfold sqlcipher_ismemset. pose proof (ismemset_loop v value 0) as Hz.
  destruct (_ =? 0) eqn:E; case_decide as Hd; try done.
  - exfalso. apply Hd, Hz. lia.
  - exfalso. assert (fold_left (fun r a => Z.lor r (Z.lxor a value)) v 0 = 0) by (by apply Hz). lia.
Qed.

Lemma put4byte_le_bytes v : sqlcipher_put4byte_le v = le_bytes 4 v.
Proof.
  unfold sqlcipher_put4byte_le. cbn [le_bytes].
  rewrite !Z.shiftr_div_pow2, !Z.div_div by lia. done.
Qed.

Lemma put4byte_be_bytes v : sqlite3Put4byte v = be_bytes 4 v.
Proof.
  unfold sqlite3Put4byte, be_bytes. cbn [le_bytes rev app].
  rewrite !Z.shiftr_div_pow2, !Z.div_div by lia. done.
Qed.

Lemma get4byte_put4byte v : 0 <= v < 2 ^ 32 -> sqlite3Get4byte (sqlite3Put4byte v) = v.
Proof.
  intros Hv. unfold sqlite3Get4byte, sqlite3Put4byte. rewrite !Z.shiftr_div_pow2 by lia.
  pose proof (le_val_bytes_small 4 v ltac:(cbn; lia)) as Hval. cbn [le_bytes le_val] in Hval.
  pose proof (u8_byte v) as B0. pose proof (u8_byte (v / 256)) as B1.
  pose proof (u8_byte (v / 256 / 256)) as B2. pose proof (u8_byte (v / 256 / 256 / 256)) as B3.
  rewrite !Z.div_div in * by lia. change (2 ^ 8) with 256. change (2 ^ 16) with (256 * 256).
  change (2 ^ 24) with (256 * (256 * 256)). rewrite Z.mul_assoc in *.
  unfold is_byte in *. rewrite !Z.shiftl_mul_pow2 by lia. rewrite u32_small by lia.
  rewrite (lor_high_low (_ * 2 ^ 16) _ 24) by lia.
  set (a := u8 (v / (256 * 256 * 256))) in *. set (b := u8 (v / (256 * 256))) in *.
  replace (a * 2 ^ 24 + b * 2 ^ 16) with ((a * 2 ^ 8 + b) * 2 ^ 16) by lia.
  rewrite lor_high_low by lia. set (c := u8 (v / 256)) in *.
  replace ((a * 2 ^ 8 + b) * 2 ^ 16 + c * 2 ^ 8) with ((a * 2 ^ 16 + b * 2 ^ 8 + c) * 2 ^ 8) by lia.
  rewrite lor_high_low by lia. lia.
Qed.

(** [sqlite3StrICmp] is zero exactly on strings equal up to ASCII case. *)
Lemma sqlite3StrICmp_zero a b :
  Forall (fun c => c <> 0) a -> Forall (fun c => c <> 0) b ->
  sqlite3StrICmp a b = 0 <-> UpperToLower <$> a = UpperToLower <$> b.
Proof.
  assert (Hup : forall c, c <> 0 -> UpperToLower c <> UpperToLower 0).
  { intros c Hc. unfold UpperToLower. repeat case_match; lia. }
  intros Ha. revert b. induction Ha as [|c a Hc _ IH]; intros b Hb;
    destruct Hb as [|x b Hx Hb]; cbn [sqlite3StrICmp fmap list_fmap]; [done| | |].
  - split; [|done]. intros E. exfalso. apply (Hup x Hx). lia.
  - split; [|done]. intros E. exfalso. apply (Hup c Hc). lia.
  - destruct (_ =? 0) eqn:E.
    + rewrite IH by done. split; [intros ->; f_equal; lia|by intros [= ? ?]].
    + split; [lia|]. intros [= ? ?]. lia.
Qed.
