(* ===== verification/Openssl.v ===== *)
(** * The crypto provider

    Model of [crypto_openssl.c] (in [storage/secure/sec_sqlite3.c]), the
    provider SQLCipher is built with, and of the provider table of
    [sqlcipher.h].  OpenSSL itself is a parameter: [OpenSSL] lists the calls the
    code makes, [OpenSSLLaws] what their documentation promises for
    aes-256-cbc and the SHA family.  [toy_openssl] shows that the laws can
    hold. *)

From stdpp Require Import base tactics list numbers option.
From Stdlib Require Import ZArith Lia ZifyBool.
From S2P Require Import Prelude.

Local Open Scope Z_scope.

Definition SQLITE_OK : Z := 0.
Definition SQLITE_ERROR : Z := 1.
Definition SQLITE_NOMEM : Z := 7.

Definition SQLCIPHER_HMAC_SHA1 : Z := 0.
Definition SQLCIPHER_HMAC_SHA256 : Z := 1.
Definition SQLCIPHER_HMAC_SHA512 : Z := 2.
Definition SQLCIPHER_PBKDF2_HMAC_SHA512 : Z := 2.

Definition CIPHER_DECRYPT : Z := 0.
Definition CIPHER_ENCRYPT : Z := 1.

(** ** OpenSSL *)

(** [EVP_sha1()], [EVP_sha256()], [EVP_sha512()] *)
Inductive md := Sha1 | Sha256 | Sha512.

Class OpenSSL := {
  rng : Type;                                        (** state of the generator *)
  RAND_bytes : rng -> Z -> option (list Z) * rng;    (** [None]: did not return 1 *)
  RAND_add : rng -> list Z -> rng;
  HMAC : md -> list Z -> list Z -> option (list Z);  (** init, updates, final *)
  PKCS5_PBKDF2_HMAC : md -> list Z -> list Z -> Z -> Z -> option (list Z);
  EVP_Cipher : Z -> list Z -> list Z -> list Z -> option (list Z);
    (** init with mode, key and iv, no padding, update and final *)
  EVP_MD_size : md -> Z;
  EVP_CIPHER_key_length : Z;
  EVP_CIPHER_iv_length : Z;
  EVP_CIPHER_block_size : Z;
  EVP_get_cipherbyname : bool;                       (** is aes-256-cbc known? *)
}.

Class OpenSSLLaws (O : OpenSSL) := {
  key_length_32 : EVP_CIPHER_key_length = 32;
  iv_length_16 : EVP_CIPHER_iv_length = 16;
  block_size_16 : EVP_CIPHER_block_size = 16;
  md_size_sha1 : EVP_MD_size Sha1 = 20;
  md_size_sha256 : EVP_MD_size Sha256 = 32;
  md_size_sha512 : EVP_MD_size Sha512 = 64;
  RAND_length r n bs r' :
    RAND_bytes r n = (Some bs, r') -> Z.of_nat (length bs) = Z.max 0 n /\ bytes bs;
  HMAC_length m k x t :
    HMAC m k x = Some t -> Z.of_nat (length t) = EVP_MD_size m /\ bytes t;
  PBKDF2_length m p s i n k :
    0 <= n -> PKCS5_PBKDF2_HMAC m p s i n = Some k -> Z.of_nat (length k) = n /\ bytes k;
  cipher_length mode k iv x y :
    EVP_Cipher mode k iv x = Some y -> length y = length x /\ bytes y;
  cipher_inverse k iv x y :
    bytes x -> EVP_Cipher CIPHER_ENCRYPT k iv x = Some y ->
    EVP_Cipher CIPHER_DECRYPT k iv y = Some x;
}.

(** The calls succeed on arguments of the right sizes: what theorems about
    whole sessions assume of OpenSSL besides the laws. *)
Class OpenSSLWorks (O : OpenSSL) := {
  RAND_works r n : 0 <= n -> exists bs r', RAND_bytes r n = (Some bs, r');
  HMAC_works m k x : exists t, HMAC m k x = Some t;
  PBKDF2_works m p s i n : 0 <= n -> exists k, PKCS5_PBKDF2_HMAC m p s i n = Some k;
  cipher_works mode k iv x :
    length k = 32%nat -> length iv = 16%nat -> (16 | Z.of_nat (length x)) ->
    exists y, EVP_Cipher mode k iv x = Some y;
}.

(** ** The provider functions *)

Section provider.
Context {O : OpenSSL}.

Definition sqlcipher_openssl_random (r : rng) (len : Z) : Z * option (list Z) * rng :=
  let '(bs, r) := RAND_bytes r len in
  match bs with
  | Some bs => (SQLITE_OK, Some bs, r)
  | None => (SQLITE_ERROR, None, r)
  end.

Definition sqlcipher_openssl_add_random (r : rng) (buffer : list Z) : Z * rng :=
  (SQLITE_OK, RAND_add r buffer).

Definition hmac_md (algorithm : Z) : option md :=
  if algorithm =? SQLCIPHER_HMAC_SHA1 then Some Sha1
  else if algorithm =? SQLCIPHER_HMAC_SHA256 then Some Sha256
  else if algorithm =? SQLCIPHER_HMAC_SHA512 then Some Sha512 else None.

(** [in2] may be NULL; the two inputs are hashed one after the other. *)
Definition sqlcipher_openssl_hmac (algorithm : Z) (hmac_key : list Z)
    (input : option (list Z)) (in2 : option (list Z)) : Z * option (list Z) :=
  match input with
  | None => (SQLITE_ERROR, None)
  | Some x =>
      match hmac_md algorithm with
      | None => (SQLITE_ERROR, None)
      | Some m =>
          match HMAC m hmac_key (x ++ default [] in2) with
          | Some t => (SQLITE_OK, Some t)
          | None => (SQLITE_ERROR, None)
          end
      end
  end.

Definition sqlcipher_openssl_kdf (algorithm : Z) (pass salt : list Z)
    (workfactor key_sz : Z) : Z * option (list Z) :=
  match hmac_md algorithm with
  | None => (SQLITE_ERROR, None)
  | Some m =>
      match PKCS5_PBKDF2_HMAC m pass salt workfactor key_sz with
      | Some k => (SQLITE_OK, Some k)
      | None => (SQLITE_ERROR, None)
      end
  end.

(** The assertion compares the number of bytes produced with [in_sz]. *)
Definition sqlcipher_openssl_cipher (mode : Z) (key iv input : list Z)
  : M (Z * option (list Z)) :=
  match EVP_Cipher mode key iv input with
  | None => mret (SQLITE_ERROR, None)
  | Some out =>
      _ ← c_assert (Nat.eqb (length input) (length out));
      mret (SQLITE_OK, Some out)
  end.

Definition sqlcipher_openssl_get_hmac_sz (algorithm : Z) : Z :=
  match hmac_md algorithm with Some m => EVP_MD_size m | None => 0 end.

(** [openssl_external_init] and [openssl_init_count]; the counter is unsigned. *)
Record openssl_globals := Mk_ossl { openssl_external_init : Z; openssl_init_count : Z }.

(** With OpenSSL 1.1 and later nothing is left to initialise. *)
Definition sqlcipher_openssl_activate (g : openssl_globals) : openssl_globals :=
  let ext := if (openssl_init_count g =? 0) && EVP_get_cipherbyname
             then 1 else openssl_external_init g in
  Mk_ossl ext (u32 (openssl_init_count g + 1)).

Definition sqlcipher_openssl_deactivate (g : openssl_globals) : openssl_globals :=
  let count := u32 (openssl_init_count g - 1) in
  Mk_ossl (if (count =? 0) && negb (openssl_external_init g =? 0)
           then 0 else openssl_external_init g) count.

(** [openssl_ctx]: the cipher, [false] when it is not known. *)
Definition sqlcipher_openssl_ctx_init (g : openssl_globals)
  : M (Z * openssl_globals * option bool) :=
  ok ← request;
  if (ok : bool) then
    let g := sqlcipher_openssl_activate g in
    mret (if EVP_get_cipherbyname then SQLITE_OK else SQLITE_ERROR, g, Some EVP_get_cipherbyname)
  else mret (SQLITE_NOMEM, g, None).

Definition sqlcipher_openssl_ctx_free (g : openssl_globals) : Z * openssl_globals :=
  (SQLITE_OK, sqlcipher_openssl_deactivate g).

(** *** The table *)

Record sqlcipher_provider := Mk_provider {
  p_random : rng -> Z -> Z * option (list Z) * rng;
  p_add_random : rng -> list Z -> Z * rng;
  p_hmac : Z -> list Z -> option (list Z) -> option (list Z) -> Z * option (list Z);
  p_kdf : Z -> list Z -> list Z -> Z -> Z -> Z * option (list Z);
  p_cipher : Z -> list Z -> list Z -> list Z -> M (Z * option (list Z));
  p_get_key_sz : Z;
  p_get_iv_sz : Z;
  p_get_block_sz : Z;
  p_get_hmac_sz : Z -> Z;
  p_ctx_init : openssl_globals -> M (Z * openssl_globals * option bool);
  p_ctx_free : openssl_globals -> Z * openssl_globals;
  p_fips_status : Z;
}.

Definition sqlcipher_openssl_setup : sqlcipher_provider := {|
  p_random := sqlcipher_openssl_random;
  p_add_random := sqlcipher_openssl_add_random;
  p_hmac := sqlcipher_openssl_hmac;
  p_kdf := sqlcipher_openssl_kdf;
  p_cipher := sqlcipher_openssl_cipher;
  p_get_key_sz := EVP_CIPHER_key_length;
  p_get_iv_sz := EVP_CIPHER_iv_length;
  p_get_block_sz := EVP_CIPHER_block_size;
  p_get_hmac_sz := sqlcipher_openssl_get_hmac_sz;
  p_ctx_init := sqlcipher_openssl_ctx_init;
  p_ctx_free := sqlcipher_openssl_ctx_free;
  p_fips_status := 0;
|}.

(** Balanced activation: after as many deactivations the counter is back, and
    an external initialisation is forgotten only when it reaches zero. *)
Lemma openssl_activate_deactivate g :
  0 <= openssl_init_count g < 2 ^ 32 - 1 ->
  openssl_init_count (sqlcipher_openssl_deactivate (sqlcipher_openssl_activate g))
  = openssl_init_count g.
Proof.
  intros Hg. unfold sqlcipher_openssl_deactivate, sqlcipher_openssl_activate. cbn.
  rewrite (u32_small (openssl_init_count g + 1)) by lia. by rewrite Z.add_simpl_r, u32_small by lia.
Qed.

Context {L : OpenSSLLaws O}.

Lemma hmac_size algorithm key x y t :
  sqlcipher_openssl_hmac algorithm key (Some x) y = (SQLITE_OK, Some t) ->
  Z.of_nat (length t) = sqlcipher_openssl_get_hmac_sz algorithm /\ bytes t.
Proof.
  unfold sqlcipher_openssl_hmac, sqlcipher_openssl_get_hmac_sz.
  destruct (hmac_md algorithm) as [m|]; [|done].
  destruct (HMAC m key _) as [t'|] eqn:E; [|done]. intros [= ->]. by apply HMAC_length in E.
Qed.

Lemma cipher_runs mode key iv x w :
  exists rc y, sqlcipher_openssl_cipher mode key iv x w = Done ((rc, y), w) /\
    (rc = SQLITE_OK /\ (exists y', y = Some y' /\ EVP_Cipher mode key iv x = Some y') \/
     rc = SQLITE_ERROR /\ y = None /\ EVP_Cipher mode key iv x = None).
Proof.
  unfold sqlcipher_openssl_cipher. destruct (EVP_Cipher mode key iv x) as [y|] eqn:E.
  - destruct (cipher_length _ _ _ _ _ E) as [Hl _].
    rewrite bind_assert by (apply Nat.eqb_eq; lia). eexists _, _. split; [done|]. left. split; [done|]. by exists y.
  - eexists _, _. split; [done|]. by right.
Qed.

End provider.

(** ** A concrete instance

    A generator of zeros, an HMAC and a KDF that sum bytes, and a cipher that
    adds the key's first byte: weak, but with the shapes of the real calls. *)

Definition toy_sum (x : list Z) : Z := foldr (fun a s => u8 (a + 3 * s)) 7 x.

Definition toy_out (n : Z) (x : list Z) : list Z :=
  (fun i => u8 (toy_sum x + Z.of_nat i)) <$> seq 0 (Z.to_nat n).

Definition toy_md_size (m : md) : Z := match m with Sha1 => 20 | Sha256 => 32 | Sha512 => 64 end.

Definition toy_cipher (mode : Z) (key iv x : list Z) : option (list Z) :=
  let k := u8 (toy_sum (key ++ iv)) in
  Some ((fun b => u8 (if mode =? CIPHER_ENCRYPT then b + k else b - k)) <$> x).

Definition toy_openssl : OpenSSL := {|
  rng := nat;
  RAND_bytes r n := (Some (replicate (Z.to_nat n) (u8 (Z.of_nat r))), S r);
  RAND_add r _ := r;
  HMAC m k x := Some (toy_out (toy_md_size m) (k ++ x));
  PKCS5_PBKDF2_HMAC m p s i n := Some (toy_out n (p ++ s ++ [u8 i]));
  EVP_Cipher := toy_cipher;
  EVP_MD_size := toy_md_size;
  EVP_CIPHER_key_length := 32;
  EVP_CIPHER_iv_length := 16;
  EVP_CIPHER_block_size := 16;
  EVP_get_cipherbyname := true;
|}.

Lemma toy_out_ok n x : Z.of_nat (length (toy_out n x)) = Z.max 0 n /\ bytes (toy_out n x).
Proof.
  unfold toy_out. rewrite length_fmap, length_seq. split; [lia|].
  apply Forall_fmap, Forall_true. intros i. apply u8_byte.
Qed.

Lemma toy_cipher_bytes mode k iv x y : toy_cipher mode k iv x = Some y -> length y = length x /\ bytes y.
Proof.
  intros [= <-]. rewrite length_fmap. split; [done|].
  apply Forall_fmap, Forall_true. intros b. apply u8_byte.
Qed.

Lemma toy_cipher_inverse k iv x y :
  bytes x -> toy_cipher CIPHER_ENCRYPT k iv x = Some y -> toy_cipher CIPHER_DECRYPT k iv y = Some x.
Proof.
  intros Hx [= <-]. unfold toy_cipher. f_equal. rewrite <- list_fmap_compose.
  set (c := u8 (toy_sum _)). rewrite <- (list_fmap_id x) at 2.
  apply list_fmap_ext. intros i b Hb. unfold compose.
  change (CIPHER_ENCRYPT =? CIPHER_ENCRYPT) with true.
  change (CIPHER_DECRYPT =? CIPHER_ENCRYPT) with false. cbv iota.
  pose proof (Forall_lookup_1 _ _ _ _ Hx Hb) as Hbb. unfold u8.
  rewrite Zminus_mod_idemp_l, Z.add_simpl_r. by apply u8_small.
Qed.

Lemma toy_openssl_laws : OpenSSLLaws toy_openssl.
Proof.
  split; try done.
  - intros r n bs r' [= <- <-]. rewrite length_replicate. split; [lia|].
    apply Forall_replicate, u8_byte.
  - intros m k x t [= <-]. destruct (toy_out_ok (toy_md_size m) (k ++ x)) as [Hl ?].
    split; [|done]. rewrite Hl. by destruct m.
  - intros m p s i n k Hn [= <-]. destruct (toy_out_ok n (p ++ s ++ [u8 i])) as [Hl ?].
    split; [lia|done].
  - apply toy_cipher_bytes.
  - apply toy_cipher_inverse.
Qed.

Lemma toy_openssl_works : OpenSSLWorks toy_openssl.
Proof. split; intros; (by eexists _, _) || (by eexists _). Qed.
