(* ===== verification/CodecCtx.v ===== *)
(** * The codec context: settings, keys and salts

    Model of the context of SQLCipher's page codec as IronSafe's secure storage
    engine uses it: the structures of [crypto.h] and the functions of
    [crypto_impl.c] (both in [storage/secure/sec_sqlite3.c]) that set up a
    context, choose its algorithms and sizes, and derive its keys.  IronSafe
    adds the Merkle tree pointer ([tree]) and sixteen bytes of page reserve for
    the offset of the page's leaf.

    Blocks obtained from [sqlcipher_malloc] are lists of bytes, NULL is [None];
    what becomes of freed blocks is the subject of [SecureMem].  The mutexes and
    the trace macros are not modelled. *)

From stdpp Require Import base tactics list numbers option.
From Stdlib Require Import ZArith Lia ZifyBool.
From S2P Require Import Prelude MtArrList Sha256 MtCrypto MerkleTree MtSerialize CipherUtil Openssl.

Local Open Scope Z_scope.

Definition FILE_HEADER_SZ : Z := 16.
Definition CIPHER_FLAG_HMAC : Z := 1.
Definition CIPHER_FLAG_LE_PGNO : Z := 2.
Definition CIPHER_FLAG_BE_PGNO : Z := 4.
Definition DEFAULT_CIPHER_FLAGS : Z := Z.lor CIPHER_FLAG_HMAC CIPHER_FLAG_LE_PGNO.
Definition PBKDF2_ITER : Z := 256000.
Definition FAST_PBKDF2_ITER : Z := 2.
Definition HMAC_SALT_MASK : Z := 58.
Definition CIPHER_READ_CTX : Z := 0.
Definition CIPHER_WRITE_CTX : Z := 1.
Definition CIPHER_READWRITE_CTX : Z := 2.
Definition sizeof_Pgno : Z := 4.

(** Dereference of a pointer. *)
Definition deref {A} (p : option A) : M A :=
  match p with None => throw NullDeref | Some a => mret a end.

(** [sqlcipher_malloc]: zeroed memory, or NULL.  [sqlite3Malloc] refuses an empty
    block and, as a huge unsigned size, a negative one. *)
Definition sqlcipher_malloc (sz : Z) : M (option (list Z)) :=
  if sz <=? 0 then mret None else
  ok ← request;
  mret (if (ok : bool) then Some (replicate (Z.to_nat sz) 0) else None).

(** ** Key material of one direction *)

Record cipher_ctx := Mk_cipher {
  derive_key : Z;
  pass_sz : Z;
  key : list Z;
  hmac_key : list Z;
  pass : option (list Z);
  keyspec : option (list Z);
}.

Definition set_derive_key (c : cipher_ctx) (v : Z) : cipher_ctx :=
  Mk_cipher v (pass_sz c) (key c) (hmac_key c) (pass c) (keyspec c).
Definition set_key (c : cipher_ctx) (v : list Z) : cipher_ctx :=
  Mk_cipher (derive_key c) (pass_sz c) v (hmac_key c) (pass c) (keyspec c).
Definition set_hmac_key (c : cipher_ctx) (v : list Z) : cipher_ctx :=
  Mk_cipher (derive_key c) (pass_sz c) (key c) v (pass c) (keyspec c).
Definition set_keyspec (c : cipher_ctx) (v : option (list Z)) : cipher_ctx :=
  Mk_cipher (derive_key c) (pass_sz c) (key c) (hmac_key c) (pass c) v.

Section codec.
Context {O : OpenSSL}.

Record codec_ctx := Mk_codec {
  store_pass : Z;
  kdf_iter : Z;
  fast_kdf_iter : Z;
  kdf_salt_sz : Z;
  key_sz : Z;
  iv_sz : Z;
  block_sz : Z;
  page_sz : Z;
  keyspec_sz : Z;
  reserve_sz : Z;
  hmac_sz : Z;
  plaintext_header_sz : Z;
  hmac_algorithm : Z;
  kdf_algorithm : Z;
  skip_read_hmac : Z;
  need_kdf_salt : Z;
  flags : Z;
  kdf_salt : list Z;
  hmac_kdf_salt : list Z;
  buffer : option (list Z);
  read_ctx : option cipher_ctx;
  write_ctx : option cipher_ctx;
  provider : sqlcipher_provider;
  tree : option mt_obj;
}.

(** Field assignments [ctx->f = v]. *)
Definition set_store_pass (c : codec_ctx) (v : Z) : codec_ctx :=
  Mk_codec v (kdf_iter c) (fast_kdf_iter c) (kdf_salt_sz c) (key_sz c) (iv_sz c) (block_sz
    c) (page_sz c) (keyspec_sz c) (reserve_sz c) (hmac_sz c) (plaintext_header_sz c)
    (hmac_algorithm c) (kdf_algorithm c) (skip_read_hmac c) (need_kdf_salt c) (flags c)
    (kdf_salt c) (hmac_kdf_salt c) (buffer c) (read_ctx c) (write_ctx c) (provider c) (tree
    c).
Definition set_kdf_iter (c : codec_ctx) (v : Z) : codec_ctx :=
  Mk_codec (store_pass c) v (fast_kdf_iter c) (kdf_salt_sz c) (key_sz c) (iv_sz c) (block_sz
    c) (page_sz c) (keyspec_sz c) (reserve_sz c) (hmac_sz c) (plaintext_header_sz c)
    (hmac_algorithm c) (kdf_algorithm c) (skip_read_hmac c) (need_kdf_salt c) (flags c)
    (kdf_salt c) (hmac_kdf_salt c) (buffer c) (read_ctx c) (write_ctx c) (provider c) (tree
    c).
Definition set_fast_kdf_iter (c : codec_ctx) (v : Z) : codec_ctx :=
  Mk_codec (store_pass c) (kdf_iter c) v (kdf_salt_sz c) (key_sz c) (iv_sz c) (block_sz c)
    (page_sz c) (keyspec_sz c) (reserve_sz c) (hmac_sz c) (plaintext_header_sz c)
    (hmac_algorithm c) (kdf_algorithm c) (skip_read_hmac c) (need_kdf_salt c) (flags c)
    (kdf_salt c) (hmac_kdf_salt c) (buffer c) (read_ctx c) (write_ctx c) (provider c) (tree
    c).
Definition set_page_sz (c : codec_ctx) (v : Z) : codec_ctx :=
  Mk_codec (store_pass c) (kdf_iter c) (fast_kdf_iter c) (kdf_salt_sz c) (key_sz c) (iv_sz
    c) (block_sz c) v (keyspec_sz c) (reserve_sz c) (hmac_sz c) (plaintext_header_sz c)
    (hmac_algorithm c) (kdf_algorithm c) (skip_read_hmac c) (need_kdf_salt c) (flags c)
    (kdf_salt c) (hmac_kdf_salt c) (buffer c) (read_ctx c) (write_ctx c) (provider c) (tree
    c).
Definition set_reserve_sz (c : codec_ctx) (v : Z) : codec_ctx :=
  Mk_codec (store_pass c) (kdf_iter c) (fast_kdf_iter c) (kdf_salt_sz c) (key_sz c) (iv_sz
    c) (block_sz c) (page_sz c) (keyspec_sz c) v (hmac_sz c) (plaintext_header_sz c)
    (hmac_algorithm c) (kdf_algorithm c) (skip_read_hmac c) (need_kdf_salt c) (flags c)
    (kdf_salt c) (hmac_kdf_salt c) (buffer c) (read_ctx c) (write_ctx c) (provider c) (tree
    c).
Definition set_hmac_sz (c : codec_ctx) (v : Z) : codec_ctx :=
  Mk_codec (store_pass c) (kdf_iter c) (fast_kdf_iter c) (kdf_salt_sz c) (key_sz c) (iv_sz
    c) (block_sz c) (page_sz c) (keyspec_sz c) (reserve_sz c) v (plaintext_header_sz c)
    (hmac_algorithm c) (kdf_algorithm c) (skip_read_hmac c) (need_kdf_salt c) (flags c)
    (kdf_salt c) (hmac_kdf_salt c) (buffer c) (read_ctx c) (write_ctx c) (provider c) (tree
    c).
Definition set_plaintext_header_sz (c : codec_ctx) (v : Z) : codec_ctx :=
  Mk_codec (store_pass c) (kdf_iter c) (fast_kdf_iter c) (kdf_salt_sz c) (key_sz c) (iv_sz
    c) (block_sz c) (page_sz c) (keyspec_sz c) (reserve_sz c) (hmac_sz c) v (hmac_algorithm
    c) (kdf_algorithm c) (skip_read_hmac c) (need_kdf_salt c) (flags c) (kdf_salt c)
    (hmac_kdf_salt c) (buffer c) (read_ctx c) (write_ctx c) (provider c) (tree c).
Definition set_hmac_algorithm (c : codec_ctx) (v : Z) : codec_ctx :=
  Mk_codec (store_pass c) (kdf_iter c) (fast_kdf_iter c) (kdf_salt_sz c) (key_sz c) (iv_sz
    c) (block_sz c) (page_sz c) (keyspec_sz c) (reserve_sz c) (hmac_sz c)
    (plaintext_header_sz c) v (kdf_algorithm c) (skip_read_hmac c) (need_kdf_salt c) (flags
    c) (kdf_salt c) (hmac_kdf_salt c) (buffer c) (read_ctx c) (write_ctx c) (provider c)
    (tree c).
Definition set_kdf_algorithm (c : codec_ctx) (v : Z) : codec_ctx :=
  Mk_codec (store_pass c) (kdf_iter c) (fast_kdf_iter c) (kdf_salt_sz c) (key_sz c) (iv_sz
    c) (block_sz c) (page_sz c) (keyspec_sz c) (reserve_sz c) (hmac_sz c)
    (plaintext_header_sz c) (hmac_algorithm c) v (skip_read_hmac c) (need_kdf_salt c) (flags
    c) (kdf_salt c) (hmac_kdf_salt c) (buffer c) (read_ctx c) (write_ctx c) (provider c)
    (tree c).
Definition set_skip_read_hmac (c : codec_ctx) (v : Z) : codec_ctx :=
  Mk_codec (store_pass c) (kdf_iter c) (fast_kdf_iter c) (kdf_salt_sz c) (key_sz c) (iv_sz
    c) (block_sz c) (page_sz c) (keyspec_sz c) (reserve_sz c) (hmac_sz c)
    (plaintext_header_sz c) (hmac_algorithm c) (kdf_algorithm c) v (need_kdf_salt c) (flags
    c) (kdf_salt c) (hmac_kdf_salt c) (buffer c) (read_ctx c) (write_ctx c) (provider c)
    (tree c).
Definition set_need_kdf_salt (c : codec_ctx) (v : Z) : codec_ctx :=
  Mk_codec (store_pass c) (kdf_iter c) (fast_kdf_iter c) (kdf_salt_sz c) (key_sz c) (iv_sz
    c) (block_sz c) (page_sz c) (keyspec_sz c) (reserve_sz c) (hmac_sz c)
    (plaintext_header_sz c) (hmac_algorithm c) (kdf_algorithm c) (skip_read_hmac c) v (flags
    c) (kdf_salt c) (hmac_kdf_salt c) (buffer c) (read_ctx c) (write_ctx c) (provider c)
    (tree c).
Definition set_flags (c : codec_ctx) (v : Z) : codec_ctx :=
  Mk_codec (store_pass c) (kdf_iter c) (fast_kdf_iter c) (kdf_salt_sz c) (key_sz c) (iv_sz
    c) (block_sz c) (page_sz c) (keyspec_sz c) (reserve_sz c) (hmac_sz c)
    (plaintext_header_sz c) (hmac_algorithm c) (kdf_algorithm c) (skip_read_hmac c)
    (need_kdf_salt c) v (kdf_salt c) (hmac_kdf_salt c) (buffer c) (read_ctx c) (write_ctx c)
    (provider c) (tree c).
Definition set_kdf_salt (c : codec_ctx) (v : list Z) : codec_ctx :=
  Mk_codec (store_pass c) (kdf_iter c) (fast_kdf_iter c) (kdf_salt_sz c) (key_sz c) (iv_sz
    c) (block_sz c) (page_sz c) (keyspec_sz c) (reserve_sz c) (hmac_sz c)
    (plaintext_header_sz c) (hmac_algorithm c) (kdf_algorithm c) (skip_read_hmac c)
    (need_kdf_salt c) (flags c) v (hmac_kdf_salt c) (buffer c) (read_ctx c) (write_ctx c)
    (provider c) (tree c).
Definition set_hmac_kdf_salt (c : codec_ctx) (v : list Z) : codec_ctx :=
  Mk_codec (store_pass c) (kdf_iter c) (fast_kdf_iter c) (kdf_salt_sz c) (key_sz c) (iv_sz
    c) (block_sz c) (page_sz c) (keyspec_sz c) (reserve_sz c) (hmac_sz c)
    (plaintext_header_sz c) (hmac_algorithm c) (kdf_algorithm c) (skip_read_hmac c)
    (need_kdf_salt c) (flags c) (kdf_salt c) v (buffer c) (read_ctx c) (write_ctx c)
    (provider c) (tree c).
Definition set_buffer (c : codec_ctx) (v : option (list Z)) : codec_ctx :=
  Mk_codec (store_pass c) (kdf_iter c) (fast_kdf_iter c) (kdf_salt_sz c) (key_sz c) (iv_sz
    c) (block_sz c) (page_sz c) (keyspec_sz c) (reserve_sz c) (hmac_sz c)
    (plaintext_header_sz c) (hmac_algorithm c) (kdf_algorithm c) (skip_read_hmac c)
    (need_kdf_salt c) (flags c) (kdf_salt c) (hmac_kdf_salt c) v (read_ctx c) (write_ctx c)
    (provider c) (tree c).
Definition set_read_ctx (c : codec_ctx) (v : option cipher_ctx) : codec_ctx :=
  Mk_codec (store_pass c) (kdf_iter c) (fast_kdf_iter c) (kdf_salt_sz c) (key_sz c) (iv_sz
    c) (block_sz c) (page_sz c) (keyspec_sz c) (reserve_sz c) (hmac_sz c)
    (plaintext_header_sz c) (hmac_algorithm c) (kdf_algorithm c) (skip_read_hmac c)
    (need_kdf_salt c) (flags c) (kdf_salt c) (hmac_kdf_salt c) (buffer c) v (write_ctx c)
    (provider c) (tree c).
Definition set_write_ctx (c : codec_ctx) (v : option cipher_ctx) : codec_ctx :=
  Mk_codec (store_pass c) (kdf_iter c) (fast_kdf_iter c) (kdf_salt_sz c) (key_sz c) (iv_sz
    c) (block_sz c) (page_sz c) (keyspec_sz c) (reserve_sz c) (hmac_sz c)
    (plaintext_header_sz c) (hmac_algorithm c) (kdf_algorithm c) (skip_read_hmac c)
    (need_kdf_salt c) (flags c) (kdf_salt c) (hmac_kdf_salt c) (buffer c) (read_ctx c) v
    (provider c) (tree c).
Definition set_tree (c : codec_ctx) (v : option mt_obj) : codec_ctx :=
  Mk_codec (store_pass c) (kdf_iter c) (fast_kdf_iter c) (kdf_salt_sz c) (key_sz c) (iv_sz
    c) (block_sz c) (page_sz c) (keyspec_sz c) (reserve_sz c) (hmac_sz c)
    (plaintext_header_sz c) (hmac_algorithm c) (kdf_algorithm c) (skip_read_hmac c)
    (need_kdf_salt c) (flags c) (kdf_salt c) (hmac_kdf_salt c) (buffer c) (read_ctx c)
    (write_ctx c) (provider c) v.

(** ** Process-wide settings *)

Record globals := Mk_globals {
  default_flags : Z;
  hmac_salt_mask : Z;
  default_kdf_iter : Z;
  default_page_size : Z;
  default_plaintext_header_sz : Z;
  default_hmac_algorithm : Z;
  default_kdf_algorithm : Z;
  mem_security_on : Z;
  mem_security_initialized : Z;
  mem_security_activated : Z;
  sqlcipher_activate_count : Z;
  default_provider : option sqlcipher_provider;
  ossl : openssl_globals;
}.

Definition put_default_flags (g : globals) (v : Z) : globals :=
  Mk_globals v (hmac_salt_mask g) (default_kdf_iter g) (default_page_size g)
    (default_plaintext_header_sz g) (default_hmac_algorithm g) (default_kdf_algorithm g)
    (mem_security_on g) (mem_security_initialized g) (mem_security_activated g)
    (sqlcipher_activate_count g) (default_provider g) (ossl g).
Definition put_hmac_salt_mask (g : globals) (v : Z) : globals :=
  Mk_globals (default_flags g) v (default_kdf_iter g) (default_page_size g)
    (default_plaintext_header_sz g) (default_hmac_algorithm g) (default_kdf_algorithm g)
    (mem_security_on g) (mem_security_initialized g) (mem_security_activated g)
    (sqlcipher_activate_count g) (default_provider g) (ossl g).
Definition put_default_kdf_iter (g : globals) (v : Z) : globals :=
  Mk_globals (default_flags g) (hmac_salt_mask g) v (default_page_size g)
    (default_plaintext_header_sz g) (default_hmac_algorithm g) (default_kdf_algorithm g)
    (mem_security_on g) (mem_security_initialized g) (mem_security_activated g)
    (sqlcipher_activate_count g) (default_provider g) (ossl g).
Definition put_default_page_size (g : globals) (v : Z) : globals :=
  Mk_globals (default_flags g) (hmac_salt_mask g) (default_kdf_iter g) v
    (default_plaintext_header_sz g) (default_hmac_algorithm g) (default_kdf_algorithm g)
    (mem_security_on g) (mem_security_initialized g) (mem_security_activated g)
    (sqlcipher_activate_count g) (default_provider g) (ossl g).
Definition put_default_plaintext_header_sz (g : globals) (v : Z) : globals :=
  Mk_globals (default_flags g) (hmac_salt_mask g) (default_kdf_iter g) (default_page_size g)
    v (default_hmac_algorithm g) (default_kdf_algorithm g) (mem_security_on g)
    (mem_security_initialized g) (mem_security_activated g) (sqlcipher_activate_count g)
    (default_provider g) (ossl g).
Definition put_default_hmac_algorithm (g : globals) (v : Z) : globals :=
  Mk_globals (default_flags g) (hmac_salt_mask g) (default_kdf_iter g) (default_page_size g)
    (default_plaintext_header_sz g) v (default_kdf_algorithm g) (mem_security_on g)
    (mem_security_initialized g) (mem_security_activated g) (sqlcipher_activate_count g)
    (default_provider g) (ossl g).
Definition put_default_kdf_algorithm (g : globals) (v : Z) : globals :=
  Mk_globals (default_flags g) (hmac_salt_mask g) (default_kdf_iter g) (default_page_size g)
    (default_plaintext_header_sz g) (default_hmac_algorithm g) v (mem_security_on g)
    (mem_security_initialized g) (mem_security_activated g) (sqlcipher_activate_count g)
    (default_provider g) (ossl g).
Definition put_mem_security_on (g : globals) (v : Z) : globals :=
  Mk_globals (default_flags g) (hmac_salt_mask g) (default_kdf_iter g) (default_page_size g)
    (default_plaintext_header_sz g) (default_hmac_algorithm g) (default_kdf_algorithm g) v
    (mem_security_initialized g) (mem_security_activated g) (sqlcipher_activate_count g)
    (default_provider g) (ossl g).
Definition put_mem_security_initialized (g : globals) (v : Z) : globals :=
  Mk_globals (default_flags g) (hmac_salt_mask g) (default_kdf_iter g) (default_page_size g)
    (default_plaintext_header_sz g) (default_hmac_algorithm g) (default_kdf_algorithm g)
    (mem_security_on g) v (mem_security_activated g)
    (sqlcipher_activate_count g) (default_provider g) (ossl g).
Definition put_mem_security_activated (g : globals) (v : Z) : globals :=
  Mk_globals (default_flags g) (hmac_salt_mask g) (default_kdf_iter g) (default_page_size g)
    (default_plaintext_header_sz g) (default_hmac_algorithm g) (default_kdf_algorithm g)
    (mem_security_on g) (mem_security_initialized g) v (sqlcipher_activate_count g)
    (default_provider g) (ossl g).
Definition put_sqlcipher_activate_count (g : globals) (v : Z) : globals :=
  Mk_globals (default_flags g) (hmac_salt_mask g) (default_kdf_iter g) (default_page_size g)
    (default_plaintext_header_sz g) (default_hmac_algorithm g) (default_kdf_algorithm g)
    (mem_security_on g) (mem_security_initialized g) (mem_security_activated g) v
    (default_provider g) (ossl g).
Definition put_default_provider (g : globals) (v : option sqlcipher_provider) : globals :=
  Mk_globals (default_flags g) (hmac_salt_mask g) (default_kdf_iter g) (default_page_size g)
    (default_plaintext_header_sz g) (default_hmac_algorithm g) (default_kdf_algorithm g)
    (mem_security_on g) (mem_security_initialized g) (mem_security_activated g)
    (sqlcipher_activate_count g) v (ossl g).
Definition put_ossl (g : globals) (v : openssl_globals) : globals :=
  Mk_globals (default_flags g) (hmac_salt_mask g) (default_kdf_iter g) (default_page_size g)
    (default_plaintext_header_sz g) (default_hmac_algorithm g) (default_kdf_algorithm g)
    (mem_security_on g) (mem_security_initialized g) (mem_security_activated g)
    (sqlcipher_activate_count g) (default_provider g) v.

(** The initial values of the static variables. *)
Definition init_globals : globals :=
  Mk_globals DEFAULT_CIPHER_FLAGS HMAC_SALT_MASK PBKDF2_ITER 4096 0 SQLCIPHER_HMAC_SHA512
    SQLCIPHER_PBKDF2_HMAC_SHA512 1 0 0 0 None (Mk_ossl 0 0).

Definition sqlcipher_set_default_kdf_iter (g : globals) (iter : Z) : globals :=
  put_default_kdf_iter g iter.
Definition sqlcipher_get_default_kdf_iter (g : globals) : Z := default_kdf_iter g.

Definition sqlcipher_set_default_use_hmac (g : globals) (use : Z) : globals :=
  if negb (use =? 0)
  then put_default_flags g (Z.lor (default_flags g) CIPHER_FLAG_HMAC)
  else put_default_flags g (Z.land (default_flags g) (u32 (Z.lnot CIPHER_FLAG_HMAC))).
Definition sqlcipher_get_default_use_hmac (g : globals) : Z :=
  if Z.land (default_flags g) CIPHER_FLAG_HMAC =? 0 then 0 else 1.

Definition sqlcipher_set_hmac_salt_mask (g : globals) (mask : Z) : globals :=
  put_hmac_salt_mask g mask.
Definition sqlcipher_get_hmac_salt_mask (g : globals) : Z := hmac_salt_mask g.

Definition sqlcipher_set_default_plaintext_header_size (g : globals) (size : Z) : Z * globals :=
  (SQLITE_OK, put_default_plaintext_header_sz g size).
Definition sqlcipher_get_default_plaintext_header_size (g : globals) : Z :=
  default_plaintext_header_sz g.

Definition sqlcipher_set_default_hmac_algorithm (g : globals) (algorithm : Z) : Z * globals :=
  (SQLITE_OK, put_default_hmac_algorithm g algorithm).
Definition sqlcipher_get_default_hmac_algorithm (g : globals) : Z := default_hmac_algorithm g.

Definition sqlcipher_set_default_kdf_algorithm (g : globals) (algorithm : Z) : Z * globals :=
  (SQLITE_OK, put_default_kdf_algorithm g algorithm).
Definition sqlcipher_get_default_kdf_algorithm (g : globals) : Z := default_kdf_algorithm g.

Definition sqlcipher_set_default_pagesize (g : globals) (page_size : Z) : globals :=
  put_default_page_size g page_size.
Definition sqlcipher_get_default_pagesize (g : globals) : Z := default_page_size g.

Definition sqlcipher_set_mem_security (g : globals) (on : Z) : globals :=
  put_mem_security_activated (put_mem_security_on g on) 0.
Definition sqlcipher_get_mem_security (g : globals) : Z :=
  if (mem_security_on g =? 0) || (mem_security_activated g =? 0) then 0 else 1.

(** ** Provider registration *)

Definition sqlcipher_register_provider (g : globals) (p : sqlcipher_provider) : Z * globals :=
  (SQLITE_OK, put_default_provider g (Some p)).

Definition sqlcipher_get_provider (g : globals) : option sqlcipher_provider := default_provider g.

(** The provider table is allocated unchecked and then written. *)
Definition sqlcipher_activate (g : globals) : M globals :=
  g ← match sqlcipher_get_provider g with
      | None =>
          ok ← request;
          if (ok : bool) then mret (sqlcipher_register_provider g sqlcipher_openssl_setup).2
          else throw NullDeref
      | Some _ => mret g
      end;
  mret (put_sqlcipher_activate_count g (u32 (sqlcipher_activate_count g + 1))).

(** The counter is unsigned: deactivating too often wraps around to a large
    count instead of being caught by [< 1]. *)
Definition sqlcipher_deactivate (g : globals) : globals :=
  let g := put_sqlcipher_activate_count g (u32 (sqlcipher_activate_count g - 1)) in
  if sqlcipher_activate_count g <? 1
  then put_sqlcipher_activate_count (put_default_provider g None) 0
  else g.

(** ** The database around the context

    [fd] is the contents of the database file, [None] for a database without a
    file. *)
Record db_env := Mk_env {
  fd : option (list Z);
  pager_errCode : Z;
  pager_error : bool;         (** [eState == PAGER_ERROR] *)
  db_errCode : Z;
}.

Definition sqlcipher_codec_ctx_set_error (e : db_env) (error : Z) : db_env :=
  Mk_env (fd e) error true error.

Definition SQLITE_IOERR_SHORT_READ : Z := 522.
Definition SQLITE_MAX_PAGE_SIZE : Z := 65536.

(** [sqlite3OsRead]: a short read is padded with zeros. *)
Definition sqlite3OsRead (file : list Z) (amt off : Z) : Z * list Z :=
  let got := take (Z.to_nat amt) (drop (Z.to_nat off) file) in
  if Z.of_nat (length got) =? amt then (SQLITE_OK, got)
  else (SQLITE_IOERR_SHORT_READ, got ++ replicate (Z.to_nat amt - length got) 0).

(** ** Settings of one context *)

Definition sqlcipher_codec_ctx_get_use_hmac (ctx : codec_ctx) : bool :=
  negb (Z.land (flags ctx) CIPHER_FLAG_HMAC =? 0).

Definition sqlcipher_codec_ctx_set_flag (ctx : codec_ctx) (flag : Z) : Z * codec_ctx :=
  (SQLITE_OK, set_flags ctx (Z.lor (flags ctx) flag)).
Definition sqlcipher_codec_ctx_unset_flag (ctx : codec_ctx) (flag : Z) : Z * codec_ctx :=
  (SQLITE_OK, set_flags ctx (Z.land (flags ctx) (u32 (Z.lnot flag)))).
Definition sqlcipher_codec_ctx_get_flag (ctx : codec_ctx) (flag : Z) : bool :=
  negb (Z.land (flags ctx) flag =? 0).

(** IV and HMAC rounded up to the cipher's block size, and room for the offset
    into the Merkle tree.  C's [%] and [/] truncate. *)
Definition sqlcipher_codec_ctx_reserve_setup (ctx : codec_ctx) : Z * codec_ctx :=
  let base_reserve := iv_sz ctx in
  let ctx := set_hmac_sz ctx (p_get_hmac_sz (provider ctx) (hmac_algorithm ctx)) in
  let reserve := if sqlcipher_codec_ctx_get_use_hmac ctx
                 then base_reserve + hmac_sz ctx else base_reserve in
  let reserve := if Z.rem reserve (block_sz ctx) =? 0 then reserve
                 else (Z.quot reserve (block_sz ctx) + 1) * block_sz ctx in
  let reserve := reserve + 4 * sizeof_Pgno in
  (SQLITE_OK, set_reserve_sz ctx reserve).

Definition sqlcipher_codec_ctx_set_use_hmac (ctx : codec_ctx) (use : Z) : Z * codec_ctx :=
  let '(_, ctx) := if negb (use =? 0)
                   then sqlcipher_codec_ctx_set_flag ctx CIPHER_FLAG_HMAC
                   else sqlcipher_codec_ctx_unset_flag ctx CIPHER_FLAG_HMAC in
  sqlcipher_codec_ctx_reserve_setup ctx.

Definition sqlcipher_codec_ctx_set_hmac_algorithm (ctx : codec_ctx) (algorithm : Z)
  : Z * codec_ctx :=
  sqlcipher_codec_ctx_reserve_setup (set_hmac_algorithm ctx algorithm).
Definition sqlcipher_codec_ctx_get_hmac_algorithm (ctx : codec_ctx) : Z := hmac_algorithm ctx.

Definition sqlcipher_codec_ctx_set_kdf_algorithm (ctx : codec_ctx) (algorithm : Z)
  : Z * codec_ctx := (SQLITE_OK, set_kdf_algorithm ctx algorithm).
Definition sqlcipher_codec_ctx_get_kdf_algorithm (ctx : codec_ctx) : Z := kdf_algorithm ctx.

Definition sqlcipher_codec_ctx_set_plaintext_header_size (ctx : codec_ctx) (size : Z)
  : Z * codec_ctx :=
  if (0 <=? size) && (Z.rem size (block_sz ctx) =? 0) && (size <? page_sz ctx - reserve_sz ctx)
  then (SQLITE_OK, set_plaintext_header_sz ctx size)
  else (SQLITE_ERROR, ctx).
Definition sqlcipher_codec_ctx_get_plaintext_header_size (ctx : codec_ctx) : Z :=
  plaintext_header_sz ctx.

(** The argument [derive] is ignored. *)
Definition sqlcipher_set_derive_key (ctx : codec_ctx) (derive : Z) : codec_ctx :=
  let ctx := set_read_ctx ctx ((fun c => set_derive_key c 1) <$> read_ctx ctx) in
  set_write_ctx ctx ((fun c => set_derive_key c 1) <$> write_ctx ctx).

Definition sqlcipher_codec_ctx_set_kdf_iter (ctx : codec_ctx) (iter : Z) : Z * codec_ctx :=
  (SQLITE_OK, sqlcipher_set_derive_key (set_kdf_iter ctx iter) 1).
Definition sqlcipher_codec_ctx_get_kdf_iter (ctx : codec_ctx) : Z := kdf_iter ctx.

Definition sqlcipher_codec_ctx_set_fast_kdf_iter (ctx : codec_ctx) (iter : Z) : Z * codec_ctx :=
  (SQLITE_OK, sqlcipher_set_derive_key (set_fast_kdf_iter ctx iter) 1).
Definition sqlcipher_codec_ctx_get_fast_kdf_iter (ctx : codec_ctx) : Z := fast_kdf_iter ctx.

Definition sqlcipher_codec_get_store_pass (ctx : codec_ctx) : Z := store_pass ctx.
Definition sqlcipher_codec_set_store_pass (ctx : codec_ctx) (value : Z) : codec_ctx :=
  set_store_pass ctx value.

Definition sqlcipher_codec_get_pass (ctx : codec_ctx) : M (option (list Z) * Z) :=
  c ← deref (read_ctx ctx); mret (pass c, pass_sz c).
Definition sqlcipher_codec_get_keyspec (ctx : codec_ctx) : M (option (list Z) * Z) :=
  c ← deref (read_ctx ctx); mret (keyspec c, keyspec_sz ctx).

Definition sqlcipher_codec_ctx_get_reservesize (ctx : codec_ctx) : Z := reserve_sz ctx.
Definition sqlcipher_codec_ctx_get_pagesize (ctx : codec_ctx) : Z := page_sz ctx.
Definition sqlcipher_codec_ctx_get_data (ctx : codec_ctx) : option (list Z) := buffer ctx.

(** A power of two between 512 and 65536; the page buffer is reallocated. *)
Definition sqlcipher_codec_ctx_set_pagesize (ctx : codec_ctx) (size : Z) : M (Z * codec_ctx) :=
  if negb (negb (size =? 0) && (Z.land size (size - 1) =? 0)) || (size <? 512) || (65536 <? size)
  then mret (SQLITE_ERROR, ctx)
  else
    b ← sqlcipher_malloc size;
    mret (match b with None => SQLITE_NOMEM | Some _ => SQLITE_OK end,
          set_buffer (set_page_sz ctx size) b).

(** ** Salts *)

Definition sqlcipher_codec_ctx_init_kdf_salt (ctx : codec_ctx) (e : db_env) (r : rng)
  : Z * codec_ctx * rng :=
  if need_kdf_salt ctx =? 0 then (SQLITE_OK, ctx, r) else
  let '(rc, salt) := match fd e with
                     | None => (SQLITE_ERROR, kdf_salt ctx)
                     | Some f => sqlite3OsRead f (kdf_salt_sz ctx) 0
                     end in
  let ctx := set_kdf_salt ctx salt in
  if rc =? SQLITE_OK then (SQLITE_OK, set_need_kdf_salt ctx 0, r)
  else
    let '(rc, bs, r) := p_random (provider ctx) r (kdf_salt_sz ctx) in
    if rc =? SQLITE_OK
    then (SQLITE_OK, set_need_kdf_salt (set_kdf_salt ctx (default salt bs)) 0, r)
    else (SQLITE_ERROR, ctx, r).

Definition sqlcipher_codec_ctx_set_kdf_salt (ctx : codec_ctx) (salt : list Z) (size : Z)
  : M (Z * codec_ctx) :=
  if kdf_salt_sz ctx <=? size then
    s ← buf_read 0 (kdf_salt_sz ctx) salt;
    mret (SQLITE_OK, set_need_kdf_salt (set_kdf_salt ctx s) 0)
  else mret (SQLITE_ERROR, ctx).

Definition sqlcipher_codec_ctx_get_kdf_salt (ctx : codec_ctx) (e : db_env) (r : rng)
  : Z * codec_ctx * rng * list Z :=
  let '(rc, ctx, r) :=
    if need_kdf_salt ctx =? 0 then (SQLITE_OK, ctx, r)
    else sqlcipher_codec_ctx_init_kdf_salt ctx e r in
  (rc, ctx, r, kdf_salt ctx).

(** ** Key material *)

Definition sqlcipher_cipher_ctx_init (ctx : codec_ctx) : M (Z * option cipher_ctx) :=
  ok ← request;
  if (ok : bool) then
    k ← sqlcipher_malloc (key_sz ctx);
    h ← sqlcipher_malloc (key_sz ctx);
    let c := Mk_cipher 0 0 (default [] k) (default [] h) None None in
    match k, h with
    | Some _, Some _ => mret (SQLITE_OK, Some c)
    | _, _ => mret (SQLITE_NOMEM, Some c)
    end
  else mret (SQLITE_NOMEM, None).

(** Returns 0 when the passphrases are the same. *)
Definition sqlcipher_cipher_ctx_cmp (c1 c2 : cipher_ctx) : M Z :=
  if pass_sz c1 =? pass_sz c2 then
    match pass c1, pass c2 with
    | None, None => mret 0
    | Some p1, Some p2 =>
        a ← buf_read 0 (pass_sz c1) p1;
        b ← buf_read 0 (pass_sz c1) p2;
        mret (if sqlcipher_memcmp a b (pass_sz c1) =? 0 then 0 else 1)
    | _, _ => if 0 <? pass_sz c1 then throw NullDeref else mret 0
    end
  else mret 1.

Definition sqlcipher_cipher_ctx_copy (ctx : codec_ctx) (target source : cipher_ctx)
  : M (Z * cipher_ctx) :=
  k ← buf_read 0 (key_sz ctx) (key source);
  k ← buf_write 0 k (key target);
  h ← buf_read 0 (key_sz ctx) (hmac_key source);
  h ← buf_write 0 h (hmac_key target);
  let target := Mk_cipher (derive_key source) (pass_sz source) k h (pass source) (keyspec source) in
  r ← match pass source with
      | Some p =>
          if pass_sz source =? 0 then mret (SQLITE_OK, target) else
          m ← sqlcipher_malloc (pass_sz source);
          match m with
          | None => mret (SQLITE_NOMEM, Mk_cipher (derive_key source) (pass_sz source) k h
                                          None (keyspec source))
          | Some m =>
              bs ← buf_read 0 (pass_sz source) p;
              m ← buf_write 0 bs m;
              mret (SQLITE_OK, Mk_cipher (derive_key source) (pass_sz source) k h
                                 (Some m) (keyspec source))
          end
      | None => mret (SQLITE_OK, target)
      end;
  if negb (r.1 =? SQLITE_OK) then mret r else
  match keyspec source with
  | None => mret r
  | Some s =>
      m ← sqlcipher_malloc (keyspec_sz ctx);
      match m with
      | None => mret (SQLITE_NOMEM, set_keyspec r.2 None)
      | Some m =>
          bs ← buf_read 0 (keyspec_sz ctx) s;
          m ← buf_write 0 bs m;
          mret (SQLITE_OK, set_keyspec r.2 (Some m))
      end
  end.

(** [x'<hex key><hex salt>'] *)
Definition sqlcipher_cipher_ctx_set_keyspec (ctx : codec_ctx) (c_ctx : cipher_ctx) (k : list Z)
  : M (Z * cipher_ctx) :=
  m ← sqlcipher_malloc (keyspec_sz ctx);
  match m with
  | None => mret (SQLITE_NOMEM, set_keyspec c_ctx None)
  | Some m =>
      m ← buf_write 0 [120] m;
      m ← buf_write 1 [39] m;
      kb ← buf_read 0 (key_sz ctx) k;
      m ← cipher_bin2hex kb m 2;
      sb ← buf_read 0 (kdf_salt_sz ctx) (kdf_salt ctx);
      m ← cipher_bin2hex sb m (key_sz ctx * 2 + 2);
      m ← buf_write (keyspec_sz ctx - 1) [39] m;
      mret (SQLITE_OK, set_keyspec c_ctx (Some m))
  end.

Definition sqlcipher_cipher_ctx_set_pass (c : cipher_ctx) (zKey : option (list Z)) (nKey : Z)
  : M (Z * cipher_ctx) :=
  let c := Mk_cipher (derive_key c) 0 (key c) (hmac_key c) None (keyspec c) in
  match zKey with
  | Some z =>
      if nKey =? 0 then mret (SQLITE_OK, c) else
      let c := Mk_cipher (derive_key c) nKey (key c) (hmac_key c) None (keyspec c) in
      m ← sqlcipher_malloc nKey;
      match m with
      | None => mret (SQLITE_NOMEM, c)
      | Some m =>
          bs ← buf_read 0 nKey z;
          m ← buf_write 0 bs m;
          mret (SQLITE_OK, Mk_cipher (derive_key c) nKey (key c) (hmac_key c) (Some m) (keyspec c))
      end
  | None => mret (SQLITE_OK, c)
  end.

(** [for_ctx ? ctx->write_ctx : ctx->read_ctx], and its assignment. *)
Definition get_ctx (ctx : codec_ctx) (for_ctx : Z) : option cipher_ctx :=
  if for_ctx =? 0 then read_ctx ctx else write_ctx ctx.
Definition put_ctx (ctx : codec_ctx) (for_ctx : Z) (c : cipher_ctx) : codec_ctx :=
  if for_ctx =? 0 then set_read_ctx ctx (Some c) else set_write_ctx ctx (Some c).

Definition sqlcipher_codec_ctx_set_pass (ctx : codec_ctx) (zKey : option (list Z)) (nKey for_ctx : Z)
  : M (Z * codec_ctx) :=
  c ← deref (get_ctx ctx for_ctx);
  r ← sqlcipher_cipher_ctx_set_pass c zKey nKey;
  if negb (r.1 =? SQLITE_OK) then mret (r.1, put_ctx ctx for_ctx r.2) else
  let c := set_derive_key r.2 1 in
  let ctx := put_ctx ctx for_ctx c in
  if for_ctx =? 2 then
    other ← deref (read_ctx ctx);
    r ← sqlcipher_cipher_ctx_copy ctx other c;
    mret (r.1, set_read_ctx ctx (Some r.2))
  else mret (SQLITE_OK, ctx).

(** A passphrase written as [x'...'] with exactly [n] hex digits. *)
Definition is_raw_key (c_ctx : cipher_ctx) (p : list Z) (n : Z) : bool :=
  (pass_sz c_ctx =? n + 3) && (sqlite3_strnicmp p [120; 39] 2 =? 0)
  && cipher_isHex (take (Z.to_nat n) (drop 2 p)).

(** The encryption key: written out in the passphrase, alone or followed by the
    salt, or derived from passphrase and salt. *)
Definition decode_or_derive (ctx : codec_ctx) (c_ctx : cipher_ctx) (p : list Z)
  : Z * codec_ctx * cipher_ctx :=
  let ks := key_sz ctx in
  let ss := kdf_salt_sz ctx in
  if is_raw_key c_ctx p (ks * 2) then
    (SQLITE_OK, ctx,
     set_key c_ctx (cipher_hex2bin (take (Z.to_nat (pass_sz c_ctx - 3)) (drop 2 p))))
  else if is_raw_key c_ctx p ((ks + ss) * 2) then
    let z := drop 2 p in
    (SQLITE_OK,
     set_kdf_salt ctx (cipher_hex2bin (take (Z.to_nat (ss * 2)) (drop (Z.to_nat (ks * 2)) z))),
     set_key c_ctx (cipher_hex2bin (take (Z.to_nat (ks * 2)) z)))
  else
    let '(rc, k) := p_kdf (provider ctx) (kdf_algorithm ctx)
                      (take (Z.to_nat (pass_sz c_ctx)) p) (kdf_salt ctx) (kdf_iter ctx) ks in
    (rc, ctx, set_key c_ctx (default (key c_ctx) k)).

Definition sqlcipher_cipher_ctx_key_derive (g : globals) (ctx : codec_ctx) (c_ctx : cipher_ctx)
    (e : db_env) (r : rng) : M (Z * codec_ctx * cipher_ctx * rng) :=
  match pass c_ctx with
  | Some p =>
      if pass_sz c_ctx =? 0 then mret (SQLITE_ERROR, ctx, c_ctx, r) else
      let '(rc, ctx, r) := if need_kdf_salt ctx =? 0 then (SQLITE_OK, ctx, r)
                           else sqlcipher_codec_ctx_init_kdf_salt ctx e r in
      if negb (rc =? SQLITE_OK) then mret (rc, ctx, c_ctx, r) else
      let '(rc, ctx, c_ctx) := decode_or_derive ctx c_ctx p in
      if negb (rc =? SQLITE_OK) then mret (SQLITE_ERROR, ctx, c_ctx, r) else
      s ← sqlcipher_cipher_ctx_set_keyspec ctx c_ctx (key c_ctx);
      let c_ctx := s.2 in
      if negb (s.1 =? SQLITE_OK) then mret (s.1, ctx, c_ctx, r) else
      let '(rc, ctx, c_ctx) :=
        if Z.land (flags ctx) CIPHER_FLAG_HMAC =? 0 then (SQLITE_OK, ctx, c_ctx) else
        let ctx := set_hmac_kdf_salt ctx
                     ((fun b => Z.lxor b (hmac_salt_mask g)) <$> kdf_salt ctx) in
        let '(rc, h) := p_kdf (provider ctx) (kdf_algorithm ctx) (key c_ctx)
                          (hmac_kdf_salt ctx) (fast_kdf_iter ctx) (key_sz ctx) in
        (rc, ctx, set_hmac_key c_ctx (default (hmac_key c_ctx) h)) in
      if negb (rc =? SQLITE_OK) then mret (SQLITE_ERROR, ctx, c_ctx, r)
      else mret (SQLITE_OK, ctx, set_derive_key c_ctx 0, r)
  | None => mret (SQLITE_ERROR, ctx, c_ctx, r)
  end.

(** Keys are derived on first use; the passphrases are dropped afterwards unless
    [store_pass] is 1. *)
Definition sqlcipher_codec_key_derive (g : globals) (ctx : codec_ctx) (e : db_env) (r : rng)
  : M (Z * codec_ctx * rng) :=
  rd ← deref (read_ctx ctx);
  s ← (if derive_key rd =? 0 then mret (SQLITE_OK, ctx, r) else
       t ← sqlcipher_cipher_ctx_key_derive g ctx rd e r;
       let '(rc, ctx, rd, r) := t in
       mret (rc, set_read_ctx ctx (Some rd), r));
  let '(rc, ctx, r) := s in
  if negb (rc =? SQLITE_OK) then mret (SQLITE_ERROR, ctx, r) else
  wr ← deref (write_ctx ctx);
  s ← (if derive_key wr =? 0 then mret (SQLITE_OK, ctx, r) else
       rd ← deref (read_ctx ctx);
       differ ← sqlcipher_cipher_ctx_cmp wr rd;
       if differ =? 0 then
         t ← sqlcipher_cipher_ctx_copy ctx wr rd;
         mret (t.1, set_write_ctx ctx (Some t.2), r)
       else
         t ← sqlcipher_cipher_ctx_key_derive g ctx wr e r;
         let '(rc, ctx, wr, r) := t in
         mret (rc, set_write_ctx ctx (Some wr), r));
  let '(rc, ctx, r) := s in
  if negb (rc =? SQLITE_OK) then mret (SQLITE_ERROR, ctx, r) else
  if store_pass ctx =? 1 then mret (SQLITE_OK, ctx, r) else
  rd ← deref (read_ctx ctx);
  rd ← sqlcipher_cipher_ctx_set_pass rd None 0;
  wr ← deref (write_ctx ctx);
  wr ← sqlcipher_cipher_ctx_set_pass wr None 0;
  mret (SQLITE_OK, set_write_ctx (set_read_ctx ctx (Some rd.2)) (Some wr.2), r).

Definition sqlcipher_codec_key_copy (ctx : codec_ctx) (source : Z) : M (Z * codec_ctx) :=
  rd ← deref (read_ctx ctx);
  wr ← deref (write_ctx ctx);
  if source =? CIPHER_READ_CTX then
    t ← sqlcipher_cipher_ctx_copy ctx wr rd; mret (t.1, set_write_ctx ctx (Some t.2))
  else
    t ← sqlcipher_cipher_ctx_copy ctx rd wr; mret (t.1, set_read_ctx ctx (Some t.2)).

Definition sqlcipher_codec_add_random (ctx : codec_ctx) (r : rng) (zRight : list Z) (random_sz : Z)
  : M (Z * rng) :=
  let suffix := drop (Z.to_nat (random_sz - 1)) zRight in
  let n := random_sz - 3 in
  if (0 <? n) && (sqlite3_strnicmp zRight [120; 39] 2 =? 0)
     && (sqlite3_strnicmp suffix [39] 1 =? 0) && (Z.rem n 2 =? 0) then
    m ← sqlcipher_malloc (Z.quot n 2);
    match m with
    | None => throw NullDeref
    | Some _ =>
        z ← buf_read 2 n zRight;
        mret (p_add_random (provider ctx) r (cipher_hex2bin z))
    end
  else mret (SQLITE_ERROR, r).

(** The key handed to [ATTACH] and [VACUUM]; [None] when no codec is attached. *)
Definition sqlite3CodecGetKey (ctx : option codec_ctx) : M (option (list Z) * Z) :=
  match ctx with
  | None => mret (None, 0)
  | Some ctx =>
      k ← sqlcipher_codec_get_keyspec ctx;
      match k.1 with
      | None => sqlcipher_codec_get_pass ctx
      | Some _ =>
          if sqlcipher_codec_get_store_pass ctx =? 1
          then sqlcipher_codec_get_pass ctx else mret k
      end
  end.

(** ** Creating and freeing a context *)

(** A zeroed [codec_ctx] after its two salts and the copy of the default
    provider have been allocated. *)
Definition fresh_ctx (g : globals) (p : sqlcipher_provider) (salt hsalt : list Z) : codec_ctx :=
  Mk_codec 0 0 0 FILE_HEADER_SZ (p_get_key_sz p) (p_get_iv_sz p) (p_get_block_sz p) 0
    ((p_get_key_sz p + FILE_HEADER_SZ) * 2 + 3) 0 0 0 0 0 0 1 (default_flags g)
    salt hsalt None None None p None.

(** The second half of [sqlcipher_codec_ctx_init]: both cipher contexts, the
    passphrase for reading and its copy for writing. *)
Definition init_key_material (ctx : codec_ctx) (zKey : option (list Z)) (nKey : Z)
  : M (Z * codec_ctx) :=
  s ← sqlcipher_cipher_ctx_init ctx;
  let ctx := set_read_ctx ctx s.2 in
  if negb (s.1 =? SQLITE_OK) then mret (s.1, ctx) else
  s ← sqlcipher_cipher_ctx_init ctx;
  let ctx := set_write_ctx ctx s.2 in
  if negb (s.1 =? SQLITE_OK) then mret (s.1, ctx) else
  s ← sqlcipher_codec_ctx_set_pass ctx zKey nKey 0;
  let '(rc, ctx) := s in
  if negb (rc =? SQLITE_OK) then mret (rc, ctx) else
  rd ← deref (read_ctx ctx);
  wr ← deref (write_ctx ctx);
  s ← sqlcipher_cipher_ctx_copy ctx wr rd;
  mret (s.1, set_write_ctx ctx (Some s.2)).

(** Early returns with an error leave the partly built context behind; the
    caller does not attach it.  A NULL [tree] is dereferenced at the end. *)
Definition sqlcipher_codec_ctx_init (g : globals) (zKey : option (list Z)) (nKey : Z)
    (t : option mt_obj) : M (Z * globals * option codec_ctx) :=
  ok ← request;
  if negb (ok : bool) then mret (SQLITE_NOMEM, g, None) else
  salt ← sqlcipher_malloc FILE_HEADER_SZ;
  hsalt ← (match salt with None => mret None | Some _ => sqlcipher_malloc FILE_HEADER_SZ end);
  match salt, hsalt with
  | Some salt, Some hsalt =>
      ok ← request;
      if negb (ok : bool) then mret (SQLITE_NOMEM, g, None) else
      p ← deref (default_provider g);
      pc ← p_ctx_init p (ossl g);
      let '(rc, og, _) := pc in
      let g := put_ossl g og in
      if negb (rc =? SQLITE_OK) then mret (rc, g, None) else
      let ctx := fresh_ctx g p salt hsalt in
      s ← sqlcipher_codec_ctx_set_pagesize ctx (default_page_size g);
      let '(rc, ctx) := s in
      if negb (rc =? SQLITE_OK) then mret (rc, g, Some ctx) else
      let '(_, ctx) := sqlcipher_codec_ctx_set_kdf_iter ctx (default_kdf_iter g) in
      let '(_, ctx) := sqlcipher_codec_ctx_set_fast_kdf_iter ctx FAST_PBKDF2_ITER in
      let '(_, ctx) := sqlcipher_codec_ctx_set_hmac_algorithm ctx (default_hmac_algorithm g) in
      let '(_, ctx) := sqlcipher_codec_ctx_set_use_hmac ctx
                         (Z.land (default_flags g) CIPHER_FLAG_HMAC) in
      let '(_, ctx) := sqlcipher_codec_ctx_set_kdf_algorithm ctx (default_kdf_algorithm g) in
      let '(rc, ctx) := sqlcipher_codec_ctx_set_plaintext_header_size ctx
                          (default_plaintext_header_sz g) in
      if negb (rc =? SQLITE_OK) then mret (rc, g, Some ctx) else
      s ← init_key_material ctx zKey nKey;
      let '(rc, ctx) := s in
      if negb (rc =? SQLITE_OK) then mret (rc, g, Some ctx) else
      o ← deref t;
      n ← mt_get_size (obj_mt o);
      mret (SQLITE_OK, g, Some (set_tree ctx (Some (Mk_obj (obj_mt o) n (obj_write o)))))
  | _, _ => mret (SQLITE_NOMEM, g, None)
  end.

Definition sqlcipher_codec_ctx_free (g : globals) (ctx : codec_ctx) : M globals :=
  _ ← deref (read_ctx ctx);
  _ ← deref (write_ctx ctx);
  mret (put_ossl g (p_ctx_free (provider ctx) (ossl g)).2).

Definition sqlite3FreeCodecArg (g : globals) (ctx : option codec_ctx) : M globals :=
  match ctx with
  | None => mret g
  | Some ctx => g ← sqlcipher_codec_ctx_free g ctx; mret (sqlcipher_deactivate g)
  end.

End codec.
