(* ===== verification/SecureMem.v ===== *)
(** * Memory that is wiped

    The other side of the allocations of [CodecCtx]: where SQLCipher's blocks
    are, what they hold when they are given back, and which pages are locked.
    Model of the memory methods SQLCipher installs below SQLite
    ([sqlcipher_mem_malloc] and the others), of [sqlcipher_malloc],
    [sqlcipher_free], [sqlcipher_mlock] and [sqlcipher_munlock], and of the
    order in which a codec context is taken apart
    ([sqlcipher_codec_ctx_free], [sqlcipher_cipher_ctx_free]), all in
    [storage/secure/sec_sqlite3.c].

    The allocator below (the default methods of SQLite over those of C) and
    [mlock] are behind [Libc]: where a block is placed and what it holds is
    theirs.  NULL is 0.  SQLite's accounting and its memory alarm, which is not
    set, are left out. *)

From stdpp Require Import base tactics list numbers option gmap.
From Stdlib Require Import ZArith Lia ZifyBool.
From S2P Require Import Prelude MtArrList Sha256 MtCrypto MerkleTree MtSerialize.
From S2P Require Import CipherUtil Openssl CodecCtx.

Local Open Scope Z_scope.

Class Libc := {
  malloc_at : gmap Z (list Z) -> Z -> option Z;       (** live blocks and size to address *)
  realloc_at : gmap Z (list Z) -> Z -> Z -> option Z;
  junk : Z -> Z -> list Z;                            (** what new memory holds *)
  mlock_ok : Z -> Z -> bool;
  pagesize : Z;
}.

Class LibcLaws (C : Libc) := {
  malloc_fresh bs n p : malloc_at bs n = Some p -> 0 < p /\ bs !! p = None;
  junk_length p n : 0 <= n -> Z.of_nat (length (junk p n)) = n;
}.

(** Live blocks, locked pages, and every block given back with what it held. *)
Record heap := Mk_heap {
  blocks : gmap Z (list Z);
  locked : gset Z;
  given_back : list (Z * list Z);
}.

Section memory.
Context {OS : OpenSSL} {C : Libc}.

(** Static variables, whether [sqlite3GlobalConfig.m] is [sqlcipher_mem_methods],
    [sqlite3GlobalConfig.bMemstat], and the heap. *)
Record mstate := Mk_mstate {
  ms_g : globals;
  ms_installed : bool;
  ms_memstat : bool;
  ms_heap : heap;
}.

Definition put_heap (st : mstate) (h : heap) : mstate := Mk_mstate (ms_g st) (ms_installed st) (ms_memstat st) h.
Definition put_g (st : mstate) (g : globals) : mstate := Mk_mstate g (ms_installed st) (ms_memstat st) (ms_heap st).
Definition put_blocks (h : heap) (bs : gmap Z (list Z)) : heap := Mk_heap bs (locked h) (given_back h).
Definition put_locked (h : heap) (ps : gset Z) : heap := Mk_heap (blocks h) ps (given_back h).

(** ** The methods below *)

Definition sqlite3MemMalloc (h : heap) (n : Z) : Z * heap :=
  match malloc_at (blocks h) n with
  | None => (0, h)
  | Some p => (p, put_blocks h (<[p := junk p n]> (blocks h)))
  end.

Definition sqlite3MemSize (h : heap) (p : Z) : M Z :=
  match blocks h !! p with None => throw UseAfterFree | Some c => mret (Z.of_nat (length c)) end.

Definition sqlite3MemFree (h : heap) (p : Z) : M heap :=
  match blocks h !! p with
  | None => throw DoubleFree
  | Some c => mret (Mk_heap (delete p (blocks h)) (locked h) (given_back h ++ [(p, c)]))
  end.

(** The block may move; what it no longer needs is given back. *)
Definition sqlite3MemRealloc (h : heap) (p n : Z) : M (Z * heap) :=
  match blocks h !! p with
  | None => throw UseAfterFree
  | Some c =>
      mret (match realloc_at (blocks h) p n with
            | None => (0, h)
            | Some q =>
                (q, Mk_heap (<[q := take (Z.to_nat n) c ++ drop (length c) (junk q n)]> (delete p (blocks h)))
                      (locked h)
                      (given_back h ++ [if q =? p then (p + n, drop (Z.to_nat n) c) else (p, c)]))
            end)
  end.

(** [ROUND8] *)
Definition sqlite3MemRoundup (n : Z) : Z := Z.land (n + 7) (Z.lnot 7).

(** ** Locking *)

(** The pages from the one [ptr] is in to the one of the last byte. *)
Definition pages_of (ptr sz : Z) : gset Z :=
  let offset := ptr mod pagesize in
  list_to_set (seqZ ((ptr - offset) / pagesize) ((sz + offset - 1) / pagesize + 1)).

(** A failure is only traced. *)
Definition sqlcipher_mlock (h : heap) (ptr sz : Z) : heap :=
  if (ptr =? 0) || (sz =? 0) then h else
  if mlock_ok ptr sz then put_locked h (locked h ∪ pages_of ptr sz) else h.

Definition sqlcipher_munlock (h : heap) (ptr sz : Z) : heap :=
  if (ptr =? 0) || (sz =? 0) then h else put_locked h (locked h ∖ pages_of ptr sz).

(** ** The installed methods *)

Definition heap_memset (h : heap) (p value len : Z) : M heap :=
  if (p =? 0) || (len =? 0) then mret h else
  match blocks h !! p with
  | None => throw UseAfterFree
  | Some c => c ← buf_write 0 (replicate (Z.to_nat len) value) c; mret (put_blocks h (<[p := c]> (blocks h)))
  end.

(** [if(!mem_security_activated) mem_security_activated = 1;] *)
Definition activate_security (g : globals) : globals :=
  if mem_security_activated g =? 0 then put_mem_security_activated g 1 else g.

Definition sqlcipher_mem_malloc (st : mstate) (n : Z) : Z * mstate :=
  let '(ptr, h) := sqlite3MemMalloc (ms_heap st) n in
  let st := put_heap st h in
  if mem_security_on (ms_g st) =? 0 then (ptr, st)
  else (ptr, put_g (put_heap st (sqlcipher_mlock h ptr n)) (activate_security (ms_g st))).

Definition sqlcipher_mem_size (st : mstate) (p : Z) : M Z := sqlite3MemSize (ms_heap st) p.

Definition sqlcipher_mem_free (st : mstate) (p : Z) : M mstate :=
  st ← (if mem_security_on (ms_g st) =? 0 then mret st else
        sz ← sqlcipher_mem_size st p;
        h ← heap_memset (ms_heap st) p 0 sz;
        mret (put_g (put_heap st (sqlcipher_munlock h p sz)) (activate_security (ms_g st))));
  h ← sqlite3MemFree (ms_heap st) p;
  mret (put_heap st h).

Definition sqlcipher_mem_realloc (st : mstate) (p n : Z) : M (Z * mstate) :=
  '(q, h) ← sqlite3MemRealloc (ms_heap st) p n;
  mret (q, put_heap st h).

(** [config1] and [config2] are the results of the two calls of [sqlite3_config]. *)
Definition sqlcipher_init_memmethods (st : mstate) (config1 config2 : Z) : mstate :=
  let g := ms_g st in
  if negb (mem_security_initialized g =? 0) then st else
  let ok := (config1 =? SQLITE_OK) && (config2 =? SQLITE_OK) in
  let g := if ok then g else put_mem_security_on (put_mem_security_activated g 0) 0 in
  Mk_mstate (put_mem_security_initialized g 1) ok (ms_memstat st) (ms_heap st).

(** ** SQLite's entry points *)

Definition m_xMalloc (st : mstate) (n : Z) : Z * mstate :=
  if ms_installed st then sqlcipher_mem_malloc st n
  else let '(p, h) := sqlite3MemMalloc (ms_heap st) n in (p, put_heap st h).

Definition m_xFree (st : mstate) (p : Z) : M mstate :=
  if ms_installed st then sqlcipher_mem_free st p
  else h ← sqlite3MemFree (ms_heap st) p; mret (put_heap st h).

Definition sqlite3Malloc (st : mstate) (n : Z) : Z * mstate :=
  if (n =? 0) || (2147483392 <=? n) then (0, st)
  else m_xMalloc st (if ms_memstat st then sqlite3MemRoundup n else n).

Definition sqlite3_free (st : mstate) (p : Z) : M mstate :=
  if p =? 0 then mret st else m_xFree st p.

(** ** SQLCipher's *)

(** [sqlcipher_malloc]: pointer and state. *)
Definition secure_malloc (st : mstate) (sz : Z) : M (Z * mstate) :=
  let '(ptr, st) := sqlite3Malloc st sz in
  h ← heap_memset (ms_heap st) ptr 0 sz;
  mret (ptr, put_heap st (sqlcipher_mlock h ptr sz)).

(** [sqlcipher_free] *)
Definition secure_free (st : mstate) (ptr sz : Z) : M mstate :=
  h ← heap_memset (ms_heap st) ptr 0 sz;
  sqlite3_free (put_heap st (sqlcipher_munlock h ptr sz)) ptr.

(** ** Taking a context apart *)

(** The pointers of a [cipher_ctx] and of a [codec_ctx]. *)
Record cipher_mem := Mk_cipher_mem {
  cm_self : Z;
  cm_key : Z;
  cm_hmac_key : Z;
  cm_pass : Z;
  cm_pass_sz : Z;
  cm_keyspec : Z;
}.

Record codec_mem := Mk_codec_mem {
  xm_self : Z;
  xm_kdf_salt : Z;
  xm_hmac_kdf_salt : Z;
  xm_buffer : Z;
  xm_provider : Z;
  xm_provider_ctx : Z;
  xm_read : cipher_mem;
  xm_write : cipher_mem;
}.

(** The sizes of the structures. *)
Context (sizeof_cipher_ctx sizeof_codec_ctx sizeof_provider sizeof_openssl_ctx : Z).

(** [sqlcipher_cipher_ctx_free] *)
Definition free_cipher_ctx (ctx : codec_ctx) (st : mstate) (c : cipher_mem) : M mstate :=
  st ← secure_free st (cm_key c) (key_sz ctx);
  st ← secure_free st (cm_hmac_key c) (key_sz ctx);
  st ← secure_free st (cm_pass c) (cm_pass_sz c);
  st ← secure_free st (cm_keyspec c) (keyspec_sz ctx);
  secure_free st (cm_self c) sizeof_cipher_ctx.

(** [sqlcipher_openssl_ctx_free] *)
Definition free_openssl_ctx (st : mstate) (p : Z) : M mstate :=
  secure_free (put_g st (put_ossl (ms_g st) (sqlcipher_openssl_deactivate (ossl (ms_g st))))) p sizeof_openssl_ctx.

(** [sqlcipher_codec_ctx_free] *)
Definition free_codec_ctx (ctx : codec_ctx) (st : mstate) (x : codec_mem) : M mstate :=
  st ← secure_free st (xm_kdf_salt x) (kdf_salt_sz ctx);
  st ← secure_free st (xm_hmac_kdf_salt x) (kdf_salt_sz ctx);
  st ← secure_free st (xm_buffer x) 0;
  st ← free_openssl_ctx st (xm_provider_ctx x);
  st ← secure_free st (xm_provider x) sizeof_provider;
  st ← free_cipher_ctx ctx st (xm_read x);
  st ← free_cipher_ctx ctx st (xm_write x);
  secure_free st (xm_self x) sizeof_codec_ctx.

(** ** What is given back *)

(** Is every block wiped when it is freed? *)
Definition wiping (st : mstate) : bool := ms_installed st && negb (mem_security_on (ms_g st) =? 0).

(** A block of which [sz] bytes are overwritten, or all of it. *)
Definition wiped (st : mstate) (sz : Z) (c : list Z) : list Z :=
  if wiping st then replicate (length c) 0 else replicate (Z.to_nat sz) 0 ++ drop (Z.to_nat sz) c.

Definition same_config (st st' : mstate) : Prop :=
  ms_installed st' = ms_installed st /\ mem_security_on (ms_g st') = mem_security_on (ms_g st).

Lemma same_config_wiping st st' : same_config st st' -> wiping st' = wiping st.
Proof. intros [H1 H2]. unfold wiping. by rewrite H1, H2. Qed.

Lemma same_config_trans st1 st2 st3 : same_config st1 st2 -> same_config st2 st3 -> same_config st1 st3.
Proof. unfold same_config. intuition congruence. Qed.

Lemma memset_ok h p c sz w :
  blocks h !! p = Some c -> p <> 0 -> 0 <= sz <= Z.of_nat (length c) ->
  exists c', heap_memset h p 0 sz w = Done (put_blocks h (<[p := c']> (blocks h)), w) /\
    c' = replicate (Z.to_nat sz) 0 ++ drop (Z.to_nat sz) c.
Proof.
  intros Hp H0 Hsz. unfold heap_memset. rewrite (proj2 (Z.eqb_neq p 0) H0). cbn [orb].
  destruct (sz =? 0) eqn:E.
  { assert (sz = 0) as -> by lia. exists c. split; [|by rewrite drop_0]. rewrite insert_id by done. by destruct h. }
  rewrite Hp. eexists. split; [|reflexivity].
  erewrite bind_done; [reflexivity|]. unfold buf_write. rewrite length_replicate. by replace (_ || _) with false by lia.
Qed.

(** [sqlcipher_free] of a live block. *)
Lemma secure_free_ok st p sz c w :
  blocks (ms_heap st) !! p = Some c -> p <> 0 -> 0 <= sz <= Z.of_nat (length c) ->
  exists st', secure_free st p sz w = Done (st', w) /\ same_config st st' /\
    blocks (ms_heap st') = delete p (blocks (ms_heap st)) /\
    given_back (ms_heap st') = given_back (ms_heap st) ++ [(p, wiped st sz c)].
Proof.
  intros Hp H0 Hsz. unfold secure_free. destruct (memset_ok _ _ _ _ w Hp H0 Hsz) as (c1 & E & Hc1).
  rewrite (bind_done _ _ _ _ _ E). unfold sqlite3_free. rewrite (proj2 (Z.eqb_neq p 0) H0). cbv iota.
  set (h1 := sqlcipher_munlock _ p sz).
  assert (Hh1 : blocks h1 = <[p := c1]> (blocks (ms_heap st)) /\ given_back h1 = given_back (ms_heap st))
    by (unfold h1, sqlcipher_munlock; by destruct (_ || _)).
  destruct Hh1 as [Hb1 Hg1]. clearbody h1. unfold m_xFree, wiped, wiping. cbn [put_heap ms_installed].
  assert (Hlen : length c1 = length c) by (rewrite Hc1, length_app, length_replicate, length_drop; lia).
  destruct (ms_installed st); cbn [andb].
  - unfold sqlcipher_mem_free, sqlcipher_mem_size, sqlite3MemSize, put_heap. cbn [ms_g ms_heap].
    destruct (mem_security_on (ms_g st) =? 0) eqn:Eon; cbn [negb].
    + rewrite bind_ret. unfold sqlite3MemFree. cbn [ms_heap]. rewrite Hb1, lookup_insert_eq, bind_ret.
      eexists. split; [reflexivity|]. split; [done|]. cbn. by rewrite ?Hb1, Hg1, Hc1, delete_insert_eq.
    + rewrite Hb1, lookup_insert_eq, !bind_assoc, bind_ret.
      destruct (memset_ok h1 p c1 (Z.of_nat (length c1)) w) as (c2 & E2 & Hc2); [by rewrite Hb1, lookup_insert_eq|done|lia|].
      rewrite !bind_assoc, (bind_done _ _ _ _ _ E2), bind_ret. cbn [ms_heap put_g put_heap].
      set (h2 := sqlcipher_munlock _ p _).
      assert (Hh2 : blocks h2 = <[p := c2]> (blocks h1) /\ given_back h2 = given_back h1)
        by (unfold h2, sqlcipher_munlock; by destruct (_ || _)).
      destruct Hh2 as [Hb2 Hg2]. clearbody h2. unfold sqlite3MemFree. rewrite Hb2, lookup_insert_eq, bind_ret.
      eexists. split; [reflexivity|]. split.
      { split; [done|]. cbn. unfold activate_security. by case_match. }
      cbn. rewrite ?Hb2, ?Hb1, Hg2, Hg1, Hc2, Nat2Z.id, drop_all, app_nil_r, Hlen.
      by rewrite !delete_insert_eq.
  - unfold sqlite3MemFree, put_heap. cbn [ms_g ms_heap]. rewrite Hb1, lookup_insert_eq, bind_ret.
    eexists. split; [reflexivity|]. split; [done|]. cbn. by rewrite ?Hb1, Hg1, Hc1, delete_insert_eq.
Qed.

Lemma secure_free_null st sz w : secure_free st 0 sz w = Done (st, w).
Proof. by destruct st as [? ? ? []]. Qed.

(** New memory is zeroed. *)
Lemma secure_malloc_ok {CL : LibcLaws C} st sz w :
  0 < sz ->
  exists p st', secure_malloc st sz w = Done ((p, st'), w) /\ same_config st st' /\
    (p = 0 /\ blocks (ms_heap st') = blocks (ms_heap st) \/
     blocks (ms_heap st) !! p = None /\ p <> 0 /\ exists tl,
       blocks (ms_heap st') = <[p := replicate (Z.to_nat sz) 0 ++ tl]> (blocks (ms_heap st))) /\
    given_back (ms_heap st') = given_back (ms_heap st).
Proof.
  intros Hsz. unfold secure_malloc.
  assert (Hm : exists p st1 n, sqlite3Malloc st sz = (p, st1) /\ sz <= n /\ same_config st st1 /\
    given_back (ms_heap st1) = given_back (ms_heap st) /\
    (p = 0 /\ blocks (ms_heap st1) = blocks (ms_heap st) \/
     p <> 0 /\ blocks (ms_heap st) !! p = None /\ blocks (ms_heap st1) = <[p := junk p n]> (blocks (ms_heap st)))).
  { unfold sqlite3Malloc. destruct (_ || _) eqn:E; [by exists 0, st, sz; split_and!; [done|lia|done..|left]|].
    set (n := if ms_memstat st then _ else sz).
    assert (Hn : sz <= n).
    { unfold n, sqlite3MemRoundup. destruct (ms_memstat st); [|lia]. change 7 with (Z.ones 3) at 2.
      rewrite <- Z.ldiff_land, Z.ldiff_ones_r, Z.shiftr_div_pow2, Z.shiftl_mul_pow2 by lia. change (2 ^ 3) with 8.
      pose proof (Z.mod_pos_bound (sz + 7) 8 ltac:(lia)). pose proof (Z.div_mod (sz + 7) 8 ltac:(lia)). lia. }
    unfold m_xMalloc, sqlcipher_mem_malloc, sqlite3MemMalloc.
    destruct (malloc_at (blocks (ms_heap st)) n) as [p|] eqn:Ep;
      [destruct (malloc_fresh _ _ _ Ep) as [Hp0 Hf]|];
      (destruct (ms_installed st) eqn:Ei; [destruct (mem_security_on _ =? 0) eqn:Eo|]);
      eexists _, _, n; (split; [reflexivity|]); (split; [done|]);
      unfold same_config, sqlcipher_mlock, activate_security; cbn; rewrite ?Ei;
      repeat case_match; cbn; rewrite ?Ei; split_and!; try done; try (by left); right; split_and!; try done; lia. }
  destruct Hm as (p & st1 & n & -> & Hn & Hc & Hg & Hb). exists p.
  destruct Hb as [[-> Hb]|(Hp0 & Hf & Hb)].
  - eexists. split; [reflexivity|]. split; [done|]. split; [by left|done].
  - destruct (memset_ok (ms_heap st1) p (junk p n) sz w) as (c & E & Hc'); [by rewrite Hb, lookup_insert_eq|done| |].
    { rewrite junk_length by lia. lia. }
    rewrite (bind_done _ _ _ _ _ E). eexists. split; [reflexivity|]. split; [done|].
    unfold sqlcipher_mlock. split.
    + right. split; [done|]. split; [done|]. exists (drop (Z.to_nat sz) (junk p n)).
      repeat case_match; cbn; rewrite Hb, insert_insert_eq; by rewrite Hc'.
    + repeat case_match; cbn; exact Hg.
Qed.

(** *** A whole context *)

(** The blocks [sqlcipher_codec_ctx_free] frees and how much of each it wipes itself. *)
Definition cipher_frees (ctx : codec_ctx) (c : cipher_mem) : list (Z * Z) :=
  [(cm_key c, key_sz ctx); (cm_hmac_key c, key_sz ctx); (cm_pass c, cm_pass_sz c);
   (cm_keyspec c, keyspec_sz ctx); (cm_self c, sizeof_cipher_ctx)].

Definition codec_frees (ctx : codec_ctx) (x : codec_mem) : list (Z * Z) :=
  [(xm_kdf_salt x, kdf_salt_sz ctx); (xm_hmac_kdf_salt x, kdf_salt_sz ctx); (xm_buffer x, 0);
   (xm_provider_ctx x, sizeof_openssl_ctx); (xm_provider x, sizeof_provider)] ++
  cipher_frees ctx (xm_read x) ++ cipher_frees ctx (xm_write x) ++ [(xm_self x, sizeof_codec_ctx)].

(** The pointers are NULL or different live blocks that are large enough. *)
Definition owned (st : mstate) (l : list (Z * Z)) : Prop :=
  Forall (fun '(p, sz) => p = 0 \/ exists c, blocks (ms_heap st) !! p = Some c /\ 0 <= sz <= Z.of_nat (length c)) l /\
  NoDup (filter (fun p => p <> 0) l.*1).

(** What the blocks of the list hold when they are given back. *)
Definition log (st : mstate) (l : list (Z * Z)) : list (Z * list Z) :=
  omap (fun '(p, sz) => if p =? 0 then None else (fun c => (p, wiped st sz c)) <$> blocks (ms_heap st) !! p) l.

(** [st] is [st0] with the blocks of [l] freed. *)
Record freed (st0 : mstate) (l : list (Z * Z)) (st : mstate) : Prop := {
  fr_config : same_config st0 st;
  fr_gone : forall p, p ∈ l.*1 -> p <> 0 -> blocks (ms_heap st) !! p = None;
  fr_frame : forall q, q ∉ l.*1 -> blocks (ms_heap st) !! q = blocks (ms_heap st0) !! q;
  fr_log : given_back (ms_heap st) = given_back (ms_heap st0) ++ log st0 l;
}.

Lemma freed_nil st : freed st [] st.
Proof. split; [done| |done|by rewrite app_nil_r]. intros p Hp. by apply not_elem_of_nil in Hp. Qed.

Lemma freed_put_g st0 l st g :
  mem_security_on g = mem_security_on (ms_g st) -> freed st0 l st -> freed st0 l (put_g st g).
Proof. intros Hg [[H1 H2] ? ? ?]. split; try done. split; [done|]. cbn. congruence. Qed.

Lemma freed_step st0 l p sz more st w :
  owned st0 (l ++ (p, sz) :: more) -> freed st0 l st ->
  exists st', secure_free st p sz w = Done (st', w) /\ freed st0 (l ++ [(p, sz)]) st'.
Proof.
  intros [Hall Hnd] [Hc Hgone Hframe Hlog]. apply Forall_app in Hall as [_ Hall]. apply Forall_cons in Hall as [Hp _].
  rewrite fmap_app, filter_app in Hnd. cbn [fmap list_fmap fst] in Hnd.
  destruct (decide (p = 0)) as [->|H0].
  { exists st. rewrite secure_free_null. split; [done|]. split; [done| | |].
    - intros q Hq Hq0. rewrite fmap_app, elem_of_app in Hq. cbn in Hq. rewrite list_elem_of_singleton in Hq.
      destruct Hq as [Hq| ->]; [by apply Hgone|done].
    - intros q Hq. rewrite fmap_app, elem_of_app in Hq. apply Hframe. tauto.
    - rewrite Hlog. unfold log. rewrite omap_app. cbn. by rewrite app_nil_r. }
  destruct Hp as [?|(c & Hb & Hsz)]; [done|]. rewrite filter_cons_True in Hnd by done.
  apply NoDup_app in Hnd as (_ & Hdis & _).
  assert (Hfresh : p ∉ l.*1).
  { intros Hin. apply (Hdis p); [by apply list_elem_of_filter|apply list_elem_of_here]. }
  destruct (secure_free_ok st p sz c w) as (st' & E & Hc' & Hb' & Hg'); [by rewrite Hframe|done|done|].
  exists st'. split; [done|]. split.
  - by eapply same_config_trans.
  - intros q Hq Hq0. rewrite Hb'. rewrite fmap_app, elem_of_app in Hq. cbn in Hq. rewrite list_elem_of_singleton in Hq.
    destruct (decide (q = p)) as [->|Hne]; [by rewrite lookup_delete_eq|]. rewrite lookup_delete_ne by done.
    destruct Hq as [Hq|]; [by apply Hgone|done].
  - intros q Hq. rewrite fmap_app, elem_of_app in Hq. cbn in Hq. rewrite list_elem_of_singleton in Hq.
    rewrite Hb', lookup_delete_ne by (intros ->; tauto). apply Hframe. tauto.
  - rewrite Hg', Hlog, <- app_assoc. f_equal. unfold log. rewrite omap_app. f_equal. cbn.
    rewrite (proj2 (Z.eqb_neq p 0) H0), Hb. cbn. unfold wiped. by rewrite (same_config_wiping _ _ Hc).
Qed.

Ltac free_step Hown :=
  match goal with
  | Hf : freed ?st0 ?l ?st |- context [(secure_free ?st ?p ?sz ≫= _) ?w] =>
      let E := fresh "E" in let Hf' := fresh "Hf" in
      destruct (freed_step st0 l p sz _ st w Hown Hf) as (? & E & Hf');
      rewrite (bind_done _ _ _ _ _ E); clear E Hf; cbn [app] in Hf'
  end.

Lemma free_codec_ctx_ok ctx st x w :
  owned st (codec_frees ctx x) ->
  exists st', free_codec_ctx ctx st x w = Done (st', w) /\ freed st (codec_frees ctx x) st'.
Proof.
  intros Hown. pose proof (freed_nil st) as Hf. unfold free_codec_ctx.
  unfold codec_frees, cipher_frees in *. cbn [app] in Hown.
  do 3 free_step Hown. unfold free_openssl_ctx.
  match goal with H : freed st _ ?s |- _ =>
    apply (freed_put_g _ _ _ (put_ossl (ms_g s) (sqlcipher_openssl_deactivate (ossl (ms_g s))))) in H; [|done] end.
  do 2 free_step Hown. unfold free_cipher_ctx. rewrite !bind_assoc.
  do 4 (free_step Hown; rewrite ?bind_assoc). free_step Hown. rewrite ?bind_assoc.
  do 4 (free_step Hown; rewrite ?bind_assoc). free_step Hown.
  match goal with H : freed st ?l ?s |- _ => destruct (freed_step st l _ _ [] s w Hown H) as (st' & E & Hf') end.
  exists st'. split; [exact E|exact Hf'].
Qed.

Lemma log_elem st l p c : (p, c) ∈ log st l -> exists sz c0, (p, sz) ∈ l /\ p <> 0 /\ blocks (ms_heap st) !! p = Some c0 /\ c = wiped st sz c0.
Proof.
  unfold log. intros ([q sz] & Hin & Hq)%list_elem_of_omap. destruct (q =? 0) eqn:E; [done|].
  apply fmap_Some in Hq as (c0 & Hc0 & [= -> ->]). exists sz, c0. split_and!; [done|lia|done|done].
Qed.

(** C15. Freeing a codec context leaves no key behind.  When the context's pointers
    are NULL or different live blocks, [sqlcipher_codec_ctx_free] frees each of
    them once and touches no other block, and at the moment a block is given back
    to the allocator the bytes that held a salt, a key, a passphrase, a key
    specification or one of the structures are zeros.  With SQLCipher's memory
    methods installed and memory security on, all of every block is zeros, the
    page buffer included. *)
Theorem codec_ctx_wiped ctx st x w :
  owned st (codec_frees ctx x) ->
  exists st' l, free_codec_ctx ctx st x w = Done (st', w) /\
    (forall p, p ∈ (codec_frees ctx x).*1 -> p <> 0 -> blocks (ms_heap st') !! p = None) /\
    (forall q, q ∉ (codec_frees ctx x).*1 -> blocks (ms_heap st') !! q = blocks (ms_heap st) !! q) /\
    given_back (ms_heap st') = given_back (ms_heap st) ++ l /\
    forall p c, (p, c) ∈ l -> exists sz, (p, sz) ∈ codec_frees ctx x /\
      Forall (fun b => b = 0) (take (Z.to_nat sz) c) /\ (wiping st = true -> Forall (fun b => b = 0) c).
Proof.
  intros Hown. destruct (free_codec_ctx_ok ctx st x w Hown) as (st' & E & [Hc Hgone Hframe Hlog]).
  exists st', (log st (codec_frees ctx x)). split_and!; [done..|].
  intros p c (sz & c0 & Hin & Hp0 & Hb & ->)%log_elem. exists sz. split; [done|].
  destruct Hown as [Hall _]. pose proof (proj1 (Forall_forall _ _) Hall _ Hin) as Hsz. cbn in Hsz.
  destruct Hsz as [?|(c1 & Hc1 & Hsz)]; [done|]. rewrite Hb in Hc1. injection Hc1 as <-. unfold wiped.
  destruct (wiping st); split; try done.
  - intros. by apply Forall_take, Forall_replicate.
  - intros. by apply Forall_replicate.
  - rewrite take_app_length' by (by rewrite length_replicate). by apply Forall_replicate.
Qed.

(** Without them the page buffer is given back as it is: its size is passed as 0. *)
Lemma page_buffer_survives ctx st x c w :
  owned st (codec_frees ctx x) -> wiping st = false -> xm_buffer x <> 0 -> blocks (ms_heap st) !! xm_buffer x = Some c ->
  exists st', free_codec_ctx ctx st x w = Done (st', w) /\ (xm_buffer x, c) ∈ given_back (ms_heap st').
Proof.
  intros Hown Hw H0 Hb. destruct (free_codec_ctx_ok ctx st x w Hown) as (st' & E & [_ _ _ Hlog]). exists st'. split; [done|].
  rewrite Hlog. apply elem_of_app. right. unfold log. apply list_elem_of_omap. exists (xm_buffer x, 0). split.
  - unfold codec_frees. cbn. do 2 apply list_elem_of_further. apply list_elem_of_here.
  - rewrite (proj2 (Z.eqb_neq _ 0) H0), Hb. cbn. unfold wiped. by rewrite Hw.
Qed.

(** Even with memory security on, a block that is moved to grow is given back with
    its contents. *)
Lemma realloc_leaves_contents st p n q c w :
  blocks (ms_heap st) !! p = Some c -> realloc_at (blocks (ms_heap st)) p n = Some q -> q <> p ->
  exists st', sqlcipher_mem_realloc st p n w = Done ((q, st'), w) /\ (p, c) ∈ given_back (ms_heap st').
Proof.
  intros Hp Hq Hne. unfold sqlcipher_mem_realloc, sqlite3MemRealloc. rewrite Hp, Hq, bind_ret.
  rewrite (proj2 (Z.eqb_neq q p) Hne). eexists. split; [reflexivity|]. cbn. apply elem_of_app. right. apply list_elem_of_here.
Qed.

(** Locks do not nest: freeing a block unlocks its pages although another block of
    the same page is still in use. *)
Lemma free_unlocks_neighbour st p sz c q s w :
  0 < pagesize -> blocks (ms_heap st) !! p = Some c -> 0 < p -> 0 < sz <= Z.of_nat (length c) ->
  0 < q -> p / pagesize = q / pagesize -> wiping st = false -> 0 < s ->
  exists st', secure_free st p sz w = Done (st', w) /\ q / pagesize ∈ pages_of q s /\ q / pagesize ∉ locked (ms_heap st').
Proof.
  intros Hps Hp Hp0 Hsz Hq0 Hpq Hw Hs.
  assert (Hin : forall a n, 0 < a -> 0 < n -> a / pagesize ∈ pages_of a n).
  { intros a n Ha Hn. unfold pages_of. apply elem_of_list_to_set, elem_of_seqZ.
    pose proof (Z.mod_pos_bound a pagesize Hps). pose proof (Z.div_mod a pagesize ltac:(lia)) as Hd.
    replace (a - a mod pagesize) with (a / pagesize * pagesize) by lia. rewrite Z.div_mul by lia.
    pose proof (Z.div_pos (n + a mod pagesize - 1) pagesize). lia. }
  unfold secure_free. destruct (memset_ok (ms_heap st) p c sz w Hp ltac:(lia) ltac:(lia)) as (c1 & E & _).
  rewrite (bind_done _ _ _ _ _ E). unfold sqlite3_free. rewrite (proj2 (Z.eqb_neq p 0)) by lia. cbv iota.
  unfold sqlcipher_munlock. rewrite (proj2 (Z.eqb_neq p 0)), (proj2 (Z.eqb_neq sz 0)) by lia. cbn [orb].
  unfold m_xFree, sqlcipher_mem_free. cbn [put_heap ms_installed ms_g].
  unfold wiping in Hw. destruct (ms_installed st); cbn [andb] in Hw.
  - destruct (mem_security_on (ms_g st) =? 0); [|done]. rewrite bind_ret. unfold sqlite3MemFree. cbn. rewrite lookup_insert_eq.
    rewrite bind_ret. eexists. split; [reflexivity|]. split; [by apply Hin|]. cbn. rewrite <- Hpq.
    apply not_elem_of_difference. right. apply Hin; lia.
  - unfold sqlite3MemFree. cbn. rewrite lookup_insert_eq, bind_ret. eexists. split; [reflexivity|]. split; [by apply Hin|].
    cbn. rewrite <- Hpq. apply not_elem_of_difference. right. apply Hin; lia.
Qed.
End memory.

(** ** Witness *)

#[local] Existing Instance toy_openssl.

(** An allocator that never finds memory, which freeing does not need. *)
#[local] Instance toy_libc : Libc := {|
  malloc_at _ _ := None;
  realloc_at _ _ _ := None;
  junk _ n := replicate (Z.to_nat n) 0;
  mlock_ok _ _ := true;
  pagesize := 4096;
|}.

Definition w_codec_mem : codec_mem :=
  Mk_codec_mem 1 2 3 4 5 6 (Mk_cipher_mem 7 8 9 0 0 10) (Mk_cipher_mem 11 12 13 14 5 15).

Definition w_mstate (on : Z) : mstate :=
  Mk_mstate (put_mem_security_on init_globals on) true true
    (Mk_heap (list_to_map ((fun p => (p, replicate 128 7)) <$> seqZ 1 15)) ∅ []).

Lemma w_owned on : owned (w_mstate on) (codec_frees 40 100 100 8 (fresh_ctx init_globals sqlcipher_openssl_setup [] []) w_codec_mem).
Proof.
  split; [|apply (bool_decide_unpack _); vm_compute; exact I].
  unfold codec_frees, cipher_frees. cbn [app].
  repeat (apply Forall_cons; split; [first [by left|right; eexists; split; [reflexivity|]; vm_compute; split; discriminate]|]).
  constructor.
Qed.

(** A context whose blocks hold sevens and which has one passphrase. *)
Lemma codec_ctx_wiped_witness :
  exists st' l, free_codec_ctx 40 100 100 8 (fresh_ctx init_globals sqlcipher_openssl_setup [] []) (w_mstate 1) w_codec_mem []
      = Done (st', []) /\
    given_back (ms_heap st') = l /\ Forall (fun pc => Forall (fun b => b = 0) pc.2) l.
Proof.
  destruct (codec_ctx_wiped 40 100 100 8 (fresh_ctx init_globals sqlcipher_openssl_setup [] []) (w_mstate 1) w_codec_mem [])
    as (st' & l & E & _ & _ & Hl & Hz).
  { apply w_owned. }
  exists st', l. split; [exact E|]. split; [exact Hl|]. apply Forall_forall. intros [p c] Hin.
  destruct (Hz p c Hin) as (sz & _ & _ & Hall). by apply Hall.
Defined.
