(* ===== verification/PageCodec.v ===== *)
(** * Encrypting and decrypting database pages

    Model of [sqlcipher_page_hmac], [sqlcipher_page_cipher] ([crypto_impl.c])
    and [sqlite3Codec] ([crypto.c]) in [storage/secure/sec_sqlite3.c].  A page
    ends with a reserve: the IV, the HMAC of ciphertext, IV and page number,
    and, added by IronSafe, the offset of the page's leaf in the Merkle tree,
    whose leaves are the first halves of the HMACs. *)

From stdpp Require Import base tactics list numbers option.
From Stdlib Require Import ZArith Lia ZifyBool.
From S2P Require Import Prelude MtArrList Sha256 MtCrypto MerkleTree MtSerialize.
From S2P Require Import CipherUtil Openssl CodecCtx.

Local Open Scope Z_scope.

Definition CODEC_READ_OP : Z := 3.
Definition CODEC_WRITE_OP : Z := 6.
Definition CODEC_JOURNAL_OP : Z := 7.

(** "SQLite format 3" and its NUL *)
Definition SQLITE_FILE_HEADER : list Z :=
  [83; 81; 76; 105; 116; 101; 32; 102; 111; 114; 109; 97; 116; 32; 51; 0].

(** The counters of [perf_counter.h] and [mt_wrapper.h]. *)
Record stats := Mk_stats {
  num_codec_enc : Z;
  num_codec_dec : Z;
  num_pages_decrypted : Z;
}.

Section page.
Context {O : OpenSSL} {NH : NodeHash}.

(** Everything a codec call reads and writes. *)
Record codec_state := Mk_cst {
  cs_ctx : codec_ctx;
  cs_env : db_env;
  cs_rng : rng;
  cs_stats : stats;
}.

Definition with_ctx (st : codec_state) (c : codec_ctx) : codec_state :=
  Mk_cst c (cs_env st) (cs_rng st) (cs_stats st).
Definition with_rng (st : codec_state) (r : rng) : codec_state :=
  Mk_cst (cs_ctx st) (cs_env st) r (cs_stats st).
Definition with_error (st : codec_state) (rc : Z) : codec_state :=
  Mk_cst (cs_ctx st) (sqlcipher_codec_ctx_set_error (cs_env st) rc) (cs_rng st) (cs_stats st).

(** The page number in the byte order the flags ask for; the native order is
    little endian. *)
Definition pgno_raw (ctx : codec_ctx) (pgno : Z) : list Z :=
  if negb (Z.land (flags ctx) CIPHER_FLAG_LE_PGNO =? 0) then sqlcipher_put4byte_le pgno
  else if negb (Z.land (flags ctx) CIPHER_FLAG_BE_PGNO =? 0) then sqlite3Put4byte pgno
  else le_bytes 4 pgno.

Definition sqlcipher_page_hmac (ctx : codec_ctx) (c_ctx : cipher_ctx) (pgno : Z)
    (input : list Z) : Z * option (list Z) :=
  p_hmac (provider ctx) (hmac_algorithm ctx) (take (Z.to_nat (key_sz ctx)) (hmac_key c_ctx))
    (Some input) (Some (pgno_raw ctx pgno)).

(** [num_codec_dec += 1] or [num_codec_enc += 1] *)
Definition count_call (st : codec_state) (mode : Z) : codec_state :=
  let s := cs_stats st in
  Mk_cst (cs_ctx st) (cs_env st) (cs_rng st)
    (if mode =? CIPHER_DECRYPT
     then Mk_stats (num_codec_enc s) (u32 (num_codec_dec s + 1)) (num_pages_decrypted s)
     else if mode =? CIPHER_ENCRYPT
     then Mk_stats (u32 (num_codec_enc s + 1)) (num_codec_dec s) (num_pages_decrypted s)
     else s).

Definition count_page (st : codec_state) : codec_state :=
  let s := cs_stats st in
  Mk_cst (cs_ctx st) (cs_env st) (cs_rng st)
    (Mk_stats (num_codec_enc s) (num_codec_dec s) (u32 (num_pages_decrypted s + 1))).

(** Result of a page operation: return code, state and output buffer. *)
Abbreviation page_result := (Z * codec_state * list Z)%type.

(** The [error:] label. *)
Definition cipher_error (st : codec_state) (page_sz : Z) (out : list Z) : M page_result :=
  out ← buf_write 0 (replicate (Z.to_nat page_sz) 0) out;
  mret (SQLITE_ERROR, st, out).

(** What the check of a page read from disk concludes. *)
Inductive read_check := PageOk | PageEmpty | PageBad.

(** The block guarded by [CIPHER_FLAG_HMAC], [CIPHER_DECRYPT] and
    [!skip_read_hmac]: HMAC, all-zero pages, Merkle tree. *)
Definition check_page (st : codec_state) (c_ctx : cipher_ctx) (pgno page_sz size : Z)
    (input out : list Z) : M (read_check * codec_state * list Z) :=
  let ctx := cs_ctx st in
  payload ← buf_read 0 (size + iv_sz ctx) input;
  match sqlcipher_page_hmac ctx c_ctx pgno payload with
  | (rc, Some mac) =>
      if negb (rc =? SQLITE_OK) then mret (PageBad, st, out) else
      out ← buf_write (size + iv_sz ctx) mac out;
      hmac_in ← buf_read (size + iv_sz ctx) (hmac_sz ctx) input;
      hmac_out ← buf_read (size + iv_sz ctx) (hmac_sz ctx) out;
      if negb (sqlcipher_memcmp hmac_in hmac_out (hmac_sz ctx) =? 0) then
        page ← buf_read 0 page_sz input;
        mret (if sqlcipher_ismemset page 0 =? 0 then PageEmpty else PageBad, st, out)
      else
        off ← buf_read (size + iv_sz ctx + hmac_sz ctx) 4 input;
        t ← deref (tree ctx);
        v ← mt_verify (obj_mt t) (Some hmac_in) (Z.quot (hmac_sz ctx) 2) (le_val off);
        mret (if decide (v = MT_SUCCESS) then (PageOk, count_page st, out) else (PageBad, st, out))
  | (_, None) => mret (PageBad, st, out)
  end.

(** The block after the cipher call when encrypting: HMAC, leaf offset and leaf. *)
Definition record_page (st : codec_state) (c_ctx : cipher_ctx) (pgno page_sz size : Z)
    (out : list Z) : M page_result :=
  let ctx := cs_ctx st in
  payload ← buf_read 0 (size + iv_sz ctx) out;
  match sqlcipher_page_hmac ctx c_ctx pgno payload with
  | (rc, Some mac) =>
      if negb (rc =? SQLITE_OK) then cipher_error st page_sz out else
      out ← buf_write (size + iv_sz ctx) mac out;
      t ← deref (tree ctx);
      out ← buf_write (size + iv_sz ctx + hmac_sz ctx) (le_bytes 4 (num_blocks t)) out;
      hmac_out ← buf_read (size + iv_sz ctx) (hmac_sz ctx) out;
      r ← mt_add (obj_mt t) (Some hmac_out) (Z.quot (hmac_sz ctx) 2);
      if decide (r.1 = MT_SUCCESS) then
        mret (SQLITE_OK,
              with_ctx st (set_tree ctx (Some (Mk_obj r.2 (u32 (num_blocks t + 1)) (obj_write t)))),
              out)
      else cipher_error (with_ctx st (set_tree ctx (Some (Mk_obj r.2 (num_blocks t) (obj_write t)))))
             page_sz out
  | (_, None) => cipher_error st page_sz out
  end.

(** The cipher call, [out[0 .. size)] from [in[0 .. size)] with the IV at
    [out + size]. *)
Definition run_cipher (ctx : codec_ctx) (c_ctx : cipher_ctx) (mode size : Z) (input out : list Z)
  : M (Z * list Z) :=
  iv ← buf_read size (iv_sz ctx) out;
  data ← buf_read 0 size input;
  r ← p_cipher (provider ctx) mode (take (Z.to_nat (key_sz ctx)) (key c_ctx)) iv data;
  match r with
  | (rc, Some bs) => out ← buf_write 0 bs out; mret (rc, out)
  | (rc, None) => mret (rc, out)
  end.

Definition sqlcipher_page_cipher (st : codec_state) (for_ctx pgno mode page_sz : Z)
    (input out : list Z) : M page_result :=
  let st := count_call st mode in
  let ctx := cs_ctx st in
  c_ctx ← deref (get_ctx ctx for_ctx);
  let size := page_sz - reserve_sz ctx in
  let hmac_on := negb (Z.land (flags ctx) CIPHER_FLAG_HMAC =? 0) in
  if key_sz ctx =? 0 then cipher_error st page_sz out else
  if mode =? CIPHER_ENCRYPT then
    let '(rc, bs, r) := p_random (provider ctx) (cs_rng st) (reserve_sz ctx) in
    let st := with_rng st r in
    if negb (rc =? SQLITE_OK) then cipher_error st page_sz out else
    out ← buf_write size (default [] bs) out;
    e ← run_cipher ctx c_ctx mode size input out;
    let out := e.2 in
    if negb (e.1 =? SQLITE_OK) then cipher_error st page_sz out else
    if hmac_on then record_page st c_ctx pgno page_sz size out
    else mret (SQLITE_OK, st, out)
  else
    iv ← buf_read size (iv_sz ctx) input;
    out ← buf_write size iv out;
    c ← (if hmac_on && (mode =? CIPHER_DECRYPT) && (skip_read_hmac ctx =? 0)
         then check_page st c_ctx pgno page_sz size input out
         else mret (PageOk, st, out));
    let '(verdict, st, out) := c in
    match verdict with
    | PageBad => cipher_error st page_sz out
    | PageEmpty =>
        out ← buf_write 0 (replicate (Z.to_nat page_sz) 0) out;
        mret (SQLITE_OK, st, out)
    | PageOk =>
        e ← run_cipher ctx c_ctx mode size input out;
        if negb (e.1 =? SQLITE_OK) then cipher_error st page_sz e.2
        else mret (SQLITE_OK, st, e.2)
    end.

(** ** The pager's hook *)

(** The page (or page buffer) returned and the page in place, [pData]. *)
Inductive codec_ret :=
  | RetNull
  | RetData      (** [pData] *)
  | RetBuffer.   (** the context's buffer *)

Definition page_offset (ctx : codec_ctx) (pgno : Z) : Z :=
  if pgno =? 1
  then if plaintext_header_sz ctx =? 0 then FILE_HEADER_SZ else plaintext_header_sz ctx
  else 0.

(** Runs [sqlcipher_page_cipher] from byte [offset] of [pData] into the buffer;
    on failure the rest of the buffer is cleared and the error recorded. *)
Definition codec_page (st : codec_state) (cctx pgno mode offset : Z) (pData buf : list Z)
  : M (codec_state * list Z) :=
  let page := page_sz (cs_ctx st) in
  input ← buf_read offset (page - offset) pData;
  out ← buf_read offset (page - offset) buf;
  s ← sqlcipher_page_cipher st cctx pgno mode (page - offset) input out;
  let '(rc, st, out) := s in
  if rc =? SQLITE_OK then
    buf ← buf_write offset out buf;
    mret (st, buf)
  else
    buf ← buf_write offset (replicate (Z.to_nat (page - offset)) 0) buf;
    mret (with_error st rc, buf).

Definition set_buf (st : codec_state) (buf : list Z) : codec_state :=
  with_ctx st (set_buffer (cs_ctx st) (Some buf)).

Definition sqlite3Codec (g : globals) (st : codec_state) (pData : list Z) (pgno mode : Z)
  : M (codec_ret * codec_state * list Z) :=
  k ← sqlcipher_codec_key_derive g (cs_ctx st) (cs_env st) (cs_rng st);
  let '(rc, ctx, r) := k in
  let st := with_rng (with_ctx st ctx) r in
  if negb (rc =? SQLITE_OK) then mret (RetNull, with_error st rc, pData) else
  let offset := page_offset ctx pgno in
  buf ← deref (buffer ctx);
  if mode =? CODEC_READ_OP then
    buf ← (if pgno =? 1 then
             h ← buf_read 0 offset (if plaintext_header_sz ctx =? 0
                                    then SQLITE_FILE_HEADER else pData);
             buf_write 0 h buf
           else mret buf);
    s ← codec_page st CIPHER_READ_CTX pgno CIPHER_DECRYPT offset pData buf;
    let '(st, buf) := s in
    d ← buf_read 0 (page_sz ctx) buf;
    pData ← buf_write 0 d pData;
    mret (RetData, set_buf st buf, pData)
  else if (mode =? CODEC_WRITE_OP) || (mode =? CODEC_JOURNAL_OP) then
    let cctx := if mode =? CODEC_WRITE_OP then CIPHER_WRITE_CTX else CIPHER_READ_CTX in
    let '(rc, ctx, r, salt) :=
      if pgno =? 1 then sqlcipher_codec_ctx_get_kdf_salt ctx (cs_env st) (cs_rng st)
      else (SQLITE_OK, ctx, cs_rng st, []) in
    let st := with_rng (with_ctx st ctx) r in
    if negb (rc =? SQLITE_OK) then mret (RetNull, with_error st rc, pData) else
    buf ← (if pgno =? 1 then
             h ← buf_read 0 offset (if plaintext_header_sz ctx =? 0 then salt else pData);
             buf_write 0 h buf
           else mret buf);
    s ← codec_page st cctx pgno CIPHER_ENCRYPT offset pData buf;
    let '(st, buf) := s in
    mret (RetBuffer, set_buf st buf, pData)
  else mret (RetData, with_error st SQLITE_ERROR, pData).

End page.
