(* ===== verification/PageProofs.v ===== *)
(** * What the page codec guarantees

    Theorems about [PageCodec] for contexts set up the way
    [sqlcipher_codec_ctx_init] sets them up: aes-256-cbc, HMAC-SHA512 and a
    96-byte reserve. *)

From stdpp Require Import base tactics list numbers option.
From Stdlib Require Import ZArith Lia ZifyBool.
From S2P Require Import Prelude MtArrList Sha256 MtCrypto MerkleTree MtSerialize.
From S2P Require Import CipherUtil Openssl CodecCtx PageCodec.

Local Open Scope Z_scope.

Section proofs.
Context {O : OpenSSL} {L : OpenSSLLaws O} {NH : NodeHash}.

(** ** Pages *)

(** A page of [size + 96] bytes in its parts. *)
Record page_parts := Parts {
  pp_data : list Z;      (** usable bytes *)
  pp_iv : list Z;
  pp_mac : list Z;
  pp_off : list Z;       (** offset of the leaf, little endian *)
  pp_rest : list Z;      (** random filling *)
}.

Definition join (p : page_parts) : list Z :=
  pp_data p ++ pp_iv p ++ pp_mac p ++ pp_off p ++ pp_rest p.

Definition parts_ok (size : Z) (p : page_parts) : Prop :=
  Z.of_nat (length (pp_data p)) = size /\ length (pp_iv p) = 16%nat /\
  length (pp_mac p) = 64%nat /\ length (pp_off p) = 4%nat /\ length (pp_rest p) = 12%nat.

Lemma split_page (l : list Z) size :
  0 <= size -> Z.of_nat (length l) = size + 96 -> exists p, l = join p /\ parts_ok size p.
Proof.
  intros Hs Hl. set (n := Z.to_nat size).
  exists (Parts (take n l) (take 16 (drop n l)) (take 64 (drop (n + 16) l))
            (take 4 (drop (n + 80) l)) (drop (n + 84) l)).
  unfold join, parts_ok. cbn. rewrite !length_take, !length_drop. split; [|lia].
  rewrite <- (take_drop n l) at 1. f_equal.
  rewrite <- (take_drop 16 (drop n l)) at 1. f_equal. rewrite drop_drop.
  rewrite <- (take_drop 64 (drop (n + 16) l)) at 1. f_equal. rewrite drop_drop.
  replace (n + 16 + 64)%nat with (n + 80)%nat by lia.
  rewrite <- (take_drop 4 (drop (n + 80) l)) at 1. f_equal. rewrite drop_drop. f_equal. lia.
Qed.

Lemma length_join size p : parts_ok size p -> Z.of_nat (length (join p)) = size + 96.
Proof.
  intros (H1 & H2 & H3 & H4 & H5). unfold join. rewrite !length_app, H2, H3, H4, H5. lia.
Qed.

(** Accesses to the parts of a page. *)
Section parts.
  Context (size : Z) (p : page_parts) (Hp : parts_ok size p).

Lemma read_data w : buf_read 0 size (join p) w = Done (pp_data p, w).
  Proof. destruct Hp as (H1 & _). by apply (buf_read_at []). Qed.

Lemma read_iv w : buf_read size 16 (join p) w = Done (pp_iv p, w).
  Proof. destruct Hp as (H1 & H2 & _). by apply buf_read_at; [|rewrite H2]. Qed.

Lemma read_payload w : buf_read 0 (size + 16) (join p) w = Done (pp_data p ++ pp_iv p, w).
  Proof.
    destruct Hp as (H1 & H2 & _). unfold join. rewrite app_assoc.
    apply (buf_read_at []); [done|]. rewrite length_app, H2. lia.
  Qed.

Lemma read_mac w : buf_read (size + 16) 64 (join p) w = Done (pp_mac p, w).
  Proof.
    destruct Hp as (H1 & H2 & H3 & _). unfold join. rewrite (app_assoc (pp_data p)).
    apply buf_read_at; [rewrite length_app, H2|rewrite H3]; lia.
  Qed.

Lemma read_off w : buf_read (size + 16 + 64) 4 (join p) w = Done (pp_off p, w).
  Proof.
    destruct Hp as (H1 & H2 & H3 & H4 & _). unfold join.
    rewrite (app_assoc (pp_data p)), (app_assoc (pp_data p ++ pp_iv p)).
    apply buf_read_at; [rewrite !length_app, H2, H3|rewrite H4]; lia.
  Qed.

Lemma read_all w : buf_read 0 (size + 96) (join p) w = Done (join p, w).
  Proof.
    pose proof (buf_read_at [] (join p) [] 0 (size + 96) w eq_refl) as H.
    rewrite app_nil_r in H. apply H. symmetry. by apply length_join.
  Qed.

Lemma write_data d w :
    Z.of_nat (length d) = size ->
    buf_write 0 d (join p) w
    = Done (join (Parts d (pp_iv p) (pp_mac p) (pp_off p) (pp_rest p)), w).
  Proof. destruct Hp as (H1 & _). intros Hd. apply (buf_write_at []); [done|lia]. Qed.

Lemma write_iv iv w :
    length iv = 16%nat ->
    buf_write size iv (join p) w
    = Done (join (Parts (pp_data p) iv (pp_mac p) (pp_off p) (pp_rest p)), w).
  Proof. destruct Hp as (H1 & H2 & _). intros Hd. apply buf_write_at; lia. Qed.

Lemma write_mac mac w :
    length mac = 64%nat ->
    buf_write (size + 16) mac (join p) w
    = Done (join (Parts (pp_data p) (pp_iv p) mac (pp_off p) (pp_rest p)), w).
  Proof.
    destruct Hp as (H1 & H2 & H3 & _). intros Hd. unfold join. cbn.
    rewrite !(app_assoc (pp_data p)).
    apply buf_write_at; [rewrite length_app, H2|]; lia.
  Qed.

Lemma write_off off w :
    length off = 4%nat ->
    buf_write (size + 16 + 64) off (join p) w
    = Done (join (Parts (pp_data p) (pp_iv p) (pp_mac p) off (pp_rest p)), w).
  Proof.
    destruct Hp as (H1 & H2 & H3 & H4 & _). intros Hd. unfold join. cbn.
    rewrite !(app_assoc (pp_data p)), !(app_assoc (pp_data p ++ pp_iv p)).
    apply buf_write_at; [rewrite !length_app, H2, H3|]; lia.
  Qed.

  (** The reserve, all at once. *)
Lemma write_reserve rb w :
    length rb = 96%nat ->
    buf_write size rb (join p) w
    = Done (join (Parts (pp_data p) (take 16 rb) (take 64 (drop 16 rb))
              (take 4 (drop 80 rb)) (drop 84 rb)), w).
  Proof.
    destruct Hp as (H1 & H2 & H3 & H4 & H5). intros Hr. unfold join. cbn.
    assert (Hrb : rb = take 16 rb ++ take 64 (drop 16 rb) ++ take 4 (drop 80 rb) ++ drop 84 rb).
    { rewrite <- (take_drop 16 rb) at 1. f_equal.
      rewrite <- (take_drop 64 (drop 16 rb)) at 1. f_equal. rewrite drop_drop.
      rewrite <- (take_drop 4 (drop (16 + 64) rb)) at 1. f_equal. by rewrite drop_drop. }
    rewrite <- Hrb.
    pose proof (buf_write_at (pp_data p) (pp_iv p ++ pp_mac p ++ pp_off p ++ pp_rest p) rb [] size w
      ltac:(lia)) as H. rewrite !app_nil_r in H. apply H. rewrite !length_app. lia.
  Qed.
End parts.

(** ** Contexts as [sqlcipher_codec_ctx_init] makes them *)

Record ctx_std (ctx : codec_ctx) : Prop := {
  st_key_sz : key_sz ctx = 32;
  st_iv_sz : iv_sz ctx = 16;
  st_hmac_sz : hmac_sz ctx = 64;
  st_reserve : reserve_sz ctx = 96;
  st_alg : hmac_algorithm ctx = SQLCIPHER_HMAC_SHA512;
  st_hmac : Z.land (flags ctx) CIPHER_FLAG_HMAC <> 0;
  st_skip : skip_read_hmac ctx = 0;
  st_prov : provider ctx = sqlcipher_openssl_setup;
}.

(** The keys the functions use. *)
Definition enc_key (c : cipher_ctx) : list Z := take 32 (key c).
Definition mac_key (c : cipher_ctx) : list Z := take 32 (hmac_key c).

(** The HMAC of a page: ciphertext, IV and page number. *)
Definition page_mac (ctx : codec_ctx) (c : cipher_ctx) (pgno : Z) (data iv : list Z)
  : option (list Z) :=
  HMAC Sha512 (mac_key c) ((data ++ iv) ++ pgno_raw ctx pgno).

Lemma page_hmac_eq ctx c pgno x :
  ctx_std ctx ->
  sqlcipher_page_hmac ctx c pgno x
  = match HMAC Sha512 (mac_key c) (x ++ pgno_raw ctx pgno) with
    | Some t => (SQLITE_OK, Some t) | None => (SQLITE_ERROR, None) end.
Proof.
  intros Hc. unfold sqlcipher_page_hmac. rewrite (st_prov _ Hc), (st_alg _ Hc), (st_key_sz _ Hc).
  done.
Qed.

(** ** The pieces of [sqlcipher_page_cipher] *)

Lemma cipher_error_zero st n out w :
  Z.of_nat (length out) = n ->
  cipher_error st n out w = Done ((SQLITE_ERROR, st, replicate (Z.to_nat n) 0), w).
Proof.
  intros Hl. unfold cipher_error.
  pose proof (buf_write_at [] out (replicate (Z.to_nat n) 0) [] 0 w eq_refl) as H.
  rewrite !app_nil_r in H. cbn [app] in H.
  rewrite (bind_done _ _ _ _ _ (H ltac:(rewrite length_replicate; lia))). done.
Qed.

Lemma run_cipher_spec ctx c mode size p q w :
  ctx_std ctx -> parts_ok size p -> parts_ok size q ->
  run_cipher ctx c mode size (join p) (join q) w
  = match EVP_Cipher mode (enc_key c) (pp_iv q) (pp_data p) with
    | Some y => Done ((SQLITE_OK, join (Parts y (pp_iv q) (pp_mac q) (pp_off q) (pp_rest q))), w)
    | None => Done ((SQLITE_ERROR, join q), w)
    end.
Proof.
  intros Hc Hp Hq. unfold run_cipher. rewrite (st_iv_sz _ Hc), (st_prov _ Hc), (st_key_sz _ Hc).
  rewrite (bind_done _ _ _ _ _ (read_iv size q Hq w)).
  rewrite (bind_done _ _ _ _ _ (read_data size p Hp w)).
  cbn [sqlcipher_openssl_setup p_cipher]. change (take (Z.to_nat 32) (key c)) with (enc_key c).
  destruct (cipher_runs mode (enc_key c) (pp_iv q) (pp_data p) w)
    as (rc & y & Hrun & [(-> & y' & -> & Hy)|(-> & -> & Hy)]);
    rewrite (bind_done _ _ _ _ _ Hrun), Hy; [|done].
  destruct (cipher_length _ _ _ _ _ Hy) as [Hl _]. destruct Hp as (P1 & _).
  by rewrite (bind_done _ _ _ _ _ (write_data size q Hq y' w ltac:(lia))).
Qed.

Lemma cipher_parts size mode k iv p y :
  parts_ok size p -> EVP_Cipher mode k iv (pp_data p) = Some y -> forall iv mac off rest,
  length iv = 16%nat -> length mac = 64%nat -> length off = 4%nat -> length rest = 12%nat ->
  parts_ok size (Parts y iv mac off rest).
Proof.
  intros (H1 & _) Hy iv' mac off rest. destruct (cipher_length _ _ _ _ _ Hy) as [Hl _].
  unfold parts_ok. cbn. intros. split; [lia|done].
Qed.

Lemma mac_parts m k x t : HMAC m k x = Some t -> m = Sha512 -> length t = 64%nat /\ bytes t.
Proof.
  intros H ->. apply HMAC_length in H as [H ?]. rewrite md_size_sha512 in H. split; [lia|done].
Qed.

Lemma mac_swap size q mac :
  parts_ok size q -> length mac = 64%nat ->
  parts_ok size (Parts (pp_data q) (pp_iv q) mac (pp_off q) (pp_rest q)).
Proof. intros (? & ? & ? & ? & ?) Hm. by repeat split. Qed.

(** The tree of a context. *)
Definition ctx_tree (ctx : codec_ctx) (mt : mt_t) (n : Z) : Prop :=
  exists o, tree ctx = Some o /\ obj_mt o = Some mt /\ num_blocks o = n.

Definition leaf (mac : list Z) : list Z := take 32 mac.

Lemma leaf_of_mac mac :
  length mac = 64%nat -> leaf_of mac 32 = leaf mac.
Proof. intros Hm. unfold leaf_of, leaf, HASH_LENGTH. cbn [Z.sub]. by rewrite app_nil_r. Qed.

Lemma leaf_hash mac : length mac = 64%nat -> bytes mac -> is_hash (leaf mac).
Proof. intros Hl Hb. split; [unfold leaf; rewrite length_take; lia|by apply Forall_take]. Qed.

(** Storing the HMAC, the offset and the leaf of an encrypted page. *)
Lemma record_page_spec st c pgno size q mac mt ls w :
  ctx_std (cs_ctx st) -> parts_ok size q ->
  page_mac (cs_ctx st) c pgno (pp_data q) (pp_iv q) = Some mac ->
  ctx_tree (cs_ctx st) mt (Z.of_nat (length ls)) -> tree_rep mt ls ->
  Z.of_nat (S (length ls)) < MT_AL_MAX_ELEMS -> all_ok w ->
  exists st' mt' w',
    record_page st c pgno (size + 96) size (join q) w
    = Done ((SQLITE_OK, st',
        join (Parts (pp_data q) (pp_iv q) mac (le_bytes 4 (Z.of_nat (length ls))) (pp_rest q))), w')
    /\ ctx_tree (cs_ctx st') mt' (Z.of_nat (S (length ls))) /\ tree_rep mt' (ls ++ [leaf mac])
    /\ all_ok w' /\ cs_env st' = cs_env st /\ cs_rng st' = cs_rng st
    /\ cs_ctx st' = set_tree (cs_ctx st) (tree (cs_ctx st')).
Proof.
  intros Hc Hq Hmac (o & Ho & Hmt & Hn) Hrep Hroom Hw.
  destruct (mac_parts _ _ _ _ Hmac eq_refl) as [Hml Hmb]. unfold record_page.
  rewrite (st_iv_sz _ Hc), (st_hmac_sz _ Hc), (bind_done _ _ _ _ _ (read_payload size q Hq w)).
  rewrite page_hmac_eq by done. unfold page_mac in Hmac. rewrite Hmac. cbn [negb Z.eqb SQLITE_OK].
  rewrite (bind_done _ _ _ _ _ (write_mac size q Hq mac w Hml)), Ho. cbn [deref].
  rewrite bind_ret, Hn. assert (Hq1 := mac_swap size q mac Hq Hml).
  rewrite (bind_done _ _ _ _ _ (write_off size _ Hq1 (le_bytes 4 (Z.of_nat (length ls))) w
    ltac:(by rewrite length_le_bytes))).
  cbn [pp_data pp_iv pp_mac pp_off pp_rest].
  assert (Hq2 : parts_ok size (Parts (pp_data q) (pp_iv q) mac
    (le_bytes 4 (Z.of_nat (length ls))) (pp_rest q))).
  { destruct Hq as (? & ? & ? & ? & ?). by repeat split. }
  rewrite (bind_done _ _ _ _ _ (read_mac size _ Hq2 w)). cbn [pp_mac].
  rewrite Hmt. change (Z.quot 64 2) with 32.
  destruct (mt_add_spec mt ls mac 32 w Hrep) as (e & mt' & w' & Ha & Hcase & Hok);
    [unfold HASH_LENGTH; lia|lia|done|done|].
  rewrite (bind_done _ _ _ _ _ Ha). destruct (Hok Hw) as [-> Hw'].
  destruct Hcase as [[_ Hrep']|]; [|done]. cbn [fst snd]. rewrite decide_True by done.
  rewrite leaf_of_mac in Hrep' by done. rewrite u32_small by (unfold MT_AL_MAX_ELEMS in *; lia).
  replace (Z.of_nat (length ls) + 1) with (Z.of_nat (S (length ls))) by lia.
  eexists _, mt', w'. split; [done|]. split; [by eexists|]. done.
Qed.

(** What a read needs of the tree: at the offset [off], [mt_verify] answers for
    the leaves [ls] and nothing else. *)
Definition verifies (mt : mt_t) (ls : list (list Z)) (off : Z) : Prop :=
  forall mac w, length mac = 64%nat -> bytes mac ->
  exists v, mt_verify (Some mt) (Some mac) 32 off w = Done (v, w) /\
    (v = MT_SUCCESS <->
     off < Z.of_nat (length ls) /\ root (<[Z.to_nat off:=leaf mac]> ls) = root ls).

Lemma tree_verifies mt ls off : tree_rep mt ls -> 0 <= off -> verifies mt ls off.
Proof.
  intros Hrep Hoff mac w Hl Hb. destruct (decide (off < Z.of_nat (length ls))) as [Hin|Hout].
  - eexists. split; [apply (mt_verify_spec mt ls mac 32 off w Hrep); unfold HASH_LENGTH; (lia || done)|].
    rewrite leaf_of_mac by done. by case_decide; intuition.
  - exists MT_ERR_ILLEGAL_PARAM. split; [|split; [done|lia]].
    unfold mt_verify. rewrite (tr_elems _ _ Hrep). by replace (_ && _) with false by lia.
Qed.

(** A tree that was saved and reloaded answers the same for every leaf it has. *)
Lemma reloaded_verifies mt ls off :
  reloaded_rep mt ls -> 0 <= off < Z.of_nat (length ls) -> verifies mt ls off.
Proof.
  intros [He Hrep] Hoff mac w Hl Hb. pose proof (saved_size_bound ls (tr_max _ _ Hrep)) as Hsz.
  rewrite (verify_eq mt (Mk_mt (Z.of_nat (length ls)) (level mt))) by (done || cbn; lia).
  by apply (tree_verifies _ ls off Hrep ltac:(lia) mac w).
Qed.

(** A tree pages can be read with. *)
Definition readable (mt : mt_t) (ls : list (list Z)) : Prop := tree_rep mt ls \/ reloaded_rep mt ls.

Lemma readable_verifies mt ls off :
  readable mt ls -> 0 <= off < Z.of_nat (length ls) -> verifies mt ls off.
Proof. intros [H|H] Hoff; [apply tree_verifies; [done|lia]|by apply reloaded_verifies]. Qed.

Lemma readable_max mt ls : readable mt ls -> Z.of_nat (length ls) < MT_AL_MAX_ELEMS.
Proof. by intros [[]|[_ []]]. Qed.

(** Checking a page read from disk. *)
Lemma check_page_spec st c pgno size p q mt n ls w :
  ctx_std (cs_ctx st) -> parts_ok size p -> parts_ok size q -> bytes (pp_mac p) ->
  bytes (pp_off p) ->
  ctx_tree (cs_ctx st) mt n -> verifies mt ls (le_val (pp_off p)) ->
  0 <= size ->
  exists q', parts_ok size q' /\ pp_iv q' = pp_iv q /\
  check_page st c pgno (size + 96) size (join p) (join q) w
  = Done (match page_mac (cs_ctx st) c pgno (pp_data p) (pp_iv p) with
          | None => (PageBad, st, join q')
          | Some mac =>
              if decide (pp_mac p = mac) then
                if decide (le_val (pp_off p) < Z.of_nat (length ls) /\
                           root (<[Z.to_nat (le_val (pp_off p)):=leaf mac]> ls) = root ls)
                then (PageOk, count_page st, join q') else (PageBad, st, join q')
              else if decide (join p = replicate (Z.to_nat (size + 96)) 0)
                   then (PageEmpty, st, join q') else (PageBad, st, join q')
          end, w).
Proof.
  intros Hc Hp Hq Hmb Hob (o & Ho & Hmt & Hn) Hver Hs.
  pose proof (length_join size p Hp) as Hjl. pose proof Hp as (_ & _ & P3 & _).
  unfold check_page. rewrite (st_iv_sz _ Hc), (st_hmac_sz _ Hc).
  rewrite (bind_done _ _ _ _ _ (read_payload size p Hp w)), page_hmac_eq by done.
  unfold page_mac. destruct (HMAC Sha512 (mac_key c) _) as [mac|] eqn:Hmac.
  2:{ exists q. split; [done|]. split; [done|]. done. }
  destruct (mac_parts _ _ _ _ Hmac eq_refl) as [Hml _]. cbn [negb Z.eqb SQLITE_OK].
  assert (Hq1 := mac_swap size q mac Hq Hml). eexists. split; [exact Hq1|]. split; [done|].
  rewrite (bind_done _ _ _ _ _ (write_mac size q Hq mac w Hml)).
  rewrite (bind_done _ _ _ _ _ (read_mac size p Hp w)).
  rewrite (bind_done _ _ _ _ _ (read_mac size _ Hq1 w)). cbn [pp_mac].
  rewrite sqlcipher_memcmp_spec by lia.
  destruct (decide (pp_mac p = mac)) as [Heq|Hne]; cbn [negb Z.eqb].
  - rewrite (bind_done _ _ _ _ _ (read_off size p Hp w)), Ho. cbn [deref].
    rewrite bind_ret, Hmt, Heq. change (Z.quot 64 2) with 32.
    rewrite Heq in Hmb. destruct (Hver mac w Hml Hmb) as (v & Hv & Hiff).
    rewrite (bind_done _ _ _ _ _ Hv). repeat case_decide; try done; tauto.
  - rewrite (bind_done _ _ _ _ _ (read_all size p Hp w)), sqlcipher_ismemset_spec.
    replace (length (join p)) with (Z.to_nat (size + 96)) by lia. by repeat case_decide.
Qed.

(** ** Encryption *)

(** The page an encryption produces. *)
Definition enc_page (ct rb mac : list Z) (n : Z) : list Z :=
  join (Parts ct (take 16 rb) mac (le_bytes 4 n) (drop 84 rb)).

(** Up to the HMAC: random reserve and ciphertext. *)
Lemma page_encrypt_eq st for_ctx c pgno size p out w :
  ctx_std (cs_ctx st) -> get_ctx (cs_ctx st) for_ctx = Some c ->
  parts_ok size p -> Z.of_nat (length out) = size + 96 -> 0 <= size ->
  let failed r := Done ((SQLITE_ERROR, with_rng (count_call st CIPHER_ENCRYPT) r,
                         replicate (Z.to_nat (size + 96)) 0), w) in
  sqlcipher_page_cipher st for_ctx pgno CIPHER_ENCRYPT (size + 96) (join p) out w
  = match RAND_bytes (cs_rng st) 96 with
    | (None, r') => failed r'
    | (Some rb, r') =>
        match EVP_Cipher CIPHER_ENCRYPT (enc_key c) (take 16 rb) (pp_data p) with
        | None => failed r'
        | Some ct =>
            record_page (with_rng (count_call st CIPHER_ENCRYPT) r') c pgno (size + 96) size
              (join (Parts ct (take 16 rb) (take 64 (drop 16 rb)) (take 4 (drop 80 rb)) (drop 84 rb))) w
        end
    end.
Proof.
  intros Hc Hctx Hp Hout Hs failed. destruct (split_page out size Hs Hout) as (q & -> & Hq).
  unfold sqlcipher_page_cipher. set (st1 := count_call st CIPHER_ENCRYPT).
  change (cs_ctx st1) with (cs_ctx st). change (cs_rng st1) with (cs_rng st).
  rewrite Hctx. cbn [deref]. rewrite bind_ret, (st_reserve _ Hc), (st_key_sz _ Hc), (st_prov _ Hc).
  replace (size + 96 - 96) with size by lia.
  cbn [Z.eqb CIPHER_ENCRYPT Pos.eqb sqlcipher_openssl_setup p_random].
  unfold sqlcipher_openssl_random. destruct (RAND_bytes (cs_rng st) 96) as [[rb|] r'] eqn:Hrand;
    cbn [negb Z.eqb SQLITE_ERROR SQLITE_OK default]; [|by rewrite cipher_error_zero].
  destruct (RAND_length _ _ _ _ Hrand) as [Hrl _].
  rewrite (bind_done _ _ _ _ _ (write_reserve size q Hq rb w ltac:(lia))). set (q1 := Parts _ _ _ _ _).
  assert (Hq1 : parts_ok size q1).
  { destruct Hq as (? & _). unfold parts_ok, q1. cbn. rewrite !length_take, !length_drop. lia. }
  pose proof (run_cipher_spec (cs_ctx st) c CIPHER_ENCRYPT size p q1 w Hc Hp Hq1) as Hrun.
  change (pp_iv q1) with (take 16 rb) in Hrun. destruct (EVP_Cipher _ _ _ _) as [ct|];
    rewrite (bind_done _ _ _ _ _ Hrun); cbn [fst snd negb Z.eqb SQLITE_OK SQLITE_ERROR].
  - by replace (Z.land _ _ =? 0) with false by (pose proof (st_hmac _ Hc); lia).
  - by rewrite cipher_error_zero by by apply length_join.
Qed.

Lemma encrypted_parts size p rb r r' ct k :
  parts_ok size p -> RAND_bytes r 96 = (Some rb, r') -> EVP_Cipher CIPHER_ENCRYPT k (take 16 rb) (pp_data p) = Some ct ->
  parts_ok size (Parts ct (take 16 rb) (take 64 (drop 16 rb)) (take 4 (drop 80 rb)) (drop 84 rb)).
Proof.
  intros Hp Hrand Henc. destruct (RAND_length _ _ _ _ Hrand) as [Hrl _].
  eapply cipher_parts; [exact Hp|exact Henc|..]; rewrite ?length_take, ?length_drop; lia.
Qed.

Lemma page_encrypt_spec st for_ctx c pgno size p out rb r' ct mac mt ls w :
  ctx_std (cs_ctx st) -> get_ctx (cs_ctx st) for_ctx = Some c ->
  parts_ok size p -> Z.of_nat (length out) = size + 96 -> 0 <= size ->
  RAND_bytes (cs_rng st) 96 = (Some rb, r') ->
  EVP_Cipher CIPHER_ENCRYPT (enc_key c) (take 16 rb) (pp_data p) = Some ct ->
  page_mac (cs_ctx st) c pgno ct (take 16 rb) = Some mac ->
  ctx_tree (cs_ctx st) mt (Z.of_nat (length ls)) -> tree_rep mt ls ->
  Z.of_nat (S (length ls)) < MT_AL_MAX_ELEMS -> all_ok w ->
  exists st' mt' w',
    sqlcipher_page_cipher st for_ctx pgno CIPHER_ENCRYPT (size + 96) (join p) out w
    = Done ((SQLITE_OK, st', enc_page ct rb mac (Z.of_nat (length ls))), w')
    /\ ctx_tree (cs_ctx st') mt' (Z.of_nat (S (length ls))) /\ tree_rep mt' (ls ++ [leaf mac])
    /\ all_ok w' /\ cs_env st' = cs_env st /\ cs_rng st' = r'
    /\ cs_ctx st' = set_tree (cs_ctx st) (tree (cs_ctx st')).
Proof.
  intros Hc Hctx Hp Hout Hs Hrand Henc Hmac Htree Hrep Hroom Hw.
  rewrite (page_encrypt_eq st for_ctx c) by done. rewrite Hrand, Henc.
  exact (record_page_spec (with_rng (count_call st CIPHER_ENCRYPT) r') c pgno size _ mac mt ls w
    Hc (encrypted_parts _ _ _ _ _ _ _ Hp Hrand Henc) Hmac Htree Hrep Hroom Hw).
Qed.

(** A reloaded tree refuses the leaf. *)
Lemma record_page_fails st c pgno size q mac mt n ls w :
  ctx_std (cs_ctx st) -> parts_ok size q ->
  page_mac (cs_ctx st) c pgno (pp_data q) (pp_iv q) = Some mac ->
  ctx_tree (cs_ctx st) mt n -> reloaded_rep mt ls ->
  Z.of_nat (S (length ls)) < MT_AL_MAX_ELEMS ->
  exists st' w', record_page st c pgno (size + 96) size (join q) w
    = Done ((SQLITE_ERROR, st', replicate (Z.to_nat (size + 96)) 0), w').
Proof.
  intros Hc Hq Hmac (o & Ho & Hmt & Hn) Hrel Hroom.
  destruct (mac_parts _ _ _ _ Hmac eq_refl) as [Hml Hmb]. unfold record_page.
  rewrite (st_iv_sz _ Hc), (st_hmac_sz _ Hc), (bind_done _ _ _ _ _ (read_payload size q Hq w)).
  rewrite page_hmac_eq by done. unfold page_mac in Hmac. rewrite Hmac. cbn [negb Z.eqb SQLITE_OK].
  rewrite (bind_done _ _ _ _ _ (write_mac size q Hq mac w Hml)), Ho. cbn [deref].
  rewrite bind_ret. assert (Hq1 := mac_swap size q mac Hq Hml).
  rewrite (bind_done _ _ _ _ _ (write_off size _ Hq1 (le_bytes 4 (num_blocks o)) w
    ltac:(by rewrite length_le_bytes))).
  cbn [pp_data pp_iv pp_mac pp_off pp_rest].
  assert (Hq2 : parts_ok size (Parts (pp_data q) (pp_iv q) mac (le_bytes 4 (num_blocks o)) (pp_rest q))).
  { destruct Hq as (? & ? & ? & ? & ?). by repeat split. }
  rewrite (bind_done _ _ _ _ _ (read_mac size _ Hq2 w)). cbn [pp_mac].
  rewrite Hmt. change (Z.quot 64 2) with 32.
  destruct (mt_add_reloaded mt ls mac 32 w Hrel) as (e & mt' & w' & Ha & He & _);
    [unfold HASH_LENGTH; lia|lia|done|done|].
  rewrite (bind_done _ _ _ _ _ Ha). cbn [fst snd].
  rewrite decide_False by (by destruct He as [->| ->]).
  rewrite cipher_error_zero by by apply length_join. by eexists _, w'.
Qed.

(** ** Decryption *)

(** The conditions under which a page is taken for genuine: its HMAC is right
    and, with the stored offset, its leaf fits the Merkle root. *)
Definition accepts (ctx : codec_ctx) (c : cipher_ctx) (pgno : Z) (ls : list (list Z))
    (p : page_parts) : Prop :=
  page_mac ctx c pgno (pp_data p) (pp_iv p) = Some (pp_mac p) /\
  le_val (pp_off p) < Z.of_nat (length ls) /\
  root (<[Z.to_nat (le_val (pp_off p)):=leaf (pp_mac p)]> ls) = root ls.

(** The decrypted page in the output buffer. *)
Lemma decrypted_page size p q k iv y :
  parts_ok size p -> parts_ok size q -> length iv = 16%nat -> EVP_Cipher CIPHER_DECRYPT k iv (pp_data p) = Some y ->
  Z.of_nat (length (join (Parts y iv (pp_mac q) (pp_off q) (pp_rest q)))) = size + 96 /\
  take (Z.to_nat size) (join (Parts y iv (pp_mac q) (pp_off q) (pp_rest q))) = y.
Proof.
  intros Hp (_ & _ & ? & ? & ?) Hiv Hdec.
  assert (Hy : parts_ok size (Parts y iv (pp_mac q) (pp_off q) (pp_rest q))) by (eapply cipher_parts; [exact Hp|exact Hdec|done..]).
  split; [by apply length_join|]. unfold join. destruct Hy as (Hy & _). cbn [pp_data] in *.
  rewrite take_app_le by lia. apply take_ge. lia.
Qed.

Lemma page_decrypt_gen st for_ctx c pgno size p out mt n ls w :
  ctx_std (cs_ctx st) -> get_ctx (cs_ctx st) for_ctx = Some c ->
  parts_ok size p -> bytes (join p) -> Z.of_nat (length out) = size + 96 -> 0 <= size ->
  ctx_tree (cs_ctx st) mt n -> verifies mt ls (le_val (pp_off p)) ->
  exists rc st' out',
    sqlcipher_page_cipher st for_ctx pgno CIPHER_DECRYPT (size + 96) (join p) out w
    = Done ((rc, st', out'), w) /\ cs_ctx st' = cs_ctx st /\ cs_env st' = cs_env st /\
    ((accepts (cs_ctx st) c pgno ls p /\ rc = SQLITE_OK /\ exists y,
        EVP_Cipher CIPHER_DECRYPT (enc_key c) (pp_iv p) (pp_data p) = Some y /\
        Z.of_nat (length out') = size + 96 /\ take (Z.to_nat size) out' = y) \/
     (join p = replicate (Z.to_nat (size + 96)) 0 /\
      page_mac (cs_ctx st) c pgno (pp_data p) (pp_iv p) <> Some (pp_mac p) /\
      rc = SQLITE_OK /\ out' = replicate (Z.to_nat (size + 96)) 0) \/
     (rc = SQLITE_ERROR /\ out' = replicate (Z.to_nat (size + 96)) 0 /\
      ~ (accepts (cs_ctx st) c pgno ls p /\
         EVP_Cipher CIPHER_DECRYPT (enc_key c) (pp_iv p) (pp_data p) <> None))).
Proof.
  intros Hc Hctx Hp Hpb Hout Hs Htree Hver.
  destruct (split_page out size Hs Hout) as (q & -> & Hq).
  unfold join in Hpb. rewrite !Forall_app in Hpb. destruct Hpb as (_ & _ & Hmb & Hob & _).
  unfold sqlcipher_page_cipher. set (st1 := count_call st CIPHER_DECRYPT).
  change (cs_ctx st1) with (cs_ctx st). rewrite Hctx. cbn [deref].
  rewrite bind_ret, (st_reserve _ Hc), (st_key_sz _ Hc), (st_iv_sz _ Hc).
  replace (size + 96 - 96) with size by lia.
  cbn [Z.eqb CIPHER_ENCRYPT CIPHER_DECRYPT].
  rewrite (bind_done _ _ _ _ _ (read_iv size p Hp w)).
  pose proof Hp as (_ & P2 & _).
  rewrite (bind_done _ _ _ _ _ (write_iv size q Hq (pp_iv p) w P2)).
  replace (Z.land _ _ =? 0) with false by (pose proof (st_hmac _ Hc); lia).
  rewrite (st_skip _ Hc). cbn [negb andb Z.eqb].
  assert (Hq1 : parts_ok size (Parts (pp_data q) (pp_iv p) (pp_mac q) (pp_off q) (pp_rest q))).
  { destruct Hq as (? & ? & ? & ? & ?). by repeat split. }
  destruct (check_page_spec st1 c pgno size p _ mt n ls w Hc Hp Hq1 Hmb Hob Htree
    Hver Hs) as (q' & Hq' & Hiv & Hcheck).
  rewrite (bind_done _ _ _ _ _ Hcheck). clear Hcheck. cbn [pp_iv] in Hiv.
  change (cs_ctx st1) with (cs_ctx st).
  assert (Herr : forall st2, cipher_error st2 (size + 96) (join q') w
    = Done ((SQLITE_ERROR, st2, replicate (Z.to_nat (size + 96)) 0), w)).
  { intros st2. apply cipher_error_zero. by apply length_join. }
  destruct (page_mac (cs_ctx st) c pgno (pp_data p) (pp_iv p)) as [mac|] eqn:Hmac; last first.
  { rewrite Herr. eexists _, _, _. split; [done|]. split; [done|]. split; [done|].
    right; right. split; [done|]. split; [done|]. intros [[Hm _] _]. congruence. }
  destruct (decide (pp_mac p = mac)) as [<-|Hne]; last first.
  - destruct (decide (join p = replicate (Z.to_nat (size + 96)) 0)) as [Hz|Hnz].
    + pose proof (buf_write_at [] (join q') (replicate (Z.to_nat (size + 96)) 0) [] 0 w eq_refl) as Hbw.
      rewrite !app_nil_r in Hbw. cbn [app] in Hbw.
      rewrite (bind_done _ _ _ _ _ (Hbw ltac:(rewrite length_replicate;
        pose proof (length_join size q' Hq'); lia))).
      eexists _, _, _. split; [done|]. split; [done|]. split; [done|].
      right; left. split; [done|]. split; [congruence|done].
    + rewrite Herr. eexists _, _, _. split; [done|]. split; [done|]. split; [done|].
      right; right. split; [done|]. split; [done|]. intros [[Hm _] _]. congruence.
  - destruct (decide (le_val (pp_off p) < Z.of_nat (length ls) /\
      root (<[Z.to_nat (le_val (pp_off p)):=leaf (pp_mac p)]> ls) = root ls)) as [[Hin Hroot]|Hno];
      last first.
    { rewrite Herr. eexists _, _, _. split; [done|]. split; [done|]. split; [done|].
      right; right. split; [done|]. split; [done|]. intros [(_ & ? & ?) _]. tauto. }
    assert (Hacc : accepts (cs_ctx st) c pgno ls p) by (by repeat split).
    pose proof (run_cipher_spec (cs_ctx st) c CIPHER_DECRYPT size p q' w Hc Hp Hq') as Hrun.
    rewrite Hiv in Hrun.
    destruct (EVP_Cipher CIPHER_DECRYPT (enc_key c) (pp_iv p) (pp_data p)) as [y|] eqn:Hdec;
      rewrite (bind_done _ _ _ _ _ Hrun); cbn [fst snd negb Z.eqb SQLITE_OK SQLITE_ERROR].
    + eexists _, _, _. split; [done|]. split; [done|]. split; [done|]. left.
      split; [done|]. split; [done|]. exists y. split; [done|]. eapply (decrypted_page size p q'); [done|done|by destruct Hp as (_ & ? & _)|exact Hdec].
    + rewrite Herr. eexists _, _, _. split; [done|]. split; [done|]. split; [done|].
      right; right. split; [done|]. split; [done|]. by intros [_ ?].
Qed.

Lemma page_decrypt_spec st for_ctx c pgno size p out mt n ls w :
  ctx_std (cs_ctx st) -> get_ctx (cs_ctx st) for_ctx = Some c ->
  parts_ok size p -> bytes (join p) -> Z.of_nat (length out) = size + 96 -> 0 <= size ->
  ctx_tree (cs_ctx st) mt n -> tree_rep mt ls ->
  exists rc st' out',
    sqlcipher_page_cipher st for_ctx pgno CIPHER_DECRYPT (size + 96) (join p) out w
    = Done ((rc, st', out'), w) /\ cs_ctx st' = cs_ctx st /\ cs_env st' = cs_env st /\
    ((accepts (cs_ctx st) c pgno ls p /\ rc = SQLITE_OK /\ exists y,
        EVP_Cipher CIPHER_DECRYPT (enc_key c) (pp_iv p) (pp_data p) = Some y /\
        Z.of_nat (length out') = size + 96 /\ take (Z.to_nat size) out' = y) \/
     (join p = replicate (Z.to_nat (size + 96)) 0 /\
      page_mac (cs_ctx st) c pgno (pp_data p) (pp_iv p) <> Some (pp_mac p) /\
      rc = SQLITE_OK /\ out' = replicate (Z.to_nat (size + 96)) 0) \/
     (rc = SQLITE_ERROR /\ out' = replicate (Z.to_nat (size + 96)) 0 /\
      ~ (accepts (cs_ctx st) c pgno ls p /\
         EVP_Cipher CIPHER_DECRYPT (enc_key c) (pp_iv p) (pp_data p) <> None))).
Proof.
  intros Hc Hctx Hp Hpb Hout Hs Htree Hrep. apply (page_decrypt_gen st for_ctx c pgno size p out mt n); try done.
  apply tree_verifies; [done|]. unfold join in Hpb. rewrite !Forall_app in Hpb. by apply le_val_range, Hpb.
Qed.

(** ** A page that was encrypted and its later readers *)

(** A state whose read keys, page-number order and tree fit a page written with
    the cipher context [c] by the context [ctx0]. *)
Record reader (ctx0 : codec_ctx) (c : cipher_ctx) (st : codec_state) (c2 : cipher_ctx)
    (ls : list (list Z)) : Prop := {
  rd_std : ctx_std (cs_ctx st);
  rd_flags : flags (cs_ctx st) = flags ctx0;
  rd_ctx : get_ctx (cs_ctx st) CIPHER_READ_CTX = Some c2;
  rd_key : enc_key c2 = enc_key c;
  rd_mac : mac_key c2 = mac_key c;
  rd_tree : exists mt n, ctx_tree (cs_ctx st) mt n /\ readable mt ls;
}.

Lemma enc_page_parts ct rb mac n size p k iv :
  parts_ok size p -> EVP_Cipher CIPHER_ENCRYPT k iv (pp_data p) = Some ct ->
  length rb = 96%nat -> length mac = 64%nat ->
  parts_ok size (Parts ct (take 16 rb) mac (le_bytes 4 n) (drop 84 rb)).
Proof.
  intros Hp Henc Hrb Hmac. eapply cipher_parts; [exact Hp|exact Henc|..];
    rewrite ?length_take, ?length_drop, ?length_le_bytes; lia.
Qed.

Lemma enc_page_read ctx0 c st2 c2 ls2 pgno size p rb r r' ct mac i out w :
  parts_ok size p -> bytes (pp_data p) -> 0 <= size ->
  RAND_bytes r 96 = (Some rb, r') ->
  EVP_Cipher CIPHER_ENCRYPT (enc_key c) (take 16 rb) (pp_data p) = Some ct ->
  page_mac ctx0 c pgno ct (take 16 rb) = Some mac ->
  reader ctx0 c st2 c2 ls2 -> ls2 !! i = Some (leaf mac) ->
  Z.of_nat (length out) = size + 96 ->
  exists st3 out', sqlcipher_page_cipher st2 CIPHER_READ_CTX pgno CIPHER_DECRYPT (size + 96)
      (enc_page ct rb mac (Z.of_nat i)) out w = Done ((SQLITE_OK, st3, out'), w) /\
    Z.of_nat (length out') = size + 96 /\ take (Z.to_nat size) out' = pp_data p /\
    cs_ctx st3 = cs_ctx st2 /\ cs_env st3 = cs_env st2.
Proof.
  intros Hp Hb Hs Hrand Henc Hmac [Hstd Hfl Hctx Hk Hm (mt & n & Htree & Hrep)] Hi Hout.
  destruct (RAND_length _ _ _ _ Hrand) as [Hrl Hrb].
  destruct (mac_parts _ _ _ _ Hmac eq_refl) as [Hml Hmb].
  destruct (cipher_length _ _ _ _ _ Henc) as [_ Hcb].
  pose proof (lookup_lt_Some _ _ _ Hi) as Hlt. pose proof (readable_max _ _ Hrep) as Hmax.
  assert (Hval : le_val (le_bytes 4 (Z.of_nat i)) = Z.of_nat i).
  { apply le_val_bytes_small. unfold MT_AL_MAX_ELEMS in Hmax. cbn. lia. }
  set (q := Parts ct (take 16 rb) mac (le_bytes 4 (Z.of_nat i)) (drop 84 rb)).
  assert (Hq : parts_ok size q) by (eapply enc_page_parts; [exact Hp|exact Henc|lia|done]).
  destruct (page_decrypt_gen st2 CIPHER_READ_CTX c2 pgno size q out mt n ls2 w Hstd Hctx Hq)
    as (rc & st3 & out' & Hrun & Hcx & Hev & Hcase); [|done|done|done|..].
  { unfold q, join. cbn [pp_data pp_iv pp_mac pp_off pp_rest]. rewrite !Forall_app.
    split_and!; auto using Forall_take, Forall_drop, le_bytes_bytes. }
  { apply readable_verifies; [done|]. unfold q. cbn [pp_off]. rewrite Hval. lia. }
  assert (Hdec : EVP_Cipher CIPHER_DECRYPT (enc_key c2) (pp_iv q) (pp_data q) = Some (pp_data p)).
  { rewrite Hk. by apply cipher_inverse. }
  assert (Hacc : accepts (cs_ctx st2) c2 pgno ls2 q).
  { unfold accepts, page_mac, q. cbn [pp_data pp_iv pp_mac pp_off]. rewrite Hm.
    unfold pgno_raw. rewrite Hfl. split; [done|]. rewrite Hval, Nat2Z.id.
    split; [lia|]. by rewrite list_insert_id. }
  destruct Hcase as [(_ & -> & y & Hy & Hl & Htk)|[(_ & Hno & _)|(_ & _ & Hno)]].
  - exists st3, out'. split; [done|]. split; [done|]. split; [congruence|done].
  - exfalso. apply Hno. by destruct Hacc as [? _].
  - exfalso. apply Hno. split; [done|]. by rewrite Hdec.
Qed.

(** ** The theorems *)

(** C8. Encrypting and decrypting a page is a round trip through the Merkle
    tree: the encryption appends exactly one leaf and yields a page of the same
    length, and every later reader with the same keys whose tree still starts
    with the leaves of that moment decrypts it to the original usable bytes. *)
Theorem page_roundtrip st for_ctx c pgno size p out rb r' ct mac mt ls w :
  ctx_std (cs_ctx st) -> get_ctx (cs_ctx st) for_ctx = Some c ->
  parts_ok size p -> bytes (pp_data p) -> Z.of_nat (length out) = size + 96 -> 0 <= size ->
  RAND_bytes (cs_rng st) 96 = (Some rb, r') ->
  EVP_Cipher CIPHER_ENCRYPT (enc_key c) (take 16 rb) (pp_data p) = Some ct ->
  page_mac (cs_ctx st) c pgno ct (take 16 rb) = Some mac ->
  ctx_tree (cs_ctx st) mt (Z.of_nat (length ls)) -> tree_rep mt ls ->
  Z.of_nat (S (length ls)) < MT_AL_MAX_ELEMS -> all_ok w ->
  exists st1 page w1 mt1 leaf1,
    sqlcipher_page_cipher st for_ctx pgno CIPHER_ENCRYPT (size + 96) (join p) out w
      = Done ((SQLITE_OK, st1, page), w1) /\
    Z.of_nat (length page) = size + 96 /\
    ctx_tree (cs_ctx st1) mt1 (Z.of_nat (S (length ls))) /\ tree_rep mt1 (ls ++ [leaf1]) /\
    forall st2 c2 ls2 out2 w2,
      reader (cs_ctx st) c st2 c2 ls2 -> (ls ++ [leaf1]) `prefix_of` ls2 ->
      Z.of_nat (length out2) = size + 96 ->
      exists st3 out',
        sqlcipher_page_cipher st2 CIPHER_READ_CTX pgno CIPHER_DECRYPT (size + 96) page out2 w2
          = Done ((SQLITE_OK, st3, out'), w2) /\
        Z.of_nat (length out') = size + 96 /\ take (Z.to_nat size) out' = pp_data p.
Proof.
  intros Hc Hctx Hp Hb Hout Hs Hrand Henc Hmac Htree Hrep Hroom Hw.
  destruct (page_encrypt_spec st for_ctx c pgno size p out rb r' ct mac mt ls w)
    as (st1 & mt1 & w1 & Hrun & Htree1 & Hrep1 & _); [done..|].
  destruct (RAND_length _ _ _ _ Hrand) as [Hrl _].
  destruct (mac_parts _ _ _ _ Hmac eq_refl) as [Hml _].
  exists st1, (enc_page ct rb mac (Z.of_nat (length ls))), w1, mt1, (leaf mac).
  split; [done|]. split.
  { apply length_join. eapply enc_page_parts; [exact Hp|exact Henc|lia|done]. }
  split; [done|]. split; [done|]. intros st2 c2 ls2 out2 w2 Hrd [more ->] Hout2.
  destruct (enc_page_read (cs_ctx st) c st2 c2 ((ls ++ [leaf mac]) ++ more) pgno size p rb _ r' ct mac
    (length ls) out2 w2 Hp Hb Hs Hrand Henc Hmac Hrd) as (st3 & out' & Hrun3 & Hl3 & Ht3 & _);
    [|done|by exists st3, out'].
  by rewrite <- app_assoc, lookup_app_r, Nat.sub_diag by lia.
Qed.

(** C10. A page that decrypts without an error is genuine: it is all zeros (what
    SQLite sees past the end of a file), or its HMAC under the read key is right
    for its page number, the offset it names is one of the tree, and the leaf
    stored there is that of the page, or [tree_collision] finds, on the way from
    that leaf to the root, two different pairs of nodes with the same hash. *)
Theorem page_authentic st for_ctx c pgno size p out mt n ls w rc st' out' w' :
  ctx_std (cs_ctx st) -> get_ctx (cs_ctx st) for_ctx = Some c ->
  parts_ok size p -> bytes (join p) -> Z.of_nat (length out) = size + 96 -> 0 <= size ->
  ctx_tree (cs_ctx st) mt n -> tree_rep mt ls ->
  sqlcipher_page_cipher st for_ctx pgno CIPHER_DECRYPT (size + 96) (join p) out w
    = Done ((rc, st', out'), w') ->
  rc = SQLITE_OK -> join p <> replicate (Z.to_nat (size + 96)) 0 ->
  page_mac (cs_ctx st) c pgno (pp_data p) (pp_iv p) = Some (pp_mac p) /\
  le_val (pp_off p) < Z.of_nat (length ls) /\
  (ls !! Z.to_nat (le_val (pp_off p)) = Some (leaf (pp_mac p)) \/
   exists x y, tree_collision (<[Z.to_nat (le_val (pp_off p)) := leaf (pp_mac p)]> ls) ls = Some (x, y) /\ collides x y).
Proof.
  intros Hc Hctx Hp Hb Hout Hs Htree Hrep Hrun Hrc Hnz.
  destruct (page_decrypt_spec st for_ctx c pgno size p out mt n ls w Hc Hctx Hp Hb Hout Hs Htree Hrep)
    as (rc2 & st2 & out2 & Hrun2 & _ & _ & Hcase).
  rewrite Hrun in Hrun2. injection Hrun2 as <- <- <- <-.
  destruct Hcase as [((Hm & Hoff & Hroot) & _)|[[? _]|[? _]]]; [|done|by rewrite Hrc in *].
  split; [done|]. set (i := Z.to_nat (le_val (pp_off p))) in *.
  pose proof Hp as (_ & _ & Hl & _). unfold join in Hb. rewrite !Forall_app in Hb.
  destruct Hb as (_ & _ & Hmb & Hob & _). pose proof (le_val_range _ Hob) as [H0 _].
  destruct (lookup_lt_is_Some_2 ls i) as [h Hi]; [lia|].
  split; [done|]. apply (root_insert_iff ls i h _ Hi) in Hroot as [->|[[x y] E]]; [by left|]. right. exists x, y.
  split; [done|]. eapply insert_collides; [apply Hrep|by apply leaf_hash| |exact E]. lia.
Qed.

(** A page whose HMAC does not match its contents, IV and page number, and
    which is not all zeros, is rejected: the result is SQLITE_ERROR and the
    output buffer holds only zeros. *)
Theorem page_tampered_rejected st for_ctx c pgno size p out mt n ls w :
  ctx_std (cs_ctx st) -> get_ctx (cs_ctx st) for_ctx = Some c ->
  parts_ok size p -> bytes (join p) -> Z.of_nat (length out) = size + 96 -> 0 <= size ->
  ctx_tree (cs_ctx st) mt n -> tree_rep mt ls ->
  page_mac (cs_ctx st) c pgno (pp_data p) (pp_iv p) <> Some (pp_mac p) ->
  join p <> replicate (Z.to_nat (size + 96)) 0 ->
  exists st', sqlcipher_page_cipher st for_ctx pgno CIPHER_DECRYPT (size + 96) (join p) out w
    = Done ((SQLITE_ERROR, st', replicate (Z.to_nat (size + 96)) 0), w).
Proof.
  intros Hc Hctx Hp Hb Hout Hs Htree Hrep Hm Hnz.
  destruct (page_decrypt_spec st for_ctx c pgno size p out mt n ls w Hc Hctx Hp Hb Hout Hs Htree Hrep)
    as (rc & st' & out' & Hrun & _ & _ & Hcase).
  destruct Hcase as [((Hm' & _) & _)|[[? _]|(-> & -> & _)]]; [done|done|by exists st'].
Qed.

(** C40. The Merkle check does not establish freshness: after a page has been
    encrypted a second time, with new contents, the page image of the first
    time still decrypts successfully to the old contents, because the old leaf
    is never removed from the tree. *)
Theorem page_stale_accepted st c pgno size p1 p2 out rb1 rb2 r1 r2 ct1 ct2 mac1 mac2 mt ls w :
  ctx_std (cs_ctx st) -> get_ctx (cs_ctx st) CIPHER_WRITE_CTX = Some c ->
  get_ctx (cs_ctx st) CIPHER_READ_CTX = Some c ->
  parts_ok size p1 -> parts_ok size p2 -> bytes (pp_data p1) ->
  Z.of_nat (length out) = size + 96 -> 0 <= size ->
  RAND_bytes (cs_rng st) 96 = (Some rb1, r1) -> RAND_bytes r1 96 = (Some rb2, r2) ->
  EVP_Cipher CIPHER_ENCRYPT (enc_key c) (take 16 rb1) (pp_data p1) = Some ct1 ->
  EVP_Cipher CIPHER_ENCRYPT (enc_key c) (take 16 rb2) (pp_data p2) = Some ct2 ->
  page_mac (cs_ctx st) c pgno ct1 (take 16 rb1) = Some mac1 ->
  page_mac (cs_ctx st) c pgno ct2 (take 16 rb2) = Some mac2 ->
  ctx_tree (cs_ctx st) mt (Z.of_nat (length ls)) -> tree_rep mt ls ->
  Z.of_nat (S (S (length ls))) < MT_AL_MAX_ELEMS -> all_ok w ->
  exists st1 page1 w1 st2 page2 w2 st3 out',
    sqlcipher_page_cipher st CIPHER_WRITE_CTX pgno CIPHER_ENCRYPT (size + 96) (join p1) out w
      = Done ((SQLITE_OK, st1, page1), w1) /\
    sqlcipher_page_cipher st1 CIPHER_WRITE_CTX pgno CIPHER_ENCRYPT (size + 96) (join p2) out w1
      = Done ((SQLITE_OK, st2, page2), w2) /\
    sqlcipher_page_cipher st2 CIPHER_READ_CTX pgno CIPHER_DECRYPT (size + 96) page1 out w2
      = Done ((SQLITE_OK, st3, out'), w2) /\
    take (Z.to_nat size) out' = pp_data p1.
Proof.
  intros Hc Hwr Hrd Hp1 Hp2 Hb Hout Hs Hr1 Hr2 He1 He2 Hm1 Hm2 Htree Hrep Hroom Hw.
  destruct (page_encrypt_spec st CIPHER_WRITE_CTX c pgno size p1 out rb1 r1 ct1 mac1 mt ls w)
    as (st1 & mt1 & w1 & Hrun1 & Htree1 & Hrep1 & Hw1 & _ & Hrng1 & Hctx1); [done..|lia|done|].
  assert (Hlen1 : length (ls ++ [leaf mac1]) = S (length ls)) by (rewrite length_app; cbn; lia).
  assert (Hstd1 : ctx_std (cs_ctx st1)) by (rewrite Hctx1; destruct Hc; by split).
  destruct (page_encrypt_spec st1 CIPHER_WRITE_CTX c pgno size p2 out rb2 r2 ct2 mac2 mt1
    (ls ++ [leaf mac1]) w1) as (st2 & mt2 & w2 & Hrun2 & Htree2 & Hrep2 & Hw2 & _ & _ & Hctx2);
    [done|by rewrite Hctx1|done..|by rewrite Hrng1|done|by rewrite Hctx1|by rewrite Hlen1|done
    |by rewrite Hlen1|done|].
  assert (Hread : reader (cs_ctx st) c st2 c ((ls ++ [leaf mac1]) ++ [leaf mac2])).
  { split; [|by rewrite Hctx2, Hctx1|by rewrite Hctx2, Hctx1|done|done|eexists _, _; split; [done|by left]].
    rewrite Hctx2. destruct Hstd1. by split. }
  destruct (enc_page_read (cs_ctx st) c st2 c _ pgno size p1 rb1 _ r1 ct1 mac1 (length ls) out w2
    Hp1 Hb Hs Hr1 He1 Hm1 Hread) as (st3 & out' & Hrun3 & _ & Htk & _); [|done|].
  { by rewrite <- app_assoc, lookup_app_r, Nat.sub_diag by lia. }
  by eexists st1, _, w1, st2, _, w2, st3, out'.
Qed.

(** Once the tree has been saved and reloaded no page can be written any
    more: encrypting fails with SQLITE_ERROR and a zeroed output, because the
    reloaded tree refuses the new leaf. *)
Theorem page_write_after_reload_fails st for_ctx c pgno size p out rb r' ct mac mt n ls w :
  ctx_std (cs_ctx st) -> get_ctx (cs_ctx st) for_ctx = Some c ->
  parts_ok size p -> Z.of_nat (length out) = size + 96 -> 0 <= size ->
  RAND_bytes (cs_rng st) 96 = (Some rb, r') ->
  EVP_Cipher CIPHER_ENCRYPT (enc_key c) (take 16 rb) (pp_data p) = Some ct ->
  page_mac (cs_ctx st) c pgno ct (take 16 rb) = Some mac ->
  ctx_tree (cs_ctx st) mt n -> reloaded_rep mt ls ->
  Z.of_nat (S (length ls)) < MT_AL_MAX_ELEMS ->
  exists st' w',
    sqlcipher_page_cipher st for_ctx pgno CIPHER_ENCRYPT (size + 96) (join p) out w
    = Done ((SQLITE_ERROR, st', replicate (Z.to_nat (size + 96)) 0), w').
Proof.
  intros Hc Hctx Hp Hout Hs Hrand Henc Hmac Htree Hrel Hroom.
  rewrite (page_encrypt_eq st for_ctx c) by done. rewrite Hrand, Henc.
  eapply record_page_fails; [exact Hc|by eapply encrypted_parts|exact Hmac|exact Htree|exact Hrel|exact Hroom].
Qed.

End proofs.
