(* ===== verification/CodecProofs.v ===== *)
(** * Contexts: sizes, initialisation and keys

    Theorems about [CodecCtx]: the reserve leaves room for everything a page
    carries, a freshly initialised context is of the kind [PageProofs] is about,
    a NULL tree is not survived, keys are derived once for both directions, and
    a key specification read back gives the same key and salt. *)

From stdpp Require Import base tactics list numbers option.
From Stdlib Require Import ZArith Lia ZifyBool.
From S2P Require Import Prelude MtArrList Sha256 MtCrypto MerkleTree MtSerialize.
From S2P Require Import MerkleTheorems CipherUtil Openssl CodecCtx PageCodec PageProofs.

Local Open Scope Z_scope.

Lemma malloc_ok n w :
  0 < n -> all_ok w ->
  exists w', sqlcipher_malloc n w = Done (Some (replicate (Z.to_nat n) 0), w') /\ all_ok w'.
Proof.
  intros Hn Hw. destruct (request_cases w) as (b & w' & Hr & Hok). destruct (Hok Hw) as [-> Hw'].
  exists w'. unfold sqlcipher_malloc. rewrite (proj2 (Z.leb_gt n 0) Hn). by rewrite (bind_done _ _ _ _ _ Hr).
Qed.

Lemma request_ok w : all_ok w -> exists w', request w = Done (true, w') /\ all_ok w'.
Proof.
  intros Hw. destruct (request_cases w) as (b & w' & Hr & Hok). destruct (Hok Hw) as [-> Hw'].
  by exists w'.
Qed.

(** Run the next allocation of the goal. *)
Ltac alloc_step :=
  match goal with
  | Hw : all_ok ?w |- context [(request ≫= _) ?w] =>
      let w' := fresh "w" in let E := fresh "E" in let Hw' := fresh "Hw" in
      destruct (request_ok w Hw) as (w' & E & Hw');
      rewrite (bind_done _ _ _ _ _ E); clear E Hw
  | Hw : all_ok ?w |- context [(sqlcipher_malloc ?n ≫= _) ?w] =>
      let w' := fresh "w" in let E := fresh "E" in let Hw' := fresh "Hw" in
      destruct (malloc_ok n w ltac:(first [done|lia]) Hw) as (w' & E & Hw');
      rewrite (bind_done _ _ _ _ _ E); clear E Hw
  end.

(** Whole-buffer copies. *)
Lemma read_whole b n w : n = Z.of_nat (length b) -> buf_read 0 n b w = Done (b, w).
Proof.
  intros ->. pose proof (buf_read_at [] b [] 0 (Z.of_nat (length b)) w eq_refl eq_refl) as H.
  by rewrite app_nil_r in H.
Qed.

Lemma write_whole old b w : length old = length b -> buf_write 0 b old w = Done (b, w).
Proof.
  intros Hl. pose proof (buf_write_at [] old b [] 0 w eq_refl Hl) as H.
  by rewrite !app_nil_r in H.
Qed.

Lemma write_fresh n b w :
  n = Z.of_nat (length b) -> buf_write 0 b (replicate (Z.to_nat n) 0) w = Done (b, w).
Proof. intros Hn. apply write_whole. rewrite length_replicate. lia. Qed.

(** Run a write of as many bytes as [old] holds after the bytes [pre]. *)
Ltac mwrite pre old :=
  erewrite bind_done; [|apply (buf_write_at pre old); done].

Section proofs.
Context {O : OpenSSL} {L : OpenSSLLaws O} {NH : NodeHash}.

(** ** Sizes *)

Lemma hmac_size_values alg :
  0 <= alg <= 2 ->
  sqlcipher_openssl_get_hmac_sz alg = if alg =? 0 then 20 else if alg =? 1 then 32 else 64.
Proof.
  intros Ha. unfold sqlcipher_openssl_get_hmac_sz, hmac_md.
  unfold SQLCIPHER_HMAC_SHA1, SQLCIPHER_HMAC_SHA256, SQLCIPHER_HMAC_SHA512.
  destruct (alg =? 0) eqn:E0; [apply md_size_sha1|].
  destruct (alg =? 1) eqn:E1; [apply md_size_sha256|].
  replace (alg =? 2) with true by lia. apply md_size_sha512.
Qed.

(** The page reserve: for every HMAC algorithm the code knows, the reserve
    computed by [sqlcipher_codec_ctx_reserve_setup] is a multiple of the cipher
    block size and holds the IV, the HMAC (when it is used) and the 4-byte leaf
    offset without overlap; with the default HMAC-SHA512 it is 96 bytes. *)
Theorem reserve_holds_iv_hmac_offset ctx alg :
  provider ctx = sqlcipher_openssl_setup -> iv_sz ctx = 16 -> block_sz ctx = 16 ->
  0 <= alg <= 2 ->
  let ctx' := (sqlcipher_codec_ctx_set_hmac_algorithm ctx alg).2 in
  let used := if sqlcipher_codec_ctx_get_use_hmac ctx' then hmac_sz ctx' else 0 in
  iv_sz ctx' + used + sizeof_Pgno <= reserve_sz ctx' /\ Z.rem (reserve_sz ctx') 16 = 0 /\
  (alg = SQLCIPHER_HMAC_SHA512 -> sqlcipher_codec_ctx_get_use_hmac ctx' = true ->
   hmac_sz ctx' = 64 /\ reserve_sz ctx' = 96).
Proof.
  intros Hp Hiv Hb Ha. unfold sqlcipher_codec_ctx_set_hmac_algorithm.
  unfold sqlcipher_codec_ctx_reserve_setup, sqlcipher_codec_ctx_get_use_hmac. cbn.
  rewrite Hp, Hiv, Hb. cbn [p_get_hmac_sz sqlcipher_openssl_setup].
  rewrite hmac_size_values by done. unfold sizeof_Pgno, SQLCIPHER_HMAC_SHA512.
  assert (alg = 0 \/ alg = 1 \/ alg = 2) as [->|[->| ->]] by lia; cbn [Z.eqb Pos.eqb];
    destruct (negb _); cbn; split_and!; intros; split_and?; lia || done.
Qed.

(** ** Initialisation *)

(** The settings [sqlcipher_codec_ctx_init] starts from. *)
Definition fresh_globals (g : globals) : Prop :=
  default_flags g = DEFAULT_CIPHER_FLAGS /\ default_page_size g = 4096 /\
  default_plaintext_header_sz g = 0 /\ default_hmac_algorithm g = SQLCIPHER_HMAC_SHA512 /\
  default_provider g = Some sqlcipher_openssl_setup.

Lemma activate_fresh w :
  all_ok w -> exists g w', sqlcipher_activate init_globals w = Done (g, w') /\ all_ok w' /\
    fresh_globals g /\ sqlcipher_activate_count g = 1.
Proof.
  intros Hw. unfold sqlcipher_activate. cbn [sqlcipher_get_provider init_globals default_provider].
  rewrite bind_assoc. alloc_step. rewrite bind_ret. by eexists _, _.
Qed.

(** With HMAC-SHA512 switched on the reserve is 96 bytes. *)
Lemma reserve_sha512 ctx :
  provider ctx = sqlcipher_openssl_setup -> iv_sz ctx = 16 -> block_sz ctx = 16 ->
  hmac_algorithm ctx = SQLCIPHER_HMAC_SHA512 -> Z.land (flags ctx) CIPHER_FLAG_HMAC <> 0 ->
  sqlcipher_codec_ctx_reserve_setup ctx = (SQLITE_OK, set_reserve_sz (set_hmac_sz ctx 64) 96).
Proof.
  intros Hp Hi Hb Ha Hf. unfold sqlcipher_codec_ctx_reserve_setup. cbv zeta.
  rewrite Hp, Ha, Hi. cbn [p_get_hmac_sz sqlcipher_openssl_setup].
  rewrite (hmac_size_values SQLCIPHER_HMAC_SHA512) by done.
  change (if SQLCIPHER_HMAC_SHA512 =? 0 then 20 else _) with 64.
  change (block_sz (set_hmac_sz ctx 64)) with (block_sz ctx). rewrite Hb.
  change (sqlcipher_codec_ctx_get_use_hmac (set_hmac_sz ctx 64))
    with (negb (Z.land (flags ctx) CIPHER_FLAG_HMAC =? 0)).
  by rewrite (proj2 (Z.eqb_neq _ 0) Hf).
Qed.

(** What the derivation of keys and HMACs depends on besides passphrase and salt
    comes from the defaults, and the block size from the cipher. *)
Definition kdf_settings (g : globals) (ctx : codec_ctx) : Prop :=
  kdf_iter ctx = default_kdf_iter g /\ fast_kdf_iter ctx = FAST_PBKDF2_ITER /\
  kdf_algorithm ctx = default_kdf_algorithm g /\ flags ctx = DEFAULT_CIPHER_FLAGS /\ block_sz ctx = 16.

(** The part of the initialisation that only computes: from a new context to
    the point where the key material is set. *)
Lemma fresh_settings g salt hsalt buf :
  fresh_globals g ->
  let ctx := set_buffer (set_page_sz (fresh_ctx g sqlcipher_openssl_setup salt hsalt) 4096) buf in
  let ctx := (sqlcipher_codec_ctx_set_kdf_iter ctx (default_kdf_iter g)).2 in
  let ctx := (sqlcipher_codec_ctx_set_fast_kdf_iter ctx FAST_PBKDF2_ITER).2 in
  let ctx := (sqlcipher_codec_ctx_set_hmac_algorithm ctx (default_hmac_algorithm g)).2 in
  let ctx := (sqlcipher_codec_ctx_set_use_hmac ctx (Z.land (default_flags g) CIPHER_FLAG_HMAC)).2 in
  let ctx := (sqlcipher_codec_ctx_set_kdf_algorithm ctx (default_kdf_algorithm g)).2 in
  ctx_std ctx /\ page_sz ctx = 4096 /\ buffer ctx = buf /\ read_ctx ctx = None /\
  write_ctx ctx = None /\ need_kdf_salt ctx = 1 /\ kdf_salt_sz ctx = 16 /\ kdf_salt ctx = salt /\
  store_pass ctx = 0 /\ keyspec_sz ctx = 99 /\ plaintext_header_sz ctx = 0 /\ kdf_settings g ctx /\
  sqlcipher_codec_ctx_set_plaintext_header_size ctx (default_plaintext_header_sz g)
  = (SQLITE_OK, set_plaintext_header_sz ctx 0).
Proof.
  intros (Hf & Hpg & Hph & Ha & Hp). rewrite Hf, Hph, Ha. cbv zeta.
  unfold sqlcipher_codec_ctx_set_hmac_algorithm. rewrite reserve_sha512;
    [|done|apply iv_length_16|apply block_size_16|done|by cbn; rewrite Hf].
  unfold sqlcipher_codec_ctx_set_use_hmac.
  change (negb (Z.land DEFAULT_CIPHER_FLAGS CIPHER_FLAG_HMAC =? 0)) with true. cbv iota.
  unfold sqlcipher_codec_ctx_set_flag at 1 2 3 4 5 6 7 8 9 10 11 12 13 14. cbn [fst snd].
  rewrite reserve_sha512;
    [|done|apply iv_length_16|apply block_size_16|done|by cbn; rewrite Hf].
  cbn [fst snd sqlcipher_codec_ctx_set_kdf_algorithm].
  split. { split; try done; [apply key_length_32|apply iv_length_16|by cbn; rewrite Hf]. }
  split; [reflexivity|]. split; [reflexivity|]. split; [reflexivity|]. split; [reflexivity|].
  split; [reflexivity|]. split; [reflexivity|]. split; [reflexivity|]. split; [reflexivity|].
  split; [cbn -[Z.mul Z.add]; by rewrite key_length_32|]. split; [reflexivity|].
  split; [split; [reflexivity|split; [reflexivity|split; [reflexivity|split; [cbn -[Z.lor]; by rewrite Hf|apply block_size_16]]]]|].
  match goal with |- sqlcipher_codec_ctx_set_plaintext_header_size ?c _ = _ => set (ctx := c) end.
  unfold sqlcipher_codec_ctx_set_plaintext_header_size.
  change (page_sz ctx - reserve_sz ctx) with 4000.
  replace (block_sz ctx) with 16 by (symmetry; apply block_size_16). reflexivity.
Qed.

(** ** Key material *)

(** The blocks of a cipher context have the sizes the code assumes. *)
Record cipher_ok (ctx : codec_ctx) (c : cipher_ctx) : Prop := {
  ck_key : Z.of_nat (length (key c)) = key_sz ctx;
  ck_hmac : Z.of_nat (length (hmac_key c)) = key_sz ctx;
  ck_pass : match pass c with
            | Some p => Z.of_nat (length p) = pass_sz c /\ pass_sz c <> 0
            | None => True
            end;
  ck_spec : match keyspec c with
            | Some s => Z.of_nat (length s) = keyspec_sz ctx /\ keyspec_sz ctx <> 0
            | None => True
            end;
}.

Lemma cipher_init_ok ctx w :
  0 < key_sz ctx -> all_ok w -> exists w',
    sqlcipher_cipher_ctx_init ctx w
    = Done ((SQLITE_OK, Some (Mk_cipher 0 0 (replicate (Z.to_nat (key_sz ctx)) 0)
                                (replicate (Z.to_nat (key_sz ctx)) 0) None None)), w') /\ all_ok w'.
Proof.
  intros Hk Hw. unfold sqlcipher_cipher_ctx_init. do 3 alloc_step. by eexists.
Qed.

Lemma set_pass_ok c z n w :
  n = Z.of_nat (length z) -> n <> 0 -> all_ok w -> exists w',
    sqlcipher_cipher_ctx_set_pass c (Some z) n w
    = Done ((SQLITE_OK, Mk_cipher (derive_key c) n (key c) (hmac_key c) (Some z) (keyspec c)), w')
    /\ all_ok w'.
Proof.
  intros Hn H0 Hw. unfold sqlcipher_cipher_ctx_set_pass.
  rewrite (proj2 (Z.eqb_neq n 0) H0). alloc_step.
  rewrite (bind_done _ _ _ _ _ (read_whole z n _ Hn)).
  rewrite (bind_done _ _ _ _ _ (write_fresh n z _ Hn)).
  by eexists.
Qed.

(** Copying one direction to the other gives it the same values. *)
Lemma cipher_copy_ok ctx target source w :
  cipher_ok ctx source -> Z.of_nat (length (key target)) = key_sz ctx ->
  Z.of_nat (length (hmac_key target)) = key_sz ctx -> all_ok w -> exists w',
    sqlcipher_cipher_ctx_copy ctx target source w = Done ((SQLITE_OK, source), w') /\ all_ok w'.
Proof.
  intros [Hk Hh Hp Hs] Htk Hth Hw. unfold sqlcipher_cipher_ctx_copy.
  rewrite (bind_done _ _ _ _ _ (read_whole _ _ _ (eq_sym Hk))).
  rewrite (bind_done _ _ _ _ _ (write_whole (key target) (key source) _ ltac:(lia))).
  rewrite (bind_done _ _ _ _ _ (read_whole _ _ _ (eq_sym Hh))).
  rewrite (bind_done _ _ _ _ _ (write_whole (hmac_key target) (hmac_key source) _ ltac:(lia))).
  destruct source as [d ps k h p s]. cbn [pass keyspec derive_key pass_sz key hmac_key] in *.
  assert (exists w', (match p with
      | Some p =>
          if ps =? 0 then mret (SQLITE_OK, Mk_cipher d ps k h (Some p) s) else
          m ← sqlcipher_malloc ps;
          match m with
          | None => mret (SQLITE_NOMEM, Mk_cipher d ps k h None s)
          | Some m => bs ← buf_read 0 ps p; m ← buf_write 0 bs m;
              mret (SQLITE_OK, Mk_cipher d ps k h (Some m) s)
          end
      | None => mret (SQLITE_OK, Mk_cipher d ps k h None s)
      end : M _) w = Done ((SQLITE_OK, Mk_cipher d ps k h p s), w') /\ all_ok w') as (w1 & E1 & Hw1).
  { destruct p as [p|]; [|by eexists]. destruct Hp as [Hp H0].
    rewrite (proj2 (Z.eqb_neq ps 0) H0). alloc_step.
    rewrite (bind_done _ _ _ _ _ (read_whole p ps _ (eq_sym Hp))).
    rewrite (bind_done _ _ _ _ _ (write_fresh ps p _ (eq_sym Hp))).
    by eexists. }
  destruct p; rewrite (bind_done _ _ _ _ _ E1); cbn [fst snd negb Z.eqb SQLITE_OK];
    (destruct s as [s|]; [|by eexists]); destruct Hs as [Hs Hs0]; alloc_step;
    rewrite (bind_done _ _ _ _ _ (read_whole s _ _ (eq_sym Hs)));
    rewrite (bind_done _ _ _ _ _ (write_fresh _ s _ (eq_sym Hs)));
    by eexists.
Qed.

(** A context ready for use: standard sizes, an empty 4096-byte buffer and the
    same passphrase, not yet turned into a key, in both directions. *)
Record ctx_ready (ctx : codec_ctx) (z : list Z) (c : cipher_ctx) : Prop := {
  rdy_std : ctx_std ctx;
  rdy_page : page_sz ctx = 4096;
  rdy_header : plaintext_header_sz ctx = 0;
  rdy_buffer : buffer ctx = Some (replicate 4096 0);
  rdy_salt_sz : kdf_salt_sz ctx = 16;
  rdy_salt : length (kdf_salt ctx) = 16%nat;
  rdy_need : need_kdf_salt ctx = 1;
  rdy_store : store_pass ctx = 0;
  rdy_spec : keyspec_sz ctx = 99;
  rdy_read : read_ctx ctx = Some c;
  rdy_write : write_ctx ctx = Some c;
  rdy_cipher : cipher_ok ctx c;
  rdy_pass : pass c = Some z;
  rdy_derive : derive_key c = 1;
}.

Lemma set_pagesize_4096 ctx w :
  all_ok w -> exists w',
    sqlcipher_codec_ctx_set_pagesize ctx 4096 w
    = Done ((SQLITE_OK, set_buffer (set_page_sz ctx 4096) (Some (replicate 4096 0))), w') /\ all_ok w'.
Proof.
  intros Hw. unfold sqlcipher_codec_ctx_set_pagesize.
  change (negb (negb (4096 =? 0) && (Z.land 4096 (4096 - 1) =? 0)) || (4096 <? 512) || (65536 <? 4096))
    with false. cbv iota. alloc_step. eexists. split; [reflexivity|done].
Qed.

(** The settings of a new context before its key material is set. *)
Definition settings_ok (ctx : codec_ctx) : Prop :=
  ctx_std ctx /\ page_sz ctx = 4096 /\ buffer ctx = Some (replicate 4096 0) /\ read_ctx ctx = None /\
  write_ctx ctx = None /\ need_kdf_salt ctx = 1 /\ kdf_salt_sz ctx = 16 /\
  kdf_salt ctx = replicate 16 0 /\ store_pass ctx = 0 /\ keyspec_sz ctx = 99 /\
  plaintext_header_sz ctx = 0.

(** Both directions with the passphrase [z]. *)
Definition new_cipher (z : list Z) (n : Z) : cipher_ctx :=
  Mk_cipher 1 n (replicate 32 0) (replicate 32 0) (Some z) None.

Lemma settings_ready ctx z n :
  settings_ok ctx -> n = Z.of_nat (length z) -> n <> 0 ->
  ctx_ready (set_write_ctx (set_read_ctx ctx (Some (new_cipher z n))) (Some (new_cipher z n)))
    z (new_cipher z n).
Proof.
  intros (Hstd & Hpg & Hb & _ & _ & Hns & Hss & Hsalt & Hst & Hks & Hph) Hn H0.
  destruct Hstd as [Hkey Hiv Hhm Hrs Ha Hf Hsk Hpr].
  assert (Hl : forall k : nat, length (replicate k (0:Z)) = k) by (intros; apply length_replicate).
  split; try assumption; try reflexivity.
  - by split.
  - cbn -[replicate]. by rewrite Hsalt.
  - split; cbn -[replicate]; [by rewrite Hl, Hkey..|done|done].
Qed.

Lemma set_pass_read ctx c z n w :
  read_ctx ctx = Some c -> n = Z.of_nat (length z) -> n <> 0 -> all_ok w -> exists w',
    sqlcipher_codec_ctx_set_pass ctx (Some z) n 0 w
    = Done ((SQLITE_OK, set_read_ctx ctx (Some (Mk_cipher 1 n (key c) (hmac_key c) (Some z) (keyspec c)))),
            w') /\ all_ok w'.
Proof.
  intros Hr Hn H0 Hw. unfold sqlcipher_codec_ctx_set_pass.
  change (get_ctx ctx 0) with (read_ctx ctx). rewrite Hr. cbn [deref]. rewrite bind_ret.
  destruct (set_pass_ok c z n w Hn H0 Hw) as (w' & E & Hw'). rewrite (bind_done _ _ _ _ _ E).
  eexists. split; [reflexivity|done].
Qed.

Lemma key_material_ok ctx z n w :
  settings_ok ctx -> n = Z.of_nat (length z) -> n <> 0 -> all_ok w ->
  let ctx' := set_write_ctx (set_read_ctx ctx (Some (new_cipher z n))) (Some (new_cipher z n)) in
  exists w', init_key_material ctx (Some z) n w = Done ((SQLITE_OK, ctx'), w') /\
    all_ok w' /\ ctx_ready ctx' z (new_cipher z n).
Proof.
  intros Hset Hn H0 Hw ctx'. pose proof Hset as (Hstd & _). pose proof (st_key_sz _ Hstd) as Hkey.
  unfold init_key_material.
  destruct (cipher_init_ok ctx w ltac:(lia) Hw) as (w1 & E & Hw1). rewrite (bind_done _ _ _ _ _ E). clear E.
  rewrite Hkey. cbn [fst snd negb Z.eqb SQLITE_OK].
  match goal with |- context [sqlcipher_cipher_ctx_init ?c] =>
    destruct (cipher_init_ok c w1 ltac:(cbn; lia) Hw1) as (w2 & E & Hw2) end.
  rewrite (bind_done _ _ _ _ _ E). clear E.
  change (key_sz (set_read_ctx _ _)) with (key_sz ctx). rewrite Hkey.
  cbn [fst snd negb Z.eqb SQLITE_OK].
  match goal with |- context [sqlcipher_codec_ctx_set_pass ?c] =>
    destruct (set_pass_read c (Mk_cipher 0 0 (replicate (Z.to_nat 32) 0) (replicate (Z.to_nat 32) 0)
      None None) z n w2 eq_refl Hn H0 Hw2) as (w3 & E & Hw3) end.
  rewrite (bind_done _ _ _ _ _ E). clear E. cbn [negb Z.eqb SQLITE_OK read_ctx write_ctx set_read_ctx
    set_write_ctx deref key hmac_key keyspec]. rewrite !bind_ret.
  change (Z.to_nat 32) with 32%nat. fold (new_cipher z n).
  pose proof (settings_ready ctx z n Hset Hn H0) as Hrdy.
  match goal with |- context [sqlcipher_cipher_ctx_copy ?c ?t ?s] =>
    destruct (cipher_copy_ok c t s w3) as (w4 & E & Hw4) end;
    [by destruct (rdy_cipher _ _ _ Hrdy) as [? ? ? ?]; split|done..|done|].
  rewrite (bind_done _ _ _ _ _ E). exists w4. split; [reflexivity|]. split; [done|exact Hrdy].
Qed.

(** [sqlcipher_codec_ctx_init] up to the use of the tree. *)
Lemma ctx_init_prefix g z n t w :
  fresh_globals g -> EVP_get_cipherbyname = true -> n = Z.of_nat (length z) -> n <> 0 -> all_ok w ->
  exists og ctx w', let g' := put_ossl g og in all_ok w' /\ ctx_ready ctx z (new_cipher z n) /\
    kdf_settings g ctx /\
    sqlcipher_codec_ctx_init g (Some z) n t w
    = (o ← deref t;
       k ← mt_get_size (obj_mt o);
       mret (SQLITE_OK, g', Some (set_tree ctx (Some (Mk_obj (obj_mt o) k (obj_write o)))))) w'.
Proof.
  intros Hg Hcn Hn H0 Hw. pose proof Hg as (Hf & Hpg & Hph & Ha & Hp).
  unfold sqlcipher_codec_ctx_init. alloc_step. cbn [negb]. do 2 alloc_step. alloc_step. cbn [negb].
  rewrite Hp. cbn [deref]. rewrite bind_ret. cbn [p_ctx_init sqlcipher_openssl_setup].
  unfold sqlcipher_openssl_ctx_init. rewrite bind_assoc. alloc_step. rewrite bind_ret, Hcn.
  change (negb (SQLITE_OK =? SQLITE_OK)) with false. cbv zeta iota.
  set (g' := put_ossl g _). assert (Hg' : fresh_globals g') by done.
  change (default_page_size g') with (default_page_size g). rewrite Hpg.
  change (Z.to_nat FILE_HEADER_SZ) with 16%nat.
  set (fc := fresh_ctx g' sqlcipher_openssl_setup _ _).
  match goal with Hw : all_ok _ |- _ =>
    destruct (set_pagesize_4096 fc _ Hw) as (w5 & E & Hw5) end.
  rewrite (bind_done _ _ _ _ _ E). clear E.
  change (negb (SQLITE_OK =? SQLITE_OK)) with false. cbv iota beta.
  pose proof (fresh_settings g' (replicate 16 0) (replicate 16 0) (Some (replicate 4096 0)) Hg') as Hs.
  cbv zeta in Hs. fold fc in Hs.
  rewrite (surjective_pairing (sqlcipher_codec_ctx_set_kdf_iter _ _)).
  rewrite (surjective_pairing (sqlcipher_codec_ctx_set_fast_kdf_iter _ _)).
  rewrite (surjective_pairing (sqlcipher_codec_ctx_set_hmac_algorithm _ _)).
  rewrite (surjective_pairing (sqlcipher_codec_ctx_set_use_hmac _ _)).
  rewrite (surjective_pairing (sqlcipher_codec_ctx_set_kdf_algorithm _ _)).
  set (c0 := (sqlcipher_codec_ctx_set_kdf_algorithm _ _).2) in *. clearbody c0. clear fc.
  destruct Hs as (Hstd & Hpsz & Hbuf & Hrd & Hwr & Hns & Hss & Hsl & Hst & Hks & Hph0 & Hkdf & Hphs).
  rewrite Hphs. change (negb (SQLITE_OK =? SQLITE_OK)) with false. cbv iota beta.
  assert (Hset : settings_ok (set_plaintext_header_sz c0 0))
    by (destruct Hstd; repeat split; assumption).
  destruct (key_material_ok _ z n w5 Hset Hn H0 Hw5) as (w6 & E & Hw6 & Hrdy).
  rewrite (bind_done _ _ _ _ _ E). by eexists _, _, w6.
Qed.

(** ** Deriving the keys *)

(** The text of a key specification. *)
Definition spec_text (k salt : list Z) : list Z :=
  [120; 39] ++ hex_of k ++ hex_of salt ++ [39].

Lemma length_spec_text k salt :
  length k = 32%nat -> length salt = 16%nat -> length (spec_text k salt) = 99%nat.
Proof. intros Hk Hs. unfold spec_text. rewrite !length_app, !length_hex_of, Hk, Hs. done. Qed.

Lemma set_keyspec_ok ctx c k w :
  keyspec_sz ctx = 99 -> key_sz ctx = 32 -> kdf_salt_sz ctx = 16 ->
  length k = 32%nat -> length (kdf_salt ctx) = 16%nat -> all_ok w -> exists w',
    sqlcipher_cipher_ctx_set_keyspec ctx c k w
    = Done ((SQLITE_OK, set_keyspec c (Some (spec_text k (kdf_salt ctx)))), w') /\ all_ok w'.
Proof.
  intros Hks Hkey Hss Hk Hs Hw. unfold sqlcipher_cipher_ctx_set_keyspec.
  rewrite Hks, Hkey, Hss. alloc_step. change (Z.to_nat 99) with (1 + (1 + (65 + (31 + 1))))%nat.
  rewrite !replicate_add.
  mwrite ([] : list Z) (replicate 1 (0:Z)).
  mwrite ([120] : list Z) (replicate 1 (0:Z)).
  rewrite (bind_done _ _ _ _ _ (read_whole k 32 _ ltac:(by rewrite Hk))).
  erewrite bind_done; [|apply (bin2hex_spec k [120; 39] (replicate 65 0)); [done| |by destruct k];
    by rewrite length_replicate, Hk].
  rewrite (bind_done _ _ _ _ _ (read_whole (kdf_salt ctx) 16 _ ltac:(by rewrite Hs))).
  replace ([120; 39] ++ (hex_of k ++ [0]) ++ replicate 31 0 ++ replicate 1 0)
    with (([120; 39] ++ hex_of k) ++ replicate 33 0 ++ []) by (by rewrite <- !app_assoc).
  pose proof (length_hex_of k) as Hlk. pose proof (length_hex_of (kdf_salt ctx)) as Hls.
  erewrite bind_done; [|apply (bin2hex_spec (kdf_salt ctx) ([120; 39] ++ hex_of k) (replicate 33 0));
    [rewrite length_app, Hlk, Hk; done|by rewrite length_replicate, Hs|by destruct (kdf_salt ctx)]].
  replace (([120; 39] ++ hex_of k) ++ (hex_of (kdf_salt ctx) ++ [0]) ++ [])
    with (([120; 39] ++ hex_of k ++ hex_of (kdf_salt ctx)) ++ [0] ++ []) by (by rewrite <- !app_assoc).
  erewrite bind_done; [|apply buf_write_at; [|done]; rewrite !length_app, Hlk, Hls, Hk, Hs; done].
  eexists. split; [|done]. unfold spec_text. by rewrite <- !app_assoc.
Qed.

Lemma set_kdf_salt_id ctx : set_kdf_salt ctx (kdf_salt ctx) = ctx.
Proof. by destruct ctx. Qed.

(** The passphrase [z] is the text [x'...'] with [n] hex digits. *)
Definition raw_key (z : list Z) (n : Z) : bool :=
  (Z.of_nat (length z) =? n + 3) && (sqlite3_strnicmp z [120; 39] 2 =? 0)
  && cipher_isHex (take (Z.to_nat n) (drop 2 z)).

(** Key and salt that the passphrase [z] stands for in the context [ctx]. *)
Definition key_of (ctx : codec_ctx) (z : list Z) : option (list Z * list Z) :=
  if raw_key z 64 then Some (cipher_hex2bin (take 64 (drop 2 z)), kdf_salt ctx)
  else if raw_key z 96 then
    Some (cipher_hex2bin (take 64 (drop 2 z)), cipher_hex2bin (take 32 (drop 64 (drop 2 z))))
  else m ← hmac_md (kdf_algorithm ctx);
       k ← PKCS5_PBKDF2_HMAC m z (kdf_salt ctx) (kdf_iter ctx) 32;
       Some (k, kdf_salt ctx).

(** The salt of the HMAC key. *)
Definition hmac_salt (g : globals) (salt : list Z) : list Z :=
  (fun b => Z.lxor b (hmac_salt_mask g)) <$> salt.

Definition salted (ctx : codec_ctx) (e : db_env) (r : rng) : Z * codec_ctx * rng :=
  if need_kdf_salt ctx =? 0 then (SQLITE_OK, ctx, r) else sqlcipher_codec_ctx_init_kdf_salt ctx e r.

Lemma decode_or_derive_ok ctx c z k salt :
  pass_sz c = Z.of_nat (length z) -> ctx_std ctx -> kdf_salt_sz ctx = 16 ->
  key_of ctx z = Some (k, salt) ->
  decode_or_derive ctx c z = (SQLITE_OK, set_kdf_salt ctx salt, set_key c k).
Proof.
  intros Hz Hstd Hss Hkey. unfold decode_or_derive, is_raw_key.
  rewrite (st_key_sz _ Hstd), Hss, (st_prov _ Hstd), Hz.
  change (32 * 2) with 64. change ((32 + 16) * 2) with 96. change (16 * 2) with 32.
  fold (raw_key z 64) (raw_key z 96). unfold key_of in Hkey.
  destruct (raw_key z 64) eqn:E64.
  - injection Hkey as <- <-. rewrite set_kdf_salt_id. unfold raw_key in E64.
    by replace (Z.of_nat (length z) - 3) with 64 by lia.
  - destruct (raw_key z 96); [by injection Hkey as <- <-|].
    cbn [p_kdf sqlcipher_openssl_setup]. unfold sqlcipher_openssl_kdf. rewrite Nat2Z.id, firstn_all.
    destruct (hmac_md _) as [m|]; [|done]. cbn in Hkey.
    destruct (PKCS5_PBKDF2_HMAC _ _ _ _ _) as [k'|]; [|done]. cbn in Hkey.
    injection Hkey as <- <-. by rewrite set_kdf_salt_id.
Qed.

Lemma cipher_derive_ok g ctx c z e r ctx1 r1 k salt h w :
  pass c = Some z -> pass_sz c = Z.of_nat (length z) -> z <> [] ->
  salted ctx e r = (SQLITE_OK, ctx1, r1) ->
  ctx_std ctx1 -> keyspec_sz ctx1 = 99 -> kdf_salt_sz ctx1 = 16 ->
  key_of ctx1 z = Some (k, salt) -> length k = 32%nat -> length salt = 16%nat ->
  sqlcipher_openssl_kdf (kdf_algorithm ctx1) k (hmac_salt g salt) (fast_kdf_iter ctx1) 32
    = (SQLITE_OK, Some h) ->
  all_ok w -> exists w',
    sqlcipher_cipher_ctx_key_derive g ctx c e r w
    = Done ((SQLITE_OK, set_hmac_kdf_salt (set_kdf_salt ctx1 salt) (hmac_salt g salt),
             Mk_cipher 0 (pass_sz c) k h (pass c) (Some (spec_text k salt)), r1), w') /\ all_ok w'.
Proof.
  intros Hp Hz Hne Hsalt Hstd Hks Hss Hkey Hk Hs Hh Hw. unfold sqlcipher_cipher_ctx_key_derive.
  rewrite Hp. replace (pass_sz c =? 0) with false
    by (destruct z; [done|]; symmetry; apply Z.eqb_neq; rewrite Hz; cbn; lia).
  fold (salted ctx e r). rewrite Hsalt. change (negb (SQLITE_OK =? SQLITE_OK)) with false. cbv iota zeta.
  rewrite (decode_or_derive_ok ctx1 c z k salt Hz Hstd Hss Hkey).
  change (negb (SQLITE_OK =? SQLITE_OK)) with false. cbv iota beta.
  destruct (set_keyspec_ok (set_kdf_salt ctx1 salt) (set_key c k) k w) as (w' & E & Hw');
    [done|exact (st_key_sz _ Hstd)|done..|].
  change (key (set_key c k)) with k. rewrite (bind_done _ _ _ _ _ E). cbn [fst snd].
  change (negb (SQLITE_OK =? SQLITE_OK)) with false. cbv iota beta zeta.
  change (flags (set_kdf_salt ctx1 salt)) with (flags ctx1).
  rewrite (proj2 (Z.eqb_neq _ 0) (st_hmac _ Hstd)).
  change (provider (set_hmac_kdf_salt _ _)) with (provider ctx1).
  change (key_sz (set_hmac_kdf_salt _ _)) with (key_sz ctx1).
  rewrite (st_prov _ Hstd), (st_key_sz _ Hstd). cbn [p_kdf sqlcipher_openssl_setup].
  match goal with |- context [sqlcipher_openssl_kdf ?a ?b ?c ?d ?e] =>
    change (sqlcipher_openssl_kdf a b c d e) with
      (sqlcipher_openssl_kdf (kdf_algorithm ctx1) k (hmac_salt g salt) (fast_kdf_iter ctx1) 32) end.
  rewrite Hh. eexists. split; [rewrite <- Hp; reflexivity|done].
Qed.

(** The context after a successful derivation. *)
Definition derived_ctx (g : globals) (ctx : codec_ctx) (k h salt : list Z) : codec_ctx :=
  let c := Mk_cipher 0 0 k h None (Some (spec_text k salt)) in
  set_write_ctx (set_read_ctx (set_hmac_kdf_salt (set_kdf_salt ctx salt) (hmac_salt g salt)) (Some c))
    (Some c).

Lemma cipher_cmp_same c p w :
  pass c = Some p -> pass_sz c = Z.of_nat (length p) -> forall c2, pass c2 = Some p ->
  pass_sz c2 = pass_sz c -> sqlcipher_cipher_ctx_cmp c c2 w = Done (0, w).
Proof.
  intros Hp Hs c2 Hp2 Hs2. unfold sqlcipher_cipher_ctx_cmp. rewrite Hs2, Z.eqb_refl, Hp, Hp2.
  rewrite !(bind_done _ _ _ _ _ (read_whole p _ _ Hs)).
  rewrite sqlcipher_memcmp_spec by lia. by rewrite decide_True.
Qed.

Lemma salted_frame ctx e r rc ctx1 r1 :
  salted ctx e r = (rc, ctx1, r1) ->
  exists s n, ctx1 = set_need_kdf_salt (set_kdf_salt ctx s) n.
Proof.
  unfold salted, sqlcipher_codec_ctx_init_kdf_salt.
  destruct (need_kdf_salt ctx =? 0).
  { intros [= _ <- _]. exists (kdf_salt ctx), (need_kdf_salt ctx). by destruct ctx. }
  destruct (fd e) as [f|]; [destruct (sqlite3OsRead _ _ _) as [rc0 s0]|];
    [destruct (rc0 =? SQLITE_OK)|];
    [intros [= _ <- _]; by eexists _, _| |];
    (destruct (p_random _ _ _) as [[rc1 bs] r2]; destruct (rc1 =? SQLITE_OK));
    intros [= _ <- _]; (try by eexists _, _); eexists _, (need_kdf_salt ctx); by destruct ctx.
Qed.

Lemma codec_derive_ok g ctx z c e r ctx1 r1 k salt h w :
  ctx_ready ctx z c -> salted ctx e r = (SQLITE_OK, ctx1, r1) ->
  key_of ctx1 z = Some (k, salt) -> length k = 32%nat -> length salt = 16%nat ->
  sqlcipher_openssl_kdf (kdf_algorithm ctx1) k (hmac_salt g salt) (fast_kdf_iter ctx1) 32
    = (SQLITE_OK, Some h) -> length h = 32%nat -> all_ok w ->
  exists w', sqlcipher_codec_key_derive g ctx e r w
    = Done ((SQLITE_OK, derived_ctx g ctx1 k h salt, r1), w') /\ all_ok w'.
Proof.
  intros [Hstd Hpg Hph Hbuf Hss Hsl Hn Hst Hks Hrd Hwr Hcok Hp Hd] Hsalt Hkey Hk Hs Hh Hhl Hw.
  destruct (salted_frame _ _ _ _ _ _ Hsalt) as (s0 & n0 & Hctx1).
  assert (Hstd1 : ctx_std ctx1) by (subst ctx1; destruct Hstd; by split).
  destruct Hcok as [Hkl Hhkl Hpl _]. rewrite Hp in Hpl. destruct Hpl as [Hpl Hp0].
  unfold sqlcipher_codec_key_derive. rewrite Hrd. cbn [deref]. rewrite bind_ret, Hd.
  change (1 =? 0) with false. cbv iota. rewrite bind_assoc.
  destruct (cipher_derive_ok g ctx c z e r ctx1 r1 k salt h w) as (w1 & E1 & Hw1); [done| done| |done|done
    |by subst ctx1|by subst ctx1|done..|].
  { intros ->. cbn in Hpl. lia. }
  rewrite (bind_done _ _ _ _ _ E1). clear E1. rewrite bind_ret.
  change (negb (SQLITE_OK =? SQLITE_OK)) with false. cbv iota beta zeta.
  set (rd := Mk_cipher 0 (pass_sz c) k h (pass c) (Some (spec_text k salt))).
  set (cx := set_read_ctx _ (Some rd)).
  change (write_ctx cx) with (write_ctx ctx1). replace (write_ctx ctx1) with (Some c) by (by subst ctx1).
  cbn [deref]. rewrite bind_ret, Hd. change (1 =? 0) with false. cbv iota.
  change (read_ctx cx) with (Some rd). cbn [deref]. rewrite bind_assoc, bind_ret, bind_assoc.
  rewrite (bind_done _ _ _ _ _ (cipher_cmp_same c z w1 Hp (eq_sym Hpl) rd Hp eq_refl)).
  change (0 =? 0) with true. cbv iota. rewrite bind_assoc.
  destruct (cipher_copy_ok cx c rd w1) as (w2 & E2 & Hw2); [|by subst ctx1..|done|].
  { assert (Hkz : key_sz cx = 32) by exact (st_key_sz _ Hstd1).
    split; cbn [rd key hmac_key pass keyspec pass_sz]; [lia|lia| |].
    - rewrite Hp. done.
    - assert (keyspec_sz cx = 99) as -> by (by subst ctx1). rewrite length_spec_text by done. done. }
  rewrite (bind_done _ _ _ _ _ E2). clear E2. rewrite bind_ret. cbn [fst snd].
  change (negb (SQLITE_OK =? SQLITE_OK)) with false. cbv iota beta.
  change (store_pass (set_write_ctx cx _)) with (store_pass ctx1).
  replace (store_pass ctx1) with 0 by (by subst ctx1). change (0 =? 1) with false. cbv iota.
  exists w2. split; [reflexivity|done].
Qed.

(** Where the salt comes from: the first 16 bytes of the file, or the generator
    when the file is shorter. *)
Definition salt_from (e : db_env) (r : rng) (salt : list Z) (r1 : rng) : Prop :=
  exists f, fd e = Some f /\
    ((16 <= length f)%nat /\ salt = take 16 f /\ r1 = r \/
     (length f < 16)%nat /\ RAND_bytes r 16 = (Some salt, r1)).

Lemma salted_from ctx e r salt r1 :
  ctx_std ctx -> kdf_salt_sz ctx = 16 -> need_kdf_salt ctx = 1 -> salt_from e r salt r1 ->
  salted ctx e r = (SQLITE_OK, set_need_kdf_salt (set_kdf_salt ctx salt) 0, r1) /\
  length salt = 16%nat.
Proof.
  intros Hstd Hss Hn (f & Hf & Hcase). unfold salted, sqlcipher_codec_ctx_init_kdf_salt.
  rewrite Hn, Hss, Hf. change (1 =? 0) with false. cbv iota. unfold sqlite3OsRead.
  change (Z.to_nat 16) with 16%nat. change (drop (Z.to_nat 0) f) with f.
  rewrite length_take. destruct Hcase as [(Hl & -> & ->)|(Hl & Hr)].
  - replace (Z.of_nat (16 `min` length f) =? 16) with true by lia.
    split; [reflexivity|]. rewrite length_take. lia.
  - replace (Z.of_nat (16 `min` length f) =? 16) with false by lia.
    change (SQLITE_IOERR_SHORT_READ =? SQLITE_OK) with false. cbv iota zeta.
    change (provider (set_kdf_salt ctx _)) with (provider ctx).
    change (kdf_salt_sz (set_kdf_salt ctx _)) with (kdf_salt_sz ctx).
    rewrite (st_prov _ Hstd), Hss. cbn [p_random sqlcipher_openssl_setup].
    unfold sqlcipher_openssl_random. rewrite Hr. destruct (RAND_length _ _ _ _ Hr) as [Hlen _].
    split; [reflexivity|lia].
Qed.

Lemma raw_key_spec_text k salt :
  length k = 32%nat -> length salt = 16%nat -> bytes k -> bytes salt ->
  raw_key (spec_text k salt) 64 = false /\ raw_key (spec_text k salt) 96 = true /\
  cipher_hex2bin (take 64 (drop 2 (spec_text k salt))) = k /\
  cipher_hex2bin (take 32 (drop 64 (drop 2 (spec_text k salt)))) = salt.
Proof.
  intros Hk Hs Hbk Hbs. pose proof (length_hex_of k) as Hlk. pose proof (length_hex_of salt) as Hls.
  assert (Hd : drop 2 (spec_text k salt) = hex_of k ++ hex_of salt ++ [39]) by done.
  unfold raw_key. rewrite (length_spec_text k salt Hk Hs), Hd.
  change (Z.to_nat 64) with 64%nat. change (Z.to_nat 96) with 96%nat.
  rewrite (take_app_length' (hex_of k)), (drop_app_length' (hex_of k)) by lia.
  rewrite (take_app_length' (hex_of salt)) by lia.
  rewrite !hex2bin_hex_of by done. split; [done|]. split; [|done].
  rewrite app_assoc, take_app_length' by (rewrite length_app; lia).
  unfold cipher_isHex. rewrite forallb_app. fold (cipher_isHex (hex_of k)) (cipher_isHex (hex_of salt)).
  by rewrite !isHex_hex_of.
Qed.

Lemma kdf_runs alg m p s i h :
  hmac_md alg = Some m -> PKCS5_PBKDF2_HMAC m p s i 32 = Some h ->
  sqlcipher_openssl_kdf alg p s i 32 = (SQLITE_OK, Some h) /\ length h = 32%nat /\ bytes h.
Proof.
  intros Hm Hp. unfold sqlcipher_openssl_kdf. rewrite Hm, Hp.
  destruct (PBKDF2_length m p s i 32 h ltac:(lia) Hp) as [Hl Hb]. split; [done|]. split; [lia|done].
Qed.

(** Keys in place and no passphrase left: nothing happens. *)
Definition keys_set (c : cipher_ctx) : Prop :=
  derive_key c = 0 /\ pass c = None /\ pass_sz c = 0.

Lemma key_derive_idle g ctx rd wr e r w :
  read_ctx ctx = Some rd -> write_ctx ctx = Some wr -> keys_set rd -> keys_set wr ->
  sqlcipher_codec_key_derive g ctx e r w = Done ((SQLITE_OK, ctx, r), w).
Proof.
  intros Hr Hw (Hd1 & Hp1 & Hs1) (Hd2 & Hp2 & Hs2). unfold sqlcipher_codec_key_derive.
  destruct ctx, rd, wr. cbn in *. subst. unfold mbind, M_bind. cbn.
  match goal with |- context [?p =? 1] => by destruct (p =? 1) end.
Qed.

(** ** The theorems *)

Lemma reloaded_size mt ls w : reloaded_rep mt ls -> mt_get_size (Some mt) w = Done (Z.of_nat (length ls), w).
Proof.
  intros [_ Hrep]. rewrite <- (mt_get_size_spec _ ls w Hrep). unfold mt_get_size.
  by rewrite (level_at_eq mt (Mk_mt (Z.of_nat (length ls)) (level mt))).
Qed.

Lemma ctx_init_any g z n mt k blocks wr w :
  fresh_globals g -> EVP_get_cipherbyname = true -> n = Z.of_nat (length z) -> n <> 0 -> all_ok w ->
  (forall w, mt_get_size (Some mt) w = Done (k, w)) ->
  exists og ctx w', all_ok w' /\
    sqlcipher_codec_ctx_init g (Some z) n (Some (Mk_obj (Some mt) blocks wr)) w
      = Done ((SQLITE_OK, put_ossl g og, Some ctx), w') /\
    ctx_ready ctx z (new_cipher z n) /\ kdf_settings g ctx /\ ctx_tree ctx mt k.
Proof.
  intros Hg Hcn Hn H0 Hw Hk.
  destruct (ctx_init_prefix g z n (Some (Mk_obj (Some mt) blocks wr)) w Hg Hcn Hn H0 Hw)
    as (og & ctx & w' & Hw' & Hrdy & Hkdf & E).
  cbn [deref] in E. rewrite bind_ret in E. cbn [obj_mt] in E. rewrite (bind_done _ _ _ _ _ (Hk w')) in E.
  eexists og, _, w'. split; [done|]. split; [exact E|]. split; [|split; [done|by eexists]].
  destruct Hrdy as [[] ? ? ? ? ? ? ? ? ? ? [] ? ?]. by repeat split.
Qed.

Lemma ctx_init_ok g z n mt blocks wr ls w :
  fresh_globals g -> EVP_get_cipherbyname = true -> n = Z.of_nat (length z) -> n <> 0 ->
  tree_rep mt ls -> all_ok w ->
  exists og ctx c w', all_ok w' /\
    sqlcipher_codec_ctx_init g (Some z) n (Some (Mk_obj (Some mt) blocks wr)) w
      = Done ((SQLITE_OK, put_ossl g og, Some ctx), w') /\
    ctx_ready ctx z c /\ ctx_tree ctx mt (Z.of_nat (length ls)).
Proof.
  intros Hg Hcn Hn H0 Hrep Hw.
  destruct (ctx_init_any g z n mt (Z.of_nat (length ls)) blocks wr w)
    as (og & ctx & w' & Hw' & E & Hrdy & _ & Htree); [done..|intros; by apply mt_get_size_spec|]. by exists og, ctx, (new_cipher z n), w'.
Qed.

(** Initialising a codec context: with memory available, the cipher known
    and a non-empty passphrase, [sqlcipher_codec_ctx_init] succeeds; the context
    has the standard sizes (32-byte keys, 64-byte HMAC, 96-byte reserve), an
    empty page buffer, the passphrase in both directions with key derivation
    pending, and the tree it was given, whose block counter is set to the
    number of its leaves. *)
Theorem ctx_init_ready g z n mt blocks wr ls w :
  fresh_globals g -> EVP_get_cipherbyname = true -> n = Z.of_nat (length z) -> n <> 0 ->
  tree_rep mt ls -> all_ok w ->
  exists g' ctx c w', all_ok w' /\
    sqlcipher_codec_ctx_init g (Some z) n (Some (Mk_obj (Some mt) blocks wr)) w
      = Done ((SQLITE_OK, g', Some ctx), w') /\
    ctx_ready ctx z c /\ ctx_tree ctx mt (Z.of_nat (length ls)).
Proof.
  intros Hg Hcn Hn H0 Hrep Hw. destruct (ctx_init_ok g z n mt blocks wr ls w) as (og & ctx & c & w' & H); [done..|].
  by exists (put_ossl g og), ctx, c, w'.
Qed.

(** A codec context cannot be initialised without a Merkle tree: when the
    tree pointer is NULL, initialisation that gets as far as the last step
    dereferences it. *)
Theorem ctx_init_null_tree g z n w :
  fresh_globals g -> EVP_get_cipherbyname = true -> n = Z.of_nat (length z) -> n <> 0 -> all_ok w ->
  sqlcipher_codec_ctx_init g (Some z) n None w = Fault NullDeref.
Proof.
  intros Hg Hcn Hn H0 Hw.
  by destruct (ctx_init_prefix g z n None w Hg Hcn Hn H0 Hw) as (g' & ctx & w' & _ & _ & _ & ->).
Qed.

(** What a context that has derived its keys hands out. *)
Lemma get_keyspec_derived g ctx k h salt w :
  store_pass ctx = 0 -> keyspec_sz ctx = 99 ->
  sqlite3CodecGetKey (Some (derived_ctx g ctx k h salt)) w = Done ((Some (spec_text k salt), 99), w).
Proof.
  intros Hst Hks. unfold sqlite3CodecGetKey, sqlcipher_codec_get_keyspec.
  cbn [derived_ctx read_ctx set_read_ctx set_write_ctx deref]. rewrite !bind_assoc, !bind_ret.
  cbn [keyspec fst]. unfold sqlcipher_codec_get_store_pass.
  change (store_pass (derived_ctx g ctx k h salt)) with (store_pass ctx).
  rewrite Hst. change (keyspec_sz (derived_ctx g ctx k h salt)) with (keyspec_sz ctx). by rewrite Hks.
Qed.

(** C30. Deriving the keys of a new context from an ordinary passphrase: the salt
    is the first 16 bytes of the file (random bytes for a shorter file), the
    encryption key is PBKDF2 of passphrase and salt, the HMAC key is PBKDF2 of
    the encryption key and the masked salt; both directions end up with the same
    keys, no passphrase is kept, and calling the function again changes
    nothing. *)
Theorem key_derive_passphrase g ctx z c e r r1 salt m k h w :
  ctx_ready ctx z c -> raw_key z 64 = false -> raw_key z 96 = false ->
  salt_from e r salt r1 -> hmac_md (kdf_algorithm ctx) = Some m ->
  PKCS5_PBKDF2_HMAC m z salt (kdf_iter ctx) 32 = Some k ->
  PKCS5_PBKDF2_HMAC m k (hmac_salt g salt) (fast_kdf_iter ctx) 32 = Some h -> all_ok w ->
  exists ctx' w', sqlcipher_codec_key_derive g ctx e r w = Done ((SQLITE_OK, ctx', r1), w') /\
    (exists c', read_ctx ctx' = Some c' /\ write_ctx ctx' = Some c' /\ key c' = k /\ hmac_key c' = h
      /\ pass c' = None /\ keyspec c' = Some (spec_text k salt)) /\
    kdf_salt ctx' = salt /\ ctx_std ctx' /\
    forall e2 r2 w2, sqlcipher_codec_key_derive g ctx' e2 r2 w2 = Done ((SQLITE_OK, ctx', r2), w2).
Proof.
  intros Hrdy H64 H96 Hsf Hm Hk Hh Hw.
  pose proof (rdy_std _ _ _ Hrdy) as Hstd.
  destruct (salted_from ctx e r salt r1 Hstd (rdy_salt_sz _ _ _ Hrdy) (rdy_need _ _ _ Hrdy) Hsf)
    as [Hs Hsl].
  destruct (kdf_runs _ _ _ _ _ _ Hm Hk) as (_ & Hkl & _).
  destruct (kdf_runs _ _ _ _ _ _ Hm Hh) as (Hh' & Hhl & _).
  destruct (codec_derive_ok g ctx z c e r _ r1 k salt h w Hrdy Hs) as (w' & E & Hw'); try done.
  { unfold key_of. rewrite H64, H96. cbn [kdf_algorithm kdf_salt kdf_iter set_need_kdf_salt set_kdf_salt].
    rewrite Hm. cbn. by rewrite Hk. }
  eexists _, w'. split; [exact E|]. split; [by eexists|]. split; [done|].
  split; [destruct Hstd; by split|]. intros e2 r2 w2.
  by eapply key_derive_idle.
Qed.

(** C32. A key specification round trips.  The keys of a new context are derived from
    an ordinary passphrase; then the text [x'<key><salt>'] it hands out as its
    key, given to any other new context with the same KDF algorithm and number of
    fast iterations, makes that one derive the same encryption key, the same HMAC
    key and the same salt, whatever salt its own file suggests. *)
Theorem keyspec_reopens g ctx0 z c0 e0 r0 r1 salt m k h w :
  ctx_ready ctx0 z c0 -> raw_key z 64 = false -> raw_key z 96 = false ->
  salt_from e0 r0 salt r1 -> bytes salt -> hmac_md (kdf_algorithm ctx0) = Some m ->
  PKCS5_PBKDF2_HMAC m z salt (kdf_iter ctx0) 32 = Some k ->
  PKCS5_PBKDF2_HMAC m k (hmac_salt g salt) (fast_kdf_iter ctx0) 32 = Some h -> all_ok w ->
  exists ctx1 c1 spec w1, sqlcipher_codec_key_derive g ctx0 e0 r0 w = Done ((SQLITE_OK, ctx1, r1), w1) /\
    read_ctx ctx1 = Some c1 /\ sqlite3CodecGetKey (Some ctx1) w1 = Done ((Some spec, 99), w1) /\
    spec = spec_text (key c1) (kdf_salt ctx1) /\ length spec = 99%nat /\
    forall ctx c e r salt' r' w2,
      ctx_ready ctx spec c -> salt_from e r salt' r' ->
      kdf_algorithm ctx = kdf_algorithm ctx0 -> fast_kdf_iter ctx = fast_kdf_iter ctx0 -> all_ok w2 ->
      exists ctx' c' w3, sqlcipher_codec_key_derive g ctx e r w2 = Done ((SQLITE_OK, ctx', r'), w3) /\
        read_ctx ctx' = Some c' /\ write_ctx ctx' = Some c' /\
        key c' = key c1 /\ hmac_key c' = hmac_key c1 /\ kdf_salt ctx' = kdf_salt ctx1.
Proof.
  intros Hrdy H64 H96 Hsf Hbs Hm Hk Hh Hw.
  destruct (salted_from ctx0 e0 r0 salt r1 (rdy_std _ _ _ Hrdy) (rdy_salt_sz _ _ _ Hrdy) (rdy_need _ _ _ Hrdy) Hsf)
    as [Hs Hsl].
  destruct (kdf_runs _ _ _ _ _ _ Hm Hk) as (_ & Hkl & Hbk). destruct (kdf_runs _ _ _ _ _ _ Hm Hh) as (Hh' & Hhl & _).
  destruct (codec_derive_ok g ctx0 z c0 e0 r0 _ r1 k salt h w Hrdy Hs) as (w1 & E & Hw1); try done.
  { unfold key_of. rewrite H64, H96. cbn [kdf_algorithm kdf_salt kdf_iter set_need_kdf_salt set_kdf_salt].
    rewrite Hm. cbn. by rewrite Hk. }
  eexists _, _, (spec_text k salt), w1. split; [exact E|]. split; [reflexivity|]. split.
  { apply get_keyspec_derived; [apply Hrdy|apply Hrdy]. }
  split; [done|]. split; [by apply length_spec_text|].
  intros ctx c e r salt' r' w2 Hrdy2 Hsf2 Halg Hit Hw2.
  destruct (salted_from ctx e r salt' r' (rdy_std _ _ _ Hrdy2) (rdy_salt_sz _ _ _ Hrdy2)
    (rdy_need _ _ _ Hrdy2) Hsf2) as [Hs2 _].
  destruct (raw_key_spec_text k salt Hkl Hsl Hbk Hbs) as (H64' & H96' & Hdk & Hds).
  destruct (codec_derive_ok g ctx _ c e r _ r' k salt h w2 Hrdy2 Hs2) as (w3 & E2 & _); try done.
  { unfold key_of. by rewrite H64', H96', Hdk, Hds. }
  { cbn [kdf_algorithm fast_kdf_iter set_need_kdf_salt set_kdf_salt]. by rewrite Halg, Hit. }
  eexists _, _, w3. split; [exact E2|]. by split_and!.
Qed.

End proofs.
