(* ===== verification/HookProofs.v ===== *)
(** * The pager's hook

    Theorems about [sqlite3Codec] ([PageCodec]), the function SQLite's pager
    calls for every page it reads from or writes to the file: what it writes it
    reads back, page 1 carries the salt in place of the file header, and
    failures end up in the pager's error state. *)

From stdpp Require Import base tactics list numbers option.
From Stdlib Require Import ZArith Lia ZifyBool.
From S2P Require Import Prelude MtArrList Sha256 MtCrypto MerkleTree MtSerialize.
From S2P Require Import MerkleTheorems CipherUtil Openssl CodecCtx PageCodec PageProofs CodecProofs.

Local Open Scope Z_scope.

(** Accesses to the end of a buffer. *)
Lemma read_suffix pre b off n w :
  off = Z.of_nat (length pre) -> n = Z.of_nat (length b) ->
  buf_read off n (pre ++ b) w = Done (b, w).
Proof.
  intros Ho Hn. pose proof (buf_read_at pre b [] off n w Ho Hn) as H. by rewrite app_nil_r in H.
Qed.

Lemma write_suffix pre old b off w :
  off = Z.of_nat (length pre) -> length old = length b ->
  buf_write off b (pre ++ old) w = Done (pre ++ b, w).
Proof.
  intros Ho Hn. pose proof (buf_write_at pre old b [] off w Ho Hn) as H. by rewrite !app_nil_r in H.
Qed.

Lemma write_prefix old b post w :
  length old = length b -> buf_write 0 b (old ++ post) w = Done (b ++ post, w).
Proof. intros Hn. by apply (buf_write_at [] old b post 0 w eq_refl). Qed.

Lemma read_prefix b post n w :
  n = Z.of_nat (length b) -> buf_read 0 n (b ++ post) w = Done (b, w).
Proof. intros Hn. by apply (buf_read_at [] b post 0 n w eq_refl). Qed.

Section proofs.
Context {O : OpenSSL} {L : OpenSSLLaws O} {NH : NodeHash}.

(** ** One page *)

Section page.
  Context (st : codec_state) (off size : Z) (hd hb : list Z).
  Context (Hpage : page_sz (cs_ctx st) = off + (size + 96)) (Hs : 0 <= size).
  Context (Hhd : off = Z.of_nat (length hd)) (Hhb : off = Z.of_nat (length hb)).

Lemma codec_page_done cctx pgno mode data out rc st1 out1 w w1 :
    Z.of_nat (length data) = size + 96 -> Z.of_nat (length out) = size + 96 ->
    sqlcipher_page_cipher st cctx pgno mode (size + 96) data out w = Done ((rc, st1, out1), w1) ->
    Z.of_nat (length out1) = size + 96 ->
    codec_page st cctx pgno mode off (hd ++ data) (hb ++ out) w
    = Done (if rc =? SQLITE_OK then (st1, hb ++ out1)
            else (with_error st1 rc, hb ++ replicate (Z.to_nat (size + 96)) 0), w1).
  Proof using Hpage Hs Hhd Hhb.
    intros Hd Ho Hrun Hl. unfold codec_page. rewrite Hpage.
    replace (off + (size + 96) - off) with (size + 96) by lia.
    rewrite (bind_done _ _ _ _ _ (read_suffix hd data off _ w Hhd (eq_sym Hd))).
    rewrite (bind_done _ _ _ _ _ (read_suffix hb out off _ w Hhb (eq_sym Ho))).
    rewrite (bind_done _ _ _ _ _ Hrun). destruct (rc =? SQLITE_OK).
    - by rewrite (bind_done _ _ _ _ _ (write_suffix hb out out1 off w1 Hhb ltac:(lia))).
    - rewrite (bind_done _ _ _ _ _ (write_suffix hb out (replicate (Z.to_nat (size + 96)) 0) off w1 Hhb
        ltac:(rewrite length_replicate; lia))). done.
  Qed.
End page.

(** A context in use: keys derived, salt known, page buffer in place. *)
Record ctx_open (ctx : codec_ctx) (P : Z) (rd wr : cipher_ctx) : Prop := {
  op_std : ctx_std ctx;
  op_page : page_sz ctx = P;
  op_room : 16 + 96 <= P;
  op_header : plaintext_header_sz ctx = 0;
  op_buffer : exists buf, buffer ctx = Some buf /\ Z.of_nat (length buf) = P;
  op_read : read_ctx ctx = Some rd;
  op_write : write_ctx ctx = Some wr;
  op_rd_set : keys_set rd;
  op_wr_set : keys_set wr;
  op_need : need_kdf_salt ctx = 0;
  op_salt : length (kdf_salt ctx) = 16%nat;
}.

(** Bytes of page [pgno] that are not encrypted. *)
Definition head_size (pgno : Z) : nat := if pgno =? 1 then 16 else 0.

Lemma page_offset_std ctx pgno :
  plaintext_header_sz ctx = 0 -> page_offset ctx pgno = Z.of_nat (head_size pgno).
Proof. intros Hp. unfold page_offset, head_size. rewrite Hp. by destruct (pgno =? 1). Qed.

Lemma head_size_cases pgno : head_size pgno = 16%nat /\ pgno = 1 \/ head_size pgno = 0%nat /\ pgno <> 1.
Proof. unfold head_size. destruct (pgno =? 1) eqn:E; [left|right]; lia. Qed.

(** What the hook puts in front of an encrypted or decrypted page. *)
Lemma write_head ctx pgno buf h other w :
  plaintext_header_sz ctx = 0 -> length h = 16%nat -> (16 <= length buf)%nat ->
  (if pgno =? 1 then
     x ← buf_read 0 (page_offset ctx pgno) (if plaintext_header_sz ctx =? 0 then h else other);
     buf_write 0 x buf
   else mret buf) w
  = Done (take (head_size pgno) h ++ drop (head_size pgno) buf, w).
Proof.
  intros Hp Hh Hb. rewrite page_offset_std, Hp by done. unfold head_size.
  destruct (pgno =? 1); [|by rewrite take_0, drop_0].
  change (0 =? 0) with true. cbv iota.
  rewrite (bind_done _ _ _ _ _ (read_whole h 16 w ltac:(lia))), take_ge by lia.
  rewrite <- (take_drop 16 buf) at 1. apply write_prefix. rewrite length_take. lia.
Qed.

Lemma with_same st : with_rng (with_ctx st (cs_ctx st)) (cs_rng st) = st.
Proof. by destruct st. Qed.

(** The hook on an open context, in terms of the page it runs
    [sqlcipher_page_cipher] on. *)
Section hook.
  Context (g : globals) (st : codec_state) (P : Z) (rd wr : cipher_ctx) (pgno : Z).
  Context (Hopen : ctx_open (cs_ctx st) P rd wr).
  Context (pData buf : list Z) (HpD : Z.of_nat (length pData) = P).
  Context (Hbuf : buffer (cs_ctx st) = Some buf).

Abbreviation off := (head_size pgno).
Abbreviation size := (P - Z.of_nat off - 96).

Lemma buf_len : Z.of_nat (length buf) = P.
  Proof using Hopen Hbuf. destruct (op_buffer _ _ _ _ Hopen) as (b & Hb & Hl).
    rewrite Hbuf in Hb. by injection Hb as <-. Qed.

  (** [codec_page] as both operations call it. *)
Lemma hook_page cctx mode h rc st1 out1 w w1 :
    length h = 16%nat ->
    sqlcipher_page_cipher st cctx pgno mode (size + 96) (drop off pData) (drop off buf) w
      = Done ((rc, st1, out1), w1) ->
    Z.of_nat (length out1) = size + 96 ->
    codec_page st cctx pgno mode (page_offset (cs_ctx st) pgno) pData
      (take off h ++ drop off buf) w
    = Done (if rc =? SQLITE_OK then (st1, take off h ++ out1)
            else (with_error st1 rc, take off h ++ replicate (Z.to_nat (size + 96)) 0), w1).
  Proof using Hopen HpD Hbuf.
    intros Hh Hrun Hl. pose proof buf_len as Hbl. pose proof (op_room _ _ _ _ Hopen) as HP.
    rewrite page_offset_std by apply Hopen. rewrite <- (take_drop off pData) at 1.
    destruct (head_size_cases pgno) as [[Hoff _]|[Hoff _]];
      (apply codec_page_done;
       rewrite ?length_take, ?length_drop, ?(op_page _ _ _ _ Hopen), ?Hh, ?Hoff; lia || idtac);
      try done; rewrite Hoff in *; try lia; done.
  Qed.

Lemma hook_encrypt mode rc st1 out1 w w1 :
    mode = CODEC_WRITE_OP \/ mode = CODEC_JOURNAL_OP ->
    sqlcipher_page_cipher st (if mode =? CODEC_WRITE_OP then CIPHER_WRITE_CTX else CIPHER_READ_CTX)
      pgno CIPHER_ENCRYPT (size + 96) (drop off pData) (drop off buf) w = Done ((rc, st1, out1), w1) ->
    Z.of_nat (length out1) = size + 96 ->
    sqlite3Codec g st pData pgno mode w
    = Done ((RetBuffer,
        (if rc =? SQLITE_OK then set_buf st1 (take off (kdf_salt (cs_ctx st)) ++ out1)
         else set_buf (with_error st1 rc) (take off (kdf_salt (cs_ctx st)) ++
                replicate (Z.to_nat (size + 96)) 0)), pData), w1).
  Proof using Hopen HpD Hbuf.
    intros Hmode Hrun Hl. unfold sqlite3Codec. destruct Hopen as [Hstd Hpg HP Hph _ Hrd Hwr Hk1 Hk2 Hn Hsl].
    rewrite (bind_done _ _ _ _ _ (key_derive_idle g _ rd wr _ _ w Hrd Hwr Hk1 Hk2)), with_same.
    change (negb (SQLITE_OK =? SQLITE_OK)) with false. cbv iota zeta. rewrite Hbuf. cbn [deref].
    rewrite bind_ret. replace (mode =? CODEC_READ_OP) with false by (by destruct Hmode as [->| ->]).
    replace ((mode =? CODEC_WRITE_OP) || (mode =? CODEC_JOURNAL_OP)) with true by (by destruct Hmode as [->| ->]).
    cbv iota.
    assert (Hsalt : (if pgno =? 1
      then sqlcipher_codec_ctx_get_kdf_salt (cs_ctx st) (cs_env st) (cs_rng st)
      else (SQLITE_OK, cs_ctx st, cs_rng st, []))
      = (SQLITE_OK, cs_ctx st, cs_rng st, if pgno =? 1 then kdf_salt (cs_ctx st) else [])).
    { unfold sqlcipher_codec_ctx_get_kdf_salt. rewrite Hn. by destruct (pgno =? 1). }
    rewrite Hsalt, with_same. change (negb (SQLITE_OK =? SQLITE_OK)) with false. cbv iota.
    pose proof buf_len as Hbl.
    assert (Hh := write_head (cs_ctx st) pgno buf (kdf_salt (cs_ctx st)) pData w Hph Hsl ltac:(lia)).
    erewrite bind_done; [|etransitivity; [|exact Hh]; by destruct (pgno =? 1)].
    rewrite (bind_done _ _ _ _ _ (hook_page _ CIPHER_ENCRYPT _ rc st1 out1 w w1 Hsl Hrun Hl)).
    by destruct (rc =? SQLITE_OK).
  Qed.

Lemma hook_write rc st1 out1 w w1 :
    sqlcipher_page_cipher st CIPHER_WRITE_CTX pgno CIPHER_ENCRYPT (size + 96)
      (drop off pData) (drop off buf) w = Done ((rc, st1, out1), w1) ->
    Z.of_nat (length out1) = size + 96 ->
    sqlite3Codec g st pData pgno CODEC_WRITE_OP w
    = Done ((RetBuffer,
        (if rc =? SQLITE_OK then set_buf st1 (take off (kdf_salt (cs_ctx st)) ++ out1)
         else set_buf (with_error st1 rc) (take off (kdf_salt (cs_ctx st)) ++
                replicate (Z.to_nat (size + 96)) 0)), pData), w1).
  Proof using Hopen HpD Hbuf. intros Hrun Hl. by apply hook_encrypt; [left|..]. Qed.

Lemma hook_read rc st1 out1 w w1 :
    sqlcipher_page_cipher st CIPHER_READ_CTX pgno CIPHER_DECRYPT (size + 96)
      (drop off pData) (drop off buf) w = Done ((rc, st1, out1), w1) ->
    Z.of_nat (length out1) = size + 96 ->
    let page := take off SQLITE_FILE_HEADER ++
      (if rc =? SQLITE_OK then out1 else replicate (Z.to_nat (size + 96)) 0) in
    sqlite3Codec g st pData pgno CODEC_READ_OP w
    = Done ((RetData, (if rc =? SQLITE_OK then set_buf st1 page else set_buf (with_error st1 rc) page),
             page), w1).
  Proof using Hopen HpD Hbuf.
    intros Hrun Hl page. unfold sqlite3Codec.
    destruct Hopen as [Hstd Hpg HP Hph _ Hrd Hwr Hk1 Hk2 Hn Hsl].
    rewrite (bind_done _ _ _ _ _ (key_derive_idle g _ rd wr _ _ w Hrd Hwr Hk1 Hk2)), with_same.
    change (negb (SQLITE_OK =? SQLITE_OK)) with false. cbv iota zeta. rewrite Hbuf. cbn [deref].
    rewrite bind_ret. change (CODEC_READ_OP =? CODEC_READ_OP) with true. cbv iota.
    pose proof buf_len as Hbl.
    rewrite (bind_done _ _ _ _ _ (write_head (cs_ctx st) pgno buf SQLITE_FILE_HEADER pData w Hph
      eq_refl ltac:(lia))).
    rewrite (bind_done _ _ _ _ _ (hook_page CIPHER_READ_CTX CIPHER_DECRYPT SQLITE_FILE_HEADER
      rc st1 out1 w w1 eq_refl Hrun Hl)).
    assert (Hpl : Z.of_nat (length page) = P).
    { unfold page. rewrite length_app, length_take. change (length SQLITE_FILE_HEADER) with 16%nat.
      destruct (head_size_cases pgno) as [[Hoff _]|[Hoff _]]; rewrite Hoff in *;
        destruct (rc =? SQLITE_OK); rewrite ?length_replicate; lia. }
    replace (if rc =? SQLITE_OK then _ else _)
      with ((if rc =? SQLITE_OK then st1 else with_error st1 rc), page)
      by (unfold page; by destruct (rc =? SQLITE_OK)).
    rewrite Hpg, (bind_done _ _ _ _ _ (read_whole page P w1 (eq_sym Hpl))).
    rewrite (bind_done _ _ _ _ _ (write_whole pData page w1 ltac:(lia))).
    by destruct (rc =? SQLITE_OK).
  Qed.
End hook.

(** ** The theorems *)

Lemma split_page_data (l : list Z) size :
  0 <= size -> Z.of_nat (length l) = size + 96 ->
  exists p, l = join p /\ parts_ok size p /\ pp_data p = take (Z.to_nat size) l.
Proof.
  intros Hs Hl. destruct (split_page l size Hs Hl) as (p & -> & Hp). exists p. split; [done|].
  split; [done|]. unfold join. rewrite take_app_length'; [done|]. destruct Hp as (H1 & _). lia.
Qed.

Lemma open_after_write ctx P c t page :
  ctx_open ctx P c c -> Z.of_nat (length page) = P ->
  ctx_open (set_buffer (set_tree ctx t) (Some page)) P c c.
Proof.
  intros [[] ? ? ? ? ? ? ? ? ? ?] Hl. split; try done. by exists page.
Qed.

(** The page returned by a read: header and decrypted bytes. *)
Lemma rejoin pgno pData out n :
  (pgno = 1 -> take 16 pData = SQLITE_FILE_HEADER) -> (16 <= length pData)%nat ->
  take n out = take n (drop (head_size pgno) pData) ->
  take (head_size pgno + n) (take (head_size pgno) SQLITE_FILE_HEADER ++ out)
  = take (head_size pgno + n) pData.
Proof.
  intros Hh Hl Ht. destruct (head_size_cases pgno) as [[E H1]|[E _]]; rewrite E in *; [|exact Ht].
  rewrite <- (take_drop 16 pData), (Hh H1). change (take 16 SQLITE_FILE_HEADER) with SQLITE_FILE_HEADER.
  change (16 + n)%nat with (length SQLITE_FILE_HEADER + n)%nat. rewrite !take_app_add.
  by rewrite Ht.
Qed.

(** Writing a page through the hook, for the database or the journal. *)
Lemma codec_encrypt_spec g st P c mode pgno pData p size mt ls rb r' ct mac w :
  mode = CODEC_WRITE_OP \/ mode = CODEC_JOURNAL_OP ->
  ctx_open (cs_ctx st) P c c -> Z.of_nat (length pData) = P ->
  size = P - Z.of_nat (head_size pgno) - 96 ->
  drop (head_size pgno) pData = join p -> parts_ok size p ->
  RAND_bytes (cs_rng st) 96 = (Some rb, r') ->
  EVP_Cipher CIPHER_ENCRYPT (enc_key c) (take 16 rb) (pp_data p) = Some ct ->
  page_mac (cs_ctx st) c pgno ct (take 16 rb) = Some mac ->
  ctx_tree (cs_ctx st) mt (Z.of_nat (length ls)) -> tree_rep mt ls ->
  Z.of_nat (S (length ls)) < MT_AL_MAX_ELEMS -> all_ok w ->
  let page := take (head_size pgno) (kdf_salt (cs_ctx st)) ++ enc_page ct rb mac (Z.of_nat (length ls)) in
  exists st1 w1,
    sqlite3Codec g st pData pgno mode w = Done ((RetBuffer, st1, pData), w1) /\
    buffer (cs_ctx st1) = Some page /\ Z.of_nat (length page) = P /\
    drop (head_size pgno) page = enc_page ct rb mac (Z.of_nat (length ls)) /\
    ctx_open (cs_ctx st1) P c c /\ reader (cs_ctx st) c st1 c (ls ++ [leaf mac]) /\
    cs_env st1 = cs_env st /\ all_ok w1 /\
    (exists t, cs_ctx st1 = set_buffer (set_tree (cs_ctx st) t) (Some page)) /\
    exists mt1, ctx_tree (cs_ctx st1) mt1 (Z.of_nat (S (length ls))) /\ tree_rep mt1 (ls ++ [leaf mac]).
Proof.
  intros Hmode Hopen HpD Hsz Hjoin Hp Hrand Henc Hmac Htree Hrep Hroom Hw page.
  pose proof (op_room _ _ _ _ Hopen) as HP.
  destruct (op_buffer _ _ _ _ Hopen) as (buf & Hbuf & Hbl).
  assert (Hoff : (head_size pgno <= 16)%nat) by (destruct (head_size_cases pgno) as [[-> _]|[-> _]]; lia).
  destruct (page_encrypt_spec st (if mode =? CODEC_WRITE_OP then CIPHER_WRITE_CTX else CIPHER_READ_CTX) c pgno size p (drop (head_size pgno) buf) rb r' ct mac
    mt ls w) as (st1 & mt1 & w1 & Hrun & Htree1 & Hrep1 & Hw1 & Henv1 & _ & Hctx1);
    [apply Hopen|destruct Hmode as [->| ->]; apply Hopen|done|rewrite length_drop; lia|lia|done..|].
  set (ep := enc_page ct rb mac (Z.of_nat (length ls))) in *.
  destruct (RAND_length _ _ _ _ Hrand) as [Hrl _]. destruct (mac_parts _ _ _ _ Hmac eq_refl) as [Hml _].
  assert (Hel : Z.of_nat (length ep) = size + 96).
  { apply length_join. eapply enc_page_parts; [exact Hp|exact Henc|lia|done]. }
  rewrite <- Hjoin, Hsz in Hrun. rewrite Hsz in Hel.
  pose proof (hook_encrypt g st P c c pgno Hopen pData buf HpD Hbuf mode SQLITE_OK st1 ep w w1 Hmode Hrun Hel) as Hwr.
  change (SQLITE_OK =? SQLITE_OK) with true in Hwr. cbv iota in Hwr. fold page in Hwr.
  assert (Htl : length (take (head_size pgno) (kdf_salt (cs_ctx st))) = head_size pgno)
    by (rewrite length_take, (op_salt _ _ _ _ Hopen); lia).
  assert (Hpl : Z.of_nat (length page) = P) by (unfold page; rewrite length_app, Htl; lia).
  assert (Hopen1 : ctx_open (cs_ctx (set_buf st1 page)) P c c).
  { cbn [set_buf with_ctx cs_ctx]. rewrite Hctx1. by apply open_after_write. }
  exists (set_buf st1 page), w1. split; [done|]. split; [done|]. split; [done|].
  split; [unfold page; by rewrite drop_app_length'|]. split; [done|].
  split; [|split; [done|split; [done|split; [by eexists; cbn; rewrite Hctx1|by exists mt1]]]].
  split; [apply Hopen1| |apply Hopen1|done|done|eexists _, _; split; [done|by left]].
  cbn [set_buf with_ctx cs_ctx]. by rewrite Hctx1.
Qed.

(** Writing a page through the hook. *)
Lemma codec_write_spec g st P c pgno pData p size mt ls rb r' ct mac w :
  ctx_open (cs_ctx st) P c c -> Z.of_nat (length pData) = P ->
  size = P - Z.of_nat (head_size pgno) - 96 ->
  drop (head_size pgno) pData = join p -> parts_ok size p ->
  RAND_bytes (cs_rng st) 96 = (Some rb, r') ->
  EVP_Cipher CIPHER_ENCRYPT (enc_key c) (take 16 rb) (pp_data p) = Some ct ->
  page_mac (cs_ctx st) c pgno ct (take 16 rb) = Some mac ->
  ctx_tree (cs_ctx st) mt (Z.of_nat (length ls)) -> tree_rep mt ls ->
  Z.of_nat (S (length ls)) < MT_AL_MAX_ELEMS -> all_ok w ->
  let page := take (head_size pgno) (kdf_salt (cs_ctx st)) ++ enc_page ct rb mac (Z.of_nat (length ls)) in
  exists st1 w1,
    sqlite3Codec g st pData pgno CODEC_WRITE_OP w = Done ((RetBuffer, st1, pData), w1) /\
    buffer (cs_ctx st1) = Some page /\ Z.of_nat (length page) = P /\
    drop (head_size pgno) page = enc_page ct rb mac (Z.of_nat (length ls)) /\
    ctx_open (cs_ctx st1) P c c /\ reader (cs_ctx st) c st1 c (ls ++ [leaf mac]) /\
    cs_env st1 = cs_env st /\ all_ok w1 /\
    (exists t, cs_ctx st1 = set_buffer (set_tree (cs_ctx st) t) (Some page)) /\
    exists mt1, ctx_tree (cs_ctx st1) mt1 (Z.of_nat (S (length ls))) /\ tree_rep mt1 (ls ++ [leaf mac]).
Proof. intros. by apply (codec_encrypt_spec g st P c CODEC_WRITE_OP pgno pData p size mt ls rb r'); [left|..]. Qed.

(** C9. The hook reads back what it wrote: on an open context, writing page
    [pgno] leaves an encrypted page of the same length in the buffer (for page 1
    it starts with the salt instead of the file header), and reading that page
    returns the original usable bytes, with the pager's error state untouched
    (page 1 must start with the header every SQLite file starts with). *)
Theorem codec_write_read g st P c pgno pData mt ls rb r' ct mac w :
  ctx_open (cs_ctx st) P c c ->
  Z.of_nat (length pData) = P -> bytes pData ->
  (pgno = 1 -> take 16 pData = SQLITE_FILE_HEADER) ->
  let off := head_size pgno in
  let n := Z.to_nat (P - Z.of_nat off - 96) in
  RAND_bytes (cs_rng st) 96 = (Some rb, r') ->
  EVP_Cipher CIPHER_ENCRYPT (enc_key c) (take 16 rb) (take n (drop off pData)) = Some ct ->
  page_mac (cs_ctx st) c pgno ct (take 16 rb) = Some mac ->
  ctx_tree (cs_ctx st) mt (Z.of_nat (length ls)) -> tree_rep mt ls ->
  Z.of_nat (S (length ls)) < MT_AL_MAX_ELEMS -> all_ok w ->
  exists st1 page w1 st2 data,
    sqlite3Codec g st pData pgno CODEC_WRITE_OP w = Done ((RetBuffer, st1, pData), w1) /\
    buffer (cs_ctx st1) = Some page /\ Z.of_nat (length page) = P /\
    (pgno = 1 -> take 16 page = kdf_salt (cs_ctx st)) /\
    sqlite3Codec g st1 page pgno CODEC_READ_OP w1 = Done ((RetData, st2, data), w1) /\
    take (off + n) data = take (off + n) pData /\ Z.of_nat (length data) = P /\
    cs_env st2 = cs_env st.
Proof.
  intros Hopen HpD Hb Hhdr off n Hrand Henc Hmac Htree Hrep Hroom Hw.
  pose proof (op_room _ _ _ _ Hopen) as HP. set (size := P - Z.of_nat off - 96) in *.
  assert (Hoff : (off <= 16)%nat) by (unfold off; destruct (head_size_cases pgno) as [[-> _]|[-> _]]; lia).
  destruct (split_page_data (drop off pData) size) as (p & Hjoin & Hp & Hdata);
    [lia|rewrite length_drop; lia|]. fold n in Hdata. rewrite <- Hdata in Henc.
  assert (Hbd : bytes (pp_data p)) by (rewrite Hdata; by apply Forall_take, Forall_drop).
  destruct (codec_write_spec g st P c pgno pData p size mt ls rb r' ct mac w)
    as (st1 & w1 & Hwr & Hbuf & Hpl & Hdrop & Hopen1 & Hread & Henv1 & _); [done..|].
  set (page := _ ++ enc_page _ _ _ _) in *. set (ep := enc_page _ _ _ _) in *.
  assert (Hel : Z.of_nat (length ep) = size + 96)
    by (rewrite <- Hdrop, length_drop; fold off; lia).
  destruct (enc_page_read (cs_ctx st) c st1 c (ls ++ [leaf mac]) pgno size p rb _ r' ct mac (length ls) ep w1
    Hp Hbd ltac:(lia) Hrand Henc Hmac Hread) as (st2 & out & Hrun2 & Hol & Htk & _ & Hev2);
    [by rewrite lookup_app_r, Nat.sub_diag by lia|done|].
  fold ep in Hrun2. rewrite <- Hdrop in Hrun2.
  pose proof (hook_read g st1 P c c pgno Hopen1 page page Hpl Hbuf SQLITE_OK st2 out w1 w1 Hrun2 Hol) as Hrd.
  change (SQLITE_OK =? SQLITE_OK) with true in Hrd. cbv iota zeta in Hrd. fold off in Hrd.
  eexists st1, page, w1, _, _. split; [exact Hwr|]. split; [done|]. split; [done|]. split.
  { intros H1. unfold page. rewrite H1. change (head_size 1) with 16%nat.
    rewrite (take_ge (kdf_salt _)) by (rewrite (op_salt _ _ _ _ Hopen); lia).
    apply take_app_length'. by rewrite (op_salt _ _ _ _ Hopen). }
  split; [exact Hrd|]. split.
  { apply rejoin; [done|lia|]. fold off. rewrite <- Hdata. exact Htk. }
  split; [|cbn [set_buf with_ctx cs_env]; congruence].
  rewrite length_app, length_take. change (length SQLITE_FILE_HEADER) with 16%nat. lia.
Qed.

(** C22. A bad page reaches the pager as an error: when the hook reads a page
    whose HMAC is wrong and which is not all zeros, it hands out a page of zeros,
    on page 1 with the 16 bytes of SQLite's file header before the zeros, and puts the pager and the database
    into the error state with SQLITE_ERROR. *)
Theorem codec_read_rejects g st P c wr pgno pData mt n ls p w :
  ctx_open (cs_ctx st) P c wr -> Z.of_nat (length pData) = P -> bytes pData ->
  let off := head_size pgno in
  let size := P - Z.of_nat off - 96 in
  drop off pData = join p -> parts_ok size p ->
  page_mac (cs_ctx st) c pgno (pp_data p) (pp_iv p) <> Some (pp_mac p) ->
  join p <> replicate (Z.to_nat (size + 96)) 0 ->
  ctx_tree (cs_ctx st) mt n -> tree_rep mt ls ->
  exists st',
    sqlite3Codec g st pData pgno CODEC_READ_OP w
    = Done ((RetData, st', take off SQLITE_FILE_HEADER ++ replicate (Z.to_nat (size + 96)) 0), w) /\
    pager_error (cs_env st') = true /\ pager_errCode (cs_env st') = SQLITE_ERROR /\
    db_errCode (cs_env st') = SQLITE_ERROR.
Proof.
  intros Hopen HpD Hb off size Hjoin Hp Hmac Hnz Htree Hrep.
  pose proof (op_room _ _ _ _ Hopen) as HP. destruct (op_buffer _ _ _ _ Hopen) as (buf & Hbuf & Hbl).
  assert (Hoff : (off <= 16)%nat) by (unfold off; destruct (head_size_cases pgno) as [[-> _]|[-> _]]; lia).
  destruct (page_decrypt_spec st CIPHER_READ_CTX c pgno size p (drop off buf) mt n ls w)
    as (rc & st' & out' & Hrun & _ & _ & Hcase);
    [apply Hopen|apply Hopen|done|rewrite <- Hjoin; by apply Forall_drop|rewrite length_drop; lia|lia
    |done|done|].
  destruct Hcase as [((Hm' & _) & _)|[[? _]|(-> & -> & _)]]; [done|done|].
  rewrite <- Hjoin in Hrun.
  pose proof (hook_read g st P c wr pgno Hopen pData buf HpD Hbuf _ st' _ w w Hrun
    ltac:(rewrite length_replicate; lia)) as Hrd.
  eexists. split; [exact Hrd|done].
Qed.

End proofs.
