(* ===== verification/CodecWitness.v ===== *)
(** * Concrete runs of the page codec

    One closed instance of every theorem of [PageProofs], [CodecProofs] and
    [HookProofs]: the toy OpenSSL of [Openssl], a tree built with SHA-256 and a
    page of zeros and fives. *)

From stdpp Require Import base tactics list numbers option.
From Stdlib Require Import ZArith Lia ZifyBool.
From S2P Require Import Prelude MtArrList Sha256 MtCrypto MerkleTree MtSerialize MerkleTheorems.
From S2P Require Import CipherUtil Openssl CodecCtx PageCodec PageProofs CodecProofs HookProofs.

Local Open Scope Z_scope.

#[local] Existing Instance toy_openssl.
#[local] Existing Instance toy_openssl_laws.

Lemma bytes_check l : forallb (fun b => (0 <=? b) && (b <? 256)) l = true -> bytes l.
Proof.
  induction l as [|b l IH]; [constructor|]. cbn [forallb]. intros [Hb Hl]%andb_true_iff.
  constructor; [unfold is_byte; lia|by apply IH].
Qed.

(** Keys, a context of 4096-byte pages and a state around a tree. *)
Definition w_cipher : cipher_ctx :=
  Mk_cipher 0 0 (replicate 32 7) (replicate 32 9) None None.

Definition w_ctx (P : Z) (t : option mt_obj) : codec_ctx :=
  Mk_codec 0 PBKDF2_ITER FAST_PBKDF2_ITER 16 32 16 16 P 99 96 64 0 SQLCIPHER_HMAC_SHA512
    SQLCIPHER_PBKDF2_HMAC_SHA512 0 0 DEFAULT_CIPHER_FLAGS (replicate 16 1) (replicate 16 59)
    (Some (replicate (Z.to_nat P) 0)) (Some w_cipher) (Some w_cipher) sqlcipher_openssl_setup t.

Definition w_env : db_env := Mk_env (Some []) 0 false 0.

Definition w_state (P : Z) (mt : mt_t) (n : Z) : codec_state :=
  Mk_cst (w_ctx P (Some (Mk_obj (Some mt) n 0))) w_env 0%nat (Mk_stats 0 0 0).

Definition w_page (b : Z) : page_parts :=
  Parts (replicate 32 b) (replicate 16 0) (replicate 64 0) (replicate 4 0) (replicate 12 0).

Lemma w_std P t : ctx_std (w_ctx P t).
Proof. by split. Qed.

Lemma w_ctx_tree P mt n : ctx_tree (cs_ctx (w_state P mt n)) mt n.
Proof. by eexists. Qed.

Lemma w_parts b : parts_ok 32 (w_page b).
Proof. by repeat split. Qed.

Lemma w_open P t : 16 + 96 <= P -> ctx_open (w_ctx P t) P w_cipher w_cipher.
Proof.
  intros HP. split; try done. eexists. split; [done|]. rewrite length_replicate. lia.
Qed.

Lemma w_tree : exists mt, tree_rep mt [].
Proof. apply (tree_of []); [constructor|done]. Qed.

(** Ciphertext and HMAC of [w_page b] as page 2, written with IV [iv]. *)
Definition w_ct (b : Z) (iv : list Z) : list Z :=
  default [] (EVP_Cipher CIPHER_ENCRYPT (enc_key w_cipher) iv (replicate 32 b)).
Definition w_mac (b : Z) (iv : list Z) : list Z :=
  default [] (page_mac (w_ctx 128 None) w_cipher 2 (w_ct b iv) iv).

Lemma w_reader P t mt n ls :
  tree_rep mt ls -> reader (w_ctx P t) w_cipher (w_state P mt n) w_cipher ls.
Proof. intros Hrep. split; try done. exists mt, n; split; [by eexists|by left]. Qed.

Lemma page_roundtrip_witness :
  exists mt st1 page w1, tree_rep mt [] /\
    sqlcipher_page_cipher (w_state 128 mt 0) CIPHER_WRITE_CTX 2 CIPHER_ENCRYPT (32 + 96)
      (join (w_page 5)) (replicate 128 0) [] = Done ((SQLITE_OK, st1, page), w1) /\
    exists mt1 st3 out', sqlcipher_page_cipher (w_state 128 mt1 1) CIPHER_READ_CTX 2 CIPHER_DECRYPT (32 + 96)
        page (replicate 128 0) w1 = Done ((SQLITE_OK, st3, out'), w1) /\
      take 32 out' = replicate 32 5.
Proof.
  destruct w_tree as (mt & Hrep).
  destruct (page_roundtrip (w_state 128 mt 0) CIPHER_WRITE_CTX w_cipher 2 32 (w_page 5)
    (replicate 128 0) (replicate 96 0) 1%nat (w_ct 5 (replicate 16 0)) (w_mac 5 (replicate 16 0)) mt [] [])
    as (st1 & page & w1 & mt1 & leaf1 & Hrun & Hl & Ht & Hr & Hread);
    [by split|done|apply w_parts|by repeat constructor|done|done|reflexivity..|apply w_ctx_tree|done|done
    |constructor|].
  destruct (Hread (w_state 128 mt1 1) w_cipher [leaf1] (replicate 128 0) w1)
    as (st3 & out' & Hrun3 & _ & Htk); [|done|done|].
  { exact (w_reader 128 _ mt1 1 _ Hr). }
  exists mt, st1, page, w1. split; [done|]. split; [done|]. by exists mt1, st3, out'.
Defined.

(** A page as the codec writes it first, with a tree that has its leaf. *)
Definition w_enc : page_parts :=
  Parts (w_ct 5 (replicate 16 0)) (replicate 16 0) (w_mac 5 (replicate 16 0)) (le_bytes 4 0)
    (replicate 12 0).

Lemma w_leaf_tree : exists mt, tree_rep mt [leaf (w_mac 5 (replicate 16 0))].
Proof.
  apply tree_of; [|done]. constructor; [|constructor].
  apply leaf_hash; [done|]. by apply bytes_check; vm_compute.
Qed.

Lemma w_enc_bytes : bytes (join w_enc).
Proof. by apply bytes_check; vm_compute. Qed.

Lemma w_enc_parts : parts_ok 32 w_enc.
Proof. repeat split; by vm_compute. Qed.

Lemma w_enc_nonzero : join w_enc <> replicate (Z.to_nat (32 + 96)) 0.
Proof. vm_compute. intros [=]. Qed.

Lemma page_authentic_witness :
  exists mt st' out', tree_rep mt [leaf (w_mac 5 (replicate 16 0))] /\
    sqlcipher_page_cipher (w_state 128 mt 1) CIPHER_READ_CTX 2 CIPHER_DECRYPT (32 + 96)
      (join w_enc) (replicate 128 0) [] = Done ((SQLITE_OK, st', out'), []) /\
    page_mac (w_ctx 128 None) w_cipher 2 (pp_data w_enc) (pp_iv w_enc) = Some (pp_mac w_enc) /\
    ([leaf (w_mac 5 (replicate 16 0))] !! 0%nat = Some (leaf (pp_mac w_enc)) \/
     exists x y, tree_collision [leaf (pp_mac w_enc)] [leaf (w_mac 5 (replicate 16 0))] = Some (x, y) /\ collides x y).
Proof.
  destruct w_leaf_tree as (mt & Hrep).
  destruct (enc_page_read (w_ctx 128 None) w_cipher (w_state 128 mt 1) w_cipher
    [leaf (w_mac 5 (replicate 16 0))] 2 32 (w_page 5)
    (replicate 96 0) 0%nat 1%nat (w_ct 5 (replicate 16 0)) (w_mac 5 (replicate 16 0)) 0 (replicate 128 0) []
    (w_parts 5)) as (st3 & out' & Hrun & _);
    [by repeat constructor|done|reflexivity..|exact (w_reader 128 None mt 1 _ Hrep)|done|done|].
  assert (Heq : enc_page (w_ct 5 (replicate 16 0)) (replicate 96 0) (w_mac 5 (replicate 16 0)) (Z.of_nat 0)
    = join w_enc) by reflexivity.
  rewrite Heq in Hrun.
  destruct (page_authentic (w_state 128 mt 1) CIPHER_READ_CTX w_cipher 2 32 w_enc (replicate 128 0) mt 1
    [leaf (w_mac 5 (replicate 16 0))] [] SQLITE_OK st3 out' []) as (Hm & _ & Hleaf);
    [apply w_std|reflexivity|apply w_enc_parts|apply w_enc_bytes|reflexivity|lia|apply w_ctx_tree|exact Hrep
    |exact Hrun|reflexivity|apply w_enc_nonzero|].
  exists mt, st3, out'. split_and!; assumption.
Defined.

Lemma page_tampered_rejected_witness :
  exists mt st', tree_rep mt [] /\
    sqlcipher_page_cipher (w_state 128 mt 0) CIPHER_READ_CTX 2 CIPHER_DECRYPT (32 + 96)
      (join (w_page 5)) (replicate 128 1) [] = Done ((SQLITE_ERROR, st', replicate 128 0), []).
Proof.
  destruct w_tree as (mt & Hrep).
  destruct (page_tampered_rejected (w_state 128 mt 0) CIPHER_READ_CTX w_cipher 2 32 (w_page 5)
    (replicate 128 1) mt 0 [] []) as (st' & Hrun);
    [by split|done|apply w_parts|by repeat constructor|done|done|apply w_ctx_tree|done|by vm_compute|by vm_compute|].
  exists mt, st'. split_and!; assumption.
Defined.

Lemma page_stale_accepted_witness :
  exists mt st1 page1 w1 st2 page2 w2 st3 out', tree_rep mt [] /\
    sqlcipher_page_cipher (w_state 128 mt 0) CIPHER_WRITE_CTX 2 CIPHER_ENCRYPT (32 + 96)
      (join (w_page 5)) (replicate 128 0) [] = Done ((SQLITE_OK, st1, page1), w1) /\
    sqlcipher_page_cipher st1 CIPHER_WRITE_CTX 2 CIPHER_ENCRYPT (32 + 96)
      (join (w_page 6)) (replicate 128 0) w1 = Done ((SQLITE_OK, st2, page2), w2) /\
    sqlcipher_page_cipher st2 CIPHER_READ_CTX 2 CIPHER_DECRYPT (32 + 96)
      page1 (replicate 128 0) w2 = Done ((SQLITE_OK, st3, out'), w2) /\
    take 32 out' = replicate 32 5.
Proof.
  destruct w_tree as (mt & Hrep). exists mt.
  destruct (page_stale_accepted (w_state 128 mt 0) w_cipher 2 32 (w_page 5) (w_page 6) (replicate 128 0)
    (replicate 96 0) (replicate 96 1) 1%nat 2%nat (w_ct 5 (replicate 16 0)) (w_ct 6 (replicate 16 1))
    (w_mac 5 (replicate 16 0)) (w_mac 6 (replicate 16 1)) mt [] [])
    as (st1 & page1 & w1 & st2 & page2 & w2 & st3 & out' & H1 & H2 & H3 & H4);
    [by split|done|done|apply w_parts|apply w_parts|by repeat constructor|done|done|reflexivity..
    |apply w_ctx_tree|done|done|constructor|].
  exists st1, page1, w1, st2, page2, w2, st3, out'. split_and!; assumption.
Defined.

Lemma page_write_after_reload_fails_witness :
  exists mt st' w', reloaded_rep mt [leaf (w_mac 5 (replicate 16 0))] /\
    sqlcipher_page_cipher (w_state 128 mt 1) CIPHER_WRITE_CTX 2 CIPHER_ENCRYPT (32 + 96)
      (join (w_page 5)) (replicate 128 1) [] = Done ((SQLITE_ERROR, st', replicate 128 0), w').
Proof.
  destruct w_leaf_tree as (mt & Hrep).
  destruct (load_spec mt _ [] Hrep) as (mt' & w1 & _ & _ & Hrel); [constructor|].
  destruct (page_write_after_reload_fails (w_state 128 mt' 1) CIPHER_WRITE_CTX w_cipher 2 32 (w_page 5)
    (replicate 128 1) (replicate 96 0) 1%nat (w_ct 5 (replicate 16 0)) (w_mac 5 (replicate 16 0)) mt' 1
    [leaf (w_mac 5 (replicate 16 0))] []) as (st' & w' & Hrun);
    [by split|done|apply w_parts|done|done|reflexivity..|apply w_ctx_tree|exact Hrel|done|].
  exists mt', st', w'. split_and!; assumption.
Defined.

(** ** Contexts *)

Lemma reserve_holds_iv_hmac_offset_witness :
  reserve_sz (sqlcipher_codec_ctx_set_hmac_algorithm (w_ctx 4096 None) SQLCIPHER_HMAC_SHA512).2 = 96.
Proof.
  by destruct (reserve_holds_iv_hmac_offset (w_ctx 4096 None) SQLCIPHER_HMAC_SHA512)
    as (_ & _ & H); [done..|]; destruct (H eq_refl eq_refl).
Defined.

Definition w_globals : globals := put_default_provider init_globals (Some sqlcipher_openssl_setup).

Lemma ctx_init_ready_witness :
  exists mt g' ctx c w', tree_rep mt [] /\
    sqlcipher_codec_ctx_init w_globals (Some [115; 101; 99; 114; 101; 116]) 6
      (Some (Mk_obj (Some mt) 0 0)) [] = Done ((SQLITE_OK, g', Some ctx), w') /\
    ctx_ready ctx [115; 101; 99; 114; 101; 116] c /\ ctx_tree ctx mt 0.
Proof.
  destruct w_tree as (mt & Hrep).
  destruct (ctx_init_ready w_globals [115; 101; 99; 114; 101; 116] 6 mt 0 0 [] [])
    as (g' & ctx & c & w' & _ & Hrun & Hrdy & Ht); [done|done|done|done|done|constructor|].
  exists mt, g', ctx, c, w'. split_and!; assumption.
Defined.

Lemma ctx_init_null_tree_witness :
  sqlcipher_codec_ctx_init w_globals (Some [115]) 1 None [] = Fault NullDeref.
Proof. apply ctx_init_null_tree; [done|done|done|done|constructor]. Defined.

(** A context ready to derive keys from the passphrase [z]. *)
Definition w_ready (z : list Z) : codec_ctx :=
  let c := new_cipher z (Z.of_nat (length z)) in
  Mk_codec 0 PBKDF2_ITER FAST_PBKDF2_ITER 16 32 16 16 4096 99 96 64 0 SQLCIPHER_HMAC_SHA512
    SQLCIPHER_PBKDF2_HMAC_SHA512 0 1 DEFAULT_CIPHER_FLAGS (replicate 16 0) (replicate 16 0)
    (Some (replicate 4096 0)) (Some c) (Some c) sqlcipher_openssl_setup None.

Lemma w_ready_ok z n :
  n = Z.of_nat (length z) -> n <> 0 -> ctx_ready (w_ready z) z (new_cipher z n).
Proof.
  intros -> Hz. split; try done.
Qed.

Definition w_key : list Z := default [] (PKCS5_PBKDF2_HMAC Sha512 [115] (replicate 16 3) PBKDF2_ITER 32).

Lemma key_derive_passphrase_witness :
  exists ctx' w', sqlcipher_codec_key_derive w_globals (w_ready [115])
      (Mk_env (Some (replicate 20 3)) 0 false 0) 0%nat [] = Done ((SQLITE_OK, ctx', 0%nat), w') /\
    kdf_salt ctx' = replicate 16 3 /\ exists c', read_ctx ctx' = Some c' /\ key c' = w_key.
Proof.
  destruct (key_derive_passphrase w_globals (w_ready [115]) [115] (new_cipher [115] 1)
    (Mk_env (Some (replicate 20 3)) 0 false 0) 0%nat 0%nat (replicate 16 3) Sha512 w_key
    (default [] (PKCS5_PBKDF2_HMAC Sha512 w_key (hmac_salt w_globals (replicate 16 3)) FAST_PBKDF2_ITER 32)) [])
    as (ctx' & w' & Hrun & (c' & Hr & _ & Hk & _) & Hs & _);
    [by apply w_ready_ok|done|done| |done|reflexivity..|constructor|].
  { eexists. split; [reflexivity|]. left. split; [cbn; lia|split; reflexivity]. }
  exists ctx', w'. split; [exact Hrun|]. split; [exact Hs|]. exists c'. split; assumption.
Defined.

Lemma keyspec_reopens_witness :
  exists ctx1 c1 spec w1 ctx' c' w', sqlcipher_codec_key_derive w_globals (w_ready [115])
      (Mk_env (Some (replicate 20 3)) 0 false 0) 0%nat [] = Done ((SQLITE_OK, ctx1, 0%nat), w1) /\
    read_ctx ctx1 = Some c1 /\ sqlite3CodecGetKey (Some ctx1) w1 = Done ((Some spec, 99), w1) /\
    sqlcipher_codec_key_derive w_globals (w_ready spec)
      (Mk_env (Some (replicate 20 4)) 0 false 0) 0%nat [] = Done ((SQLITE_OK, ctx', 0%nat), w') /\
    read_ctx ctx' = Some c' /\ key c' = key c1 /\ kdf_salt ctx' = kdf_salt ctx1.
Proof.
  destruct (keyspec_reopens w_globals (w_ready [115]) [115] (new_cipher [115] 1)
    (Mk_env (Some (replicate 20 3)) 0 false 0) 0%nat 0%nat (replicate 16 3) Sha512 w_key
    (default [] (PKCS5_PBKDF2_HMAC Sha512 w_key (hmac_salt w_globals (replicate 16 3)) FAST_PBKDF2_ITER 32)) [])
    as (ctx1 & c1 & spec & w1 & H1 & H2 & H3 & _ & H4 & H5);
    [by apply w_ready_ok|done|done| |by repeat constructor|done|reflexivity..|constructor|].
  { eexists. split; [reflexivity|]. left. split; [cbn; lia|split; reflexivity]. }
  destruct (H5 (w_ready spec) (new_cipher spec 99) (Mk_env (Some (replicate 20 4)) 0 false 0) 0%nat (replicate 16 4) 0%nat [])
    as (ctx' & c' & w' & E & Hr & _ & Hk & _ & Hs); [|  |done|done|constructor|].
  { apply w_ready_ok; [by rewrite H4|done]. }
  { eexists. split; [reflexivity|]. left. split; [cbn; lia|split; reflexivity]. }
  exists ctx1, c1, spec, w1, ctx', c', w'. split_and!; assumption.
Defined.

(** ** The hook *)

Definition w_page1 : list Z := SQLITE_FILE_HEADER ++ replicate 112 5.

Lemma codec_write_read_witness :
  exists mt st1 page w1 st2 data, tree_rep mt [] /\
    sqlite3Codec w_globals (w_state 128 mt 0) w_page1 1 CODEC_WRITE_OP []
      = Done ((RetBuffer, st1, w_page1), w1) /\
    buffer (cs_ctx st1) = Some page /\ take 16 page = replicate 16 1 /\
    sqlite3Codec w_globals st1 page 1 CODEC_READ_OP w1 = Done ((RetData, st2, data), w1) /\
    take 32 data = SQLITE_FILE_HEADER ++ replicate 16 5.
Proof.
  destruct w_tree as (mt & Hrep).
  set (ct := default [] (EVP_Cipher CIPHER_ENCRYPT (enc_key w_cipher) (replicate 16 0) (replicate 16 5))).
  destruct (codec_write_read w_globals (w_state 128 mt 0) 128 w_cipher 1 w_page1 mt [] (replicate 96 0)
    1%nat ct (default [] (page_mac (w_ctx 128 None) w_cipher 1 ct (replicate 16 0))) [])
    as (st1 & page & w1 & st2 & data & H1 & H2 & _ & H3 & H4 & H5 & _);
    [by apply w_open|done|by repeat constructor|done|reflexivity..|apply w_ctx_tree|done|done|constructor|].
  exists mt, st1, page, w1, st2, data. split_and!; [exact Hrep|exact H1|exact H2|exact (H3 eq_refl)|exact H4|exact H5].
Defined.

Lemma codec_read_rejects_witness :
  exists mt st', tree_rep mt [] /\
    sqlite3Codec w_globals (w_state 128 mt 0) (join (w_page 5)) 2 CODEC_READ_OP []
      = Done ((RetData, st', replicate 128 0), []) /\ pager_error (cs_env st') = true.
Proof.
  destruct w_tree as (mt & Hrep).
  destruct (codec_read_rejects w_globals (w_state 128 mt 0) 128 w_cipher w_cipher 2 (join (w_page 5)) mt 0 []
    (w_page 5) []) as (st' & Hrun & He & _);
    [by apply w_open|done|by repeat constructor|done|apply w_parts|by vm_compute|by vm_compute|apply w_ctx_tree|done|].
  exists mt, st'. split_and!; assumption.
Defined.
