(* ===== verification/Bitvec.v ===== *)
(** * Bit vectors

    SQLite's [bitvec.c] ([storage/secure/sec_sqlite3.c]): the sets of page numbers
    by which the pager knows what is in the rollback journal and in each
    savepoint.  A vector for few bits is a bitmap, one for many bits a hash table,
    and a table that gets full is divided into [BITVEC_NPTR] vectors.

    The union holds the member its [iSize] and [iDivisor] select; reading another
    one is a fault.  Pointers have eight bytes. *)

From stdpp Require Import base tactics list numbers option.
From Stdlib Require Import ZArith Lia ZifyBool.
From S2P Require Import Prelude Openssl.

Local Open Scope Z_scope.

Definition BITVEC_SZ : Z := 512.
Definition BITVEC_USIZE : Z := (BITVEC_SZ - 3 * 4) / 8 * 8.
Definition BITVEC_SZELEM : Z := 8.
Definition BITVEC_NELEM : Z := BITVEC_USIZE / 1.
Definition BITVEC_NBIT : Z := BITVEC_NELEM * BITVEC_SZELEM.
Definition BITVEC_NINT : Z := BITVEC_USIZE / 4.
Definition BITVEC_MXHASH : Z := BITVEC_NINT / 2.
Definition BITVEC_HASH (x : Z) : Z := (x * 1) mod BITVEC_NINT.
Definition BITVEC_NPTR : Z := BITVEC_USIZE / 8.

Inductive bitvec_union (B : Type) :=
  | aBitmap (l : list Z)
  | aHash (l : list Z)
  | apSub (l : list (option B)).
Arguments aBitmap {B} l.
Arguments aHash {B} l.
Arguments apSub {B} l.

#[warnings="-register-all"]
Inductive Bitvec := Mk_bitvec {
  iSize : Z;
  nSet : Z;
  iDivisor : Z;
  u : bitvec_union Bitvec;
}.

Definition put_u (p : Bitvec) (v : bitvec_union Bitvec) : Bitvec := Mk_bitvec (iSize p) (nSet p) (iDivisor p) v.

Definition bitmap_of (p : Bitvec) : M (list Z) := match u p with aBitmap l => mret l | _ => throw UninitRead end.
Definition hash_of (p : Bitvec) : M (list Z) := match u p with aHash l => mret l | _ => throw UninitRead end.
Definition subs_of (p : Bitvec) : M (list (option Bitvec)) := match u p with apSub l => mret l | _ => throw UninitRead end.

(** [l[i]] *)
Definition elem {A} (l : list A) (i : Z) : M A :=
  if i <? 0 then throw OutOfBounds else
  match l !! Z.to_nat i with Some x => mret x | None => throw OutOfBounds end.

(** The object is zeroed: an empty bitmap or an empty table. *)
Definition sqlite3BitvecCreate (size : Z) : M (option Bitvec) :=
  ok ← request;
  mret (if (ok : bool) then
          Some (Mk_bitvec size 0 0 (if size <=? BITVEC_NBIT then aBitmap (replicate (Z.to_nat BITVEC_NELEM) 0)
                                    else aHash (replicate (Z.to_nat BITVEC_NINT) 0)))
        else None).

(** Four divisions turn a vector of 2^32 bits into bitmaps, and a table may have to
    be divided before each; a loop over the table meets an empty entry. *)
Definition depth : nat := 9.
Definition probes : nat := 124.

(** ** Testing a bit *)

Fixpoint hash_find (n : nat) (l : list Z) (h i : Z) : M bool :=
  match n with
  | O => throw AssertFail
  | S n =>
      x ← elem l h;
      if x =? 0 then mret false else
      if x =? i then mret true else hash_find n l ((h + 1) mod BITVEC_NINT) i
  end.

Fixpoint test_loop (n : nat) (p : Bitvec) (i : Z) : M bool :=
  match n with
  | O => throw AssertFail
  | S n =>
      if negb (iDivisor p =? 0) then
        subs ← subs_of p;
        q ← elem subs (i / iDivisor p);
        match q with
        | None => mret false
        | Some q => test_loop n q (i mod iDivisor p)
        end
      else if iSize p <=? BITVEC_NBIT then
        l ← bitmap_of p;
        b ← elem l (i / BITVEC_SZELEM);
        mret (negb (Z.land b (Z.shiftl 1 (Z.land i (BITVEC_SZELEM - 1))) =? 0))
      else
        l ← hash_of p;
        hash_find probes l (BITVEC_HASH i) (u32 (i + 1))
  end.

Definition sqlite3BitvecTestNotNull (p : Bitvec) (i : Z) : M bool :=
  let i := u32 (i - 1) in
  if iSize p <=? i then mret false else test_loop depth p i.

Definition sqlite3BitvecTest (p : option Bitvec) (i : Z) : M bool :=
  match p with None => mret false | Some p => sqlite3BitvecTestNotNull p i end.

(** ** Setting a bit *)

(** [h] after [h], around the table. *)
Definition next_slot (h : Z) : Z := if BITVEC_NINT <=? h + 1 then 0 else h + 1.

(** From the occupied entry [h] on: [None] when [i] is there, otherwise the first
    free entry. *)
Fixpoint hash_spot (n : nat) (l : list Z) (h i : Z) : M (option Z) :=
  match n with
  | O => throw AssertFail
  | S n =>
      x ← elem l h;
      if x =? i then mret None else
      let h := next_slot h in
      y ← elem l h;
      if y =? 0 then mret (Some h) else hash_spot n l h i
  end.

(** [rc |= sqlite3BitvecSet(p, v)] for every nonzero [v]. *)
Fixpoint set_each (set : Bitvec -> Z -> M (Z * Bitvec)) (values : list Z) (rc : Z) (p : Bitvec) : M (Z * Bitvec) :=
  match values with
  | [] => mret (rc, p)
  | v :: values =>
      if v =? 0 then set_each set values rc p else
      '(r, p) ← set p (v - 1);
      set_each set values (Z.lor rc r) p
  end.

(** The function after [i--]. *)
Fixpoint set_loop (n : nat) (p : Bitvec) (i : Z) : M (Z * Bitvec) :=
  match n with
  | O => throw AssertFail
  | S n =>
      if (BITVEC_NBIT <? iSize p) && negb (iDivisor p =? 0) then
        subs ← subs_of p;
        let bin := i / iDivisor p in
        q ← elem subs bin;
        q ← (match q with Some q => mret (Some q) | None => sqlite3BitvecCreate (iDivisor p) end);
        match q with
        | None => mret (SQLITE_NOMEM, p)
        | Some q =>
            '(rc, q) ← set_loop n q (i mod iDivisor p);
            mret (rc, put_u p (apSub (<[Z.to_nat bin := Some q]> subs)))
        end
      else if iSize p <=? BITVEC_NBIT then
        l ← bitmap_of p;
        b ← elem l (i / BITVEC_SZELEM);
        let b := Z.lor b (Z.shiftl 1 (Z.land i (BITVEC_SZELEM - 1))) in
        mret (SQLITE_OK, put_u p (aBitmap (<[Z.to_nat (i / BITVEC_SZELEM) := b]> l)))
      else
        l ← hash_of p;
        let h := BITVEC_HASH i in
        let i := u32 (i + 1) in
        x ← elem l h;
        spot ← (if x =? 0 then mret (Some h) else hash_spot probes l h i);
        match spot with
        | None => mret (SQLITE_OK, p)
        | Some h =>
            if (BITVEC_MXHASH <=? nSet p) && negb ((x =? 0) && (nSet p <? BITVEC_NINT - 1)) then
              ok ← request;
              if negb ok then mret (SQLITE_NOMEM, p) else
              let p := Mk_bitvec (iSize p) (nSet p) (u32 ((iSize p + BITVEC_NPTR - 1) / BITVEC_NPTR))
                         (apSub (replicate (Z.to_nat BITVEC_NPTR) None)) in
              '(rc, p) ← set_loop n p (i - 1);
              set_each (set_loop n) l rc p
            else
              mret (SQLITE_OK, Mk_bitvec (iSize p) (u32 (nSet p + 1)) (iDivisor p) (aHash (<[Z.to_nat h := i]> l)))
        end
  end.

Definition sqlite3BitvecSet (p : option Bitvec) (i : Z) : M (Z * option Bitvec) :=
  match p with
  | None => mret (SQLITE_OK, None)
  | Some p => '(rc, p) ← set_loop depth p (u32 (i - 1)); mret (rc, Some p)
  end.

(** ** Clearing a bit *)

(** The first free entry from [h] on. *)
Fixpoint hash_free (n : nat) (l : list Z) (h : Z) : M Z :=
  match n with
  | O => throw AssertFail
  | S n =>
      x ← elem l h;
      if x =? 0 then mret h else hash_free n l (next_slot h)
  end.

(** All of [values] but [i] go into the table [l]. *)
Fixpoint refill (values : list Z) (i : Z) (l : list Z) (n : Z) : M (list Z * Z) :=
  match values with
  | [] => mret (l, n)
  | v :: values =>
      if (v =? 0) || (v =? i) then refill values i l n else
      h ← hash_free probes l (BITVEC_HASH (v - 1));
      refill values i (<[Z.to_nat h := v]> l) (u32 (n + 1))
  end.

Fixpoint clear_loop (n : nat) (p : Bitvec) (i : Z) : M Bitvec :=
  match n with
  | O => throw AssertFail
  | S n =>
      if negb (iDivisor p =? 0) then
        subs ← subs_of p;
        q ← elem subs (i / iDivisor p);
        match q with
        | None => mret p
        | Some q =>
            q ← clear_loop n q (i mod iDivisor p);
            mret (put_u p (apSub (<[Z.to_nat (i / iDivisor p) := Some q]> subs)))
        end
      else if iSize p <=? BITVEC_NBIT then
        l ← bitmap_of p;
        b ← elem l (i / BITVEC_SZELEM);
        let b := Z.land b (Z.lnot (Z.shiftl 1 (Z.land i (BITVEC_SZELEM - 1)))) in
        mret (put_u p (aBitmap (<[Z.to_nat (i / BITVEC_SZELEM) := u8 b]> l)))
      else
        values ← hash_of p;
        '(l, n) ← refill values (u32 (i + 1)) (replicate (Z.to_nat BITVEC_NINT) 0) 0;
        mret (Mk_bitvec (iSize p) n (iDivisor p) (aHash l))
  end.

Definition sqlite3BitvecClear (p : option Bitvec) (i : Z) : M (option Bitvec) :=
  match p with
  | None => mret None
  | Some p => p ← clear_loop depth p (u32 (i - 1)); mret (Some p)
  end.

(** ** Freeing a vector *)

(** The loop over [apSub], with the function that frees one of them. *)
Fixpoint destroy_each (destroy : option Bitvec -> M Z) (subs : list (option Bitvec)) : M Z :=
  match subs with
  | [] => mret 0
  | q :: subs =>
      a ← destroy q;
      b ← destroy_each destroy subs;
      mret (a + b)
  end.

(** The number of objects given to [sqlite3_free]. *)
Fixpoint destroy_loop (n : nat) (p : option Bitvec) : M Z :=
  match n, p with
  | _, None => mret 0
  | O, _ => throw AssertFail
  | S n, Some p =>
      freed ← (if negb (iDivisor p =? 0) then subs ← subs_of p; destroy_each (destroy_loop n) subs else mret 0);
      mret (freed + 1)
  end.

Definition sqlite3BitvecDestroy (p : option Bitvec) : M Z := destroy_loop depth p.

Definition sqlite3BitvecSize (p : Bitvec) : Z := iSize p.
