(* ===== verification/BitvecProofs.v ===== *)
(** * Bit vectors are sets

    A vector that [sqlite3BitvecCreate] made behaves under any sequence of
    operations as a set of numbers.  [table] is the invariant of the hash tables:
    no gap between the entry a value hashes to and the one it is
    in, and a free entry, so that every probe ends.  [holds] says which bits are
    in a vector, through all its divisions. *)

From stdpp Require Import base tactics list numbers option gmap.
From Stdlib Require Import ZArith Lia ZifyBool.
From S2P Require Import Prelude Openssl CodecProofs Bitvec.

Local Open Scope Z_scope.

(** ** Tables *)

(** The entry [k] of the table, around its end. *)
Definition cell (l : list Z) (k : Z) : Z := default 0 (l !! Z.to_nat (k mod 124)).

(** The number of occupied entries. *)
Definition used (l : list Z) : nat := length (filter (fun x => x <> 0) l).

Lemma elem_cell (l : list Z) k w : length l = 124%nat -> elem l (k mod 124) w = Done (cell l k, w).
Proof.
  intros Hl. unfold elem, cell. pose proof (Z.mod_pos_bound k 124 ltac:(lia)) as Hk.
  destruct (Z.ltb_spec (k mod 124) 0); [lia|].
  by destruct (lookup_lt_is_Some_2 l (Z.to_nat (k mod 124)) ltac:(lia)) as (x & ->).
Qed.

Lemma cell_insert l k j v : length l = 124%nat ->
  cell (<[Z.to_nat (k mod 124) := v]> l) j = if j mod 124 =? k mod 124 then v else cell l j.
Proof.
  intros Hl. unfold cell. pose proof (Z.mod_pos_bound k 124 ltac:(lia)). pose proof (Z.mod_pos_bound j 124 ltac:(lia)).
  destruct (Z.eqb_spec (j mod 124) (k mod 124)) as [->|Hne]; [by rewrite list_lookup_insert_eq by lia|].
  by rewrite list_lookup_insert_ne by lia.
Qed.

Lemma cell_elem l k v : cell l k = v -> v <> 0 -> v ∈ l.
Proof.
  unfold cell. destruct (l !! _) as [x|] eqn:E; [|by intros <-]. intros <- _. by eapply list_elem_of_lookup_2.
Qed.

Lemma elem_has_cell l v : length l = 124%nat -> v ∈ l -> exists k, 0 <= k < 124 /\ cell l k = v.
Proof.
  intros Hl (j & Hj)%list_elem_of_lookup. apply lookup_lt_Some in Hj as Hlt. exists (Z.of_nat j). split; [lia|].
  unfold cell. rewrite Z.mod_small by lia. by rewrite Nat2Z.id, Hj.
Qed.

Lemma used_insert l j v : l !! j = Some 0 -> v <> 0 -> used (<[j := v]> l) = S (used l).
Proof.
  intros Hj Hv. unfold used. apply lookup_lt_Some in Hj as Hlt. rewrite insert_take_drop by done.
  rewrite <- (take_drop_middle l j 0 Hj) at 3. rewrite !filter_app, !filter_cons, !length_app.
  rewrite decide_True by done. rewrite decide_False by (by intros []). cbn. lia.
Qed.

Lemma free_cell l : length l = 124%nat -> (used l < 124)%nat -> exists k, 0 <= k < 124 /\ cell l k = 0.
Proof.
  intros Hl Hu. destruct (decide (0 ∈ l)) as [Hin|Hout]; [by apply elem_has_cell|].
  unfold used in Hu. rewrite <- Hl in Hu. exfalso. revert Hu Hout. clear Hl. induction l as [|x l IH]; [cbn; lia|].
  rewrite filter_cons, not_elem_of_cons. intros Hu [Hx Hout]. rewrite decide_True in Hu by done. cbn in Hu.
  apply IH; [lia|done].
Qed.

(** [e] entries after [h] is the first free one. *)
Definition first_free (l : list Z) (h e : Z) : Prop :=
  0 <= e < 124 /\ cell l (h + e) = 0 /\ forall s, 0 <= s < e -> cell l (h + s) <> 0.

Lemma first_free_exists l h : length l = 124%nat -> (used l < 124)%nat -> exists e, first_free l h e.
Proof.
  intros Hl Hu. destruct (free_cell l Hl Hu) as (k & Hk & Hz).
  assert (Hsome : exists n, (n < 124)%nat /\ cell l (h + Z.of_nat n) = 0).
  { exists (Z.to_nat ((k - h) mod 124)). pose proof (Z.mod_pos_bound (k - h) 124 ltac:(lia)). split; [lia|].
    rewrite <- Hz. unfold cell. rewrite Z2Nat.id, Zplus_mod_idemp_r by lia. do 4 f_equal. lia. }
  clear k Hk Hz. destruct Hsome as (n & Hn & Hz). revert Hz. induction (lt_wf n) as [n _ IH]. intros Hz.
  destruct (decide (Exists (fun m => cell l (h + Z.of_nat m) = 0) (seq 0 n))) as [Hex|Hno].
  - apply Exists_exists in Hex as (m & Hm & Hc). apply elem_of_seq in Hm. apply (IH m); [lia|lia|done].
  - exists (Z.of_nat n). split; [lia|]. split; [done|]. intros s Hs Hc. apply Hno, Exists_exists.
    exists (Z.to_nat s). rewrite Z2Nat.id by lia. split; [apply elem_of_seq; lia|done].
Qed.

(** The entries from that of its hash to its own are occupied. *)
Definition reachable (l : list Z) (v : Z) : Prop :=
  exists t, 0 <= t < 124 /\ cell l (BITVEC_HASH (v - 1) + t) = v /\
    forall s, 0 <= s < t -> cell l (BITVEC_HASH (v - 1) + s) <> 0.

Record table (l : list Z) (n : Z) : Prop := {
  t_length : length l = 124%nat;
  t_used : n = Z.of_nat (used l);
  t_room : n <= 123;
  t_reach : forall v, v ∈ l -> v <> 0 -> reachable l v;
}.

Lemma table_free l n h : table l n -> exists e, first_free l h e.
Proof. intros [Hl Hu Hr _]. apply first_free_exists; [done|lia]. Qed.

Lemma table_empty : table (replicate 124 0) 0.
Proof.
  split; [done|done|lia|]. intros v (i & Hi)%list_elem_of_lookup ?. by apply lookup_replicate in Hi as [-> _].
Qed.

(** A value is in the table if and only if it is met before a free entry. *)
Lemma table_met l n v e : table l n -> v <> 0 -> first_free l (BITVEC_HASH (v - 1)) e ->
  v ∈ l <-> exists s, 0 <= s < e /\ cell l (BITVEC_HASH (v - 1) + s) = v.
Proof.
  intros Ht Hv (He & Hz & Hocc). split; [|intros (s & _ & Hs); by eapply cell_elem].
  intros Hin. destruct (t_reach _ _ Ht v Hin Hv) as (t & Hr & Hc & Hpath). exists t. split; [|done].
  destruct (decide (t < e)); [lia|]. exfalso. destruct (decide (t = e)) as [->|]; [congruence|].
  apply (Hpath e); [lia|done].
Qed.

Lemma free_lookup l h e : length l = 124%nat -> first_free l h e -> l !! Z.to_nat ((h + e) mod 124) = Some 0.
Proof.
  intros Hl (_ & Hz & _). pose proof (Z.mod_pos_bound (h + e) 124 ltac:(lia)).
  destruct (lookup_lt_is_Some_2 l (Z.to_nat ((h + e) mod 124)) ltac:(lia)) as (x & Hx).
  unfold cell in Hz. rewrite Hx in Hz. cbn in Hz. by subst.
Qed.

Lemma elem_insert_free (l : list Z) k v x : l !! k = Some 0 -> x <> 0 -> x ∈ <[k := v]> l <-> x = v \/ x ∈ l.
Proof.
  intros Hk Hx. apply lookup_lt_Some in Hk as Hlt. split.
  - intros (j & Hj)%list_elem_of_lookup. apply list_lookup_insert_Some in Hj as [(_ & -> & _)|(_ & Hj)]; [by left|].
    right. by eapply list_elem_of_lookup_2.
  - intros [->|(j & Hj)%list_elem_of_lookup]; [by eapply list_elem_of_lookup_2, list_lookup_insert_eq|].
    eapply (list_elem_of_lookup_2 _ j). rewrite list_lookup_insert_ne; [done|]. congruence.
Qed.

(** The value goes into the first free entry. *)
Lemma table_insert l n v e : table l n -> v <> 0 -> n < 123 -> first_free l (BITVEC_HASH (v - 1)) e ->
  table (<[Z.to_nat ((BITVEC_HASH (v - 1) + e) mod 124) := v]> l) (n + 1).
Proof.
  intros [Hl Hn Hr Hreach] Hv Hlt Hfree. set (h := BITVEC_HASH (v - 1)) in *.
  pose proof (free_lookup l h e Hl Hfree) as Hat. destruct Hfree as (He & Hz & Hocc).
  split; [by rewrite length_insert|rewrite (used_insert _ _ _ Hat Hv); lia|lia|].
  assert (Hkeep : forall j, cell l j <> 0 -> cell (<[Z.to_nat ((h + e) mod 124) := v]> l) j <> 0).
  { intros j Hj. rewrite cell_insert by done. by destruct (_ =? _). }
  intros x Hx Hx0. destruct (decide (x = v)) as [->|Hne].
  - exists e. fold h. split; [done|]. split; [by rewrite cell_insert, Z.eqb_refl by done|]. intros s Hs. by apply Hkeep, Hocc.
  - apply (elem_insert_free _ _ _ _ Hat Hx0) in Hx as [?|Hxl]; [done|].
    destruct (Hreach x Hxl Hx0) as (t & Ht & Hc & Hp). exists t. split; [done|]. split; [|by auto].
    rewrite cell_insert by done. destruct (Z.eqb_spec ((BITVEC_HASH (x - 1) + t) mod 124) ((h + e) mod 124)) as [Heq|]; [|done].
    exfalso. apply Hx0. rewrite <- Hc, <- Hz. unfold cell. by rewrite Heq.
Qed.

(** ** Probing *)

Lemma hash_bound x : 0 <= BITVEC_HASH x < 124.
Proof. unfold BITVEC_HASH. change BITVEC_NINT with 124. apply Z.mod_pos_bound. lia. Qed.

Lemma next_slot_mod k : next_slot (k mod 124) = (k + 1) mod 124.
Proof.
  unfold next_slot. change BITVEC_NINT with 124. pose proof (Z.mod_pos_bound k 124 ltac:(lia)).
  rewrite <- Zplus_mod_idemp_l. destruct (Z.leb_spec 124 (k mod 124 + 1)); [|by rewrite (Z.mod_small (k mod 124 + 1)) by lia].
  by replace (k mod 124 + 1) with 124 by lia.
Qed.

Section probing.
Context (l : list Z) (h e i : Z) (Hl : length l = 124%nat) (Hfree : first_free l h e).

(** [i] is met from the entry [s] on. *)
Definition met (s : Z) : Prop := exists t, s <= t < e /\ cell l (h + t) = i.

Lemma met_next s : 0 <= s < e -> cell l (h + s) <> i -> met s <-> met (s + 1).
Proof.
  intros Hs Hne. split; intros (t & Ht & Hc); exists t; (split; [|done]); [|lia].
  destruct (decide (t = s)) as [->|]; [done|lia].
Qed.

Lemma hash_find_spec n s w : 0 <= s <= e -> e - s < Z.of_nat n -> i <> 0 ->
  exists b, hash_find n l ((h + s) mod 124) i w = Done (b, w) /\ (b = true <-> met s).
Proof.
  revert s. induction n as [|n IH]; intros s Hs Hn Hi; [lia|]. cbn [hash_find].
  rewrite (bind_done _ _ _ _ _ (elem_cell l (h + s) w Hl)). destruct Hfree as (He & Hz & Hocc).
  destruct (decide (s = e)) as [->|Hse].
  { rewrite Hz. exists false. split; [done|]. split; [done|]. intros (t & ? & _). lia. }
  destruct (Z.eqb_spec (cell l (h + s)) 0) as [E|_]; [destruct (Hocc s); [lia|done]|].
  destruct (Z.eqb_spec (cell l (h + s)) i) as [E|Hne].
  { exists true. split; [done|]. split; [|done]. intros _. exists s. by split; [lia|]. }
  change BITVEC_NINT with 124. rewrite Zplus_mod_idemp_l, <- Z.add_assoc.
  destruct (IH (s + 1) ltac:(lia) ltac:(lia) Hi) as (b & E & Hb). exists b. split; [done|].
  by rewrite Hb, <- met_next by (done || lia).
Qed.

Lemma hash_spot_spec n s w : 0 <= s < e -> e - s <= Z.of_nat n -> i <> 0 ->
  exists o, hash_spot n l ((h + s) mod 124) i w = Done (o, w) /\
    ((o = None /\ met s) \/ (o = Some ((h + e) mod 124) /\ ~ met s)).
Proof.
  revert s. induction n as [|n IH]; intros s Hs Hn Hi; [lia|]. cbn [hash_spot].
  rewrite (bind_done _ _ _ _ _ (elem_cell l (h + s) w Hl)). destruct Hfree as (He & Hz & Hocc).
  destruct (Z.eqb_spec (cell l (h + s)) i) as [E|Hne].
  { exists None. split; [done|]. left. split; [done|]. exists s. by split; [lia|]. }
  rewrite next_slot_mod, <- Z.add_assoc, (bind_done _ _ _ _ _ (elem_cell l (h + (s + 1)) w Hl)).
  setoid_rewrite (met_next s Hs Hne). destruct (decide (s + 1 = e)) as [<-|Hse].
  { rewrite Hz. eexists. split; [done|]. right. split; [done|]. intros (t & ? & _). lia. }
  destruct (Z.eqb_spec (cell l (h + (s + 1))) 0) as [E|_]; [destruct (Hocc (s + 1)); [lia|done]|].
  apply IH; [lia|lia|done].
Qed.

Lemma hash_free_spec n s w : 0 <= s <= e -> e - s < Z.of_nat n ->
  hash_free n l ((h + s) mod 124) w = Done ((h + e) mod 124, w).
Proof.
  revert s. induction n as [|n IH]; intros s Hs Hn; [lia|]. cbn [hash_free].
  rewrite (bind_done _ _ _ _ _ (elem_cell l (h + s) w Hl)). destruct Hfree as (He & Hz & Hocc).
  destruct (decide (s = e)) as [->|Hse]; [by rewrite Hz|].
  destruct (Z.eqb_spec (cell l (h + s)) 0) as [E|_]; [destruct (Hocc s); [lia|done]|].
  rewrite next_slot_mod, <- Z.add_assoc. apply IH; lia.
Qed.
End probing.

(** What the three loops find for a value in the table. *)
Lemma table_find l n v w : table l n -> v <> 0 ->
  hash_find probes l (BITVEC_HASH (v - 1)) v w = Done (bool_decide (v ∈ l), w).
Proof.
  intros Ht Hv. destruct (table_free l n (BITVEC_HASH (v - 1)) Ht) as (e & He).
  destruct (hash_find_spec l _ e v (t_length _ _ Ht) He probes 0 w) as (b & E & Hb); [destruct He; lia|destruct He; unfold probes; lia|done|].
  rewrite Z.add_0_r, Z.mod_small in E by apply hash_bound. rewrite E. do 2 f_equal.
  apply eq_bool_prop_intro. rewrite bool_decide_spec, (table_met l n v e Ht Hv He). by rewrite <- Is_true_true in Hb.
Qed.

Lemma table_spot l n v w : table l n -> v <> 0 ->
  exists e, first_free l (BITVEC_HASH (v - 1)) e /\
  exists x, elem l (BITVEC_HASH (v - 1)) w = Done (x, w) /\
    (if x =? 0 then mret (Some (BITVEC_HASH (v - 1))) else hash_spot probes l (BITVEC_HASH (v - 1)) v) w
      = Done (if bool_decide (v ∈ l) then None else Some ((BITVEC_HASH (v - 1) + e) mod 124), w) /\
    (x = 0 -> v ∉ l).
Proof.
  intros Ht Hv. destruct (table_free l n (BITVEC_HASH (v - 1)) Ht) as (e & He). exists e. split; [done|].
  set (h := BITVEC_HASH (v - 1)) in *. assert (Hh : h mod 124 = h) by (apply Z.mod_small, hash_bound).
  exists (cell l h). rewrite <- Hh at 1. split; [apply elem_cell, Ht|].
  pose proof (table_met l n v e Ht Hv He) as Hmet. fold h in Hmet. destruct He as (He & Hz & Hocc).
  destruct (decide (e = 0)) as [->|Hne].
  - rewrite Z.add_0_r in *. rewrite Hz, Hh. assert (Hout : v ∉ l) by (rewrite Hmet; intros (s & ? & _); lia).
    by rewrite bool_decide_eq_false_2.
  - assert (Hx : cell l h <> 0) by (rewrite <- (Z.add_0_r h); apply Hocc; lia).
    rewrite (proj2 (Z.eqb_neq _ _) Hx). split; [|done].
    destruct (hash_spot_spec l h e v (t_length _ _ Ht) (conj He (conj Hz Hocc)) probes 0 w) as (o & E & Ho);
      [lia|unfold probes; lia|done|]. rewrite Z.add_0_r, Hh in E. rewrite E.
    destruct Ho as [[-> Hin]|[-> Hout]]; [rewrite bool_decide_eq_true_2 by (by apply Hmet)|rewrite bool_decide_eq_false_2 by (by rewrite Hmet)]; done.
Qed.

(** ** The bits of a vector *)

Inductive holds : Bitvec -> (Z -> bool) -> Prop :=
  | holds_bitmap sz n l S :
      sz <= BITVEC_NBIT -> length l = 496%nat -> bytes l ->
      (forall i, 0 <= i < sz -> Z.testbit (default 0 (l !! Z.to_nat (i / 8))) (i mod 8) = S i) ->
      holds (Mk_bitvec sz n 0 (aBitmap l)) S
  | holds_hash sz n l S :
      BITVEC_NBIT < sz < 2 ^ 32 -> table l n -> Forall (fun v => v = 0 \/ 1 <= v <= sz) l ->
      (forall i, 0 <= i < sz -> bool_decide (i + 1 ∈ l) = S i) ->
      holds (Mk_bitvec sz n 0 (aHash l)) S
  | holds_sub sz n d l S :
      BITVEC_NBIT < sz < 2 ^ 32 -> d = (sz + BITVEC_NPTR - 1) / BITVEC_NPTR -> length l = 62%nat ->
      (forall k q, l !! k = Some (Some q) -> iSize q = d) ->
      (forall k q, l !! k = Some (Some q) ->
         holds q (fun i => (Z.of_nat k * d + i <? sz) && S (Z.of_nat k * d + i))) ->
      (forall k i, l !! k = Some None -> 0 <= i < d -> Z.of_nat k * d + i < sz -> S (Z.of_nat k * d + i) = false) ->
      holds (Mk_bitvec sz n d (apSub l)) S.

Lemma bits_ext p S S' : holds p S -> (forall i, 0 <= i < iSize p -> S i = S' i) -> holds p S'.
Proof.
  intros H. revert S'. induction H as [sz n l S Hsz Hl Hb HS|sz n l S Hsz Ht Hv HS|sz n d l S Hsz Hd Hl Hsq Hq IH Hn];
    intros S' HE; cbn [iSize] in HE.
  - constructor; [done..|]. intros i Hi. rewrite HS by done. by apply HE.
  - constructor; [done..|]. intros i Hi. rewrite HS by done. by apply HE.
  - constructor; [done..| |].
    + intros k q Hk. apply (IH k q Hk). rewrite (Hsq k q Hk). intros i Hi.
      destruct (Z.ltb_spec (Z.of_nat k * d + i) sz); [|done]. cbn. apply HE. nia.
    + intros k i Hk Hi Hin. rewrite <- HE by nia. by apply Hn.
Qed.

Lemma create_tries sz : 0 < sz < 2 ^ 32 ->
  tries (sqlite3BitvecCreate sz) (fun o => forall p, o = Some p -> iSize p = sz /\ holds p (fun _ => false)) is_Some.
Proof.
  intros Hsz. unfold sqlite3BitvecCreate. eapply tries_bind; [apply tries_request|]. intros b _.
  apply tries_ret; [|by intros ->; eexists]. intros p Hp. destruct b; [|done]. apply (inj Some) in Hp. subst p. split; [done|].
  destruct (Z.leb_spec sz BITVEC_NBIT).
  - constructor; [done|done|by apply Forall_replicate|]. intros i _.
    destruct (_ !! _) as [x|] eqn:E; [apply lookup_replicate in E as [-> _]|]; by rewrite Z.bits_0.
  - constructor; [lia|apply table_empty|by apply Forall_replicate; left|]. intros i Hi.
    apply bool_decide_eq_false_2. intros (j & Hj)%list_elem_of_lookup. apply lookup_replicate in Hj. lia.
Qed.

(** ** Bitmaps *)

Lemma low_bits i : Z.land i (BITVEC_SZELEM - 1) = i mod 8.
Proof. change (BITVEC_SZELEM - 1) with (Z.ones 3). by rewrite Z.land_ones. Qed.

Lemma bit_pow2 b k : 0 <= k -> negb (Z.land b (Z.shiftl 1 k) =? 0) = Z.testbit b k.
Proof.
  intros Hk. rewrite Z.shiftl_1_l. destruct (Z.testbit b k) eqn:E.
  - destruct (Z.eqb_spec (Z.land b (2 ^ k)) 0) as [Hz|]; [|done].
    apply (f_equal (fun x => Z.testbit x k)) in Hz. by rewrite Z.land_spec, E, Z.pow2_bits_true, Z.bits_0 in Hz.
  - replace (Z.land b (2 ^ k)) with 0; [done|]. symmetry. apply Z.bits_inj'. intros j Hj.
    rewrite Z.land_spec, Z.bits_0, Z.pow2_bits_eqb by done. destruct (Z.eqb_spec k j) as [<-|]; [by rewrite E|by rewrite andb_false_r].
Qed.

Lemma bitmap_elem (l : list Z) i w : length l = 496%nat -> 0 <= i < BITVEC_NBIT ->
  elem l (i / BITVEC_SZELEM) w = Done (default 0 (l !! Z.to_nat (i / 8)), w).
Proof.
  intros Hl Hi. unfold elem, BITVEC_SZELEM. change BITVEC_NBIT with 3968 in Hi.
  assert (0 <= i / 8 < 496) by (split; [apply Z.div_pos; lia|apply Z.div_lt_upper_bound; lia]).
  destruct (Z.ltb_spec (i / 8) 0); [lia|]. by destruct (lookup_lt_is_Some_2 l (Z.to_nat (i / 8)) ltac:(lia)) as (x & ->).
Qed.

Lemma lor_byte a b : is_byte a -> is_byte b -> is_byte (Z.lor a b).
Proof.
  unfold is_byte. intros Ha Hb. assert (0 <= Z.lor a b) by (apply Z.lor_nonneg; lia). split; [done|].
  destruct (decide (Z.lor a b = 0)); [lia|]. apply (Z.log2_lt_pow2 _ 8); [lia|]. rewrite Z.log2_lor by lia.
  apply Z.max_lub_lt; (destruct (decide (a = 0)) as [->|]; destruct (decide (b = 0)) as [->|]); try (cbn; lia);
    apply Z.log2_lt_pow2; lia.
Qed.

(** Writing the byte of bit [i]: the other bits of that byte must stay. *)
Lemma bitmap_write sz n (l : list Z) S S' i b : sz <= BITVEC_NBIT -> 0 <= i < sz -> holds (Mk_bitvec sz n 0 (aBitmap l)) S ->
  is_byte b -> (forall k, 0 <= k < 8 -> Z.testbit b k =
    if k =? i mod 8 then S' i else Z.testbit (default 0 (l !! Z.to_nat (i / 8))) k) ->
  (forall j, j <> i -> S' j = S j) ->
  holds (Mk_bitvec sz n 0 (aBitmap (<[Z.to_nat (i / BITVEC_SZELEM) := b]> l))) S'.
Proof.
  intros Hsz Hi Hh Hb Hbits Hoth. change (BITVEC_SZELEM) with 8. inversion Hh as [? ? ? ? _ Hl Hlb HS| |]; subst.
  change BITVEC_NBIT with 3968 in Hsz. assert (Hi8 : 0 <= i / 8 < 496) by (split; [apply Z.div_pos; lia|apply Z.div_lt_upper_bound; lia]).
  constructor; [done|by rewrite length_insert|by apply Forall_insert|]. intros j Hj.
  assert (Hj8 : 0 <= j / 8) by (apply Z.div_pos; lia). pose proof (Z.mod_pos_bound j 8 ltac:(lia)).
  destruct (decide (j / 8 = i / 8)) as [E|Hne].
  - rewrite E, list_lookup_insert_eq by lia. cbn [default]. rewrite Hbits by lia.
    destruct (Z.eqb_spec (j mod 8) (i mod 8)) as [E'|Hne].
    + f_equal. rewrite (Z.div_mod j 8), (Z.div_mod i 8) by lia. lia.
    + rewrite Hoth, <- HS, E by (done || congruence). done.
  - rewrite list_lookup_insert_ne by lia. rewrite HS, Hoth; [done|congruence|done].
Qed.

(** ** Testing *)

(** A vector of at most [size k] bits is divided at most [k] times. *)
Definition size (k : nat) : Z := BITVEC_NBIT * BITVEC_NPTR ^ Z.of_nat k.

Lemma size_div k sz : BITVEC_NBIT < sz -> sz <= size k ->
  exists k', k = S k' /\ let d := (sz + BITVEC_NPTR - 1) / BITVEC_NPTR in
    1 < d < sz /\ d <= size k' /\ sz <= BITVEC_NPTR * d.
Proof.
  unfold size. change BITVEC_NPTR with 62. change BITVEC_NBIT with 3968. intros Hlo Hk.
  destruct k as [|k']; [cbn in Hk; lia|]. exists k'. split; [done|].
  rewrite Nat2Z.inj_succ, Z.pow_succ_r in Hk by lia.
  pose proof (Z.div_mod (sz + 62 - 1) 62 ltac:(lia)). pose proof (Z.mod_pos_bound (sz + 62 - 1) 62 ltac:(lia)).
  cbv zeta. split; [lia|]. split; [|lia]. apply Z.lt_succ_r, Z.div_lt_upper_bound; [lia|].
  pose proof (Z.pow_pos_nonneg 62 (Z.of_nat k') ltac:(lia) ltac:(lia)). lia.
Qed.

Lemma size_u32 sz : sz < 2 ^ 32 -> sz <= size 4.
Proof. intros H. assert (2 ^ 32 <= size 4) by by vm_compute. lia. Qed.

Lemma elem_lookup {A} (l : list A) i x w : 0 <= i -> l !! Z.to_nat i = Some x -> elem l i w = Done (x, w).
Proof. intros Hi E. unfold elem. destruct (Z.ltb_spec i 0); [lia|]. by rewrite E. Qed.

(** The division bit [i] is in. *)
Lemma bin_of d sz i : 0 < d -> sz <= BITVEC_NPTR * d -> 0 <= i < sz ->
  0 <= i / d < 62 /\ 0 <= i mod d < d /\ Z.of_nat (Z.to_nat (i / d)) * d + i mod d = i.
Proof.
  change BITVEC_NPTR with 62. intros Hd Hsz Hi. pose proof (Z.mod_pos_bound i d Hd).
  assert (0 <= i / d < 62) by (split; [apply Z.div_pos; lia|apply Z.div_lt_upper_bound; lia]).
  split; [done|]. split; [done|]. rewrite Z2Nat.id by lia. rewrite (Z.div_mod i d) at 3; lia.
Qed.

Lemma test_spec p S k n i w : holds p S -> iSize p <= size k -> (k < n)%nat -> 0 <= i < iSize p ->
  test_loop n p i w = Done (S i, w).
Proof.
  intros H. revert k n i w. induction H as [sz c l S Hsz Hl Hb HS|sz c l S Hsz Ht Hv HS|sz c d l S Hsz Hd Hl Hsq Hq IH Hn];
    intros k [|n] i w Hk Hlt Hi; try lia; cbn [test_loop iDivisor iSize Z.eqb negb] in *.
  - rewrite (proj2 (Z.leb_le _ _) Hsz). unfold bitmap_of. cbn [u]. rewrite bind_ret, (bind_done _ _ _ _ _ (bitmap_elem l i w Hl ltac:(lia))), low_bits.
    rewrite bit_pow2 by (apply Z.mod_pos_bound; lia). by rewrite HS.
  - destruct (Z.leb_spec sz BITVEC_NBIT); [lia|]. unfold hash_of. cbn [u]. rewrite bind_ret, u32_small by lia.
    rewrite <- (HS i Hi). replace (BITVEC_HASH i) with (BITVEC_HASH (i + 1 - 1)) by (f_equal; lia).
    eapply table_find; [done|lia].
  - destruct (size_div k sz) as (k' & -> & Hd1 & Hdk & Hcov); [lia|done|]. cbv zeta in *. rewrite <- Hd in *.
    destruct (bin_of d sz i ltac:(lia) Hcov Hi) as (Hbin & Hm & Hsum). rewrite (proj2 (Z.eqb_neq d 0)) by lia.
    unfold subs_of. cbn [u negb]. rewrite bind_ret.
    destruct (lookup_lt_is_Some_2 l (Z.to_nat (i / d)) ltac:(lia)) as ([q|] & E);
      rewrite (bind_done _ _ _ _ _ (elem_lookup l (i / d) _ w (proj1 Hbin) E)).
    + rewrite (IH _ q E k' n) by (rewrite ?(Hsq _ q E); lia). rewrite Hsum. by destruct (Z.ltb_spec i sz); [|lia].
    + rewrite <- Hsum, (Hn _ (i mod d) E) by lia. done.
Qed.

(** ** Changing a bit of a division *)

Lemma holds_put sz n d l S S' k q : 0 < d -> holds (Mk_bitvec sz n d (apSub l)) S -> (k < 62)%nat -> iSize q = d ->
  holds q (fun i => (Z.of_nat k * d + i <? sz) && S' (Z.of_nat k * d + i)) ->
  (forall j, 0 <= j < sz -> j / d <> Z.of_nat k -> S' j = S j) ->
  holds (Mk_bitvec sz n d (apSub (<[k := Some q]> l))) S'.
Proof.
  intros Hd Hh Hk Hsq Hq Hoth. inversion Hh as [| |? ? ? ? ? Hsz Hdd Hl Hss Hqs Hn]; subst sz0 n0 d0 l0 S0.
  assert (Hbin : forall k' i, 0 <= i < d -> (Z.of_nat k' * d + i) / d = Z.of_nat k').
  { intros k' i Hi. rewrite Z.div_add_l by lia. rewrite Z.div_small by lia. lia. }
  constructor; [done|done|by rewrite length_insert| | |].
  - intros k' q' [(<- & [= <-] & _)|(_ & E)]%list_lookup_insert_Some; [done|by eapply Hss].
  - intros k' q' [(<- & [= <-] & _)|(Hne & E)]%list_lookup_insert_Some; [done|].
    eapply bits_ext; [by apply (Hqs k' q')|]. rewrite (Hss k' q' E). intros i Hi. cbn beta.
    destruct (Z.ltb_spec (Z.of_nat k' * d + i) sz); [|done]. cbn. symmetry. apply Hoth; [nia|].
    rewrite Hbin by lia. lia.
  - intros k' i [(_ & ? & _)|(Hne & E)]%list_lookup_insert_Some Hi Hin; [done|].
    rewrite Hoth; [by apply Hn|nia|]. rewrite Hbin by lia. lia.
Qed.

(** ** Setting *)

Definition with_bit (S : Z -> bool) (i j : Z) : bool := (j =? i) || S j.
Definition without_bit (S : Z -> bool) (i j : Z) : bool := negb (j =? i) && S j.

(** The vector holds the bits [S], or memory ran out and it holds some of them. *)
Definition attempt (S : Z -> bool) (rc : Z) (p : Bitvec) : Prop :=
  (rc = SQLITE_OK /\ holds p S) \/
  (rc = SQLITE_NOMEM /\ exists T, holds p T /\ forall j, 0 <= j < iSize p -> T j = true -> S j = true).

Lemma attempt_holds S rc p : attempt S rc p ->
  exists T, holds p T /\ (forall j, 0 <= j < iSize p -> T j = true -> S j = true) /\
    ((rc = SQLITE_OK /\ forall j, T j = S j) \/ rc = SQLITE_NOMEM).
Proof. intros [[-> H]|[-> (T & H & HT)]]; [exists S|exists T]; auto. Qed.

Lemma attempt_mono S S' rc p : attempt S rc p -> (forall j, 0 <= j < iSize p -> S j = S' j) -> attempt S' rc p.
Proof.
  intros [[-> H]|[-> (T & H & HT)]] HE; [left|right]; (split; [done|]); [by eapply bits_ext|].
  exists T. split; [done|]. intros j Hj. rewrite <- HE by done. auto.
Qed.

(** [set] sets any bit of [p], if there is memory for it. *)
Definition sets (set : Bitvec -> Z -> M (Z * Bitvec)) (p : Bitvec) : Prop :=
  forall S i, holds p S -> 0 <= i < iSize p ->
  tries (set p i)
    (fun r => iSize r.2 = iSize p /\ (iDivisor p <> 0 -> iDivisor r.2 = iDivisor p) /\ attempt (with_bit S i) r.1 r.2)
    (fun r => r.1 = SQLITE_OK).

Lemma set_bitmap n p : iSize p <= BITVEC_NBIT -> sets (set_loop (S n)) p.
Proof.
  intros Hsz S i Hh Hi w. inversion Hh as [sz c l S0 _ Hl Hb HS|sz c l S0 Hlo|sz c d l S0 Hlo]; subst; cbn [iSize] in *; [|lia..].
  cbn [set_loop iSize iDivisor]. destruct (Z.ltb_spec BITVEC_NBIT sz); [lia|]. cbn [andb]. rewrite (proj2 (Z.leb_le _ _) Hsz).
  unfold bitmap_of. cbn [u]. rewrite bind_ret, (bind_done _ _ _ _ _ (bitmap_elem l i w Hl ltac:(lia))), low_bits.
  pose proof (Z.mod_pos_bound i 8 ltac:(lia)) as Hm.
  set (x := default 0 (l !! Z.to_nat (i / 8))).
  assert (Hx : 0 <= x < 2 ^ 8).
  { unfold x. destruct (l !! _) as [y|] eqn:E; [|cbn; lia]. by apply (Forall_lookup_1 _ _ _ _ Hb) in E. }
  eexists _, w. split; [done|]. split; [|done]. split; [done|]. split; [done|]. left. split; [done|].
  cbn [snd put_u]. unfold put_u. cbn [iSize nSet iDivisor].
  apply (bitmap_write sz c l S _ i); [done|done|done| | |].
  - rewrite Z.shiftl_1_l. apply lor_byte; [done|]. split; [apply Z.pow_nonneg; lia|].
    apply (Z.pow_lt_mono_r 2 (i mod 8) 8); lia.
  - intros k Hk. rewrite Z.lor_spec, Z.shiftl_1_l, Z.pow2_bits_eqb by lia. unfold with_bit. rewrite Z.eqb_refl, (Z.eqb_sym (i mod 8)).
    destruct (k =? i mod 8); [by rewrite orb_true_r|by rewrite orb_false_r].
  - intros j Hj. unfold with_bit. by rewrite (proj2 (Z.eqb_neq _ _) Hj).
Qed.

(** An attempt in a division is one in the vector. *)
Lemma attempt_put sz c d l S q rc i : 0 < d -> holds (Mk_bitvec sz c d (apSub l)) S -> 0 <= i / d < 62 -> iSize q = d ->
  0 <= i < sz -> Z.of_nat (Z.to_nat (i / d)) * d + i mod d = i ->
  attempt (with_bit (fun j => (Z.of_nat (Z.to_nat (i / d)) * d + j <? sz) && S (Z.of_nat (Z.to_nat (i / d)) * d + j)) (i mod d)) rc q ->
  attempt (with_bit S i) rc (put_u (Mk_bitvec sz c d (apSub l)) (apSub (<[Z.to_nat (i / d) := Some q]> l))).
Proof.
  intros Hd Hh Hbin Hq Hi Hsum Hat. apply attempt_holds in Hat as (T & HT & Hsub & Hrc). rewrite Hq in Hsub.
  set (k := Z.to_nat (i / d)) in *. set (S' := fun j => if j / d =? Z.of_nat k then T (j mod d) else S j).
  assert (Hdm : forall j, 0 <= j < d -> (Z.of_nat k * d + j) / d = Z.of_nat k /\ (Z.of_nat k * d + j) mod d = j).
  { intros j Hj. split; [rewrite Z.div_add_l, Z.div_small by lia; lia|]. by rewrite Z.add_comm, Z.mod_add, Z.mod_small by lia. }
  assert (HS' : forall j, 0 <= j < sz -> j / d = Z.of_nat k -> exists x, 0 <= x < d /\ j = Z.of_nat k * d + x /\ S' j = T x).
  { intros j Hj Hk. exists (j mod d). split; [by apply Z.mod_pos_bound|]. unfold S'. rewrite Hk, Z.eqb_refl.
    split; [|done]. rewrite (Z.div_mod j d) at 1 by lia. lia. }
  assert (Hnew : holds (put_u (Mk_bitvec sz c d (apSub l)) (apSub (<[k := Some q]> l))) S').
  { apply (holds_put sz c d l S); [done|done|lia|done| |].
    - eapply bits_ext; [exact HT|]. rewrite Hq. intros j Hj. unfold S'. destruct (Hdm j Hj) as [-> ->]. rewrite Z.eqb_refl.
      destruct (Z.ltb_spec (Z.of_nat k * d + j) sz); [done|]. destruct (T j) eqn:ET; [|done].
      specialize (Hsub j Hj ET). unfold with_bit in Hsub. lia.
    - intros j Hj Hk. unfold S'. by rewrite (proj2 (Z.eqb_neq _ _) Hk). }
  assert (Hin : forall x, with_bit (fun j => (Z.of_nat k * d + j <? sz) && S (Z.of_nat k * d + j)) (i mod d) x = true ->
    with_bit S i (Z.of_nat k * d + x) = true) by (intros x; unfold with_bit; lia).
  destruct Hrc as [[-> HE]| ->]; [left|right]; (split; [done|]).
  - eapply bits_ext; [exact Hnew|]. cbn [put_u iSize]. intros j Hj. destruct (decide (j / d = Z.of_nat k)) as [Hk|Hk].
    + destruct (HS' j Hj Hk) as (x & Hx & -> & ->). rewrite HE. unfold with_bit. lia.
    + unfold S', with_bit. rewrite (proj2 (Z.eqb_neq _ _) Hk), (proj2 (Z.eqb_neq j i)); [done|]. intros ->. lia.
  - exists S'. split; [done|]. cbn [put_u iSize]. intros j Hj Ht. destruct (decide (j / d = Z.of_nat k)) as [Hk|Hk].
    + destruct (HS' j Hj Hk) as (x & Hx & -> & E). rewrite E in Ht. auto.
    + unfold S' in Ht. rewrite (proj2 (Z.eqb_neq _ _) Hk) in Ht. unfold with_bit. rewrite Ht. apply orb_true_r.
Qed.

Lemma set_sub n p : iDivisor p <> 0 -> (forall q, iSize q = iDivisor p -> sets (set_loop n) q) -> sets (set_loop (S n)) p.
Proof.
  intros Hd0 IH S i Hh Hi. inversion Hh as [| |sz c d l S0 Hlo Hd Hl Hsq Hq Hn]; subst p S0; [done|done|].
  cbn [iSize iDivisor] in *. destruct (size_div 4 sz) as (_ & _ & Hd1 & _ & Hcov); [lia|apply size_u32; lia|]. cbv zeta in *. rewrite <- Hd in *.
  destruct (bin_of d sz i ltac:(lia) Hcov Hi) as (Hbin & Hm & Hsum).
  cbn [set_loop iSize iDivisor]. rewrite (proj2 (Z.ltb_lt _ _) (proj1 Hlo)), (proj2 (Z.eqb_neq d 0)) by done. cbn [negb andb].
  destruct (lookup_lt_is_Some_2 l (Z.to_nat (i / d)) ltac:(lia)) as (o & E).
  set (T := fun j => (Z.of_nat (Z.to_nat (i / d)) * d + j <? sz) && S (Z.of_nat (Z.to_nat (i / d)) * d + j)).
  assert (Hold : tries (match o with Some q => mret (Some q) | None => sqlite3BitvecCreate d end)
    (fun o => forall q, o = Some q -> iSize q = d /\ holds q T) is_Some).
  { destruct o as [q|].
    - apply tries_ret; [|done]. intros ? [= <-]. split; [by eapply Hsq|by apply Hq].
    - eapply tries_mono; [apply create_tries; lia| |done]. intros o' Ho q Hoq. destruct (Ho q Hoq) as [Hsz Hq0]. split; [done|].
      eapply bits_ext; [done|]. rewrite Hsz. intros j Hj. unfold T.
      destruct (Z.ltb_spec (Z.of_nat (Z.to_nat (i / d)) * d + j) sz); [|done]. by rewrite (Hn _ j E). }
  intros w. unfold subs_of. cbn [u]. rewrite bind_ret, (bind_done _ _ _ _ _ (elem_lookup l (i / d) _ w (proj1 Hbin) E)).
  revert w. eapply tries_bind; [exact Hold|]. intros [q|] Hqo; [|apply tries_ret; [|by intros []%is_Some_None]].
  2:{ split; [done|]. split; [done|]. right. split; [done|]. exists S. split; [done|]. intros j _. unfold with_bit. intros ->. apply orb_true_r. }
  destruct (Hqo q eq_refl) as [Hsz HqT]. eapply tries_bind; [apply (IH q Hsz T (i mod d) HqT); lia|].
  intros [rc q'] (Hsz' & _ & Hat). cbn [fst snd] in *. apply tries_ret; [|done]. split; [done|]. split; [done|].
  eapply (attempt_put sz c d l S q'); [lia|done|lia|congruence|done|done|done].
Qed.

(** All the values of a table go into the divided vector. *)
Lemma set_each_tries set sz values p rc S :
  (forall q, iSize q = sz -> iDivisor q <> 0 -> sets set q) ->
  Forall (fun v => v = 0 \/ 1 <= v <= sz) values -> iSize p = sz -> iDivisor p <> 0 -> attempt S rc p ->
  tries (set_each set values rc p)
    (fun r => iSize r.2 = sz /\ attempt (fun j => S j || bool_decide (j + 1 ∈ values)) r.1 r.2)
    (fun r => rc = SQLITE_OK -> r.1 = SQLITE_OK).
Proof.
  intros Hset Hv. revert p rc S. induction Hv as [|v values Hv _ IH]; intros p rc S Hsz Hd Hp; cbn [set_each].
  { apply tries_ret; [|done]. split; [done|]. eapply attempt_mono; [done|]. intros j _. by rewrite orb_false_r. }
  destruct (Z.eqb_spec v 0) as [->|Hv0].
  { eapply tries_mono; [by apply IH| |done]. intros r (Hs & Hr). split; [done|].
    eapply attempt_mono; [done|]. intros j Hj. cbn beta. f_equal. apply bool_decide_ext. rewrite elem_of_cons. split; [by right|].
    intros [?|?]; [lia|done]. }
  apply attempt_holds in Hp as (T & HT & Hsub & Hrc).
  eapply tries_bind; [apply (Hset p Hsz Hd T (v - 1) HT); lia|]. intros [r q] (Hs & Hdq & Hq). cbn [fst snd] in *.
  eapply tries_mono; [apply (IH q (Z.lor rc r) (with_bit S (v - 1)) ltac:(congruence) ltac:(by rewrite Hdq))| |].
  - destruct Hrc as [[-> HE]| ->].
    + rewrite Z.lor_0_l. eapply attempt_mono; [exact Hq|]. intros j _. unfold with_bit. by rewrite HE.
    + apply attempt_holds in Hq as (T' & HT' & Hsub' & Hr). right. split; [by destruct Hr as [[-> _]| ->]|].
      exists T'. split; [done|]. intros j Hj Hj'. apply Hsub' in Hj'; [|done]. unfold with_bit in *.
      apply orb_true_iff in Hj' as [->|Hj']; [done|]. rewrite Hsub; [apply orb_true_r|congruence|done].
  - intros o (Hs' & Ho). split; [done|]. eapply attempt_mono; [exact Ho|]. intros j Hj. unfold with_bit. cbn beta.
    rewrite (bool_decide_ext (j + 1 ∈ v :: values) (j + 1 = v \/ j + 1 ∈ values)) by apply elem_of_cons.
    rewrite bool_decide_or, (orb_comm (j =? v - 1)), <- orb_assoc. do 2 f_equal.
    destruct (Z.eqb_spec j (v - 1)) as [->|]; [by rewrite bool_decide_eq_true_2 by lia|by rewrite bool_decide_eq_false_2 by lia].
  - intros o _ Ho Hr Hrc0. apply Ho. by rewrite Hrc0, Hr.
Qed.

(** The table is full: its values and the new one are spread over divisions. *)
Lemma rehash_tries n sz c l S i :
  (forall q, iSize q = sz -> iDivisor q <> 0 -> sets (set_loop n) q) ->
  holds (Mk_bitvec sz c 0 (aHash l)) S -> 0 <= i < sz ->
  tries ('(rc, p) ← set_loop n (Mk_bitvec sz c (u32 ((sz + BITVEC_NPTR - 1) / BITVEC_NPTR))
                               (apSub (replicate (Z.to_nat BITVEC_NPTR) None))) i;
        set_each (set_loop n) l rc p)
    (fun r => iSize r.2 = sz /\ attempt (with_bit S i) r.1 r.2) (fun r => r.1 = SQLITE_OK).
Proof.
  intros Hset Hh Hi. inversion Hh as [|? ? ? ? Hlo Ht Hv HS|]; subst.
  destruct (size_div 4 sz) as (_ & _ & Hd & _ & _); [lia|apply size_u32; lia|]. cbv zeta in Hd.
  rewrite u32_small by lia. set (p := Mk_bitvec _ _ _ _).
  assert (Hp : holds p (fun _ => false)).
  { constructor; [lia|done|done| | |]; intros k ? E; apply lookup_replicate in E as [? _]; done. }
  eapply tries_bind; [apply (Hset p eq_refl ltac:(cbn; lia) _ i Hp); cbn; lia|].
  intros [rc q] (Hs & Hdq & Hq). cbn [fst snd] in *.
  eapply tries_mono; [eapply (set_each_tries _ sz l q rc (with_bit (fun _ => false) i) Hset Hv Hs); [rewrite Hdq; cbn; lia|exact Hq]| |auto].
  intros r (Hsz & Hr). split; [done|]. eapply attempt_mono; [done|]. rewrite Hsz. intros j Hj.
  cbn beta. rewrite (HS j Hj). unfold with_bit. by rewrite orb_false_r.
Qed.

Lemma set_hash n p : BITVEC_NBIT < iSize p -> iDivisor p = 0 ->
  (forall q, iSize q = iSize p -> iDivisor q <> 0 -> sets (set_loop n) q) -> sets (set_loop (S n)) p.
Proof.
  intros Hbig Hd0 Hset S i Hh Hi w. inversion Hh as [? ? ? ? Hle|sz c l S0 Hlo Ht Hv HS|sz c d l ? Hlo Hd]; subst; cbn [iSize iDivisor] in *; [lia| |].
  2:{ destruct (size_div 4 sz) as (_ & _ & ? & _); [lia|apply size_u32; lia|]. cbv zeta in *. lia. }
  cbn [set_loop iSize iDivisor Z.eqb negb nSet]. rewrite andb_false_r. destruct (Z.leb_spec sz BITVEC_NBIT); [lia|].
  unfold hash_of. cbn [u]. rewrite bind_ret, (u32_small (i + 1)) by lia.
  destruct (table_spot l c (i + 1) w Ht ltac:(lia)) as (e & He & x & Ex & Es & Hx).
  replace (i + 1 - 1) with i in * by lia. rewrite (bind_done _ _ _ _ _ Ex), (bind_done _ _ _ _ _ Es).
  case_bool_decide as Hin.
  { eexists _, w. split; [done|]. split; [|done]. split; [done|]. split; [done|]. left. split; [done|].
    eapply bits_ext; [exact Hh|]. intros j Hj. unfold with_bit. destruct (Z.eqb_spec j i) as [->|]; [|done].
    rewrite <- HS by done. by rewrite bool_decide_eq_true_2. }
  destruct (_ && negb _) eqn:Efull.
  { clear Ex Es. revert w. eapply tries_bind; [apply tries_request|]. intros [|] _; cbn [negb].
    - eapply tries_mono; [by apply (rehash_tries n sz c l S i)| |done]. by intros r [? ?].
    - apply tries_ret; [|done]. split; [done|]. split; [done|]. right. split; [done|]. exists S. split; [done|].
      intros j _. unfold with_bit. intros ->. apply orb_true_r. }
  assert (Hc : c < 123).
  { revert Efull. change BITVEC_MXHASH with 62. change (BITVEC_NINT - 1) with 123. destruct (Z.eqb_spec x 0); cbn; lia. }
  rewrite u32_small by (destruct Ht; lia). eexists _, w. split; [done|]. split; [|done]. split; [done|]. split; [done|].
  left. split; [done|]. cbn [snd]. pose proof (table_insert l c (i + 1) e Ht ltac:(lia) Hc) as Hti.
  replace (i + 1 - 1) with i in Hti by lia. constructor; [done|by apply Hti|apply Forall_insert; [done|lia]|].
  intros j Hj. unfold with_bit. rewrite <- (HS j Hj).
  rewrite (bool_decide_ext _ _ (elem_insert_free _ _ (i + 1) (j + 1) (free_lookup l _ e (t_length _ _ Ht) He) ltac:(lia))), bool_decide_or.
  f_equal. destruct (Z.eqb_spec j i) as [->|]; [by rewrite bool_decide_eq_true_2|by rewrite bool_decide_eq_false_2 by lia].
Qed.

Lemma set_spec k n p : iSize p <= size k -> (2 * k < n)%nat -> sets (set_loop n) p.
Proof.
  revert n p. induction k as [|k IH]; intros [|n] p Hk Hn; try lia.
  { apply set_bitmap. unfold size in Hk. cbn [Z.of_nat] in Hk. rewrite Z.pow_0_r in Hk. lia. }
  assert (Hsub : forall m q, (2 * k < m)%nat -> iSize q <= size (S k) -> iDivisor q <> 0 -> sets (set_loop (S m)) q).
  { intros m q Hm Hq Hd S0 i Hh. revert S0 i Hh. inversion 1 as [| |sz c d l ? Hlo Hdd]; subst; [done|done|]. revert Hh.
    apply set_sub; [done|]. intros r Hr. apply IH; [|done]. rewrite Hr. cbn [iSize iDivisor] in *.
    destruct (size_div (S k) sz) as (k' & [= <-] & _ & Hle & _); [lia|done|done]. }
  destruct (decide (iSize p <= BITVEC_NBIT)); [by apply set_bitmap|].
  destruct (decide (iDivisor p = 0)) as [Hd|Hd]; [|apply Hsub; [lia|done|done]].
  apply set_hash; [lia|done|]. intros q Hq Hdq. destruct n as [|n]; [lia|]. apply Hsub; [lia|lia|done].
Qed.

(** ** Clearing *)

Lemma refill_spec values i l c w : table l c -> i <> 0 -> (used values + used l <= 123)%nat ->
  exists l' c', refill values i l c w = Done ((l', c'), w) /\ table l' c' /\
    forall v, v <> 0 -> v ∈ l' <-> v ∈ l \/ (v ∈ values /\ v <> i).
Proof.
  revert l c. induction values as [|x values IH]; intros l c Ht Hi Hroom; cbn [refill].
  { exists l, c. split; [done|]. split; [done|]. intros v _. rewrite elem_of_nil. tauto. }
  destruct ((x =? 0) || (x =? i)) eqn:Ex.
  { destruct (IH l c Ht Hi) as (l' & c' & E & Ht' & Hl').
    { unfold used in *. rewrite filter_cons in Hroom. destruct (decide (x <> 0)); cbn in Hroom; lia. }
    exists l', c'. split; [done|]. split; [done|]. intros v Hv. rewrite (Hl' v Hv), elem_of_cons.
    assert (v = x -> v = i) as Hvx by (intros ->; lia). tauto. }
  destruct (Z.eqb_spec x 0) as [|Hx0]; [done|]. destruct (Z.eqb_spec x i) as [|Hxi]; [done|].
  destruct (table_free l c (BITVEC_HASH (x - 1)) Ht) as (e & He).
  pose proof (hash_free_spec l _ e (t_length _ _ Ht) He probes 0 w ltac:(destruct He; lia) ltac:(destruct He; unfold probes; lia)) as Ef.
  rewrite Z.add_0_r, Z.mod_small in Ef by apply hash_bound. rewrite (bind_done _ _ _ _ _ Ef).
  pose proof (free_lookup l _ e (t_length _ _ Ht) He) as Hat.
  assert (Hu : (used values + S (used l) <= 123)%nat).
  { unfold used in *. rewrite filter_cons, decide_True in Hroom by done. cbn in Hroom. lia. }
  rewrite u32_small by (destruct Ht; lia).
  destruct (IH _ (c + 1) (table_insert l c x e Ht Hx0 ltac:(destruct Ht; lia) He) Hi) as (l' & c' & E & Ht' & Hl').
  { by rewrite (used_insert _ _ _ Hat Hx0). }
  exists l', c'. split; [done|]. split; [done|]. intros v Hv.
  rewrite (Hl' v Hv), (elem_insert_free _ _ _ _ Hat Hv), elem_of_cons.
  assert (v = x -> v <> i) as Hvx by congruence. tauto.
Qed.

Lemma clear_bitmap sz c l S n i w : sz <= BITVEC_NBIT -> holds (Mk_bitvec sz c 0 (aBitmap l)) S -> 0 <= i < sz ->
  exists p', clear_loop (Datatypes.S n) (Mk_bitvec sz c 0 (aBitmap l)) i w = Done (p', w) /\ iSize p' = sz /\
    holds p' (without_bit S i).
Proof.
  intros Hsz Hh Hi. inversion Hh as [? ? ? ? _ Hl Hb HS| |]; subst. cbn [clear_loop iDivisor iSize Z.eqb negb].
  rewrite (proj2 (Z.leb_le _ _) Hsz). unfold bitmap_of. cbn [u].
  rewrite bind_ret, (bind_done _ _ _ _ _ (bitmap_elem l i w Hl ltac:(lia))), low_bits.
  pose proof (Z.mod_pos_bound i 8 ltac:(lia)) as Hm. eexists. split; [done|]. split; [done|]. unfold put_u. cbn [iSize nSet iDivisor].
  apply (bitmap_write sz c l S _ i); [done|done|by constructor|apply u8_byte| |].
  - intros j Hj. unfold u8. rewrite Z.mod_pow2_bits_low, Z.land_spec, Z.lnot_spec, Z.shiftl_1_l, Z.pow2_bits_eqb by lia.
    unfold without_bit. rewrite Z.eqb_refl, (Z.eqb_sym (i mod 8)). by destruct (j =? i mod 8); rewrite ?andb_false_r, ?andb_true_r.
  - intros j Hj. unfold without_bit. by rewrite (proj2 (Z.eqb_neq _ _) Hj).
Qed.

Lemma clear_hash sz c l S n i w : BITVEC_NBIT < sz -> holds (Mk_bitvec sz c 0 (aHash l)) S -> 0 <= i < sz ->
  exists p', clear_loop (Datatypes.S n) (Mk_bitvec sz c 0 (aHash l)) i w = Done (p', w) /\ iSize p' = sz /\
    holds p' (without_bit S i).
Proof.
  intros Hsz Hh Hi. inversion Hh as [|? ? ? ? Hlo Ht Hv HS|]; subst. cbn [clear_loop iDivisor iSize Z.eqb negb].
  destruct (Z.leb_spec sz BITVEC_NBIT); [lia|]. unfold hash_of. cbn [u]. rewrite bind_ret, u32_small by lia.
  destruct (refill_spec l (i + 1) _ 0 w table_empty ltac:(lia)) as (l' & c' & E & Ht' & Hl').
  { change (used (replicate 124 0)) with 0%nat. destruct Ht. lia. }
  change (Z.to_nat BITVEC_NINT) with 124%nat. rewrite (bind_done _ _ _ _ _ E). eexists. split; [done|]. split; [done|].
  assert (Hin : forall v, v <> 0 -> v ∈ l' <-> v ∈ l /\ v <> i + 1).
  { intros v Hv0. rewrite (Hl' v Hv0). split; [|by right]. intros [(j & Hj)%list_elem_of_lookup|?]; [|done].
    by apply lookup_replicate in Hj as [-> _]. }
  constructor; [done|done| |].
  - apply Forall_forall. intros v Hv'. destruct (decide (v = 0)) as [->|Hv0]; [by left|].
    apply (Hin v Hv0) in Hv' as [Hv' _]. by apply (proj1 (Forall_forall _ _) Hv) in Hv'.
  - intros j Hj. unfold without_bit. rewrite <- (HS j Hj), (bool_decide_ext _ _ (Hin (j + 1) ltac:(lia))), bool_decide_and, andb_comm.
    f_equal. rewrite bool_decide_not. f_equal.
    destruct (Z.eqb_spec j i) as [->|]; [by rewrite bool_decide_eq_true_2|by rewrite bool_decide_eq_false_2 by lia].
Qed.

Lemma clear_spec p S k n i w : holds p S -> iSize p <= size k -> (k < n)%nat -> 0 <= i < iSize p ->
  exists p', clear_loop n p i w = Done (p', w) /\ iSize p' = iSize p /\ holds p' (without_bit S i).
Proof.
  intros H. revert k n i w. induction H as [sz c l S Hsz Hl Hb HS|sz c l S Hsz Ht Hv HS|sz c d l S Hsz Hd Hl Hsq Hq IH Hn];
    intros k [|n] i w Hk Hlt Hi; try lia; cbn [iDivisor iSize] in *.
  - apply (clear_bitmap sz c l S); [done|by constructor|done].
  - apply (clear_hash sz c l S); [lia|by constructor|done].
  - destruct (size_div k sz) as (k' & -> & Hd1 & Hdk & Hcov); [lia|done|]. cbv zeta in *. rewrite <- Hd in *.
    destruct (bin_of d sz i ltac:(lia) Hcov Hi) as (Hbin & Hm & Hsum).
    cbn [clear_loop iDivisor]. rewrite (proj2 (Z.eqb_neq d 0)) by lia.
    unfold subs_of. cbn [u negb]. rewrite bind_ret. assert (Hh : holds (Mk_bitvec sz c d (apSub l)) S) by (by constructor).
    destruct (lookup_lt_is_Some_2 l (Z.to_nat (i / d)) ltac:(lia)) as ([q|] & E);
      rewrite (bind_done _ _ _ _ _ (elem_lookup l (i / d) _ w (proj1 Hbin) E)).
    + destruct (IH _ q E k' n (i mod d) w) as (q' & E' & Hs' & Hq'); [rewrite ?(Hsq _ q E); lia..|].
      rewrite (bind_done _ _ _ _ _ E'). eexists. split; [done|]. split; [done|]. unfold put_u. cbn [iSize nSet iDivisor].
      apply (holds_put sz c d l S); [lia|done|lia|rewrite Hs'; by eapply Hsq| |].
      * eapply bits_ext; [exact Hq'|]. rewrite Hs', (Hsq _ q E). intros j Hj. unfold without_bit.
        assert ((j =? i mod d) = (Z.of_nat (Z.to_nat (i / d)) * d + j =? i)) as -> by lia.
        by destruct (_ =? i), (_ <? sz).
      * intros j Hj Hb. unfold without_bit. rewrite (proj2 (Z.eqb_neq j i)); [done|]. intros ->. lia.
    + eexists. split; [done|]. split; [done|]. eapply bits_ext; [exact Hh|]. intros j Hj. unfold without_bit.
      destruct (Z.eqb_spec j i) as [->|]; [|done]. rewrite <- Hsum. cbn. by apply (Hn _ (i mod d) E); lia.
Qed.

(** ** Freeing *)

(** The objects of a vector. *)
Fixpoint objects (n : nat) (p : Bitvec) : Z :=
  match n, u p with
  | S n, apSub l => 1 + foldr (fun q m => match q with Some q => objects n q | None => 0 end + m) 0 l
  | _, _ => 1
  end.

(** Every object of a vector is freed, and only once. *)
Lemma destroy_spec p S k n w : holds p S -> iSize p <= size k -> (k < n)%nat ->
  destroy_loop n (Some p) w = Done (objects k p, w).
Proof.
  intros H. revert k n w. induction H as [sz c l S Hsz Hl Hb HS|sz c l S Hsz Ht Hv HS|sz c d l S Hsz Hd Hl Hsq Hq IH Hn];
    intros k [|n] w Hk Hlt; try lia; cbn [destroy_loop iDivisor iSize Z.eqb negb] in *; [by destruct k..|].
  destruct (size_div k sz) as (k' & -> & Hd1 & Hdk & _); [lia|done|]. cbv zeta in *. rewrite <- Hd in *.
  rewrite (proj2 (Z.eqb_neq d 0)) by lia. unfold subs_of. cbn [u negb]. rewrite bind_assoc, bind_ret.
  assert (Hall : Forall (fun o => forall w, destroy_loop n o w
    = Done (match o with Some q => objects k' q | None => 0 end, w)) l).
  { apply Forall_lookup. intros j [q|] Hj w'; [|by destruct n].
    apply (IH j q Hj); [rewrite (Hsq j q Hj); lia|lia]. }
  assert (Heach : forall w, destroy_each (destroy_loop n) l w
    = Done (foldr (fun q m => match q with Some q => objects k' q | None => 0 end + m) 0 l, w)).
  { clear - Hall. induction Hall as [|o l Ho _ IH]; intros w; [done|]. cbn [destroy_each foldr].
    by rewrite (bind_done _ _ _ _ _ (Ho w)), (bind_done _ _ _ _ _ (IH w)). }
  rewrite (bind_done _ _ _ _ _ (Heach w)). cbn [objects u]. unfold mret, M_ret. do 2 f_equal. lia.
Qed.

(** ** Sequences of operations *)

Inductive bit_op := SetBit (i : Z) | ClearBit (i : Z) | TestBit (i : Z).

(** Set and cleared are bits of the vector; any number can be tested. *)
Definition op_ok (sz : Z) (op : bit_op) : Prop :=
  match op with
  | SetBit i | ClearBit i => 1 <= i <= sz
  | TestBit i => 0 <= i < 2 ^ 32
  end.

#[export] Instance op_ok_dec sz op : Decision (op_ok sz op).
Proof. destruct op; apply _. Defined.

(** The calls on a set, with their result code or bit: setting a bit may fail, and
    then bits may be lost. *)
Inductive set_step (X : gset Z) : bit_op -> Z -> gset Z -> Prop :=
  | step_set i : set_step X (SetBit i) SQLITE_OK ({[i]} ∪ X)
  | step_nomem i X' : X' ⊆ {[i]} ∪ X -> set_step X (SetBit i) SQLITE_NOMEM X'
  | step_clear i : set_step X (ClearBit i) SQLITE_OK (X ∖ {[i]})
  | step_test i : set_step X (TestBit i) (if bool_decide (i ∈ X) then 1 else 0) X.

Inductive set_run : gset Z -> list bit_op -> list Z -> Prop :=
  | run_nil X : set_run X [] []
  | run_cons X op r X' ops rs : set_step X op r X' -> set_run X' ops rs -> set_run X (op :: ops) (r :: rs).

(** The result of setting a bit is not [SQLITE_NOMEM]. *)
Definition fine (op : bit_op) (r : Z) : Prop := match op with SetBit _ => r = SQLITE_OK | _ => True end.

Definition step_vector (p : option Bitvec) (op : bit_op) : M (Z * option Bitvec) :=
  match op with
  | SetBit i => sqlite3BitvecSet p i
  | ClearBit i => p ← sqlite3BitvecClear p i; mret (SQLITE_OK, p)
  | TestBit i => b ← sqlite3BitvecTest p i; mret (if (b : bool) then 1 else 0, p)
  end.

Fixpoint run_vector (p : option Bitvec) (ops : list bit_op) : M (list Z) :=
  match ops with
  | [] => mret []
  | op :: ops =>
      '(r, p) ← step_vector p op;
      rs ← run_vector p ops;
      mret (r :: rs)
  end.

(** The vector of [sz] bits holds the set [X]. *)
Definition represents (sz : Z) (p : Bitvec) (X : gset Z) : Prop :=
  iSize p = sz /\ (forall i, i ∈ X -> 1 <= i <= sz) /\ holds p (fun j => bool_decide (j + 1 ∈ X)).

Lemma attempt_represents sz p X i rc : 1 <= i <= sz -> (forall i, i ∈ X -> 1 <= i <= sz) -> iSize p = sz ->
  attempt (with_bit (fun j => bool_decide (j + 1 ∈ X)) (i - 1)) rc p ->
  exists X', set_step X (SetBit i) rc X' /\ represents sz p X'.
Proof.
  intros Hi HX Hp Hat.
  assert (Hun : forall x, x ∈ {[i]} ∪ X -> 1 <= x <= sz) by (intros x [->%elem_of_singleton|?]%elem_of_union; auto).
  assert (Hbit : forall j, with_bit (fun j => bool_decide (j + 1 ∈ X)) (i - 1) j = bool_decide (j + 1 ∈ {[i]} ∪ X)).
  { intros j. rewrite (bool_decide_ext (j + 1 ∈ {[i]} ∪ X) (j + 1 = i \/ j + 1 ∈ X)) by (by rewrite elem_of_union, elem_of_singleton).
    rewrite bool_decide_or. unfold with_bit. f_equal.
    destruct (Z.eqb_spec j (i - 1)) as [->|]; [by rewrite bool_decide_eq_true_2 by lia|by rewrite bool_decide_eq_false_2 by lia]. }
  destruct Hat as [[-> Hh]|[-> (T & Hh & HT)]].
  - eexists. split; [constructor|]. split; [done|]. split; [done|]. eapply bits_ext; [exact Hh|]. auto.
  - exists (filter (fun x => T (x - 1) = true) ({[i]} ∪ X)). split; [apply step_nomem; by intros x [_ ?]%elem_of_filter|].
    split; [done|]. split; [by intros x [_ ?%Hun]%elem_of_filter|]. eapply bits_ext; [exact Hh|]. intros j Hj.
    symmetry. apply eq_bool_prop_intro. rewrite bool_decide_spec, elem_of_filter, Is_true_true. replace (j + 1 - 1) with j by lia.
    split; [by intros []|]. intros Ht. split; [done|]. specialize (HT j Hj Ht). rewrite Hbit in HT. by apply bool_decide_eq_true in HT.
Qed.

Lemma step_refines sz p X op : 0 < sz < 2 ^ 32 -> represents sz p X -> op_ok sz op ->
  tries (step_vector (Some p) op) (fun r => exists q X', r.2 = Some q /\ set_step X op r.1 X' /\ represents sz q X') (fun r => fine op r.1).
Proof.
  intros Hsz (Hp & HX & Hh) Hop. pose proof (size_u32 sz ltac:(lia)) as Hk. destruct op as [i|i|i]; cbn [op_ok step_vector fine] in *.
  - cbn [sqlite3BitvecSet]. rewrite u32_small by lia. eapply tries_bind.
    + apply (set_spec 4 depth p); [lia|unfold depth; lia|exact Hh|lia].
    + intros [rc q] (Hq & _ & Hat). cbn [fst snd] in *. apply tries_ret; [|done]. cbn [fst snd].
      destruct (attempt_represents sz q X i rc Hop HX ltac:(congruence) Hat) as (X' & ? & ?). by exists q, X'.
  - intros w. cbn [sqlite3BitvecClear]. rewrite u32_small by lia.
    destruct (clear_spec p _ 4 depth (i - 1) w Hh) as (q & E & Hq & Hh'); [lia|unfold depth; lia|lia|].
    rewrite bind_assoc, (bind_done _ _ _ _ _ E), bind_ret. eexists _, w. split; [done|]. split; [|done].
    exists q, (X ∖ {[i]}). split; [done|]. split; [constructor|].
    split; [congruence|]. split; [intros x [? _]%elem_of_difference; by apply HX|]. eapply bits_ext; [exact Hh'|]. intros j Hj. unfold without_bit.
    rewrite (bool_decide_ext (j + 1 ∈ X ∖ {[i]}) (j + 1 <> i /\ j + 1 ∈ X)) by (rewrite elem_of_difference, elem_of_singleton; tauto). rewrite bool_decide_and, bool_decide_not. f_equal. f_equal.
    destruct (Z.eqb_spec j (i - 1)) as [->|]; [by rewrite bool_decide_eq_true_2 by lia|by rewrite bool_decide_eq_false_2 by lia].
  - intros w. cbn [sqlite3BitvecTest]. assert (E : sqlite3BitvecTestNotNull p i w = Done (bool_decide (i ∈ X), w)).
    { unfold sqlite3BitvecTestNotNull. destruct (decide (1 <= i <= sz)) as [Hin|Hout].
      - rewrite u32_small by lia. destruct (Z.leb_spec (iSize p) (i - 1)); [lia|].
        rewrite (test_spec p _ 4 depth (i - 1) w Hh) by (unfold depth; lia). by replace (i - 1 + 1) with i by lia.
      - rewrite bool_decide_eq_false_2 by (intros ?%HX; lia). destruct (decide (i = 0)) as [->|].
        + change (u32 (0 - 1)) with (2 ^ 32 - 1). by destruct (Z.leb_spec (iSize p) (2 ^ 32 - 1)); [|lia].
        + rewrite u32_small by lia. by destruct (Z.leb_spec (iSize p) (i - 1)); [|lia]. }
    rewrite (bind_done _ _ _ _ _ E). eexists _, w. split; [done|]. split; [|done]. exists p, X. split; [done|]. by split; [constructor|].
Qed.

Lemma run_refines sz p X ops : 0 < sz < 2 ^ 32 -> represents sz p X -> Forall (op_ok sz) ops ->
  tries (run_vector (Some p) ops) (set_run X ops) (Forall2 fine ops).
Proof.
  intros Hsz HX Hops. revert p X HX. induction Hops as [|op ops Hop _ IH]; intros p X HX; cbn [run_vector].
  { apply tries_ret; constructor. }
  eapply tries_bind; [by apply (step_refines sz p X op)|]. intros [r o] (q & X' & Ho & Hst & Hq). cbn [fst snd] in *. subst o.
  eapply tries_bind; [by apply IH|]. intros rs Hrs. apply tries_ret; [by econstructor|]. auto.
Qed.

(** C23. Bit vectors implement sets: on a vector made by [sqlite3BitvecCreate] for
    any number of bits below 2^32, any sequence of setting, clearing and testing
    bits gives the results of the same sequence on a set of numbers that is empty
    at first; bits are set in the vector's range, and numbers outside of it test
    as not set.  This holds whichever allocations fail: setting a bit then returns
    [SQLITE_NOMEM], and the vector goes on as a set that may have lost numbers but
    has no others.  Without failures the vector is created and no call returns
    that error.  In particular no probe of a hash table runs on and no division
    goes deeper than the fuel of the model. *)
Theorem bitvec_refines_set sz ops w :
  0 < sz < 2 ^ 32 -> Forall (op_ok sz) ops ->
  exists o w', sqlite3BitvecCreate sz w = Done (o, w') /\ (all_ok w -> is_Some o) /\
    (is_Some o -> exists rs w'', run_vector o ops w' = Done (rs, w'') /\ set_run ∅ ops rs /\
      (all_ok w -> Forall2 fine ops rs)).
Proof.
  intros Hsz Hops. destruct (create_tries sz Hsz w) as (o & w' & E & Ho & Hok). exists o, w'. split; [done|].
  split; [intros Hw; by apply Hok|]. intros [p ->]. destruct (Ho p eq_refl) as [Hp Hh].
  destruct (run_refines sz p ∅ ops Hsz) with w' as (rs & w'' & E' & Hrs & Hfine); [|done|].
  - split; [done|]. split; [by intros i ?%elem_of_empty|]. eapply bits_ext; [exact Hh|]. intros i _.
    rewrite bool_decide_eq_false_2; [done|apply not_elem_of_empty].
  - exists rs, w''. split; [done|]. split; [done|]. intros Hw. apply Hfine. by apply Hok.
Qed.

(** A vector of four billion bits: values that hash to the same entry, until the
    table has to be divided, which fails. *)
Definition w_ops : list bit_op :=
  ((fun k => SetBit (1 + 124 * Z.of_nat k)) <$> seq 0 64) ++ [ClearBit 249; TestBit 125; TestBit 249; TestBit 4000000001].

Definition w_results : list Z := replicate 62 0 ++ [7; 0] ++ [0; 1; 0; 0].

Lemma w_created : exists p, sqlite3BitvecCreate 4000000000 [true; false] = Done (Some p, [false]) /\
  run_vector (Some p) w_ops [false] = Done (w_results, []).
Proof. eexists. split; [reflexivity|]. vm_compute. reflexivity. Qed.

Lemma bitvec_refines_set_witness :
  exists p, run_vector (Some p) w_ops [false] = Done (w_results, []) /\ set_run ∅ w_ops w_results.
Proof.
  destruct (bitvec_refines_set 4000000000 w_ops [true; false]) as (o & w' & E & _ & Hset);
    [done|by apply (bool_decide_unpack _); vm_compute|].
  destruct w_created as (p & Hc & Hrun). rewrite Hc in E. injection E as <- <-.
  destruct (Hset (ex_intro _ p eq_refl)) as (rs & w'' & Hr & Hs & _). rewrite Hrun in Hr. injection Hr as <- _.
  exists p. split; [exact Hrun|exact Hs].
Defined.
