(* ===== verification/Integrity.v ===== *)
(** * The integrity check

    Model of [sqlcipher_codec_ctx_integrity_check]
    ([storage/secure/sec_sqlite3.c]), behind [PRAGMA cipher_integrity_check]: it
    recomputes the HMAC of every page of the database file and reports the pages
    whose HMAC differs.  The report is the list of its rows.  The theorems say
    that it reports exactly the damaged pages, that a file of pages written by
    the codec passes, and that pages beyond 2 GiB are not reached. *)

From stdpp Require Import base tactics list numbers option.
From Stdlib Require Import ZArith Lia ZifyBool.
From S2P Require Import Prelude MtArrList Sha256 MtCrypto MerkleTree MtSerialize.
From S2P Require Import MerkleTheorems CipherUtil Openssl CodecCtx PageCodec PageProofs CodecProofs HookProofs CodecWitness.

Local Open Scope Z_scope.

(** The rows of the result. *)
Inductive check_row :=
  | FileUndefined
  | HmacNotEnabled
  | KeysUnavailable                       (** "unable to derive keys" *)
  | ReadError (read_sz page offset : Z)
  | HmacFailed (page : Z)                 (** "HMAC operation failed" *)
  | HmacMismatch (page : Z)               (** "HMAC verification failed" *)
  | InvalidSize (page bytes : Z).

Definition SQLITE_IOERR_READ : Z := 266.

(** Seeking to a negative offset fails. *)
Definition os_read (file : list Z) (amt off : Z) : Z * list Z :=
  if off <? 0 then (SQLITE_IOERR_READ, []) else sqlite3OsRead file amt off.

Section check.
Context {OS : OpenSSL}.

(** One round of the loop; [offset] is an [int] computed from unsigned operands.
    The rows added and the page buffer. *)
Definition check_one (ctx : codec_ctx) (c_ctx : cipher_ctx) (file : list Z) (hmac_out : option (list Z))
    (page : Z) (buf : list Z) : M (list check_row * list Z) :=
  let offset := i32 (u32 ((page - 1) * page_sz ctx)) in
  let payload_sz := page_sz ctx - reserve_sz ctx + iv_sz ctx in
  let read_sz := page_sz ctx in
  let '(offset, payload_sz, read_sz) :=
    if page =? 1 then
      let page1_offset := page_offset ctx page in
      (offset + page1_offset, payload_sz - page1_offset, read_sz - page1_offset)
    else (offset, payload_sz, read_sz) in
  buf ← buf_write 0 (replicate (Z.to_nat (page_sz ctx)) 0) buf;
  hmac_out ← sqlcipher_memset hmac_out 0 (hmac_sz ctx);
  let '(rc, bs) := os_read file read_sz offset in
  buf ← buf_write 0 bs buf;
  if negb (rc =? SQLITE_OK) then mret ([ReadError read_sz page offset], buf) else
  payload ← buf_read 0 payload_sz buf;
  match sqlcipher_page_hmac ctx c_ctx page payload with
  | (rc, Some mac) =>
      hmac_out ← deref hmac_out;
      hmac_out ← buf_write 0 mac hmac_out;
      if negb (rc =? SQLITE_OK) then mret ([HmacFailed page], buf) else
      stored ← buf_read payload_sz (hmac_sz ctx) buf;
      computed ← buf_read 0 (hmac_sz ctx) hmac_out;
      mret (if negb (sqlcipher_memcmp stored computed (hmac_sz ctx) =? 0) then [HmacMismatch page] else [], buf)
  | (_, None) => mret ([HmacFailed page], buf)
  end.

(** [n] rounds from [page] on. *)
Fixpoint check_pages (n : nat) (ctx : codec_ctx) (c_ctx : cipher_ctx) (file : list Z)
    (hmac_out : option (list Z)) (page : Z) (buf : list Z) : M (list check_row * list Z) :=
  match n with
  | O => mret ([], buf)
  | S n =>
      '(rows, buf) ← check_one ctx c_ctx file hmac_out page buf;
      '(more, buf) ← check_pages n ctx c_ctx file hmac_out (page + 1) buf;
      mret (rows ++ more, buf)
  end.

Definition sqlcipher_codec_ctx_integrity_check (g : globals) (ctx : codec_ctx) (e : db_env) (r : rng)
  : M (list check_row * codec_ctx * rng) :=
  match fd e with
  | None => mret ([FileUndefined], ctx, r)
  | Some file =>
      if Z.land (flags ctx) CIPHER_FLAG_HMAC =? 0 then mret ([HmacNotEnabled], ctx, r) else
      k ← sqlcipher_codec_key_derive g ctx e r;
      let '(rc, ctx, r) := k in
      if negb (rc =? SQLITE_OK) then mret ([KeysUnavailable], ctx, r) else
      let file_sz := Z.of_nat (length file) in
      hmac_out ← sqlcipher_malloc (hmac_sz ctx);
      let n := Z.quot file_sz (page_sz ctx) in
      '(rows, ctx) ← (if n =? 0 then mret ([], ctx) else
        c_ctx ← deref (read_ctx ctx);
        buf ← deref (buffer ctx);
        '(rows, buf) ← check_pages (Z.to_nat n) ctx c_ctx file hmac_out 1 buf;
        mret (rows, set_buffer ctx (Some buf)));
      let extra := Z.rem file_sz (page_sz ctx) in
      mret (rows ++ (if extra =? 0 then [] else [InvalidSize (u32 (n + 1)) extra]), ctx, r)
  end.

(** ** The pages of a file *)

(** The page of [P] bytes at index [i]. *)
Definition file_page (P : Z) (file : list Z) (i : nat) : list Z :=
  take (Z.to_nat P) (drop (i * Z.to_nat P) file).

(** What the page says its HMAC is, and the bytes it protects. *)
Definition stored_mac (P pgno : Z) (page : list Z) : list Z :=
  take 64 (drop (Z.to_nat (P - 80)) page).

Definition true_mac (ctx : codec_ctx) (c : cipher_ctx) (P pgno : Z) (page : list Z) : option (list Z) :=
  HMAC Sha512 (mac_key c)
    (take (Z.to_nat (P - 80) - head_size pgno) (drop (head_size pgno) page) ++ pgno_raw ctx pgno).

(** The rows a page deserves. *)
Definition verdict (ctx : codec_ctx) (c : cipher_ctx) (P pgno : Z) (page : list Z) : list check_row :=
  match true_mac ctx c P pgno page with
  | None => [HmacFailed pgno]
  | Some mac => if decide (stored_mac P pgno page = mac) then [] else [HmacMismatch pgno]
  end.

Definition verdicts (ctx : codec_ctx) (c : cipher_ctx) (P : Z) (file : list Z) (i n : nat) : list check_row :=
  concat ((fun k => verdict ctx c P (Z.of_nat k + 1) (file_page P file k)) <$> seq i n).
End check.

Section proofs.
Context {OS : OpenSSL} {L : OpenSSLLaws OS}.

Lemma os_read_inside pre mid post off amt :
  off = Z.of_nat (length pre) -> amt = Z.of_nat (length mid) ->
  os_read (pre ++ mid ++ post) amt off = (SQLITE_OK, mid).
Proof.
  intros -> ->. unfold os_read, sqlite3OsRead. replace (_ <? 0) with false by lia.
  by rewrite !Nat2Z.id, drop_app_length, take_app_length, Z.eqb_refl.
Qed.

Lemma memset_block (h : list Z) n w :
  Z.of_nat (length h) = n -> sqlcipher_memset (Some h) 0 n w = Done (Some (replicate (Z.to_nat n) 0), w).
Proof.
  intros Hl. unfold sqlcipher_memset. erewrite bind_done; [done|]. apply write_whole. rewrite length_replicate. lia.
Qed.

(** One page of the file. *)
Section one.
  Context (ctx : codec_ctx) (P : Z) (rd wr : cipher_ctx) (Hopen : ctx_open ctx P rd wr).
  Context (pre page post : list Z) (k : nat) (hmac_out : list Z).
  Context (Hpre : length pre = (k * Z.to_nat P)%nat) (Hpage : Z.of_nat (length page) = P).
  Context (Hfile : Z.of_nat (length (pre ++ page ++ post)) < 2 ^ 31) (Hhm : length hmac_out = 64%nat).

Abbreviation pgno := (Z.of_nat k + 1).
Abbreviation off := (head_size pgno).

(** The two HMACs of a page in terms of its parts. *)
Lemma true_mac_parts size p : parts_ok size p -> size = P - Z.of_nat off - 96 -> drop off page = join p ->
    true_mac ctx rd P pgno page = HMAC Sha512 (mac_key rd) ((pp_data p ++ pp_iv p) ++ pgno_raw ctx pgno).
  Proof.
    intros (H1 & H2 & _) -> Hbody. unfold true_mac. do 2 f_equal. rewrite Hbody. unfold join. rewrite (app_assoc (pp_data p)).
    apply take_app_length'. rewrite length_app, H2. lia.
  Qed.

Lemma stored_mac_parts size p : parts_ok size p -> size = P - Z.of_nat off - 96 -> drop off page = join p ->
    (off <= 16)%nat -> stored_mac P pgno page = pp_mac p.
  Proof.
    intros (H1 & H2 & H3 & _) -> Hbody Hoff. unfold stored_mac.
    rewrite <- (take_drop off page), drop_app_ge by (rewrite length_take; lia).
    rewrite Hbody. unfold join. rewrite (app_assoc (pp_data p)), drop_app_length'.
    - by apply take_app_length'.
    - rewrite length_app, length_take, H2. lia.
  Qed.

Lemma check_one_spec buf w :
    Z.of_nat (length buf) = P ->
    exists buf', Z.of_nat (length buf') = P /\
      check_one ctx rd (pre ++ page ++ post) (Some hmac_out) pgno buf w
      = Done ((verdict ctx rd P pgno page, buf'), w).
  Proof.
    intros Hbuf. destruct Hopen as [Hstd Hpg HP Hph _ _ _ _ _ _ _].
    assert (Hoff : (off <= 16)%nat) by (destruct (head_size_cases pgno) as [[-> _]|[-> _]]; lia).
    set (body := drop off page). set (size := P - Z.of_nat off - 96).
    destruct (split_page body size) as (p & Hbody & Hp); [lia|unfold body, size; rewrite length_drop; lia|].
    pose proof (length_join size p Hp) as Hjl. rewrite <- Hbody in Hjl.
    unfold check_one. rewrite Hpg, (st_reserve _ Hstd), (st_iv_sz _ Hstd), (st_hmac_sz _ Hstd).
    (* offset, payload size and bytes read *)
    assert (Hoffset : i32 (u32 ((pgno - 1) * P)) = Z.of_nat (length pre)).
    { rewrite Hpre, Nat2Z.inj_mul, Z2Nat.id by lia. replace (pgno - 1) with (Z.of_nat k) by lia.
      rewrite !length_app, Hpre in Hfile. rewrite u32_small, i32_small by lia. done. }
    rewrite Hoffset, page_offset_std by done.
    assert (Hargs : (if pgno =? 1
        then (Z.of_nat (length pre) + Z.of_nat off, P - 96 + 16 - Z.of_nat off, P - Z.of_nat off)
        else (Z.of_nat (length pre), P - 96 + 16, P))
      = (Z.of_nat (length pre + off), size + 16, size + 96)).
    { destruct (head_size_cases pgno) as [[E E1]|[E E1]]; unfold size; rewrite E.
      - replace (pgno =? 1) with true by lia. repeat f_equal; lia.
      - replace (pgno =? 1) with false by lia. repeat f_equal; lia. }
    rewrite Hargs. clear Hargs.
    erewrite bind_done; [|apply write_whole; rewrite length_replicate; lia].
    rewrite (bind_done _ _ _ _ _ (memset_block hmac_out 64 w ltac:(lia))).
    assert (Hread : os_read (pre ++ page ++ post) (size + 96) (Z.of_nat (length pre + off)) = (SQLITE_OK, body)).
    { rewrite <- (take_drop off page), <- app_assoc, app_assoc. apply os_read_inside; [|lia].
      rewrite length_app, length_take. lia. }
    rewrite Hread. change (negb (SQLITE_OK =? SQLITE_OK)) with false. cbv iota.
    set (z := replicate (Z.to_nat P) 0).
    assert (Hzl : length z = Z.to_nat P) by apply length_replicate.
    assert (Hz : z = take (length body) z ++ drop (length body) z) by (by rewrite take_drop).
    assert (Hbw : buf_write 0 body z w = Done (body ++ drop (length body) z, w)).
    { rewrite Hz at 1. apply (write_prefix _ body). rewrite length_take. lia. }
    rewrite (bind_done _ _ _ _ _ Hbw). set (tl := drop (length body) z).
    (* the HMAC *)
    assert (Hpay : buf_read 0 (size + 16) (body ++ tl) w = Done (pp_data p ++ pp_iv p, w)).
    { rewrite Hbody. unfold join. rewrite (app_assoc (pp_data p)), <- app_assoc. apply read_prefix.
      destruct Hp as (H1 & H2 & _). rewrite length_app, H2. lia. }
    rewrite (bind_done _ _ _ _ _ Hpay), page_hmac_eq by done.
    exists (body ++ tl). split; [unfold tl; rewrite length_app, length_drop; lia|].
    unfold verdict. rewrite (true_mac_parts size p Hp eq_refl Hbody). destruct (HMAC _ _ _) as [mac|] eqn:Hmac; [|done].
    destruct (mac_parts _ _ _ _ Hmac eq_refl) as [Hml _]. cbn [deref]. rewrite bind_ret.
    erewrite bind_done; [|apply write_whole; rewrite length_replicate; lia].
    change (negb (SQLITE_OK =? SQLITE_OK)) with false. cbv iota.
    assert (Hmacin : buf_read (size + 16) 64 (body ++ tl) w = Done (pp_mac p, w)).
    { rewrite Hbody. unfold join. rewrite (app_assoc (pp_data p)), <- !app_assoc, (app_assoc (pp_data p)).
      destruct Hp as (H1 & H2 & H3 & _). apply buf_read_at; [rewrite length_app, H2|rewrite H3]; lia. }
    rewrite (bind_done _ _ _ _ _ Hmacin), (bind_done _ _ _ _ _ (read_whole mac 64 w ltac:(lia))).
    rewrite (stored_mac_parts size p Hp eq_refl Hbody Hoff), sqlcipher_memcmp_spec; [|lia|destruct Hp as (_ & _ & -> & _); lia|destruct Hp as (_ & _ & -> & _); lia].
    by case_decide.
  Qed.
End one.

(** The whole file. *)
Section file.
  Context (ctx : codec_ctx) (P : Z) (rd wr : cipher_ctx) (Hopen : ctx_open ctx P rd wr).
  Context (file : list Z) (Hfile : Z.of_nat (length file) < 2 ^ 31).

Lemma check_pages_spec hmac_out n i buf w :
    length hmac_out = 64%nat -> ((i + n) * Z.to_nat P <= length file)%nat -> Z.of_nat (length buf) = P ->
    exists buf', Z.of_nat (length buf') = P /\
      check_pages n ctx rd file (Some hmac_out) (Z.of_nat i + 1) buf w
      = Done ((verdicts ctx rd P file i n, buf'), w).
  Proof.
    intros Hh. revert i buf. induction n as [|n IH]; intros i buf Hl Hb; [by exists buf|].
    pose proof (op_room _ _ _ _ Hopen) as HP.
    set (pre := take (i * Z.to_nat P) file). set (post := drop (Z.to_nat P) (drop (i * Z.to_nat P) file)).
    assert (Hsplit : file = pre ++ file_page P file i ++ post) by (unfold file_page, pre, post; by rewrite !take_drop).
    assert (Hpl : Z.of_nat (length (file_page P file i)) = P)
      by (unfold file_page; rewrite length_take, length_drop; lia).
    destruct (check_one_spec ctx P rd wr Hopen pre (file_page P file i) post i hmac_out) with (buf := buf) (w := w)
      as (b1 & Hb1 & H1); [unfold pre; rewrite length_take; lia|done|by rewrite <- Hsplit|done|done|].
    rewrite <- Hsplit in H1. destruct (IH (S i) b1) as (b2 & Hb2 & H2); [lia|done|].
    exists b2. split; [done|]. cbn [check_pages]. rewrite (bind_done _ _ _ _ _ H1). cbv beta iota.
    replace (Z.of_nat i + 1 + 1) with (Z.of_nat (S i) + 1) by lia. by rewrite (bind_done _ _ _ _ _ H2).
  Qed.

Lemma integrity_check_spec g e r w :
    fd e = Some file -> all_ok w ->
    exists ctx' w',
      sqlcipher_codec_ctx_integrity_check g ctx e r w
      = Done ((verdicts ctx rd P file 0 (Z.to_nat (Z.of_nat (length file) / P)) ++
          (if Z.of_nat (length file) mod P =? 0 then []
           else [InvalidSize (Z.of_nat (length file) / P + 1) (Z.of_nat (length file) mod P)]), ctx', r), w') /\
      ctx_open ctx' P rd wr.
  Proof.
    intros Hfd Hw. pose proof Hopen as [Hstd Hpg HP _ (buf & Hbuf & Hbl) Hrd Hwr Hk1 Hk2 _ _].
    unfold sqlcipher_codec_ctx_integrity_check. rewrite Hfd.
    rewrite (proj2 (Z.eqb_neq _ _) (st_hmac _ Hstd)).
    rewrite (bind_done _ _ _ _ _ (key_derive_idle g _ rd wr _ _ w Hrd Hwr Hk1 Hk2)).
    change (negb (SQLITE_OK =? SQLITE_OK)) with false. cbv iota zeta.
    rewrite (st_hmac_sz _ Hstd), Hpg. destruct (malloc_ok 64 w ltac:(done) Hw) as (w1 & Hm & Hw1).
    rewrite (bind_done _ _ _ _ _ Hm). rewrite Z.quot_div_nonneg by lia.
    set (n := Z.of_nat (length file) / P).
    assert (Hn : 0 <= n) by (apply Z.div_pos; lia).
    assert (HnP : n * P <= Z.of_nat (length file)) by (unfold n; rewrite Z.mul_comm; apply Z.mul_div_le; lia).
    assert (Hrun : exists ctx', ctx_open ctx' P rd wr /\
      (if n =? 0 then mret ([], ctx) else
        c_ctx ← deref (read_ctx ctx);
        buf ← deref (buffer ctx);
        '(rows, buf) ← check_pages (Z.to_nat n) ctx c_ctx file (Some (replicate (Z.to_nat 64) 0)) 1 buf;
        mret (rows, set_buffer ctx (Some buf))) w1 = Done ((verdicts ctx rd P file 0 (Z.to_nat n), ctx'), w1)).
    { destruct (n =? 0) eqn:E; [exists ctx; split; [done|]; by replace n with 0 by lia|].
      rewrite Hrd, Hbuf. cbn [deref]. rewrite !bind_ret.
      destruct (check_pages_spec (replicate (Z.to_nat 64) 0) (Z.to_nat n) 0 buf w1) as (b' & Hb' & Hc);
        [done|nia|done|]. change (Z.of_nat 0 + 1) with 1 in Hc. rewrite (bind_done _ _ _ _ _ Hc).
      eexists. split; [|reflexivity]. destruct Hopen as [[] ? ? ? ? ? ? ? ? ? ?]. split; try done. by exists b'. }
    destruct Hrun as (ctx' & Hopen' & Hrun). exists ctx', w1. split; [|done].
    rewrite (bind_done _ _ _ _ _ Hrun). cbv beta iota. rewrite (op_page _ _ _ _ Hopen'), Z.rem_mod_nonneg by lia.
    assert (n < 2 ^ 31) by (apply Z.div_lt_upper_bound; nia). by rewrite u32_small by lia.
  Qed.
(** C25. The integrity check is exact: on an open context and a file below 2 GiB, the
    rows it returns are, page by page, a row for a page whose stored HMAC is not
    the HMAC of its contents and page number and none for any other page, and a
    last row for bytes after the last whole page. *)
Theorem integrity_check_exact g e r w :
    fd e = Some file -> all_ok w ->
    exists ctx' w',
      sqlcipher_codec_ctx_integrity_check g ctx e r w
      = Done ((verdicts ctx rd P file 0 (Z.to_nat (Z.of_nat (length file) / P)) ++
          (if Z.of_nat (length file) mod P =? 0 then []
           else [InvalidSize (Z.of_nat (length file) / P + 1) (Z.of_nat (length file) mod P)]), ctx', r), w') /\
      ctx_open ctx' P rd wr.
  Proof. apply integrity_check_spec. Qed.
End file.

(** ** Pages the codec wrote *)

Context {NH : NodeHash}.

(** [page] was handed out by a write of the hook, for a context with the same keys
    and page number format as [ctx], a working tree and enough memory, and the
    write left the pager without an error. *)
Definition written (ctx : codec_ctx) (c : cipher_ctx) (P pgno : Z) (page : list Z) : Prop :=
  exists g st c' pData mt ls st1 w w1,
    ctx_open (cs_ctx st) P c' c' /\ mac_key c' = mac_key c /\ flags (cs_ctx st) = flags ctx /\
    Z.of_nat (length pData) = P /\
    ctx_tree (cs_ctx st) mt (Z.of_nat (length ls)) /\ tree_rep mt ls /\ Z.of_nat (S (length ls)) < MT_AL_MAX_ELEMS /\
    all_ok w /\ sqlite3Codec g st pData pgno CODEC_WRITE_OP w = Done ((RetBuffer, st1, pData), w1) /\
    pager_error (cs_env st1) = false /\ buffer (cs_ctx st1) = Some page.

(** An encryption that fails says so. *)
Lemma page_encrypt_fails st for_ctx c pgno size p out w :
  ctx_std (cs_ctx st) -> get_ctx (cs_ctx st) for_ctx = Some c ->
  parts_ok size p -> Z.of_nat (length out) = size + 96 -> 0 <= size ->
  (exists rb r' ct mac, RAND_bytes (cs_rng st) 96 = (Some rb, r') /\
    EVP_Cipher CIPHER_ENCRYPT (enc_key c) (take 16 rb) (pp_data p) = Some ct /\
    page_mac (cs_ctx st) c pgno ct (take 16 rb) = Some mac) \/
  exists st', sqlcipher_page_cipher st for_ctx pgno CIPHER_ENCRYPT (size + 96) (join p) out w
    = Done ((SQLITE_ERROR, st', replicate (Z.to_nat (size + 96)) 0), w).
Proof.
  intros Hc Hctx Hp Hout Hs. rewrite (page_encrypt_eq st for_ctx c) by done.
  destruct (RAND_bytes (cs_rng st) 96) as [[rb|] r'] eqn:Hrand; [|right; by eexists].
  destruct (EVP_Cipher CIPHER_ENCRYPT (enc_key c) (take 16 rb) (pp_data p)) as [ct|] eqn:Henc; [|right; by eexists].
  destruct (page_mac (cs_ctx st) c pgno ct (take 16 rb)) as [mac|] eqn:Hmac; [left; by exists rb, r', ct, mac|].
  right. pose proof (encrypted_parts _ _ _ _ _ _ _ Hp Hrand Henc) as Hq.
  unfold record_page. set (st1 := with_rng _ r'). change (cs_ctx st1) with (cs_ctx st).
  rewrite (st_iv_sz _ Hc), (bind_done _ _ _ _ _ (read_payload size _ Hq w)), page_hmac_eq by done.
  cbn [pp_data pp_iv]. unfold page_mac in Hmac. rewrite Hmac, cipher_error_zero by by apply length_join. by eexists.
Qed.

(** The page a successful write leaves has the HMAC the check computes. *)
Lemma written_verdict ctx c P pgno page :
  written ctx c P pgno page -> Z.of_nat (length page) = P /\ verdict ctx c P pgno page = [].
Proof.
  intros (g & st & c' & pData & mt & ls & st1 & w & w1 & Hopen & Hmk & Hfl & HpD & Htree & Hrep & Hroom & Hw & Hrun & Herr & Hbuf1).
  pose proof (op_room _ _ _ _ Hopen) as HP. destruct (op_buffer _ _ _ _ Hopen) as (buf & Hbuf & Hbl).
  set (off := head_size pgno). set (size := P - Z.of_nat off - 96).
  assert (Hoff : (off <= 16)%nat) by (unfold off; destruct (head_size_cases pgno) as [[-> _]|[-> _]]; lia).
  destruct (split_page (drop off pData) size) as (p & Hjoin & Hp); [lia|rewrite length_drop; lia|].
  destruct (page_encrypt_fails st CIPHER_WRITE_CTX c' pgno size p (drop off buf) w) as [Hok|(st' & Hf)];
    [apply Hopen|apply Hopen|done|rewrite length_drop; lia|lia| |].
  2:{ exfalso. rewrite <- Hjoin in Hf.
      rewrite (hook_write g st P c' c' pgno Hopen pData buf HpD Hbuf SQLITE_ERROR st' _ w w Hf) in Hrun
        by (rewrite length_replicate; lia).
      injection Hrun as <- _. discriminate Herr. }
  destruct Hok as (rb & r' & ct & mac & Hrand & Henc & Hmac).
  destruct (codec_write_spec g st P c' pgno pData p size mt ls rb r' ct mac w)
    as (st2 & w2 & Hrun2 & Hbuf2 & Hpl & Hdrop & _); [done..|].
  rewrite Hrun2 in Hrun. injection Hrun as -> _. rewrite Hbuf2 in Hbuf1. injection Hbuf1 as Hpage.
  rewrite Hpage in *. split; [done|]. fold off in Hdrop.
  destruct (RAND_length _ _ _ _ Hrand) as [Hrl _]. destruct (mac_parts _ _ _ _ Hmac eq_refl) as [Hml _].
  destruct (cipher_length _ _ _ _ _ Henc) as [Hcl _]. destruct Hp as (Hdl & _).
  set (tl := le_bytes 4 (Z.of_nat (length ls)) ++ drop 84 rb).
  assert (Hbody : drop off page = (ct ++ take 16 rb) ++ mac ++ tl)
    by (rewrite Hdrop; unfold enc_page, join; cbn; by rewrite <- !app_assoc).
  assert (Hpre : length (ct ++ take 16 rb) = (Z.to_nat (P - 80) - off)%nat)
    by (rewrite length_app, length_take; lia).
  unfold verdict, true_mac, stored_mac. fold off. rewrite Hbody, (take_app_length' _ _ _ (eq_sym Hpre)).
  assert (Hst : take 64 (drop (Z.to_nat (P - 80)) page) = mac).
  { replace (Z.to_nat (P - 80)) with (off + length (ct ++ take 16 rb))%nat by lia.
    rewrite <- drop_drop, Hbody, drop_app_length. by apply take_app_length'. }
  rewrite Hst. unfold page_mac in Hmac. unfold pgno_raw in *. rewrite Hfl, Hmk in Hmac. rewrite Hmac.
  by rewrite decide_True.
Qed.

Lemma file_page_concat P pages k page :
  Forall (fun q => Z.of_nat (length q) = P) pages -> pages !! k = Some page ->
  file_page P (concat pages) k = page.
Proof.
  intros Hl. revert k. induction Hl as [|q pages Hq _ IH]; intros k Hk; [done|]. unfold file_page in *.
  destruct k as [|k]; cbn [lookup list_lookup concat Nat.mul] in *.
  - injection Hk as ->. rewrite drop_0. apply take_app_length'. lia.
  - rewrite <- drop_drop, (drop_app_length' q) by lia. by apply IH.
Qed.

Lemma length_concat P (pages : list (list Z)) :
  Forall (fun q => Z.of_nat (length q) = P) pages -> Z.of_nat (length (concat pages)) = Z.of_nat (length pages) * P.
Proof. induction 1 as [|q pages Hq _ IH]; [done|]. cbn [concat length]. rewrite length_app. lia. Qed.

(** A database the codec wrote passes: when the pages of the file are, at their
    page numbers, pages that writes through [sqlite3Codec] handed out for these
    keys without an error, the integrity check returns no rows. *)
Theorem integrity_check_passes g ctx P rd wr pages e r w :
  ctx_open ctx P rd wr ->
  (forall k page, pages !! k = Some page -> written ctx rd P (Z.of_nat k + 1) page) ->
  fd e = Some (concat pages) -> Z.of_nat (length (concat pages)) < 2 ^ 31 -> all_ok w ->
  exists ctx' w', sqlcipher_codec_ctx_integrity_check g ctx e r w = Done (([], ctx', r), w').
Proof.
  intros Hopen Hpages Hfd Hlt Hw. pose proof (op_room _ _ _ _ Hopen) as HP.
  assert (Hlen : Forall (fun q => Z.of_nat (length q) = P) pages).
  { apply Forall_lookup_2. intros k page Hk. by destruct (written_verdict _ _ _ _ _ (Hpages k page Hk)). }
  destruct (integrity_check_spec ctx P rd wr Hopen (concat pages) Hlt g e r w Hfd Hw) as (ctx' & w' & Hrun & _).
  exists ctx', w'. rewrite Hrun. rewrite (length_concat P) by done.
  rewrite Z.mod_mul, Z.div_mul, Nat2Z.id by lia. rewrite app_nil_r. do 4 f_equal.
  unfold verdicts. apply concat_nil_Forall, Forall_fmap, Forall_forall. intros k Hk%in_seq. cbn [compose].
  destruct (lookup_lt_is_Some_2 pages k ltac:(lia)) as [page Hpage].
  rewrite (file_page_concat P pages k page Hlen Hpage). by destruct (written_verdict _ _ _ _ _ (Hpages k page Hpage)).
Qed.

(** Past 2 GiB the offset of a page, an [int], is negative, and the page is
    reported as unreadable whatever it holds. *)
Lemma integrity_check_large ctx P rd wr c file hmac_out pgno buf w :
  ctx_open ctx P rd wr -> 2 ^ 31 <= (pgno - 1) * P < 2 ^ 32 -> 1 < pgno -> Z.of_nat (length buf) = P ->
  Z.of_nat (length hmac_out) = 64 ->
  exists buf', check_one ctx c file (Some hmac_out) pgno buf w
    = Done (([ReadError P pgno ((pgno - 1) * P - 2 ^ 32)], buf'), w).
Proof.
  intros [Hstd Hpg HP _ _ _ _ _ _ _ _] Hoff Hp Hb Hh. unfold check_one. rewrite Hpg, (st_hmac_sz _ Hstd).
  replace (i32 (u32 ((pgno - 1) * P))) with ((pgno - 1) * P - 2 ^ 32)
    by (rewrite u32_small by lia; unfold i32; apply Z.sub_move_r; rewrite <- (Z.mod_add _ (-1)) by lia; rewrite Z.mod_small; lia).
  replace (pgno =? 1) with false by lia.
  erewrite bind_done; [|apply write_whole; rewrite length_replicate; lia].
  rewrite (bind_done _ _ _ _ _ (memset_block hmac_out 64 w Hh)). unfold os_read.
  replace (_ <? 0) with true by lia. eexists.
  erewrite bind_done; [done|]. exact (write_prefix [] [] _ w eq_refl).
Qed.
End proofs.

(** ** Witnesses *)

#[local] Existing Instance toy_openssl.
#[local] Existing Instance toy_openssl_laws.

(** A file of one damaged page and two bytes more. *)
Lemma integrity_check_exact_witness :
  exists ctx' w',
    sqlcipher_codec_ctx_integrity_check w_globals (w_ctx 128 None) (Mk_env (Some (replicate 130 5)) 0 false 0) 0%nat []
    = Done (([HmacMismatch 1; InvalidSize 2 2], ctx', 0%nat), w').
Proof.
  destruct (integrity_check_exact (w_ctx 128 None) 128 w_cipher w_cipher (w_open 128 None ltac:(lia)) (replicate 130 5)
    ltac:(by vm_compute) w_globals (Mk_env (Some (replicate 130 5)) 0 false 0) 0%nat [] eq_refl (Forall_nil_2 _))
    as (ctx' & w' & Hrun & _).
  exists ctx', w'. exact Hrun.
Defined.

(** A database of one page. *)
Lemma integrity_check_passes_witness :
  exists page ctx' w', Z.of_nat (length page) = 128 /\
    sqlcipher_codec_ctx_integrity_check w_globals (w_ctx 128 None) (Mk_env (Some page) 0 false 0) 0%nat []
    = Done (([], ctx', 0%nat), w').
Proof.
  destruct w_tree as (mt & Hrep).
  set (ct := default [] (EVP_Cipher CIPHER_ENCRYPT (enc_key w_cipher) (replicate 16 0) (replicate 16 5))).
  destruct (codec_write_spec w_globals (w_state 128 mt 0) 128 w_cipher 1 w_page1
    (Parts (replicate 16 5) (replicate 16 5) (replicate 64 5) (replicate 4 5) (replicate 12 5)) 16 mt [] (replicate 96 0)
    1%nat ct (default [] (page_mac (w_ctx 128 None) w_cipher 1 ct (replicate 16 0))) [])
    as (st1 & w1 & H1 & H2 & H3 & _ & _ & _ & H6 & _);
    [by apply w_open|done|done|done|by repeat split|reflexivity..|apply w_ctx_tree|done|done|constructor|].
  set (page := _ ++ enc_page _ _ _ _) in *.
  destruct (integrity_check_passes w_globals (w_ctx 128 None) 128 w_cipher w_cipher [page]
    (Mk_env (Some page) 0 false 0) 0%nat []) as (ctx' & w' & Hrun);
    [by apply w_open| |cbn [concat]; by rewrite app_nil_r|cbn [concat]; rewrite app_nil_r; lia|constructor|].
  { intros [|k] q Hq; [|done]. injection Hq as <-. exists w_globals, (w_state 128 mt 0), w_cipher, w_page1, mt, [], st1, [], w1.
    split_and!; [by apply w_open|done..|apply w_ctx_tree|exact Hrep|done|constructor|exact H1|by rewrite H6|exact H2]. }
  exists page, ctx', w'. split; [exact H3|exact Hrun].
Defined.
