(* ===== verification/Attach.v ===== *)
(** * Attaching a codec and changing its key

    Model of [sqlite3CodecAttach], [sqlite3_key_v2], [sqlite3_rekey_v2] and what
    they call in [storage/secure/sec_sqlite3.c].  The pager and the B-tree are
    SQLite's: their state beyond the fields these functions touch is a
    parameter, and so are their operations, gathered in [PagerOps].  [PagerLaws]
    says what is relied on: the operations return, they reach the codec only
    through [sqlite3Codec], and a page made writable has been handed to the
    codec for writing when the transaction is committed. *)

From stdpp Require Import base tactics list numbers option.
From Stdlib Require Import ZArith Lia ZifyBool.
From S2P Require Import Prelude MtArrList Sha256 MtCrypto MerkleTree MtSerialize.
From S2P Require Import CipherUtil Openssl CodecCtx PageCodec.

Local Open Scope Z_scope.

Definition BTS_PAGESIZE_FIXED : Z := 2.
Definition BTS_SECURE_DELETE : Z := 4.
Definition BTS_FAST_SECURE : Z := 12.
Definition SQLITE_READONLY : Z := 8.
Definition SQLITE_DEFAULT_AUTOVACUUM : Z := 0.
Definition SQLITE_ABORT_ROLLBACK : Z := 516.
Definition sqlite3PendingByte : Z := 1073741824.

Section attach.
Context {OS : OpenSSL} {NH : NodeHash} {rest : Type}.

(** The pager: codec, file, error state and page size; [pg_rest] is its cache,
    journal and locks. *)
Record Pager := Mk_pager {
  xCodec : bool;              (** [sqlite3Codec], or NULL *)
  xCodecFree : bool;          (** [sqlite3FreeCodecArg], or NULL *)
  pCodec : option codec_ctx;
  memDb : bool;
  pageSize : Z;
  pg_env : db_env;
  pg_rng : rng;
  pg_stats : stats;
  pg_rest : rest;
}.

Record BtShared := Mk_bt {
  btsFlags : Z;
  bt_pageSize : Z;
  usableSize : Z;
  optimalReserve : Z;
  autoVacuum : Z;
  incrVacuum : Z;
  pPager : Pager;
}.

Record Db := Mk_db { zDbSName : list Z; pBt : option BtShared }.

Record sqlite3 := Mk_sqlite3 { aDb : list Db; nextPagesize : Z }.

(** Assignments. *)
Definition put_codec (p : Pager) (c : option codec_ctx) : Pager :=
  Mk_pager (xCodec p) (xCodecFree p) c (memDb p) (pageSize p) (pg_env p) (pg_rng p) (pg_stats p) (pg_rest p).
Definition put_env (p : Pager) (e : db_env) : Pager :=
  Mk_pager (xCodec p) (xCodecFree p) (pCodec p) (memDb p) (pageSize p) e (pg_rng p) (pg_stats p) (pg_rest p).
Definition put_pager (b : BtShared) (p : Pager) : BtShared :=
  Mk_bt (btsFlags b) (bt_pageSize b) (usableSize b) (optimalReserve b) (autoVacuum b) (incrVacuum b) p.
Definition put_flags (b : BtShared) (f : Z) : BtShared :=
  Mk_bt f (bt_pageSize b) (usableSize b) (optimalReserve b) (autoVacuum b) (incrVacuum b) (pPager b).
Definition put_bt (db : sqlite3) (i : nat) (b : BtShared) : sqlite3 :=
  Mk_sqlite3 (alter (fun d => Mk_db (zDbSName d) (Some b)) i (aDb db)) (nextPagesize db).

(** The context of [b] after it was changed in place. *)
Definition with_codec (b : BtShared) (ctx : codec_ctx) : BtShared :=
  put_pager b (put_codec (pPager b) (Some ctx)).

(** The state [sqlite3Codec] works on. *)
Definition codec_state_of (p : Pager) (ctx : codec_ctx) : codec_state :=
  Mk_cst ctx (pg_env p) (pg_rng p) (pg_stats p).
Definition put_codec_state (p : Pager) (st : codec_state) : Pager :=
  Mk_pager (xCodec p) (xCodecFree p) (Some (cs_ctx st)) (memDb p) (pageSize p)
    (cs_env st) (cs_rng st) (cs_stats st) (pg_rest p).

(** ** SQLite's operations *)

Class PagerOps := {
  pager_reset : rest -> rest;
  sqlite3PagerSetPagesize : Pager -> Z -> Z -> M (Z * Pager);
  sqlite3PagerPagecount : Pager -> Z;
  sqlite3PagerGet : globals -> Pager -> Z -> M (Z * Pager);
  sqlite3PagerWrite : globals -> Pager -> Z -> M (Z * Pager);
  sqlite3PagerUnref : globals -> Pager -> Z -> M (Z * Pager);
  sqlite3BtreeBeginTrans : globals -> BtShared -> M (Z * BtShared);
  sqlite3BtreeCommit : globals -> BtShared -> M (Z * BtShared);
  sqlite3BtreeRollback : globals -> BtShared -> Z -> M (Z * BtShared);
}.

Context {PO : PagerOps}.

(** [aDb[i]] *)
Definition get_db (db : sqlite3) (i : nat) : M Db :=
  match aDb db !! i with None => throw OutOfBounds | Some d => mret d end.

(** ** The pager's side of the codec *)

Definition sqlite3PagerGetCodec (p : Pager) : option codec_ctx := pCodec p.

(** The page that holds the lock bytes. *)
Definition PAGER_MJ_PGNO (p : Pager) : Z := u32 (Z.quot sqlite3PendingByte (pageSize p) + 1).
Definition sqlite3pager_is_mj_pgno (p : Pager) (pgno : Z) : bool := PAGER_MJ_PGNO p =? pgno.

(** [errCode], [eState = PAGER_ERROR] *)
Definition sqlite3pager_error (p : Pager) (error : Z) : Pager :=
  put_env p (Mk_env (fd (pg_env p)) error true (db_errCode (pg_env p))).

(** The old codec, if any, is freed. *)
Definition sqlite3PagerSetCodec (g : globals) (p : Pager) (ctx : codec_ctx) : M (globals * Pager) :=
  '(g, r) ← (if xCodecFree p
             then g ← sqlite3FreeCodecArg g (pCodec p); mret (g, pg_rest p)
             else mret (g, pager_reset (pg_rest p)));
  mret (g, Mk_pager (negb (memDb p)) true (Some ctx) (memDb p) (pageSize p)
             (pg_env p) (pg_rng p) (pg_stats p) r).

(** ** The B-tree's settings *)

Definition sqlite3BtreeSetPageSize (b : BtShared) (size nReserve iFix : Z) : M (Z * BtShared) :=
  let b := if optimalReserve b <? nReserve
           then Mk_bt (btsFlags b) (bt_pageSize b) (usableSize b) (u8 nReserve) (autoVacuum b) (incrVacuum b) (pPager b)
           else b in
  if negb (Z.land (btsFlags b) BTS_PAGESIZE_FIXED =? 0) then mret (SQLITE_READONLY, b) else
  let nReserve := if nReserve <? 0 then bt_pageSize b - usableSize b else nReserve in
  let size := if (512 <=? size) && (size <=? SQLITE_MAX_PAGE_SIZE) && (Z.land (size - 1) size =? 0)
              then size else bt_pageSize b in
  '(rc, p) ← sqlite3PagerSetPagesize (pPager b) size nReserve;
  mret (rc, Mk_bt (if iFix =? 0 then btsFlags b else Z.lor (btsFlags b) BTS_PAGESIZE_FIXED)
              (pageSize p) (u32 (pageSize p - u16 nReserve)) (optimalReserve b) (autoVacuum b) (incrVacuum b) p).

Definition sqlite3BtreeSecureDelete (b : BtShared) (newFlag : Z) : Z * BtShared :=
  let b := if 0 <=? newFlag
           then put_flags b (Z.lor (Z.land (btsFlags b) (Z.lnot BTS_FAST_SECURE)) (BTS_SECURE_DELETE * newFlag))
           else b in
  (Z.quot (Z.land (btsFlags b) BTS_FAST_SECURE) BTS_SECURE_DELETE, b).

Definition sqlite3BtreeSetAutoVacuum (b : BtShared) (autoVacuum_ : Z) : Z * BtShared :=
  let av := u8 autoVacuum_ in
  let on := if av =? 0 then 0 else 1 in
  if negb (Z.land (btsFlags b) BTS_PAGESIZE_FIXED =? 0) && negb (on =? autoVacuum b)
  then (SQLITE_READONLY, b)
  else (SQLITE_OK, Mk_bt (btsFlags b) (bt_pageSize b) (usableSize b) (optimalReserve b) on
                     (if av =? 2 then 1 else 0) (pPager b)).

(** ** Attaching *)

Definition codec_set_btree_to_codec_pagesize (db : sqlite3) (b : BtShared) (ctx : codec_ctx)
  : M (Z * sqlite3 * BtShared) :=
  let page_sz := sqlcipher_codec_ctx_get_pagesize ctx in
  let reserve_sz := sqlcipher_codec_ctx_get_reservesize ctx in
  let db := Mk_sqlite3 (aDb db) page_sz in
  let b := put_flags b (Z.land (btsFlags b) (Z.lnot BTS_PAGESIZE_FIXED)) in
  '(rc, b) ← sqlite3BtreeSetPageSize b page_sz reserve_sz 0;
  mret (rc, db, b).

Definition sqlite3CodecAttach (g : globals) (db : sqlite3) (nDb : nat) (zKey : option (list Z)) (nKey : Z)
    (t : option mt_obj) : M (Z * globals * sqlite3) :=
  pDb ← get_db db nDb;
  match zKey, pBt pDb with
  | Some z, Some b =>
      if nKey =? 0 then mret (SQLITE_OK, g, db) else
      g ← sqlcipher_activate g;
      '(rc, g, c) ← sqlcipher_codec_ctx_init g (Some z) nKey t;
      if negb (rc =? SQLITE_OK) then
        let p := sqlite3pager_error (pPager b) rc in
        let p := put_env p (Mk_env (fd (pg_env p)) (pager_errCode (pg_env p)) (pager_error (pg_env p)) rc) in
        mret (rc, g, put_bt db nDb (put_pager b p))
      else
      ctx ← deref c;
      '(g, p) ← sqlite3PagerSetCodec g (pPager b) ctx;
      '(_, db, b) ← codec_set_btree_to_codec_pagesize db (put_pager b p) ctx;
      let b := (sqlite3BtreeSecureDelete b 1).2 in
      let b := match fd (pg_env (pPager b)) with
               | None => b
               | Some _ => (sqlite3BtreeSetAutoVacuum b SQLITE_DEFAULT_AUTOVACUUM).2
               end in
      mret (SQLITE_OK, g, put_bt db nDb b)
  | _, _ => mret (SQLITE_OK, g, db)
  end.

(** An unknown name stands for the main database. *)
Fixpoint find_index (dbs : list Db) (zDb : list Z) (i : nat) : nat :=
  match dbs with
  | [] => 0
  | d :: dbs => if bool_decide (zDbSName d = zDb) then i else find_index dbs zDb (S i)
  end.

Definition sqlcipher_find_db_index (db : sqlite3) (zDb : option (list Z)) : nat :=
  match zDb with None => 0 | Some z => find_index (aDb db) z 0 end.

Definition main_name : list Z := [109; 97; 105; 110].

Definition sqlite3_key_v2 (g : globals) (db : option sqlite3) (zDb pKey : option (list Z)) (nKey : Z)
    (t : option mt_obj) : M (Z * globals * option sqlite3) :=
  match db, pKey with
  | Some db, Some k =>
      if nKey =? 0 then mret (SQLITE_ERROR, g, Some db) else
      '(rc, g, db) ← sqlite3CodecAttach g db (sqlcipher_find_db_index db zDb) (Some k) nKey t;
      mret (rc, g, Some db)
  | _, _ => mret (SQLITE_ERROR, g, db)
  end.

Definition sqlite3_key (g : globals) (db : option sqlite3) (pKey : option (list Z)) (nKey : Z)
    (t : option mt_obj) : M (Z * globals * option sqlite3) :=
  sqlite3_key_v2 g db (Some main_name) pKey nKey t.

(** ** Changing the key *)

Definition codec_set_pass_key (db : sqlite3) (nDb : nat) (zKey : option (list Z)) (nKey for_ctx : Z)
  : M (Z * sqlite3) :=
  pDb ← get_db db nDb;
  match pBt pDb with
  | None => mret (SQLITE_ERROR, db)
  | Some b =>
      match sqlite3PagerGetCodec (pPager b) with
      | None => mret (SQLITE_ERROR, db)
      | Some ctx =>
          '(rc, ctx) ← sqlcipher_codec_ctx_set_pass ctx zKey nKey for_ctx;
          mret (rc, put_bt db nDb (with_codec b ctx))
      end
  end.

(** One round of the loop over the pages. *)
Definition rekey_page (g : globals) (p : Pager) (pgno : Z) : M (Z * Pager) :=
  if sqlite3pager_is_mj_pgno p pgno then mret (SQLITE_OK, p) else
  '(rc, p) ← sqlite3PagerGet g p pgno;
  if negb (rc =? SQLITE_OK) then mret (rc, p) else
  '(rc, p) ← sqlite3PagerWrite g p pgno;
  if negb (rc =? SQLITE_OK) then mret (rc, p) else
  '(_, p) ← sqlite3PagerUnref g p pgno;
  mret (SQLITE_OK, p).

(** [n] rounds from [pgno] on. *)
Fixpoint rekey_pages (n : nat) (g : globals) (p : Pager) (pgno : Z) : M (Z * Pager) :=
  match n with
  | O => mret (SQLITE_OK, p)
  | S n =>
      '(rc, p) ← rekey_page g p pgno;
      if negb (rc =? SQLITE_OK) then mret (rc, p) else rekey_pages n g p (pgno + 1)
  end.

(** The transaction: number of pages, result of the loop, of the commit if there
    is one, and the B-tree. *)
Definition rekey_transaction (g : globals) (b : BtShared) : M (Z * Z * option Z * BtShared) :=
  '(rc, b) ← sqlite3BtreeBeginTrans g b;
  let page_count := u32 (sqlite3PagerPagecount (pPager b)) in
  '(rc, p) ← (if negb (rc =? SQLITE_OK) then mret (rc, pPager b)
              else rekey_pages (Z.to_nat page_count) g (pPager b) 1);
  let b := put_pager b p in
  if rc =? SQLITE_OK then
    '(rc2, b) ← sqlite3BtreeCommit g b;
    ctx ← deref (pCodec (pPager b));
    '(_, ctx) ← sqlcipher_codec_key_copy ctx CIPHER_WRITE_CTX;
    mret (page_count, rc, Some rc2, with_codec b ctx)
  else
    '(_, b) ← sqlite3BtreeRollback g b SQLITE_ABORT_ROLLBACK;
    mret (page_count, rc, None, b).

Definition sqlite3_rekey_v2 (g : globals) (db : option sqlite3) (zDb pKey : option (list Z)) (nKey : Z)
  : M (Z * option sqlite3) :=
  match db, pKey with
  | Some db, Some k =>
      if nKey =? 0 then mret (SQLITE_ERROR, Some db) else
      let i := sqlcipher_find_db_index db zDb in
      pDb ← get_db db i;
      match pBt pDb with
      | None => mret (SQLITE_OK, Some db)
      | Some b =>
          match sqlite3PagerGetCodec (pPager b) with
          | None => mret (SQLITE_OK, Some db)
          | Some _ =>
              '(_, db) ← codec_set_pass_key db i (Some k) nKey CIPHER_WRITE_CTX;
              pDb ← get_db db i;
              b ← deref (pBt pDb);
              '(_, _, _, b) ← rekey_transaction g b;
              mret (SQLITE_OK, Some (put_bt db i b))
          end
      end
  | _, _ => mret (SQLITE_ERROR, db)
  end.

Definition sqlite3_rekey (g : globals) (db : option sqlite3) (pKey : option (list Z)) (nKey : Z)
  : M (Z * option sqlite3) := sqlite3_rekey_v2 g db (Some main_name) pKey nKey.

(** ** What is relied on *)

(** A call of the codec: page, operation and the context it leaves. *)
Record codec_call := Call { call_pgno : Z; call_mode : Z; call_ctx : codec_ctx }.

(** From one state of the pager to another by its own work and by the calls of
    the codec in the list, made with enough memory. *)
Inductive codec_calls (g : globals) : Pager -> list codec_call -> Pager -> Prop :=
  | calls_none p : codec_calls g p [] p
  | calls_own p p1 t p2 :
      xCodec p1 = xCodec p -> pCodec p1 = pCodec p -> pageSize p1 = pageSize p ->
      codec_calls g p1 t p2 -> codec_calls g p t p2
  | calls_codec p ctx pData pgno mode w ret st pData' w' t p2 :
      xCodec p = true -> pCodec p = Some ctx -> all_ok w ->
      sqlite3Codec g (codec_state_of p ctx) pData pgno mode w = Done ((ret, st, pData'), w') ->
      codec_calls g (put_codec_state p st) t p2 ->
      codec_calls g p (Call pgno mode (cs_ctx st) :: t) p2.

(** Page [n] was handed to the codec to be written. *)
Definition written_in (t : list codec_call) (n : Z) : Prop :=
  exists c, c ∈ t /\ call_pgno c = n /\ call_mode c = CODEC_WRITE_OP.

(** [f] returns and goes from [p] to a pager related by [Q]. *)
Definition returns (g : globals) (f : M (Z * Pager)) (p : Pager)
    (Q : Z -> list codec_call -> Pager -> Prop) : Prop :=
  forall w, all_ok w -> exists rc t p' w',
    f w = Done ((rc, p'), w') /\ all_ok w' /\ codec_calls g p t p' /\ Q rc t p'.

Definition bt_returns (g : globals) (f : M (Z * BtShared)) (b : BtShared)
    (Q : Z -> list codec_call -> Pager -> Prop) : Prop :=
  forall w, all_ok w -> exists rc t b' w',
    f w = Done ((rc, b'), w') /\ all_ok w' /\ codec_calls g (pPager b) t (pPager b') /\ Q rc t (pPager b').

(** [pending p n]: page [n] is writable and not written back yet.  Only a
    rollback makes a page lose this status otherwise than by being written. *)
Class PagerLaws (g : globals) := {
  pending : Pager -> Z -> Prop;
  keeps p t p' := forall n, pending p n -> pending p' n \/ written_in t n;
  get_law p n : returns g (sqlite3PagerGet g p n) p (fun _ t p' => keeps p t p');
  write_law p n : returns g (sqlite3PagerWrite g p n) p
    (fun rc t p' => keeps p t p' /\ (rc = SQLITE_OK -> pending p' n \/ written_in t n));
  unref_law p n : returns g (sqlite3PagerUnref g p n) p (fun _ t p' => keeps p t p');
  begin_law b : bt_returns g (sqlite3BtreeBeginTrans g b) b (fun _ t p' => keeps (pPager b) t p');
  commit_law b : bt_returns g (sqlite3BtreeCommit g b) b
    (fun rc t p' => keeps (pPager b) t p' /\ (rc = SQLITE_OK -> forall n, ~ pending p' n));
  rollback_law b e : bt_returns g (sqlite3BtreeRollback g b e) b (fun _ _ _ => True);
  pagesize_law p size res w : all_ok w -> exists rc p' w',
    sqlite3PagerSetPagesize p size res w = Done ((rc, p'), w') /\ all_ok w' /\
    xCodec p' = xCodec p /\ xCodecFree p' = xCodecFree p /\ pCodec p' = pCodec p /\ pg_env p' = pg_env p;
}.
End attach.
Arguments Pager {OS} rest.
Arguments BtShared {OS} rest.
Arguments Db {OS} rest.
Arguments sqlite3 {OS} rest.
Arguments PagerOps {OS} rest.
