(* ===== verification/AttachProofs.v ===== *)
(** * Attaching and changing keys: proofs

    What [sqlite3_key_v2] leaves on a database, what [sqlite3_rekey_v2] does to
    the keys and the pages on every path, and what happens when its passphrase
    cannot be stored. *)

From stdpp Require Import base tactics list numbers option.
From Stdlib Require Import ZArith Lia ZifyBool.
From S2P Require Import Prelude MtArrList Sha256 MtCrypto MerkleTree MtSerialize.
From S2P Require Import MerkleTheorems CipherUtil Openssl CodecCtx PageCodec PageProofs CodecProofs HookProofs CodecWitness Attach.

Local Open Scope Z_scope.

Lemma bind_inv {A B} (f : A -> M B) (m : M A) w x :
  (m ≫= f) w = Done x -> exists a w', m w = Done (a, w') /\ f a w' = Done x.
Proof. unfold mbind, M_bind. destruct (m w) as [[a w']|]; [|done]. by exists a, w'. Qed.

(** Invert the first bind of [H]. *)
Ltac minv H :=
  let a := fresh "a" in let w := fresh "w" in let E := fresh "E" in
  apply bind_inv in H; destruct H as (a & w & E & H).

(** Case analysis on the first condition of [H]. *)
Ltac dif H :=
  match type of H with (if ?b then _ else _) _ = _ => destruct b end.

Section proofs.
Context {OS : OpenSSL} {L : OpenSSLLaws OS} {NH : NodeHash}.

(** ** What a codec call leaves alone *)

Lemma cipher_error_frame st sz out w rc st' out' w' :
  cipher_error st sz out w = Done ((rc, st', out'), w') -> st' = st.
Proof. unfold cipher_error. intros H. minv H. by injection H. Qed.

Lemma record_page_frame st c pgno sz size out w rc st' out' w' :
  record_page st c pgno sz size out w = Done ((rc, st', out'), w') ->
  exists t, cs_ctx st' = set_tree (cs_ctx st) t.
Proof.
  assert (Hid : forall st, cs_ctx st = set_tree (cs_ctx st) (tree (cs_ctx st))) by (intros s; by destruct (cs_ctx s)).
  unfold record_page. intros H. minv H. destruct (sqlcipher_page_hmac _ _ _ _) as [rc0 [mac|]].
  2:{ apply cipher_error_frame in H. subst. by eexists. }
  dif H; [apply cipher_error_frame in H; subst; by eexists|].
  do 5 minv H. destruct (decide _).
  - injection H as <- <- <- <-. by eexists.
  - apply cipher_error_frame in H. subst. by eexists.
Qed.

Lemma check_page_frame st c pgno sz size input out w v st' out' w' :
  check_page st c pgno sz size input out w = Done ((v, st', out'), w') -> cs_ctx st' = cs_ctx st.
Proof.
  unfold check_page. intros H. minv H. destruct (sqlcipher_page_hmac _ _ _ _) as [rc0 [mac|]]; [|by injection H as <- <- <- <-].
  dif H; [by injection H as <- <- <- <-|]. do 3 minv H. dif H.
  - minv H. by injection H as <- <- <- <-.
  - do 3 minv H. by destruct (decide _); injection H as <- <- <- <-.
Qed.

Lemma page_cipher_frame st for_ctx pgno mode sz input out w rc st' out' w' :
  sqlcipher_page_cipher st for_ctx pgno mode sz input out w = Done ((rc, st', out'), w') ->
  exists t, cs_ctx st' = set_tree (cs_ctx st) t.
Proof.
  assert (Hid : forall st', cs_ctx st' = cs_ctx st -> exists t, cs_ctx st' = set_tree (cs_ctx st) t)
    by (intros s ->; exists (tree (cs_ctx st)); by destruct (cs_ctx st)).
  unfold sqlcipher_page_cipher. intros H. minv H.
  dif H; [apply cipher_error_frame in H; subst; by apply Hid|].
  dif H.
  - destruct (p_random _ _ _) as [[rc0 bs] r]. dif H; [apply cipher_error_frame in H; subst; by apply Hid|].
    do 2 minv H. dif H; [apply cipher_error_frame in H; subst; by apply Hid|].
    dif H; [by apply record_page_frame in H|injection H as <- <- <- <-; by apply Hid].
  - do 3 minv H. destruct a2 as [[v st1] out1].
    assert (Hst1 : cs_ctx st1 = cs_ctx st).
    { dif E2; [by apply check_page_frame in E2|by injection E2 as <- <- <- <-]. }
    destruct v.
    + minv H. dif H; [apply cipher_error_frame in H; subst; by apply Hid|].
      injection H as <- <- <- <-. by apply Hid.
    + minv H. injection H as <- <- <- <-. by apply Hid.
    + apply cipher_error_frame in H. subst. by apply Hid.
Qed.

Lemma codec_page_frame st cctx pgno mode off pData buf w st' buf' w' :
  codec_page st cctx pgno mode off pData buf w = Done ((st', buf'), w') ->
  exists t, cs_ctx st' = set_tree (cs_ctx st) t.
Proof.
  unfold codec_page. intros H. do 3 minv H. destruct a1 as [[rc st1] out]. apply page_cipher_frame in E1.
  dif H; minv H; by injection H as <- <- <-.
Qed.

(** Once the keys are derived a call changes page buffer and tree only. *)
Lemma codec_frame g st pData pgno mode w ret st' pData' w' ctx r1 w1 :
  sqlcipher_codec_key_derive g (cs_ctx st) (cs_env st) (cs_rng st) w = Done ((SQLITE_OK, ctx, r1), w1) ->
  need_kdf_salt ctx = 0 ->
  sqlite3Codec g st pData pgno mode w = Done ((ret, st', pData'), w') ->
  exists t bf, cs_ctx st' = set_buffer (set_tree ctx t) bf.
Proof.
  intros Hder Hneed H. unfold sqlite3Codec in H. rewrite (bind_done _ _ _ _ _ Hder) in H.
  change (negb (SQLITE_OK =? SQLITE_OK)) with false in H. cbv iota zeta in H. minv H.
  assert (Hset : forall st2 buf, (exists t, cs_ctx st2 = set_tree ctx t) ->
    exists t bf, cs_ctx (set_buf st2 buf) = set_buffer (set_tree ctx t) bf).
  { intros st2 buf (t & Ht). exists t, (Some buf). unfold set_buf, with_ctx. cbn [cs_ctx]. by rewrite Ht. }
  dif H.
  { do 2 minv H. destruct a1 as [st1 buf]. apply codec_page_frame in E1. do 2 minv H.
    injection H as <- <- <- <-. by apply Hset. }
  dif H; [|injection H as <- <- <- <-; exists (tree ctx), (buffer ctx); by destruct ctx].
  assert (Hsalt : exists salt, (if pgno =? 1
      then sqlcipher_codec_ctx_get_kdf_salt ctx (cs_env (with_rng (with_ctx st ctx) r1)) (cs_rng (with_rng (with_ctx st ctx) r1))
      else (SQLITE_OK, ctx, cs_rng (with_rng (with_ctx st ctx) r1), [])) = (SQLITE_OK, ctx, r1, salt)).
  { destruct (pgno =? 1); [|by eexists]. unfold sqlcipher_codec_ctx_get_kdf_salt. rewrite Hneed. by eexists. }
  destruct Hsalt as (salt & Hsalt). rewrite Hsalt in H.
  change (negb (SQLITE_OK =? SQLITE_OK)) with false in H. cbv iota zeta in H.
  do 2 minv H. destruct a1 as [st1 buf]. apply codec_page_frame in E1. injection H as <- <- <- <-. by apply Hset.
Qed.

(** ** The keys during a change *)

(** Settings and keys of a context whose pages can be read and written; the
    sizes are the ones the code assumes. *)
Record key_state (ctx : codec_ctx) (rd wr : cipher_ctx) : Prop := {
  ks_std : ctx_std ctx;
  ks_spec : keyspec_sz ctx = 99;
  ks_saltsz : kdf_salt_sz ctx = 16;
  ks_salt : length (kdf_salt ctx) = 16%nat;
  ks_need : need_kdf_salt ctx = 0;
  ks_store : store_pass ctx <> 1;
  ks_read : read_ctx ctx = Some rd;
  ks_write : write_ctx ctx = Some wr;
  ks_rd_ok : cipher_ok ctx rd;
  ks_wr_ok : cipher_ok ctx wr;
}.

Lemma key_state_page ctx rd wr t bf : key_state ctx rd wr -> key_state (set_buffer (set_tree ctx t) bf) rd wr.
Proof. intros [[] ? ? ? ? ? ? ? [] []]. by repeat split. Qed.

(** The write direction with the new passphrase, and with the key made of it. *)
Definition repassed (wr : cipher_ctx) (z : list Z) : cipher_ctx :=
  Mk_cipher 1 (Z.of_nat (length z)) (key wr) (hmac_key wr) (Some z) (keyspec wr).
Definition rekeyed (k h salt : list Z) : cipher_ctx := Mk_cipher 0 0 k h None (Some (spec_text k salt)).

Lemma put_write_state ctx rd wr c :
  key_state ctx rd wr -> cipher_ok ctx c -> key_state (set_write_ctx ctx (Some c)) rd c.
Proof. intros [[] ? ? ? ? ? ? ? [] ?] []. by repeat split. Qed.

Lemma repassed_state ctx rd wr z :
  key_state ctx rd wr -> z <> [] -> key_state (set_write_ctx ctx (Some (repassed wr z))) rd (repassed wr z).
Proof.
  intros Hs Hz. apply (put_write_state _ _ _ _ Hs). destruct (ks_wr_ok _ _ _ Hs). split; try done.
  split; [done|]. destruct z; [done|cbn; lia].
Qed.

(** The passphrase [z] gives the keys [k] and [h] under the salt [salt]. *)
Definition gives (g : globals) (ctx : codec_ctx) (z k h salt : list Z) : Prop :=
  key_of ctx z = Some (k, salt) /\ length k = 32%nat /\ length salt = 16%nat /\ length h = 32%nat /\
  sqlcipher_openssl_kdf (kdf_algorithm ctx) k (hmac_salt g salt) (fast_kdf_iter ctx) 32 = (SQLITE_OK, Some h).

Lemma derive_repassed g ctx rd wr z k h salt e r w :
  key_state ctx rd (repassed wr z) -> keys_set rd -> z <> [] -> gives g ctx z k h salt -> all_ok w ->
  exists ctx' w', sqlcipher_codec_key_derive g ctx e r w = Done ((SQLITE_OK, ctx', r), w') /\ all_ok w' /\
    key_state ctx' rd (rekeyed k h salt).
Proof.
  intros [Hstd Hks Hss Hsl Hn Hst Hrd Hwr Hrok Hwok] (Hd & Hp & Hps) Hz (Hkey & Hk & Hs & Hhl & Hh) Hw.
  assert (Hlen : Z.of_nat (length z) <> 0) by (destruct z; [done|cbn; lia]).
  unfold sqlcipher_codec_key_derive. rewrite Hrd. cbn [deref]. rewrite bind_ret, Hd.
  change (0 =? 0) with true. cbv iota. rewrite bind_ret.
  change (negb (SQLITE_OK =? SQLITE_OK)) with false. cbv iota zeta.
  rewrite Hwr. cbn [deref]. rewrite bind_ret. cbn [derive_key repassed]. change (1 =? 0) with false. cbv iota.
  rewrite Hrd. cbn [deref]. rewrite bind_assoc, bind_ret, bind_assoc.
  assert (Hcmp : sqlcipher_cipher_ctx_cmp (repassed wr z) rd w = Done (1, w)).
  { unfold sqlcipher_cipher_ctx_cmp. cbn [pass_sz repassed]. rewrite Hps. by rewrite (proj2 (Z.eqb_neq _ 0) Hlen). }
  rewrite (bind_done _ _ _ _ _ Hcmp). change (1 =? 0) with false. cbv iota. rewrite bind_assoc.
  destruct (cipher_derive_ok g ctx (repassed wr z) z e r ctx r k salt h w) as (w1 & E1 & Hw1); [done|done|done| |done..|].
  { unfold salted. by rewrite Hn. }
  rewrite (bind_done _ _ _ _ _ E1), bind_ret. change (negb (SQLITE_OK =? SQLITE_OK)) with false. cbv iota.
  set (cx := set_write_ctx _ _). change (store_pass cx) with (store_pass ctx).
  rewrite (proj2 (Z.eqb_neq _ _) Hst). change (read_ctx cx) with (read_ctx ctx). rewrite Hrd.
  eexists _, w1. split; [reflexivity|]. split; [done|]. cbn [snd].
  assert (Hrd' : Mk_cipher (derive_key rd) 0 (key rd) (hmac_key rd) None (keyspec rd) = rd)
    by (destruct rd; cbn in *; by subst).
  rewrite Hrd'. destruct Hstd, Hrok. split; try done.
  split; cbn -[spec_text]; [lia|lia|done|]. rewrite length_spec_text by done. by rewrite Hks.
Qed.

(** The write direction after a passphrase that could not be stored. *)
Definition lost_pass (wr : cipher_ctx) (n : Z) : cipher_ctx :=
  Mk_cipher (derive_key wr) n (key wr) (hmac_key wr) None (keyspec wr).

Lemma derive_lost g ctx rd wr n e r w :
  key_state ctx rd (lost_pass wr n) -> keys_set rd -> keys_set wr ->
  exists ctx', sqlcipher_codec_key_derive g ctx e r w = Done ((SQLITE_OK, ctx', r), w) /\ key_state ctx' rd wr.
Proof.
  intros [Hstd Hks Hss Hsl Hn Hst Hrd Hwr Hrok Hwok] (Hd & Hp & Hps) (Hd2 & Hp2 & Hps2).
  unfold sqlcipher_codec_key_derive. rewrite Hrd. cbn [deref]. rewrite bind_ret, Hd.
  change (0 =? 0) with true. cbv iota. rewrite bind_ret.
  change (negb (SQLITE_OK =? SQLITE_OK)) with false. cbv iota zeta.
  rewrite Hwr. cbn [deref]. rewrite bind_ret. cbn [derive_key lost_pass]. rewrite Hd2.
  change (0 =? 0) with true. cbv iota. rewrite bind_ret.
  change (negb (SQLITE_OK =? SQLITE_OK)) with false. cbv iota zeta. rewrite (proj2 (Z.eqb_neq _ _) Hst).
  rewrite Hrd. cbn [deref]. rewrite bind_ret. unfold sqlcipher_cipher_ctx_set_pass.
  rewrite !bind_ret, Hwr. cbn [deref]. rewrite !bind_ret. cbn [snd].
  assert (Hrd' : Mk_cipher (derive_key rd) 0 (key rd) (hmac_key rd) None (keyspec rd) = rd)
    by (destruct rd; cbn in *; by subst).
  assert (Hwr' : Mk_cipher (derive_key wr) 0 (key wr) (hmac_key wr) None (keyspec wr) = wr)
    by (destruct wr; cbn in *; by subst).
  cbn [derive_key key hmac_key keyspec lost_pass]. rewrite Hrd', Hwr'.
  eexists. split; [reflexivity|]. destruct Hstd, Hrok, Hwok. repeat split; try done; by rewrite ?Hp, ?Hp2.
Qed.

Lemma derive_rekeyed g ctx rd k h salt e r w :
  key_state ctx rd (rekeyed k h salt) -> keys_set rd ->
  sqlcipher_codec_key_derive g ctx e r w = Done ((SQLITE_OK, ctx, r), w).
Proof. intros Hs Hrd. eapply key_derive_idle; [apply Hs|apply Hs|done|done]. Qed.

(** ** Sequences of codec calls *)

Context {rest : Type} {PO : PagerOps rest}.

Lemma calls_app g (p p1 p2 : Pager rest) t1 t2 :
  codec_calls g p t1 p1 -> codec_calls g p1 t2 p2 -> codec_calls g p (t1 ++ t2) p2.
Proof. induction 1; intros Hp2; [done|by eapply calls_own; eauto|cbn; eapply calls_codec; eauto]. Qed.

Lemma calls_pagesize g (p p1 : Pager rest) t : codec_calls g p t p1 -> pageSize p1 = pageSize p.
Proof. induction 1 as [|p p1 t p2 _ _ H _ IH|p ctx pd n m w ret st pd' w' t p2 _ _ _ _ _ IH]; [done|congruence|exact IH]. Qed.

Lemma written_app t1 t2 n : written_in (OS:=OS) (t1 ++ t2) n <-> written_in t1 n \/ written_in t2 n.
Proof.
  unfold written_in. split.
  - intros (c & [Hc|Hc]%elem_of_app & Hn); [left|right]; by exists c.
  - intros [(c & Hc & Hn)|(c & Hc & Hn)]; exists c; rewrite elem_of_app; tauto.
Qed.

(** [J] is what is known of the context before the first call, [K] after any. *)
Section transaction.
  Context (g : globals) {PL : PagerLaws g} (J K : codec_ctx -> Prop).
  Context (Hder : forall ctx e r w, J ctx \/ K ctx -> all_ok w -> exists ctx' w',
    sqlcipher_codec_key_derive g ctx e r w = Done ((SQLITE_OK, ctx', r), w') /\ need_kdf_salt ctx' = 0 /\ K ctx').
  Context (Hpage : forall ctx t bf, K ctx -> K (set_buffer (set_tree ctx t) bf)).

Lemma calls_keys (p p1 : Pager rest) t ctx :
    codec_calls g p t p1 -> pCodec p = Some ctx -> J ctx \/ K ctx ->
    exists ctx1, pCodec p1 = Some ctx1 /\ (K ctx1 \/ t = [] /\ ctx1 = ctx) /\ Forall (fun c => K (call_ctx c)) t.
Proof.
    intros H. revert ctx. induction H as [p|p p1 t p2 _ H1 _ _ IH|p ctx0 pd n m w ret st pd' w' t p2 _ H1 Hw Hrun _ IH];
      intros ctx Hc HJ.
    - exists ctx. split; [done|]. split; [by right|done].
    - apply (IH ctx); [congruence|done].
    - assert (ctx0 = ctx) as -> by congruence.
      destruct (Hder ctx (pg_env p) (pg_rng p) w HJ Hw) as (ctx1 & w1 & Hd & Hn & HK).
      destruct (codec_frame g (codec_state_of p ctx) _ _ _ _ _ _ _ _ ctx1 _ _ Hd Hn Hrun) as (tr & bf & Hst).
      assert (HK' : K (cs_ctx st)) by (rewrite Hst; by apply Hpage).
      destruct (IH (cs_ctx st) eq_refl (or_intror HK')) as (ctx2 & Hc2 & Hk2 & Hall).
      exists ctx2. split; [done|]. split; [|by constructor]. left. by destruct Hk2 as [?|[_ ->]].
Qed.

(** The pages from [pgno] on. *)
Lemma rekey_page_spec p pgno w :
    all_ok w -> exists rc t p' w', rekey_page g p pgno w = Done ((rc, p'), w') /\ all_ok w' /\
      codec_calls g p t p' /\ keeps p t p' /\
      (rc = SQLITE_OK -> sqlite3pager_is_mj_pgno p pgno = false -> pending p' pgno \/ written_in t pgno).
Proof.
    intros Hw. unfold rekey_page. destruct (sqlite3pager_is_mj_pgno p pgno).
    { exists SQLITE_OK, [], p, w. split_and!; [done|done|constructor| |done]. intros n Hn. by left. }
    destruct (get_law p pgno w Hw) as (rc & t & p1 & w1 & E & Hw1 & Hc & Hk). rewrite (bind_done _ _ _ _ _ E).
    destruct (rc =? SQLITE_OK) eqn:Erc; cbn [negb]; [|exists rc, t, p1, w1; split_and!; [done..|lia]].
    destruct (write_law p1 pgno w1 Hw1) as (rc2 & t2 & p2 & w2 & E2 & Hw2 & Hc2 & Hk2 & Hp2).
    rewrite (bind_done _ _ _ _ _ E2). pose proof (calls_app _ _ _ _ _ _ Hc Hc2) as Hc12.
    assert (Hk12 : keeps p (t ++ t2) p2).
    { intros n Hn. rewrite written_app. destruct (Hk n Hn) as [Hn1|]; [destruct (Hk2 n Hn1)|]; tauto. }
    destruct (rc2 =? SQLITE_OK) eqn:Erc2; cbn [negb]; [|exists rc2, (t ++ t2), p2, w2; split_and!; [done..|lia]].
    destruct (unref_law p2 pgno w2 Hw2) as (rc3 & t3 & p3 & w3 & E3 & Hw3 & Hc3 & Hk3).
    rewrite (bind_done _ _ _ _ _ E3). exists SQLITE_OK, ((t ++ t2) ++ t3), p3, w3.
    split_and!; [done|done|by eapply calls_app| |].
    - intros n Hn. rewrite written_app. destruct (Hk12 n Hn) as [Hn1|]; [destruct (Hk3 n Hn1)|]; tauto.
    - intros _ _. rewrite !written_app. destruct (Hp2 ltac:(lia)) as [Hn1|]; [destruct (Hk3 pgno Hn1)|]; tauto.
Qed.

Lemma rekey_pages_spec n p pgno w :
    all_ok w -> exists rc t p' w', rekey_pages n g p pgno w = Done ((rc, p'), w') /\ all_ok w' /\
      codec_calls g p t p' /\ keeps p t p' /\
      (rc = SQLITE_OK -> forall m, pgno <= m < pgno + Z.of_nat n -> m <> PAGER_MJ_PGNO p ->
        pending p' m \/ written_in t m).
Proof.
    revert p pgno w. induction n as [|n IH]; intros p pgno w Hw; cbn [rekey_pages].
    { exists SQLITE_OK, [], p, w. split_and!; [done|done|constructor| |lia]. intros m Hm. by left. }
    destruct (rekey_page_spec p pgno w Hw) as (rc & t & p1 & w1 & E & Hw1 & Hc & Hk & Hp).
    rewrite (bind_done _ _ _ _ _ E).
    destruct (rc =? SQLITE_OK) eqn:Erc; cbn [negb]; [|exists rc, t, p1, w1; split_and!; [done..|lia]].
    destruct (IH p1 (pgno + 1) w1 Hw1) as (rc2 & t2 & p2 & w2 & E2 & Hw2 & Hc2 & Hk2 & Hp2).
    exists rc2, (t ++ t2), p2, w2. split_and!; [done|done|by eapply calls_app| |].
    - intros m Hm. rewrite written_app. destruct (Hk m Hm) as [Hn1|]; [destruct (Hk2 m Hn1)|]; tauto.
    - intros Hok m Hm Hmj. rewrite written_app. destruct (decide (m = pgno)) as [->|].
      + destruct (Hp ltac:(lia)) as [Hn1|]; [unfold sqlite3pager_is_mj_pgno; lia|destruct (Hk2 pgno Hn1); tauto|tauto].
      + unfold PAGER_MJ_PGNO in *. rewrite <- (calls_pagesize _ _ _ _ Hc) in Hmj.
        destruct (Hp2 Hok m ltac:(lia) Hmj); tauto.
Qed.

Context (Hcopy : forall ctx w, J ctx \/ K ctx -> all_ok w -> exists w',
    sqlcipher_codec_key_copy ctx CIPHER_WRITE_CTX w = Done ((SQLITE_OK, set_read_ctx ctx (write_ctx ctx)), w')).

(** The transaction on every path: [t] are the codec calls, [ctx1] is the context
    they leave. *)
Lemma rekey_transaction_spec b ctx w :
    pCodec (pPager b) = Some ctx -> J ctx -> all_ok w ->
    exists count rc crc t p1 ctx1 b' w',
      rekey_transaction g b w = Done ((count, rc, crc, b'), w') /\
      codec_calls g (pPager b) t p1 /\ pCodec p1 = Some ctx1 /\
      (K ctx1 \/ t = [] /\ ctx1 = ctx) /\ Forall (fun c => K (call_ctx c)) t /\
      pPager b' = (if rc =? SQLITE_OK then put_codec p1 (Some (set_read_ctx ctx1 (write_ctx ctx1))) else p1) /\
      (crc = None <-> rc <> SQLITE_OK) /\
      (crc = Some SQLITE_OK -> forall n, 1 <= n <= count -> n <> PAGER_MJ_PGNO (pPager b) -> written_in t n).
Proof.
    intros Hc HJ Hw. unfold rekey_transaction.
    destruct (begin_law b w Hw) as (rc & t1 & b1 & w1 & E1 & Hw1 & Hc1 & Hk1). rewrite (bind_done _ _ _ _ _ E1).
    set (count := u32 _). assert (Hcount : 0 <= count) by (unfold count, u32; apply Z.mod_pos_bound; lia).
    assert (Hloop : exists rc2 t2 p2 w2,
      (if negb (rc =? SQLITE_OK) then mret (rc, pPager b1)
       else rekey_pages (Z.to_nat count) g (pPager b1) 1) w1 = Done ((rc2, p2), w2) /\ all_ok w2 /\
      codec_calls g (pPager b1) t2 p2 /\ keeps (pPager b1) t2 p2 /\
      (rc2 = SQLITE_OK -> forall n, 1 <= n <= count -> n <> PAGER_MJ_PGNO (pPager b1) ->
        pending p2 n \/ written_in t2 n)).
    { destruct (rc =? SQLITE_OK) eqn:Erc; cbn [negb].
      - destruct (rekey_pages_spec (Z.to_nat count) (pPager b1) 1 w1 Hw1) as (rc2 & t2 & p2 & w2 & E & Ha & Hcc & Hk & Hp).
        exists rc2, t2, p2, w2. split_and!; [done..|]. intros Hok n Hn. apply Hp; [done|lia].
      - exists rc, [], (pPager b1), w1. split_and!; [done|done|constructor|intros n Hn; by left|lia]. }
    destruct Hloop as (rc2 & t2 & p2 & w2 & E2 & Hw2 & Hc2 & Hk2 & Hp2). rewrite (bind_done _ _ _ _ _ E2).
    destruct (rc2 =? SQLITE_OK) eqn:Erc2.
    - destruct (commit_law (put_pager b1 p2) w2 Hw2) as (rc3 & t3 & b3 & w3 & E3 & Hw3 & Hc3 & Hk3 & Hp3).
      rewrite (bind_done _ _ _ _ _ E3).
      pose proof (calls_app _ _ _ _ _ _ (calls_app _ _ _ _ _ _ Hc1 Hc2) Hc3) as Hcalls.
      destruct (calls_keys _ _ _ ctx Hcalls Hc (or_introl HJ)) as (ctx1 & Hctx1 & HK1 & Hall).
      rewrite Hctx1. cbn [deref]. rewrite bind_ret.
      destruct (Hcopy ctx1 w3) as (w4 & E4); [destruct HK1 as [?|[_ ->]]; tauto|done|].
      rewrite (bind_done _ _ _ _ _ E4). eexists count, rc2, (Some rc3), _, (pPager b3), ctx1, _, w4.
      split; [reflexivity|]. split; [exact Hcalls|]. split; [exact Hctx1|]. split; [exact HK1|]. split; [exact Hall|]. rewrite Erc2. split; [done|]. split; [split; [done|lia]|].
      intros [= Hok] n Hn Hmj. unfold PAGER_MJ_PGNO in *. rewrite <- (calls_pagesize _ _ _ _ Hc1) in Hmj.
      rewrite !written_app. destruct (Hp2 ltac:(lia) n Hn Hmj) as [Hpe|]; [|tauto].
      destruct (Hk3 n Hpe) as [Hpe3|]; [by destruct (Hp3 Hok n)|tauto].
    - destruct (rollback_law (put_pager b1 p2) SQLITE_ABORT_ROLLBACK w2 Hw2) as (rc3 & t3 & b3 & w3 & E3 & Hw3 & Hc3 & _).
      rewrite (bind_done _ _ _ _ _ E3).
      pose proof (calls_app _ _ _ _ _ _ (calls_app _ _ _ _ _ _ Hc1 Hc2) Hc3) as Hcalls.
      destruct (calls_keys _ _ _ ctx Hcalls Hc (or_introl HJ)) as (ctx1 & Hctx1 & HK1 & Hall).
      eexists count, rc2, None, _, (pPager b3), ctx1, _, w3.
      split; [reflexivity|]. split; [exact Hcalls|]. split; [exact Hctx1|]. split; [exact HK1|]. split; [exact Hall|]. rewrite Erc2. split; [done|]. split; [split; [lia|done]|done].
Qed.
End transaction.

(** ** Changing the key *)

Lemma key_copy_ok ctx rd wr w :
  key_state ctx rd wr -> all_ok w -> exists w',
    sqlcipher_codec_key_copy ctx CIPHER_WRITE_CTX w = Done ((SQLITE_OK, set_read_ctx ctx (write_ctx ctx)), w').
Proof.
  intros Hs Hw. unfold sqlcipher_codec_key_copy. rewrite (ks_read _ _ _ Hs), (ks_write _ _ _ Hs). cbn [deref].
  rewrite !bind_ret. change (CIPHER_WRITE_CTX =? CIPHER_READ_CTX) with false. cbv iota.
  destruct (cipher_copy_ok ctx rd wr w) as (w' & E & _); [apply Hs|apply (ks_rd_ok _ _ _ Hs)..|done|].
  rewrite (bind_done _ _ _ _ _ E). by exists w'.
Qed.

Lemma put_bt_twice (db : sqlite3 rest) i b b' : put_bt (put_bt db i b) i b' = put_bt db i b'.
Proof. unfold put_bt. cbn. f_equal. by rewrite list_alter_alter_eq. Qed.

(** The result of [codec_set_pass_key] is not looked at. *)
Lemma rekey_runs g db zDb d b ctx z n rc ctx1 w w1 count lrc crc b' w2 :
  aDb db !! sqlcipher_find_db_index db zDb = Some d -> pBt d = Some b -> pCodec (pPager b) = Some ctx -> n <> 0 ->
  sqlcipher_codec_ctx_set_pass ctx (Some z) n CIPHER_WRITE_CTX w = Done ((rc, ctx1), w1) ->
  rekey_transaction g (with_codec b ctx1) w1 = Done ((count, lrc, crc, b'), w2) ->
  sqlite3_rekey_v2 g (Some db) zDb (Some z) n w
  = Done ((SQLITE_OK, Some (put_bt db (sqlcipher_find_db_index db zDb) b')), w2).
Proof.
  intros Hd Hb Hc Hn Hset Hrun. unfold sqlite3_rekey_v2. rewrite (proj2 (Z.eqb_neq n 0) Hn). cbv zeta.
  set (i := sqlcipher_find_db_index db zDb) in *.
  assert (Hget : forall w, get_db db i w = Done (d, w)) by (intros; unfold get_db; by rewrite Hd).
  rewrite (bind_done _ _ _ _ _ (Hget w)), Hb. unfold sqlite3PagerGetCodec. rewrite Hc.
  assert (Hpk : codec_set_pass_key db i (Some z) n CIPHER_WRITE_CTX w = Done ((rc, put_bt db i (with_codec b ctx1)), w1)).
  { unfold codec_set_pass_key. rewrite (bind_done _ _ _ _ _ (Hget w)), Hb. unfold sqlite3PagerGetCodec. rewrite Hc.
    by rewrite (bind_done _ _ _ _ _ Hset). }
  rewrite (bind_done _ _ _ _ _ Hpk). unfold get_db. cbn [aDb put_bt].
  rewrite list_lookup_alter_eq, Hd. cbn [fmap option_fmap option_map]. rewrite bind_ret. cbn [pBt deref]. rewrite bind_ret.
  rewrite (bind_done _ _ _ _ _ Hrun). by rewrite put_bt_twice.
Qed.

Lemma set_pass_write ctx c z w :
  write_ctx ctx = Some c -> z <> [] -> all_ok w -> exists w',
    sqlcipher_codec_ctx_set_pass ctx (Some z) (Z.of_nat (length z)) CIPHER_WRITE_CTX w
    = Done ((SQLITE_OK, set_write_ctx ctx (Some (repassed c z))), w') /\ all_ok w'.
Proof.
  intros Hwr Hz Hw. unfold sqlcipher_codec_ctx_set_pass.
  change (get_ctx ctx CIPHER_WRITE_CTX) with (write_ctx ctx). rewrite Hwr. cbn [deref]. rewrite bind_ret.
  destruct (set_pass_ok c z _ w eq_refl) as (w' & E & Hw'); [by destruct z|done|].
  rewrite (bind_done _ _ _ _ _ E). by exists w'.
Qed.

(** C27. Changing the key of an open database, with memory available, a key
    derivation that works and pager operations that keep their contract:
    [sqlite3_rekey_v2] returns [SQLITE_OK] whatever becomes of the transaction.
    Every call of the codec it causes writes with the key made
    of the new passphrase.  If the pages could be made writable, both directions
    end up with that key, and if the commit succeeded too, every page but the one
    with the lock bytes was encrypted under it.  If not, the transaction is
    rolled back and reading keeps the old key, but writing has the new one. *)
Theorem rekey_changes_key g {PL : PagerLaws g} db zDb d b ctx rd wr z k h salt w :
  aDb db !! sqlcipher_find_db_index db zDb = Some d -> pBt d = Some b -> pCodec (pPager b) = Some ctx ->
  key_state ctx rd wr -> keys_set rd -> z <> [] -> gives g ctx z k h salt -> all_ok w ->
  exists count rc crc t p1 b' ctx' wr' w1 w',
    sqlite3_rekey_v2 g (Some db) zDb (Some z) (Z.of_nat (length z)) w
      = Done ((SQLITE_OK, Some (put_bt db (sqlcipher_find_db_index db zDb) b')), w') /\
    let b0 := with_codec b (set_write_ctx ctx (Some (repassed wr z))) in
    rekey_transaction g b0 w1 = Done ((count, rc, crc, b'), w') /\
    codec_calls g (pPager b0) t p1 /\
    Forall (fun c => write_ctx (call_ctx c) = Some (rekeyed k h salt)) t /\
    (crc = Some SQLITE_OK -> forall n, 1 <= n <= count -> n <> PAGER_MJ_PGNO (pPager b) -> written_in t n) /\
    pCodec (pPager b') = Some ctx' /\
    (wr' = rekeyed k h salt \/ t = [] /\ wr' = repassed wr z) /\
    write_ctx ctx' = Some wr' /\ read_ctx ctx' = Some (if rc =? SQLITE_OK then wr' else rd).
Proof.
  intros Hd Hb Hc Hs Hrd Hz Hg Hw.
  destruct (set_pass_write ctx wr z w (ks_write _ _ _ Hs) Hz Hw) as (w1 & Hset & Hw1).
  set (ctx0 := set_write_ctx ctx (Some (repassed wr z))) in *.
  set (J := fun c => key_state c rd (repassed wr z) /\ gives g c z k h salt).
  set (K := fun c => key_state c rd (rekeyed k h salt)).
  assert (HJ0 : J ctx0).
  { split; [|done]. by apply repassed_state. }
  destruct (rekey_transaction_spec g J K) with (b := with_codec b ctx0) (ctx := ctx0) (w := w1)
    as (count & rc & crc & t & p1 & ctx1 & b' & w' & Hrun & Hcalls & Hc1 & HK1 & Hall & Hb' & _ & Hwritten); [| | |done..|].
  - intros c e r v [[HJ HG]|HK] Hv.
    + destruct (derive_repassed g c rd wr z k h salt e r v) as (c' & v' & E & _ & HK); [done..|].
      exists c', v'. split_and!; [done|apply HK|done].
    + exists c, v. split_and!; [by eapply derive_rekeyed|apply HK|done].
  - intros c tr bf. apply key_state_page.
  - intros c v [[HJ _]|HK] Hv; by eapply key_copy_ok.
  - assert (Hn : Z.of_nat (length z) <> 0) by (destruct z; [done|cbn; lia]).
    assert (Hwr1 : exists wr', write_ctx ctx1 = Some wr' /\ read_ctx ctx1 = Some rd /\
      (wr' = rekeyed k h salt \/ t = [] /\ wr' = repassed wr z)).
    { destruct HK1 as [HK|[-> ->]]; eexists; (split; [apply HK || apply HJ0|]); (split; [apply HK || apply HJ0|]); tauto. }
    destruct Hwr1 as (wr' & Hw1' & Hr1 & Hcase). rewrite Hw1' in Hb'.
    exists count, rc, crc, t, p1, b', (if rc =? SQLITE_OK then set_read_ctx ctx1 (Some wr') else ctx1), wr', w1, w'.
    split; [exact (rekey_runs g db zDb d b ctx z _ _ ctx0 w w1 count rc crc b' w' Hd Hb Hc Hn Hset Hrun)|].
    cbv zeta. split; [exact Hrun|]. split; [exact Hcalls|].
    split; [revert Hall; apply Forall_impl; intros c HKc; apply HKc|]. split; [exact Hwritten|].
    rewrite Hb'. by destruct (rc =? SQLITE_OK).
Qed.

Lemma set_pass_nomem ctx c z w :
  write_ctx ctx = Some c -> z <> [] ->
  sqlcipher_codec_ctx_set_pass ctx (Some z) (Z.of_nat (length z)) CIPHER_WRITE_CTX (false :: w)
  = Done ((SQLITE_NOMEM, set_write_ctx ctx (Some (lost_pass c (Z.of_nat (length z))))), w).
Proof.
  intros Hwr Hz. unfold sqlcipher_codec_ctx_set_pass.
  change (get_ctx ctx CIPHER_WRITE_CTX) with (write_ctx ctx). rewrite Hwr. cbn [deref]. rewrite bind_ret.
  unfold sqlcipher_cipher_ctx_set_pass. by destruct z.
Qed.

(** A change of key that is none: when there is no memory for the new
    passphrase, [sqlite3_rekey_v2] still rewrites the database and returns
    [SQLITE_OK], but every page is written with the old key, and both
    directions keep their keys. *)
Theorem rekey_nomem_keeps_key g {PL : PagerLaws g} db zDb d b ctx rd wr z w :
  aDb db !! sqlcipher_find_db_index db zDb = Some d -> pBt d = Some b -> pCodec (pPager b) = Some ctx ->
  key_state ctx rd wr -> keys_set rd -> keys_set wr -> key rd = key wr -> hmac_key rd = hmac_key wr ->
  z <> [] -> all_ok w ->
  exists count rc crc t p1 b' ctx' rd' wr' w',
    sqlite3_rekey_v2 g (Some db) zDb (Some z) (Z.of_nat (length z)) (false :: w)
      = Done ((SQLITE_OK, Some (put_bt db (sqlcipher_find_db_index db zDb) b')), w') /\
    let b0 := with_codec b (set_write_ctx ctx (Some (lost_pass wr (Z.of_nat (length z))))) in
    rekey_transaction g b0 w = Done ((count, rc, crc, b'), w') /\
    codec_calls g (pPager b0) t p1 /\
    Forall (fun c => write_ctx (call_ctx c) = Some wr) t /\
    (crc = Some SQLITE_OK -> forall n, 1 <= n <= count -> n <> PAGER_MJ_PGNO (pPager b) -> written_in t n) /\
    pCodec (pPager b') = Some ctx' /\ read_ctx ctx' = Some rd' /\ write_ctx ctx' = Some wr' /\
    key rd' = key wr /\ hmac_key rd' = hmac_key wr /\ key wr' = key wr /\ hmac_key wr' = hmac_key wr.
Proof.
  intros Hd Hb Hc Hs Hrd Hwr Hk Hh Hz Hw. assert (Hn : Z.of_nat (length z) <> 0) by (destruct z; [done|cbn; lia]).
  pose proof (set_pass_nomem ctx wr z w (ks_write _ _ _ Hs) Hz) as Hset.
  set (n := Z.of_nat (length z)) in *. set (ctx0 := set_write_ctx ctx (Some (lost_pass wr n))) in *.
  set (J := fun c => key_state c rd (lost_pass wr n)). set (K := fun c => key_state c rd wr).
  assert (HJ0 : J ctx0) by (apply (put_write_state _ _ _ _ Hs); destruct (ks_wr_ok _ _ _ Hs); by split).
  destruct (rekey_transaction_spec g J K) with (b := with_codec b ctx0) (ctx := ctx0) (w := w)
    as (count & rc & crc & t & p1 & ctx1 & b' & w' & Hrun & Hcalls & Hc1 & HK1 & Hall & Hb' & _ & Hwritten); [| | |done..|].
  - intros c e r v [HJ|HK] Hv.
    + destruct (derive_lost g c rd wr n e r v HJ Hrd Hwr) as (c' & E & HK).
      exists c', v. split_and!; [done|apply HK|done].
    + exists c, v. split_and!; [|apply HK|done]. eapply key_derive_idle; [apply HK|apply HK|done|done].
  - intros c tr bf. apply key_state_page.
  - intros c v [HJ|HK] Hv; by eapply key_copy_ok.
  - assert (Hwr1 : exists wr', write_ctx ctx1 = Some wr' /\ read_ctx ctx1 = Some rd /\
      key wr' = key wr /\ hmac_key wr' = hmac_key wr).
    { destruct HK1 as [HK|[-> ->]]; eexists; (split; [apply HK || apply HJ0|]); (split; [apply HK || apply HJ0|done]). }
    destruct Hwr1 as (wr' & Hw1 & Hr1 & Hk1 & Hh1). rewrite Hw1 in Hb'.
    exists count, rc, crc, t, p1, b', (if rc =? SQLITE_OK then set_read_ctx ctx1 (Some wr') else ctx1),
      (if rc =? SQLITE_OK then wr' else rd), wr', w'.
    split; [exact (rekey_runs g db zDb d b ctx z _ _ ctx0 _ w count rc crc b' w' Hd Hb Hc Hn Hset Hrun)|].
    cbv zeta. split; [exact Hrun|]. split; [exact Hcalls|].
    split; [revert Hall; apply Forall_impl; intros c HKc; apply HKc|]. split; [exact Hwritten|].
    rewrite Hb'. by destruct (rc =? SQLITE_OK).
Qed.

(** ** Attaching *)

(** The defaults are untouched; the provider may still have to be registered. *)
Definition default_settings (g : globals) : Prop :=
  default_flags g = DEFAULT_CIPHER_FLAGS /\ default_page_size g = 4096 /\
  default_plaintext_header_sz g = 0 /\ default_hmac_algorithm g = SQLCIPHER_HMAC_SHA512 /\
  (default_provider g = None \/ default_provider g = Some sqlcipher_openssl_setup).

Lemma activate_ok g w :
  default_settings g -> all_ok w -> exists g1 w1, sqlcipher_activate g w = Done (g1, w1) /\ all_ok w1 /\
    fresh_globals g1 /\ sqlcipher_activate_count g1 = u32 (sqlcipher_activate_count g + 1).
Proof.
  intros (Hf & Hpg & Hph & Ha & Hp) Hw. unfold sqlcipher_activate, sqlcipher_get_provider.
  destruct Hp as [Hp|Hp]; rewrite Hp; [rewrite bind_assoc; alloc_step|]; rewrite bind_ret; by eexists _, _.
Qed.

(** An attached codec is whole, and it is counted. *)
Definition codec_counted (g : globals) (p : Pager rest) : Prop :=
  0 <= sqlcipher_activate_count g < 2 ^ 32 - 1 /\
  (xCodecFree p = true -> 1 <= sqlcipher_activate_count g /\
    exists c rd wr, pCodec p = Some c /\ read_ctx c = Some rd /\ write_ctx c = Some wr).

(** [sqlite3PagerSetCodec] after [sqlcipher_activate]: the count goes up by one
    only when no codec was there before. *)
Lemma set_codec_ok g0 g p ctx w :
  codec_counted g0 p -> sqlcipher_activate_count g = sqlcipher_activate_count g0 + 1 ->
  exists g' p', sqlite3PagerSetCodec g p ctx w = Done ((g', p'), w) /\
    pCodec p' = Some ctx /\ xCodec p' = negb (memDb p) /\ xCodecFree p' = true /\ pg_env p' = pg_env p /\
    sqlcipher_activate_count g' = sqlcipher_activate_count g0 + (if xCodecFree p then 0 else 1).
Proof.
  intros (Hr & Hold) Hg. unfold sqlite3PagerSetCodec. destruct (xCodecFree p) eqn:Efree.
  - destruct (Hold eq_refl) as (H1 & c & rd & wr & Hc & Hrd & Hwr). rewrite Hc.
    unfold sqlite3FreeCodecArg, sqlcipher_codec_ctx_free. rewrite Hrd, Hwr.
    eexists _, _. split; [reflexivity|]. split_and!; try done.
    unfold sqlcipher_deactivate. set (og := p_ctx_free _ _).
    change (sqlcipher_activate_count (put_ossl g og.2)) with (sqlcipher_activate_count g). rewrite Hg.
    replace (u32 (sqlcipher_activate_count g0 + 1 - 1)) with (sqlcipher_activate_count g0) by (rewrite u32_small; lia).
    cbn [sqlcipher_activate_count put_sqlcipher_activate_count].
    replace (sqlcipher_activate_count g0 <? 1) with false by lia. cbn. lia.
  - eexists _, _. split; [reflexivity|]. split_and!; done.
Qed.

Lemma secure_delete_on f : Z.land (Z.lor (Z.land f (Z.lnot BTS_FAST_SECURE)) (BTS_SECURE_DELETE * 1)) BTS_FAST_SECURE = BTS_SECURE_DELETE.
Proof. rewrite Z.land_lor_distr_l, <- Z.land_assoc. change (Z.land (Z.lnot BTS_FAST_SECURE) BTS_FAST_SECURE) with 0. by rewrite Z.land_0_r. Qed.

(** The settings of the B-tree that an attached codec asks for. *)
Lemma btree_pagesize_ok g {PL : PagerLaws g} db b ctx w :
  all_ok w -> exists rc b' w',
    codec_set_btree_to_codec_pagesize db b ctx w = Done ((rc, Mk_sqlite3 (aDb db) (page_sz ctx), b'), w') /\
    all_ok w' /\ xCodec (pPager b') = xCodec (pPager b) /\ xCodecFree (pPager b') = xCodecFree (pPager b) /\
    pCodec (pPager b') = pCodec (pPager b).
Proof.
  intros Hw. unfold codec_set_btree_to_codec_pagesize, sqlite3BtreeSetPageSize.
  set (b1 := put_flags b _). set (res := sqlcipher_codec_ctx_get_reservesize ctx).
  set (b2 := if optimalReserve b1 <? res then _ else b1).
  assert (Hb2 : btsFlags b2 = btsFlags b1 /\ pPager b2 = pPager b) by (unfold b2; by destruct (_ <? _)).
  destruct Hb2 as [Hf Hp]. rewrite Hf. unfold b1 at 1. cbn [btsFlags put_flags].
  rewrite <- Z.land_assoc. change (Z.land (Z.lnot BTS_PAGESIZE_FIXED) BTS_PAGESIZE_FIXED) with 0. rewrite Z.land_0_r.
  change (negb (0 =? 0)) with false. cbv iota. rewrite Hp.
  match goal with |- context [sqlite3PagerSetPagesize (pPager b) ?s ?r] =>
    destruct (pagesize_law (pPager b) s r w Hw) as (rc & p' & w' & E & Hw' & H1 & H2 & H3 & _) end.
  rewrite bind_assoc, (bind_done _ _ _ _ _ E), bind_ret. by eexists _, _, _.
Qed.

(** The codec that is attached, for a tree of any reported size [k]. *)
Lemma key_attaches g {PL : PagerLaws g} db zDb d b z n mt k blocks wr w :
  let i := sqlcipher_find_db_index db zDb in
  aDb db !! i = Some d -> pBt d = Some b -> default_settings g -> codec_counted g (pPager b) ->
  EVP_get_cipherbyname = true -> n = Z.of_nat (length z) -> n <> 0 ->
  (forall w, mt_get_size (Some mt) w = Done (k, w)) -> all_ok w ->
  exists g' b' ctx c w',
    sqlite3_key_v2 g (Some db) zDb (Some z) n (Some (Mk_obj (Some mt) blocks wr)) w
      = Done ((SQLITE_OK, g', Some (put_bt (Mk_sqlite3 (aDb db) 4096) i b')), w') /\
    pCodec (pPager b') = Some ctx /\ ctx_ready ctx z c /\ ctx_tree ctx mt k /\
    xCodec (pPager b') = negb (memDb (pPager b)) /\ xCodecFree (pPager b') = true /\
    Z.land (btsFlags b') BTS_FAST_SECURE = BTS_SECURE_DELETE /\
    sqlcipher_activate_count g' = sqlcipher_activate_count g + (if xCodecFree (pPager b) then 0 else 1).
Proof.
  intros i Hd Hb Hg Hcnt Hcn Hn H0 Hk Hw. unfold sqlite3_key_v2. rewrite (proj2 (Z.eqb_neq n 0) H0).
  fold i. unfold sqlite3CodecAttach, get_db. rewrite Hd, bind_assoc, bind_ret, Hb, (proj2 (Z.eqb_neq n 0) H0).
  destruct (activate_ok g w Hg Hw) as (g1 & w1 & E1 & Hw1 & Hfr & Hc1). rewrite bind_assoc, (bind_done _ _ _ _ _ E1).
  destruct (ctx_init_any g1 z n mt k blocks wr w1) as (og & ctx & w2 & Hw2 & E2 & Hrdy & _ & Htree); [done..|].
  rewrite bind_assoc, (bind_done _ _ _ _ _ E2). change (negb (SQLITE_OK =? SQLITE_OK)) with false. cbv iota.
  cbn [deref]. rewrite bind_assoc, bind_ret.
  destruct (set_codec_ok g (put_ossl g1 og) (pPager b) ctx w2 Hcnt) as (g3 & p3 & E3 & Hp3 & Hx3 & Hf3 & He3 & Hc3).
  { change (sqlcipher_activate_count (put_ossl g1 og)) with (sqlcipher_activate_count g1).
    rewrite Hc1, u32_small; [done|]. destruct Hcnt. lia. }
  rewrite bind_assoc, (bind_done _ _ _ _ _ E3).
  destruct (btree_pagesize_ok g db (put_pager b p3) ctx w2 Hw2) as (rc & b4 & w4 & E4 & _ & Hx4 & Hf4 & Hp4).
  rewrite bind_assoc, (bind_done _ _ _ _ _ E4), bind_ret, (rdy_page _ _ _ Hrdy).
  set (b5 := (sqlite3BtreeSecureDelete b4 1).2).
  assert (Hb5 : Z.land (btsFlags b5) BTS_FAST_SECURE = BTS_SECURE_DELETE /\ pPager b5 = pPager b4)
    by (split; [apply secure_delete_on|done]).
  destruct Hb5 as [Hsd Hp5].
  set (b6 := match fd _ with Some _ => _ | None => _ end).
  assert (Hb6 : btsFlags b6 = btsFlags b5 /\ pPager b6 = pPager b5).
  { unfold b6. destruct (fd _); [|done]. unfold sqlite3BtreeSetAutoVacuum. by destruct (_ && _). }
  destruct Hb6 as [Hfl6 Hp6]. eexists g3, b6, ctx, _, w4. split; [reflexivity|].
  rewrite Hfl6, Hp6, Hp5, Hp4, Hx4, Hf4. by split_and!.
Qed.

(** Opening an encrypted database: with a key, a tree and memory,
    [sqlite3_key_v2] attaches to the named database a codec with the standard
    sizes whose keys will be derived from the passphrase in both directions and
    which records pages in the tree; deleted content will be overwritten, 4096 is
    asked for as page size, the pager calls the codec unless the database is in
    memory, and a codec attached before is freed so that the number of
    activations stays the number of attached codecs. *)
Theorem key_attaches_codec g {PL : PagerLaws g} db zDb d b z n mt blocks wr ls w :
  let i := sqlcipher_find_db_index db zDb in
  aDb db !! i = Some d -> pBt d = Some b -> default_settings g -> codec_counted g (pPager b) ->
  EVP_get_cipherbyname = true -> n = Z.of_nat (length z) -> n <> 0 -> tree_rep mt ls -> all_ok w ->
  exists g' b' ctx c w',
    sqlite3_key_v2 g (Some db) zDb (Some z) n (Some (Mk_obj (Some mt) blocks wr)) w
      = Done ((SQLITE_OK, g', Some (put_bt (Mk_sqlite3 (aDb db) 4096) i b')), w') /\
    pCodec (pPager b') = Some ctx /\ ctx_ready ctx z c /\ ctx_tree ctx mt (Z.of_nat (length ls)) /\
    xCodec (pPager b') = negb (memDb (pPager b)) /\ xCodecFree (pPager b') = true /\
    Z.land (btsFlags b') BTS_FAST_SECURE = BTS_SECURE_DELETE /\
    sqlcipher_activate_count g' = sqlcipher_activate_count g + (if xCodecFree (pPager b) then 0 else 1).
Proof.
  intros i Hd Hb Hg Hcnt Hcn Hn H0 Hrep Hw. eapply key_attaches; try done.
  intros w'. by apply mt_get_size_spec.
Qed.

(** A context that cannot be built leaves the database in the error state. *)
Lemma attach_failure g db i d b z n t g1 g2 rc c w w1 w2 :
  aDb db !! i = Some d -> pBt d = Some b -> n <> 0 ->
  sqlcipher_activate g w = Done (g1, w1) ->
  sqlcipher_codec_ctx_init g1 (Some z) n t w1 = Done ((rc, g2, c), w2) -> rc <> SQLITE_OK ->
  exists b', sqlite3CodecAttach g db i (Some z) n t w = Done ((rc, g2, put_bt db i b'), w2) /\
    pCodec (pPager b') = pCodec (pPager b) /\ pg_env (pPager b') = Mk_env (fd (pg_env (pPager b))) rc true rc.
Proof.
  intros Hd Hb Hn E1 E2 Hrc. unfold sqlite3CodecAttach, get_db. rewrite Hd, bind_ret, Hb, (proj2 (Z.eqb_neq n 0) Hn).
  rewrite (bind_done _ _ _ _ _ E1), (bind_done _ _ _ _ _ E2), (proj2 (Z.eqb_neq rc SQLITE_OK) Hrc).
  eexists. split; [reflexivity|done].
Qed.

(** A name that no database has stands for the main database. *)
Lemma unknown_db_is_main db z :
  Forall (fun d : Db rest => zDbSName d <> z) (aDb db) -> sqlcipher_find_db_index db (Some z) = 0%nat.
Proof.
  cbn. intros H. generalize 0%nat at 1. induction H as [|d ds Hd _ IH]; intros i; [done|].
  cbn [find_index]. rewrite bool_decide_eq_false_2 by done. apply IH.
Qed.

(** A known name gives the first database of that name. *)
Lemma known_db_found db z i d :
  aDb db !! i = Some d -> zDbSName d = z -> Forall (fun d : Db rest => zDbSName d <> z) (take i (aDb db)) ->
  sqlcipher_find_db_index db (Some z) = i.
Proof.
  intros Hi Hz Hf. cbn. assert (Hgen : forall l j i, l !! i = Some d -> Forall (fun d : Db rest => zDbSName d <> z) (take i l) ->
    find_index l z j = (j + i)%nat).
  { intros l. induction l as [|d' l IH]; intros j [|k] Hk Hall; [done|done| |]; cbn [find_index].
    - injection Hk as ->. rewrite bool_decide_eq_true_2 by done. lia.
    - cbn in Hall. inversion Hall; subst. rewrite bool_decide_eq_false_2 by done. rewrite (IH (S j) k); [lia|done|done]. }
  by rewrite (Hgen _ 0%nat i).
Qed.
End proofs.
