(* ===== verification/AttachWitness.v ===== *)
(** * A pager, and concrete changes of key

    The smallest pager that keeps [PagerLaws]: a database of two pages of zeros
    that remembers which pages were made writable and hands them to the codec
    when the transaction is committed.  With it, one closed instance of every
    theorem of [AttachProofs]. *)

From stdpp Require Import base tactics list numbers option.
From Stdlib Require Import ZArith Lia ZifyBool.
From S2P Require Import Prelude MtArrList Sha256 MtCrypto MerkleTree MtSerialize.
From S2P Require Import MerkleTheorems CipherUtil Openssl CodecCtx PageCodec PageProofs CodecProofs HookProofs.
From S2P Require Import CodecWitness Attach AttachProofs.

Local Open Scope Z_scope.

Section tiny.
Context {OS : OpenSSL} {NH : NodeHash}.

(** [pg_rest] lists the writable pages. *)
Definition put_rest (p : Pager (list Z)) (ns : list Z) : Pager (list Z) :=
  Mk_pager (xCodec p) (xCodecFree p) (pCodec p) (memDb p) (pageSize p) (pg_env p) (pg_rng p) (pg_stats p) ns.

(** Encrypt page [n]. *)
Definition tiny_out (g : globals) (p : Pager (list Z)) (n : Z) : option (Pager (list Z)) :=
  match pCodec p with
  | Some ctx =>
      if xCodec p then
        match sqlite3Codec g (codec_state_of p ctx) (replicate (Z.to_nat (pageSize p)) 0) n CODEC_WRITE_OP [] with
        | Done ((_, st, _), _) => Some (put_codec_state p st)
        | Fault _ => None
        end
      else None
  | None => None
  end.

Fixpoint tiny_flush (g : globals) (ns : list Z) (p : Pager (list Z)) : Z * Pager (list Z) :=
  match ns with
  | [] => (SQLITE_OK, p)
  | n :: ns =>
      match tiny_out g p n with
      | None => (SQLITE_ERROR, p)
      | Some p => tiny_flush g ns (put_rest p ns)
      end
  end.

#[export] Instance tiny_pager : PagerOps (list Z) := {|
  pager_reset _ := [];
  sqlite3PagerSetPagesize p size _ := mret (SQLITE_OK,
    Mk_pager (xCodec p) (xCodecFree p) (pCodec p) (memDb p) size (pg_env p) (pg_rng p) (pg_stats p) (pg_rest p));
  sqlite3PagerPagecount _ := 2;
  sqlite3PagerGet _ p _ := mret (SQLITE_OK, p);
  sqlite3PagerWrite _ p n := mret (SQLITE_OK, put_rest p (n :: pg_rest p));
  sqlite3PagerUnref _ p _ := mret (SQLITE_OK, p);
  sqlite3BtreeBeginTrans _ b := mret (SQLITE_OK, b);
  sqlite3BtreeCommit g b :=
    let '(rc, p) := tiny_flush g (pg_rest (pPager b)) (pPager b) in mret (rc, put_pager b p);
  sqlite3BtreeRollback _ b _ := mret (SQLITE_OK, put_pager b (put_rest (pPager b) []));
|}.

Lemma flush_spec g ns p :
  pg_rest p = ns -> exists t, codec_calls g p t (tiny_flush g ns p).2 /\
    (forall n, n ∈ ns -> n ∈ pg_rest (tiny_flush g ns p).2 \/ written_in t n) /\
    ((tiny_flush g ns p).1 = SQLITE_OK -> pg_rest (tiny_flush g ns p).2 = []).
Proof.
  revert p. induction ns as [|n ns IH]; intros p Hp; cbn [tiny_flush].
  { exists []. split; [constructor|]. split; [intros n Hn; by apply elem_of_nil in Hn|done]. }
  destruct (tiny_out g p n) as [p1|] eqn:E.
  2:{ exists []. split; [constructor|]. split; [|done]. intros m Hm. left. cbn [snd]. by rewrite Hp. }
  unfold tiny_out in E. destruct (pCodec p) as [ctx|] eqn:Hc; [|done]. destruct (xCodec p) eqn:Hx; [|done].
  destruct (sqlite3Codec _ _ _ _ _ _) as [[[[ret st] d] w']|] eqn:Hrun; [|done]. injection E as <-.
  destruct (IH (put_rest (put_codec_state p st) ns) eq_refl) as (t & Hcalls & Hout & Hend).
  exists (Call n CODEC_WRITE_OP (cs_ctx st) :: t). split; [|split; [|done]].
  - eapply calls_codec; [exact Hx|exact Hc|constructor|exact Hrun|].
    eapply (calls_own _ _ (put_rest (put_codec_state p st) ns)); [done|done|done|exact Hcalls].
  - intros m [->|Hm]%elem_of_cons.
    + right. eexists. split; [left|done].
    + destruct (Hout m Hm) as [?|(c & Hc' & Hn)]; [by left|]. right. exists c. split; [by right|done].
Qed.

#[export, program] Instance tiny_laws g : PagerLaws (PO := tiny_pager) g := {|
  pending p n := n ∈ pg_rest p;
|}.
Next Obligation.
  intros g p n w Hw. exists SQLITE_OK, [], p, w. split_and!; [done|done|constructor|]. intros m Hm. by left.
Qed.
Next Obligation.
  intros g p n w Hw. eexists SQLITE_OK, [], _, w. split_and!; [done|done| | |].
  - by eapply calls_own; [| | |constructor].
  - intros m Hm. left. by right.
  - intros _. left. left.
Qed.
Next Obligation.
  intros g p n w Hw. exists SQLITE_OK, [], p, w. split_and!; [done|done|constructor|]. intros m Hm. by left.
Qed.
Next Obligation.
  intros g b w Hw. exists SQLITE_OK, [], b, w. split_and!; [done|done|constructor|]. intros m Hm. by left.
Qed.
Next Obligation.
  intros g b w Hw. destruct (flush_spec g (pg_rest (pPager b)) (pPager b) eq_refl) as (t & Hcalls & Hout & Hend).
  cbn [sqlite3BtreeCommit tiny_pager]. destruct (tiny_flush _ _ _) as [rc p]. cbn [fst snd] in *.
  eexists rc, t, _, w. split_and!; [done|done|exact Hcalls|exact Hout|].
  intros Hok n Hn. cbn in Hn. rewrite (Hend Hok) in Hn. by apply elem_of_nil in Hn.
Qed.
Next Obligation.
  intros g b e w Hw. eexists SQLITE_OK, [], _, w. split_and!; [done|done| |done].
  by eapply calls_own; [| | |constructor].
Qed.
Next Obligation.
  intros g p size res w Hw. eexists SQLITE_OK, _, w. by split_and!.
Qed.
End tiny.

(** ** Witnesses *)

#[local] Existing Instance toy_openssl.
#[local] Existing Instance toy_openssl_laws.

Definition w_pager (xc : bool) (c : option codec_ctx) : Pager (list Z) :=
  Mk_pager xc xc c false 4096 w_env 0%nat (Mk_stats 0 0 0) [].

Definition w_db (p : Pager (list Z)) : sqlite3 (list Z) :=
  Mk_sqlite3 [Mk_db main_name (Some (Mk_bt 0 4096 4096 0 0 0 p))] 0.

Lemma w_key_state t : key_state (w_ctx 4096 t) w_cipher w_cipher.
Proof. split; try done. Qed.

Definition w_new_key : list Z := default [] (PKCS5_PBKDF2_HMAC Sha512 [115] (replicate 16 1) PBKDF2_ITER 32).
Definition w_new_mac : list Z :=
  default [] (PKCS5_PBKDF2_HMAC Sha512 w_new_key (hmac_salt w_globals (replicate 16 1)) FAST_PBKDF2_ITER 32).

Lemma w_gives t : gives w_globals (w_ctx 4096 t) [115] w_new_key w_new_mac (replicate 16 1).
Proof. by repeat split. Qed.

Lemma rekey_changes_key_witness :
  exists mt, tree_rep mt [] /\ forall ctx, ctx = w_ctx 4096 (Some (Mk_obj (Some mt) 0 0)) ->
  exists b' ctx' wr' w',
    sqlite3_rekey_v2 w_globals (Some (w_db (w_pager true (Some ctx)))) None (Some [115]) 1 []
      = Done ((SQLITE_OK, Some (put_bt (w_db (w_pager true (Some ctx))) 0 b')), w') /\
    pCodec (pPager b') = Some ctx' /\ write_ctx ctx' = Some wr'.
Proof.
  destruct w_tree as (mt & Hrep). exists mt. split; [exact Hrep|]. intros ctx ->.
  destruct (rekey_changes_key w_globals (w_db (w_pager true (Some (w_ctx 4096 (Some (Mk_obj (Some mt) 0 0)))))) None
    _ _ _ w_cipher w_cipher [115] w_new_key w_new_mac (replicate 16 1) [] eq_refl eq_refl eq_refl
    (w_key_state _)) as (count & rc & crc & t & p1 & b' & ctx' & wr' & w1 & w' & Hrun & _ & _ & _ & _ & Hc & _ & Hw & _);
    [done|done|apply w_gives|constructor|].
  exists b', ctx', wr', w'. split; [exact Hrun|]. split; [exact Hc|exact Hw].
Defined.

Lemma rekey_nomem_keeps_key_witness :
  exists b' ctx' rd' wr' w',
    sqlite3_rekey_v2 w_globals (Some (w_db (w_pager true (Some (w_ctx 4096 None))))) None (Some [115]) 1 [false]
      = Done ((SQLITE_OK, Some (put_bt (w_db (w_pager true (Some (w_ctx 4096 None)))) 0 b')), w') /\
    pCodec (pPager b') = Some ctx' /\ read_ctx ctx' = Some rd' /\ write_ctx ctx' = Some wr' /\
    key rd' = replicate 32 7 /\ key wr' = replicate 32 7.
Proof.
  destruct (rekey_nomem_keeps_key w_globals (w_db (w_pager true (Some (w_ctx 4096 None)))) None
    _ _ _ w_cipher w_cipher [115] [] eq_refl eq_refl eq_refl (w_key_state _))
    as (count & rc & crc & t & p1 & b' & ctx' & rd' & wr' & w' & Hrun & _ & _ & _ & _ & Hc & Hr & Hw & Hk & _ & Hk' & _);
    [done..|constructor|].
  exists b', ctx', rd', wr', w'. split_and!; assumption.
Defined.

(** The first key of a connection, on a file-backed database. *)
Lemma key_attaches_codec_witness :
  exists mt g' b' ctx c w', tree_rep mt [] /\
    sqlite3_key_v2 init_globals (Some (w_db (w_pager false None))) (Some main_name) (Some [115]) 1
      (Some (Mk_obj (Some mt) 0 0)) []
      = Done ((SQLITE_OK, g', Some (put_bt (Mk_sqlite3 (aDb (w_db (w_pager false None))) 4096) 0 b')), w') /\
    pCodec (pPager b') = Some ctx /\ ctx_ready ctx [115] c /\ sqlcipher_activate_count g' = 1.
Proof.
  destruct w_tree as (mt & Hrep).
  destruct (key_attaches_codec init_globals (w_db (w_pager false None)) (Some main_name) _ _ [115] 1 mt 0 0 [] []
    eq_refl eq_refl) as (g' & b' & ctx & c & w' & Hrun & Hc & Hrdy & _ & _ & _ & _ & Hn);
    [repeat split; by left|split; [done|done]|done|done|done|exact Hrep|constructor|].
  exists mt, g', b', ctx, c, w'. split_and!; assumption.
Defined.
