(* ===== verification/PagerIo.v ===== *)
(** * Pages between the cache and the files

    Model of the functions of [pager.c] (in [storage/secure/sec_sqlite3.c])
    through which pages pass the codec: [pager_write_pagelist] and [readDbPage]
    for the database file, [pagerAddPageToRollbackJournal] and
    [pager_playback_one_page] for the rollback journal and the sub-journal of
    the savepoints (whose own operations are in [Savepoint]).  The rest of the
    pager (locks, syncing, the choice of pages to evict) decides which of these
    calls are made; here they are the operations, and the cache is a function
    from page numbers to pages.  Writing to a file is the operating system's:
    [os_write] gives the result code and the file afterwards.  No write-ahead
    log or online backup is open, as in the storage server. *)

From stdpp Require Import base tactics list numbers option.
From Stdlib Require Import ZArith Lia ZifyBool.
From S2P Require Import Prelude MtArrList Sha256 MtCrypto MerkleTree MtSerialize.
From S2P Require Import CipherUtil Openssl CodecCtx PageCodec.

Local Open Scope Z_scope.

Definition PGHDR_CLEAN : Z := 1.
Definition PGHDR_DIRTY : Z := 2.
Definition PGHDR_NEED_SYNC : Z := 8.
Definition PGHDR_DONT_WRITE : Z := 16.
Definition PAGER_OPEN : Z := 0.
Definition PAGER_WRITER_DBMOD : Z := 4.
Definition PAGER_ERROR : Z := 6.
Definition SQLITE_CORRUPT : Z := 11.
Definition SQLITE_FULL : Z := 13.
Definition SQLITE_DONE : Z := 101.
Definition PAGER_MAX_PGNO : Z := 2147483647.
Definition SQLITE_MAX_PAGE_COUNT : Z := 1073741823.
Definition SQLITE_VERSION_NUMBER : Z := 3031000.

(** A page of the cache. *)
Record PgHdr := Mk_hdr { hdr_pgno : Z; hdr_pData : list Z; hdr_flags : Z }.

(** The rollback journal. *)
Record journal := Mk_journal {
  jfd : list Z;
  journalOff : Z;
  journalHdr : Z;
  nRec : Z;
  cksumInit : Z;
  noSync : bool;
  pInJournal : list Z;
}.

(** A savepoint of the transaction: where its records start in the rollback
    journal and in the sub-journal, and the pages saved since it was opened. *)
Record PagerSavepoint := Mk_savepoint {
  iOffset : Z;
  iHdrOffset : Z;
  pInSavepoint : list Z;
  nOrig : Z;
  iSubRec : Z;
}.

(** What the pager keeps for a transaction besides the rollback journal. *)
Record transaction := Mk_tx {
  jopen : bool;                  (** [jfd] is open *)
  jbits : bool;                  (** [pInJournal] is not NULL *)
  dbOrigSize : Z;
  sectorSize : Z;
  journalMode : Z;
  useJournal : bool;
  mxPgno : Z;
  aSavepoint : list PagerSavepoint;
  sjfd : option (list Z);        (** the sub-journal, if it is open *)
  sjSpill : Z;                   (** the size from which on it is a file *)
  nSubRec : Z;
  subjInMemory : bool;
}.

(** Bit vectors: the bits that are set, the sets [bitvec.c] implements ([BitvecProofs]). *)
Definition BitvecTest (v : list Z) (i : Z) : bool := existsb (Z.eqb i) v.

Section pager.
Context {OS : OpenSSL} {NH : NodeHash}.

(** The pager.  [px_cst] holds its codec, the database file and the error
    state. *)
Record pager := Mk_px {
  px_codec : bool;               (** [xCodec] is [sqlite3Codec]; otherwise NULL *)
  px_cst : codec_state;
  px_pageSize : Z;
  px_state : Z;                  (** [eState], unless it is [PAGER_ERROR] *)
  px_nReserve : Z;
  px_dbSize : Z;
  px_dbFileSize : Z;
  px_dbHintSize : Z;
  px_dbFileVers : list Z;
  px_nwrite : Z;                 (** [aStat[PAGER_STAT_WRITE]] *)
  px_journal : journal;
  px_tx : transaction;
}.

Definition px_fd (p : pager) : option (list Z) := fd (cs_env (px_cst p)).

Definition eState (p : pager) : Z :=
  if pager_error (cs_env (px_cst p)) then PAGER_ERROR else px_state p.

(** Assignments. *)
Definition put_cst (p : pager) (st : codec_state) : pager :=
  Mk_px (px_codec p) st (px_pageSize p) (px_state p) (px_nReserve p) (px_dbSize p) (px_dbFileSize p)
    (px_dbHintSize p) (px_dbFileVers p) (px_nwrite p) (px_journal p) (px_tx p).
Definition put_sizes (p : pager) (reserve file hint : Z) : pager :=
  Mk_px (px_codec p) (px_cst p) (px_pageSize p) (px_state p) reserve (px_dbSize p) file
    hint (px_dbFileVers p) (px_nwrite p) (px_journal p) (px_tx p).
Definition put_vers (p : pager) (vers : list Z) : pager :=
  Mk_px (px_codec p) (px_cst p) (px_pageSize p) (px_state p) (px_nReserve p) (px_dbSize p) (px_dbFileSize p)
    (px_dbHintSize p) vers (px_nwrite p) (px_journal p) (px_tx p).
Definition put_nwrite (p : pager) (n : Z) : pager :=
  Mk_px (px_codec p) (px_cst p) (px_pageSize p) (px_state p) (px_nReserve p) (px_dbSize p) (px_dbFileSize p)
    (px_dbHintSize p) (px_dbFileVers p) n (px_journal p) (px_tx p).
Definition put_journal (p : pager) (j : journal) : pager :=
  Mk_px (px_codec p) (px_cst p) (px_pageSize p) (px_state p) (px_nReserve p) (px_dbSize p) (px_dbFileSize p)
    (px_dbHintSize p) (px_dbFileVers p) (px_nwrite p) j (px_tx p).
Definition put_state (p : pager) (state dbSize : Z) : pager :=
  Mk_px (px_codec p) (px_cst p) (px_pageSize p) state (px_nReserve p) dbSize (px_dbFileSize p)
    (px_dbHintSize p) (px_dbFileVers p) (px_nwrite p) (px_journal p) (px_tx p).
Definition put_tx (p : pager) (t : transaction) : pager :=
  Mk_px (px_codec p) (px_cst p) (px_pageSize p) (px_state p) (px_nReserve p) (px_dbSize p) (px_dbFileSize p)
    (px_dbHintSize p) (px_dbFileVers p) (px_nwrite p) (px_journal p) t.
Definition put_sub (p : pager) (sps : list PagerSavepoint) (f : option (list Z)) (n : Z) : pager :=
  let t := px_tx p in
  put_tx p (Mk_tx (jopen t) (jbits t) (dbOrigSize t) (sectorSize t) (journalMode t) (useJournal t) (mxPgno t)
    sps f (sjSpill t) n (subjInMemory t)).
Definition put_savepoints (p : pager) (sps : list PagerSavepoint) : pager :=
  put_sub p sps (sjfd (px_tx p)) (nSubRec (px_tx p)).
Definition put_fd (p : pager) (f : list Z) : pager :=
  let e := cs_env (px_cst p) in
  put_cst p (Mk_cst (cs_ctx (px_cst p)) (Mk_env (Some f) (pager_errCode e) (pager_error e) (db_errCode e))
    (cs_rng (px_cst p)) (cs_stats (px_cst p))).

(** ** Files *)

(** File, bytes and offset to result code and file. *)
Context (os_write : list Z -> list Z -> Z -> Z * list Z).

Definition read32bits (f : list Z) (offset : Z) : Z * option Z :=
  let '(rc, ac) := sqlite3OsRead f 4 offset in
  (rc, if rc =? SQLITE_OK then Some (sqlite3Get4byte ac) else None).

Definition write32bits (f : list Z) (offset val : Z) : Z * list Z :=
  os_write f (sqlite3Put4byte val) offset.

(** ** The codec *)

(** [CODEC2]: the bytes to use instead of [pData], [None] for NULL. *)
Definition CODEC2 (g : globals) (p : pager) (pData : list Z) (pgno mode : Z)
  : M (option (list Z) * pager * list Z) :=
  if negb (px_codec p) then mret (Some pData, p, pData) else
  '(ret, st, pData) ← sqlite3Codec g (px_cst p) pData pgno mode;
  mret (match ret with
        | RetNull => None
        | RetData => Some pData
        | RetBuffer => buffer (cs_ctx st)
        end, put_cst p st, pData).

(** [CODEC1]: in place; [false] when the codec returned NULL. *)
Definition CODEC1 (g : globals) (p : pager) (pData : list Z) (pgno mode : Z)
  : M (bool * pager * list Z) :=
  '(out, p, pData) ← CODEC2 g p pData pgno mode;
  mret (match out with None => false | Some _ => true end, p, pData).

(** ** The database file *)

(** The change counter of page 1, twice, and the version of SQLite. *)
Definition pager_write_changecounter (p : pager) (pData : list Z) : M (list Z) :=
  let change_counter := u32 (sqlite3Get4byte (px_dbFileVers p) + 1) in
  pData ← buf_write 24 (sqlite3Put4byte change_counter) pData;
  pData ← buf_write 92 (sqlite3Put4byte change_counter) pData;
  buf_write 96 (sqlite3Put4byte SQLITE_VERSION_NUMBER) pData.

(** One page of the dirty list: result code, pager and page. *)
Definition write_dirty (g : globals) (p : pager) (h : PgHdr) : M (Z * pager * PgHdr) :=
  let pgno := hdr_pgno h in
  if (pgno <=? px_dbSize p) && (Z.land (hdr_flags h) PGHDR_DONT_WRITE =? 0) then
    d ← (if pgno =? 1 then pager_write_changecounter p (hdr_pData h) else mret (hdr_pData h));
    '(out, p, d) ← CODEC2 g p d pgno CODEC_WRITE_OP;
    let h := Mk_hdr pgno d (hdr_flags h) in
    match out with
    | None => mret (SQLITE_NOMEM, p, h)
    | Some pData =>
        match px_fd p with
        | None => throw NullDeref
        | Some f =>
            out ← buf_read 0 (px_pageSize p) pData;
            let '(rc, f) := os_write f out ((pgno - 1) * px_pageSize p) in
            let p := put_fd p f in
            vers ← (if pgno =? 1 then buf_read 24 16 pData else mret (px_dbFileVers p));
            let p := put_vers p vers in
            let p := put_sizes p (px_nReserve p)
                       (if px_dbFileSize p <? pgno then pgno else px_dbFileSize p) (px_dbHintSize p) in
            mret (rc, put_nwrite p (u32 (px_nwrite p + 1)), h)
        end
    end
  else mret (SQLITE_OK, p, h).

(** The loop over the list, until an error. *)
Fixpoint write_list (g : globals) (p : pager) (pList : list PgHdr) : M (Z * pager * list PgHdr) :=
  match pList with
  | [] => mret (SQLITE_OK, p, [])
  | h :: rest =>
      '(rc, p, h) ← write_dirty g p h;
      if rc =? SQLITE_OK then
        '(rc, p, rest) ← write_list g p rest;
        mret (rc, p, h :: rest)
      else mret (rc, p, h :: rest)
  end.

(** [opentemp]: result of opening a temporary file, needed when there is no file
    yet. *)
Definition pager_write_pagelist (g : globals) (opentemp : Z) (p : pager) (pList : list PgHdr)
  : M (Z * pager * list PgHdr) :=
  let '(rc, p) := match px_fd p with
                  | Some _ => (SQLITE_OK, p)
                  | None => (opentemp, if opentemp =? SQLITE_OK then put_fd p [] else p)
                  end in
  let p := match pList with
           | h :: rest =>
               if (rc =? SQLITE_OK) && (px_dbHintSize p <? px_dbSize p)
                  && (match rest with [] => false | _ => true end || (px_dbHintSize p <? hdr_pgno h))
               then put_sizes p (px_nReserve p) (px_dbFileSize p) (px_dbSize p) else p
           | [] => p
           end in
  if rc =? SQLITE_OK then write_list g p pList else mret (rc, p, pList).

(** A page is read; bytes past the end of the file are zeros. *)
Definition readDbPage (g : globals) (p : pager) (h : PgHdr) : M (Z * pager * PgHdr) :=
  match px_fd p with
  | None => throw NullDeref
  | Some f =>
      let pgno := hdr_pgno h in
      let '(rc, d) := sqlite3OsRead f (px_pageSize p) ((pgno - 1) * px_pageSize p) in
      let rc := if rc =? SQLITE_IOERR_SHORT_READ then SQLITE_OK else rc in
      vers ← (if pgno =? 1 then
                if rc =? SQLITE_OK then buf_read 24 16 d else mret (replicate 16 255)
              else mret (px_dbFileVers p));
      '(ok, p, d) ← CODEC1 g (put_vers p vers) d pgno CODEC_READ_OP;
      mret (if (ok : bool) then rc else SQLITE_NOMEM, p, Mk_hdr pgno d (hdr_flags h))
  end.

(** ** The rollback journal *)

(** The bytes at [i], [i - 200], ... above 0. *)
Fixpoint cksum_loop (fuel : nat) (aData : list Z) (i cksum : Z) : M Z :=
  match fuel with
  | 0%nat => mret cksum
  | S fuel =>
      if 0 <? i then
        b ← buf_read i 1 aData;
        cksum_loop fuel aData (i - 200) (u32 (cksum + default 0 (head b)))
      else mret cksum
  end.

Definition pager_cksum (p : pager) (aData : list Z) : M Z :=
  cksum_loop (Z.to_nat (px_pageSize p)) aData (px_pageSize p - 200) (cksumInit (px_journal p)).

(** The page is marked as saved in every savepoint that has it. *)
Fixpoint addToSavepointBitvecs (pgno : Z) (sps : list PagerSavepoint) : M (Z * list PagerSavepoint) :=
  match sps with
  | [] => mret (SQLITE_OK, [])
  | s :: sps =>
      '(rc, s) ← (if pgno <=? nOrig s then
                    ok ← request;
                    mret (if (ok : bool) then (SQLITE_OK, Mk_savepoint (iOffset s) (iHdrOffset s)
                                                (pgno :: pInSavepoint s) (nOrig s) (iSubRec s))
                          else (SQLITE_NOMEM, s))
                  else mret (SQLITE_OK, s));
      '(rc', sps) ← addToSavepointBitvecs pgno sps;
      mret (Z.lor rc rc', s :: sps)
  end.

Definition pagerAddPageToRollbackJournal (g : globals) (p : pager) (h : PgHdr)
  : M (Z * pager * PgHdr) :=
  let iOff := journalOff (px_journal p) in
  '(out, p, d) ← CODEC2 g p (hdr_pData h) (hdr_pgno h) CODEC_JOURNAL_OP;
  match out with
  | None => mret (SQLITE_NOMEM, p, Mk_hdr (hdr_pgno h) d (hdr_flags h))
  | Some pData2 =>
      cksum ← pager_cksum p pData2;
      out ← buf_read 0 (px_pageSize p) pData2;
      let h := Mk_hdr (hdr_pgno h) d (Z.lor (hdr_flags h) PGHDR_NEED_SYNC) in
      let j := px_journal p in
      let file f := put_journal p (Mk_journal f (journalOff j) (journalHdr j) (nRec j)
                                     (cksumInit j) (noSync j) (pInJournal j)) in
      let '(rc, f) := write32bits (jfd j) iOff (hdr_pgno h) in
      if negb (rc =? SQLITE_OK) then mret (rc, file f, h) else
      let '(rc, f) := os_write f out (iOff + 4) in
      if negb (rc =? SQLITE_OK) then mret (rc, file f, h) else
      let '(rc, f) := write32bits f (iOff + px_pageSize p + 4) cksum in
      if negb (rc =? SQLITE_OK) then mret (rc, file f, h) else
      ok ← request;
      let p := put_journal p (Mk_journal f (iOff + (8 + px_pageSize p)) (journalHdr j)
                 (u32 (nRec j + 1)) (cksumInit j) (noSync j)
                 (if (ok : bool) then hdr_pgno h :: pInJournal j else pInJournal j)) in
      '(rc, sps) ← addToSavepointBitvecs (hdr_pgno h) (aSavepoint (px_tx p));
      mret (Z.lor (if ok then SQLITE_OK else SQLITE_NOMEM) rc, put_savepoints p sps, h)
  end.

(** The page that holds the lock bytes. *)
Definition mj_pgno (p : pager) : Z := u32 (Z.quot 1073741824 (px_pageSize p) + 1).

(** ** Pages of the cache *)

Definition PcacheMakeDirty (flags : Z) : Z :=
  if negb (Z.land flags (Z.lor PGHDR_CLEAN PGHDR_DONT_WRITE) =? 0) then
    let flags := Z.ldiff flags PGHDR_DONT_WRITE in
    if negb (Z.land flags PGHDR_CLEAN =? 0) then Z.lxor flags (Z.lor PGHDR_DIRTY PGHDR_CLEAN) else flags
  else flags.

(** The page is found in the cache, or room is made for it there and its contents
    are read from the file; with [noContent] they are zeros, and the page counts
    as saved. *)
Definition getPageNormal (g : globals) (p : pager) (pgno : Z) (noContent : bool)
    (cache : Z -> option PgHdr) : M (Z * pager * option PgHdr) :=
  if pgno =? 0 then mret (SQLITE_CORRUPT, p, None) else
  match cache pgno, noContent with
  | Some h, false => mret (SQLITE_OK, p, Some h)
  | found, _ =>
      ok ← (match found with Some _ => mret true | None => request end);
      if negb (ok : bool) then mret (SQLITE_NOMEM, p, None) else
      if (PAGER_MAX_PGNO <? pgno) || (pgno =? mj_pgno p) then mret (SQLITE_CORRUPT, p, None) else
      let h := Mk_hdr pgno (replicate (Z.to_nat (px_pageSize p)) 0)
                 (match found with Some h => hdr_flags h | None => PGHDR_CLEAN end) in
      if match px_fd p with None => true | Some _ => false end || (px_dbSize p <? pgno) || noContent then
        if mxPgno (px_tx p) <? pgno then mret (SQLITE_FULL, p, None) else
        if noContent then
          let j := px_journal p in
          ok ← (if (pgno <=? dbOrigSize (px_tx p)) && jbits (px_tx p) then request else mret false);
          let p := if (ok : bool) then
                     put_journal p (Mk_journal (jfd j) (journalOff j) (journalHdr j) (nRec j) (cksumInit j)
                       (noSync j) (pgno :: pInJournal j))
                   else p in
          '(_, sps) ← addToSavepointBitvecs pgno (aSavepoint (px_tx p));
          mret (SQLITE_OK, put_savepoints p sps, Some h)
        else mret (SQLITE_OK, p, Some h)
      else
        '(rc, p, h) ← readDbPage g p h;
        mret (rc, p, if rc =? SQLITE_OK then Some h else None)
  end.

(** [xGet] is [getPageError] in the error state. *)
Definition sqlite3PagerGet (g : globals) (p : pager) (pgno : Z) (noContent : bool)
    (cache : Z -> option PgHdr) : M (Z * pager * option PgHdr) :=
  let e := cs_env (px_cst p) in
  if pager_errCode e =? SQLITE_OK then getPageNormal g p pgno noContent cache
  else mret (pager_errCode e, p, None).

(** ** Playing a record back *)

(** The page goes into the database file as it is in the journal; a page from an
    unencrypted sub-journal is encrypted for that, in the page buffer of the
    codec, and decrypted there again.  (In the source the page given to the second
    call is that buffer itself; the model gives its contents.)  Result code, pager
    and page. *)
Definition playback_write (g : globals) (p : pager) (f aData : list Z) (pgno : Z) (jrnlEnc : bool)
  : M (Z * pager * list Z) :=
  let ofst := (pgno - 1) * px_pageSize p in
  '(rc, p, aData) ←
    (if jrnlEnc then
       let '(rc, f) := os_write f aData ofst in
       mret (rc, put_fd p f, aData)
     else
       '(out, p, _) ← CODEC2 g p aData pgno CODEC_JOURNAL_OP;
       match out with
       | None => throw NullDeref
       | Some aData =>
           d ← buf_read 0 (px_pageSize p) aData;
           let '(rc, f) := os_write f d ofst in
           '(ok, p, aData) ← CODEC1 g (put_fd p f) aData pgno CODEC_READ_OP;
           mret (if (ok : bool) then rc else SQLITE_NOMEM, p, aData)
       end);
  mret (rc, put_sizes p (px_nReserve p) (if px_dbFileSize p <? pgno then pgno else px_dbFileSize p)
              (px_dbHintSize p), aData).

(** The page of the cache gets the contents. *)
Definition playback_cache (g : globals) (p : pager) (rc : Z) (aData : list Z) (pgno : Z) (jrnlEnc : bool)
    (h : PgHdr) : M (Z * pager * PgHdr) :=
  vers ← (if pgno =? 1 then buf_read 24 16 aData else mret (px_dbFileVers p));
  '(ok, p, d) ← (if jrnlEnc then CODEC1 g (put_vers p vers) aData (hdr_pgno h) CODEC_READ_OP
                 else mret (true, put_vers p vers, aData));
  mret (if (ok : bool) then rc else SQLITE_NOMEM, p, Mk_hdr (hdr_pgno h) d (hdr_flags h)).

(** A record of the rollback journal ([isMainJrnl]) or of the sub-journal, for a
    savepoint ([isSavepnt]; the pages played back already are in [pDone]) or for
    the whole transaction.  Result code, pager, [*pOffset], [pDone], and the page
    of the cache. *)
Definition pager_playback_one_page (g : globals) (p : pager) (pOffset : Z) (pDone : option (list Z))
    (isMainJrnl isSavepnt : bool) (cache : Z -> option PgHdr)
  : M (Z * pager * Z * option (list Z) * option PgHdr) :=
  let j := px_journal p in
  let jrnlEnc := isMainJrnl || negb (subjInMemory (px_tx p)) in
  file ← deref (if isMainJrnl then Some (jfd j) else sjfd (px_tx p));
  match read32bits file pOffset with
  | (rc, None) => mret (rc, p, pOffset, pDone, None)
  | (_, Some pgno) =>
      let '(rc, aData) := sqlite3OsRead file (px_pageSize p) (pOffset + 4) in
      if negb (rc =? SQLITE_OK) then mret (rc, p, pOffset, pDone, None) else
      let pOffset := pOffset + (px_pageSize p + 4 + (if isMainJrnl then 4 else 0)) in
      if (pgno =? 0) || (pgno =? mj_pgno p) then mret (SQLITE_DONE, p, pOffset, pDone, None) else
      if (px_dbSize p <? pgno) || (match pDone with Some v => BitvecTest v pgno | None => false end)
      then mret (SQLITE_OK, p, pOffset, pDone, None) else
      bad ← (if isMainJrnl then
               match read32bits file (pOffset - 4) with
               | (rc, None) => mret (Some rc)
               | (_, Some cksum) =>
                   if isSavepnt then mret None else
                   sum ← pager_cksum p aData;
                   mret (if sum =? cksum then None else Some SQLITE_DONE)
               end
             else mret None);
      match bad with
      | Some rc => mret (rc, p, pOffset, pDone, None)
      | None =>
          '(ok, pDone) ← match pDone with
                         | None => mret (true, None)
                         | Some v => ok ← request; mret (ok, Some (if (ok : bool) then pgno :: v else v))
                         end;
          if negb (ok : bool) then mret (SQLITE_NOMEM, p, pOffset, pDone, None) else
          reserve ← (if pgno =? 1 then buf_read 20 1 aData else mret [px_nReserve p]);
          let p := put_sizes p (default 0 (head reserve)) (px_dbFileSize p) (px_dbHintSize p) in
          let pPg := cache pgno in
          let isSynced :=
            if isMainJrnl then noSync j || (pOffset <=? journalHdr j)
            else match pPg with None => true | Some h => Z.land (hdr_flags h) PGHDR_NEED_SYNC =? 0 end in
          let writes := ((PAGER_WRITER_DBMOD <=? eState p) || (eState p =? PAGER_OPEN)) && isSynced in
          '(rc, p, aData, pPg) ←
            match px_fd p, writes with
            | Some f, true =>
                '(rc, p, aData) ← playback_write g p f aData pgno jrnlEnc;
                mret (rc, p, aData, pPg)
            | _, _ =>
                if negb isMainJrnl && match pPg with None => true | Some _ => false end then
                  '(rc, p, pPg) ← sqlite3PagerGet g p pgno true cache;
                  mret (rc, p, aData, match pPg with
                                      | Some h => Some (Mk_hdr (hdr_pgno h) (hdr_pData h) (PcacheMakeDirty (hdr_flags h)))
                                      | None => None
                                      end)
                else mret (SQLITE_OK, p, aData, pPg)
            end;
          match pPg with
          | None => mret (rc, p, pOffset, pDone, None)
          | Some h =>
              '(rc, p, h) ← playback_cache g p rc aData pgno jrnlEnc h;
              mret (rc, p, pOffset, pDone, Some h)
          end
      end
  end.

Definition put_journalOff (p : pager) (off : Z) : pager :=
  let j := px_journal p in
  put_journal p (Mk_journal (jfd j) off (journalHdr j) (nRec j) (cksumInit j) (noSync j) (pInJournal j)).

(** The loop of [pager_playback] over the [n] records after a journal header: [rc],
    whether it was left with [goto end_playback], the pager, and the pages of the
    cache that were restored.  A journal that ends early is not an error. *)
Fixpoint playback_records (g : globals) (n : nat) (p : pager) (cache : Z -> option PgHdr)
  : M (Z * bool * pager * list PgHdr) :=
  match n with
  | 0%nat => mret (SQLITE_OK, false, p, [])
  | S n =>
      '(rc, p, off, _, pPg) ← pager_playback_one_page g p (journalOff (px_journal p)) None true false cache;
      let p := put_journalOff p off in
      let restored := match pPg with Some h => [h] | None => [] end in
      if rc =? SQLITE_OK then
        '(rc, out, p, hs) ← playback_records g n p cache;
        mret (rc, out, p, restored ++ hs)
      else if rc =? SQLITE_DONE then
        mret (rc, false, put_journalOff p (Z.of_nat (length (jfd (px_journal p)))), restored)
      else if rc =? SQLITE_IOERR_SHORT_READ then mret (SQLITE_OK, true, p, restored)
      else mret (rc, true, p, restored)
  end.

End pager.
