(* ===== verification/Savepoint.v ===== *)
(** * Savepoints

    Model of the functions of [pager.c] (in [storage/secure/sec_sqlite3.c]) that
    open a transaction, write a page within it and open, release and roll back
    savepoints: [sqlite3PagerBegin], [pager_open_journal], [writeJournalHdr],
    [readJournalHdr], [pager_write], [sqlite3PagerWrite], [openSubJournal],
    [subjournalPage], [pagerOpenSavepoint], [pagerPlaybackSavepoint] and
    [sqlite3PagerSavepoint].  Pages reach both journals through the codec.

    The cache is a map from page numbers to pages.  What the operating system
    answers is in [vfs]; locks are not modelled beyond the result of taking
    them. *)

From stdpp Require Import base tactics list numbers option gmap.
From Stdlib Require Import ZArith Lia ZifyBool.
From S2P Require Import Prelude MtArrList Sha256 MtCrypto MerkleTree MtSerialize.
From S2P Require Import CipherUtil Openssl CodecCtx PageCodec PagerIo.

Local Open Scope Z_scope.

Definition PGHDR_WRITEABLE : Z := 4.
Definition PAGER_READER : Z := 1.
Definition PAGER_WRITER_LOCKED : Z := 2.
Definition PAGER_WRITER_CACHEMOD : Z := 3.
Definition PAGER_JOURNALMODE_OFF : Z := 2.
Definition PAGER_JOURNALMODE_MEMORY : Z := 4.
Definition SAVEPOINT_RELEASE : Z := 1.
Definition SAVEPOINT_ROLLBACK : Z := 2.
Definition MAX_SECTOR_SIZE : Z := 65536.
Definition aJournalMagic : list Z := [217; 213; 5; 249; 32; 161; 99; 215].

(** The operating system and the configuration. *)
Record vfs := Mk_vfs {
  nStmtSpill : Z;
  open_sub : Z;                  (** result of opening a file for the sub-journal *)
  open_main : Z * list Z;        (** result of opening the rollback journal, and its contents *)
  safe_append : bool;
  random32 : Z;                  (** what [sqlite3_randomness] gives *)
}.

Section savepoint.
Context {OS : OpenSSL} {NH : NodeHash}.
Context (os_write : list Z -> list Z -> Z -> Z * list Z) (v : vfs).

Definition set_flags (h : PgHdr) (flags : Z) : PgHdr := Mk_hdr (hdr_pgno h) (hdr_pData h) flags.

Definition put_jtx (p : pager) (jo jb : bool) (orig : Z) : pager :=
  let t := px_tx p in
  put_tx p (Mk_tx jo jb orig (sectorSize t) (journalMode t) (useJournal t) (mxPgno t) (aSavepoint t)
    (sjfd t) (sjSpill t) (nSubRec t) (subjInMemory t)).

(** ** Transactions *)

(** [lock]: result of taking the locks. *)
Definition sqlite3PagerBegin (lock : Z) (p : pager) (subj_in_memory : bool) : Z * pager :=
  let e := cs_env (px_cst p) in
  if negb (pager_errCode e =? SQLITE_OK) then (pager_errCode e, p) else
  let t := px_tx p in
  let p := put_tx p (Mk_tx (jopen t) (jbits t) (dbOrigSize t) (sectorSize t) (journalMode t) (useJournal t)
             (mxPgno t) (aSavepoint t) (sjfd t) (sjSpill t) (nSubRec t) subj_in_memory) in
  if negb (eState p =? PAGER_READER) then (SQLITE_OK, p) else
  if negb (lock =? SQLITE_OK) then (lock, p) else
  let p := put_sizes (put_state p PAGER_WRITER_LOCKED (px_dbSize p)) (px_nReserve p) (px_dbSize p) (px_dbSize p) in
  (SQLITE_OK, put_journalOff (put_jtx p (jopen (px_tx p)) (jbits (px_tx p)) (px_dbSize p)) 0).

(** ** Journal headers *)

(** The start of the next sector. *)
Definition journalHdrOffset (p : pager) : Z :=
  let c := journalOff (px_journal p) in
  let n := sectorSize (px_tx p) in
  if c =? 0 then 0 else (Z.quot (c - 1) n + 1) * n.

(** The header is as long as a sector and written in pieces of at most a page. *)
Fixpoint write_header (fuel : nat) (p : pager) (zHeader : list Z) (nWrite nHeader : Z) : Z * pager :=
  match fuel with
  | 0%nat => (SQLITE_OK, p)
  | S fuel =>
      if nWrite <? sectorSize (px_tx p) then
        let j := px_journal p in
        let '(rc, f) := os_write (jfd j) zHeader (journalOff j) in
        let p := put_journal p (Mk_journal f (journalOff j + nHeader) (journalHdr j) (nRec j) (cksumInit j)
                   (noSync j) (pInJournal j)) in
        if rc =? SQLITE_OK then write_header fuel p zHeader (nWrite + nHeader) nHeader else (rc, p)
      else (SQLITE_OK, p)
  end.

Definition writeJournalHdr (p : pager) : M (Z * pager) :=
  let nHeader := Z.min (px_pageSize p) (sectorSize (px_tx p)) in
  let off := journalOff (px_journal p) in
  let sps := map (fun s => if iHdrOffset s =? 0
                           then Mk_savepoint (iOffset s) off (pInSavepoint s) (nOrig s) (iSubRec s) else s)
               (aSavepoint (px_tx p)) in
  let p := put_savepoints p sps in
  let j := px_journal p in
  let off := journalHdrOffset p in
  if nHeader <? 28 then throw OutOfBounds else
  let start := if noSync j || (journalMode (px_tx p) =? PAGER_JOURNALMODE_MEMORY) || safe_append v
               then aJournalMagic ++ sqlite3Put4byte 4294967295 else replicate 12 0 in
  let zHeader := start ++ sqlite3Put4byte (random32 v) ++ sqlite3Put4byte (dbOrigSize (px_tx p))
                   ++ sqlite3Put4byte (sectorSize (px_tx p)) ++ sqlite3Put4byte (px_pageSize p)
                   ++ replicate (Z.to_nat (nHeader - 28)) 0 in
  let p := put_journal p (Mk_journal (jfd j) off off (nRec j) (random32 v) (noSync j) (pInJournal j)) in
  mret (write_header (Z.to_nat (sectorSize (px_tx p))) p zHeader 0 nHeader).

(** [pInJournal] is allocated, the journal opened unless it is, and its first
    header written. *)
Definition pager_open_journal (p : pager) : M (Z * pager) :=
  let e := cs_env (px_cst p) in
  if negb (pager_errCode e =? SQLITE_OK) then mret (pager_errCode e, p) else
  let t := px_tx p in
  if journalMode t =? PAGER_JOURNALMODE_OFF then mret (SQLITE_OK, put_state p PAGER_WRITER_CACHEMOD (px_dbSize p)) else
  ok ← request;
  if negb (ok : bool) then mret (SQLITE_NOMEM, p) else
  let '(rc, f) := if jopen t then (SQLITE_OK, jfd (px_journal p))
                  else if journalMode t =? PAGER_JOURNALMODE_MEMORY then (SQLITE_OK, [])
                  else open_main v in
  if negb (rc =? SQLITE_OK) then mret (rc, put_jtx p (jopen t) false (dbOrigSize t)) else
  let j := px_journal p in
  let p := put_jtx (put_journal p (Mk_journal f 0 0 0 (cksumInit j) (noSync j) [])) true true (dbOrigSize t) in
  '(rc, p) ← writeJournalHdr p;
  mret (if rc =? SQLITE_OK then (rc, put_state p PAGER_WRITER_CACHEMOD (px_dbSize p))
        else (rc, put_jtx p true false (dbOrigSize t))).

(** The header at the next sector of the journal: its number of records.  The page
    size stays, because page 1 is in use. *)
Definition readJournalHdr (p : pager) (isHot : bool) (journalSize : Z) : Z * pager * Z :=
  let p := put_journalOff p (journalHdrOffset p) in
  let j := px_journal p in
  let iHdrOff := journalOff j in
  if journalSize <? iHdrOff + sectorSize (px_tx p) then (SQLITE_DONE, p, 0) else
  let bad :=
    if isHot || negb (iHdrOff =? journalHdr j) then
      let '(rc, aMagic) := sqlite3OsRead (jfd j) 8 iHdrOff in
      if negb (rc =? SQLITE_OK) then Some rc
      else if bool_decide (aMagic = aJournalMagic) then None else Some SQLITE_DONE
    else None in
  match bad with
  | Some rc => (rc, p, 0)
  | None =>
      match read32bits (jfd j) (iHdrOff + 8), read32bits (jfd j) (iHdrOff + 12), read32bits (jfd j) (iHdrOff + 16) with
      | (rc, None), _, _ => (rc, p, 0)
      | (_, Some n), (rc, None), _ => (rc, p, n)
      | (_, Some n), (_, Some init), other =>
          let p := put_journal p (Mk_journal (jfd j) (journalOff j) (journalHdr j) (nRec j) init (noSync j) (pInJournal j)) in
          let next (p : pager) := (SQLITE_OK, put_journalOff p (iHdrOff + sectorSize (px_tx p)), n) in
          match other with
          | (rc, None) => (rc, p, n)
          | (_, Some _) =>
              if negb (iHdrOff =? 0) then next p else
              match read32bits (jfd j) 20, read32bits (jfd j) 24 with
              | (rc, None), _ | (_, Some _), (rc, None) => (rc, p, n)
              | (_, Some iSectorSize), (_, Some iPageSize) =>
                  let iPageSize := if iPageSize =? 0 then px_pageSize p else iPageSize in
                  if (iPageSize <? 512) || (iSectorSize <? 32) || (SQLITE_MAX_PAGE_SIZE <? iPageSize)
                     || (MAX_SECTOR_SIZE <? iSectorSize) || negb (Z.land (iPageSize - 1) iPageSize =? 0)
                     || negb (Z.land (iSectorSize - 1) iSectorSize =? 0)
                  then (SQLITE_DONE, p, n) else
                  let t := px_tx p in
                  next (put_tx p (Mk_tx (jopen t) (jbits t) (dbOrigSize t) iSectorSize (journalMode t) (useJournal t)
                          (mxPgno t) (aSavepoint t) (sjfd t) (sjSpill t) (nSubRec t) (subjInMemory t)))
              end
          end
      end
  end.

(** ** The sub-journal *)

(** With a size to spill at the journal is kept in memory at first. *)
Definition sqlite3JournalOpen (nSpill os_open : Z) : Z := if nSpill =? 0 then os_open else SQLITE_OK.

Definition openSubJournal (p : pager) : Z * pager :=
  let t := px_tx p in
  match sjfd t with
  | Some _ => (SQLITE_OK, p)
  | None =>
      let spill := if (journalMode t =? PAGER_JOURNALMODE_MEMORY) || subjInMemory t then -1 else nStmtSpill v in
      let rc := sqlite3JournalOpen spill (open_sub v) in
      (rc, if rc =? SQLITE_OK then
             put_tx p (Mk_tx (jopen t) (jbits t) (dbOrigSize t) (sectorSize t) (journalMode t) (useJournal t)
               (mxPgno t) (aSavepoint t) (Some []) spill (nSubRec t) (subjInMemory t))
           else p)
  end.

Definition sqlite3JournalIsInMemory (f : list Z) (nSpill : Z) : bool :=
  (nSpill <? 0) || ((0 <? nSpill) && (Z.of_nat (length f) <=? nSpill)).

(** Some savepoint does not have the page yet. *)
Definition subjRequiresPage (p : pager) (pgno : Z) : bool :=
  existsb (fun s => (pgno <=? nOrig s) && negb (BitvecTest (pInSavepoint s) pgno)) (aSavepoint (px_tx p)).

(** The record is written: result code, pager and page.  The codec is left out
    when the sub-journal stays in memory. *)
Definition subjournal_record (g : globals) (p : pager) (h : PgHdr) : M (Z * pager * PgHdr) :=
  let '(rc, p) := openSubJournal p in
  if negb (rc =? SQLITE_OK) then mret (rc, p, h) else
  let t := px_tx p in
  let offset := nSubRec t * (4 + px_pageSize p) in
  '(out, p, d) ← (if subjInMemory t then mret (Some (hdr_pData h), p, hdr_pData h)
                  else CODEC2 g p (hdr_pData h) (hdr_pgno h) CODEC_JOURNAL_OP);
  let h := Mk_hdr (hdr_pgno h) d (hdr_flags h) in
  match out with
  | None => mret (SQLITE_NOMEM, p, h)
  | Some pData2 =>
      f ← deref (sjfd t);
      let '(rc, f) := write32bits os_write f offset (hdr_pgno h) in
      if negb (rc =? SQLITE_OK) then mret (rc, put_sub p (aSavepoint t) (Some f) (nSubRec t), h) else
      page ← buf_read 0 (px_pageSize p) pData2;
      let '(rc, f) := os_write f page (offset + 4) in
      mret (rc, put_sub p (aSavepoint t) (Some f) (nSubRec t), h)
  end.

Definition subjournalPage (g : globals) (p : pager) (h : PgHdr) : M (Z * pager * PgHdr) :=
  '(rc, p, h) ← (if journalMode (px_tx p) =? PAGER_JOURNALMODE_OFF then mret (SQLITE_OK, p, h)
                 else subjournal_record g p h);
  if negb (rc =? SQLITE_OK) then mret (rc, p, h) else
  let t := px_tx p in
  '(rc, sps) ← addToSavepointBitvecs (hdr_pgno h) (aSavepoint t);
  mret (rc, put_sub p sps (sjfd t) (u32 (nSubRec t + 1)), h).

Definition subjournalPageIfRequired (g : globals) (p : pager) (h : PgHdr) : M (Z * pager * PgHdr) :=
  if subjRequiresPage p (hdr_pgno h) then subjournalPage g p h else mret (SQLITE_OK, p, h).

(** ** Writing a page *)

(** The page goes into the rollback journal unless it is there or is new. *)
Definition journal_page (g : globals) (p : pager) (h : PgHdr) : M (Z * pager * PgHdr) :=
  if jbits (px_tx p) && negb (BitvecTest (pInJournal (px_journal p)) (hdr_pgno h)) then
    if hdr_pgno h <=? dbOrigSize (px_tx p) then pagerAddPageToRollbackJournal os_write g p h
    else mret (SQLITE_OK, p, if eState p =? PAGER_WRITER_DBMOD then h
                             else set_flags h (Z.lor (hdr_flags h) PGHDR_NEED_SYNC))
  else mret (SQLITE_OK, p, h).

Definition pager_write (g : globals) (p : pager) (h : PgHdr) : M (Z * pager * PgHdr) :=
  '(rc, p) ← (if eState p =? PAGER_WRITER_LOCKED then pager_open_journal p else mret (SQLITE_OK, p));
  if negb (rc =? SQLITE_OK) then mret (rc, p, h) else
  let h := set_flags h (PcacheMakeDirty (hdr_flags h)) in
  '(rc, p, h) ← journal_page g p h;
  if negb (rc =? SQLITE_OK) then mret (rc, p, h) else
  let h := set_flags h (Z.lor (hdr_flags h) PGHDR_WRITEABLE) in
  '(rc, p, h) ← (if (0 <? length (aSavepoint (px_tx p)))%nat then subjournalPageIfRequired g p h
                 else mret (SQLITE_OK, p, h));
  mret (rc, put_state p (px_state p) (if px_dbSize p <? hdr_pgno h then hdr_pgno h else px_dbSize p), h).

(** The pages [pg1 + ii] of a sector: result code, pager, cache and [needSync]. *)
Fixpoint write_sector (n : nat) (g : globals) (p : pager) (c : gmap Z PgHdr) (pgno pg : Z) (needSync : bool)
  : M (Z * pager * gmap Z PgHdr * bool) :=
  match n with
  | 0%nat => mret (SQLITE_OK, p, c, needSync)
  | S n =>
      '(rc, p, c, needSync) ←
        (if (pg =? pgno) || negb (jbits (px_tx p) && BitvecTest (pInJournal (px_journal p)) pg) then
           if pg =? mj_pgno p then mret (SQLITE_OK, p, c, needSync) else
           '(rc, p, pPage) ← sqlite3PagerGet g p pg false (fun q => c !! q);
           match pPage with
           | None => mret (rc, p, c, needSync)
           | Some h =>
               '(rc, p, h) ← pager_write g p h;
               mret (rc, p, <[pg := h]> c, needSync || negb (Z.land (hdr_flags h) PGHDR_NEED_SYNC =? 0))
           end
         else mret (SQLITE_OK, p, c, needSync || match c !! pg with
                                                 | Some h => negb (Z.land (hdr_flags h) PGHDR_NEED_SYNC =? 0)
                                                 | None => false
                                                 end));
      if rc =? SQLITE_OK then write_sector n g p c pgno (pg + 1) needSync else mret (rc, p, c, needSync)
  end.

Definition pagerWriteLargeSector (g : globals) (p : pager) (c : gmap Z PgHdr) (h : PgHdr) : M (Z * pager * gmap Z PgHdr) :=
  let nPagePerSector := Z.quot (sectorSize (px_tx p)) (px_pageSize p) in
  let pgno := hdr_pgno h in
  let pg1 := Z.ldiff (pgno - 1) (nPagePerSector - 1) + 1 in
  let nPageCount := px_dbSize p in
  let nPage := if nPageCount <? pgno then (pgno - pg1) + 1
               else if nPageCount <? pg1 + nPagePerSector - 1 then nPageCount + 1 - pg1
               else nPagePerSector in
  '(rc, p, c, needSync) ← write_sector (Z.to_nat nPage) g p c pgno pg1 false;
  mret (rc, p, if (rc =? SQLITE_OK) && needSync then
                 foldr (fun i c => alter (fun h => set_flags h (Z.lor (hdr_flags h) PGHDR_NEED_SYNC)) (pg1 + Z.of_nat i) c)
                   c (seq 0 (Z.to_nat nPage))
               else c).

(** Page [pgno] of the cache is made writeable. *)
Definition sqlite3PagerWrite (g : globals) (p : pager) (c : gmap Z PgHdr) (pgno : Z) : M (Z * pager * gmap Z PgHdr) :=
  h ← deref (c !! pgno);
  let put (r : M (Z * pager * PgHdr)) := '(rc, p, h) ← r; mret (rc, p, <[pgno := h]> c) in
  let e := cs_env (px_cst p) in
  if negb (Z.land (hdr_flags h) PGHDR_WRITEABLE =? 0) && (pgno <=? px_dbSize p) then
    if (0 <? length (aSavepoint (px_tx p)))%nat then put (subjournalPageIfRequired g p h) else mret (SQLITE_OK, p, c)
  else if negb (pager_errCode e =? SQLITE_OK) then mret (pager_errCode e, p, c)
  else if px_pageSize p <? sectorSize (px_tx p) then pagerWriteLargeSector g p c h
  else put (pager_write g p h).

(** ** Opening savepoints *)

Fixpoint open_savepoints (n : nat) (p : pager) : M (Z * pager) :=
  match n with
  | 0%nat => mret (SQLITE_OK, p)
  | S n =>
      let j := px_journal p in
      let t := px_tx p in
      let off := if jopen t && (0 <? journalOff j) then journalOff j else sectorSize t in
      ok ← request;
      if negb (ok : bool) then mret (SQLITE_NOMEM, p) else
      open_savepoints n (put_savepoints p (aSavepoint t ++ [Mk_savepoint off 0 [] (px_dbSize p) (nSubRec t)]))
  end.

Definition pagerOpenSavepoint (p : pager) (nSavepoint : Z) : M (Z * pager) :=
  ok ← request;
  if negb (ok : bool) then mret (SQLITE_NOMEM, p)
  else open_savepoints (Z.to_nat nSavepoint - length (aSavepoint (px_tx p))) p.

Definition sqlite3PagerOpenSavepoint (p : pager) (nSavepoint : Z) : M (Z * pager) :=
  if (Z.of_nat (length (aSavepoint (px_tx p))) <? nSavepoint) && useJournal (px_tx p)
  then pagerOpenSavepoint p nSavepoint else mret (SQLITE_OK, p).

(** ** Rolling savepoints back *)

(** The page that was played back is in the cache. *)
Definition restore (c : gmap Z PgHdr) (pPg : option PgHdr) : gmap Z PgHdr :=
  match pPg with Some h => <[hdr_pgno h := h]> c | None => c end.

(** Records of the rollback journal up to [stop], at most [n]. *)
Fixpoint playback_main (n : nat) (g : globals) (p : pager) (c : gmap Z PgHdr) (pDone : option (list Z)) (stop : Z)
  : M (Z * pager * gmap Z PgHdr * option (list Z)) :=
  match n with
  | 0%nat => mret (SQLITE_OK, p, c, pDone)
  | S n =>
      if journalOff (px_journal p) <? stop then
        '(rc, p, off, pDone, pPg) ←
          pager_playback_one_page os_write g p (journalOff (px_journal p)) pDone true true (fun q => c !! q);
        let p := put_journalOff p off in
        let c := restore c pPg in
        if rc =? SQLITE_OK then playback_main n g p c pDone stop else mret (rc, p, c, pDone)
      else mret (SQLITE_OK, p, c, pDone)
  end.

(** The records after the headers up to the end of the journal. *)
Fixpoint playback_headers (n : nat) (g : globals) (p : pager) (c : gmap Z PgHdr) (pDone : option (list Z)) (szJ : Z)
  : M (Z * pager * gmap Z PgHdr * option (list Z)) :=
  match n with
  | 0%nat => mret (SQLITE_OK, p, c, pDone)
  | S n =>
      if journalOff (px_journal p) <? szJ then
        let '(rc, p, nJRec) := readJournalHdr p false szJ in
        let j := px_journal p in
        let nJRec := if (nJRec =? 0) && (journalHdr j + sectorSize (px_tx p) =? journalOff j)
                     then u32 (Z.quot (szJ - journalOff j) (px_pageSize p + 8)) else nJRec in
        if negb (rc =? SQLITE_OK) then mret (rc, p, c, pDone) else
        '(rc, p, c, pDone) ← playback_main (Z.to_nat (Z.min nJRec (szJ - journalOff j))) g p c pDone szJ;
        if rc =? SQLITE_OK then playback_headers n g p c pDone szJ else mret (rc, p, c, pDone)
      else mret (SQLITE_OK, p, c, pDone)
  end.

(** Records of the sub-journal. *)
Fixpoint playback_sub (n : nat) (g : globals) (p : pager) (c : gmap Z PgHdr) (pDone : option (list Z)) (offset : Z)
  : M (Z * pager * gmap Z PgHdr) :=
  match n with
  | 0%nat => mret (SQLITE_OK, p, c)
  | S n =>
      '(rc, p, offset, pDone, pPg) ←
        pager_playback_one_page os_write g p offset pDone false true (fun q => c !! q);
      let c := restore c pPg in
      if rc =? SQLITE_OK then playback_sub n g p c pDone offset else mret (rc, p, c)
  end.

(** No savepoint stands for the whole transaction. *)
Definition pagerPlaybackSavepoint (g : globals) (p : pager) (c : gmap Z PgHdr) (pSavepoint : option PagerSavepoint)
  : M (Z * pager * gmap Z PgHdr) :=
  ok ← (match pSavepoint with Some _ => request | None => mret true end);
  if negb (ok : bool) then mret (SQLITE_NOMEM, p, c) else
  let pDone := match pSavepoint with Some _ => Some [] | None => None end in
  let p := put_state p (px_state p) (match pSavepoint with Some s => nOrig s | None => dbOrigSize (px_tx p) end) in
  let szJ := journalOff (px_journal p) in
  '(rc, p, c, pDone) ←
    (match pSavepoint with
     | Some s =>
         let iHdrOff := if iHdrOffset s =? 0 then szJ else iHdrOffset s in
         playback_main (Z.to_nat (iHdrOff - iOffset s)) g (put_journalOff p (iOffset s)) c pDone iHdrOff
     | None => mret (SQLITE_OK, put_journalOff p 0, c, pDone)
     end);
  '(rc, p, c, pDone) ←
    (if rc =? SQLITE_OK then playback_headers (S (Z.to_nat szJ)) g p c pDone szJ else mret (rc, p, c, pDone));
  '(rc, p, c) ←
    (match pSavepoint with
     | Some s =>
         if rc =? SQLITE_OK then
           playback_sub (Z.to_nat (nSubRec (px_tx p) - iSubRec s)) g p c pDone (iSubRec s * (4 + px_pageSize p))
         else mret (rc, p, c)
     | None => mret (rc, p, c)
     end);
  mret (rc, if rc =? SQLITE_OK then put_journalOff p szJ else p, c).

(** Releasing or rolling back to the savepoint [iSavepoint]. *)
Definition sqlite3PagerSavepoint (g : globals) (p : pager) (c : gmap Z PgHdr) (op iSavepoint : Z) : M (Z * pager * gmap Z PgHdr) :=
  let e := cs_env (px_cst p) in
  if negb (pager_errCode e =? SQLITE_OK) then mret (pager_errCode e, p, c) else
  if negb (iSavepoint <? Z.of_nat (length (aSavepoint (px_tx p)))) then mret (SQLITE_OK, p, c) else
  let nNew := Z.to_nat (iSavepoint + (if op =? SAVEPOINT_RELEASE then 0 else 1)) in
  let p := put_savepoints p (take nNew (aSavepoint (px_tx p))) in
  let t := px_tx p in
  if op =? SAVEPOINT_RELEASE then
    match nNew, sjfd t with
    | 0%nat, Some f =>
        mret (SQLITE_OK, put_sub p (aSavepoint t) (Some (if sqlite3JournalIsInMemory f (sjSpill t) then [] else f)) 0, c)
    | _, _ => mret (SQLITE_OK, p, c)
    end
  else if jopen t then
    pagerPlaybackSavepoint g p c (match nNew with 0%nat => None | S i => aSavepoint t !! i end)
  else mret (SQLITE_OK, p, c).

End savepoint.
