(* ===== verification/PagerProofs.v ===== *)
(** * An encrypted file is a map of pages

    Theorems about [PagerIo]: with the codec attached, the database file and the
    Merkle tree together represent the pages that were written.  [image] is the
    abstraction relation, a map from page numbers to contents; writing the dirty
    list updates the map, reading a page looks it up, and a page written to the
    rollback journal comes back when the journal is played back. *)

From stdpp Require Import base tactics list numbers option gmap.
From Stdlib Require Import ZArith Lia ZifyBool.
From S2P Require Import Prelude MtArrList Sha256 MtCrypto MerkleTree MtSerialize.
From S2P Require Import MerkleTheorems CipherUtil Openssl CodecCtx PageCodec PageProofs.
From S2P Require Import CodecProofs HookProofs Integrity PagerIo.

Local Open Scope Z_scope.

(** ** Files *)

(** Writing [d] at offset [o]; a gap is filled with zeros. *)
Definition file_put (f d : list Z) (o : Z) : list Z :=
  let n := Z.to_nat o in
  take n (f ++ replicate (n - length f) 0) ++ d ++ drop (n + length d) f.

(** A file system that does not fail. *)
Definition disk_ok (os_write : list Z -> list Z -> Z -> Z * list Z) : Prop :=
  forall f d o, 0 <= o -> os_write f d o = (SQLITE_OK, file_put f d o).

Lemma take_padded (f : list Z) n : length (take n (f ++ replicate (n - length f) 0)) = n.
Proof. rewrite length_take, length_app, length_replicate. lia. Qed.

Lemma length_file_put f d o :
  length (file_put f d o) = Nat.max (length f) (Z.to_nat o + length d).
Proof. unfold file_put. rewrite !length_app, take_padded, length_drop. lia. Qed.

(** The bytes written. *)
Lemma file_put_at f d o : take (length d) (drop (Z.to_nat o) (file_put f d o)) = d.
Proof.
  unfold file_put. rewrite drop_app_length' by by rewrite take_padded. by rewrite take_app_length.
Qed.

(** Bytes [k .. k + n) before the written ones stay. *)
Lemma file_put_before f d o (k n : nat) :
  (k + n <= Z.to_nat o)%nat -> (k + n <= length f)%nat ->
  take n (drop k (file_put f d o)) = take n (drop k f).
Proof.
  intros Ho Hf. unfold file_put. rewrite drop_app_le by (rewrite take_padded; lia).
  rewrite take_app_le by (rewrite length_drop, take_padded; lia).
  rewrite skipn_firstn_comm, take_take, Nat.min_l by lia.
  rewrite drop_app_le, take_app_le by (rewrite ?length_drop; lia). done.
Qed.

(** Bytes after the written ones stay. *)
Lemma file_put_after f d o (k n : nat) :
  (Z.to_nat o + length d <= k)%nat -> (k + n <= length f)%nat ->
  take n (drop k (file_put f d o)) = take n (drop k f).
Proof.
  intros Ho Hf. unfold file_put. rewrite app_assoc, drop_app_ge by (rewrite length_app, take_padded; lia).
  rewrite drop_drop, length_app, take_padded. do 2 f_equal. lia.
Qed.

(** Pages of a file that is written page by page. *)
Section file.
  Context (P : Z) (HP : 0 < P).

Lemma page_put_same f d (i : Z) :
    0 <= i -> Z.of_nat (length d) = P -> file_page P (file_put f d (i * P)) (Z.to_nat i) = d.
  Proof using HP.
    intros Hi Hd. unfold file_page. replace (Z.to_nat i * Z.to_nat P)%nat with (Z.to_nat (i * P)) by nia.
    replace (Z.to_nat P) with (length d) by lia. apply file_put_at.
  Qed.

Lemma page_put_other f d (i j : Z) :
    0 <= i -> 0 <= j -> i <> j -> Z.of_nat (length d) = P ->
    Z.of_nat (length (file_page P f (Z.to_nat j))) = P ->
    file_page P (file_put f d (i * P)) (Z.to_nat j) = file_page P f (Z.to_nat j).
  Proof using HP.
    intros Hi Hj Hij Hd Hl. unfold file_page in *. rewrite length_take, length_drop in Hl.
    replace (Z.to_nat j * Z.to_nat P)%nat with (Z.to_nat (j * P)) in * by nia.
    destruct (decide (j < i)); [apply file_put_before|apply file_put_after]; nia.
  Qed.

Lemma page_read f (i : Z) :
    0 <= i -> Z.of_nat (length (file_page P f (Z.to_nat i))) = P ->
    sqlite3OsRead f P (i * P) = (SQLITE_OK, file_page P f (Z.to_nat i)).
  Proof using HP.
    intros Hi Hl. unfold sqlite3OsRead, file_page in *.
    replace (Z.to_nat i * Z.to_nat P)%nat with (Z.to_nat (i * P)) in * by nia.
    by rewrite Hl, Z.eqb_refl.
  Qed.
End file.

(** Writing into a buffer changes the written bytes only. *)
Lemma buf_write_lookup off bs b w :
  0 <= off -> off + Z.of_nat (length bs) <= Z.of_nat (length b) -> bytes bs -> bytes b ->
  exists b', buf_write off bs b w = Done (b', w) /\ length b' = length b /\ bytes b' /\
    forall i : nat, (Z.of_nat i < off \/ off + Z.of_nat (length bs) <= Z.of_nat i) -> b' !! i = b !! i.
Proof.
  intros H0 Hl Hbs Hb. unfold buf_write. replace (_ || _) with false by lia.
  eexists. split; [reflexivity|]. split; [rewrite !length_app, length_take, length_drop; lia|]. split.
  { rewrite !Forall_app. auto using Forall_take, Forall_drop. }
  intros i [Hi|Hi].
  - rewrite lookup_app_l by (rewrite length_take; lia). apply lookup_take_lt. lia.
  - rewrite app_assoc, lookup_app_r by (rewrite length_app, length_take; lia).
    rewrite length_app, length_take, lookup_drop. f_equal. lia.
Qed.

Section proofs.
Context {OS : OpenSSL} {L : OpenSSLLaws OS} {W : OpenSSLWorks OS} {NH : NodeHash}.

(** ** Pages on disk *)

(** [page] is what the codec stores for page [pgno] with contents [d]: encrypted
    and authenticated with the keys [c], its leaf among [ls]. *)
Definition sealed (ctx : codec_ctx) (c : cipher_ctx) (ls : list (list Z)) (P pgno : Z) (d page : list Z)
  : Prop :=
  exists p rb r r' ct mac i,
    let size := P - Z.of_nat (head_size pgno) - 96 in
    Z.of_nat (length d) = P /\ bytes (take (Z.to_nat (P - 96)) d) /\ (pgno = 1 -> take 16 d = SQLITE_FILE_HEADER) /\
    drop (head_size pgno) d = join p /\ parts_ok size p /\
    RAND_bytes r 96 = (Some rb, r') /\
    EVP_Cipher CIPHER_ENCRYPT (enc_key c) (take 16 rb) (pp_data p) = Some ct /\
    page_mac ctx c pgno ct (take 16 rb) = Some mac /\
    ls !! i = Some (leaf mac) /\
    page = take (head_size pgno) (kdf_salt ctx) ++ enc_page ct rb mac (Z.of_nat i).

Lemma sealed_ext ctx ctx' c ls more P pgno d page :
  flags ctx' = flags ctx -> kdf_salt ctx' = kdf_salt ctx ->
  sealed ctx c ls P pgno d page -> sealed ctx' c (ls ++ more) P pgno d page.
Proof.
  intros Hf Hs (p & rb & r & r' & ct & mac & i & H1 & H2 & H3 & H4 & H5 & H6 & H7 & H8 & H9 & H10).
  exists p, rb, r, r', ct, mac, i. unfold page_mac, pgno_raw in *. rewrite Hf, Hs.
  split_and!; try done. by apply lookup_app_l_Some.
Qed.

Lemma head_le pgno : (head_size pgno <= 16)%nat.
Proof. destruct (head_size_cases pgno) as [[-> _]|[-> _]]; lia. Qed.

(** Lengths of the pieces of a sealed page. *)
Lemma sealed_length ctx c ls P pgno d page :
  16 + 96 <= P -> length (kdf_salt ctx) = 16%nat -> sealed ctx c ls P pgno d page ->
  Z.of_nat (length page) = P.
Proof.
  intros HP Hs (p & rb & r & r' & ct & mac & i & _ & _ & _ & _ & Hp & Hr & He & Hm & _ & ->).
  destruct (RAND_length _ _ _ _ Hr) as [Hrl _]. destruct (mac_parts _ _ _ _ Hm eq_refl) as [Hml _].
  assert (Hl := length_join _ _ (enc_page_parts ct rb mac (Z.of_nat i) _ p _ _ Hp He ltac:(lia) Hml)).
  pose proof (head_le pgno). rewrite length_app, length_take, Hs. unfold enc_page. lia.
Qed.

(** A sealed page is read back by whoever has the keys and a tree with its
    leaf. *)
Lemma sealed_read g st P c ls pgno d page mt n w :
  ctx_open (cs_ctx st) P c c -> ctx_tree (cs_ctx st) mt n -> readable mt ls ->
  sealed (cs_ctx st) c ls P pgno d page ->
  exists st' data, sqlite3Codec g st page pgno CODEC_READ_OP w = Done ((RetData, st', data), w) /\
    take (Z.to_nat (P - 96)) data = take (Z.to_nat (P - 96)) d /\ Z.of_nat (length data) = P /\
    cs_env st' = cs_env st /\ cs_ctx st' = set_buffer (cs_ctx st) (Some data).
Proof.
  intros Hopen Htree Hread Hsl. pose proof (op_room _ _ _ _ Hopen) as HP.
  pose proof (sealed_length _ _ _ _ _ _ _ HP (op_salt _ _ _ _ Hopen) Hsl) as Hpl.
  destruct Hsl as (p & rb & r & r' & ct & mac & i & Hd & Hb & Hh & Hj & Hp & Hr & He & Hm & Hi & Hpage).
  destruct (op_buffer _ _ _ _ Hopen) as (buf & Hbuf & Hbl). pose proof (head_le pgno) as Hoff.
  set (off := head_size pgno) in *. set (size := P - Z.of_nat off - 96) in *.
  assert (Hrd : reader (cs_ctx st) c st c ls)
    by (split; [apply Hopen|done|apply Hopen|done|done|by exists mt, n]).
  assert (Hbd : bytes (pp_data p)).
  { destruct Hp as (Hpd & _). replace (pp_data p) with (take (Z.to_nat size) (join p))
      by (unfold join; apply take_app_length'; lia).
    rewrite <- Hj, take_drop_commute. apply Forall_drop.
    by replace (off + Z.to_nat size)%nat with (Z.to_nat (P - 96)) by lia. }
  destruct (enc_page_read (cs_ctx st) c st c ls pgno size p rb r r' ct mac i (drop off buf) w Hp Hbd)
    as (st2 & out & Hrun & Hol & Htk & Hctx & Henv); [lia|done..|rewrite length_drop; lia|].
  assert (Hdrop : drop off page = enc_page ct rb mac (Z.of_nat i)).
  { rewrite Hpage. apply drop_app_length'. rewrite length_take, (op_salt _ _ _ _ Hopen). fold off. lia. }
  rewrite <- Hdrop in Hrun.
  pose proof (hook_read g st P c c pgno Hopen page buf Hpl Hbuf SQLITE_OK st2 out w w Hrun Hol) as Hrun'.
  change (SQLITE_OK =? SQLITE_OK) with true in Hrun'. cbv iota zeta in Hrun'. fold off in Hrun'.
  eexists _, _. split; [exact Hrun'|]. split.
  { replace (Z.to_nat (P - 96)) with (off + Z.to_nat size)%nat by lia. apply rejoin; [done|lia|].
    fold off. rewrite Htk, Hj. unfold join. rewrite take_app_length'; [done|].
    destruct Hp as (Hpd & _). lia. }
  split; [|split; [done|by cbn; rewrite Hctx]].
  rewrite length_app, length_take. change (length SQLITE_FILE_HEADER) with 16%nat. lia.
Qed.

(** The codec seals a page, for the database file or for the journal. *)
Lemma seal g st P c mode pgno d mt ls w :
  mode = CODEC_WRITE_OP \/ mode = CODEC_JOURNAL_OP ->
  ctx_open (cs_ctx st) P c c -> (16 | P) -> length (enc_key c) = 32%nat ->
  Z.of_nat (length d) = P -> bytes (take (Z.to_nat (P - 96)) d) -> (pgno = 1 -> take 16 d = SQLITE_FILE_HEADER) ->
  ctx_tree (cs_ctx st) mt (Z.of_nat (length ls)) -> tree_rep mt ls ->
  Z.of_nat (S (length ls)) < MT_AL_MAX_ELEMS -> all_ok w ->
  exists st1 w1 page l mt1,
    sqlite3Codec g st d pgno mode w = Done ((RetBuffer, st1, d), w1) /\ all_ok w1 /\
    buffer (cs_ctx st1) = Some page /\ sealed (cs_ctx st1) c (ls ++ [l]) P pgno d page /\
    ctx_open (cs_ctx st1) P c c /\ cs_env st1 = cs_env st /\
    flags (cs_ctx st1) = flags (cs_ctx st) /\ kdf_salt (cs_ctx st1) = kdf_salt (cs_ctx st) /\
    ctx_tree (cs_ctx st1) mt1 (Z.of_nat (S (length ls))) /\ tree_rep mt1 (ls ++ [l]).
Proof using L W.
  intros Hmode Hopen H16 Hk Hd Hb Hh Htree Hrep Hroom Hw. pose proof (op_room _ _ _ _ Hopen) as HP.
  pose proof (head_le pgno) as Hoff. set (size := P - Z.of_nat (head_size pgno) - 96).
  destruct (split_page (drop (head_size pgno) d) size) as (p & Hj & Hp); [lia|rewrite length_drop; lia|].
  destruct (RAND_works (cs_rng st) 96 ltac:(lia)) as (rb & r' & Hr).
  destruct (RAND_length _ _ _ _ Hr) as [Hrl _].
  destruct (cipher_works CIPHER_ENCRYPT (enc_key c) (take 16 rb) (pp_data p)) as (ct & He);
    [done|rewrite length_take; lia| |].
  { destruct Hp as (-> & _). unfold size. apply Z.divide_sub_r; [|by exists 6]. apply Z.divide_sub_r; [done|].
    destruct (head_size_cases pgno) as [[-> _]|[-> _]]; [by exists 1|by exists 0]. }
  destruct (HMAC_works Sha512 (mac_key c) ((ct ++ take 16 rb) ++ pgno_raw (cs_ctx st) pgno)) as (mac & Hm).
  destruct (codec_encrypt_spec g st P c mode pgno d p size mt ls rb r' ct mac w)
    as (st1 & w1 & Hrun & Hbuf & _ & _ & Hopen1 & _ & Henv & Hw1 & (t & Hctx) & mt1 & Htree1 & Hrep1); [done..|].
  exists st1, w1. eexists _, (leaf mac), mt1. split_and!; try done; try (by rewrite Hctx).
  exists p, rb, (cs_rng st), r', ct, mac, (length ls). split_and!; try done.
  - unfold page_mac, pgno_raw. by rewrite Hctx.
  - by rewrite lookup_app_r, Nat.sub_diag by lia.
  - by rewrite Hctx.
Qed.

(** ** The abstraction *)

(** The pager's file, with the keys [c] and the leaves [ls], holds [pages]. *)
Record image (p : pager) (c : cipher_ctx) (ls : list (list Z)) (pages : gmap Z (list Z)) : Prop := {
  im_codec : px_codec p = true;
  im_open : ctx_open (cs_ctx (px_cst p)) (px_pageSize p) c c;
  im_tree : exists mt, ctx_tree (cs_ctx (px_cst p)) mt (Z.of_nat (length ls)) /\ readable mt ls;
  im_file : exists f, px_fd p = Some f /\ forall pgno d, pages !! pgno = Some d -> 1 <= pgno /\
    sealed (cs_ctx (px_cst p)) c ls (px_pageSize p) pgno d
      (file_page (px_pageSize p) f (Z.to_nat (pgno - 1)));
}.

(** What writing needs besides: a tree that can grow and keys and pages the cipher
    takes. *)
Record grows (p : pager) (c : cipher_ctx) (ls : list (list Z)) : Prop := {
  gr_tree : exists mt, ctx_tree (cs_ctx (px_cst p)) mt (Z.of_nat (length ls)) /\ tree_rep mt ls;
  gr_block : (16 | px_pageSize p);
  gr_key : length (enc_key c) = 32%nat;
}.

(** A page that can be written. *)
Record page_ok (P : Z) (h : PgHdr) : Prop := {
  pk_pgno : 1 <= hdr_pgno h;
  pk_length : Z.of_nat (length (hdr_pData h)) = P;
  pk_bytes : bytes (hdr_pData h);
  pk_header : hdr_pgno h = 1 -> take 16 (hdr_pData h) = SQLITE_FILE_HEADER;
}.

(** A page of the cache: its reserve may hold anything. *)
Record page_held (P : Z) (h : PgHdr) : Prop := {
  ph_pgno : 1 <= hdr_pgno h;
  ph_length : Z.of_nat (length (hdr_pData h)) = P;
  ph_bytes : bytes (take (Z.to_nat (P - 96)) (hdr_pData h));
  ph_header : hdr_pgno h = 1 -> take 16 (hdr_pData h) = SQLITE_FILE_HEADER;
}.

Lemma page_ok_held P h : page_ok P h -> page_held P h.
Proof. intros []. split; try done. by apply Forall_take. Qed.

(** The usable bytes decide. *)
Lemma page_held_usable P h h' :
  page_held P h -> 16 + 96 <= P -> hdr_pgno h' = hdr_pgno h -> Z.of_nat (length (hdr_pData h')) = P ->
  take (Z.to_nat (P - 96)) (hdr_pData h') = take (Z.to_nat (P - 96)) (hdr_pData h) -> page_held P h'.
Proof.
  intros [H1 H2 H3 H4] HP Hn Hl Heq. split; [by rewrite Hn|done|by rewrite Heq|].
  rewrite Hn. intros Hp. rewrite <- (H4 Hp). replace 16%nat with (Nat.min 16 (Z.to_nat (P - 96))) by lia.
  by rewrite <- !take_take, Heq.
Qed.

(** The pager after the codec has sealed a page: a leaf more. *)
Record advanced (p : pager) (c : cipher_ctx) (ls : list (list Z)) (pages : gmap Z (list Z))
    (p' : pager) (ls' : list (list Z)) : Prop := {
  ad_image : image p' c ls' pages;
  ad_grows : grows p' c ls';
  ad_length : (length ls' <= S (length ls))%nat;
  ad_prefix : ls `prefix_of` ls';
  ad_flags : flags (cs_ctx (px_cst p')) = flags (cs_ctx (px_cst p));
  ad_salt : kdf_salt (cs_ctx (px_cst p')) = kdf_salt (cs_ctx (px_cst p));
  ad_page : px_pageSize p' = px_pageSize p;
  ad_size : px_dbSize p' = px_dbSize p;
  ad_state : px_state p' = px_state p;
  ad_env : cs_env (px_cst p') = cs_env (px_cst p);
}.

(** The journals and the savepoints are beside the point. *)
Lemma advanced_put p c ls pages p' ls' j t :
  advanced p c ls pages p' ls' -> advanced p c ls pages (put_tx (put_journal p' j) t) ls'.
Proof. intros [[] [] ? ? ? ? ? ? ? ?]. by repeat (split; try done). Qed.

(** The codec seals a page of the cache. *)
Lemma codec_seals g p h c mode ls pages w :
  mode = CODEC_WRITE_OP \/ mode = CODEC_JOURNAL_OP ->
  image p c ls pages -> grows p c ls -> page_held (px_pageSize p) h ->
  Z.of_nat (S (length ls)) < MT_AL_MAX_ELEMS -> all_ok w ->
  exists st1 w1 page ls1,
    CODEC2 g p (hdr_pData h) (hdr_pgno h) mode w = Done ((Some page, put_cst p st1, hdr_pData h), w1) /\
    all_ok w1 /\ Z.of_nat (length page) = px_pageSize p /\
    sealed (cs_ctx st1) c ls1 (px_pageSize p) (hdr_pgno h) (hdr_pData h) page /\
    advanced p c ls pages (put_cst p st1) ls1.
Proof using L W.
  intros Hmode Him Hgr [Hpg Hl Hb Hh] Hroom Hw. pose proof Him as [Hc Hopen _ (f & Hf & Hpages)].
  pose proof Hgr as [(mt & Htree & Hrep) H16 Hk]. pose proof (op_room _ _ _ _ Hopen) as HP.
  destruct (seal g (px_cst p) (px_pageSize p) c mode (hdr_pgno h) (hdr_pData h) mt ls w)
    as (st1 & w1 & page & l & mt1 & Hrun & Hw1 & Hbuf & Hsl & Hopen1 & Henv & Hfl & Hsalt & Htree1 & Hrep1); [done..|].
  pose proof (sealed_length _ _ _ _ _ _ _ HP (op_salt _ _ _ _ Hopen1) Hsl) as Hpl.
  assert (Hlen : Z.of_nat (length (ls ++ [l])) = Z.of_nat (S (length ls))) by (rewrite length_app; cbn; lia).
  exists st1, w1, page, (ls ++ [l]). split.
  { unfold CODEC2. rewrite Hc. cbn [negb]. rewrite (bind_done _ _ _ _ _ Hrun). by rewrite Hbuf. }
  split; [done|]. split; [done|]. split; [done|]. split; try done; [| |rewrite length_app; cbn; lia|by exists [l]].
  - split; [done|exact Hopen1|exists mt1; rewrite Hlen; split; [exact Htree1|by left]|].
    exists f. unfold px_fd in *. cbn [put_cst px_cst px_pageSize]. rewrite Henv. split; [done|].
    intros q d Hq. destruct (Hpages q d Hq) as [Hq1 Hqs]. split; [done|]. by eapply sealed_ext.
  - split; [exists mt1; rewrite Hlen; by split|done|done].
Qed.

(** The image does not depend on the page buffer or the version seen last. *)
Lemma image_buffer p p' c ls pages data :
  image p c ls pages -> px_codec p' = px_codec p -> px_pageSize p' = px_pageSize p -> px_fd p' = px_fd p ->
  cs_ctx (px_cst p') = set_buffer (cs_ctx (px_cst p)) (Some data) ->
  Z.of_nat (length data) = px_pageSize p -> image p' c ls pages.
Proof.
  intros [Hc Hopen (mt & Htree & Hread) (f & Hf & Hpages)] Hc' HP Hf' Hctx Hl.
  split; [congruence| |exists mt; by rewrite Hctx|exists f; rewrite Hf', HP, Hctx; by split].
  rewrite Hctx, HP. destruct Hopen as [[] ? ? ? ? ? ? ? ? ? ?]. split; try done. by exists data.
Qed.

(** The pager may be in the error state only if it was. *)
Definition same_errors (p p' : pager) : Prop :=
  pager_error (cs_env (px_cst p')) = pager_error (cs_env (px_cst p)) /\
  pager_errCode (cs_env (px_cst p')) = pager_errCode (cs_env (px_cst p)).

(** What reading and playing back leave alone. *)
Record kept (p p' : pager) : Prop := {
  kp_page : px_pageSize p' = px_pageSize p;
  kp_size : px_dbSize p' = px_dbSize p;
  kp_state : px_state p' = px_state p;
  kp_journal : px_journal p' = px_journal p;
  kp_tx : px_tx p' = px_tx p;
  kp_tree : tree (cs_ctx (px_cst p')) = tree (cs_ctx (px_cst p));
  kp_flags : flags (cs_ctx (px_cst p')) = flags (cs_ctx (px_cst p));
  kp_salt : kdf_salt (cs_ctx (px_cst p')) = kdf_salt (cs_ctx (px_cst p));
  kp_errors : same_errors p p';
}.

Lemma kept_trans p p1 p2 : kept p p1 -> kept p1 p2 -> kept p p2.
Proof.
  intros [? ? ? ? ? ? ? ? [? ?]] [? ? ? ? ? ? ? ? [? ?]]. split; [congruence..|]. split; congruence.
Qed.

Lemma grows_kept p p' c ls : kept p p' -> grows p c ls -> grows p' c ls.
Proof.
  intros [HP _ _ _ _ Ht _ _ _] [(mt & Htree & Hrep) H16 Hk]. split; [|by rewrite HP|done].
  exists mt. unfold ctx_tree in *. by rewrite Ht.
Qed.

(** Reading looks the page up. *)
Lemma image_read g p c ls pages pgno d h w :
  image p c ls pages -> pages !! pgno = Some d -> hdr_pgno h = pgno ->
  exists p' h', readDbPage g p h w = Done ((SQLITE_OK, p', h'), w) /\
    hdr_pgno h' = pgno /\ Z.of_nat (length (hdr_pData h')) = px_pageSize p /\
    take (Z.to_nat (px_pageSize p - 96)) (hdr_pData h') = take (Z.to_nat (px_pageSize p - 96)) d /\
    image p' c ls pages /\ kept p p' /\ hdr_flags h' = hdr_flags h /\ cs_env (px_cst p') = cs_env (px_cst p).
Proof.
  intros [Hc Hopen (mt & Htree & Hread) (f & Hf & Hpages)] Hd Hh.
  pose proof (op_room _ _ _ _ Hopen) as HP. set (P := px_pageSize p) in *.
  destruct (Hpages pgno d Hd) as [Hpg Hsl].
  pose proof (sealed_length _ _ _ _ _ _ _ HP (op_salt _ _ _ _ Hopen) Hsl) as Hpl.
  destruct (sealed_read g (px_cst p) P c ls pgno d _ mt _ w Hopen Htree Hread Hsl)
    as (st' & data & Hrun & Htk & Hl & Henv & Hctx).
  unfold readDbPage. rewrite Hf, Hh. fold P. rewrite (page_read P ltac:(lia) f (pgno - 1)) by (done || lia).
  change (SQLITE_OK =? SQLITE_IOERR_SHORT_READ) with false. cbv iota.
  assert (Hv : exists vers, (if pgno =? 1 then
      if SQLITE_OK =? SQLITE_OK then buf_read 24 16 (file_page P f (Z.to_nat (pgno - 1)))
      else mret (replicate 16 255) else mret (px_dbFileVers p)) w = Done (vers, w)).
  { destruct (pgno =? 1); [|by eexists]. change (SQLITE_OK =? SQLITE_OK) with true. cbv iota.
    unfold buf_read. rewrite Hpl. replace (_ || _) with false by lia. by eexists. }
  destruct Hv as (vers & Hv). rewrite (bind_done _ _ _ _ _ Hv).
  assert (Hcodec : CODEC1 g (put_vers p vers) (file_page P f (Z.to_nat (pgno - 1))) pgno CODEC_READ_OP w
    = Done ((true, put_cst (put_vers p vers) st', data), w)).
  { unfold CODEC1, CODEC2. change (px_codec (put_vers p vers)) with (px_codec p). rewrite Hc. cbn [negb].
    change (px_cst (put_vers p vers)) with (px_cst p). by rewrite bind_assoc, (bind_done _ _ _ _ _ Hrun). }
  rewrite (bind_done _ _ _ _ _ Hcodec). eexists _, _. split; [reflexivity|].
  split; [done|]. split; [done|]. split; [done|]. split; [|split; [|done]].
  - apply (image_buffer p) with data; try done; [by split; [..|exists mt|exists f]|].
    unfold px_fd. cbn [put_cst px_cst]. by rewrite Henv.
  - split; try done; unfold same_errors; cbn [put_cst px_cst]; by rewrite ?Hctx, ?Henv.
Qed.

(** [h'] is [h], but on page 1 the change counter and the version are set. *)
Record stamped (h h' : PgHdr) : Prop := {
  sp_pgno : hdr_pgno h' = hdr_pgno h;
  sp_flags : hdr_flags h' = hdr_flags h;
  sp_same : hdr_pgno h <> 1 -> hdr_pData h' = hdr_pData h;
  sp_rest : forall i : nat, ~ (24 <= i < 28)%nat -> ~ (92 <= i < 100)%nat ->
    hdr_pData h' !! i = hdr_pData h !! i;
}.

Lemma put4_ok v : length (sqlite3Put4byte v) = 4%nat /\ bytes (sqlite3Put4byte v).
Proof. rewrite put4byte_be_bytes. split; [apply length_be_bytes|apply be_bytes_bytes]. Qed.

Lemma changecounter_ok p d w :
  bytes d -> (112 <= length d)%nat ->
  exists d', pager_write_changecounter p d w = Done (d', w) /\ length d' = length d /\ bytes d' /\
    forall i : nat, ~ (24 <= i < 28)%nat -> ~ (92 <= i < 100)%nat -> d' !! i = d !! i.
Proof.
  intros Hb Hl. unfold pager_write_changecounter. set (cc := u32 _).
  destruct (put4_ok cc) as [H4 Hb4]. destruct (put4_ok SQLITE_VERSION_NUMBER) as [Hv Hvb].
  destruct (buf_write_lookup 24 (sqlite3Put4byte cc) d w) as (d1 & E1 & L1 & B1 & K1); [lia|lia|done..|].
  destruct (buf_write_lookup 92 (sqlite3Put4byte cc) d1 w) as (d2 & E2 & L2 & B2 & K2); [lia|lia|done..|].
  destruct (buf_write_lookup 96 (sqlite3Put4byte SQLITE_VERSION_NUMBER) d2 w) as (d3 & E3 & L3 & B3 & K3);
    [lia|lia|done..|].
  rewrite (bind_done _ _ _ _ _ E1), (bind_done _ _ _ _ _ E2). exists d3. split; [done|].
  split; [lia|]. split; [done|]. intros i Hi1 Hi2. rewrite K3, K2, K1 by lia. done.
Qed.

(** The bytes at [off] replaced. *)
Definition patch (off : nat) (bs d : list Z) : list Z := take off d ++ bs ++ drop (off + length bs) d.

(** What is written of a page of the cache: page 1 gets the number that follows the
    one in [vers], the version seen last, as its change counter and as the number
    for which its version is valid, and the version of SQLite. *)
Definition stamp (vers : list Z) (h : PgHdr) : PgHdr :=
  if hdr_pgno h =? 1 then
    let counter := sqlite3Put4byte (u32 (sqlite3Get4byte vers + 1)) in
    Mk_hdr (hdr_pgno h)
      (patch 96 (sqlite3Put4byte SQLITE_VERSION_NUMBER) (patch 92 counter (patch 24 counter (hdr_pData h))))
      (hdr_flags h)
  else h.

(** Pages that are not written stay as they are. *)
Definition stamp_dirty (dbSize : Z) (vers : list Z) (h : PgHdr) : PgHdr :=
  if (hdr_pgno h <=? dbSize) && (Z.land (hdr_flags h) PGHDR_DONT_WRITE =? 0) then stamp vers h else h.

Lemma stamp_not1 n vers h : hdr_pgno h <> 1 -> stamp_dirty n vers h = h.
Proof. intros Hh. unfold stamp_dirty, stamp. replace (hdr_pgno h =? 1) with false by lia. by destruct (_ && _). Qed.

Lemma buf_write_patch off bs b w b' w' :
  0 <= off -> buf_write off bs b w = Done (b', w') -> b' = patch (Z.to_nat off) bs b.
Proof. intros H0. unfold buf_write, patch. destruct (_ || _); [done|]. by intros [= <- _]. Qed.

Lemma changecounter_stamp p h d w w' :
  hdr_pgno h = 1 -> pager_write_changecounter p (hdr_pData h) w = Done (d, w') ->
  Mk_hdr (hdr_pgno h) d (hdr_flags h) = stamp (px_dbFileVers p) h.
Proof.
  intros Hh. unfold pager_write_changecounter, stamp. rewrite Hh. change (1 =? 1) with true. cbv iota zeta.
  set (cc := sqlite3Put4byte (u32 _)). intros H. unfold mbind at 1, M_bind in H.
  destruct (buf_write 24 cc (hdr_pData h) w) as [[d1 w1]|] eqn:E1; [|done]. unfold mbind, M_bind in H.
  destruct (buf_write 92 cc d1 w1) as [[d2 w2]|] eqn:E2; [|done].
  apply buf_write_patch in E1 as ->; [|lia]. apply buf_write_patch in E2 as ->; [|lia].
  by apply buf_write_patch in H as ->.
Qed.

Lemma stamp_page p h P w :
  page_ok P h -> 112 <= P ->
  exists d, (if hdr_pgno h =? 1 then pager_write_changecounter p (hdr_pData h) else mret (hdr_pData h)) w
    = Done (d, w) /\ stamped h (Mk_hdr (hdr_pgno h) d (hdr_flags h)) /\
    page_ok P (Mk_hdr (hdr_pgno h) d (hdr_flags h)) /\
    Mk_hdr (hdr_pgno h) d (hdr_flags h) = stamp (px_dbFileVers p) h.
Proof.
  intros [Hpg Hl Hb Hh] HP. destruct (hdr_pgno h =? 1) eqn:E.
  2:{ eexists; split; [reflexivity|]. unfold stamp. rewrite E. by destruct h. }
  destruct (changecounter_ok p (hdr_pData h) w Hb) as (d & Ed & Hdl & Hdb & Hlk); [lia|].
  exists d. split; [exact Ed|]. split; [split; (done || (cbn; lia))|].
  split; [|eapply changecounter_stamp; [lia|exact Ed]].
  split; cbn; [done|lia|done|]. intros H1. rewrite <- (Hh H1). apply list_eq. intros i.
  destruct (decide (i < 16)%nat); [rewrite !lookup_take_lt by done; apply Hlk; lia|].
  rewrite !lookup_take_ge by lia. done.
Qed.

(** ** Writing *)

(** The map after page [h] of the dirty list: pages past the end of the database
    and pages marked so are not written. *)
Definition store (dbSize : Z) (pages : gmap Z (list Z)) (h : PgHdr) : gmap Z (list Z) :=
  if (hdr_pgno h <=? dbSize) && (Z.land (hdr_flags h) PGHDR_DONT_WRITE =? 0)
  then <[hdr_pgno h := hdr_pData h]> pages else pages.

Section write.
  Context (os_write : list Z -> list Z -> Z -> Z * list Z) (Hos : disk_ok os_write).

  (** Everything [pager_write_pagelist] and its parts keep. *)
Record written_to (p : pager) (c : cipher_ctx) (ls ls' : list (list Z)) (p' : pager) (k : nat)
    (pages : gmap Z (list Z)) : Prop := {
    wt_image : image p' c ls' pages;
    wt_grows : grows p' c ls';
    wt_length : (length ls' <= length ls + k)%nat;
    wt_page : px_pageSize p' = px_pageSize p;
    wt_size : px_dbSize p' = px_dbSize p;
    wt_errors : same_errors p p';
    wt_flags : flags (cs_ctx (px_cst p')) = flags (cs_ctx (px_cst p));
    wt_salt : kdf_salt (cs_ctx (px_cst p')) = kdf_salt (cs_ctx (px_cst p));
    wt_prefix : ls `prefix_of` ls';
    wt_journal : px_journal p' = px_journal p;
    wt_state : px_state p' = px_state p;
  }.

Lemma write_dirty_ok g p h c ls pages w :
    image p c ls pages -> grows p c ls -> page_ok (px_pageSize p) h ->
    Z.of_nat (S (length ls)) < MT_AL_MAX_ELEMS -> all_ok w ->
    exists p' h' ls' w', write_dirty os_write g p h w = Done ((SQLITE_OK, p', h'), w') /\
      all_ok w' /\ stamped h h' /\ written_to p c ls ls' p' 1 (store (px_dbSize p) pages h') /\
      h' = stamp_dirty (px_dbSize p) (px_dbFileVers p) h /\
      (hdr_pgno h <> 1 -> px_dbFileVers p' = px_dbFileVers p).
  Proof using L W Hos.
    intros Him Hgr Hpk Hroom Hw. pose proof Him as [Hc Hopen _ (f & Hf & Hpages)].
    pose proof Hgr as [(mt & Htree & Hrep) H16 Hk]. pose proof (op_room _ _ _ _ Hopen) as HP.
    unfold write_dirty. destruct ((hdr_pgno h <=? px_dbSize p) && (Z.land (hdr_flags h) PGHDR_DONT_WRITE =? 0)) eqn:Eskip.
    2:{ exists p, h, ls, w. split; [done|]. split; [done|]. split; [done|]. unfold store, stamp_dirty. rewrite Eskip.
        split; [|done]. split; try done. lia. }
    destruct (stamp_page p h (px_pageSize p) w Hpk HP) as (d & Ed & Hst & [Hpg Hl Hb Hh] & Hstamp).
    rewrite (bind_done _ _ _ _ _ Ed). cbn [hdr_pgno hdr_pData] in *.
    destruct (codec_seals g p (Mk_hdr (hdr_pgno h) d (hdr_flags h)) c CODEC_WRITE_OP ls pages w)
      as (st1 & w1 & page & ls1 & Hcodec & Hw1 & Hpl & Hsl & [Him1 Hgr1 Hl1 Hpre Hfl Hsalt _ _ _ Henv]);
      [by left|done|done|by apply page_ok_held|done..|]. cbn [hdr_pgno hdr_pData put_cst px_cst] in *.
    rewrite (bind_done _ _ _ _ _ Hcodec). cbv iota beta.
    replace (px_fd (put_cst p st1)) with (Some f) by (unfold px_fd in *; cbn [put_cst px_cst]; by rewrite Henv).
    change (px_pageSize (put_cst p st1)) with (px_pageSize p).
    rewrite (bind_done _ _ _ _ _ (read_whole page _ w1 (eq_sym Hpl))), Hos by nia.
    assert (Hv : exists vers, (if hdr_pgno h =? 1 then buf_read 24 16 page
      else mret (px_dbFileVers (put_fd (put_cst p st1) (file_put f page ((hdr_pgno h - 1) * px_pageSize p))))) w1
      = Done (vers, w1) /\ (hdr_pgno h <> 1 -> vers = px_dbFileVers p)).
    { destruct (hdr_pgno h =? 1) eqn:E1; [|by eexists].
      unfold buf_read. replace (_ || _) with false by lia. eexists. split; [done|lia]. }
    destruct Hv as (vers & Hv & Hvers). rewrite (bind_done _ _ _ _ _ Hv).
    eexists _, _, ls1, w1. split; [reflexivity|]. split; [done|]. split; [done|].
    unfold store, stamp_dirty. cbn [hdr_pgno hdr_flags hdr_pData]. rewrite Eskip. split; [|by split].
    split; try done; [|by destruct Hgr1|lia|unfold same_errors; cbn; by rewrite Henv].
    destruct Him1 as [_ Hopen1 Htree1 (f1 & Hf1 & Hpages1)].
    split; [done|exact Hopen1|exact Htree1|].
    eexists. split; [reflexivity|]. intros q dq Hq.
    cbn [px_cst px_pageSize put_fd put_cst put_vers put_sizes put_nwrite cs_ctx].
    replace f1 with f in * by (unfold px_fd in *; cbn [put_cst px_cst] in Hf1; rewrite Henv in Hf1; congruence).
    destruct (decide (hdr_pgno h = q)) as [<-|Hne].
    - rewrite lookup_insert_eq in Hq. injection Hq as <-. split; [done|].
      rewrite page_put_same by lia. done.
    - rewrite lookup_insert_ne in Hq by done. destruct (Hpages1 q dq Hq) as [Hq1 Hqs]. split; [done|].
      rewrite page_put_other; [exact Hqs|lia..|].
      by eapply sealed_length; [exact HP|apply Hopen1|exact Hqs].
  Qed.

Lemma written_to_trans p c ls ls1 ls2 p1 p2 j k pages1 pages2 :
    written_to p c ls ls1 p1 j pages1 -> written_to p1 c ls1 ls2 p2 k pages2 ->
    written_to p c ls ls2 p2 (j + k) pages2.
  Proof.
    intros [_ _ H1 H2 H3 [H4 H5] H6 H7 H8 H9 H10] [I1 I2 I3 I4 I5 [I6 I7] I8 I9 I10 I11 I12].
    split; try done; [lia|congruence|congruence|split; congruence|congruence|congruence| |congruence|congruence].
    by transitivity ls1.
  Qed.

Lemma write_list_ok g pl c : forall p ls pages w,
    image p c ls pages -> grows p c ls -> Forall (page_ok (px_pageSize p)) pl ->
    Z.of_nat (length ls + length pl) < MT_AL_MAX_ELEMS -> all_ok w ->
    exists p' pl' ls' w', write_list os_write g p pl w = Done ((SQLITE_OK, p', pl'), w') /\
      all_ok w' /\ Forall2 stamped pl pl' /\
      written_to p c ls ls' p' (length pl) (foldl (store (px_dbSize p)) pages pl') /\
      (NoDup (hdr_pgno <$> pl) -> pl' = stamp_dirty (px_dbSize p) (px_dbFileVers p) <$> pl).
  Proof using L W Hos.
    induction pl as [|h pl IH]; intros p ls pages w Him Hgr Hpl Hroom Hw.
    { exists p, [], ls, w. split; [done|]. split; [done|]. split; [done|]. split; [|done]. split; try done. cbn. lia. }
    cbn [length] in Hroom. apply Forall_cons in Hpl as [Hh Hpl].
    destruct (write_dirty_ok g p h c ls pages w) as (p1 & h' & ls1 & w1 & E1 & Hw1 & Hst & Hwt & Hex & Hv1); [done..|lia|done|].
    pose proof Hwt as [Him1 Hgr1 Hl1 Hp1 Hs1 _ _ _ _ _ _].
    destruct (IH p1 ls1 (store (px_dbSize p) pages h') w1) as (p2 & pl' & ls2 & w2 & E2 & Hw2 & Hst2 & Hwt2 & Hex2);
      [done|done|by rewrite Hp1|lia|done|].
    exists p2, (h' :: pl'), ls2, w2. cbn [write_list]. rewrite (bind_done _ _ _ _ _ E1). cbv beta iota.
    change (SQLITE_OK =? SQLITE_OK) with true. cbv iota. rewrite (bind_done _ _ _ _ _ E2).
    split; [done|]. split; [done|]. split; [by constructor|]. cbn [foldl length].
    rewrite Hs1 in Hwt2. split; [by apply (written_to_trans p c ls ls1 ls2 p1 p2 1 (length pl) (store (px_dbSize p) pages h'))|].
    intros [Hin Hnd]%NoDup_cons. cbn. f_equal; [done|]. rewrite (Hex2 Hnd), Hs1. apply list_fmap_ext. intros j h2 Hj.
    destruct (decide (hdr_pgno h = 1)) as [H1|H1]; [|by rewrite Hv1].
    rewrite !stamp_not1; [done|..]; intros H2; apply Hin; rewrite H1, <- H2; apply list_elem_of_fmap_2;
      by eapply list_elem_of_lookup_2.
  Qed.

(** The size hint changes nothing that matters. *)
Lemma hint_keeps p r a n c ls pages :
    image p c ls pages -> grows p c ls -> written_to p c ls ls (put_sizes p r a n) 0 pages.
  Proof. intros [] []. repeat (split; try done). cbn. lia. Qed.

Lemma write_pagelist_ok g ot p pl c ls pages w :
    image p c ls pages -> grows p c ls -> Forall (page_ok (px_pageSize p)) pl ->
    Z.of_nat (length ls + length pl) < MT_AL_MAX_ELEMS -> all_ok w ->
    exists p' pl' ls' w', pager_write_pagelist os_write g ot p pl w = Done ((SQLITE_OK, p', pl'), w') /\
      all_ok w' /\ Forall2 stamped pl pl' /\
      written_to p c ls ls' p' (length pl) (foldl (store (px_dbSize p)) pages pl') /\
      (NoDup (hdr_pgno <$> pl) -> pl' = stamp_dirty (px_dbSize p) (px_dbFileVers p) <$> pl).
  Proof using L W Hos.
    intros Him Hgr Hpl Hroom Hw. pose proof Him as [_ _ _ (f & Hf & _)].
    unfold pager_write_pagelist. rewrite Hf. cbv zeta. change (SQLITE_OK =? SQLITE_OK) with true. cbv iota.
    match goal with |- context [write_list os_write g ?q pl w] =>
      assert (Hq : written_to p c ls ls q 0 pages /\ px_dbFileVers q = px_dbFileVers p) end.
    { destruct pl; [|destruct (_ && _)]; (split; [|done]); try (by apply hint_keeps); split; try done; lia. }
    set (q := match pl with [] => p | _ => _ end) in *.
    destruct Hq as [Hq Hvq].
    destruct (write_list_ok g pl c q ls pages w) as (p' & pl' & ls' & w' & E & Hw' & Hst & Hwt & Hex);
      [apply Hq|apply Hq|by rewrite (wt_page _ _ _ _ _ _ _ Hq)|done|done|].
    rewrite (wt_size _ _ _ _ _ _ _ Hq) in Hwt, Hex. rewrite Hvq in Hex.
    exists p', pl', ls', w'. split_and!; try done. by eapply (written_to_trans p c ls ls ls' q p' 0).
  Qed.

(** ** Several transactions *)

(** The dirty lists of several commits, written one after the other. *)
Fixpoint commits (g : globals) (p : pager) (pls : list (list PgHdr)) : M (Z * pager * list (list PgHdr)) :=
    match pls with
    | [] => mret (SQLITE_OK, p, [])
    | pl :: pls =>
        '(rc, p, pl) ← pager_write_pagelist os_write g SQLITE_OK p pl;
        if rc =? SQLITE_OK then
          '(rc, p, pls) ← commits g p pls;
          mret (rc, p, pl :: pls)
        else mret (rc, p, pl :: pls)
    end.

Lemma commits_ok g pls c : forall p ls pages w,
    image p c ls pages -> grows p c ls -> Forall (page_ok (px_pageSize p)) (concat pls) ->
    Z.of_nat (length ls + length (concat pls)) < MT_AL_MAX_ELEMS -> all_ok w ->
    exists p' pls' ls' w', commits g p pls w = Done ((SQLITE_OK, p', pls'), w') /\
      all_ok w' /\ Forall2 stamped (concat pls) (concat pls') /\
      written_to p c ls ls' p' (length (concat pls)) (foldl (store (px_dbSize p)) pages (concat pls')).
  Proof using L W Hos.
    induction pls as [|pl pls IH]; intros p ls pages w Him Hgr Hpl Hroom Hw.
    { exists p, [], ls, w. split; [done|]. split; [done|]. split; [done|]. split; try done. cbn. lia. }
    cbn [concat] in *. rewrite length_app in *. apply Forall_app in Hpl as [Hh Hpl].
    destruct (write_pagelist_ok g SQLITE_OK p pl c ls pages w)
      as (p1 & pl' & ls1 & w1 & E1 & Hw1 & Hst & Hwt & _); [done..|lia|done|].
    pose proof Hwt as [Him1 Hgr1 Hl1 Hp1 Hs1 _ _ _ _ _ _].
    destruct (IH p1 ls1 (foldl (store (px_dbSize p)) pages pl') w1)
      as (p2 & pls' & ls2 & w2 & E2 & Hw2 & Hst2 & Hwt2); [done|done|by rewrite Hp1|lia|done|].
    exists p2, (pl' :: pls'), ls2, w2. cbn [commits]. rewrite (bind_done _ _ _ _ _ E1). cbv beta iota.
    change (SQLITE_OK =? SQLITE_OK) with true. cbv iota. rewrite (bind_done _ _ _ _ _ E2).
    split; [done|]. split; [done|]. cbn [concat]. split; [by apply Forall2_app|].
    rewrite foldl_app. rewrite Hs1 in Hwt2.
    by apply (written_to_trans p c ls ls1 ls2 p1 p2 (length pl) (length (concat pls)) (foldl (store (px_dbSize p)) pages pl')).
  Qed.

End write.

(** Reading several pages, one after the other. *)
Fixpoint read_pages (g : globals) (p : pager) (pgnos : list Z) : M (list (Z * list Z) * pager) :=
  match pgnos with
  | [] => mret ([], p)
  | pgno :: pgnos =>
      '(rc, p, h) ← readDbPage g p (Mk_hdr pgno [] 0);
      '(ds, p) ← read_pages g p pgnos;
      mret ((rc, hdr_pData h) :: ds, p)
  end.

(** A page as the B-tree sees it: without the reserve. *)
Definition usable (P : Z) (d : list Z) : list Z := take (Z.to_nat (P - 96)) d.

Lemma read_pages_ok g pgnos c ls pages w : forall p,
  image p c ls pages -> Forall (fun pgno => is_Some (pages !! pgno)) pgnos ->
  exists ds p', read_pages g p pgnos w = Done ((ds, p'), w) /\
    Forall2 (fun pgno r => r.1 = SQLITE_OK /\
      usable (px_pageSize p) <$> pages !! pgno = Some (usable (px_pageSize p) r.2)) pgnos ds /\
    image p' c ls pages /\ px_pageSize p' = px_pageSize p /\ cs_env (px_cst p') = cs_env (px_cst p).
Proof using L.
  induction pgnos as [|pgno pgnos IH]; intros p Him Hall; [by exists [], p|].
  apply Forall_cons in Hall as [[d Hd] Hall].
  destruct (image_read g p c ls pages pgno d (Mk_hdr pgno [] 0) w) as (p1 & h1 & E1 & Hpg & _ & Htk & Him1 & [Hp1 _ _ _ _ _ _ _ _] & _ & He1);
    [done..|].
  destruct (IH p1 Him1 Hall) as (ds & p2 & E2 & Hds & Him2 & Hp2 & He2).
  exists ((SQLITE_OK, hdr_pData h1) :: ds), p2. cbn [read_pages].
  rewrite (bind_done _ _ _ _ _ E1), (bind_done _ _ _ _ _ E2). split; [done|].
  rewrite Hp1 in *. split; [|split; [done|split; congruence]].
  constructor; [|done]. split; [done|]. cbn [snd]. rewrite Hd. cbn. f_equal. symmetry. exact Htk.
Qed.

(** ** The theorem *)

(** What the pager is asked to do with the file: write a dirty list, or read a
    page.  Every operation gives a result code, pages and the pager after it. *)
Inductive file_op :=
  | WritePages (pl : list PgHdr)
  | ReadPage (pgno : Z).

Definition run_op os_write (g : globals) (p : pager) (o : file_op) : M (Z * list PgHdr * pager) :=
  match o with
  | WritePages pl => '(rc, p, pl) ← pager_write_pagelist os_write g SQLITE_OK p pl; mret (rc, pl, p)
  | ReadPage pgno => '(rc, p, h) ← readDbPage g p (Mk_hdr pgno [] 0); mret (rc, [h], p)
  end.

Fixpoint run_ops os_write (g : globals) (p : pager) (ops : list file_op) : M (list (Z * list PgHdr * pager)) :=
  match ops with
  | [] => mret []
  | o :: ops =>
      r ← run_op os_write g p o;
      rs ← run_ops os_write g r.2 ops;
      mret (r :: rs)
  end.

(** The pages written by all operations. *)
Definition op_writes (o : file_op) : list PgHdr := match o with WritePages pl => pl | ReadPage _ => [] end.

(** Dirty lists hold pages that can be written, each page once; pages are read that
    are in the map, at the start or by then. *)
Fixpoint ops_ok (dbSize P : Z) (pages : gmap Z (list Z)) (ops : list file_op) : Prop :=
  match ops with
  | [] => True
  | WritePages pl :: ops =>
      Forall (page_ok P) pl /\ NoDup (hdr_pgno <$> pl) /\ ops_ok dbSize P (foldl (store dbSize) pages pl) ops
  | ReadPage pgno :: ops => is_Some (pages !! pgno) /\ ops_ok dbSize P pages ops
  end.

(** The same operations on a map of pages: writing inserts the pages, with page 1
    stamped from the version the pager has seen last, reading looks the page up. *)
Fixpoint as_map (dbSize P : Z) (p : pager) (pages : gmap Z (list Z)) (ops : list file_op)
    (rs : list (Z * list PgHdr * pager)) : Prop :=
  match ops, rs with
  | [], [] => True
  | WritePages pl :: ops, (rc, pl', p') :: rs =>
      rc = SQLITE_OK /\ pl' = stamp_dirty dbSize (px_dbFileVers p) <$> pl /\ same_errors p p' /\
      as_map dbSize P p' (foldl (store dbSize) pages pl') ops rs
  | ReadPage pgno :: ops, (rc, hs, p') :: rs =>
      rc = SQLITE_OK /\ (exists h, hs = [h] /\ hdr_pgno h = pgno /\
        usable P <$> pages !! pgno = Some (usable P (hdr_pData h))) /\ same_errors p p' /\
      as_map dbSize P p' pages ops rs
  | _, _ => False
  end.

Lemma stamp_dirty_same n vers h :
  hdr_pgno (stamp_dirty n vers h) = hdr_pgno h /\ hdr_flags (stamp_dirty n vers h) = hdr_flags h.
Proof. unfold stamp_dirty, stamp. by destruct (_ && _), (hdr_pgno h =? 1). Qed.

(** Which pages a map holds after a list depends on their numbers and flags only. *)
Lemma foldl_store_dom n (f : PgHdr -> PgHdr) pl :
  (forall h, hdr_pgno (f h) = hdr_pgno h /\ hdr_flags (f h) = hdr_flags h) -> forall pages pages',
  (forall q, is_Some (pages !! q) -> is_Some (pages' !! q)) ->
  forall q, is_Some (foldl (store n) pages pl !! q) -> is_Some (foldl (store n) pages' (f <$> pl) !! q).
Proof.
  intros Hf. induction pl as [|h pl IH]; intros pages pages' Hp q; [apply Hp|]. cbn. apply IH. clear IH q. intros q.
  unfold store. destruct (Hf h) as [-> ->]. destruct (_ && _); [|apply Hp].
  rewrite !lookup_insert_is_Some. intros [->|[Hq Hs]]; [by left|right; split; [done|by apply Hp]].
Qed.

Lemma ops_ok_dom n P ops : forall pages pages',
  (forall q, is_Some (pages !! q) -> is_Some (pages' !! q)) -> ops_ok n P pages ops -> ops_ok n P pages' ops.
Proof.
  induction ops as [|[pl|pgno] ops IH]; intros pages pages' Hp; cbn; [done|..].
  - intros (? & ? & Ho). split_and!; [done..|]. eapply IH; [|exact Ho]. intros q Hq.
    rewrite <- (list_fmap_id pl). by apply (foldl_store_dom n id pl ltac:(done) pages).
  - intros [Hs Ho]. split; [by apply Hp|by eapply IH].
Qed.

Lemma run_ops_ok os_write g ops c : disk_ok os_write -> forall p ls pages w,
  image p c ls pages -> grows p c ls -> ops_ok (px_dbSize p) (px_pageSize p) pages ops ->
  Z.of_nat (length ls + length (ops ≫= op_writes)) < MT_AL_MAX_ELEMS -> all_ok w ->
  exists rs w', run_ops os_write g p ops w = Done (rs, w') /\
    as_map (px_dbSize p) (px_pageSize p) p pages ops rs.
Proof using L W.
  intros Hos. induction ops as [|[pl|pgno] ops IH]; intros p ls pages w Him Hgr Hops Hroom Hw; [by exists [], w|..];
    cbn [mbind list_bind op_writes] in Hroom; cbn [run_ops run_op].
  - destruct Hops as (Hpl & Hnd & Hops). rewrite length_app in Hroom.
    destruct (write_pagelist_ok os_write Hos g SQLITE_OK p pl c ls pages w)
      as (p1 & pl' & ls1 & w1 & E1 & Hw1 & _ & [Him1 Hgr1 Hl1 HP1 Hn1 He1 _ _ _ _ _] & Hex); [done..|lia|done|].
    specialize (Hex Hnd). rewrite bind_assoc, (bind_done _ _ _ _ _ E1), bind_ret. cbn [snd].
    rewrite <- Hn1, <- HP1 in *.
    destruct (IH p1 ls1 (foldl (store (px_dbSize p1)) pages pl') w1) as (rs & w' & Er & Hrs); [done|done| |lia|done|].
    { rewrite Hex. eapply ops_ok_dom; [|exact Hops]. intros q. apply foldl_store_dom; [apply stamp_dirty_same|done]. }
    rewrite (bind_done _ _ _ _ _ Er). eexists _, w'. split; [reflexivity|]. by split_and!.
  - destruct Hops as ([d Hd] & Hops). cbn [app] in Hroom.
    destruct (image_read g p c ls pages pgno d (Mk_hdr pgno [] 0) w)
      as (p1 & h1 & E1 & Hpg & _ & Htk & Him1 & Hkp & _); [done..|].
    pose proof (grows_kept _ _ _ _ Hkp Hgr) as Hgr1. destruct Hkp as [HP1 Hn1 _ _ _ _ _ _ He1].
    rewrite bind_assoc, (bind_done _ _ _ _ _ E1), bind_ret. cbn [snd].
    destruct (IH p1 ls pages w) as (rs & w' & Er & Hrs); [done|done|by rewrite Hn1, HP1|done|done|].
    rewrite (bind_done _ _ _ _ _ Er). eexists _, w'. split; [reflexivity|]. rewrite Hn1, HP1 in Hrs.
    split; [done|]. split; [|by split]. exists h1. split_and!; [done..|]. rewrite Hd. cbn. f_equal. symmetry. exact Htk.
Qed.

(** C4. The encrypted file refines a map of pages: let the file, the keys and the
    tree of a pager hold [pages].  Then any sequence of operations, each of which
    writes a dirty list or reads a page, in any order, behaves as the same
    sequence on the map: all operations succeed, none puts the pager into the
    error state, a write inserts the pages of its list (page 1 with the change
    counter that follows the version the pager has seen last, and the version of
    SQLite), and a read returns the usable bytes of what the map then holds. *)
Theorem pager_refines_map os_write g p ops c ls pages w :
  disk_ok os_write -> image p c ls pages -> grows p c ls ->
  ops_ok (px_dbSize p) (px_pageSize p) pages ops ->
  Z.of_nat (length ls + length (ops ≫= op_writes)) < MT_AL_MAX_ELEMS -> all_ok w ->
  exists rs w', run_ops os_write g p ops w = Done (rs, w') /\
    as_map (px_dbSize p) (px_pageSize p) p pages ops rs.
Proof using L W. intros Hos ? ? ? ? ?. by eapply run_ops_ok. Qed.

End proofs.
