(* ===== verification/Reopen.v ===== *)
(** * Closing and reopening a database

    What survives a restart of the storage server.  A database is created with a
    passphrase and an empty tree, transactions are written to it, the tree is
    saved with [serialize_mt]; later another process loads the tree with
    [deserialize_init_mt], attaches a codec with the same passphrase and reads
    the file.  Everything that was written is read back: the salt is taken from
    the file, the keys come out the same, and a reloaded tree, although it can no
    longer grow, still vouches for every leaf. *)

From stdpp Require Import base tactics list numbers option gmap.
From Stdlib Require Import ZArith Lia ZifyBool.
From S2P Require Import Prelude MtArrList Sha256 MtCrypto MerkleTree MtSerialize.
From S2P Require Import MerkleTheorems CipherUtil Openssl CodecCtx PageCodec PageProofs.
From S2P Require Import CodecProofs HookProofs CodecWitness Integrity PagerIo PagerProofs.

Local Open Scope Z_scope.

Section proofs.
Context {OS : OpenSSL} {L : OpenSSLLaws OS} {W : OpenSSLWorks OS} {NH : NodeHash}.

(** ** The first call of the codec *)

(** A pager whose codec has just been attached. *)
Definition attach (p : pager) (ctx : codec_ctx) : pager := put_cst p (with_ctx (px_cst p) ctx).

(** Deriving the keys first changes nothing for the call. *)
Lemma codec_first g st ctx' r' pData pgno mode w w' :
  sqlcipher_codec_key_derive g (cs_ctx st) (cs_env st) (cs_rng st) w = Done ((SQLITE_OK, ctx', r'), w') ->
  sqlcipher_codec_key_derive g ctx' (cs_env st) r' w' = Done ((SQLITE_OK, ctx', r'), w') ->
  sqlite3Codec g st pData pgno mode w = sqlite3Codec g (with_rng (with_ctx st ctx') r') pData pgno mode w'.
Proof.
  intros E1 E2. unfold sqlite3Codec. rewrite (bind_done _ _ _ _ _ E1).
  cbn [with_rng with_ctx cs_ctx cs_env cs_rng]. by rewrite (bind_done _ _ _ _ _ E2).
Qed.

(** A write into a buffer does not depend on the memory left. *)
Lemma buf_write_any off bs b :
  (exists b', forall w, buf_write off bs b w = Done (b', w)) \/
  forall w, buf_write off bs b w = Fault OutOfBounds.
Proof. unfold buf_write. destruct (_ || _); [by right|]. left. by eexists. Qed.

(** Stamping page 1 looks at the version only. *)
Lemma changecounter_any p st d d1 w w1 w' :
  pager_write_changecounter p d w = Done (d1, w1) ->
  pager_write_changecounter (put_cst p st) d w' = Done (d1, w').
Proof.
  unfold pager_write_changecounter. change (px_dbFileVers (put_cst p st)) with (px_dbFileVers p).
  cbv zeta. set (cc := sqlite3Put4byte (u32 _)). destruct (buf_write_any 24 cc d) as [(b1 & H1)|H1];
    [|unfold mbind, M_bind; by rewrite H1].
  rewrite (bind_done _ _ _ _ _ (H1 w)), (bind_done _ _ _ _ _ (H1 w')). destruct (buf_write_any 92 cc b1) as [(b2 & H2)|H2];
    [|unfold mbind, M_bind; by rewrite H2].
  rewrite (bind_done _ _ _ _ _ (H2 w)), (bind_done _ _ _ _ _ (H2 w')).
  destruct (buf_write_any 96 (sqlite3Put4byte SQLITE_VERSION_NUMBER) b2) as [(b3 & H3)|H3]; rewrite !H3; [|done].
  by intros [= -> _].
Qed.

Section first.
  Context (g : globals) (p : pager) (ctx' : codec_ctx) (r' : rng) (w w' : list bool).
  Context (Hc : px_codec p = true).
  Context (E1 : sqlcipher_codec_key_derive g (cs_ctx (px_cst p)) (cs_env (px_cst p)) (cs_rng (px_cst p)) w
                = Done ((SQLITE_OK, ctx', r'), w')).
  Context (E2 : sqlcipher_codec_key_derive g ctx' (cs_env (px_cst p)) r' w' = Done ((SQLITE_OK, ctx', r'), w')).

  (** The pager with the keys derived. *)
Definition keyed : pager := put_cst p (with_rng (with_ctx (px_cst p) ctx') r').

Lemma CODEC2_first pData pgno mode : CODEC2 g p pData pgno mode w = CODEC2 g keyed pData pgno mode w'.
  Proof using Hc E1 E2.
    unfold CODEC2, keyed. cbn [px_codec put_cst]. rewrite Hc. cbn [negb px_cst]. unfold mbind, M_bind.
    by rewrite (codec_first g (px_cst p) ctx' r' pData pgno mode w w' E1 E2).
  Qed.

Lemma write_dirty_first os_write h :
    hdr_pgno h <= px_dbSize p -> Z.land (hdr_flags h) PGHDR_DONT_WRITE = 0 ->
    page_ok (px_pageSize p) h -> 112 <= px_pageSize p ->
    write_dirty os_write g p h w = write_dirty os_write g keyed h w'.
  Proof using Hc E1 E2.
    intros Hs Hfl Hpk HP. unfold write_dirty. change (px_dbSize keyed) with (px_dbSize p).
    replace (_ && _) with true by lia.
    destruct (hdr_pgno h =? 1) eqn:E1'.
    - destruct (changecounter_ok p (hdr_pData h) w) as (d & Ed & _); [apply Hpk|destruct Hpk; lia|].
      rewrite (bind_done _ _ _ _ _ Ed).
      assert (Ed' : pager_write_changecounter keyed (hdr_pData h) w' = Done (d, w')).
      { revert Ed. apply changecounter_any. }
      rewrite (bind_done _ _ _ _ _ Ed'). unfold mbind at 1 3, M_bind. by rewrite (CODEC2_first d).
    - rewrite !bind_ret. unfold mbind at 1 3, M_bind. by rewrite (CODEC2_first (hdr_pData h)).
  Qed.

Lemma read_first h :
    1 <= hdr_pgno h -> 40 <= px_pageSize p -> readDbPage g p h w = readDbPage g keyed h w'.
  Proof using Hc E1 E2.
    intros Hpg HP. unfold readDbPage. change (px_fd keyed) with (px_fd p).
    destruct (px_fd p) as [f|]; [|done]. change (px_pageSize keyed) with (px_pageSize p).
    destruct (sqlite3OsRead f (px_pageSize p) _) as [rc d] eqn:Er.
    assert (Hv : exists vers, forall w, (if hdr_pgno h =? 1 then
      if (if rc =? SQLITE_IOERR_SHORT_READ then SQLITE_OK else rc) =? SQLITE_OK then buf_read 24 16 d
      else mret (replicate 16 255) else mret (px_dbFileVers p)) w = Done (vers, w)).
    { destruct (hdr_pgno h =? 1); [|by eexists]. destruct (_ =? SQLITE_OK); [|by eexists].
      unfold buf_read. replace (_ || _) with false; [by eexists|].
      unfold sqlite3OsRead in Er. case_match; injection Er as <- <-;
        rewrite ?length_app, ?length_replicate; lia. }
    destruct Hv as (vers & Hv). rewrite (bind_done _ _ _ _ _ (Hv w)).
    change (px_dbFileVers keyed) with (px_dbFileVers p). rewrite (bind_done _ _ _ _ _ (Hv w')).
    unfold CODEC1, CODEC2. cbn [px_codec put_vers keyed put_cst]. rewrite Hc. cbn [negb px_cst]. unfold mbind, M_bind.
    change (px_cst (put_vers p vers)) with (px_cst p).
    by rewrite (codec_first g (px_cst p) ctx' r' d (hdr_pgno h) CODEC_READ_OP w w' E1 E2).
  Qed.
End first.

Lemma pagelist_first g p ctx' r' os_write h pl w w' :
  px_codec p = true ->
  sqlcipher_codec_key_derive g (cs_ctx (px_cst p)) (cs_env (px_cst p)) (cs_rng (px_cst p)) w
    = Done ((SQLITE_OK, ctx', r'), w') ->
  sqlcipher_codec_key_derive g ctx' (cs_env (px_cst p)) r' w' = Done ((SQLITE_OK, ctx', r'), w') ->
  hdr_pgno h <= px_dbSize p -> Z.land (hdr_flags h) PGHDR_DONT_WRITE = 0 ->
  page_ok (px_pageSize p) h -> 112 <= px_pageSize p -> is_Some (px_fd p) ->
  pager_write_pagelist os_write g SQLITE_OK p (h :: pl) w
  = pager_write_pagelist os_write g SQLITE_OK (keyed p ctx' r') (h :: pl) w'.
Proof.
  intros Hc E1 E2 Hs Hfl Hpk HP [f Hf]. unfold pager_write_pagelist.
  change (px_fd (keyed p ctx' r')) with (px_fd p). rewrite Hf. cbv zeta.
  change (SQLITE_OK =? SQLITE_OK) with true. cbv iota.
  change (px_dbHintSize (keyed p ctx' r')) with (px_dbHintSize p).
  change (px_dbSize (keyed p ctx' r')) with (px_dbSize p).
  destruct (_ && _); cbn [write_list]; unfold mbind at 1 3, M_bind.
  - by rewrite (write_dirty_first g (put_sizes p (px_nReserve p) (px_dbFileSize p) (px_dbSize p)) ctx' r' w w').
  - by rewrite (write_dirty_first g p ctx' r' w w').
Qed.

(** ** Keys *)

(** Every passphrase gives a key. *)
Lemma key_of_works ctx z m :
  hmac_md (kdf_algorithm ctx) = Some m -> length (kdf_salt ctx) = 16%nat ->
  exists k salt, key_of ctx z = Some (k, salt) /\ length k = 32%nat /\ length salt = 16%nat.
Proof using L W.
  intros Hm Hs. unfold key_of. destruct (raw_key z 64) eqn:E64.
  { unfold raw_key in E64. eexists _, _. split; [reflexivity|]. split; [|done]. apply hex2bin_length.
    rewrite length_take, length_drop. lia. }
  destruct (raw_key z 96) eqn:E96.
  { unfold raw_key in E96. eexists _, _. split; [reflexivity|].
    split; apply hex2bin_length; rewrite !length_take, !length_drop; lia. }
  rewrite Hm. cbn. destruct (PBKDF2_works m z (kdf_salt ctx) (kdf_iter ctx) 32 ltac:(lia)) as (k & Hk).
  rewrite Hk. cbn. destruct (PBKDF2_length m z (kdf_salt ctx) (kdf_iter ctx) 32 k ltac:(lia) Hk) as [Hkl _].
  eexists _, _. split; [reflexivity|]. split; [lia|done].
Qed.

(** With the salt it was used with, the passphrase gives the same key again. *)
Lemma key_of_again ctx1 ctx2 z k salt :
  key_of ctx1 z = Some (k, salt) -> kdf_salt ctx2 = salt -> kdf_algorithm ctx2 = kdf_algorithm ctx1 ->
  kdf_iter ctx2 = kdf_iter ctx1 -> key_of ctx2 z = Some (k, salt).
Proof.
  unfold key_of. intros H <- Ha Hi. rewrite Ha, Hi. destruct (raw_key z 64); [by injection H as <- _|].
  destruct (raw_key z 96); [done|]. destruct (hmac_md _) as [m|]; [|done]. cbn in *.
  destruct (PKCS5_PBKDF2_HMAC m z (kdf_salt ctx1) (kdf_iter ctx1) 32) as [k'|] eqn:Ek; [|done].
  cbn in H. injection H as <- Hs. rewrite <- Hs, Ek. done.
Qed.

(** Both directions of a context with derived keys. *)
Definition derived_cipher (k h salt : list Z) : cipher_ctx := Mk_cipher 0 0 k h None (Some (spec_text k salt)).

(** Attached and with the salt [salt0] at hand, the codec derives its keys. *)
Lemma keyed_open g p z c salt0 r1 k salt m h mt n w :
  ctx_ready (cs_ctx (px_cst p)) z c -> px_pageSize p = 4096 ->
  salt_from (cs_env (px_cst p)) (cs_rng (px_cst p)) salt0 r1 ->
  key_of (set_kdf_salt (cs_ctx (px_cst p)) salt0) z = Some (k, salt) -> length k = 32%nat -> length salt = 16%nat ->
  hmac_md (kdf_algorithm (cs_ctx (px_cst p))) = Some m ->
  PKCS5_PBKDF2_HMAC m k (hmac_salt g salt) (fast_kdf_iter (cs_ctx (px_cst p))) 32 = Some h ->
  ctx_tree (cs_ctx (px_cst p)) mt n -> all_ok w ->
  exists ctx' w', let st := px_cst p in
    sqlcipher_codec_key_derive g (cs_ctx st) (cs_env st) (cs_rng st) w = Done ((SQLITE_OK, ctx', r1), w') /\
    sqlcipher_codec_key_derive g ctx' (cs_env st) r1 w' = Done ((SQLITE_OK, ctx', r1), w') /\ all_ok w' /\
    ctx_open ctx' 4096 (derived_cipher k h salt) (derived_cipher k h salt) /\ ctx_tree ctx' mt n /\
    kdf_salt ctx' = salt /\ flags ctx' = flags (cs_ctx st).
Proof using L.
  intros Hrdy HP Hsf Hkey Hk Hs Hm Hh Htree Hw. set (ctx := cs_ctx (px_cst p)) in *.
  pose proof Hrdy as [Hstd Hpg Hph Hbuf Hss Hsl Hn Hst Hks Hrd Hwr Hcok Hp Hd].
  destruct (salted_from ctx _ _ salt0 r1 Hstd Hss Hn Hsf) as [Hsalt _].
  destruct (PBKDF2_length m k (hmac_salt g salt) (fast_kdf_iter ctx) 32 h ltac:(lia) Hh) as [Hhl _].
  destruct (codec_derive_ok g ctx z c _ _ _ r1 k salt h w Hrdy Hsalt) as (w' & E & Hw'); [exact Hkey|done|done| |lia|done|].
  { unfold sqlcipher_openssl_kdf. cbn [kdf_algorithm fast_kdf_iter set_need_kdf_salt set_kdf_salt]. by rewrite Hm, Hh. }
  eexists _, w'. cbv zeta. split; [exact E|]. split; [by eapply key_derive_idle|]. split; [done|].
  split; [|done]. destruct Hstd. split; try done; (by split) || (by exists (replicate 4096 0)).
Qed.

(** Key, HMAC key and salt that the passphrase [z] stands for. *)
Record secrets (g : globals) (z : list Z) (k h salt : list Z) : Prop := {
  se_key : length k = 32%nat;
  se_salt : length salt = 16%nat;
  se_derived : forall ctx, kdf_settings g ctx -> kdf_salt ctx = salt -> key_of ctx z = Some (k, salt);
  se_hmac : exists m, hmac_md (default_kdf_algorithm g) = Some m /\
    PKCS5_PBKDF2_HMAC m k (hmac_salt g salt) FAST_PBKDF2_ITER 32 = Some h;
}.

Lemma secrets_exist g z m ctx salt0 :
  kdf_settings g ctx -> hmac_md (default_kdf_algorithm g) = Some m -> length salt0 = 16%nat ->
  exists k h salt, key_of (set_kdf_salt ctx salt0) z = Some (k, salt) /\ secrets g z k h salt.
Proof using L W.
  intros (Hi & _ & Ha & _) Hm Hs0.
  destruct (key_of_works (set_kdf_salt ctx salt0) z m) as (k & salt & Hkey & Hk & Hs);
    [cbn; by rewrite Ha|done|].
  destruct (PBKDF2_works m k (hmac_salt g salt) FAST_PBKDF2_ITER 32 ltac:(lia)) as (h & Hh).
  exists k, h, salt. split; [done|]. split; [done|done| |by exists m].
  intros ctx2 (Hi2 & _ & Ha2 & _) Hs2. by apply (key_of_again (set_kdf_salt ctx salt0) ctx2);
    [..|cbn; congruence|cbn; congruence].
Qed.

(** ** The two sessions *)

Lemma store_keeps n pl pages k :
  is_Some (pages !! k) -> is_Some (foldl (store n) pages pl !! k).
Proof.
  revert pages. induction pl as [|h pl IH]; intros pages Hk; [done|]. cbn [foldl]. apply IH.
  unfold store. case_match; [|done]. apply lookup_insert_is_Some. destruct (decide (hdr_pgno h = k)); auto.
Qed.

(** Page 1 carries the salt. *)
Lemma image_salt p c ls pages d f :
  image p c ls pages -> pages !! 1 = Some d -> px_fd p = Some f ->
  (16 <= length f)%nat /\ take 16 f = kdf_salt (cs_ctx (px_cst p)).
Proof using L.
  intros [_ Hopen _ (f' & Hf & Hpages)] Hd Hf'. rewrite Hf' in Hf. injection Hf as <-.
  pose proof (op_room _ _ _ _ Hopen) as HP. destruct (Hpages 1 d Hd) as [_ Hsl].
  pose proof (sealed_length _ _ _ _ _ _ _ HP (op_salt _ _ _ _ Hopen) Hsl) as Hpl.
  destruct Hsl as (q & rb & r & r' & ct & mac & i & _ & _ & _ & _ & _ & _ & _ & _ & _ & Hpage).
  unfold file_page in *. change (Z.to_nat (1 - 1) * Z.to_nat (px_pageSize p))%nat with 0%nat in *.
  rewrite drop_0 in *. rewrite length_take in Hpl. split; [lia|].
  replace (take 16 f) with (take 16 (take (Z.to_nat (px_pageSize p)) f)) by (rewrite take_take; f_equal; lia).
  rewrite Hpage. change (head_size 1) with 16%nat. pose proof (op_salt _ _ _ _ Hopen) as Hs.
  rewrite take_app_le, take_take by (rewrite length_take; lia). apply take_ge. lia.
Qed.

Section sessions.
  Context (os_write : list Z -> list Z -> Z -> Z * list Z) (Hos : disk_ok os_write).
  Context (g : globals) (z : list Z) (n : Z) (m : md).
  Context (Hg : fresh_globals g) (Hcn : EVP_get_cipherbyname = true) (Hn : n = Z.of_nat (length z)) (H0 : n <> 0).
  Context (Hm : hmac_md (default_kdf_algorithm g) = Some m).

  (** A pager with a codec to be attached. *)
Definition blank (p : pager) (f : list Z) : Prop :=
    px_codec p = true /\ px_pageSize p = 4096 /\ px_fd p = Some f.

Lemma first_session p h pl pls w :
    blank p [] -> 1 <= px_dbSize p -> hdr_pgno h = 1 -> Z.land (hdr_flags h) PGHDR_DONT_WRITE = 0 ->
    Forall (page_ok 4096) (concat ((h :: pl) :: pls)) ->
    Z.of_nat (length (concat ((h :: pl) :: pls))) < MT_AL_MAX_ELEMS -> all_ok w ->
    exists mt0 w0 og ctx w1 p' pls' w2 k hk salt ls,
      mt_create w = Done (Some mt0, w0) /\
      sqlcipher_codec_ctx_init g (Some z) n (Some (Mk_obj (Some mt0) 0 0)) w0
        = Done ((SQLITE_OK, put_ossl g og, Some ctx), w1) /\
      commits os_write (put_ossl g og) (attach p ctx) ((h :: pl) :: pls) w1 = Done ((SQLITE_OK, p', pls'), w2) /\
      all_ok w2 /\ Forall2 stamped (concat ((h :: pl) :: pls)) (concat pls') /\ secrets g z k hk salt /\
      let after := foldl (store (px_dbSize p)) ∅ (concat pls') in
      image p' (derived_cipher k hk salt) ls after /\ grows p' (derived_cipher k hk salt) ls /\
      is_Some (after !! 1) /\ px_pageSize p' = 4096 /\ same_errors p p' /\
      kdf_salt (cs_ctx (px_cst p')) = salt /\ flags (cs_ctx (px_cst p')) = DEFAULT_CIPHER_FLAGS.
  Proof using L W Hos Hg Hcn Hn H0 Hm.
    intros (Hc & HP & Hf) Hsz Hpg Hfl Hpl Hroom Hw.
    destruct (mt_create_spec w) as (r & w0 & Ec & Hr & Hok). destruct (Hok Hw) as [Hne Hw0].
    destruct Hr as [->|(mt0 & -> & Hrep0)]; [done|].
    destruct (ctx_init_any g z n mt0 0 0 0 w0) as (og & ctx & w1 & Hw1 & Ei & Hrdy & Hkdf & Htree);
      [done..|intros w'; exact (mt_get_size_spec mt0 [] w' Hrep0)|].
    set (p1 := attach p ctx). set (g1 := put_ossl g og).
    destruct (RAND_works (cs_rng (px_cst p1)) 16 ltac:(lia)) as (salt0 & r1 & Hr0).
    destruct (RAND_length _ _ _ _ Hr0) as [Hs0 _].
    assert (Hsf : salt_from (cs_env (px_cst p1)) (cs_rng (px_cst p1)) salt0 r1)
      by (exists []; split; [exact Hf|right; split; [cbn; lia|done]]).
    destruct (secrets_exist g z m ctx salt0 Hkdf Hm ltac:(lia)) as (k & hk & salt & Hkey & Hsec).
    pose proof Hsec as [Hk Hs _ (m' & Hm' & Hh)]. pose proof Hkdf as (_ & Hfast & Halg & Hflags & _).
    destruct (keyed_open g1 p1 z _ salt0 r1 k salt m' hk mt0 0 w1 Hrdy HP Hsf Hkey Hk Hs)
      as (ctx' & w2 & E1 & E2 & Hw2 & Hopen & Htree' & Hsalt' & Hfl');
      [cbn; by rewrite Halg|cbn; by rewrite Hfast|exact Htree|done|].
    set (p2 := keyed p1 ctx' r1). set (c := derived_cipher k hk salt) in *.
    assert (Him : image p2 c [] ∅).
    { split; [done|cbn; by rewrite HP|exists mt0; split; [done|by left]|].
      exists []. split; [exact Hf|]. intros q d Hq. by rewrite lookup_empty in Hq. }
    assert (Hgr : grows p2 c []).
    { split; [by exists mt0|exists 256; cbn; by rewrite HP|]. unfold enc_key. cbn. rewrite length_take. lia. }
    destruct (commits_ok os_write Hos g1 ((h :: pl) :: pls) c p2 [] ∅ w2)
      as (p' & pls' & ls & w3 & Erun & Hw3 & Hst & Hwt); [done|done|cbn; by rewrite HP|done|done|].
    exists mt0, w0, og, ctx, w1, p', pls', w3, k, hk, salt, ls.
    split; [done|]. split; [exact Ei|]. split.
    { rewrite <- Erun. cbn [commits]. fold p1 g1. unfold mbind at 1 3, M_bind.
      rewrite (pagelist_first g1 p1 ctx' r1 os_write h pl w1 w2); [done|done|done|done|..].
      - cbn. lia.
      - done.
      - cbn [concat app] in Hpl. apply Forall_cons in Hpl as [Hh1 _]. by replace (px_pageSize p1) with 4096.
      - replace (px_pageSize p1) with 4096 by done. lia.
      - by exists []. }
    split; [done|]. split; [done|]. split; [done|]. cbv zeta.
    split; [apply Hwt|]. split; [apply Hwt|]. split.
    { cbn [concat app] in Hst. inversion Hst as [|? h' ? pl' Hst1 Hst2 E3 E4]; subst.
      cbn [foldl]. apply store_keeps. unfold store. rewrite (sp_pgno _ _ Hst1), (sp_flags _ _ Hst1), Hpg, Hfl.
      replace (1 <=? px_dbSize p) with true by lia. cbn. by rewrite lookup_insert_eq. }
    split; [rewrite (wt_page _ _ _ _ _ _ _ Hwt); exact HP|]. split; [apply (wt_errors _ _ _ _ _ _ _ Hwt)|].
    split; [rewrite (wt_salt _ _ _ _ _ _ _ Hwt); exact Hsalt'|].
    rewrite (wt_flags _ _ _ _ _ _ _ Hwt). cbn. rewrite Hfl'. exact Hflags.
  Qed.

  (** A later process: it finds the file [f] and a tree with the leaves [ls]. *)
Lemma second_session p c k hk salt ls pages q f mt' blocks w :
    image p c ls pages -> c = derived_cipher k hk salt -> secrets g z k hk salt -> is_Some (pages !! 1) ->
    px_pageSize p = 4096 -> px_fd p = Some f -> kdf_salt (cs_ctx (px_cst p)) = salt ->
    flags (cs_ctx (px_cst p)) = DEFAULT_CIPHER_FLAGS ->
    blank q f -> reloaded_rep mt' ls -> all_ok w ->
    exists og ctx w1,
      sqlcipher_codec_ctx_init g (Some z) n (Some (Mk_obj (Some mt') blocks 0)) w
        = Done ((SQLITE_OK, put_ossl g og, Some ctx), w1) /\
      forall pgnos, Forall (fun pgno => is_Some (pages !! pgno)) pgnos ->
      exists ds q' w2, read_pages (put_ossl g og) (attach q ctx) pgnos w1 = Done ((ds, q'), w2) /\
        Forall2 (fun pgno r => r.1 = SQLITE_OK /\
          usable 4096 <$> pages !! pgno = Some (usable 4096 r.2)) pgnos ds /\
        cs_env (px_cst q') = cs_env (px_cst q).
  Proof using L W Hg Hcn Hn H0.
    intros Him -> Hsec [d1 Hd1] HP Hf Hsalt Hfl (Hqc & HqP & Hqf) Hrel Hw.
    destruct (ctx_init_any g z n mt' (Z.of_nat (length ls)) blocks 0 w)
      as (og & ctx & w1 & Hw1 & Ei & Hrdy & Hkdf & Htree); [done..|intros; by apply reloaded_size|].
    exists og, ctx, w1. split; [exact Ei|]. intros pgnos Hall.
    set (q1 := attach q ctx). set (g1 := put_ossl g og).
    destruct pgnos as [|pgno pgnos]; [by exists [], q1, w1|].
    destruct (image_salt p _ ls pages d1 f Him Hd1 Hf) as [Hfl16 Hfs]. rewrite Hsalt in Hfs.
    pose proof Hsec as [Hk Hs Hder (m' & Hm' & Hh)]. pose proof Hkdf as (_ & Hfast & Halg & Hflags & _).
    assert (Hsf : salt_from (cs_env (px_cst q1)) (cs_rng (px_cst q1)) salt (cs_rng (px_cst q1)))
      by (exists f; split; [exact Hqf|left; by rewrite Hfs]).
    assert (Hkey : key_of (set_kdf_salt ctx salt) z = Some (k, salt)) by (apply Hder; [exact Hkdf|done]).
    destruct (keyed_open g1 q1 z _ salt _ k salt m' hk mt' (Z.of_nat (length ls)) w1 Hrdy HqP Hsf Hkey Hk Hs)
      as (ctx' & w2 & E1 & E2 & Hw2 & Hopen & Htree' & Hsalt' & Hfl');
      [cbn; by rewrite Halg|cbn; by rewrite Hfast|exact Htree|done|].
    set (q2 := keyed q1 ctx' (cs_rng (px_cst q1))).
    assert (Him2 : image q2 (derived_cipher k hk salt) ls pages).
    { destruct Him as [_ _ _ (f' & Hf' & Hpages)]. rewrite Hf in Hf'. injection Hf' as <-.
      split; [done|cbn; by rewrite HqP|exists mt'; split; [done|by right]|].
      exists f. split; [exact Hqf|]. intros j d Hj. destruct (Hpages j d Hj) as [Hj1 Hsl]. split; [done|].
      cbn. rewrite HqP. rewrite HP in Hsl. rewrite <- (app_nil_r ls). revert Hsl. apply sealed_ext.
      - rewrite Hfl', Hfl. exact Hflags.
      - by rewrite Hsalt', Hsalt. }
    destruct (read_pages_ok g1 (pgno :: pgnos) _ ls pages w2 q2 Him2 Hall) as (ds & q' & Er & Hds & _ & _ & Henv).
    exists ds, q', w2. split; [|split; [|exact Henv]].
    - rewrite <- Er. cbn [read_pages]. unfold mbind at 1 4, M_bind.
      rewrite (read_first g1 q1 ctx' (cs_rng (px_cst q1)) w1 w2); [done|done|done|done| |].
      + apply Forall_cons in Hall as [[d Hd] _]. destruct Him2 as [_ _ _ (f' & _ & Hp)]. apply (Hp _ _ Hd).
      + replace (px_pageSize q1) with 4096 by done. lia.
    - change (px_pageSize q2) with (px_pageSize q) in Hds. by rewrite HqP in Hds.
  Qed.

End sessions.

(** C5. A database survives a restart.  A new database is given a passphrase and
    an empty tree, any transactions are written to it (the first one starts with
    page 1, as the first transaction of every SQLite file does), and the tree is
    saved.  Then any later process that finds the same file, loads the saved
    tree and attaches a codec with the same passphrase reads back every page
    that was written, in any order, without an error in the pager. *)
Theorem reopen_reads_back os_write g z n m p h pl pls w :
  disk_ok os_write -> fresh_globals g -> EVP_get_cipherbyname = true ->
  hmac_md (default_kdf_algorithm g) = Some m -> n = Z.of_nat (length z) -> n <> 0 ->
  blank p [] -> 1 <= px_dbSize p -> hdr_pgno h = 1 -> Z.land (hdr_flags h) PGHDR_DONT_WRITE = 0 ->
  Forall (page_ok 4096) (concat ((h :: pl) :: pls)) ->
  Z.of_nat (length (concat ((h :: pl) :: pls))) < MT_AL_MAX_ELEMS -> all_ok w ->
  exists mt0 w0 g1 ctx w1 p' pls' w2 f t saved w3,
    mt_create w = Done (Some mt0, w0) /\
    sqlcipher_codec_ctx_init g (Some z) n (Some (Mk_obj (Some mt0) 0 0)) w0
      = Done ((SQLITE_OK, g1, Some ctx), w1) /\
    commits os_write g1 (attach p ctx) ((h :: pl) :: pls) w1 = Done ((SQLITE_OK, p', pls'), w2) /\
    Forall2 stamped (concat ((h :: pl) :: pls)) (concat pls') /\ same_errors p p' /\
    px_fd p' = Some f /\ tree (cs_ctx (px_cst p')) = Some t /\
    serialize_mt (obj_mt t) w2 = Done ((Z.of_nat (length saved), Live (Some <$> saved)), w3) /\
    let after := foldl (store (px_dbSize p)) ∅ (concat pls') in
    forall q w, blank q f -> all_ok w ->
    exists o w4 g2 ctx2 w5,
      deserialize_init_mt (Some saved) w = Done (o, w4) /\
      sqlcipher_codec_ctx_init g (Some z) n (Some o) w4 = Done ((SQLITE_OK, g2, Some ctx2), w5) /\
      forall pgnos, Forall (fun pgno => is_Some (after !! pgno)) pgnos ->
      exists ds q' w6, read_pages g2 (attach q ctx2) pgnos w5 = Done ((ds, q'), w6) /\
        Forall2 (fun pgno r => r.1 = SQLITE_OK /\
          usable 4096 <$> after !! pgno = Some (usable 4096 r.2)) pgnos ds /\
        cs_env (px_cst q') = cs_env (px_cst q).
Proof using L W.
  intros Hos Hg Hcn Hm Hn H0 Hp Hsz Hpg Hfl Hpl Hroom Hw.
  destruct (first_session os_write Hos g z n m Hg Hcn Hn H0 Hm p h pl pls w)
    as (mt0 & w0 & og & ctx & w1 & p' & pls' & w2 & k & hk & salt & ls & Ec & Ei & Erun & Hw2 & Hst & Hsec
        & Him & Hgr & H1 & HP & Herr & Hsalt & Hflags); [done..|].
  pose proof Him as [_ _ _ (f & Hf & _)]. destruct Hgr as [(mt & (t & Ht & Hmt & _) & Hrep) _ _].
  destruct (save_spec mt ls w2 Hrep Hw2) as (w3 & Es & _).
  exists mt0, w0, (put_ossl g og), ctx, w1, p', pls', w2, f, t, (enc_tree (Z.of_nat (length ls)) (all_levels ls)), w3.
  split; [done|]. split; [done|]. split; [done|]. split; [done|]. split; [done|]. split; [done|]. split; [done|].
  split; [by rewrite Hmt, Es, (length_enc_tree mt)|]. intros after q w' Hq Hw'.
  destruct (load_spec mt ls w' Hrep Hw') as (mt' & w4 & El & Hw4 & Hrel).
  destruct (second_session g z n Hg Hcn Hn H0 p' (derived_cipher k hk salt) k hk salt ls after q f mt' (saved_size ls) w4)
    as (og2 & ctx2 & w5 & Ei2 & Hread); [done..|].
  by exists (Mk_obj (Some mt') (saved_size ls) 0), w4, (put_ossl g og2), ctx2, w5.
Qed.

End proofs.

(** ** Witnesses *)

#[local] Existing Instance toy_openssl.
#[local] Existing Instance toy_openssl_laws.
#[local] Existing Instance toy_openssl_works.

(** A disk in memory, and a pager on an empty file. *)
Definition w_disk (f d : list Z) (o : Z) : Z * list Z := (SQLITE_OK, file_put f d o).

Definition w_blank (P : Z) (t : option mt_obj) (f : list Z) : pager :=
  Mk_px true (Mk_cst (w_ctx P t) (Mk_env (Some f) 0 false 0) 0%nat (Mk_stats 0 0 0)) P PAGER_WRITER_DBMOD
    0 2 0 0 (replicate 16 0) 0 (Mk_journal [] 0 0 0 7 true [])
    (Mk_tx true true 2 512 0 true SQLITE_MAX_PAGE_COUNT [] None 0 0 false).

Lemma w_disk_ok : disk_ok w_disk.
Proof. by intros f d o _. Qed.

(** Pages 1 and 2 of a small database. *)
Definition w_first (P : nat) : PgHdr := Mk_hdr 1 (SQLITE_FILE_HEADER ++ replicate (P - 16) 5) 0.
Definition w_second (P : nat) (b : Z) : PgHdr := Mk_hdr 2 (replicate P b) 0.

Lemma w_first_ok (P : nat) : (16 <= P)%nat -> page_ok (Z.of_nat P) (w_first P).
Proof.
  intros HP. split; cbn [w_first hdr_pgno hdr_pData]; [lia| | |].
  - rewrite length_app, length_replicate. change (length SQLITE_FILE_HEADER) with 16%nat. lia.
  - apply Forall_app. split; [by apply bytes_check|by apply Forall_replicate].
  - intros _. by rewrite take_app_length'.
Qed.

Lemma w_second_ok (P : nat) b : is_byte b -> page_ok (Z.of_nat P) (w_second P b).
Proof.
  intros Hb. split; cbn [w_second hdr_pgno hdr_pData]; [lia|by rewrite length_replicate|by apply Forall_replicate|done].
Qed.

(** What is stored for the two pages, page 2 twice. *)
Lemma w_stored P b b' pls' :
  Forall2 stamped (concat [[w_first P; w_second P b]; [w_second P b']]) (concat pls') ->
  foldl (store 2) ∅ (concat pls') !! 2 = Some (replicate P b').
Proof.
  cbn [concat app]. intros Hst. inversion Hst as [|? h1 ? l1 H1 Hr1 E1 E2]; subst.
  inversion Hr1 as [|? h2 ? l2 H2 Hr2]; subst. inversion Hr2 as [|? h3 ? l3 H3 Hr3]; subst.
  inversion Hr3; subst. cbn [foldl]. unfold store at 1.
  rewrite (sp_pgno _ _ H3), (sp_flags _ _ H3). change (hdr_pgno (w_second P b')) with 2.
  change (_ && _) with true. cbv iota. rewrite lookup_insert_eq.
  by rewrite (sp_same _ _ H3).
Qed.

(** A database of two pages, page 2 written twice, read after a restart. *)
Lemma reopen_reads_back_witness :
  exists f g2 ctx2 w5 d q' w6,
    read_pages g2 (attach (w_blank 4096 None f) ctx2) [2] w5 = Done (([(SQLITE_OK, d)], q'), w6) /\
    usable 4096 d = usable 4096 (replicate 4096 9).
Proof.
  destruct (reopen_reads_back w_disk w_globals [97; 98] 2 Sha512 (w_blank 4096 None []) (w_first 4096)
    [w_second 4096 8] [[w_second 4096 9]] []) as (mt0 & w0 & g1 & ctx & w1 & p' & pls' & w2 & f & t & saved & w3
    & _ & _ & _ & Hst & _ & _ & _ & _ & Hre);
    [exact w_disk_ok|done|done|done|done|done|done|done|done|done| |done|constructor|].
  { cbn [concat app]. apply Forall_cons_2; [apply (w_first_ok 4096); lia|].
    do 2 (apply Forall_cons_2; [by apply (w_second_ok 4096)|]). constructor. }
  destruct (Hre (w_blank 4096 None f) []) as (o & w4 & g2 & ctx2 & w5 & _ & _ & Hrd); [done|constructor|].
  pose proof (w_stored 4096 8 9 pls' Hst) as H2. revert H2. generalize (replicate 4096 9). intros d2 H2.
  destruct (Hrd [2]) as (ds & q' & w6 & E & Hds & _); [constructor; [by eexists|constructor]|].
  inversion Hds as [|? r ? l [Hr1 Hr2] Hnil]; subst. inversion Hnil; subst.
  change (px_dbSize (w_blank 4096 None [])) with 2 in Hr2. rewrite H2 in Hr2. injection Hr2 as Hr2.
  destruct r as [rc d]. cbn [fst snd] in Hr1, Hr2. subst rc. by exists f, g2, ctx2, w5, d, q', w6.
Defined.

(** An empty file, ready for pages of [P] bytes. *)
Lemma w_image P mt :
  16 + 96 <= P -> (16 | P) -> tree_rep mt [] ->
  let p := w_blank P (Some (Mk_obj (Some mt) 0 0)) [] in image p w_cipher [] ∅ /\ grows p w_cipher [].
Proof.
  intros HP H16 Hrep p. split; split; try done.
  - by apply w_open.
  - exists mt. split; [by eexists|by left].
  - by exists [].
  - exists mt. split; [by eexists|done].
Qed.

Lemma w_store_second n vers pages P b :
  2 <= n -> store n pages (stamp_dirty n vers (w_second P b)) !! 2 = Some (replicate P b).
Proof.
  intros Hn. rewrite stamp_not1 by done. unfold store. cbn [w_second hdr_pgno hdr_flags hdr_pData].
  replace (2 <=? n) with true by lia. apply lookup_insert_eq.
Qed.

(** Two pages written, one read, written again and read again in one process. *)
Lemma pager_refines_map_witness :
  exists mt p' rs w' pl1 p1 h p2 pl2 p3 h', tree_rep mt [] /\
    run_ops w_disk w_globals (w_blank 128 (Some (Mk_obj (Some mt) 0 0)) [])
      [WritePages [w_first 128; w_second 128 8]; ReadPage 2; WritePages [w_second 128 9]; ReadPage 2] [] = Done (rs, w') /\
    rs = [(SQLITE_OK, pl1, p1); (SQLITE_OK, [h], p2); (SQLITE_OK, pl2, p3); (SQLITE_OK, [h'], p')] /\
    pl2 = [w_second 128 9] /\
    usable 128 (hdr_pData h) = replicate 32 8 /\ usable 128 (hdr_pData h') = replicate 32 9.
Proof.
  destruct w_tree as (mt & Hrep). destruct (w_image 128 mt ltac:(lia) ltac:(by exists 8) Hrep) as [Him Hgr].
  destruct (pager_refines_map w_disk w_globals (w_blank 128 (Some (Mk_obj (Some mt) 0 0)) [])
    [WritePages [w_first 128; w_second 128 8]; ReadPage 2; WritePages [w_second 128 9]; ReadPage 2]
    w_cipher [] ∅ []) as (rs & w' & E & Hrs); [exact w_disk_ok|done|done| |done|constructor|].
  { split; [|split; [|split; [|split; [|split; [|split]]]]].
    - apply Forall_cons_2; [apply (w_first_ok 128); lia|]. apply Forall_cons_2; [by apply (w_second_ok 128)|constructor].
    - apply (bool_decide_unpack _). vm_compute. exact I.
    - by eexists.
    - apply Forall_cons_2; [by apply (w_second_ok 128)|constructor].
    - apply (bool_decide_unpack _). vm_compute. exact I.
    - by eexists.
    - exact I. }
  destruct rs as [|[[rc1 pl1] p1] [|[[rc2 hs2] p2] [|[[rc3 pl2] p3] [|[[rc4 hs4] p4] [|]]]]]; try (cbn in Hrs; tauto).
  destruct Hrs as (-> & -> & _ & -> & (h & -> & _ & Hh) & _ & -> & -> & _ & -> & (h' & -> & _ & Hh') & _).
  eexists mt, p4, _, w', _, p1, h, p2, _, p3, h'. split; [done|]. split; [exact E|]. split; [reflexivity|].
  split; [by apply (f_equal (fun x => [x])), stamp_not1|].
  cbn [foldl fmap list_fmap] in Hh, Hh'. change (px_dbSize (w_blank _ _ _)) with 2 in Hh, Hh'.
  rewrite w_store_second in Hh, Hh' by done. split; [by injection Hh|by injection Hh'].
Defined.
