(* ===== verification/Rollback.v ===== *)
(** * Rolling a transaction back

    Theorems about the rollback journal of [PagerIo]: pages reach the journal
    through the codec, so that every page written to the journal adds a leaf to
    the Merkle tree as well; playing the journal back copies the encrypted page
    into the database file as it is, and the leaf of the journal copy vouches
    for it. *)

From stdpp Require Import base tactics list numbers option gmap.
From Stdlib Require Import ZArith Lia ZifyBool.
From S2P Require Import Prelude MtArrList Sha256 MtCrypto MerkleTree MtSerialize.
From S2P Require Import MerkleTheorems CipherUtil Openssl CodecCtx PageCodec PageProofs.
From S2P Require Import CodecProofs HookProofs CodecWitness Integrity PagerIo PagerProofs Reopen.

Local Open Scope Z_scope.

(** ** Reading what was written *)

Lemma os_read_put f d o n :
  0 <= o -> n = Z.of_nat (length d) -> sqlite3OsRead (file_put f d o) n o = (SQLITE_OK, d).
Proof.
  intros Ho ->. unfold sqlite3OsRead. rewrite Nat2Z.id, file_put_at. by rewrite Z.eqb_refl.
Qed.

Lemma os_read_before f d o k n :
  0 <= k -> 0 <= n -> k + n <= o -> k + n <= Z.of_nat (length f) ->
  sqlite3OsRead (file_put f d o) n k = sqlite3OsRead f n k.
Proof.
  intros Hk Hn Ho Hf. unfold sqlite3OsRead. rewrite file_put_before by lia. done.
Qed.

(** The three writes of one journal record, and the reads of the playback. *)
Section record.
  Context (f page : list Z) (o P pgno cksum : Z).
  Context (Ho : 0 <= o) (HP : Z.of_nat (length page) = P).
  Context (Hpg : 0 <= pgno < 2 ^ 32) (Hck : 0 <= cksum < 2 ^ 32).

Definition journal_record : list Z :=
    file_put (file_put (file_put f (sqlite3Put4byte pgno) o) page (o + 4)) (sqlite3Put4byte cksum) (o + P + 4).

Lemma record_lengths :
    o + 4 <= Z.of_nat (length (file_put f (sqlite3Put4byte pgno) o)) /\
    o + 4 + P <= Z.of_nat (length (file_put (file_put f (sqlite3Put4byte pgno) o) page (o + 4))).
  Proof using Ho HP. destruct (put4_ok pgno) as [H4 _]. rewrite !length_file_put, H4. lia. Qed.

Lemma record_pgno : read32bits journal_record o = (SQLITE_OK, Some pgno).
  Proof using Ho HP Hpg.
    destruct record_lengths as [L1 L2]. destruct (put4_ok pgno) as [H4 _]. unfold read32bits, journal_record.
    rewrite os_read_before by lia. rewrite os_read_before by lia. rewrite os_read_put by lia.
    cbn -[sqlite3Get4byte sqlite3Put4byte]. by rewrite get4byte_put4byte.
  Qed.

Lemma record_page_bytes : sqlite3OsRead journal_record P (o + 4) = (SQLITE_OK, page).
  Proof using Ho HP.
    destruct record_lengths as [L1 L2]. unfold journal_record. rewrite os_read_before by lia.
    by apply os_read_put; lia.
  Qed.

Lemma record_cksum : read32bits journal_record (o + (P + 4 + 4) - 4) = (SQLITE_OK, Some cksum).
  Proof using Ho HP Hck.
    destruct (put4_ok cksum) as [H4 _]. unfold read32bits, journal_record.
    replace (o + (P + 4 + 4) - 4) with (o + P + 4) by lia. rewrite os_read_put by lia.
    cbn -[sqlite3Get4byte sqlite3Put4byte]. by rewrite get4byte_put4byte.
  Qed.
End record.

(** The checksum depends on the page alone and is 32 bits wide. *)
Lemma cksum_ok fuel aData : forall i c,
  0 <= c < 2 ^ 32 -> i < Z.of_nat (length aData) ->
  exists v, 0 <= v < 2 ^ 32 /\ forall w, cksum_loop fuel aData i c w = Done (v, w).
Proof.
  induction fuel as [|fuel IH]; intros i c Hc Hi; [by exists c|]. cbn [cksum_loop].
  destruct (0 <? i) eqn:E; [|by exists c].
  destruct (lookup_lt_is_Some_2 aData (Z.to_nat i) ltac:(lia)) as [b Hb].
  assert (Hr : forall w, buf_read i 1 aData w = Done ([b], w)).
  { intros w. unfold buf_read. replace (_ || _) with false by lia. by rewrite (drop_S _ b) by done. }
  destruct (IH (i - 200) (u32 (c + default 0 (head [b]))) (u32_range _) ltac:(lia)) as (v & Hv & Hrun).
  exists v. split; [done|]. intros w. by rewrite (bind_done _ _ _ _ _ (Hr w)).
Qed.

Section proofs.
Context {OS : OpenSSL} {L : OpenSSLLaws OS} {W : OpenSSLWorks OS} {NH : NodeHash}.
Context (os_write : list Z -> list Z -> Z -> Z * list Z) (Hos : disk_ok os_write).

(** The page [h] is in the journal at [o]: what the playback reads there is its
    number, a sealed copy of it and the checksum of the copy. *)
Definition journalled (p : pager) (c : cipher_ctx) (ls : list (list Z)) (o : Z) (h : PgHdr) : Prop :=
  let f := jfd (px_journal p) in let P := px_pageSize p in
  exists page cksum,
    0 <= o /\ o + (P + 4 + 4) <= Z.of_nat (length f) /\
    read32bits f o = (SQLITE_OK, Some (hdr_pgno h)) /\
    sqlite3OsRead f P (o + 4) = (SQLITE_OK, page) /\
    read32bits f (o + (P + 4 + 4) - 4) = (SQLITE_OK, Some cksum) /\
    (forall w, pager_cksum p page w = Done (cksum, w)) /\
    sealed (cs_ctx (px_cst p)) c ls P (hdr_pgno h) (hdr_pData h) page.

(** A journalled page stays journalled while the journal grows and the database
    is written. *)
Lemma journalled_keep p p' c ls more o h :
  journalled p c ls o h -> px_pageSize p' = px_pageSize p ->
  cksumInit (px_journal p') = cksumInit (px_journal p) ->
  flags (cs_ctx (px_cst p')) = flags (cs_ctx (px_cst p)) ->
  kdf_salt (cs_ctx (px_cst p')) = kdf_salt (cs_ctx (px_cst p)) -> 0 <= px_pageSize p ->
  (length (jfd (px_journal p)) <= length (jfd (px_journal p')))%nat ->
  (forall n k, 0 <= k -> 0 <= n -> k + n <= o + (px_pageSize p + 4 + 4) ->
    sqlite3OsRead (jfd (px_journal p')) n k = sqlite3OsRead (jfd (px_journal p)) n k) ->
  journalled p' c (ls ++ more) o h.
Proof.
  intros (page & ck & Ho & Hl & Hpg & Hpage & Hck & Hsum & Hsl) HP Hci Hfl Hsalt HP0 Hlen Hread.
  exists page, ck. unfold read32bits in *. rewrite HP, !Hread by lia. split_and!; try done; [lia| |by eapply sealed_ext].
  intros w. unfold pager_cksum in *. rewrite Hci, HP. apply Hsum.
Qed.

(** A savepoint in which the page is marked as saved. *)
Definition mark (pgno : Z) (s : PagerSavepoint) : PagerSavepoint :=
  if pgno <=? nOrig s
  then Mk_savepoint (iOffset s) (iHdrOffset s) (pgno :: pInSavepoint s) (nOrig s) (iSubRec s) else s.

Lemma bitvecs_ok pgno sps w :
  all_ok w -> exists w', addToSavepointBitvecs pgno sps w = Done ((SQLITE_OK, map (mark pgno) sps), w') /\ all_ok w'.
Proof.
  revert w. induction sps as [|s sps IH]; intros w Hw; [by exists w|]. cbn [addToSavepointBitvecs map].
  assert (Hs : exists w', (if pgno <=? nOrig s then ok ← request;
      mret (if (ok : bool) then (SQLITE_OK, Mk_savepoint (iOffset s) (iHdrOffset s) (pgno :: pInSavepoint s) (nOrig s) (iSubRec s))
            else (SQLITE_NOMEM, s)) else mret (SQLITE_OK, s)) w = Done ((SQLITE_OK, mark pgno s), w') /\ all_ok w').
  { unfold mark. destruct (pgno <=? nOrig s); [|by exists w].
    destruct (request_ok w Hw) as (w1 & E & Hw1). exists w1. by rewrite (bind_done _ _ _ _ _ E). }
  destruct Hs as (w1 & E1 & Hw1). destruct (IH w1 Hw1) as (w2 & E2 & Hw2).
  exists w2. by rewrite (bind_done _ _ _ _ _ E1), (bind_done _ _ _ _ _ E2).
Qed.

(** Writing a page to the journal. *)
Lemma journal_page_ok g p h c ls pages w :
  image p c ls pages -> grows p c ls -> page_held (px_pageSize p) h -> hdr_pgno h < 2 ^ 32 ->
  0 <= journalOff (px_journal p) -> 0 <= cksumInit (px_journal p) < 2 ^ 32 ->
  Z.of_nat (S (length ls)) < MT_AL_MAX_ELEMS -> all_ok w ->
  exists p' ls' w' f,
    pagerAddPageToRollbackJournal os_write g p h w
      = Done ((SQLITE_OK, p', Mk_hdr (hdr_pgno h) (hdr_pData h) (Z.lor (hdr_flags h) PGHDR_NEED_SYNC)), w') /\
    all_ok w' /\ advanced p c ls pages p' ls' /\
    journalled p' c ls' (journalOff (px_journal p)) h /\
    (forall o h', o + (px_pageSize p + 4 + 4) <= journalOff (px_journal p) ->
      journalled p c ls o h' -> journalled p' c ls' o h') /\
    px_journal p' = (let j := px_journal p in Mk_journal f (journalOff j + (8 + px_pageSize p)) (journalHdr j)
      (u32 (nRec j + 1)) (cksumInit j) (noSync j) (hdr_pgno h :: pInJournal j)) /\
    px_tx p' = px_tx (put_savepoints p (map (mark (hdr_pgno h)) (aSavepoint (px_tx p)))).
Proof using L W Hos.
  intros Him Hgr Hpk Hpg Ho Hci Hroom Hw. pose proof (op_room _ _ _ _ (im_open _ _ _ _ Him)) as HP.
  destruct (codec_seals g p h c CODEC_JOURNAL_OP ls pages w) as (st1 & w1 & page & ls1 & Hcodec & Hw1 & Hpl & Hsl & Had);
    [by right|done..|]. pose proof Had as [_ _ _ [more Hmore] Hfl Hsalt _ _ _ _].
  set (P := px_pageSize p) in *. pose proof (ph_pgno _ _ Hpk) as Hpg1.
  unfold pagerAddPageToRollbackJournal. rewrite (bind_done _ _ _ _ _ Hcodec). cbv iota beta.
  destruct (cksum_ok (Z.to_nat P) page (P - 200) (cksumInit (px_journal p)) Hci ltac:(lia)) as (ck & Hck & Hsum).
  assert (Hcs : forall w, pager_cksum (put_cst p st1) page w = Done (ck, w)) by (intros; apply Hsum).
  rewrite (bind_done _ _ _ _ _ (Hcs w1)). change (px_pageSize (put_cst p st1)) with P.
  change (px_journal (put_cst p st1)) with (px_journal p). set (j := px_journal p) in *.
  rewrite (bind_done _ _ _ _ _ (read_whole page P w1 (eq_sym Hpl))). unfold write32bits. cbn [hdr_pgno].
  rewrite !Hos by lia. change (negb (SQLITE_OK =? SQLITE_OK)) with false. cbv iota.
  destruct (request_ok w1 Hw1) as (w2 & Er & Hw2). rewrite (bind_done _ _ _ _ _ Er).
  destruct (bitvecs_ok (hdr_pgno h) (aSavepoint (px_tx p)) w2 Hw2) as (w3 & Eb & Hw3). cbv zeta.
  rewrite (bind_done _ _ _ _ _ Eb).
  eexists _, ls1, w3, _. split; [reflexivity|]. split; [done|]. split; [by apply advanced_put|].
  assert (Hrl := record_lengths (jfd j) page (journalOff j) P (hdr_pgno h) Ho Hpl).
  destruct (put4_ok ck) as [H4 _]. split; [|split; [|done]].
  - exists page, ck. cbn [put_savepoints put_sub put_tx put_journal put_cst px_journal px_pageSize jfd]. fold P.
    split; [done|]. split; [rewrite length_file_put, H4; lia|].
    split; [apply record_pgno; (done || lia)|]. split; [by apply record_page_bytes|]. split; [by apply record_cksum|].
    split; [exact Hsum|exact Hsl].
  - intros o h' Hoff Hj. destruct Hj as (pg' & ck' & Ho' & Hl' & Hj). rewrite Hmore.
    apply (journalled_keep p); try done; [by exists pg', ck'|fold P; lia| |].
    + cbn [put_savepoints put_sub put_tx put_journal px_journal jfd]. fold j. rewrite !length_file_put. lia.
    + fold P. intros n k Hk0 Hn0 Hkn. cbn [put_savepoints put_sub put_tx put_journal px_journal jfd]. fold j. fold P in Hl'. fold j in Hl'.
      rewrite os_read_before by lia. rewrite os_read_before by (rewrite ?length_file_put; lia).
      by rewrite os_read_before by lia.
Qed.

(** The database file with the sealed page [page] copied in. *)
Lemma image_restore p p' c ls pages pgno d page f :
  image p c ls pages -> px_fd p = Some f -> 1 <= pgno -> sealed (cs_ctx (px_cst p)) c ls (px_pageSize p) pgno d page ->
  px_codec p' = px_codec p -> px_pageSize p' = px_pageSize p -> cs_ctx (px_cst p') = cs_ctx (px_cst p) ->
  px_fd p' = Some (file_put f page ((pgno - 1) * px_pageSize p)) -> image p' c ls (<[pgno := d]> pages).
Proof using L.
  intros [Hc Hopen Htree (f' & Hf' & Hpages)] Hf Hpg Hsl Hc' HP' Hctx Hfd. rewrite Hf in Hf'. injection Hf' as <-.
  pose proof (op_room _ _ _ _ Hopen) as HP. pose proof (op_salt _ _ _ _ Hopen) as Hsalt.
  split; [congruence|by rewrite Hctx, HP'|by rewrite Hctx|]. eexists. split; [exact Hfd|].
  intros q dq Hq. rewrite HP', Hctx. destruct (decide (pgno = q)) as [<-|Hne].
  - rewrite lookup_insert_eq in Hq. injection Hq as <-. split; [done|].
    rewrite page_put_same by (done || lia || by eapply sealed_length). done.
  - rewrite lookup_insert_ne in Hq by done. destruct (Hpages q dq Hq) as [Hq1 Hqs]. split; [done|].
    rewrite page_put_other by (done || lia || by eapply sealed_length). done.
Qed.

(** The pager may write to the database file and record [o] is on disk. *)
Definition playable (p : pager) (o : Z) (h : PgHdr) : Prop :=
  1 <= hdr_pgno h <= px_dbSize p /\ hdr_pgno h <> mj_pgno p /\
  (PAGER_WRITER_DBMOD <= px_state p \/ px_state p = PAGER_OPEN) /\
  (noSync (px_journal p) = true \/ o + (px_pageSize p + 4 + 4) <= journalHdr (px_journal p)).

(** Byte 20 of page 1 and its change counter are there to be read. *)
Lemma page_field pgno page (other : list Z) k n w :
  0 <= k -> 0 <= n -> k + n <= Z.of_nat (length page) ->
  exists r, (if pgno =? 1 then buf_read k n page else mret other) w = Done (r, w).
Proof.
  intros Hk Hn Hl. destruct (pgno =? 1); [|by eexists]. unfold buf_read. replace (_ || _) with false by lia. by eexists.
Qed.

(** A sealed page is put into the cache. *)
Lemma playback_cache_ok g p c ls pages pgno d page rc hc w :
  image p c ls pages -> sealed (cs_ctx (px_cst p)) c ls (px_pageSize p) pgno d page -> hdr_pgno hc = pgno ->
  exists p' data, playback_cache g p rc page pgno true hc w
      = Done ((rc, p', Mk_hdr pgno data (hdr_flags hc)), w) /\
    usable (px_pageSize p) data = usable (px_pageSize p) d /\ Z.of_nat (length data) = px_pageSize p /\
    image p' c ls pages /\ kept p p' /\ px_fd p' = px_fd p.
Proof using L.
  intros Him Hsl Hhc. pose proof Him as [Hc Hopen (mt & Htree & Hread) _].
  pose proof (op_room _ _ _ _ Hopen) as HP. set (P := px_pageSize p) in *.
  pose proof (sealed_length _ _ _ _ _ _ _ HP (op_salt _ _ _ _ Hopen) Hsl) as Hpl.
  unfold playback_cache. destruct (page_field pgno page (px_dbFileVers p) 24 16 w) as (vers & Hv); [lia..|].
  rewrite (bind_done _ _ _ _ _ Hv). set (p3 := put_vers p vers).
  destruct (sealed_read g (px_cst p3) P c ls pgno d page mt _ w Hopen Htree Hread Hsl)
    as (st' & data & Hrun & Htk & Hdl & Henv & Hctx).
  assert (Hcodec : CODEC1 g p3 page (hdr_pgno hc) CODEC_READ_OP w = Done ((true, put_cst p3 st', data), w)).
  { unfold CODEC1, CODEC2. replace (px_codec p3) with true by done. cbn [negb].
    by rewrite Hhc, bind_assoc, (bind_done _ _ _ _ _ Hrun). }
  rewrite (bind_done _ _ _ _ _ Hcodec). eexists _, data. rewrite Hhc. split; [reflexivity|].
  assert (Hfd : px_fd (put_cst p3 st') = px_fd p) by (unfold px_fd; cbn [put_cst px_cst]; by rewrite Henv).
  split; [done|]. split; [done|]. split; [by apply (image_buffer p) with data|].
  split; [|done]. split; try done; unfold same_errors; cbn [put_cst px_cst]; [by rewrite Hctx..|by rewrite Henv].
Qed.

(** An encrypted page is copied into the database file. *)
Lemma playback_write_enc g p f page pgno w :
  1 <= pgno -> 0 <= px_pageSize p ->
  playback_write os_write g p f page pgno true w
  = Done ((SQLITE_OK, put_sizes (put_fd p (file_put f page ((pgno - 1) * px_pageSize p))) (px_nReserve p)
      (if px_dbFileSize p <? pgno then pgno else px_dbFileSize p) (px_dbHintSize p), page), w).
Proof using Hos. intros Hp HP. unfold playback_write. cbv zeta iota. rewrite Hos by nia. by rewrite bind_ret. Qed.

(** The page of the cache [hc] has the contents [h] again. *)
Definition got_back (P : Z) (h hc : PgHdr) : Prop :=
  hdr_pgno hc = hdr_pgno h /\ usable P (hdr_pData hc) = usable P (hdr_pData h).

(** Playing a journalled page back: if the page is in the cache it is restored there. *)
Lemma playback_ok g p c ls pages h o cache w :
  image p c ls pages -> journalled p c ls o h -> playable p o h ->
  (forall q hc, cache q = Some hc -> hdr_pgno hc = q) ->
  exists p' pPg, pager_playback_one_page os_write g p o None true false cache w
      = Done ((SQLITE_OK, p', o + (px_pageSize p + 4 + 4), None, pPg), w) /\
    match cache (hdr_pgno h) with
    | Some _ => exists hc, pPg = Some hc /\ got_back (px_pageSize p) h hc
    | None => pPg = None
    end /\
    image p' c ls (<[hdr_pgno h := hdr_pData h]> pages) /\ kept p p'.
Proof using L Hos.
  intros Him (page & ck & Ho & _ & Hrpg & Hrpage & Hrck & Hsum & Hsl) ([Hpg Hdb] & Hmj & Hst & Hsync) Hcache.
  pose proof Him as [Hc Hopen (mt & Htree & Hread) (db & Hdbf & _)].
  pose proof (op_room _ _ _ _ Hopen) as HP. set (P := px_pageSize p) in *.
  pose proof (sealed_length _ _ _ _ _ _ _ HP (op_salt _ _ _ _ Hopen) Hsl) as Hpl.
  unfold pager_playback_one_page. cbn [deref orb]. rewrite bind_ret. fold P. rewrite Hrpg, Hrpage.
  change (negb (SQLITE_OK =? SQLITE_OK)) with false. cbv iota zeta.
  replace ((hdr_pgno h =? 0) || (hdr_pgno h =? mj_pgno p)) with false by lia.
  replace (px_dbSize p <? hdr_pgno h) with false by lia. cbn [orb].
  rewrite Hrck, bind_assoc, (bind_done _ _ _ _ _ (Hsum w)), bind_ret, Z.eqb_refl, bind_ret. cbn [negb].
  destruct (page_field (hdr_pgno h) page [px_nReserve p] 20 1 w) as (res & Hres); [lia..|].
  rewrite (bind_done _ _ _ _ _ Hres).
  set (p1 := put_sizes p _ _ _). change (px_fd p1) with (px_fd p). rewrite Hdbf.
  assert (Hes : ((PAGER_WRITER_DBMOD <=? eState p1) || (eState p1 =? PAGER_OPEN)) = true).
  { unfold eState, p1. cbn [put_sizes px_cst px_state]. destruct (pager_error _); [done|].
    unfold PAGER_WRITER_DBMOD, PAGER_OPEN in *. lia. }
  rewrite Hes. replace (noSync (px_journal p) || (o + (P + 4 + 4) <=? journalHdr (px_journal p))) with true
    by (symmetry; destruct Hsync as [->|?]; [done|]; apply orb_true_iff; right; lia).
  cbn [andb]. rewrite !bind_assoc, (bind_done _ _ _ _ _ (playback_write_enc g p1 db page (hdr_pgno h) w Hpg ltac:(cbn; lia))).
  cbv beta iota. rewrite bind_ret. set (p2 := put_sizes (put_fd p1 _) _ _ _).
  assert (Him2 : image p2 c ls (<[hdr_pgno h := hdr_pData h]> pages)) by (by eapply (image_restore p)).
  destruct (cache (hdr_pgno h)) as [hc|] eqn:Ehc.
  2:{ eexists p2, None. split; [reflexivity|]. split; [done|]. split; [done|by split]. }
  destruct (playback_cache_ok g p2 c ls _ (hdr_pgno h) (hdr_pData h) page SQLITE_OK hc w Him2 Hsl (Hcache _ _ Ehc))
    as (p' & data & Hrun & Hu & Hl & Him' & Hk & _).
  rewrite (bind_done _ _ _ _ _ Hrun). eexists p', _. split; [reflexivity|]. split; [|split; [done|by destruct Hk]].
  by eexists.
Qed.

(** ** Whole transactions *)

(** The pages of a transaction are written to the journal one after the other. *)
Fixpoint journal_pages (g : globals) (p : pager) (hs : list PgHdr) : M (Z * pager) :=
  match hs with
  | [] => mret (SQLITE_OK, p)
  | h :: hs =>
      '(rc, p, _) ← pagerAddPageToRollbackJournal os_write g p h;
      if rc =? SQLITE_OK then journal_pages g p hs else mret (rc, p)
  end.

(** What syncing the journal changes: the next header starts at its end. *)
Definition journal_synced (p : pager) : pager :=
  let j := px_journal p in
  put_journal p (Mk_journal (jfd j) (journalOff j) (journalOff j) (nRec j) (cksumInit j) (noSync j) (pInJournal j)).

(** The journal starts again at the records after the header at [off]. *)
Definition record_at (p : pager) (o : Z) (i : nat) : Z := o + Z.of_nat i * (px_pageSize p + 4 + 4).

Definition journal_holds (p : pager) (c : cipher_ctx) (ls : list (list Z)) (o : Z) (hs : list PgHdr) : Prop :=
  forall i h, hs !! i = Some h -> journalled p c ls (record_at p o i) h.

Lemma journal_pages_ok g hs c pages : forall p ls w,
  image p c ls pages -> grows p c ls -> Forall (page_ok (px_pageSize p)) hs ->
  Forall (fun h => hdr_pgno h < 2 ^ 32) hs ->
  0 <= journalOff (px_journal p) -> 0 <= cksumInit (px_journal p) < 2 ^ 32 ->
  Z.of_nat (length ls + length hs) < MT_AL_MAX_ELEMS -> all_ok w ->
  exists p' ls' w', journal_pages g p hs w = Done ((SQLITE_OK, p'), w') /\ all_ok w' /\
    image p' c ls' pages /\ grows p' c ls' /\ (length ls' <= length ls + length hs)%nat /\
    journal_holds p' c ls' (journalOff (px_journal p)) hs /\
    (forall o h, o + (px_pageSize p + 4 + 4) <= journalOff (px_journal p) ->
      journalled p c ls o h -> journalled p' c ls' o h) /\
    journalOff (px_journal p') = record_at p (journalOff (px_journal p)) (length hs) /\
    px_pageSize p' = px_pageSize p /\ px_dbSize p' = px_dbSize p /\ px_state p' = px_state p /\ same_errors p p'.
Proof using L W Hos.
  induction hs as [|h hs IH]; intros p ls w Him Hgr Hpk Hpg Ho Hci Hroom Hw.
  { exists p, ls, w. split_and!; try done; [cbn; lia|unfold record_at; cbn; lia]. }
  apply Forall_cons in Hpk as [Hh Hpk]. apply Forall_cons in Hpg as [Hhg Hpg]. cbn [length] in Hroom.
  destruct (journal_page_ok g p h c ls pages w) as (p1 & ls1 & w1 & f1 & E1 & Hw1 & Had & Hj1 & Hk1 & Hjr & _);
    [done|done|by apply page_ok_held|done..|lia|done|].
  pose proof Had as [Him1 Hgr1 Hl1 _ _ _ HP1 Hs1 Ht1 He1]. assert (Hc1 := f_equal cksumInit Hjr).
  assert (Ho1 := f_equal journalOff Hjr). cbn in Hc1, Ho1.
  pose proof (op_room _ _ _ _ (im_open _ _ _ _ Him)) as HP.
  destruct (IH p1 ls1 w1) as (p2 & ls2 & w2 & E2 & Hw2 & Him2 & Hgr2 & Hl2 & Hj2 & Hk2 & Ho2 & HP2 & Hs2 & Ht2 & He2);
    [done|done|by rewrite HP1|done|lia|by rewrite Hc1|lia|done|].
  exists p2, ls2, w2. split.
  { cbn [journal_pages]. rewrite (bind_done _ _ _ _ _ E1). cbv beta iota.
    change (SQLITE_OK =? SQLITE_OK) with true. exact E2. }
  split; [done|]. split; [done|]. split; [done|]. split; [cbn; lia|]. split.
  { intros i h' Hi. unfold record_at. rewrite HP2, HP1. destruct i as [|i].
    - injection Hi as <-. change (Z.of_nat 0 * _) with 0. rewrite Z.add_0_r.
      apply Hk2; [rewrite HP1; lia|done].
    - replace (_ + Z.of_nat (S i) * _) with (record_at p2 (journalOff (px_journal p1)) i)
        by (unfold record_at; rewrite HP2, HP1; lia). by apply Hj2. }
  split.
  { intros o h' Ho' Hj. apply Hk2; [rewrite HP1; lia|]. by apply Hk1. }
  split; [unfold record_at in *; rewrite Ho2, HP1, Ho1; cbn [length]; lia|].
  split_and!; try congruence. unfold same_errors in *. by rewrite <- He1.
Qed.

(** Only the offset of the journal moves. *)
Lemma image_journal p j c ls pages : image p c ls pages -> image (put_journal p j) c ls pages.
Proof. by intros []. Qed.

Lemma journalled_journal p j c ls o h :
  jfd j = jfd (px_journal p) -> cksumInit j = cksumInit (px_journal p) -> 0 <= px_pageSize p ->
  journalled p c ls o h -> journalled (put_journal p j) c ls o h.
Proof.
  intros Hf Hci HP Hj. rewrite <- (app_nil_r ls). revert Hj.
  intros Hj. apply (journalled_keep p); try done; cbn; by rewrite Hf.
Qed.

Lemma playback_records_ok g hs c ls cache w : forall p pages,
  image p c ls pages -> (forall q hc, cache q = Some hc -> hdr_pgno hc = q) ->
  journal_holds p c ls (journalOff (px_journal p)) hs ->
  (forall i h, hs !! i = Some h -> playable p (record_at p (journalOff (px_journal p)) i) h) ->
  exists p' restored, playback_records os_write g (length hs) p cache w = Done ((SQLITE_OK, false, p', restored), w) /\
    Forall2 (got_back (px_pageSize p)) (filter (fun h => is_Some (cache (hdr_pgno h))) hs) restored /\
    image p' c ls (foldl (fun m h => <[hdr_pgno h := hdr_pData h]> m) pages hs) /\
    px_pageSize p' = px_pageSize p /\ same_errors p p'.
Proof using L Hos.
  induction hs as [|h hs IH]; intros p pages Him Hcache Hj Hplay; [by exists p, []|].
  set (o := journalOff (px_journal p)) in *.
  assert (Hr0 : record_at p o 0 = o) by (unfold record_at; lia).
  pose proof (Hj 0%nat h eq_refl) as Hj0. pose proof (Hplay 0%nat h eq_refl) as Hp0. rewrite Hr0 in Hj0, Hp0.
  pose proof (op_room _ _ _ _ (im_open _ _ _ _ Him)) as HP.
  destruct (playback_ok g p c ls pages h o cache w Him Hj0 Hp0 Hcache) as (p1 & pPg & E1 & Hres & Him1 & Hkept).
  pose proof Hkept as [HP1 Hs1 Hst1 Hjr1 _ _ Hfl1 Hsl1 [He1 Hc1]].
  set (p2 := put_journalOff p1 (o + (px_pageSize p + 4 + 4))).
  assert (Hnext : forall i, record_at p2 (journalOff (px_journal p2)) i = record_at p o (S i)).
  { intros i. unfold record_at, p2. cbn. rewrite HP1. lia. }
  assert (Him2 : image p2 c ls (<[hdr_pgno h := hdr_pData h]> pages)) by (by apply image_journal).
  destruct (IH p2 _ Him2 Hcache) as (p' & restored & E2 & Hall & Him' & HP' & [He' Hc']).
  { intros i h' Hi. rewrite Hnext. apply journalled_journal; [done|done|lia|].
    pose proof (Hj (S i) h' Hi) as Hji. rewrite <- (app_nil_r ls).
    apply (journalled_keep p); try done; [by rewrite Hjr1|lia|by rewrite Hjr1|by rewrite Hjr1]. }
  { intros i h' Hi. rewrite Hnext. pose proof (Hplay (S i) h' Hi) as Hpi. unfold playable, mj_pgno in *.
    cbn [p2 put_journalOff put_journal px_dbSize px_pageSize px_state px_journal noSync journalHdr].
    by rewrite HP1, Hs1, Hst1, Hjr1. }
  eexists p', _. split.
  { cbn [length playback_records]. fold o. rewrite (bind_done _ _ _ _ _ E1). cbv beta iota.
    change (SQLITE_OK =? SQLITE_OK) with true. cbv iota. fold p2. by rewrite (bind_done _ _ _ _ _ E2). }
  change (px_pageSize p2) with (px_pageSize p1) in *. rewrite HP1 in *. split; [|split; [done|split; [done|]]].
  - rewrite filter_cons. destruct (cache (hdr_pgno h)) as [h0|] eqn:Eh.
    + destruct Hres as (hc & -> & Hback). rewrite decide_True by done. by constructor.
    + subst pPg. by rewrite decide_False by apply is_Some_None.
  - split; [rewrite He'; exact He1|rewrite Hc'; exact Hc1].
Qed.

(** ** The theorem *)

(** Pages that are stored and then restored from the journal. *)
Lemma store_lookup_other n pl pages q :
  Forall (fun h => hdr_pgno h <> q) pl -> foldl (store n) pages pl !! q = pages !! q.
Proof.
  revert pages. induction pl as [|h pl IH]; intros pages Hne; [done|]. apply Forall_cons in Hne as [Hh Hne].
  cbn [foldl]. rewrite IH by done. unfold store. case_match; [|done]. by rewrite lookup_insert_ne.
Qed.

Lemma restore_lookup hs (pages : gmap Z (list Z)) q d :
  Forall (fun h => hdr_pgno h = q -> hdr_pData h = d) hs ->
  pages !! q = Some d \/ Exists (fun h => hdr_pgno h = q) hs ->
  foldl (fun m h => <[hdr_pgno h := hdr_pData h]> m) pages hs !! q = Some d.
Proof.
  revert pages. induction hs as [|h hs IH]; intros pages Hall Hor; cbn [foldl].
  { destruct Hor as [|Hex]; [done|by inversion Hex]. }
  apply Forall_cons in Hall as [Hh Hall]. apply IH; [done|].
  destruct (decide (hdr_pgno h = q)) as [<-|Hne]; [left; rewrite lookup_insert_eq; by rewrite Hh|].
  destruct Hor as [Hd|Hex]; [left; by rewrite lookup_insert_ne|right]. by apply Exists_cons in Hex as [|].
Qed.

(** Original contents of a page of the database. *)
Definition original (pages : gmap Z (list Z)) (h : PgHdr) : Prop := pages !! hdr_pgno h = Some (hdr_pData h).

(** The pages of before, whatever was stored over the journalled ones in between. *)
Lemma restore_original n pages hs dirty dirty' q d :
  Forall (original pages) hs ->
  Forall (fun h => pages !! hdr_pgno h = None \/ Exists (fun h' => hdr_pgno h' = hdr_pgno h) hs) dirty ->
  Forall2 stamped dirty dirty' -> pages !! q = Some d ->
  foldl (fun m h => <[hdr_pgno h := hdr_pData h]> m) (foldl (store n) pages dirty') hs !! q = Some d.
Proof.
  intros Horig Hcov Hstp Hq. apply restore_lookup.
  { eapply Forall_impl; [exact Horig|]. intros h Hh <-. unfold original in Hh. congruence. }
  destruct (decide (Exists (fun h => hdr_pgno h = q) hs)) as [|Hno]; [by right|left].
  rewrite store_lookup_other; [done|]. apply Forall_lookup_2. intros i h' Hi Heq.
  destruct (Forall2_lookup_r _ _ _ _ _ Hstp Hi) as (h & Hi2 & Hst').
  rewrite (sp_pgno _ _ Hst') in Heq. subst q.
  destruct (Forall_lookup_1 _ _ _ _ Hcov Hi2) as [Hnone|Hex]; [congruence|done].
Qed.

Lemma read_same P (pages final : gmap Z (list Z)) pgnos (ds : list (Z * list Z)) :
  (forall q d, pages !! q = Some d -> final !! q = Some d) -> Forall (fun pgno => is_Some (pages !! pgno)) pgnos ->
  Forall2 (fun pgno r => r.1 = SQLITE_OK /\ usable P <$> final !! pgno = Some (usable P r.2)) pgnos ds ->
  Forall2 (fun pgno r => r.1 = SQLITE_OK /\ usable P <$> pages !! pgno = Some (usable P r.2)) pgnos ds.
Proof.
  intros Hfin Hall Hds. induction Hds as [|q r pgnos ds [H1 H2] _ IH]; [constructor|].
  apply Forall_cons in Hall as [[d Hd] Hall]. constructor; [|by apply IH].
  rewrite (Hfin q d Hd) in H2. by rewrite Hd.
Qed.

(** C6. A rolled back transaction leaves no trace.  The pages of the database
    that a transaction is going to change are written to the journal through
    the codec, the journal is synced, the changed pages are written to the
    database file through the codec, and then the records of the journal are
    played back.  Every step succeeds, the pager stays out of the error state,
    every journalled page that is in the cache gets its old contents back there
    and no other page of the cache is touched, and reading any page the
    database had before returns what it held, although every journal copy and
    every overwritten version has added a leaf to the Merkle tree. *)
Theorem rollback_restores g p c ls pages hs pls cache w :
  image p c ls pages -> grows p c ls ->
  Forall (page_ok (px_pageSize p)) hs -> Forall (original pages) hs ->
  Forall (fun h => hdr_pgno h < 2 ^ 32 /\ hdr_pgno h <= px_dbSize p /\ hdr_pgno h <> mj_pgno p) hs ->
  Forall (page_ok (px_pageSize p)) (concat pls) ->
  Forall (fun h => pages !! hdr_pgno h = None \/ Exists (fun h' => hdr_pgno h' = hdr_pgno h) hs) (concat pls) ->
  (PAGER_WRITER_DBMOD <= px_state p \/ px_state p = PAGER_OPEN) ->
  0 <= journalOff (px_journal p) -> 0 <= cksumInit (px_journal p) < 2 ^ 32 ->
  (forall q hc, cache q = Some hc -> hdr_pgno hc = q) ->
  Z.of_nat (length ls + length hs + length (concat pls)) < MT_AL_MAX_ELEMS -> all_ok w ->
  exists p1 w1 p2 pls' w2 p3 restored,
    journal_pages g p hs w = Done ((SQLITE_OK, p1), w1) /\
    commits os_write g (journal_synced p1) pls w1 = Done ((SQLITE_OK, p2, pls'), w2) /\
    playback_records os_write g (length hs) (put_journalOff p2 (journalOff (px_journal p))) cache w2
      = Done ((SQLITE_OK, false, p3, restored), w2) /\
    same_errors p p3 /\
    Forall2 (fun h hc => pages !! hdr_pgno h = Some (hdr_pData h) /\ got_back (px_pageSize p) h hc)
      (filter (fun h => is_Some (cache (hdr_pgno h))) hs) restored /\
    forall pgnos, Forall (fun pgno => is_Some (pages !! pgno)) pgnos ->
    exists ds p4, read_pages g p3 pgnos w2 = Done ((ds, p4), w2) /\
      Forall2 (fun pgno r => r.1 = SQLITE_OK /\
        usable (px_pageSize p) <$> pages !! pgno = Some (usable (px_pageSize p) r.2)) pgnos ds.
Proof using L W Hos.
  intros Him Hgr Hhs Horig Hpg Hpl Hcov Hst Ho Hci Hcache Hroom Hw.
  pose proof (op_room _ _ _ _ (im_open _ _ _ _ Him)) as HP.
  destruct (journal_pages_ok g hs c pages p ls w) as (p1 & ls1 & w1 & E1 & Hw1 & Him1 & Hgr1 & Hl1 & Hj1 & _ & Ho1 &
    HP1 & Hs1 & Ht1 & [He1 Hc1]); [done..|eapply Forall_impl; [exact Hpg|]; cbn; tauto|done|done|lia|done|].
  set (s1 := journal_synced p1).
  assert (Hims : image s1 c ls1 pages) by (by apply image_journal).
  destruct (commits_ok os_write Hos g pls c s1 ls1 pages w1) as (p2 & pls' & ls2 & w2 & E2 & Hw2 & Hstp & Hwt);
    [done|by destruct Hgr1|by change (px_pageSize s1) with (px_pageSize p1); rewrite HP1|lia|done|].
  pose proof Hwt as [Him2 _ _ HP2 Hs2 [He2 Hc2] Hfl2 Hsl2 [more ->] Hjr2 Hst2].
  set (after := foldl _ _ _) in *. set (p2' := put_journalOff p2 (journalOff (px_journal p))).
  change (px_pageSize s1) with (px_pageSize p1) in *. rewrite HP1 in HP2.
  destruct (playback_records_ok g hs c (ls1 ++ more) cache w2 p2' after) as (p3 & restored & E3 & Hres & Him3 & HP3 & [He3 Hc3]);
    [by apply image_journal|done| | |].
  { intros i h Hi. change (journalOff (px_journal p2')) with (journalOff (px_journal p)).
    replace (record_at p2' _ i) with (record_at p1 (journalOff (px_journal p)) i)
      by (unfold record_at, p2'; cbn; by rewrite HP1, HP2).
    apply journalled_journal; [done|done|lia|].
    apply (journalled_keep p1); [by apply Hj1|congruence|by rewrite Hjr2|exact Hfl2|exact Hsl2|lia|by rewrite Hjr2|].
    intros. by rewrite Hjr2. }
  { intros i h Hi. change (journalOff (px_journal p2')) with (journalOff (px_journal p)).
    pose proof (Forall_lookup_1 _ _ _ _ Hpg Hi) as (_ & Hdb & Hmj).
    pose proof (Forall_lookup_1 _ _ _ _ Hhs Hi) as [Hp1 _ _ _]. pose proof (lookup_lt_Some _ _ _ Hi) as Hlt.
    unfold playable, mj_pgno, record_at. cbn [p2' put_journalOff put_journal px_dbSize px_pageSize px_state px_journal noSync journalHdr].
    rewrite HP2, Hs2, Hst2, Hjr2. cbn [s1 journal_synced put_journal px_dbSize px_state px_journal noSync journalHdr].
    rewrite Hs1, Ht1, Ho1. unfold record_at. split; [lia|]. split; [done|]. split; [done|right; nia]. }
  exists p1, w1, p2, pls', w2, p3, restored. split; [done|]. split; [done|]. split; [done|].
  split; [split; [rewrite He3; cbn; rewrite He2; exact He1|rewrite Hc3; cbn; rewrite Hc2; exact Hc1]|].
  change (px_pageSize p2') with (px_pageSize p2) in *. rewrite HP2 in *. split.
  { apply Forall2_same_length_lookup_2; [by eapply Forall2_length|]. intros i h hc Hi Hhc.
    split; [|by eapply (Forall2_lookup_lr _ _ _ _ _ _ Hres)].
    apply list_elem_of_lookup_2, list_elem_of_filter in Hi as [_ Hi]. rewrite Forall_forall in Horig. by apply Horig. }
  set (final := foldl _ _ hs) in *.
  assert (Hfin : forall q d, pages !! q = Some d -> final !! q = Some d) by (intros q d; by eapply restore_original).
  intros pgnos Hall.
  destruct (read_pages_ok g pgnos c (ls1 ++ more) final w2 p3 Him3) as (ds & p4 & E4 & Hds & _).
  { eapply Forall_impl; [exact Hall|]. intros q [d Hd]. exists d. by apply Hfin. }
  exists ds, p4. split; [done|]. rewrite HP3 in Hds. by eapply read_same.
Qed.

End proofs.

(** ** Witness *)

#[local] Existing Instance toy_openssl.
#[local] Existing Instance toy_openssl_laws.
#[local] Existing Instance toy_openssl_works.

(** A database whose page 2 holds nines: it is changed and rolled back. *)
Lemma rollback_restores_witness :
  exists p p1 w w1 p2 pls' w2 p3 restored d p4,
    (exists hc, restored = [hc] /\ got_back 128 (w_second 128 9) hc) /\
    journal_pages w_disk w_globals p [w_second 128 9] w = Done ((SQLITE_OK, p1), w1) /\
    commits w_disk w_globals (journal_synced p1) [[w_second 128 7]] w1 = Done ((SQLITE_OK, p2, pls'), w2) /\
    playback_records w_disk w_globals 1 (put_journalOff p2 0) (fun q => Some (Mk_hdr q [] 0)) w2
      = Done ((SQLITE_OK, false, p3, restored), w2) /\
    read_pages w_globals p3 [2] w2 = Done (([(SQLITE_OK, d)], p4), w2) /\ usable 128 d = replicate 32 9.
Proof.
  destruct w_tree as (mt & Hrep). destruct (w_image 128 mt ltac:(lia) ltac:(by exists 8) Hrep) as [Him Hgr].
  destruct (commits_ok w_disk w_disk_ok w_globals [[w_first 128; w_second 128 8]; [w_second 128 9]] w_cipher _ [] ∅ []
    Him Hgr) as (p & pls0 & ls & w & _ & Hw & Hst & Hwt); [|done|constructor|].
  { cbn [concat app]. apply Forall_cons_2; [apply (w_first_ok 128); lia|].
    do 2 (apply Forall_cons_2; [by apply (w_second_ok 128)|]). constructor. }
  pose proof (w_stored 128 8 9 pls0 Hst) as H2. destruct Hwt as [Himp Hgrp Hl HP Hs _ _ _ _ Hj Ht].
  change (px_dbSize (w_blank _ _ _)) with 2 in *. change (px_pageSize (w_blank _ _ _)) with 128 in HP.
  cbn in Hj, Ht. set (pages := foldl _ _ _) in *.
  destruct (rollback_restores w_disk w_disk_ok w_globals p w_cipher ls pages [w_second 128 9] [[w_second 128 7]]
    (fun q => Some (Mk_hdr q [] 0)) w) as (p1 & w1 & p2 & pls' & w2 & p3 & restored & E1 & E2 & E3 & _ & Hback & Hrd);
    [done|done| | | | | |left; rewrite Ht; done|rewrite Hj; done|rewrite Hj; done| | |done|].
  - rewrite HP. constructor; [by apply (w_second_ok 128)|constructor].
  - constructor; [exact H2|constructor].
  - constructor; [|constructor]. unfold mj_pgno. rewrite Hs, HP. by vm_compute.
  - rewrite HP. constructor; [by apply (w_second_ok 128)|constructor].
  - constructor; [right; by left|constructor].
  - by intros q hc [= <-].
  - cbn in Hl |- *. unfold MT_AL_MAX_ELEMS. lia.
  - destruct (Hrd [2]) as (ds & p4 & E4 & Hds); [constructor; [by eexists|constructor]|].
    inversion Hds as [|? r ? l [Hr1 Hr2] Hnil]; subst. inversion Hnil; subst. rewrite HP, H2 in Hr2.
    injection Hr2 as Hr2. destruct r as [rc d]. cbn [fst snd] in *. subst rc. rewrite Hj in E3.
    exists p, p1, w, w1, p2, pls', w2, p3, restored, d, p4. rewrite HP in Hback.
    change (filter _ _) with [w_second 128 9] in Hback.
    apply Forall2_cons_inv_l in Hback as (hc & tl & [_ Hhc] & Htl & ->). apply Forall2_nil_inv_l in Htl as ->.
    split_and!; [by exists hc|exact E1|exact E2|exact E3|exact E4|].
    symmetry. exact Hr2.
Defined.
