(* ===== verification/SavepointProofs.v ===== *)
(** * Savepoints are a stack of snapshots

    Theorems about [Savepoint].  The specification is a database, a map of pages
    and a size, with a stack of copies of it: opening a savepoint pushes a copy,
    releasing pops copies, rolling back returns to one.  The pager has one copy
    of every page in its cache and two journals of encrypted old pages instead;
    [tx_inv] and [tx_rel] relate the two. *)

From stdpp Require Import base tactics list numbers option gmap.
From Stdlib Require Import ZArith Lia ZifyBool.
From S2P Require Import Prelude MtArrList Sha256 MtCrypto MerkleTree MtSerialize.
From S2P Require Import MerkleTheorems CipherUtil Openssl CodecCtx PageCodec PageProofs.
From S2P Require Import CodecProofs HookProofs CodecWitness Integrity PagerIo PagerProofs Reopen Rollback.
From S2P Require Import Savepoint.

Local Open Scope Z_scope.

(** ** The specification *)

(** The usable bytes of the pages, and the number of pages. *)
Record database := Mk_db { db_pages : gmap Z (list Z); db_size : Z }.

(** The database and the copies at the open savepoints, the outermost first. *)
Record spec := Mk_spec { now : database; saved : list database }.

(** What the B-tree asks of the pager within a transaction. *)
Inductive op :=
  | OpRead (pgno : Z)
  | OpWrite (pgno : Z) (d : list Z)   (** get the page, make it writeable, change it *)
  | OpSavepoint (n : nat)             (** have [n] savepoints open *)
  | OpRelease (i : nat)
  | OpRollback (i : nat).

(** The state afterwards and what was read. *)
Definition spec_step (P : Z) (s : spec) (o : op) : spec * list (list Z) :=
  match o with
  | OpRead q => (s, [default [] (db_pages (now s) !! q)])
  | OpWrite q d =>
      (Mk_spec (Mk_db (<[q := usable P d]> (db_pages (now s))) (Z.max (db_size (now s)) q)) (saved s), [])
  | OpSavepoint n => (Mk_spec (now s) (saved s ++ replicate (n - length (saved s)) (now s)), [])
  | OpRelease i => (Mk_spec (now s) (take i (saved s)), [])
  | OpRollback i =>
      (match saved s !! i with Some d => Mk_spec d (take (S i) (saved s)) | None => s end, [])
  end.

Fixpoint spec_run (P : Z) (s : spec) (ops : list op) : spec * list (list Z) :=
  match ops with
  | [] => (s, [])
  | o :: ops =>
      let '(s, out) := spec_step P s o in
      let '(s, outs) := spec_run P s ops in
      (s, out ++ outs)
  end.

(** Databases only grow: an inner copy is at least as large as an outer one. *)
Definition grown (s : spec) : Prop :=
  forall i d, saved s !! i = Some d ->
    db_size d <= db_size (now s) /\ Forall (fun d' => db_size d' <= db_size d) (take i (saved s)).

(** Opening a file does not fail, and random words have 32 bits. *)
Definition vfs_ok (v : vfs) : Prop :=
  (open_main v).1 = SQLITE_OK /\ open_sub v = SQLITE_OK /\ 0 <= random32 v < 2 ^ 32.

(** The first copy of page [q] among some records. *)
Fixpoint first_copy (q : Z) (rs : list PgHdr) : option (list Z) :=
  match rs with
  | [] => None
  | h :: rs => if hdr_pgno h =? q then Some (hdr_pData h) else first_copy q rs
  end.

Lemma first_copy_app q rs rs' :
  first_copy q (rs ++ rs') = match first_copy q rs with Some d => Some d | None => first_copy q rs' end.
Proof. induction rs as [|h rs IH]; [done|]. cbn. by destruct (hdr_pgno h =? q). Qed.

Lemma first_copy_in q rs d : first_copy q rs = Some d -> exists i h, rs !! i = Some h /\ hdr_pgno h = q.
Proof.
  induction rs as [|h rs IH]; [done|]. cbn. destruct (hdr_pgno h =? q) eqn:E.
  - intros _. exists 0%nat, h. split; [done|lia].
  - intros H. destruct (IH H) as (i & h' & Hi & Hq). by exists (S i), h'.
Qed.

Section proofs.
Context {OS : OpenSSL} {L : OpenSSLLaws OS} {W : OpenSSLWorks OS} {NH : NodeHash}.
Context (os_write : list Z -> list Z -> Z -> Z * list Z) (Hos : disk_ok os_write) (v : vfs).
Context (g : globals) (k : cipher_ctx) (pages : gmap Z (list Z)).

(** ** The pager's side *)

Definition get_page (p : pager) (c : gmap Z PgHdr) (q : Z) : M (Z * pager * option PgHdr) :=
  sqlite3PagerGet g p q false (fun q => c !! q).

Definition run_op (p : pager) (c : gmap Z PgHdr) (o : op) : M (Z * pager * gmap Z PgHdr * list (list Z)) :=
  match o with
  | OpRead q =>
      '(rc, p, pPg) ← get_page p c q;
      mret match pPg with
           | None => (rc, p, c, [])
           | Some h => (rc, p, <[q := h]> c, [hdr_pData h])
           end
  | OpWrite q d =>
      '(rc, p, pPg) ← get_page p c q;
      match pPg with
      | None => mret (rc, p, c, [])
      | Some h =>
          '(rc, p, c) ← sqlite3PagerWrite os_write v g p (<[q := h]> c) q;
          mret (rc, p, if rc =? SQLITE_OK then alter (fun h => Mk_hdr (hdr_pgno h) d (hdr_flags h)) q c else c, [])
      end
  | OpSavepoint n => '(rc, p) ← sqlite3PagerOpenSavepoint p (Z.of_nat n); mret (rc, p, c, [])
  | OpRelease i => '(rc, p, c) ← sqlite3PagerSavepoint os_write g p c SAVEPOINT_RELEASE (Z.of_nat i); mret (rc, p, c, [])
  | OpRollback i => '(rc, p, c) ← sqlite3PagerSavepoint os_write g p c SAVEPOINT_ROLLBACK (Z.of_nat i); mret (rc, p, c, [])
  end.

Fixpoint run_ops (p : pager) (c : gmap Z PgHdr) (ops : list op) : M (Z * pager * gmap Z PgHdr * list (list Z)) :=
  match ops with
  | [] => mret (SQLITE_OK, p, c, [])
  | o :: ops =>
      '(rc, p, c, out) ← run_op p c o;
      if rc =? SQLITE_OK then
        '(rc, p, c, outs) ← run_ops p c ops;
        mret (rc, p, c, out ++ outs)
      else mret (rc, p, c, out)
  end.

(** ** The relation *)

Definition valid_pgno (p : pager) (q : Z) : Prop := 1 <= q <= PAGER_MAX_PGNO /\ q <> mj_pgno p.

(** The contents of page [q]: those of the cache, or else those of the file. *)
Definition holds (P : Z) (c : gmap Z PgHdr) (q : Z) (d : list Z) : Prop :=
  match c !! q with
  | Some h => usable P (hdr_pData h) = d
  | None => exists d0, pages !! q = Some d0 /\ usable P d0 = d
  end.

(** Record [i] of the sub-journal is a copy of [h], sealed unless it stays in
    memory. *)
Definition subjournalled (p : pager) (ls : list (list Z)) (i : nat) (h : PgHdr) : Prop :=
  let P := px_pageSize p in let o := Z.of_nat i * (4 + P) in
  exists f page, sjfd (px_tx p) = Some f /\ o + 4 + P <= Z.of_nat (length f) /\
    read32bits f o = (SQLITE_OK, Some (hdr_pgno h)) /\ sqlite3OsRead f P (o + 4) = (SQLITE_OK, page) /\
    if subjInMemory (px_tx p) then page = hdr_pData h
    else sealed (cs_ctx (px_cst p)) k ls P (hdr_pgno h) (hdr_pData h) page.

(** The journal is not open yet, or it is, and the cache may be changed. *)
Definition journal_state (p : pager) (mj sj : list PgHdr) : Prop :=
  let t := px_tx p in let j := px_journal p in
  px_state p = PAGER_WRITER_LOCKED /\ jbits t = false /\ journalOff j = 0 /\ mj = [] /\ sj = [] \/
  px_state p = PAGER_WRITER_CACHEMOD /\ jbits t = true /\ jopen t = true /\
    journalOff j = record_at p (sectorSize t) (length mj) /\ 0 <= cksumInit j < 2 ^ 32.

(** The pager within a transaction, its journals holding the records [mj] and
    [sj]. *)
Record tx_inv (p : pager) (c : gmap Z PgHdr) (ls : list (list Z)) (mj sj : list PgHdr) : Prop := {
  ti_image : image p k ls pages;
  ti_grows : grows p k ls;
  ti_error : pager_error (cs_env (px_cst p)) = false /\ pager_errCode (cs_env (px_cst p)) = SQLITE_OK;
  ti_conf : journalMode (px_tx p) <> PAGER_JOURNALMODE_OFF /\ useJournal (px_tx p) = true /\
    28 <= sectorSize (px_tx p) <= px_pageSize p;
  ti_state : journal_state p mj sj;
  ti_cache : forall q h, c !! q = Some h -> hdr_pgno h = q /\ valid_pgno p q /\ page_held (px_pageSize p) h;
  ti_main : journal_holds p k ls (sectorSize (px_tx p)) mj;
  ti_sub : forall i h, sj !! i = Some h -> subjournalled p ls i h;
  ti_nsub : nSubRec (px_tx p) = Z.of_nat (length sj);
  ti_held : Forall (fun h => page_held (px_pageSize p) h /\ is_Some (c !! hdr_pgno h)) (mj ++ sj);
  ti_written : forall q h, c !! q = Some h -> Z.land (hdr_flags h) PGHDR_WRITEABLE <> 0 ->
    jbits (px_tx p) = true /\ (q <= dbOrigSize (px_tx p) -> BitvecTest (pInJournal (px_journal p)) q = true);
}.

(** The records made since the savepoint was opened. *)
Definition since (mj sj : list PgHdr) (a b : nat) : list PgHdr := drop a mj ++ drop b sj.

(** A savepoint and the copy it stands for. *)
Record snapshot_of (p : pager) (c : gmap Z PgHdr) (mj sj : list PgHdr) (s : PagerSavepoint) (d : database) (a b : nat)
  : Prop := {
  sn_main : iHdrOffset s = 0 /\ iOffset s = record_at p (sectorSize (px_tx p)) a /\ (a <= length mj)%nat;
  sn_sub : iSubRec s = Z.of_nat b /\ (b <= length sj)%nat;
  sn_bits : forall q, q <= nOrig s -> BitvecTest (pInSavepoint s) q = true <-> is_Some (first_copy q (since mj sj a b));
  sn_journal : forall q, q <= nOrig s -> BitvecTest (pInSavepoint s) q = true -> q <= dbOrigSize (px_tx p) ->
    jbits (px_tx p) = true /\ BitvecTest (pInJournal (px_journal p)) q = true;
  sn_size : nOrig s = db_size d;
  sn_pages : forall q x, db_pages d !! q = Some x -> 1 <= q <= db_size d /\ valid_pgno p q /\
    match first_copy q (since mj sj a b) with
    | Some y => usable (px_pageSize p) y = x
    | None => holds (px_pageSize p) c q x
    end;
}.

(** Inner savepoints have fewer records. *)
Definition ordered (sps : list PagerSavepoint) : Prop :=
  forall i j s s', (i <= j)%nat -> sps !! i = Some s -> sps !! j = Some s' ->
    iOffset s <= iOffset s' /\ iSubRec s <= iSubRec s'.

Record snapshots (p : pager) (c : gmap Z PgHdr) (mj sj : list PgHdr) (ds : list database) : Prop := {
  ss_all : Forall2 (fun s d => exists a b, snapshot_of p c mj sj s d a b) (aSavepoint (px_tx p)) ds;
  ss_order : ordered (aSavepoint (px_tx p));
}.

Record tx_rel (p : pager) (c : gmap Z PgHdr) (mj sj : list PgHdr) (s : spec) : Prop := {
  tr_size : px_dbSize p = db_size (now s);
  tr_pages : forall q x, db_pages (now s) !! q = Some x -> 1 <= q <= db_size (now s) /\ valid_pgno p q /\
    holds (px_pageSize p) c q x;
  tr_saved : snapshots p c mj sj (saved s);
  tr_fresh : jbits (px_tx p) = false -> Forall (fun d => db_size d = db_size (now s)) (saved s);
}.

(** *** Changes of the pager that do not matter *)

Lemma holds_ext P c c' q d : c' !! q = c !! q -> holds P c q d -> holds P c' q d.
Proof. unfold holds. by intros ->. Qed.

Lemma journal_holds_ext p p' ls more o hs :
  journal_holds p k ls o hs -> px_pageSize p' = px_pageSize p -> 0 <= px_pageSize p ->
  jfd (px_journal p') = jfd (px_journal p) -> cksumInit (px_journal p') = cksumInit (px_journal p) ->
  flags (cs_ctx (px_cst p')) = flags (cs_ctx (px_cst p)) ->
  kdf_salt (cs_ctx (px_cst p')) = kdf_salt (cs_ctx (px_cst p)) -> journal_holds p' k (ls ++ more) o hs.
Proof.
  intros H HP HP0 Hj Hci Hf Hs i h Hi. unfold record_at. rewrite HP.
  apply (journalled_keep p); try done; [by apply H|by rewrite Hj|intros; by rewrite Hj].
Qed.

Lemma subjournalled_ext p p' ls more i h :
  subjournalled p ls i h -> px_pageSize p' = px_pageSize p -> sjfd (px_tx p') = sjfd (px_tx p) ->
  subjInMemory (px_tx p') = subjInMemory (px_tx p) ->
  flags (cs_ctx (px_cst p')) = flags (cs_ctx (px_cst p)) ->
  kdf_salt (cs_ctx (px_cst p')) = kdf_salt (cs_ctx (px_cst p)) -> subjournalled p' (ls ++ more) i h.
Proof.
  intros (f & page & Hf & Hl & Hr & Hp & Hs) HP Hsj Hm Hfl Hsalt. exists f, page. rewrite HP, Hsj, Hm.
  split_and!; try done. destruct (subjInMemory (px_tx p)); [done|by eapply sealed_ext].
Qed.

Lemma tx_room p c ls mj sj : tx_inv p c ls mj sj -> 16 + 96 <= px_pageSize p.
Proof. intros H. exact (op_room _ _ _ _ (im_open _ _ _ _ (ti_image _ _ _ _ _ H))). Qed.

(** The file was read or a page was decrypted. *)
Lemma tx_inv_kept p p' c ls mj sj :
  tx_inv p c ls mj sj -> image p' k ls pages -> kept p p' -> tx_inv p' c ls mj sj.
Proof.
  intros H Him Hk. pose proof (tx_room _ _ _ _ _ H) as HP0. pose proof H as [_ Hg He Hcf Hst Hca Hm Hs Hn Hh Hw].
  pose proof (grows_kept _ _ _ _ Hk Hg) as Hg'.
  destruct Hk as [HP _ Hst' Hj Ht _ Hf Hsa [He1 He2]].
  split; try done; unfold journal_state, valid_pgno, mj_pgno, record_at in *; rewrite ?HP, ?Ht, ?Hj, ?Hst', ?He1, ?He2; try done.
  - rewrite <- (app_nil_r ls). by apply (journal_holds_ext p); [done|done|lia|rewrite Hj..|done|done].
  - intros i h Hi. rewrite <- (app_nil_r ls). by apply (subjournalled_ext p); [apply Hs|done|rewrite Ht..|done|done].
Qed.

(** What a snapshot sees of the pager. *)
Record same_view (p p' : pager) : Prop := {
  vw_page : px_pageSize p' = px_pageSize p;
  vw_journal : px_journal p' = px_journal p;
  vw_sector : sectorSize (px_tx p') = sectorSize (px_tx p);
  vw_orig : dbOrigSize (px_tx p') = dbOrigSize (px_tx p);
  vw_bits : jbits (px_tx p') = jbits (px_tx p);
}.

Lemma snapshot_view p p' c mj sj s d a b :
  snapshot_of p c mj sj s d a b -> same_view p p' -> snapshot_of p' c mj sj s d a b.
Proof.
  intros [H1 H2 H3 H4 H5 H6] [HP Hj Hs Ho Hb].
  split; unfold valid_pgno, mj_pgno, record_at in *; by rewrite ?HP, ?Hj, ?Hs, ?Ho, ?Hb.
Qed.

Lemma same_view_kept p p' : kept p p' -> same_view p p'.
Proof. intros [? ? ? ? Ht ? ? ? ?]. split; by rewrite ?Ht. Qed.

Lemma snapshots_view p p' c mj sj ds :
  snapshots p c mj sj ds -> same_view p p' -> aSavepoint (px_tx p') = aSavepoint (px_tx p) -> snapshots p' c mj sj ds.
Proof.
  intros [H1 H2] Hvw Ht. split; rewrite Ht; [|done]. eapply Forall2_impl; [exact H1|].
  intros s d (a & b & Hs). exists a, b. by apply (snapshot_view p).
Qed.

(** The snapshots are judged one by one. *)
Lemma snapshots_impl p c c' mj sj mj' sj' ds :
  (forall i s d a b, aSavepoint (px_tx p) !! i = Some s -> ds !! i = Some d -> snapshot_of p c mj sj s d a b ->
    snapshot_of p c' mj' sj' s d a b) ->
  snapshots p c mj sj ds -> snapshots p c' mj' sj' ds.
Proof.
  intros H [H1 H2]. split; [|done]. apply Forall2_same_length_lookup. split; [by eapply Forall2_length|].
  intros i s d Hi Hd. destruct (Forall2_lookup_lr _ _ _ _ _ _ H1 Hi Hd) as (a & b & Hs). exists a, b. by eapply H.
Qed.

Lemma tx_rel_kept p p' c mj sj s : tx_rel p c mj sj s -> kept p p' -> tx_rel p' c mj sj s.
Proof.
  intros [H1 H2 H3 H4] Hk. pose proof Hk as [HP Hs _ Hj Ht _ _ _ _].
  split; unfold valid_pgno, mj_pgno in *; rewrite ?HP, ?Ht; [congruence|done| |done].
  apply (snapshots_view p); [done|by apply same_view_kept|by rewrite Ht].
Qed.

(** The cache was filled. *)
Lemma tx_rel_cache p c c' mj sj s :
  (forall q x, q <= db_size (now s) -> holds (px_pageSize p) c q x -> holds (px_pageSize p) c' q x) ->
  grown s -> tx_rel p c mj sj s -> tx_rel p c' mj sj s.
Proof.
  intros Hh Hg [H1 H2 H3 H4]. split; [done| | |done].
  - intros q x Hx. destruct (H2 q x Hx) as (? & ? & ?). split; [done|]. split; [done|]. apply Hh; [lia|done].
  - eapply snapshots_impl; [|exact H3]. intros i sp d a b Hi Hd [S1 S2 S3 S4 S5 S6]. split; try done. intros q x Hx. destruct (S6 q x Hx) as (Hq & Hv & Hc). split; [done|]. split; [done|].
    destruct (first_copy q (since mj sj a b)); [done|]. destruct (Hg i d Hd). apply Hh; [lia|done].
Qed.

(** ** Getting a page *)

(** A page of the database, or a new one behind its end. *)
Definition reachable_page (p : pager) (s : spec) (q : Z) : Prop :=
  is_Some (db_pages (now s) !! q) \/ 1 < q /\ db_size (now s) < q <= mxPgno (px_tx p) /\ valid_pgno p q.

Lemma tx_inv_fill p c ls mj sj q h :
  tx_inv p c ls mj sj -> c !! q = None -> hdr_pgno h = q -> valid_pgno p q -> page_held (px_pageSize p) h ->
  hdr_flags h = PGHDR_CLEAN -> tx_inv p (<[q := h]> c) ls mj sj.
Proof.
  intros [? ? ? ? ? Hca ? ? ? Hh Hw] Hc Hq Hv Hp Hfl. split; try done.
  - intros q' h'. destruct (decide (q = q')) as [<-|Hne].
    + rewrite lookup_insert_eq. by intros [= <-].
    + rewrite lookup_insert_ne by done. apply Hca.
  - eapply Forall_impl; [exact Hh|]. cbn. intros r [Hr1 Hr2]. split; [done|].
    destruct (decide (q = hdr_pgno r)) as [->|Hne]; [by rewrite lookup_insert_eq|by rewrite lookup_insert_ne].
  - intros q' h'. destruct (decide (q = q')) as [<-|Hne].
    + rewrite lookup_insert_eq. intros [= <-]. by rewrite Hfl.
    + rewrite lookup_insert_ne by done. apply Hw.
Qed.

Lemma zero_page_held P q : 1 < q -> 0 <= P -> page_held P (Mk_hdr q (replicate (Z.to_nat P) 0) PGHDR_CLEAN).
Proof.
  intros Hq HP. split; cbn; [lia|rewrite length_replicate; lia| |lia].
  rewrite take_replicate. by apply Forall_replicate.
Qed.

Lemma get_ok p c ls mj sj s q w :
  tx_inv p c ls mj sj -> tx_rel p c mj sj s -> grown s -> reachable_page p s q -> all_ok w ->
  exists p' h w', get_page p c q w = Done ((SQLITE_OK, p', Some h), w') /\ all_ok w' /\
    tx_inv p' (<[q := h]> c) ls mj sj /\ tx_rel p' (<[q := h]> c) mj sj s /\ kept p p' /\
    (forall x, db_pages (now s) !! q = Some x -> usable (px_pageSize p) (hdr_pData h) = x).
Proof using L.
  intros Hi Hr Hg Hq Hw. pose proof (tx_room _ _ _ _ _ Hi) as HP0. pose proof (ti_error _ _ _ _ _ Hi) as [_ Hec].
  unfold get_page, sqlite3PagerGet. rewrite Hec. change (SQLITE_OK =? SQLITE_OK) with true. cbv iota zeta.
  assert (Hv : valid_pgno p q).
  { destruct Hq as [[x Hx]|Hq]; [|tauto]. by destruct (tr_pages _ _ _ _ _ Hr q x Hx) as (_ & ? & _). }
  pose proof Hv as ([Hv1 Hv2] & Hv3).
  unfold getPageNormal. replace (q =? 0) with false by lia. destruct (c !! q) as [h|] eqn:Ec.
  { exists p, h, w. rewrite insert_id by done. split_and!; try done.
    intros x Hx. destruct (tr_pages _ _ _ _ _ Hr q x Hx) as (_ & _ & Hh). unfold holds in Hh. by rewrite Ec in Hh. }
  destruct (request_ok w Hw) as (w1 & E1 & Hw1). rewrite (bind_done _ _ _ _ _ E1). cbn [negb].
  replace ((PAGER_MAX_PGNO <? q) || (q =? mj_pgno p)) with false by (symmetry; apply orb_false_iff; lia).
  pose proof (ti_image _ _ _ _ _ Hi) as Him. pose proof Him as [_ _ _ (f & Hf & Hpg)]. rewrite Hf. cbn [orb].
  rewrite orb_false_r, (tr_size _ _ _ _ _ Hr). destruct Hq as [[x Hx]|(Hq1 & [Hq2 Hq3] & _)].
  - destruct (tr_pages _ _ _ _ _ Hr q x Hx) as (Hqs & _ & Hh). replace (db_size (now s) <? q) with false by lia.
    pose proof Hh as Hh'. unfold holds in Hh'. rewrite Ec in Hh'. destruct Hh' as (d0 & Hd0 & Hu).
    destruct (image_read g p k ls pages q d0 (Mk_hdr q (replicate (Z.to_nat (px_pageSize p)) 0) PGHDR_CLEAN) w1 Him Hd0 eq_refl)
      as (p' & h' & Er & Hn & Hl & Htk & Him' & Hkept & Hfl & _).
    rewrite (bind_done _ _ _ _ _ Er). exists p', h', w1. split; [done|]. split; [done|].
    assert (Hu' : usable (px_pageSize p) (hdr_pData h') = x) by (rewrite <- Hu; exact Htk).
    destruct (Hpg q d0 Hd0) as [_ (? & ? & ? & ? & ? & ? & ? & Hdl & Hdb & Hdh & _)].
    assert (Hph : page_held (px_pageSize p) h') by (by apply (page_held_usable _ (Mk_hdr q d0 0))).
    split; [|split; [|split; [done|]]].
    + apply (tx_inv_kept p); [by apply tx_inv_fill|done|done].
    + apply (tx_rel_kept p); [|done]. apply (tx_rel_cache p c); [|done|done].
      intros q' y _. destruct (decide (q = q')) as [<-|Hne]; [|by apply holds_ext; rewrite lookup_insert_ne].
      unfold holds. rewrite Ec, lookup_insert_eq. intros (d1 & Hd1 & <-). congruence.
    + intros y Hy. congruence.
  - replace (db_size (now s) <? q) with true by lia. replace (mxPgno (px_tx p) <? q) with false by lia.
    eexists p, _, w1. split; [reflexivity|]. split; [done|]. split_and!; [| |done|].
    + apply tx_inv_fill; try done. apply zero_page_held; lia.
    + apply (tx_rel_cache p c); [|done|done]. intros q' y Hq'. apply holds_ext. rewrite lookup_insert_ne by lia. done.
    + intros x Hx. destruct (tr_pages _ _ _ _ _ Hr q x Hx) as ([? ?] & _). lia.
Qed.

(** ** Saving a page *)

Lemma bitvec_cons q q' l : BitvecTest (q :: l) q' = (q' =? q) || BitvecTest l q'.
Proof. done. Qed.

(** A copy of page [q] with contents [d] is added to the records, unless there is
    one. *)
Record saves (q : Z) (d : list Z) (rs rs' : list PgHdr) : Prop := {
  sv_other : forall q', q' <> q -> first_copy q' rs' = first_copy q' rs;
  sv_this : first_copy q rs' = Some (default d (first_copy q rs));
}.

Lemma saves_main h mj sj a b :
  (a <= length mj)%nat -> first_copy (hdr_pgno h) (since mj sj a b) = None ->
  saves (hdr_pgno h) (hdr_pData h) (since mj sj a b) (since (mj ++ [h]) sj a b).
Proof.
  intros Ha Hn. unfold since in *. rewrite drop_app_le by done. split.
  - intros q' Hq. rewrite !first_copy_app. cbn. by replace (hdr_pgno h =? q') with false by lia; destruct (first_copy q' (drop a mj)).
  - rewrite Hn. rewrite first_copy_app in Hn. rewrite !first_copy_app. cbn. rewrite Z.eqb_refl.
    by destruct (first_copy _ (drop a mj)).
Qed.

Lemma saves_sub h mj sj a b :
  (b <= length sj)%nat -> saves (hdr_pgno h) (hdr_pData h) (since mj sj a b) (since mj (sj ++ [h]) a b).
Proof.
  intros Hb. unfold since. rewrite drop_app_le by done. rewrite app_assoc. set (rs := drop a mj ++ drop b sj).
  split; intros; rewrite first_copy_app; cbn; [|rewrite Z.eqb_refl; by destruct (first_copy _ rs)].
  replace (hdr_pgno h =? q') with false by lia. by destruct (first_copy q' rs).
Qed.

(** The bits of a savepoint follow the records. *)
Lemma snapshot_saves p p' c mj sj mj' sj' s d a b h hc :
  snapshot_of p c mj sj s d a b -> c !! hdr_pgno h = Some hc -> hdr_pData h = hdr_pData hc ->
  (hdr_pgno h <= nOrig s -> saves (hdr_pgno h) (hdr_pData h) (since mj sj a b) (since mj' sj' a b)) ->
  (forall q', q' <> hdr_pgno h -> first_copy q' (since mj' sj' a b) = first_copy q' (since mj sj a b)) ->
  (length mj <= length mj')%nat -> (length sj <= length sj')%nat ->
  px_pageSize p' = px_pageSize p -> sectorSize (px_tx p') = sectorSize (px_tx p) ->
  dbOrigSize (px_tx p') = dbOrigSize (px_tx p) -> jbits (px_tx p') = jbits (px_tx p) ->
  (forall q, BitvecTest (pInJournal (px_journal p)) q = true -> BitvecTest (pInJournal (px_journal p')) q = true) ->
  (hdr_pgno h <= dbOrigSize (px_tx p) -> jbits (px_tx p) = true /\ BitvecTest (pInJournal (px_journal p')) (hdr_pgno h) = true) ->
  snapshot_of p' c mj' sj' (mark (hdr_pgno h) s) d a b.
Proof.
  intros [(H1 & H2 & H3) [H4 H5] H6 H7 H8 H9] Hc Hd Hsv Hoth Hl1 Hl2 HP Hss Hdo Hjb Hinj Hthis.
  set (q := hdr_pgno h) in *.
  assert (Hm : nOrig (mark q s) = nOrig s /\ iHdrOffset (mark q s) = iHdrOffset s /\ iOffset (mark q s) = iOffset s /\
    iSubRec (mark q s) = iSubRec s) by (unfold mark; by destruct (q <=? nOrig s)).
  destruct Hm as (M1 & M2 & M3 & M4).
  assert (Hbit : forall q', q' <= nOrig s -> BitvecTest (pInSavepoint (mark q s)) q' = (q' =? q) || BitvecTest (pInSavepoint s) q').
  { intros q' Hq'. unfold mark. destruct (q <=? nOrig s) eqn:E; [done|]. by replace (q' =? q) with false by lia. }
  split; rewrite ?M1, ?M2, ?M3, ?M4; unfold record_at, valid_pgno, mj_pgno in *; rewrite ?HP, ?Hss, ?Hdo, ?Hjb.
  - split_and!; [done|done|lia].
  - split; [done|lia].
  - intros q' Hq'. rewrite Hbit by done. destruct (decide (q' = q)) as [->|Hne].
    + rewrite Z.eqb_refl. cbn [orb]. rewrite (sv_this _ _ _ _ (Hsv Hq')). by split; intros _.
    + replace (q' =? q) with false by lia. cbn [orb]. rewrite Hoth by done. by apply H6.
  - intros q' Hq'. rewrite Hbit by done. intros Hb Ho. destruct (decide (q' = q)) as [->|Hne]; [by apply Hthis|].
    replace (q' =? q) with false in Hb by lia. destruct (H7 q' Hq' Hb Ho). split; [done|by apply Hinj].
  - done.
  - intros q' x Hx. destruct (H9 q' x Hx) as (Hq' & Hv & Hf). split; [done|]. split; [done|].
    destruct (decide (q' = q)) as [->|Hne]; [|by rewrite Hoth].
    rewrite (sv_this _ _ _ _ (Hsv ltac:(lia))). destruct (first_copy q (since mj sj a b)); [done|].
    unfold holds in Hf. rewrite Hc in Hf. cbn. by rewrite Hd.
Qed.

(** Every savepoint has page [q]. *)
Definition saved_everywhere (p : pager) (q : Z) : Prop :=
  Forall (fun s => q <= nOrig s -> BitvecTest (pInSavepoint s) q = true) (aSavepoint (px_tx p)).

Lemma marked_everywhere q sps : Forall (fun s => q <= nOrig s -> BitvecTest (pInSavepoint s) q = true) (map (mark q) sps).
Proof.
  apply Forall_fmap, Forall_true. intros s. cbn. unfold mark. destruct (q <=? nOrig s) eqn:E; cbn; [|lia].
  intros _. by rewrite Z.eqb_refl.
Qed.

Lemma saved_not_required p q : saved_everywhere p q <-> subjRequiresPage p q = false.
Proof.
  unfold saved_everywhere, subjRequiresPage. induction (aSavepoint (px_tx p)) as [|s sps IH]; [by split|].
  rewrite Forall_cons, IH. cbn [existsb]. rewrite orb_false_iff.
  assert (Hs : (q <= nOrig s -> BitvecTest (pInSavepoint s) q = true) <-> (q <=? nOrig s) && negb (BitvecTest (pInSavepoint s) q) = false).
  { destruct (q <=? nOrig s) eqn:E; destruct (BitvecTest (pInSavepoint s) q); cbn; split; intros H; try done; lia. }
  tauto.
Qed.

Lemma ordered_mark q sps : ordered sps -> ordered (map (mark q) sps).
Proof.
  intros H i j s s' Hij Hi Hj. apply list_lookup_fmap_Some in Hi as (s0 & -> & Hi).
  apply list_lookup_fmap_Some in Hj as (s1 & -> & Hj). pose proof (H i j s0 s1 Hij Hi Hj).
  unfold mark. by destruct (q <=? nOrig s0), (q <=? nOrig s1).
Qed.

(** What saving a page leaves alone. *)
Record same_tx (p p' : pager) : Prop := {
  sx_page : px_pageSize p' = px_pageSize p;
  sx_state : px_state p' = px_state p;
  sx_size : px_dbSize p' = px_dbSize p;
  sx_max : mxPgno (px_tx p') = mxPgno (px_tx p);
  sx_orig : dbOrigSize (px_tx p') = dbOrigSize (px_tx p);
}.

(** A page that goes into the rollback journal is saved for every savepoint. *)
Lemma main_snapshots p p' (c : gmap Z PgHdr) mj sj ds h hc :
  snapshots p c mj sj ds -> c !! hdr_pgno h = Some hc -> hdr_pData h = hdr_pData hc ->
  BitvecTest (pInJournal (px_journal p)) (hdr_pgno h) = false -> hdr_pgno h <= dbOrigSize (px_tx p) ->
  jbits (px_tx p) = true -> px_pageSize p' = px_pageSize p ->
  pInJournal (px_journal p') = hdr_pgno h :: pInJournal (px_journal p) ->
  px_tx p' = px_tx (put_savepoints p (map (mark (hdr_pgno h)) (aSavepoint (px_tx p)))) ->
  snapshots p' c (mj ++ [h]) sj ds.
Proof.
  intros [Hsn Hord] Hc Hd Hnj Ho Hjb HP Hpj Hpt. split; rewrite Hpt; cbn; [|by apply ordered_mark].
  apply Forall2_fmap_l. eapply Forall2_impl; [exact Hsn|]. intros s d (a & b & Hs). exists a, b. cbn.
  assert (Hfc : hdr_pgno h <= nOrig s -> first_copy (hdr_pgno h) (since mj sj a b) = None).
  { intros Hn. destruct (first_copy _ _) eqn:Ef; [|done]. exfalso.
    destruct (sn_journal _ _ _ _ _ _ _ _ Hs (hdr_pgno h)) as [_ Hx]; [done| |done|by rewrite Hx in Hnj].
    apply (sn_bits _ _ _ _ _ _ _ _ Hs); [done|by rewrite Ef]. }
  apply (snapshot_saves p p' c mj sj _ _ s d a b h hc Hs Hc Hd); rewrite ?Hpt, ?Hpj; try done.
  - intros Hn. apply saves_main; [apply (sn_main _ _ _ _ _ _ _ _ Hs)|by apply Hfc].
  - intros q' Hq. unfold since. rewrite drop_app_le by apply (sn_main _ _ _ _ _ _ _ _ Hs).
    rewrite !first_copy_app. cbn. replace (hdr_pgno h =? q') with false by lia. by destruct (first_copy q' (drop a mj)).
  - rewrite length_app. lia.
  - intros q Hq. by rewrite bitvec_cons, Hq, orb_true_r.
  - intros _. by rewrite bitvec_cons, Z.eqb_refl.
Qed.

(** Page [h] of the cache goes into the rollback journal. *)
Lemma main_step p c ls mj sj ds h hc w :
  tx_inv p c ls mj sj -> snapshots p c mj sj ds -> px_state p = PAGER_WRITER_CACHEMOD ->
  c !! hdr_pgno h = Some hc -> hdr_pData h = hdr_pData hc ->
  BitvecTest (pInJournal (px_journal p)) (hdr_pgno h) = false -> hdr_pgno h <= dbOrigSize (px_tx p) ->
  Z.of_nat (S (length ls)) < MT_AL_MAX_ELEMS -> all_ok w ->
  exists p' ls' w', pagerAddPageToRollbackJournal os_write g p h w
      = Done ((SQLITE_OK, p', set_flags h (Z.lor (hdr_flags h) PGHDR_NEED_SYNC)), w') /\ all_ok w' /\
    (length ls' <= S (length ls))%nat /\ tx_inv p' c ls' (mj ++ [h]) sj /\ snapshots p' c (mj ++ [h]) sj ds /\
    same_tx p p' /\ saved_everywhere p' (hdr_pgno h) /\ jbits (px_tx p') = true /\
    BitvecTest (pInJournal (px_journal p')) (hdr_pgno h) = true.
Proof using L W Hos.
  intros Hi Hsn Hst Hc Hd Hnj Ho Hroom Hw. pose proof (tx_room _ _ _ _ _ Hi) as HP0.
  pose proof Hi as [Him Hgr [He1 He2] (Hm1 & Hm2 & Hm3) Hjs Hca Hmain Hsub Hnsub Hheld Hwr].
  destruct Hjs as [(Hlk & _)|(_ & Hjb & Hjo & Hoff & Hci)]; [by rewrite Hst in Hlk|].
  destruct (Hca _ _ Hc) as (Hhc & ([Hv1 Hv2] & Hv3) & Hph).
  assert (Hph' : page_held (px_pageSize p) h) by (destruct Hph; split; rewrite ?Hd; rewrite ?Hhc in *; done).
  destruct (journal_page_ok os_write Hos g p h k ls pages w) as (p' & ls' & w' & f & E & Hw' & Had & Hj & Hkeep & Hpj & Hpt);
    [done|done|done|unfold PAGER_MAX_PGNO in Hv2; lia|rewrite Hoff; unfold record_at; nia|done|done|done|].
  pose proof Had as [Him' Hgr' Hl [more ->] Hfl Hsalt HP' Hs' Hst' Hen].
  exists p', (ls ++ more), w'. split; [done|]. split; [done|]. split; [done|].
  assert (Hrec : forall i, record_at p' (sectorSize (px_tx p')) i = record_at p (sectorSize (px_tx p)) i)
    by (intros i; unfold record_at; rewrite HP', Hpt; done).
  split; [split; try done|split; [|split; [split; try done; by rewrite Hpt|]]].
  - by rewrite Hen.
  - rewrite Hpt, HP'. done.
  - right. rewrite Hst', Hrec, Hpt, Hpj. cbn. rewrite Hoff, length_app. unfold record_at. cbn. split_and!; try done; lia.
  - unfold valid_pgno, mj_pgno in *. by rewrite HP'.
  - intros i r Hr. rewrite Hrec. destruct (decide (i < length mj)%nat) as [Hlt|Hge].
    + rewrite lookup_app_l in Hr by done. apply Hkeep; [rewrite Hoff; unfold record_at; nia|by apply Hmain].
    + rewrite lookup_app_r in Hr by lia. destruct (i - length mj)%nat eqn:E0; [|done]. injection Hr as <-.
      replace i with (length mj) by lia. by rewrite <- Hoff.
  - intros i r Hr. by apply (subjournalled_ext p); [apply Hsub|done|rewrite Hpt..|done|done].
  - by rewrite Hpt.
  - rewrite HP', <- app_assoc. apply Forall_app in Hheld as [Hh1 Hh2]. apply Forall_app. split; [done|].
    constructor; [by split; [|eexists]|done].
  - intros q' h' Hc' Hfl'. rewrite Hpt in *. rewrite Hpj. cbn [pInJournal]. rewrite bitvec_cons.
    destruct (Hwr q' h' Hc' Hfl') as [Hx Ho']. split; [done|]. intros Hq. by rewrite (Ho' Hq), orb_true_r.
  - by apply (main_snapshots p p' c mj sj ds h hc); rewrite ?Hpj.
  - rewrite Hpj. cbn [pInJournal]. rewrite bitvec_cons, Z.eqb_refl. split; [|by rewrite Hpt]. unfold saved_everywhere. rewrite Hpt. apply marked_everywhere.
Qed.

(** The two writes of a record of the sub-journal. *)
Definition sub_record (f page : list Z) (o pgno : Z) : list Z :=
  file_put (file_put f (sqlite3Put4byte pgno) o) page (o + 4).

Lemma sub_record_ok f page o pgno :
  0 <= o -> 0 <= pgno < 2 ^ 32 ->
  read32bits (sub_record f page o pgno) o = (SQLITE_OK, Some pgno) /\
  sqlite3OsRead (sub_record f page o pgno) (Z.of_nat (length page)) (o + 4) = (SQLITE_OK, page) /\
  o + 4 + Z.of_nat (length page) <= Z.of_nat (length (sub_record f page o pgno)) /\
  (length f <= length (sub_record f page o pgno))%nat /\
  forall n i, 0 <= i -> 0 <= n -> i + n <= o -> i + n <= Z.of_nat (length f) ->
    sqlite3OsRead (sub_record f page o pgno) n i = sqlite3OsRead f n i.
Proof.
  intros Ho Hp. unfold sub_record. destruct (put4_ok pgno) as [H4 _]. rewrite !length_file_put, H4.
  assert (Hl : o + 4 <= Z.of_nat (length (file_put f (sqlite3Put4byte pgno) o))) by (rewrite length_file_put, H4; lia).
  split; [|split; [by apply os_read_put; lia|split; [lia|split; [lia|]]]].
  - unfold read32bits. rewrite os_read_before by lia. rewrite os_read_put by lia.
    cbn -[sqlite3Get4byte sqlite3Put4byte]. by rewrite get4byte_put4byte.
  - intros n i Hi Hn Hio Hif. rewrite os_read_before by (rewrite ?length_file_put; lia). by rewrite os_read_before by lia.
Qed.

(** Only the file of the sub-journal differs. *)
Definition with_sub (t : transaction) (f : list Z) (spill : Z) : transaction :=
  Mk_tx (jopen t) (jbits t) (dbOrigSize t) (sectorSize t) (journalMode t) (useJournal t) (mxPgno t) (aSavepoint t)
    (Some f) spill (nSubRec t) (subjInMemory t).

Context (Hv : vfs_ok v).

Lemma open_sub_ok p c ls mj sj :
  tx_inv p c ls mj sj ->
  exists f spill, openSubJournal v p = (SQLITE_OK, put_tx p (with_sub (px_tx p) f spill)) /\
    forall i r, sj !! i = Some r -> sjfd (px_tx p) = Some f.
Proof using Hv.
  intros Hi. unfold openSubJournal. destruct (sjfd (px_tx p)) as [f|] eqn:Ef.
  - exists f, (sjSpill (px_tx p)). split; [|done]. unfold with_sub. destruct p as [? ? ? ? ? ? ? ? ? ? ? []]. cbn in *. by subst.
  - exists (@nil Z). cbv zeta. set (spill := if (_ : bool) then (_ : Z) else (_ : Z)). exists spill.
    assert (Hrc : sqlite3JournalOpen spill (open_sub v) = SQLITE_OK) by (destruct Hv as (_ & Ho & _); unfold sqlite3JournalOpen; by destruct (spill =? 0)).
    rewrite Hrc. split; [done|]. intros i r Hr.
    destruct (ti_sub _ _ _ _ _ Hi i r Hr) as (f & page & Hf & _). congruence.
Qed.

Lemma advanced_put_tx p ls p' ls' t : advanced p k ls pages p' ls' -> advanced p k ls pages (put_tx p' t) ls'.
Proof. intros [[] [] ? ? ? ? ? ? ? ?]. by repeat (split; try done). Qed.

Lemma advanced_tx p ls t : image p k ls pages -> grows p k ls -> advanced p k ls pages (put_tx p t) ls.
Proof. intros [] []. repeat (split; try done). lia. Qed.

(** The page as it goes into the sub-journal. *)
Lemma sub_copy_ok p ls h w :
  image p k ls pages -> grows p k ls -> page_held (px_pageSize p) h ->
  Z.of_nat (S (length ls)) < MT_AL_MAX_ELEMS -> all_ok w ->
  exists p' ls' w' page, (if subjInMemory (px_tx p) then mret (Some (hdr_pData h), p, hdr_pData h)
      else CODEC2 g p (hdr_pData h) (hdr_pgno h) CODEC_JOURNAL_OP) w
      = Done ((Some page, p', hdr_pData h), w') /\ all_ok w' /\
    advanced p k ls pages p' ls' /\ Z.of_nat (length page) = px_pageSize p /\
    px_tx p' = px_tx p /\ px_journal p' = px_journal p /\
    (if subjInMemory (px_tx p) then page = hdr_pData h
     else sealed (cs_ctx (px_cst p')) k ls' (px_pageSize p) (hdr_pgno h) (hdr_pData h) page).
Proof using L W.
  intros Him Hgr Hph Hroom Hw. destruct (subjInMemory (px_tx p)).
  - exists p, ls, w, (hdr_pData h). split; [done|]. split; [done|]. split; [|by destruct Hph].
    destruct (advanced_tx p ls (px_tx p) Him Hgr). by split.
  - destruct (codec_seals g p h k CODEC_JOURNAL_OP ls pages w) as (st1 & w1 & page & ls1 & Hcodec & Hw1 & Hpl & Hsl & Had);
      [by right|done..|]. by exists (put_cst p st1), ls1, w1, page.
Qed.

Lemma subrecord_ok p c ls mj sj h hc w :
  tx_inv p c ls mj sj -> c !! hdr_pgno h = Some hc -> hdr_pData h = hdr_pData hc ->
  Z.of_nat (S (length ls)) < MT_AL_MAX_ELEMS -> all_ok w ->
  exists p' ls' w' f spill, subjournal_record os_write v g p h w = Done ((SQLITE_OK, p', h), w') /\ all_ok w' /\
    advanced p k ls pages p' ls' /\ px_journal p' = px_journal p /\ px_tx p' = with_sub (px_tx p) f spill /\
    page_held (px_pageSize p) h /\
    forall i r, (sj ++ [h]) !! i = Some r -> subjournalled p' ls' i r.
Proof using L W Hos Hv.
  intros Hi Hc Hd Hroom Hw. pose proof (tx_room _ _ _ _ _ Hi) as HP0. pose proof Hi as [Him Hgr _ _ _ Hca _ Hsub Hnsub _ _].
  destruct (Hca _ _ Hc) as (Hhc & ([Hv1 Hv2] & _) & Hph).
  assert (Hph' : page_held (px_pageSize p) h) by (destruct Hph; split; rewrite ?Hd; rewrite ?Hhc in *; done).
  destruct (open_sub_ok _ _ _ _ _ Hi) as (f0 & spill & Eo & Hf0). unfold subjournal_record. rewrite Eo.
  change (negb (SQLITE_OK =? SQLITE_OK)) with false. cbv iota zeta. set (p0 := put_tx p _).
  pose proof (advanced_tx p ls (with_sub (px_tx p) f0 spill) Him Hgr) as Had0. fold p0 in Had0.
  destruct (sub_copy_ok p0 ls h w) as (p1 & ls1 & w1 & page & Ecp & Hw1 & Had & Hpl & Htx & Hjr & Hcopy);
    [apply Had0|apply Had0|done|done|done|].
  rewrite (bind_done _ _ _ _ _ Ecp). cbv beta iota. change (sjfd (px_tx p0)) with (Some f0). unfold deref. rewrite bind_ret.
  change (nSubRec (px_tx p0)) with (nSubRec (px_tx p)). change (px_pageSize p0) with (px_pageSize p) in *. rewrite Hnsub.
  set (P := px_pageSize p) in *. set (o := Z.of_nat (length sj) * (4 + P)) in *.
  assert (HP1 : px_pageSize p1 = P) by apply (ad_page _ _ _ _ _ _ Had).
  unfold write32bits. rewrite Hos by lia. change (negb (SQLITE_OK =? SQLITE_OK)) with false. cbv iota. rewrite HP1.
  rewrite (bind_done _ _ _ _ _ (read_whole page P w1 (eq_sym Hpl))), Hos by lia. cbn [hdr_pgno].
  fold (sub_record f0 page o (hdr_pgno h)).
  destruct (sub_record_ok f0 page o (hdr_pgno h) ltac:(lia) ltac:(unfold PAGER_MAX_PGNO in Hv2; lia)) as (R1 & R2 & R3 & R4 & R5).
  rewrite Hpl in R2, R3. set (f := sub_record f0 page o (hdr_pgno h)) in *.
  eexists _, ls1, w1, f, spill. split; [by destruct h|]. split; [done|].
  pose proof Had as [Him1 Hgr1 Hl1 [more ->] Hfl Hsa _ Hs1 Hst1 Hen1].
  split; [apply advanced_put_tx; destruct Had; by split|]. split; [by cbn; rewrite Hjr|].
  split; [cbn; by rewrite Htx, <- Hnsub|]. split; [done|].
  intros i r Hr. exists f. cbn [put_sub put_tx px_tx px_pageSize px_cst sjfd subjInMemory]. rewrite Htx, HP1.
  change (subjInMemory (px_tx p0)) with (subjInMemory (px_tx p)) in *.
  destruct (decide (i < length sj)%nat) as [Hlt|Hge].
  - rewrite lookup_app_l in Hr by done. destruct (Hsub i r Hr) as (f' & pg' & Hf' & Hl' & Hr1 & Hr2 & Hr3).
    rewrite (Hf0 i r Hr) in Hf'. injection Hf' as <-. exists pg'. split; [done|]. fold P in Hl', Hr1, Hr2, Hr3 |- *.
    assert (Hlim : Z.of_nat i * (4 + P) + 4 + P <= o) by (unfold o; nia).
    split; [lia|]. unfold read32bits in *. rewrite !R5 by lia. split; [done|]. split; [done|].
    change (subjInMemory (px_tx p0)) with (subjInMemory (px_tx p)). destruct (subjInMemory (px_tx p)); [done|].
    by eapply sealed_ext.
  - rewrite lookup_app_r in Hr by lia. destruct (i - length sj)%nat eqn:E0; [|done]. injection Hr as <-.
    replace i with (length sj) by lia. fold o. exists page. split; [done|]. split; [done|]. split; [done|]. split; done.
Qed.

(** Page [h] of the cache goes into the sub-journal. *)
Lemma sub_step p c ls mj sj ds h hc w :
  tx_inv p c ls mj sj -> snapshots p c mj sj ds -> px_state p = PAGER_WRITER_CACHEMOD ->
  c !! hdr_pgno h = Some hc -> hdr_pData h = hdr_pData hc ->
  (hdr_pgno h <= dbOrigSize (px_tx p) -> BitvecTest (pInJournal (px_journal p)) (hdr_pgno h) = true) ->
  Z.of_nat (S (length ls)) < MT_AL_MAX_ELEMS -> Z.of_nat (S (length sj)) < 2 ^ 32 -> all_ok w ->
  exists p' ls' w', subjournalPage os_write v g p h w = Done ((SQLITE_OK, p', h), w') /\ all_ok w' /\
    (length ls' <= S (length ls))%nat /\ tx_inv p' c ls' mj (sj ++ [h]) /\ snapshots p' c mj (sj ++ [h]) ds /\
    same_tx p p' /\ saved_everywhere p' (hdr_pgno h) /\ px_journal p' = px_journal p /\ jbits (px_tx p') = jbits (px_tx p).
Proof using L W Hos Hv.
  intros Hi Hsn Hst Hc Hd Hinj Hroom Hroom' Hw. pose proof (tx_room _ _ _ _ _ Hi) as HP0.
  pose proof Hi as [Him Hgr [He1 He2] (Hm1 & Hm2 & Hm3) Hjs Hca Hmain Hsub Hnsub Hheld Hwr].
  destruct Hjs as [(Hlk & _)|(_ & Hjb & Hjo & Hoff & Hci)]; [by rewrite Hst in Hlk|].
  destruct (subrecord_ok p c ls mj sj h hc w Hi Hc Hd Hroom Hw) as (p1 & ls1 & w1 & f & spill & E & Hw1 & Had & Hj & Ht & Hph & Hrec).
  unfold subjournalPage. replace (journalMode (px_tx p) =? PAGER_JOURNALMODE_OFF) with false by lia.
  rewrite (bind_done _ _ _ _ _ E). change (negb (SQLITE_OK =? SQLITE_OK)) with false. cbv beta iota zeta.
  destruct (bitvecs_ok (hdr_pgno h) (aSavepoint (px_tx p1)) w1 Hw1) as (w2 & Eb & Hw2). rewrite (bind_done _ _ _ _ _ Eb), Ht.
  cbn [with_sub aSavepoint sjfd nSubRec]. rewrite Hnsub. set (p' := put_sub p1 _ _ _).
  assert (Htx : px_tx p' = Mk_tx (jopen (px_tx p)) (jbits (px_tx p)) (dbOrigSize (px_tx p)) (sectorSize (px_tx p))
    (journalMode (px_tx p)) (useJournal (px_tx p)) (mxPgno (px_tx p)) (map (mark (hdr_pgno h)) (aSavepoint (px_tx p)))
    (Some f) spill (u32 (Z.of_nat (length sj) + 1)) (subjInMemory (px_tx p))).
  { unfold p', put_sub. cbn. by rewrite Ht. }
  pose proof Had as [Him1 Hgr1 Hl1 [more ->] Hfl Hsa HP1 Hs1 Hst1 Hen1].
  assert (HP' : px_pageSize p' = px_pageSize p) by done.
  exists p', (ls ++ more), w2. split; [done|]. split; [done|]. split; [done|].
  assert (Hjr : px_journal p' = px_journal p) by done.
  split; [|split; [|split; [split; rewrite ?Htx; done|]]].
  - split; unfold journal_state, record_at in *; rewrite ?Htx, ?HP', ?Hjr; try done.
    + by destruct Him1.
    + by destruct Hgr1.
    + change (cs_env (px_cst p')) with (cs_env (px_cst p1)). by rewrite Hen1.
    + right. cbn. rewrite Hst1. done.
    + unfold valid_pgno, mj_pgno in *. by rewrite HP'.
    + cbn. apply (journal_holds_ext p); try done; [lia|by rewrite Hjr..].
    + intros i r Hr. destruct (Hrec i r Hr) as (f' & pg & Hf' & R). rewrite Ht in Hf'. exists f', pg.
      rewrite Htx. split; [done|]. rewrite HP'. rewrite HP1, Ht in R. exact R.
    + cbn. rewrite length_app. cbn [length]. unfold u32. rewrite Z.mod_small by lia. lia.
    + rewrite app_assoc. apply Forall_app. split; [done|]. constructor; [by split; [|eexists]|constructor].
  - destruct Hsn as [Hsn Hord]. split; rewrite Htx; cbn [aSavepoint]; [|by apply ordered_mark]. apply Forall2_fmap_l. eapply Forall2_impl; [exact Hsn|].
    intros s d (a & b & Hs). exists a, b. cbn.
    destruct (saves_sub h mj sj a b) as [S1 S2]; [apply (sn_sub _ _ _ _ _ _ _ _ Hs)|].
    apply (snapshot_saves p p' c mj sj _ _ s d a b h hc Hs Hc Hd); rewrite ?Htx, ?Hjr; try done.
    + rewrite length_app. lia.
    + intros Ho. split; [done|by apply Hinj].
  - rewrite Htx. split; [|done]. unfold saved_everywhere. rewrite Htx. apply marked_everywhere.
Qed.

(** ** Opening the journal *)

(** A header as long as a sector takes one write. *)
Lemma write_header_once p z :
  2 <= sectorSize (px_tx p) -> 0 <= journalOff (px_journal p) ->
  exists f, write_header os_write (Z.to_nat (sectorSize (px_tx p))) p z 0 (sectorSize (px_tx p))
    = (SQLITE_OK, let j := px_journal p in put_journal p (Mk_journal f (journalOff j + sectorSize (px_tx p)) (journalHdr j)
        (nRec j) (cksumInit j) (noSync j) (pInJournal j))).
Proof using Hos.
  intros Hs Ho. destruct (Z.to_nat (sectorSize (px_tx p))) as [|[|n]] eqn:En; [lia..|].
  eexists. cbn [write_header]. replace (0 <? sectorSize (px_tx p)) with true by lia. rewrite Hos by done.
  change (SQLITE_OK =? SQLITE_OK) with true. cbv iota. cbn [put_journal px_tx].
  by replace (0 + sectorSize (px_tx p) <? sectorSize (px_tx p)) with false by lia.
Qed.

Lemma hdr_offsets_stay p c mj sj ds :
  snapshots p c mj sj ds ->
  map (fun s => if iHdrOffset s =? 0 then Mk_savepoint (iOffset s) 0 (pInSavepoint s) (nOrig s) (iSubRec s) else s)
    (aSavepoint (px_tx p)) = aSavepoint (px_tx p).
Proof.
  intros [H _]. induction H as [|s d sps ds (a & b & Hs) _ IH]; [done|]. cbn [map]. rewrite IH. f_equal.
  destruct (sn_main _ _ _ _ _ _ _ _ Hs) as [H0 _]. rewrite H0. destruct s. cbn in *. by subst.
Qed.

Lemma open_journal_ok p c ls mj sj ds w :
  tx_inv p c ls mj sj -> snapshots p c mj sj ds -> px_state p = PAGER_WRITER_LOCKED -> all_ok w ->
  exists p' w', pager_open_journal os_write v p w = Done ((SQLITE_OK, p'), w') /\ all_ok w' /\
    tx_inv p' c ls mj sj /\ snapshots p' c mj sj ds /\ px_state p' = PAGER_WRITER_CACHEMOD /\
    px_pageSize p' = px_pageSize p /\ px_dbSize p' = px_dbSize p /\ mxPgno (px_tx p') = mxPgno (px_tx p) /\
    dbOrigSize (px_tx p') = dbOrigSize (px_tx p) /\ jbits (px_tx p) = false.
Proof using Hos Hv.
  intros Hi Hsn Hst Hw. pose proof Hi as [Him Hgr [He1 He2] (Hm1 & Hm2 & Hm3) Hjs Hca Hmain Hsub Hnsub Hheld Hwr].
  destruct Hjs as [(_ & Hjb & Hoff & -> & ->)|(Hcm & _)]; [|by rewrite Hst in Hcm].
  unfold pager_open_journal. rewrite He2. change (negb (SQLITE_OK =? SQLITE_OK)) with false. cbv iota zeta.
  replace (journalMode (px_tx p) =? PAGER_JOURNALMODE_OFF) with false by lia.
  destruct (request_ok w Hw) as (w1 & Er & Hw1). rewrite (bind_done _ _ _ _ _ Er). cbn [negb].
  match goal with |- context [let '(_, _) := ?x in _] => destruct x as [rc f0] eqn:Eo end.
  assert (Hrc : rc = SQLITE_OK).
  { destruct Hv as [Hv1 _]. destruct (jopen (px_tx p)); [congruence|].
    destruct (_ =? PAGER_JOURNALMODE_MEMORY); [congruence|by rewrite Eo in Hv1]. }
  subst rc. change (negb (SQLITE_OK =? SQLITE_OK)) with false. cbv iota. set (p1 := put_jtx _ true true _).
  unfold writeJournalHdr. change (journalOff (px_journal p1)) with 0.
  change (aSavepoint (px_tx p1)) with (aSavepoint (px_tx p)). rewrite (hdr_offsets_stay p c [] [] ds Hsn).
  cbv zeta. set (p2 := put_savepoints p1 _).
  change (sectorSize (px_tx p1)) with (sectorSize (px_tx p)). change (px_pageSize p1) with (px_pageSize p).
  rewrite Z.min_r by lia. replace (sectorSize (px_tx p) <? 28) with false by lia. change (journalHdrOffset p2) with 0.
  set (p3 := put_journal p2 _). set (z := _ ++ _).
  destruct (write_header_once p3 z) as (f & Ewh); [cbn; lia|done|].
  change (sectorSize (px_tx p3)) with (sectorSize (px_tx p)) in *. rewrite Ewh, bind_ret.
  change (SQLITE_OK =? SQLITE_OK) with true. cbv iota beta. set (p' := put_state _ PAGER_WRITER_CACHEMOD _).
  exists p', w1. split; [done|]. split; [done|]. split; [|split; [|by split_and!]].
  - split; try done; [by destruct Him|by destruct Hgr| |].
    + right. destruct Hv as (_ & _ & Hr). split_and!; try done; try apply Hr. unfold record_at. cbn. lia.
    + intros q h Hc Hf. destruct (Hwr q h Hc Hf) as [Hx _]. congruence.
  - destruct Hsn as [Hsn Hord]. split; [|done]. eapply Forall2_impl; [exact Hsn|].
    intros s d (a & b & [S1 S2 S3 S4 S5 S6]). exists a, b. split; try done. intros q Hq Hb Ho. destruct (S4 q Hq Hb Ho) as [Hx _]. congruence.
Qed.

(** ** Making a page writeable *)

(** The page is in the rollback journal, or needs no copy there. *)
Lemma journal_page_step p c ls mj sj ds h hc w :
  tx_inv p c ls mj sj -> snapshots p c mj sj ds -> px_state p = PAGER_WRITER_CACHEMOD ->
  c !! hdr_pgno h = Some hc -> hdr_pData h = hdr_pData hc ->
  Z.of_nat (S (length ls)) < MT_AL_MAX_ELEMS -> all_ok w ->
  exists p' h' ls' mj' w', journal_page os_write g p h w = Done ((SQLITE_OK, p', h'), w') /\ all_ok w' /\
    (length ls' <= S (length ls))%nat /\ tx_inv p' c ls' mj' sj /\ snapshots p' c mj' sj ds /\ same_tx p p' /\
    hdr_pgno h' = hdr_pgno h /\ hdr_pData h' = hdr_pData h /\ jbits (px_tx p') = true /\
    (hdr_pgno h <= dbOrigSize (px_tx p) -> BitvecTest (pInJournal (px_journal p')) (hdr_pgno h) = true).
Proof using L W Hos.
  intros Hi Hsn Hst Hc Hd Hroom Hw. pose proof (ti_state _ _ _ _ _ Hi) as [(Hlk & _)|(_ & Hjb & _)]; [by rewrite Hst in Hlk|].
  unfold journal_page. rewrite Hjb. cbn [andb].
  destruct (BitvecTest (pInJournal (px_journal p)) (hdr_pgno h)) eqn:Ej; cbn [negb].
  { exists p, h, ls, mj, w. split_and!; try done. lia. }
  destruct (hdr_pgno h <=? dbOrigSize (px_tx p)) eqn:Eo.
  - destruct (main_step p c ls mj sj ds h hc w) as (p' & ls' & w' & E & Hw' & Hl & Hi' & Hs' & Hx & _ & Hjb' & Hin); [done..|lia|done|done|].
    exists p'. eexists. exists ls', (mj ++ [h]), w'. split; [exact E|]. split_and!; try done; apply Hi'.
  - exists p. eexists. exists ls, mj, w. split; [reflexivity|]. split_and!; try done; [lia| |..|lia]; by destruct (eState p =? PAGER_WRITER_DBMOD).
Qed.

(** A copy goes into the sub-journal if some savepoint needs one. *)
Lemma subjournal_if_step p c ls mj sj ds h hc w :
  tx_inv p c ls mj sj -> snapshots p c mj sj ds -> px_state p = PAGER_WRITER_CACHEMOD ->
  c !! hdr_pgno h = Some hc -> hdr_pData h = hdr_pData hc ->
  (hdr_pgno h <= dbOrigSize (px_tx p) -> BitvecTest (pInJournal (px_journal p)) (hdr_pgno h) = true) ->
  Z.of_nat (S (length ls)) < MT_AL_MAX_ELEMS -> Z.of_nat (S (length sj)) < 2 ^ 32 -> all_ok w ->
  exists p' ls' sj' w', (if (0 <? length (aSavepoint (px_tx p)))%nat then subjournalPageIfRequired os_write v g p h
      else mret (SQLITE_OK, p, h)) w = Done ((SQLITE_OK, p', h), w') /\ all_ok w' /\
    (length ls' <= S (length ls))%nat /\ (length sj' <= S (length sj))%nat /\
    tx_inv p' c ls' mj sj' /\ snapshots p' c mj sj' ds /\ same_tx p p' /\ saved_everywhere p' (hdr_pgno h) /\
    px_journal p' = px_journal p /\ jbits (px_tx p') = jbits (px_tx p).
Proof using L W Hos Hv.
  intros Hi Hsn Hst Hc Hd Hin Hroom Hroom' Hw.
  assert (Hstay : saved_everywhere p (hdr_pgno h) -> exists p' ls' sj' w', (mret (SQLITE_OK, p, h) : M _) w = Done ((SQLITE_OK, p', h), w') /\ all_ok w' /\
    (length ls' <= S (length ls))%nat /\ (length sj' <= S (length sj))%nat /\
    tx_inv p' c ls' mj sj' /\ snapshots p' c mj sj' ds /\ same_tx p p' /\ saved_everywhere p' (hdr_pgno h) /\
    px_journal p' = px_journal p /\ jbits (px_tx p') = jbits (px_tx p)).
  { intros Hs. exists p, ls, sj, w. split_and!; try done; lia. }
  destruct (0 <? length (aSavepoint (px_tx p)))%nat eqn:En.
  2:{ apply Hstay. unfold saved_everywhere. by destruct (aSavepoint (px_tx p)). }
  unfold subjournalPageIfRequired. destruct (subjRequiresPage p (hdr_pgno h)) eqn:Er; [|by apply Hstay, saved_not_required].
  destruct (sub_step p c ls mj sj ds h hc w) as (p' & ls' & w' & E & Hw' & Hl & Hi' & Hs' & Hx & Hev & Hj & Hb); [done..|].
  exists p', ls', (sj ++ [h]), w'. split_and!; try done; try apply Hi'. rewrite length_app. cbn. lia.
Qed.

Lemma tx_inv_replace p c ls mj sj q hc h :
  tx_inv p c ls mj sj -> c !! q = Some hc -> hdr_pgno h = q -> page_held (px_pageSize p) h ->
  jbits (px_tx p) = true /\ (q <= dbOrigSize (px_tx p) -> BitvecTest (pInJournal (px_journal p)) q = true) ->
  tx_inv p (<[q := h]> c) ls mj sj.
Proof.
  intros [? ? ? ? ? Hca ? ? ? Hh Hw] Hc Hq Hp Hj. destruct (Hca q hc Hc) as (_ & Hvq & _). split; try done.
  - intros q' h'. destruct (decide (q = q')) as [<-|Hne].
    + rewrite lookup_insert_eq. by intros [= <-].
    + rewrite lookup_insert_ne by done. apply Hca.
  - eapply Forall_impl; [exact Hh|]. cbn. intros r [Hr1 Hr2]. split; [done|].
    destruct (decide (q = hdr_pgno r)) as [->|Hne]; [by rewrite lookup_insert_eq|by rewrite lookup_insert_ne].
  - intros q' h'. destruct (decide (q = q')) as [<-|Hne].
    + rewrite lookup_insert_eq. by intros [= <-] _.
    + rewrite lookup_insert_ne by done. apply Hw.
Qed.

(** A saved page may change. *)
Lemma snapshots_replace p c mj sj ds q h :
  snapshots p c mj sj ds -> saved_everywhere p q -> snapshots p (<[q := h]> c) mj sj ds.
Proof.
  intros Hs Hev. eapply snapshots_impl; [|exact Hs]. intros i s d a b Hi Hd Hsn.
  pose proof (Forall_lookup_1 _ _ _ _ Hev Hi) as Hq. pose proof Hsn as [S1 S2 S3 S4 S5 S6]. split; try done.
  intros q' x Hx. destruct (S6 q' x Hx) as (Hq' & Hvq & Hf). split; [done|]. split; [done|].
  destruct (first_copy q' (since mj sj a b)) eqn:Ef; [done|]. destruct (decide (q = q')) as [<-|Hne].
  - exfalso. destruct (proj1 (S3 q ltac:(lia)) (Hq ltac:(lia))) as [y Hy]. congruence.
  - eapply holds_ext; [|exact Hf]. by rewrite lookup_insert_ne.
Qed.

(** The size of the database is beside the point here. *)
Lemma tx_inv_size p c ls mj sj n : tx_inv p c ls mj sj -> tx_inv (put_state p (px_state p) n) c ls mj sj.
Proof. intros [[] [] ? ? ? ? ? ? ? ? ?]. by repeat (split; try done). Qed.

Lemma snapshots_size p c mj sj ds st n : snapshots p c mj sj ds -> snapshots (put_state p st n) c mj sj ds.
Proof. intros H. by apply (snapshots_view p). Qed.

(** What making page [q] writeable achieves: it is saved for every savepoint. *)
Record writeable (p : pager) (c : gmap Z PgHdr) (ls : list (list Z)) (sj : list PgHdr) (ds : list database) (q : Z)
    (hc : PgHdr) (p' : pager) (c' : gmap Z PgHdr) (ls' : list (list Z)) (mj' sj' : list PgHdr) : Prop := {
  wr_inv : tx_inv p' c' ls' mj' sj';
  wr_snap : snapshots p' c' mj' sj' ds;
  wr_saved : saved_everywhere p' q;
  wr_cache : exists h', c' = <[q := h']> c /\ hdr_pgno h' = q /\ hdr_pData h' = hdr_pData hc;
  wr_journal : jbits (px_tx p') = true /\ (q <= dbOrigSize (px_tx p') -> BitvecTest (pInJournal (px_journal p')) q = true);
  wr_length : (length ls' <= length ls + 2)%nat /\ (length sj' <= S (length sj))%nat;
  wr_page : px_pageSize p' = px_pageSize p;
  wr_max : mxPgno (px_tx p') = mxPgno (px_tx p);
  wr_size : px_dbSize p' = Z.max (px_dbSize p) q;
}.

Lemma pager_write_ok p c ls mj sj ds q hc w :
  tx_inv p c ls mj sj -> snapshots p c mj sj ds -> c !! q = Some hc ->
  Z.of_nat (S (S (length ls))) < MT_AL_MAX_ELEMS -> Z.of_nat (S (length sj)) < 2 ^ 32 -> all_ok w ->
  exists p' h' ls' mj' sj' w', pager_write os_write v g p hc w = Done ((SQLITE_OK, p', h'), w') /\ all_ok w' /\
    writeable p c ls sj ds q hc p' (<[q := h']> c) ls' mj' sj'.
Proof using L W Hos Hv.
  intros Hi Hsn Hc Hroom Hroom' Hw. destruct (ti_cache _ _ _ _ _ Hi q hc Hc) as (Hhc & _ & Hph).
  assert (Hopen : exists p0 w0, (if eState p =? PAGER_WRITER_LOCKED then pager_open_journal os_write v p else mret (SQLITE_OK, p)) w
      = Done ((SQLITE_OK, p0), w0) /\ all_ok w0 /\ tx_inv p0 c ls mj sj /\ snapshots p0 c mj sj ds /\
      px_state p0 = PAGER_WRITER_CACHEMOD /\ px_pageSize p0 = px_pageSize p /\ px_dbSize p0 = px_dbSize p /\
      mxPgno (px_tx p0) = mxPgno (px_tx p)).
  { unfold eState. rewrite (proj1 (ti_error _ _ _ _ _ Hi)). destruct (ti_state _ _ _ _ _ Hi) as [(Hst & _)|(Hst & _)]; rewrite Hst.
    - destruct (open_journal_ok p c ls mj sj ds w) as (p0 & w0 & E & H0 & H1 & H2 & H3 & H4 & H5 & H6 & _); [done..|].
      by exists p0, w0.
    - by exists p, w. }
  destruct Hopen as (p0 & w0 & E0 & Hw0 & Hi0 & Hs0 & Hst0 & HP0 & Hsz0 & Hmx0).
  unfold pager_write. rewrite (bind_done _ _ _ _ _ E0). change (negb (SQLITE_OK =? SQLITE_OK)) with false. cbv beta iota zeta.
  set (h1 := set_flags hc _).
  destruct (journal_page_step p0 c ls mj sj ds h1 hc w0) as (p1 & h2 & ls1 & mj1 & w1 & E1 & Hw1 & Hl1 & Hi1 & Hs1 & Hx1 & Hn2 & Hd2 & Hjb1 & Hin1);
    [done|done|done|by cbn; rewrite Hhc|done|lia|done|].
  rewrite (bind_done _ _ _ _ _ E1). change (negb (SQLITE_OK =? SQLITE_OK)) with false. cbv beta iota zeta.
  set (h3 := set_flags h2 _).
  destruct (subjournal_if_step p1 c ls1 mj1 sj ds h3 hc w1) as (p2 & ls2 & sj2 & w2 & E2 & Hw2 & Hl2 & Hsl2 & Hi2 & Hs2 & Hx2 & Hev & Hj2 & Hb2);
    [done|done|by rewrite (sx_state _ _ Hx1)|by cbn; rewrite Hn2; cbn; rewrite Hhc|by cbn; rewrite Hd2| |lia|done|done|].
  { cbn. rewrite Hn2. rewrite (sx_orig _ _ Hx1). exact Hin1. }
  rewrite (bind_done _ _ _ _ _ E2). assert (Hq3 : hdr_pgno h3 = q) by (cbn; by rewrite Hn2). rewrite Hq3 in *.
  eexists _, h3, ls2, mj1, sj2, w2. split; [reflexivity|]. split; [done|].
  assert (HP2 : px_pageSize p2 = px_pageSize p) by (rewrite (sx_page _ _ Hx2), (sx_page _ _ Hx1); done).
  assert (Hjq : jbits (px_tx p2) = true /\ (q <= dbOrigSize (px_tx p2) -> BitvecTest (pInJournal (px_journal p2)) q = true)).
  { rewrite (sx_orig _ _ Hx2), (sx_orig _ _ Hx1), Hb2, Hj2. split; [done|]. intros Ho.
    change (hdr_pgno h1) with (hdr_pgno hc) in Hin1. rewrite Hhc in Hin1. by apply Hin1. }
  split; try done.
  - apply tx_inv_size, (tx_inv_replace _ _ _ _ _ _ hc); try done. rewrite HP2. destruct Hph. split; cbn [h3 set_flags hdr_pgno hdr_pData]; rewrite ?Hn2, ?Hd2; done.
  - by apply snapshots_size, snapshots_replace.
  - exists h3. split; [done|]. split; [done|]. by cbn; rewrite Hd2.
  - lia.
  - cbn. rewrite (sx_max _ _ Hx2), (sx_max _ _ Hx1). done.
  - cbn [put_state px_dbSize]. rewrite (sx_size _ _ Hx2), (sx_size _ _ Hx1), Hsz0. destruct (px_dbSize p <? q) eqn:E; lia.
Qed.

Lemma PagerWrite_ok p c ls mj sj ds q hc w :
  tx_inv p c ls mj sj -> snapshots p c mj sj ds -> c !! q = Some hc ->
  Z.of_nat (S (S (length ls))) < MT_AL_MAX_ELEMS -> Z.of_nat (S (length sj)) < 2 ^ 32 -> all_ok w ->
  exists p' c' ls' mj' sj' w', sqlite3PagerWrite os_write v g p c q w = Done ((SQLITE_OK, p', c'), w') /\ all_ok w' /\
    writeable p c ls sj ds q hc p' c' ls' mj' sj'.
Proof using L W Hos Hv.
  intros Hi Hsn Hc Hroom Hroom' Hw. destruct (ti_cache _ _ _ _ _ Hi q hc Hc) as (Hhc & _ & Hph).
  unfold sqlite3PagerWrite. rewrite Hc. unfold deref. rewrite bind_ret. cbv zeta.
  destruct (negb (Z.land (hdr_flags hc) PGHDR_WRITEABLE =? 0) && (q <=? px_dbSize p)) eqn:Ef.
  - assert (Hfl : Z.land (hdr_flags hc) PGHDR_WRITEABLE <> 0) by lia. pose proof (ti_written _ _ _ _ _ Hi q hc Hc Hfl) as Hin.
    destruct Hin as [Hjb Hin].
    assert (Hst : px_state p = PAGER_WRITER_CACHEMOD).
    { destruct (ti_state _ _ _ _ _ Hi) as [(_ & Hjb' & _)|(Hst & _)]; [congruence|done]. }
    destruct (subjournal_if_step p c ls mj sj ds hc hc w) as (p' & ls' & sj' & w' & E & Hw' & Hl & Hsl & Hi' & Hs' & Hx & Hev & Hj' & Hb');
      [done|done|done|by rewrite Hhc|done|by rewrite Hhc|lia|done|done|]. rewrite Hhc in Hev.
    exists p', c, ls', mj, sj', w'. split; [|split; [done|split; try done]].
    + destruct (0 <? length (aSavepoint (px_tx p)))%nat; [|by injection E as <- <-].
      by rewrite (bind_done _ _ _ _ _ E), (insert_id c q hc Hc).
    + exists hc. by rewrite insert_id.
    + rewrite (sx_orig _ _ Hx), Hj', Hb'. done.
    + lia.
    + apply (sx_page _ _ Hx).
    + apply (sx_max _ _ Hx).
    + rewrite (sx_size _ _ Hx). lia.
  - rewrite (proj2 (ti_error _ _ _ _ _ Hi)). change (negb (SQLITE_OK =? SQLITE_OK)) with false. cbv iota.
    replace (px_pageSize p <? sectorSize (px_tx p)) with false by (pose proof (ti_conf _ _ _ _ _ Hi); lia).
    destruct (pager_write_ok p c ls mj sj ds q hc w) as (p' & h' & ls' & mj' & sj' & w' & E & Hw' & Hwr); [done..|].
    exists p', (<[q := h']> c), ls', mj', sj', w'. by rewrite (bind_done _ _ _ _ _ E).
Qed.

(** ** Playing records back *)

(** The records [rs] have been played back into the cache: of every page that is
    within the database and not done yet the first copy. *)
Record replayed (P size : Z) (c : gmap Z PgHdr) (done : list Z) (rs : list PgHdr) (c' : gmap Z PgHdr) (done' : list Z)
  : Prop := {
  rp_cache : forall q,
    match (if BitvecTest done q || (size <? q) then None else first_copy q rs) with
    | Some d => exists h h', c !! q = Some h /\ c' !! q = Some h' /\ hdr_pgno h' = q /\ hdr_flags h' = hdr_flags h /\
        Z.of_nat (length (hdr_pData h')) = P /\ usable P (hdr_pData h') = usable P d
    | None => c' !! q = c !! q
    end;
  rp_done : forall q, BitvecTest done' q
    = BitvecTest done q || negb (size <? q) && match first_copy q rs with Some _ => true | None => false end;
}.

Lemma replayed_nil P size c done : replayed P size c done [] c done.
Proof. split; intros q; cbn; [by destruct (_ || _)|]. by rewrite andb_false_r, orb_false_r. Qed.

Lemma replayed_app P size c done rs c1 done1 rs' c2 done2 :
  replayed P size c done rs c1 done1 -> replayed P size c1 done1 rs' c2 done2 ->
  replayed P size c done (rs ++ rs') c2 done2.
Proof.
  intros [C1 D1] [C2 D2]. split; intros q; rewrite first_copy_app; specialize (C1 q); specialize (C2 q).
  - rewrite D1 in C2. destruct (BitvecTest done q), (size <? q); cbn [orb andb negb] in *; try congruence.
    destruct (first_copy q rs) as [d|]; [|rewrite <- C1; exact C2].
    destruct C1 as (h & h' & Hc & Hc1 & R). exists h, h'. by rewrite C2.
  - rewrite D2, D1. by destruct (BitvecTest done q), (size <? q), (first_copy q rs), (first_copy q rs').
Qed.

(** A page that is not played back. *)
Lemma replayed_skip P size c done h :
  BitvecTest done (hdr_pgno h) || (size <? hdr_pgno h) = true -> replayed P size c done [h] c done.
Proof.
  intros Hs. split; intros q; cbn [first_copy]; destruct (hdr_pgno h =? q) eqn:E.
  - assert (hdr_pgno h = q) as <- by lia. by rewrite Hs.
  - by destruct (BitvecTest done q || (size <? q)).
  - assert (hdr_pgno h = q) as <- by lia. by destruct (BitvecTest done (hdr_pgno h)), (size <? hdr_pgno h).
  - by rewrite andb_false_r, orb_false_r.
Qed.

Lemma replayed_one P size c done h hc data :
  BitvecTest done (hdr_pgno h) || (size <? hdr_pgno h) = false -> c !! hdr_pgno h = Some hc ->
  Z.of_nat (length data) = P -> usable P data = usable P (hdr_pData h) ->
  replayed P size c done [h] (<[hdr_pgno h := Mk_hdr (hdr_pgno h) data (hdr_flags hc)]> c) (hdr_pgno h :: done).
Proof.
  intros Hs Hc Hl Hu. apply orb_false_iff in Hs as [Hs1 Hs2].
  split; intros q; cbn [first_copy]; destruct (hdr_pgno h =? q) eqn:E.
  - assert (hdr_pgno h = q) as <- by lia. rewrite Hs1, Hs2. cbn. eexists hc, _. rewrite lookup_insert_eq. by split_and!.
  - rewrite lookup_insert_ne by lia. by destruct (BitvecTest done q || (size <? q)).
  - assert (hdr_pgno h = q) as <- by lia. by rewrite bitvec_cons, Z.eqb_refl, Hs1, Hs2.
  - rewrite bitvec_cons. replace (q =? hdr_pgno h) with false by lia. by rewrite andb_false_r, orb_false_r.
Qed.

(** What the pager finds in a journal for page [h]. *)
Definition record_there (p : pager) (ls : list (list Z)) (isMain : bool) (o : Z) (h : PgHdr) : Prop :=
  let P := px_pageSize p in
  exists f page, (if isMain then Some (jfd (px_journal p)) else sjfd (px_tx p)) = Some f /\
    read32bits f o = (SQLITE_OK, Some (hdr_pgno h)) /\ sqlite3OsRead f P (o + 4) = (SQLITE_OK, page) /\
    (isMain = true -> exists ck, read32bits f (o + (P + 4 + 4) - 4) = (SQLITE_OK, Some ck)) /\
    (if isMain || negb (subjInMemory (px_tx p)) then sealed (cs_ctx (px_cst p)) k ls P (hdr_pgno h) (hdr_pData h) page
     else page = hdr_pData h).

(** The page gets into the cache, decrypted if need be. *)
Lemma playback_into_cache p ls (enc : bool) page h hc w :
  image p k ls pages -> page_held (px_pageSize p) h -> hdr_pgno hc = hdr_pgno h ->
  (if enc then sealed (cs_ctx (px_cst p)) k ls (px_pageSize p) (hdr_pgno h) (hdr_pData h) page else page = hdr_pData h) ->
  exists p' data, playback_cache g p SQLITE_OK page (hdr_pgno h) enc hc w
      = Done ((SQLITE_OK, p', Mk_hdr (hdr_pgno h) data (hdr_flags hc)), w) /\
    usable (px_pageSize p) data = usable (px_pageSize p) (hdr_pData h) /\ Z.of_nat (length data) = px_pageSize p /\
    image p' k ls pages /\ kept p p'.
Proof using L.
  intros Him Hph Hn Hcopy. destruct enc.
  - destruct (playback_cache_ok g p k ls pages (hdr_pgno h) (hdr_pData h) page SQLITE_OK hc w Him Hcopy Hn)
      as (p' & data & E & Hu & Hl & Him' & Hk & _). by exists p', data.
  - subst page. pose proof (op_room _ _ _ _ (im_open _ _ _ _ Him)) as HP. pose proof (ph_length _ _ Hph) as Hl.
    unfold playback_cache. destruct (page_field (hdr_pgno h) (hdr_pData h) (px_dbFileVers p) 24 16 w) as (vers & Hvs); [lia..|].
    rewrite (bind_done _ _ _ _ _ Hvs), bind_ret, Hn. eexists _, _. split; [reflexivity|].
    split; [done|]. split; [done|]. split; [by destruct Him|by split].
Qed.

Lemma one_page_ok p c ls done isMain o h hc w :
  image p k ls pages -> pager_error (cs_env (px_cst p)) = false -> px_state p = PAGER_WRITER_CACHEMOD ->
  record_there p ls isMain o h -> page_held (px_pageSize p) h -> hdr_pgno h <> mj_pgno p ->
  c !! hdr_pgno h = Some hc -> hdr_pgno hc = hdr_pgno h -> all_ok w ->
  exists p' done' pPg w', pager_playback_one_page os_write g p o (Some done) isMain true (fun q => c !! q) w
      = Done ((SQLITE_OK, p', o + (px_pageSize p + 4 + (if isMain then 4 else 0)), Some done', pPg), w') /\ all_ok w' /\
    replayed (px_pageSize p) (px_dbSize p) c done [h] (restore c pPg) done' /\ image p' k ls pages /\ kept p p'.
Proof using L.
  intros Him He Hst (f & page & Hf & Hr1 & Hr2 & Hck & Hcopy) Hph Hmj Hc Hhc Hw.
  pose proof (op_room _ _ _ _ (im_open _ _ _ _ Him)) as HP. pose proof (ph_pgno _ _ Hph) as Hpg.
  set (P := px_pageSize p) in *. unfold pager_playback_one_page. rewrite Hf. unfold deref. rewrite bind_ret. fold P.
  rewrite Hr1, Hr2. change (negb (SQLITE_OK =? SQLITE_OK)) with false. cbv iota zeta.
  replace ((hdr_pgno h =? 0) || (hdr_pgno h =? mj_pgno p)) with false by lia.
  destruct ((px_dbSize p <? hdr_pgno h) || BitvecTest done (hdr_pgno h)) eqn:Eskip.
  { exists p, done, None, w. split; [done|]. split; [done|]. split; [|done].
    apply replayed_skip. by rewrite orb_comm. }
  set (off := o + (P + 4 + (if isMain then 4 else 0))).
  assert (Hbad : (if isMain then match read32bits f (off - 4) with
      | (rc, None) => mret (Some rc)
      | (_, Some ck) => mret None end else mret None : M (option Z)) w = Done (None, w)).
  { destruct isMain; [|done]. destruct (Hck eq_refl) as (ck & Eck). unfold off. by rewrite Eck. }
  rewrite (bind_done _ _ _ _ _ Hbad). destruct (request_ok w Hw) as (w1 & Er & Hw1).
  rewrite bind_assoc, (bind_done _ _ _ _ _ Er), bind_ret. cbn [negb].
  assert (Hpl : Z.of_nat (length page) = P).
  { destruct (isMain || negb (subjInMemory (px_tx p))); [|subst page; apply Hph].
    eapply sealed_length; [exact HP|apply (im_open _ _ _ _ Him)|exact Hcopy]. }
  destruct (page_field (hdr_pgno h) page [px_nReserve p] 20 1 w1) as (res & Hres); [lia..|].
  rewrite (bind_done _ _ _ _ _ Hres). set (p1 := put_sizes p _ _ _).
  assert (Hes : ((PAGER_WRITER_DBMOD <=? eState p1) || (eState p1 =? PAGER_OPEN)) = false).
  { unfold eState, p1. cbn [put_sizes px_cst px_state]. by rewrite He, Hst. }
  rewrite Hes, Hc. cbn [andb]. rewrite andb_false_r.
  assert (Him1 : image p1 k ls pages) by (by destruct Him).
  destruct (playback_into_cache p1 ls (isMain || negb (subjInMemory (px_tx p))) page h hc w1 Him1 Hph Hhc Hcopy)
    as (p' & data & E & Hu & Hl & Him' & Hk).
  assert (Hkept : kept p p') by (by apply (kept_trans p p1)).
  destruct (px_fd p1); rewrite bind_ret, (bind_done _ _ _ _ _ E);
    (eexists p', _, _, w1; split; [reflexivity|]; split; [done|]; split; [|done]);
    cbn [restore hdr_pgno]; apply replayed_one; try done; by rewrite orb_comm.
Qed.

(** ** Rolling back into the database file *)

(** A page from an unencrypted sub-journal is sealed for the file and comes back
    from the page buffer. *)
Lemma playback_write_plain p ls f h w :
  image p k ls pages -> grows p k ls -> px_fd p = Some f -> page_held (px_pageSize p) h ->
  Z.of_nat (S (length ls)) < MT_AL_MAX_ELEMS -> all_ok w ->
  exists p' ls' data w', playback_write os_write g p f (hdr_pData h) (hdr_pgno h) false w = Done ((SQLITE_OK, p', data), w') /\
    all_ok w' /\ (length ls' <= S (length ls))%nat /\ ls `prefix_of` ls' /\
    image p' k ls' (<[hdr_pgno h := hdr_pData h]> pages) /\ Z.of_nat (length data) = px_pageSize p /\
    usable (px_pageSize p) data = usable (px_pageSize p) (hdr_pData h) /\
    px_pageSize p' = px_pageSize p /\ px_tx p' = px_tx p /\ px_journal p' = px_journal p /\ same_errors p p'.
Proof using L W Hos.
  intros Him Hgr Hf Hph Hroom Hw. pose proof (op_room _ _ _ _ (im_open _ _ _ _ Him)) as HP.
  destruct (codec_seals g p h k CODEC_JOURNAL_OP ls pages w) as (st1 & w1 & page & ls1 & Hcodec & Hw1 & Hpl & Hsl & Had);
    [by right|done..|]. pose proof Had as [Him1 _ Hl Hpre _ _ _ _ _ Hen]. cbn [put_cst px_cst] in Hen.
  set (P := px_pageSize p) in *. pose proof (ph_pgno _ _ Hph) as Hpg.
  unfold playback_write. fold P. rewrite bind_assoc, (bind_done _ _ _ _ _ Hcodec). cbv beta iota.
  change (px_pageSize (put_cst p st1)) with P. rewrite bind_assoc, (bind_done _ _ _ _ _ (read_whole page P w1 (eq_sym Hpl))), Hos by nia.
  set (p2 := put_fd (put_cst p st1) _).
  assert (Hf1 : px_fd (put_cst p st1) = Some f) by (unfold px_fd in *; cbn [put_cst px_cst]; by rewrite Hen).
  assert (Him2 : image p2 k ls1 (<[hdr_pgno h := hdr_pData h]> pages)) by (by apply (image_restore (put_cst p st1) p2 k ls1 pages _ _ page f)).
  pose proof Him2 as [Hc2 Hopen2 (mt & Htree & Hread) _].
  destruct (sealed_read g (px_cst p2) P k ls1 (hdr_pgno h) (hdr_pData h) page mt _ w1 Hopen2 Htree Hread Hsl)
    as (st' & data & Hrun & Htk & Hdl & Henv & Hctx).
  assert (Hc1 : CODEC1 g p2 page (hdr_pgno h) CODEC_READ_OP w1 = Done ((true, put_cst p2 st', data), w1)).
  { unfold CODEC1, CODEC2. rewrite Hc2. cbn [negb]. by rewrite bind_assoc, (bind_done _ _ _ _ _ Hrun). }
  rewrite bind_assoc, (bind_done _ _ _ _ _ Hc1), bind_ret. cbv iota. eexists _, ls1, data, w1. split; [reflexivity|].
  split; [done|]. split; [done|]. split; [done|]. split.
  { apply (image_buffer p2) with data; try done. unfold px_fd. cbn [put_sizes put_cst px_cst]. by rewrite Henv. }
  split; [done|]. split; [exact Htk|]. do 3 (split; [done|]). unfold same_errors. cbn [put_sizes put_cst px_cst].
  rewrite Henv. cbn. by rewrite Hen.
Qed.

(** C17. Rolling a savepoint back does not put plaintext into the database file:
    when the sub-journal is kept in memory, its pages are not encrypted; when
    the file may have been changed since, such a page is sealed by the codec
    before it is written to the file, which adds a leaf to the tree, so that
    the file holds the page again as every other page and it can be read back
    and verified; the page of the cache gets the plaintext. *)
Theorem memory_rollback_seals p (c : gmap Z PgHdr) ls done o h hc w :
  image p k ls pages -> grows p k ls -> pager_error (cs_env (px_cst p)) = false -> px_state p = PAGER_WRITER_DBMOD ->
  subjInMemory (px_tx p) = true -> record_there p ls false o h -> page_held (px_pageSize p) h ->
  hdr_pgno h <= px_dbSize p -> hdr_pgno h <> mj_pgno p -> BitvecTest done (hdr_pgno h) = false ->
  c !! hdr_pgno h = Some hc -> hdr_pgno hc = hdr_pgno h -> Z.land (hdr_flags hc) PGHDR_NEED_SYNC = 0 ->
  Z.of_nat (S (length ls)) < MT_AL_MAX_ELEMS -> all_ok w ->
  exists p' ls' h' w', pager_playback_one_page os_write g p o (Some done) false true (fun q => c !! q) w
      = Done ((SQLITE_OK, p', o + (px_pageSize p + 4 + 0), Some (hdr_pgno h :: done), Some h'), w') /\
    ls `prefix_of` ls' /\ (length ls' <= S (length ls))%nat /\ same_errors p p' /\
    image p' k ls' (<[hdr_pgno h := hdr_pData h]> pages) /\
    hdr_pgno h' = hdr_pgno h /\ usable (px_pageSize p) (hdr_pData h') = usable (px_pageSize p) (hdr_pData h) /\
    exists p'' h'', readDbPage g p' (Mk_hdr (hdr_pgno h) [] 0) w' = Done ((SQLITE_OK, p'', h''), w') /\
      usable (px_pageSize p) (hdr_pData h'') = usable (px_pageSize p) (hdr_pData h).
Proof using L W Hos.
  intros Him Hgr He Hst Hmem (f & page & Hf & Hr1 & Hr2 & _ & Hcopy) Hph Hdb Hmj Hnd Hc Hhc Hsync Hroom Hw.
  rewrite Hmem in Hcopy. cbn [orb negb] in Hcopy. subst page.
  pose proof (op_room _ _ _ _ (im_open _ _ _ _ Him)) as HP. pose proof (ph_pgno _ _ Hph) as Hpg. pose proof (ph_length _ _ Hph) as Hpl.
  set (P := px_pageSize p) in *. unfold pager_playback_one_page. rewrite Hf. unfold deref. rewrite bind_ret. fold P.
  rewrite Hr1, Hr2, Hmem. change (negb (SQLITE_OK =? SQLITE_OK)) with false. cbn [orb negb andb]. cbv iota zeta.
  replace ((hdr_pgno h =? 0) || (hdr_pgno h =? mj_pgno p)) with false by lia.
  replace (px_dbSize p <? hdr_pgno h) with false by lia. rewrite Hnd. cbn [orb]. rewrite bind_ret.
  destruct (request_ok w Hw) as (w1 & Er & Hw1). rewrite bind_assoc, (bind_done _ _ _ _ _ Er), bind_ret. cbn [negb].
  destruct (page_field (hdr_pgno h) (hdr_pData h) [px_nReserve p] 20 1 w1) as (res & Hres); [lia..|].
  rewrite (bind_done _ _ _ _ _ Hres). set (p1 := put_sizes p _ _ _).
  assert (Hes : (PAGER_WRITER_DBMOD <=? eState p1) = true) by (unfold eState; cbn [p1 put_sizes px_cst px_state]; by rewrite He, Hst).
  rewrite Hes, Hc, Hsync. change (0 =? 0) with true. cbn [orb andb].
  pose proof (im_file _ _ _ _ Him) as (db & Hdbf & _). change (px_fd p1) with (px_fd p). rewrite Hdbf.
  destruct (playback_write_plain p1 ls db h w1) as (p2 & ls2 & data & w2 & E2 & Hw2 & Hl2 & Hpre & Him2 & Hdl & Hu & HP2 & Ht2 & Hj2 & He2);
    [by destruct Him|by destruct Hgr|done|done|done|done|].
  rewrite bind_assoc, (bind_done _ _ _ _ _ E2). cbv beta iota. rewrite bind_ret. unfold playback_cache.
  destruct (page_field (hdr_pgno h) data (px_dbFileVers p2) 24 16 w2) as (vers & Hvs); [change (px_pageSize p1) with P in Hdl; lia..|].
  rewrite bind_assoc, (bind_done _ _ _ _ _ Hvs), bind_assoc, !bind_ret.
  set (p3 := put_vers p2 vers). assert (Him3 : image p3 k ls2 (<[hdr_pgno h := hdr_pData h]> pages)) by (by destruct Him2).
  eexists p3, ls2, _, w2. split; [reflexivity|]. split; [done|]. split; [done|]. split; [exact He2|]. split; [done|].
  split; [done|]. split; [exact Hu|].
  destruct (image_read g p3 k ls2 _ (hdr_pgno h) (hdr_pData h) (Mk_hdr (hdr_pgno h) [] 0) w2 Him3) as (p4 & h4 & E4 & _ & _ & Htk & _);
    [by rewrite lookup_insert_eq|done|]. change (px_pageSize p3) with (px_pageSize p2) in Htk. rewrite HP2 in Htk.
  by exists p4, h4.
Qed.

(** A page stays in the cache, with its flags. *)
Lemma replayed_cached P size c done rs c' done' q h :
  replayed P size c done rs c' done' -> c !! q = Some h -> hdr_pgno h = q ->
  exists h', c' !! q = Some h' /\ hdr_pgno h' = q /\ hdr_flags h' = hdr_flags h.
Proof.
  intros [Hc _] Hq Hn. specialize (Hc q). destruct (if _ : bool then _ else _).
  - destruct Hc as (h0 & h' & H0 & H1 & H2 & H3 & _). exists h'. split_and!; [done|done|congruence].
  - exists h. by rewrite Hc.
Qed.

(** The records can be played back into the cache. *)
Definition all_cached (p : pager) (c : gmap Z PgHdr) (rs : list PgHdr) : Prop :=
  Forall (fun h => page_held (px_pageSize p) h /\ hdr_pgno h <> mj_pgno p /\
    exists hc, c !! hdr_pgno h = Some hc /\ hdr_pgno hc = hdr_pgno h) rs.

Lemma all_cached_step p p' size c done rs0 c' done' rs :
  px_pageSize p' = px_pageSize p -> replayed (px_pageSize p) size c done rs0 c' done' ->
  all_cached p c rs -> all_cached p' c' rs.
Proof.
  intros HP Hr Hca. eapply Forall_impl; [exact Hca|]. intros h (H1 & H2 & hc & H3 & H4). unfold mj_pgno. rewrite HP. split; [done|]. split; [done|].
  destruct (replayed_cached _ _ _ _ _ _ _ _ _ Hr H3 H4) as (h' & H5 & H6 & _). by exists h'.
Qed.

Lemma record_there_kept p p' ls isMain o h : kept p p' -> record_there p ls isMain o h -> record_there p' ls isMain o h.
Proof.
  intros [HP _ _ Hj Ht _ Hf Hs _] (f & page & H1 & H2 & H3 & H4 & H5). exists f, page. rewrite Hj, Ht, HP. split_and!; try done.
  destruct (isMain || _); [|done]. rewrite <- (app_nil_r ls). by eapply sealed_ext.
Qed.

Lemma kept_off p p' o : kept p p' -> kept (put_journalOff p o) (put_journalOff p' o).
Proof. intros [? ? ? Hj ? ? ? ? [? ?]]. split; try done. unfold put_journalOff. cbn. by rewrite Hj. Qed.

(** The pager may play back into the cache only. *)
Definition cache_only (p : pager) : Prop :=
  pager_error (cs_env (px_cst p)) = false /\ px_state p = PAGER_WRITER_CACHEMOD.

Lemma cache_only_kept p p' : kept p p' -> cache_only p -> cache_only p'.
Proof. intros [_ _ Hs _ _ _ _ _ [He _]] [H1 H2]. split; congruence. Qed.

Lemma playback_main_ok ls stop rs : forall n p c done w,
  image p k ls pages -> cache_only p -> all_cached p c rs ->
  (forall i h, rs !! i = Some h -> record_there p ls true (record_at p (journalOff (px_journal p)) i) h) ->
  stop = record_at p (journalOff (px_journal p)) (length rs) -> (length rs <= n)%nat -> all_ok w ->
  exists p' c' done' w', playback_main os_write n g p c (Some done) stop w = Done ((SQLITE_OK, p', c', Some done'), w') /\
    all_ok w' /\ replayed (px_pageSize p) (px_dbSize p) c done rs c' done' /\ image p' k ls pages /\
    kept (put_journalOff p stop) p'.
Proof using L.
  induction rs as [|h rs IH]; intros n p c done w Him Hco Hca Hrec Hstop Hn Hw.
  { exists p, c, done, w. split.
    - destruct n; [done|]. cbn [playback_main]. rewrite Hstop. unfold record_at. cbn [length].
      by replace (_ <? _) with false by lia.
    - split; [done|]. split; [apply replayed_nil|]. split; [done|]. subst stop.
      split; try done. unfold put_journalOff, record_at. cbn. rewrite Z.add_0_r. by destruct (px_journal p). }
  destruct n as [|n]; [cbn in Hn; lia|]. pose proof (op_room _ _ _ _ (im_open _ _ _ _ Him)) as HP.
  apply Forall_cons in Hca as [(Hph & Hmj & hc & Hc & Hhc) Hca]. destruct Hco as [He Hst].
  set (o := journalOff (px_journal p)) in *.
  pose proof (Hrec 0%nat h eq_refl) as Hr0. replace (record_at p o 0) with o in Hr0 by (unfold record_at; lia).
  destruct (one_page_ok p c ls done true o h hc w) as (p1 & done1 & pPg & w1 & E1 & Hw1 & Hrp & Him1 & Hk1); [done..|].
  set (p2 := put_journalOff p1 (o + (px_pageSize p + 4 + 4))). pose proof Hk1 as [HP1 Hs1 _ _ _ _ _ _ _].
  assert (Hat : forall i, record_at p2 (journalOff (px_journal p2)) i = record_at p o (S i)).
  { intros i. unfold record_at, p2. cbn. rewrite HP1. lia. }
  destruct (IH n p2 (restore c pPg) done1 w1) as (p' & c' & done' & w' & E2 & Hw' & Hrp2 & Him' & Hk2).
  - by apply image_journal.
  - apply (cache_only_kept p p1 Hk1). by split.
  - by apply (all_cached_step p _ (px_dbSize p) c done [h] _ done1).
  - intros i h' Hi. rewrite Hat. apply (record_there_kept p p1); [done|]. by apply Hrec.
  - rewrite Hat. done.
  - cbn in Hn. lia.
  - done.
  - exists p', c', done', w'. split.
    { cbn [playback_main]. fold o. replace (o <? stop) with true by (rewrite Hstop; unfold record_at; cbn [length]; lia).
      rewrite (bind_done _ _ _ _ _ E1). cbv beta iota. change (SQLITE_OK =? SQLITE_OK) with true. exact E2. }
    split; [done|]. change (px_pageSize p2) with (px_pageSize p1) in Hrp2. change (px_dbSize p2) with (px_dbSize p1) in Hrp2.
    rewrite HP1, Hs1 in Hrp2. split; [by apply (replayed_app _ _ _ _ [h] (restore c pPg) done1)|]. split; [done|].
    eapply kept_trans; [by apply kept_off|exact Hk2].
Qed.

Lemma playback_sub_ok ls rs : forall p c done o w,
  image p k ls pages -> cache_only p -> all_cached p c rs ->
  (forall i h, rs !! i = Some h -> record_there p ls false (o + Z.of_nat i * (4 + px_pageSize p)) h) -> all_ok w ->
  exists p' c' done' w', playback_sub os_write (length rs) g p c (Some done) o w = Done ((SQLITE_OK, p', c'), w') /\
    all_ok w' /\ replayed (px_pageSize p) (px_dbSize p) c done rs c' done' /\ image p' k ls pages /\ kept p p'.
Proof using L.
  induction rs as [|h rs IH]; intros p c done o w Him Hco Hca Hrec Hw.
  { exists p, c, done, w. split; [done|]. split; [done|]. split; [apply replayed_nil|]. by split. }
  apply Forall_cons in Hca as [(Hph & Hmj & hc & Hc & Hhc) Hca]. destruct Hco as [He Hst].
  pose proof (Hrec 0%nat h eq_refl) as Hr0. rewrite Z.mul_0_l, Z.add_0_r in Hr0.
  destruct (one_page_ok p c ls done false o h hc w) as (p1 & done1 & pPg & w1 & E1 & Hw1 & Hrp & Him1 & Hk1); [done..|].
  pose proof Hk1 as [HP1 Hs1 _ _ _ _ _ _ _].
  destruct (IH p1 (restore c pPg) done1 (o + (px_pageSize p + 4 + 0)) w1) as (p' & c' & done' & w' & E2 & Hw' & Hrp2 & Him' & Hk2).
  - done.
  - apply (cache_only_kept p p1 Hk1). by split.
  - by apply (all_cached_step p _ (px_dbSize p) c done [h] _ done1).
  - intros i h' Hi. rewrite HP1. apply (record_there_kept p p1); [done|].
    replace (o + (px_pageSize p + 4 + 0) + _) with (o + Z.of_nat (S i) * (4 + px_pageSize p)) by lia. by apply Hrec.
  - done.
  - exists p', c', done', w'. cbn [length playback_sub]. rewrite (bind_done _ _ _ _ _ E1). cbv beta iota.
    change (SQLITE_OK =? SQLITE_OK) with true. split; [exact E2|]. split; [done|]. rewrite HP1, Hs1 in Hrp2.
    split; [by apply (replayed_app _ _ _ _ [h] (restore c pPg) done1)|]. split; [done|]. by eapply kept_trans.
Qed.

(** ** Rolling back *)

Lemma main_there p c ls mj sj a i h :
  tx_inv p c ls mj sj -> drop a mj !! i = Some h ->
  record_there p ls true (record_at p (record_at p (sectorSize (px_tx p)) a) i) h.
Proof.
  intros Hi Hr. rewrite lookup_drop in Hr. destruct (ti_main _ _ _ _ _ Hi (a + i)%nat h Hr) as (page & ck & _ & _ & H1 & H2 & H3 & _ & H4).
  exists (jfd (px_journal p)), page. replace (record_at p (record_at p _ a) i) with (record_at p (sectorSize (px_tx p)) (a + i))
    by (unfold record_at; lia). split_and!; try done. intros _. by exists ck.
Qed.

Lemma sub_there p c ls mj sj b i h :
  tx_inv p c ls mj sj -> drop b sj !! i = Some h ->
  record_there p ls false (Z.of_nat b * (4 + px_pageSize p) + Z.of_nat i * (4 + px_pageSize p)) h.
Proof.
  intros Hi Hr. rewrite lookup_drop in Hr. destruct (ti_sub _ _ _ _ _ Hi (b + i)%nat h Hr) as (f & page & H1 & _ & H2 & H3 & H4).
  exists f, page. replace (_ + _) with (Z.of_nat (b + i) * (4 + px_pageSize p)) by lia. split_and!; try done.
  cbn [orb]. by destruct (subjInMemory (px_tx p)).
Qed.

Lemma records_cached p c ls mj sj a b :
  tx_inv p c ls mj sj -> all_cached p c (drop a mj) /\ all_cached p c (drop b sj).
Proof.
  intros Hi. assert (H : all_cached p c (mj ++ sj)).
  { eapply Forall_impl; [exact (ti_held _ _ _ _ _ Hi)|]. intros h [Hh [hc Hc]]. split; [done|].
    destruct (ti_cache _ _ _ _ _ Hi _ hc Hc) as (Hn & [_ Hmj] & _). split; [done|]. by exists hc. }
  apply Forall_app in H as [H1 H2]. by split; apply Forall_drop.
Qed.

Lemma image_state p st n ls : image p k ls pages -> image (put_state p st n) k ls pages.
Proof. by intros []. Qed.

(** Without a rollback journal there is nothing to play back. *)
Lemma playback_nothing p c ls s d a b w :
  tx_inv p c ls [] [] -> snapshot_of p c [] [] s d a b -> journalOff (px_journal p) = 0 -> all_ok w ->
  exists p' w', pagerPlaybackSavepoint os_write g p c (Some s) w = Done ((SQLITE_OK, p', c), w') /\ all_ok w' /\
    image p' k ls pages /\ kept (put_state p (px_state p) (nOrig s)) p'.
Proof using L.
  intros Hi [(Hh & Ho & Ha) [Hs Hb] _ _ _ _] Hoff Hw. pose proof (tx_room _ _ _ _ _ Hi) as HP.
  pose proof (ti_image _ _ _ _ _ Hi) as Him. pose proof (ti_nsub _ _ _ _ _ Hi) as Hn.
  unfold pagerPlaybackSavepoint. destruct (request_ok w Hw) as (w1 & Er & Hw1). rewrite (bind_done _ _ _ _ _ Er).
  cbn [negb]. rewrite Hh. change (0 =? 0) with true. cbv iota zeta. set (p0 := put_state p _ _).
  change (journalOff (px_journal p0)) with (journalOff (px_journal p)). rewrite Hoff. set (p1 := put_journalOff p0 (iOffset s)).
  pose proof (ti_conf _ _ _ _ _ Hi) as (_ & _ & Hss & _). unfold record_at in Ho.
  replace (Z.to_nat (0 - iOffset s)) with 0%nat by lia. cbn [playback_main]. rewrite bind_ret.
  change (SQLITE_OK =? SQLITE_OK) with true. cbv iota beta. cbn [Z.to_nat playback_headers].
  change (journalOff (px_journal p1)) with (iOffset s). replace (iOffset s <? 0) with false by lia. rewrite bind_ret.
  change (nSubRec (px_tx p1)) with (nSubRec (px_tx p)). cbn in Hb. rewrite Hn, Hs. cbn [length].
  replace (Z.to_nat (Z.of_nat 0 - Z.of_nat b)) with 0%nat by lia. cbn [playback_sub].
  change (SQLITE_OK =? SQLITE_OK) with true. cbv iota beta. rewrite bind_ret. eexists _, w1. split; [reflexivity|]. split; [done|].
  split; [by destruct Him|]. split; try done. unfold put_journalOff. cbn. rewrite <- Hoff. by destruct (px_journal p).
Qed.

Lemma playback_savepoint_ok p c ls mj sj s d a b w :
  tx_inv p c ls mj sj -> snapshot_of p c mj sj s d a b -> all_ok w ->
  exists p' c' done w', pagerPlaybackSavepoint os_write g p c (Some s) w = Done ((SQLITE_OK, p', c'), w') /\ all_ok w' /\
    replayed (px_pageSize p) (nOrig s) c [] (since mj sj a b) c' done /\
    image p' k ls pages /\ kept (put_state p (px_state p) (nOrig s)) p'.
Proof using L.
  intros Hi Hsn Hw. destruct (ti_state _ _ _ _ _ Hi) as [(_ & _ & Hoff & -> & ->)|(Hst & _ & _ & Hoff & _)].
  { destruct (playback_nothing p c ls s d a b w Hi Hsn Hoff Hw) as (p' & w' & E & Hw' & Him & Hk). exists p', c, [], w'.
    split; [done|]. split; [done|]. split; [unfold since; rewrite !drop_nil; apply replayed_nil|done]. }
  destruct Hsn as [(Hh & Ho & Ha) [Hs Hb] _ _ _ _]. pose proof (tx_room _ _ _ _ _ Hi) as HP.
  pose proof (ti_image _ _ _ _ _ Hi) as Him. pose proof (ti_nsub _ _ _ _ _ Hi) as Hn.
  destruct (records_cached _ _ _ _ _ a b Hi) as [Hc1 Hc2].
  unfold pagerPlaybackSavepoint. destruct (request_ok w Hw) as (w1 & Er & Hw1). rewrite (bind_done _ _ _ _ _ Er).
  cbn [negb]. rewrite Hh. change (0 =? 0) with true. cbv iota zeta. set (p0 := put_state p _ _).
  set (szJ := journalOff (px_journal p0)). set (p1 := put_journalOff p0 (iOffset s)).
  assert (Him0 : image p0 k ls pages) by (by apply image_state).
  assert (Hlen : length (drop a mj) = (length mj - a)%nat) by apply length_drop.
  destruct (playback_main_ok ls szJ (drop a mj) (Z.to_nat (szJ - iOffset s)) p1 c [] w1)
    as (p2 & c2 & done2 & w2 & E2 & Hw2 & Hrp2 & Him2 & Hk2).
  - by apply image_journal.
  - split; [apply (ti_error _ _ _ _ _ Hi)|done].
  - done.
  - intros i h Hh'. change (journalOff (px_journal p1)) with (iOffset s). rewrite Ho. by apply (main_there p c ls mj sj).
  - change (journalOff (px_journal p1)) with (iOffset s). unfold szJ. change (px_journal p0) with (px_journal p).
    rewrite Hoff, Ho, Hlen. unfold record_at. change (px_pageSize p1) with (px_pageSize p). nia.
  - unfold szJ. change (px_journal p0) with (px_journal p). rewrite Hoff, Ho, Hlen. unfold record_at. nia.
  - done.
  - rewrite (bind_done _ _ _ _ _ E2). change (SQLITE_OK =? SQLITE_OK) with true. cbv iota beta.
    pose proof Hk2 as [HP2 Hs2 _ Hj2 Ht2 _ _ _ _]. cbn [playback_headers]. rewrite Hj2.
    change (journalOff (px_journal (put_journalOff p1 szJ))) with szJ. rewrite Z.ltb_irrefl, bind_ret.
    rewrite Ht2, HP2. change (nSubRec (px_tx (put_journalOff p1 szJ))) with (nSubRec (px_tx p)). rewrite Hn, Hs.
    replace (Z.to_nat (Z.of_nat (length sj) - Z.of_nat b)) with (length (drop b sj)) by (rewrite length_drop; lia).
    change (px_pageSize (put_journalOff p1 szJ)) with (px_pageSize p).
    destruct (playback_sub_ok ls (drop b sj) p2 c2 done2 (Z.of_nat b * (4 + px_pageSize p)) w2)
      as (p3 & c3 & done3 & w3 & E3 & Hw3 & Hrp3 & Him3 & Hk3).
    + done.
    + apply (cache_only_kept _ _ Hk2). split; [apply (ti_error _ _ _ _ _ Hi)|done].
    + by apply (all_cached_step p _ (nOrig s) c [] (drop a mj) _ done2).
    + intros i h Hh'. rewrite HP2. apply (record_there_kept _ _ _ _ _ _ Hk2). by apply (sub_there p c ls mj sj).
    + done.
    + rewrite (bind_done _ _ _ _ _ E3). change (SQLITE_OK =? SQLITE_OK) with true.
      eexists _, c3, done3, w3. split; [reflexivity|]. split; [done|]. rewrite HP2, Hs2 in Hrp3.
      split; [by apply (replayed_app _ _ _ _ (drop a mj) c2 done2)|]. split; [by apply image_journal|].
      pose proof (kept_off _ _ szJ (kept_trans _ _ _ Hk2 Hk3)) as Hk.
      destruct Hk as [? ? ? Hjr ? ? ? ? [? ?]]. split; try done. rewrite Hjr. unfold szJ, put_journalOff, p1, p0. cbn. by destruct (px_journal p).
Qed.

(** The cache after a playback. *)
Lemma tx_inv_replayed p c ls mj sj size done rs c' done' :
  tx_inv p c ls mj sj -> replayed (px_pageSize p) size c done rs c' done' -> Forall (page_held (px_pageSize p)) rs ->
  tx_inv p c' ls mj sj.
Proof.
  intros Hi Hr Hrs. pose proof (tx_room _ _ _ _ _ Hi) as HP. pose proof Hi as [? ? ? ? ? Hca ? ? ? Hh Hw]. split; try done.
  - intros q h' Hq. pose proof (rp_cache _ _ _ _ _ _ _ Hr q) as Hrq. destruct (if _ : bool then _ else _) as [d|] eqn:Ef.
    + destruct Hrq as (h & h2 & Hc & Hc' & Hn & _ & Hl & Hu). rewrite Hq in Hc'. injection Hc' as <-.
      destruct (Hca q h Hc) as (_ & Hvq & _). split; [done|]. split; [done|].
      assert (Hfc : first_copy q rs = Some d) by (by destruct (_ || _)).
      assert (Hd : exists r, r ∈ rs /\ hdr_pgno r = q /\ hdr_pData r = d).
      { clear -Hfc. induction rs as [|r rs IH]; [done|]. cbn in Hfc. destruct (hdr_pgno r =? q) eqn:E.
        - exists r. injection Hfc as <-. split; [by left|split; [lia|done]].
        - destruct (IH Hfc) as (r' & ? & ?). exists r'. split; [by right|done]. }
      destruct Hd as (r & [i Hin]%list_elem_of_lookup & Hrn & <-).
      apply (page_held_usable _ r); [by eapply Forall_lookup_1|done|congruence|done|exact Hu].
    + rewrite Hrq in Hq. by apply Hca.
  - eapply Forall_impl; [exact Hh|]. intros h [H1 [hc Hc]]. split; [done|]. destruct (Hca _ _ Hc) as (Hn & _).
    destruct (replayed_cached _ _ _ _ _ _ _ _ _ Hr Hc Hn) as (h' & -> & _). by eexists.
  - intros q h' Hq Hf. pose proof (rp_cache _ _ _ _ _ _ _ Hr q) as Hrq. destruct (if _ : bool then _ else _) as [d|] eqn:Ef.
    + destruct Hrq as (h & h2 & Hc & Hc' & _ & Hfl & _). rewrite Hq in Hc'. injection Hc' as <-. rewrite Hfl in Hf. by apply (Hw q h).
    + rewrite Hrq in Hq. by apply (Hw q h').
Qed.

Lemma first_copy_drop q rs n : first_copy q rs = None -> first_copy q (drop n rs) = None.
Proof.
  revert n. induction rs as [|h rs IH]; intros n H; [by destruct n|]. destruct n; [done|]. cbn in H |- *.
  destruct (hdr_pgno h =? q); [done|by apply IH].
Qed.

Lemma first_copy_since q mj sj a b a' b' :
  (a <= a')%nat -> (b <= b')%nat -> first_copy q (since mj sj a b) = None -> first_copy q (since mj sj a' b') = None.
Proof.
  intros Ha Hb. unfold since. rewrite !first_copy_app. intros H.
  destruct (first_copy q (drop a mj)) eqn:E1; [done|].
  replace a' with (a + (a' - a))%nat by lia. replace b' with (b + (b' - b))%nat by lia. rewrite <- !drop_drop.
  by rewrite !first_copy_drop.
Qed.

(** ** The operations *)

Lemma tx_inv_savepoints p c ls mj sj sps : tx_inv p c ls mj sj -> tx_inv (put_savepoints p sps) c ls mj sj.
Proof. intros [[] [] ? ? ? ? ? ? ? ? ?]. by repeat (split; try done). Qed.

Lemma nsavepoints p c mj sj ds : snapshots p c mj sj ds -> length (aSavepoint (px_tx p)) = length ds.
Proof. intros [H _]. by eapply Forall2_length. Qed.

(** Where the records of a savepoint opened now start. *)
Lemma next_record p c ls mj sj :
  tx_inv p c ls mj sj ->
  (if jopen (px_tx p) && (0 <? journalOff (px_journal p)) then journalOff (px_journal p) else sectorSize (px_tx p))
  = record_at p (sectorSize (px_tx p)) (length mj).
Proof.
  intros Hi. pose proof (tx_room _ _ _ _ _ Hi) as HP. pose proof (ti_conf _ _ _ _ _ Hi) as (_ & _ & Hss & _).
  destruct (ti_state _ _ _ _ _ Hi) as [(_ & _ & Hoff & -> & _)|(_ & _ & Hjo & Hoff & _)].
  - rewrite Hoff. change (0 <? 0) with false. rewrite andb_false_r. unfold record_at. cbn. lia.
  - rewrite Hjo, <- Hoff. cbn [andb]. rewrite Hoff. unfold record_at. by replace (0 <? _) with true by nia.
Qed.

Lemma first_copy_none q mj sj : first_copy q (since mj sj (length mj) (length sj)) = None.
Proof. unfold since. by rewrite !drop_all. Qed.

(** The offsets of a savepoint are not past the ends of the journals. *)
Lemma snapshot_offsets p c mj sj s d a b :
  0 <= px_pageSize p -> snapshot_of p c mj sj s d a b ->
  iOffset s <= record_at p (sectorSize (px_tx p)) (length mj) /\ iSubRec s <= Z.of_nat (length sj).
Proof. intros HP [(_ & -> & Ha) [-> Hb] _ _ _ _]. unfold record_at. split; nia. Qed.

Lemma ordered_snoc sps s :
  ordered sps -> Forall (fun s' => iOffset s' <= iOffset s /\ iSubRec s' <= iSubRec s) sps -> ordered (sps ++ [s]).
Proof.
  intros Ho Hall i j s1 s2 Hij Hi Hj. apply lookup_app_Some in Hj as [Hj|[Hge Hj]].
  - apply (Ho i j); [done| |done]. rewrite lookup_app_l in Hi; [done|]. apply lookup_lt_Some in Hj. lia.
  - destruct (j - length sps)%nat eqn:E; [|done]. injection Hj as <-.
    apply lookup_app_Some in Hi as [Hi|[Hge' Hi]]; [by apply (Forall_lookup_1 _ _ _ _ Hall Hi)|].
    destruct (i - length sps)%nat; [|done]. injection Hi as <-. lia.
Qed.

(** One savepoint is opened. *)
Definition new_savepoint (p : pager) (mj : list PgHdr) : PagerSavepoint :=
  Mk_savepoint (record_at p (sectorSize (px_tx p)) (length mj)) 0 [] (px_dbSize p) (nSubRec (px_tx p)).

Lemma push_step p c ls mj sj s :
  tx_inv p c ls mj sj -> tx_rel p c mj sj s ->
  tx_rel (put_savepoints p (aSavepoint (px_tx p) ++ [new_savepoint p mj])) c mj sj (Mk_spec (now s) (saved s ++ [now s])).
Proof.
  intros Hi [H1 H2 [H3 H3'] H4]. pose proof (tx_room _ _ _ _ _ Hi) as HP. split; [done|done| |].
  - split; cbn [put_savepoints put_sub put_tx px_tx aSavepoint saved].
    + apply Forall2_app.
      * eapply Forall2_impl; [exact H3|]. intros sp d (a & b & Hs). exists a, b. by apply (snapshot_view p).
      * constructor; [|constructor]. exists (length mj), (length sj). split; try done.
        -- split; [cbn; by rewrite (ti_nsub _ _ _ _ _ Hi)|lia].
        -- intros q _. rewrite first_copy_none. split; [done|]. by intros [? ?].
        -- intros q x Hx. rewrite first_copy_none. by apply H2.
    + apply ordered_snoc; [done|]. apply Forall_lookup_2. intros i sp Hsp.
      destruct (Forall2_lookup_l _ _ _ _ _ H3 Hsp) as (d & _ & a & b & Hs). cbn. rewrite (ti_nsub _ _ _ _ _ Hi).
      apply (snapshot_offsets p c mj sj sp d a b); [lia|done].
  - intros Hj. cbn [saved now]. apply Forall_app. split; [by apply H4|by constructor].
Qed.

Lemma open_savepoints_ok c ls mj sj n : forall p s w,
  tx_inv p c ls mj sj -> tx_rel p c mj sj s -> all_ok w ->
  exists p' w', open_savepoints n p w = Done ((SQLITE_OK, p'), w') /\ all_ok w' /\
    tx_inv p' c ls mj sj /\ tx_rel p' c mj sj (Mk_spec (now s) (saved s ++ replicate n (now s))) /\ same_tx p p'.
Proof.
  induction n as [|n IH]; intros p s w Hi Hr Hw.
  { exists p, w. rewrite app_nil_r. by destruct s. }
  cbn [open_savepoints]. rewrite (next_record _ _ _ _ _ Hi). destruct (request_ok w Hw) as (w1 & E & Hw1).
  rewrite (bind_done _ _ _ _ _ E). cbn [negb]. fold (new_savepoint p mj).
  destruct (IH _ _ w1 (tx_inv_savepoints p c ls mj sj _ Hi) (push_step p c ls mj sj s Hi Hr) Hw1)
    as (p' & w' & E' & Hw' & Hi' & Hr' & []).
  exists p', w'. split; [done|]. split; [done|]. split; [done|]. split; [|by split].
  cbn [now saved] in Hr'. by rewrite <- app_assoc in Hr'.
Qed.

(** The state of a transaction: invariant and relation. *)
Record tx_ok (p : pager) (c : gmap Z PgHdr) (ls : list (list Z)) (mj sj : list PgHdr) (s : spec) : Prop := {
  to_inv : tx_inv p c ls mj sj;
  to_rel : tx_rel p c mj sj s;
  to_grown : grown s;
}.

Definition op_ok (p : pager) (s : spec) (o : op) : Prop :=
  match o with
  | OpRead q => is_Some (db_pages (now s) !! q)
  | OpWrite q d => reachable_page p s q /\ page_held (px_pageSize p) (Mk_hdr q d 0)
  | _ => True
  end.

(** An operation does what the specification says. *)
Definition op_refines (p : pager) (c : gmap Z PgHdr) (ls : list (list Z)) (mj sj : list PgHdr) (s : spec) (o : op)
    (w : world) : Prop :=
  exists p' c' ls' mj' sj' outs w', run_op p c o w = Done ((SQLITE_OK, p', c', outs), w') /\ all_ok w' /\
    tx_ok p' c' ls' mj' sj' (spec_step (px_pageSize p) s o).1 /\
    map (usable (px_pageSize p)) outs = (spec_step (px_pageSize p) s o).2 /\
    (length ls' + length sj' <= length ls + length sj + 3)%nat /\
    px_pageSize p' = px_pageSize p /\ mxPgno (px_tx p') = mxPgno (px_tx p).

Lemma grown_step P s o : grown s -> grown (spec_step P s o).1.
Proof.
  intros Hg. destruct o as [q|q d|n|i|i]; cbn [spec_step fst]; [done| | | |].
  - intros j x Hx. cbn in Hx |- *. destruct (Hg j x Hx). split; [lia|done].
  - intros j x Hx. cbn [saved now] in *. apply lookup_app_Some in Hx as [Hx|[Hge Hx]].
    + rewrite take_app_le by (apply lookup_lt_Some in Hx; lia). by apply Hg.
    + apply lookup_replicate in Hx as [-> _]. split; [lia|]. apply Forall_take, Forall_app. split; [|apply Forall_replicate; lia].
      apply Forall_lookup_2. intros m y Hy. by apply (Hg m y).
  - intros j x Hx. cbn [saved now] in *. apply lookup_take_Some in Hx as [Hx Hlt]. rewrite take_take, Nat.min_l by lia. by apply Hg.
  - destruct (saved s !! i) as [d|] eqn:Ed; [|done]. intros j x Hx. cbn [saved now] in *.
    apply lookup_take_Some in Hx as [Hx Hlt]. rewrite take_take, Nat.min_l by lia. split; [|by apply Hg].
    destruct (Hg i d Ed) as [_ Hall]. destruct (decide (j = i)) as [->|Hne]; [rewrite Ed in Hx; injection Hx as <-; lia|].
    apply (Forall_lookup_1 _ _ j x Hall). rewrite lookup_take_lt by lia. done.
Qed.

Lemma read_step p c ls mj sj s q w :
  tx_ok p c ls mj sj s -> op_ok p s (OpRead q) -> all_ok w -> op_refines p c ls mj sj s (OpRead q) w.
Proof using L.
  intros [Hi Hr Hg] [x Hx] Hw.
  destruct (get_ok p c ls mj sj s q w) as (p' & h & w' & E & Hw' & Hi' & Hr' & Hk & Hd); [done|done|done|left; by exists x|done|].
  exists p', (<[q := h]> c), ls, mj, sj, [hdr_pData h], w'. cbn [run_op]. rewrite (bind_done _ _ _ _ _ E). split; [done|].
  split; [done|]. split; [by split|]. split; [cbn; by rewrite (Hd x Hx), Hx|]. split; [lia|]. destruct Hk as [? _ _ _ Ht _ _ _ _].
  by rewrite Ht.
Qed.

Lemma write_step p c ls mj sj s q d w :
  tx_ok p c ls mj sj s -> op_ok p s (OpWrite q d) -> Z.of_nat (length ls + length sj + 3) < MT_AL_MAX_ELEMS -> all_ok w ->
  op_refines p c ls mj sj s (OpWrite q d) w.
Proof using L W Hos Hv.
  intros [Hi Hr Hg] [Hq Hph] Hroom Hw. unfold MT_AL_MAX_ELEMS in Hroom.
  destruct (get_ok p c ls mj sj s q w) as (p1 & h & w1 & E1 & Hw1 & Hi1 & Hr1 & Hk1 & _); [done..|].
  destruct (PagerWrite_ok p1 (<[q := h]> c) ls mj sj (saved s) q h w1) as (p2 & c2 & ls2 & mj2 & sj2 & w2 & E2 & Hw2 & Hwr);
    [done|apply Hr1|by rewrite lookup_insert_eq|unfold MT_AL_MAX_ELEMS; lia|lia|done|].
  pose proof Hwr as [Hi2 Hs2 Hev (h2 & -> & Hn2 & _) Hj2 [Hl1 Hl2] HP2 Hmx2 Hsz2].
  pose proof Hk1 as [HP1 _ _ _ Ht1 _ _ _ _]. rewrite HP1 in HP2. rewrite Ht1 in Hmx2.
  set (h3 := Mk_hdr q d (hdr_flags h2)). rewrite insert_insert_eq in *.
  exists p2, (<[q := h3]> c), ls2, mj2, sj2, [], w2. split.
  { cbn [run_op]. rewrite (bind_done _ _ _ _ _ E1), (bind_done _ _ _ _ _ E2). change (SQLITE_OK =? SQLITE_OK) with true.
    cbv iota beta. rewrite alter_insert_eq. by rewrite Hn2. }
  assert (Hc3 : <[q := h3]> c = <[q := h3]> (<[q := h2]> c)) by (by rewrite insert_insert_eq).
  split; [done|]. split; [|split; [done|split; [lia|done]]]. cbn [spec_step fst]. split; [| |exact (grown_step (px_pageSize p) s (OpWrite q d) Hg)].
  - rewrite Hc3. apply (tx_inv_replace _ _ _ _ _ _ h2); try done; [by rewrite lookup_insert_eq|]. rewrite HP2.
    destruct Hph as [? ? ? ?]. by split.
  - split; cbn [now saved db_size db_pages].
    + rewrite Hsz2, (tr_size _ _ _ _ _ Hr1). done.
    + intros q' x Hx. assert (Hvq : valid_pgno p2 q).
      { destruct (ti_cache _ _ _ _ _ Hi2 q h2) as (_ & ? & _); [by rewrite lookup_insert_eq|done]. }
      destruct (decide (q = q')) as [<-|Hne].
      * rewrite lookup_insert_eq in Hx. injection Hx as <-. split; [pose proof (ph_pgno _ _ Hph); cbn in *; lia|]. split; [done|].
        unfold holds. by rewrite lookup_insert_eq, HP2.
      * rewrite lookup_insert_ne in Hx by done. destruct (tr_pages _ _ _ _ _ Hr1 q' x Hx) as (Hq' & Hv' & Hh').
        split; [lia|]. unfold valid_pgno, mj_pgno in *. rewrite HP2. rewrite HP1 in Hv', Hh'. split; [done|].
        eapply holds_ext; [|exact Hh']. by rewrite !lookup_insert_ne.
    + rewrite Hc3. by apply snapshots_replace.
    + destruct Hj2. congruence.
Qed.

Lemma savepoint_step p c ls mj sj s n w :
  tx_ok p c ls mj sj s -> all_ok w -> op_refines p c ls mj sj s (OpSavepoint n) w.
Proof.
  intros [Hi Hr Hg] Hw. pose proof (nsavepoints _ _ _ _ _ (tr_saved _ _ _ _ _ Hr)) as Hn.
  pose proof (ti_conf _ _ _ _ _ Hi) as (_ & Huj & _). pose proof (grown_step (px_pageSize p) s (OpSavepoint n) Hg) as Hg'.
  unfold op_refines. cbn [run_op spec_step fst snd] in *. unfold sqlite3PagerOpenSavepoint. rewrite Huj, andb_true_r, Hn.
  destruct (Z.of_nat (length (saved s)) <? Z.of_nat n) eqn:E.
  - unfold pagerOpenSavepoint. destruct (request_ok w Hw) as (w1 & Er & Hw1). rewrite bind_assoc, (bind_done _ _ _ _ _ Er). cbn [negb].
    rewrite Hn, Nat2Z.id. destruct (open_savepoints_ok c ls mj sj (n - length (saved s)) p s w1 Hi Hr Hw1) as (p' & w' & E' & Hw' & Hi' & Hr' & []).
    rewrite (bind_done _ _ _ _ _ E'). exists p', c, ls, mj, sj, [], w'. split_and!; try done. lia.
  - replace (n - length (saved s))%nat with 0%nat in * by lia. rewrite app_nil_r in *.
    exists p, c, ls, mj, sj, [], w. split_and!; try done; [|lia]. by destruct s.
Qed.

(** The inner savepoints are gone. *)
Lemma take_step p c ls mj sj s n :
  tx_inv p c ls mj sj -> tx_rel p c mj sj s ->
  tx_rel (put_savepoints p (take n (aSavepoint (px_tx p)))) c mj sj (Mk_spec (now s) (take n (saved s))).
Proof.
  intros Hi [H1 H2 [H3 H3'] H4]. split; [done|done| |cbn; intros; by apply Forall_take, H4].
  split; cbn [put_savepoints put_sub put_tx px_tx aSavepoint saved].
  - eapply Forall2_impl; [by apply Forall2_take|]. intros sp d (a & b & Hs). exists a, b. by apply (snapshot_view p).
  - intros i j a b Hij Ha Hb. apply lookup_take_Some in Ha as [Ha _]. apply lookup_take_Some in Hb as [Hb _]. by apply (H3' i j).
Qed.

Lemma release_step p c ls mj sj s i w :
  tx_ok p c ls mj sj s -> all_ok w -> op_refines p c ls mj sj s (OpRelease i) w.
Proof.
  intros [Hi Hr Hg] Hw. pose proof (nsavepoints _ _ _ _ _ (tr_saved _ _ _ _ _ Hr)) as Hn.
  pose proof (grown_step (px_pageSize p) s (OpRelease i) Hg) as Hg'.
  unfold op_refines. cbn [run_op spec_step fst snd] in *. unfold sqlite3PagerSavepoint. rewrite (proj2 (ti_error _ _ _ _ _ Hi)).
  change (negb (SQLITE_OK =? SQLITE_OK)) with false. cbv iota zeta. rewrite Hn.
  destruct (Z.of_nat i <? Z.of_nat (length (saved s))) eqn:E; cbn [negb].
  2:{ rewrite bind_ret, take_ge in * by lia. exists p, c, ls, mj, sj, [], w. split_and!; try done; [by destruct s|lia]. }
  change (SAVEPOINT_RELEASE =? SAVEPOINT_RELEASE) with true. cbv iota. rewrite Z.add_0_r, Nat2Z.id.
  pose proof (take_step p c ls mj sj s i Hi Hr) as Hr1. pose proof (tx_inv_savepoints p c ls mj sj (take i (aSavepoint (px_tx p))) Hi) as Hi1.
  set (p1 := put_savepoints p _) in *. change (sjfd (px_tx p1)) with (sjfd (px_tx p)).
  assert (Hstay : exists p' c' ls' mj' sj' outs w', ('(rc, p, c) ← mret (SQLITE_OK, p1, c); mret (rc, p, c, []) : M _) w
      = Done ((SQLITE_OK, p', c', outs), w') /\ all_ok w' /\ tx_ok p' c' ls' mj' sj' (Mk_spec (now s) (take i (saved s))) /\
      map (usable (px_pageSize p)) outs = [] /\ (length ls' + length sj' <= length ls + length sj + 3)%nat /\
      px_pageSize p' = px_pageSize p /\ mxPgno (px_tx p') = mxPgno (px_tx p)).
  { exists p1, c, ls, mj, sj, [], w. rewrite bind_ret. split_and!; try done. lia. }
  destruct i as [|i]; [|exact Hstay]. destruct (sjfd (px_tx p)) as [f|] eqn:Ef; [|exact Hstay]. clear Hstay.
  rewrite bind_ret. set (p2 := put_sub p1 _ _ _). exists p2, c, ls, mj, [], [], w. split; [done|]. split; [done|].
  split; [|by split_and!; try done; cbn; lia]. split; [| |done].
  - destruct Hi1 as [[] [] ? ? Hst ? ? ? ? Hh ?]. repeat (split; try done).
    + destruct Hst as [(? & ? & ? & ? & ?)|Hst]; [by left|by right].
    + rewrite app_nil_r. by apply Forall_app in Hh as [? _].
  - destruct Hr1 as [H1 H2 H3 H4]. by split.
Qed.

(** A page whose copy was played back holds the copy, every other page what it
    held. *)
Lemma replayed_holds P size c rs c' done q x :
  replayed P size c [] rs c' done -> q <= size ->
  match first_copy q rs with Some y => usable P y = x | None => holds P c q x end -> holds P c' q x.
Proof.
  intros Hr Hq Hx. pose proof (rp_cache _ _ _ _ _ _ _ Hr q) as Hc. cbn [BitvecTest existsb orb] in Hc.
  replace (size <? q) with false in Hc by lia. destruct (first_copy q rs) as [y|].
  - destruct Hc as (h & h' & _ & Hc' & _ & _ & _ & Hu). unfold holds. rewrite Hc'. congruence.
  - by eapply holds_ext.
Qed.

(** The database is that of the savepoint again, and the outer savepoints still
    stand for their copies. *)
Lemma rolled_rel p p' c c' ls mj sj s i d sp a b done :
  tx_inv p c ls mj sj -> tx_rel p c mj sj s -> grown s -> saved s !! i = Some d -> aSavepoint (px_tx p) !! i = Some sp ->
  length (saved s) = S i -> snapshot_of p c mj sj sp d a b ->
  replayed (px_pageSize p) (nOrig sp) c [] (since mj sj a b) c' done ->
  same_view p p' -> aSavepoint (px_tx p') = aSavepoint (px_tx p) -> px_dbSize p' = db_size d ->
  tx_rel p' c' mj sj (Mk_spec d (saved s)).
Proof.
  intros Hi [H1 H2 Hsn H4] Hg Hd Hsp Hlen Hs Hrp Hvw Hsv Hsz. pose proof (tx_room _ _ _ _ _ Hi) as HP.
  pose proof Hs as [(_ & Ho & Ha) [Hsub Hb] _ _ Hn Hpg]. pose proof Hvw as [HP' _ _ _ Hjb].
  split; cbn [now saved]; [done| | |].
  - intros q x Hx. destruct (Hpg q x Hx) as (Hq & Hvq & Hm). split; [done|]. unfold valid_pgno, mj_pgno in *. rewrite HP'.
    split; [done|]. apply (replayed_holds _ _ _ _ _ _ _ _ Hrp); [lia|done].
  - apply (snapshots_view p); [|done|done]. eapply snapshots_impl; [|exact Hsn]. intros j sj' dj aj bj Hj Hdj Hsj.
    pose proof Hsj as [(_ & Hoj & _) [Hsubj _] _ _ Hnj Hpj]. split; try apply Hsj. intros q x Hx.
    destruct (Hpj q x Hx) as (Hq & Hvq & Hm). split; [done|]. split; [done|].
    destruct (first_copy q (since mj sj aj bj)) eqn:Ef; [done|].
    assert (Hji : (j <= i)%nat) by (apply lookup_lt_Some in Hdj; lia).
    destruct (ss_order _ _ _ _ _ Hsn j i sj' sp Hji Hj Hsp) as [Hle1 Hle2].
    rewrite Ho, Hoj in Hle1. rewrite Hsub, Hsubj in Hle2. unfold record_at in Hle1.
    assert (Hq' : q <= nOrig sp).
    { rewrite Hn. destruct (decide (j = i)) as [->|Hne]; [rewrite Hd in Hdj; injection Hdj as <-; lia|].
      destruct (Hg i d Hd) as [_ Hall]. assert (Htk : take i (saved s) !! j = Some dj) by (rewrite lookup_take_lt by lia; done).
      pose proof (Forall_lookup_1 _ _ _ _ Hall Htk) as Hle. cbn in Hle. lia. }
    apply (replayed_holds _ _ _ _ _ _ _ _ Hrp); [done|]. by rewrite (first_copy_since q mj sj aj bj) by (done || nia).
  - rewrite Hjb. intros Hf. pose proof (H4 Hf) as Hall. pose proof (Forall_lookup_1 _ _ _ _ Hall Hd) as Hdd.
    eapply Forall_impl; [exact Hall|]. cbn in *. congruence.
Qed.

Lemma rollback_step p c ls mj sj s i w :
  tx_ok p c ls mj sj s -> all_ok w -> op_refines p c ls mj sj s (OpRollback i) w.
Proof using L.
  intros [Hi Hr Hg] Hw. pose proof (nsavepoints _ _ _ _ _ (tr_saved _ _ _ _ _ Hr)) as Hn.
  pose proof (grown_step (px_pageSize p) s (OpRollback i) Hg) as Hg'. unfold op_refines.
  cbn [run_op spec_step fst snd] in *. unfold sqlite3PagerSavepoint. rewrite (proj2 (ti_error _ _ _ _ _ Hi)).
  change (negb (SQLITE_OK =? SQLITE_OK)) with false. cbv iota zeta. rewrite Hn.
  destruct (saved s !! i) as [d|] eqn:Ed.
  2:{ apply lookup_ge_None in Ed. replace (Z.of_nat i <? Z.of_nat (length (saved s))) with false by lia. cbn [negb].
      rewrite bind_ret. exists p, c, ls, mj, sj, [], w. split_and!; try done. lia. }
  pose proof (lookup_lt_Some _ _ _ Ed) as Hlt. replace (Z.of_nat i <? Z.of_nat (length (saved s))) with true by lia. cbn [negb].
  change (SAVEPOINT_ROLLBACK =? SAVEPOINT_RELEASE) with false. cbv iota.
  replace (Z.to_nat (Z.of_nat i + 1)) with (S i) by lia.
  pose proof (take_step p c ls mj sj s (S i) Hi Hr) as Hr1.
  pose proof (tx_inv_savepoints p c ls mj sj (take (S i) (aSavepoint (px_tx p))) Hi) as Hi1.
  pose proof (grown_step (px_pageSize p) s (OpRelease (S i)) Hg) as Hg1. cbn [spec_step fst] in Hg1.
  set (p1 := put_savepoints p _) in *. set (s1 := Mk_spec (now s) (take (S i) (saved s))) in *.
  destruct (lookup_lt_is_Some_2 (aSavepoint (px_tx p)) i ltac:(lia)) as [sp Hsp].
  assert (Hsp1 : aSavepoint (px_tx p1) !! i = Some sp) by (cbn; rewrite lookup_take_lt by lia; done).
  assert (Hd1 : saved s1 !! i = Some d) by (cbn [s1 saved]; rewrite lookup_take_lt by lia; done).
  destruct (Forall2_lookup_lr _ _ _ _ _ _ (ss_all _ _ _ _ _ (tr_saved _ _ _ _ _ Hr1)) Hsp1 Hd1) as (a & b & Hs).
  assert (Hlen : length (saved s1) = S i) by (cbn [s1 saved]; rewrite length_take; lia).
  destruct (jopen (px_tx p1)) eqn:Ejo.
  - rewrite Hsp1. destruct (playback_savepoint_ok p1 c ls mj sj sp d a b w Hi1 Hs Hw) as (p' & c' & done & w' & E & Hw' & Hrp & Him' & Hk).
    rewrite (bind_done _ _ _ _ _ E). exists p', c', ls, mj, sj, [], w'. split; [done|]. split; [done|].
    pose proof Hk as [HP Hsz _ _ Ht _ _ _ _]. split; [|split; [done|split; [lia|split; [done|by rewrite Ht]]]]. split; [| |done].
    + apply (tx_inv_kept (put_state p1 (px_state p1) (nOrig sp))); [apply tx_inv_size|done|done].
      apply (tx_inv_replayed p1 c ls mj sj (nOrig sp) [] (since mj sj a b) c' done); [done|done|].
      pose proof (ti_held _ _ _ _ _ Hi1) as Hh. apply Forall_app in Hh as [Hh1 Hh2].
      apply Forall_app. split; apply Forall_drop; [eapply Forall_impl; [exact Hh1|]|eapply Forall_impl; [exact Hh2|]]; by intros ? [].
    + apply (rolled_rel p1 p' c c' ls mj sj s1 i d sp a b done); try done; [|by rewrite Ht|by rewrite Hsz, <- (sn_size _ _ _ _ _ _ _ _ Hs)].
      destruct (same_view_kept _ _ Hk). by split.
  - rewrite bind_ret. exists p1, c, ls, mj, sj, [], w. split; [done|]. split; [done|]. split; [|by split_and!; try done; lia].
    destruct (ti_state _ _ _ _ _ Hi1) as [(_ & Hjb & _ & -> & ->)|(_ & _ & Hjo & _)]; [|congruence].
    split; [done| |done]. apply (rolled_rel p1 p1 c c ls [] [] s1 i d sp a b []); try done.
    + unfold since. rewrite !drop_nil. apply replayed_nil.
    + rewrite (tr_size _ _ _ _ _ Hr1). symmetry. by apply (Forall_lookup_1 _ _ _ _ (tr_fresh _ _ _ _ _ Hr1 Hjb) Hd1).
Qed.

Lemma op_step p c ls mj sj s o w :
  tx_ok p c ls mj sj s -> op_ok p s o -> Z.of_nat (length ls + length sj + 3) < MT_AL_MAX_ELEMS -> all_ok w ->
  op_refines p c ls mj sj s o w.
Proof using L W Hos Hv.
  intros Hok Hop Hroom Hw. destruct o.
  - by apply read_step.
  - by apply write_step.
  - by apply savepoint_step.
  - by apply release_step.
  - by apply rollback_step.
Qed.

(** The operations are permitted one after the other. *)
Fixpoint ops_ok (p : pager) (s : spec) (ops : list op) : Prop :=
  match ops with
  | [] => True
  | o :: ops => op_ok p s o /\ ops_ok p (spec_step (px_pageSize p) s o).1 ops
  end.

Lemma ops_ok_same p p' s ops :
  px_pageSize p' = px_pageSize p -> mxPgno (px_tx p') = mxPgno (px_tx p) -> ops_ok p s ops -> ops_ok p' s ops.
Proof.
  intros HP Hm. revert s. induction ops as [|o ops IH]; intros s; [done|]. cbn [ops_ok]. rewrite HP. intros [Ho Hops].
  split; [|by apply IH]. destruct o; try done. unfold op_ok, reachable_page, valid_pgno, mj_pgno in *. by rewrite HP, Hm.
Qed.

Lemma ops_refine ops : forall p c ls mj sj s w,
  tx_ok p c ls mj sj s -> ops_ok p s ops -> Z.of_nat (length ls + length sj + 3 * length ops) < MT_AL_MAX_ELEMS -> all_ok w ->
  exists p' c' ls' mj' sj' outs w', run_ops p c ops w = Done ((SQLITE_OK, p', c', outs), w') /\ all_ok w' /\
    tx_ok p' c' ls' mj' sj' (spec_run (px_pageSize p) s ops).1 /\
    map (usable (px_pageSize p)) outs = (spec_run (px_pageSize p) s ops).2.
Proof using L W Hos Hv.
  induction ops as [|o ops IH]; intros p c ls mj sj s w Hok Hops Hroom Hw.
  { by exists p, c, ls, mj, sj, [], w. }
  destruct Hops as [Ho Hops]. cbn [length] in Hroom.
  destruct (op_step p c ls mj sj s o w) as (p1 & c1 & ls1 & mj1 & sj1 & out & w1 & E1 & Hw1 & Hok1 & Hout & Hl & HP & Hmx); [done|done|lia|done|].
  cbn [spec_run run_ops]. destruct (spec_step (px_pageSize p) s o) as [s1 out1]. cbn [fst snd] in *.
  destruct (IH p1 c1 ls1 mj1 sj1 s1 w1) as (p' & c' & ls' & mj' & sj' & outs & w' & E2 & Hw' & Hok' & Houts);
    [done|by apply (ops_ok_same p)|lia|done|]. rewrite HP in *.
  exists p', c', ls', mj', sj', (out ++ outs), w'. rewrite (bind_done _ _ _ _ _ E1). change (SQLITE_OK =? SQLITE_OK) with true.
  cbv iota beta. rewrite (bind_done _ _ _ _ _ E2). destruct (spec_run (px_pageSize p) s1 ops) as [s2 outs2]. cbn [fst snd] in *.
  split; [done|]. split; [done|]. split; [done|]. by rewrite map_app, Hout, Houts.
Qed.

(** ** The theorem *)

(** A pager between transactions, without savepoints. *)
Record idle (p : pager) : Prop := {
  id_error : pager_error (cs_env (px_cst p)) = false /\ pager_errCode (cs_env (px_cst p)) = SQLITE_OK;
  id_state : px_state p = PAGER_READER;
  id_bits : jbits (px_tx p) = false;
  id_none : aSavepoint (px_tx p) = [] /\ nSubRec (px_tx p) = 0;
  id_conf : journalMode (px_tx p) <> PAGER_JOURNALMODE_OFF /\ useJournal (px_tx p) = true /\
    28 <= sectorSize (px_tx p) <= px_pageSize p;
}.

(** The database in the file. *)
Definition file_db (p : pager) : database := Mk_db (usable (px_pageSize p) <$> pages) (px_dbSize p).

Lemma begin_ok p ls mem :
  image p k ls pages -> grows p k ls -> idle p ->
  (forall q d, pages !! q = Some d -> q <= px_dbSize p /\ valid_pgno p q) ->
  exists p', sqlite3PagerBegin SQLITE_OK p mem = (SQLITE_OK, p') /\
    tx_ok p' ∅ ls [] [] (Mk_spec (file_db p) []) /\ px_pageSize p' = px_pageSize p /\ mxPgno (px_tx p') = mxPgno (px_tx p).
Proof.
  intros Him Hgr [[He1 He2] Hst Hjb [Hsp Hn] Hcf] Hpg. unfold sqlite3PagerBegin. rewrite He2.
  change (negb (SQLITE_OK =? SQLITE_OK)) with false. cbv iota zeta. unfold eState. cbn [put_tx px_cst px_state]. rewrite He1, Hst.
  change (negb (PAGER_READER =? PAGER_READER)) with false. cbv iota. eexists. split; [reflexivity|].
  split; [|done]. split; [| |done].
  - split; try done; [by destruct Him|by destruct Hgr|by left].
  - split; try done.
    + intros q x Hx. cbn in Hx. apply lookup_fmap_Some in Hx as (d & <- & Hd). destruct (Hpg q d Hd) as [Hq Hvq].
      split; [pose proof Hvq as [[? ?] _]; cbn; lia|]. split; [exact Hvq|]. unfold holds. rewrite lookup_empty. by exists d.
    + split; cbn; rewrite Hsp; [constructor|]. intros i j s s' _ Hi. by rewrite lookup_nil in Hi.
Qed.

(** C7. Savepoints refine a stack of snapshots.  A transaction is begun on an
    encrypted database and the B-tree reads pages, changes pages, opens,
    releases and rolls back to savepoints in any order.  The pager keeps one
    copy of each page in its cache and the old copies, through the codec, in
    the rollback journal and the sub-journal (unencrypted if that stays in
    memory).  Every call succeeds, and what is read is what a database with a
    stack of full copies would return, on which opening a savepoint pushes a
    copy and rolling back restores one. *)
Theorem savepoints_refine p ls mem ops w :
  image p k ls pages -> grows p k ls -> idle p ->
  (forall q d, pages !! q = Some d -> q <= px_dbSize p /\ valid_pgno p q) ->
  ops_ok p (Mk_spec (file_db p) []) ops ->
  Z.of_nat (length ls + 3 * length ops) < MT_AL_MAX_ELEMS -> all_ok w ->
  exists p1 p2 c outs w', sqlite3PagerBegin SQLITE_OK p mem = (SQLITE_OK, p1) /\
    run_ops p1 ∅ ops w = Done ((SQLITE_OK, p2, c, outs), w') /\
    let '(s, reads) := spec_run (px_pageSize p) (Mk_spec (file_db p) []) ops in
    map (usable (px_pageSize p)) outs = reads /\ px_dbSize p2 = db_size (now s) /\
    length (aSavepoint (px_tx p2)) = length (saved s).
Proof using L W Hos Hv.
  intros Him Hgr Hid Hpg Hops Hroom Hw.
  destruct (begin_ok p ls mem Him Hgr Hid Hpg) as (p1 & Eb & Hok & HP & Hmx).
  destruct (ops_refine ops p1 ∅ ls [] [] (Mk_spec (file_db p) []) w) as (p2 & c & ls2 & mj & sj & outs & w' & E & _ & [_ Hr _] & Hout);
    [done|by apply (ops_ok_same p)|cbn [length]; lia|done|].
  exists p1, p2, c, outs, w'. split; [done|]. split; [done|]. rewrite HP in *.
  destruct (spec_run (px_pageSize p) _ ops) as [s reads]. cbn [fst snd] in *. split; [done|].
  split; [apply Hr|]. by apply (nsavepoints p2 c mj sj), Hr.
Qed.

End proofs.

(** ** Witness *)

#[local] Existing Instance toy_openssl.
#[local] Existing Instance toy_openssl_laws.
#[local] Existing Instance toy_openssl_works.

Definition w_vfs : vfs := Mk_vfs 65536 0 (SQLITE_OK, []) false 7.

Lemma w_vfs_ok : vfs_ok w_vfs.
Proof. by vm_compute. Qed.

(** The pager of a database of two pages between transactions. *)
Definition w_idle (p : pager) : pager :=
  put_tx (put_state p PAGER_READER 2) (Mk_tx false false 2 64 0 true SQLITE_MAX_PAGE_COUNT [] None 0 0 false).

Lemma image_subset {NH : NodeHash} p c ls (pages pages' : gmap Z (list Z)) :
  image p c ls pages -> pages' ⊆ pages -> image p c ls pages'.
Proof.
  intros [H1 H2 H3 (f & Hf & H4)] Hsub. split; try done. exists f. split; [done|]. intros q d Hq.
  apply H4. by eapply lookup_weaken.
Qed.

(** Page 2 holds nines; it is changed within two savepoints and rolled back. *)
Definition w_ops : list op :=
  [OpRead 2; OpSavepoint 1; OpWrite 2 (replicate 128 7); OpSavepoint 2; OpWrite 2 (replicate 128 6); OpRead 2;
   OpRollback 1; OpRead 2; OpRollback 0; OpRead 2].

(** A pager whose file holds page 2, full of nines. *)
Lemma w_nines :
  exists p ls w, all_ok w /\ image p w_cipher ls {[ 2 := replicate 128 9 ]} /\ grows p w_cipher ls /\ (length ls <= 3)%nat /\
    px_pageSize p = 128 /\ px_dbSize p = 2 /\ px_state p = PAGER_WRITER_DBMOD /\
    pager_error (cs_env (px_cst p)) = false /\ pager_errCode (cs_env (px_cst p)) = SQLITE_OK.
Proof.
  destruct w_tree as (mt & Hrep). destruct (w_image 128 mt ltac:(lia) ltac:(by exists 8) Hrep) as [Him Hgr].
  destruct (commits_ok w_disk w_disk_ok w_globals [[w_first 128; w_second 128 8]; [w_second 128 9]] w_cipher _ [] ∅ []
    Him Hgr) as (p & pls0 & ls & w & _ & Hw & Hst & Hwt); [|done|constructor|].
  { cbn [concat app]. apply Forall_cons_2; [apply (w_first_ok 128); lia|].
    do 2 (apply Forall_cons_2; [by apply (w_second_ok 128)|]). constructor. }
  pose proof (w_stored 128 8 9 pls0 Hst) as H2. destruct Hwt as [Himp Hgrp Hl HP Hs [He Hc] _ _ _ _ Hst'].
  exists p, ls, w. split; [done|]. split; [|done]. eapply image_subset; [exact Himp|]. by apply map_singleton_subseteq_l.
Qed.

Lemma w_sevens b : is_byte b -> page_held 128 (Mk_hdr 2 (replicate 128 b) 0).
Proof. intros Hb. apply page_ok_held, (w_second_ok 128 b Hb). Qed.

Lemma savepoints_refine_witness :
  exists p p1 p2 c outs w w',
    sqlite3PagerBegin SQLITE_OK (w_idle p) false = (SQLITE_OK, p1) /\
    run_ops w_disk w_vfs w_globals p1 ∅ w_ops w = Done ((SQLITE_OK, p2, c, outs), w') /\
    map (usable 128) outs = [replicate 32 9; replicate 32 6; replicate 32 7; replicate 32 9] /\
    length (aSavepoint (px_tx p2)) = 1%nat.
Proof.
  destruct w_nines as (p & ls & w & Hw & Himp & Hgrp & Hl & HP & Hs & _ & He & Hec).
  set (pages := {[ 2 := replicate 128 9 ]} : gmap Z (list Z)) in *.
  assert (Himq : image (w_idle p) w_cipher ls pages) by (by destruct Himp).
  destruct (savepoints_refine w_disk w_disk_ok w_vfs w_globals w_cipher pages w_vfs_ok
    (w_idle p) ls false w_ops w) as (p1 & p2 & c & outs & w' & E1 & E2 & Hrun); [done|by destruct Hgrp| | | | |done|].
  - split; try done. change (px_pageSize (w_idle p)) with (px_pageSize p). by rewrite HP.
  - intros q d Hq. apply lookup_singleton_Some in Hq as [<- _]. split; [done|]. unfold valid_pgno, mj_pgno.
    change (px_pageSize (w_idle p)) with (px_pageSize p). rewrite HP. by vm_compute.
  - assert (Hg2 : forall (P : Z) (d : database) sv, is_Some (db_pages d !! 2) -> reachable_page (w_idle p) (Mk_spec d sv) 2)
      by (intros; by left).
    cbn [ops_ok w_ops op_ok spec_step fst now saved file_db db_pages]. change (px_pageSize (w_idle p)) with (px_pageSize p). rewrite HP.
    repeat match goal with
    | |- _ /\ _ => split
    | |- True => exact I
    | |- page_held _ _ => by apply w_sevens
    | |- reachable_page _ _ _ => left
    end; vm_compute; by eexists.
  - cbn. unfold MT_AL_MAX_ELEMS. lia.
  - change (px_pageSize (w_idle p)) with (px_pageSize p) in Hrun. unfold file_db in Hrun. change (px_dbSize (w_idle p)) with 2 in Hrun.
    change (px_pageSize (w_idle p)) with (px_pageSize p) in Hrun. rewrite HP in Hrun.
    exists p, p1, p2, c, outs, w, w'. split; [exact E1|]. split; [exact E2|]. vm_compute in Hrun.
    destruct Hrun as (H3 & _ & H5). split; [vm_compute; exact H3|exact H5].
Defined.

(** The same pager with page 2, full of sevens, in a sub-journal in memory. *)
Definition w_sub (p : pager) : pager :=
  put_tx p (Mk_tx true true 2 64 0 true SQLITE_MAX_PAGE_COUNT [] (Some (sub_record [] (replicate 128 7) 0 2)) (-1) 1 true).

Lemma memory_rollback_seals_witness :
  exists p p' h' w w' p'' h'',
    pager_playback_one_page w_disk w_globals (w_sub p) 0 (Some []) false true
      (fun q => ({[ 2 := Mk_hdr 2 (replicate 128 6) 0 ]} : gmap Z PgHdr) !! q) w
      = Done ((SQLITE_OK, p', 132, Some [2], Some h'), w') /\
    usable 128 (hdr_pData h') = replicate 32 7 /\
    readDbPage w_globals p' (Mk_hdr 2 [] 0) w' = Done ((SQLITE_OK, p'', h''), w') /\
    usable 128 (hdr_pData h'') = replicate 32 7.
Proof.
  destruct w_nines as (p & ls & w & Hw & Himp & Hgrp & Hl & HP & Hs & Hst & He & _).
  assert (Hrec := sub_record_ok [] (replicate 128 7) 0 2 ltac:(done) ltac:(done)).
  destruct Hrec as (R1 & R2 & _ & _ & _).
  destruct (memory_rollback_seals w_disk w_disk_ok w_globals w_cipher {[ 2 := replicate 128 9 ]} (w_sub p)
    {[ 2 := Mk_hdr 2 (replicate 128 6) 0 ]} ls [] 0 (Mk_hdr 2 (replicate 128 7) 0) (Mk_hdr 2 (replicate 128 6) 0) w)
    as (p' & ls' & h' & w' & E & _ & _ & _ & _ & _ & Hu & p'' & h'' & E2 & Hu2); try done; try (by destruct Himp); try (by destruct Hgrp).
  - exists (sub_record [] (replicate 128 7) 0 2), (replicate 128 7). change (px_pageSize (w_sub p)) with (px_pageSize p). rewrite HP. done.
  - change (px_pageSize (w_sub p)) with (px_pageSize p). rewrite HP. by apply w_sevens.
  - change (px_dbSize (w_sub p)) with (px_dbSize p). rewrite Hs. done.
  - unfold mj_pgno. change (px_pageSize (w_sub p)) with (px_pageSize p). rewrite HP. by vm_compute.
  - unfold MT_AL_MAX_ELEMS. lia.
  - change (px_pageSize (w_sub p)) with (px_pageSize p) in *. rewrite HP in *.
    exists p, p', h', w, w', p'', h''. split; [exact E|]. split; [exact Hu|]. split; [exact E2|exact Hu2].
Defined.
