(* ===== verification/Pragma.v ===== *)
(** * The codec's PRAGMAs

    Model of [sqlcipher_codec_pragma] ([storage/secure/sec_sqlite3.c]): the commands
    that query and change the settings of an attached codec and the defaults.
    Names, arguments and results are the characters of C strings.  The result is
    whether the command was taken, the rows it returns and the new state.  Left
    to parameters are the texts OpenSSL supplies and, here, the migration of old
    databases, which [Migrate] supplies. *)

From stdpp Require Import base tactics list numbers option.
From Stdlib Require Import ZArith Lia ZifyBool.
From Stdlib Require String Ascii.
Import String.StringSyntax.
Delimit Scope string_scope with string.
From S2P Require Import Prelude MtArrList Sha256 MtCrypto MerkleTree MtSerialize.
From S2P Require Import CipherUtil Openssl CodecCtx PageCodec Integrity Attach.

Local Open Scope Z_scope.

(** The characters of a literal. *)
Definition str (s : String.string) : list Z :=
  (fun c => Z.of_nat (Ascii.nat_of_ascii c)) <$> String.list_ascii_of_string s.
Arguments str s%_string.

(** ** Numbers in strings *)

Definition sqlite3Isdigit (c : Z) : bool := (48 <=? c) && (c <=? 57).
Definition sqlite3Isxdigit (c : Z) : bool :=
  sqlite3Isdigit c || ((65 <=? c) && (c <=? 70)) || ((97 <=? c) && (c <=? 102)).

(** The value of the digits [z] starts with. *)
Fixpoint digits (z : list Z) (v : Z) : Z :=
  match z with
  | c :: z => if sqlite3Isdigit c then digits z (v * 10 + (c - 48)) else v
  | [] => v
  end.

Definition is_space (c : Z) : bool := (c =? 32) || ((9 <=? c) && (c <=? 13)).

Fixpoint skip_spaces (z : list Z) : list Z :=
  match z with
  | c :: z' => if is_space c then skip_spaces z' else z
  | [] => []
  end.

(** [atoi]: the value read as a [long], saturating, and cut to an [int]. *)
Definition atoi (z : list Z) : Z :=
  let z := skip_spaces z in
  let '(neg, z) := match z with
                   | 45 :: z => (true, z)
                   | 43 :: z => (false, z)
                   | _ => (false, z)
                   end in
  let v := digits z 0 in
  i32 (Z.max (- 2 ^ 63) (Z.min (2 ^ 63 - 1) (if neg then - v else v))).

Fixpoint skip_zeros (z : list Z) : list Z :=
  match z with
  | 48 :: z => skip_zeros z
  | _ => z
  end.

Definition sqlite3HexToInt (c : Z) : Z := cipher_hex2int c.

(** The leading digits of [z], at most [n]: how many, and their value. *)
Fixpoint count_digits (n : nat) (isd : Z -> bool) (base : Z) (val : Z -> Z) (z : list Z) (i v : Z) : Z * Z :=
  match n, z with
  | S n, c :: z => if isd c then count_digits n isd base val z (i + 1) (v * base + val c) else (i, v)
  | _, _ => (i, v)
  end.

(** [None] where [*pValue] is not written. *)
Definition sqlite3GetInt32 (zNum : list Z) : option Z :=
  let decimal (neg : Z) (z : list Z) :=
    if negb (sqlite3Isdigit (hd 0 z)) then None else
    let '(i, v) := count_digits 11 sqlite3Isdigit 10 (fun c => c - 48) (skip_zeros z) 0 0 in
    if (10 <? i) || (2147483647 <? v - neg) then None
    else Some (if neg =? 0 then v else - v) in
  match zNum with
  | 45 :: z => decimal 1 z
  | 43 :: z => decimal 0 z
  | 48 :: x :: z =>
      if ((x =? 120) || (x =? 88)) && sqlite3Isxdigit (hd 0 z) then
        let z := skip_zeros z in
        let '(i, u) := count_digits 8 sqlite3Isxdigit 16 sqlite3HexToInt z 0 0 in
        if (Z.land u 2147483648 =? 0) && negb (sqlite3Isxdigit (hd 0 (drop (Z.to_nat i) z)))
        then Some u else None
      else decimal 0 zNum
  | _ => decimal 0 zNum
  end.

Definition sqlite3Atoi (z : list Z) : Z := default 0 (sqlite3GetInt32 z).

(** [zText] cut at [iOffset] and [iLength], with [iValue]. *)
Definition safety_words : list (list Z * Z) :=
  [(str "on", 1); (str "no", 0); (str "off", 0); (str "false", 0); (str "yes", 1); (str "true", 1);
   (str "extra", 3); (str "full", 2)].

Definition getSafetyLevel (z : list Z) (omitFull dflt : Z) : Z :=
  if sqlite3Isdigit (hd 0 z) then u8 (sqlite3Atoi z) else
  let fits (p : list Z * Z) :=
    (Z.of_nat (length p.1) =? Z.of_nat (length z)) && (sqlite3_strnicmp p.1 z (length z) =? 0)
    && ((omitFull =? 0) || (p.2 <=? 1)) in
  match List.find fits safety_words with Some p => p.2 | None => dflt end.

Definition sqlite3GetBoolean (z : list Z) (dflt : Z) : Z :=
  if getSafetyLevel z 1 dflt =? 0 then 0 else 1.

(** Decimal digits of [n >= 0], at most [fuel] of them, before [acc]. *)
Fixpoint dec (fuel : nat) (n : Z) (acc : list Z) : list Z :=
  match fuel with
  | O => acc
  | S fuel => if n <? 10 then (48 + n) :: acc else dec fuel (n / 10) ((48 + n mod 10) :: acc)
  end.

(** [%d] *)
Definition print_int (n : Z) : list Z := if n <? 0 then 45 :: dec 20 (- n) [] else dec 20 n [].

(** [%02x] of a byte *)
Definition print_byte (b : Z) : list Z := [hex_lower (b / 16); hex_lower (b mod 16)].

(** ** Rows *)

Inductive text :=
  | Text (s : list Z)
  | NoText              (** NULL: no memory, or an algorithm without a name *)
  | Freed.              (** a string that was freed although the row still refers to it *)

Inductive row :=
  | Row (zLabel : list Z) (value : text)
  | Check (r : check_row).

Definition sqlite3_mprintf (s : list Z) : M text :=
  ok ← request; mret (if (ok : bool) then Text s else NoText).

Definition int_row (zLabel : list Z) (n : Z) : M (list row) :=
  t ← sqlite3_mprintf (print_int n); mret [Row zLabel t].

Definition hmac_labels : list (Z * list Z) :=
  [(SQLCIPHER_HMAC_SHA1, str "HMAC_SHA1"); (SQLCIPHER_HMAC_SHA256, str "HMAC_SHA256");
   (SQLCIPHER_HMAC_SHA512, str "HMAC_SHA512")].
Definition SQLCIPHER_PBKDF2_HMAC_SHA1 : Z := 0.
Definition SQLCIPHER_PBKDF2_HMAC_SHA256 : Z := 1.
Definition kdf_labels : list (Z * list Z) :=
  [(SQLCIPHER_PBKDF2_HMAC_SHA1, str "PBKDF2_HMAC_SHA1"); (SQLCIPHER_PBKDF2_HMAC_SHA256, str "PBKDF2_HMAC_SHA256");
   (SQLCIPHER_PBKDF2_HMAC_SHA512, str "PBKDF2_HMAC_SHA512")].

(** The comparisons with the labels, in their order. *)
Definition algorithm_of (labels : list (Z * list Z)) (z : list Z) : option Z :=
  fst <$> List.find (fun p => sqlite3StrICmp z p.2 =? 0) labels.
Definition label_of (labels : list (Z * list Z)) (algorithm : Z) : option (list Z) :=
  snd <$> List.find (fun p => algorithm =? p.1) labels.

Definition label_row (zLabel : list Z) (labels : list (Z * list Z)) (algorithm : Z) : list row :=
  match label_of labels algorithm with None => [] | Some s => [Row zLabel (Text s)] end.

(** [PRAGMA <name> = <value>;] *)
Definition setting_text (name value : list Z) : list Z :=
  str "PRAGMA " ++ name ++ str " = " ++ value ++ str ";".
Definition setting_row (name value : list Z) : M row :=
  t ← sqlite3_mprintf (setting_text name value); mret (Row (str "pragma") t).
Definition setting_label_row (name : list Z) (value : option (list Z)) : M row :=
  match value with None => mret (Row (str "pragma") NoText) | Some v => setting_row name v end.

(** ** The commands *)

Section pragma.
Context {OS : OpenSSL} {NH : NodeHash} {rest : Type} {PO : PagerOps rest}.

(** What the commands call: texts of OpenSSL, opening the file of the profile,
    and the migration (for which see [Migrate]). *)
Class PragmaEnv := {
  OPENSSL_VERSION_TEXT : list Z;
  openssl_cipher : list Z;
  fopen : list Z -> bool;
  sqlcipher_codec_ctx_migrate : globals -> sqlite3 rest -> nat -> M (Z * globals * sqlite3 rest);
}.
Context {PE : PragmaEnv}.

(** Taken (1) or not (0), rows, defaults and connection. *)
Abbreviation pragma_result := (Z * list row * globals * sqlite3 rest)%type.

Definition bt_error (b : BtShared rest) (rc : Z) : BtShared rest :=
  put_pager b (put_env (pPager b) (sqlcipher_codec_ctx_set_error (pg_env (pPager b)) rc)).
(** [if(rc != SQLITE_OK) sqlcipher_codec_ctx_set_error(ctx, e)] *)
Definition check_rc (rc e : Z) (b : BtShared rest) : BtShared rest :=
  if rc =? SQLITE_OK then b else bt_error b e.

(** Where the profile goes is all that distinguishes the cases. *)
Definition sqlcipher_cipher_profile (destination : list Z) : Z :=
  let named s := sqlite3StrICmp destination s =? 0 in
  if named (str "stdout") || named (str "stderr") || named (str "off") then SQLITE_OK
  else if fopen destination then SQLITE_OK else SQLITE_ERROR.

Section command.
Context (g : globals) (db : sqlite3 rest) (i : nat).

Definition taken (rows : list row) : M pragma_result := mret (1, rows, g, db).
Definition taken_bt (rows : list row) (b : BtShared rest) : M pragma_result := mret (1, rows, g, put_bt db i b).
Definition taken_default (rows : list row) (g : globals) : M pragma_result := mret (1, rows, g, db).

(** A changed context, and the page size handed on to the B-tree; [e] tells the
    error to record from the code returned. *)
Definition resize (ctx : codec_ctx) (b : BtShared rest) (e : Z -> Z) : M pragma_result :=
  '(rc, db, b) ← codec_set_btree_to_codec_pagesize db b ctx;
  mret (1, [], g, put_bt db i (check_rc rc (e rc) b)).

Definition pragma_page_size (b : BtShared rest) (ctx : codec_ctx) (zRight : option (list Z)) : M pragma_result :=
  match zRight with
  | Some z =>
      '(rc, ctx) ← sqlcipher_codec_ctx_set_pagesize ctx (atoi z);
      resize ctx (check_rc rc rc (with_codec b ctx)) id
  | None => rows ← int_row (str "cipher_page_size") (sqlcipher_codec_ctx_get_pagesize ctx); taken rows
  end.

Definition pragma_use_hmac (b : BtShared rest) (ctx : codec_ctx) (zRight : option (list Z)) : M pragma_result :=
  match zRight with
  | Some z =>
      let '(rc, ctx) := sqlcipher_codec_ctx_set_use_hmac ctx (sqlite3GetBoolean z 1) in
      resize ctx (check_rc rc rc (with_codec b ctx)) id
  | None =>
      rows ← int_row (str "cipher_use_hmac") (if sqlcipher_codec_ctx_get_use_hmac ctx then 1 else 0);
      taken rows
  end.

Definition pragma_hmac_pgno (b : BtShared rest) (ctx : codec_ctx) (zRight : option (list Z)) : M pragma_result :=
  let name := str "cipher_hmac_pgno" in
  match zRight with
  | Some z =>
      let ctx :=
        if sqlite3StrICmp z (str "le") =? 0 then
          (sqlcipher_codec_ctx_set_flag (sqlcipher_codec_ctx_unset_flag ctx CIPHER_FLAG_BE_PGNO).2 CIPHER_FLAG_LE_PGNO).2
        else if sqlite3StrICmp z (str "be") =? 0 then
          (sqlcipher_codec_ctx_set_flag (sqlcipher_codec_ctx_unset_flag ctx CIPHER_FLAG_LE_PGNO).2 CIPHER_FLAG_BE_PGNO).2
        else if sqlite3StrICmp z (str "native") =? 0 then
          (sqlcipher_codec_ctx_unset_flag (sqlcipher_codec_ctx_unset_flag ctx CIPHER_FLAG_LE_PGNO).2 CIPHER_FLAG_BE_PGNO).2
        else ctx in
      taken_bt [Row name (Text (str "PRAGMA cipher_hmac_pgno is deprecated, please remove from use"))] (with_codec b ctx)
  | None =>
      taken [Row name (Text (if sqlcipher_codec_ctx_get_flag ctx CIPHER_FLAG_LE_PGNO then str "le"
                             else if sqlcipher_codec_ctx_get_flag ctx CIPHER_FLAG_BE_PGNO then str "be"
                             else str "native"))]
  end.

(** The mask is read from the two digits whether they are digits or not. *)
Definition pragma_hmac_salt_mask (zRight : option (list Z)) : M pragma_result :=
  let name := str "cipher_hmac_salt_mask" in
  match zRight with
  | Some z =>
      taken_default [Row name (Text (str "PRAGMA cipher_hmac_salt_mask is deprecated, please remove from use"))]
        (if (sqlite3_strnicmp z (str "x'") 2 =? 0) && (Z.of_nat (length z) =? 5)
         then sqlcipher_set_hmac_salt_mask g (hd 0 (cipher_hex2bin (take 2 (drop 2 z)))) else g)
  | None => t ← sqlite3_mprintf (print_byte (sqlcipher_get_hmac_salt_mask g)); taken [Row name t]
  end.

Definition pragma_plaintext_header_size (b : BtShared rest) (ctx : codec_ctx) (zRight : option (list Z))
  : M pragma_result :=
  match zRight with
  | Some z =>
      let '(rc, ctx) := sqlcipher_codec_ctx_set_plaintext_header_size ctx (atoi z) in
      taken_bt [] (check_rc rc SQLITE_ERROR (with_codec b ctx))
  | None =>
      rows ← int_row (str "cipher_plaintext_header_size") (sqlcipher_codec_ctx_get_plaintext_header_size ctx);
      taken rows
  end.

(** The string of the row is freed after the row was made. *)
Definition pragma_default_plaintext_header_size (zRight : option (list Z)) : M pragma_result :=
  match zRight with
  | Some z => taken_default [] (sqlcipher_set_default_plaintext_header_size g (atoi z)).2
  | None =>
      t ← sqlite3_mprintf (print_int (sqlcipher_get_default_plaintext_header_size g));
      taken [Row (str "cipher_default_plaintext_header_size") (match t with Text _ => Freed | _ => t end)]
  end.

(** The blocks of [sqlite3_malloc] are used unchecked. *)
Definition pragma_salt (b : BtShared rest) (ctx : codec_ctx) (zRight : option (list Z)) : M pragma_result :=
  match zRight with
  | Some z =>
      if (sqlite3_strnicmp z (str "x'") 2 =? 0) && (Z.of_nat (length z) =? FILE_HEADER_SZ * 2 + 3) then
        ok ← request;
        if negb (ok : bool) then throw NullDeref else
        '(_, ctx) ← sqlcipher_codec_ctx_set_kdf_salt ctx
                      (cipher_hex2bin (take (Z.to_nat (FILE_HEADER_SZ * 2)) (drop 2 z))) FILE_HEADER_SZ;
        taken_bt [] (with_codec b ctx)
      else taken []
  | None =>
      ok ← request;
      let '(rc, ctx, r, salt) := sqlcipher_codec_ctx_get_kdf_salt ctx (pg_env (pPager b)) (pg_rng (pPager b)) in
      let st := codec_state_of (pPager b) ctx in
      let b := put_pager b (put_codec_state (pPager b) (with_rng st r)) in
      if rc =? SQLITE_OK then
        if negb (ok : bool) then throw NullDeref else
        salt ← buf_read 0 FILE_HEADER_SZ salt;
        hexsalt ← cipher_bin2hex salt (replicate (Z.to_nat (FILE_HEADER_SZ * 2 + 1)) 0) 0;
        taken_bt [Row (str "cipher_salt") (Text (take (Z.to_nat (FILE_HEADER_SZ * 2)) hexsalt))] b
      else taken_bt [] (bt_error b rc)
  end.

Definition pragma_hmac_algorithm (b : BtShared rest) (ctx : codec_ctx) (zRight : option (list Z)) : M pragma_result :=
  match zRight with
  | Some z =>
      let '(rc, ctx) := match algorithm_of hmac_labels z with
                        | Some a => sqlcipher_codec_ctx_set_hmac_algorithm ctx a
                        | None => (SQLITE_ERROR, ctx)
                        end in
      resize ctx (check_rc rc SQLITE_ERROR (with_codec b ctx)) (fun _ => SQLITE_ERROR)
  | None => taken (label_row (str "cipher_hmac_algorithm") hmac_labels (sqlcipher_codec_ctx_get_hmac_algorithm ctx))
  end.

Definition pragma_default_hmac_algorithm (zRight : option (list Z)) : M pragma_result :=
  match zRight with
  | Some z => taken_default [] (match algorithm_of hmac_labels z with
                                | Some a => (sqlcipher_set_default_hmac_algorithm g a).2
                                | None => g
                                end)
  | None => taken (label_row (str "cipher_default_hmac_algorithm") hmac_labels (sqlcipher_get_default_hmac_algorithm g))
  end.

Definition pragma_kdf_algorithm (b : BtShared rest) (ctx : codec_ctx) (zRight : option (list Z)) : M pragma_result :=
  match zRight with
  | Some z =>
      let '(rc, ctx) := match algorithm_of kdf_labels z with
                        | Some a => sqlcipher_codec_ctx_set_kdf_algorithm ctx a
                        | None => (SQLITE_ERROR, ctx)
                        end in
      taken_bt [] (check_rc rc SQLITE_ERROR (with_codec b ctx))
  | None => taken (label_row (str "cipher_kdf_algorithm") kdf_labels (sqlcipher_codec_ctx_get_kdf_algorithm ctx))
  end.

Definition pragma_default_kdf_algorithm (zRight : option (list Z)) : M pragma_result :=
  match zRight with
  | Some z => taken_default [] (match algorithm_of kdf_labels z with
                                | Some a => (sqlcipher_set_default_kdf_algorithm g a).2
                                | None => g
                                end)
  | None => taken (label_row (str "cipher_default_kdf_algorithm") kdf_labels (sqlcipher_get_default_kdf_algorithm g))
  end.

(** Page size, HMAC, key derivation, iterations and use of HMAC of the versions. *)
Definition version_settings (version : Z) : Z * Z * Z * Z * Z :=
  if version =? 1 then (1024, SQLCIPHER_HMAC_SHA1, SQLCIPHER_PBKDF2_HMAC_SHA1, 4000, 0)
  else if version =? 2 then (1024, SQLCIPHER_HMAC_SHA1, SQLCIPHER_PBKDF2_HMAC_SHA1, 4000, 1)
  else if version =? 3 then (1024, SQLCIPHER_HMAC_SHA1, SQLCIPHER_PBKDF2_HMAC_SHA1, 64000, 1)
  else (4096, SQLCIPHER_HMAC_SHA512, SQLCIPHER_PBKDF2_HMAC_SHA512, 256000, 1).

Definition pragma_compatibility (b : BtShared rest) (ctx : codec_ctx) (zRight : option (list Z)) : M pragma_result :=
  match zRight with
  | Some z =>
      let '(size, hmac, kdf, iter, use) := version_settings (atoi z) in
      '(rc, ctx) ← sqlcipher_codec_ctx_set_pagesize ctx size;
      let b := check_rc rc SQLITE_ERROR b in
      let '(rc, ctx) := sqlcipher_codec_ctx_set_hmac_algorithm ctx hmac in
      let b := check_rc rc SQLITE_ERROR b in
      let '(rc, ctx) := sqlcipher_codec_ctx_set_kdf_algorithm ctx kdf in
      let b := check_rc rc SQLITE_ERROR b in
      let '(rc, ctx) := sqlcipher_codec_ctx_set_kdf_iter ctx iter in
      let b := check_rc rc SQLITE_ERROR b in
      let '(rc, ctx) := sqlcipher_codec_ctx_set_use_hmac ctx use in
      let b := check_rc rc SQLITE_ERROR b in
      resize ctx (with_codec b ctx) (fun _ => SQLITE_ERROR)
  | None => taken []
  end.

Definition pragma_default_compatibility (zRight : option (list Z)) : M pragma_result :=
  match zRight with
  | Some z =>
      let '(size, hmac, kdf, iter, use) := version_settings (atoi z) in
      let g := sqlcipher_set_default_pagesize g size in
      let g := (sqlcipher_set_default_hmac_algorithm g hmac).2 in
      let g := (sqlcipher_set_default_kdf_algorithm g kdf).2 in
      let g := sqlcipher_set_default_kdf_iter g iter in
      taken_default [] (sqlcipher_set_default_use_hmac g use)
  | None => taken []
  end.

Definition pragma_settings (ctx : codec_ctx) : M pragma_result :=
  r1 ← setting_row (str "kdf_iter") (print_int (sqlcipher_codec_ctx_get_kdf_iter ctx));
  r2 ← setting_row (str "cipher_page_size") (print_int (sqlcipher_codec_ctx_get_pagesize ctx));
  r3 ← setting_row (str "cipher_use_hmac") (print_int (if sqlcipher_codec_ctx_get_use_hmac ctx then 1 else 0));
  r4 ← setting_row (str "cipher_plaintext_header_size") (print_int (sqlcipher_codec_ctx_get_plaintext_header_size ctx));
  r5 ← setting_label_row (str "cipher_hmac_algorithm") (label_of hmac_labels (sqlcipher_codec_ctx_get_hmac_algorithm ctx));
  r6 ← setting_label_row (str "cipher_kdf_algorithm") (label_of kdf_labels (sqlcipher_codec_ctx_get_kdf_algorithm ctx));
  taken [r1; r2; r3; r4; r5; r6].

Definition pragma_default_settings : M pragma_result :=
  r1 ← setting_row (str "cipher_default_kdf_iter") (print_int (sqlcipher_get_default_kdf_iter g));
  r2 ← setting_row (str "cipher_default_page_size") (print_int (sqlcipher_get_default_pagesize g));
  r3 ← setting_row (str "cipher_default_use_hmac") (print_int (sqlcipher_get_default_use_hmac g));
  r4 ← setting_row (str "cipher_default_plaintext_header_size") (print_int (sqlcipher_get_default_plaintext_header_size g));
  r5 ← setting_label_row (str "cipher_default_hmac_algorithm") (label_of hmac_labels (sqlcipher_get_default_hmac_algorithm g));
  r6 ← setting_label_row (str "cipher_default_kdf_algorithm") (label_of kdf_labels (sqlcipher_get_default_kdf_algorithm g));
  taken [r1; r2; r3; r4; r5; r6].
End command.

Definition attached (db : sqlite3 rest) (i : nat) : M (option (BtShared rest * codec_ctx)) :=
  pDb ← get_db db i;
  mret (b ← pBt pDb; ctx ← sqlite3PagerGetCodec (pPager b); Some (b, ctx)).

Definition sqlcipher_codec_fips_status (ctx : codec_ctx) : Z := p_fips_status (provider ctx).

(** CIPHER_VERSION_NUMBER and CIPHER_VERSION_BUILD *)
Definition sqlcipher_version : M text := sqlite3_mprintf (str "4.4.0 community").

(** The commands before the missing [else]: they do their work, and the chain that
    follows does not know them. *)
Definition pragma_first (db : sqlite3 rest) (i : nat) (zLeft : list Z) (zRight : option (list Z))
  : M (list row * sqlite3 rest) :=
  a ← attached db i;
  let named s := sqlite3StrICmp zLeft s =? 0 in
  match a, zRight with
  | Some (b, ctx), None =>
      if named (str "cipher_fips_status") then
        rows ← int_row (str "cipher_fips_status") (sqlcipher_codec_fips_status ctx); mret (rows, db)
      else if named (str "cipher_store_pass") then
        rows ← int_row (str "cipher_store_pass") (sqlcipher_codec_get_store_pass ctx); mret (rows, db)
      else mret ([], db)
  | Some (b, ctx), Some z =>
      if named (str "cipher_store_pass") then
        mret ([], put_bt db i (with_codec b (sqlcipher_codec_set_store_pass ctx (sqlite3GetBoolean z 1))))
      else mret ([], db)
  | None, _ => mret ([], db)
  end.

Definition pragma_rest (g : globals) (db : sqlite3 rest) (i : nat) (zLeft : list Z) (zRight : option (list Z))
  : M pragma_result :=
  a ← attached db i;
  let named s := sqlite3StrICmp zLeft s =? 0 in
  let set s := named s && bool_decide (is_Some zRight) in
  let get s := named s && negb (bool_decide (is_Some zRight)) in
  let arg := default [] zRight in
  let taken := taken g db in
  let taken_bt := taken_bt g db i in
  let if_ctx (f : BtShared rest -> codec_ctx -> M pragma_result) :=
    match a with None => taken [] | Some (b, ctx) => f b ctx end in
  if set (str "cipher_profile") then
    rows ← int_row (str "cipher_profile") (sqlcipher_cipher_profile arg); taken rows
  else if set (str "cipher_add_random") then
    if_ctx (fun b ctx =>
      '(rc, r) ← sqlcipher_codec_add_random ctx (pg_rng (pPager b)) arg (Z.of_nat (length arg));
      rows ← int_row (str "cipher_add_random") rc;
      taken_bt rows (put_pager b (put_codec_state (pPager b) (with_rng (codec_state_of (pPager b) ctx) r))))
  else if get (str "cipher_migrate") then
    if_ctx (fun _ _ =>
      '(rc, g, db) ← sqlcipher_codec_ctx_migrate g db i;
      rows ← int_row (str "cipher_migrate") rc;
      mret (1, rows, g, db))
  else if get (str "cipher_provider") then
    if_ctx (fun _ _ => taken [Row (str "cipher_provider") (Text (str "openssl"))])
  else if get (str "cipher_provider_version") then
    if_ctx (fun _ _ => taken [Row (str "cipher_provider_version") (Text OPENSSL_VERSION_TEXT)])
  else if get (str "cipher_version") then
    t ← sqlcipher_version; taken [Row (str "cipher_version") t]
  else if named (str "cipher") then
    if_ctx (fun _ _ => taken [Row (str "cipher")
      (Text (match zRight with Some _ => str "PRAGMA cipher is no longer supported." | None => openssl_cipher end))])
  else if set (str "rekey_cipher") then
    taken [Row (str "rekey_cipher") (Text (str "PRAGMA rekey_cipher is no longer supported."))]
  else if named (str "cipher_default_kdf_iter") then
    match zRight with
    | Some z => taken_default db [] (sqlcipher_set_default_kdf_iter g (atoi z))
    | None => rows ← int_row (str "cipher_default_kdf_iter") (sqlcipher_get_default_kdf_iter g); taken rows
    end
  else if named (str "kdf_iter") then
    if_ctx (fun b ctx =>
      match zRight with
      | Some z => taken_bt [] (with_codec b (sqlcipher_codec_ctx_set_kdf_iter ctx (atoi z)).2)
      | None => rows ← int_row (str "kdf_iter") (sqlcipher_codec_ctx_get_kdf_iter ctx); taken rows
      end)
  else if named (str "fast_kdf_iter") then
    if_ctx (fun b ctx =>
      match zRight with
      | Some z =>
          taken_bt [Row (str "fast_kdf_iter") (Text (str "PRAGMA fast_kdf_iter is deprecated, please remove from use"))]
            (with_codec b (sqlcipher_codec_ctx_set_fast_kdf_iter ctx (atoi z)).2)
      | None => rows ← int_row (str "fast_kdf_iter") (sqlcipher_codec_ctx_get_fast_kdf_iter ctx); taken rows
      end)
  else if set (str "rekey_kdf_iter") then
    taken [Row (str "rekey_kdf_iter") (Text (str "PRAGMA rekey_kdf_iter is no longer supported."))]
  else if named (str "cipher_page_size") then if_ctx (fun b ctx => pragma_page_size g db i b ctx zRight)
  else if named (str "cipher_default_page_size") then
    match zRight with
    | Some z => taken_default db [] (sqlcipher_set_default_pagesize g (atoi z))
    | None => rows ← int_row (str "cipher_default_page_size") (sqlcipher_get_default_pagesize g); taken rows
    end
  else if named (str "cipher_default_use_hmac") then
    match zRight with
    | Some z => taken_default db [] (sqlcipher_set_default_use_hmac g (sqlite3GetBoolean z 1))
    | None => rows ← int_row (str "cipher_default_use_hmac") (sqlcipher_get_default_use_hmac g); taken rows
    end
  else if named (str "cipher_use_hmac") then if_ctx (fun b ctx => pragma_use_hmac g db i b ctx zRight)
  else if named (str "cipher_hmac_pgno") then if_ctx (fun b ctx => pragma_hmac_pgno g db i b ctx zRight)
  else if named (str "cipher_hmac_salt_mask") then if_ctx (fun _ _ => pragma_hmac_salt_mask g db zRight)
  else if named (str "cipher_plaintext_header_size") then
    if_ctx (fun b ctx => pragma_plaintext_header_size g db i b ctx zRight)
  else if named (str "cipher_default_plaintext_header_size") then pragma_default_plaintext_header_size g db zRight
  else if named (str "cipher_salt") then if_ctx (fun b ctx => pragma_salt g db i b ctx zRight)
  else if named (str "cipher_hmac_algorithm") then if_ctx (fun b ctx => pragma_hmac_algorithm g db i b ctx zRight)
  else if named (str "cipher_default_hmac_algorithm") then pragma_default_hmac_algorithm g db zRight
  else if named (str "cipher_kdf_algorithm") then if_ctx (fun b ctx => pragma_kdf_algorithm g db i b ctx zRight)
  else if named (str "cipher_default_kdf_algorithm") then pragma_default_kdf_algorithm g db zRight
  else if named (str "cipher_compatibility") then if_ctx (fun b ctx => pragma_compatibility g db i b ctx zRight)
  else if named (str "cipher_default_compatibility") then pragma_default_compatibility g db zRight
  else if named (str "cipher_memory_security") then
    match zRight with
    | Some z => taken_default db [] (sqlcipher_set_mem_security g (sqlite3GetBoolean z 1))
    | None => rows ← int_row (str "cipher_memory_security") (sqlcipher_get_mem_security g); taken rows
    end
  else if named (str "cipher_settings") then if_ctx (fun _ ctx => pragma_settings g db ctx)
  else if named (str "cipher_default_settings") then pragma_default_settings g db
  else if named (str "cipher_integrity_check") then
    if_ctx (fun b ctx =>
      '(rows, ctx, r) ← sqlcipher_codec_ctx_integrity_check g ctx (pg_env (pPager b)) (pg_rng (pPager b));
      taken_bt (Check <$> rows) (put_pager b (put_codec_state (pPager b) (with_rng (codec_state_of (pPager b) ctx) r))))
  else mret (0, [], g, db).

Definition sqlcipher_codec_pragma (g : globals) (db : sqlite3 rest) (i : nat) (zLeft : list Z) (zRight : option (list Z))
  : M pragma_result :=
  '(rows, db) ← pragma_first db i zLeft zRight;
  '(rc, rows', g, db) ← pragma_rest g db i zLeft zRight;
  mret (rc, rows ++ rows', g, db).
End pragma.
Arguments PragmaEnv {OS} rest.
