(* ===== verification/PragmaProofs.v ===== *)
(** * The codec's PRAGMAs: proofs

    Numbers survive printing and reading, the settings a context shows bring
    another context to the same settings, with one exception, and salts survive
    being shown and set. *)

From stdpp Require Import base tactics list numbers option.
From Stdlib Require Import ZArith Lia ZifyBool.
From Stdlib Require String.
Import String.StringSyntax.
From S2P Require Import Prelude MtArrList Sha256 MtCrypto MerkleTree MtSerialize.
From S2P Require Import MerkleTheorems CipherUtil Openssl CodecCtx PageCodec PageProofs CodecProofs HookProofs.
From S2P Require Import Integrity Attach AttachProofs Pragma.

Local Open Scope Z_scope.

(** ** Numbers *)

Lemma isdigit_dec d : 0 <= d < 10 -> sqlite3Isdigit (48 + d) = true.
Proof. unfold sqlite3Isdigit. lia. Qed.

Lemma digits_dec fuel n :
  0 <= n < 10 ^ Z.of_nat (S fuel) -> exists k, forall acc v, digits (dec (S fuel) n acc) v = digits acc (v * k + n).
Proof.
  revert n. induction fuel as [|fuel IH]; intros n Hn.
  { exists 10. intros acc v. cbn [dec]. replace (n <? 10) with true by lia. cbn [digits].
    rewrite isdigit_dec by lia. f_equal. lia. }
  cbn [dec]. destruct (n <? 10) eqn:E.
  { exists 10. intros acc v. cbn [digits]. rewrite isdigit_dec by lia. f_equal. lia. }
  assert (Hpow : 10 ^ Z.of_nat (S (S fuel)) = 10 ^ Z.of_nat (S fuel) * 10)
    by (rewrite (Nat2Z.inj_succ (S fuel)), Z.pow_succ_r by lia; lia).
  destruct (IH (n / 10)) as (k & Hk); [split; [apply Z.div_pos; lia|apply Z.div_lt_upper_bound; lia]|].
  exists (k * 10). intros acc v. cbn [dec] in Hk. rewrite Hk. cbn [digits].
  pose proof (Z.mod_pos_bound n 10 ltac:(lia)). rewrite isdigit_dec by lia. f_equal.
  pose proof (Z.div_mod n 10 ltac:(lia)). lia.
Qed.

(** The digits of a number start with a digit. *)
Lemma dec_head fuel n acc : 0 <= n -> exists d z, dec (S fuel) n acc = (48 + d) :: z /\ 0 <= d < 10.
Proof.
  revert n acc. induction fuel as [|fuel IH]; intros n acc Hn; cbn [dec].
  - destruct (n <? 10) eqn:E; [exists n, acc; split; [done|lia]|]. cbn. eexists _, _. split; [done|]. apply Z.mod_pos_bound. lia.
  - destruct (n <? 10) eqn:E; [exists n, acc; split; [done|lia]|]. apply (IH (n / 10)). apply Z.div_pos; lia.
Qed.

(** A printed number is read back. *)
Lemma atoi_print n : - 2 ^ 31 <= n < 2 ^ 31 -> atoi (print_int n) = n.
Proof.
  intros Hn. unfold print_int.
  assert (Hval : forall m, 0 <= m <= 2 ^ 31 -> digits (dec 20 m []) 0 = m).
  { intros m Hm. destruct (digits_dec 19 m) as (k & Hk); [cbn; lia|]. by rewrite Hk. }
  destruct (n <? 0) eqn:E.
  - unfold atoi. cbn [skip_spaces]. change (is_space 45) with false. cbv iota beta.
    rewrite Hval, i32_small by lia. lia.
  - pose proof (Hval n ltac:(lia)) as Hv. destruct (dec_head 19 n [] ltac:(lia)) as (d & z & Hd & Hr).
    unfold atoi. rewrite Hd in *. cbn [skip_spaces]. replace (is_space (48 + d)) with false by (unfold is_space; lia).
    assert (Hm : match 48 + d :: z with 45 :: z => (true, z) | 43 :: z => (false, z) | _ => (false, 48 + d :: z) end
      = (false, 48 + d :: z)).
    { assert (d = 0 \/ d = 1 \/ d = 2 \/ d = 3 \/ d = 4 \/ d = 5 \/ d = 6 \/ d = 7 \/ d = 8 \/ d = 9) as Hc by lia.
      by repeat destruct Hc as [->|Hc]; subst. }
    rewrite Hm. cbv iota zeta. rewrite Hv, i32_small by lia. lia.
Qed.

Lemma boolean_print (b : bool) : sqlite3GetBoolean (print_int (if b then 1 else 0)) 1 = if b then 1 else 0.
Proof. by destruct b. Qed.

(** The name of a known algorithm stands for it. *)
Lemma algorithm_of_label labels a s :
  labels = hmac_labels \/ labels = kdf_labels -> label_of labels a = Some s -> algorithm_of labels s = Some a.
Proof.
  intros Hl. assert (H : a = 0 \/ a = 1 \/ a = 2 \/ label_of labels a = None).
  { destruct (Z.eq_dec a 0); [tauto|]. destruct (Z.eq_dec a 1); [tauto|]. destruct (Z.eq_dec a 2); [tauto|].
    right. right. right. unfold label_of. destruct Hl as [->| ->]; cbn; by repeat (rewrite (proj2 (Z.eqb_neq a _)) by done). }
  destruct H as [->|[->|[->|H]]]; [| | |by rewrite H]; destruct Hl as [->| ->]; intros [= <-]; reflexivity.
Qed.

(** ** Running a command *)

(** Decide the comparisons of two literals, and follow the conditions. *)
Ltac names :=
  repeat match goal with
  | |- context [sqlite3StrICmp ?a ?b =? 0] =>
      let v := eval vm_compute in (sqlite3StrICmp a b =? 0) in
      change (sqlite3StrICmp a b =? 0) with v
  end; cbv beta iota zeta delta [andb negb bool_decide is_Some_dec].

Section run.
Context {OS : OpenSSL} {L : OpenSSLLaws OS} {NH : NodeHash} {rest : Type} {PO : PagerOps rest} {PE : PragmaEnv rest}.

(** Database [i] has the B-tree [b] with the codec context [ctx]. *)
Definition has_codec (db : sqlite3 rest) (i : nat) (b : BtShared rest) (ctx : codec_ctx) : Prop :=
  exists d, aDb db !! i = Some d /\ pBt d = Some b /\ pCodec (pPager b) = Some ctx.

Lemma attached_eq db i b ctx w : has_codec db i b ctx -> attached db i w = Done (Some (b, ctx), w).
Proof.
  intros (d & Hd & Hb & Hc). unfold attached, get_db. rewrite Hd, bind_ret, Hb. unfold sqlite3PagerGetCodec.
  cbn. by rewrite Hc.
Qed.

Lemma put_bt_has db i b ctx b' ctx' size :
  has_codec db i b ctx -> pCodec (pPager b') = Some ctx' ->
  has_codec (put_bt (Mk_sqlite3 (aDb db) size) i b') i b' ctx'.
Proof.
  intros (d & Hd & _) Hc. exists (Mk_db (zDbSName d) (Some b')). split; [|done]. cbn [aDb put_bt].
  by rewrite list_lookup_alter_eq, Hd.
Qed.

(** The command [name] with the argument [z] brings the context to [ctx'],
    returning nothing. *)
Definition sets (g : globals) (name z : list Z) (f : codec_ctx -> codec_ctx -> Prop) : Prop :=
  forall db i b ctx w, has_codec db i b ctx -> all_ok w ->
  exists db' b' ctx' w', sqlcipher_codec_pragma g db i name (Some z) w = Done ((1, [], g, db'), w') /\
    all_ok w' /\ has_codec db' i b' ctx' /\ f ctx ctx'.

(** Run the command of the goal up to the part that is its own. *)
Ltac run_command Hh :=
  unfold sqlcipher_codec_pragma, pragma_first, pragma_rest;
  rewrite !bind_assoc, (bind_done _ _ _ _ _ (attached_eq _ _ _ _ _ Hh)); names;
  rewrite bind_ret, bind_assoc, (bind_done _ _ _ _ _ (attached_eq _ _ _ _ _ Hh)); names.

Lemma check_rc_codec rc e (b : BtShared rest) : pCodec (pPager (check_rc rc e b)) = pCodec (pPager b).
Proof. unfold check_rc. by destruct (rc =? SQLITE_OK). Qed.

Lemma resize_ok g {PL : PagerLaws g} db i b ctx b1 ctx1 e w :
  has_codec db i b ctx -> pCodec (pPager b1) = Some ctx1 -> all_ok w ->
  exists db' b' w', resize g db i ctx1 b1 e w = Done ((1, [], g, db'), w') /\ all_ok w' /\ has_codec db' i b' ctx1.
Proof.
  intros Hh Hc Hw. unfold resize. destruct (btree_pagesize_ok g db b1 ctx1 w Hw) as (rc & b2 & w' & E & Hw' & _ & _ & Hc2).
  rewrite (bind_done _ _ _ _ _ E). eexists _, _, w'. split; [reflexivity|]. split; [done|].
  eapply put_bt_has; [exact Hh|]. by rewrite check_rc_codec, Hc2.
Qed.

Lemma sets_kdf_iter g z :
  sets g (str "kdf_iter") z (fun ctx ctx' => ctx' = (sqlcipher_codec_ctx_set_kdf_iter ctx (atoi z)).2).
Proof.
  intros db i b ctx w Hh Hw. run_command Hh.
  eexists _, _, _, w. split; [reflexivity|]. split; [done|]. split; [|reflexivity].
  destruct db. by apply (put_bt_has _ _ _ _ _ _ _ Hh).
Qed.

(** With [valid_page_size], the size is taken. *)
Definition valid_page_size (size : Z) : Prop := 512 <= size <= 65536 /\ Z.land size (size - 1) = 0.

Lemma sets_page_size g {PL : PagerLaws g} z :
  valid_page_size (atoi z) ->
  sets g (str "cipher_page_size") z (fun ctx ctx' => ctx' = set_buffer (set_page_sz ctx (atoi z)) (buffer ctx') ).
Proof.
  intros [Hr Hp] db i b ctx w Hh Hw. run_command Hh. unfold pragma_page_size, sqlcipher_codec_ctx_set_pagesize.
  replace (negb (negb (atoi z =? 0) && (Z.land (atoi z) (atoi z - 1) =? 0)) || (atoi z <? 512) || (65536 <? atoi z))
    with false by lia.
  rewrite !bind_assoc. alloc_step. rewrite bind_ret. set (ctx' := set_buffer _ _).
  set (b1 := check_rc _ _ _). assert (Hc : pCodec (pPager b1) = Some ctx') by (unfold b1; by rewrite check_rc_codec).
  destruct (resize_ok g db i b ctx b1 ctx' id _ Hh Hc ltac:(eassumption)) as (db' & b' & w' & E & Hw' & Hh').
  rewrite (bind_done _ _ _ _ _ E). by exists db', b', ctx', w'.
Qed.

Lemma sets_use_hmac g {PL : PagerLaws g} z :
  sets g (str "cipher_use_hmac") z (fun ctx ctx' => ctx' = (sqlcipher_codec_ctx_set_use_hmac ctx (sqlite3GetBoolean z 1)).2).
Proof.
  intros db i b ctx w Hh Hw. run_command Hh. unfold pragma_use_hmac.
  destruct (sqlcipher_codec_ctx_set_use_hmac ctx (sqlite3GetBoolean z 1)) as [rc ctx']. cbn [snd].
  set (b1 := check_rc _ _ _). assert (Hc : pCodec (pPager b1) = Some ctx') by (unfold b1; by rewrite check_rc_codec).
  destruct (resize_ok g db i b ctx b1 ctx' id w Hh Hc Hw) as (db' & b' & w' & E & Hw' & Hh').
  rewrite (bind_done _ _ _ _ _ E). by exists db', b', ctx', w'.
Qed.

Lemma sets_header_size g z :
  sets g (str "cipher_plaintext_header_size") z
    (fun ctx ctx' => ctx' = (sqlcipher_codec_ctx_set_plaintext_header_size ctx (atoi z)).2).
Proof.
  intros db i b ctx w Hh Hw. run_command Hh. unfold pragma_plaintext_header_size.
  destruct (sqlcipher_codec_ctx_set_plaintext_header_size ctx (atoi z)) as [rc ctx']. cbn [snd].
  eexists _, _, _, w. split; [reflexivity|]. split; [done|]. split; [|reflexivity].
  destruct db. apply (put_bt_has _ _ _ _ _ _ _ Hh). by rewrite check_rc_codec.
Qed.

Lemma sets_hmac_algorithm g {PL : PagerLaws g} z a :
  algorithm_of hmac_labels z = Some a ->
  sets g (str "cipher_hmac_algorithm") z (fun ctx ctx' => ctx' = (sqlcipher_codec_ctx_set_hmac_algorithm ctx a).2).
Proof.
  intros Ha db i b ctx w Hh Hw. run_command Hh. unfold pragma_hmac_algorithm. rewrite Ha.
  destruct (sqlcipher_codec_ctx_set_hmac_algorithm ctx a) as [rc ctx']. cbn [snd].
  set (b1 := check_rc _ _ _). assert (Hc : pCodec (pPager b1) = Some ctx') by (unfold b1; by rewrite check_rc_codec).
  destruct (resize_ok g db i b ctx b1 ctx' (fun _ => SQLITE_ERROR) w Hh Hc Hw) as (db' & b' & w' & E & Hw' & Hh').
  rewrite (bind_done _ _ _ _ _ E). by exists db', b', ctx', w'.
Qed.

Lemma sets_kdf_algorithm g z a :
  algorithm_of kdf_labels z = Some a ->
  sets g (str "cipher_kdf_algorithm") z (fun ctx ctx' => ctx' = set_kdf_algorithm ctx a).
Proof.
  intros Ha db i b ctx w Hh Hw. run_command Hh. unfold pragma_kdf_algorithm. rewrite Ha.
  eexists _, _, _, w. split; [reflexivity|]. split; [done|]. split; [|reflexivity].
  destruct db. by apply (put_bt_has _ _ _ _ _ _ _ Hh).
Qed.

(** ** Showing settings and setting them *)

(** Names and values of the settings that [PRAGMA cipher_settings] shows. *)
Definition settings_of (ctx : codec_ctx) : list (list Z * list Z) :=
  [(str "kdf_iter", print_int (kdf_iter ctx));
   (str "cipher_page_size", print_int (page_sz ctx));
   (str "cipher_use_hmac", print_int (if sqlcipher_codec_ctx_get_use_hmac ctx then 1 else 0));
   (str "cipher_plaintext_header_size", print_int (plaintext_header_sz ctx));
   (str "cipher_hmac_algorithm", default [] (label_of hmac_labels (hmac_algorithm ctx)));
   (str "cipher_kdf_algorithm", default [] (label_of kdf_labels (kdf_algorithm ctx)))].

(** The rows that show them. *)
Definition shown (l : list (list Z * list Z)) : list row :=
  (fun p => Row (str "pragma") (Text (setting_text p.1 p.2))) <$> l.

(** The commands of the list, one after the other. *)
Fixpoint run_settings (g : globals) (db : sqlite3 rest) (i : nat) (l : list (list Z * list Z))
  : M (list row * globals * sqlite3 rest) :=
  match l with
  | [] => mret ([], g, db)
  | (name, z) :: l =>
      '(_, rows, g, db) ← sqlcipher_codec_pragma g db i name (Some z);
      '(rows', g, db) ← run_settings g db i l;
      mret (rows ++ rows', g, db)
  end.

Lemma run_cons g name z f db i b ctx w :
  sets g name z f -> has_codec db i b ctx -> all_ok w ->
  exists db' b' ctx' w', f ctx ctx' /\ has_codec db' i b' ctx' /\ all_ok w' /\
    forall l, run_settings g db i ((name, z) :: l) w = run_settings g db' i l w'.
Proof.
  intros Hs Hh Hw. destruct (Hs db i b ctx w Hh Hw) as (db' & b' & ctx' & w' & E & Hw' & Hh' & Hf).
  exists db', b', ctx', w'. split_and!; [done..|]. intros l. cbn [run_settings]. rewrite (bind_done _ _ _ _ _ E).
  cbv beta iota. unfold mbind, M_bind. by destruct (run_settings g db' i l w') as [[[[rows g'] db''] w'']|].
Qed.

(** The cipher's sizes, and algorithms the code knows. *)
Record known (ctx : codec_ctx) : Prop := {
  kn_prov : provider ctx = sqlcipher_openssl_setup;
  kn_iv : iv_sz ctx = 16;
  kn_block : block_sz ctx = 16;
  kn_hmac : 0 <= hmac_algorithm ctx <= 2;
  kn_kdf : 0 <= kdf_algorithm ctx <= 2;
}.

Lemma label_known ctx :
  known ctx -> exists s1 s2, label_of hmac_labels (hmac_algorithm ctx) = Some s1 /\
    label_of kdf_labels (kdf_algorithm ctx) = Some s2.
Proof.
  intros [_ _ _ Hh Hk]. assert (Ha : forall labels a, labels = hmac_labels \/ labels = kdf_labels -> 0 <= a <= 2 ->
    exists s, label_of labels a = Some s).
  { intros labels a Hl H. assert (a = 0 \/ a = 1 \/ a = 2) as [->|[->| ->]] by lia; destruct Hl as [->| ->]; by eexists. }
  destruct (Ha hmac_labels _ (or_introl eq_refl) Hh) as [s1 H1].
  destruct (Ha kdf_labels _ (or_intror eq_refl) Hk) as [s2 H2]. by exists s1, s2.
Qed.

Lemma settings_shown g db i b ctx w :
  has_codec db i b ctx -> known ctx -> all_ok w ->
  exists w', sqlcipher_codec_pragma g db i (str "cipher_settings") None w
    = Done ((1, shown (settings_of ctx), g, db), w') /\ all_ok w'.
Proof.
  intros Hh Hk Hw. run_command Hh. destruct (label_known ctx Hk) as (s1 & s2 & H1 & H2).
  unfold pragma_settings, sqlcipher_codec_ctx_get_hmac_algorithm, sqlcipher_codec_ctx_get_kdf_algorithm. rewrite H1, H2.
  unfold setting_label_row, setting_row, sqlite3_mprintf, taken, settings_of. rewrite H1, H2.
  do 6 (rewrite !bind_assoc; alloc_step; rewrite !bind_ret).
  eexists. split; [reflexivity|done].
Qed.

(** Size of the HMAC, and of the reserve with and without it. *)
Definition hmac_size (alg : Z) : Z := if alg =? 0 then 20 else if alg =? 1 then 32 else 64.
Definition reserve_size (alg : Z) (use : bool) : Z := if use then if alg =? 2 then 96 else 64 else 32.

Lemma reserve_known ctx :
  known ctx -> (sqlcipher_codec_ctx_reserve_setup ctx).2
    = set_reserve_sz (set_hmac_sz ctx (hmac_size (hmac_algorithm ctx)))
        (reserve_size (hmac_algorithm ctx) (sqlcipher_codec_ctx_get_use_hmac ctx)).
Proof.
  intros [Hp Hi Hb Ha _]. unfold sqlcipher_codec_ctx_reserve_setup. cbv zeta. rewrite Hp, Hi.
  cbn [p_get_hmac_sz sqlcipher_openssl_setup]. rewrite hmac_size_values by done. fold (hmac_size (hmac_algorithm ctx)).
  set (c := set_hmac_sz _ _). change (block_sz c) with (block_sz ctx). rewrite Hb.
  change (sqlcipher_codec_ctx_get_use_hmac c) with (sqlcipher_codec_ctx_get_use_hmac ctx).
  change (hmac_sz c) with (hmac_size (hmac_algorithm ctx)). cbn [snd]. f_equal.
  assert (hmac_algorithm ctx = 0 \/ hmac_algorithm ctx = 1 \/ hmac_algorithm ctx = 2) as [->|[->| ->]] by lia;
    by destruct (sqlcipher_codec_ctx_get_use_hmac ctx).
Qed.

(** Switching HMAC on and off. *)
Lemma use_hmac_set ctx (u : bool) :
  known ctx ->
  exists f, (sqlcipher_codec_ctx_set_use_hmac ctx (if u then 1 else 0)).2
    = set_reserve_sz (set_hmac_sz (set_flags ctx f) (hmac_size (hmac_algorithm ctx))) (reserve_size (hmac_algorithm ctx) u) /\
  negb (Z.land f CIPHER_FLAG_HMAC =? 0) = u.
Proof.
  intros Hk. unfold sqlcipher_codec_ctx_set_use_hmac.
  assert (Hf : exists f, (if negb ((if u then 1 else 0) =? 0) then sqlcipher_codec_ctx_set_flag ctx CIPHER_FLAG_HMAC
      else sqlcipher_codec_ctx_unset_flag ctx CIPHER_FLAG_HMAC) = (SQLITE_OK, set_flags ctx f) /\
      negb (Z.land f CIPHER_FLAG_HMAC =? 0) = u).
  { destruct u; cbn [Z.eqb negb]; eexists; (split; [reflexivity|]).
    - rewrite Z.land_lor_distr_l, Z.lor_comm. apply negb_true_iff, Z.eqb_neq. intros H.
      apply Z.lor_eq_0_iff in H as [H _]. by vm_compute in H.
    - rewrite <- Z.land_assoc. change (Z.land (u32 (Z.lnot CIPHER_FLAG_HMAC)) CIPHER_FLAG_HMAC) with 0. by rewrite Z.land_0_r. }
  destruct Hf as (f & -> & Hu). exists f. split; [|done]. rewrite reserve_known by (destruct Hk; by split).
  unfold sqlcipher_codec_ctx_get_use_hmac. change (flags (set_flags ctx f)) with f. by rewrite Hu.
Qed.

(** The settings that decide how pages are read. *)
Definition same_settings (c c' : codec_ctx) : Prop :=
  kdf_iter c' = kdf_iter c /\ page_sz c' = page_sz c /\
  sqlcipher_codec_ctx_get_use_hmac c' = sqlcipher_codec_ctx_get_use_hmac c /\
  plaintext_header_sz c' = plaintext_header_sz c /\ hmac_algorithm c' = hmac_algorithm c /\
  kdf_algorithm c' = kdf_algorithm c /\ hmac_sz c' = hmac_size (hmac_algorithm c) /\
  reserve_sz c' = reserve_size (hmac_algorithm c) (sqlcipher_codec_ctx_get_use_hmac c).

(** C31. Settings can be carried over: the rows of [PRAGMA cipher_settings] name six
    settings and their values, and giving these commands, in this order, to the
    codec of another database brings it to the same settings, sizes of HMAC and
    reserve included, provided the plaintext header leaves room for the largest
    reserve. *)
Theorem settings_roundtrip g {PL : PagerLaws g} ctx db1 i1 b1 db2 i2 b2 ctx2 w :
  has_codec db1 i1 b1 ctx -> has_codec db2 i2 b2 ctx2 -> known ctx -> known ctx2 ->
  - 2 ^ 31 <= kdf_iter ctx < 2 ^ 31 -> valid_page_size (page_sz ctx) ->
  0 <= plaintext_header_sz ctx -> Z.rem (plaintext_header_sz ctx) 16 = 0 ->
  plaintext_header_sz ctx < page_sz ctx - 96 -> all_ok w ->
  exists w1 db' b' ctx' w2,
    sqlcipher_codec_pragma g db1 i1 (str "cipher_settings") None w
      = Done ((1, shown (settings_of ctx), g, db1), w1) /\
    run_settings g db2 i2 (settings_of ctx) w1 = Done (([], g, db'), w2) /\
    has_codec db' i2 b' ctx' /\ same_settings ctx ctx'.
Proof.
  intros Hh1 Hh2 Hk Hk2 Hit Hps Hh0 Hhr Hhl Hw.
  destruct (settings_shown g db1 i1 b1 ctx w Hh1 Hk Hw) as (w1 & E & Hw1). exists w1.
  destruct (label_known ctx Hk) as (s1 & s2 & Hs1 & Hs2).
  assert (Hat : atoi (print_int (page_sz ctx)) = page_sz ctx) by (apply atoi_print; destruct Hps; lia).
  unfold settings_of. rewrite Hs1, Hs2. cbn [default].
  set (u := sqlcipher_codec_ctx_get_use_hmac ctx).
  destruct (run_cons g _ _ _ db2 i2 b2 ctx2 w1 (sets_kdf_iter g (print_int (kdf_iter ctx))) Hh2 Hw1)
    as (d1 & bt1 & c1 & v1 & Hc1 & Hd1 & Hv1 & R1).
  destruct (run_cons g _ _ _ d1 i2 bt1 c1 v1 (sets_page_size g (print_int (page_sz ctx)) ltac:(by rewrite Hat)) Hd1 Hv1)
    as (d2 & bt2 & c2 & v2 & Hc2 & Hd2 & Hv2 & R2).
  destruct (run_cons g _ _ _ d2 i2 bt2 c2 v2 (sets_use_hmac g (print_int (if u then 1 else 0))) Hd2 Hv2)
    as (d3 & bt3 & c3 & v3 & Hc3 & Hd3 & Hv3 & R3).
  destruct (run_cons g _ _ _ d3 i2 bt3 c3 v3 (sets_header_size g (print_int (plaintext_header_sz ctx))) Hd3 Hv3)
    as (d4 & bt4 & c4 & v4 & Hc4 & Hd4 & Hv4 & R4).
  destruct (run_cons g _ _ _ d4 i2 bt4 c4 v4
    (sets_hmac_algorithm g s1 _ (algorithm_of_label _ _ _ (or_introl eq_refl) Hs1)) Hd4 Hv4)
    as (d5 & bt5 & c5 & v5 & Hc5 & Hd5 & Hv5 & R5).
  destruct (run_cons g _ _ _ d5 i2 bt5 c5 v5
    (sets_kdf_algorithm g s2 _ (algorithm_of_label _ _ _ (or_intror eq_refl) Hs2)) Hd5 Hv5)
    as (d6 & bt6 & c6 & v6 & Hc6 & Hd6 & Hv6 & R6).
  exists d6, bt6, c6, v6. split; [unfold settings_of in E; rewrite Hs1, Hs2 in E; exact E|]. split; [by rewrite R1, R2, R3, R4, R5, R6|]. split; [done|]. cbv beta in *.
  rewrite Hat in Hc2. rewrite boolean_print in Hc3. rewrite atoi_print in Hc1, Hc4 by (destruct Hps; lia).
  assert (Hk2' : known c2) by (rewrite Hc2, Hc1; destruct Hk2; by split).
  destruct (use_hmac_set c2 u Hk2') as (f & Hf & Hu). rewrite Hf in Hc3.
  assert (Hc4' : c4 = set_plaintext_header_sz c3 (plaintext_header_sz ctx)).
  { rewrite Hc4. unfold sqlcipher_codec_ctx_set_plaintext_header_size.
    replace (block_sz c3) with 16 by (rewrite Hc3; symmetry; apply Hk2'). rewrite Hhr.
    replace (page_sz c3) with (page_sz ctx) by (by rewrite Hc3, Hc2).
    assert (Hres : reserve_sz c3 <= 96).
    { rewrite Hc3. cbn. unfold reserve_size. destruct u; [|lia]. by destruct (_ =? 2). }
    replace (_ && _ && _) with true by lia. done. }
  unfold sqlcipher_codec_ctx_set_hmac_algorithm in Hc5. rewrite reserve_known in Hc5
    by (rewrite Hc4', Hc3; destruct Hk2', Hk; by split).
  rewrite Hc6, Hc5, Hc4', Hc3. unfold same_settings, sqlcipher_codec_ctx_get_use_hmac.
  cbn [kdf_iter page_sz flags plaintext_header_sz hmac_algorithm kdf_algorithm hmac_sz reserve_sz set_kdf_algorithm
    set_reserve_sz set_hmac_sz set_hmac_algorithm set_plaintext_header_sz set_flags]. rewrite Hu, Hc2, Hc1. by split_and!.
Qed.

(** ** Salts *)

(** A salt that is shown can be set: the text shown, between [x'] and ['], gives
    another context the same salt. *)
Lemma salt_roundtrip g db1 i1 b1 ctx db2 i2 b2 ctx2 w :
  has_codec db1 i1 b1 ctx -> has_codec db2 i2 b2 ctx2 -> need_kdf_salt ctx = 0 -> kdf_salt_sz ctx2 = 16 ->
  length (kdf_salt ctx) = 16%nat -> bytes (kdf_salt ctx) -> all_ok w ->
  exists t db1' w1 db' b' w2,
    sqlcipher_codec_pragma g db1 i1 (str "cipher_salt") None w = Done ((1, [Row (str "cipher_salt") (Text t)], g, db1'), w1) /\
    sqlcipher_codec_pragma g db2 i2 (str "cipher_salt") (Some (str "x'" ++ t ++ [39])) w1 = Done ((1, [], g, db'), w2) /\
    has_codec db' i2 b' (set_need_kdf_salt (set_kdf_salt ctx2 (kdf_salt ctx)) 0).
Proof.
  intros Hh1 Hh2 Hn Hsz Hl Hb Hw. exists (hex_of (kdf_salt ctx)).
  assert (Hlh : length (hex_of (kdf_salt ctx)) = 32%nat) by (rewrite length_hex_of, Hl; done).
  assert (Hget : exists db1' w1, sqlcipher_codec_pragma g db1 i1 (str "cipher_salt") None w
    = Done ((1, [Row (str "cipher_salt") (Text (hex_of (kdf_salt ctx)))], g, db1'), w1) /\ all_ok w1).
  { run_command Hh1. unfold pragma_salt. rewrite bind_assoc. alloc_step.
    unfold sqlcipher_codec_ctx_get_kdf_salt. rewrite Hn. change (0 =? 0) with true. cbv iota beta zeta.
    change (SQLITE_OK =? SQLITE_OK) with true. cbn [negb]. cbv iota.
    rewrite !bind_assoc, (bind_done _ _ _ _ _ (read_whole (kdf_salt ctx) FILE_HEADER_SZ _ ltac:(by rewrite Hl))).
    rewrite bind_assoc. pose proof (bin2hex_spec (kdf_salt ctx) [] (replicate 33 0) []) as Hhex.
    change (Z.to_nat (FILE_HEADER_SZ * 2 + 1)) with 33%nat.
    erewrite bind_done; [|rewrite <- (app_nil_r (replicate 33 0)); apply (Hhex 0); [done|by rewrite length_replicate, Hl|by destruct (kdf_salt ctx)]].
    eexists _, _. split; [|eassumption]. cbn [app]. rewrite app_nil_r.
    rewrite (take_app_length' (hex_of (kdf_salt ctx))) by (by rewrite Hlh). reflexivity. }
  destruct Hget as (db1' & w1 & Hg & Hw1). exists db1', w1.
  assert (Hlz : length (str "x'" ++ hex_of (kdf_salt ctx) ++ [39]) = 35%nat) by (rewrite !length_app, Hlh; done).
  assert (Hdz : drop 2 (str "x'" ++ hex_of (kdf_salt ctx) ++ [39]) = hex_of (kdf_salt ctx) ++ [39]) by done.
  assert (Hxz : sqlite3_strnicmp (str "x'" ++ hex_of (kdf_salt ctx) ++ [39]) (str "x'") 2 = 0) by done.
  set (z := str "x'" ++ hex_of (kdf_salt ctx) ++ [39]) in *. clearbody z.
  assert (Hset : exists db' b' w2, sqlcipher_codec_pragma g db2 i2 (str "cipher_salt") (Some z) w1 = Done ((1, [], g, db'), w2) /\
    has_codec db' i2 b' (set_need_kdf_salt (set_kdf_salt ctx2 (kdf_salt ctx)) 0)).
  { run_command Hh2. unfold pragma_salt. rewrite Hxz, Hlz, Hdz.
    change ((0 =? 0) && (Z.of_nat 35 =? FILE_HEADER_SZ * 2 + 3)) with true. cbv iota. rewrite bind_assoc. alloc_step. cbn [negb].
    rewrite (take_app_length' (hex_of (kdf_salt ctx))) by (by rewrite Hlh). rewrite hex2bin_hex_of by done.
    unfold sqlcipher_codec_ctx_set_kdf_salt. rewrite Hsz. change (16 <=? FILE_HEADER_SZ) with true. cbv iota.
    rewrite !bind_assoc, (bind_done _ _ _ _ _ (read_whole (kdf_salt ctx) 16 _ ltac:(by rewrite Hl))), bind_ret.
    eexists _, _, _. split; [reflexivity|]. destruct db2. by apply (put_bt_has _ _ _ _ _ _ _ Hh2). }
  destruct Hset as (db' & b' & w2 & Hs & Hh). exists db', b', w2. split_and!; assumption.
Qed.

(** ** Two slips *)

(** [PRAGMA cipher_store_pass] takes effect but is reported as not taken. *)
Lemma store_pass_not_taken g db i b ctx z w :
  has_codec db i b ctx ->
  exists db' b', sqlcipher_codec_pragma g db i (str "cipher_store_pass") (Some z) w = Done ((0, [], g, db'), w) /\
    has_codec db' i b' (set_store_pass ctx (sqlite3GetBoolean z 1)).
Proof.
  intros Hh. unfold sqlcipher_codec_pragma, pragma_first.
  rewrite !bind_assoc, (bind_done _ _ _ _ _ (attached_eq _ _ _ _ _ Hh)). names. rewrite bind_ret.
  set (b' := with_codec _ _). set (db' := put_bt db i b').
  assert (Hh' : has_codec db' i b' (set_store_pass ctx (sqlite3GetBoolean z 1)))
    by (unfold db'; destruct db; by apply (put_bt_has _ _ _ _ _ _ _ Hh)).
  unfold pragma_rest. rewrite bind_assoc, (bind_done _ _ _ _ _ (attached_eq _ _ _ _ _ Hh')). names. by exists db', b'.
Qed.

(** The row of [PRAGMA cipher_default_plaintext_header_size] refers to freed memory. *)
Lemma default_header_row_freed g db i b ctx w :
  has_codec db i b ctx -> all_ok w ->
  exists w', sqlcipher_codec_pragma g db i (str "cipher_default_plaintext_header_size") None w
    = Done ((1, [Row (str "cipher_default_plaintext_header_size") Freed], g, db), w').
Proof.
  intros Hh Hw. run_command Hh. unfold pragma_default_plaintext_header_size, sqlite3_mprintf.
  rewrite !bind_assoc. alloc_step. by eexists.
Qed.
End run.
