(* ===== verification/PragmaTypes.v ===== *)
(** * Well-formed contexts

    The invariant of the codec context between calls: the sizes agree with the
    algorithms and with the blocks that are allocated.  Every PRAGMA, with any
    argument, keeps it and does not fault, and so does the derivation of keys.
    What the invariant does not contain is that the plaintext header still fits
    into a page: a smaller page size does not look at it. *)

From stdpp Require Import base tactics list numbers option.
From Stdlib Require Import ZArith Lia ZifyBool.
From Stdlib Require String.
Import String.StringSyntax.
From S2P Require Import Prelude MtArrList Sha256 MtCrypto MerkleTree MtSerialize.
From S2P Require Import MerkleTheorems CipherUtil Openssl CodecCtx PageCodec PageProofs CodecProofs HookProofs.
From S2P Require Import Integrity Attach AttachProofs Pragma PragmaProofs.

Local Open Scope Z_scope.

Lemma runs_malloc n : 0 < n -> runs (sqlcipher_malloc n) (fun b => b = Some (replicate (Z.to_nat n) 0)).
Proof. intros Hn w Hw. destruct (malloc_ok n w Hn Hw) as (w' & E & Hw'). by exists (Some (replicate (Z.to_nat n) 0)), w'. Qed.

Section types.
Context {OS : OpenSSL} {L : OpenSSLLaws OS} {NH : NodeHash} {rest : Type} {PO : PagerOps rest} {PE : PragmaEnv rest}.

(** Key material: keys of 32 bytes, a passphrase as long as it says, a key
    specification of 99 characters. *)
Definition cipher_wf (c : cipher_ctx) : Prop :=
  length (key c) = 32%nat /\ length (hmac_key c) = 32%nat /\
  match pass c with Some p => Z.of_nat (length p) = pass_sz c /\ pass_sz c <> 0 | None => pass_sz c = 0 end /\
  match keyspec c with Some s => length s = 99%nat | None => True end.

Record ctx_wf (ctx : codec_ctx) : Prop := {
  wf_known : known ctx;
  wf_key : key_sz ctx = 32;
  wf_salt_sz : kdf_salt_sz ctx = 16;
  wf_spec : keyspec_sz ctx = 99;
  wf_hmac : hmac_sz ctx = hmac_size (hmac_algorithm ctx);
  wf_reserve : reserve_sz ctx = reserve_size (hmac_algorithm ctx) (sqlcipher_codec_ctx_get_use_hmac ctx);
  wf_page : valid_page_size (page_sz ctx);
  wf_buffer : exists b, buffer ctx = Some b /\ Z.of_nat (length b) = page_sz ctx;
  wf_salt : length (kdf_salt ctx) = 16%nat;
  wf_header : 0 <= plaintext_header_sz ctx /\ Z.rem (plaintext_header_sz ctx) 16 = 0;
  wf_read : exists c, read_ctx ctx = Some c /\ cipher_wf c;
  wf_write : exists c, write_ctx ctx = Some c /\ cipher_wf c;
}.

(** Database [i] has a codec with a well-formed context. *)
Definition has_wf (db : sqlite3 rest) (i : nat) : Prop := exists b ctx, has_codec db i b ctx /\ ctx_wf ctx.

(** ** The setters *)

Ltac wf_frame := intros H; destruct H as [[] ? ? ? ? ? ? ? ? ? ? ?]; split; [by split|done..].

Lemma wf_set_store_pass ctx v : ctx_wf ctx -> ctx_wf (set_store_pass ctx v).
Proof. wf_frame. Qed.

Lemma wf_kdf_algorithm ctx a : 0 <= a <= 2 -> ctx_wf ctx -> ctx_wf (set_kdf_algorithm ctx a).
Proof. intros Ha. wf_frame. Qed.

Lemma wf_derive_key ctx d : ctx_wf ctx -> ctx_wf (sqlcipher_set_derive_key ctx d).
Proof.
  intros [[] ? ? ? ? ? ? ? ? ? (rd & Hr & ?) (wr & Hw & ?)]. split; [by split|done..| |].
  - exists (set_derive_key rd 1). unfold sqlcipher_set_derive_key. cbn. by rewrite Hr.
  - exists (set_derive_key wr 1). unfold sqlcipher_set_derive_key. cbn. by rewrite Hw.
Qed.

Lemma wf_kdf_iter ctx n : ctx_wf ctx -> ctx_wf (sqlcipher_codec_ctx_set_kdf_iter ctx n).2.
Proof. intros H. apply wf_derive_key. revert H. wf_frame. Qed.

Lemma wf_fast_kdf_iter ctx n : ctx_wf ctx -> ctx_wf (sqlcipher_codec_ctx_set_fast_kdf_iter ctx n).2.
Proof. intros H. apply wf_derive_key. revert H. wf_frame. Qed.

Lemma wf_salt_set ctx s n : length s = 16%nat -> ctx_wf ctx -> ctx_wf (set_need_kdf_salt (set_kdf_salt ctx s) n).
Proof. intros Hs. wf_frame. Qed.

(** The reserve is recomputed. *)
Lemma wf_reserve_setup ctx f a :
  ctx_wf ctx -> 0 <= a <= 2 -> ctx_wf (sqlcipher_codec_ctx_reserve_setup (set_hmac_algorithm (set_flags ctx f) a)).2.
Proof.
  intros [[] ? ? ? ? ? ? ? ? ? ? ?] Ha. rewrite reserve_known by (by split). split; [by split|done..].
Qed.

Lemma set_flags_id ctx : set_flags ctx (flags ctx) = ctx.
Proof. by destruct ctx. Qed.

Lemma set_hmac_algorithm_id ctx : set_hmac_algorithm ctx (hmac_algorithm ctx) = ctx.
Proof. by destruct ctx. Qed.

Lemma wf_hmac_algorithm ctx a :
  0 <= a <= 2 -> ctx_wf ctx -> ctx_wf (sqlcipher_codec_ctx_set_hmac_algorithm ctx a).2.
Proof.
  intros Ha Hwf. unfold sqlcipher_codec_ctx_set_hmac_algorithm. rewrite <- (set_flags_id ctx). by apply wf_reserve_setup.
Qed.

Lemma wf_use_hmac ctx u : ctx_wf ctx -> ctx_wf (sqlcipher_codec_ctx_set_use_hmac ctx u).2.
Proof.
  intros Hwf. unfold sqlcipher_codec_ctx_set_use_hmac.
  assert (Hf : exists f, (if negb (u =? 0) then sqlcipher_codec_ctx_set_flag ctx CIPHER_FLAG_HMAC
    else sqlcipher_codec_ctx_unset_flag ctx CIPHER_FLAG_HMAC) = (SQLITE_OK, set_flags ctx f))
    by (destruct (u =? 0); by eexists).
  destruct Hf as (f & ->). rewrite <- (set_hmac_algorithm_id (set_flags ctx f)). apply wf_reserve_setup; [done|].
  apply (wf_known ctx Hwf).
Qed.

(** Flags other than that of the HMAC. *)
Lemma wf_flags ctx f :
  Z.land f CIPHER_FLAG_HMAC = Z.land (flags ctx) CIPHER_FLAG_HMAC -> ctx_wf ctx -> ctx_wf (set_flags ctx f).
Proof.
  intros Hf [[] ? ? ? ? Hr ? ? ? ? ? ?]. split; try done.
  unfold sqlcipher_codec_ctx_get_use_hmac in *. cbn. by rewrite Hf.
Qed.

Lemma wf_header_size ctx n : ctx_wf ctx -> ctx_wf (sqlcipher_codec_ctx_set_plaintext_header_size ctx n).2.
Proof.
  intros Hwf. unfold sqlcipher_codec_ctx_set_plaintext_header_size. rewrite (kn_block ctx (wf_known ctx Hwf)).
  destruct (_ && _ && _) eqn:E; [|done]. destruct Hwf as [[] ? ? ? ? ? ? ? ? ? ? ?].
  split; try done. cbn. lia.
Qed.

Lemma runs_pagesize ctx n :
  ctx_wf ctx -> runs (sqlcipher_codec_ctx_set_pagesize ctx n) (fun r => ctx_wf r.2).
Proof.
  intros Hwf. unfold sqlcipher_codec_ctx_set_pagesize. destruct (_ || _ || _) eqn:E; [by apply runs_ret|].
  eapply runs_bind; [apply runs_malloc; lia|]. intros b ->. apply runs_ret. destruct Hwf as [[] ? ? ? ? ? ? ? ? ? ? ?].
  split; try done.
  - cbn. unfold valid_page_size. lia.
  - cbn. eexists. split; [reflexivity|]. rewrite length_replicate. lia.
Qed.

(** ** Salts and keys *)

(** What decides where things are in a page. *)
Definition layout (ctx : codec_ctx) : Z * Z * Z * Z := (page_sz ctx, reserve_sz ctx, plaintext_header_sz ctx, flags ctx).

Lemma wf_init_salt ctx e r rc ctx' r' :
  ctx_wf ctx -> sqlcipher_codec_ctx_init_kdf_salt ctx e r = (rc, ctx', r') ->
  ctx_wf ctx' /\ layout ctx' = layout ctx /\ read_ctx ctx' = read_ctx ctx /\ write_ctx ctx' = write_ctx ctx.
Proof.
  intros Hwf. unfold sqlcipher_codec_ctx_init_kdf_salt. rewrite (wf_salt_sz ctx Hwf).
  destruct (need_kdf_salt ctx =? 0); [by intros [= <- <- <-]|].
  set (read := match fd e with None => _ | Some f => _ end).
  assert (Hread : length read.2 = 16%nat).
  { unfold read. destruct (fd e) as [f|]; [|exact (wf_salt ctx Hwf)]. unfold sqlite3OsRead.
    destruct (_ =? 16) eqn:E; [cbn [snd]; lia|]. cbn [snd]. rewrite length_app, length_replicate.
    pose proof (length_take (drop (Z.to_nat 0) f) (Z.to_nat 16)). lia. }
  destruct read as [rc0 s0]. cbn [snd] in Hread.
  assert (Hset : forall s n, length s = 16%nat -> ctx_wf (set_need_kdf_salt (set_kdf_salt ctx s) n)) by (intros; by apply wf_salt_set).
  destruct (rc0 =? SQLITE_OK); [intros [= <- <- <-]; by split; [apply Hset|]|].
  change (provider (set_kdf_salt ctx s0)) with (provider ctx). change (kdf_salt_sz (set_kdf_salt ctx s0)) with (kdf_salt_sz ctx).
  rewrite (kn_prov ctx (wf_known ctx Hwf)), (wf_salt_sz ctx Hwf). cbn [p_random sqlcipher_openssl_setup].
  unfold sqlcipher_openssl_random. destruct (RAND_bytes r 16) as [[bs|] r1] eqn:Er.
  - change (SQLITE_OK =? SQLITE_OK) with true. cbv iota. intros [= <- <- <-]. split; [|done]. apply Hset.
    destruct (RAND_length _ _ _ _ Er) as [Hl _]. cbn [default]. unfold id. lia.
  - change (SQLITE_ERROR =? SQLITE_OK) with false. cbv iota. intros [= <- <- <-]. split; [|done].
    exact (Hset s0 (need_kdf_salt ctx) Hread).
Qed.

Lemma kdf_length alg p s i rc k old :
  sqlcipher_openssl_kdf alg p s i 32 = (rc, k) -> length old = 32%nat -> length (default old k) = 32%nat.
Proof.
  unfold sqlcipher_openssl_kdf. destruct (hmac_md alg) as [m|]; [|by intros [= <- <-]].
  destruct (PKCS5_PBKDF2_HMAC m p s i 32) as [k'|] eqn:E; [|by intros [= <- <-]]. intros [= <- <-] _.
  destruct (PBKDF2_length m p s i 32 k' ltac:(lia) E) as [Hl _]. cbn. unfold id. lia.
Qed.

Lemma wf_cipher_ok ctx c : ctx_wf ctx -> cipher_wf c -> cipher_ok ctx c.
Proof.
  intros Hwf (Hk & Hh & Hp & Hs). split; [rewrite (wf_key ctx Hwf); lia..| |].
  - by destruct (pass c).
  - destruct (keyspec c); [rewrite (wf_spec ctx Hwf); lia|done].
Qed.

Lemma wf_put_read ctx c : cipher_wf c -> ctx_wf ctx -> ctx_wf (set_read_ctx ctx (Some c)).
Proof. intros Hc [[] ? ? ? ? ? ? ? ? ? ? ?]. split; try done. by exists c. Qed.

Lemma wf_put_write ctx c : cipher_wf c -> ctx_wf ctx -> ctx_wf (set_write_ctx ctx (Some c)).
Proof. intros Hc [[] ? ? ? ? ? ? ? ? ? ? ?]. split; try done. by exists c. Qed.

(** The key from the passphrase. *)
Lemma wf_decode ctx c p rc ctx' c' :
  ctx_wf ctx -> cipher_wf c -> pass c = Some p -> decode_or_derive ctx c p = (rc, ctx', c') ->
  ctx_wf ctx' /\ cipher_wf c' /\ layout ctx' = layout ctx /\ read_ctx ctx' = read_ctx ctx /\ write_ctx ctx' = write_ctx ctx.
Proof.
  intros Hwf (Hk & Hh & Hp & Hs) Hpass. unfold decode_or_derive, is_raw_key.
  rewrite (wf_key ctx Hwf), (wf_salt_sz ctx Hwf). rewrite Hpass in Hp. destruct Hp as [Hp Hp0].
  destruct (_ && _ && _) eqn:E1; [|clear E1; destruct (_ && _ && _) eqn:E2].
  - intros [= <- <- <-]. split; [done|]. split; [|done]. unfold cipher_wf. cbn [key hmac_key pass keyspec pass_sz set_key].
    rewrite Hpass. split_and!; [|done..]. apply hex2bin_length. rewrite length_take, length_drop. lia.
  - cbv zeta. intros [= <- <- <-]. split; [|split; [|done]].
    + apply (wf_salt_set ctx _ (need_kdf_salt ctx)); [|done]. apply hex2bin_length. rewrite length_take, !length_drop. lia.
    + unfold cipher_wf. cbn [key hmac_key pass keyspec pass_sz set_key]. rewrite Hpass. split_and!; [|done..].
      apply hex2bin_length. rewrite length_take, length_drop. lia.
  - rewrite (kn_prov ctx (wf_known ctx Hwf)). cbn [p_kdf sqlcipher_openssl_setup].
    destruct (sqlcipher_openssl_kdf _ _ _ _ _) as [rc0 k] eqn:Ek. intros [= <- <- <-]. split; [done|]. split; [|done].
    unfold cipher_wf. cbn [key hmac_key pass keyspec pass_sz set_key]. rewrite Hpass. split_and!; [|done..].
    exact (kdf_length _ _ _ _ _ _ _ Ek Hk).
Qed.

Lemma runs_key_derive1 g ctx c e r :
  ctx_wf ctx -> cipher_wf c ->
  runs (sqlcipher_cipher_ctx_key_derive g ctx c e r) (fun '(_, ctx', c', _) => ctx_wf ctx' /\ cipher_wf c' /\
    layout ctx' = layout ctx /\ read_ctx ctx' = read_ctx ctx /\ write_ctx ctx' = write_ctx ctx).
Proof.
  intros Hwf Hc. unfold sqlcipher_cipher_ctx_key_derive. destruct (pass c) as [p|] eqn:Hp; [|by apply runs_ret].
  destruct (pass_sz c =? 0); [by apply runs_ret|].
  fold (salted ctx e r). destruct (salted ctx e r) as [[rc0 c0] r0] eqn:Es.
  assert (H0 : ctx_wf c0 /\ layout c0 = layout ctx /\ read_ctx c0 = read_ctx ctx /\ write_ctx c0 = write_ctx ctx).
  { unfold salted in Es. destruct (need_kdf_salt ctx =? 0); [by injection Es as <- <- <-|]. by eapply wf_init_salt. }
  destruct H0 as (Hwf0 & Hl0 & Hr0 & Hw0). destruct (negb (rc0 =? SQLITE_OK)); [by apply runs_ret|].
  destruct (decode_or_derive c0 c p) as [[rc1 c1] k1] eqn:Ed.
  destruct (wf_decode _ _ _ _ _ _ Hwf0 Hc Hp Ed) as (Hwf1 & Hc1 & Hl1 & Hr1 & Hw1).
  rewrite Hl0 in Hl1. rewrite Hr0 in Hr1. rewrite Hw0 in Hw1.
  destruct (negb (rc1 =? SQLITE_OK)); [by apply runs_ret|]. destruct Hc1 as (Hk & Hh & Hpp & Hs).
  eapply (runs_bind _ _ (fun s => s = (SQLITE_OK, set_keyspec k1 (Some (spec_text (key k1) (kdf_salt c1)))))).
  { intros w Hw. destruct (set_keyspec_ok c1 k1 (key k1) w) as (w' & E & Hw');
      [apply Hwf1..|done|apply Hwf1|done|]. by eexists _, w'. }
  intros s ->. cbn [fst snd]. change (negb (SQLITE_OK =? SQLITE_OK)) with false. cbv iota.
  assert (Hc2 : forall h d, length h = 32%nat ->
    cipher_wf (Mk_cipher d (pass_sz k1) (key k1) h (pass k1) (Some (spec_text (key k1) (kdf_salt c1))))).
  { intros h d Hl. split_and!; [done..|]. by apply length_spec_text, (wf_salt c1 Hwf1). }
  destruct (Z.land (flags c1) CIPHER_FLAG_HMAC =? 0).
  { cbv beta iota. apply runs_ret. split_and!; try done. by apply (Hc2 (hmac_key k1) 0). }
  cbv zeta. change (provider (set_hmac_kdf_salt c1 _)) with (provider c1). change (key_sz (set_hmac_kdf_salt c1 _)) with (key_sz c1).
  rewrite (kn_prov c1 (wf_known c1 Hwf1)), (wf_key c1 Hwf1). cbn [p_kdf sqlcipher_openssl_setup].
  destruct (sqlcipher_openssl_kdf _ _ _ _ _) as [rc2 h] eqn:Ek. pose proof (kdf_length _ _ _ _ _ _ _ Ek Hh) as Hhl.
  assert (Hwf2 : ctx_wf (set_hmac_kdf_salt c1 ((fun b => Z.lxor b (hmac_salt_mask g)) <$> kdf_salt c1)))
    by (revert Hwf1; wf_frame).
  destruct (negb (rc2 =? SQLITE_OK)); apply runs_ret; split_and!; try done; by apply (Hc2 (default (hmac_key k1) h)).
Qed.

Lemma runs_cmp c1 c2 : cipher_wf c1 -> cipher_wf c2 -> runs (sqlcipher_cipher_ctx_cmp c1 c2) (fun _ => True).
Proof.
  intros (_ & _ & Hp1 & _) (_ & _ & Hp2 & _). unfold sqlcipher_cipher_ctx_cmp.
  destruct (pass_sz c1 =? pass_sz c2) eqn:E; [|by apply runs_ret].
  destruct (pass c1) as [p1|], (pass c2) as [p2|]; try (exfalso; lia); [|by apply runs_ret].
  eapply runs_bind; [apply runs_read; lia|]. intros a _. eapply runs_bind; [apply runs_read; lia|]. intros b _.
  by apply runs_ret.
Qed.

Lemma runs_copy ctx target source :
  ctx_wf ctx -> cipher_wf target -> cipher_wf source ->
  runs (sqlcipher_cipher_ctx_copy ctx target source) (fun t => t = (SQLITE_OK, source)).
Proof.
  intros Hwf (Hk & Hh & _) Hs w Hw.
  destruct (cipher_copy_ok ctx target source w) as (w' & E & Hw');
    [by apply wf_cipher_ok|rewrite (wf_key ctx Hwf); lia..|done|]. by eexists _, w'.
Qed.

(** Keys are derived, or not, without a fault and without touching the layout. *)
Lemma runs_key_derive g ctx e r :
  ctx_wf ctx -> runs (sqlcipher_codec_key_derive g ctx e r) (fun '(_, ctx', _) => ctx_wf ctx' /\ layout ctx' = layout ctx).
Proof.
  intros Hwf. unfold sqlcipher_codec_key_derive. destruct (wf_read ctx Hwf) as (rd & Hrd & Hrdw). rewrite Hrd.
  cbn [deref]. eapply (runs_bind _ _ (fun a => a = rd)); [by apply runs_ret|]. intros ? ->.
  eapply (runs_bind _ _ (fun '(_, c, _) => ctx_wf c /\ layout c = layout ctx)).
  { destruct (derive_key rd =? 0); [by apply runs_ret|].
    eapply runs_bind; [by apply runs_key_derive1|]. intros [[[rc c1] rd1] r1] (H1 & H2 & H3 & _). apply runs_ret.
    split; [by apply wf_put_read|done]. }
  intros [[rc c1] r1] [Hwf1 Hl1]. destruct (negb _); [by apply runs_ret|].
  destruct (wf_write c1 Hwf1) as (wr & Hwr & Hwrw). rewrite Hwr. cbn [deref].
  eapply (runs_bind _ _ (fun a => a = wr)); [by apply runs_ret|]. intros ? ->.
  eapply (runs_bind _ _ (fun '(_, c, _) => ctx_wf c /\ layout c = layout ctx)).
  { destruct (derive_key wr =? 0); [by apply runs_ret|].
    destruct (wf_read c1 Hwf1) as (rd1 & Hrd1 & Hrdw1). rewrite Hrd1. cbn [deref].
    eapply (runs_bind _ _ (fun a => a = rd1)); [by apply runs_ret|]. intros ? ->.
    eapply runs_bind; [by apply runs_cmp|]. intros d _. destruct (d =? 0).
    - eapply runs_bind; [by apply runs_copy|]. intros t ->. apply runs_ret. split; [by apply wf_put_write|done].
    - eapply runs_bind; [by apply runs_key_derive1|]. intros [[[rc2 c2] wr2] r2] (H1 & H2 & H3 & _). apply runs_ret.
      split; [by apply wf_put_write|]. by rewrite <- Hl1. }
  intros [[rc2 c2] r2] [Hwf2 Hl2]. destruct (negb _); [by apply runs_ret|]. destruct (store_pass c2 =? 1); [by apply runs_ret|].
  destruct (wf_read c2 Hwf2) as (rd2 & Hrd2 & Hr2 & Hh2 & _ & Hs2). rewrite Hrd2. cbn [deref].
  destruct (wf_write c2 Hwf2) as (wr2 & Hwr2 & Hw2 & Hv2 & _ & Ht2). rewrite Hwr2. cbn [deref].
  intros w Hw. eexists _, w. split; [reflexivity|]. split; [done|]. split; [|done].
  apply wf_put_write; [by split_and!|]. apply wf_put_read; [by split_and!|]. done.
Qed.

(** *** The integrity check *)

(** Where page 1 starts to be encrypted is before its reserve. *)
Definition header_fits (ctx : codec_ctx) : Prop := page_offset ctx 1 <= page_sz ctx - reserve_sz ctx.

Lemma header_fits_layout ctx ctx' : layout ctx' = layout ctx -> header_fits ctx -> header_fits ctx'.
Proof. unfold layout, header_fits, page_offset. by intros [= -> -> -> _]. Qed.

Lemma length_os_read file amt off : 0 <= amt -> Z.of_nat (length (os_read file amt off).2) <= amt.
Proof.
  intros Ha. unfold os_read. destruct (off <? 0); [cbn; lia|]. unfold sqlite3OsRead.
  destruct (_ =? amt) eqn:E; [cbn [snd]; lia|]. cbn [snd]. rewrite length_app, length_replicate.
  pose proof (length_take (drop (Z.to_nat off) file) (Z.to_nat amt)). lia.
Qed.

Lemma runs_check_one ctx c file hmac_out page buf :
  ctx_wf ctx -> header_fits ctx -> sqlcipher_codec_ctx_get_use_hmac ctx = true ->
  Z.of_nat (length hmac_out) = hmac_sz ctx -> Z.of_nat (length buf) = page_sz ctx ->
  runs (check_one ctx c file (Some hmac_out) page buf) (fun '(_, buf') => length buf' = length buf).
Proof.
  intros Hwf Hfit Hmac Hho Hbuf. unfold check_one.
  destruct (kn_hmac ctx (wf_known ctx Hwf)) as [Ha0 Ha2]. pose proof (wf_page ctx Hwf) as [Hpg _].
  assert (Hsz : 20 <= hmac_sz ctx /\ hmac_sz ctx + 32 <= reserve_sz ctx <= 96).
  { rewrite (wf_hmac ctx Hwf), (wf_reserve ctx Hwf), Hmac. unfold hmac_size, reserve_size. repeat case_match; lia. }
  set (args := if page =? 1 then _ else _).
  assert (Hargs : exists off pay rd, args = (off, pay, rd) /\ 0 <= pay /\ pay + hmac_sz ctx <= rd /\ 0 <= rd <= page_sz ctx).
  { unfold args. unfold header_fits in Hfit. rewrite (kn_iv ctx (wf_known ctx Hwf)).
    destruct (page =? 1) eqn:E; eexists _, _, _; (split; [reflexivity|]); [|lia].
    assert (page = 1) as -> by lia. assert (0 <= page_offset ctx 1); [|lia].
    unfold page_offset. destruct (wf_header ctx Hwf). change (1 =? 1) with true. cbv iota. case_match; [done|lia]. }
  destruct Hargs as (off & pay & rd & -> & Hpay & Hpr & Hrd).
  eapply runs_bind; [apply runs_write; [lia|rewrite length_replicate; lia]|]. intros b1 Hb1; cbv beta in Hb1.
  eapply (runs_bind _ _ (fun h => exists h', h = Some h' /\ length h' = length hmac_out)).
  { unfold sqlcipher_memset. eapply runs_bind; [apply runs_write; [lia|rewrite length_replicate; lia]|].
    intros h Hl; cbv beta in Hl. apply runs_ret. by exists h. }
  intros ? (h1 & -> & Hh1). pose proof (length_os_read file rd off ltac:(lia)) as Hbs.
  destruct (os_read file rd off) as [rc bs]. cbn [snd] in Hbs.
  eapply runs_bind; [apply runs_write; lia|]. intros b2 Hb2; cbv beta in Hb2. destruct (negb (rc =? SQLITE_OK)); [apply runs_ret; lia|].
  eapply runs_bind; [apply runs_read; lia|]. intros payload _.
  unfold sqlcipher_page_hmac. rewrite (kn_prov ctx (wf_known ctx Hwf)). cbn [p_hmac sqlcipher_openssl_setup].
  destruct (sqlcipher_openssl_hmac _ _ _ _) as [rc2 [mac|]] eqn:Em; [|apply runs_ret; lia].
  assert (rc2 = SQLITE_OK) as ->.
  { unfold sqlcipher_openssl_hmac in Em. repeat case_match; congruence. }
  destruct (Openssl.hmac_size _ _ _ _ _ Em) as [Hml _]. assert (Hmsz : Z.of_nat (length mac) = hmac_sz ctx).
  { rewrite Hml, (wf_hmac ctx Hwf). rewrite hmac_size_values by lia. unfold hmac_size. by repeat case_match. }
  cbn [deref]. eapply (runs_bind _ _ (fun a => a = h1)); [by apply runs_ret|]. intros ? ->.
  eapply runs_bind; [apply runs_write; lia|]. intros h2 Hh2; cbv beta in Hh2. change (negb (SQLITE_OK =? SQLITE_OK)) with false. cbv iota.
  eapply runs_bind; [apply runs_read; lia|]. intros stored _. eapply runs_bind; [apply runs_read; lia|]. intros computed _.
  apply runs_ret. lia.
Qed.

Lemma runs_check_pages n ctx c file hmac_out page buf :
  ctx_wf ctx -> header_fits ctx -> sqlcipher_codec_ctx_get_use_hmac ctx = true ->
  Z.of_nat (length hmac_out) = hmac_sz ctx -> Z.of_nat (length buf) = page_sz ctx ->
  runs (check_pages n ctx c file (Some hmac_out) page buf) (fun '(_, buf') => length buf' = length buf).
Proof.
  intros Hwf Hfit Hmac Hho. revert page buf. induction n as [|n IH]; intros page buf Hbuf; [by apply runs_ret|].
  cbn [check_pages]. eapply runs_bind; [by apply runs_check_one|]. intros [rows b1] Hb1; cbv beta iota in Hb1.
  eapply runs_bind; [apply IH; lia|]. intros [more b2] Hb2; cbv beta iota in Hb2. apply runs_ret. lia.
Qed.

Lemma runs_integrity_check g ctx e r :
  ctx_wf ctx -> header_fits ctx ->
  runs (sqlcipher_codec_ctx_integrity_check g ctx e r) (fun '(_, ctx', _) => ctx_wf ctx' /\ layout ctx' = layout ctx).
Proof.
  intros Hwf Hfit. unfold sqlcipher_codec_ctx_integrity_check. destruct (fd e) as [file|]; [|by apply runs_ret].
  destruct (Z.land (flags ctx) CIPHER_FLAG_HMAC =? 0) eqn:Ef; [by apply runs_ret|].
  eapply runs_bind; [by apply runs_key_derive|]. intros [[rc c1] r1] [Hwf1 Hl1]. destruct (negb _); [by apply runs_ret|].
  cbv zeta. eapply runs_bind; [apply runs_malloc; rewrite (wf_hmac c1 Hwf1); unfold hmac_size; repeat case_match; lia|]. intros ho ->.
  assert (Huse : sqlcipher_codec_ctx_get_use_hmac c1 = true).
  { unfold sqlcipher_codec_ctx_get_use_hmac. injection Hl1 as _ _ _ ->. by rewrite Ef. }
  clear Ef.
  eapply (runs_bind _ _ (fun '(_, c) => ctx_wf c /\ layout c = layout ctx)).
  { destruct (_ =? 0); [by apply runs_ret|]. destruct (wf_read c1 Hwf1) as (rd & -> & _).
    destruct (wf_buffer c1 Hwf1) as (buf & -> & Hb). cbn [deref].
    eapply (runs_bind _ _ (fun a => a = rd)); [by apply runs_ret|]. intros ? ->.
    eapply (runs_bind _ _ (fun a => a = buf)); [by apply runs_ret|]. intros ? ->.
    eapply runs_bind; [apply runs_check_pages; [done|by eapply header_fits_layout|done| |done]|].
    { rewrite length_replicate. rewrite (wf_hmac c1 Hwf1). unfold hmac_size. repeat case_match; lia. }
    intros [rows b2] Hb2. apply runs_ret. split; [|done]. destruct Hwf1 as [[] ? ? ? ? ? ? ? ? ? ? ?]. split; try done.
    exists b2. split; [done|]. cbn. lia. }
  intros [rows c2] [Hwf2 Hl2]. by apply runs_ret.
Qed.

(** ** The commands *)

(** The command returns and leaves database [i] with a well-formed context. *)
Definition keeps (i : nat) (m : M (Z * list row * globals * sqlite3 rest)) : Prop :=
  runs m (fun r => has_wf r.2 i).

Lemma runs_mprintf s : runs (sqlite3_mprintf s) (fun _ => True).
Proof. eapply runs_bind; [apply runs_request|]. intros b _. by apply runs_ret. Qed.

Lemma runs_int_row l n : runs (int_row l n) (fun _ => True).
Proof. eapply runs_bind; [apply runs_mprintf|]. intros t _. by apply runs_ret. Qed.

Lemma runs_setting_row n v : runs (setting_row n v) (fun _ => True).
Proof. eapply runs_bind; [apply runs_mprintf|]. intros t _. by apply runs_ret. Qed.

Lemma runs_setting_label_row n v : runs (setting_label_row n v) (fun _ => True).
Proof. destruct v; [apply runs_setting_row|by apply runs_ret]. Qed.

Lemma runs_version : runs sqlcipher_version (fun _ => True).
Proof. apply runs_mprintf. Qed.

Hint Resolve runs_version runs_int_row runs_mprintf runs_setting_row runs_setting_label_row runs_request : core.

(** Texts are made, then the result is returned. *)
Ltac texts := repeat (eapply runs_bind; [by eauto|]; intros ? _).

Section commands.
  Context (g : globals) {PL : PagerLaws g} (db : sqlite3 rest) (i : nat) (b : BtShared rest) (ctx : codec_ctx).
  Context (Hh : has_codec db i b ctx) (Hwf : ctx_wf ctx).

Lemma keeps_taken rc rows g' : keeps i (mret (rc, rows, g', db)).
  Proof. apply runs_ret. by exists b, ctx. Qed.

Lemma keeps_bt rows b' ctx' : pCodec (pPager b') = Some ctx' -> ctx_wf ctx' -> keeps i (taken_bt g db i rows b').
  Proof.
    intros Hc Hwf'. apply runs_ret. exists b', ctx'. split; [|done]. cbn [snd]. destruct db.
    by apply (put_bt_has _ _ _ _ _ _ _ Hh).
  Qed.

Lemma keeps_resize ctx' b' e :
    pCodec (pPager b') = Some ctx' -> ctx_wf ctx' -> keeps i (resize g db i ctx' b' e).
  Proof.
    intros Hc Hwf' w Hw. destruct (resize_ok g db i b ctx b' ctx' e w Hh Hc Hw) as (db' & b2 & w' & E & Hw' & Hh').
    exists (1, [], g, db'), w'. split_and!; [done..|]. by exists b2, ctx'.
  Qed.

Lemma known_algorithm labels z a :
    labels = hmac_labels \/ labels = kdf_labels -> algorithm_of labels z = Some a -> 0 <= a <= 2.
  Proof.
    intros Hl. unfold algorithm_of. destruct Hl as [->| ->]; unfold hmac_labels, kdf_labels; cbn [List.find fst snd];
      repeat (case_match; [intros [= <-]; by vm_compute|]); done.
  Qed.

Lemma keeps_page_size z : keeps i (pragma_page_size g db i b ctx z).
  Proof.
    destruct z as [z|]; cbn [pragma_page_size].
    - eapply runs_bind; [by apply runs_pagesize|]. intros [rc ctx'] Hwf'. apply keeps_resize; [by rewrite check_rc_codec|done].
    - texts. apply keeps_taken.
  Qed.

Lemma keeps_use_hmac z : keeps i (pragma_use_hmac g db i b ctx z).
  Proof.
    destruct z as [z|]; cbn [pragma_use_hmac].
    - pose proof (wf_use_hmac ctx (sqlite3GetBoolean z 1) Hwf) as Hwf'.
      destruct (sqlcipher_codec_ctx_set_use_hmac _ _). apply keeps_resize; [by rewrite check_rc_codec|done].
    - texts. apply keeps_taken.
  Qed.

Lemma keeps_hmac_pgno z : keeps i (pragma_hmac_pgno g db i b ctx z).
  Proof.
    destruct z as [z|]; cbn [pragma_hmac_pgno]; [|apply keeps_taken].
    eapply keeps_bt; [reflexivity|].
    repeat case_match; cbn [sqlcipher_codec_ctx_set_flag sqlcipher_codec_ctx_unset_flag snd]; try done;
      repeat apply wf_flags; try done; cbn [flags set_flags];
      rewrite ?Z.land_lor_distr_l, <- ?Z.land_assoc; cbn; by rewrite ?Z.lor_0_r.
  Qed.

Lemma keeps_salt_mask z : keeps i (pragma_hmac_salt_mask g db z).
  Proof. destruct z; cbn [pragma_hmac_salt_mask]; [|texts]; apply keeps_taken. Qed.

Lemma keeps_header_size z : keeps i (pragma_plaintext_header_size g db i b ctx z).
  Proof.
    destruct z as [z|]; cbn [pragma_plaintext_header_size]; [|texts; apply keeps_taken].
    pose proof (wf_header_size ctx (atoi z) Hwf) as Hwf'.
    destruct (sqlcipher_codec_ctx_set_plaintext_header_size _ _). eapply keeps_bt; [by rewrite check_rc_codec|done].
  Qed.

Lemma keeps_hmac_algorithm z : keeps i (pragma_hmac_algorithm g db i b ctx z).
  Proof.
    destruct z as [z|]; cbn [pragma_hmac_algorithm]; [|apply keeps_taken].
    destruct (algorithm_of hmac_labels z) as [a|] eqn:E.
    - pose proof (wf_hmac_algorithm ctx a (known_algorithm _ _ _ (or_introl eq_refl) E) Hwf) as Hwf'.
      destruct (sqlcipher_codec_ctx_set_hmac_algorithm _ _). apply keeps_resize; [by rewrite check_rc_codec|done].
    - apply keeps_resize; [by rewrite check_rc_codec|done].
  Qed.

Lemma keeps_kdf_algorithm z : keeps i (pragma_kdf_algorithm g db i b ctx z).
  Proof.
    destruct z as [z|]; cbn [pragma_kdf_algorithm]; [|apply keeps_taken].
    destruct (algorithm_of kdf_labels z) as [a|] eqn:E; (eapply keeps_bt; [by rewrite check_rc_codec|]); [|done].
    apply wf_kdf_algorithm; [|done]. exact (known_algorithm _ _ _ (or_intror eq_refl) E).
  Qed.

Lemma keeps_compatibility z : keeps i (pragma_compatibility g db i b ctx z).
  Proof.
    destruct z as [z|]; cbn [pragma_compatibility]; [|apply keeps_taken].
    assert (Hv : exists size hmac kdf iter use, version_settings (atoi z) = (size, hmac, kdf, iter, use) /\
      0 <= hmac <= 2 /\ 0 <= kdf <= 2).
    { unfold version_settings. repeat case_match; by eexists _, _, _, _, _. }
    destruct Hv as (size & hmac & kdf & iter & use & -> & Hha & Hka).
    eapply runs_bind; [by apply runs_pagesize|]. intros [rc c1] H1. cbn [snd] in H1.
    pose proof (wf_hmac_algorithm c1 hmac Hha H1) as H2. destruct (sqlcipher_codec_ctx_set_hmac_algorithm _ _) as [rc2 c2].
    pose proof (wf_kdf_algorithm c2 kdf Hka H2) as H3. cbn [sqlcipher_codec_ctx_set_kdf_algorithm].
    pose proof (wf_kdf_iter _ iter H3) as H4. destruct (sqlcipher_codec_ctx_set_kdf_iter _ _) as [rc4 c4].
    pose proof (wf_use_hmac c4 use H4) as H5. destruct (sqlcipher_codec_ctx_set_use_hmac _ _) as [rc5 c5].
    by apply keeps_resize.
  Qed.

Lemma keeps_salt z : keeps i (pragma_salt g db i b ctx z).
  Proof.
    destruct z as [z|]; cbn [pragma_salt].
    - destruct (_ && _) eqn:E; [|apply keeps_taken]. eapply runs_bind; [apply runs_request|]. intros ok ->. cbn [negb].
      unfold sqlcipher_codec_ctx_set_kdf_salt. rewrite (wf_salt_sz ctx Hwf). change (16 <=? FILE_HEADER_SZ) with true. cbv iota.
      assert (Hl : length (cipher_hex2bin (take (Z.to_nat (FILE_HEADER_SZ * 2)) (drop 2 z))) = 16%nat).
      { apply hex2bin_length. rewrite length_take, length_drop. unfold FILE_HEADER_SZ in *. lia. }
      eapply (runs_bind _ _ (fun r => ctx_wf r.2)).
      { eapply runs_bind; [apply runs_read; lia|]. intros s Hs; cbv beta in Hs. apply runs_ret. apply wf_salt_set; [lia|done]. }
      intros [rc c'] Hwf'. by eapply keeps_bt.
    - eapply runs_bind; [apply runs_request|]. intros ok ->. unfold sqlcipher_codec_ctx_get_kdf_salt.
      set (init := if need_kdf_salt ctx =? 0 then _ else _).
      assert (Hi : ctx_wf init.1.2).
      { unfold init. destruct (need_kdf_salt ctx =? 0); [done|].
        destruct (sqlcipher_codec_ctx_init_kdf_salt _ _ _) as [[rc c1] r1] eqn:E. by apply (wf_init_salt _ _ _ _ _ _ Hwf) in E as [? _]. }
      destruct init as [[rc c1] r1]. cbn [fst snd] in Hi. cbv zeta.
      destruct (rc =? SQLITE_OK); [|by eapply keeps_bt]. cbn [negb].
      pose proof (wf_salt c1 Hi) as Hs. unfold keeps.
      eapply (runs_bind _ _ (fun s => length s = 16%nat)); [eapply runs_mono; [apply runs_read; unfold FILE_HEADER_SZ; lia|]|].
      { intros s Hl; cbv beta in Hl. unfold FILE_HEADER_SZ in Hl. lia. }
      intros s Hl. eapply (runs_bind _ _ (fun _ => True)); [|intros t _; by eapply keeps_bt].
      intros w Hw. exists ((hex_of s ++ [0]) ++ []), w. split; [|done].
      rewrite <- (app_nil_r (replicate _ 0)). apply (bin2hex_spec s []); [done|by rewrite length_replicate, Hl|by destruct s].
  Qed.

Lemma keeps_add_random arg :
    keeps i ('(rc, r) ← sqlcipher_codec_add_random ctx (pg_rng (pPager b)) arg (Z.of_nat (length arg));
      rows ← int_row (str "cipher_add_random") rc;
      taken_bt g db i rows (put_pager b (put_codec_state (pPager b) (with_rng (codec_state_of (pPager b) ctx) r)))).
  Proof.
    eapply (runs_bind _ _ (fun _ => True)).
    - unfold sqlcipher_codec_add_random. destruct (_ && _) eqn:E; [|by apply runs_ret].
      eapply runs_bind; [apply runs_malloc; clear -E; apply andb_true_iff in E as [[[E _]%andb_true_iff _]%andb_true_iff E2];
        apply Z.ltb_lt in E; apply Z.eqb_eq in E2; set (n := Z.of_nat (length arg) - 3) in *; clearbody n;
        rewrite Z.rem_mod_nonneg in E2 by lia; rewrite Z.quot_div_nonneg by lia; pose proof (Z.div_mod n 2 ltac:(done)); lia|]. intros m ->. eapply runs_bind; [apply runs_read; lia|]. intros s _. by apply runs_ret.
    - intros [rc r] _. texts. by eapply keeps_bt.
  Qed.

Lemma keeps_check :
    header_fits ctx ->
    keeps i ('(rows, ctx, r) ← sqlcipher_codec_ctx_integrity_check g ctx (pg_env (pPager b)) (pg_rng (pPager b));
      taken_bt g db i (Check <$> rows) (put_pager b (put_codec_state (pPager b) (with_rng (codec_state_of (pPager b) ctx) r)))).
  Proof.
    intros Hfit. eapply runs_bind; [by apply runs_integrity_check|]. intros [[rows c'] r'] [Hwf' _]. by eapply keeps_bt.
  Qed.

Lemma keeps_settings : keeps i (pragma_settings g db ctx).
  Proof. unfold keeps, pragma_settings. texts. apply keeps_taken. Qed.

Lemma keeps_default_settings : keeps i (pragma_default_settings g db).
  Proof. unfold keeps, pragma_default_settings. texts. apply keeps_taken. Qed.

(** The commands that change or show defaults. *)
Lemma keeps_defaults z :
    keeps i (pragma_default_plaintext_header_size g db z) /\ keeps i (pragma_default_hmac_algorithm g db z) /\
    keeps i (pragma_default_kdf_algorithm g db z) /\ keeps i (pragma_default_compatibility g db z).
  Proof.
    destruct z as [z|]; split_and!; unfold keeps; cbn; texts; try apply keeps_taken.
    destruct (version_settings (atoi z)) as [[[[? ?] ?] ?] ?]. apply keeps_taken.
  Qed.

(** Every branch of the chain. *)
Lemma keeps_rest zLeft zRight :
    (sqlite3StrICmp zLeft (str "cipher_migrate") = 0 -> is_Some zRight) ->
    (sqlite3StrICmp zLeft (str "cipher_integrity_check") = 0 -> header_fits ctx) ->
    keeps i (pragma_rest g db i zLeft zRight).
  Proof.
    intros Hmig Hfit. unfold pragma_rest.
    eapply (runs_bind _ _ (fun a => a = Some (b, ctx))).
    { intros w Hw. exists (Some (b, ctx)), w. by rewrite (attached_eq _ _ _ _ _ Hh). }
    intros a ->. cbv beta iota zeta. fold (keeps i).
    repeat match goal with |- runs (if ?c then _ else _) _ => destruct c eqn:? end;
      try (first [apply keeps_page_size | apply keeps_use_hmac | apply keeps_hmac_pgno | apply keeps_salt_mask
        | apply keeps_header_size | apply keeps_salt | apply keeps_hmac_algorithm | apply keeps_kdf_algorithm
        | apply keeps_compatibility | apply keeps_add_random | apply keeps_settings | apply keeps_default_settings | apply keeps_defaults]);
      try (texts; apply keeps_taken);
      try (destruct zRight; [|texts]; apply keeps_taken).
    - exfalso. destruct zRight; [by rewrite andb_comm in *|].
      destruct Hmig as [? [=]]. apply Z.eqb_eq. by rewrite andb_true_r in *.
    - destruct zRight; [|texts; apply keeps_taken]. eapply keeps_bt; [reflexivity|]. by apply wf_kdf_iter.
    - destruct zRight; [|texts; apply keeps_taken]. eapply keeps_bt; [reflexivity|]. by apply wf_fast_kdf_iter.
    - apply keeps_check, Hfit. by apply Z.eqb_eq.
  Qed.
End commands.

(** C14. PRAGMAs keep the codec context well typed.  Every command but
    [cipher_migrate] without an argument, whatever its argument, returns without a
    fault when memory is available, and leaves the codec of the database well
    formed: sizes of keys, salts, HMAC and reserve agree with the algorithms, the
    page size is a power of two from 512 to 65536 and the page buffer has that
    size.  For [cipher_integrity_check] the plaintext header has to fit into a
    page, and the pager operations are assumed to keep their contract
    ([PagerLaws]).  The migration is the subject of [Migrate]. *)
Theorem pragma_keeps_types g {PL : PagerLaws g} db i b ctx zLeft zRight w :
  has_codec db i b ctx -> ctx_wf ctx ->
  (sqlite3StrICmp zLeft (str "cipher_migrate") = 0 -> is_Some zRight) ->
  (sqlite3StrICmp zLeft (str "cipher_integrity_check") = 0 -> header_fits ctx) -> all_ok w ->
  exists rc rows g' db' b' ctx' w',
    sqlcipher_codec_pragma g db i zLeft zRight w = Done ((rc, rows, g', db'), w') /\ all_ok w' /\
    has_codec db' i b' ctx' /\ ctx_wf ctx'.
Proof.
  intros Hh Hwf Hmig Hfit Hw.
  assert (Hrun : keeps i (sqlcipher_codec_pragma g db i zLeft zRight)).
  { unfold sqlcipher_codec_pragma.
    eapply (runs_bind _ _ (fun r => exists b1 c1, has_codec r.2 i b1 c1 /\ ctx_wf c1 /\ layout c1 = layout ctx)).
    - unfold pragma_first. eapply (runs_bind _ _ (fun a => a = Some (b, ctx))).
      { intros w1 Hw1. exists (Some (b, ctx)), w1. by rewrite (attached_eq _ _ _ _ _ Hh). }
      intros a ->. cbv beta iota zeta.
      destruct zRight as [z|]; repeat case_match; texts; apply runs_ret; try (by exists b, ctx).
      eexists _, _. split; [destruct db; by apply (put_bt_has _ _ _ _ _ _ _ Hh)|]. split; [by apply wf_set_store_pass|done].
    - intros [rows db1] (b1 & c1 & Hh1 & Hwf1 & Hl1). cbn [snd] in Hh1.
      eapply runs_bind; [apply (keeps_rest g db1 i b1 c1 Hh1 Hwf1 zLeft zRight Hmig)|].
      { intros H. by eapply header_fits_layout, Hfit. }
      intros [[[rc rows'] g'] db'] Hdb'. by apply runs_ret. }
  destruct (Hrun w Hw) as ([[[rc rows] g'] db'] & w' & E & Hw' & b' & ctx' & Hh' & Hwf').
  by exists rc, rows, g', db', b', ctx', w'.
Qed.

(** The invariant holds at the start: of the context a key is given to. *)
Lemma ready_wf g ctx z n :
  ctx_ready ctx z (new_cipher z n) -> kdf_settings g ctx -> 0 <= default_kdf_algorithm g <= 2 -> ctx_wf ctx.
Proof.
  intros [[] Hpg Hph Hbuf Hss Hsl Hn Hst Hks Hrd Hwr [Hk Hh Hp Hs] Hpass _] (_ & _ & Halg & _ & Hblk) Hg.
  assert (Hc : cipher_wf (new_cipher z n)).
  { rewrite Hpass in Hp. unfold cipher_wf. rewrite Hpass. split_and!; [lia..|].
    destruct (keyspec _); [lia|done]. }
  split; try done.
  - split; [done..|by rewrite st_alg|lia].
  - by rewrite st_hmac_sz, st_alg.
  - unfold sqlcipher_codec_ctx_get_use_hmac. rewrite st_reserve, st_alg. by rewrite (proj2 (Z.eqb_neq _ _) st_hmac).
  - rewrite Hpg. by split.
  - rewrite Hbuf, Hpg. eexists. split; [reflexivity|]. by rewrite length_replicate.
  - rewrite Hph. done.
  - by eexists.
  - by eexists.
Qed.
End types.
