(* ===== verification/PragmaWitness.v ===== *)
(** * Concrete PRAGMAs

    Instances of the theorems of [PragmaProofs] on the pager of [AttachWitness],
    and the case in which settings are not restored. *)

From stdpp Require Import base tactics list numbers option.
From Stdlib Require Import ZArith Lia ZifyBool.
From Stdlib Require String.
Import String.StringSyntax.
From S2P Require Import Prelude MtArrList Sha256 MtCrypto MerkleTree MtSerialize.
From S2P Require Import MerkleTheorems CipherUtil Openssl CodecCtx PageCodec PageProofs CodecProofs HookProofs.
From S2P Require Import CodecWitness Integrity Attach AttachProofs AttachWitness Pragma PragmaProofs PragmaTypes.

Local Open Scope Z_scope.

#[local] Existing Instance toy_openssl.
#[local] Existing Instance toy_openssl_laws.

(** Nothing to profile, nothing to migrate. *)
#[local] Instance tiny_env : PragmaEnv (list Z) := {|
  OPENSSL_VERSION_TEXT := [];
  openssl_cipher := [];
  fopen _ := false;
  sqlcipher_codec_ctx_migrate g db _ := mret (SQLITE_ERROR, g, db);
|}.

(** The settings of SQLCipher 3 with pages of [P] bytes and a plaintext header. *)
Definition w_old (P header : Z) : codec_ctx :=
  set_plaintext_header_sz (set_reserve_sz (set_hmac_sz (set_hmac_algorithm (set_kdf_algorithm
    (set_kdf_iter (w_ctx P None) 64000) SQLCIPHER_PBKDF2_HMAC_SHA1) SQLCIPHER_HMAC_SHA1) 20) 64) header.

Lemma w_old_known P header : known (w_old P header).
Proof. by split. Qed.

Lemma w_has ctx : has_codec (w_db (w_pager true (Some ctx))) 0 (Mk_bt 0 4096 4096 0 0 0 (w_pager true (Some ctx))) ctx.
Proof. by eexists. Qed.

Lemma settings_roundtrip_witness :
  exists w1 db' b' ctx' w2,
    sqlcipher_codec_pragma w_globals (w_db (w_pager true (Some (w_old 1024 32)))) 0 (str "cipher_settings") None []
      = Done ((1, shown (settings_of (w_old 1024 32)), w_globals, w_db (w_pager true (Some (w_old 1024 32)))), w1) /\
    run_settings w_globals (w_db (w_pager true (Some (w_ctx 4096 None)))) 0 (settings_of (w_old 1024 32)) w1
      = Done (([], w_globals, db'), w2) /\
    has_codec db' 0 b' ctx' /\ kdf_iter ctx' = 64000 /\ page_sz ctx' = 1024 /\ plaintext_header_sz ctx' = 32 /\
    reserve_sz ctx' = 64.
Proof.
  destruct (settings_roundtrip w_globals (w_old 1024 32) _ 0%nat _ _ 0%nat _ _ [] (w_has (w_old 1024 32)) (w_has (w_ctx 4096 None))
    (w_old_known 1024 32)) as (w1 & db' & b' & ctx' & w2 & H1 & H2 & H3 & Hk & Hp & _ & Hh & _ & _ & _ & Hr);
    [by split|done|split; [done|reflexivity]|done|done|done|constructor|].
  exists w1, db', b', ctx', w2. split_and!; assumption.
Defined.

(** The exception: pages of 512 bytes with a plaintext header of 432 are possible
    with HMAC-SHA1.  The header size is set before the algorithm, when the
    context still has the larger reserve of HMAC-SHA512, and is refused: the
    database is left in the error state and without the header. *)
Lemma settings_not_restored :
  match run_settings w_globals (w_db (w_pager true (Some (w_ctx 4096 None)))) 0 (settings_of (w_old 512 432)) [] with
  | Done ((_, _, Mk_sqlite3 [Mk_db _ (Some b)] _), _) =>
      (pager_error (pg_env (pPager b)), plaintext_header_sz <$> pCodec (pPager b), hmac_algorithm <$> pCodec (pPager b))
      = (true, Some 0, Some SQLCIPHER_HMAC_SHA1)
  | _ => False
  end.
Proof. vm_compute. reflexivity. Qed.

(** ** Well-formed contexts *)

Lemma w_ctx_wf : ctx_wf (w_ctx 4096 None).
Proof.
  split; try done; [eexists; split; [reflexivity|by rewrite length_replicate]| |]; by exists w_cipher.
Qed.

(** The page size is changed to 1024. *)
Lemma pragma_keeps_types_witness :
  exists rc rows g' db' b' ctx' w',
    sqlcipher_codec_pragma w_globals (w_db (w_pager true (Some (w_ctx 4096 None)))) 0 (str "cipher_page_size")
      (Some (str "1024")) [] = Done ((rc, rows, g', db'), w') /\
    has_codec db' 0 b' ctx' /\ ctx_wf ctx'.
Proof.
  destruct (pragma_keeps_types w_globals (w_db (w_pager true (Some (w_ctx 4096 None)))) 0%nat _ (w_ctx 4096 None)
    (str "cipher_page_size") (Some (str "1024")) [] (w_has _) w_ctx_wf)
    as (rc & rows & g' & db' & b' & ctx' & w' & E & _ & Hh & Hwf); [by eexists|by vm_compute|constructor|].
  by exists rc, rows, g', db', b', ctx', w'.
Defined.

(** What a well-formed context does not promise: a plaintext header of 3984 bytes is
    accepted for pages of 4096 bytes, the page size can then be set to 512 without
    an error, and the codec reads outside the first page. *)
Definition outgrown : list (list Z * list Z) :=
  [(str "cipher_plaintext_header_size", str "3984"); (str "cipher_page_size", str "512")].

Lemma header_outgrows_page :
  match run_settings w_globals (w_db (w_pager true (Some (w_ctx 4096 None)))) 0 outgrown [] with
  | Done ((_, g, Mk_sqlite3 [Mk_db _ (Some b)] _), w) =>
      match pCodec (pPager b) with
      | Some ctx =>
          (pager_error (pg_env (pPager b)), plaintext_header_sz ctx, page_sz ctx,
           match sqlite3Codec g (codec_state_of (pPager b) ctx) (replicate 512 7) 1 CODEC_READ_OP w with
           | Fault e => Some e
           | Done _ => None
           end) = (false, 3984, 512, Some OutOfBounds)
      | None => False
      end
  | _ => False
  end.
Proof. vm_compute. reflexivity. Qed.
