(* ===== verification/SqlKeys.v ===== *)
(** * Keys given through SQL

    Besides [sqlite3_key], which the storage server calls with its tree, a key
    reaches a codec from [ATTACH], from the parameters of a URI file name and
    from [PRAGMA key] ([storage/secure/sec_sqlite3.c]).  All of these pass NULL for
    the tree. *)

From stdpp Require Import base tactics list numbers option.
From Stdlib Require Import ZArith Lia ZifyBool.
From Stdlib Require String.
Import String.StringSyntax.
From S2P Require Import Prelude MtArrList Sha256 MtCrypto MerkleTree MtSerialize.
From S2P Require Import MerkleTheorems CipherUtil Openssl CodecCtx PageCodec PageProofs CodecProofs HookProofs CodecWitness.
From S2P Require Import Integrity Attach AttachProofs AttachWitness Pragma PragmaProofs.

Local Open Scope Z_scope.

(** The key [zBuf] or [zDecoded] holds after the loop over at most [n] hex digits. *)
Fixpoint hex_key (n : nat) (z : list Z) (odd : bool) (iByte : Z) : list Z :=
  match n, z with
  | S n, c :: z =>
      if sqlite3Isxdigit c then
        let iByte := u8 (Z.shiftl iByte 4 + sqlite3HexToInt c) in
        if odd then iByte :: hex_key n z false iByte else hex_key n z true iByte
      else []
  | _, _ => []
  end.

(** The parameters of a URI in their order; the value of the first of a name. *)
Fixpoint sqlite3_uri_parameter (params : list (list Z * list Z)) (zParam : list Z) : option (list Z) :=
  match params with
  | [] => None
  | (name, value) :: params =>
      if bool_decide (name = zParam) then Some value else sqlite3_uri_parameter params zParam
  end.

(** The third argument of the function behind [ATTACH]. *)
Inductive key_value :=
  | KeyInteger
  | KeyFloat
  | KeyText (z : list Z)
  | KeyBlob (z : list Z)
  | KeyNull.

Section sqlkeys.
Context {OS : OpenSSL} {NH : NodeHash} {rest : Type} {PO : PagerOps rest}.

Definition sqlite3BtreeGetReserveNoMutex (b : BtShared rest) : Z := i32 (bt_pageSize b - usableSize b).
Definition sqlite3BtreeGetOptimalReserve (b : BtShared rest) : Z :=
  let n := sqlite3BtreeGetReserveNoMutex b in
  if n <? optimalReserve b then optimalReserve b else n.

(** Whether there was a parameter; the result of [sqlite3_key_v2] is not looked at. *)
Definition sqlite3CodecQueryParameters (g : globals) (db : sqlite3 rest) (zDb : list Z)
    (params : list (list Z * list Z)) : M (Z * globals * sqlite3 rest) :=
  let give (zKey : list Z) (n : Z) : M (Z * globals * sqlite3 rest) :=
    '(_, g, db') ← sqlite3_key_v2 g (Some db) (Some zDb) (Some zKey) n None;
    mret (1, g, default db db') in
  match sqlite3_uri_parameter params (str "hexkey") with
  | Some (c :: z) => let k := hex_key 80 (c :: z) false 0 in give k (Z.of_nat (length k))
  | _ =>
      match sqlite3_uri_parameter params (str "key") with
      | Some z => give z (Z.of_nat (length z))
      | None =>
          match sqlite3_uri_parameter params (str "textkey") with
          | Some z => give z (-1)
          | None => mret (0, g, db)
          end
      end
  end.

(** The codec of the database [ATTACH] has just opened, the last of the
    connection: result, message and connection. *)
Definition attach_codec (g : globals) (db : sqlite3 rest) (zName : list Z) (params : list (list Z * list Z))
    (key : key_value) : M (Z * text * globals * sqlite3 rest) :=
  let last := (length (aDb db) - 1)%nat in
  let attach zKey nKey := '(rc, g, db) ← sqlite3CodecAttach g db last zKey nKey None; mret (rc, NoText, g, db) in
  match key with
  | KeyInteger | KeyFloat => zErrDyn ← sqlite3_mprintf (str "Invalid key value"); mret (SQLITE_ERROR, zErrDyn, g, db)
  | KeyText z | KeyBlob z => attach (match z with [] => None | _ => Some z end) (Z.of_nat (length z))
  | KeyNull =>
      '(seen, g, db) ← sqlite3CodecQueryParameters g db zName params;
      if negb (seen =? 0) then mret (SQLITE_OK, NoText, g, db) else
      main ← get_db db 0;
      b ← deref (pBt main);
      '(zKey, nKey) ← sqlite3CodecGetKey (pCodec (pPager b));
      if negb (nKey =? 0) || (0 <? sqlite3BtreeGetOptimalReserve b) then attach zKey nKey
      else mret (SQLITE_OK, NoText, g, db)
  end.

(** [PRAGMA key] and its relatives: [iArg] is 0 for key, 1 rekey, 2 hexkey, 3
    hexrekey, 4 textkey, 5 textrekey. *)
Definition pragma_key (g : globals) (db : sqlite3 rest) (zDb : option (list Z)) (iArg : Z) (zRight : option (list Z))
  : M (list row * globals * sqlite3 rest) :=
  match zRight with
  | None => mret ([], g, db)
  | Some z =>
      let '(zKey, n) :=
        if (iArg =? 2) || (iArg =? 3) then let k := hex_key 80 z false 0 in (k, Z.of_nat (length k))
        else (z, if iArg <? 4 then Z.of_nat (length z) else -1) in
      '(rc, g, db') ← (if Z.land iArg 1 =? 0 then sqlite3_key_v2 g (Some db) zDb (Some zKey) n None
                       else '(rc, db') ← sqlite3_rekey_v2 g (Some db) zDb (Some zKey) n; mret (rc, g, db'));
      mret (if (rc =? SQLITE_OK) && negb (n =? 0) then [Row (str "ok") (Text (str "ok"))] else [], g, default db db')
  end.

(** ** Commands *)

Inductive key_command :=
  | AttachKey (zName : list Z) (params : list (list Z * list Z)) (key : key_value)
  | PragmaKey (zDb : option (list Z)) (iArg : Z) (zRight : option (list Z)).

(** The connection after a command; for [ATTACH] it already has the new database. *)
Definition run_key_command (g : globals) (db : sqlite3 rest) (c : key_command) : M (globals * sqlite3 rest) :=
  match c with
  | AttachKey zName params key => '(_, _, g, db) ← attach_codec g db zName params key; mret (g, db)
  | PragmaKey zDb iArg zRight => '(_, g, db) ← pragma_key g db zDb iArg zRight; mret (g, db)
  end.

(** The key that databases attached without one share with the main database. *)
Definition main_key (ctx : codec_ctx) (z : list Z) : Prop :=
  exists rd, read_ctx ctx = Some rd /\
    ((keyspec rd = Some z /\ store_pass ctx <> 1 /\ keyspec_sz ctx = Z.of_nat (length z)) \/
     (pass rd = Some z /\ (keyspec rd = None \/ store_pass ctx = 1) /\ pass_sz rd = Z.of_nat (length z))).

(** The command gives a key [z] to the database with index [i]. *)
Inductive gives_key (db : sqlite3 rest) : key_command -> nat -> list Z -> Prop :=
  | gives_text zName params z :
      gives_key db (AttachKey zName params (KeyText z)) (length (aDb db) - 1) z
  | gives_blob zName params z :
      gives_key db (AttachKey zName params (KeyBlob z)) (length (aDb db) - 1) z
  | gives_hex_uri zName params c z :
      sqlite3_uri_parameter params (str "hexkey") = Some (c :: z) ->
      gives_key db (AttachKey zName params KeyNull) (sqlcipher_find_db_index db (Some zName)) (hex_key 80 (c :: z) false 0)
  | gives_uri zName params z :
      sqlite3_uri_parameter params (str "hexkey") = None -> sqlite3_uri_parameter params (str "key") = Some z ->
      gives_key db (AttachKey zName params KeyNull) (sqlcipher_find_db_index db (Some zName)) z
  | gives_main zName b ctx z :
      has_codec db 0 b ctx -> main_key ctx z -> gives_key db (AttachKey zName [] KeyNull) (length (aDb db) - 1) z
  | gives_pragma zDb z :
      gives_key db (PragmaKey zDb 0 (Some z)) (sqlcipher_find_db_index db zDb) z
  | gives_hex_pragma zDb z :
      gives_key db (PragmaKey zDb 2 (Some z)) (sqlcipher_find_db_index db zDb) (hex_key 80 z false 0).

(** ** What becomes of the keys *)

Context {L : OpenSSLLaws OS}.

Lemma attach_null_faults g db i d b z n w :
  aDb db !! i = Some d -> pBt d = Some b -> default_settings g -> EVP_get_cipherbyname = true ->
  n = Z.of_nat (length z) -> n <> 0 -> all_ok w ->
  sqlite3CodecAttach g db i (Some z) n None w = Fault NullDeref.
Proof.
  intros Hd Hb Hg Hcn Hn H0 Hw. unfold sqlite3CodecAttach, get_db. rewrite Hd, bind_ret, Hb, (proj2 (Z.eqb_neq n 0) H0).
  destruct (activate_ok g w Hg Hw) as (g1 & w1 & E1 & Hw1 & Hfr & _). rewrite (bind_done _ _ _ _ _ E1).
  apply bind_fault. by apply ctx_init_null_tree.
Qed.

Lemma key_null_faults g db zDb d b z w :
  aDb db !! sqlcipher_find_db_index db zDb = Some d -> pBt d = Some b -> default_settings g ->
  EVP_get_cipherbyname = true -> z <> [] -> all_ok w ->
  sqlite3_key_v2 g (Some db) zDb (Some z) (Z.of_nat (length z)) None w = Fault NullDeref.
Proof.
  intros Hd Hb Hg Hcn Hz Hw. assert (Hn : Z.of_nat (length z) <> 0) by (destruct z; [done|cbn; lia]).
  unfold sqlite3_key_v2. rewrite (proj2 (Z.eqb_neq _ 0) Hn). apply bind_fault. by eapply attach_null_faults.
Qed.

(** The key of the main database. *)
Lemma get_main_key ctx z w :
  main_key ctx z -> sqlite3CodecGetKey (Some ctx) w = Done ((Some z, Z.of_nat (length z)), w).
Proof.
  intros (rd & Hrd & Hk). unfold sqlite3CodecGetKey, sqlcipher_codec_get_keyspec, sqlcipher_codec_get_pass. rewrite Hrd.
  unfold sqlcipher_codec_get_store_pass, mbind, M_bind, mret, M_ret, deref. cbn -[Z.of_nat].
  destruct Hk as [(-> & Hst & ->)|(Hp & [-> | ->] & Hn)].
  - by rewrite (proj2 (Z.eqb_neq _ _) Hst).
  - by rewrite Hp, Hn.
  - by destruct (keyspec rd); rewrite Hp, Hn.
Qed.

(** The codecs of a connection's databases. *)
Definition codecs (db : sqlite3 rest) : list (option codec_ctx) :=
  (fun d => b ← pBt d; pCodec (pPager b)) <$> aDb db.

Lemma codecs_put db i d b b' :
  aDb db !! i = Some d -> pBt d = Some b -> pCodec (pPager b') = pCodec (pPager b) -> codecs (put_bt db i b') = codecs db.
Proof.
  intros Hd Hb Hc. unfold codecs. cbn [aDb put_bt]. apply list_eq. intros j. rewrite !list_lookup_fmap.
  destruct (decide (j = i)) as [-> |Hj]; [|by rewrite list_lookup_alter_ne].
  rewrite list_lookup_alter_eq, Hd. cbn. by rewrite Hb; cbn; rewrite Hc.
Qed.

(** Without a tree no context is finished, whatever memory there is. *)
Lemma init_null_rc g z n w rc g' c w' :
  sqlcipher_codec_ctx_init g (Some z) n None w = Done ((rc, g', c), w') -> rc <> SQLITE_OK.
Proof.
  unfold sqlcipher_codec_ctx_init. intros H. minv H. dif H; [by injection H as <- _ _ _|].
  do 2 minv H. destruct a0 as [salt|]; [|by injection H as <- _ _ _]. destruct a1 as [hs|]; [|by injection H as <- _ _ _].
  minv H. dif H; [by injection H as <- _ _ _|]. do 2 minv H. destruct a2 as [[rc1 og] pc].
  case_match eqn:R1; [injection H as <- _ _ _; lia|].
  minv H. destruct a2 as [rc2 c2]. case_match eqn:R2; [injection H as <- _ _ _; lia|].
  destruct (sqlcipher_codec_ctx_set_kdf_iter _ _) as [? c3]. destruct (sqlcipher_codec_ctx_set_fast_kdf_iter _ _) as [? c4].
  destruct (sqlcipher_codec_ctx_set_hmac_algorithm _ _) as [? c5]. destruct (sqlcipher_codec_ctx_set_use_hmac _ _) as [? c6].
  destruct (sqlcipher_codec_ctx_set_kdf_algorithm _ _) as [? c7].
  destruct (sqlcipher_codec_ctx_set_plaintext_header_size _ _) as [rc8 c8].
  case_match eqn:R8; [injection H as <- _ _ _; lia|].
  minv H. destruct a2 as [rc9 c9]. case_match eqn:R9; [injection H as <- _ _ _; lia|].
  by minv H.
Qed.

Lemma attach_null_rc g db i d b z n w rc g' db' w' :
  aDb db !! i = Some d -> pBt d = Some b -> n <> 0 ->
  sqlite3CodecAttach g db i (Some z) n None w = Done ((rc, g', db'), w') ->
  rc <> SQLITE_OK /\ codecs db' = codecs db.
Proof.
  intros Hd Hb Hn. unfold sqlite3CodecAttach, get_db. rewrite Hd, bind_ret, Hb, (proj2 (Z.eqb_neq n 0) Hn).
  intros H. do 2 minv H. destruct a0 as [[rc1 g1] c]. apply init_null_rc in E0.
  rewrite (proj2 (Z.eqb_neq rc1 SQLITE_OK) E0) in H. injection H as <- _ <- _. split; [done|].
  by eapply codecs_put.
Qed.

Lemma key_null_rc g db zDb d b z n w rc g' db' w' :
  aDb db !! sqlcipher_find_db_index db zDb = Some d -> pBt d = Some b -> n <> 0 ->
  sqlite3_key_v2 g (Some db) zDb (Some z) n None w = Done ((rc, g', db'), w') ->
  rc <> SQLITE_OK /\ exists db1, db' = Some db1 /\ codecs db1 = codecs db.
Proof.
  intros Hd Hb Hn. unfold sqlite3_key_v2. rewrite (proj2 (Z.eqb_neq n 0) Hn). intros H. minv H.
  destruct a as [[rc1 g1] db1]. injection H as <- _ <- _.
  destruct (attach_null_rc _ _ _ _ _ _ _ _ _ _ _ _ Hd Hb Hn E) as [? ?]. split; [done|]. by exists db1.
Qed.

Lemma sql_key_runs_into_tree g db c i z d b w :
  gives_key db c i z -> z <> [] -> aDb db !! i = Some d -> pBt d = Some b ->
  default_settings g -> EVP_get_cipherbyname = true -> all_ok w ->
  run_key_command g db c w = Fault NullDeref.
Proof.
  intros Hc Hz Hd Hb Hg Hcn Hw. assert (Hn : Z.of_nat (length z) <> 0) by (destruct z; [done|cbn; lia]).
  assert (Hatt : forall zKey, zKey = Some z -> sqlite3CodecAttach g db i zKey (Z.of_nat (length z)) None w = Fault NullDeref)
    by (intros ? ->; by eapply attach_null_faults).
  destruct Hc as [zName params z|zName params z|zName params ch z Hu|zName params z Hu1 Hu2|zName bm ctx z Hm Hk|zDb z|zDb z];
    cbn [run_key_command]; apply bind_fault.
  - unfold attach_codec. apply bind_fault, Hatt. by destruct z.
  - unfold attach_codec. apply bind_fault, Hatt. by destruct z.
  - unfold attach_codec, sqlite3CodecQueryParameters. rewrite Hu. do 2 apply bind_fault. by eapply key_null_faults.
  - unfold attach_codec, sqlite3CodecQueryParameters. rewrite Hu1, Hu2. do 2 apply bind_fault. by eapply key_null_faults.
  - unfold attach_codec, sqlite3CodecQueryParameters. cbn [sqlite3_uri_parameter]. rewrite bind_ret.
    change (negb (0 =? 0)) with false. cbv iota. destruct Hm as (dm & Hdm & Hbm & Hcm).
    unfold get_db. rewrite Hdm, bind_ret, Hbm. cbn [deref]. rewrite bind_ret, Hcm.
    rewrite (bind_done _ _ _ _ _ (get_main_key ctx z w Hk)), (proj2 (Z.eqb_neq _ 0) Hn). by apply bind_fault, Hatt.
  - unfold pragma_key. cbn -[Z.of_nat]. apply bind_fault. by eapply key_null_faults.
  - unfold pragma_key. change ((2 =? 2) || (2 =? 3)) with true. cbv iota zeta beta.
    change (Z.land 2 1 =? 0) with true. cbv iota. apply bind_fault. by eapply key_null_faults.
Qed.

Lemma sql_key_not_attached g db c i z d b w g' db' w' :
  gives_key db c i z -> z <> [] -> aDb db !! i = Some d -> pBt d = Some b ->
  run_key_command g db c w = Done ((g', db'), w') -> codecs db' = codecs db.
Proof.
  intros Hc Hz Hd Hb. assert (Hn : Z.of_nat (length z) <> 0) by (destruct z; [done|cbn; lia]).
  assert (Hatt : forall zKey w rc g' db' w', zKey = Some z ->
      sqlite3CodecAttach g db i zKey (Z.of_nat (length z)) None w = Done ((rc, g', db'), w') -> codecs db' = codecs db)
    by (intros ? ? ? ? ? ? -> H; by eapply attach_null_rc).
  assert (Hkey : forall zDb w rc g' db' w', i = sqlcipher_find_db_index db zDb ->
      sqlite3_key_v2 g (Some db) zDb (Some z) (Z.of_nat (length z)) None w = Done ((rc, g', db'), w') ->
      codecs (default db db') = codecs db).
  { intros ? ? ? ? ? ? -> H. by destruct (key_null_rc _ _ _ _ _ _ _ _ _ _ _ _ Hd Hb Hn H) as (_ & ? & -> & ?). }
  destruct Hc as [zName params z|zName params z|zName params ch z Hu|zName params z Hu1 Hu2|zName bm ctx z Hm Hk|zDb z|zDb z];
    cbn [run_key_command]; intros H; minv H.
  1,2: destruct a as [[[rc t] g1] db1]; injection H as <- <- <-; minv E; destruct a as [[rc' g2] db2];
    injection E as <- <- <- <- <-; eapply Hatt, E0; by destruct z.
  1,2: destruct a as [[[rc t] g1] db1]; injection H as <- <- <-; minv E; destruct a as [[seen g2] db2];
    unfold sqlite3CodecQueryParameters in E0; rewrite ?Hu, ?Hu1, ?Hu2 in E0; minv E0; destruct a as [[rc' g3] db3];
    injection E0 as <- <- <- <-; injection E as <- <- <- <- <-; by eapply Hkey.
  - destruct a as [[[rc t] g1] db1]; injection H as <- <- <-. unfold attach_codec, sqlite3CodecQueryParameters in E.
    cbn [sqlite3_uri_parameter] in E. rewrite bind_ret in E. change (negb (0 =? 0)) with false in E. cbv iota in E.
    destruct Hm as (dm & Hdm & Hbm & Hcm). unfold get_db in E. rewrite Hdm, bind_ret, Hbm in E. cbn [deref] in E.
    rewrite bind_ret, Hcm, (bind_done _ _ _ _ _ (get_main_key ctx z w Hk)), (proj2 (Z.eqb_neq _ 0) Hn) in E.
    minv E. destruct a as [[rc' g2] db2]. injection E as <- <- <- <- <-. by eapply Hatt.
  - destruct a as [[rows g1] db1]; injection H as <- <- <-. unfold pragma_key in E. cbn -[Z.of_nat] in E. minv E.
    destruct a as [[rc' g2] db2]. injection E as <- <- <- <-. by eapply Hkey.
  - destruct a as [[rows g1] db1]; injection H as <- <- <-. unfold pragma_key in E.
    change ((2 =? 2) || (2 =? 3)) with true in E. cbv iota zeta beta in E. change (Z.land 2 1 =? 0) with true in E.
    cbv iota in E. minv E. destruct a as [[rc' g2] db2]. injection E as <- <- <- <-. by eapply Hkey.
Qed.

(** C35. A database does not get a codec through SQL.  A command that gives a first,
    non-empty key to an open database ([ATTACH] with a key of its own, with [key]
    or [hexkey] in the file name or without a key on a connection whose main
    database has one, [PRAGMA key], [PRAGMA hexkey]) dereferences the NULL tree
    when there is memory; when it returns, because memory ran out before, every
    database has the codec it had.  [textkey], for which the length -1 is passed,
    is not covered, and changing the key of a database that has one
    ([PRAGMA rekey]) is another matter. *)
Theorem sql_key_faults g db c i z d b :
  gives_key db c i z -> z <> [] -> aDb db !! i = Some d -> pBt d = Some b ->
  (forall w, default_settings g -> EVP_get_cipherbyname = true -> all_ok w ->
     run_key_command g db c w = Fault NullDeref) /\
  (forall w g' db' w', run_key_command g db c w = Done ((g', db'), w') -> codecs db' = codecs db).
Proof.
  intros Hc Hz Hd Hb. split; intros.
  - by eapply sql_key_runs_into_tree.
  - by eapply sql_key_not_attached.
Qed.
End sqlkeys.

#[local] Existing Instance toy_openssl.
#[local] Existing Instance toy_openssl_laws.

(** A keyed main database, and the new one [VACUUM] attaches without a key. *)
Definition w_two : sqlite3 (list Z) :=
  Mk_sqlite3 [Mk_db main_name (Some (Mk_bt 0 4096 4096 0 0 0 (w_pager true (Some (w_ready [115])))));
              Mk_db (str "vacuum_db") (Some (Mk_bt 0 4096 4096 0 0 0 (w_pager false None)))] 4096.

Lemma sql_key_faults_witness :
  run_key_command w_globals w_two (AttachKey (str "vacuum_db") [] KeyNull) [] = Fault NullDeref.
Proof.
  eapply (sql_key_faults w_globals w_two (AttachKey (str "vacuum_db") [] KeyNull) 1 [115]);
    [|done|reflexivity|reflexivity|by (split_and!; try done; right)|done|constructor].
  eapply (gives_main w_two _ _ (w_ready [115]) [115]); [by eexists|].
  eexists. split; [reflexivity|]. right. split_and!; try done. by left.
Defined.
