(* ===== verification/Migrate.v ===== *)
(** * Migrating old databases

    Model of [sqlcipher_check_connection] and [sqlcipher_codec_ctx_migrate]
    ([storage/secure/sec_sqlite3.c]), behind [PRAGMA cipher_migrate].  SQL execution,
    opening connections and the calls of the operating system are the interface
    [MigrateOps]; keys and codecs are those of [Attach]. *)

From stdpp Require Import base tactics list numbers option.
From Stdlib Require Import ZArith Lia ZifyBool.
From Stdlib Require String.
Import String.StringSyntax.
From S2P Require Import Prelude MtArrList Sha256 MtCrypto MerkleTree MtSerialize.
From S2P Require Import MerkleTheorems CipherUtil Openssl CodecCtx PageCodec PageProofs CodecProofs HookProofs CodecWitness.
From S2P Require Import Integrity Attach AttachProofs AttachWitness Pragma PragmaProofs SqlKeys.

Local Open Scope Z_scope.

Definition SQLITE_ROW : Z := 100.
Definition SQLITE_MISUSE : Z := 21.

(** A string that may be NULL, where NULL counts as empty: [sqlite3_exec],
    [sqlite3Strlen30], [%s]. *)
Definition chars (t : text) : list Z := match t with Text s => s | _ => [] end.

Section migrate.
Context {OS : OpenSSL} {NH : NodeHash} {rest : Type} {PO : PagerOps rest}.

(** [sqlite3_open k] is the [k]-th connection opened during the migration. *)
Class MigrateOps := {
  stmt : Type;
  sqlite3_db_filename : sqlite3 rest -> option (list Z);
  sqlite3_open : nat -> list Z -> Z * option (sqlite3 rest);
  sqlite3_close : globals -> sqlite3 rest -> M globals;
  sqlite3_exec : globals -> sqlite3 rest -> list Z -> M (Z * globals * sqlite3 rest);
  sqlite3_prepare : globals -> sqlite3 rest -> list Z -> M (Z * globals * sqlite3 rest * option stmt);
  sqlite3_step : globals -> sqlite3 rest -> stmt -> M (Z * globals * sqlite3 rest * stmt);
  sqlite3_finalize : globals -> sqlite3 rest -> stmt -> M (globals * sqlite3 rest);
  sqlite3_column_int : stmt -> Z;
  sqlite3_column_text : stmt -> list Z;
  autoCommit : sqlite3 rest -> bool;
  nVdbeActive : sqlite3 rest -> Z;
  sqlite3OsClose : Pager rest -> Pager rest;
  sqlite3OsOpen : Pager rest -> list Z -> Z * Pager rest;
  os_rename : list Z -> list Z -> Z;
  sqlite3OsDelete : list Z -> Z;
  sqlite3ResetAllSchemasOfConnection : sqlite3 rest -> sqlite3 rest;
}.
Context {MO : MigrateOps}.

(** ** Trying a key *)

(** [cleanup:] *)
Definition check_cleanup (g : globals) (db : option (sqlite3 rest)) (statement : option stmt) (rc user_version : Z)
    (journal_mode : text) : M (Z * globals * Z * text) :=
  match db with
  | None => mret (rc, g, user_version, journal_mode)
  | Some db =>
      '(g, db) ← (match statement with None => mret (g, db) | Some s => sqlite3_finalize g db s end);
      g ← sqlite3_close g db;
      mret (rc, g, user_version, journal_mode)
  end.

(** Prepare and step a query; the statement is NULL when it cannot be prepared. *)
Definition one_row (g : globals) (db : sqlite3 rest) (sql : list Z) : M (Z * globals * sqlite3 rest * option stmt) :=
  '(rc, g, db, s) ← sqlite3_prepare g db sql;
  if negb (rc =? SQLITE_OK) then mret (rc, g, db, s) else
  match s with
  | None => mret (SQLITE_MISUSE, g, db, None)
  | Some s => '(rc, g, db, s) ← sqlite3_step g db s; mret (rc, g, db, Some s)
  end.

(** Result, and the two values read so far. *)
Definition sqlcipher_check_connection (k : nat) (g : globals) (filename key : list Z) (key_sz : Z) (sql : list Z)
    (user_version : Z) (journal_mode : text) : M (Z * globals * Z * text) :=
  let '(rc, db) := sqlite3_open k filename in
  if negb (rc =? SQLITE_OK) then check_cleanup g db None rc user_version journal_mode else
  '(rc, g, db) ← sqlite3_key g db (Some key) key_sz None;
  if negb (rc =? SQLITE_OK) then check_cleanup g db None rc user_version journal_mode else
  db ← deref db;
  '(rc, g, db) ← sqlite3_exec g db sql;
  if negb (rc =? SQLITE_OK) then check_cleanup g (Some db) None rc user_version journal_mode else
  '(rc, g, db, s) ← one_row g db (str "PRAGMA user_version;");
  match s with
  | Some s =>
      if negb (rc =? SQLITE_ROW) then check_cleanup g (Some db) (Some s) rc user_version journal_mode else
      let user_version := sqlite3_column_int s in
      '(g, db) ← sqlite3_finalize g db s;
      '(rc, g, db, s) ← one_row g db (str "PRAGMA journal_mode;");
      match s with
      | Some s =>
          if negb (rc =? SQLITE_ROW) then check_cleanup g (Some db) (Some s) rc user_version journal_mode else
          journal_mode ← sqlite3_mprintf (sqlite3_column_text s);
          check_cleanup g (Some db) (Some s) SQLITE_OK user_version journal_mode
      | None => check_cleanup g (Some db) None rc user_version journal_mode
      end
  | None => check_cleanup g (Some db) None rc user_version journal_mode
  end.

(** The old versions in turn; the command that makes a connection understand the
    one that was found. *)
Fixpoint find_version (versions : list Z) (k : nat) (g : globals) (filename pass : list Z) (pass_sz user_version : Z)
    (journal_mode : text) : M (globals * option (text * Z * text)) :=
  match versions with
  | [] => mret (g, None)
  | i :: versions =>
      pragma_compat ← sqlite3_mprintf (str "PRAGMA cipher_compatibility = " ++ print_int i ++ str ";");
      '(rc, g, user_version, journal_mode) ←
        sqlcipher_check_connection k g filename pass pass_sz (chars pragma_compat) user_version journal_mode;
      if rc =? SQLITE_OK then mret (g, Some (pragma_compat, user_version, journal_mode))
      else find_version versions (S k) g filename pass pass_sz user_version journal_mode
  end.

(** ** The migration proper *)

(** A step that ends the migration in [handle_error:] when it fails. *)
Definition or_error (f : M (Z * globals * sqlite3 rest))
    (next : globals -> sqlite3 rest -> M (Z * globals * sqlite3 rest)) : M (Z * globals * sqlite3 rest) :=
  '(rc, g, db) ← f;
  if negb (rc =? SQLITE_OK) then mret (SQLITE_ERROR, g, db) else next g db.

Definition exec_step (sql : list Z) (g : globals) (db : sqlite3 rest)
    (next : globals -> sqlite3 rest -> M (Z * globals * sqlite3 rest)) : M (Z * globals * sqlite3 rest) :=
  or_error (sqlite3_exec g db sql) next.

(** [db->aDb[i].pBt] *)
Definition btree_of (db : sqlite3 rest) (i : nat) : M (BtShared rest) := d ← get_db db i; deref (pBt d).

Definition on_pager (db : sqlite3 rest) (i : nat) (f : Pager rest -> Pager rest) : M (sqlite3 rest) :=
  b ← btree_of db i; mret (put_bt db i (put_pager b (f (pPager b)))).

Definition reopen (db : sqlite3 rest) (i : nat) (name : list Z) (g : globals) : M (Z * globals * sqlite3 rest) :=
  b ← btree_of db i;
  let '(rc, p) := sqlite3OsOpen (pPager b) name in
  mret (rc, g, put_bt db i (put_pager b p)).

(** From the exported copy in the last database to the main database. *)
Definition swap_files (db_filename migrated journal_mode : list Z) (g : globals) (db : sqlite3 rest)
  : M (Z * globals * sqlite3 rest) :=
  let last := (length (aDb db) - 1)%nat in
  if negb (autoCommit db) then mret (SQLITE_ERROR, g, db) else
  if 1 <? nVdbeActive db then mret (SQLITE_ERROR, g, db) else
  pDest ← btree_of db 0;
  pSrc ← btree_of db last;
  let nRes := sqlite3BtreeGetOptimalReserve pSrc in
  let pDest := put_flags pDest (Z.land (btsFlags pDest) (Z.lnot BTS_PAGESIZE_FIXED)) in
  '(rc, pDest) ← sqlite3BtreeSetPageSize pDest (default_page_size g) nRes 0;
  let db := put_bt db 0 pDest in
  if negb (rc =? SQLITE_OK) then mret (SQLITE_ERROR, g, db) else
  pSrc ← btree_of db last;
  '(keyspec, keyspec_sz) ← sqlite3CodecGetKey (pCodec (pPager pSrc));
  '(_, g, db) ← sqlite3CodecAttach g db 0 keyspec keyspec_sz None;
  db ← on_pager db last sqlite3OsClose;
  db ← on_pager db 0 sqlite3OsClose;
  if negb (os_rename migrated db_filename =? 0) then mret (SQLITE_ERROR, g, db) else
  or_error (reopen db last migrated g) (fun g db =>
  or_error (reopen db 0 db_filename g) (fun g db =>
  db ← on_pager db 0 (fun p => Mk_pager (xCodec p) (xCodecFree p) (pCodec p) (memDb p) (pageSize p)
                                 (pg_env p) (pg_rng p) (pg_stats p) (pager_reset (pg_rest p)));
  '(rc, g, db) ← sqlite3_exec g db (str "DETACH DATABASE migrate;");
  if negb (rc =? SQLITE_OK) then mret (rc, g, db) else
  if negb (sqlite3OsDelete migrated =? SQLITE_OK) then mret (SQLITE_ERROR, g, db) else
  let db := sqlite3ResetAllSchemasOfConnection db in
  set_journal_mode ← sqlite3_mprintf (str "PRAGMA journal_mode = " ++ journal_mode ++ str ";");
  exec_step (chars set_journal_mode) g db (fun g db => mret (SQLITE_OK, g, db)))).

(** [migrate:] *)
Definition migrate_found (g : globals) (db : sqlite3 rest) (db_filename pass : list Z) (pass_sz : Z)
    (pragma_compat : text) (user_version : Z) (journal_mode : text) : M (Z * globals * sqlite3 rest) :=
  temp ← sqlite3_mprintf (db_filename ++ str "-migrated");
  m ← sqlcipher_malloc (Z.of_nat (length (chars temp)) + 2);
  migrated ← (match m, chars temp with
              | None, [] => mret []
              | None, _ => throw NullDeref
              | Some _, z => mret z
              end);
  attach_command ← sqlite3_mprintf (str "ATTACH DATABASE '" ++ migrated ++ str "' as migrate;");
  set_user_version ← sqlite3_mprintf (str "PRAGMA migrate.user_version = " ++ print_int user_version ++ str ";");
  exec_step (chars pragma_compat) g db (fun g db =>
  exec_step (str "PRAGMA journal_mode = delete;") g db (fun g db =>
  exec_step (chars attach_command) g db (fun g db =>
  or_error ('(rc, g, db') ← sqlite3_key_v2 g (Some db) (Some (str "migrate")) (Some pass) pass_sz None;
            mret (rc, g, default db db')) (fun g db =>
  exec_step (str "SELECT sqlcipher_export('migrate');") g db (fun g db =>
  exec_step (chars set_user_version) g db (fun g db =>
  swap_files db_filename migrated (chars journal_mode) g db)))))).

(** [sqlcipher_codec_ctx_migrate] on the context of [aDb[i]]. *)
Definition migrate_database (g : globals) (db : sqlite3 rest) (i : nat) : M (Z * globals * sqlite3 rest) :=
  b ← btree_of db i;
  ctx ← deref (pCodec (pPager b));
  match sqlite3_db_filename db with
  | None | Some [] => mret (SQLITE_OK, g, db)
  | Some db_filename =>
      rd ← deref (read_ctx ctx);
      m ← sqlcipher_malloc (pass_sz rd + 1);
      m ← deref m;
      material ← (if pass_sz rd =? 0 then mret [] else p ← deref (pass rd); buf_read 0 (pass_sz rd) p);
      p ← buf_write 0 material m;
      '(rc, g, user_version, journal_mode) ← sqlcipher_check_connection 0 g db_filename p (pass_sz rd) [] 0 NoText;
      if rc =? SQLITE_OK then mret (rc, g, db) else
      '(g, found) ← find_version [3; 2; 1] 1 g db_filename p (pass_sz rd) user_version journal_mode;
      match found with
      | None => mret (SQLITE_ERROR, g, db)
      | Some (pragma_compat, user_version, journal_mode) =>
          migrate_found g db db_filename p (pass_sz rd) pragma_compat user_version journal_mode
      end
  end.

(** A connection that could be opened has an open main database; closing one returns. *)
Class MigrateLaws := {
  open_law k f c : sqlite3_open k f = (SQLITE_OK, Some c) ->
    exists d b, aDb c !! sqlcipher_find_db_index c (Some main_name) = Some d /\ pBt d = Some b;
  close_law g c : runs (sqlite3_close g c) (fun _ => True);
}.
Context {L : OpenSSLLaws OS} {ML : MigrateLaws}.

(** ** A key followed by other bytes *)

Lemma set_pass_tail c z t w :
  sqlcipher_cipher_ctx_set_pass c (Some (z ++ t)) (Z.of_nat (length z)) w
  = sqlcipher_cipher_ctx_set_pass c (Some z) (Z.of_nat (length z)) w.
Proof.
  unfold sqlcipher_cipher_ctx_set_pass. case_match; [done|]. apply bind_ext_r. intros [m|] w'; [|done].
  apply bind_ext_l. rewrite (read_whole z _ w' eq_refl). by apply (buf_read_at [] z t).
Qed.

(** Go along two computations as long as they are the same. *)
Ltac along := repeat first
  [ match goal with |- ?x = ?x => reflexivity end
  | match goal with |- (?m ≫= _) _ = (?m ≫= _) _ => apply bind_ext_r; intros ? ? end
  | match goal with |- (if ?c then _ else _) _ = (if ?c then _ else _) _ => destruct c end ].

Lemma init_tail g z t tr w :
  sqlcipher_codec_ctx_init g (Some (z ++ t)) (Z.of_nat (length z)) tr w
  = sqlcipher_codec_ctx_init g (Some z) (Z.of_nat (length z)) tr w.
Proof.
  assert (Hpass : forall ctx w, sqlcipher_codec_ctx_set_pass ctx (Some (z ++ t)) (Z.of_nat (length z)) 0 w
      = sqlcipher_codec_ctx_set_pass ctx (Some z) (Z.of_nat (length z)) 0 w).
  { intros ctx w1. unfold sqlcipher_codec_ctx_set_pass. along. apply bind_ext_l, set_pass_tail. }
  assert (Hmat : forall ctx w, init_key_material ctx (Some (z ++ t)) (Z.of_nat (length z)) w
      = init_key_material ctx (Some z) (Z.of_nat (length z)) w).
  { intros ctx w1. unfold init_key_material. along. apply bind_ext_l, Hpass. }
  unfold sqlcipher_codec_ctx_init. along. destruct a0; [|along]. destruct a1; [|along]. along.
  destruct a2 as [[rc1 og] pc]. along. destruct a2 as [rc2 c2]. along.
  destruct (sqlcipher_codec_ctx_set_kdf_iter _ _) as [? c3]. destruct (sqlcipher_codec_ctx_set_fast_kdf_iter _ _) as [? c4].
  destruct (sqlcipher_codec_ctx_set_hmac_algorithm _ _) as [? c5]. destruct (sqlcipher_codec_ctx_set_use_hmac _ _) as [? c6].
  destruct (sqlcipher_codec_ctx_set_kdf_algorithm _ _) as [? c7].
  destruct (sqlcipher_codec_ctx_set_plaintext_header_size _ _) as [rc8 c8]. along. apply bind_ext_l, Hmat.
Qed.

(** ** No connection is ever accepted *)

Lemma cleanup_rc g db st rc uv jm w r g' uv' jm' w' :
  check_cleanup g db st rc uv jm w = Done ((r, g', uv', jm'), w') -> r = rc.
Proof.
  unfold check_cleanup. intros H. destruct db as [db|]; [|by injection H]. minv H. destruct a as [g1 db1]. minv H. by injection H.
Qed.

Lemma check_never_ok k g f key n sql uv jm w rc g' uv' jm' w' :
  sqlcipher_check_connection k g f key n sql uv jm w = Done ((rc, g', uv', jm'), w') -> rc <> SQLITE_OK.
Proof.
  unfold sqlcipher_check_connection. destruct (sqlite3_open k f) as [rc0 db] eqn:Eo. intros H.
  destruct (negb (rc0 =? SQLITE_OK)) eqn:E0; [apply cleanup_rc in H; lia|].
  minv H. destruct a as [[rc1 g1] db1]. assert (Hrc1 : rc1 <> SQLITE_OK).
  { unfold sqlite3_key in E. destruct db as [c|]; [|by injection E as <-].
    destruct (open_law k f c) as (d & b & Hd & Hb); [rewrite Eo; f_equal; lia|].
    destruct (decide (n = 0)) as [-> |Hn]; [by injection E as <-|].
    by destruct (key_null_rc _ _ _ _ _ _ _ _ _ _ _ _ Hd Hb Hn E). }
  rewrite (proj2 (Z.eqb_neq _ _) Hrc1) in H. by apply cleanup_rc in H as ->.
Qed.

Lemma find_version_none vs k g f p n uv jm w g' found w' :
  find_version vs k g f p n uv jm w = Done ((g', found), w') -> found = None.
Proof.
  revert k g uv jm w. induction vs as [|v vs IH]; intros k g uv jm w H; [by injection H|]. cbn [find_version] in H.
  do 2 minv H. destruct a0 as [[[rc g1] uv1] jm1]. apply check_never_ok in E0.
  rewrite (proj2 (Z.eqb_neq _ _) E0) in H. by apply IH in H.
Qed.

(** With an empty key every attempt is refused, and the connection closed again. *)
Lemma runs_check_empty k g f key sql uv jm :
  runs (sqlcipher_check_connection k g f key 0 sql uv jm) (fun '(rc, _, _, _) => rc <> SQLITE_OK).
Proof.
  assert (Hclean : forall db rc g, rc <> SQLITE_OK ->
      runs (check_cleanup g db None rc uv jm) (fun '(r, _, _, _) => r <> SQLITE_OK)).
  { intros [c|] rc g1 Hrc; [|by apply runs_ret]. unfold check_cleanup.
    eapply (runs_bind _ _ (fun x => x = (g1, c))); [by apply runs_ret|]. intros ? ->.
    eapply runs_bind; [apply close_law|]. intros g2 _. by apply runs_ret. }
  unfold sqlcipher_check_connection. destruct (sqlite3_open k f) as [rc db].
  destruct (negb (rc =? SQLITE_OK)) eqn:E0; [apply Hclean; lia|].
  eapply (runs_bind _ _ (fun x => x = (SQLITE_ERROR, g, db))); [by destruct db; apply runs_ret|]. intros ? ->.
  change (negb (SQLITE_ERROR =? SQLITE_OK)) with true. cbv iota beta. by apply Hclean.
Qed.

Lemma runs_find_empty vs k g f p uv jm :
  runs (find_version vs k g f p 0 uv jm) (fun '(_, found) => found = None).
Proof.
  revert k g uv jm. induction vs as [|v vs IH]; intros k g uv jm; [by apply runs_ret|]. cbn [find_version].
  eapply (runs_bind _ _ (fun _ => True)).
  { eapply runs_bind; [apply runs_request|]. intros ok _. by apply runs_ret. }
  intros t _. eapply runs_bind; [apply runs_check_empty|]. intros [[[rc g1] uv1] jm1] Hrc. cbv beta iota in Hrc.
  rewrite (proj2 (Z.eqb_neq _ _) Hrc). apply IH.
Qed.

(** ** What the migration does *)

Definition pass_stored (c : cipher_ctx) : Prop :=
  match pass c with Some p => Z.of_nat (length p) = pass_sz c | None => pass_sz c = 0 end.

(** On a database in a file: the passphrase is copied, with a 0 behind it, and tried. *)
Lemma migrate_tries g db i b ctx rd f w :
  has_codec db i b ctx -> read_ctx ctx = Some rd -> pass_stored rd ->
  sqlite3_db_filename db = Some f -> f <> [] -> all_ok w ->
  exists z w1, Z.of_nat (length z) = pass_sz rd /\ all_ok w1 /\
    migrate_database g db i w =
    ('(rc, g, user_version, journal_mode) ← sqlcipher_check_connection 0 g f (z ++ [0]) (pass_sz rd) [] 0 NoText;
     if rc =? SQLITE_OK then mret (rc, g, db) else
     '(g, found) ← find_version [3; 2; 1] 1 g f (z ++ [0]) (pass_sz rd) user_version journal_mode;
     match found with
     | None => mret (SQLITE_ERROR, g, db)
     | Some (pragma_compat, user_version, journal_mode) =>
         migrate_found g db f (z ++ [0]) (pass_sz rd) pragma_compat user_version journal_mode
     end) w1.
Proof.
  intros (d & Hd & Hb & Hc) Hrd Hp Hf Hf0 Hw. unfold migrate_database, btree_of, get_db.
  rewrite Hd, !bind_assoc, bind_ret, Hb. cbn [deref]. rewrite bind_ret, Hc. cbn [deref]. rewrite bind_ret, Hf.
  destruct f as [|ch f]; [done|]. rewrite Hrd. cbn [deref]. rewrite bind_ret.
  assert (Hz : exists z, Z.of_nat (length z) = pass_sz rd /\ forall w,
      (if pass_sz rd =? 0 then mret [] else p ← deref (pass rd); buf_read 0 (pass_sz rd) p) w = Done (z, w)).
  { unfold pass_stored in Hp. destruct (pass_sz rd =? 0) eqn:E0; [exists []; split; [cbn; lia|done]|].
    destruct (pass rd) as [p|]; [|lia]. exists p. split; [done|]. intros w1. cbn [deref]. rewrite bind_ret. by apply read_whole. }
  destruct Hz as (z & Hz & Hmat). alloc_step. cbn [deref]. rewrite bind_ret, (bind_done _ _ _ _ _ (Hmat _)).
  assert (Hrep : replicate (Z.to_nat (pass_sz rd + 1)) 0 = replicate (length z) 0 ++ [0])
    by (rewrite <- Hz, Z2Nat.inj_add, Nat2Z.id, replicate_add by lia; done).
  rewrite Hrep. erewrite bind_done; [|apply (buf_write_at [] (replicate (length z) 0) z [0]); [done|by rewrite length_replicate]].
  by eexists z, _.
Qed.

(** C36. [PRAGMA cipher_migrate] never migrates.  On a database in a file, whatever
    happens to memory: when the function returns, it returns an error and has left
    the connection as it was.  It does return when the passphrase is gone because
    the keys have been derived; when there still is one and the database can be
    opened, the process ends on the NULL tree. *)
Theorem migrate_never_migrates g db i b ctx rd f :
  has_codec db i b ctx -> read_ctx ctx = Some rd -> pass_stored rd ->
  sqlite3_db_filename db = Some f -> f <> [] ->
  (forall w rc g' db' w', migrate_database g db i w = Done ((rc, g', db'), w') -> rc = SQLITE_ERROR /\ db' = db) /\
  (forall w, pass_sz rd = 0 -> all_ok w ->
     exists g' w', migrate_database g db i w = Done ((SQLITE_ERROR, g', db), w') /\ all_ok w') /\
  (forall w c, pass_sz rd <> 0 -> sqlite3_open 0 f = (SQLITE_OK, Some c) ->
     default_settings g -> EVP_get_cipherbyname = true -> all_ok w ->
     migrate_database g db i w = Fault NullDeref).
Proof.
  intros Hcodec Hrd Hp Hf Hf0. split_and!.
  - intros w rc g' db' w' H. unfold migrate_database in H. do 2 minv H. rewrite Hf in H. destruct f; [done|].
    do 6 minv H. destruct a6 as [[[rc1 g1] uv1] jm1].
    match goal with E : sqlcipher_check_connection _ _ _ _ _ _ _ _ _ = _ |- _ => apply check_never_ok in E as Hrc end.
    rewrite (proj2 (Z.eqb_neq _ _) Hrc) in H. minv H. destruct a6 as [g2 found].
    match goal with E : find_version _ _ _ _ _ _ _ _ _ = _ |- _ => apply find_version_none in E as -> end.
    by injection H as <- _ <- _.
  - intros w H0 Hw. destruct (migrate_tries g db i b ctx rd f w) as (z & w1 & _ & Hw1 & ->); [done..|]. rewrite H0.
    destruct (runs_check_empty 0 g f (z ++ [0]) [] 0 NoText w1 Hw1) as ([[[rc1 g1] uv1] jm1] & w2 & E & Hw2 & Hrc).
    cbv beta iota in Hrc. rewrite (bind_done _ _ _ _ _ E), (proj2 (Z.eqb_neq _ _) Hrc).
    destruct (runs_find_empty [3; 2; 1] 1 g1 f (z ++ [0]) uv1 jm1 w2 Hw2) as ([g2 found] & w3 & E3 & Hw3 & Hn).
    cbv beta iota in Hn. subst found. rewrite (bind_done _ _ _ _ _ E3). by eexists _, _.
  - intros w c H0 Ho Hg Hcn Hw. destruct (migrate_tries g db i b ctx rd f w) as (z & w1 & Hz & Hw1 & ->); [done..|].
    apply bind_fault. unfold sqlcipher_check_connection. rewrite Ho. change (negb (SQLITE_OK =? SQLITE_OK)) with false.
    cbv iota. apply bind_fault. unfold sqlite3_key, sqlite3_key_v2. rewrite (proj2 (Z.eqb_neq _ _) H0).
    destruct (open_law 0 f c Ho) as (d & b0 & Hd & Hb). apply bind_fault.
    unfold sqlite3CodecAttach, get_db. rewrite Hd, bind_ret, Hb, (proj2 (Z.eqb_neq _ _) H0).
    destruct (activate_ok g w1 Hg Hw1) as (g1 & w2 & E1 & Hw2 & Hfr & _). rewrite (bind_done _ _ _ _ _ E1).
    apply bind_fault. rewrite <- Hz, init_tail. apply ctx_init_null_tree; [done|done|done|lia|done].
Qed.

(** ** The command *)

Section command.
Context (version_text cipher_text : list Z) (can_open : list Z -> bool).

#[local] Instance migrate_env : PragmaEnv rest := {|
  OPENSSL_VERSION_TEXT := version_text;
  openssl_cipher := cipher_text;
  fopen := can_open;
  sqlcipher_codec_ctx_migrate := migrate_database;
|}.

Lemma pragma_migrate g db i b ctx w :
  has_codec db i b ctx ->
  sqlcipher_codec_pragma g db i (str "cipher_migrate") None w =
  ('(rc, g, db) ← migrate_database g db i; rows ← int_row (str "cipher_migrate") rc; mret (1, rows, g, db)) w.
Proof.
  intros Hc. unfold sqlcipher_codec_pragma.
  assert (Hfirst : pragma_first db i (str "cipher_migrate") None w = Done (([], db), w)).
  { unfold pragma_first. by rewrite (bind_done _ _ _ _ _ (attached_eq _ _ _ _ w Hc)). }
  rewrite (bind_done _ _ _ _ _ Hfirst).
  assert (Hrest : pragma_rest g db i (str "cipher_migrate") None w =
      ('(rc, g, db) ← migrate_database g db i; rows ← int_row (str "cipher_migrate") rc; mret (1, rows, g, db)) w).
  { unfold pragma_rest. by rewrite (bind_done _ _ _ _ _ (attached_eq _ _ _ _ w Hc)). }
  rewrite (bind_ext_l _ (fun w => pragma_rest g db i (str "cipher_migrate") None w)) by done.
  unfold mbind, M_bind in *. rewrite Hrest. repeat case_match; try done; by simplify_eq.
Qed.
End command.
End migrate.
Arguments MigrateOps {OS} rest.

#[local] Existing Instance toy_openssl.
#[local] Existing Instance toy_openssl_laws.

(** Connections to a database without codec; nothing else is ever reached. *)
Definition w_open : sqlite3 (list Z) := w_db (w_pager false None).

#[local] Instance tiny_migrate : MigrateOps (list Z) := {|
  stmt := unit;
  sqlite3_db_filename _ := Some (str "tpch.db");
  sqlite3_open _ _ := (SQLITE_OK, Some w_open);
  sqlite3_close g _ := mret g;
  sqlite3_exec g db _ := mret (SQLITE_OK, g, db);
  sqlite3_prepare g db _ := mret (SQLITE_OK, g, db, Some tt);
  sqlite3_step g db _ := mret (SQLITE_ROW, g, db, tt);
  sqlite3_finalize g db _ := mret (g, db);
  sqlite3_column_int _ := 0;
  sqlite3_column_text _ := str "delete";
  autoCommit _ := true;
  nVdbeActive _ := 1;
  sqlite3OsClose p := p;
  sqlite3OsOpen p _ := (SQLITE_OK, p);
  os_rename _ _ := 0;
  sqlite3OsDelete _ := SQLITE_OK;
  sqlite3ResetAllSchemasOfConnection db := db;
|}.

#[local, program] Instance tiny_migrate_laws : MigrateLaws (rest := list Z).
Next Obligation. intros k f c [= <-]. by eexists _, _. Qed.
Next Obligation. intros g c. by apply runs_ret. Qed.

Lemma migrate_never_migrates_witness :
  migrate_database w_globals (w_db (w_pager true (Some (w_ready [115])))) 0 [] = Fault NullDeref.
Proof.
  eapply (migrate_never_migrates w_globals (w_db (w_pager true (Some (w_ready [115])))) 0 _ (w_ready [115])
    (new_cipher [115] 1) (str "tpch.db"));
    [by eexists|reflexivity|reflexivity|reflexivity|done|done|reflexivity|by (split_and!; try done; right)|done|constructor].
Defined.
