(* ===== verification/SqlText.v ===== *)
(** * Statements as text

    The fragment of SQL in which [sqlcipher_export] writes its statements: queries on
    the schema table of a database, insertion of such rows into another schema
    table, and copying of a whole table.  A text is read in two steps, tokens and
    syntax, and a query is evaluated on the rows of the schema table.  What a
    statement does is thereby a function of its text. *)

From stdpp Require Import base tactics list numbers option.
From Stdlib Require Import ZArith Lia ZifyBool.
From Stdlib Require String.
Import String.StringSyntax.
From S2P Require Import Prelude CipherUtil Pragma.

Local Open Scope Z_scope.

(** ** Tokens *)

Inductive token :=
  | TId (z : list Z)
  | TStr (z : list Z)
  | TNum (n : Z)
  | TDot | TComma | TLp | TRp | TStar | TSemi | TCat | TEq | TNe | TGt
  | TBad.

Definition is_space (c : Z) : bool := (c =? 32) || ((9 <=? c) && (c <=? 13)).
Definition is_digit (c : Z) : bool := (48 <=? c) && (c <=? 57).
Definition id_start (c : Z) : bool :=
  ((65 <=? c) && (c <=? 90)) || ((97 <=? c) && (c <=? 122)) || (c =? 95) || (128 <=? c).
Definition id_char (c : Z) : bool := id_start c || is_digit c || (c =? 36).

(** Where the reader is: between tokens, in a word, a number or a string literal,
    after a quote that ends the literal unless another follows, or after the first
    character of an operator. *)
Inductive lex_mode :=
  | MStart | MWord (w : list Z) | MNum (n : Z) | MStr (s : list Z) | MQuote (s : list Z) | MPipe | MEq | MBang.

Definition lex_start (ts : list token) (c : Z) : lex_mode * list token :=
  if is_space c then (MStart, ts) else
  if id_start c then (MWord [c], ts) else
  if is_digit c then (MNum (c - 48), ts) else
  if c =? 39 then (MStr [], ts) else
  if c =? 124 then (MPipe, ts) else
  if c =? 61 then (MEq, ts) else
  if c =? 33 then (MBang, ts) else
  (MStart, ts ++ [if c =? 46 then TDot else if c =? 44 then TComma else if c =? 40 then TLp else
                  if c =? 41 then TRp else if c =? 42 then TStar else if c =? 59 then TSemi else
                  if c =? 62 then TGt else TBad]).

Definition lex_step (s : lex_mode * list token) (c : Z) : lex_mode * list token :=
  let '(m, ts) := s in
  match m with
  | MStart => lex_start ts c
  | MWord w => if id_char c then (MWord (w ++ [c]), ts) else lex_start (ts ++ [TId w]) c
  | MNum n => if is_digit c then (MNum (10 * n + (c - 48)), ts) else lex_start (ts ++ [TNum n]) c
  | MStr z => if c =? 39 then (MQuote z, ts) else (MStr (z ++ [c]), ts)
  | MQuote z => if c =? 39 then (MStr (z ++ [39]), ts) else lex_start (ts ++ [TStr z]) c
  | MPipe => if c =? 124 then (MStart, ts ++ [TCat]) else (MStart, ts ++ [TBad])
  | MEq => if c =? 61 then (MStart, ts ++ [TEq]) else lex_start (ts ++ [TEq]) c
  | MBang => if c =? 61 then (MStart, ts ++ [TNe]) else (MStart, ts ++ [TBad])
  end.

Definition lex_end (s : lex_mode * list token) : list token :=
  let '(m, ts) := s in
  match m with
  | MStart => ts
  | MWord w => ts ++ [TId w]
  | MNum n => ts ++ [TNum n]
  | MQuote z => ts ++ [TStr z]
  | MEq => ts ++ [TEq]
  | MStr _ | MPipe | MBang => ts ++ [TBad]
  end.

Definition lex (z : list Z) : list token := lex_end (foldl lex_step (MStart, []) z).

(** ** Syntax *)

Inductive column := CType | CName | CTblName | CRootpage | CSql.

(** Texts and numbers. *)
Inductive texpr :=
  | ETCol (c : column)
  | ETLit (z : list Z)
  | ETQuote (e : texpr)
  | ETCat (e1 e2 : texpr).

Inductive nexpr :=
  | ENCol
  | ENLit (n : Z).

Inductive cond :=
  | CoTEq (e1 e2 : texpr) | CoTNe (e1 e2 : texpr) | CoLike (e1 e2 : texpr)
  | CoNEq (e1 e2 : nexpr) | CoNGt (e1 e2 : nexpr)
  | CoAnd (c1 c2 : cond) | CoOr (c1 c2 : cond).

(** [SelectMaster e S w] is [SELECT e FROM S.sqlite_master WHERE w];
    [InsertMaster T cs S w] is [INSERT INTO T.sqlite_master SELECT cs FROM
    S.sqlite_master WHERE w]; [InsertAll T n S m] is [INSERT INTO T.n SELECT *
    FROM S.m]. *)
Inductive statement :=
  | SelectMaster (e : texpr) (db : list Z) (w : cond)
  | InsertMaster (into : list Z) (cs : list column) (db : list Z) (w : cond)
  | InsertAll (into n db m : list Z).

Definition upper (z : list Z) : list Z := (fun c => if (97 <=? c) && (c <=? 122) then c - 32 else c) <$> z.

(** A word is compared without regard to case. *)
Definition is_word (t : token) (z : list Z) : bool :=
  match t with TId w => bool_decide (upper w = upper z) | _ => false end.

Definition expect (z : list Z) (ts : list token) : option (list token) :=
  match ts with t :: ts => if is_word t z then Some ts else None | [] => None end.

Definition p_column (t : token) : option column :=
  if is_word t (str "type") then Some CType else if is_word t (str "name") then Some CName else
  if is_word t (str "tbl_name") then Some CTblName else if is_word t (str "rootpage") then Some CRootpage else
  if is_word t (str "sql") then Some CSql else None.

(** Terms with [||]; [quote] takes one of them. *)
Fixpoint p_text (fuel : nat) (ts : list token) : option (texpr * list token) :=
  match fuel with
  | O => None
  | S fuel =>
      '(e, ts) ← (match ts with
                  | TStr z :: ts => Some (ETLit z, ts)
                  | t :: TLp :: ts =>
                      if is_word t (str "quote") then
                        '(e, ts) ← p_text fuel ts;
                        match ts with TRp :: ts => Some (ETQuote e, ts) | _ => None end
                      else None
                  | t :: ts => c ← p_column t; Some (ETCol c, ts)
                  | [] => None
                  end);
      match ts with
      | TCat :: ts => '(e2, ts) ← p_text fuel ts; Some (ETCat e e2, ts)
      | _ => Some (e, ts)
      end
  end.

Definition p_number (ts : list token) : option (nexpr * list token) :=
  match ts with
  | TNum n :: ts => Some (ENLit n, ts)
  | t :: ts => if is_word t (str "rootpage") then Some (ENCol, ts) else None
  | [] => None
  end.

(** A comparison of numbers, or of texts. *)
Definition p_compare (fuel : nat) (ts : list token) : option (cond * list token) :=
  match p_number ts with
  | Some (a, TEq :: ts) => '(b, ts) ← p_number ts; Some (CoNEq a b, ts)
  | Some (a, TGt :: ts) => '(b, ts) ← p_number ts; Some (CoNGt a b, ts)
  | Some _ => None
  | None =>
      '(a, ts) ← p_text fuel ts;
      match ts with
      | TEq :: ts => '(b, ts) ← p_text fuel ts; Some (CoTEq a b, ts)
      | TNe :: ts => '(b, ts) ← p_text fuel ts; Some (CoTNe a b, ts)
      | t :: ts => if is_word t (str "LIKE") then '(b, ts) ← p_text fuel ts; Some (CoLike a b, ts) else None
      | [] => None
      end
  end.

(** [AND] binds closer than [OR]. *)
Fixpoint p_or (fuel : nat) (ts : list token) : option (cond * list token) :=
  match fuel with
  | O => None
  | S fuel =>
      '(a, ts) ← p_and fuel ts;
      match expect (str "OR") ts with
      | Some ts => '(b, ts) ← p_or fuel ts; Some (CoOr a b, ts)
      | None => Some (a, ts)
      end
  end
with p_and (fuel : nat) (ts : list token) : option (cond * list token) :=
  match fuel with
  | O => None
  | S fuel =>
      '(a, ts) ← (match ts with
                  | TLp :: ts => '(a, ts) ← p_or fuel ts; match ts with TRp :: ts => Some (a, ts) | _ => None end
                  | _ => p_compare (S fuel) ts
                  end);
      match expect (str "AND") ts with
      | Some ts => '(b, ts) ← p_and fuel ts; Some (CoAnd a b, ts)
      | None => Some (a, ts)
      end
  end.

Fixpoint p_columns (ts : list token) : option (list column * list token) :=
  match ts with
  | [] => None
  | t :: ts =>
      c ← p_column t;
      match ts with
      | TComma :: ts => '(cs, ts) ← p_columns ts; Some (c :: cs, ts)
      | _ => Some ([c], ts)
      end
  end.

(** [FROM db.sqlite_master WHERE cond], up to the end of the statement. *)
Definition p_from (fuel : nat) (ts : list token) : option (list Z * cond) :=
  ts ← expect (str "FROM") ts;
  match ts with
  | TId db :: TDot :: t :: ts =>
      if is_word t (str "sqlite_master") then
        ts ← expect (str "WHERE") ts;
        '(w, ts) ← p_or fuel ts;
        match ts with [] | [TSemi] => Some (db, w) | _ => None end
      else None
  | _ => None
  end.

Definition parse_tokens (ts : list token) : option statement :=
  let fuel := (2 * length ts)%nat in
  match expect (str "SELECT") ts with
  | Some ts => '(e, ts) ← p_text fuel ts; '(db, w) ← p_from fuel ts; Some (SelectMaster e db w)
  | None =>
      ts ← expect (str "INSERT") ts;
      ts ← expect (str "INTO") ts;
      match ts with
      | TId into :: TDot :: TStr n :: ts =>
          ts ← expect (str "SELECT") ts;
          match ts with
          | TStar :: ts =>
              ts ← expect (str "FROM") ts;
              match ts with
              | [TId db; TDot; TStr m] | [TId db; TDot; TStr m; TSemi] => Some (InsertAll into n db m)
              | _ => None
              end
          | _ => None
          end
      | TId into :: TDot :: t :: ts =>
          if is_word t (str "sqlite_master") then
            ts ← expect (str "SELECT") ts;
            '(cs, ts) ← p_columns ts;
            '(db, w) ← p_from fuel ts;
            Some (InsertMaster into cs db w)
          else None
      | _ => None
      end
  end.

Definition parse_sql (z : list Z) : option statement := parse_tokens (lex z).

(** ** Meaning *)

(** A row of the schema table; the text of an index SQLite makes by itself is NULL. *)
Record master_row := Mk_row {
  m_type : list Z;
  m_name : list Z;
  m_tbl_name : list Z;
  m_rootpage : Z;
  m_sql : option (list Z);
}.

#[export] Instance master_row_eq_dec : EqDecision master_row.
Proof. solve_decision. Defined.

(** The SQL function [quote]. *)
Definition quote (z : list Z) : list Z :=
  39 :: (z ≫= (fun ch => if ch =? 39 then [39; 39] else [ch])) ++ [39].

(** Texts, [None] for NULL; the root page is not a text. *)
Definition text_column (c : column) (r : master_row) : option (list Z) :=
  match c with
  | CType => Some (m_type r)
  | CName => Some (m_name r)
  | CTblName => Some (m_tbl_name r)
  | CRootpage => Some (print_int (m_rootpage r))
  | CSql => m_sql r
  end.

Fixpoint text_value (e : texpr) (r : master_row) : option (list Z) :=
  match e with
  | ETCol c => text_column c r
  | ETLit z => Some z
  | ETQuote e => Some (match text_value e r with Some z => quote z | None => str "NULL" end)
  | ETCat e1 e2 =>
      match text_value e1 r, text_value e2 r with Some a, Some b => Some (a ++ b) | _, _ => None end
  end.

Definition number_value (e : nexpr) (r : master_row) : Z :=
  match e with ENCol => m_rootpage r | ENLit n => n end.

(** [LIKE]: [%] for any characters, [_] for one, others without regard to case. *)
Fixpoint like (p s : list Z) : bool :=
  match p with
  | [] => match s with [] => true | _ => false end
  | c :: p =>
      if c =? 37 then
        (fix any (s : list Z) : bool := like p s || match s with [] => false | _ :: s => any s end) s
      else
        match s with
        | [] => false
        | d :: s => ((c =? 95) || bool_decide (upper [c] = upper [d])) && like p s
        end
  end.

Definition compare (f : list Z -> list Z -> bool) (a b : option (list Z)) : option bool :=
  match a, b with Some a, Some b => Some (f a b) | _, _ => None end.

(** True, false or (for comparisons with NULL) neither. *)
Fixpoint cond_value (c : cond) (r : master_row) : option bool :=
  match c with
  | CoTEq e1 e2 => compare (fun a b => bool_decide (a = b)) (text_value e1 r) (text_value e2 r)
  | CoTNe e1 e2 => compare (fun a b => negb (bool_decide (a = b))) (text_value e1 r) (text_value e2 r)
  | CoLike e1 e2 => compare (fun a b => like b a) (text_value e1 r) (text_value e2 r)
  | CoNEq e1 e2 => Some (number_value e1 r =? number_value e2 r)
  | CoNGt e1 e2 => Some (number_value e2 r <? number_value e1 r)
  | CoAnd c1 c2 =>
      match cond_value c1 r, cond_value c2 r with
      | Some false, _ | _, Some false => Some false
      | Some true, Some true => Some true
      | _, _ => None
      end
  | CoOr c1 c2 =>
      match cond_value c1 r, cond_value c2 r with
      | Some true, _ | _, Some true => Some true
      | Some false, Some false => Some false
      | _, _ => None
      end
  end.

Definition selected (w : cond) (rows : list master_row) : list master_row :=
  filter (fun r => cond_value w r = Some true) rows.

(** The rows a query gives. *)
Definition select_rows (e : texpr) (w : cond) (rows : list master_row) : list (option (list Z)) :=
  text_value e <$> selected w rows.

(** The row made of five columns; the first three must not be NULL and the fourth a
    number. *)
Definition project (cs : list column) (r : master_row) : option master_row :=
  match cs with
  | [a; b; c; CRootpage; d] =>
      a ← text_column a r; b ← text_column b r; c ← text_column c r;
      Some (Mk_row a b c (m_rootpage r) (text_column d r))
  | _ => None
  end.

(** ** Reading texts with names in them *)

(** A name that needs no quotes, as far as its characters go. *)
Definition plain_name (z : list Z) : Prop :=
  match z with c :: z => id_start c = true /\ Forall (fun c => id_char c = true) z | [] => False end.

#[export] Instance plain_name_dec z : Decision (plain_name z).
Proof. destruct z; apply _. Defined.

Lemma lex_word w z ts :
  Forall (fun c => id_char c = true) z -> foldl lex_step (MWord w, ts) z = (MWord (w ++ z), ts).
Proof.
  intros Hz. revert w. induction Hz as [|c z Hc _ IH]; intros w; [by rewrite app_nil_r|].
  cbn. rewrite Hc, IH. by rewrite <- app_assoc.
Qed.

Lemma lex_name z ts : plain_name z -> foldl lex_step (MStart, ts) z = (MWord z, ts).
Proof.
  destruct z as [|c z]; [done|]. intros [Hc Hz]. cbn. unfold lex_start.
  assert (is_space c = false) as -> by (unfold is_space, id_start in *; lia). rewrite Hc. by rewrite lex_word.
Qed.

(** Characters of a literal, none of them a quote. *)
Lemma lex_literal s z ts : Forall (fun c => c <> 39) z -> foldl lex_step (MStr s, ts) z = (MStr (s ++ z), ts).
Proof.
  intros Hz. revert s. induction Hz as [|c z Hc _ IH]; intros s; [by rewrite app_nil_r|].
  cbn. replace (c =? 39) with false by lia. rewrite IH. by rewrite <- app_assoc.
Qed.

Lemma plain_name_unquoted z : plain_name z -> Forall (fun c => c <> 39) z.
Proof.
  assert (H : forall c, id_char c = true -> c <> 39) by (unfold id_char, id_start, is_digit; lia).
  destruct z as [|c z]; [done|]. intros [Hc Hz]. constructor; [apply H; unfold id_char; by rewrite Hc|].
  revert Hz. apply Forall_impl, H.
Qed.

(** A quoted text is read back as the text. *)
Lemma lex_quote z ts : foldl lex_step (MStart, ts) (quote z) = (MQuote z, ts).
Proof.
  unfold quote. change (39 :: ?x) with ([39] ++ x). rewrite !foldl_app.
  change (foldl lex_step (MStart, ts) [39]) with (MStr [], ts).
  assert (H : forall s, foldl lex_step (MStr s, ts) (z ≫= (fun ch => if ch =? 39 then [39; 39] else [ch])) = (MStr (s ++ z), ts)).
  { induction z as [|c z IH]; intros s; [by rewrite app_nil_r|]. rewrite bind_cons, foldl_app.
    assert (foldl lex_step (MStr s, ts) (if c =? 39 then [39; 39] else [c]) = (MStr (s ++ [c]), ts)) as ->.
    { destruct (c =? 39) eqn:E; cbn; [by replace c with 39 by lia|by rewrite E]. }
    by rewrite IH, <- app_assoc. }
  by rewrite H.
Qed.

(** Patterns that end in [%] look at the beginning of a text. *)
Lemma like_any s : like [37] s = true.
Proof. by induction s. Qed.
