(* ===== verification/Export.v ===== *)
(** * Exporting a database

    Model of the SQL function [sqlcipher_export] ([sqlcipher_exportFunc] and what it
    calls in [storage/secure/sec_sqlite3.c]), which copies a database into an
    attached one by SQL statements that it reads from the schema.  Statements
    are executed through the interface [SqlVm]; [SqlLaws] says what SQLite
    documents about the statements that occur, in terms of the objects, rows and
    sequence table of each database. *)

From stdpp Require Import base tactics list numbers option.
From Stdlib Require Import ZArith Lia ZifyBool.
From Stdlib Require String.
Import String.StringSyntax.
From S2P Require Import Prelude MtArrList Sha256 MtCrypto MerkleTree MtSerialize.
From S2P Require Import CipherUtil Openssl CodecCtx PageCodec CodecProofs CodecWitness Attach AttachProofs AttachWitness.
From S2P Require Import PagerIo Pragma Migrate.

Local Open Scope Z_scope.

Definition SQLITE_WriteSchema : Z := 1.
Definition SQLITE_IgnoreChecks : Z := 512.
Definition SQLITE_ReverseOrder : Z := 4096.
Definition SQLITE_ForeignKeys : Z := 16384.
Definition SQLITE_Defensive : Z := 268435456.
Definition SQLITE_CountRows : Z := 2 ^ 32.
Definition DBFLAG_PreferBuiltin : Z := 2.
Definition DBFLAG_Vacuum : Z := 4.

(** ** The statements *)

Definition tables_query (sourceDb : list Z) : list Z :=
  str "SELECT sql   FROM " ++ sourceDb
  ++ str ".sqlite_master WHERE type='table' AND name!='sqlite_sequence'   AND rootpage>0".
Definition indexes_query (sourceDb : list Z) : list Z :=
  str "SELECT sql   FROM " ++ sourceDb ++ str ".sqlite_master WHERE sql LIKE 'CREATE INDEX %' ".
Definition unique_query (sourceDb : list Z) : list Z :=
  str "SELECT sql   FROM " ++ sourceDb ++ str ".sqlite_master WHERE sql LIKE 'CREATE UNIQUE INDEX %'".
Definition rows_query (targetDb sourceDb : list Z) : list Z :=
  str "SELECT 'INSERT INTO " ++ targetDb ++ str ".' || quote(name) || ' SELECT * FROM " ++ sourceDb
  ++ str ".' || quote(name) || ';'FROM " ++ sourceDb
  ++ str ".sqlite_master WHERE type = 'table' AND name!='sqlite_sequence'   AND rootpage>0".
Definition sequence_query (targetDb sourceDb : list Z) : list Z :=
  str "SELECT 'INSERT INTO " ++ targetDb ++ str ".' || quote(name) || ' SELECT * FROM " ++ sourceDb
  ++ str ".' || quote(name) || ';' FROM " ++ targetDb ++ str ".sqlite_master WHERE name=='sqlite_sequence';".
Definition master_insert (targetDb sourceDb : list Z) : list Z :=
  str "INSERT INTO " ++ targetDb ++ str ".sqlite_master   SELECT type, name, tbl_name, rootpage, sql    FROM " ++ sourceDb
  ++ str ".sqlite_master   WHERE type='view' OR type='trigger'      OR (type='table' AND rootpage=0)".

Section export.
Context {OS : OpenSSL} {rest D : Type}.

(** The fields of a connection that the function changes or looks at; [c_data] is
    everything else. *)
Record conn := Mk_conn {
  c_db : sqlite3 rest;
  c_flags : Z;
  c_mDbFlags : Z;
  c_nChange : Z;
  c_nTotalChange : Z;
  c_mTrace : Z;
  c_xTrace : Z;
  c_iDb : nat;           (** [init.iDb] *)
  c_data : D;
}.

(** A statement is given as NULL when its text holds none. *)
Class SqlVm := {
  vm_stmt : Type;
  vm_prepare : conn -> list Z -> Z * conn * option vm_stmt;
  vm_step : conn -> vm_stmt -> Z * conn * vm_stmt;
  vm_column_text : vm_stmt -> option (list Z);
  vm_finalize : conn -> vm_stmt -> Z * conn;
  vm_errmsg : conn -> list Z;
  vm_errcode : conn -> Z;
  sqlite3ErrStr : Z -> list Z;
}.
Context {VM : SqlVm}.

(** Result, connection, [*pzErrMsg]. *)
Abbreviation sql_result := (Z * conn * text)%type.

Definition sqlcipher_finalize (c : conn) (pStmt : option vm_stmt) (pzErrMsg : text) : M sql_result :=
  s ← deref pStmt;
  let '(rc, c) := vm_finalize c s in
  if rc =? 0 then mret (rc, c, pzErrMsg) else m ← sqlite3_mprintf (vm_errmsg c); mret (rc, c, m).

Definition sqlcipher_execSql (c : conn) (pzErrMsg : text) (zSql : option (list Z)) : M sql_result :=
  match zSql with
  | None => mret (SQLITE_NOMEM, c, pzErrMsg)
  | Some z =>
      let '(rc, c, pStmt) := vm_prepare c z in
      if negb (rc =? SQLITE_OK) then m ← sqlite3_mprintf (vm_errmsg c); mret (vm_errcode c, c, m) else
      match pStmt with
      | None => sqlcipher_finalize c None pzErrMsg
      | Some s => let '(_, c, s) := vm_step c s in sqlcipher_finalize c (Some s) pzErrMsg
      end
  end.

(** The loop over the rows; [None] when [fuel] does not suffice. *)
Fixpoint exec_rows (fuel : nat) (c : conn) (s : vm_stmt) (pzErrMsg : text) : M (option sql_result) :=
  match fuel with
  | O => mret None
  | S fuel =>
      let '(rc, c, s) := vm_step c s in
      if negb (rc =? SQLITE_ROW) then r ← sqlcipher_finalize c (Some s) pzErrMsg; mret (Some r) else
      '(rc, c, pzErrMsg) ← sqlcipher_execSql c pzErrMsg (vm_column_text s);
      if negb (rc =? SQLITE_OK) then
        '(_, c, pzErrMsg) ← sqlcipher_finalize c (Some s) pzErrMsg; mret (Some (rc, c, pzErrMsg))
      else exec_rows fuel c s pzErrMsg
  end.

Definition sqlcipher_execExecSql (fuel : nat) (c : conn) (pzErrMsg : text) (zSql : list Z) : M (option sql_result) :=
  let '(rc, c, pStmt) := vm_prepare c zSql in
  if negb (rc =? SQLITE_OK) then mret (Some (rc, c, pzErrMsg)) else
  match pStmt with
  | None => r ← sqlcipher_finalize c None pzErrMsg; mret (Some r)
  | Some s => exec_rows fuel c s pzErrMsg
  end.

(** ** The function *)

(** The statements one after the other, until one fails. *)
Fixpoint export_queries (fuel : nat) (queries : list (list Z)) (c : conn) (pzErrMsg : text) : M (option sql_result) :=
  match queries with
  | [] => mret (Some (SQLITE_OK, c, pzErrMsg))
  | q :: queries =>
      zSql ← sqlite3_mprintf q;
      r ← (match zSql with
           | Text z => sqlcipher_execExecSql fuel c pzErrMsg z
           | _ => mret (Some (SQLITE_NOMEM, c, pzErrMsg))
           end);
      match r with
      | None => mret None
      | Some (rc, c, pzErrMsg) =>
          if negb (rc =? SQLITE_OK) then mret (Some (rc, c, pzErrMsg)) else export_queries fuel queries c pzErrMsg
      end
  end.

Definition export_statements (fuel : nat) (c : conn) (targetDb sourceDb : list Z) : M (option sql_result) :=
  r ← export_queries fuel [tables_query sourceDb; indexes_query sourceDb; unique_query sourceDb;
                           rows_query targetDb sourceDb; sequence_query targetDb sourceDb] c NoText;
  match r with
  | None => mret None
  | Some (rc, c, pzErrMsg) =>
      if negb (rc =? SQLITE_OK) then mret (Some (rc, c, pzErrMsg)) else
      zSql ← sqlite3_mprintf (master_insert targetDb sourceDb);
      r ← sqlcipher_execSql c pzErrMsg (match zSql with Text z => Some z | _ => None end);
      mret (Some r)
  end.

(** Flags while the statements run. *)
Definition export_flags (c : conn) (targetDb_idx : nat) : conn :=
  Mk_conn (c_db c)
    (Z.land (Z.lor (c_flags c) (Z.lor SQLITE_WriteSchema SQLITE_IgnoreChecks))
       (Z.lnot (Z.lor (Z.lor SQLITE_ForeignKeys SQLITE_ReverseOrder) (Z.lor SQLITE_Defensive SQLITE_CountRows))))
    (Z.lor (c_mDbFlags c) (Z.lor DBFLAG_PreferBuiltin DBFLAG_Vacuum))
    (c_nChange c) (c_nTotalChange c) 0 0 targetDb_idx (c_data c).

(** [end_of_export:], with the fields saved from [c0]. *)
Definition end_of_export (c0 c : conn) (rc : Z) (pzErrMsg : text) : conn * option (list Z) :=
  (Mk_conn (c_db c) (c_flags c0) (c_mDbFlags c0) (c_nChange c0) (c_nTotalChange c0) (c_mTrace c0) (c_xTrace c0) 0 (c_data c),
   if rc =? 0 then None else
   Some (match pzErrMsg with Text m => m | _ => sqlite3ErrStr rc end)).

(** Connection and the error given to [sqlite3_result_error]; [argv] are the texts of
    the arguments. *)
Definition sqlcipher_exportFunc (fuel : nat) (c : conn) (argv : list (option (list Z)))
  : M (option (conn * option (list Z))) :=
  let argc := Z.of_nat (length argv) in
  let fail msg := m ← sqlite3_mprintf msg; mret (Some (end_of_export c c SQLITE_ERROR m)) in
  if negb (argc =? 1) && negb (argc =? 2) then
    fail (str "invalid number of arguments (" ++ print_int argc ++ str ") passed to sqlcipher_export")
  else
  let targetDb := default None (argv !! 0%nat) in
  let sourceDb := if argc =? 2 then default [] (default None (argv !! 1%nat)) else main_name in
  let targetDb_idx := sqlcipher_find_db_index (c_db c) targetDb in
  let is_main := match targetDb with Some t => sqlite3StrICmp main_name t =? 0 | None => false end in
  if (Z.of_nat targetDb_idx =? 0) && negb is_main then fail (str "unknown database " ++ default [] targetDb) else
  r ← export_statements fuel (export_flags c targetDb_idx) (default [] targetDb) sourceDb;
  mret (match r with
        | None => None
        | Some (rc, c', pzErrMsg) => Some (end_of_export c c' rc pzErrMsg)
        end).
End export.
Arguments conn {OS} rest D.
Arguments SqlVm {OS} rest D.
