(* ===== verification/ExportQueries.v ===== *)
(** * The statements of the export

    What the texts of [Export] say: each is read by [SqlText], and evaluated on a
    schema table it selects the objects of one kind. *)

From stdpp Require Import base tactics list numbers option sets.
From Stdlib Require Import ZArith Lia ZifyBool.
From Stdlib Require String.
Import String.StringSyntax.
From S2P Require Import Prelude CipherUtil Pragma SqlText Export.

Local Open Scope Z_scope.

(** The statement a row of [rows_query] or [sequence_query] holds. *)
Definition copy_text (T S name : list Z) : list Z :=
  str "INSERT INTO " ++ T ++ str "." ++ quote name ++ str " SELECT * FROM " ++ S ++ str "." ++ quote name ++ str ";".

(** ** What the texts say *)

Definition is_table : cond := CoTEq (ETCol CType) (ETLit (str "table")).
Definition not_sequence : cond := CoTNe (ETCol CName) (ETLit (str "sqlite_sequence")).
Definition has_root : cond := CoNGt ENCol (ENLit 0).
Definition real_table : cond := CoAnd is_table (CoAnd not_sequence has_root).
Definition sql_like (p : String.string) : cond := CoLike (ETCol CSql) (ETLit (str p)).
Arguments sql_like p%_string.
Definition is_sequence : cond := CoTEq (ETCol CName) (ETLit (str "sqlite_sequence")).
Definition no_storage : cond :=
  CoOr (CoTEq (ETCol CType) (ETLit (str "view")))
    (CoOr (CoTEq (ETCol CType) (ETLit (str "trigger"))) (CoAnd is_table (CoNEq ENCol (ENLit 0)))).
Definition copy_expr (T S : list Z) : texpr :=
  ETCat (ETLit (str "INSERT INTO " ++ T ++ str ".")) (ETCat (ETQuote (ETCol CName))
    (ETCat (ETLit (str " SELECT * FROM " ++ S ++ str ".")) (ETCat (ETQuote (ETCol CName)) (ETLit (str ";"))))).

Ltac read_names :=
  repeat first
    [ rewrite lex_name by done
    | rewrite lex_quote
    | rewrite lex_literal by (by apply plain_name_unquoted)
    | rewrite foldl_app
    | match goal with |- context [foldl lex_step (?m, ?ts) (str ?s)] =>
        let r := eval vm_compute in (foldl lex_step (m, ts) (str s)) in
        change (foldl lex_step (m, ts) (str s)) with r end ].

Ltac read_text :=
  intros; unfold parse_sql, lex, tables_query, indexes_query, unique_query, rows_query, sequence_query, master_insert,
    copy_text; read_names; reflexivity.

Section texts.
  Context (T S : list Z) (HT : plain_name T) (HS : plain_name S).

Lemma parse_tables : parse_sql (tables_query S) = Some (SelectMaster (ETCol CSql) S real_table).
Proof. read_text. Qed.

Lemma parse_indexes : parse_sql (indexes_query S) = Some (SelectMaster (ETCol CSql) S (sql_like "CREATE INDEX %")).
Proof. read_text. Qed.

Lemma parse_unique : parse_sql (unique_query S) = Some (SelectMaster (ETCol CSql) S (sql_like "CREATE UNIQUE INDEX %")).
Proof. read_text. Qed.

Lemma parse_rows : parse_sql (rows_query T S) = Some (SelectMaster (copy_expr T S) S real_table).
Proof. read_text. Qed.

Lemma parse_sequence : parse_sql (sequence_query T S) = Some (SelectMaster (copy_expr T S) T is_sequence).
Proof. read_text. Qed.

Lemma parse_master :
  parse_sql (master_insert T S) = Some (InsertMaster T [CType; CName; CTblName; CRootpage; CSql] S no_storage).
Proof. read_text. Qed.

Lemma parse_copy n : parse_sql (copy_text T S n) = Some (InsertAll T n S n).
Proof. read_text. Qed.
End texts.

(** ** Objects *)

(** [Table] is a table with a root page; [Other] a view, a trigger or a virtual table. *)
Inductive kind := Table | Index | UniqueIndex | Other.

#[export] Instance kind_eq_dec : EqDecision kind.
Proof. solve_decision. Defined.

(** A row of the schema table, apart from those SQLite makes by itself and from its
    root page; [o_on] is the table of an index. *)
Record object := Mk_object { o_kind : kind; o_name : list Z; o_on : list Z; o_sql : list Z }.

#[export] Instance object_eq_dec : EqDecision object.
Proof. solve_decision. Defined.

Definition of_kind (k : kind) (os : list object) : list object := filter (fun o => o_kind o = k) os.

Lemma sublist_kind k os : k <> Other -> of_kind k os `sublist_of` filter (fun o => o_kind o <> Other) os.
Proof.
  intros Hk. unfold of_kind. induction os as [|o os IH]; [done|].
  rewrite !filter_cons. destruct (decide (o_kind o = k)) as [->|Hne].
  - rewrite decide_True by done. by apply sublist_skip.
  - destruct (decide (o_kind o <> Other)); [by apply sublist_cons|done].
Qed.

Definition sequence_name : list Z := str "sqlite_sequence".

Definition begins (p z : list Z) : bool := bool_decide (take (length p) z = p).

Definition text_kind (r : master_row) (sql : list Z) : kind :=
  if bool_decide (m_type r = str "table") then (if 0 <? m_rootpage r then Table else Other)
  else if bool_decide (m_type r = str "index") then
    (if begins (str "CREATE UNIQUE INDEX ") sql then UniqueIndex else Index)
  else Other.

Definition row_object (r : master_row) : option object :=
  if bool_decide (m_name r = sequence_name) then None
  else sql ← m_sql r; Some (Mk_object (text_kind r sql) (m_name r) (m_tbl_name r) sql).

Definition objects_of (rows : list master_row) : list object := omap row_object rows.

Lemma objects_of_app rows new : objects_of (rows ++ new) = objects_of rows ++ objects_of new.
Proof. apply omap_app. Qed.

(** The rows of the sequence table. *)
Definition sequences (rows : list master_row) : list master_row := filter (fun r => m_name r = sequence_name) rows.

(** What SQLite documents about the rows of its schema table: types, root pages and the
    normalised beginnings of the texts. *)
Definition sql_begins (p : list Z) (r : master_row) : Prop := exists z, m_sql r = Some (p ++ z).

Definition sequence_sql : list Z := str "CREATE TABLE sqlite_sequence(name,seq)".

Definition row_ok (r : master_row) : Prop :=
  (m_type r = str "table" /\ 0 < m_rootpage r /\ sql_begins (str "CREATE TABLE ") r /\
   (m_name r = sequence_name -> m_sql r = Some sequence_sql)) \/
  m_name r <> sequence_name /\
  ((m_type r = str "table" /\ m_rootpage r = 0 /\ sql_begins (str "CREATE VIRTUAL TABLE ") r) \/
   (m_type r = str "index" /\ (m_sql r = None \/ sql_begins (str "CREATE INDEX ") r \/
      sql_begins (str "CREATE UNIQUE INDEX ") r)) \/
   (m_type r = str "view" /\ m_rootpage r = 0 /\ sql_begins (str "CREATE VIEW ") r) \/
   (m_type r = str "trigger" /\ m_rootpage r = 0 /\ sql_begins (str "CREATE TRIGGER ") r)).

(** The rows a condition selects are the objects of one kind. *)
Definition selects (w : cond) (k : kind) : Prop :=
  forall r, row_ok r -> cond_value w r = Some true <-> exists o, row_object r = Some o /\ o_kind o = k.

(** One case for every sort of row. *)
Ltac row_cases :=
  intros [ty n tb p q] Hr; unfold row_ok, sql_begins in Hr; cbn [m_type m_name m_tbl_name m_rootpage m_sql] in Hr;
  destruct Hr as [(-> & Hp & (z & ->) & _)|(Hn & [(-> & -> & z & ->)|[(-> & [-> |[(z & ->)|(z & ->)]])|
    [(-> & -> & z & ->)|(-> & -> & z & ->)]]])].

(** Comparisons of given texts are computed. *)
Ltac fixed_texts :=
  repeat match goal with
    |- context [bool_decide (str ?a = str ?b)] =>
        let v := eval vm_compute in (bool_decide (str a = str b)) in change (bool_decide (str a = str b)) with v
  end.

Ltac fixed_texts_in H :=
  repeat match type of H with
    context [bool_decide (str ?a = str ?b)] =>
        let v := eval vm_compute in (bool_decide (str a = str b)) in change (bool_decide (str a = str b)) with v in H
  end.

Lemma begins_app p z : begins p (p ++ z) = true.
Proof. unfold begins. by rewrite take_app_length, bool_decide_eq_true_2. Qed.

Lemma index_not_unique z : begins (str "CREATE UNIQUE INDEX ") (str "CREATE INDEX " ++ z) = false.
Proof. reflexivity. Qed.

Lemma like_index z : like (str "CREATE INDEX %") (str "CREATE INDEX " ++ z) = true.
Proof. exact (like_any z). Qed.

Lemma like_unique z : like (str "CREATE UNIQUE INDEX %") (str "CREATE UNIQUE INDEX " ++ z) = true.
Proof. exact (like_any z). Qed.

Lemma real_table_value r :
  cond_value real_table r
  = Some (bool_decide (m_type r = str "table") && (negb (bool_decide (m_name r = sequence_name)) && (0 <? m_rootpage r))).
Proof.
  unfold real_table, is_table, not_sequence, has_root. cbn [cond_value text_value text_column compare number_value].
  fold sequence_name. by repeat destruct (bool_decide _); destruct (0 <? m_rootpage r).
Qed.

Lemma no_storage_value r :
  cond_value no_storage r
  = Some (bool_decide (m_type r = str "view") || (bool_decide (m_type r = str "trigger") ||
      (bool_decide (m_type r = str "table") && (m_rootpage r =? 0)))).
Proof.
  unfold no_storage, is_table. cbn [cond_value text_value text_column compare number_value].
  by repeat destruct (bool_decide _); destruct (m_rootpage r =? 0).
Qed.

Lemma sql_like_value p r : cond_value (sql_like p) r = like (str p) <$> m_sql r.
Proof. unfold sql_like. cbn [cond_value text_value text_column compare]. by destruct (m_sql r). Qed.

(** Beginnings that differ. *)
Ltac fixed_likes :=
  rewrite ?like_index, ?like_unique, ?begins_app, ?index_not_unique;
  repeat match goal with
    |- context [like (str ?a) (str ?b ++ ?z)] => change (like (str a) (str b ++ z)) with false
  end.

(** Both sides of the equivalence are decided. *)
Ltac both_sides :=
  split; [intros H; first [discriminate H|by eexists]
         |intros (o & H & Hk); first [discriminate H|injection H as <-; first [discriminate Hk|done]]].

Ltac selects_kind value Hn Hp :=
  rewrite value; unfold row_object, text_kind; cbn [m_type m_name m_tbl_name m_rootpage m_sql];
  rewrite ?(bool_decide_eq_false_2 _ Hn), ?(proj2 (Z.ltb_lt _ _) Hp), ?(proj2 (Z.eqb_neq _ 0) (not_eq_sym (Z.lt_neq _ _ Hp)));
  fixed_texts; cbn [mbind option_bind fmap option_fmap option_map andb orb negb]; fixed_likes;
  repeat (match goal with |- context [bool_decide (?n = sequence_name)] => destruct (bool_decide (n = sequence_name)) end);
  cbn [andb orb negb]; both_sides.

Lemma real_table_selects : selects real_table Table.
Proof. row_cases; selects_kind real_table_value Hn Hp. Qed.

Lemma index_selects : selects (sql_like "CREATE INDEX %") Index.
Proof. row_cases; selects_kind sql_like_value Hn Hp. Qed.

Lemma unique_selects : selects (sql_like "CREATE UNIQUE INDEX %") UniqueIndex.
Proof. row_cases; selects_kind sql_like_value Hn Hp. Qed.

Lemma no_storage_selects : selects no_storage Other.
Proof. row_cases; selects_kind no_storage_value Hn Hp. Qed.

(** ** What the queries give *)

Lemma select_objects w k e f rows :
  selects w k -> (forall r o, row_object r = Some o -> text_value e r = Some (f o)) -> Forall row_ok rows ->
  select_rows e w rows = (fun o => Some (f o)) <$> of_kind k (objects_of rows).
Proof.
  intros Hw He. unfold select_rows, selected, of_kind, objects_of. induction 1 as [|r rows Hr _ IH]; [done|].
  rewrite filter_cons. cbn [omap list_omap]. destruct (decide (cond_value w r = Some true)) as [Hc|Hc].
  - pose proof Hc as (o & Ho & Hk)%Hw; [|done]. rewrite Ho, filter_cons, decide_True by done.
    cbn [fmap list_fmap] in *. by rewrite IH, (He r o Ho).
  - destruct (row_object r) as [o|] eqn:Ho; [|exact IH]. rewrite filter_cons, decide_False; [exact IH|].
    intros Hk. apply Hc, Hw; [done|]. by exists o.
Qed.

Lemma selected_objects w k rows :
  selects w k -> Forall row_ok rows -> objects_of (selected w rows) = of_kind k (objects_of rows).
Proof.
  intros Hw. unfold selected, of_kind, objects_of. induction 1 as [|r rows Hr _ IH]; [done|].
  rewrite filter_cons. cbn [omap list_omap]. destruct (decide (cond_value w r = Some true)) as [Hc|Hc].
  - pose proof Hc as (o & Ho & Hk)%Hw; [|done]. cbn [omap list_omap]. rewrite Ho, filter_cons, decide_True by done. by f_equal.
  - destruct (row_object r) as [o|] eqn:Ho; [|exact IH]. rewrite filter_cons, decide_False; [exact IH|].
    intros Hk. apply Hc, Hw; [done|]. by exists o.
Qed.

Lemma object_sql r o : row_object r = Some o -> text_value (ETCol CSql) r = Some (o_sql o).
Proof.
  unfold row_object. destruct (bool_decide _); [done|]. cbn [text_value text_column].
  destruct (m_sql r) as [z|]; [|done]. by intros [= <-].
Qed.

Lemma copy_expr_value T S r : text_value (copy_expr T S) r = Some (copy_text T S (m_name r)).
Proof. unfold copy_expr, copy_text. cbn [text_value text_column]. by rewrite <- !app_assoc. Qed.

Lemma object_copy T S r o : row_object r = Some o -> text_value (copy_expr T S) r = Some (copy_text T S (o_name o)).
Proof.
  rewrite copy_expr_value. unfold row_object. destruct (bool_decide _); [done|].
  destruct (m_sql r) as [z|]; [|done]. by intros [= <-].
Qed.

Lemma select_sequences T S rows :
  select_rows (copy_expr T S) is_sequence rows = (fun _ => Some (copy_text T S sequence_name)) <$> sequences rows.
Proof.
  unfold select_rows, selected, sequences. induction rows as [|r rows IH]; [done|]. rewrite !filter_cons.
  assert (Hiff : cond_value is_sequence r = Some true <-> m_name r = sequence_name).
  { unfold is_sequence. cbn [cond_value text_value text_column compare]. fold sequence_name.
    split; [intros [= H%bool_decide_eq_true]; done|intros ->; by rewrite bool_decide_eq_true_2]. }
  destruct (decide (m_name r = sequence_name)) as [Hn|Hn].
  - rewrite decide_True by (by apply Hiff). cbn [fmap list_fmap] in *. by rewrite IH, copy_expr_value, Hn.
  - rewrite decide_False; [exact IH|]. by rewrite Hiff.
Qed.

Lemma project_columns (rows : list master_row) : omap (project [CType; CName; CTblName; CRootpage; CSql]) rows = rows.
Proof. induction rows as [|[] rows IH]; [done|]. cbn. f_equal. exact IH. Qed.

(** A table has a row with a root page. *)
Definition table_row (rows : list master_row) (n sql : list Z) : Prop :=
  exists r, r ∈ rows /\ m_type r = str "table" /\ 0 < m_rootpage r /\ m_name r = n /\ m_sql r = Some sql.

Lemma object_table_row rows o : o ∈ objects_of rows -> o_kind o = Table -> table_row rows (o_name o) (o_sql o).
Proof.
  intros (r & Hr & Ho)%list_elem_of_omap Hk. exists r. split; [done|]. revert Ho. unfold row_object.
  destruct (bool_decide (m_name r = _)); [done|]. destruct (m_sql r) as [z|] eqn:Ez; [|done]. intros [= <-].
  cbn [o_kind o_name o_sql] in *. unfold text_kind in Hk. destruct (bool_decide (m_type r = str "table")) eqn:Et.
  - apply bool_decide_eq_true in Et. destruct (0 <? m_rootpage r) eqn:Ep; [|done]. split; [done|]. split; [lia|done].
  - destruct (bool_decide (m_type r = str "index")); [|done]. by destruct (begins _ _).
Qed.

Lemma sequence_table_row rows : Forall row_ok rows -> sequences rows <> [] -> table_row rows sequence_name sequence_sql.
Proof.
  intros Hok Hs. destruct (sequences rows) as [|r rs] eqn:E; [done|].
  assert (Hr : r ∈ sequences rows) by (rewrite E; left). apply list_elem_of_filter in Hr as [Hn Hr].
  rewrite Forall_forall in Hok. destruct (Hok r Hr) as [(Ht & Hp & _ & Hs')|(Hne & _)]; [|done].
  exists r. split_and!; [done..|by apply Hs'].
Qed.

(** The rows without storage. *)
Lemma no_storage_root rows : Forall row_ok rows -> Forall (fun r => row_ok r /\ m_rootpage r = 0) (selected no_storage rows).
Proof.
  intros Hok. apply Forall_forall. intros r [Hc Hr]%list_elem_of_filter. rewrite Forall_forall in Hok.
  pose proof (Hok r Hr) as Hr'. split; [done|]. rewrite no_storage_value in Hc.
  destruct Hr' as [(Ht & Hp & _)|(_ & [(_ & ? & _)|[(Ht & _)|[(_ & ? & _)|(_ & ? & _)]]])]; [|done| |done|done];
    rewrite Ht in Hc; fixed_texts_in Hc; cbn [orb andb] in Hc; [|done]. injection Hc as Hc. lia.
Qed.

Lemma no_storage_sequences rows : Forall row_ok rows -> bool_decide (sequences (selected no_storage rows) <> []) = false.
Proof.
  intros Hok. apply bool_decide_eq_false. intros Hs.
  destruct (sequence_table_row (selected no_storage rows)) as (r & Hr & _ & Hp & _); [|done|].
  - eapply Forall_impl; [exact (no_storage_root rows Hok)|]. by intros r [? _].
  - pose proof (no_storage_root rows Hok) as Hall. rewrite Forall_forall in Hall. destruct (Hall r Hr). lia.
Qed.

Lemma not_sequence_object rows o : o ∈ objects_of rows -> o_name o <> sequence_name.
Proof.
  intros (r & _ & Ho)%list_elem_of_omap. revert Ho. unfold row_object.
  destruct (bool_decide (m_name r = sequence_name)) eqn:E; [done|]. destruct (m_sql r); [|done]. intros [= <-].
  by apply bool_decide_eq_false in E.
Qed.
