(* ===== verification/ExportProofs.v ===== *)
(** * Exporting a database: proofs

    The statements of [sqlcipher_export] copy tables, indexes, rows, sequence table
    and the remaining objects, in an order in which each finds what it needs; the
    connection is left as it was.  [SqlLaws] is what SQLite documents about the
    execution of a statement, for any text that [SqlText] can read, so that what
    the statements of the function do follows from their texts. *)

From stdpp Require Import base tactics list numbers option sets.
From Stdlib Require Import ZArith Lia ZifyBool.
From Stdlib Require String.
Import String.StringSyntax.
From S2P Require Import Prelude MtArrList Sha256 MtCrypto MerkleTree MtSerialize.
From S2P Require Import CipherUtil Openssl CodecCtx PageCodec CodecProofs CodecWitness Attach AttachProofs AttachWitness.
From S2P Require Import PagerIo Pragma Migrate SqlText Export ExportQueries.

Local Open Scope Z_scope.

Section laws.
Context {OS : OpenSSL} {rest D : Type} {VM : SqlVm rest D}.
Abbreviation conn := (conn rest D).

(** The database called [N] has index [i]. *)
Definition names (c : conn) (N : list Z) (i : nat) : Prop :=
  exists d, aDb (c_db c) !! i = Some d /\ zDbSName d = N.

(** CREATE statements go to the attached database [t], the schema may be written,
    and rows are copied as [VACUUM] does. *)
Definition exporting (c : conn) (t : nat) : Prop :=
  t <> 0%nat /\ c_iDb c = t /\ Z.land (c_flags c) SQLITE_WriteSchema <> 0 /\ Z.land (c_mDbFlags c) DBFLAG_Vacuum <> 0.

Definition settings (c : conn) := (c_db c, c_flags c, c_mDbFlags c, c_iDb c).

(** A statement that is prepared, stepped once and finalized. *)
Definition executes (c : conn) (z : list Z) (c' : conn) : Prop :=
  exists c1 s rc c2 s', vm_prepare c z = (SQLITE_OK, c1, Some s) /\ vm_step c1 s = (rc, c2, s') /\
    vm_finalize c2 s' = (SQLITE_OK, c').

(** Statements are those of [SqlText], CREATE statements, of which the text is that of
    a row of a schema table, and others, of which nothing is assumed. *)
Class SqlLaws := {
  value : Type;
  master : D -> nat -> list master_row;                 (** the schema table of a database *)
  contents : D -> nat -> list Z -> list value;          (** the rows of a table *)
  uses_sequence : list Z -> bool;                       (** AUTOINCREMENT *)
  keyword : list Z -> bool;                             (** of SQL *)
  pending : conn -> vm_stmt -> list (option (list Z)) -> Prop;   (** rows a query still gives *)
  reads : vm_stmt -> nat;                               (** the database whose schema it reads *)
  good : conn -> Prop;                                  (** the connection is consistent *)

  identifier (N : list Z) := plain_name N /\ keyword N = false;
  objects (d : D) (i : nat) := objects_of (master d i);
  has_sequence (d : D) (i : nat) := bool_decide (sequences (master d i) <> []);
  same_view (c c' : conn) := (settings c' = settings c /\ (good c -> good c')) /\ forall j,
    master (c_data c') j = master (c_data c) j /\ forall n, contents (c_data c') j n = contents (c_data c) j n;
  others_same (c c' : conn) (t : nat) := (settings c' = settings c /\ (good c -> good c')) /\ forall j, j <> t ->
    master (c_data c') j = master (c_data c) j /\ forall n, contents (c_data c') j n = contents (c_data c) j n;

  flags_law c N i : good c -> names c N i -> good (export_flags c i);
  master_law c i : good c ->
    Forall row_ok (master (c_data c) i) /\ (length (sequences (master (c_data c) i)) <= 1)%nat;
  sequence_law c i o : good c -> o ∈ objects (c_data c) i -> uses_sequence (o_sql o) = true ->
    has_sequence (c_data c) i = true;

  (** A query gives the rows its text selects, as long as the schema table it reads
      does not change. *)
  select_law c z e S w s : parse_sql z = Some (SelectMaster e S w) -> good c -> names c S s -> identifier S ->
    exists c1 st, vm_prepare c z = (SQLITE_OK, c1, Some st) /\ same_view c c1 /\ reads st = s /\
      pending c1 st (select_rows e w (master (c_data c) s));
  row_law c st r rs : pending c st (r :: rs) -> exists c' st', vm_step c st = (SQLITE_ROW, c', st') /\
    same_view c c' /\ vm_column_text st' = r /\ pending c' st' rs /\ reads st' = reads st;
  end_law c st : pending c st [] -> exists c' st' c'', vm_step c st = (SQLITE_DONE, c', st') /\
    vm_finalize c' st' = (SQLITE_OK, c'') /\ same_view c c'';
  stay_law c st rs z c' : pending c st rs -> executes c z c' ->
    master (c_data c') (reads st) = master (c_data c) (reads st) -> pending c' st rs;

  (** The text of a table or an index creates it again: its row is added, and rows
      for what SQLite makes by itself. *)
  create_law c t s o : good c -> exporting c t -> s <> t -> o ∈ objects (c_data c) s -> o_kind o <> Other ->
    Forall (fun o' => o_name o' <> o_name o) (objects (c_data c) t) ->
    (o_kind o <> Table -> exists o', o' ∈ objects (c_data c) t /\ o_kind o' = Table /\ o_name o' = o_on o) ->
    exists c' new, executes c (o_sql o) c' /\ others_same c c' t /\
      master (c_data c') t = master (c_data c) t ++ new /\ objects_of new = [o] /\
      (sequences new <> [] -> uses_sequence (o_sql o) = true) /\
      forall n, contents (c_data c') t n = contents (c_data c) t n;
  (** All rows of a table are inserted into an empty one of the same definition. *)
  insert_all_law c z T S t s n sql : parse_sql z = Some (InsertAll T n S n) ->
    good c -> exporting c t -> names c T t -> names c S s -> identifier T -> identifier S -> s <> t ->
    table_row (master (c_data c) t) n sql -> table_row (master (c_data c) s) n sql -> contents (c_data c) t n = [] ->
    exists c', executes c z c' /\ others_same c c' t /\ master (c_data c') t = master (c_data c) t /\
      contents (c_data c') t n = contents (c_data c) s n /\
      forall m, m <> n -> contents (c_data c') t m = contents (c_data c) t m;
  (** Rows without storage may be inserted into the schema table by hand. *)
  insert_master_law c z T cs S w t s : parse_sql z = Some (InsertMaster T cs S w) ->
    good c -> exporting c t -> names c T t -> names c S s -> identifier T -> identifier S -> s <> t ->
    let new := omap (project cs) (selected w (master (c_data c) s)) in
    Forall (fun r => row_ok r /\ m_rootpage r = 0) new ->
    exists c', executes c z c' /\ others_same c c' t /\ master (c_data c') t = master (c_data c) t ++ new /\
      forall n, contents (c_data c') t n = contents (c_data c) t n;
}.
End laws.

Section proofs.
Context {OS : OpenSSL} {rest D : Type} {VM : SqlVm rest D} {SL : SqlLaws}.
Abbreviation conn := (conn rest D).

(** ** Statements one by one *)

Lemma exec_sql_ok (c c' : conn) z err w :
  executes c z c' -> sqlcipher_execSql c err (Some z) w = Done ((SQLITE_OK, c', err), w).
Proof. intros (c1 & st & rc & c2 & st' & H1 & H2 & H3). unfold sqlcipher_execSql. rewrite H1. cbn. rewrite H2. cbn. unfold sqlcipher_finalize. cbn. by rewrite bind_ret, H3. Qed.

(** The loop over the rows of a query, for a property [P] of what is still to be
    executed and the connection: fuel for one step more than there are rows suffices. *)
Lemma exec_rows_ok (P : list (list Z) -> conn -> Prop) s (Hsame : forall rs c c', same_view c c' -> P rs c -> P rs c')
    (Hstep : forall r rs c, P (r :: rs) c -> exists c', executes c r c' /\
      master (c_data c') s = master (c_data c) s /\ P rs c') :
  forall rs fuel c st err, pending c st (Some <$> rs) -> reads st = s -> P rs c -> (length rs < fuel)%nat ->
  exists c', (forall w, exec_rows fuel c st err w = Done (Some (SQLITE_OK, c', err), w)) /\ P [] c'.
Proof.
  induction rs as [|r rs IH]; intros fuel c st err Hp Hr HP Hf; (destruct fuel as [|fuel]; [cbn in Hf; lia|]); cbn [exec_rows].
  - destruct (end_law c st Hp) as (c1 & st1 & c2 & -> & H2 & Hv). exists c2. split; [|by eapply Hsame].
    intros w. cbn. unfold sqlcipher_finalize. cbn [deref]. by rewrite bind_assoc, bind_ret, H2.
  - destruct (row_law c st _ _ Hp) as (c1 & st1 & -> & Hv & Hcol & Hp1 & Hr1). rewrite Hcol.
    destruct (Hstep r rs c1) as (c2 & Hex & Ho & HP2); [by eapply Hsame|].
    destruct (IH fuel c2 st1 err) as (c3 & E & HP3); [|congruence|done|cbn in Hf; lia|].
    { eapply stay_law; [exact Hp1|exact Hex|by rewrite Hr1, Hr]. }
    exists c3. split; [|done]. intros w. change (negb (SQLITE_ROW =? SQLITE_ROW)) with false. cbv iota.
    rewrite (bind_done _ _ _ _ _ (exec_sql_ok _ _ _ err w Hex)). apply E.
Qed.

Lemma exporting_settings (c c' : conn) t : settings c' = settings c -> exporting c t -> exporting c' t.
Proof. intros [= Hd Hf Hm Hi] (? & ? & ? & ?). unfold exporting. by rewrite Hf, Hm, Hi. Qed.

Lemma names_settings (c c' : conn) N i : settings c' = settings c -> names c N i -> names c' N i.
Proof. intros [= Hd _ _ _] (d & ? & ?). exists d. by rewrite Hd. Qed.

(** ** The copy *)

Section copy.
Context (T S : list Z) (t s : nat) (HidT : identifier T) (HidS : identifier S) (Hts : s <> t).
Context (d0 : D) (Hnodup : NoDup (o_name <$> filter (fun o => o_kind o <> Other) (objects d0 s)))
  (Hon : forall o, o ∈ objects d0 s -> o_kind o = Index \/ o_kind o = UniqueIndex ->
     exists o', o' ∈ objects d0 s /\ o_kind o' = Table /\ o_name o' = o_on o).

Abbreviation O := (objects d0 s).
Abbreviation tables := (of_kind Table O).

(** The target holds the objects [os], of which the tables in [filled] have their
    rows; the source is as it was. *)
Record copied (c : conn) (os : list object) (filled : list (list Z)) : Prop := {
  cp_good : good c;
  cp_exporting : exporting c t;
  cp_target : names c T t;
  cp_source : names c S s;
  cp_src_master : master (c_data c) s = master d0 s;
  cp_src_contents n : contents (c_data c) s n = contents d0 s n;
  cp_objects : objects (c_data c) t = os;
  cp_sequence : has_sequence (c_data c) t = true -> has_sequence d0 s = true;
  cp_filled n : n ∈ filled -> contents (c_data c) t n = contents d0 s n;
  cp_empty n : n ∉ filled -> contents (c_data c) t n = [];
}.

Lemma copied_same c c' os filled : same_view c c' -> copied c os filled -> copied c' os filled.
Proof.
  intros [[Hs Hg] Hv] []. destruct (Hv t) as (Ht1 & Ht2). destruct (Hv s) as (Hs1 & Hs2).
  unfold objects, has_sequence in *.
  split; unfold objects, has_sequence; intros; rewrite ?Ht1, ?Hs1, ?Ht2, ?Hs2 in *; eauto using exporting_settings, names_settings.
Qed.

(** Frames of the statements that change the target. *)
Lemma copied_frame c c' os filled os' filled' :
  copied c os filled -> others_same c c' t -> objects (c_data c') t = os' ->
  (has_sequence (c_data c') t = true -> has_sequence d0 s = true) ->
  (forall n, n ∈ filled' -> contents (c_data c') t n = contents d0 s n) ->
  (forall n, n ∉ filled' -> contents (c_data c') t n = []) -> copied c' os' filled'.
Proof.
  intros [] [[Hs Hg] Hv] Ho Hq Hf He. destruct (Hv s Hts) as (Hs1 & Hs2).
  split; intros; rewrite ?Hs1, ?Hs2; eauto using exporting_settings, names_settings.
Qed.

Lemma src_objects c os filled : copied c os filled -> objects (c_data c) s = O.
Proof. intros Hc. unfold objects. by rewrite (cp_src_master _ _ _ Hc). Qed.

Lemma same_name o o' :
  o ∈ O -> o' ∈ O -> o_kind o <> Other -> o_kind o' <> Other -> o_name o = o_name o' -> o = o'.
Proof.
  intros Ho Ho' Hk Hk' Hn.
  assert (Hi : o ∈ filter (fun o => o_kind o <> Other) O) by (by apply list_elem_of_filter).
  assert (Hj : o' ∈ filter (fun o => o_kind o <> Other) O) by (by apply list_elem_of_filter).
  apply list_elem_of_lookup in Hi as [i Hi]. apply list_elem_of_lookup in Hj as [j Hj].
  assert (i = j) as ->; [|congruence].
  eapply NoDup_lookup; [exact Hnodup|..]; rewrite list_lookup_fmap; [by rewrite Hi|by rewrite Hj, Hn].
Qed.

Lemma has_sequence_app (rows new : list master_row) :
  bool_decide (sequences (rows ++ new) <> []) = bool_decide (sequences rows <> []) || bool_decide (sequences new <> []).
Proof. unfold sequences. rewrite filter_app. by destruct (filter _ rows), (filter _ new). Qed.

Lemma step_create c os o :
  copied c os [] -> (forall o', o' ∈ os -> o' ∈ O /\ o_kind o' <> Other) -> o ∈ O -> o ∉ os -> o_kind o <> Other ->
  (o_kind o <> Table -> forall o', o' ∈ tables -> o' ∈ os) ->
  exists c', executes c (o_sql o) c' /\ others_same c c' t /\ copied c' (os ++ [o]) [].
Proof.
  intros Hc Hsub Ho Hnew Hk Htab. pose proof (src_objects _ _ _ Hc) as Hsrc.
  destruct (create_law c t s o) as (c' & new & Hex & Hoth & Hmas & Hobj & Hseq & Hcon).
  - apply (cp_good _ _ _ Hc).
  - apply (cp_exporting _ _ _ Hc).
  - done.
  - by rewrite Hsrc.
  - done.
  - rewrite (cp_objects _ _ _ Hc). apply Forall_forall. intros o' Ho' Hn. apply Hnew. destruct (Hsub o' Ho') as [? ?].
    by rewrite (same_name o o').
  - intros Hnt. destruct (Hon o Ho) as (o' & Ho' & Hk' & Hn'); [by destruct (o_kind o); auto|].
    exists o'. rewrite (cp_objects _ _ _ Hc). split; [|done]. apply (Htab Hnt). by apply list_elem_of_filter.
  - exists c'. split; [done|]. split; [done|]. eapply copied_frame; [done|done| | | |].
    + pose proof (cp_objects _ _ _ Hc) as Hos. unfold objects in *. by rewrite Hmas, objects_of_app, Hobj, Hos.
    + unfold has_sequence at 1. rewrite Hmas, has_sequence_app. intros [Hq|Hq]%orb_true_iff; [by apply (cp_sequence _ _ _ Hc)|].
      apply bool_decide_eq_true, Hseq in Hq. unfold has_sequence. rewrite <- (cp_src_master _ _ _ Hc).
      apply (sequence_law c s o); [apply Hc|by rewrite Hsrc|done].
    + intros n Hn. by apply elem_of_nil in Hn.
    + intros n Hn. rewrite Hcon. by apply (cp_empty _ _ _ Hc).
Qed.

Lemma step_copy c os filled n sql :
  copied c os filled -> n ∉ filled -> table_row (master (c_data c) t) n sql -> table_row (master (c_data c) s) n sql ->
  exists c', executes c (copy_text T S n) c' /\ others_same c c' t /\
    master (c_data c') t = master (c_data c) t /\ copied c' os (filled ++ [n]).
Proof.
  intros Hc Hn Ht Hs. destruct (insert_all_law c (copy_text T S n) T S t s n sql) as (c' & Hex & Hoth & Hmas & Hcon & Hrest);
    [apply parse_copy; [apply HidT|apply HidS]|apply Hc|apply Hc|apply Hc|apply Hc|done|done|done|done|done|by apply (cp_empty _ _ _ Hc)|].
  exists c'. split_and!; [done..|]. eapply copied_frame; [done|done| | | |].
  - unfold objects. rewrite Hmas. apply (cp_objects _ _ _ Hc).
  - unfold has_sequence at 1. rewrite Hmas. apply (cp_sequence _ _ _ Hc).
  - intros m [Hm|Hm%list_elem_of_singleton]%elem_of_app; [|subst m; by rewrite Hcon, (cp_src_contents _ _ _ Hc)].
    rewrite Hrest by (intros ->; done). by apply (cp_filled _ _ _ Hc).
  - intros m Hm. apply not_elem_of_app in Hm as [Hm Hm2]. rewrite Hrest by (intros ->; by apply Hm2, list_elem_of_singleton).
    by apply (cp_empty _ _ _ Hc).
Qed.

(** ** Queries *)

Lemma query_ok z e wh N i (rs : list (list Z)) (P : list (list Z) -> conn -> Prop) fuel c os filled err :
  parse_sql z = Some (SelectMaster e N wh) -> copied c os filled -> names c N i -> identifier N ->
  select_rows e wh (master (c_data c) i) = Some <$> rs -> P rs c ->
  (forall rs c c', same_view c c' -> P rs c -> P rs c') ->
  (forall r rs c, P (r :: rs) c -> exists c', executes c r c' /\ P rs c' /\
     master (c_data c') i = master (c_data c) i) ->
  (length rs < fuel)%nat ->
  exists c', (forall w, sqlcipher_execExecSql fuel c err z w = Done (Some (SQLITE_OK, c', err), w)) /\ P [] c'.
Proof.
  intros Hz Hc HN HidN Hrs HP Hsame Hstep Hf.
  destruct (select_law c z e N wh i Hz) as (c1 & st & E & Hv & Hr & Hp); [apply Hc|done|done|]. rewrite Hrs in Hp.
  unfold sqlcipher_execExecSql. rewrite E. change (negb (SQLITE_OK =? SQLITE_OK)) with false. cbv iota.
  eapply (exec_rows_ok P _ Hsame); [|exact Hp|exact Hr|by eapply Hsame|done].
  intros r rs' c2 H2. destruct (Hstep r rs' c2 H2) as (c' & ? & ? & ?). by exists c'.
Qed.

(** What a query about one kind of objects of the source gives. *)
Lemma query_rows_of c os filled wh k e f :
  copied c os filled -> selects wh k -> (forall r o, row_object r = Some o -> text_value e r = Some (f o)) ->
  select_rows e wh (master (c_data c) s) = Some <$> (f <$> of_kind k O).
Proof.
  intros Hc Hw He. rewrite <- list_fmap_compose, <- (src_objects _ _ _ Hc). unfold objects.
  apply select_objects; [done|done|]. apply master_law, Hc.
Qed.

Lemma NoDup_kind k : k <> Other -> NoDup (o_name <$> of_kind k O).
Proof. intros Hk. eapply sublist_NoDup; [exact Hnodup|]. by apply fmap_sublist, sublist_kind. Qed.

(** What a statement on the target leaves of the source. *)
Lemma source_kept c c' : others_same c c' t -> master (c_data c') s = master (c_data c) s.
Proof. intros [_ H]. by destruct (H s Hts) as (? & _). Qed.

Lemma create_phase z wh k fuel c os err :
  copied c os [] -> parse_sql z = Some (SelectMaster (ETCol CSql) S wh) -> selects wh k -> k <> Other ->
  (forall o, o ∈ os -> o ∈ O /\ o_kind o <> k /\ o_kind o <> Other) -> (k <> Table -> forall o, o ∈ tables -> o ∈ os) ->
  (length O < fuel)%nat ->
  exists c', (forall w, sqlcipher_execExecSql fuel c err z w = Done (Some (SQLITE_OK, c', err), w)) /\
    copied c' (os ++ of_kind k O) [].
Proof.
  intros Hc Hz Hwh Hk Hos Htab Hf.
  set (P := fun rs c => exists fin todo, of_kind k O = fin ++ todo /\ rs = o_sql <$> todo /\ copied c (os ++ fin) []).
  destruct (query_ok z _ wh S s (o_sql <$> of_kind k O) P fuel c os [] err Hz Hc) as (c' & E & fin & todo & Hl & Hnil & Hc').
  - apply Hc.
  - exact HidS.
  - eapply query_rows_of; [exact Hc|done|apply object_sql].
  - exists [], (of_kind k O). rewrite app_nil_r. done.
  - intros rs c1 c2 Hv (fin & todo & ? & ? & ?). exists fin, todo. split_and!; [done..|]. by eapply copied_same.
  - intros r rs c1 (fin & [|o todo] & Hl & Hrs & Hc1); [done|]. injection Hrs as -> ->.
    assert (Hfin : forall o', o' ∈ fin -> o' ∈ O /\ o_kind o' = k).
    { intros o' Ho'. assert (H : o' ∈ of_kind k O) by (rewrite Hl; apply elem_of_app; by left).
      by apply list_elem_of_filter in H as [? ?]. }
    assert (Hko : o ∈ of_kind k O) by (rewrite Hl; apply elem_of_app; right; left). apply list_elem_of_filter in Hko as [Hko Ho].
    destruct (step_create c1 (os ++ fin) o) as (c2 & Hex & Hoth & Hc2); [done| |done| | | |].
    + intros o' [Ho'|Ho']%elem_of_app; [by destruct (Hos o' Ho') as (? & _ & ?)|]. destruct (Hfin o' Ho') as [? ->]. done.
    + intros [Ho'|Ho']%elem_of_app; [by destruct (Hos o Ho') as (_ & ? & _)|].
      assert (Hnd : NoDup (fin ++ o :: todo)) by (rewrite <- Hl; eapply NoDup_fmap_1, NoDup_kind; done).
      apply NoDup_app in Hnd as (_ & Hdis & _). eapply Hdis; [done|left].
    + by rewrite Hko.
    + intros Hnt o' Ho'. apply elem_of_app. left. apply Htab; [by rewrite <- Hko|done].
    + exists c2. split; [done|]. split; [|by apply source_kept].
      exists (fin ++ [o]), todo. split_and!; [by rewrite <- app_assoc|done|by rewrite app_assoc].
  - rewrite length_fmap. pose proof (length_filter (fun o => o_kind o = k) O). unfold of_kind. lia.
  - exists c'. split; [done|]. symmetry in Hnil. apply fmap_nil_inv in Hnil as ->. rewrite app_nil_r in Hl. by rewrite Hl.
Qed.

Lemma rows_phase fuel c os err :
  copied c os [] -> (forall o, o ∈ tables -> o ∈ os) -> (length O < fuel)%nat ->
  exists c', (forall w, sqlcipher_execExecSql fuel c err (rows_query T S) w = Done (Some (SQLITE_OK, c', err), w)) /\
    copied c' os (o_name <$> tables).
Proof.
  intros Hc Hos Hf.
  set (P := fun rs c => exists fin todo, tables = fin ++ todo /\ rs = (copy_text T S ∘ o_name) <$> todo /\
    copied c os (o_name <$> fin)).
  assert (Hnd : NoDup (o_name <$> tables)) by (by apply NoDup_kind).
  destruct (query_ok (rows_query T S) (copy_expr T S) real_table S s ((copy_text T S ∘ o_name) <$> tables) P fuel c os [] err)
    as (c' & E & fin & todo & Hl & Hnil & Hc').
  - apply parse_rows; [apply HidT|apply HidS].
  - exact Hc.
  - apply Hc.
  - exact HidS.
  - eapply query_rows_of; [exact Hc|exact real_table_selects|apply object_copy].
  - by exists [], tables.
  - intros rs c1 c2 Hv (fin & todo & ? & ? & ?). exists fin, todo. split_and!; [done..|]. by eapply copied_same.
  - intros r rs c1 (fin & [|o todo] & Hl & Hrs & Hc1); [done|]. injection Hrs as -> ->.
    assert (Hto : o ∈ tables) by (rewrite Hl; apply elem_of_app; right; left).
    pose proof Hto as [Hk Ho]%list_elem_of_filter.
    destruct (step_copy c1 os (o_name <$> fin) (o_name o) (o_sql o)) as (c2 & Hex & Hoth & _ & Hc2); [done| | | |].
    + rewrite Hl, fmap_app in Hnd. apply NoDup_app in Hnd as (_ & Hdis & _). intros Hin. by apply (Hdis _ Hin); left.
    + apply object_table_row; [|done]. change (o ∈ objects (c_data c1) t). rewrite (cp_objects _ _ _ Hc1). auto.
    + apply object_table_row; [|done]. change (o ∈ objects (c_data c1) s). by rewrite (src_objects _ _ _ Hc1).
    + exists c2. split; [done|]. split; [|by apply source_kept].
      exists (fin ++ [o]), todo. split_and!; [by rewrite <- app_assoc|done|by rewrite fmap_app].
  - rewrite length_fmap. pose proof (length_filter (fun o => o_kind o = Table) O). unfold of_kind. lia.
  - exists c'. split; [done|]. symmetry in Hnil. apply fmap_nil_inv in Hnil as ->. rewrite app_nil_r in Hl. by rewrite Hl.
Qed.

Lemma sequence_phase fuel c os filled err :
  copied c os filled -> sequence_name ∉ filled -> (1 < fuel)%nat ->
  exists c' filled', (forall w, sqlcipher_execExecSql fuel c err (sequence_query T S) w = Done (Some (SQLITE_OK, c', err), w)) /\
    copied c' os filled' /\ (forall n, n ∈ filled -> n ∈ filled') /\
    (has_sequence (c_data c') t = true -> sequence_name ∈ filled').
Proof.
  intros Hc Hnew Hf.
  set (P := fun rs c => (rs = [copy_text T S sequence_name] /\ copied c os filled /\ has_sequence (c_data c) t = true) \/
    (rs = [] /\ exists filled', copied c os filled' /\ (forall n, n ∈ filled -> n ∈ filled') /\
      (has_sequence (c_data c) t = true -> sequence_name ∈ filled'))).
  destruct (master_law c t) as [_ Hone]; [apply Hc|].
  destruct (query_ok (sequence_query T S) (copy_expr T S) is_sequence T t
    ((fun _ => copy_text T S sequence_name) <$> sequences (master (c_data c) t)) P fuel c os filled err) as (c' & E & HP).
  - apply parse_sequence; [apply HidT|apply HidS].
  - exact Hc.
  - apply Hc.
  - exact HidT.
  - rewrite select_sequences, <- list_fmap_compose. done.
  - destruct (sequences (master (c_data c) t)) as [|r [|r2 rs]] eqn:Eq; [right|left|cbn in Hone; lia].
    + split; [done|]. exists filled. split_and!; [done..|]. unfold has_sequence. by rewrite Eq.
    + split_and!; [done..|]. unfold has_sequence. by rewrite Eq.
  - intros rs c1 c2 Hv. pose proof Hv as [_ Hv2]. destruct (Hv2 t) as (Hm & _).
    assert (Hs : has_sequence (c_data c2) t = has_sequence (c_data c1) t) by (unfold has_sequence; by rewrite Hm).
    intros [(? & ? & ?)|(? & f' & ? & ? & ?)]; [left|right]; rewrite ?Hs.
    + split_and!; [done|by eapply copied_same|done].
    + split; [done|]. exists f'. split_and!; [by eapply copied_same|done|done].
  - intros r rs c1 [(Hrs & Hc1 & Hs1)|(Hrs & _)]; [|done]. injection Hrs as -> ->.
    destruct (step_copy c1 os filled sequence_name sequence_sql) as (c2 & Hex & Hoth & Hm2 & Hc2); [done|done| | |].
    { apply sequence_table_row; [apply master_law, Hc1|by apply bool_decide_eq_true in Hs1]. }
    { apply sequence_table_row; [apply master_law, Hc1|]. rewrite (cp_src_master _ _ _ Hc1).
      by apply (cp_sequence _ _ _ Hc1), bool_decide_eq_true in Hs1. }
    exists c2. split; [done|]. split; [|done].
    right. split; [done|]. exists (filled ++ [sequence_name]). split; [done|]. split; intros; apply elem_of_app; [by left|].
    right. left.
  - rewrite length_fmap. lia.
  - destruct HP as [(? & _)|(_ & f' & ? & ? & ?)]; [done|]. by exists c', f'.
Qed.

Lemma query_next fuel q qs c c' err w :
  all_ok w -> (forall w, sqlcipher_execExecSql fuel c err q w = Done (Some (SQLITE_OK, c', err), w)) ->
  exists w', all_ok w' /\ export_queries fuel (q :: qs) c err w = export_queries fuel qs c' err w'.
Proof.
  intros Hw H. cbn [export_queries]. unfold sqlite3_mprintf. rewrite bind_assoc. alloc_step. rewrite bind_ret.
  rewrite (bind_done _ _ _ _ _ (H _)). by eexists.
Qed.

Lemma of_kind_elem k o (os : list object) : o ∈ of_kind k os <-> o ∈ os /\ o_kind o = k.
Proof. unfold of_kind. rewrite list_elem_of_filter. tauto. Qed.

(** All queries on an empty target. *)
Lemma queries_ok fuel c w :
  copied c [] [] -> (length O + 1 < fuel)%nat -> all_ok w ->
  exists c' filled w', export_queries fuel [tables_query S; indexes_query S; unique_query S; rows_query T S;
      sequence_query T S] c NoText w = Done (Some (SQLITE_OK, c', NoText), w') /\ all_ok w' /\
    copied c' (tables ++ of_kind Index O ++ of_kind UniqueIndex O) filled /\
    (forall o, o ∈ tables -> o_name o ∈ filled) /\ (has_sequence (c_data c') t = true -> sequence_name ∈ filled).
Proof.
  intros Hc Hf Hw. pose proof (proj1 HidS) as HpS.
  destruct (create_phase (tables_query S) _ Table fuel c [] NoText Hc (parse_tables S HpS) real_table_selects) as (c1 & E1 & H1);
    [done|by intros o ?%elem_of_nil|done|lia|].
  destruct (create_phase (indexes_query S) _ Index fuel c1 tables NoText H1 (parse_indexes S HpS) index_selects) as (c2 & E2 & H2);
    [done|by intros o [? ->]%of_kind_elem|done|lia|].
  destruct (create_phase (unique_query S) _ UniqueIndex fuel c2 (tables ++ of_kind Index O) NoText H2 (parse_unique S HpS) unique_selects)
    as (c3 & E3 & H3); [done|by intros o [[? ->]%of_kind_elem|[? ->]%of_kind_elem]%elem_of_app|intros; apply elem_of_app; by left|lia|].
  rewrite <- app_assoc in H3.
  destruct (rows_phase fuel c3 _ NoText H3) as (c4 & E4 & H4); [intros; apply elem_of_app; by left|lia|].
  destruct (sequence_phase fuel c4 _ _ NoText H4) as (c5 & filled & E5 & H5 & Hin & Hs5); [|lia|].
  { intros (o & Hn & [Ho _]%of_kind_elem)%list_elem_of_fmap. by apply (not_sequence_object _ o Ho). }
  destruct (query_next fuel (tables_query S) [indexes_query S; unique_query S; rows_query T S; sequence_query T S] _ _ _ _ Hw E1)
    as (w1 & Hw1 & ->).
  destruct (query_next fuel (indexes_query S) [unique_query S; rows_query T S; sequence_query T S] _ _ _ _ Hw1 E2) as (w2 & Hw2 & ->).
  destruct (query_next fuel (unique_query S) [rows_query T S; sequence_query T S] _ _ _ _ Hw2 E3) as (w3 & Hw3 & ->).
  destruct (query_next fuel (rows_query T S) [sequence_query T S] _ _ _ _ Hw3 E4) as (w4 & Hw4 & ->).
  destruct (query_next fuel (sequence_query T S) [] _ _ _ _ Hw4 E5) as (w5 & Hw5 & ->).
  exists c5, filled, w5. split_and!; [done|done|done| |done]. intros o Ho. apply Hin, list_elem_of_fmap. by exists o.
Qed.

(** The objects without storage come last. *)
Lemma statements_ok fuel c w :
  copied c [] [] -> (length O + 1 < fuel)%nat -> all_ok w ->
  exists c' filled w', export_statements fuel c T S w = Done (Some (SQLITE_OK, c', NoText), w') /\ all_ok w' /\
    copied c' (tables ++ of_kind Index O ++ of_kind UniqueIndex O ++ of_kind Other O) filled /\
    (forall o, o ∈ tables -> o_name o ∈ filled) /\ (has_sequence (c_data c') t = true -> sequence_name ∈ filled).
Proof.
  intros Hc Hf Hw. unfold export_statements.
  destruct (queries_ok fuel c w Hc Hf Hw) as (c1 & filled & w1 & E1 & Hw1 & H1 & Hin & Hs1).
  rewrite (bind_done _ _ _ _ _ E1). change (negb (SQLITE_OK =? SQLITE_OK)) with false. cbv iota beta.
  unfold sqlite3_mprintf. rewrite bind_assoc. alloc_step. rewrite bind_ret.
  destruct (master_law c1 s) as [Hrows _]; [apply H1|].
  destruct (insert_master_law c1 (master_insert T S) T _ S no_storage t s (parse_master T S (proj1 HidT) (proj1 HidS)))
    as (c2 & Hex & Hoth & Hmas & Hcon); [apply H1|apply H1|apply H1|apply H1|done|done|done| |].
  { rewrite project_columns. by apply no_storage_root. }
  rewrite project_columns in Hmas.
  assert (Hseq : has_sequence (c_data c2) t = has_sequence (c_data c1) t).
  { unfold has_sequence. by rewrite Hmas, has_sequence_app, no_storage_sequences, orb_false_r by done. }
  rewrite (bind_done _ _ _ _ _ (exec_sql_ok _ _ _ NoText _ Hex)).
  eexists c2, filled, _. split_and!; [done|done| |done|by rewrite Hseq].
  eapply copied_frame; [exact H1|exact Hoth| | | |].
  - pose proof (src_objects _ _ _ H1) as Hsrc. pose proof (cp_objects _ _ _ H1) as Hobj. unfold objects in *.
    rewrite Hmas, objects_of_app, (selected_objects no_storage Other _ no_storage_selects Hrows), Hsrc, Hobj.
    by rewrite <- !app_assoc.
  - rewrite Hseq. apply H1.
  - intros n Hn. rewrite Hcon. by apply (cp_filled _ _ _ H1).
  - intros n Hn. rewrite Hcon. by apply (cp_empty _ _ _ H1).
Qed.
End copy.

(** ** The function *)

Lemma flags_exporting (c : conn) t : t <> 0%nat -> exporting (export_flags c t) t.
Proof.
  assert (Hbit : forall x k, 0 <= k -> Z.testbit x k = true -> Z.land x (2 ^ k) <> 0).
  { intros x k Hk Hx H. assert (E : Z.testbit (Z.land x (2 ^ k)) k = true) by (by rewrite Z.land_spec, Z.pow2_bits_true, Hx).
    by rewrite H, Z.bits_0 in E. }
  intros Ht. split; [done|]. split; [done|]. cbn [c_flags c_mDbFlags export_flags]. split.
  - apply (Hbit _ 0); [done|]. by rewrite Z.land_spec, Z.lor_spec, Z.lnot_spec, orb_true_r.
  - apply (Hbit _ 2); [done|]. by rewrite Z.lor_spec, orb_true_r.
Qed.

(** What a schema always has: the names of tables and indexes are unique and an index
    has a table. *)
Definition schema_ok (os : list object) : Prop :=
  NoDup (o_name <$> filter (fun o => o_kind o <> Other) os) /\
  (forall o, o ∈ os -> o_kind o = Index \/ o_kind o = UniqueIndex ->
     exists o', o' ∈ os /\ o_kind o' = Table /\ o_name o' = o_on o).

(** C29. [sqlcipher_export] copies a database.  Into an empty attached database, with
    memory available and fuel for the rows of the schema, it returns without an
    error; the target then has the objects of the source, tables first, then
    indexes, then views, triggers and virtual tables, every table has the rows it
    has in the source, the sequence table too; the source is unchanged, and so are
    the flags, counters and trace settings of the connection.  What the statements
    select and change is computed from their texts; of SQLite it is assumed that
    it executes such texts ([SqlLaws]). *)
Theorem export_copies fuel (c : conn) T S t s w :
  let os := objects (c_data c) s in
  sqlcipher_find_db_index (c_db c) (Some T) = t -> t <> 0%nat -> good c ->
  names c T t -> names c S s -> identifier T -> identifier S -> s <> t -> schema_ok os ->
  master (c_data c) t = [] -> (forall n, contents (c_data c) t n = []) ->
  (length os + 1 < fuel)%nat -> all_ok w ->
  exists c' w', sqlcipher_exportFunc fuel c [Some T; Some S] w = Done (Some (c', None), w') /\
    objects (c_data c') t = of_kind Table os ++ of_kind Index os ++ of_kind UniqueIndex os ++ of_kind Other os /\
    (forall o, o ∈ of_kind Table os -> contents (c_data c') t (o_name o) = contents (c_data c) s (o_name o)) /\
    (has_sequence (c_data c') t = true -> contents (c_data c') t sequence_name = contents (c_data c) s sequence_name) /\
    master (c_data c') s = master (c_data c) s /\ (forall n, contents (c_data c') s n = contents (c_data c) s n) /\
    c_flags c' = c_flags c /\ c_mDbFlags c' = c_mDbFlags c /\ c_nChange c' = c_nChange c /\
    c_nTotalChange c' = c_nTotalChange c /\ c_mTrace c' = c_mTrace c /\ c_xTrace c' = c_xTrace c /\ c_iDb c' = 0%nat.
Proof.
  intros os Hfind Ht Hgood HT HS HidT HidS Hts (Hnd & Hon) Hempty Hnone Hf Hw.
  destruct (statements_ok T S t s HidT HidS Hts (c_data c) Hnd Hon fuel (export_flags c t) w) as (c1 & filled & w1 & E & Hw1 & Hc & Hin & Hs);
    [|done|done|].
  { split; try done; [by eapply flags_law|by apply flags_exporting|unfold objects; cbn; by rewrite Hempty
      |unfold has_sequence; cbn; by rewrite Hempty|by intros n ?%elem_of_nil]. }
  unfold sqlcipher_exportFunc. cbn [length]. change (negb (Z.of_nat 2 =? 1) && negb (Z.of_nat 2 =? 2)) with false.
  cbn -[export_statements export_flags Z.of_nat end_of_export sqlite3StrICmp sqlcipher_find_db_index]. rewrite Hfind.
  replace (Z.of_nat t =? 0) with false by lia. cbn [andb]. rewrite (bind_done _ _ _ _ _ E).
  eexists _, w1. split; [reflexivity|]. cbn. split_and!; try done; try apply Hc.
  - intros o Ho. by apply (cp_filled _ _ _ _ _ _ _ _ Hc), Hin.
  - intros Hq. apply (cp_filled _ _ _ _ _ _ _ _ Hc). auto.
Qed.
End proofs.

(** ** An instance

    A small engine for the statements of [SqlText] and the CREATE statements of its
    main database, which has a table, an index, a view and a trigger.  [c_data] is
    what the attached database [t] holds: the rows of its schema table and those of
    its tables. *)

Module Toy.
#[local] Existing Instance toy_openssl.

Definition a_table : master_row := Mk_row (str "table") (str "a") (str "a") 2 (Some (str "CREATE TABLE a(x)")).
Definition an_index : master_row := Mk_row (str "index") (str "i") (str "a") 3 (Some (str "CREATE INDEX i ON a(x)")).
Definition a_view : master_row := Mk_row (str "view") (str "v") (str "v") 0 (Some (str "CREATE VIEW v AS SELECT x FROM a")).
Definition a_trigger : master_row :=
  Mk_row (str "trigger") (str "r") (str "a") 0 (Some (str "CREATE TRIGGER r AFTER INSERT ON a BEGIN DELETE FROM a; END")).
Definition source : list master_row := [a_view; an_index; a_trigger; a_table].
Abbreviation data := (list master_row * (list Z -> list Z))%type.

Definition dbs : sqlite3 (list Z) := Mk_sqlite3 [Mk_db main_name None; Mk_db (str "t") None] 4096.
Definition index_of (N : list Z) : nat := if bool_decide (N = main_name) then 0%nat else 1%nat.

Inductive stmt :=
  | Rows (rs : list (option (list Z))) (row : option (list Z)) (reads : nat)
  | Change (f : data -> data).

Definition t_master (d : data) (i : nat) : list master_row :=
  match i with 0%nat => source | 1%nat => d.1 | _ => [] end.
Definition t_contents (d : data) (i : nat) (n : list Z) : list Z :=
  match i with 0%nat => if bool_decide (n = str "a") then [7; 8] else [] | 1%nat => d.2 n | _ => [] end.

Definition put_data (c : conn (list Z) data) (d : data) : conn (list Z) data :=
  Mk_conn (c_db c) (c_flags c) (c_mDbFlags c) (c_nChange c) (c_nTotalChange c) (c_mTrace c) (c_xTrace c) (c_iDb c) d.

(** The effect of a statement. *)
Definition t_run (d : data) (s : statement) : stmt :=
  match s with
  | SelectMaster e N w => Rows (select_rows e w (t_master d (index_of N))) None (index_of N)
  | InsertMaster _ cs N w => Change (fun d => (d.1 ++ omap (project cs) (selected w (t_master d (index_of N))), d.2))
  | InsertAll _ n N m =>
      Change (fun d => (d.1, fun k => if bool_decide (k = n) then t_contents d (index_of N) m else d.2 k))
  end.

Definition t_create (z : list Z) : option stmt :=
  r ← List.find (fun r => bool_decide (m_sql r = Some z)) source;
  Some (Change (fun d => (d.1 ++ [r], d.2))).

#[export] Instance vm : SqlVm (list Z) data := {|
  vm_stmt := stmt;
  vm_prepare c z :=
    match parse_sql z with
    | Some s => (SQLITE_OK, c, Some (t_run (c_data c) s))
    | None => match t_create z with Some s => (SQLITE_OK, c, Some s) | None => (SQLITE_ERROR, c, None) end
    end;
  vm_step c s :=
    match s with
    | Rows (r :: rs) _ k => (SQLITE_ROW, c, Rows rs r k)
    | Rows [] _ k => (SQLITE_DONE, c, Rows [] None k)
    | Change f => (SQLITE_DONE, put_data c (f (c_data c)), Change id)
    end;
  vm_column_text s := match s with Rows _ r _ => r | Change _ => None end;
  vm_finalize c _ := (SQLITE_OK, c);
  vm_errmsg _ := [];
  vm_errcode _ := SQLITE_ERROR;
  sqlite3ErrStr _ := [];
|}.

Definition plain_row (r : master_row) : Prop := row_ok r /\ m_name r <> sequence_name.

Definition t_good (c : conn (list Z) data) : Prop :=
  c_db c = dbs /\ (c_iDb c <= 1)%nat /\ Forall plain_row (c_data c).1.

Lemma source_plain : Forall plain_row source.
Proof.
  repeat (apply Forall_cons_2 || apply Forall_nil_2); (split; [|by vm_compute]).
  - right. split; [by vm_compute|]. do 2 right. left. split_and!; [done|done|by eexists].
  - right. split; [by vm_compute|]. right. left. split; [done|]. right. left. by eexists.
  - right. split; [by vm_compute|]. do 3 right. split_and!; [done|done|by eexists].
  - left. split; [done|]. split; [done|]. split; [by eexists|]. by vm_compute.
Qed.

Lemma t_rows c i : t_good c -> Forall plain_row (t_master (c_data c) i).
Proof. intros (_ & _ & Hr). destruct i as [|[|i]]; [exact source_plain|exact Hr|constructor]. Qed.

Lemma t_names c N i : t_good c -> names c N i -> (i = 0%nat /\ N = main_name) \/ (i = 1%nat /\ N = str "t").
Proof. intros (Hdb & _) (d & Hd & <-). rewrite Hdb in Hd. destruct i as [|[|]]; [left|right|done]; by injection Hd as <-. Qed.

Lemma t_index c N i : t_good c -> names c N i -> index_of N = i.
Proof. intros Hg Hn. by destruct (t_names c N i Hg Hn) as [[-> ->]|[-> ->]]. Qed.

Lemma t_exporting c t : t_good c -> exporting c t -> t = 1%nat.
Proof. intros (_ & Hi & _) (? & ? & _). lia. Qed.

(** A statement that changes the target to good rows. *)
Lemma t_change c z f :
  (exists s, vm_prepare c z = (SQLITE_OK, c, Some s) /\ s = Change f) -> (t_good c -> Forall plain_row (f (c_data c)).1) ->
  executes c z (put_data c (f (c_data c))) /\
  (settings (put_data c (f (c_data c))) = settings c /\ (t_good c -> t_good (put_data c (f (c_data c))))) /\
  forall j, j <> 1%nat -> t_master (f (c_data c)) j = t_master (c_data c) j /\
    forall n, t_contents (f (c_data c)) j n = t_contents (c_data c) j n.
Proof.
  intros (s & H & ->) Hf. split.
  { exists c, (Change f), SQLITE_DONE, (put_data c (f (c_data c))), (Change id). by rewrite H. }
  split; [|by intros [|[|j]] Hj]. split; [done|]. intros Hg. pose proof Hg as (? & ? & ?). split; [done|]. split; [done|]. auto.
Qed.

Lemma t_create_ok r z :
  r ∈ source -> m_sql r = Some z -> parse_sql z = None /\ t_create z = Some (Change (fun d => (d.1 ++ [r], d.2))).
Proof.
  intros Hr Hz. unfold source in Hr.
  do 4 (apply elem_of_cons in Hr as [-> |Hr]; [injection Hz as <-; split; reflexivity|]). by apply elem_of_nil in Hr.
Qed.

#[export, program] Instance laws : SqlLaws (rest := list Z) (D := data) := {|
  value := Z;
  master := t_master;
  contents := t_contents;
  uses_sequence _ := false;
  keyword _ := false;
  pending c st rs := exists r k, st = Rows rs r k;
  reads st := match st with Rows _ _ k => k | Change _ => 0%nat end;
  good := t_good;
|}.
Next Obligation.
  intros c N i Hg Hn. destruct Hg as (? & ? & ?).
  destruct (t_names c N i ltac:(done) Hn) as [[-> _]|[-> _]]; (split; [done|]); (split; [cbn; lia|done]).
Qed.
Next Obligation.
  intros c i Hg. pose proof (t_rows c i Hg) as Hr. split; [eapply Forall_impl; [exact Hr|]; by intros r [? _]|].
  destruct (sequences (t_master (c_data c) i)) as [|r rs] eqn:E; [cbn; lia|].
  assert (Hin : r ∈ sequences (t_master (c_data c) i)) by (rewrite E; left). apply list_elem_of_filter in Hin as [Hn Hin].
  rewrite Forall_forall in Hr. by destruct (Hr r Hin).
Qed.
Next Obligation. done. Qed.
Next Obligation.
  intros c z e N w s Hz Hg Hn _. exists c. eexists. cbn -[index_of]. rewrite Hz. cbn -[index_of]. rewrite (t_index c N s Hg Hn).
  split; [reflexivity|]. split; [done|]. split; [done|]. by eexists _, _.
Qed.
Next Obligation. intros c st r rs (r0 & k & ->). eexists _, _. split; [reflexivity|]. split_and!; try done. by eexists _, _. Qed.
Next Obligation. intros c st (r0 & k & ->). by eexists _, _, _. Qed.
Next Obligation. done. Qed.
Next Obligation.
  intros c t s o Hg He Hts Ho Hk _ _. pose proof (t_exporting c t Hg He) as ->.
  destruct s as [|[|s]]; [|done|by apply elem_of_nil in Ho].
  apply list_elem_of_omap in Ho as (r & Hr & Ho). assert (Hz : m_sql r = Some (o_sql o)).
  { by apply object_sql in Ho. }
  destruct (t_create_ok r (o_sql o) Hr Hz) as [Hp Hc].
  destruct (t_change c (o_sql o) (fun d => (d.1 ++ [r], d.2))) as (Hex & Hg' & Hoth).
  { eexists. split; [cbn -[t_create]; rewrite Hp, Hc; reflexivity|reflexivity]. }
  { intros (_ & _ & Hall). cbn. apply Forall_app_2; [done|]. constructor; [|constructor].
    pose proof source_plain as Hs. rewrite Forall_forall in Hs. by apply Hs. }
  exists (put_data c ((c_data c).1 ++ [r], (c_data c).2)), [r]. split; [exact Hex|]. split; [split; [exact Hg'|exact Hoth]|].
    split; [done|]. split; [|split; [|done]].
  - unfold objects_of. cbn. by rewrite Ho.
  - intros Hs. unfold sequences in Hs. rewrite filter_cons, decide_False in Hs; [done|].
    pose proof source_plain as Hall. rewrite Forall_forall in Hall. by apply Hall.
Qed.
Next Obligation.
  intros c z T N t s n sql Hz Hg He HT HS _ _ Hts Ht Hs _. pose proof (t_exporting c t Hg He) as ->.
  destruct (t_change c z (fun d => (d.1, fun k => if bool_decide (k = n) then t_contents d (index_of N) n else d.2 k)))
    as (Hex & Hg' & Hoth).
  { eexists. split; [cbn; rewrite Hz; reflexivity|reflexivity]. }
  { by intros (_ & _ & ?). }
  eexists. split; [exact Hex|]. split; [split; [exact Hg'|exact Hoth]|]. split; [done|]. cbn. split.
  - rewrite bool_decide_eq_true_2 by done. by rewrite (t_index c N s Hg HS).
  - intros m Hm. by rewrite bool_decide_eq_false_2.
Qed.
Next Obligation.
  intros c z T cs N w t s Hz Hg He HT HS _ _ Hts new Hnew. pose proof (t_exporting c t Hg He) as ->.
  destruct (t_change c z (fun d => (d.1 ++ omap (project cs) (selected w (t_master d (index_of N))), d.2)))
    as (Hex & Hg' & Hoth).
  { eexists. split; [cbn; rewrite Hz; reflexivity|reflexivity]. }
  { rewrite (t_index c N s Hg HS). intros (_ & _ & Hall). cbn [fst]. apply Forall_app_2; [done|].
    eapply Forall_impl; [exact Hnew|]. intros r [Hok H0]. split; [done|].
    destruct Hok as [(_ & Hp & _)|[? _]]; [lia|done]. }
  eexists. split; [exact Hex|]. split; [split; [exact Hg'|exact Hoth]|]. cbn. by rewrite (t_index c N s Hg HS).
Qed.

Definition before : conn (list Z) data := Mk_conn dbs 16384 0 5 9 1 77 0 ([], fun _ => []).
End Toy.
#[local] Existing Instances toy_openssl Toy.vm Toy.laws.

(** The table is created before the index although the schema names it last. *)
Lemma export_copies_witness :
  exists c' w', sqlcipher_exportFunc 6 Toy.before [Some (str "t"); Some main_name] [] = Done (Some (c', None), w') /\
    o_sql <$> objects_of (c_data c').1
      = omap m_sql [Toy.a_table; Toy.an_index; Toy.a_view; Toy.a_trigger] /\
    (c_data c').2 (str "a") = [7; 8] /\ c_flags c' = 16384 /\ c_xTrace c' = 77.
Proof.
  destruct (export_copies 6 Toy.before (str "t") main_name 1 0 [])
    as (c' & w' & E & Ho & Hrows & _ & _ & _ & Hfl & _ & _ & _ & _ & Hx & _);
    [reflexivity|done|split; [reflexivity|split; [cbn; lia|constructor]]|by eexists|by eexists
    |by split; [apply (bool_decide_unpack _); vm_compute|]|by split; [apply (bool_decide_unpack _); vm_compute|]|done| |reflexivity|done
    |vm_compute; lia|constructor|].
  - split.
    + apply (bool_decide_unpack _). vm_compute. exact I.
    + intros o Ho Hk. exists (Mk_object Table (str "a") (str "a") (str "CREATE TABLE a(x)")).
      split; [vm_compute; do 3 right; left|]. split; [done|].
      vm_compute in Ho. do 4 (apply elem_of_cons in Ho as [-> |Ho]; [by destruct Hk|]). by apply elem_of_nil in Ho.
  - exists c', w'. split; [exact E|]. split; [change (objects_of (c_data c').1) with (objects (c_data c') 1); rewrite Ho; reflexivity|].
    split; [|done]. apply (Hrows (Mk_object Table (str "a") (str "a") (str "CREATE TABLE a(x)"))). vm_compute. left.
Defined.
