(* ===== verification/Varint.v ===== *)
(** * Variable-length integers

    Model of SQLite's varint routines as the record encoder uses them
    ([sqlite3PutVarint], [putVarint64], [sqlite3GetVarint],
    [sqlite3GetVarint32], [sqlite3VarintLen] and the macros [putVarint32] and
    [getVarint32] in [storage/secure/sec_sqlite3.c]).  The reader is unrolled in
    the source and works on two interleaved words; [varint_value] is the format
    as the comment in the source describes it, and the unrolled reader is shown
    to compute it on every input.

    The equalities of the unrolled reader are between words put together from
    bytes by masks and shifts; [word_eq] decides them bit by bit. *)

From stdpp Require Import base tactics list numbers option.
From Stdlib Require Import ZArith Lia ZifyBool.
From S2P Require Import Prelude.

Local Open Scope Z_scope.

(** ** Words built from bytes *)

Inductive word :=
  | WByte (i : nat)
  | WOr (a b : word)
  | WMask (a : word) (m : Z)
  | WShl (a : word) (k : Z)
  | WShr (a : word) (k : Z)
  | WTrunc (a : word) (w : Z).

Fixpoint weval (env : list Z) (e : word) : Z :=
  match e with
  | WByte i => nth i env 0
  | WOr a b => Z.lor (weval env a) (weval env b)
  | WMask a m => Z.land (weval env a) m
  | WShl a k => Z.shiftl (weval env a) k
  | WShr a k => Z.shiftr (weval env a) k
  | WTrunc a w => weval env a mod 2 ^ w
  end.

(** Shift distances and widths are not negative. *)
Fixpoint wwf (e : word) : bool :=
  match e with
  | WByte _ => true
  | WOr a b => wwf a && wwf b
  | WMask a _ => wwf a
  | WShl a k | WShr a k | WTrunc a k => (0 <=? k) && wwf a
  end.

(** The bits that are or-ed into bit [n]: byte and position. *)
Fixpoint wbits (e : word) (n : Z) : list (nat * Z) :=
  match e with
  | WByte i => if n <? 8 then [(i, n)] else []
  | WOr a b => wbits a n ++ wbits b n
  | WMask a m => if Z.testbit m n then wbits a n else []
  | WShl a k => if k <=? n then wbits a (n - k) else []
  | WShr a k => wbits a (n + k)
  | WTrunc a w => if n <? w then wbits a n else []
  end.

Definition wtest (env : list Z) (l : list (nat * Z)) : bool :=
  existsb (fun p => Z.testbit (nth p.1 env 0) p.2) l.

Lemma wbits_spec env e n :
  bytes env -> wwf e = true -> 0 <= n -> Z.testbit (weval env e) n = wtest env (wbits e n).
Proof.
  intros Henv. revert n. induction e as [i|a IHa b IHb|a IHa m|a IHa k|a IHa k|a IHa k];
    intros n Hwf Hn; cbn [weval wbits wwf] in *.
  - destruct (n <? 8) eqn:E; [unfold wtest; cbn; by rewrite orb_false_r|].
    apply (testbit_high _ 8); [|lia]. apply (nth_Forall (fun b => 0 <= b < 2 ^ 8)); [lia|].
    eapply Forall_impl; [|exact Henv]. intros b Hb. unfold is_byte in Hb. lia.
  - apply andb_true_iff in Hwf as [Ha Hb]. unfold wtest. rewrite Z.lor_spec, existsb_app.
    by rewrite IHa, IHb.
  - rewrite Z.land_spec. destruct (Z.testbit m n); [by rewrite andb_true_r, IHa|].
    by rewrite andb_false_r.
  - apply andb_true_iff in Hwf as [Hk Ha]. rewrite Z.shiftl_spec by done.
    destruct (k <=? n) eqn:E; [apply IHa; [done|lia]|]. apply Z.testbit_neg_r. lia.
  - apply andb_true_iff in Hwf as [Hk Ha]. rewrite Z.shiftr_spec by done. apply IHa; [done|lia].
  - apply andb_true_iff in Hwf as [Hk Ha]. destruct (n <? k) eqn:E.
    + rewrite Z.mod_pow2_bits_low by lia. by apply IHa.
    + by rewrite Z.mod_pow2_bits_high by lia.
Qed.

(** A bound on the number of bits. *)
Fixpoint wwidth (e : word) : Z :=
  match e with
  | WByte _ => 8
  | WOr a b => Z.max (wwidth a) (wwidth b)
  | WMask a m => if 0 <=? m then Z.min (wwidth a) (Z.log2 m + 1) else wwidth a
  | WShl a k => wwidth a + k
  | WShr a _ => wwidth a
  | WTrunc a w => Z.min (wwidth a) w
  end.

Lemma wbits_width e n : wwf e = true -> 0 <= n -> wwidth e <= n -> wbits e n = [].
Proof.
  revert n. induction e as [i|a IHa b IHb|a IHa m|a IHa k|a IHa k|a IHa k];
    intros n Hwf Hn Hw; cbn [wwidth wbits wwf] in *.
  - by replace (n <? 8) with false by lia.
  - apply andb_true_iff in Hwf as [Ha Hb]. rewrite IHa, IHb by (done || lia). done.
  - destruct (Z.testbit m n) eqn:E; [|done]. destruct (0 <=? m) eqn:Em; [|by apply IHa].
    destruct (decide (wwidth a <= n)); [by apply IHa|].
    rewrite Z.bits_above_log2 in E by lia. done.
  - apply andb_true_iff in Hwf as [Hk Ha]. destruct (k <=? n) eqn:E; [|done]. apply IHa; [done|lia..].
  - apply andb_true_iff in Hwf as [Hk Ha]. apply IHa; [done|lia..].
  - apply andb_true_iff in Hwf as [Hk Ha]. destruct (n <? k) eqn:E; [|done]. apply IHa; [done|lia..].
Qed.

Definition sub_bits (l1 l2 : list (nat * Z)) : bool :=
  forallb (fun p => existsb (fun q => Nat.eqb p.1 q.1 && (p.2 =? q.2)) l2) l1.

Definition word_same (a b : word) : bool :=
  wwf a && wwf b && (wwidth a <=? 64) && (wwidth b <=? 64) &&
  forallb (fun i => let n := Z.of_nat i in
    sub_bits (wbits a n) (wbits b n) && sub_bits (wbits b n) (wbits a n)) (seq 0 64).

Lemma sub_bits_test env l1 l2 :
  sub_bits l1 l2 = true -> wtest env l1 = true -> wtest env l2 = true.
Proof.
  unfold sub_bits, wtest. rewrite forallb_forall, !existsb_exists.
  intros Hsub (p & Hp & Ht). destruct (proj1 (existsb_exists _ _) (Hsub p Hp)) as (q & Hq & E).
  apply andb_true_iff in E as [E1%Nat.eqb_eq E2]. exists q. split; [done|].
  replace q with p; [done|]. destruct p, q. cbn in *. f_equal; lia.
Qed.

(** Words of at most 64 bits with the same bits are equal. *)
Lemma word_eq env a b : bytes env -> word_same a b = true -> weval env a = weval env b.
Proof.
  intros Henv H. unfold word_same in H. rewrite !andb_true_iff in H.
  destruct H as [[[[Ha Hb] Hwa] Hwb] Hall].
  apply Z.bits_inj'. intros n Hn. rewrite !wbits_spec by done.
  destruct (decide (n < 64)) as [Hlt|Hge]; [|by rewrite !wbits_width by (done || lia)].
  rewrite forallb_forall in Hall. specialize (Hall (Z.to_nat n)).
  rewrite in_seq, Z2Nat.id in Hall by lia.
  apply andb_true_iff in Hall as [H1 H2]; [|lia].
  apply eq_bool_prop_intro. rewrite !Is_true_true. split; by apply sub_bits_test.
Qed.

(** [Z.lor], [Z.land] with a constant, shifts, [u32] and [u64] as a [word]. *)
Ltac windex x l :=
  match l with
  | x :: _ => constr:(0%nat)
  | _ :: ?l => let i := windex x l in constr:(S i)
  end.

Ltac wreify env t :=
  match t with
  | Z.lor ?a ?b => let x := wreify env a in let y := wreify env b in constr:(WOr x y)
  | Z.land ?a ?m => let x := wreify env a in constr:(WMask x m)
  | Z.shiftl ?a ?k => let x := wreify env a in constr:(WShl x k)
  | Z.shiftr ?a ?k => let x := wreify env a in constr:(WShr x k)
  | u32 ?a => let x := wreify env a in constr:(WTrunc x 32)
  | u64 ?a => let x := wreify env a in constr:(WTrunc x 64)
  | _ => let i := windex t env in constr:(WByte i)
  end.

(** Goal [a = b] for words over the bytes [env]. *)
Ltac word_solve env :=
  match goal with
  | |- ?a = ?b =>
      let x := wreify env a in let y := wreify env b in
      apply (word_eq env x y); [repeat (apply Forall_cons_2; [assumption|]); apply Forall_nil_2|vm_compute; reflexivity]
  end.

(** ** Reading *)

(** [p[i]] *)
Definition rd (p : list Z) (i : nat) : M Z :=
  match p !! i with Some b => mret b | None => throw OutOfBounds end.

Definition SLOT_2_0 : Z := 0x001fc07f.
Definition SLOT_4_2_0 : Z := 0xf01fc07f.

(** Value and number of bytes read. *)
Definition sqlite3GetVarint (p : list Z) : M (Z * Z) :=
  p0 ← rd p 0;
  if p0 <? 128 then mret (p0, 1) else
  p1 ← rd p 1;
  if p1 <? 128 then mret (Z.lor (u32 (Z.shiftl (Z.land p0 0x7f) 7)) p1, 2) else
  let a := u32 (Z.shiftl p0 14) in
  let b := p1 in
  p2 ← rd p 2;
  let a := Z.lor a p2 in
  if Z.land a 0x80 =? 0 then
    let a := Z.land a SLOT_2_0 in
    let b := Z.land b 0x7f in
    let b := u32 (Z.shiftl b 7) in
    mret (Z.lor a b, 3)
  else
  let a := Z.land a SLOT_2_0 in
  p3 ← rd p 3;
  let b := Z.lor (u32 (Z.shiftl b 14)) p3 in
  if Z.land b 0x80 =? 0 then
    let b := Z.land b SLOT_2_0 in
    let a := u32 (Z.shiftl a 7) in
    mret (Z.lor a b, 4)
  else
  let b := Z.land b SLOT_2_0 in
  let s := a in
  p4 ← rd p 4;
  let a := Z.lor (u32 (Z.shiftl a 14)) p4 in
  if Z.land a 0x80 =? 0 then
    let b := u32 (Z.shiftl b 7) in
    let a := Z.lor a b in
    let s := Z.shiftr s 18 in
    mret (Z.lor (u64 (Z.shiftl s 32)) a, 5)
  else
  let s := Z.lor (u32 (Z.shiftl s 7)) b in
  p5 ← rd p 5;
  let b := Z.lor (u32 (Z.shiftl b 14)) p5 in
  if Z.land b 0x80 =? 0 then
    let a := Z.land a SLOT_2_0 in
    let a := Z.lor (u32 (Z.shiftl a 7)) b in
    let s := Z.shiftr s 18 in
    mret (Z.lor (u64 (Z.shiftl s 32)) a, 6)
  else
  p6 ← rd p 6;
  let a := Z.lor (u32 (Z.shiftl a 14)) p6 in
  if Z.land a 0x80 =? 0 then
    let a := Z.land a SLOT_4_2_0 in
    let b := Z.land b SLOT_2_0 in
    let b := u32 (Z.shiftl b 7) in
    let a := Z.lor a b in
    let s := Z.shiftr s 11 in
    mret (Z.lor (u64 (Z.shiftl s 32)) a, 7)
  else
  let a := Z.land a SLOT_2_0 in
  p7 ← rd p 7;
  let b := Z.lor (u32 (Z.shiftl b 14)) p7 in
  if Z.land b 0x80 =? 0 then
    let b := Z.land b SLOT_4_2_0 in
    let a := Z.lor (u32 (Z.shiftl a 7)) b in
    let s := Z.shiftr s 4 in
    mret (Z.lor (u64 (Z.shiftl s 32)) a, 8)
  else
  p8 ← rd p 8;
  let a := Z.lor (u32 (Z.shiftl a 15)) p8 in
  let b := Z.land b SLOT_2_0 in
  let b := u32 (Z.shiftl b 8) in
  let a := Z.lor a b in
  let s := u32 (Z.shiftl s 4) in
  let b := Z.shiftr (Z.land p4 0x7f) 3 in
  let s := Z.lor s b in
  mret (Z.lor (u64 (Z.shiftl s 32)) a, 9).

(** Assumes, like the source, that the one-byte case has been handled. *)
Definition sqlite3GetVarint32 (p : list Z) : M (Z * Z) :=
  p0 ← rd p 0;
  let a := p0 in
  p1 ← rd p 1;
  let b := p1 in
  if Z.land b 0x80 =? 0 then
    let a := Z.land a 0x7f in
    let a := u32 (Z.shiftl a 7) in
    mret (Z.lor a b, 2)
  else
  p2 ← rd p 2;
  let a := Z.lor (u32 (Z.shiftl a 14)) p2 in
  if Z.land a 0x80 =? 0 then
    let a := Z.land a SLOT_2_0 in
    let b := Z.land b 0x7f in
    let b := u32 (Z.shiftl b 7) in
    mret (Z.lor a b, 3)
  else
  r ← sqlite3GetVarint p;
  mret (if Z.land r.1 0xffffffff =? r.1 then u32 r.1 else 0xffffffff, r.2).

Definition getVarint32 (p : list Z) : M (Z * Z) :=
  p0 ← rd p 0;
  if p0 <? 0x80 then mret (p0, 1) else sqlite3GetVarint32 p.

(** ** Writing

    The bytes written; the functions return their number. *)

(** The [do ... while] loop of [putVarint64]: groups of seven bits, lowest
    first. *)
Fixpoint varint_groups (fuel : nat) (v : Z) : list Z :=
  match fuel with
  | O => []
  | S fuel =>
      u8 (Z.lor (Z.land v 0x7f) 0x80) ::
      (if Z.shiftr v 7 =? 0 then [] else varint_groups fuel (Z.shiftr v 7))
  end.

(** The [for] loop of the nine-byte case, bytes 7 down to 0. *)
Fixpoint varint_high (n : nat) (v : Z) : list Z :=
  match n with
  | O => []
  | S n => varint_high n (Z.shiftr v 7) ++ [u8 (Z.lor (Z.land v 0x7f) 0x80)]
  end.

Definition putVarint64 (v : Z) : list Z :=
  if negb (Z.land v (Z.shiftl 0xff000000 32) =? 0)
  then varint_high 8 (Z.shiftr v 8) ++ [u8 v]
  else match varint_groups 10 v with
       | b0 :: buf => rev (Z.land b0 0x7f :: buf)
       | [] => []
       end.

Definition sqlite3PutVarint (v : Z) : list Z :=
  if v <=? 0x7f then [Z.land v 0x7f]
  else if v <=? 0x3fff then [Z.lor (Z.land (Z.shiftr v 7) 0x7f) 0x80; Z.land v 0x7f]
  else putVarint64 v.

Definition putVarint32 (v : Z) : list Z :=
  if u32 v <? 0x80 then [u8 v] else sqlite3PutVarint (u64 v).

Fixpoint varint_len (fuel : nat) (v i : Z) : Z :=
  match fuel with
  | O => i
  | S fuel => let v := Z.shiftr v 7 in if v =? 0 then i else varint_len fuel v (i + 1)
  end.

Definition sqlite3VarintLen (v : Z) : Z := varint_len 10 v 1.

(** ** The format *)

(** Big-endian groups of seven bits, the last one marked by a clear top bit; a
    ninth byte counts whole. *)
Fixpoint varint_value (more : nat) (acc n : Z) (p : list Z) : option (Z * Z) :=
  match p with
  | [] => None
  | b :: p =>
      match more with
      | O => Some (acc * 256 + b, n + 1)
      | S more =>
          if b <? 128 then Some (acc * 128 + b mod 128, n + 1)
          else varint_value more (acc * 128 + b mod 128) (n + 1) p
      end
  end.

Definition varint_decode (p : list Z) : option (Z * Z) := varint_value 8 0 0 p.

Example varint_300 : sqlite3PutVarint 300 = [130; 44] /\ varint_decode [130; 44] = Some (300, 2)
  /\ sqlite3GetVarint [130; 44] [] = Done ((300, 2), []).
Proof. by vm_compute. Qed.

Example varint_max : let v := 2 ^ 64 - 1 in
  sqlite3GetVarint (sqlite3PutVarint v) [] = Done ((v, 9), [])
  /\ varint_decode (sqlite3PutVarint v) = Some (v, 9).
Proof. by vm_compute. Qed.

(** ** Reading computes the format *)

Lemma add_disjoint x r k : 0 <= k -> 0 <= r < 2 ^ k -> x * 2 ^ k + r = Z.lor (Z.shiftl x k) r.
Proof.
  intros Hk Hr. rewrite <- Z.shiftl_mul_pow2, <- Z.add_lor_land by lia.
  enough (Z.land (Z.shiftl x k) r = 0) as -> by lia. apply Z.bits_inj'. intros n Hn.
  rewrite Z.land_spec, Z.bits_0. destruct (decide (n < k)).
  - by rewrite Z.shiftl_spec_low.
  - rewrite (testbit_high r k) by lia. apply andb_false_r.
Qed.

Lemma group7 acc b : acc * 128 + b mod 128 = Z.lor (Z.shiftl acc 7) (Z.land b 0x7f).
Proof.
  change 0x7f with (Z.ones 7). rewrite Z.land_ones by lia. change (2 ^ 7) with 128.
  rewrite <- add_disjoint by (pose proof (Z.mod_pos_bound b 128); lia). done.
Qed.

Lemma group8 acc b : is_byte b -> acc * 256 + b = Z.lor (Z.shiftl acc 8) b.
Proof. intros Hb. unfold is_byte in Hb. by rewrite <- (add_disjoint acc b 8) by lia. Qed.

Lemma test128 a : (Z.land a 0x80 =? 0) = negb (Z.testbit a 7).
Proof.
  change 0x80 with (2 ^ 7). destruct (Z.testbit a 7) eqn:E; cbn [negb].
  - apply Z.eqb_neq. intros H. apply (f_equal (fun x => Z.testbit x 7)) in H.
    by rewrite Z.land_spec, E, Z.bits_0 in H.
  - apply Z.eqb_eq, Z.bits_inj'. intros n Hn. rewrite Z.land_spec, Z.bits_0, Z.pow2_bits_eqb by lia.
    destruct (7 =? n) eqn:En; [|apply andb_false_r]. by replace n with 7 by lia; rewrite E.
Qed.

Lemma byte_bit7 b : is_byte b -> Z.testbit b 7 = negb (b <? 128).
Proof.
  intros Hb. unfold is_byte in Hb. destruct (b <? 128) eqn:E; cbn [negb].
  - apply (testbit_high b 7); lia.
  - rewrite Z.testbit_true by lia. change (2 ^ 7) with 128.
    replace (b / 128) with 1; [done|]. apply Z.div_unique with (b - 128); lia.
Qed.

(** The top bit of the byte or-ed in last decides. *)
Lemma test_last x b : is_byte b -> (Z.land (Z.lor (u32 (Z.shiftl x 14)) b) 0x80 =? 0) = (b <? 128).
Proof.
  intros Hb. rewrite test128, Z.lor_spec. unfold u32.
  rewrite Z.mod_pow2_bits_low, Z.shiftl_spec, Z.testbit_neg_r by lia.
  by rewrite orb_false_l, byte_bit7, negb_involutive.
Qed.

Lemma byte_masked b : is_byte b -> (b <? 128) = true -> b = Z.land b 0x7f.
Proof.
  intros Hb E. unfold is_byte in Hb. change 0x7f with (Z.ones 7).
  by rewrite Z.land_ones, Z.mod_small by lia.
Qed.

Lemma rd_in p i b f w : p !! i = Some b -> ((rd p i : M Z) ≫= f) w = (f b w : outcome (Z * Z * world)).
Proof. intros H. unfold rd. by rewrite H. Qed.

Lemma group7_0 b : 0 * 128 + b mod 128 = Z.land b 0x7f.
Proof. by rewrite group7, Z.shiftl_0_l, Z.lor_0_l. Qed.

(** Read the next byte of a list known to start with [i] bytes. *)
Ltac next_byte i b p Hb Hp :=
  destruct p as [|b p]; [done|]; apply Forall_cons_1 in Hp as [Hb Hp]; cbn [varint_value];
  rewrite (rd_in _ i b) by done.

(** Finish at byte [b]; the bytes are [env]. *)
Ltac last_byte b Hb E env :=
  rewrite ?group7_0, ?group7, ?group8 by done;
  try rewrite (byte_masked b Hb E);
  unfold mret, M_ret; do 3 f_equal; word_solve env.

Lemma getvarint_format_long p0 p1 p w :
  is_byte p0 -> is_byte p1 -> bytes p -> (p0 <? 128) = false -> (p1 <? 128) = false ->
  sqlite3GetVarint (p0 :: p1 :: p) w
  = match varint_decode (p0 :: p1 :: p) with Some r => Done (r, w) | None => Fault OutOfBounds end.
Proof.
  intros H0 H1 Hp E0 E1. unfold varint_decode, sqlite3GetVarint. cbn [varint_value].
  rewrite (rd_in _ 0 p0), E0, (rd_in _ 1 p1), E1 by done.
  next_byte 2%nat p2 p H2 Hp. rewrite test_last by done.
  destruct (p2 <? 128) eqn:E2; [last_byte p2 H2 E2 [p0; p1; p2]|].
  next_byte 3%nat p3 p H3 Hp. rewrite test_last by done.
  destruct (p3 <? 128) eqn:E3; [last_byte p3 H3 E3 [p0; p1; p2; p3]|].
  next_byte 4%nat p4 p H4 Hp. rewrite test_last by done.
  destruct (p4 <? 128) eqn:E4; [last_byte p4 H4 E4 [p0; p1; p2; p3; p4]|].
  next_byte 5%nat p5 p H5 Hp. rewrite test_last by done.
  destruct (p5 <? 128) eqn:E5; [last_byte p5 H5 E5 [p0; p1; p2; p3; p4; p5]|].
  next_byte 6%nat p6 p H6 Hp. rewrite test_last by done.
  destruct (p6 <? 128) eqn:E6; [last_byte p6 H6 E6 [p0; p1; p2; p3; p4; p5; p6]|].
  next_byte 7%nat p7 p H7 Hp. rewrite test_last by done.
  destruct (p7 <? 128) eqn:E7; [last_byte p7 H7 E7 [p0; p1; p2; p3; p4; p5; p6; p7]|].
  next_byte 8%nat p8 p H8 Hp. rewrite ?group7_0, ?group7, ?group8 by done.
  unfold mret, M_ret. do 3 f_equal. word_solve [p0; p1; p2; p3; p4; p5; p6; p7; p8].
Qed.

Lemma getvarint_spec p w :
  bytes p ->
  sqlite3GetVarint p w
  = match varint_decode p with Some r => Done (r, w) | None => Fault OutOfBounds end.
Proof.
  intros Hp. destruct p as [|p0 p]; [done|]. apply Forall_cons_1 in Hp as [H0 Hp].
  destruct (p0 <? 128) eqn:E0.
  { unfold varint_decode, sqlite3GetVarint. cbn [varint_value]. rewrite (rd_in _ 0 p0), E0 by done.
    last_byte p0 H0 E0 [p0]. }
  destruct p as [|p1 p].
  { unfold varint_decode, sqlite3GetVarint. cbn [varint_value]. by rewrite (rd_in _ 0 p0), E0 by done. }
  apply Forall_cons_1 in Hp as [H1 Hp]. destruct (p1 <? 128) eqn:E1; [|by apply getvarint_format_long].
  unfold varint_decode, sqlite3GetVarint. cbn [varint_value].
  rewrite (rd_in _ 0 p0), E0, (rd_in _ 1 p1), E1 by done. last_byte p1 H1 E1 [p0; p1].
Qed.

(** C37. The unrolled reader of variable-length integers computes the documented
    format: on every sequence of bytes, [sqlite3GetVarint] returns the value and
    the length that reading the seven-bit groups one by one gives, and it reads
    past the end of the buffer exactly when the encoding is cut off. *)
Theorem getvarint_format p w :
  bytes p ->
  sqlite3GetVarint p w
  = match varint_decode p with Some r => Done (r, w) | None => Fault OutOfBounds end.
Proof. apply getvarint_spec. Qed.

(** ** Writing and reading back *)

Lemma land_7f v : Z.land v 0x7f = v mod 128.
Proof. change 0x7f with (Z.ones 7). by rewrite Z.land_ones by lia. Qed.

Lemma group_or v : Z.lor (Z.land v 0x7f) 0x80 = v mod 128 + 128.
Proof.
  pose proof (Z.mod_pos_bound v 128 ltac:(lia)) as Hm. rewrite land_7f, Z.lor_comm.
  replace (Z.lor 0x80 (v mod 128)) with (1 * 128 + v mod 128); [lia|].
  by apply (add_disjoint 1 (v mod 128) 7).
Qed.

Lemma group_byte v : u8 (Z.lor (Z.land v 0x7f) 0x80) = v mod 128 + 128.
Proof.
  pose proof (Z.mod_pos_bound v 128 ltac:(lia)) as Hm. rewrite group_or.
  apply u8_small. unfold is_byte. lia.
Qed.

Lemma shr7 v : Z.shiftr v 7 = v / 128.
Proof. by rewrite Z.shiftr_div_pow2 by lia. Qed.

Lemma pow128_S k : 128 ^ Z.of_nat (S k) = 128 * 128 ^ Z.of_nat k.
Proof. rewrite Nat2Z.inj_succ, Z.pow_succ_r by lia. done. Qed.

Lemma div128 v : v / 128 * 128 + v mod 128 = v.
Proof. pose proof (Z.div_mod v 128). lia. Qed.

(** One continuation byte. *)
Lemma value_step more acc n v l :
  varint_value (S more) acc n (v mod 128 + 128 :: l)
  = varint_value more (acc * 128 + v mod 128) (n + 1) l.
Proof.
  pose proof (Z.mod_pos_bound v 128 ltac:(lia)) as Hm. cbn [varint_value].
  replace (v mod 128 + 128 <? 128) with false by lia.
  do 2 f_equal. symmetry. apply Z.mod_unique with 1; lia.
Qed.

Lemma groups_S fuel v :
  varint_groups (S fuel) v
  = v mod 128 + 128 :: (if v / 128 =? 0 then [] else varint_groups fuel (v / 128)).
Proof. cbn [varint_groups]. by rewrite group_byte, shr7. Qed.

(** Reading the groups of [v] shifts them into the accumulator. *)
Lemma groups_value fuel v more acc n l :
  0 <= v < 128 ^ Z.of_nat fuel -> (length (varint_groups fuel v) <= more)%nat ->
  varint_value more acc n (rev (varint_groups fuel v) ++ l)
  = varint_value (more - length (varint_groups fuel v))
      (acc * 128 ^ Z.of_nat (length (varint_groups fuel v)) + v)
      (n + Z.of_nat (length (varint_groups fuel v))) l.
Proof.
  revert v more acc n l. induction fuel as [|fuel IH]; intros v more acc n l Hv Hlen.
  { cbn in *. rewrite Nat.sub_0_r. f_equal; lia. }
  rewrite pow128_S in Hv. pose proof (div128 v) as Hd. rewrite groups_S in *.
  pose proof (Z.mod_pos_bound v 128 ltac:(lia)) as Hm.
  destruct (v / 128 =? 0) eqn:E.
  - cbn [rev app length] in *. destruct more as [|more]; [lia|]. rewrite value_step.
    rewrite Nat.sub_succ, Nat.sub_0_r. f_equal; lia.
  - cbn [rev length] in *. rewrite <- app_assoc. cbn [app].
    rewrite IH; [|split; [|apply Z.div_lt_upper_bound]; lia|lia].
    set (k := length _) in *. replace (more - k)%nat with (S (more - S k)) by lia.
    rewrite value_step, pow128_S. f_equal; lia.
Qed.

Lemma groups_length fuel k v :
  (1 <= k <= fuel)%nat -> 0 <= v < 128 ^ Z.of_nat k ->
  (k = 1%nat \/ 128 ^ Z.of_nat (k - 1) <= v) -> length (varint_groups fuel v) = k.
Proof.
  revert k v. induction fuel as [|fuel IH]; intros k v Hk Hv Hlo; [lia|].
  pose proof (div128 v) as Hd. pose proof (Z.mod_pos_bound v 128 ltac:(lia)) as Hm.
  rewrite groups_S. cbn [length]. destruct k as [|[|k]]; [lia| |].
  - change (128 ^ Z.of_nat 1) with 128 in Hv. by replace (v / 128 =? 0) with true by lia.
  - rewrite pow128_S in Hv. destruct Hlo as [?|Hlo]; [lia|].
    replace (S (S k) - 1)%nat with (S k) in Hlo by lia. rewrite pow128_S in Hlo.
    pose proof (Z.pow_pos_nonneg 128 (Z.of_nat k) ltac:(lia) ltac:(lia)) as Hpos.
    assert (128 ^ Z.of_nat k <= v / 128) by (apply Z.div_le_lower_bound; lia).
    replace (v / 128 =? 0) with false by lia. rewrite (IH (S k)); [done|lia| |].
    + split; [lia|]. apply Z.div_lt_upper_bound; lia.
    + destruct k; [by left|right]. replace (S (S k) - 1)%nat with (S k) by lia. done.
Qed.

(** Every value has a number of groups. *)
Lemma groups_count v n :
  0 <= v < 128 ^ Z.of_nat n ->
  exists k, (1 <= k <= Nat.max 1 n)%nat /\ v < 128 ^ Z.of_nat k /\
    (k = 1%nat \/ 128 ^ Z.of_nat (k - 1) <= v).
Proof.
  induction n as [|n IH]; intros Hv; [exists 1%nat; cbn in *; lia|].
  destruct (decide (v < 128 ^ Z.of_nat n)) as [Hlt|Hge].
  - destruct IH as (k & Hk & H1 & H2); [lia|]. exists k. split; [lia|done].
  - exists (S n). split; [lia|]. split; [lia|]. right. replace (S n - 1)%nat with n by lia. lia.
Qed.

Lemma varint_len_S fuel v i :
  varint_len (S fuel) v i = if v / 128 =? 0 then i else varint_len fuel (v / 128) (i + 1).
Proof. cbn [varint_len]. by rewrite shr7. Qed.

Lemma varint_len_groups fuel v i :
  0 <= v < 128 ^ Z.of_nat (S fuel) ->
  varint_len (S fuel) v i = i + Z.of_nat (length (varint_groups (S fuel) v)) - 1.
Proof.
  revert v i. induction fuel as [|fuel IH]; intros v i Hv; rewrite pow128_S in Hv;
    rewrite varint_len_S, groups_S; pose proof (div128 v); pose proof (Z.mod_pos_bound v 128 ltac:(lia)).
  - change (128 ^ Z.of_nat 0) with 1 in Hv. replace (v / 128 =? 0) with true by lia. cbn. lia.
  - destruct (v / 128 =? 0) eqn:E; [cbn; lia|]. cbn [length].
    rewrite IH by (split; [|apply Z.div_lt_upper_bound]; lia). lia.
Qed.

Lemma high_value n v more acc c l :
  varint_value (n + more) acc c (varint_high n v ++ l)
  = varint_value more (acc * 128 ^ Z.of_nat n + v mod 128 ^ Z.of_nat n) (c + Z.of_nat n) l.
Proof.
  revert v more acc c l. induction n as [|n IH]; intros v more acc c l.
  { cbn. rewrite Z.mod_1_r. f_equal; lia. }
  cbn [varint_high]. rewrite group_byte, shr7, <- app_assoc.
  replace (S n + more)%nat with (n + S more)%nat by lia. rewrite IH. cbn [app]. rewrite value_step.
  rewrite pow128_S. pose proof (Z.pow_pos_nonneg 128 (Z.of_nat n) ltac:(lia) ltac:(lia)) as Hpos.
  rewrite Z.rem_mul_r by lia. f_equal; lia.
Qed.

Lemma length_high n v : length (varint_high n v) = n.
Proof.
  revert v. induction n as [|n IH]; intros v; [done|]. cbn [varint_high].
  rewrite length_app, IH. cbn. lia.
Qed.

(** The test for nine bytes. *)
Lemma nine_bytes v :
  0 <= v < 2 ^ 64 -> (Z.land v (Z.shiftl 0xff000000 32) =? 0) = (v <? 2 ^ 56).
Proof.
  intros Hv. change (Z.shiftl 0xff000000 32) with (Z.shiftl (Z.ones 8) 56).
  replace (Z.land v (Z.shiftl (Z.ones 8) 56)) with (Z.shiftl (v / 2 ^ 56) 56).
  2: { rewrite <- Z.shiftr_div_pow2 by lia. apply Z.bits_inj'. intros n Hn.
    rewrite Z.land_spec. destruct (decide (n < 56)).
    - rewrite !Z.shiftl_spec_low by lia. by rewrite andb_false_r.
    - rewrite !Z.shiftl_spec, Z.shiftr_spec by lia. replace (n - 56 + 56) with n by lia.
      destruct (decide (n < 64)).
      + rewrite Z.ones_spec_low by lia. by rewrite andb_true_r.
      + rewrite (testbit_high v 64) by lia. done. }
  rewrite Z.shiftl_mul_pow2 by lia. pose proof (Z.div_mod v (2 ^ 56)).
  pose proof (Z.mod_pos_bound v (2 ^ 56)). pose proof (Z.div_pos v (2 ^ 56)).
  destruct (v <? 2 ^ 56) eqn:E; [rewrite Z.div_small by lia; done|].
  apply Z.eqb_neq. assert (1 <= v / 2 ^ 56) by (apply Z.div_le_lower_bound; lia). lia.
Qed.

(** Eight groups or fewer, and nine bytes. *)
Lemma put64_short v l :
  0x3fff < v < 2 ^ 56 ->
  exists k, (1 <= k <= 8)%nat /\ length (varint_groups 10 v) = k /\ length (putVarint64 v) = k /\
    varint_decode (putVarint64 v ++ l) = Some (v, Z.of_nat k).
Proof.
  intros Hv. destruct (groups_count v 8) as (k & Hk & H1 & H2); [cbn; lia|].
  assert (Hlen : length (varint_groups 10 v) = k) by (apply groups_length; [lia|lia|done]).
  exists k. split; [lia|]. split; [done|]. unfold putVarint64.
  rewrite nine_bytes by lia. replace (v <? 2 ^ 56) with true by lia. cbn [negb].
  pose proof (div128 v) as Hd. pose proof (Z.mod_pos_bound v 128 ltac:(lia)) as Hm.
  rewrite groups_S in *. replace (v / 128 =? 0) with false in * by lia. cbn [length] in Hlen.
  set (buf := varint_groups 9 (v / 128)) in *. cbn [rev]. rewrite length_app, length_rev. cbn [length].
  split; [lia|]. unfold varint_decode. rewrite <- app_assoc. cbn [app]. unfold buf in *.
  rewrite groups_value; [|split; [lia|]; apply Z.div_lt_upper_bound; cbn; lia|lia].
  set (j := length _) in *. replace (8 - j)%nat with (S (7 - j)) by lia. cbn [varint_value].
  rewrite land_7f. replace ((v mod 128 + 128) mod 128) with (v mod 128) by (apply Z.mod_unique with 1; lia).
  replace (v mod 128 <? 128) with true by lia. rewrite Z.mod_mod by lia. do 2 f_equal; lia.
Qed.

Lemma put64_long v l :
  2 ^ 56 <= v < 2 ^ 64 ->
  length (putVarint64 v) = 9%nat /\ varint_decode (putVarint64 v ++ l) = Some (v, 9).
Proof.
  intros Hv. unfold putVarint64. rewrite nine_bytes by lia. replace (v <? 2 ^ 56) with false by lia.
  cbn [negb]. rewrite length_app, length_high. split; [done|]. unfold varint_decode.
  rewrite <- app_assoc. change 8%nat with (8 + 0)%nat at 1. rewrite high_value. cbn [app varint_value].
  rewrite Z.shiftr_div_pow2 by lia. change (2 ^ 8) with 256. change (128 ^ Z.of_nat 8) with (2 ^ 56).
  assert (v / 256 < 2 ^ 56) by (apply Z.div_lt_upper_bound; lia).
  pose proof (Z.div_pos v 256 ltac:(lia) ltac:(lia)).
  rewrite (Z.mod_small (v / 256)) by lia. unfold u8. change (2 ^ 8) with 256.
  pose proof (Z.div_mod v 256). do 2 f_equal; lia.
Qed.

Lemma put_small v l :
  0 <= v <= 0x3fff ->
  varint_decode (sqlite3PutVarint v ++ l) = Some (v, Z.of_nat (length (sqlite3PutVarint v))).
Proof.
  intros Hv. pose proof (div128 v). pose proof (Z.mod_pos_bound v 128 ltac:(lia)).
  unfold sqlite3PutVarint, varint_decode. destruct (v <=? 0x7f) eqn:E.
  - rewrite land_7f. cbn [app varint_value length]. rewrite Z.mod_mod by lia.
    replace (v mod 128 <? 128) with true by lia. do 2 f_equal. lia.
  - replace (v <=? 0x3fff) with true by lia. rewrite shr7, group_or, land_7f. cbn [app length].
    rewrite value_step. cbn [varint_value]. rewrite Z.mod_mod by lia.
    replace (v mod 128 <? 128) with true by lia. rewrite (Z.mod_small (v / 128)) by lia.
    do 2 f_equal; lia.
Qed.

(** Between one and nine bytes, decoded to the same value. *)
Lemma put_decode v l :
  0 <= v < 2 ^ 64 ->
  varint_decode (sqlite3PutVarint v ++ l) = Some (v, Z.of_nat (length (sqlite3PutVarint v))).
Proof.
  intros Hv. destruct (decide (v <= 0x3fff)); [apply put_small; lia|].
  unfold sqlite3PutVarint. replace (v <=? 0x7f) with false by lia.
  replace (v <=? 0x3fff) with false by lia. destruct (decide (v < 2 ^ 56)).
  - destruct (put64_short v l) as (k & _ & _ & -> & ->); [lia|done].
  - by destruct (put64_long v l) as (-> & ->); [lia|].
Qed.

Lemma varintlen_put v :
  0 <= v < 2 ^ 63 -> sqlite3VarintLen v = Z.of_nat (length (sqlite3PutVarint v)).
Proof.
  intros Hv. unfold sqlite3VarintLen. rewrite varint_len_groups by (cbn; lia).
  unfold sqlite3PutVarint. destruct (v <=? 0x7f) eqn:E1; [rewrite (groups_length 10 1); cbn; lia|].
  destruct (v <=? 0x3fff) eqn:E2; [rewrite (groups_length 10 2); cbn; lia|].
  destruct (decide (v < 2 ^ 56)).
  - destruct (put64_short v []) as (k & _ & -> & -> & _); lia.
  - destruct (put64_long v []) as [-> _]; [lia|]. rewrite (groups_length 10 9); cbn; lia.
Qed.

Lemma put_bytes v : 0 <= v -> bytes (sqlite3PutVarint v).
Proof.
  intros Hv. assert (Hg : forall x, is_byte (x mod 128 + 128) /\ is_byte (x mod 128)).
  { intros x. pose proof (Z.mod_pos_bound x 128 ltac:(lia)). unfold is_byte. lia. }
  assert (Hgs : forall n x, bytes (varint_groups n x)).
  { induction n as [|n IH]; intros x; [constructor|]. rewrite groups_S.
    constructor; [apply Hg|]. destruct (_ =? 0); [constructor|apply IH]. }
  assert (Hhs : forall n x, bytes (varint_high n x)).
  { induction n as [|n IH]; intros x; [constructor|]. cbn [varint_high]. rewrite group_byte.
    apply Forall_app_2; [apply IH|]. constructor; [apply Hg|constructor]. }
  unfold sqlite3PutVarint, putVarint64. rewrite !group_or, !land_7f.
  destruct (v <=? 0x7f); [constructor; [apply Hg|constructor]|].
  destruct (v <=? 0x3fff); [constructor; [apply Hg|constructor; [apply Hg|constructor]]|].
  destruct (negb _).
  - apply Forall_app_2; [apply Hhs|]. constructor; [apply u8_byte|constructor].
  - pose proof (Hgs 10%nat v) as Hall. destruct (varint_groups 10 v) as [|b0 buf]; [constructor|].
    apply Forall_cons_1 in Hall as [_ ?]. apply Forall_rev.
    constructor; [rewrite land_7f; apply Hg|done].
Qed.

(** C34. Variable-length integers round trip: every 64-bit value written by
    [sqlite3PutVarint] is read back by [sqlite3GetVarint] from the front of any
    buffer, with the number of bytes that were written; below 2^63 that number
    is what [sqlite3VarintLen] announces. *)
Theorem varint_roundtrip v l w :
  0 <= v < 2 ^ 64 -> bytes l ->
  sqlite3GetVarint (sqlite3PutVarint v ++ l) w
    = Done ((v, Z.of_nat (length (sqlite3PutVarint v))), w) /\
  (v < 2 ^ 63 -> sqlite3VarintLen v = Z.of_nat (length (sqlite3PutVarint v))).
Proof.
  intros Hv Hl. split; [|intros; apply varintlen_put; lia].
  rewrite getvarint_spec by (apply Forall_app_2; [apply put_bytes; lia|done]).
  by rewrite put_decode.
Qed.

(** *** 32 bits *)

Definition clip32 (v : Z) : Z := if v <=? 0xffffffff then v else 0xffffffff.

Lemma clip32_land v : 0 <= v -> (if Z.land v 0xffffffff =? v then u32 v else 0xffffffff) = clip32 v.
Proof.
  intros Hv. unfold clip32. change 0xffffffff with (Z.ones 32) at 1. rewrite Z.land_ones by lia.
  fold (u32 v). destruct (v <=? 0xffffffff) eqn:E; [by rewrite u32_small, Z.eqb_refl by lia|].
  pose proof (u32_range v). by replace (u32 v =? v) with false by lia.
Qed.

Lemma varint_value_nonneg more acc n p v k :
  bytes p -> 0 <= acc -> varint_value more acc n p = Some (v, k) -> 0 <= v.
Proof.
  revert acc n p. induction more as [|more IH]; intros acc n [|b p] Hp Ha Hv; try done;
    apply Forall_cons_1 in Hp as [Hb Hp]; cbn [varint_value] in Hv; unfold is_byte in Hb.
  { injection Hv as <- _. lia. }
  pose proof (Z.mod_pos_bound b 128 ltac:(lia)). destruct (b <? 128).
  - injection Hv as <- _. lia.
  - eapply IH; [exact Hp| |exact Hv]. lia.
Qed.

(** A varint that takes at most three bytes fits. *)
Lemma clip32_small a b c :
  is_byte a -> is_byte b -> is_byte c ->
  clip32 ((a mod 128 * 128 + b mod 128) * 128 + c mod 128) = (a mod 128 * 128 + b mod 128) * 128 + c mod 128.
Proof.
  intros Ha Hb Hc. unfold clip32. pose proof (Z.mod_pos_bound a 128 ltac:(lia)).
  pose proof (Z.mod_pos_bound b 128 ltac:(lia)). pose proof (Z.mod_pos_bound c 128 ltac:(lia)).
  by replace (_ <=? _) with true by lia.
Qed.

Lemma getvarint32_spec p v n w :
  bytes p -> varint_decode p = Some (v, n) -> getVarint32 p w = Done ((clip32 v, n), w).
Proof.
  intros Hp Hd. unfold varint_decode in Hd. pose proof (varint_value_nonneg 8 0 0 p v n Hp ltac:(lia) Hd) as Hv.
  pose proof Hp as Hall. destruct p as [|p0 p]; [done|]. apply Forall_cons_1 in Hp as [H0 Hp].
  unfold getVarint32. rewrite (rd_in _ 0 p0) by done. cbn [varint_value] in Hd.
  destruct (p0 <? 0x80) eqn:E0.
  { injection Hd as <- <-. rewrite group7_0, <- byte_masked by done.
    unfold clip32. unfold is_byte in H0. by replace (p0 <=? 0xffffffff) with true by lia. }
  destruct p as [|p1 p]; [done|]. apply Forall_cons_1 in Hp as [H1 Hp]. cbn [varint_value] in Hd.
  unfold sqlite3GetVarint32. rewrite (rd_in _ 0 p0), (rd_in _ 1 p1) by done.
  rewrite test128, byte_bit7, negb_involutive by done. destruct (p1 <? 128) eqn:E1.
  { injection Hd as <- <-. pose proof (clip32_small 0 p0 p1 ltac:(done) H0 H1) as Hc.
    rewrite Zmod_0_l in Hc. rewrite Hc. last_byte p1 H1 E1 [p0; p1]. }
  destruct p as [|p2 p]; [done|]. apply Forall_cons_1 in Hp as [H2 Hp]. cbn [varint_value] in Hd.
  rewrite (rd_in _ 2 p2), test_last by done. destruct (p2 <? 128) eqn:E2.
  { injection Hd as <- <-. rewrite Z.mul_0_l, Z.add_0_l, clip32_small by done.
    rewrite <- (Z.add_0_l (p0 mod 128)), <- (Z.mul_0_l 128). last_byte p2 H2 E2 [p0; p1; p2]. }
  erewrite bind_done; [|rewrite getvarint_spec by done; unfold varint_decode; cbn [varint_value];
    rewrite E0, E1, E2, Hd; reflexivity].
  cbn [fst snd]. by rewrite clip32_land.
Qed.

(** The 32-bit reader agrees with the 64-bit format: [getVarint32] returns
    the decoded value, or 0xffffffff when the value needs more than 32 bits, and
    in either case the full length of the encoding. *)
Theorem getvarint32_clips p v n w :
  bytes p -> varint_decode p = Some (v, n) -> getVarint32 p w = Done ((clip32 v, n), w).
Proof. apply getvarint32_spec. Qed.

(** What the record reader uses. *)
Lemma put32_put v : 0 <= v < 2 ^ 32 -> putVarint32 v = sqlite3PutVarint v.
Proof.
  intros Hv. unfold putVarint32. rewrite u32_small, u64_small by lia.
  destruct (v <? 0x80) eqn:E; [|done]. unfold sqlite3PutVarint.
  replace (v <=? 0x7f) with true by lia. rewrite land_7f, Z.mod_small by lia.
  unfold u8. by rewrite Z.mod_small by lia.
Qed.

Lemma get32_put32 v l w :
  0 <= v < 2 ^ 32 -> bytes l ->
  getVarint32 (putVarint32 v ++ l) w = Done ((v, Z.of_nat (length (putVarint32 v))), w).
Proof.
  intros Hv Hl. rewrite put32_put by done.
  assert (bytes (sqlite3PutVarint v ++ l)) by (apply Forall_app_2; [apply put_bytes; lia|done]).
  rewrite (getvarint32_spec _ v (Z.of_nat (length (sqlite3PutVarint v)))); [|done|apply put_decode; lia].
  unfold clip32. by replace (v <=? 0xffffffff) with true by lia.
Qed.

Lemma length_put32 v :
  0 <= v < 2 ^ 32 -> Z.of_nat (length (putVarint32 v)) = sqlite3VarintLen v.
Proof. intros Hv. rewrite put32_put by done. by rewrite varintlen_put by lia. Qed.

Lemma bytes_put32 v : 0 <= v < 2 ^ 32 -> bytes (putVarint32 v).
Proof. intros Hv. rewrite put32_put by done. apply put_bytes. lia. Qed.

Lemma getvarint_format_witness :
  sqlite3GetVarint [255; 255; 127] [] = Done ((2097151, 3), []) /\
  sqlite3GetVarint [255; 255] [] = Fault OutOfBounds.
Proof.
  rewrite (getvarint_format [255; 255; 127] []), (getvarint_format [255; 255] []);
    [done|repeat (constructor; [unfold is_byte; lia|]); constructor..].
Defined.

Lemma varint_roundtrip_witness :
  sqlite3GetVarint (sqlite3PutVarint 1000000 ++ [7]) [] = Done ((1000000, 3), []).
Proof. apply (varint_roundtrip 1000000 [7] []); [lia|]. constructor; [unfold is_byte; lia|constructor]. Defined.

Lemma getvarint32_clips_witness :
  getVarint32 [255; 255; 255; 255; 255; 127] [] = Done ((0xffffffff, 6), []).
Proof.
  apply (getvarint32_clips [255; 255; 255; 255; 255; 127] 4398046511103 6 []);
    [repeat (constructor; [unfold is_byte; lia|]); constructor|reflexivity].
Defined.
