(* ===== verification/Record.v ===== *)
(** * Rows and records

    Model of the record format of SQLite as IronSafe's storage engine produces
    it off the query thread: the cells of a result row ([struct sqlite3_value],
    [Mem]), [copy_result_row], [make_ssd_record], [sqlite3VdbeSerialPut], and
    the readers [sqlite3VdbeSerialGet], [sqlite3VdbeSerialTypeLen] and
    [sqlite3VdbeRecordUnpack], all in [storage/secure/sec_sqlite3.c].

    The union [u] of a cell is its 64-bit pattern.  SQLite's assertions are
    compiled out (NDEBUG).  The block a record is built in comes from the
    allocator: it is an argument, with whatever it holds.  None of the
    allocations here is checked: one that fails is dereferenced. *)

From stdpp Require Import base tactics list numbers option.
From Stdlib Require Import ZArith Lia ZifyBool SpecFloat.
From S2P Require Import Prelude CipherUtil Varint.

Local Open Scope Z_scope.

Definition MEM_Null : Z := 0x0001.
Definition MEM_Str : Z := 0x0002.
Definition MEM_Int : Z := 0x0004.
Definition MEM_Real : Z := 0x0008.
Definition MEM_Blob : Z := 0x0010.
Definition MEM_IntReal : Z := 0x0020.
Definition MEM_Ephem : Z := 0x1000.
Definition MEM_Zero : Z := 0x4000.

Record Mem := Mk_Mem {
  m_u : Z;           (** the union, as an unsigned 64-bit pattern *)
  m_flags : Z;
  m_n : Z;
  m_z : list Z;      (** the bytes [z] points to *)
}.

(** [m->flags & f] *)
Definition has (m : Mem) (f : Z) : bool := negb (Z.land (m_flags m) f =? 0).

Definition u_i (m : Mem) : Z := i64 (m_u m).
Definition u_nZero (m : Mem) : Z := i32 (m_u m).

(** [(double) i] for an integer that is not 0: nearest, ties to even. *)
Definition double_bits (i : Z) : Z :=
  match binary_normalize 53 1024 i 0 false with
  | S754_finite s m e =>
      Z.lor (Z.lor (if s then Z.shiftl 1 63 else 0) (Z.shiftl (e + 1075) 52)) (Zpos m - 2 ^ 52)
  | _ => 0
  end.

Example double_bits_5 : double_bits 5 = 0x4014000000000000 /\ double_bits (-1) = 0xbff0000000000000
  /\ double_bits (2 ^ 62 + 1) = 0x43d0000000000000.
Proof. by vm_compute. Qed.

(** An allocation that is used without a check. *)
Definition must_malloc : M unit :=
  ok ← request;
  if (ok : bool) then mret tt else throw NullDeref.

(** ** Copying a row out of the query thread *)

(** One cell of [copy_result_row] (and of [OP_ResultRow], where the copy is
    inlined): text and blobs are copied, [z] of an empty one is left unset. *)
Definition copy_cell (m : Mem) : M Mem :=
  if has m (Z.lor MEM_Str MEM_Blob) && (0 <? m_n m) then
    _ ← must_malloc;
    z ← buf_read 0 (m_n m) (m_z m);
    mret (Mk_Mem (m_u m) (m_flags m) (m_n m) z)
  else mret (Mk_Mem (m_u m) (m_flags m) (m_n m) []).

Fixpoint copy_cells (ms : list Mem) : M (list Mem) :=
  match ms with
  | [] => mret []
  | m :: ms => c ← copy_cell m; cs ← copy_cells ms; mret (c :: cs)
  end.

(** The row that is queued; [num_rec_fields] cells are read from [aMem]. *)
Definition copy_result_row (num_rec_fields : Z) (aMem : list Mem) : M (list Mem) :=
  _ ← (if 0 <? num_rec_fields then must_malloc else mret tt);
  if Z.of_nat (length aMem) <? num_rec_fields then throw OutOfBounds
  else copy_cells (take (Z.to_nat num_rec_fields) aMem).

(** ** Serial types *)

Definition sqlite3SmallTypeSizes : list Z :=
  [0; 1; 2; 3; 4; 6; 8; 8; 0; 0; 0; 0] ++
  concat ((fun k => [Z.of_nat k; Z.of_nat k]) <$> seq 0 58).

Definition sqlite3VdbeSerialTypeLen (serial_type : Z) : Z :=
  if 128 <=? serial_type then (serial_type - 12) / 2
  else nth (Z.to_nat serial_type) sqlite3SmallTypeSizes 0.

(** Sizing one cell of the record: the cell (an [IntReal] that takes eight bytes
    becomes a [Real]), its serial type and the updated totals [nData], [nHdr]
    and [nZero]. *)
Definition size_field (file_format : Z) (m : Mem) (nData nHdr nZero : Z) : Mem * Z * Z * Z * Z :=
  if has m MEM_Null then (m, (if has m MEM_Zero then 10 else 0), nData, nHdr + 1, nZero)
  else if has m (Z.lor MEM_Int MEM_IntReal) then
    let i := u_i m in
    let uu := u64 (if i <? 0 then Z.lnot i else i) in
    let nHdr := nHdr + 1 in
    if uu <=? 127 then
      if (Z.land i 1 =? i) && (4 <=? file_format) then (m, 8 + u32 uu, nData, nHdr, nZero)
      else (m, 1, u64 (nData + 1), nHdr, nZero)
    else if uu <=? 32767 then (m, 2, u64 (nData + 2), nHdr, nZero)
    else if uu <=? 8388607 then (m, 3, u64 (nData + 3), nHdr, nZero)
    else if uu <=? 2147483647 then (m, 4, u64 (nData + 4), nHdr, nZero)
    else if uu <=? 140737488355327 then (m, 5, u64 (nData + 6), nHdr, nZero)
    else if has m MEM_IntReal then
      (Mk_Mem (double_bits i)
         (Z.lor (Z.land (m_flags m) (u16 (Z.lnot MEM_IntReal))) MEM_Real) (m_n m) (m_z m),
       7, u64 (nData + 8), nHdr, nZero)
    else (m, 6, u64 (nData + 8), nHdr, nZero)
  else if has m MEM_Real then (m, 7, u64 (nData + 8), nHdr + 1, nZero)
  else
    let len := u32 (m_n m) in
    let serial_type := u32 (len * 2 + 12 + (if has m MEM_Str then 1 else 0)) in
    let '(serial_type, len, nZero) :=
      if has m MEM_Zero then
        let serial_type := u32 (serial_type + u_nZero m * 2) in
        if negb (nData =? 0) then (serial_type, u32 (len + u_nZero m), nZero)
        else (serial_type, len, nZero + u_nZero m)
      else (serial_type, len, nZero) in
    (m, serial_type, u64 (nData + len), nHdr + sqlite3VarintLen serial_type, nZero).

(** The loop runs from the last cell to the first. *)
Fixpoint size_fields (file_format : Z) (ms : list Mem) : list (Mem * Z) * Z * Z * Z :=
  match ms with
  | [] => ([], 0, 0, 0)
  | m :: ms =>
      let '(fs, nData, nHdr, nZero) := size_fields file_format ms in
      let '(m, t, nData, nHdr, nZero) := size_field file_format m nData nHdr nZero in
      ((m, t) :: fs, nData, nHdr, nZero)
  end.

(** The header with its own length in front. *)
Definition header_size (nHdr : Z) : Z :=
  if nHdr <=? 126 then nHdr + 1
  else
    let nVarint := sqlite3VarintLen nHdr in
    let nHdr := nHdr + nVarint in
    if nVarint <? sqlite3VarintLen nHdr then nHdr + 1 else nHdr.

(** ** Writing *)

(** [buf[--i] = v & 0xFF; v >>= 8] down to 0. *)
Fixpoint put_be (i : nat) (v : Z) : list Z :=
  match i with
  | O => []
  | S i => put_be i (Z.shiftr v 8) ++ [u8 (Z.land v 0xff)]
  end.

(** The bytes written for a cell. *)
Definition sqlite3VdbeSerialPut (m : Mem) (serial_type : Z) : M (list Z) :=
  if (serial_type <=? 7) && (0 <? serial_type) then
    mret (put_be (Z.to_nat (nth (Z.to_nat serial_type) sqlite3SmallTypeSizes 0)) (u64 (m_u m)))
  else if 12 <=? serial_type then
    if 0 <? u32 (m_n m) then buf_read 0 (u32 (m_n m)) (m_z m) else mret []
  else mret [].

(** [zHdr] and [zPayload] are offsets into the record. *)
Fixpoint write_fields (fs : list (Mem * Z)) (z : list Z) (zHdr zPayload : Z) : M (list Z) :=
  match fs with
  | [] => mret z
  | (m, t) :: fs =>
      z ← buf_write zHdr (putVarint32 t) z;
      d ← sqlite3VdbeSerialPut m t;
      z ← buf_write zPayload d z;
      write_fields fs z (zHdr + Z.of_nat (length (putVarint32 t))) (zPayload + Z.of_nat (length d))
  end.

(** [make_ssd_record] between taking a row from one queue and putting the
    record into the next; [blk] is the block [sqlite3VdbeMemClearAndResize]
    obtains.  A row without cells makes the first loop run off the row. *)
Definition make_ssd_record (num_rec_fields file_format : Z) (aMem : list Mem) (blk : list Z)
  : M Mem :=
  _ ← must_malloc;
  if (num_rec_fields <=? 0) || (Z.of_nat (length aMem) <? num_rec_fields) then throw OutOfBounds
  else
    let '(fs, nData, nHdr, nZero) := size_fields file_format (take (Z.to_nat num_rec_fields) aMem) in
    let nHdr := header_size nHdr in
    let nByte := nHdr + nData in
    _ ← must_malloc;
    z ← buf_write 0 (putVarint32 nHdr) blk;
    z ← write_fields fs z (Z.of_nat (length (putVarint32 nHdr))) nHdr;
    mret (if nZero =? 0 then Mk_Mem 0 MEM_Blob (i32 nByte) z
          else Mk_Mem (u32 nZero) (Z.lor MEM_Blob MEM_Zero) (i32 nByte) z).

(** ** Reading *)

Definition i8 (x : Z) : Z := (x + 128) mod 256 - 128.

Definition ONE_BYTE_INT (x : list Z) : Z := i8 (nth 0 x 0).
Definition TWO_BYTE_INT (x : list Z) : Z := Z.lor (256 * i8 (nth 0 x 0)) (nth 1 x 0).
Definition THREE_BYTE_INT (x : list Z) : Z :=
  Z.lor (Z.lor (65536 * i8 (nth 0 x 0)) (Z.shiftl (nth 1 x 0) 8)) (nth 2 x 0).
Definition FOUR_BYTE_UINT (x : list Z) : Z :=
  Z.lor (Z.lor (Z.lor (u32 (Z.shiftl (nth 0 x 0) 24)) (Z.shiftl (nth 1 x 0) 16))
           (Z.shiftl (nth 2 x 0) 8)) (nth 3 x 0).
Definition FOUR_BYTE_INT (x : list Z) : Z :=
  Z.lor (Z.lor (Z.lor (16777216 * i8 (nth 0 x 0)) (Z.shiftl (nth 1 x 0) 16))
           (Z.shiftl (nth 2 x 0) 8)) (nth 3 x 0).

Definition EXP754 : Z := Z.shiftl 0x7ff 52.
Definition MAN754 : Z := Z.shiftl 1 52 - 1.
Definition IsNaN (x : Z) : bool := (Z.land x EXP754 =? EXP754) && negb (Z.land x MAN754 =? 0).

Definition serialGet (buf : list Z) (serial_type : Z) (m : Mem) : Mem :=
  let x := u64 (u64 (Z.shiftl (FOUR_BYTE_UINT buf) 32) + FOUR_BYTE_UINT (drop 4 buf)) in
  if serial_type =? 6 then Mk_Mem x MEM_Int (m_n m) (m_z m)
  else Mk_Mem x (if IsNaN x then MEM_Null else MEM_Real) (m_n m) (m_z m).

(** An integer result: [u.i = v; flags = MEM_Int]. *)
Definition int_cell (m : Mem) (v : Z) : Mem := Mk_Mem (u64 v) MEM_Int (m_n m) (m_z m).

(** The cell read from [aKey] at [d] into [m], and the number of bytes used; a
    text or blob points into [aKey]. *)
Definition sqlite3VdbeSerialGet (aKey : list Z) (d serial_type : Z) (m : Mem) : M (Mem * Z) :=
  if serial_type =? 10 then mret (Mk_Mem 0 (Z.lor MEM_Null MEM_Zero) 0 (m_z m), 0)
  else if (serial_type =? 11) || (serial_type =? 0) then
    mret (Mk_Mem (m_u m) MEM_Null (m_n m) (m_z m), 0)
  else if serial_type =? 1 then b ← buf_read d 1 aKey; mret (int_cell m (ONE_BYTE_INT b), 1)
  else if serial_type =? 2 then b ← buf_read d 2 aKey; mret (int_cell m (TWO_BYTE_INT b), 2)
  else if serial_type =? 3 then b ← buf_read d 3 aKey; mret (int_cell m (THREE_BYTE_INT b), 3)
  else if serial_type =? 4 then b ← buf_read d 4 aKey; mret (int_cell m (FOUR_BYTE_INT b), 4)
  else if serial_type =? 5 then
    b ← buf_read d 6 aKey;
    mret (int_cell m (FOUR_BYTE_UINT (drop 2 b) + Z.shiftl 1 32 * TWO_BYTE_INT b), 6)
  else if (serial_type =? 6) || (serial_type =? 7) then
    b ← buf_read d 8 aKey; mret (serialGet b serial_type m, 8)
  else if (serial_type =? 8) || (serial_type =? 9) then mret (int_cell m (serial_type - 8), 0)
  else
    let n := (serial_type - 12) / 2 in
    mret (Mk_Mem (m_u m) (Z.lor (if Z.odd serial_type then MEM_Str else MEM_Blob) MEM_Ephem)
            n (drop (Z.to_nat d) aKey), n).

(** The loop of [sqlite3VdbeRecordUnpack]; [n] is the number of cells left.  The
    cells read and the final offset of the data. *)
Fixpoint unpack_loop (n : nat) (aKey : list Z) (nKey szHdr idx d : Z) (ms : list Mem)
  : M (list Mem * Z) :=
  match n with
  | O => mret (ms, d)
  | S n =>
      if (idx <? szHdr) && (d <=? nKey) then
        t ← getVarint32 (drop (Z.to_nat idx) aKey);
        r ← sqlite3VdbeSerialGet aKey d t.1 (Mk_Mem 0 0 0 []);
        unpack_loop n aKey nKey szHdr (idx + t.2) (u32 (d + r.2)) (ms ++ [r.1])
      else mret (ms, d)
  end.

(** At most [nField] cells; if the data runs past the record the last one is
    replaced by NULL. *)
Definition sqlite3VdbeRecordUnpack (nField : nat) (nKey : Z) (aKey : list Z) : M (list Mem) :=
  h ← getVarint32 aKey;
  r ← unpack_loop nField aKey nKey h.1 h.2 h.1 [];
  mret (if (nKey <? r.2) && negb (Nat.eqb (length r.1) 0)
        then removelast r.1 ++ [Mk_Mem 0 MEM_Null 0 []] else r.1).

(** ** Examples *)

Definition ex_row : list Mem :=
  [Mk_Mem 0 MEM_Null 0 []; Mk_Mem 300 MEM_Int 0 []; Mk_Mem (u64 (-2)) MEM_Int 0 [];
   Mk_Mem (double_bits 5) MEM_Real 0 []; Mk_Mem 0 MEM_Str 3 [97; 98; 99]].

Example ex_record :
  make_ssd_record 5 0 ex_row (replicate 24 170) []
  = Done (Mk_Mem 0 MEM_Blob 20
      ([6; 0; 2; 1; 7; 19] ++ [1; 44] ++ [254] ++ [64; 20; 0; 0; 0; 0; 0; 0] ++ [97; 98; 99]
       ++ replicate 4 170), []).
Proof. by vm_compute. Qed.
