(* ===== verification/RecordProofs.v ===== *)
(** * The record format is read back

    [make_ssd_record] lays a row out as header and data, and
    [sqlite3VdbeRecordUnpack] reads the same values from it. *)

From stdpp Require Import base tactics list numbers option.
From Stdlib Require Import ZArith Lia ZifyBool.
From S2P Require Import Prelude CipherUtil Varint Record.

Local Open Scope Z_scope.

(** ** Values *)

(** The SQL value of a cell; a NaN reads as NULL. *)
Inductive value :=
  | VNull
  | VInt (i : Z)
  | VReal (bits : Z)
  | VText (s : list Z)
  | VBlob (s : list Z).

Definition value_of (m : Mem) : value :=
  if has m MEM_Null then VNull
  else if has m MEM_Int then VInt (u_i m)
  else if has m MEM_Real then (if IsNaN (m_u m) then VNull else VReal (m_u m))
  else if has m MEM_Str then VText (take (Z.to_nat (m_n m)) (m_z m))
  else VBlob (take (Z.to_nat (m_n m)) (m_z m)).

(** A cell of a result row without deferred zeros and without an integer that
    stands for a real; a text or blob has its bytes. *)
Definition cell_ok (m : Mem) : Prop :=
  0 <= m_u m < 2 ^ 64 /\ has m MEM_Zero = false /\ has m MEM_IntReal = false /\
  (has m MEM_Null = false -> has m MEM_Int = false -> has m MEM_Real = false ->
    0 <= m_n m < 2 ^ 31 - 8 /\ m_n m <= Z.of_nat (length (m_z m)) /\ bytes (m_z m)).

(** ** Big-endian integers *)

Lemma put_be_bytes n v : put_be n v = be_bytes n v.
Proof.
  revert v. induction n as [|n IH]; intros v; [done|]. cbn [put_be]. rewrite IH.
  unfold be_bytes. cbn [le_bytes rev]. rewrite Z.shiftr_div_pow2 by lia. f_equal. f_equal.
  change 0xff with (Z.ones 8). rewrite Z.land_ones by lia. unfold u8. by rewrite Z.mod_mod.
Qed.

(** The signed value of big-endian bytes. *)
Definition be_signed (bs : list Z) : Z :=
  match bs with
  | [] => 0
  | b :: bs => i8 b * 256 ^ Z.of_nat (length bs) + be_val bs
  end.

Lemma be_val_cons b bs : be_val (b :: bs) = b * 256 ^ Z.of_nat (length bs) + be_val bs.
Proof.
  unfold be_val. cbn [rev]. rewrite <- (length_rev bs). generalize (rev bs). clear bs.
  induction l as [|c l IH]; cbn [app le_val length]; [cbn; lia|].
  rewrite IH, Nat2Z.inj_succ, Z.pow_succ_r by lia. lia.
Qed.

Lemma be_val_range bs : bytes bs -> 0 <= be_val bs < 256 ^ Z.of_nat (length bs).
Proof. intros H. unfold be_val. rewrite <- length_rev. by apply le_val_range, Forall_rev. Qed.

Lemma be_val_bytes n v : be_val (be_bytes n v) = v mod 256 ^ Z.of_nat n.
Proof. unfold be_val, be_bytes. by rewrite rev_involutive, le_val_bytes. Qed.

(** An integer that fits comes back from its bytes. *)
Lemma be_signed_bytes n i v :
  (0 < n)%nat -> - 256 ^ Z.of_nat n <= 2 * i < 256 ^ Z.of_nat n -> v mod 2 ^ 64 = i mod 2 ^ 64 -> (n <= 8)%nat ->
  be_signed (be_bytes n v) = i.
Proof.
  intros Hn Hi Hv Hn8. pose proof (length_be_bytes n v) as Hl. pose proof (be_val_bytes n v) as Hb.
  pose proof (be_bytes_bytes n v) as Hbytes. destruct (be_bytes n v) as [|b bs]; [cbn in Hl; lia|].
  apply Forall_cons_1 in Hbytes as [Hbyte Hbs]. pose proof (be_val_range bs Hbs).
  cbn [length] in Hl. rewrite be_val_cons in Hb. cbn [be_signed].
  assert (Hm : v mod 256 ^ Z.of_nat n = i mod 256 ^ Z.of_nat n).
  { change 256 with (2 ^ 8). rewrite <- Z.pow_mul_r by lia.
    assert (Hd : (2 ^ (8 * Z.of_nat n) | 2 ^ 64)).
    { exists (2 ^ (64 - 8 * Z.of_nat n)). rewrite <- Z.pow_add_r by lia. f_equal. lia. }
    rewrite <- (Z.mod_mod_divide v (2 ^ 64)), <- (Z.mod_mod_divide i (2 ^ 64)) by done. by rewrite Hv. }
  rewrite Hm in Hb. clear Hm Hv v. replace n with (S (length bs)) in * by lia.
  rewrite Nat2Z.inj_succ, Z.pow_succ_r in * by lia.
  set (P := 256 ^ Z.of_nat (length bs)) in *. unfold is_byte in Hbyte.
  assert (0 < P) by (apply Z.pow_pos_nonneg; lia). clearbody P.
  assert (Hcase : i mod (256 * P) = if decide (0 <= i) then i else i + 256 * P).
  { case_decide; [apply Z.mod_small; lia|]. symmetry. apply Z.mod_unique with (-1); lia. }
  rewrite Hcase in Hb. clear Hcase. unfold i8. destruct (decide (b < 128)).
  - rewrite (Z.mod_small (b + 128)) by lia. case_decide; nia.
  - replace ((b + 128) mod 256) with (b - 128) by (apply Z.mod_unique with 1; lia). case_decide; nia.
Qed.

(** ** The readers' macros *)

Lemma i8_byte_range b : is_byte b -> - 128 <= i8 b < 128.
Proof. intros _. unfold i8. pose proof (Z.mod_pos_bound (b + 128) 256 ltac:(lia)). lia. Qed.

Lemma lor_add x r k : 0 <= k -> 0 <= r < 2 ^ k -> Z.lor (x * 2 ^ k) r = x * 2 ^ k + r.
Proof. intros. by rewrite add_disjoint, Z.shiftl_mul_pow2. Qed.

Lemma be_val_1 a : be_val [a] = a.
Proof. cbn. lia. Qed.

Lemma two_byte a b : is_byte a -> is_byte b -> TWO_BYTE_INT [a; b] = be_signed [a; b].
Proof.
  intros Ha Hb. unfold is_byte in *. unfold TWO_BYTE_INT. cbn [nth be_signed length].
  rewrite be_val_1. replace (256 * i8 a) with (i8 a * 2 ^ 8) by lia. rewrite lor_add by lia. done.
Qed.

Lemma three_byte a b c :
  is_byte a -> is_byte b -> is_byte c -> THREE_BYTE_INT [a; b; c] = be_signed [a; b; c].
Proof.
  intros Ha Hb Hc. unfold is_byte in *. unfold THREE_BYTE_INT. cbn [nth be_signed length].
  rewrite be_val_cons, be_val_1, Z.shiftl_mul_pow2 by lia. cbn [length].
  replace (65536 * i8 a) with (i8 a * 2 ^ 16) by lia. rewrite lor_add by lia.
  replace (i8 a * 2 ^ 16 + b * 2 ^ 8) with ((i8 a * 256 + b) * 2 ^ 8) by lia. rewrite lor_add by lia. lia.
Qed.

Lemma four_byte x b c d :
  is_byte b -> is_byte c -> is_byte d ->
  Z.lor (Z.lor (Z.lor (16777216 * x) (Z.shiftl b 16)) (Z.shiftl c 8)) d
  = x * 256 ^ 3 + be_val [b; c; d].
Proof.
  intros Hb Hc Hd. unfold is_byte in *.
  rewrite (be_val_cons b), (be_val_cons c), be_val_1, !Z.shiftl_mul_pow2 by lia. cbn [length].
  replace (16777216 * x) with (x * 2 ^ 24) by lia. rewrite lor_add by lia.
  replace (x * 2 ^ 24 + b * 2 ^ 16) with ((x * 256 + b) * 2 ^ 16) by lia. rewrite lor_add by lia.
  replace (_ + c * 2 ^ 8) with (((x * 256 + b) * 256 + c) * 2 ^ 8) by lia. rewrite lor_add by lia. lia.
Qed.

Lemma four_byte_int a b c d :
  is_byte a -> is_byte b -> is_byte c -> is_byte d ->
  FOUR_BYTE_INT [a; b; c; d] = be_signed [a; b; c; d].
Proof. intros. unfold FOUR_BYTE_INT. cbn [nth]. by rewrite four_byte. Qed.

Lemma four_byte_uint a b c d l :
  is_byte a -> is_byte b -> is_byte c -> is_byte d ->
  FOUR_BYTE_UINT (a :: b :: c :: d :: l) = be_val [a; b; c; d].
Proof.
  intros. unfold FOUR_BYTE_UINT. cbn [nth]. unfold is_byte in *.
  rewrite u32_small, Z.shiftl_mul_pow2 by (rewrite ?Z.shiftl_mul_pow2; lia).
  replace (a * 2 ^ 24) with (16777216 * a) by lia. rewrite four_byte by done. by rewrite (be_val_cons a).
Qed.

Lemma be_val_app l1 l2 : be_val (l1 ++ l2) = be_val l1 * 256 ^ Z.of_nat (length l2) + be_val l2.
Proof.
  induction l1 as [|a l1 IH]; cbn [app]; [change (be_val []) with 0; lia|]. rewrite !be_val_cons, IH, length_app.
  rewrite Nat2Z.inj_add, Z.pow_add_r by lia. lia.
Qed.

(** The six-byte integer: a signed half and an unsigned word. *)
Lemma six_byte a b c d e f :
  bytes [a; b; c; d; e; f] ->
  FOUR_BYTE_UINT (drop 2 [a; b; c; d; e; f]) + Z.shiftl 1 32 * TWO_BYTE_INT [a; b; c; d; e; f]
  = be_signed [a; b; c; d; e; f].
Proof.
  intros H. repeat (apply Forall_cons_1 in H as [? H]). cbn [drop].
  rewrite four_byte_uint by done. change (TWO_BYTE_INT _) with (TWO_BYTE_INT [a; b]).
  rewrite two_byte by done. cbn [be_signed length]. rewrite be_val_1.
  change (be_val [b; c; d; e; f]) with (be_val ([b] ++ [c; d; e; f])).
  rewrite be_val_app, be_val_1. cbn [length].
  set (v := be_val [c; d; e; f]). clearbody v. change (Z.shiftl 1 32) with (2 ^ 32). lia.
Qed.

(** The eight bytes of an integer or a real. *)
Lemma eight_byte a b c d e f g h :
  bytes [a; b; c; d; e; f; g; h] ->
  let x := [a; b; c; d; e; f; g; h] in
  u64 (u64 (Z.shiftl (FOUR_BYTE_UINT x) 32) + FOUR_BYTE_UINT (drop 4 x)) = be_val x.
Proof.
  intros H x. subst x. pose proof (be_val_range _ H) as Hr. cbn [length] in Hr.
  change [a; b; c; d; e; f; g; h] with ([a; b; c; d] ++ [e; f; g; h]) at 3.
  change [a; b; c; d; e; f; g; h] with ([a; b; c; d] ++ [e; f; g; h]) in Hr.
  rewrite be_val_app in *. repeat (apply Forall_cons_1 in H as [? H]). cbn [drop].
  rewrite !four_byte_uint by done. cbn [length] in *.
  assert (Hhi : bytes [a; b; c; d]) by (by repeat apply Forall_cons_2).
  apply be_val_range in Hhi. cbn [length] in Hhi.
  set (v := be_val [a; b; c; d]) in *. set (v' := be_val [e; f; g; h]) in *. clearbody v v'.
  rewrite Z.shiftl_mul_pow2 by lia. rewrite (u64_small (v * 2 ^ 32)) by lia. by rewrite u64_small by lia.
Qed.

(** ** One cell *)

(** With memory left the unchecked allocations go through. *)
Lemma bind_must_malloc {B} (f : unit -> M B) w :
  all_ok w -> exists w', all_ok w' /\ (must_malloc ≫= f) w = f tt w'.
Proof.
  intros H. destruct (request_cases w) as (b & w' & Hr & Hok). destruct (Hok H) as [-> Hw].
  exists w'. split; [done|]. unfold must_malloc. by rewrite bind_assoc, (bind_done _ _ _ _ _ Hr).
Qed.

Lemma bind_buf_read {B} pre bs post off n (f : list Z -> M B) w :
  off = Z.of_nat (length pre) -> n = Z.of_nat (length bs) ->
  (buf_read off n (pre ++ bs ++ post) ≫= f) w = f bs w.
Proof. intros H1 H2. apply bind_done. by apply buf_read_at. Qed.

Lemma get_int bs t pre post m w :
  bytes bs -> In (length bs, t) [(1%nat, 1); (2%nat, 2); (3%nat, 3); (4%nat, 4); (6%nat, 5)] ->
  sqlite3VdbeSerialGet (pre ++ bs ++ post) (Z.of_nat (length pre)) t m w
  = Done ((int_cell m (be_signed bs), Z.of_nat (length bs)), w).
Proof.
  intros Hb Hin. unfold sqlite3VdbeSerialGet. cbn [In] in Hin.
  destruct Hin as [[= Hl <-]|[[= Hl <-]|[[= Hl <-]|[[= Hl <-]|[[= Hl <-]|[]]]]]]; cbn [Z.eqb Pos.eqb orb];
    rewrite bind_buf_read by (rewrite <- ?Hl; done); pose proof Hb as Hall;
    repeat (destruct bs as [|? bs]; cbn in Hl; [try lia|]; try lia);
    repeat (apply Forall_cons_1 in Hb as [? Hb]); try (destruct bs; [|done]).
  - unfold ONE_BYTE_INT. cbn [nth be_signed length]. change (be_val []) with 0.
    by rewrite Z.mul_1_r, Z.add_0_r.
  - by rewrite two_byte.
  - by rewrite three_byte.
  - by rewrite four_byte_int.
  - by rewrite six_byte.
Qed.

Lemma get_eight bs t pre post m w :
  bytes bs -> length bs = 8%nat -> t = 6 \/ t = 7 ->
  sqlite3VdbeSerialGet (pre ++ bs ++ post) (Z.of_nat (length pre)) t m w
  = Done ((Mk_Mem (be_val bs)
             (if t =? 6 then MEM_Int else if IsNaN (be_val bs) then MEM_Null else MEM_Real)
             (m_n m) (m_z m), 8), w).
Proof.
  intros Hb Hl Ht. unfold sqlite3VdbeSerialGet, serialGet.
  destruct Ht as [-> | ->]; cbn [Z.eqb Pos.eqb orb]; rewrite bind_buf_read by (by rewrite ?Hl);
    repeat (destruct bs as [|? bs]; cbn in Hl; [try lia|]; try lia); by rewrite eight_byte.
Qed.

Lemma get_text bs s t pre post m w :
  t = 2 * Z.of_nat (length bs) + 12 + (if s : bool then 1 else 0) ->
  sqlite3VdbeSerialGet (pre ++ bs ++ post) (Z.of_nat (length pre)) t m w
  = Done ((Mk_Mem (m_u m) (Z.lor (if s then MEM_Str else MEM_Blob) MEM_Ephem)
             (Z.of_nat (length bs)) (bs ++ post), Z.of_nat (length bs)), w).
Proof.
  intros ->. unfold sqlite3VdbeSerialGet.
  set (n := Z.of_nat (length bs)). assert (0 <= n) by lia.
  assert (Hodd : Z.odd (2 * n + 12 + (if s then 1 else 0)) = s).
  { replace (2 * n + 12 + _) with ((if s then 1 else 0) + 2 * (n + 6)) by lia.
    rewrite Z.odd_add_mul_2. by destruct s. }
  assert (Hdiv : (2 * n + 12 + (if s then 1 else 0) - 12) / 2 = n).
  { symmetry. apply Z.div_unique with (if s then 1 else 0); destruct s; lia. }
  rewrite Hodd, Hdiv. set (t := 2 * n + 12 + _). assert (12 <= t) by (unfold t; destruct s; lia).
  clearbody t. repeat (replace (t =? _) with false by lia). cbn [orb].
  by rewrite Nat2Z.id, drop_app_length.
Qed.

(** *** Its serial type *)

Definition int_type (file_format i : Z) : Z :=
  let uu := if i <? 0 then - i - 1 else i in
  if uu <=? 127 then if ((i =? 0) || (i =? 1)) && (4 <=? file_format) then 8 + i else 1
  else if uu <=? 32767 then 2
  else if uu <=? 8388607 then 3
  else if uu <=? 2147483647 then 4
  else if uu <=? 140737488355327 then 5
  else 6.

Definition serial_type (file_format : Z) (m : Mem) : Z :=
  if has m MEM_Null then 0
  else if has m MEM_Int then int_type file_format (u_i m)
  else if has m MEM_Real then 7
  else 2 * m_n m + 12 + (if has m MEM_Str then 1 else 0).

Lemma has_lor m f g : has m (Z.lor f g) = has m f || has m g.
Proof.
  unfold has. rewrite Z.land_lor_distr_r, <- negb_andb. f_equal. apply eq_true_iff_eq.
  rewrite andb_true_iff, !Z.eqb_eq. apply Z.lor_eq_0_iff.
Qed.

Lemma serial_len_text t : 12 <= t -> sqlite3VdbeSerialTypeLen t = (t - 12) / 2.
Proof.
  intros Ht. unfold sqlite3VdbeSerialTypeLen. destruct (128 <=? t) eqn:E; [done|].
  assert (Hall : forallb (fun k => nth k sqlite3SmallTypeSizes 0 =? (Z.of_nat k - 12) / 2) (seq 12 116) = true)
    by (by vm_compute).
  rewrite forallb_forall in Hall. specialize (Hall (Z.to_nat t)). rewrite in_seq, Z2Nat.id in Hall by lia.
  apply Z.eqb_eq, Hall. lia.
Qed.

Lemma serial_len_nonneg t : 0 <= sqlite3VdbeSerialTypeLen t.
Proof.
  unfold sqlite3VdbeSerialTypeLen. destruct (128 <=? t) eqn:E; [apply Z.div_pos; lia|].
  apply (nth_Forall (Z.le 0)); [lia|].
  by apply (bool_decide_unpack (Forall (Z.le 0) sqlite3SmallTypeSizes)); vm_compute.
Qed.

Lemma i64_range x : - 2 ^ 63 <= i64 x < 2 ^ 63.
Proof. unfold i64. pose proof (Z.mod_pos_bound (x + 2 ^ 63) (2 ^ 64)). lia. Qed.

Lemma i64_mod x : i64 x mod 2 ^ 64 = x mod 2 ^ 64.
Proof.
  unfold i64. rewrite Zminus_mod_idemp_l. f_equal. lia.
Qed.

Lemma i64_u64 x : - 2 ^ 63 <= x < 2 ^ 63 -> i64 (u64 x) = x.
Proof.
  intros. unfold i64, u64. rewrite Zplus_mod_idemp_l. fold (i64 x). by apply i64_small.
Qed.

Lemma land_1_eq i : (Z.land i 1 =? i) = (i =? 0) || (i =? 1).
Proof.
  change 1 with (Z.ones 1) at 1. rewrite Z.land_ones by lia. change (2 ^ 1) with 2.
  pose proof (Z.mod_pos_bound i 2 ltac:(lia)). destruct (decide (0 <= i < 2)).
  - rewrite Z.mod_small by lia. lia.
  - lia.
Qed.

(** Sizing a cell adds the length of its data and of its type. *)
Lemma size_field_ok fmt m nData nHdr nZero :
  cell_ok m -> 0 <= nData < 2 ^ 63 ->
  0 <= serial_type fmt m < 2 ^ 32 /\
  size_field fmt m nData nHdr nZero
  = (m, serial_type fmt m, nData + sqlite3VdbeSerialTypeLen (serial_type fmt m),
     nHdr + sqlite3VarintLen (serial_type fmt m), nZero).
Proof.
  intros (Hu & Hz & Hir & Hn) Hd. unfold size_field, serial_type.
  rewrite has_lor, Hz, Hir, orb_false_r. destruct (has m MEM_Null).
  { split; [done|]. change (sqlite3VdbeSerialTypeLen 0) with 0. by rewrite Z.add_0_r. }
  destruct (has m MEM_Int).
  - pose proof (i64_range (m_u m)) as Hi. fold (u_i m) in Hi. set (i := u_i m) in *. clearbody i.
    replace (u64 (if i <? 0 then Z.lnot i else i)) with (if i <? 0 then - i - 1 else i)
      by (unfold Z.lnot; rewrite u64_small; destruct (i <? 0) eqn:?; lia).
    unfold int_type. rewrite land_1_eq.
    set (uu := if i <? 0 then _ else _).
    destruct (uu <=? 127) eqn:E1.
    { destruct (((i =? 0) || (i =? 1)) && (4 <=? fmt)) eqn:E2; [|rewrite u64_small by lia; done].
      assert (Hi01 : i = 0 \/ i = 1) by lia.
      destruct Hi01; subst i uu; (split; [done|]); change (sqlite3VdbeSerialTypeLen (8 + _)) with 0;
        by rewrite (Z.add_0_r nData). }
    repeat (destruct (_ <=? _); [rewrite u64_small by lia; done|]). rewrite u64_small by lia. done.
  - destruct (has m MEM_Real); [rewrite u64_small by lia; done|].
    destruct (Hn eq_refl eq_refl eq_refl) as (Hn1 & Hn2 & _). rewrite (u32_small (m_n m)) by lia.
    set (s := if has m MEM_Str then 1 else 0). assert (0 <= s <= 1) by (subst s; by destruct (has m MEM_Str)).
    replace (m_n m * 2 + 12 + s) with (2 * m_n m + 12 + s) by lia. rewrite u32_small by lia.
    rewrite serial_len_text by lia. replace ((2 * m_n m + 12 + s - 12) / 2) with (m_n m)
      by (apply Z.div_unique with s; lia). rewrite u64_small by lia. split; [lia|done].
Qed.

(** *** Its data *)

Definition cell_data (file_format : Z) (m : Mem) : list Z :=
  let t := serial_type file_format m in
  if 12 <=? t then take (Z.to_nat (m_n m)) (m_z m)
  else be_bytes (Z.to_nat (sqlite3VdbeSerialTypeLen t)) (m_u m).

(** The cases of a serial type: NULL or a constant, an integer that fits its
    bytes, a real, a text or blob. *)
Lemma int_type_cases fmt i :
  - 2 ^ 63 <= i < 2 ^ 63 ->
  let t := int_type fmt i in
  (t = 8 /\ i = 0) \/ (t = 9 /\ i = 1) \/ t = 6 \/
  exists n, In (n, t) [(1%nat, 1); (2%nat, 2); (3%nat, 3); (4%nat, 4); (6%nat, 5)] /\
    - 256 ^ Z.of_nat n <= 2 * i < 256 ^ Z.of_nat n.
Proof.
  intros Hi. unfold int_type. set (uu := if i <? 0 then _ else _).
  assert (Hu : uu = if i <? 0 then - i - 1 else i) by done. clearbody uu.
  destruct (uu <=? 127) eqn:E1.
  { destruct (((i =? 0) || (i =? 1)) && (4 <=? fmt)) eqn:E2; [lia|].
    do 3 right. exists 1%nat. split; [cbn [In]; tauto|]. cbn. destruct (i <? 0) eqn:?; lia. }
  destruct (uu <=? 32767) eqn:E2;
    [do 3 right; exists 2%nat; split; [cbn [In]; tauto|cbn; destruct (i <? 0) eqn:?; lia]|].
  destruct (uu <=? 8388607) eqn:E3;
    [do 3 right; exists 3%nat; split; [cbn [In]; tauto|cbn; destruct (i <? 0) eqn:?; lia]|].
  destruct (uu <=? 2147483647) eqn:E4;
    [do 3 right; exists 4%nat; split; [cbn [In]; tauto|cbn; destruct (i <? 0) eqn:?; lia]|].
  destruct (uu <=? 140737488355327) eqn:E5;
    [do 3 right; exists 6%nat; split; [cbn [In]; tauto|cbn; destruct (i <? 0) eqn:?; lia]|].
  tauto.
Qed.

(** Every type of at most 9 is written as the low bytes of the union. *)
Lemma put_small_type m t w :
  0 <= m_u m < 2 ^ 64 -> 0 <= t <= 9 ->
  sqlite3VdbeSerialPut m t w
  = Done (be_bytes (Z.to_nat (sqlite3VdbeSerialTypeLen t)) (m_u m), w).
Proof.
  intros Hu Ht. unfold sqlite3VdbeSerialPut. rewrite u64_small by done.
  assert (Hc : t = 0 \/ t = 8 \/ t = 9 \/ 1 <= t <= 7) by lia.
  destruct Hc as [->|[->|[->|Hc]]]; [done..|].
  replace ((t <=? 7) && (0 <? t)) with true by lia. rewrite put_be_bytes.
  unfold sqlite3VdbeSerialTypeLen. by replace (128 <=? t) with false by lia.
Qed.

Lemma small_serial fmt m :
  serial_type fmt m <= 9 \/
  has m MEM_Null = false /\ has m MEM_Int = false /\ has m MEM_Real = false.
Proof.
  unfold serial_type. destruct (has m MEM_Null); [lia|].
  destruct (has m MEM_Int); [left; unfold int_type|destruct (has m MEM_Real); [lia|tauto]].
  destruct (((u_i m =? 0) || (u_i m =? 1)) && (4 <=? fmt)) eqn:E2;
    repeat (destruct (_ <=? _)); lia.
Qed.

Lemma cell_put fmt m w :
  cell_ok m ->
  sqlite3VdbeSerialPut m (serial_type fmt m) w = Done (cell_data fmt m, w) /\
  Z.of_nat (length (cell_data fmt m)) = sqlite3VdbeSerialTypeLen (serial_type fmt m) /\
  bytes (cell_data fmt m).
Proof.
  intros Hok. destruct (size_field_ok fmt m 0 0 0 Hok ltac:(lia)) as [Ht _].
  destruct Hok as (Hu & _ & _ & Hn). unfold cell_data. destruct (small_serial fmt m) as [Hs|(H1 & H2 & H3)].
  - replace (12 <=? _) with false by lia. rewrite put_small_type by lia.
    split; [done|]. split; [|apply be_bytes_bytes]. rewrite length_be_bytes.
    pose proof (serial_len_nonneg (serial_type fmt m)). lia.
  - destruct (Hn H1 H2 H3) as (Hn1 & Hn2 & Hb). unfold serial_type in *. rewrite H1, H2, H3 in *.
    set (s := if has m MEM_Str then 1 else 0) in *. assert (0 <= s <= 1) by (subst s; by destruct (has m MEM_Str)).
    clearbody s. replace (12 <=? _) with true by lia. rewrite serial_len_text by lia.
    replace ((2 * m_n m + 12 + s - 12) / 2) with (m_n m) by (apply Z.div_unique with s; lia).
    rewrite length_take. split; [|split; [lia|by apply Forall_take]].
    unfold sqlite3VdbeSerialPut. replace (2 * m_n m + 12 + s <=? 7) with false by lia. cbn [andb].
    replace (12 <=? _) with true by lia. rewrite u32_small by lia. destruct (0 <? m_n m) eqn:E.
    + rewrite <- (take_drop (Z.to_nat (m_n m)) (m_z m)) at 1. apply (buf_read_at []); [done|].
      rewrite length_take. lia.
    + by replace (Z.to_nat (m_n m)) with 0%nat by lia.
Qed.

Lemma value_int m v :
  - 2 ^ 63 <= v < 2 ^ 63 -> value_of (int_cell m v) = VInt v.
Proof. intros Hv. unfold value_of, u_i. cbn. by rewrite i64_u64. Qed.

Lemma value_mk_int u n z : value_of (Mk_Mem u MEM_Int n z) = VInt (i64 u).
Proof. done. Qed.

Lemma value_mk_real u n z :
  value_of (Mk_Mem u (if IsNaN u then MEM_Null else MEM_Real) n z) = if IsNaN u then VNull else VReal u.
Proof. destruct (IsNaN u) eqn:E; [done|]. unfold value_of. cbn -[IsNaN]. by rewrite E. Qed.

(** Reading a cell's data gives its value. *)
Lemma cell_get fmt m m0 pre post w :
  cell_ok m ->
  exists c, sqlite3VdbeSerialGet (pre ++ cell_data fmt m ++ post) (Z.of_nat (length pre))
              (serial_type fmt m) m0 w
            = Done ((c, Z.of_nat (length (cell_data fmt m))), w) /\ value_of c = value_of m.
Proof.
  intros (Hu & _ & _ & Hn). unfold cell_data, serial_type. unfold value_of at 2.
  destruct (has m MEM_Null); [by eexists|]. destruct (has m MEM_Int).
  - pose proof (i64_range (m_u m)) as Hi. fold (u_i m) in Hi.
    destruct (int_type_cases fmt (u_i m) Hi) as [[-> Hv]|[[-> Hv]|[->|(n & Hin & Hfit)]]].
    { rewrite Hv. by eexists. }
    { rewrite Hv. by eexists. }
    { change (Z.to_nat (sqlite3VdbeSerialTypeLen 6)) with 8%nat. cbn [Z.leb Z.compare Pos.compare Pos.compare_cont].
      rewrite get_eight by (apply be_bytes_bytes || apply length_be_bytes || tauto).
      rewrite length_be_bytes. eexists. split; [done|]. cbn [Z.eqb Pos.eqb].
      by rewrite value_mk_int, be_val_bytes, Z.mod_small by done. }
    assert (Hlen : int_type fmt (u_i m) < 12 /\ (0 < n <= 8)%nat /\
      sqlite3VdbeSerialTypeLen (int_type fmt (u_i m)) = Z.of_nat n).
    { cbn [In] in Hin. repeat (destruct Hin as [[= <- <-]|Hin]; [split_and!; (done || lia)|]). done. }
    destruct Hlen as (Ht & Hn0 & ->). replace (12 <=? _) with false by lia. rewrite Nat2Z.id.
    rewrite get_int; [|apply be_bytes_bytes|by rewrite length_be_bytes].
    eexists. split; [done|]. rewrite (be_signed_bytes n (u_i m)); [by apply value_int|lia|done| |lia].
    symmetry. apply i64_mod.
  - destruct (has m MEM_Real).
    + cbn [Z.leb Z.compare Pos.compare Pos.compare_cont]. change (Z.to_nat (sqlite3VdbeSerialTypeLen 7)) with 8%nat.
      pose proof (length_be_bytes 8 (m_u m)) as Hl.
      rewrite get_eight by (apply be_bytes_bytes || done || tauto). rewrite Hl. eexists. split; [done|].
      cbn [Z.eqb Pos.eqb]. rewrite be_val_bytes, Z.mod_small by done.
      apply value_mk_real.
    + destruct (Hn eq_refl eq_refl eq_refl) as (Hn1 & Hn2 & _).
      assert (Hl : Z.of_nat (length (take (Z.to_nat (m_n m)) (m_z m))) = m_n m) by (rewrite length_take; lia).
      replace (12 <=? _) with true by (destruct (has m MEM_Str); lia).
      rewrite (get_text _ (has m MEM_Str)) by (by rewrite Hl). eexists. split; [done|].
      rewrite Hl. destruct (has m MEM_Str); unfold value_of; cbn;
        by rewrite take_app_le, take_take, Nat.min_id by (rewrite length_take; lia).
Qed.

(** ** The header's own length *)

Lemma varintlen_groups k v :
  (1 <= k <= 9)%nat -> 0 <= v < 128 ^ Z.of_nat k -> (k = 1%nat \/ 128 ^ Z.of_nat (k - 1) <= v) ->
  sqlite3VarintLen v = Z.of_nat k.
Proof.
  intros Hk Hv Hlo. unfold sqlite3VarintLen. rewrite varint_len_groups.
  - rewrite (groups_length 10 k v) by lia. lia.
  - split; [lia|]. eapply Z.lt_le_trans; [apply Hv|]. apply Z.pow_le_mono_r; lia.
Qed.

(** The announced size counts the bytes that announce it. *)
Lemma header_size_ok n :
  0 <= n < 2 ^ 31 -> sqlite3VarintLen (header_size n) + n = header_size n /\ 0 < header_size n < 2 ^ 32.
Proof.
  intros Hn. unfold header_size. destruct (n <=? 126) eqn:E.
  { rewrite (varintlen_groups 1) by (cbn; lia). lia. }
  destruct (groups_count n 5) as (k & Hk & H1 & H2); [cbn; lia|].
  destruct k as [|[|k]]; [lia|change (128 ^ Z.of_nat 1) with 128 in H1; destruct (decide (n = 127)) as [->|]; [|lia]|].
  { vm_compute. done. }
  destruct H2 as [?|H2]; [done|]. rewrite (varintlen_groups (S (S k)) n) by (done || lia).
  replace (S (S k) - 1)%nat with (S k) in H2 by lia. set (j := Z.of_nat (S (S k))) in *.
  assert (Hj : 2 <= j <= 5) by lia. destruct (decide (n + j < 128 ^ j)).
  - rewrite (varintlen_groups (S (S k)) (n + j)); fold j; [|lia|lia|].
    + rewrite Z.ltb_irrefl. rewrite (varintlen_groups (S (S k)) (n + j)); fold j; [lia|lia|lia|].
      right. replace (S (S k) - 1)%nat with (S k) by lia. lia.
    + right. replace (S (S k) - 1)%nat with (S k) by lia. lia.
  - assert (Hup : 128 ^ Z.of_nat (S (S (S k))) = 128 * 128 ^ j) by apply pow128_S.
    assert (Hbig : 128 <= 128 ^ j) by (apply Z.le_trans with (128 ^ 1); [lia|apply Z.pow_le_mono_r; lia]).
    assert (Hlo : 128 ^ Z.of_nat (S (S (S k)) - 1) = 128 ^ j) by (f_equal; lia).
    rewrite (varintlen_groups (S (S (S k))) (n + j)) by (rewrite ?Hup, ?Hlo; lia).
    replace (j <? Z.of_nat (S (S (S k)))) with true by lia.
    rewrite (varintlen_groups (S (S (S k))) (n + j + 1)) by (rewrite ?Hup, ?Hlo; lia). lia.
Qed.

(** ** The row *)

Definition row_header (file_format : Z) (ms : list Mem) : list Z :=
  concat ((fun m => putVarint32 (serial_type file_format m)) <$> ms).
Definition row_data (file_format : Z) (ms : list Mem) : list Z :=
  concat (cell_data file_format <$> ms).

(** The record of a row: the length of the header, the serial types, the data. *)
Definition record_of (file_format : Z) (ms : list Mem) : list Z :=
  putVarint32 (header_size (Z.of_nat (length (row_header file_format ms))))
  ++ row_header file_format ms ++ row_data file_format ms.

Section row.
  Context (fmt : Z).
  Implicit Types (m : Mem) (ms : list Mem).

Lemma row_header_cons m ms :
    row_header fmt (m :: ms) = putVarint32 (serial_type fmt m) ++ row_header fmt ms.
  Proof. done. Qed.

Lemma row_data_cons m ms : row_data fmt (m :: ms) = cell_data fmt m ++ row_data fmt ms.
  Proof. done. Qed.

Lemma type_range m : cell_ok m -> 0 <= serial_type fmt m < 2 ^ 32.
  Proof. intros H. by destruct (size_field_ok fmt m 0 0 0 H ltac:(lia)). Qed.

Lemma row_bytes ms : Forall cell_ok ms -> bytes (row_header fmt ms) /\ bytes (row_data fmt ms).
  Proof.
    induction 1 as [|m ms Hm _ [IH1 IH2]]; [done|]. rewrite row_header_cons, row_data_cons.
    split; apply Forall_app_2; [by apply bytes_put32, type_range|done|apply (cell_put fmt m [] Hm)|done].
  Qed.

Lemma size_fields_ok ms :
    Forall cell_ok ms -> Z.of_nat (length (row_data fmt ms)) < 2 ^ 63 ->
    size_fields fmt ms = ((fun m => (m, serial_type fmt m)) <$> ms, Z.of_nat (length (row_data fmt ms)),
      Z.of_nat (length (row_header fmt ms)), 0).
  Proof.
    induction 1 as [|m ms Hm _ IH]; [done|]. rewrite row_header_cons, row_data_cons, fmap_cons.
    cbn [size_fields]. rewrite !length_app, !Nat2Z.inj_add. intros Hlen. rewrite IH by lia.
    set (D := length (row_data fmt ms)) in *. set (H := length (row_header fmt ms)).
    destruct (size_field_ok fmt m (Z.of_nat D) (Z.of_nat H) 0 Hm ltac:(lia)) as [Ht ->].
    destruct (cell_put fmt m [] Hm) as (_ & -> & _). rewrite length_put32 by done.
    by rewrite (Z.add_comm (sqlite3VdbeSerialTypeLen _)), (Z.add_comm (sqlite3VarintLen _)).
  Qed.

(** Header and data grow side by side. *)
Lemma write_fields_ok ms A hold B pold w :
    Forall cell_ok ms -> length hold = length (row_header fmt ms) ->
    (length (row_data fmt ms) <= length pold)%nat ->
    write_fields ((fun m => (m, serial_type fmt m)) <$> ms) (A ++ hold ++ B ++ pold)
      (Z.of_nat (length A)) (Z.of_nat (length (A ++ hold ++ B))) w
    = Done (A ++ row_header fmt ms ++ B ++ row_data fmt ms ++ drop (length (row_data fmt ms)) pold, w).
  Proof.
    intros Hall. revert A hold B pold. induction Hall as [|m ms Hm _ IH]; intros A hold B pold Hh Hd.
    { by destruct hold. }
    rewrite row_header_cons, row_data_cons, fmap_cons in *. cbn [write_fields].
    rewrite length_app in Hh, Hd. destruct (cell_put fmt m w Hm) as (Hp & _ & _).
    set (t := putVarint32 _) in *. set (d := cell_data fmt m) in *.
    specialize (IH (A ++ t) (drop (length t) hold) (B ++ d) (drop (length d) pold)
      ltac:(rewrite length_drop; lia) ltac:(rewrite length_drop; lia)).
    rewrite drop_drop, <- (length_app d), <- !app_assoc in IH. rewrite <- !app_assoc, <- IH.
    rewrite <- (take_drop (length t) hold) at 1. rewrite <- app_assoc.
    rewrite (bind_done _ _ _ _ _ (buf_write_at A (take (length t) hold) t _ _ w eq_refl
      ltac:(rewrite length_take; lia))).
    rewrite (bind_done _ _ _ _ _ Hp). set (hold' := drop (length t) hold).
    replace (A ++ t ++ hold' ++ B ++ pold)
      with ((A ++ t ++ hold' ++ B) ++ take (length d) pold ++ drop (length d) pold)
      by (rewrite take_drop, <- !app_assoc; done).
    assert (Hhl : length hold = (length t + length hold')%nat) by (unfold hold'; rewrite length_drop; lia).
    erewrite bind_done; [|apply buf_write_at; [rewrite !length_app; lia|rewrite length_take; lia]].
    rewrite <- !app_assoc. f_equal; rewrite !length_app; lia.
  Qed.
(** The record is laid out in the block. *)
Lemma make_record_ok ms blk w :
    ms <> [] -> Forall cell_ok ms ->
    Z.of_nat (length (record_of fmt ms)) < 2 ^ 31 ->
    (length (record_of fmt ms) <= length blk)%nat -> all_ok w ->
    exists w', all_ok w' /\
    make_ssd_record (Z.of_nat (length ms)) fmt ms blk w
    = Done (Mk_Mem 0 MEM_Blob (Z.of_nat (length (record_of fmt ms)))
             (record_of fmt ms ++ drop (length (record_of fmt ms)) blk), w').
  Proof.
    unfold record_of. intros Hne Hall. rewrite !length_app. intros Hlt Hblk Hw0.
    unfold make_ssd_record. edestruct @bind_must_malloc as (w1 & Hw1 & ->); [exact Hw0|]. replace (_ || _) with false by (destruct ms; [done|cbn [length]; lia]).
    rewrite Nat2Z.id, take_ge, size_fields_ok by (done || lia).
    set (H := row_header fmt ms) in *. set (D := row_data fmt ms) in *.
    destruct (header_size_ok (Z.of_nat (length H)) ltac:(lia)) as [Hs Hr].
    set (hs := header_size _) in *. set (p := putVarint32 hs) in *.
    assert (Hp : Z.of_nat (length p) = sqlite3VarintLen hs) by (apply length_put32; lia).
    edestruct @bind_must_malloc as (w2 & Hw2 & ->); [exact Hw1|]. exists w2. split; [done|].
    rewrite <- (take_drop (length p) blk) at 1.
    erewrite bind_done; [|apply (buf_write_at [] _ p); [done|rewrite length_take; lia]].
    cbn [app]. set (rest := drop (length p) blk).
    rewrite <- (take_drop (length H) rest).
    assert (Hrl : length rest = (length blk - length p)%nat) by (unfold rest; by rewrite length_drop).
    pose proof (write_fields_ok ms p (take (length H) rest) [] (drop (length H) rest) w2 Hall
      ltac:(rewrite length_take; fold H; lia) ltac:(rewrite length_drop; fold D; lia)) as Hw.
    cbn [app] in Hw. fold H D in Hw. rewrite app_nil_r, length_app, length_take in Hw.
    replace (Z.of_nat (length p + length H `min` length rest)) with hs in Hw by lia.
    erewrite bind_done; [|exact Hw]. cbn [Z.eqb]. unfold mret, M_ret. do 3 f_equal.
    - rewrite i32_small by lia. lia.
    - unfold rest. rewrite <- !app_assoc, !drop_drop. repeat f_equal; lia.
  Qed.

(** Only the first [num_rec_fields] cells count. *)
Lemma make_record_take nf ms blk :
    0 < nf <= Z.of_nat (length ms) ->
    make_ssd_record nf fmt ms blk = make_ssd_record nf fmt (take (Z.to_nat nf) ms) blk.
  Proof.
    intros Hnf. unfold make_ssd_record. rewrite take_take, Nat.min_id, length_take.
    replace (Z.of_nat (length ms) <? nf) with false by lia. by replace (Z.of_nat _ <? nf) with false by lia.
  Qed.

(** The reader's loop over what is left of header and data. *)
Lemma unpack_ok ms A D post nKey acc w :
    Forall cell_ok ms -> bytes D -> bytes post ->
    let aKey := A ++ row_header fmt ms ++ D ++ row_data fmt ms ++ post in
    let szHdr := Z.of_nat (length (A ++ row_header fmt ms)) in
    let dEnd := szHdr + Z.of_nat (length D) + Z.of_nat (length (row_data fmt ms)) in
    dEnd <= nKey < 2 ^ 32 ->
    exists cs,
      unpack_loop (length ms) aKey nKey szHdr (Z.of_nat (length A)) (szHdr + Z.of_nat (length D)) acc w
        = Done ((acc ++ cs, dEnd), w) /\
      value_of <$> cs = value_of <$> ms.
  Proof.
    intros Hall. revert A D acc. induction Hall as [|m ms Hm Hms IH]; intros A D acc HD Hpost aKey szHdr dEnd Hn.
    { exists []. rewrite app_nil_r. split; [|done]. cbn. unfold mret, M_ret. do 3 f_equal.
      unfold dEnd. change (row_data fmt []) with (@nil Z). cbn. lia. }
    subst aKey szHdr dEnd. rewrite row_header_cons, row_data_cons in *.
    pose proof (type_range m Hm) as Ht. destruct (row_bytes ms Hms) as [HbH HbD].
    destruct (cell_put fmt m w Hm) as (_ & _ & Hbd).
    pose proof (length_put32 (serial_type fmt m) Ht) as Hlt.
    assert (Hpos : 0 < Z.of_nat (length (putVarint32 (serial_type fmt m)))).
    { unfold putVarint32. destruct (_ <? _); [cbn; lia|]. unfold sqlite3PutVarint.
      destruct (_ <=? _); [cbn; lia|]. destruct (_ <=? _); [cbn; lia|]. unfold putVarint64.
      destruct (negb _); [rewrite length_app; cbn; lia|]. cbn [varint_groups rev].
      rewrite length_app. cbn. lia. }
    set (t := putVarint32 _) in *. set (d := cell_data fmt m) in *.
    rewrite !length_app, !Nat2Z.inj_add in Hn.
    cbn [length unpack_loop]. rewrite !length_app, !Nat2Z.inj_add.
    replace (_ && _) with true by lia.
    rewrite Nat2Z.id, drop_app_length, <- !app_assoc. unfold t.
    erewrite bind_done; [|apply get32_put32; [done|by repeat apply Forall_app_2]]. cbn [fst snd]. fold t.
    destruct (cell_get fmt m (Mk_Mem 0 0 0 []) (A ++ t ++ row_header fmt ms ++ D) (row_data fmt ms ++ post) w Hm)
      as (c & Hc & Hv). rewrite <- !app_assoc, !length_app, !Nat2Z.inj_add in Hc. fold d in Hc.
    erewrite bind_done; [|rewrite <- Hc; f_equal; lia]. cbn [fst snd].
    destruct (IH (A ++ t) (D ++ d) (acc ++ [c])) as (cs & Hl & Hvs);
      [by apply Forall_app_2|done|rewrite !length_app; lia|].
    exists (c :: cs). rewrite <- !app_assoc, !length_app, !Nat2Z.inj_add in Hl. cbn [app] in Hl.
    split; [|rewrite !fmap_cons; by f_equal].
    rewrite u32_small by lia. rewrite <- !Z.add_assoc in *. exact Hl.
  Qed.

Lemma unpack_record ms post w :
    Forall cell_ok ms -> bytes post -> Z.of_nat (length (record_of fmt ms)) < 2 ^ 31 ->
    exists cs,
      sqlite3VdbeRecordUnpack (length ms) (Z.of_nat (length (record_of fmt ms))) (record_of fmt ms ++ post) w
        = Done (cs, w) /\
      value_of <$> cs = value_of <$> ms.
  Proof.
    unfold record_of. intros Hall Hpost. rewrite !length_app. intros Hlt.
    destruct (header_size_ok (Z.of_nat (length (row_header fmt ms))) ltac:(lia)) as [Hs Hr].
    destruct (row_bytes ms Hall) as [HbH HbD].
    set (hs := header_size _) in *. set (p := putVarint32 hs) in *.
    assert (Hp : Z.of_nat (length p) = sqlite3VarintLen hs) by (apply length_put32; lia).
    unfold sqlite3VdbeRecordUnpack. rewrite <- !app_assoc. unfold p.
    erewrite bind_done; [|apply get32_put32; [lia|by repeat apply Forall_app_2]]. cbn [fst snd]. fold p.
    destruct (unpack_ok ms p [] post (Z.of_nat (length p + (length (row_header fmt ms) + length (row_data fmt ms)))) [] w
      Hall (Forall_nil_2 _) Hpost) as (cs & Hl & Hv); [rewrite length_app; cbn; lia|].
    exists cs. split; [|done]. cbn [length app] in Hl. rewrite Z.add_0_r, length_app in Hl.
    replace (Z.of_nat (length p + length (row_header fmt ms))) with hs in Hl by lia.
    rewrite (bind_done _ _ _ _ _ Hl). cbn [fst snd]. by replace (_ <? _) with false by lia.
  Qed.
End row.

(** C13. Records round trip: for every non-empty row of cells that hold NULL, an
    integer, a real, a text or a blob (no deferred zero-blobs, no integers that
    stand for reals) whose record stays below 2^31 bytes and fits the block,
    [make_ssd_record] succeeds when memory is available, announces the exact number of bytes it wrote, and
    [sqlite3VdbeRecordUnpack] reads back as many cells, with the same values. *)
Theorem record_roundtrip fmt ms blk w :
  ms <> [] -> Forall cell_ok ms -> bytes blk ->
  Z.of_nat (length (record_of fmt ms)) < 2 ^ 31 ->
  (length (record_of fmt ms) <= length blk)%nat -> all_ok w ->
  exists r cs w',
    make_ssd_record (Z.of_nat (length ms)) fmt ms blk w = Done (r, w') /\
    m_flags r = MEM_Blob /\
    take (Z.to_nat (m_n r)) (m_z r) = record_of fmt ms /\
    sqlite3VdbeRecordUnpack (length ms) (m_n r) (m_z r) w' = Done (cs, w') /\
    value_of <$> cs = value_of <$> ms.
Proof.
  intros Hne Hall Hb Hlt Hblk Hw. destruct (make_record_ok fmt ms blk w Hne Hall Hlt Hblk Hw) as (w' & _ & Hmk).
  destruct (unpack_record fmt ms (drop (length (record_of fmt ms)) blk) w' Hall (Forall_drop _ _ _ Hb) Hlt)
    as (cs & Hu & Hv).
  eexists _, cs, w'. split; [exact Hmk|]. cbn [m_flags m_n m_z].
  rewrite Nat2Z.id, take_app_length. done.
Qed.

(** ** The copy taken off the query thread *)

(** A cell whose text or blob is really there, whatever else the cell holds. *)
Definition bytes_there (m : Mem) : Prop :=
  has m (Z.lor MEM_Str MEM_Blob) = true -> m_n m <= Z.of_nat (length (m_z m)).

(** A text or blob is flagged as such when nothing else is. *)
Definition flagged (m : Mem) : Prop :=
  has m MEM_Null = false -> has m MEM_Int = false -> has m MEM_Real = false ->
  has m (Z.lor MEM_Str MEM_Blob) = true.

(** A cell that has the same value as another and makes the same record. *)
Definition same_cell (c m : Mem) : Prop :=
  cell_ok c /\ value_of c = value_of m /\
  forall fmt, serial_type fmt c = serial_type fmt m /\ cell_data fmt c = cell_data fmt m.

Lemma same_cells row ms fmt :
  Forall2 same_cell row ms ->
  length row = length ms /\ Forall cell_ok row /\ value_of <$> row = value_of <$> ms /\
  record_of fmt row = record_of fmt ms.
Proof.
  intros H. assert (Hr : row_header fmt row = row_header fmt ms /\ row_data fmt row = row_data fmt ms).
  { induction H as [|c m row ms (_ & _ & Hd) _ [Hh Hds]]; [done|]. destruct (Hd fmt) as [Ht Hdt].
    by rewrite !row_header_cons, !row_data_cons, Ht, Hdt, Hh, Hds. }
  destruct Hr as [Hh Hd]. split_and!.
  - by eapply Forall2_length.
  - eapply Forall2_Forall_l; [exact H|]. apply Forall_forall. by intros m _ c (Hc & _).
  - clear Hh Hd. induction H as [|c m row ms (_ & Hv & _) _ IH]; [done|]. by rewrite !fmap_cons, Hv, IH.
  - unfold record_of. by rewrite Hh, Hd.
Qed.

Lemma copy_cell_ok m w :
  cell_ok m -> bytes_there m -> flagged m -> all_ok w ->
  exists c w', copy_cell m w = Done (c, w') /\ all_ok w' /\ same_cell c m.
Proof.
  intros Hok Hz Hfl Hw. unfold copy_cell.
  destruct (has m (Z.lor MEM_Str MEM_Blob) && (0 <? m_n m)) eqn:E.
  - apply andb_true_iff in E as [E1 E2]. specialize (Hz E1).
    assert (Hl : length (take (Z.to_nat (m_n m)) (m_z m)) = Z.to_nat (m_n m)) by (rewrite length_take; lia).
    edestruct @bind_must_malloc as (w' & Hw' & ->); [exact Hw|].
    assert (Hr : buf_read 0 (m_n m) (m_z m) w' = Done (take (Z.to_nat (m_n m)) (m_z m), w')).
    { rewrite <- (take_drop (Z.to_nat (m_n m)) (m_z m)) at 1. apply (buf_read_at []); [done|lia]. }
    rewrite (bind_done _ _ _ _ _ Hr). eexists _, w'. split; [done|]. split; [done|]. split; [|split].
    + destruct Hok as (Hu & Hz0 & Hi0 & Hn). do 3 (split; [done|]). intros H1 H2 H3. cbn [m_n m_z].
      destruct (Hn H1 H2 H3) as (? & ? & ?). split_and!; [lia..|by apply Forall_take].
    + unfold value_of, has, u_i. cbn [m_flags m_u m_n m_z]. by rewrite take_take, Nat.min_id.
    + intros fmt. split; [done|]. unfold cell_data, serial_type, has, u_i. cbn [m_flags m_u m_n m_z].
      by rewrite take_take, Nat.min_id.
  - assert (Ht : has m MEM_Null = true \/ has m MEM_Int = true \/ has m MEM_Real = true \/ m_n m = 0).
    { destruct (has m MEM_Null) eqn:E1, (has m MEM_Int) eqn:E2, (has m MEM_Real) eqn:E3; try tauto.
      specialize (Hfl E1 E2 E3). rewrite Hfl in E. destruct Hok as (_ & _ & _ & Hn).
      destruct (Hn E1 E2 E3). lia. }
    eexists _, w. split; [done|]. split; [done|]. split; [|split].
    + destruct Hok as (Hu & Hz0 & Hi0 & Hn). do 3 (split; [done|]). intros H1 H2 H3. cbn [m_n m_z].
      unfold has in *. cbn [m_flags] in *. destruct (Hn H1 H2 H3) as (? & ? & ?).
      assert (m_n m = 0) by (destruct Ht as [?|[?|[?|?]]]; congruence || done).
      split_and!; [lia..|constructor].
    + unfold value_of, has, u_i in *. cbn [m_flags m_u m_n m_z].
      destruct Ht as [-> | [-> | [-> | ->]]]; [done|by repeat case_match|by repeat case_match|].
      by rewrite take_nil.
    + intros fmt. split; [done|]. unfold cell_data.
      change (serial_type fmt (Mk_Mem _ _ _ [])) with (serial_type fmt m). cbn [m_u m_n m_z].
      destruct (small_serial fmt m) as [?|(H1 & H2 & H3)]; [by replace (12 <=? _) with false by lia|].
      assert (Hn0 : m_n m = 0) by (destruct Ht as [?|[?|[?|?]]]; congruence || done).
      rewrite Hn0. by rewrite take_nil.
Qed.

Lemma copy_cells_ok ms w :
  Forall cell_ok ms -> Forall bytes_there ms -> Forall flagged ms -> all_ok w ->
  exists row w', copy_cells ms w = Done (row, w') /\ Forall2 same_cell row ms.
Proof.
  intros H1. revert w. induction H1 as [|m ms Hm _ IH]; intros w H2 H3 Hw; [by exists [], w|].
  apply Forall_cons_1 in H2 as [Hb H2]. apply Forall_cons_1 in H3 as [Hf H3].
  destruct (copy_cell_ok m w Hm Hb Hf Hw) as (c & w1 & Hc & Hw1 & Hs).
  destruct (IH w1 H2 H3 Hw1) as (row & w' & Hr & Hss).
  exists (c :: row), w'. cbn [copy_cells]. rewrite (bind_done _ _ _ _ _ Hc), (bind_done _ _ _ _ _ Hr).
  split; [done|by constructor].
Qed.

Lemma copy_row_ok ms more w :
  Forall cell_ok ms -> Forall bytes_there ms -> Forall flagged ms -> all_ok w ->
  exists row w', copy_result_row (Z.of_nat (length ms)) (ms ++ more) w = Done (row, w') /\
    Forall2 same_cell row ms.
Proof.
  intros H1 H2 H3 Hw. unfold copy_result_row.
  assert (exists w1, all_ok w1 /\ forall f : unit -> M (list Mem),
    ((if 0 <? Z.of_nat (length ms) then must_malloc else mret tt) ≫= f) w = f tt w1) as (w1 & Hw1 & ->).
  { destruct (0 <? _); [|by exists w]. unfold must_malloc.
    destruct (request_cases w) as (b & w1 & Hr & Hok). destruct (Hok Hw) as [-> Hw1].
    exists w1. split; [done|]. intros f. by rewrite bind_assoc, (bind_done _ _ _ _ _ Hr). }
  replace (_ <? _) with false by (rewrite length_app; lia).
  rewrite Nat2Z.id, take_app_length. by apply copy_cells_ok.
Qed.

(** The row queued for the record thread is the row the query produced:
    [copy_result_row] copies as many cells as the query has columns, the copy
    has the same values, is fit for [make_ssd_record], and has the same record. *)
Theorem copy_result_row_faithful fmt ms more w :
  Forall cell_ok ms -> Forall bytes_there ms -> Forall flagged ms -> all_ok w ->
  exists row w', copy_result_row (Z.of_nat (length ms)) (ms ++ more) w = Done (row, w') /\
    length row = length ms /\ Forall cell_ok row /\
    value_of <$> row = value_of <$> ms /\ record_of fmt row = record_of fmt ms.
Proof.
  intros H1 H2 H3 Hw. destruct (copy_row_ok ms more w H1 H2 H3 Hw) as (row & w' & Hc & Hs).
  exists row, w'. split; [done|]. by apply same_cells.
Qed.

(** ** Witnesses *)

Lemma ex_row_ok : Forall cell_ok ex_row.
Proof.
  repeat apply Forall_cons_2; [..|apply Forall_nil_2]; (split_and!; [vm_compute; done..|]);
    intros; try discriminate; split_and!; [vm_compute; done..|].
  repeat (apply Forall_cons_2; [unfold is_byte; lia|]). apply Forall_nil_2.
Qed.

Lemma record_roundtrip_witness :
  exists r cs w',
    make_ssd_record 5 0 ex_row (replicate 24 170) [] = Done (r, w') /\
    m_flags r = MEM_Blob /\
    take (Z.to_nat (m_n r)) (m_z r) = record_of 0 ex_row /\
    sqlite3VdbeRecordUnpack 5 (m_n r) (m_z r) w' = Done (cs, w') /\
    value_of <$> cs = [VNull; VInt 300; VInt (-2); VReal 0x4014000000000000; VText [97; 98; 99]].
Proof.
  apply (record_roundtrip 0 ex_row (replicate 24 170) []).
  - discriminate.
  - exact ex_row_ok.
  - apply Forall_replicate. unfold is_byte. lia.
  - vm_compute. done.
  - vm_compute. lia.
  - constructor.
Defined.

Lemma copy_result_row_faithful_witness :
  exists row w', copy_result_row 5 (ex_row ++ []) [] = Done (row, w') /\
    length row = 5%nat /\ Forall cell_ok row /\
    value_of <$> row = value_of <$> ex_row /\ record_of 0 row = record_of 0 ex_row.
Proof.
  apply (copy_result_row_faithful 0 ex_row [] []); [exact ex_row_ok| | |constructor];
    repeat apply Forall_cons_2; try apply Forall_nil_2; intros H; vm_compute in H; try discriminate;
    vm_compute; done.
Defined.

(** ** Deferred zeros *)

(** A zero-blob that is not the last column with data breaks the record: the
    sizes count its zeros but nothing writes them (the call that would expand
    the blob is commented out), so the record announces nine bytes, the last
    four of which are what the block held before, and the integer 300 that follows
    the zero-blob is read back as 170 * 256 + 170 (as a signed 16-bit number)
    from a block filled with 170. *)
Theorem zeroblob_column_lost :
  let row := [Mk_Mem 4 (Z.lor MEM_Blob MEM_Zero) 0 []; Mk_Mem 300 MEM_Int 0 []] in
  exists r cs,
    make_ssd_record 2 0 row (replicate 16 170) [] = Done (r, []) /\
    m_n r = 9 /\
    sqlite3VdbeRecordUnpack 2 (m_n r) (m_z r) [] = Done (cs, []) /\
    value_of <$> cs = [VBlob [1; 44; 170; 170]; VInt (-21846)].
Proof.
  intros row. set (z := [3; 20; 2; 1; 44] ++ replicate 11 170).
  exists (Mk_Mem 0 MEM_Blob 9 z), [Mk_Mem 0 (Z.lor MEM_Blob MEM_Ephem) 4 (drop 3 z);
    Mk_Mem (u64 (-21846)) MEM_Int 0 []].
  split_and!; [by vm_compute..].
Qed.
