(* ===== verification/Wire.v ===== *)
(** * Records on the wire

    Model of the serialisation functions on both sides: the storage server's
    [serialize] and [deserialize] ([storage/secure/sec_sqlite3.c]), its
    [serialize_before_send] ([storage/secure/sec_ssd_server.c]), the host's
    [serialize] and [deserialize] ([host/secure/host_sqlite3.c]) and the part of
    the host's [producer_func] that takes a packet apart
    ([host/secure/host_server.c]).  The two programs have functions of the same
    name; here their names start with [storage_] and [host_]. *)

From stdpp Require Import base tactics list numbers option.
From Stdlib Require Import ZArith Lia ZifyBool.
From S2P Require Import Prelude CipherUtil Record.

Local Open Scope Z_scope.

(** ** Records

    A record on its way has, besides the cell, [szMalloc], the size of the block
    at [zMalloc]. *)

Record RawMem := Mk_RawMem {
  r_mem : Mem;
  r_szMalloc : Z;
  r_zMalloc : list Z;
}.

(** The buffer; the function returns its length. *)
Definition storage_serialize (ssd_record : RawMem) : M (list Z) :=
  let n := m_n (r_mem ssd_record) in
  _ ← must_malloc;
  z ← buf_read 0 (n + 1) (m_z (r_mem ssd_record));
  mret (le_bytes 4 n ++ le_bytes 4 (r_szMalloc ssd_record) ++ z).

Definition host_serialize (ssd_record : RawMem) : M (list Z) :=
  let n := m_n (r_mem ssd_record) in
  _ ← must_malloc;
  z ← buf_read 0 (n + 1) (m_z (r_mem ssd_record));
  zm ← (if 0 <? r_szMalloc ssd_record
        then buf_read 0 (r_szMalloc ssd_record) (r_zMalloc ssd_record) else mret []);
  mret (le_bytes 4 n ++ le_bytes 4 (r_szMalloc ssd_record) ++ z ++ zm).

(** An [int] read through a cast pointer. *)
Definition rd_int (off : Z) (record : list Z) : M Z :=
  b ← buf_read off 4 record;
  mret (i32 (le_val b)).

(** The record read and the number of bytes it took. *)
Definition storage_deserialize (record : list Z) : M (RawMem * Z) :=
  _ ← must_malloc;
  n ← rd_int 0 record;
  szMalloc ← rd_int 4 record;
  _ ← must_malloc;
  z ← buf_read 8 (n + 1) record;
  if 0 <? szMalloc then
    _ ← must_malloc;
    zm ← buf_read (8 + n + 1) szMalloc record;
    mret (Mk_RawMem (Mk_Mem 0 16 n z) szMalloc zm, 8 + (n + 1) + szMalloc)
  else mret (Mk_RawMem (Mk_Mem 0 16 n z) szMalloc [], 8 + (n + 1)).

(** On the host [zMalloc] points to [z]. *)
Definition host_deserialize (record : list Z) : M (RawMem * Z) :=
  _ ← must_malloc;
  n ← rd_int 0 record;
  szMalloc ← rd_int 4 record;
  _ ← must_malloc;
  z ← buf_read 8 (n + 1) record;
  mret (Mk_RawMem (Mk_Mem 0 16 n z) szMalloc z, 8 + (n + 1)).

(** ** Packets *)

Definition RECV_BUF_SIZE : Z := 1024 * 1024 * 1.

Inductive packet_type := REC_PKT | TAB_PKT | END_PKT.

#[export] Instance packet_type_eq_dec : EqDecision packet_type.
Proof. solve_decision. Defined.

Definition pkt_num (t : packet_type) : Z :=
  match t with REC_PKT => 0 | TAB_PKT => 1 | END_PKT => 2 end.

(** The enumeration read from the wire. *)
Definition pkt_of_num (n : Z) : option packet_type :=
  if n =? 0 then Some REC_PKT else if n =? 1 then Some TAB_PKT else if n =? 2 then Some END_PKT else None.

(** [payload_size]: [sizeof(packet_type)] and [sizeof(int)] are 4. *)
Definition payload_size : Z := RECV_BUF_SIZE - 4 - 4.

Record record_batch := Mk_batch {
  pkt_type : packet_type;
  num_records : Z;
  serial_data : list Z;     (** [payload_size] bytes *)
}.

(** Writes the packet over [dest]. *)
Definition serialize_before_send (dest : list Z) (ssd_record : record_batch) : M (list Z) :=
  dest ← buf_write 0 (le_bytes 4 (pkt_num (pkt_type ssd_record))) dest;
  dest ← buf_write 4 (le_bytes 4 (num_records ssd_record)) dest;
  d ← buf_read 0 payload_size (serial_data ssd_record);
  buf_write 8 d dest.

(** The batch the host builds from [tcp_data]; a number that is no packet type
    is not an end packet, and is kept as such. *)
Record host_batch := Mk_host_batch {
  hb_pkt_type : Z;
  hb_num_records : Z;
  hb_serial_data : list Z;
}.

Definition parse_packet (tcp_data : list Z) : M host_batch :=
  t ← rd_int 0 tcp_data;
  n ← rd_int 4 tcp_data;
  d ← buf_read 8 payload_size tcp_data;
  mret (Mk_host_batch t n d).
