(* ===== verification/NdpInsert.v ===== *)
(** * Records into the host's table

    Model of the functions that put received records into the in-memory
    database: [NDPAllocCursor], [OpenWriteTable], [GetNewRowid],
    [InsertRecord], [start_db_transaction], [AddRawRecord] and
    [batch_deserialize_add] of [host/secure/host_sqlite3.c], and the storage
    server's [AddRawRecord] and [batch_deserialize_add]
    ([storage/secure/sec_sqlite3.c]).

    The B-tree and SQLite's random numbers are behind the interface [BtreeOps];
    [BtreeLaws] is what the functions rely on. *)

From stdpp Require Import base tactics list numbers option fin_maps gmap.
From Stdlib Require Import ZArith Lia ZifyBool.
From S2P Require Import Prelude CipherUtil Openssl Record Wire.

Local Open Scope Z_scope.

Definition CURTYPE_BTREE : Z := 0.
Definition CACHE_STALE : Z := 0.

(** ** The B-tree *)

(** Operations on the tree through its one table cursor: return codes, results
    and the tree after the call. *)
Class BtreeOps (B : Type) := {
  sqlite3BtreeBeginTrans : Z -> B -> Z * B;               (** [wrflag]; rc *)
  sqlite3BtreeCursor : Z -> B -> Z * B;                   (** root page; rc *)
  sqlite3BtreeLast : B -> Z * Z * B;                      (** rc, [*pRes] *)
  sqlite3BtreeIntegerKey : B -> Z;
  sqlite3BtreeMovetoUnpacked : Z -> B -> Z * Z * B;       (** key; rc, [*pRes] *)
  sqlite3BtreeInsert : Z -> list Z -> Z -> B -> Z * B;    (** key, data, [nZero]; rc *)
  sqlite3_randomness8 : B -> Z * B;                       (** eight random bytes *)
}.

(** The largest key of a table. *)
Definition is_last {A} (t : gmap Z A) (k : Z) : Prop :=
  is_Some (t !! k) /\ forall j, is_Some (t !! j) -> j <= k.

(** A tree with a write transaction that does what [btree.c] documents: the
    cursor finds the last key, insertion adds a row or replaces it. *)
Class BtreeLaws (B : Type) `{BtreeOps B} := {
  bt_rows : B -> gmap Z (list Z);
  bt_writing : B -> Prop;
  begin_ok b : exists b', sqlite3BtreeBeginTrans 1 b = (SQLITE_OK, b') /\
    bt_rows b' = bt_rows b /\ bt_writing b';
  cursor_ok root b : bt_writing b -> exists b', sqlite3BtreeCursor root b = (SQLITE_OK, b') /\
    bt_rows b' = bt_rows b /\ bt_writing b';
  last_empty b : bt_writing b -> bt_rows b = ∅ ->
    exists res b', sqlite3BtreeLast b = (SQLITE_OK, res, b') /\ res <> 0 /\
      bt_rows b' = bt_rows b /\ bt_writing b';
  last_some b k : bt_writing b -> is_last (bt_rows b) k ->
    exists b', sqlite3BtreeLast b = (SQLITE_OK, 0, b') /\ sqlite3BtreeIntegerKey b' = k /\
      bt_rows b' = bt_rows b /\ bt_writing b';
  insert_ok b k d nZero : bt_writing b ->
    exists b', sqlite3BtreeInsert k d nZero b = (SQLITE_OK, b') /\
      bt_rows b' = <[k := d ++ replicate (Z.to_nat nZero) 0]> (bt_rows b) /\ bt_writing b';
}.

(** ** Cursors *)

Record VdbeCursor := Mk_cursor {
  eCurType : Z;
  iDb : Z;
  nField : Z;
  nullRow : Z;
  isOrdered : Z;
  pgnoRoot : Z;
  isTable : Z;
  useRandomRowid : Z;
  deferredMoveto : Z;
  cacheStatus : Z;
}.

(** The cursor and the B-tree cursor in it are allocated and cleared. *)
Definition NDPAllocCursor (nField iDb eCurType : Z) : M VdbeCursor :=
  _ ← must_malloc;
  _ ← (if eCurType =? CURTYPE_BTREE then must_malloc else mret tt);
  mret (Mk_cursor eCurType iDb nField 0 0 0 0 0 0 0).

Section insert.
  Context {B : Type} `{BtreeOps B}.

(** The B-tree of database 0 of the connection; [None] is a NULL [pBt]. *)
Abbreviation db := (option B).

Definition OpenWriteTable (d : db) (ndp_Db ndp_rootpage n_cols : Z) : M (option VdbeCursor * db) :=
    pCur ← NDPAllocCursor n_cols ndp_Db CURTYPE_BTREE;
    match d with
    | None => throw NullDeref
    | Some pX =>
        let '(rc, pX) := sqlite3BtreeCursor ndp_rootpage pX in
        if negb (rc =? 0) then mret (None, Some pX)
        else mret (Some (Mk_cursor (eCurType pCur) (iDb pCur) (nField pCur) 1 1 ndp_rootpage 1
                           (useRandomRowid pCur) (deferredMoveto pCur) (cacheStatus pCur)), Some pX)
    end.

Definition MAX_ROWID : Z := Z.lor (Z.shiftl 0x7fffffff 32) 0xffffffff.

(** The [do ... while] loop that draws rowids; [left] is [100 - cnt].  Candidate,
    return code and result of the last seek. *)
Fixpoint random_rowid (left : nat) (b : B) : Z * Z * Z * B :=
    let '(r, b) := sqlite3_randomness8 b in
    let v := Z.land r (Z.shiftr MAX_ROWID 1) + 1 in
    let '(rc, res, b) := sqlite3BtreeMovetoUnpacked v b in
    match left with
    | S (S _ as left') =>
        if (rc =? SQLITE_OK) && (res =? 0) then random_rowid left' b else (v, rc, res, b)
    | _ => (v, rc, res, b)
    end.

(** [pC] with [deferredMoveto] and [cacheStatus] reset. *)
Definition stale (pC : VdbeCursor) : VdbeCursor :=
    Mk_cursor (eCurType pC) (iDb pC) (nField pC) (nullRow pC) (isOrdered pC) (pgnoRoot pC) (isTable pC)
      (useRandomRowid pC) 0 CACHE_STALE.

Definition set_random (pC : VdbeCursor) : VdbeCursor :=
    Mk_cursor (eCurType pC) (iDb pC) (nField pC) (nullRow pC) (isOrdered pC) (pgnoRoot pC) (isTable pC)
      1 (deferredMoveto pC) (cacheStatus pC).

(** The second half: only in random mode is a rowid drawn. *)
Definition rowid_random (v : Z) (pC : VdbeCursor) (b : B) : Z * VdbeCursor * B :=
    if negb (useRandomRowid pC =? 0) then
      let '(v, rc, res, b) := random_rowid 100 b in
      if negb (rc =? 0) then (-1, pC, b)
      else if res =? 0 then (-1, pC, b)
      else (v, stale pC, b)
    else (v, stale pC, b).

Definition GetNewRowid (pC : VdbeCursor) (b : B) : Z * VdbeCursor * B :=
    if useRandomRowid pC =? 0 then
      let '(rc, res, b) := sqlite3BtreeLast b in
      if negb (rc =? SQLITE_OK) then (-1, pC, b)
      else if negb (res =? 0) then rowid_random 1 pC b
      else
        let v := sqlite3BtreeIntegerKey b in
        if MAX_ROWID <=? v then rowid_random v (set_random pC) b
        else rowid_random (v + 1) pC b
    else rowid_random 0 pC b.

(** [nData] bytes of [pData] are inserted, [nZero] zeros after them. *)
Definition InsertRecord (v : Z) (pData : Mem) (pC : VdbeCursor) (b : B) : M (Z * VdbeCursor * B) :=
    d ← buf_read 0 (m_n pData) (m_z pData);
    let nZero := if has pData MEM_Zero then u_nZero pData else 0 in
    let '(rc, b) := sqlite3BtreeInsert v d nZero b in
    mret (rc, stale pC, b).

Definition start_db_transaction (d : db) : Z * db :=
    match d with
    | Some pBt =>
        let '(rc, pBt) := sqlite3BtreeBeginTrans 1 pBt in
        if negb (rc =? SQLITE_OK) then (1, Some pBt) else (0, Some pBt)
    | None => (0, None)
    end.

(** Rowid and insertion through an open cursor. *)
Definition add_at_cursor (pCur : VdbeCursor) (pData : Mem) (d : db) : M (Z * option VdbeCursor * db) :=
    match d with
    | None => throw NullDeref
    | Some b =>
        let '(v, pCur, b) := GetNewRowid pCur b in
        '(rc, pCur, b) ← InsertRecord v pData pCur b;
        mret (rc, Some pCur, Some b)
    end.

(** Return code, [*pC] and the database. *)
Definition AddRawRecord (d : db) (pC : option VdbeCursor) (pData : Mem) (ndp_Db ndp_rootpage n_cols : Z)
    : M (Z * option VdbeCursor * db) :=
    match pC with
    | Some pCur => add_at_cursor pCur pData d
    | None =>
        let '(rc, d) := start_db_transaction d in
        if negb (rc =? 0) then mret (1, None, d)
        else
          '(pCur, d) ← OpenWriteTable d ndp_Db ndp_rootpage n_cols;
          match pCur with
          | None => mret (-1, None, d)
          | Some pCur => add_at_cursor pCur pData d
          end
    end.

(** The storage server's does not start a transaction. *)
Definition storage_AddRawRecord (d : db) (pC : option VdbeCursor) (pData : Mem)
      (ndp_Db ndp_rootpage n_cols : Z) : M (Z * option VdbeCursor * db) :=
    match pC with
    | Some pCur => add_at_cursor pCur pData d
    | None =>
        '(pCur, d) ← OpenWriteTable d ndp_Db ndp_rootpage n_cols;
        match pCur with
        | None => mret (-1, None, d)
        | Some pCur => add_at_cursor pCur pData d
        end
    end.

(** The loop over a packet's records, [temp] being what is left of its data;
    return codes are dropped. *)
Fixpoint add_records (nrecs : nat) (temp : list Z) (d : db) (pC : option VdbeCursor) (n_cols : Z)
    : M (option VdbeCursor * db) :=
    match nrecs with
    | O => mret (pC, d)
    | S nrecs =>
        '(record, step) ← host_deserialize temp;
        '(_, pC, d) ← AddRawRecord d pC (r_mem record) 0 2 n_cols;
        add_records nrecs (drop (Z.to_nat step) temp) d pC n_cols
    end.

Definition batch_deserialize_add (d : db) (pC : option VdbeCursor) (ssd_record : host_batch) (n_cols : Z)
    : M (option VdbeCursor * db) :=
    add_records (Z.to_nat (hb_num_records ssd_record)) (hb_serial_data ssd_record) d pC n_cols.

Fixpoint storage_add_records (nrecs : nat) (temp : list Z) (d : db) (pC : option VdbeCursor) (n_cols : Z)
    : M (option VdbeCursor * db) :=
    match nrecs with
    | O => mret (pC, d)
    | S nrecs =>
        '(record, step) ← storage_deserialize temp;
        '(_, pC, d) ← storage_AddRawRecord d pC (r_mem record) 0 2 n_cols;
        storage_add_records nrecs (drop (Z.to_nat step) temp) d pC n_cols
    end.

(** The storage server has a function of the same name. *)
Definition storage_batch_deserialize_add (d : db) (pC : option VdbeCursor) (ssd_record : record_batch) (n_cols : Z)
    : M (option VdbeCursor * db) :=
    storage_add_records (Z.to_nat (num_records ssd_record)) (serial_data ssd_record) d pC n_cols.
End insert.
