(* ===== verification/WireProofs.v ===== *)
(** * What is sent is what is inserted

    Serialised records are read back by the host, packets are taken apart the
    way they were put together, and a packet of records extends the host's table
    by these records, in order, with consecutive rowids. *)

From stdpp Require Import base tactics list numbers option fin_maps gmap.
From Stdlib Require Import ZArith Lia ZifyBool.
From S2P Require Import Prelude CipherUtil Openssl Varint Record RecordProofs Wire NdpInsert.

Local Open Scope Z_scope.

(** ** One record *)

(** [bs] carries the record [payload]: its length, a block size, its bytes and
    one byte more. *)
Definition wire_of (payload bs : list Z) : Prop :=
  Z.of_nat (length payload) < 2 ^ 31 - 16 /\
  exists sz x, bs = le_bytes 4 (Z.of_nat (length payload)) ++ le_bytes 4 sz ++ payload ++ [x].

Lemma length_wire payload bs :
  wire_of payload bs -> length bs = (length payload + 9)%nat.
Proof. intros (_ & sz & x & ->). rewrite !length_app, !length_le_bytes. cbn. lia. Qed.

Lemma serialize_wire r payload w :
  all_ok w -> m_n (r_mem r) = Z.of_nat (length payload) -> Z.of_nat (length payload) < 2 ^ 31 - 16 ->
  (exists x rest, m_z (r_mem r) = payload ++ x :: rest) ->
  exists bs w', all_ok w' /\ storage_serialize r w = Done (bs, w') /\ wire_of payload bs.
Proof.
  intros Hw Hn Hlt (x & rest & Hz). unfold storage_serialize. rewrite Hn, Hz.
  edestruct @bind_must_malloc as (w' & Hw' & ->); [exact Hw|].
  replace (payload ++ x :: rest) with ([] ++ (payload ++ [x]) ++ rest) by (cbn; by rewrite <- app_assoc).
  rewrite bind_buf_read by (rewrite ?length_app; cbn; lia).
  eexists _, w'. split; [done|]. split; [done|]. split; [done|]. by exists (r_szMalloc r), x.
Qed.

Lemma bind_rd_int {B} pre v post off (f : Z -> M B) w :
  off = Z.of_nat (length pre) -> - 2 ^ 31 <= v < 2 ^ 31 ->
  (rd_int off (pre ++ le_bytes 4 v ++ post) ≫= f) w = f v w.
Proof.
  intros Ho Hv. unfold rd_int. rewrite bind_assoc, bind_buf_read by (done || by rewrite length_le_bytes).
  rewrite bind_ret, le_val_bytes. change (256 ^ Z.of_nat 4) with (2 ^ 32). f_equal.
  unfold i32. rewrite Zplus_mod_idemp_l. fold (i32 v). by apply i32_small.
Qed.

Lemma bind_rd_int_any {B} pre v post off (f : Z -> M B) w :
  off = Z.of_nat (length pre) ->
  (rd_int off (pre ++ le_bytes 4 v ++ post) ≫= f) w = f (i32 v) w.
Proof.
  intros Ho. unfold rd_int. rewrite bind_assoc, bind_buf_read by (done || by rewrite length_le_bytes).
  rewrite bind_ret, le_val_bytes. change (256 ^ Z.of_nat 4) with (2 ^ 32). f_equal.
  unfold i32. by rewrite Zplus_mod_idemp_l.
Qed.

Lemma bind_rd_int0 {B} v post (f : Z -> M B) w :
  - 2 ^ 31 <= v < 2 ^ 31 -> (rd_int 0 (le_bytes 4 v ++ post) ≫= f) w = f v w.
Proof. by apply (bind_rd_int []). Qed.

(** Reading to the end. *)
Lemma bind_buf_read_end {B} pre d off n (f : list Z -> M B) w :
  off = Z.of_nat (length pre) -> n = Z.of_nat (length d) -> (buf_read off n (pre ++ d) ≫= f) w = f d w.
Proof. intros Ho Hn. rewrite <- (app_nil_r d) at 1. by apply bind_buf_read. Qed.

(** The host reads the record and steps over exactly its bytes. *)
Lemma deserialize_wire payload bs rest w :
  all_ok w -> wire_of payload bs ->
  exists r w', all_ok w' /\
    host_deserialize (bs ++ rest) w = Done ((r, Z.of_nat (length bs)), w') /\
    m_n (r_mem r) = Z.of_nat (length payload) /\ m_flags (r_mem r) = MEM_Blob /\
    exists x, m_z (r_mem r) = payload ++ [x].
Proof.
  intros Hw Hwire. pose proof (length_wire _ _ Hwire) as Hl. destruct Hwire as (Hlt & sz & x & ->).
  unfold host_deserialize. edestruct @bind_must_malloc as (w1 & Hw1 & ->); [exact Hw|].
  rewrite <- !app_assoc. set (n := Z.of_nat (length payload)) in *.
  rewrite bind_rd_int0 by lia.
  rewrite (bind_rd_int_any (le_bytes 4 n)) by (by rewrite length_le_bytes).
  edestruct @bind_must_malloc as (w2 & Hw2 & ->); [exact Hw1|].
  replace (le_bytes 4 n ++ le_bytes 4 sz ++ payload ++ [x] ++ rest)
    with ((le_bytes 4 n ++ le_bytes 4 sz) ++ (payload ++ [x]) ++ rest) by (by rewrite <- !app_assoc).
  rewrite bind_buf_read by (rewrite ?length_app, ?length_le_bytes; cbn; lia).
  eexists _, w2. split; [done|]. rewrite Hl. replace (Z.of_nat (_ + 9)) with (8 + (n + 1)) by lia.
  split; [reflexivity|]. split_and!; [done..|by exists x].
Qed.

(** Records survive the wire: a record of [n] bytes whose block holds at least
    one byte more is serialised by the storage server, and whatever follows it
    in the packet the host's [deserialize] gives back a blob of the same [n]
    bytes and advances by exactly the bytes the storage server wrote. *)
Theorem wire_roundtrip r payload rest w :
  all_ok w -> m_n (r_mem r) = Z.of_nat (length payload) -> Z.of_nat (length payload) < 2 ^ 31 - 16 ->
  (exists x more, m_z (r_mem r) = payload ++ x :: more) ->
  exists bs w1 r' w2,
    storage_serialize r w = Done (bs, w1) /\
    host_deserialize (bs ++ rest) w1 = Done ((r', Z.of_nat (length bs)), w2) /\
    m_n (r_mem r') = m_n (r_mem r) /\ m_flags (r_mem r') = MEM_Blob /\
    take (Z.to_nat (m_n (r_mem r'))) (m_z (r_mem r')) = payload.
Proof.
  intros Hw Hn Hlt Hz. destruct (serialize_wire r payload w Hw Hn Hlt Hz) as (bs & w1 & Hw1 & Hs & Hwire).
  destruct (deserialize_wire payload bs rest w1 Hw1 Hwire) as (r' & w2 & _ & Hd & Hn' & Hf & x & Hz').
  exists bs, w1, r', w2. split_and!; [done..|congruence|done|].
  by rewrite Hn', Hz', Nat2Z.id, take_app_length.
Qed.

(** The storage server reads one byte past a record that fills its block:
    [serialize] copies [n + 1] bytes from a block of [n]. *)
Theorem serialize_overread r w :
  m_n (r_mem r) = Z.of_nat (length (m_z (r_mem r))) -> all_ok w ->
  storage_serialize r w = Fault OutOfBounds.
Proof.
  intros Hn Hw. unfold storage_serialize. edestruct @bind_must_malloc as (w' & _ & ->); [exact Hw|].
  apply bind_fault. unfold buf_read. rewrite Hn. by replace (_ || _) with true by lia.
Qed.

(** ** One packet *)

Lemma packet_parse dest b w :
  Z.of_nat (length dest) = RECV_BUF_SIZE -> Z.of_nat (length (serial_data b)) = payload_size ->
  exists pkt, serialize_before_send dest b w = Done (pkt, w) /\
    Z.of_nat (length pkt) = RECV_BUF_SIZE /\
    parse_packet pkt w = Done (Mk_host_batch (pkt_num (pkt_type b)) (i32 (num_records b)) (serial_data b), w).
Proof.
  intros Hd Hs. unfold serialize_before_send, payload_size in *. unfold RECV_BUF_SIZE in *.
  set (t := le_bytes 4 (pkt_num _)). set (n := le_bytes 4 (num_records b)). set (d := serial_data b) in *.
  assert (Ht : length t = 4%nat) by apply length_le_bytes.
  assert (Hnl : length n = 4%nat) by apply length_le_bytes.
  rewrite <- (take_drop 4 dest). erewrite bind_done; [|apply (buf_write_at []); [done|rewrite length_take; lia]].
  cbn [app]. rewrite <- (take_drop 4 (drop 4 dest)), drop_drop.
  erewrite bind_done; [|apply buf_write_at; [lia|rewrite length_take, length_drop; lia]].
  change d with ([] ++ d) at 1. rewrite bind_buf_read_end by (done || lia).
  pose proof (buf_write_at (t ++ n) (drop (4 + 4) dest) d [] 8 w) as Hw. rewrite !app_nil_r in Hw.
  rewrite (app_assoc t n), Hw by (rewrite ?length_app, ?length_drop; lia).
  exists ((t ++ n) ++ d). split; [done|]. split; [rewrite !length_app; lia|].
  unfold parse_packet. rewrite <- app_assoc. unfold t, n.
  rewrite bind_rd_int0 by (destruct (pkt_type b); cbn; lia).
  rewrite (bind_rd_int_any (le_bytes 4 (pkt_num (pkt_type b)))) by (by rewrite length_le_bytes). fold t n.
  rewrite (app_assoc t n), bind_buf_read_end by (rewrite ?length_app; unfold payload_size, RECV_BUF_SIZE; lia).
  done.
Qed.

(** Packets round trip: the host finds in the 1 MiB it received the packet
    type, the number of records and the payload the storage server put into
    [rec_pkt]. *)
Theorem packet_roundtrip dest b w :
  Z.of_nat (length dest) = RECV_BUF_SIZE -> Z.of_nat (length (serial_data b)) = payload_size ->
  0 <= num_records b < 2 ^ 31 ->
  exists pkt, serialize_before_send dest b w = Done (pkt, w) /\
    Z.of_nat (length pkt) = RECV_BUF_SIZE /\
    parse_packet pkt w = Done (Mk_host_batch (pkt_num (pkt_type b)) (num_records b) (serial_data b), w).
Proof.
  intros Hd Hs Hn. destruct (packet_parse dest b w Hd Hs) as (pkt & ? & ? & Hp). exists pkt.
  rewrite i32_small in Hp by lia. done.
Qed.

(** ** Insertion *)

Section table.
  Context {B : Type} `{BtreeLaws B}.

(** The table: rows numbered from 1. *)
Definition table (rows : list (list Z)) : gmap Z (list Z) := map_seqZ 1 rows.

Lemma table_last rows x : is_last (table (rows ++ [x])) (Z.of_nat (length rows) + 1).
  Proof.
    unfold table. split.
    - apply lookup_map_seqZ_is_Some. rewrite length_app. cbn. lia.
    - intros j Hj%lookup_map_seqZ_is_Some. rewrite length_app in Hj. cbn in Hj. lia.
  Qed.

Lemma table_snoc rows x : table (rows ++ [x]) = <[Z.of_nat (length rows) + 1 := x]> (table rows).
  Proof. unfold table. rewrite map_seqZ_snoc. f_equal. lia. Qed.

(** The next rowid is one more than the last. *)
Lemma next_rowid rows pC b :
    useRandomRowid pC = 0 -> bt_writing b -> bt_rows b = table rows -> Z.of_nat (length rows) < MAX_ROWID ->
    exists b', GetNewRowid pC b = (Z.of_nat (length rows) + 1, stale pC, b') /\
      bt_rows b' = table rows /\ bt_writing b'.
  Proof.
    intros Hr Hw Hrows Hlt. unfold GetNewRowid, rowid_random. rewrite Hr. cbn [Z.eqb negb].
    destruct rows as [|x rows _] using rev_ind.
    - destruct (last_empty b Hw Hrows) as (res & b' & -> & Hres & Hrows' & Hw').
      cbn [Z.eqb negb SQLITE_OK]. replace (res =? 0) with false by lia. cbn [negb].
      exists b'. split; [done|]. by rewrite Hrows', Hrows.
    - destruct (last_some b (Z.of_nat (length rows) + 1) Hw) as (b' & -> & -> & Hrows' & Hw').
      { rewrite Hrows. apply table_last. }
      rewrite length_app in *. cbn [length] in *. cbn [Z.eqb negb SQLITE_OK].
      replace (MAX_ROWID <=? _) with false by lia.
      exists b'. split; [|by rewrite Hrows', Hrows]. do 2 f_equal. lia.
  Qed.

(** A record of the wire is inserted after the last row. *)
Lemma add_at_cursor_ok rows pC m payload x b w :
    useRandomRowid pC = 0 -> bt_writing b -> bt_rows b = table rows -> Z.of_nat (length rows) < MAX_ROWID ->
    m_n m = Z.of_nat (length payload) -> m_flags m = MEM_Blob -> m_z m = payload ++ [x] ->
    exists b', add_at_cursor pC m (Some b) w = Done ((SQLITE_OK, Some (stale (stale pC)), Some b'), w) /\
      bt_rows b' = table (rows ++ [payload]) /\ bt_writing b'.
  Proof.
    intros Hr Hw Hrows Hlt Hn Hf Hz. unfold add_at_cursor.
    destruct (next_rowid rows pC b Hr Hw Hrows Hlt) as (b1 & -> & Hrows1 & Hw1).
    unfold InsertRecord. rewrite Hn, Hz, bind_assoc, (bind_buf_read [] payload [x]) by done.
    unfold has. rewrite Hf. change (negb (Z.land MEM_Blob MEM_Zero =? 0)) with false.
    destruct (insert_ok b1 (Z.of_nat (length rows) + 1) payload 0 Hw1) as (b2 & -> & Hrows2 & Hw2).
    exists b2. split; [done|]. split; [|done]. rewrite Hrows2, Hrows1, table_snoc. cbn [replicate Z.to_nat].
    by rewrite app_nil_r.
  Qed.

(** The same for the whole of [AddRawRecord], with or without an open cursor. *)
Lemma AddRawRecord_ok rows pC m payload x b n_cols w :
    (forall c, pC = Some c -> useRandomRowid c = 0 /\ bt_writing b) ->
    bt_rows b = table rows -> Z.of_nat (length rows) < MAX_ROWID ->
    m_n m = Z.of_nat (length payload) -> m_flags m = MEM_Blob -> m_z m = payload ++ [x] -> all_ok w ->
    exists c b' w', AddRawRecord (Some b) pC m 0 2 n_cols w = Done ((SQLITE_OK, Some c, Some b'), w') /\
      useRandomRowid c = 0 /\ bt_writing b' /\ bt_rows b' = table (rows ++ [payload]) /\ all_ok w'.
  Proof.
    intros HpC Hrows Hlt Hn Hf Hz Hok. destruct pC as [c|]; cbn [AddRawRecord].
    - destruct (HpC c eq_refl) as [Hr Hw].
      destruct (add_at_cursor_ok rows c m payload x b w Hr Hw Hrows Hlt Hn Hf Hz) as (b' & -> & ? & ?).
      by exists (stale (stale c)), b', w.
    - unfold start_db_transaction. destruct (begin_ok b) as (b1 & -> & Hrows1 & Hw1). cbn [Z.eqb negb SQLITE_OK].
      unfold OpenWriteTable, NDPAllocCursor. rewrite !bind_assoc.
      edestruct @bind_must_malloc as (w1 & Hw1' & ->); [exact Hok|]. cbn [Z.eqb CURTYPE_BTREE].
      rewrite !bind_assoc. edestruct @bind_must_malloc as (w2 & Hw2' & ->); [exact Hw1'|].
      rewrite bind_ret. destruct (cursor_ok 2 b1 Hw1) as (b2 & -> & Hrows2 & Hw2). cbn [Z.eqb negb SQLITE_OK].
      rewrite bind_ret. set (c := Mk_cursor _ _ _ _ _ _ _ _ _ _).
      destruct (add_at_cursor_ok rows c m payload x b2 w2 eq_refl Hw2 ltac:(congruence) Hlt Hn Hf Hz)
        as (b' & -> & ? & ?). by exists (stale (stale c)), b', w2.
  Qed.

(** The loop over a packet. *)
Lemma add_records_ok rows payloads wires pad pC b n_cols w :
    (forall c, pC = Some c -> useRandomRowid c = 0 /\ bt_writing b) ->
    bt_rows b = table rows -> Z.of_nat (length rows + length payloads) <= MAX_ROWID ->
    Forall2 wire_of payloads wires -> all_ok w ->
    exists pC' b' w', add_records (length payloads) (concat wires ++ pad) (Some b) pC n_cols w
        = Done ((pC', Some b'), w') /\
      bt_rows b' = table (rows ++ payloads) /\ all_ok w'.
  Proof.
    intros HpC Hrows Hlt Hwires. revert rows pC b w HpC Hrows Hlt.
    induction Hwires as [|p bs payloads wires Hp _ IH]; intros rows pC b w HpC Hrows Hlt Hok.
    { exists pC, b, w. by rewrite app_nil_r. }
    cbn [length] in *. cbn [add_records concat]. rewrite <- app_assoc.
    destruct (deserialize_wire p bs (concat wires ++ pad) w Hok Hp) as (r & w1 & Hw1 & Hd & Hn & Hf & x & Hz).
    rewrite (bind_done _ _ _ _ _ Hd). cbn beta iota.
    destruct (AddRawRecord_ok rows pC (r_mem r) p x b n_cols w1 HpC Hrows ltac:(lia) Hn Hf Hz Hw1)
      as (c & b1 & w2 & Ha & Hc & Hwr & Hrows1 & Hw2).
    rewrite (bind_done _ _ _ _ _ Ha). cbn beta iota. rewrite Nat2Z.id, drop_app_length.
    destruct (IH (rows ++ [p]) (Some c) b1 w2) as (pC' & b' & w' & -> & Hr' & Hw');
      [by intros ? [= <-]|done|rewrite length_app; cbn; lia|done|].
    exists pC', b', w'. by rewrite <- app_assoc in Hr'.
  Qed.

(** A packet extends the table: when the payload of a packet starts with the
    serialised records [wires] and the packet announces their number,
    [batch_deserialize_add] inserts them after the rows the table already has,
    in their order and with the next rowids, whatever pads the packet. *)
Theorem batch_extends_table rows payloads wires pad t b n_cols w :
    bt_rows b = table rows -> Z.of_nat (length rows + length payloads) <= MAX_ROWID ->
    Forall2 wire_of payloads wires -> all_ok w ->
    exists pC b' w',
      batch_deserialize_add (Some b) None
        (Mk_host_batch t (Z.of_nat (length payloads)) (concat wires ++ pad)) n_cols w
      = Done ((pC, Some b'), w') /\ bt_rows b' = table (rows ++ payloads).
  Proof.
    intros Hrows Hlt Hwires Hok. unfold batch_deserialize_add. cbn [hb_num_records hb_serial_data].
    rewrite Nat2Z.id. destruct (add_records_ok rows payloads wires pad None b n_cols w)
      as (pC & b' & w' & -> & ? & _); [done..|]. by exists pC, b', w'.
  Qed.
End table.

(** ** Errors *)

Section errors.
  Context {B : Type} `{BtreeOps B}.

(** [AddRawRecord] on a new cursor gives up without touching the table's rows
    when the transaction cannot be started (it returns 1) or the cursor cannot
    be opened (-1), and leaves [*pC] NULL, so that the next record tries again. *)
Theorem AddRawRecord_gives_up b b1 b2 rc m root n_cols w :
    sqlite3BtreeBeginTrans 1 b = (rc, b1) -> sqlite3BtreeCursor root b1 = (SQLITE_ERROR, b2) ->
    all_ok w ->
    exists w', AddRawRecord (Some b) None m 0 root n_cols w
      = Done (if rc =? SQLITE_OK then (-1, None, Some b2) else (1, None, Some b1), w').
  Proof.
    intros Hb Hc Hok. cbn [AddRawRecord start_db_transaction]. rewrite Hb. destruct (rc =? SQLITE_OK); cbn [Z.eqb negb].
    - unfold OpenWriteTable, NDPAllocCursor. rewrite !bind_assoc.
      edestruct @bind_must_malloc as (w1 & Hw1 & ->); [exact Hok|]. cbn [Z.eqb CURTYPE_BTREE].
      rewrite !bind_assoc. edestruct @bind_must_malloc as (w2 & _ & ->); [exact Hw1|].
      rewrite bind_ret, Hc. by exists w2.
    - by exists w.
  Qed.

(** The error value of [GetNewRowid] is used as a rowid: when the last row
    cannot be found, the record is inserted (or overwrites a row) at rowid -1. *)
Theorem rowid_error_is_inserted pC b b1 rc res m w :
    useRandomRowid pC = 0 -> sqlite3BtreeLast b = (rc, res, b1) -> rc <> SQLITE_OK ->
    has m MEM_Zero = false -> 0 <= m_n m <= Z.of_nat (length (m_z m)) ->
    exists b2 rc2, sqlite3BtreeInsert (-1) (take (Z.to_nat (m_n m)) (m_z m)) 0 b1 = (rc2, b2) /\
      add_at_cursor pC m (Some b) w = Done ((rc2, Some (stale pC), Some b2), w).
  Proof.
    intros Hr Hl Hrc Hz Hn. unfold add_at_cursor, GetNewRowid. rewrite Hr. cbn [Z.eqb]. rewrite Hl.
    replace (rc =? SQLITE_OK) with false by (unfold SQLITE_OK in *; lia). cbn [negb].
    destruct (sqlite3BtreeInsert (-1) _ 0 b1) as [rc2 b2] eqn:E. exists b2, rc2. split; [done|].
    unfold InsertRecord. rewrite Hz, bind_assoc.
    assert (Hread : buf_read 0 (m_n m) (m_z m) w = Done (take (Z.to_nat (m_n m)) (m_z m), w)).
    { rewrite <- (take_drop (Z.to_nat (m_n m)) (m_z m)) at 1. apply (buf_read_at []); [done|].
      rewrite length_take. lia. }
    rewrite (bind_done _ _ _ _ _ Hread). by rewrite E.
  Qed.
End errors.

(** ** Witnesses

    The interface is inhabited by finite maps. *)

Definition last_key {A} (t : gmap Z A) : Z :=
  match elements (dom t) with
  | [] => 0
  | k :: ks => foldr Z.max k ks
  end.

#[export] Instance map_btree : BtreeOps (gmap Z (list Z)) := {|
  sqlite3BtreeBeginTrans _ b := (SQLITE_OK, b);
  sqlite3BtreeCursor _ b := (SQLITE_OK, b);
  sqlite3BtreeLast b := (SQLITE_OK, if decide (b = ∅) then 1 else 0, b);
  sqlite3BtreeIntegerKey b := last_key b;
  sqlite3BtreeMovetoUnpacked k b := (SQLITE_OK, if decide (is_Some (b !! k)) then 0 else 1, b);
  sqlite3BtreeInsert k d nZero b := (SQLITE_OK, <[k := d ++ replicate (Z.to_nat nZero) 0]> b);
  sqlite3_randomness8 b := (42, b);
|}.

Lemma foldr_max_spec k ks :
  In (foldr Z.max k ks) (k :: ks) /\ Forall (fun j => j <= foldr Z.max k ks) (k :: ks).
Proof.
  induction ks as [|j ks [IH1 IH2]]; cbn [foldr].
  { split; [by left|]. constructor; [lia|constructor]. }
  apply Forall_cons_1 in IH2 as [Hk Hks]. split.
  - destruct (Z.max_spec j (foldr Z.max k ks)) as [[_ ->]|[_ ->]]; [|by right; left].
    destruct IH1 as [IH1|IH1]; [by left|by right; right].
  - repeat apply Forall_cons_2; [lia..|]. eapply Forall_impl; [exact Hks|]. cbn. lia.
Qed.

Lemma last_key_spec {A} (t : gmap Z A) k : is_last t k -> last_key t = k.
Proof.
  intros [Hk Hmax]. unfold last_key. apply elem_of_dom in Hk.
  assert (Hin : forall j, In j (elements (dom t)) <-> j ∈ dom t)
    by (intros j; by rewrite <- list_elem_of_In, elem_of_elements).
  apply Hin in Hk as Hk'. destruct (elements (dom t)) as [|i ks]; [done|].
  destruct (foldr_max_spec i ks) as [H1 H2]. apply Hin, elem_of_dom, Hmax in H1.
  rewrite Forall_forall in H2. apply list_elem_of_In in Hk'. specialize (H2 k Hk'). lia.
Qed.

#[export] Instance map_btree_laws : BtreeLaws (gmap Z (list Z)).
Proof.
  refine {| bt_rows b := b; bt_writing _ := True |}.
  - intros b. by exists b.
  - intros root b _. by exists b.
  - intros b _ Hb. cbn. rewrite decide_True by done. by exists 1, b.
  - intros b k _ Hk. cbn. rewrite decide_False by (intros ->; by destruct Hk as [[? ?] _]).
    exists b. split; [done|]. split; [by apply last_key_spec|done].
  - intros b k d nZero _. by eexists.
Defined.

Definition ex_rec : RawMem := Mk_RawMem (Mk_Mem 0 MEM_Blob 3 [2; 1; 7; 0]) 32 [].

Lemma wire_roundtrip_witness :
  exists bs w1 r' w2,
    storage_serialize ex_rec [] = Done (bs, w1) /\
    host_deserialize (bs ++ [9; 9]) w1 = Done ((r', Z.of_nat (length bs)), w2) /\
    m_n (r_mem r') = 3 /\ m_flags (r_mem r') = MEM_Blob /\
    take (Z.to_nat (m_n (r_mem r'))) (m_z (r_mem r')) = [2; 1; 7].
Proof.
  apply (wire_roundtrip ex_rec [2; 1; 7] [9; 9] []); [constructor|reflexivity|cbn; lia|].
  by exists 0, [].
Defined.

Lemma serialize_overread_witness :
  storage_serialize (Mk_RawMem (Mk_Mem 0 MEM_Blob 3 [2; 1; 7]) 3 []) [] = Fault OutOfBounds.
Proof. apply (serialize_overread (Mk_RawMem (Mk_Mem 0 MEM_Blob 3 [2; 1; 7]) 3 []) []); [reflexivity|constructor]. Defined.

Lemma packet_roundtrip_witness :
  let b := Mk_batch REC_PKT 2 (replicate (Z.to_nat payload_size) 7) in
  exists pkt, serialize_before_send (replicate (Z.to_nat RECV_BUF_SIZE) 0) b [] = Done (pkt, []) /\
    Z.of_nat (length pkt) = RECV_BUF_SIZE /\
    parse_packet pkt [] = Done (Mk_host_batch 0 2 (replicate (Z.to_nat payload_size) 7), []).
Proof.
  intros b. apply (packet_roundtrip (replicate (Z.to_nat RECV_BUF_SIZE) 0) b []).
  - rewrite length_replicate. apply Z2Nat.id. unfold RECV_BUF_SIZE. lia.
  - unfold b. cbn [serial_data]. rewrite length_replicate. apply Z2Nat.id. unfold payload_size, RECV_BUF_SIZE. lia.
  - unfold b. cbn [num_records]. lia.
Defined.

Lemma batch_extends_table_witness :
  exists pC b' w',
    batch_deserialize_add (Some (table [[5]])) None
      (Mk_host_batch 0 2 (concat [le_bytes 4 2 ++ le_bytes 4 32 ++ [2; 1] ++ [0];
                                  le_bytes 4 3 ++ le_bytes 4 32 ++ [2; 1; 7] ++ [0]] ++ [0; 0])) 4 []
    = Done ((pC, Some b'), w') /\ bt_rows b' = table [[5]; [2; 1]; [2; 1; 7]].
Proof.
  apply (batch_extends_table [[5]] [[2; 1]; [2; 1; 7]]
    [le_bytes 4 2 ++ le_bytes 4 32 ++ [2; 1] ++ [0]; le_bytes 4 3 ++ le_bytes 4 32 ++ [2; 1; 7] ++ [0]]
    [0; 0] 0 (table [[5]]) 4 []); [reflexivity|vm_compute; discriminate| |constructor].
  repeat apply Forall2_cons_2; try apply Forall2_nil_2; (split; [vm_compute; reflexivity|exists 32, 0; reflexivity]).
Defined.

(** A tree that fails. *)
Definition bad_btree (rc : Z) : BtreeOps (gmap Z (list Z)) := {|
  sqlite3BtreeBeginTrans _ b := (rc, b);
  sqlite3BtreeCursor _ b := (SQLITE_ERROR, b);
  sqlite3BtreeLast b := (SQLITE_ERROR, 0, b);
  sqlite3BtreeIntegerKey b := 0;
  sqlite3BtreeMovetoUnpacked k b := (SQLITE_ERROR, 0, b);
  sqlite3BtreeInsert k d nZero b := (SQLITE_OK, <[k := d ++ replicate (Z.to_nat nZero) 0]> b);
  sqlite3_randomness8 b := (42, b);
|}.

Lemma AddRawRecord_gives_up_witness :
  exists w', AddRawRecord (H:=bad_btree 5) (Some ∅) None (r_mem ex_rec) 0 2 4 [] = Done ((1, None, Some ∅), w').
Proof.
  apply (AddRawRecord_gives_up (H:=bad_btree 5) ∅ ∅ ∅ 5 (r_mem ex_rec) 2 4 []); [reflexivity..|constructor].
Defined.

Lemma rowid_error_is_inserted_witness :
  let pC := Mk_cursor 0 0 4 1 1 2 1 0 0 0 in
  exists b2 rc2,
    sqlite3BtreeInsert (BtreeOps:=bad_btree 0) (-1) [2; 1; 7] 0 ∅ = (rc2, b2) /\
    add_at_cursor (H:=bad_btree 0) pC (r_mem ex_rec) (Some ∅) [] = Done ((rc2, Some (stale pC), Some b2), []).
Proof.
  intros pC. apply (rowid_error_is_inserted (H:=bad_btree 0) pC ∅ ∅ SQLITE_ERROR 0 (r_mem ex_rec) []);
    [reflexivity|reflexivity|discriminate|reflexivity|cbn; lia].
Defined.
