(* ===== verification/Ring.v ===== *)
(** * Rings between threads

    Model of the queues of [include/sec_ssd_server.h] and
    [include/sec_host_server.h]: [mk_rec_state] (rows on their way to the record
    thread), [pcs_state] (serialised records on their way to the sending thread)
    and the host's [pc_state] (packets on their way to the inserting thread).
    All three are an array whose size is a power of two and two 64-bit counters
    that are only ever incremented; index and emptiness follow from the counters
    by masking and comparison.

    One thread writes and publishes, another reads and releases; each of the two
    is two steps, so that the other thread may run in between. *)

From stdpp Require Import base tactics list numbers option.
From Stdlib Require Import ZArith Lia ZifyBool.
From S2P Require Import Prelude.

Local Open Scope Z_scope.

(** [REC_POOL_SIZE] and [MK_REC_POOL_SIZE]; [BUF_POOL_SIZE]. *)
Definition REC_POOL_SIZE : Z := 1048576.
Definition MK_REC_POOL_SIZE : Z := 1048576.
Definition BUF_POOL_SIZE : Z := 8.

(** Slots never written hold [None]. *)
Record ring (A : Type) := Mk_ring {
  head : Z;
  tail : Z;
  pool : list (option A);
}.
Arguments Mk_ring {A}.
Arguments head {A}.
Arguments tail {A}.
Arguments pool {A}.

Section ring.
  Context {A : Type} (size : Z).
  Implicit Types (r : ring A) (q : list A).

(** [malloc]ed or static, with both counters at 0. *)
Definition ring_new : ring A := Mk_ring 0 0 (replicate (Z.to_nat size) None).

(** [x & Q_MASK] *)
Definition slot (x : Z) : nat := Z.to_nat (Z.land x (size - 1)).

(** [head == tail] *)
Definition ring_empty r : bool := head r =? tail r.

(** [tail == head + size], in [unsigned long] *)
Definition ring_full r : bool := tail r =? u64 (head r + size).

(** The slot at the tail is filled. *)
Definition ring_write (x : A) r : ring A := Mk_ring (head r) (tail r) (<[slot (tail r) := Some x]> (pool r)).

(** [__sync_fetch_and_add(&tail, 1)] *)
Definition ring_publish r : ring A := Mk_ring (head r) (u64 (tail r + 1)) (pool r).

(** The slot at the head. *)
Definition ring_read r : option A := pool r !! slot (head r) ≫= id.

(** [__sync_fetch_and_add(&head, 1)] *)
Definition ring_release r : ring A := Mk_ring (u64 (head r + 1)) (tail r) (pool r).

(** ** The queue a ring implements *)

(** The ring holds [q]: the counters are [length q] apart, modulo 2^64, and the
    slots from the head on hold the elements. *)
Definition ring_ok r q : Prop :=
    length (pool r) = Z.to_nat size /\ 0 <= head r < 2 ^ 64 /\
    tail r = u64 (head r + Z.of_nat (length q)) /\ Z.of_nat (length q) <= size /\
    forall i x, q !! i = Some x -> pool r !! slot (head r + Z.of_nat i) = Some (Some x).

(** [x] has been written behind the last element. *)
Definition ring_pending r q (x : A) : Prop :=
    ring_ok r q /\ Z.of_nat (length q) < size /\ pool r !! slot (tail r) = Some (Some x).

Context (Hsize : exists k, 0 <= k < 64 /\ size = 2 ^ k).

Lemma size_pos : 0 < size < 2 ^ 64.
  Proof.
    destruct Hsize as (k & Hk & ->). split; [apply Z.pow_pos_nonneg; lia|]. apply Z.pow_lt_mono_r; lia.
  Qed.

Lemma slot_mod x : slot x = Z.to_nat (x mod size).
  Proof.
    unfold slot. destruct Hsize as (k & Hk & ->). rewrite Z.sub_1_r, <- Z.ones_equiv. by rewrite Z.land_ones by lia.
  Qed.

Lemma slot_u64 x : slot (u64 x) = slot x.
  Proof.
    rewrite !slot_mod. unfold u64. destruct Hsize as (k & Hk & ->). f_equal. apply Z.mod_mod_divide.
    exists (2 ^ (64 - k)). rewrite <- Z.pow_add_r by lia. f_equal. lia.
  Qed.

Lemma slot_lt x : (slot x < Z.to_nat size)%nat.
  Proof. rewrite slot_mod. pose proof size_pos. pose proof (Z.mod_pos_bound x size). lia. Qed.

(** Fewer than [size] apart, two counters have different slots. *)
Lemma slot_ne x i j : 0 <= i < size -> 0 <= j < size -> i <> j -> slot (x + i) <> slot (x + j).
  Proof.
    intros Hi Hj Hne Hs. rewrite !slot_mod in Hs. pose proof size_pos as Hp.
    pose proof (Z.mod_pos_bound (x + i) size ltac:(lia)). pose proof (Z.mod_pos_bound (x + j) size ltac:(lia)).
    apply Z2Nat.inj in Hs; [|lia..]. pose proof (Z.div_mod (x + i) size). pose proof (Z.div_mod (x + j) size).
    assert ((x + i) / size = (x + j) / size); [nia|lia].
  Qed.

Lemma ring_new_ok : ring_ok ring_new [].
  Proof.
    pose proof size_pos. split; [apply length_replicate|]. split; [cbn; lia|]. split; [done|]. split; [cbn; lia|done].
  Qed.

Lemma ring_empty_spec r q : ring_ok r q -> ring_empty r = bool_decide (q = []).
  Proof.
    intros (_ & Hh & Ht & Hl & _). unfold ring_empty. rewrite Ht. pose proof size_pos.
    destruct q as [|x q]; cbn [length] in *.
    - rewrite bool_decide_eq_true_2 by done. rewrite Z.add_0_r, u64_small by lia. lia.
    - rewrite bool_decide_eq_false_2 by done. apply Z.eqb_neq. intros He. unfold u64 in He.
      pose proof (Z.div_mod (head r + Z.of_nat (S (length q))) (2 ^ 64) ltac:(lia)). nia.
  Qed.

Lemma ring_full_spec r q : ring_ok r q -> ring_full r = (Z.of_nat (length q) =? size).
  Proof.
    intros (_ & Hh & Ht & Hl & _). unfold ring_full. rewrite Ht. pose proof size_pos.
    destruct (decide (Z.of_nat (length q) = size)) as [->|Hne]; [by rewrite !Z.eqb_refl|].
    replace (Z.of_nat (length q) =? size) with false by lia. apply Z.eqb_neq. unfold u64. intros He.
    pose proof (Z.div_mod (head r + Z.of_nat (length q)) (2 ^ 64) ltac:(lia)).
    pose proof (Z.div_mod (head r + size) (2 ^ 64) ltac:(lia)). nia.
  Qed.

Lemma ring_write_ok r q x :
    ring_ok r q -> ring_full r = false -> ring_pending (ring_write x r) q x.
  Proof.
    intros Hok Hf. rewrite (ring_full_spec r q Hok) in Hf. destruct Hok as (Hp & Hh & Ht & Hl & Hq).
    assert (Htl : slot (tail r) = slot (head r + Z.of_nat (length q))) by (rewrite Ht; apply slot_u64).
    split; [|split; [lia|]].
    - split; [cbn; by rewrite length_insert|]. do 3 (split; [done|]). intros i y Hi. cbn [pool head ring_write].
      assert (Hlt := lookup_lt_Some _ _ _ Hi). rewrite list_lookup_insert_ne; [by apply Hq|].
      rewrite Htl. apply slot_ne; lia.
    - cbn [pool tail ring_write]. apply list_lookup_insert_eq. rewrite Hp. apply slot_lt.
  Qed.

Lemma ring_publish_ok r q x : ring_pending r q x -> ring_ok (ring_publish r) (q ++ [x]).
  Proof.
    intros ((Hp & Hh & Ht & Hl & Hq) & Hlt & Hx). split; [done|]. split; [done|]. cbn [head tail pool ring_publish].
    rewrite length_app. cbn [length]. split; [|split; [lia|]].
    - rewrite Ht. unfold u64. rewrite Zplus_mod_idemp_l. f_equal. lia.
    - intros i y Hi. apply lookup_app_Some in Hi as [Hi|[Hge Hi]]; [by apply Hq|].
      apply list_lookup_singleton_Some in Hi as [Hi <-]. rewrite Ht, slot_u64 in Hx. by replace i with (length q) by lia.
  Qed.

Lemma ring_read_ok r q x : ring_ok r (x :: q) -> ring_read r = Some x.
  Proof.
    intros (_ & _ & _ & _ & Hq). unfold ring_read. specialize (Hq 0%nat x eq_refl).
    rewrite Z.add_0_r in Hq. by rewrite Hq.
  Qed.

Lemma ring_release_ok r q x : ring_ok r (x :: q) -> ring_ok (ring_release r) q.
  Proof.
    intros (Hp & Hh & Ht & Hl & Hq). cbn [length] in *. split; [done|]. cbn [head tail pool ring_release].
    split; [apply Z.mod_pos_bound; lia|]. split; [|split; [lia|]].
    - rewrite Ht. unfold u64. rewrite Zplus_mod_idemp_l. f_equal. lia.
    - intros i y Hi. rewrite <- slot_u64. unfold u64. rewrite Zplus_mod_idemp_l. fold (u64 (head r + 1 + Z.of_nat i)).
      rewrite slot_u64. replace (head r + 1 + Z.of_nat i) with (head r + Z.of_nat (S i)) by lia. by apply Hq.
  Qed.

(** While an element is pending, the reader may release. *)
Lemma ring_release_pending r q x y : ring_pending r (x :: q) y -> ring_pending (ring_release r) q y.
  Proof.
    intros (Hok & Hlt & Hy). split; [by eapply ring_release_ok|]. cbn [length] in Hlt. split; [lia|done].
  Qed.
End ring.

(** ** Refinement *)

(** The operations of the two sides, and what the caller sees. *)
Inductive ring_op (A : Type) := Enq (x : A) | Deq.
Arguments Enq {A}.
Arguments Deq {A}.

Inductive ring_res (A : Type) := Blocked | Stored | Got (x : option A).
Arguments Blocked {A}.
Arguments Stored {A}.
Arguments Got {A}.

(** The spin loops keep a caller waiting where this says [Blocked]. *)
Definition ring_step {A} (size : Z) (o : ring_op A) (r : ring A) : ring_res A * ring A :=
  match o with
  | Enq x => if ring_full size r then (Blocked, r) else (Stored, ring_publish (ring_write size x r))
  | Deq => if ring_empty r then (Blocked, r) else (Got (ring_read size r), ring_release r)
  end.

(** A queue of at most [size] elements. *)
Definition queue_step {A} (size : Z) (o : ring_op A) (q : list A) : ring_res A * list A :=
  match o, q with
  | Enq x, _ => if Z.of_nat (length q) =? size then (Blocked, q) else (Stored, q ++ [x])
  | Deq, [] => (Blocked, [])
  | Deq, x :: q => (Got (Some x), q)
  end.

Fixpoint run_ops {O R S} (step : O -> S -> R * S) (os : list O) (s : S) : list R * S :=
  match os with
  | [] => ([], s)
  | o :: os => let '(res, s) := step o s in let '(rs, s) := run_ops step os s in (res :: rs, s)
  end.

Lemma ring_step_ok {A} size (o : ring_op A) r q :
  (exists k, 0 <= k < 64 /\ size = 2 ^ k) -> ring_ok size r q ->
  (ring_step size o r).1 = (queue_step size o q).1 /\
  ring_ok size (ring_step size o r).2 (queue_step size o q).2.
Proof.
  intros Hs Hok. destruct o as [x|]; cbn [ring_step].
  - rewrite (ring_full_spec size Hs r q Hok). destruct q; cbn [queue_step]; destruct (_ =? _) eqn:E; try done;
      (split; [done|]); apply ring_publish_ok; try done; apply ring_write_ok; try done;
      by rewrite (ring_full_spec size Hs _ _ Hok).
  - rewrite (ring_empty_spec size Hs r q Hok). destruct q as [|x q]; cbn [queue_step]; [done|].
    rewrite bool_decide_eq_false_2 by done. cbn [fst snd]. split.
    + by rewrite (ring_read_ok size r q x Hok).
    + by eapply ring_release_ok.
Qed.

(** C24. The rings are queues: for every sequence of attempts to add and to take
    elements, a ring whose size is a power of two below 2^64 blocks the same
    attempts and hands out the same elements as a bounded first-in first-out
    queue, also when its counters wrap around. *)
Theorem ring_refines_queue {A} size (os : list (ring_op A)) :
  (exists k, 0 <= k < 64 /\ size = 2 ^ k) ->
  (run_ops (ring_step size) os (ring_new size)).1 = (run_ops (queue_step size) os []).1.
Proof.
  intros Hs. pose proof (ring_new_ok (A:=A) size Hs) as Hok. revert Hok.
  generalize (ring_new (A:=A) size), (@nil A). induction os as [|o os IH]; intros r q Hok; [done|].
  cbn [run_ops]. destruct (ring_step_ok size o r q Hs Hok) as [H1 H2].
  destruct (ring_step size o r) as [res r'], (queue_step size o q) as [res' q']. cbn [fst snd] in *.
  specialize (IH r' q' H2). destruct (run_ops (ring_step size) os r'), (run_ops (queue_step size) os q').
  cbn [fst snd] in *. congruence.
Qed.

Lemma pool_size_pow2 : exists k, 0 <= k < 64 /\ REC_POOL_SIZE = 2 ^ k.
Proof. exists 20. split; [lia|done]. Qed.

Lemma mk_pool_size_pow2 : exists k, 0 <= k < 64 /\ MK_REC_POOL_SIZE = 2 ^ k.
Proof. exists 20. split; [lia|done]. Qed.

Lemma buf_pool_size_pow2 : exists k, 0 <= k < 64 /\ BUF_POOL_SIZE = 2 ^ k.
Proof. exists 3. split; [lia|done]. Qed.

Lemma ring_refines_queue_witness :
  (run_ops (ring_step BUF_POOL_SIZE) [Enq 1; Enq 2; Deq; Deq; Deq] (ring_new BUF_POOL_SIZE)).1
  = [Stored; Stored; Got (Some 1); Got (Some 2); Blocked].
Proof.
  apply (ring_refines_queue BUF_POOL_SIZE [Enq 1; Enq 2; Deq; Deq; Deq]). exists 3. split; [lia|reflexivity].
Defined.
