(* ===== verification/Pipeline.v ===== *)
(** * The storage server's threads

    Model of the three threads that answer a query on the storage server: the
    query thread ([producer_func] of [storage/secure/sec_ssd_server.c], which
    queues a copy of every result row), the record thread ([mk_rec_thread] and
    [make_ssd_record]) and the sending thread ([consumer_func]).  They share
    [mk_rec_state] and [pcs_state] and run interleaved; a step is an access to
    shared memory with the local work before the next one.  Memory is
    sequentially consistent.  A spinning thread takes no step.

    The number of columns, [num_rec_fields], is shared too: [sqlite3_exec] sets
    it for the query only when its first row has been queued already, and the
    record thread reads it for every row.

    What a row is and how its copy and its record are made is left to the
    parameters [copied] and [made]. *)

From stdpp Require Import base tactics list numbers option relations.
From Stdlib Require Import ZArith Lia ZifyBool.
From S2P Require Import Prelude Wire Ring.

Local Open Scope Z_scope.

(** A queue with the flag its writer sets when it is done ([mk_rec],
    [prod_cons_ssd]). *)
Record chan (A : Type) := Mk_chan {
  c_ring : ring A;
  c_done : bool;
}.
Arguments Mk_chan {A}.
Arguments c_ring {A}.
Arguments c_done {A}.

(** ** Waiting

    The loop at the top of [mk_rec_thread] and both loops of [consumer_func]
    wait in the same way:
    [while(head == tail) { if(done) break; }
     if(done && (head == tail)) break;]
    and then, on the way to the element, [while(head == tail){};].  The flag is
    read before the counters are compared again. *)
Inductive wpc :=
  | WSpin      (** in the loop *)
  | WTest      (** about to read [done] *)
  | WEmpty     (** [done] was set; about to compare head and tail *)
  | WGo        (** about to take an element *)
  | WStop.     (** nothing more to come *)

Definition wait_next (empty done : bool) (w : wpc) : option wpc :=
  match w with
  | WSpin => if empty && negb done then None else Some WTest
  | WTest => Some (if done then WEmpty else WGo)
  | WEmpty => Some (if empty then WStop else WGo)
  | WGo | WStop => None
  end.

Section threads.
  Context {X Y : Type} (copied : X -> Y -> Prop) (made : Z -> Y -> list Z -> Prop) (nCol : Z).

(** ** The query thread *)

Inductive ppc :=
    | PNext              (** before the next row *)
    | PWritten (y : Y)   (** a row is in its slot, the tail not yet advanced *)
    | PFirst             (** back in [sqlite3_exec] with the first row *)
    | PFinished.

(** [p_todo]: the rows the query has still to produce; [p_init]:
    [callbackIsInit]. *)
Record producer := Mk_producer {
    p_todo : list X;
    p_pc : ppc;
    p_init : bool;
    p_failed : bool;
  }.

(** The query thread with [mk_rec_state] and [num_rec_fields]. *)
Inductive producer_step : producer -> chan Y -> Z -> producer -> chan Y -> Z -> Prop :=
    | P_write x xs i f y c nf :
        copied x y -> ring_full MK_REC_POOL_SIZE (c_ring c) = false ->
        producer_step (Mk_producer (x :: xs) PNext i f) c nf
          (Mk_producer xs (PWritten y) i f) (Mk_chan (ring_write MK_REC_POOL_SIZE y (c_ring c)) (c_done c)) nf
    | P_publish xs y i f c nf :
        producer_step (Mk_producer xs (PWritten y) i f) c nf
          (Mk_producer xs (if i then PNext else PFirst) i f) (Mk_chan (ring_publish (c_ring c)) (c_done c)) nf
    | P_fields xs i f c nf :
        producer_step (Mk_producer xs PFirst i f) c nf (Mk_producer xs PNext true f) c nCol
    | P_nomem xs i f c nf :   (** no memory for the column names *)
        producer_step (Mk_producer xs PFirst i f) c nf (Mk_producer xs PFinished i true) (Mk_chan (c_ring c) true) nf
    | P_end i f c nf :
        producer_step (Mk_producer [] PNext i f) c nf (Mk_producer [] PFinished i f) (Mk_chan (c_ring c) true) nf
    | P_error xs i f c nf :   (** [sqlite3_step] fails *)
        producer_step (Mk_producer xs PNext i f) c nf
          (Mk_producer xs PFinished i true) (Mk_chan (c_ring c) true) nf.

(** ** The record thread *)

Inductive mpc :=
    | MWait (w : wpc)
    | MRead (y : Y)            (** slot read, head not yet advanced *)
    | MHave (y : Y)
    | MMade (b : list Z)       (** the serialised record, waiting for space *)
    | MWritten (b : list Z)    (** in its slot, tail not yet advanced *)
    | MFinished.

Inductive mk_step (num_rec_fields : Z) : mpc -> chan Y -> chan (list Z) -> mpc -> chan Y -> chan (list Z) -> Prop :=
    | M_wait w w' c1 c2 :
        wait_next (ring_empty (c_ring c1)) (c_done c1) w = Some w' ->
        mk_step num_rec_fields (MWait w) c1 c2 (MWait w') c1 c2
    | M_read y c1 c2 :
        ring_empty (c_ring c1) = false -> ring_read MK_REC_POOL_SIZE (c_ring c1) = Some y ->
        mk_step num_rec_fields (MWait WGo) c1 c2 (MRead y) c1 c2
    | M_release y c1 c2 :
        mk_step num_rec_fields (MRead y) c1 c2 (MHave y) (Mk_chan (ring_release (c_ring c1)) (c_done c1)) c2
    | M_make y b c1 c2 :
        made num_rec_fields y b -> mk_step num_rec_fields (MHave y) c1 c2 (MMade b) c1 c2
    | M_write b c1 c2 :
        ring_full REC_POOL_SIZE (c_ring c2) = false ->
        mk_step num_rec_fields (MMade b) c1 c2 (MWritten b) c1 (Mk_chan (ring_write REC_POOL_SIZE b (c_ring c2)) (c_done c2))
    | M_publish b c1 c2 :
        mk_step num_rec_fields (MWritten b) c1 c2 (MWait WSpin) c1 (Mk_chan (ring_publish (c_ring c2)) (c_done c2))
    | M_end c1 c2 :
        mk_step num_rec_fields (MWait WStop) c1 c2 MFinished c1 (Mk_chan (c_ring c2) true).

(** ** The sending thread *)

Inductive cpc :=
    | CWait (w : wpc)          (** top of the outer loop *)
    | CFirst (b : list Z)      (** first record copied, head not yet advanced *)
    | CFill (w : wpc)          (** top of the inner loop *)
    | CCopied (b : list Z)     (** another one copied, head not yet advanced *)
    | CSend
    | CFinished
    | CFault.                  (** wrote past [serial_data] *)

(** [c_buf] is [rec_pkt.serial_data], which keeps its contents from packet to
    packet; [c_sent] are the packets handed to [SSL_write]. *)
Record consumer := Mk_consumer {
    c_pc : cpc;
    c_buf : list Z;
    c_sbytes : Z;
    c_window : Z;
    c_nrec : Z;
    c_sent : list record_batch;
  }.

(** [memcpy(rec_pkt.serial_data + off, b, |b|)] within the array *)
Definition fill (off : Z) (b buf : list Z) : list Z :=
    take (Z.to_nat off) buf ++ b ++ drop (Z.to_nat off + length b) buf.

Inductive consumer_step : consumer -> chan (list Z) -> consumer -> chan (list Z) -> Prop :=
    | C_wait w w' buf sb win n sent c :
        wait_next (ring_empty (c_ring c)) (c_done c) w = Some w' ->
        consumer_step (Mk_consumer (CWait w) buf sb win n sent) c (Mk_consumer (CWait w') buf sb win n sent) c
    | C_first b buf sb win n sent c :
        ring_empty (c_ring c) = false -> ring_read REC_POOL_SIZE (c_ring c) = Some b ->
        (length b <= length buf)%nat ->
        consumer_step (Mk_consumer (CWait WGo) buf sb win n sent) c
          (Mk_consumer (CFirst b) (fill 0 b buf) (Z.of_nat (length b)) payload_size n sent) c
    | C_first_overflow b buf sb win n sent c :
        ring_empty (c_ring c) = false -> ring_read REC_POOL_SIZE (c_ring c) = Some b ->
        (length buf < length b)%nat ->
        consumer_step (Mk_consumer (CWait WGo) buf sb win n sent) c (Mk_consumer CFault buf sb win n sent) c
    | C_first_release b buf sb win n sent c :
        consumer_step (Mk_consumer (CFirst b) buf sb win n sent) c
          (Mk_consumer (CFill WSpin) buf sb (win - sb) 1 sent) (Mk_chan (ring_release (c_ring c)) (c_done c))
    | C_fill_wait w w' buf sb win n sent c :
        wait_next (ring_empty (c_ring c)) (c_done c) w = Some w' ->
        consumer_step (Mk_consumer (CFill w) buf sb win n sent) c (Mk_consumer (CFill w') buf sb win n sent) c
    | C_fill_copy b buf sb win n sent c :
        ring_empty (c_ring c) = false -> ring_read REC_POOL_SIZE (c_ring c) = Some b ->
        Z.of_nat (length b) <= win ->
        consumer_step (Mk_consumer (CFill WGo) buf sb win n sent) c
          (Mk_consumer (CCopied b) (fill sb b buf) sb win n sent) c
    | C_fill_break b buf sb win n sent c :
        ring_empty (c_ring c) = false -> ring_read REC_POOL_SIZE (c_ring c) = Some b ->
        win < Z.of_nat (length b) ->
        consumer_step (Mk_consumer (CFill WGo) buf sb win n sent) c (Mk_consumer CSend buf sb win n sent) c
    | C_fill_release b buf sb win n sent c :
        consumer_step (Mk_consumer (CCopied b) buf sb win n sent) c
          (Mk_consumer (CFill WSpin) buf (sb + Z.of_nat (length b)) (win - Z.of_nat (length b)) (n + 1) sent)
          (Mk_chan (ring_release (c_ring c)) (c_done c))
    | C_fill_stop buf sb win n sent c :
        consumer_step (Mk_consumer (CFill WStop) buf sb win n sent) c (Mk_consumer CSend buf sb win n sent) c
    | C_send buf sb win n sent c :
        consumer_step (Mk_consumer CSend buf sb win n sent) c
          (Mk_consumer (CWait WSpin) buf sb win n (sent ++ [Mk_batch REC_PKT n buf])) c
    | C_end buf sb win n sent c :
        consumer_step (Mk_consumer (CWait WStop) buf sb win n sent) c
          (Mk_consumer CFinished buf sb win n (sent ++ [Mk_batch END_PKT n buf])) c.

(** ** The system *)

Record sys := Mk_sys {
    s_p : producer;
    s_1 : chan Y;              (** [mk_rec_state] *)
    s_nf : Z;                  (** [num_rec_fields] *)
    s_m : mpc;
    s_2 : chan (list Z);       (** [pcs_state] *)
    s_c : consumer;
  }.

Inductive sys_step : sys -> sys -> Prop :=
    | S_producer p p' c1 c1' nf nf' m c2 c :
        producer_step p c1 nf p' c1' nf' -> sys_step (Mk_sys p c1 nf m c2 c) (Mk_sys p' c1' nf' m c2 c)
    | S_mk p c1 c1' nf m m' c2 c2' c :
        mk_step nf m c1 c2 m' c1' c2' -> sys_step (Mk_sys p c1 nf m c2 c) (Mk_sys p c1' nf m' c2' c)
    | S_consumer p c1 nf m c2 c2' c c' :
        consumer_step c c2 c' c2' -> sys_step (Mk_sys p c1 nf m c2 c) (Mk_sys p c1 nf m c2' c').

(** [main] before it starts the threads; [nf0] is the value an earlier query left
    in [num_rec_fields], [buf] and [n0] are what the stack holds. *)
Definition sys_init (rows : list X) (nf0 : Z) (buf : list Z) (n0 : Z) : sys :=
    Mk_sys (Mk_producer rows PNext false false) (Mk_chan (ring_new MK_REC_POOL_SIZE) false) nf0 (MWait WSpin)
      (Mk_chan (ring_new REC_POOL_SIZE) false) (Mk_consumer (CWait WSpin) buf 0 0 n0 []).

(** The main thread joins the sending thread. *)
Definition finished (s : sys) : Prop := c_pc (s_c s) = CFinished.
End threads.

Arguments ppc : clear implicits.
Arguments producer : clear implicits.
Arguments mpc : clear implicits.
Arguments sys : clear implicits.
