(* ===== verification/PipelineProofs.v ===== *)
(** * The threads deliver every record once and in order

    An invariant of all interleavings of the storage server's threads, the
    termination of every run, and that a run can only end with the end packet
    sent. *)

From stdpp Require Import base tactics list numbers option relations.
From Stdlib Require Import ZArith Lia ZifyBool.
From S2P Require Import Prelude Wire Ring Pipeline.

Local Open Scope Z_scope.

(** ** A channel between its two threads *)

(** The ring holds [q], and its writer may have filled the next slot. *)
Definition holds {A} (size : Z) (pend : option A) (r : ring A) (q : list A) : Prop :=
  match pend with Some x => ring_pending size r q x | None => ring_ok size r q end.

Section holds.
  Context {A : Type} (size : Z) (Hsize : exists k, 0 <= k < 64 /\ size = 2 ^ k).

Lemma holds_ok p (r : ring A) q : holds size p r q -> ring_ok size r q.
  Proof. destruct p; [by intros []|done]. Qed.

Lemma holds_empty p (r : ring A) q : holds size p r q -> ring_empty r = bool_decide (q = []).
  Proof. intros Hh%holds_ok. by apply (ring_empty_spec size). Qed.

Lemma holds_read p (r : ring A) q x : holds size p r (x :: q) -> ring_read size r = Some x.
  Proof. intros Hh%holds_ok. by eapply ring_read_ok. Qed.

(** What a reader finds in a ring that is not empty. *)
Lemma holds_next p (r : ring A) q x :
    holds size p r q -> ring_empty r = false -> ring_read size r = Some x -> exists q', q = x :: q'.
  Proof.
    intros Hh He Hr. rewrite (holds_empty _ _ _ Hh) in He. destruct q as [|y q]; [done|].
    rewrite (holds_read _ _ _ _ Hh) in Hr. injection Hr as ->. by exists q.
  Qed.

Lemma holds_release p (r : ring A) q x : holds size p r (x :: q) -> holds size p (ring_release r) q.
  Proof. destruct p; [by apply ring_release_pending|by apply ring_release_ok]. Qed.

Lemma holds_write (r : ring A) q x :
    holds size None r q -> ring_full size r = false -> holds size (Some x) (ring_write size x r) q.
  Proof. by apply ring_write_ok. Qed.

Lemma holds_publish (r : ring A) q x : holds size (Some x) r q -> holds size None (ring_publish r) (q ++ [x]).
  Proof. by apply ring_publish_ok. Qed.
End holds.

(** What is known while waiting. *)
Definition wait_ok (empty done : bool) (w : wpc) : Prop :=
  match w with
  | WSpin => True
  | WTest => empty = false \/ done = true
  | WEmpty => done = true
  | WGo => empty = false
  | WStop => empty = true /\ done = true
  end.

Lemma wait_next_ok empty done w w' :
  wait_next empty done w = Some w' -> wait_ok empty done w -> wait_ok empty done w'.
Proof. destruct w, empty, done; cbn; intros [= <-]; cbn; intuition congruence. Qed.

(** The writer may add an element, or set the flag. *)
Lemma wait_ok_mono empty done empty' done' w :
  (empty' = true -> empty = true) -> (done = true -> done' = true) ->
  (done = true -> empty' = empty) -> wait_ok empty done w -> wait_ok empty' done' w.
Proof. destruct w, empty, done, empty', done'; cbn; intuition congruence. Qed.

(** Records of rows, the first of which may have been made with another count of
    columns. *)
Definition stale_first {X} (good stale : X -> list Z -> Prop) (xs : list X) (bs : list (list Z)) : Prop :=
  match xs, bs with
  | [], [] => True
  | x :: xs, b :: bs => (good x b \/ stale x b) /\ Forall2 good xs bs
  | _, _ => False
  end.

Lemma stale_first_nil {X} (good stale : X -> list Z -> Prop) bs : stale_first good stale [] bs -> bs = [].
Proof. by destruct bs. Qed.

Lemma stale_first_snoc {X} (good stale : X -> list Z -> Prop) xs bs x b :
  stale_first good stale xs bs -> good x b -> stale_first good stale (xs ++ [x]) (bs ++ [b]).
Proof.
  destruct xs as [|x0 xs], bs as [|b0 bs]; try done; cbn; intros H Hg; [split; [by left|constructor]|].
  destruct H as [H0 H]. split; [done|]. apply Forall2_app; [done|]. by repeat constructor.
Qed.

Section inv.
  Context {X Y : Type} (copied : X -> Y -> Prop) (made : Z -> Y -> list Z -> Prop) (nCol nf0 : Z).
  Context (rows : list X).
  Context (Hfits : forall nf x y b, nf = nCol \/ nf = nf0 -> x ∈ rows -> copied x y -> made nf y b ->
    Z.of_nat (length b) <= payload_size).

(** From a row to the bytes of its record, made of [nf] columns. *)
Definition shipped (nf : Z) (x : X) (b : list Z) : Prop := exists y, copied x y /\ made nf y b.

Definition p_pend (p : producer X Y) : option Y := match p_pc p with PWritten y => Some y | _ => None end.
Definition m_have (m : mpc Y) : list Y := match m with MHave y => [y] | _ => [] end.
Definition m_made (m : mpc Y) : list (list Z) := match m with MMade b | MWritten b => [b] | _ => [] end.
Definition m_pend (m : mpc Y) : option (list Z) := match m with MWritten b => Some b | _ => None end.

(** The packet carries the records [ws]. *)
Definition carries (pkt : record_batch) (ws : list (list Z)) : Prop :=
    pkt_type pkt = REC_PKT /\ num_records pkt = Z.of_nat (length ws) /\ ws <> [] /\
    Z.of_nat (length (serial_data pkt)) = payload_size /\ exists pad, serial_data pkt = concat ws ++ pad.

(** The records [ws] are in the buffer. *)
Definition buffered (c : consumer) (ws : list (list Z)) : Prop :=
    ws <> [] /\ (exists pad, c_buf c = concat ws ++ pad) /\ c_sbytes c = Z.of_nat (length (concat ws)) /\
    c_window c = payload_size - c_sbytes c /\ c_nrec c = Z.of_nat (length ws).

Definition m_ok (q1 : list Y) (done1 done2 : bool) (m : mpc Y) : Prop :=
    match m with
    | MWait w => wait_ok (bool_decide (q1 = [])) done1 w
    | MRead y => exists q, q1 = y :: q
    | MHave _ => True
    | MMade b | MWritten b => Z.of_nat (length b) <= payload_size
    | MFinished => q1 = [] /\ done1 = true
    end /\ (done2 = true <-> m = MFinished).

Definition c_ok (q2 : list (list Z)) (done2 : bool) (bw : list (list Z)) (c : consumer) : Prop :=
    Z.of_nat (length (c_buf c)) = payload_size /\
    match c_pc c with
    | CWait w => wait_ok (bool_decide (q2 = [])) done2 w /\ bw = []
    | CFirst b => (exists q, q2 = b :: q) /\ bw = [] /\ (exists pad, c_buf c = b ++ pad) /\
        c_sbytes c = Z.of_nat (length b) /\ c_window c = payload_size
    | CFill w => wait_ok (bool_decide (q2 = [])) done2 w /\ buffered c bw
    | CCopied b => (exists q, q2 = b :: q) /\ buffered c bw /\ (exists pad, c_buf c = concat bw ++ b ++ pad)
    | CSend => buffered c bw
    | CFinished => q2 = [] /\ done2 = true /\ bw = []
    | CFault => False
    end.

Definition sent_ok (c : consumer) (sentw : list (list (list Z))) : Prop :=
    match c_pc c with
    | CFinished => exists pkts e, c_sent c = pkts ++ [e] /\ pkt_type e = END_PKT /\ Forall2 carries pkts sentw /\
        Z.of_nat (length (serial_data e)) = payload_size
    | _ => Forall2 carries (c_sent c) sentw
    end.

(** Until [num_rec_fields] is set, at most one row has been queued. *)
Definition nf_ok (p : producer X Y) (nf : Z) : Prop :=
    if p_init p then nf = nCol
    else nf = nf0 /\ (length rows <= length (p_todo p) + match p_pc p with PNext => 0 | _ => 1 end)%nat.

(** Where the rows are: records sent, in the packet being filled, in the second
    queue or in the record thread's hands come first, then copies of rows in the
    record thread's hands, in the first queue or in the query thread's hands,
    then the rows not yet produced. *)
Record inv (s : sys X Y) (q1 : list Y) (q2 bw : list (list Z))
      (sentw : list (list (list Z))) : Prop := {
    i_ring1 : holds MK_REC_POOL_SIZE (p_pend (s_p s)) (c_ring (s_1 s)) q1;
    i_ring2 : holds REC_POOL_SIZE (m_pend (s_m s)) (c_ring (s_2 s)) q2;
    i_done1 : c_done (s_1 s) = true <-> p_pc (s_p s) = PFinished;
    i_todo : p_pc (s_p s) = PFinished -> p_failed (s_p s) = false -> p_todo (s_p s) = [];
    i_nf : nf_ok (s_p s) (s_nf s);
    i_m : m_ok q1 (c_done (s_1 s)) (c_done (s_2 s)) (s_m s);
    i_c : c_ok q2 (c_done (s_2 s)) bw (s_c s);
    i_sent : sent_ok (s_c s) sentw;
    i_fits : Forall (fun b => Z.of_nat (length b) <= payload_size) q2;
    i_rows : exists xs1 xs2, rows = xs1 ++ xs2 ++ p_todo (s_p s) /\
      stale_first (shipped nCol) (shipped nf0) xs1 (concat sentw ++ bw ++ q2 ++ m_made (s_m s)) /\
      Forall2 copied xs2 (m_have (s_m s) ++ q1 ++ option_list (p_pend (s_p s)));
  }.

(** What is left to do: an upper bound on the number of steps. *)
Definition wait_rank (w : wpc) : nat :=
    match w with WSpin => 4 | WTest => 3 | WEmpty => 2 | WGo | WStop => 1 end.

Definition p_rank (p : producer X Y) : nat :=
    21 * length (p_todo p) + match p_pc p with PNext => 1 | PWritten _ => 21 | PFirst => 2 | PFinished => 0 end.

Definition m_rank (m : mpc Y) : nat :=
    match m with
    | MWait w => wait_rank w | MRead _ => 0 | MHave _ => 17 | MMade _ => 16 | MWritten _ => 15 | MFinished => 0
    end.

Definition c_rank (c : consumer) : nat :=
    match c_pc c with
    | CWait w => wait_rank w | CFirst _ => 0 | CFill w => 5 + wait_rank w | CCopied _ => 0 | CSend => 5
    | CFinished | CFault => 0
    end.

Definition rank (s : sys X Y) (q1 : list Y) (q2 : list (list Z)) : nat :=
    p_rank (s_p s) + 18 * length q1 + m_rank (s_m s) + 10 * length q2 + c_rank (s_c s).

Lemma wait_next_rank empty done w w' :
    wait_next empty done w = Some w' -> (wait_rank w' < wait_rank w)%nat.
  Proof. destruct w, empty, done; cbn; intros [= <-]; cbn; lia. Qed.

Ltac rank_lt :=
    try match goal with Hw : wait_next _ _ _ = Some _ |- _ => apply wait_next_rank in Hw end;
    unfold rank, p_rank, m_rank, c_rank; cbn -[Nat.mul]; rewrite ?length_app; cbn -[Nat.mul]; lia.

Lemma inv_init buf n0 :
    Z.of_nat (length buf) = payload_size -> inv (sys_init rows nf0 buf n0) [] [] [] [].
  Proof.
    intros Hbuf. split; cbn.
    - apply ring_new_ok, mk_pool_size_pow2.
    - apply ring_new_ok, pool_size_pow2.
    - split; discriminate.
    - done.
    - split; [done|cbn; lia].
    - split; [done|]. split; discriminate.
    - done.
    - constructor.
    - constructor.
    - exists [], []. split; [done|]. split; [done|constructor].
  Qed.

(** The consumer does not notice another record, or the flag. *)
Lemma c_ok_more q2 bw b c : c_ok q2 false bw c -> c_ok (q2 ++ [b]) false bw c.
  Proof.
    assert (Hw : forall w, wait_ok (bool_decide (q2 = [])) false w -> wait_ok (bool_decide (q2 ++ [b] = [])) false w).
    { intros w. apply wait_ok_mono; try done. intros E. apply bool_decide_eq_true in E. by destruct q2. }
    intros [Hb Hc]. split; [done|]. destruct (c_pc c); try done.
    - destruct Hc. auto.
    - destruct Hc as [[q ->] Hc]. split; [by exists (q ++ [b])|done].
    - destruct Hc. auto.
    - destruct Hc as [[q ->] Hc]. split; [by exists (q ++ [b])|done].
    - by destruct Hc as (_ & ? & _).
  Qed.

Lemma c_ok_done q2 bw c : c_ok q2 false bw c -> c_ok q2 true bw c.
  Proof.
    intros [Hb Hc]. split; [done|]. destruct (c_pc c); try done;
      destruct Hc as [Hc Hc']; (split; [|tauto]); [by eapply wait_ok_mono; [| | |exact Hc]..|done].
  Qed.

(** *** The query thread *)

Lemma m_ok_done q1 done2 m : m_ok q1 false done2 m -> m_ok q1 true done2 m.
  Proof.
    intros [Hm Hm2]. split; [|done]. destruct m; try done; [|tauto]. by eapply wait_ok_mono; [| | |exact Hm].
  Qed.

Lemma m_ok_more q1 y done2 m : m_ok q1 false done2 m -> m_ok (q1 ++ [y]) false done2 m.
  Proof.
    intros [Hm Hm2]. split; [|done]. destruct m as [w|y'| | | |]; try done.
    - eapply wait_ok_mono; [| | |exact Hm]; try done. intros E. apply bool_decide_eq_true in E. by destruct q1.
    - destruct Hm as [q ->]. by exists (q ++ [y]).
    - by destruct Hm.
  Qed.

(** What [producer_func] does after the query, in any of its three cases. *)
Lemma inv_finish p c1 nf m c2 c q1 q2 bw sentw f :
    p_pc p = PNext \/ p_pc p = PFirst -> (f = false -> p_todo p = []) ->
    inv (Mk_sys p c1 nf m c2 c) q1 q2 bw sentw ->
    inv (Mk_sys (Mk_producer (p_todo p) PFinished (p_init p) f) (Mk_chan (c_ring c1) true) nf m c2 c) q1 q2 bw sentw.
  Proof.
    intros Hpc Hf0 [H1 H2 Hd _ Hnf Hm Hc Hs Hf (xs1 & xs2 & Hr & Hx1 & Hx2)]. cbn in *.
    assert (Hpend : p_pend p = None) by (unfold p_pend; by destruct Hpc as [-> | ->]). rewrite Hpend in H1, Hx2.
    split; cbn; try done.
    - unfold nf_ok in *. cbn. destruct (p_init p); [done|]. destruct Hnf as [-> Hl]. split; [done|].
      destruct (p_pc p); lia.
    - destruct (c_done c1) eqn:E; [|by apply m_ok_done]. destruct (proj1 Hd eq_refl). by destruct Hpc.
    - by exists xs1, xs2.
  Qed.

Lemma inv_producer p c1 nf p' c1' nf' m c2 c q1 q2 bw sentw :
    producer_step copied nCol p c1 nf p' c1' nf' -> inv (Mk_sys p c1 nf m c2 c) q1 q2 bw sentw ->
    exists q1', inv (Mk_sys p' c1' nf' m c2 c) q1' q2 bw sentw /\
      (rank (Mk_sys p' c1' nf' m c2 c) q1' q2 < rank (Mk_sys p c1 nf m c2 c) q1 q2)%nat.
  Proof.
    intros Hstep Hinv. pose proof Hinv as [H1 H2 Hd Ht Hnf Hm Hc Hs Hf (xs1 & xs2 & Hr & Hx1 & Hx2)]. cbn in *.
    destruct Hstep as [x xs i f y c1 nf Hcp Hfull|xs y i f c1 nf|xs i f c1 nf|xs i f c1 nf|i f c1 nf|xs i f c1 nf]; cbn in *.
    - exists q1. split; [|rank_lt]. split; cbn; try done.
      + by apply (holds_write _ mk_pool_size_pow2).
      + split; [intros E; by apply Hd in E|done].
      + unfold nf_ok in *. cbn in *. destruct i; [done|]. destruct Hnf as [-> Hl]. split; [done|lia].
      + exists xs1, (xs2 ++ [x]). rewrite <- app_assoc. split; [done|]. split; [done|].
        rewrite app_nil_r in Hx2. rewrite app_assoc. apply Forall2_app; [done|]. by repeat constructor.
    - exists (q1 ++ [y]). split; [|destruct i; rank_lt].
      assert (Hpc : p_pend (Mk_producer xs (if i then PNext else PFirst) i f) = None) by (by destruct i).
      assert (Hnd : c_done c1 = false) by (destruct (c_done c1); [by discriminate (proj1 Hd eq_refl)|done]).
      rewrite Hnd in *.
      split; cbn; rewrite ?Hpc; try done.
      + by apply (holds_publish _ mk_pool_size_pow2).
      + by destruct i.
      + by destruct i.
      + unfold nf_ok in *. cbn in *. by destruct i.
      + by apply m_ok_more.
      + exists xs1, xs2. cbn. by rewrite app_nil_r.
    - exists q1. split; [|rank_lt]. split; cbn; try done; [|by exists xs1, xs2].
      split; [intros E; by apply Hd in E|done].
    - exists q1. split; [|rank_lt]. by apply (inv_finish (Mk_producer xs PFirst i f)); [right| |].
    - exists q1. split; [|rank_lt]. by apply (inv_finish (Mk_producer [] PNext i f)); [left| |].
    - exists q1. split; [|rank_lt]. by apply (inv_finish (Mk_producer xs PNext i f)); [left| |].
  Qed.

(** *** The record thread *)

Ltac wires_prefix :=
    cbn; rewrite ?concat_app, ?app_nil_r, <- ?app_assoc; cbn; rewrite ?app_nil_r;
    first [done|rewrite ?app_assoc; by apply prefix_app_r].

(** The records on their way, in order. *)
Definition wires (s : sys X Y) (q2 bw : list (list Z)) (sentw : list (list (list Z))) : list (list Z) :=
    concat sentw ++ bw ++ q2 ++ m_made (s_m s).

Lemma inv_mk p c1 c1' nf m m' c2 c2' c q1 q2 bw sentw :
    mk_step made nf m c1 c2 m' c1' c2' -> inv (Mk_sys p c1 nf m c2 c) q1 q2 bw sentw ->
    exists q1' q2', inv (Mk_sys p c1' nf m' c2' c) q1' q2' bw sentw /\
      (rank (Mk_sys p c1' nf m' c2' c) q1' q2' < rank (Mk_sys p c1 nf m c2 c) q1 q2)%nat /\
      wires (Mk_sys p c1 nf m c2 c) q2 bw sentw `prefix_of` wires (Mk_sys p c1' nf m' c2' c) q2' bw sentw.
  Proof.
    unfold wires. intros Hstep [H1 H2 Hd Ht Hnf [Hm Hm2] Hc Hs Hf (xs1 & xs2 & Hr & Hx1 & Hx2)]. cbn in *.
    destruct Hstep as [w w' c1 c2 Hw|y c1 c2 He Hy|y c1 c2|y b c1 c2 Hb|b c1 c2 Hfull|b c1 c2|c1 c2]; cbn in *.
    - exists q1, q2. rewrite (holds_empty _ mk_pool_size_pow2 _ _ _ H1) in Hw.
      split; [|split; [rank_lt|wires_prefix]]. split; cbn; try done; [|by exists xs1, xs2]. split; [by eapply wait_next_ok|].
      split; [intros E; by apply Hm2 in E|done].
    - exists q1, q2. split; [|split; [rank_lt|wires_prefix]]. split; cbn; try done; [|by exists xs1, xs2].
      split; [by eapply (holds_next _ mk_pool_size_pow2)|]. split; [intros E; by apply Hm2 in E|done].
    - destruct Hm as [q ->]. exists q, q2. split; [|split; [rank_lt|wires_prefix]]. split; cbn; try done; [by eapply (holds_release _ mk_pool_size_pow2)| |by exists xs1, xs2].
      split; [done|]. split; [intros E; by apply Hm2 in E|done].
    - apply Forall2_cons_inv_r in Hx2 as (x & xs2' & Hxy & Hx2 & ->).
      assert (Hnf' : nf = nCol \/ nf = nf0) by (unfold nf_ok in Hnf; destruct (p_init p); [by left|right; by destruct Hnf]).
      assert (Hin : x ∈ rows) by (rewrite Hr, !elem_of_app, elem_of_cons; tauto).
      exists q1, q2. split; [|split; [rank_lt|wires_prefix]]. split; cbn; try done.
      + split; [by eapply (Hfits nf)|]. split; [intros E; by apply Hm2 in E|done].
      + exists (xs1 ++ [x]), xs2'. rewrite app_nil_r in Hx1. split; [by rewrite <- app_assoc|]. split; [|done].
        replace (concat sentw ++ bw ++ q2 ++ [b]) with ((concat sentw ++ bw ++ q2) ++ [b])
          by (by rewrite <- !app_assoc).
        unfold nf_ok in Hnf. destruct (p_init p).
        * subst nf. apply stale_first_snoc; [done|by exists y].
        * destruct Hnf as [-> Hl]. assert (xs1 = []) as ->.
          { destruct xs1; [done|]. rewrite Hr, !length_app in Hl. cbn in Hl. destruct (p_pc p); lia. }
          rewrite (stale_first_nil _ _ _ Hx1). split; [right; by exists y|constructor].
    - exists q1, q2. split; [|split; [rank_lt|wires_prefix]]. split; cbn; try done; [by apply (holds_write _ pool_size_pow2)| |by exists xs1, xs2].
      split; [done|]. split; [intros E; by apply Hm2 in E|done].
    - exists q1, (q2 ++ [b]). split; [|split; [rank_lt|wires_prefix]]. split; cbn; try done.
      + by apply (holds_publish _ pool_size_pow2).
      + split; [done|]. split; [intros E; by apply Hm2 in E|done].
      + destruct (c_done c2); [discriminate (proj1 Hm2 eq_refl)|by apply c_ok_more].
      + apply Forall_app_2; [done|]. by repeat constructor.
      + exists xs1, xs2. by rewrite app_nil_r.
    - exists q1, q2. split; [|split; [rank_lt|wires_prefix]]. split; cbn; try done; [| |by exists xs1, xs2].
      + destruct Hm as [E1 E2]. apply bool_decide_eq_true in E1. done.
      + destruct (c_done c2); [done|by apply c_ok_done].
  Qed.
(** *** The sending thread *)

Lemma fill_at pre b pad :
    (length b <= length pad)%nat ->
    fill (Z.of_nat (length pre)) b (pre ++ pad) = pre ++ b ++ drop (length b) pad.
  Proof.
    intros Hl. unfold fill. rewrite Nat2Z.id, take_app_length. do 2 f_equal.
    rewrite drop_app_ge by lia. f_equal. lia.
  Qed.

Lemma buffered_carries c bw :
    Z.of_nat (length (c_buf c)) = payload_size -> buffered c bw ->
    carries (Mk_batch REC_PKT (c_nrec c) (c_buf c)) bw.
  Proof. intros Hl (Hne & Hp & _ & _ & Hn). by split_and!. Qed.

(** The first record opens a packet, a later one extends it. *)
Lemma buffered_first b buf pad sent pc :
    buf = b ++ pad ->
    buffered (Mk_consumer pc buf (Z.of_nat (length b)) (payload_size - Z.of_nat (length b)) 1 sent) [b].
  Proof. intros ->. split_and!; cbn; [done|exists pad; by rewrite app_nil_r|by rewrite app_nil_r|done|done]. Qed.

Lemma buffered_more b bw buf pad sb win n sent pc pc' :
    buffered (Mk_consumer pc buf sb win n sent) bw -> buf = concat bw ++ b ++ pad ->
    buffered (Mk_consumer pc' buf (sb + Z.of_nat (length b)) (win - Z.of_nat (length b)) (n + 1) sent) (bw ++ [b]).
  Proof.
    unfold buffered. cbn. intros (Hne & _ & Hs & Hw & Hn) Hb. rewrite concat_app, !length_app. cbn.
    rewrite app_nil_r. split_and!; [by destruct bw|exists pad; by rewrite <- app_assoc|lia..].
  Qed.

Lemma inv_consumer p c1 nf m c2 c2' c c' q1 q2 bw sentw :
    consumer_step c c2 c' c2' -> inv (Mk_sys p c1 nf m c2 c) q1 q2 bw sentw ->
    exists q2' bw' sentw', inv (Mk_sys p c1 nf m c2' c') q1 q2' bw' sentw' /\
      (rank (Mk_sys p c1 nf m c2' c') q1 q2' < rank (Mk_sys p c1 nf m c2 c) q1 q2)%nat /\
      wires (Mk_sys p c1 nf m c2 c) q2 bw sentw `prefix_of` wires (Mk_sys p c1 nf m c2' c') q2' bw' sentw'.
  Proof.
    unfold wires. intros Hstep [H1 H2 Hd Ht Hnf Hm [Hbuf Hc] Hs Hf (xs1 & xs2 & Hr & Hx1 & Hx2)]. cbn in *.
    pose proof (holds_empty _ pool_size_pow2 _ _ _ H2) as Hemp.
    destruct Hstep as [w w' buf sb win n sent c Hw|b buf sb win n sent c He Hy Hl|b buf sb win n sent c He Hy Hl
      |b buf sb win n sent c|w w' buf sb win n sent c Hw|b buf sb win n sent c He Hy Hl|b buf sb win n sent c He Hy Hl
      |b buf sb win n sent c|buf sb win n sent c|buf sb win n sent c|buf sb win n sent c]; cbn in *.
    - exists q2, bw, sentw. rewrite Hemp in Hw. split; [|split; [rank_lt|wires_prefix]]. split; cbn; try done; [|by exists xs1, xs2].
      destruct Hc. split; [done|]. split; [by eapply wait_next_ok|done].
    - exists q2, bw, sentw. split; [|split; [rank_lt|wires_prefix]]. split; cbn; try done; [|by exists xs1, xs2]. destruct Hc as [_ ->].
      assert (Hfill : fill 0 b buf = b ++ drop (length b) buf) by (by apply (fill_at [])).
      rewrite Hfill. split; [cbn; rewrite length_app, length_drop; lia|]. cbn.
      split; [by eapply (holds_next _ pool_size_pow2)|]. split_and!; [done|by eexists|done|done].
    - exfalso. destruct (holds_next _ pool_size_pow2 _ _ _ _ H2 He Hy) as [q ->].
      apply Forall_cons_1 in Hf as [Hb _]. lia.
    - destruct Hc as ([q ->] & -> & [pad Hpad] & -> & ->). exists q, [b], sentw.
      apply Forall_cons_1 in Hf as [Hb Hf].
      split; [|split; [rank_lt|wires_prefix]]. split; cbn; try done; [by eapply (holds_release _ pool_size_pow2)| |by exists xs1, xs2].
      split; [done|]. split; [done|]. by eapply buffered_first.
    - exists q2, bw, sentw. rewrite Hemp in Hw. split; [|split; [rank_lt|wires_prefix]]. split; cbn; try done; [|by exists xs1, xs2].
      destruct Hc. split; [done|]. split; [by eapply wait_next_ok|done].
    - exists q2, bw, sentw. split; [|split; [rank_lt|wires_prefix]]. split; cbn; try done; [|by exists xs1, xs2]. destruct Hc as [_ Hb].
      pose proof Hb as (Hne & [pad Hpad] & Hsb & Hwin & Hn). cbn in *.
      assert (Hlen : Z.of_nat (length pad) = payload_size - sb).
      { rewrite Hsb, <- Hbuf, Hpad, length_app. lia. }
      assert (Hfill : fill sb b buf = concat bw ++ b ++ drop (length b) pad).
      { rewrite Hsb, Hpad. apply fill_at. lia. }
      rewrite Hfill. split; [cbn; rewrite !length_app, length_drop; lia|]. cbn.
      split; [by eapply (holds_next _ pool_size_pow2)|]. split; [|by eexists].
      split_and!; [done|by eexists|done..].
    - exists q2, bw, sentw. split; [|split; [rank_lt|wires_prefix]]. split; cbn; try done; [|by exists xs1, xs2]. by destruct Hc.
    - destruct Hc as ([q ->] & Hb & [pad Hpad]). exists q, (bw ++ [b]), sentw.
      apply Forall_cons_1 in Hf as [Hlb Hf].
      split; [|split; [rank_lt|wires_prefix]]. split; cbn; try done; [by eapply (holds_release _ pool_size_pow2)| |].
      + split; [done|]. split; [done|]. by eapply buffered_more.
      + exists xs1, xs2. split; [done|]. split; [|done]. by rewrite <- app_assoc.
    - exists q2, bw, sentw. split; [|split; [rank_lt|wires_prefix]]. split; cbn; try done; [|by exists xs1, xs2]. by destruct Hc.
    - exists q2, [], (sentw ++ [bw]). split; [|split; [rank_lt|wires_prefix]]. split; cbn; try done.
      + apply Forall2_app; [done|]. apply Forall2_cons_2; [|constructor].
        exact (buffered_carries (Mk_consumer CSend buf sb win n sent) bw Hbuf Hc).
      + exists xs1, xs2. split; [done|]. split; [|done]. rewrite concat_app. cbn. by rewrite app_nil_r, <- app_assoc.
    - exists q2, bw, sentw. destruct Hc as [[E Hdn] ->]. apply bool_decide_eq_true in E.
      split; [|split; [rank_lt|wires_prefix]]. split; cbn; try done; [|by exists xs1, xs2]. by exists sent, (Mk_batch END_PKT n buf).
  Qed.

(** Every step keeps the invariant, leaves less to do and drops no record. *)
Lemma inv_step s s' q1 q2 bw sentw :
    sys_step copied made nCol s s' -> inv s q1 q2 bw sentw ->
    exists q1' q2' bw' sentw', inv s' q1' q2' bw' sentw' /\ (rank s' q1' q2' < rank s q1 q2)%nat /\
      wires s q2 bw sentw `prefix_of` wires s' q2' bw' sentw'.
  Proof.
    intros Hstep Hinv. destruct Hstep as [????????? Hs|????????? Hs|???????? Hs].
    - destruct (inv_producer _ _ _ _ _ _ _ _ _ _ _ _ _ Hs Hinv) as (q1' & ? & ?). by exists q1', q2, bw, sentw.
    - destruct (inv_mk _ _ _ _ _ _ _ _ _ _ _ _ _ Hs Hinv) as (q1' & q2' & ? & ? & ?). by exists q1', q2', bw, sentw.
    - destruct (inv_consumer _ _ _ _ _ _ _ _ _ _ _ _ Hs Hinv) as (q2' & bw' & sentw' & ? & ? & ?).
      by exists q1, q2', bw', sentw'.
  Qed.

Lemma inv_nsteps n s s' q1 q2 bw sentw :
    nsteps (sys_step copied made nCol) n s s' -> inv s q1 q2 bw sentw ->
    exists q1' q2' bw' sentw', inv s' q1' q2' bw' sentw' /\ (n + rank s' q1' q2' <= rank s q1 q2)%nat /\
      wires s q2 bw sentw `prefix_of` wires s' q2' bw' sentw'.
  Proof.
    intros Hn. revert q1 q2 bw sentw. induction Hn as [s|n s1 s2 s3 Hstep _ IH]; intros q1 q2 bw sentw Hinv.
    { exists q1, q2, bw, sentw. split; [done|]. split; [lia|done]. }
    destruct (inv_step _ _ _ _ _ _ Hstep Hinv) as (q1' & q2' & bw' & sentw' & Hinv' & Hlt & Hp).
    destruct (IH _ _ _ _ Hinv') as (q1'' & q2'' & bw'' & sentw'' & ? & ? & ?).
    exists q1'', q2'', bw'', sentw''. split; [done|]. split; [lia|by etrans].
  Qed.

(** Every reachable state satisfies the invariant. *)
Lemma inv_reachable buf n0 s :
    Z.of_nat (length buf) = payload_size -> rtc (sys_step copied made nCol) (sys_init rows nf0 buf n0) s ->
    exists q1 q2 bw sentw, inv s q1 q2 bw sentw.
  Proof.
    intros Hbuf [n Hn]%rtc_nsteps. destruct (inv_nsteps _ _ _ _ _ _ _ Hn (inv_init buf n0 Hbuf))
      as (q1 & q2 & bw & sentw & ? & _). by exists q1, q2, bw, sentw.
  Qed.

(** *** No thread waits for ever *)

Context (Hcopy : forall x, x ∈ rows -> exists y, copied x y).
Context (Hmake : forall nf x y, nf = nCol \/ nf = nf0 -> x ∈ rows -> copied x y -> exists b, made nf y b).

Lemma producer_progress s q1 q2 bw sentw :
    inv s q1 q2 bw sentw -> q1 = [] -> c_done (s_1 s) = false ->
    exists s', sys_step copied made nCol s s' /\ p_failed (s_p s') = p_failed (s_p s).
  Proof.
    intros [H1 _ Hd _ _ _ _ _ _ (xs1 & xs2 & Hr & _)] -> Hdone. destruct s as [[todo pc i f] c1 nf m c2 c]. cbn in *.
    destruct pc as [|y| |]; cbn in *.
    - destruct todo as [|x xs]; [eexists; split; [apply S_producer, P_end|reflexivity]|].
      destruct (Hcopy x) as [y Hy]; [rewrite Hr, !elem_of_app, elem_of_cons; tauto|]. eexists. split; [eapply S_producer, P_write; [exact Hy|]|reflexivity].
      by rewrite (ring_full_spec _ mk_pool_size_pow2 _ [] H1).
    - eexists. split; [apply S_producer, P_publish|reflexivity].
    - eexists. split; [apply S_producer, P_fields|reflexivity].
    - by rewrite (proj2 Hd eq_refl) in Hdone.
  Qed.

Lemma mk_progress s q1 q2 bw sentw :
    inv s q1 q2 bw sentw -> q2 = [] -> c_done (s_2 s) = false ->
    exists s', sys_step copied made nCol s s' /\ p_failed (s_p s') = p_failed (s_p s).
  Proof.
    intros Hinv -> Hdone. pose proof Hinv as [H1 H2 _ _ Hnf [Hm Hm2] _ _ _ (xs1 & xs2 & Hr & _ & Hx2)].
    pose proof (holds_empty _ mk_pool_size_pow2 _ _ _ H1) as He. destruct s as [p c1 nf m c2 c]. cbn in *.
    destruct m as [w|y|y|b|b|]; cbn in *.
    - destruct w; try (eexists; split; [eapply S_mk, M_wait; cbn; reflexivity|reflexivity]); cbn in *.
      + destruct (ring_empty (c_ring c1) && negb (c_done c1)) eqn:E.
        * apply (producer_progress _ _ _ _ _ Hinv).
          -- apply andb_true_iff in E as [E _]. rewrite He in E. by apply bool_decide_eq_true in E.
          -- apply andb_true_iff in E as [_ E]. by apply negb_true_iff in E.
        * eexists. split; [eapply S_mk, M_wait; cbn; by rewrite E|reflexivity].
      + destruct q1 as [|y q1]; [done|]. eexists. split; [eapply S_mk, M_read; [by rewrite He|by eapply holds_read]|reflexivity].
      + eexists. split; [apply S_mk, M_end|reflexivity].
    - eexists. split; [apply S_mk, M_release|reflexivity].
    - apply Forall2_cons_inv_r in Hx2 as (x & xs2' & Hxy & _ & ->). destruct (Hmake nf x y) as [b Hb];
        [unfold nf_ok in Hnf; destruct (p_init p); [by left|right; by destruct Hnf]|rewrite Hr, !elem_of_app, elem_of_cons; tauto|done|].
      eexists. split; [by apply S_mk, M_make|reflexivity].
    - eexists. split; [apply S_mk, M_write; by rewrite (ring_full_spec _ pool_size_pow2 _ [] H2)|reflexivity].
    - eexists. split; [apply S_mk, M_publish|reflexivity].
    - by rewrite (proj2 Hm2 eq_refl) in Hdone.
  Qed.

Lemma sys_progress s q1 q2 bw sentw :
    inv s q1 q2 bw sentw ->
    finished s \/ exists s', sys_step copied made nCol s s' /\ p_failed (s_p s') = p_failed (s_p s).
  Proof.
    intros Hinv. pose proof Hinv as [_ H2 _ _ _ _ [Hbuf Hc] _ Hf _].
    pose proof (holds_empty _ pool_size_pow2 _ _ _ H2) as He.
    destruct s as [p c1 nf m c2 [pc buf sb win n sent]]. unfold finished. cbn in *.
    assert (Hspin : ring_empty (c_ring c2) && negb (c_done c2) = true ->
      exists s', sys_step copied made nCol (Mk_sys p c1 nf m c2 (Mk_consumer pc buf sb win n sent)) s' /\
        p_failed (s_p s') = p_failed p).
    { intros [E1 E2]%andb_true_iff. apply (mk_progress _ _ _ _ _ Hinv).
      - rewrite He in E1. by apply bool_decide_eq_true in E1.
      - by apply negb_true_iff in E2. }
    destruct pc as [w|b|w|b| | |]; cbn in *; [right|right|right|right|right|by left|done].
    - destruct w; try (eexists; split; [eapply S_consumer, C_wait; cbn; reflexivity|reflexivity]); cbn in *.
      + destruct (ring_empty (c_ring c2) && negb (c_done c2)) eqn:E; [auto|].
        eexists. split; [eapply S_consumer, C_wait; cbn; by rewrite E|reflexivity].
      + destruct Hc as [Hne _]. destruct q2 as [|b q2]; [done|]. apply Forall_cons_1 in Hf as [Hb _].
        eexists. split; [eapply S_consumer, C_first; [by rewrite He|by eapply holds_read|lia]|reflexivity].
      + eexists. split; [apply S_consumer, C_end|reflexivity].
    - eexists. split; [apply S_consumer, C_first_release|reflexivity].
    - destruct w; try (eexists; split; [eapply S_consumer, C_fill_wait; cbn; reflexivity|reflexivity]); cbn in *.
      + destruct (ring_empty (c_ring c2) && negb (c_done c2)) eqn:E; [auto|].
        eexists. split; [eapply S_consumer, C_fill_wait; cbn; by rewrite E|reflexivity].
      + destruct Hc as [Hne _]. destruct q2 as [|b q2]; [done|].
        assert (Hread := holds_read _ _ _ _ _ H2).
        assert (Hemp : ring_empty (c_ring c2) = false) by (by rewrite He).
        destruct (decide (Z.of_nat (length b) <= win)); eexists;
          [split; [eapply S_consumer, C_fill_copy; [done|exact Hread|lia]|reflexivity]
          |split; [eapply S_consumer, C_fill_break; [done|exact Hread|lia]|reflexivity]].
      + eexists. split; [apply S_consumer, C_fill_stop|reflexivity].
    - eexists. split; [apply S_consumer, C_fill_release|reflexivity].
    - eexists. split; [apply S_consumer, C_send|reflexivity].
  Qed.
End inv.

(** ** What the threads guarantee *)

Section claims.
  Context {X Y : Type} (copied : X -> Y -> Prop) (made : Z -> Y -> list Z -> Prop) (nCol nf0 : Z).
  Context (rows : list X).
  Context (Hfits : forall nf x y b, nf = nCol \/ nf = nf0 -> x ∈ rows -> copied x y -> made nf y b ->
    Z.of_nat (length b) <= payload_size).
  Context (buf : list Z) (n0 : Z) (Hbuf : Z.of_nat (length buf) = payload_size).

(** When the sending thread has finished nothing is left on the way. *)
Lemma inv_delivered s q1 q2 bw sentw :
    inv copied made nCol nf0 rows s q1 q2 bw sentw -> finished s ->
    wires s q2 bw sentw = concat sentw /\
    exists pkts e,
      c_sent (s_c s) = pkts ++ [e] /\ pkt_type e = END_PKT /\ Z.of_nat (length (serial_data e)) = payload_size /\
      Forall2 carries pkts sentw /\
      exists sent_rows, rows = sent_rows ++ p_todo (s_p s) /\
        stale_first (shipped copied made nCol) (shipped copied made nf0) sent_rows (concat sentw) /\
        (p_failed (s_p s) = false -> p_todo (s_p s) = []).
  Proof.
    intros [_ _ Hd Ht _ [Hm Hm2] [_ Hc] Hs _ (xs1 & xs2 & Hrows & Hx1 & Hx2)] Hfin.
    unfold finished in Hfin. unfold sent_ok in Hs. rewrite Hfin in Hc, Hs. cbn in Hc.
    destruct Hc as (-> & Hdone2 & ->). apply Hm2 in Hdone2. unfold wires. rewrite Hdone2 in *. destruct Hm as [-> Hdone1].
    apply Hd in Hdone1. destruct Hs as (pkts & e & Hsent & He & Hc & Hle). split; [by rewrite app_nil_r|]. exists pkts, e.
    split_and!; [done..|]. exists xs1. unfold p_pend in Hx2. rewrite Hdone1 in Hx2. cbn in Hx1, Hx2.
    apply Forall2_nil_inv_r in Hx2 as ->. rewrite app_nil_r in Hx1. split_and!; [done..|auto].
  Qed.

Lemma deliver_ok s :
    rtc (sys_step copied made nCol) (sys_init rows nf0 buf n0) s -> finished s ->
    exists pkts e sentw,
      c_sent (s_c s) = pkts ++ [e] /\ pkt_type e = END_PKT /\ Z.of_nat (length (serial_data e)) = payload_size /\
      Forall2 carries pkts sentw /\
      exists sent_rows, rows = sent_rows ++ p_todo (s_p s) /\
        stale_first (shipped copied made nCol) (shipped copied made nf0) sent_rows (concat sentw) /\
        (p_failed (s_p s) = false -> p_todo (s_p s) = []).
  Proof.
    intros Hr Hfin. destruct (inv_reachable copied made nCol nf0 rows Hfits buf n0 s Hbuf Hr) as (q1 & q2 & bw & sentw & Hinv).
    destruct (inv_delivered s q1 q2 bw sentw Hinv Hfin) as (_ & pkts & e & ?). by exists pkts, e, sentw.
  Qed.

(** C11. Delivery: in every interleaving, when the sending thread has finished, it
    has sent record packets followed by one end packet; the records of the
    packets, in order, are the records of the query's rows, each row once and in
    the order of the query, made of the query's columns; only the first may have
    been made with the number of columns an earlier query left behind.  Only
    when the query itself failed are rows missing, and then the ones sent are a
    prefix. *)
Theorem threads_deliver s :
    rtc (sys_step copied made nCol) (sys_init rows nf0 buf n0) s -> finished s ->
    exists pkts e sentw,
      c_sent (s_c s) = pkts ++ [e] /\ pkt_type e = END_PKT /\
      Forall2 carries pkts sentw /\
      exists sent_rows, rows = sent_rows ++ p_todo (s_p s) /\
        stale_first (shipped copied made nCol) (shipped copied made nf0) sent_rows (concat sentw) /\
        (p_failed (s_p s) = false -> p_todo (s_p s) = []).
  Proof.
    intros Hr Hfin. destruct (deliver_ok s Hr Hfin) as (pkts & e & sentw & ? & ? & _ & ? & ?).
    by exists pkts, e, sentw.
  Qed.

(** C21. Termination: every run of the three threads, however they are
    interleaved, takes at most 21 steps per row and nine more (spinning not
    counted). *)
Theorem threads_terminate n s :
    nsteps (sys_step copied made nCol) n (sys_init rows nf0 buf n0) s -> (n <= 21 * length rows + 9)%nat.
  Proof.
    intros Hn. destruct (inv_nsteps copied made nCol nf0 rows Hfits n _ _ _ _ _ _ Hn (inv_init copied made nCol nf0 rows buf n0 Hbuf))
      as (q1 & q2 & bw & sentw & _ & Hle & _). unfold rank, p_rank in Hle. cbn -[Nat.mul] in Hle. lia.
  Qed.

(** C20. No deadlock: as long as every row can be copied and made into a record,
    a state that some interleaving reaches has the end packet sent or a thread
    that can take a step; no three threads spin waiting for each other. *)
Theorem threads_never_stuck s :
    (forall x, x ∈ rows -> exists y, copied x y) ->
    (forall nf x y, nf = nCol \/ nf = nf0 -> x ∈ rows -> copied x y -> exists b, made nf y b) ->
    rtc (sys_step copied made nCol) (sys_init rows nf0 buf n0) s ->
    finished s \/ exists s', sys_step copied made nCol s s'.
  Proof.
    intros Hcopy Hmake Hr.
    destruct (inv_reachable copied made nCol nf0 rows Hfits buf n0 s Hbuf Hr) as (q1 & q2 & bw & sentw & Hinv).
    destruct (sys_progress copied made nCol nf0 rows Hcopy Hmake s q1 q2 bw sentw Hinv) as [?|(s' & ? & _)]; [by left|].
    right. by exists s'.
  Qed.

(** C26. No overflow: when every serialised record fits a packet's payload, the
    sending thread never writes past [serial_data], and the records it has
    collected and the space it still counts on add up to the payload. *)
Theorem packet_never_overflows s :
    rtc (sys_step copied made nCol) (sys_init rows nf0 buf n0) s ->
    c_pc (s_c s) <> CFault /\
    Z.of_nat (length (c_buf (s_c s))) = payload_size /\
    (forall w, c_pc (s_c s) = CFill w ->
      0 <= c_sbytes (s_c s) /\ 0 <= c_window (s_c s) /\ c_sbytes (s_c s) + c_window (s_c s) = payload_size).
  Proof.
    intros Hr. destruct (inv_reachable copied made nCol nf0 rows Hfits buf n0 s Hbuf Hr) as (q1 & q2 & bw & sentw & Hinv).
    destruct Hinv as [_ _ _ _ _ _ [Hl Hc] _ _ _]. split; [by intros E; rewrite E in Hc|]. split; [done|].
    intros w E. rewrite E in Hc. destruct Hc as (_ & _ & [pad Hpad] & Hs & Hw & _).
    rewrite Hpad, length_app in Hl. lia.
  Qed.
End claims.

(** A record that does not fit the payload does overflow it: the sending
    thread checks the space left for every record of a packet but the first. *)
Theorem oversized_record_overflows b buf sb win n sent c q :
  ring_ok REC_POOL_SIZE (c_ring c) (b :: q) -> (length buf < length b)%nat ->
  (exists c', consumer_step (Mk_consumer (CWait WGo) buf sb win n sent) c c' c) /\
  forall c' c2', consumer_step (Mk_consumer (CWait WGo) buf sb win n sent) c c' c2' -> c_pc c' = CFault.
Proof.
  intros Hok Hl. pose proof (ring_read_ok REC_POOL_SIZE _ _ _ Hok) as Hr.
  pose proof (ring_empty_spec REC_POOL_SIZE pool_size_pow2 _ _ Hok) as He. split.
  - eexists. by eapply C_first_overflow.
  - intros c' c2' Hstep. inversion Hstep; subst; cbn in *; try done. rewrite Hr in *. simplify_eq. lia.
Qed.

(** ** Witnesses *)

(** A run that ends exists. *)
Lemma run_exists {X Y} (copied : X -> Y -> Prop) (made : Z -> Y -> list Z -> Prop) nCol nf0 rows s q1 q2 bw sentw :
  (forall nf x y b, nf = nCol \/ nf = nf0 -> x ∈ rows -> copied x y -> made nf y b ->
    Z.of_nat (length b) <= payload_size) ->
  (forall x, x ∈ rows -> exists y, copied x y) ->
    (forall nf x y, nf = nCol \/ nf = nf0 -> x ∈ rows -> copied x y -> exists b, made nf y b) ->
  inv copied made nCol nf0 rows s q1 q2 bw sentw ->
  exists s' q1' q2' bw' sentw', rtc (sys_step copied made nCol) s s' /\ finished s' /\ p_failed (s_p s') = p_failed (s_p s) /\
    inv copied made nCol nf0 rows s' q1' q2' bw' sentw' /\ wires s q2 bw sentw `prefix_of` wires s' q2' bw' sentw'.
Proof.
  intros Hfits Hcopy Hmake. remember (rank s q1 q2) as k eqn:Hk. revert s q1 q2 bw sentw Hk.
  induction (lt_wf k) as [k _ IH]. intros s q1 q2 bw sentw -> Hinv.
  destruct (sys_progress copied made nCol nf0 rows Hcopy Hmake s q1 q2 bw sentw Hinv) as [Hf|(s' & Hs & Hnf)]; [by exists s, q1, q2, bw, sentw|].
  destruct (inv_step copied made nCol nf0 rows Hfits s s' q1 q2 bw sentw Hs Hinv) as (q1' & q2' & bw' & sentw' & Hinv' & Hlt & Hp).
  destruct (IH _ Hlt s' q1' q2' bw' sentw' eq_refl Hinv') as (s'' & q1'' & q2'' & bw'' & sentw'' & Hr & Hf & Hnf' & Hi & Hp').
  exists s'', q1'', q2'', bw'', sentw''.
  split; [by eapply rtc_l|]. split; [done|]. split; [congruence|]. split; [done|by etrans].
Qed.

(** Up to the first record: the query thread queues the first row, and the record
    thread makes its record before the query thread goes on. *)
Lemma early_record {X Y} (copied : X -> Y -> Prop) (made : Z -> Y -> list Z -> Prop) nCol nf0 x xs y b buf n0 :
  copied x y -> made nf0 y b ->
  exists s, rtc (sys_step copied made nCol) (sys_init (x :: xs) nf0 buf n0) s /\
    s_m s = MMade b /\ s_p s = Mk_producer xs PFirst false false.
Proof.
  intros Hy Hb. set (r0 := ring_new (A:=Y) MK_REC_POOL_SIZE). set (r1 := ring_write MK_REC_POOL_SIZE y r0).
  pose proof (ring_new_ok (A:=Y) MK_REC_POOL_SIZE mk_pool_size_pow2) as H0. fold r0 in H0.
  pose proof (ring_full_spec MK_REC_POOL_SIZE mk_pool_size_pow2 r0 [] H0) as Hfull.
  rewrite (proj2 (Z.eqb_neq _ _)) in Hfull by (cbn [length]; unfold MK_REC_POOL_SIZE; lia).
  pose proof (ring_publish_ok _ mk_pool_size_pow2 _ [] _ (ring_write_ok _ mk_pool_size_pow2 r0 [] y H0 Hfull)) as H2.
  fold r1 in H2. cbn [app] in H2.
  assert (He : ring_empty (ring_publish r1) = false) by (exact (ring_empty_spec _ mk_pool_size_pow2 _ _ H2)).
  pose proof (ring_read_ok _ _ _ _ H2) as Hread.
  eexists. split; [|split; [|]].
  - eapply rtc_l; [apply S_producer, (P_write copied nCol x xs false false y (Mk_chan r0 false) nf0 Hy Hfull)|].
    eapply rtc_l; [apply S_producer, P_publish|]. cbn [c_ring c_done].
    eapply rtc_l; [eapply S_mk, M_wait; cbn [wait_next c_ring c_done]; fold r1; rewrite He; reflexivity|].
    eapply rtc_l; [eapply S_mk, M_wait; cbn [wait_next c_ring c_done]; reflexivity|].
    eapply rtc_l; [eapply S_mk, M_read; [exact He|exact Hread]|].
    eapply rtc_l; [apply S_mk, M_release|].
    eapply rtc_l; [apply S_mk, (M_make _ _ _ _ _ _ Hb)|]. apply rtc_refl.
  - reflexivity.
  - reflexivity.
Qed.

(** The run that starts so ends with that record as the first one sent. *)
Lemma early_run {X Y} (copied : X -> Y -> Prop) (made : Z -> Y -> list Z -> Prop) nCol nf0 x xs y b buf n0 :
  (forall nf x' y b, nf = nCol \/ nf = nf0 -> x' ∈ x :: xs -> copied x' y -> made nf y b ->
    Z.of_nat (length b) <= payload_size) ->
  (forall x', x' ∈ x :: xs -> exists y, copied x' y) ->
  (forall nf x' y, nf = nCol \/ nf = nf0 -> x' ∈ x :: xs -> copied x' y -> exists b, made nf y b) ->
  Z.of_nat (length buf) = payload_size -> copied x y -> made nf0 y b ->
  exists s pkts e sentw, rtc (sys_step copied made nCol) (sys_init (x :: xs) nf0 buf n0) s /\ finished s /\
    p_failed (s_p s) = false /\ c_sent (s_c s) = pkts ++ [e] /\ Forall2 carries pkts sentw /\
    exists bs, concat sentw = b :: bs.
Proof.
  intros Hfits Hcopy Hmake Hbuf Hy Hb.
  destruct (early_record copied made nCol nf0 x xs y b buf n0 Hy Hb) as (s1 & Hr1 & Hm1 & Hp1).
  destruct (inv_reachable copied made nCol nf0 (x :: xs) Hfits buf n0 s1 Hbuf Hr1) as (q1 & q2 & bw & sentw & Hinv).
  assert (Hw : wires s1 q2 bw sentw = [b]).
  { destruct Hinv as [_ _ _ _ _ _ _ _ _ (xs1 & xs2 & Hrows & Hx1 & _)]. unfold wires. rewrite Hm1 in *. cbn [m_made] in *.
    rewrite Hp1 in Hrows. cbn [p_todo] in Hrows. apply (f_equal length) in Hrows. rewrite !length_app in Hrows.
    cbn [length] in Hrows. rewrite !app_assoc in *. set (l := (concat sentw ++ bw) ++ q2) in *.
    destruct l as [|b0 l]; [done|]. destruct xs1 as [|x0 xs1]; [done|]. destruct Hx1 as [_ Hx1].
    apply Forall2_length in Hx1. rewrite length_app in Hx1. cbn in Hx1, Hrows. lia. }
  destruct (run_exists copied made nCol nf0 (x :: xs) s1 q1 q2 bw sentw Hfits Hcopy Hmake Hinv)
    as (s & q1' & q2' & bw' & sentw' & Hr & Hf & Hnf & Hinv' & Hp).
  destruct (inv_delivered copied made nCol nf0 (x :: xs) s q1' q2' bw' sentw' Hinv' Hf)
    as (Hd & pkts & e & Hsent & _ & _ & Hc & _).
  rewrite Hw, Hd in Hp. destruct Hp as [bs Hbs]. exists s, pkts, e, sentw'. rewrite Hp1 in Hnf.
  split; [by etrans|]. split_and!; [done..|by exists bs].
Qed.

(** A column is a byte. *)
Definition toy_made (nf : Z) (y b : list Z) : Prop := b = take (Z.to_nat nf) y.
Definition toy_rows : list (list Z) := [[1; 2]; [3; 4]].
Definition toy_buf : list Z := replicate (Z.to_nat payload_size) 0.

Lemma toy_fits nf x y b :
  nf = 2 \/ nf = 1 -> x ∈ toy_rows -> x = y -> toy_made nf y b -> Z.of_nat (length b) <= payload_size.
Proof. intros Hnf _ _ ->. rewrite length_take. unfold payload_size, RECV_BUF_SIZE. lia. Qed.

Lemma toy_buf_length : Z.of_nat (length toy_buf) = payload_size.
Proof. unfold toy_buf. rewrite length_replicate. apply Z2Nat.id. unfold payload_size, RECV_BUF_SIZE. lia. Qed.

Lemma toy_copy x : x ∈ toy_rows -> exists y, x = y.
Proof. by exists x. Qed.

Lemma toy_make nf x y : nf = 2 \/ nf = 1 -> x ∈ toy_rows -> x = y -> exists b, toy_made nf y b.
Proof. by exists (take (Z.to_nat nf) y). Qed.

Lemma toy_run : exists s, rtc (sys_step eq toy_made 2) (sys_init toy_rows 1 toy_buf 0) s /\ finished s.
Proof.
  destruct (run_exists eq toy_made 2 1 toy_rows (sys_init toy_rows 1 toy_buf 0) [] [] [] [] toy_fits toy_copy toy_make)
    as (s & _ & _ & _ & _ & Hr & Hf & _); [by apply inv_init, toy_buf_length|]. by exists s.
Qed.

Lemma threads_deliver_witness : exists (s : sys (list Z) (list Z)) pkts e sentw,
  c_sent (s_c s) = pkts ++ [e] /\ pkt_type e = END_PKT /\ Forall2 carries pkts sentw /\
  exists sent_rows, toy_rows = sent_rows ++ p_todo (s_p s) /\
    stale_first (shipped eq toy_made 2) (shipped eq toy_made 1) sent_rows (concat sentw) /\
    (p_failed (s_p s) = false -> p_todo (s_p s) = []).
Proof.
  destruct toy_run as (s & Hr & Hf). exists s.
  exact (threads_deliver eq toy_made 2 1 toy_rows toy_fits toy_buf 0 toy_buf_length s Hr Hf).
Defined.

Lemma threads_terminate_witness : exists n s,
  nsteps (sys_step eq toy_made 2) n (sys_init toy_rows 1 toy_buf 0) s /\ finished s /\ (n <= 51)%nat.
Proof.
  destruct toy_run as (s & Hr & Hf). apply rtc_nsteps in Hr as [n Hn]. exists n, s. split; [done|]. split; [done|].
  exact (threads_terminate eq toy_made 2 1 toy_rows toy_fits toy_buf 0 toy_buf_length n s Hn).
Defined.

Lemma threads_never_stuck_witness :
  finished (sys_init (Y:=list Z) toy_rows 1 toy_buf 0) \/ exists s', sys_step eq toy_made 2 (sys_init toy_rows 1 toy_buf 0) s'.
Proof.
  apply (threads_never_stuck eq toy_made 2 1 toy_rows toy_fits toy_buf 0 toy_buf_length); [exact toy_copy|exact toy_make|].
  apply rtc_refl.
Defined.

Lemma packet_never_overflows_witness : exists s : sys (list Z) (list Z),
  finished s /\ c_pc (s_c s) <> CFault /\ Z.of_nat (length (c_buf (s_c s))) = payload_size.
Proof.
  destruct toy_run as (s & Hr & Hf). exists s. split; [done|].
  destruct (packet_never_overflows eq toy_made 2 1 toy_rows toy_fits toy_buf 0 toy_buf_length s Hr) as (H1 & H2 & _).
  split; [exact H1|exact H2].
Defined.

Lemma oversized_record_overflows_witness :
  let r := ring_publish (ring_write REC_POOL_SIZE [1; 2; 3] (ring_new REC_POOL_SIZE)) in
  (exists c', consumer_step (Mk_consumer (CWait WGo) [0; 0] 0 0 0 []) (Mk_chan r false) c' (Mk_chan r false)) /\
  forall c' c2', consumer_step (Mk_consumer (CWait WGo) [0; 0] 0 0 0 []) (Mk_chan r false) c' c2' -> c_pc c' = CFault.
Proof.
  intros r. apply (oversized_record_overflows [1; 2; 3] [0; 0] 0 0 0 [] (Mk_chan r false) []); [|cbn; lia].
  apply (ring_publish_ok REC_POOL_SIZE pool_size_pow2 _ []). apply (ring_write_ok REC_POOL_SIZE pool_size_pow2).
  - exact (ring_new_ok REC_POOL_SIZE pool_size_pow2).
  - reflexivity.
Defined.
