(* ===== verification/HostThreads.v ===== *)
(** * The host's threads

    Model of [producer_func] and [consumer_func] of [host/secure/host_server.c]:
    one thread receives packets and queues them in a ring, the other
    inserts their records into the in-memory table until it takes the end packet.
    As in the model of the storage server a step is an access to shared memory,
    and a thread that spins or waits for the network takes none.  The ring
    holds pointers: the batches are blocks of the heap, allocated by the receiving
    thread and freed by the inserting one, and the receiving thread looks at its
    batch once more after it has handed it over. *)

From stdpp Require Import base tactics list numbers option relations fin_maps gmap.
From Stdlib Require Import ZArith Lia ZifyBool.
From S2P Require Import Prelude CipherUtil Openssl Record Wire NdpInsert WireProofs Ring Pipeline PipelineProofs.

Local Open Scope Z_scope.

(** The number of packets the ring holds: [BUF_POOL_SIZE] of the header the host is
    compiled with. *)
Class HostPool := {
  pool_size : Z;
  pool_pow2 : exists k, 0 <= k < 64 /\ pool_size = 2 ^ k;
}.

Lemma pool_pos `{HostPool} : 0 < pool_size.
Proof. destruct pool_pow2 as (k & Hk & ->). lia. Qed.

(** That of [include/sec_host_server.h]. *)
Definition secure_pool : HostPool := {| pool_size := BUF_POOL_SIZE; pool_pow2 := buf_pool_size_pow2 |}.

Section host.
  Context {B : Type} `{BtreeOps B} {HP : HostPool} (table_n_cols : Z).

(** [p] is the address of a batch. *)
Inductive hpc :=
    | HRecv                  (** in the [SSL_read] loop *)
    | HGot (p : nat)         (** packet taken apart, waiting for space *)
    | HWritten (p : nat)     (** in its slot, tail not yet advanced *)
    | HPublished (p : nat)   (** tail advanced, about to look at [pkt_type] *)
    | HEnd.

Inductive kpc :=
    | KWait
    | KRead (p : nat)        (** slot read, head not yet advanced *)
    | KHave (p : nat)
    | KEnd.

(** [h_net]: the packets the storage server has sent and the host has not read;
    [h_mem]: the batches allocated and not freed;
    [h_db]: the B-tree of the in-memory database. *)
Record host := Mk_host {
    h_net : list (list Z);
    h_pc : hpc;
    h_ring : ring nat;
    k_pc : kpc;
    h_mem : gmap nat host_batch;
    h_db : B;
  }.

Definition is_end (b : host_batch) : bool := hb_pkt_type b =? pkt_num END_PKT.

(** The test at the end of the receiving thread's loop. *)
Definition after_test (fin : bool) : hpc := if fin then HEnd else HRecv.

(** Memory is available ([all_ok]); a new cursor is opened for every packet.
    [H_test_freed] is the test of a batch that has been freed: what is read is
    whatever the block then holds, so the thread may go either way.  The inserting
    thread's work on a batch and the two [free]s after it are one step: until
    they are done the receiving thread reads what it would have read before. *)
Inductive host_step : host -> host -> Prop :=
    | H_recv pkt net b p r k m d w w' :
        parse_packet pkt w = Done (b, w') -> m !! p = None ->
        host_step (Mk_host (pkt :: net) HRecv r k m d) (Mk_host net (HGot p) r k (<[p := b]> m) d)
    | H_write net p r k m d :
        ring_full pool_size r = false ->
        host_step (Mk_host net (HGot p) r k m d) (Mk_host net (HWritten p) (ring_write pool_size p r) k m d)
    | H_publish net p r k m d :
        host_step (Mk_host net (HWritten p) r k m d) (Mk_host net (HPublished p) (ring_publish r) k m d)
    | H_test net p b r k m d :
        m !! p = Some b ->
        host_step (Mk_host net (HPublished p) r k m d) (Mk_host net (after_test (is_end b)) r k m d)
    | H_test_freed net p r k m d fin :
        m !! p = None ->
        host_step (Mk_host net (HPublished p) r k m d) (Mk_host net (after_test fin) r k m d)
    | K_read net h p r m d :
        ring_empty r = false -> ring_read pool_size r = Some p ->
        host_step (Mk_host net h r KWait m d) (Mk_host net h r (KRead p) m d)
    | K_release net h p r m d :
        host_step (Mk_host net h r (KRead p) m d) (Mk_host net h (ring_release r) (KHave p) m d)
    | K_end net h p b r m d :
        m !! p = Some b -> is_end b = true ->
        host_step (Mk_host net h r (KHave p) m d) (Mk_host net h r KEnd (delete p m) d)
    | K_add net h p b r m d d' pC w w' :
        m !! p = Some b -> is_end b = false -> all_ok w ->
        batch_deserialize_add (Some d) None b table_n_cols w = Done ((pC, Some d'), w') ->
        host_step (Mk_host net h r (KHave p) m d) (Mk_host net h r KWait (delete p m) d').

Definition host_init (net : list (list Z)) (d : B) : host :=
    Mk_host net HRecv (ring_new pool_size) KWait ∅ d.
End host.

Arguments host : clear implicits.

Section proofs.
  Context {B : Type} `{BtreeLaws B} {HP : HostPool} (n_cols : Z).

(** The bytes of a packet that parses to [b]. *)
Definition parses (pkt : list Z) (b : host_batch) : Prop :=
    forall w, parse_packet pkt w = Done (b, w).

(** The packet announces the records [ps] and carries them. *)
Definition batch_of (b : host_batch) (ps : list (list Z)) : Prop :=
    is_end b = false /\ hb_num_records b = Z.of_nat (length ps) /\
    exists ws pad, hb_serial_data b = concat ws ++ pad /\ Forall2 wire_of ps ws.

Lemma batch_add_ok rows b ps d w :
    batch_of b ps -> bt_rows d = table rows -> Z.of_nat (length rows + length ps) <= MAX_ROWID -> all_ok w ->
    exists pC d' w', batch_deserialize_add (Some d) None b n_cols w = Done ((pC, Some d'), w') /\
      bt_rows d' = table (rows ++ ps).
  Proof.
    intros (_ & Hn & ws & pad & Hd & Hw) Hrows Hmax Hok. unfold batch_deserialize_add.
    rewrite Hn, Hd, Nat2Z.id. destruct (add_records_ok rows ps ws pad None d n_cols w)
      as (pC & d' & w' & -> & ? & _); [done..|]. by exists pC, d', w'.
  Qed.

Definition h_pend (h : hpc) : option nat := match h with HWritten p => Some p | _ => None end.
Definition h_got (h : hpc) : list nat := match h with HGot p | HWritten p => [p] | _ => [] end.
Definition k_have (k : kpc) : list nat := match k with KHave p => [p] | _ => [] end.

Context (rows0 : list (list Z)) (recs : list host_batch) (e : host_batch) (pss : list (list (list Z))).
Context (Hrecs : Forall2 batch_of recs pss) (He : is_end e = true).
Context (Hmax : Z.of_nat (length rows0 + length (concat pss)) <= MAX_ROWID).

(** Only the last batch is an end packet. *)
Lemma end_is_last i A b C : drop i (recs ++ [e]) = A ++ b :: C -> is_end b = bool_decide (C = []).
  Proof.
    intros Hd. assert (Hall : recs ++ [e] = (take i (recs ++ [e]) ++ A) ++ b :: C)
      by (rewrite <- app_assoc, <- Hd; by rewrite take_drop). clear Hd.
    revert Hall. generalize (take i (recs ++ [e]) ++ A). intros P Hall.
    destruct C as [|c C _] using rev_ind.
    - apply app_inj_tail in Hall as [_ ->]. by rewrite bool_decide_eq_true_2.
    - rewrite bool_decide_eq_false_2 by (by destruct C). replace (P ++ b :: C ++ [c]) with ((P ++ b :: C) ++ [c]) in Hall
        by (by rewrite <- app_assoc). apply app_inj_tail in Hall as [Hr _].
      assert (Hin : b ∈ recs) by (rewrite Hr, elem_of_app, elem_of_cons; tauto).
      apply list_elem_of_lookup in Hin as [j Hj]. by destruct (Forall2_lookup_l _ _ _ _ _ Hrecs Hj) as (ps & _ & Hb & _).
  Qed.

(** The batches in use: the one in the inserting thread's hand, those queued and
    the one the receiving thread is about to queue. *)
Definition live (s : host B) (q : list nat) : list nat := k_have (k_pc s) ++ q ++ h_got (h_pc s).

(** [q] is what the ring holds and [i] the number of packets taken and done with;
    the batches in use and the packets on the wire are the rest. *)
Record hinv (s : host B) (q : list nat) (i : nat) : Prop := {
    hi_ring : holds pool_size (h_pend (h_pc s)) (h_ring s) q;
    hi_read : forall p, k_pc s = KRead p -> exists q', q = p :: q';
    hi_db : bt_rows (h_db s) = table (rows0 ++ concat (take i pss));
    hi_nodup : NoDup (live s q);
    hi_seq : exists bs netb, Forall2 (fun p b => h_mem s !! p = Some b) (live s q) bs /\
      Forall2 parses (h_net s) netb /\ drop i (recs ++ [e]) = bs ++ netb;
    hi_pub : forall p, h_pc s = HPublished p -> h_mem s !! p = None \/ exists l, live s q = l ++ [p];
    hi_end : match k_pc s with KEnd => i = S (length recs) | _ => (i <= length recs)%nat end;
  }.

Definition h_rank (h : hpc) : nat := match h with HGot _ => 6 | HWritten _ => 5 | HPublished _ => 1 | _ => 0 end.
Definition k_rank (k : kpc) : nat := match k with KWait => 1 | KHave _ => 2 | _ => 0 end.
Definition host_rank (s : host B) (q : list nat) : nat :=
    7 * length (h_net s) + h_rank (h_pc s) + 3 * length q + k_rank (k_pc s).

Ltac host_rank_lt := unfold host_rank; cbn -[Nat.mul]; rewrite ?length_app; cbn -[Nat.mul]; lia.

Lemma hinv_init net d :
    Forall2 parses net (recs ++ [e]) -> bt_rows d = table rows0 -> hinv (host_init net d) [] 0.
  Proof.
    clear Hrecs He Hmax. intros Hnet Hd. split; cbn.
    - apply ring_new_ok, pool_pow2.
    - done.
    - by rewrite app_nil_r.
    - apply NoDup_nil_2.
    - exists [], (recs ++ [e]). split_and!; [constructor|done|done].
    - done.
    - lia.
  Qed.

(** The batch in hand is the next one, and its records follow in the table. *)
Lemma next_batch i b C :
    drop i (recs ++ [e]) = b :: C -> is_end b = false -> (i <= length recs)%nat ->
    (i < length recs)%nat /\ exists ps, pss !! i = Some ps /\ batch_of b ps.
  Proof.
    intros Hd Hb Hi. assert (Hl : (recs ++ [e]) !! i = Some b).
    { rewrite <- (Nat.add_0_r i), <- lookup_drop, Hd. done. }
    destruct (decide (i = length recs)) as [->|Hne].
    - rewrite lookup_app_r, Nat.sub_diag in Hl by lia. injection Hl as <-. congruence.
    - rewrite lookup_app_l in Hl by lia. split; [lia|].
      destruct (Forall2_lookup_l _ _ _ _ _ Hrecs Hl) as (ps & ? & ?). by exists ps.
  Qed.

(** Freeing the batch in hand leaves the others. *)
Lemma live_free (m : gmap nat host_batch) p l bs :
    NoDup (p :: l) -> Forall2 (fun q b => m !! q = Some b) (p :: l) bs ->
    exists b bs', bs = b :: bs' /\ m !! p = Some b /\ NoDup l /\
      Forall2 (fun q b => delete p m !! q = Some b) l bs'.
  Proof.
    clear Hrecs He Hmax. intros [Hp Hl]%NoDup_cons (b & bs' & Hb & Hbs & ->)%Forall2_cons_inv_l.
    exists b, bs'. split_and!; [done..|]. clear Hb Hl. induction Hbs as [|q b' l bs' Hq Hbs IH]; constructor.
    - rewrite lookup_delete_ne; [done|]. intros ->. apply Hp. by left.
    - apply IH. intros ?. apply Hp. by right.
  Qed.

Lemma pub_free (m : gmap nat host_batch) p p' l :
    m !! p' = None \/ (exists l', p :: l = l' ++ [p']) -> delete p m !! p' = None \/ exists l', l = l' ++ [p'].
  Proof.
    clear Hrecs He Hmax. intros [Hn|[[|x l'] Hl]].
    - left. by rewrite lookup_delete_None; right.
    - injection Hl as -> ->. left. apply lookup_delete_eq.
    - injection Hl as -> ->. right. by exists l'.
  Qed.

Lemma hinv_recv pkt net b p r k m d w w' q i :
    parse_packet pkt w = Done (b, w') -> m !! p = None ->
    hinv (Mk_host (pkt :: net) HRecv r k m d) q i -> hinv (Mk_host net (HGot p) r k (<[p := b]> m) d) q i.
  Proof.
    intros Hp Hm [Hr Hrd Hdb Hnd (bs & netb & Hbs & Hnet & Hk) Hpub Hend]. cbn in *.
    apply Forall2_cons_inv_l in Hnet as (b' & netb' & Hpb & Hnet & ->). rewrite Hpb in Hp. injection Hp as <- <-.
    unfold live in Hnd, Hbs. cbn in Hnd, Hbs. rewrite app_nil_r in Hnd, Hbs.
    split; cbn; try done; unfold live; cbn; rewrite app_assoc.
    - apply NoDup_app. split_and!; [done| |apply NoDup_singleton]. intros x Hx ->%list_elem_of_singleton.
      apply list_elem_of_lookup in Hx as [j Hj]. destruct (Forall2_lookup_l _ _ _ _ _ Hbs Hj) as (? & _ & ?). congruence.
    - exists (bs ++ [b']), netb'. split; [|split; [done|by rewrite <- app_assoc]]. apply Forall2_app.
      + eapply Forall2_impl; [exact Hbs|]. intros x y Hx. cbn in Hx. rewrite lookup_insert_ne; [done|congruence].
      + constructor; [by rewrite lookup_insert_eq|constructor].
  Qed.

Lemma hinv_publish net p r k m d q i :
    hinv (Mk_host net (HWritten p) r k m d) q i -> hinv (Mk_host net (HPublished p) (ring_publish r) k m d) (q ++ [p]) i.
  Proof.
    clear Hrecs He Hmax. intros [Hr Hrd Hdb Hnd (bs & netb & Hbs & Hnet & Hk) Hpub Hend].
    split; cbn; try done; unfold live in *; cbn in *; rewrite ?app_nil_r in *.
    - by apply (holds_publish _ pool_pow2).
    - intros p' ->. destruct (Hrd p' eq_refl) as [q' ->]. by exists (q' ++ [p]).
    - done.
    - by exists bs, netb.
    - intros p' [= <-]. right. exists (k_have k ++ q). by rewrite app_assoc.
  Qed.

Lemma hinv_release net h p r m d q i :
    hinv (Mk_host net h r (KRead p) m d) q i ->
    exists q', q = p :: q' /\ hinv (Mk_host net h (ring_release r) (KHave p) m d) q' i.
  Proof.
    clear Hrecs He Hmax. intros [Hr Hrd Hdb Hnd (bs & netb & Hbs & Hnet & Hk) Hpub Hend]. cbn in *.
    destruct (Hrd p eq_refl) as [q' ->]. exists q'. split; [done|].
    split; cbn; try done; [by eapply (holds_release _ pool_pow2)|by exists bs, netb].
  Qed.

(** The batch in hand is freed, and is the next packet; a table with its records
    follows. *)
Lemma hinv_free net h p b r m d d' q i k :
    hinv (Mk_host net h r (KHave p) m d) q i -> m !! p = Some b ->
    (if is_end b then k = KEnd /\ d' = d else k = KWait /\
      bt_rows d' = table (rows0 ++ concat (take (S i) pss))) ->
    hinv (Mk_host net h r k (delete p m) d') q (S i).
  Proof.
    intros [Hr Hrd Hdb Hnd (bs & netb & Hbs & Hnet & Hk) Hpub Hend] Hp Hd'. cbn in *. unfold live in Hnd, Hbs, Hpub.
    cbn in Hnd, Hbs, Hpub. destruct (live_free m p _ bs Hnd Hbs) as (b' & bs' & -> & Hb' & Hnd' & Hbs').
    rewrite Hp in Hb'. injection Hb' as <-. cbn in Hk.
    assert (Hlive : live (Mk_host net h r k (delete p m) d') q = q ++ h_got h) by (by destruct (is_end b), Hd' as [-> _]).
    split; cbn; try done.
    - intros p' ->. by destruct (is_end b), Hd'.
    - destruct (is_end b) eqn:Eb; destruct Hd' as [-> Hd']; [subst d'|done]. rewrite Hdb.
      pose proof (end_is_last i [] _ _ Hk) as Hl. rewrite Eb in Hl. symmetry in Hl. apply bool_decide_eq_true in Hl.
      rewrite Hl in Hk. apply (f_equal length) in Hk. rewrite length_drop, length_app in Hk. cbn in Hk.
      pose proof (Forall2_length _ _ _ Hrecs). by rewrite !take_ge by lia.
    - by rewrite Hlive.
    - exists bs', netb. rewrite Hlive. split_and!; [done..|]. by rewrite <- (Nat.add_1_r i), <- drop_drop, Hk.
    - intros p' Hp'. rewrite Hlive. apply pub_free. by apply Hpub.
    - destruct (is_end b) eqn:Eb; destruct Hd' as [-> Hd']; cbn.
      + pose proof (end_is_last i [] _ _ Hk) as Hl. rewrite Eb in Hl. symmetry in Hl. apply bool_decide_eq_true in Hl.
        rewrite Hl in Hk. apply (f_equal length) in Hk. rewrite length_drop, length_app in Hk. cbn in Hk. lia.
      + destruct (next_batch i b _ Hk Eb Hend) as [? _]. lia.
  Qed.

(** The records of the batch in hand go into the table. *)
Lemma hinv_add net h p b r m d q i w :
    hinv (Mk_host net h r (KHave p) m d) q i -> m !! p = Some b -> is_end b = false -> all_ok w ->
    exists pC d' w', batch_deserialize_add (Some d) None b n_cols w = Done ((pC, Some d'), w') /\
      bt_rows d' = table (rows0 ++ concat (take (S i) pss)).
  Proof.
    intros [Hr Hrd Hdb Hnd (bs & netb & Hbs & Hnet & Hk) Hpub Hend] Hp Hb Hok. cbn in *. unfold live in Hnd, Hbs.
    cbn in Hnd, Hbs. destruct (live_free m p _ bs Hnd Hbs) as (b' & bs' & -> & Hb' & _).
    rewrite Hp in Hb'. injection Hb' as <-. cbn in Hk. destruct (next_batch i b _ Hk Hb Hend) as (Hlt & ps & Hps & Hbo).
    assert (Hlen : (length (concat (take i pss)) + length ps <= length (concat pss))%nat).
    { rewrite (concat_split pss i ps Hps), !length_app. lia. }
    destruct (batch_add_ok (rows0 ++ concat (take i pss)) b ps d w Hbo Hdb) as (pC1 & d1 & w1 & Ha & Hd1);
      [rewrite length_app; lia|done|]. exists pC1, d1, w1. split; [done|].
    rewrite Hd1, (take_S_r _ _ _ Hps), concat_app. cbn. by rewrite app_nil_r, app_assoc.
  Qed.

Lemma hinv_step s s' q i :
    host_step n_cols s s' -> hinv s q i ->
    exists q' i', hinv s' q' i' /\ (host_rank s' q' < host_rank s q)%nat.
  Proof.
    intros Hstep Hinv.
    destruct Hstep as [pkt net b p r k m d w w' Hp Hm|net p r k m d Hf|net p r k m d|net p b r k m d Hm|net p r k m d fin Hm
      |net h p r m d Hem Hy|net h p r m d|net h p b r m d Hm Hb|net h p b r m d d' pC w w' Hm Hb Hok Hadd].
    - exists q, i. split; [by eapply hinv_recv|host_rank_lt].
    - exists q, i. split; [|host_rank_lt]. destruct Hinv as [Hr Hrd Hdb Hnd Hseq Hpub Hend].
      split; cbn in *; try done. by apply (holds_write _ pool_pow2).
    - exists (q ++ [p]), i. split; [by apply hinv_publish|host_rank_lt].
    - exists q, i. split; [|destruct (is_end b); host_rank_lt]. destruct Hinv as [Hr Hrd Hdb Hnd Hseq Hpub Hend].
      destruct (is_end b); split; done.
    - exists q, i. split; [|destruct fin; host_rank_lt]. destruct Hinv as [Hr Hrd Hdb Hnd Hseq Hpub Hend].
      destruct fin; split; done.
    - exists q, i. split; [|host_rank_lt]. destruct Hinv as [Hr Hrd Hdb Hnd Hseq Hpub Hend].
      split; cbn in *; try done. intros p' [= <-]. by eapply (holds_next _ pool_pow2).
    - destruct (hinv_release _ _ _ _ _ _ _ _ Hinv) as (q' & -> & Hinv'). exists q', i. split; [done|host_rank_lt].
    - exists q, (S i). split; [|host_rank_lt]. eapply hinv_free; [done..|]. by rewrite Hb.
    - exists q, (S i). split; [|host_rank_lt]. eapply hinv_free; [done..|]. rewrite Hb. split; [done|].
      destruct (hinv_add _ _ _ _ _ _ _ _ _ w Hinv Hm Hb Hok) as (pC1 & d1 & w1 & Ha & Hd1).
      rewrite Hadd in Ha. by injection Ha as _ -> _.
  Qed.

Lemma hinv_rtc s s' q i :
    rtc (host_step n_cols) s s' -> hinv s q i -> exists q' i', hinv s' q' i'.
  Proof.
    intros Hn. revert q i. induction Hn as [s|s1 s2 s3 Hstep _ IH]; intros q i Hinv; [by exists q, i|].
    destruct (hinv_step _ _ _ _ Hstep Hinv) as (q' & i' & Hinv' & _). by eapply IH.
  Qed.

(** The receiving thread has stopped if and only if it has received everything. *)
Definition in_step (s : host B) : Prop :=
    match h_pc s with HEnd => h_net s = [] | HRecv => h_net s <> [] | _ => True end.

Lemma in_step_after net (r : ring nat) k m d : in_step (Mk_host net (after_test (bool_decide (net = []))) r k m d).
  Proof. clear Hrecs He Hmax. unfold in_step. cbn. by case_bool_decide. Qed.

(** As long as that holds there is a next step after which it holds. *)
Lemma host_progress s q i :
    hinv s q i -> in_step s -> k_pc s = KEnd \/ exists s', host_step n_cols s s' /\ in_step s'.
  Proof.
    intros Hinv Hin. destruct s as [net h r k m d]. unfold in_step in *. cbn in *.
    pose proof Hinv as [Hr Hrd Hdb Hnd (bs & netb & Hbs & Hnet & Hk) Hpub Hend]. cbn in *.
    destruct k as [|p|p|]; [|right; eexists; split; [apply K_release|done]| |by left]; right.
    - destruct q as [|p q].
      2:{ eexists. split; [eapply K_read; [by rewrite (holds_empty _ pool_pow2 _ _ _ Hr)|by eapply holds_read]|done]. }
      destruct h as [|p|p|p|].
      + destruct Hnet as [|pkt b net' nb Hp _]; [done|].
        destruct (exist_fresh (dom m)) as [p Hf]. apply not_elem_of_dom in Hf.
        eexists. split; [by apply (H_recv _ _ _ b p _ _ _ _ [] [])|done].
      + eexists. split; [apply H_write|done]. rewrite (ring_full_spec _ pool_pow2 _ [] Hr). pose proof pool_pos. cbn. lia.
      + eexists. split; [apply H_publish|done].
      + destruct (Hpub p eq_refl) as [Hm|[l Hl]]; [|by destruct l]. eexists. split; [by apply H_test_freed|].
        apply (in_step_after net r KWait m d).
      + subst net. apply Forall2_nil_inv_l in Hnet as ->. apply Forall2_nil_inv_l in Hbs as ->.
        apply (f_equal length) in Hk. rewrite length_drop, length_app in Hk. cbn in Hk. lia.
    - unfold live in Hnd, Hbs. cbn in Hnd, Hbs. destruct (live_free m p _ bs Hnd Hbs) as (b & bs' & -> & Hb & _).
      destruct (is_end b) eqn:Eb; [eexists; split; [by eapply K_end|done]|].
      destruct (hinv_add _ _ _ _ _ _ _ _ _ [] Hinv Hb Eb) as (pC & d' & w' & Ha & _); [constructor|].
      eexists. split; [eapply K_add; [done|done| |exact Ha]; constructor|done].
  Qed.
End proofs.

(** ** What the host guarantees *)

Section claims.
  Context {B : Type} `{BtreeLaws B} {HP : HostPool} (n_cols : Z).
  Context (rows0 : list (list Z)) (recs : list host_batch) (e : host_batch) (pss : list (list (list Z))).
  Context (Hrecs : Forall2 batch_of recs pss) (He : is_end e = true).
  Context (Hmax : Z.of_nat (length rows0 + length (concat pss)) <= MAX_ROWID).
  Context (net : list (list Z)) (d : B) (Hnet : Forall2 parses net (recs ++ [e])) (Hd : bt_rows d = table rows0).

Lemma inserts_ok s :
    rtc (host_step n_cols) (host_init net d) s -> k_pc s = KEnd ->
    bt_rows (h_db s) = table (rows0 ++ concat pss).
  Proof.
    intros Hn Hk.
    destruct (hinv_rtc n_cols rows0 recs e pss Hrecs He Hmax _ _ _ _ Hn
      (hinv_init rows0 recs e pss net d Hnet Hd)) as (q & i & [_ _ Hdb _ _ _ Hi]).
    rewrite Hk in Hi. rewrite Hdb, Hi. pose proof (Forall2_length _ _ _ Hrecs).
    by rewrite take_ge by lia.
  Qed.

(** C18. The host inserts what arrives: when the inserting thread has taken the end
    packet, in whatever way the two threads were interleaved, the table holds
    the rows it had before and after them the records of all packets, in the
    order in which they were received. *)
Theorem host_inserts_all s :
    rtc (host_step n_cols) (host_init net d) s -> k_pc s = KEnd ->
    bt_rows (h_db s) = table (rows0 ++ concat pss).
  Proof. apply inserts_ok. Qed.

(** The inserting thread overtakes: a packet is received, handed over, used and freed
    before the receiving thread looks at it again. *)
Lemma overtaken net1 pkt b (r : ring nat) (d1 : B) :
    parses pkt b -> ring_ok pool_size r [] -> exists r', ring_ok pool_size r' [] /\
      (is_end b = true ->
        rtc (host_step n_cols) (Mk_host (pkt :: net1) HRecv r KWait ∅ d1) (Mk_host net1 (HPublished 0) r' KEnd ∅ d1)) /\
      forall d2 pC w w', is_end b = false -> all_ok w ->
        batch_deserialize_add (Some d1) None b n_cols w = Done ((pC, Some d2), w') ->
        rtc (host_step n_cols) (Mk_host (pkt :: net1) HRecv r KWait ∅ d1) (Mk_host net1 (HPublished 0) r' KWait ∅ d2).
  Proof.
    clear Hrecs He Hmax Hnet Hd. intros Hp Hr.
    assert (Hf : ring_full pool_size r = false).
    { rewrite (ring_full_spec _ pool_pow2 _ [] Hr). pose proof pool_pos. cbn. lia. }
    pose proof (holds_publish _ pool_pow2 _ [] 0%nat (holds_write _ pool_pow2 _ [] 0%nat Hr Hf)) as Hq. cbn in Hq.
    set (r1 := ring_publish (ring_write pool_size 0%nat r)) in *.
    exists (ring_release r1). split; [by eapply (holds_release _ pool_pow2 None)|].
    assert (Hrun : rtc (host_step n_cols) (Mk_host (pkt :: net1) HRecv r KWait ∅ d1)
      (Mk_host net1 (HPublished 0) (ring_release r1) (KHave 0) {[0%nat := b]} d1)).
    { eapply rtc_l; [by apply (H_recv n_cols _ _ b 0 _ _ ∅ _ [] [])|]. eapply rtc_l; [by apply H_write|].
      eapply rtc_l; [apply H_publish|]. fold r1. eapply rtc_l; [apply (K_read _ _ _ 0)|].
      - by rewrite (holds_empty _ pool_pow2 None _ _ Hq).
      - by eapply (holds_read _ None).
      - eapply rtc_l; [apply K_release|]. by rewrite insert_empty. }
    split.
    - intros Hb. eapply rtc_r; [exact Hrun|]. rewrite <- (delete_singleton_eq 0%nat b).
      eapply K_end; [apply lookup_singleton_eq|done].
    - intros d2 pC w w' Hb Hw Ha. eapply rtc_r; [exact Hrun|]. rewrite <- (delete_singleton_eq 0%nat b).
      eapply K_add; [apply lookup_singleton_eq|done|done|exact Ha].
  Qed.

(** The packet numbered [j]. *)
Lemma net_drop j b : (recs ++ [e]) !! j = Some b -> exists pkt, drop j net = pkt :: drop (S j) net /\ parses pkt b.
  Proof.
    clear Hrecs He Hmax Hd. intros Hb. destruct (Forall2_lookup_r _ _ _ _ _ Hnet Hb) as (pkt & Hl & Hp).
    exists pkt. split; [by apply drop_S|done].
  Qed.

Lemma overtaken_record j r dj :
    (j < length recs)%nat -> ring_ok pool_size r [] -> bt_rows dj = table (rows0 ++ concat (take j pss)) ->
    exists r' d', ring_ok pool_size r' [] /\ bt_rows d' = table (rows0 ++ concat (take (S j) pss)) /\
      rtc (host_step n_cols) (Mk_host (drop j net) HRecv r KWait ∅ dj) (Mk_host (drop (S j) net) (HPublished 0) r' KWait ∅ d').
  Proof.
    intros Hj Hr Hdj. destruct (lookup_lt_is_Some_2 recs j Hj) as [b Hb].
    destruct (Forall2_lookup_l _ _ _ _ _ Hrecs Hb) as (ps & Hps & Hbo).
    destruct (net_drop j b) as (pkt & -> & Hp); [by rewrite lookup_app_l|].
    assert (Hlen : (length (concat (take j pss)) + length ps <= length (concat pss))%nat).
    { rewrite (concat_split pss j ps Hps), !length_app. lia. }
    destruct (batch_add_ok n_cols (rows0 ++ concat (take j pss)) b ps dj [] Hbo Hdj) as (pC & d' & w' & Ha & Hd');
      [rewrite length_app; lia|constructor|].
    destruct (overtaken (drop (S j) net) pkt b r dj Hp Hr) as (r' & Hr' & _ & Hrun). exists r', d'. split_and!; [done| |].
    - rewrite Hd', (take_S_r _ _ _ Hps), concat_app. cbn. by rewrite app_nil_r, app_assoc.
    - destruct Hbo as [Hb0 _]. apply (Hrun d' pC [] w' Hb0); [constructor|done].
  Qed.

(** The first [j] packets done with, each of them freed before it was looked at again. *)
Lemma overtaken_run j :
    (j <= length recs)%nat -> exists r dj, ring_ok pool_size r [] /\
      bt_rows dj = table (rows0 ++ concat (take j pss)) /\
      rtc (host_step n_cols) (host_init net d) (Mk_host (drop j net) HRecv r KWait ∅ dj).
  Proof.
    induction j as [|j IH]; intros Hj.
    - exists (ring_new pool_size), d. rewrite app_nil_r. split_and!; [apply ring_new_ok, pool_pow2|done|done].
    - destruct IH as (r & dj & Hr & Hdj & Hrun); [lia|].
      destruct (overtaken_record j r dj) as (r' & d' & Hr' & Hd' & Hrun'); [lia|done|done|].
      exists r', d'. split_and!; [done..|]. etrans; [exact Hrun|]. eapply rtc_r; [exact Hrun'|].
      by apply (H_test_freed n_cols _ 0 _ _ _ _ false).
  Qed.

(** C38. The receiving thread uses a batch that is no longer its own: after queueing a
    packet it reads [pkt_type] from the batch, which the inserting thread may
    by then have freed.  For every packet of a query there is an interleaving
    in which that packet is freed before it is read, and then a step of the receiving
    thread after which no thread can go on.  When it is the end packet, all rows
    are in the table, but the receiving thread waits for a packet that
    never comes; when it is a packet of records, the receiving thread has
    stopped, the packets after it are never read and their rows are missing. *)
Theorem host_use_after_free j :
    (j <= length recs)%nat ->
    exists s p, rtc (host_step n_cols) (host_init net d) s /\ h_pc s = HPublished p /\ h_mem s !! p = None /\
      bt_rows (h_db s) = table (rows0 ++ concat (take (S j) pss)) /\
      exists s', host_step n_cols s s' /\ (forall s'', ~ host_step n_cols s' s'') /\ h_db s' = h_db s /\
        (if decide (j = length recs) then h_pc s' = HRecv /\ h_net s' = [] /\ k_pc s' = KEnd
         else h_pc s' = HEnd /\ h_net s' = drop (S j) net /\ k_pc s' = KWait).
  Proof.
    intros Hj. destruct (overtaken_run j Hj) as (r & dj & Hr & Hdj & Hrun). destruct (decide (j = length recs)) as [->|Hne].
    - destruct (net_drop (length recs) e) as (pkt & Hnd & Hp); [by rewrite lookup_app_r, Nat.sub_diag|].
      assert (Hlast : drop (S (length recs)) net = []).
      { apply drop_ge. rewrite (Forall2_length _ _ _ Hnet), length_app. cbn. lia. }
      rewrite Hnd, Hlast in Hrun. destruct (overtaken [] pkt e r dj Hp Hr) as (r' & Hr' & Hend & _).
      exists (Mk_host [] (HPublished 0) r' KEnd ∅ dj), 0%nat. split; [etrans; [exact Hrun|by apply Hend]|].
      pose proof (Forall2_length _ _ _ Hrecs). cbn. split_and!; [done|done|by rewrite Hdj, !take_ge by lia|].
      eexists. split; [by apply (H_test_freed n_cols _ 0 _ _ _ _ false)|]. split; [|done]. intros s'' Hs. inversion Hs.
    - destruct (overtaken_record j r dj) as (r' & d' & Hr' & Hd' & Hrun'); [lia|done|done|].
      exists (Mk_host (drop (S j) net) (HPublished 0) r' KWait ∅ d'), 0%nat. split; [by etrans|]. cbn. split_and!; [done..|].
      eexists. split; [by apply (H_test_freed n_cols _ 0 _ _ _ _ true)|]. split; [|done]. intros s'' Hs.
      pose proof (holds_empty _ pool_pow2 None _ _ Hr'). inversion Hs; subst. cbn in *. congruence.
  Qed.
End claims.

(** ** Witnesses *)

#[local] Existing Instance secure_pool.

(** A run to the end exists. *)
Lemma host_run_exists {B} `{BtreeLaws B} {HP : HostPool} n_cols rows0 recs e pss (s : host B) q i :
  Forall2 batch_of recs pss -> is_end e = true ->
  Z.of_nat (length rows0 + length (concat pss)) <= MAX_ROWID -> hinv rows0 recs e pss s q i -> in_step s ->
  exists s', rtc (host_step n_cols) s s' /\ k_pc s' = KEnd.
Proof.
  intros Hrecs He Hmax. remember (host_rank s q) as k eqn:Hk. revert s q i Hk.
  induction (lt_wf k) as [k _ IH]. intros s q i -> Hinv Hin.
  destruct (host_progress n_cols rows0 recs e pss Hrecs He Hmax s q i Hinv Hin) as [Hf|(s' & Hs & Hin')]; [by exists s|].
  destruct (hinv_step n_cols rows0 recs e pss Hrecs He Hmax s s' q i Hs Hinv) as (q' & i' & Hinv' & Hlt).
  destruct (IH _ Hlt s' q' i' eq_refl Hinv' Hin') as (s'' & Hr & Hf). exists s''. split; [by eapply rtc_l|done].
Qed.

Definition ex_wire : list Z := le_bytes 4 3 ++ le_bytes 4 32 ++ [2; 1; 7] ++ [0].
Definition ex_data : list Z := ex_wire ++ replicate (Z.to_nat payload_size - 12) 0.
Definition ex_rec_batch : host_batch := Mk_host_batch 0 1 ex_data.
Definition ex_end_batch : host_batch := Mk_host_batch 2 1 ex_data.

Lemma ex_recs : Forall2 batch_of [ex_rec_batch] [[[2; 1; 7]]].
Proof.
  constructor; [|constructor]. split; [done|]. split; [done|].
  exists [ex_wire], (replicate (Z.to_nat payload_size - 12) 0). split; [done|].
  constructor; [|constructor]. split; [cbn; lia|]. by exists 32, 0.
Qed.

Lemma header_parses t n d :
  - 2 ^ 31 <= t < 2 ^ 31 -> - 2 ^ 31 <= n < 2 ^ 31 -> Z.of_nat (length d) = payload_size ->
  parses (le_bytes 4 t ++ le_bytes 4 n ++ d) (Mk_host_batch t n d).
Proof.
  intros Ht Hn Hd w. unfold parse_packet. rewrite bind_rd_int0 by done.
  rewrite (bind_rd_int (le_bytes 4 t)) by (rewrite ?length_le_bytes; done || lia).
  by rewrite (app_assoc (le_bytes 4 t)), bind_buf_read_end by (rewrite ?length_app, ?length_le_bytes; lia).
Qed.

Lemma ex_data_length : Z.of_nat (length ex_data) = payload_size.
Proof.
  unfold ex_data. rewrite length_app, length_replicate. change (length ex_wire) with 12%nat.
  unfold payload_size, RECV_BUF_SIZE. lia.
Qed.

Lemma ex_net : exists net, Forall2 parses net ([ex_rec_batch] ++ [ex_end_batch]).
Proof.
  exists [le_bytes 4 0 ++ le_bytes 4 1 ++ ex_data; le_bytes 4 2 ++ le_bytes 4 1 ++ ex_data].
  apply Forall2_cons_2; [|apply Forall2_cons_2; [|apply Forall2_nil_2]];
    (apply header_parses; [lia|lia|exact ex_data_length]).
Qed.

Lemma ex_max : Z.of_nat (length (@nil (list Z)) + length (concat [[[2; 1; 7]]])) <= MAX_ROWID.
Proof. vm_compute. done. Qed.

Lemma host_inserts_all_witness : exists s : host (gmap Z (list Z)),
  k_pc s = KEnd /\ bt_rows (h_db s) = table [[2; 1; 7]].
Proof.
  destruct ex_net as [net Hnet].
  destruct (host_run_exists (B:=gmap Z (list Z)) 4 [] [ex_rec_batch] ex_end_batch [[[2; 1; 7]]]
    (host_init net ∅) [] 0 ex_recs eq_refl ex_max) as (s & Hr & Hk).
  { apply hinv_init; [exact Hnet|reflexivity]. }
  { unfold in_step. cbn. intros ->. by apply Forall2_nil_inv_l in Hnet. }
  exists s. split; [exact Hk|].
  exact (host_inserts_all 4 [] [ex_rec_batch] ex_end_batch [[[2; 1; 7]]] ex_recs eq_refl ex_max net ∅ Hnet eq_refl s Hr Hk).
Defined.

Lemma host_use_after_free_witness : exists (net : list (list Z)) (s : host (gmap Z (list Z))) p,
  rtc (host_step 4) (host_init net ∅) s /\ h_pc s = HPublished p /\ h_mem s !! p = None.
Proof.
  destruct ex_net as [net Hnet]. exists net.
  assert (Hd : bt_rows (∅ : gmap Z (list Z)) = table []) by reflexivity.
  destruct (host_use_after_free (B:=gmap Z (list Z)) 4 [] [ex_rec_batch] ex_end_batch [[[2; 1; 7]]] ex_recs eq_refl ex_max net ∅ Hnet Hd 0
    ltac:(cbn; lia)) as (s & p & Hr & Hp & Hm & _). exists s, p. split; [exact Hr|]. split; [exact Hp|exact Hm].
Defined.
