(* ===== verification/EndToEnd.v ===== *)
(** * From the query's rows to the host's table

    The threads of both servers put together with the record format and the
    wire: every row the storage server's query produces is, when the host's
    threads have finished, a record of the host's table with the same values,
    except that the first row may have lost all columns but one. *)

From stdpp Require Import base tactics list numbers option relations fin_maps gmap.
From Stdlib Require Import ZArith Lia ZifyBool.
From S2P Require Import Prelude CipherUtil Openssl Varint Record RecordProofs Wire NdpInsert WireProofs.
From S2P Require Import Ring Pipeline PipelineProofs HostThreads.

Local Open Scope Z_scope.

(** ** What the storage server's threads do to a row *)

(** The copy queued for the row [x], which stands at the front of the result
    registers. *)
Definition row_copied (nf : Z) (x y : list Mem) : Prop :=
  exists more w w', all_ok w /\ copy_result_row nf (x ++ more) w = Done (y, w').

(** The bytes queued for the copy [y] when [num_rec_fields] is [nf]: the record is
    made in a block with at least one byte to spare, and serialised. *)
Definition record_made (fmt nf : Z) (y : list Mem) (b : list Z) : Prop :=
  exists blk w r w1 sz w2, all_ok w /\ bytes blk /\
    (length (record_of fmt (take (Z.to_nat nf) y)) < length blk)%nat /\
    make_ssd_record nf fmt y blk w = Done (r, w1) /\
    storage_serialize (Mk_RawMem r sz (m_z r)) w1 = Done (b, w2).

(** Before the query [main] reads the table's schema with a query of one column,
    which sets [num_rec_fields]. *)
Definition schema_columns : Z := 1.

(** Rows of plain cells whose record, and the record of their first column, fit a
    packet. *)
Definition row_ok (nf fmt : Z) (x : list Mem) : Prop :=
  x <> [] /\ Z.of_nat (length x) = nf /\ Forall cell_ok x /\ Forall bytes_there x /\ Forall flagged x /\
  Z.of_nat (length (record_of fmt x)) + 9 <= payload_size /\
  Z.of_nat (length (record_of fmt (take (Z.to_nat schema_columns) x))) + 9 <= payload_size.

Section row.
  Context (nf fmt : Z).

Lemma copied_ok x y : row_ok nf fmt x -> row_copied nf x y -> Forall2 same_cell y x.
  Proof.
    intros (_ & <- & H1 & H2 & H3 & _) (more & w & w' & Hw & Hc).
    destruct (copy_row_ok x more w H1 H2 H3 Hw) as (row & w1 & Hc' & ?).
    rewrite Hc in Hc'. by injection Hc' as -> _.
  Qed.

(** The two counts the record thread may find. *)
Lemma count_ok x k :
    row_ok nf fmt x -> k = nf \/ k = schema_columns ->
    0 < k <= Z.of_nat (length x) /\ Z.of_nat (length (record_of fmt (take (Z.to_nat k) x))) + 9 <= payload_size.
  Proof.
    intros (Hne & Hnf & _ & _ & _ & Hf1 & Hf2) [-> | ->].
    - rewrite take_ge by lia. split; [destruct x; [done|cbn in *; lia]|done].
    - split; [|done]. unfold schema_columns. destruct x; [done|cbn; lia].
  Qed.

Lemma record_made_run x y k blk w sz :
    row_ok nf fmt x -> row_copied nf x y -> k = nf \/ k = schema_columns -> all_ok w ->
    (length (record_of fmt (take (Z.to_nat k) y)) < length blk)%nat ->
    exists r w1 b w2, make_ssd_record k fmt y blk w = Done (r, w1) /\
      storage_serialize (Mk_RawMem r sz (m_z r)) w1 = Done (b, w2) /\
      wire_of (record_of fmt (take (Z.to_nat k) x)) b.
  Proof.
    intros Hx Hc Hk Hw Hblk. pose proof (copied_ok x y Hx Hc) as Hs. destruct (count_ok x k Hx Hk) as [Hkl Hfit].
    pose proof (Forall2_length _ _ _ Hs) as Hl. rewrite make_record_take by lia.
    destruct (same_cells _ _ fmt (Forall2_take _ _ _ (Z.to_nat k) Hs)) as (Hlt & Hcells & _ & Hrec).
    set (ty := take (Z.to_nat k) y) in *. set (rec := record_of fmt ty) in *.
    assert (Hsmall : Z.of_nat (length rec) < 2 ^ 31 - 16).
    { rewrite Hrec. unfold payload_size, RECV_BUF_SIZE in Hfit. lia. }
    assert (Hty : Z.of_nat (length ty) = k) by (rewrite Hlt, length_take; lia).
    destruct (make_record_ok fmt ty blk w) as (w1 & Hw1 & Hmk);
      [destruct ty; [cbn in Hty; lia|done]|done|fold rec; lia|fold rec; lia|done|].
    rewrite Hty in Hmk. set (r := Mk_Mem _ _ _ _) in Hmk.
    destruct (serialize_wire (Mk_RawMem r sz (m_z r)) rec w1) as (b & w2 & _ & Hser & Hwire);
      [done|done|done| |].
    - cbn. assert (Hd : (0 < length (drop (length rec) blk))%nat) by (rewrite length_drop; lia).
      fold rec. destruct (drop _ blk) as [|z rest]; [cbn in Hd; lia|]. by exists z, rest.
    - exists r, w1, b, w2. by rewrite <- Hrec.
  Qed.

Lemma shipped_wire x k b :
    row_ok nf fmt x -> k = nf \/ k = schema_columns -> shipped (row_copied nf) (record_made fmt) k x b ->
    wire_of (record_of fmt (take (Z.to_nat k) x)) b.
  Proof.
    intros Hx Hk (y & Hc & blk & w & r & w1 & sz & w2 & Hw & _ & Hblk & Hmk & Hs).
    destruct (record_made_run x y k blk w sz Hx Hc Hk Hw Hblk) as (r' & w1' & b' & w2' & Hmk' & Hs' & Hwire).
    rewrite Hmk in Hmk'. injection Hmk' as <- <-. rewrite Hs in Hs'. by injection Hs' as -> _.
  Qed.

Lemma made_fits k x y b :
    row_ok nf fmt x -> k = nf \/ k = schema_columns -> row_copied nf x y -> record_made fmt k y b ->
    Z.of_nat (length b) <= payload_size.
  Proof.
    intros Hx Hk Hc Hm. destruct (count_ok x k Hx Hk) as [_ Hfit].
    assert (Hwire : wire_of (record_of fmt (take (Z.to_nat k) x)) b) by (apply shipped_wire; [done|done|by exists y]).
    rewrite (length_wire _ _ Hwire). lia.
  Qed.

Lemma copy_exists x : row_ok nf fmt x -> exists y, row_copied nf x y.
  Proof.
    intros (_ & <- & H1 & H2 & H3 & _). destruct (copy_row_ok x [] [] H1 H2 H3) as (y & w & Hc & _); [constructor|].
    by exists y, [], [], w.
  Qed.

Lemma make_exists k x y :
    row_ok nf fmt x -> k = nf \/ k = schema_columns -> row_copied nf x y -> exists b, record_made fmt k y b.
  Proof.
    intros Hx Hk Hc. set (rec := record_of fmt (take (Z.to_nat k) y)). set (blk := replicate (S (length rec)) 0).
    assert (Hblk : (length rec < length blk)%nat) by (unfold blk; rewrite length_replicate; lia).
    destruct (record_made_run x y k blk [] 0 Hx Hc Hk) as (r & w1 & b & w2 & Hmk & Hs & _); [constructor|done|].
    exists b, blk, [], r, w1, 0, w2. split_and!; [constructor| |done..].
    apply Forall_replicate. unfold is_byte. lia.
  Qed.
End row.

(** What the record thread makes of the rows when it reads [num_rec_fields] too
    early. *)
Definition truncate_first (rows : list (list Mem)) : list (list Mem) :=
  match rows with
  | [] => []
  | x :: xs => take (Z.to_nat schema_columns) x :: xs
  end.

(** ** Packets as bytes *)

Lemma Forall2_concat_split {A C} (P : A -> C -> Prop) xs yss :
  Forall2 P xs (concat yss) -> exists xss, xs = concat xss /\ Forall2 (Forall2 P) xss yss.
Proof.
  revert xs. induction yss as [|ys yss IH]; intros xs Hx; cbn in Hx.
  - apply Forall2_nil_inv_r in Hx as ->. by exists [].
  - apply Forall2_app_inv_r in Hx as (xs1 & xs2 & H1 & H2 & ->).
    destruct (IH _ H2) as (xss & -> & Hxss). exists (xs1 :: xss). split; [done|by constructor].
Qed.

(** The bytes handed to [SSL_write] for a packet; [dest] is the buffer from the
    packet before. *)
Definition packed (b : record_batch) (pkt : list Z) : Prop :=
  exists dest w w', Z.of_nat (length dest) = RECV_BUF_SIZE /\ serialize_before_send dest b w = Done (pkt, w').

Lemma packed_parses b pkt :
  Z.of_nat (length (serial_data b)) = payload_size -> packed b pkt ->
  parses pkt (Mk_host_batch (pkt_num (pkt_type b)) (i32 (num_records b)) (serial_data b)).
Proof.
  intros Hl (dest & w & w' & Hd & Hs) w2. destruct (packet_parse dest b w Hd Hl) as (pkt' & Hs' & _ & _).
  destruct (packet_parse dest b w2 Hd Hl) as (pkt2 & Hs2 & _ & Hp2).
  assert (Heq : pkt2 = pkt); [|by subst pkt2].
  rewrite Hs in Hs'. injection Hs' as -> ->. revert Hs Hs2. clear. unfold serialize_before_send, buf_write, buf_read.
  unfold mbind, M_bind. repeat (case_match; try done). unfold mret, M_ret in *. intros. simplify_eq. done.
Qed.

Lemma carried_batch pkt ws ps :
  carries pkt ws -> Forall2 wire_of ps ws ->
  batch_of (Mk_host_batch (pkt_num (pkt_type pkt)) (i32 (num_records pkt)) (serial_data pkt)) ps.
Proof.
  intros (Ht & Hn & _ & Hl & pad & Hd) Hw. split; [by rewrite Ht|]. cbn.
  assert (Hle : (length ws <= length (concat ws))%nat).
  { clear -Hw. induction Hw as [|p w ps ws Hp _ IH]; cbn; [lia|]. rewrite length_app, (length_wire _ _ Hp). lia. }
  rewrite Hd, length_app in Hl. unfold payload_size, RECV_BUF_SIZE in Hl.
  rewrite Hn, i32_small, (Forall2_length _ _ _ Hw) by lia. split; [done|]. by exists ws, pad.
Qed.

(** ** The whole way *)

Section end_to_end.
  Context {B : Type} `{BtreeLaws B} {HP : HostPool} (nf fmt n_cols : Z).

Abbreviation ships := (shipped (row_copied nf) (record_made fmt)).

Lemma shipped_all rows wires :
    Forall (row_ok nf fmt) rows -> Forall2 (ships nf) rows wires -> Forall2 wire_of (record_of fmt <$> rows) wires.
  Proof.
    intros Hok Hs. apply Forall2_fmap_l. induction Hs as [|x b rows wires Hx _ IH]; [constructor|].
    apply Forall_cons_1 in Hok as [Hx0 Hok]. constructor; [|auto].
    pose proof (shipped_wire nf fmt x nf b Hx0 ltac:(by left) Hx) as Hw. destruct Hx0 as (_ & Hl & _).
    by rewrite take_ge in Hw by lia.
  Qed.

Lemma shipped_records rows wires :
    Forall (row_ok nf fmt) rows -> stale_first (ships nf) (ships schema_columns) rows wires ->
    exists got, (got = rows \/ got = truncate_first rows) /\ Forall2 wire_of (record_of fmt <$> got) wires.
  Proof.
    intros Hok Hs. destruct rows as [|x rows], wires as [|b wires]; [exists []; split; [by left|constructor]|done|done|].
    destruct Hs as [Hx Hs]. pose proof Hok as Hall. apply Forall_cons_1 in Hok as [Hx0 Hok]. destruct Hx as [Hx|Hx].
    - exists (x :: rows). split; [by left|]. apply shipped_all; [done|by constructor].
    - exists (truncate_first (x :: rows)). split; [by right|]. constructor; [|by apply shipped_all].
      apply (shipped_wire nf fmt); [done|by right|done].
  Qed.

Lemma carried_batches pkts sentw pss :
    Forall2 carries pkts sentw -> Forall2 (Forall2 wire_of) pss sentw ->
    Forall2 batch_of
      ((fun b => Mk_host_batch (pkt_num (pkt_type b)) (i32 (num_records b)) (serial_data b)) <$> pkts) pss.
  Proof.
    intros Hc. revert pss. induction Hc as [|pkt ws pkts sentw Hp _ IH]; intros pss Hps.
    - apply Forall2_nil_inv_r in Hps as ->. constructor.
    - apply Forall2_cons_inv_r in Hps as (ps & pss' & Hw & Hps & ->). rewrite fmap_cons.
      constructor; [by eapply carried_batch|auto].
  Qed.

Lemma packed_all pkts net :
    Forall (fun b => Z.of_nat (length (serial_data b)) = payload_size) pkts -> Forall2 packed pkts net ->
    Forall2 parses net ((fun b => Mk_host_batch (pkt_num (pkt_type b)) (i32 (num_records b)) (serial_data b)) <$> pkts).
  Proof.
    intros Hl Hp. induction Hp as [|b pkt pkts net Hb _ IH]; [constructor|].
    apply Forall_cons_1 in Hl as [Hb0 Hl]. rewrite fmap_cons. constructor; [by apply packed_parses|auto].
  Qed.

Lemma carries_lengths pkts sentw :
    Forall2 carries pkts sentw -> Forall (fun b => Z.of_nat (length (serial_data b)) = payload_size) pkts.
  Proof. induction 1 as [|b ws pkts sentw (_ & _ & _ & Hl & _) _ IH]; by constructor. Qed.

(** The rows that arrive have plain cells, and records of a packet's size. *)
Lemma got_ok rows got :
    Forall (row_ok nf fmt) rows -> got = rows \/ got = truncate_first rows ->
    Forall (fun row => Forall cell_ok row /\ Z.of_nat (length (record_of fmt row)) < 2 ^ 31) got.
  Proof.
    assert (Hrow : forall x, row_ok nf fmt x -> Forall cell_ok x /\ Z.of_nat (length (record_of fmt x)) < 2 ^ 31).
    { intros x (_ & _ & Hc & _ & _ & Hf & _). unfold payload_size, RECV_BUF_SIZE in Hf. split; [done|lia]. }
    intros Hok [-> | ->]; [by eapply Forall_impl|]. destruct Hok as [|x xs Hx Hxs]; constructor; [|by eapply Forall_impl].
    destruct Hx as (_ & _ & Hc & _ & _ & _ & Hf). unfold payload_size, RECV_BUF_SIZE in Hf.
    split; [by apply Forall_take|lia].
  Qed.

Lemma end_to_end_ok rows buf n0 s net d hs :
    Forall (row_ok nf fmt) rows -> Z.of_nat (length rows) <= MAX_ROWID ->
    Z.of_nat (length buf) = payload_size -> bt_rows d = ∅ ->
    rtc (sys_step (row_copied nf) (record_made fmt) nf) (sys_init rows schema_columns buf n0) s ->
    finished s -> p_failed (s_p s) = false ->
    Forall2 packed (c_sent (s_c s)) net ->
    rtc (host_step n_cols) (host_init net d) hs -> k_pc hs = KEnd ->
    exists got, (got = rows \/ got = truncate_first rows) /\ (nf = schema_columns -> got = rows) /\
      bt_rows (h_db hs) = table (record_of fmt <$> got) /\
      forall i row, got !! i = Some row ->
        exists rec, bt_rows (h_db hs) !! (Z.of_nat i + 1) = Some rec /\
          forall w, exists cs,
            sqlite3VdbeRecordUnpack (length row) (Z.of_nat (length rec)) rec w = Done (cs, w) /\
            value_of <$> cs = value_of <$> row.
  Proof.
    intros Hok Hmax Hbuf Hd Hrun Hfin Hnofail Hnet Hhost Hend.
    assert (Htable : exists got, (got = rows \/ got = truncate_first rows) /\
      bt_rows (h_db hs) = table (record_of fmt <$> got)).
    { assert (Hfits : forall k x y b, k = nf \/ k = schema_columns -> x ∈ rows -> row_copied nf x y ->
        record_made fmt k y b -> Z.of_nat (length b) <= payload_size).
      { intros k x y b Hk Hx. rewrite Forall_forall in Hok. apply (made_fits nf fmt); [by apply Hok|done]. }
      destruct (deliver_ok _ _ _ _ rows Hfits buf n0 Hbuf s Hrun Hfin)
        as (pkts & e & sentw & Hsent & He & Hle & Hc & xs & Hrows & Hsh & Htodo).
      rewrite (Htodo Hnofail), app_nil_r in Hrows. subst xs.
      destruct (shipped_records rows _ Hok Hsh) as (got & Hgot & Hwire).
      destruct (Forall2_concat_split _ _ _ Hwire) as (pss & Hpss & Hw).
      pose proof (carried_batches _ _ _ Hc Hw) as Hb. rewrite Hsent in Hnet.
      assert (Hlens : Forall (fun b => Z.of_nat (length (serial_data b)) = payload_size) (pkts ++ [e])).
      { apply Forall_app_2; [by eapply carries_lengths|by repeat constructor]. }
      pose proof (packed_all _ _ Hlens Hnet) as Hparse. rewrite fmap_app in Hparse.
      exists got. split; [done|].
      rewrite Hpss. eapply (inserts_ok n_cols [] _ _ _ Hb); [| |exact Hparse|done|exact Hhost|done].
      - unfold is_end. cbn. by rewrite He.
      - rewrite <- Hpss, length_fmap. cbn. destruct Hgot as [-> | ->]; [lia|]. by destruct rows. }
    destruct Htable as (got & Hgot & Htable). exists got. split; [done|]. split.
    { intros E. destruct Hgot as [->| ->]; [done|]. destruct Hok as [|x xs (_ & Hl & _) _]; [done|].
      cbn. f_equal. apply take_ge. lia. }
    split; [done|]. intros i row Hi. pose proof (got_ok rows got Hok Hgot) as Hall.
    destruct (Forall_lookup_1 _ _ _ _ Hall Hi) as [Hcells Hlt].
    exists (record_of fmt row). split.
    - rewrite Htable. unfold table. apply lookup_map_seqZ_Some. split; [lia|].
      replace (Z.to_nat (Z.of_nat i + 1 - 1)) with i by lia. by rewrite list_lookup_fmap, Hi.
    - intros w. destruct (unpack_record fmt row [] w Hcells) as (cs & Hu & Hv); [constructor|done|].
      rewrite app_nil_r in Hu. by exists cs.
  Qed.

(** C1. From query to table: let a query produce rows of plain cells whose records
    fit a packet.  When the storage server's three threads have finished
    without a query error, in any interleaving, the packets they sent are
    received, and the host's two threads have finished, in any interleaving,
    the host's table holds exactly the records of the rows, numbered from 1 in
    the order of the query, and every record reads back as the values of its
    row.  The one exception is the first row, of which only the first column may
    have been sent; a query of one column always arrives whole. *)
Theorem query_end_to_end rows buf n0 s net d hs :
    Forall (row_ok nf fmt) rows -> Z.of_nat (length rows) <= MAX_ROWID ->
    Z.of_nat (length buf) = payload_size -> bt_rows d = ∅ ->
    rtc (sys_step (row_copied nf) (record_made fmt) nf) (sys_init rows schema_columns buf n0) s ->
    finished s -> p_failed (s_p s) = false ->
    Forall2 packed (c_sent (s_c s)) net ->
    rtc (host_step n_cols) (host_init net d) hs -> k_pc hs = KEnd ->
    exists got, (got = rows \/ got = truncate_first rows) /\ (nf = schema_columns -> got = rows) /\
      bt_rows (h_db hs) = table (record_of fmt <$> got) /\
      forall i row, got !! i = Some row ->
        exists rec, bt_rows (h_db hs) !! (Z.of_nat i + 1) = Some rec /\
          forall w, exists cs,
            sqlite3VdbeRecordUnpack (length row) (Z.of_nat (length rec)) rec w = Done (cs, w) /\
            value_of <$> cs = value_of <$> row.
  Proof. apply end_to_end_ok. Qed.

(** C19. The exception does occur: whatever the rows, there is an interleaving,
    ending without an error, in which the record sent first is that of the first
    column of the first row alone, because the record thread ran before
    [sqlite3_exec] had set [num_rec_fields]. *)
Theorem first_row_truncated x xs buf n0 :
    Forall (row_ok nf fmt) (x :: xs) -> Z.of_nat (length buf) = payload_size ->
    exists s pkts e sentw b bs,
      rtc (sys_step (row_copied nf) (record_made fmt) nf) (sys_init (x :: xs) schema_columns buf n0) s /\
      finished s /\ p_failed (s_p s) = false /\
      c_sent (s_c s) = pkts ++ [e] /\ Forall2 carries pkts sentw /\ concat sentw = b :: bs /\
      wire_of (record_of fmt (take 1 x)) b.
  Proof.
    intros Hok Hbuf. pose proof Hok as Hx. apply Forall_cons_1 in Hx as [Hx _]. rewrite Forall_forall in Hok.
    destruct (copy_exists nf fmt x Hx) as [y Hy].
    destruct (make_exists nf fmt schema_columns x y Hx ltac:(by right) Hy) as [b Hb].
    destruct (early_run (row_copied nf) (record_made fmt) nf schema_columns x xs y b buf n0)
      as (s & pkts & e & sentw & Hr & Hf & Hnf & Hs & Hc & bs & Hbs); [| | |done|done|done|].
    - intros k x' y' b' Hk Hx'. apply (made_fits nf fmt); [by apply Hok|done].
    - intros x' Hx'. apply (copy_exists nf fmt). by apply Hok.
    - intros k x' y' Hk Hx'. apply (make_exists nf fmt); [by apply Hok|done].
    - exists s, pkts, e, sentw, b, bs. split_and!; [done..|].
      apply (shipped_wire nf fmt x schema_columns b Hx ltac:(by right)). by exists y.
  Qed.
End end_to_end.

(** ** Witness *)

Lemma ex_row_row_ok : row_ok 5 0 ex_row.
Proof.
  split_and!; [done|done|exact ex_row_ok| | |vm_compute; done|vm_compute; done].
  - repeat apply Forall_cons_2; try apply Forall_nil_2; intros E; vm_compute in E; try discriminate; vm_compute; done.
  - repeat apply Forall_cons_2; try apply Forall_nil_2; intros E1 E2 E3; vm_compute in E1, E2, E3 |- *; done.
Qed.

Lemma packed_exists pkts :
  Forall (fun b => Z.of_nat (length (serial_data b)) = payload_size) pkts ->
  exists net, Forall2 packed pkts net.
Proof.
  assert (Hdest : exists dest : list Z, Z.of_nat (length dest) = RECV_BUF_SIZE).
  { exists (replicate (Z.to_nat RECV_BUF_SIZE) 0). rewrite length_replicate. apply Z2Nat.id. unfold RECV_BUF_SIZE. lia. }
  destruct Hdest as [dest Hb]. induction 1 as [|b pkts Hl _ [net IH]]; [by exists []|].
  destruct (packet_parse _ b [] Hb Hl) as (pkt & Hp & _). exists (pkt :: net). constructor; [|done].
  exists dest, [], []. split; [exact Hb|exact Hp].
Qed.

(** A finished run of both servers on two rows. *)
Lemma example_run {HP : HostPool} :
  Forall (row_ok 5 0) [ex_row; ex_row] /\
  exists (s : sys (list Mem) (list Mem)) net (hs : host (gmap Z (list Z))),
    rtc (sys_step (row_copied 5) (record_made 0) 5) (sys_init [ex_row; ex_row] schema_columns toy_buf 0) s /\
    finished s /\ p_failed (s_p s) = false /\ Forall2 packed (c_sent (s_c s)) net /\
    rtc (host_step 4) (host_init net ∅) hs /\ k_pc hs = KEnd.
Proof.
  assert (Hok : Forall (row_ok 5 0) [ex_row; ex_row]) by (repeat (constructor; [exact ex_row_row_ok|]); constructor).
  split; [exact Hok|]. pose proof Hok as Hok'. rewrite Forall_forall in Hok'.
  assert (Hfits : forall k x y b, k = 5 \/ k = schema_columns -> x ∈ [ex_row; ex_row] -> row_copied 5 x y ->
    record_made 0 k y b -> Z.of_nat (length b) <= payload_size).
  { intros k x y b Hk Hx. apply (made_fits 5 0); [by apply Hok'|done]. }
  destruct (run_exists (row_copied 5) (record_made 0) 5 schema_columns [ex_row; ex_row]
    (sys_init [ex_row; ex_row] schema_columns toy_buf 0) [] [] [] [] Hfits) as (s & _ & _ & _ & _ & Hr & Hf & Hnf & _).
  { intros x Hx. by apply (copy_exists 5 0), Hok'. }
  { intros k x y Hk Hx. apply (make_exists 5 0); [by apply Hok'|done]. }
  { apply inv_init, toy_buf_length. }
  destruct (deliver_ok _ _ _ _ _ Hfits toy_buf 0 toy_buf_length s Hr Hf)
    as (pkts & e & sentw & Hsent & He & Hle & Hc & xs & Hrows & Hsh & Htodo).
  rewrite (Htodo Hnf), app_nil_r in Hrows. subst xs.
  assert (Hlens : Forall (fun b => Z.of_nat (length (serial_data b)) = payload_size) (c_sent (s_c s))).
  { rewrite Hsent. apply Forall_app_2; [by eapply carries_lengths|by repeat constructor]. }
  destruct (packed_exists _ Hlens) as [net Hnet].
  destruct (shipped_records 5 0 _ _ Hok Hsh) as (got & Hgot & Hwire).
  destruct (Forall2_concat_split _ _ _ Hwire) as (pss & Hpss & Hw).
  pose proof (carried_batches _ _ _ Hc Hw) as Hb.
  pose proof (packed_all _ _ Hlens Hnet) as Hparse. rewrite Hsent, fmap_app in Hparse.
  destruct (host_run_exists (B:=gmap Z (list Z)) 4 [] _ (Mk_host_batch (pkt_num (pkt_type e)) (i32 (num_records e)) (serial_data e))
    pss (host_init net ∅) [] 0 Hb) as (hs & Hh & Hk).
  { unfold is_end. cbn. by rewrite He. }
  { rewrite <- Hpss, length_fmap. destruct Hgot as [-> | ->]; vm_compute; done. }
  { apply hinv_init; [exact Hparse|done]. }
  { unfold in_step. cbn. intros ->. apply Forall2_nil_inv_l in Hparse. by destruct pkts. }
  by exists s, net, hs.
Qed.

#[local] Existing Instance secure_pool.

Lemma query_end_to_end_witness :
  exists (s : sys (list Mem) (list Mem)) (hs : host (gmap Z (list Z))) got,
    finished s /\ k_pc hs = KEnd /\ (got = [ex_row; ex_row] \/ got = [take 1 ex_row; ex_row]) /\
    bt_rows (h_db hs) = table (record_of 0 <$> got) /\
    exists rec, bt_rows (h_db hs) !! 2 = Some rec /\
      exists cs, sqlite3VdbeRecordUnpack 5 (Z.of_nat (length rec)) rec [] = Done (cs, []) /\
        value_of <$> cs = [VNull; VInt 300; VInt (-2); VReal 0x4014000000000000; VText [97; 98; 99]].
Proof.
  destruct example_run as (Hok & s & net & hs & Hr & Hf & Hnf & Hnet & Hh & Hk).
  destruct (query_end_to_end 5 0 4 [ex_row; ex_row] toy_buf 0 s net ∅ hs Hok ltac:(vm_compute; done) toy_buf_length
    eq_refl Hr Hf Hnf Hnet Hh Hk) as (got' & Hgot' & _ & Ht & Hrow).
  exists s, hs, got'. split; [exact Hf|]. split; [exact Hk|]. split; [exact Hgot'|].
  split; [exact Ht|]. destruct (Hrow 1%nat ex_row ltac:(by destruct Hgot' as [-> | ->])) as (rec & Hl & Hu).
  exists rec. split; [exact Hl|]. exact (Hu []).
Defined.

Lemma first_row_truncated_witness :
  exists (s : sys (list Mem) (list Mem)) pkts e sentw b bs,
    rtc (sys_step (row_copied 5) (record_made 0) 5) (sys_init [ex_row; ex_row] schema_columns toy_buf 0) s /\
    finished s /\ p_failed (s_p s) = false /\
    c_sent (s_c s) = pkts ++ [e] /\ Forall2 carries pkts sentw /\ concat sentw = b :: bs /\
    wire_of (record_of 0 [Mk_Mem 0 MEM_Null 0 []]) b.
Proof.
  apply (first_row_truncated 5 0 ex_row [ex_row] toy_buf 0); [|exact toy_buf_length].
  repeat (constructor; [exact ex_row_row_ok|]). constructor.
Defined.
