(* ===== verification/Server.v ===== *)
(** * Setting up a query

    The rest of the two servers' programs that is not threads: how the host's
    [main] prepares the subquery and the storage server's [main] turns it into
    the statement that creates the table ([make_query_string],
    [schema_callback], [storage/secure/sec_ssd_server.c]), the command line and
    the column count of the host ([parse_options], [col_count],
    [host/secure/host_server.c]), and the loops both use to move a fixed number
    of bytes through [SSL_read] and [SSL_write].

    A C string in a buffer is the bytes up to the first 0.  OpenSSL is outside:
    what its calls return is an argument. *)

From stdpp Require Import base tactics list numbers option.
From Stdlib Require Import ZArith Lia ZifyBool.
From S2P Require Import Prelude CipherUtil Record.

Local Open Scope Z_scope.

(** ** Strings *)

Fixpoint strlen_from (buf : list Z) (n : Z) : M Z :=
  match buf with
  | [] => throw OutOfBounds
  | c :: buf => if c =? 0 then mret n else strlen_from buf (n + 1)
  end.

Definition strlen (buf : list Z) : M Z := strlen_from buf 0.

(** The characters of the string in [buf]. *)
Definition c_string (buf : list Z) : M (list Z) :=
  n ← strlen buf;
  buf_read 0 n buf.

(** ** The host's command line *)

Record query_opts := Mk_query_opts {
  outer_query : option (list Z);
  sub_query : option (list Z);
  db : option (list Z);
}.

(** [argv[i]]: NULL at [argc], nothing beyond. *)
Definition arg (argv : list (list Z)) (i : nat) : M (option (list Z)) :=
  if Nat.ltb (length argv) i then throw OutOfBounds else mret (argv !! i).

Definition parse_options (argv : list (list Z)) : M (Z * query_opts) :=
  o ← arg argv 4;
  s ← arg argv 6;
  d ← arg argv 1;
  mret (0, Mk_query_opts o s d).

(** Commas plus one; [strlen] is evaluated before every round. *)
Fixpoint count_commas (s : list Z) : Z :=
  match s with
  | [] => 0
  | c :: s => (if c =? 44 then 1 else 0) + count_commas s
  end.

Definition col_count (sql : list Z) : M Z :=
  s ← c_string sql;
  mret (count_commas s + 1).

(** The subquery in the 4096 bytes that are sent. *)
Definition host_query_buffer (q : list Z) : M (list Z) :=
  buf_write 0 (q ++ [0]) (replicate 4096 0).

(** ** The statement that creates the table *)

(** ["CREATE TEMPORARY TABLE TABLE1 AS"] and ["LIMIT 0;"] *)
Definition create_table_cmd : list Z :=
  [67; 82; 69; 65; 84; 69; 32; 84; 69; 77; 80; 79; 82; 65; 82; 89; 32; 84; 65; 66; 76; 69; 32;
   84; 65; 66; 76; 69; 49; 32; 65; 83].
Definition limit_cmd : list Z := [76; 73; 77; 73; 84; 32; 48; 59].

(** The buffers [dest] and [middle] after the call: the last character of
    [middle] is cut off, and [sprintf] joins the three parts. *)
Definition make_query_string (dest start middle end_ : list Z) : M (list Z * list Z) :=
  n ← strlen middle;
  middle ← buf_write (n - 1) [0] middle;
  s ← c_string middle;
  dest ← buf_write 0 (start ++ [32] ++ s ++ [32] ++ end_ ++ [0]) dest;
  mret (dest, middle).

(** The size of the buffer for it. *)
Definition out_str_len (len : Z) : Z :=
  let out_str_len := Z.of_nat (length create_table_cmd) + Z.of_nat (length limit_cmd) + len in
  if 2 * len <=? out_str_len then out_str_len + 1 else 2 * len.

(** [main] from the received subquery to the statement; [blk] is what a block from
    [malloc] holds. *)
Definition create_table_select (subquery : list Z) (blk : Z -> list Z) : M (list Z * list Z) :=
  len ← strlen subquery;
  _ ← must_malloc;
  make_query_string (blk (out_str_len len)) create_table_cmd subquery limit_cmd.

(** [schema_cmd] from the first column of the result. *)
Definition schema_callback (argv0 : list Z) (blk : Z -> list Z) : M (list Z) :=
  n ← strlen argv0;
  _ ← must_malloc;
  s ← c_string argv0;
  buf_write 0 (s ++ [59; 0]) (blk (n + 1)).

(** ** Moving a buffer

    What [SSL_read] does: some bytes, or a return value that is not positive. *)
Inductive ssl_result :=
  | SslData (bs : list Z)
  | SslErr (rc : Z).

(** [while(nbuffer < n) { len = SSL_read(ssl, buf + nbuffer, n - nbuffer); nbuffer += len; }]
    over the results of the calls; [None] when the loop is still waiting. *)
Fixpoint recv_loop (n : Z) (rs : list ssl_result) (buf : list Z) (nbuffer : Z) : M (option (list Z)) :=
  if n <=? nbuffer then mret (Some buf)
  else match rs with
       | [] => mret None
       | SslData bs :: rs =>
           buf ← buf_write nbuffer bs buf;
           recv_loop n rs buf (nbuffer + Z.of_nat (length bs))
       | SslErr rc :: rs => recv_loop n rs buf (nbuffer + rc)
       end.

(** The bytes given to the connection by
    [while(nbuffer < n) { len = SSL_write(ssl, buf + nbuffer, n - nbuffer); nbuffer += len; }],
    [rs] being the values returned. *)
Fixpoint send_loop (n : Z) (rs : list Z) (buf : list Z) (nbuffer : Z) (out : list (list Z))
  : M (option (list (list Z))) :=
  if n <=? nbuffer then mret (Some out)
  else match rs with
       | [] => mret None
       | len :: rs =>
           b ← buf_read nbuffer (Z.max len 0) buf;
           send_loop n rs buf (nbuffer + len) (out ++ [b])
       end.

(** ** Examples *)

Example parse_example :
  parse_options [[0]; [1]; [2]; [3]; [4]; [5]; [6]] [] = Done ((0, Mk_query_opts (Some [4]) (Some [6]) (Some [1])), []).
Proof. reflexivity. Qed.

Example col_count_example : col_count [97; 44; 98; 44; 99; 0; 44] [] = Done (3, []).
Proof. reflexivity. Qed.
