(* ===== verification/ServerProofs.v ===== *)
(** * Query set-up: what fits and what does not

    Theorems about [Server]: the subquery arrives, the statement that creates the
    table fits its buffer or overflows it by one byte, and the transfer loops
    carry a buffer across unless the connection reports an error. *)

From stdpp Require Import base tactics list numbers option.
From Stdlib Require Import ZArith Lia ZifyBool.
From S2P Require Import Prelude CipherUtil RecordProofs WireProofs Server.

Local Open Scope Z_scope.

(** ** Strings *)

Lemma strlen_from_spec s rest n w :
  Forall (fun c => c <> 0) s -> strlen_from (s ++ 0 :: rest) n w = Done (n + Z.of_nat (length s), w).
Proof.
  intros Hs. revert n. induction Hs as [|c s Hc _ IH]; intros n; cbn [app strlen_from length].
  - unfold mret, M_ret. by rewrite Z.add_0_r.
  - replace (c =? 0) with false by lia. rewrite IH. f_equal. f_equal. lia.
Qed.

Lemma strlen_spec s rest w :
  Forall (fun c => c <> 0) s -> strlen (s ++ 0 :: rest) w = Done (Z.of_nat (length s), w).
Proof. intros Hs. unfold strlen. by rewrite strlen_from_spec. Qed.

Lemma c_string_spec s rest w :
  Forall (fun c => c <> 0) s -> c_string (s ++ 0 :: rest) w = Done (s, w).
Proof.
  intros Hs. unfold c_string. rewrite (bind_done _ _ _ _ _ (strlen_spec s rest w Hs)).
  by apply (buf_read_at [] s (0 :: rest)).
Qed.

(** Writing at the front of a buffer, or past its end. *)
Lemma buf_write_front bs buf w :
  (length bs <= length buf)%nat -> buf_write 0 bs buf w = Done (bs ++ drop (length bs) buf, w).
Proof.
  intros Hl. rewrite <- (take_drop (length bs) buf) at 1.
  apply (buf_write_at [] (take (length bs) buf) bs); [done|rewrite length_take; lia].
Qed.

Lemma buf_write_too_long bs buf w :
  (length buf < length bs)%nat -> buf_write 0 bs buf w = Fault OutOfBounds.
Proof. intros Hl. unfold buf_write. by replace (_ || _) with true by lia. Qed.

(** The subquery arrives: a subquery of fewer than 4096 characters is put into
    the 4096 bytes the host sends, and the storage server reads the same string
    from them; a longer one is written past the host's buffer. *)
Theorem subquery_roundtrip q w :
  Forall (fun c => c <> 0) q ->
  if decide (length q < 4096)%nat
  then exists buf, host_query_buffer q w = Done (buf, w) /\ length buf = 4096%nat /\ c_string buf w = Done (q, w)
  else host_query_buffer q w = Fault OutOfBounds.
Proof.
  intros Hq. unfold host_query_buffer. case_decide as Hl.
  - rewrite buf_write_front by (rewrite length_app, length_replicate; cbn [length]; lia).
    eexists. split; [reflexivity|]. split.
    + rewrite length_app, length_drop, length_app, length_replicate. cbn [length]. lia.
    + rewrite <- app_assoc. cbn [app]. by apply c_string_spec.
  - apply buf_write_too_long. rewrite length_app, length_replicate. cbn [length]. lia.
Qed.

(** ** The statement *)

(** [make_query_string] on a subquery [q] followed by one character, usually a
    semicolon. *)
Lemma make_query_string_run dest start q c rest end_ w :
  Forall (fun c => c <> 0) q -> c <> 0 ->
  make_query_string dest start ((q ++ [c]) ++ 0 :: rest) end_ w
  = (dest ← buf_write 0 (start ++ [32] ++ q ++ [32] ++ end_ ++ [0]) dest;
     mret (dest, q ++ 0 :: 0 :: rest)) w.
Proof.
  intros Hq Hc. unfold make_query_string.
  assert (Hqc : Forall (fun c => c <> 0) (q ++ [c])) by (apply Forall_app_2; [done|by repeat constructor]).
  rewrite (bind_done _ _ _ _ _ (strlen_spec _ rest w Hqc)).
  assert (Hw : buf_write (Z.of_nat (length (q ++ [c])) - 1) [0] ((q ++ [c]) ++ 0 :: rest) w
    = Done (q ++ [0] ++ 0 :: rest, w)).
  { rewrite <- app_assoc. apply (buf_write_at q [c] [0] (0 :: rest)); [|done]. rewrite length_app. cbn. lia. }
  rewrite (bind_done _ _ _ _ _ Hw).
  by rewrite (bind_done _ _ _ _ _ (c_string_spec q (0 :: rest) w Hq)).
Qed.

Lemma out_str_len_spec n : 0 <= n -> out_str_len n = if n <=? 40 then n + 41 else 2 * n.
Proof.
  intros Hn. unfold out_str_len. change (Z.of_nat (length create_table_cmd)) with 32.
  change (Z.of_nat (length limit_cmd)) with 8. destruct (n <=? 40) eqn:E.
  - replace (2 * n <=? _) with true by lia. lia.
  - replace (2 * n <=? _) with false by lia. lia.
Qed.

Section statement.
  Context (q : list Z) (c : Z) (rest : list Z) (blk : Z -> list Z) (w : world).
  Context (Hq : Forall (fun c => c <> 0) q) (Hc : c <> 0).
  Context (Hblk : forall n, 0 <= n -> Z.of_nat (length (blk n)) = n) (Hw : all_ok w).

Definition statement : list Z := create_table_cmd ++ [32] ++ q ++ [32] ++ limit_cmd ++ [0].

Lemma length_statement : length statement = (length q + 43)%nat.
  Proof. unfold statement. rewrite !length_app. cbn. lia. Qed.

Lemma create_table_run :
    exists w', create_table_select ((q ++ [c]) ++ 0 :: rest) blk w
    = (dest ← buf_write 0 statement (blk (out_str_len (Z.of_nat (length q) + 1)));
       mret (dest, q ++ 0 :: 0 :: rest)) w'.
  Proof.
    unfold create_table_select.
    assert (Hqc : Forall (fun c => c <> 0) (q ++ [c])) by (apply Forall_app_2; [done|by repeat constructor]).
    rewrite (bind_done _ _ _ _ _ (strlen_spec _ rest w Hqc)), length_app.
    edestruct @bind_must_malloc as (w' & _ & ->); [exact Hw|]. exists w'. rewrite make_query_string_run by done.
    by replace (Z.of_nat (length q + length [c])) with (Z.of_nat (length q) + 1) by (cbn; lia).
  Qed.

(** The statement that creates the table: for a subquery of at least 42
    characters the allocated buffer is large enough and holds
    ["CREATE TEMPORARY TABLE TABLE1 AS <subquery> LIMIT 0;"] with the
    subquery's last character cut off. *)
Theorem create_table_text :
    (42 <= length q + 1)%nat ->
    exists dest mid w', create_table_select ((q ++ [c]) ++ 0 :: rest) blk w = Done ((dest, mid), w') /\
      c_string dest w' = Done (create_table_cmd ++ [32] ++ q ++ [32] ++ limit_cmd, w').
  Proof.
    intros Hl. destruct create_table_run as [w' ->]. pose proof length_statement as Hs.
    assert (Hsz : (length statement <= length (blk (out_str_len (Z.of_nat (length q) + 1))))%nat).
    { rewrite Hs. apply Nat2Z.inj_le. rewrite Hblk; rewrite out_str_len_spec by lia;
        replace (_ <=? 40) with false by lia; lia. }
    rewrite (bind_done _ _ _ _ _ (buf_write_front statement _ w' Hsz)).
    eexists _, _, w'. split; [reflexivity|]. set (more := drop _ _).
    replace (statement ++ more) with ((create_table_cmd ++ [32] ++ q ++ [32] ++ limit_cmd) ++ 0 :: more)
      by (unfold statement; by rewrite <- !app_assoc).
    apply c_string_spec.
    repeat apply Forall_app_2; [|by repeat constructor|done|by repeat constructor|];
      apply (bool_decide_unpack _); vm_compute; exact I.
  Qed.

(** C39. For a subquery of at most 41 characters, the last one included, the buffer is
    one byte too small: when the block is as long as requested, [sprintf]'s
    terminating 0 is written past it. *)
Theorem create_table_overflow :
    (length q + 1 <= 41)%nat ->
    create_table_select ((q ++ [c]) ++ 0 :: rest) blk w = Fault OutOfBounds.
  Proof.
    intros Hl. destruct create_table_run as [w' ->]. apply bind_fault, buf_write_too_long. rewrite length_statement.
    apply Nat2Z.inj_lt. rewrite Hblk; rewrite out_str_len_spec by lia; destruct (_ <=? 40) eqn:E; lia.
  Qed.
End statement.

(** [schema_callback] writes one byte past its buffer on every schema: it
    allocates the length of the text and one more, and appends a semicolon
    besides the terminating 0. *)
Theorem schema_callback_overflow s rest blk w :
  Forall (fun c => c <> 0) s -> (forall n, 0 <= n -> Z.of_nat (length (blk n)) = n) -> all_ok w ->
  schema_callback (s ++ 0 :: rest) blk w = Fault OutOfBounds.
Proof.
  intros Hs Hblk Hw. unfold schema_callback. rewrite (bind_done _ _ _ _ _ (strlen_spec s rest w Hs)).
  edestruct @bind_must_malloc as (w' & _ & ->); [exact Hw|]. rewrite (bind_done _ _ _ _ _ (c_string_spec s rest w' Hs)).
  apply buf_write_too_long. specialize (Hblk (Z.of_nat (length s) + 1)). rewrite length_app. cbn. lia.
Qed.

(** ** Moving a buffer *)

(** The connection hands over what was given to it, cut differently. *)
Lemma recv_loop_spec n cs pre old w :
  Forall (fun b : list Z => b <> []) cs -> length old = length (concat cs) ->
  Z.of_nat (length pre + length (concat cs)) = n ->
  recv_loop n (SslData <$> cs) (pre ++ old) (Z.of_nat (length pre)) w = Done (Some (pre ++ concat cs), w).
Proof.
  intros Hcs. revert pre old. induction Hcs as [|b cs Hb _ IH]; intros pre old Hl Hn; cbn [concat length] in *.
  - destruct old; [|done]. cbn [recv_loop fmap list_fmap]. by replace (n <=? _) with true by lia.
  - rewrite length_app in *. rewrite fmap_cons. cbn [recv_loop].
    assert (0 < length b)%nat by (destruct b; [done|cbn; lia]). replace (n <=? _) with false by lia.
    assert (Hw : buf_write (Z.of_nat (length pre)) b (pre ++ old) w = Done (pre ++ b ++ drop (length b) old, w)).
    { rewrite <- (take_drop (length b) old) at 1. apply buf_write_at; [done|]. rewrite length_take. lia. }
    rewrite (bind_done _ _ _ _ _ Hw). specialize (IH (pre ++ b) (drop (length b) old)).
    rewrite length_app, length_drop, <- !app_assoc in IH. rewrite <- Nat2Z.inj_add. apply IH; lia.
Qed.

Lemma send_loop_spec n lens pre post out w :
  Forall (fun l => 0 < l) lens -> foldr Z.add 0 lens = Z.of_nat (length post) ->
  Z.of_nat (length (pre ++ post)) = n ->
  exists cs, send_loop n lens (pre ++ post) (Z.of_nat (length pre)) out w = Done (Some (out ++ cs), w) /\
    concat cs = post /\ Forall (fun b : list Z => b <> []) cs.
Proof.
  intros Hl. revert pre post out. induction Hl as [|l lens Hl0 Hls IH]; intros pre post out Hsum Hn; cbn [foldr] in Hsum.
  - destruct post; [|cbn in Hsum; lia]. exists []. rewrite app_nil_r in *. cbn [send_loop].
    replace (n <=? _) with true by lia. by rewrite app_nil_r.
  - assert (Hpos : 0 <= foldr Z.add 0 lens) by (clear -Hls; induction Hls; cbn; lia).
    rewrite length_app in Hn. cbn [send_loop]. replace (n <=? _) with false by lia.
    set (b := take (Z.to_nat l) post). assert (Hb : Z.of_nat (length b) = l) by (unfold b; rewrite length_take; lia).
    assert (Hpost : post = b ++ drop (Z.to_nat l) post) by (symmetry; apply take_drop).
    clearbody b.
    assert (Hr : buf_read (Z.of_nat (length pre)) (Z.max l 0) (pre ++ post) w = Done (b, w)).
    { rewrite Hpost. apply buf_read_at; [done|lia]. }
    rewrite (bind_done _ _ _ _ _ Hr).
    destruct (IH (pre ++ b) (drop (Z.to_nat l) post) (out ++ [b])) as (cs & Hs & Hc & Hne);
      [rewrite length_drop; lia|rewrite !length_app, length_drop; lia|].
    exists (b :: cs). cbn [concat]. rewrite Hc, <- Hpost. split; [|split; [done|]].
    + rewrite <- app_assoc, <- Hpost, length_app, Nat2Z.inj_add, Hb, <- app_assoc in Hs. exact Hs.
    + constructor; [|done]. intros E. rewrite E in Hb. cbn in Hb. lia.
Qed.

(** A buffer crosses the connection whole: when [SSL_write] takes the [n] bytes
    in pieces of any positive sizes, and [SSL_read] returns the same bytes cut
    in any other way, the sending loop ends after [n] bytes and the receiving
    loop ends with the sender's buffer. *)
Theorem transfer_roundtrip buf old lens cs w :
  Forall (fun l => 0 < l) lens -> foldr Z.add 0 lens = Z.of_nat (length buf) -> length old = length buf ->
  exists sent, send_loop (Z.of_nat (length buf)) lens buf 0 [] w = Done (Some sent, w) /\
    (concat cs = concat sent -> Forall (fun b : list Z => b <> []) cs ->
      recv_loop (Z.of_nat (length buf)) (SslData <$> cs) old 0 w = Done (Some buf, w)).
Proof.
  intros Hl Hs Ho. destruct (send_loop_spec (Z.of_nat (length buf)) lens [] buf [] w Hl Hs eq_refl)
    as (sent & Hsend & Hc & _). exists sent. split; [exact Hsend|]. intros Hcs Hne. rewrite Hc in Hcs.
  rewrite <- Hcs at 2. apply (recv_loop_spec _ cs [] old w Hne); [by rewrite Hcs|by rewrite Hcs].
Qed.

(** An error of [SSL_read] is counted like data: after a first call that returns
    a negative value, the loop asks again and has what then arrives written in
    front of the buffer. *)
Theorem recv_error_underflow n rc bs rs buf w :
  rc < 0 -> 0 < n -> recv_loop n (SslErr rc :: SslData bs :: rs) buf 0 w = Fault OutOfBounds.
Proof.
  intros Hrc Hn. cbn [recv_loop]. replace (n <=? 0) with false by lia. replace (n <=? 0 + rc) with false by lia.
  apply bind_fault. unfold buf_write. by replace (0 + rc <? 0) with true by lia.
Qed.

(** ** Witnesses *)

(** [SELECT 1;] and a subquery of 42 characters *)
Definition ex_short : list Z := [83; 69; 76; 69; 67; 84; 32; 49].
Definition ex_long : list Z := ex_short ++ replicate 33 32.

Lemma ex_nonzero s : bool_decide (Forall (fun c => c <> 0) s) = true -> Forall (fun c => c <> 0) s.
Proof. apply bool_decide_eq_true. Qed.

Lemma ex_blk n : 0 <= n -> Z.of_nat (length (replicate (Z.to_nat n) 170)) = n.
Proof. intros Hn. rewrite length_replicate. lia. Qed.

Lemma subquery_roundtrip_witness :
  exists buf, host_query_buffer ex_short [] = Done (buf, []) /\ length buf = 4096%nat /\ c_string buf [] = Done (ex_short, []).
Proof. exact (subquery_roundtrip ex_short [] (ex_nonzero ex_short eq_refl)). Defined.

Lemma create_table_text_witness :
  exists dest mid w', create_table_select ((ex_long ++ [59]) ++ [0]) (fun n => replicate (Z.to_nat n) 170) [] = Done ((dest, mid), w') /\
    c_string dest w' = Done (create_table_cmd ++ [32] ++ ex_long ++ [32] ++ limit_cmd, w').
Proof.
  apply (create_table_text ex_long 59 [] (fun n => replicate (Z.to_nat n) 170) [] (ex_nonzero ex_long eq_refl));
    [lia|exact ex_blk|constructor|vm_compute; lia].
Defined.

Lemma create_table_overflow_witness :
  create_table_select ((ex_short ++ [59]) ++ [0]) (fun n => replicate (Z.to_nat n) 170) [] = Fault OutOfBounds.
Proof.
  apply (create_table_overflow ex_short 59 [] (fun n => replicate (Z.to_nat n) 170) [] (ex_nonzero ex_short eq_refl));
    [lia|exact ex_blk|constructor|vm_compute; lia].
Defined.

Lemma schema_callback_overflow_witness :
  schema_callback (ex_short ++ [0]) (fun n => replicate (Z.to_nat n) 170) [] = Fault OutOfBounds.
Proof. exact (schema_callback_overflow ex_short [] _ [] (ex_nonzero ex_short eq_refl) ex_blk (Forall_nil_2 _)). Defined.

Lemma transfer_roundtrip_witness :
  exists sent, send_loop 4 [1; 3] [5; 6; 7; 8] 0 [] [] = Done (Some sent, []) /\
    (concat [[5; 6]; [7; 8]] = concat sent -> Forall (fun b : list Z => b <> []) [[5; 6]; [7; 8]] ->
      recv_loop 4 (SslData <$> [[5; 6]; [7; 8]]) [0; 0; 0; 0] 0 [] = Done (Some [5; 6; 7; 8], [])).
Proof.
  apply (transfer_roundtrip [5; 6; 7; 8] [0; 0; 0; 0] [1; 3] [[5; 6]; [7; 8]] []); [|reflexivity|reflexivity].
  repeat (constructor; [lia|]). constructor.
Defined.

Lemma recv_error_underflow_witness : recv_loop 4 [SslErr (-1); SslData [7]] [0; 0; 0; 0] 0 [] = Fault OutOfBounds.
Proof. apply (recv_error_underflow 4 (-1) [7] [] [0; 0; 0; 0] []); lia. Defined.
