(* ===== verification/Session.v ===== *)
(** * A whole session

    The [main] functions of the two servers from the command line to the threads
    ([host/secure/host_server.c], [storage/secure/sec_ssd_server.c]): the host
    sends the subquery, the storage server creates the temporary table, sends
    its schema, the host creates its own table from it, and the threads move
    the rows.  SQLite's [sqlite3_exec] is behind the interface [Sql]; sockets,
    TLS and thread creation are outside, what the transfers return is an
    argument as in [Server].  The uninitialised arrays on the stack are
    arguments too. *)

From stdpp Require Import base tactics list numbers option relations fin_maps gmap.
From Stdlib Require Import ZArith Lia ZifyBool.
From Stdlib Require String.
Import String.StringSyntax.
From S2P Require Import Prelude CipherUtil Openssl CodecCtx Pragma Varint Record RecordProofs Wire NdpInsert WireProofs.
From S2P Require Import Ring Pipeline PipelineProofs HostThreads EndToEnd Server ServerProofs.

Local Open Scope Z_scope.

(** [sqlite3_exec]: result code, the first columns of the rows given to the
    callback (strings with their 0) and the database afterwards; and the rows of
    a query as the virtual machine produces them. *)
Class Sql (D : Type) := {
  sqlite3_exec : D -> list Z -> Z * list (list Z) * D;
  query_rows : D -> list Z -> list (list Mem);
}.

(** How a stage of [main] ends. *)
Inductive outcome (A : Type) :=
  | Exits (code : Z)    (** [return code] *)
  | Waits               (** in a transfer loop *)
  | Continues (a : A).
Arguments Exits {A}.
Arguments Waits {A}.
Arguments Continues {A}.

(** The results of [sem_init] and of [pthread_create]: a nonzero one ends [main]. *)
Definition failed (results : list Z) : bool := existsb (fun r => negb (r =? 0)) results.

Lemma none_failed results : Forall (fun r => r = 0) results -> failed results = false.
Proof. unfold failed. by induction 1 as [|r rs -> _ IH]; [|cbn]. Qed.

(** ** The storage server *)

Definition schema_query : list Z := str "SELECT sql FROM sqlite_temp_master where tbl_name='TABLE1';".

(** The callback on every row: [schema_cmd] is the text made from the last one. *)
Fixpoint schema_callbacks (rows : list (list Z)) (blk : Z -> list Z) (schema_cmd : option (list Z))
  : M (option (list Z)) :=
  match rows with
  | [] => mret schema_cmd
  | argv0 :: rows =>
      cmd ← schema_callback argv0 blk;
      schema_callbacks rows blk (Some cmd)
  end.

(** [memcpy(dst, src, strlen(src) + 1)] *)
Definition copy_string (src dst : list Z) : M (list Z) :=
  n ← strlen src;
  s ← buf_read 0 (n + 1) src;
  buf_write 0 s dst.

Section storage.
Context {D : Type} `{Sql D}.

(** Database, bytes sent, [producer_args.subquery]. *)
Record storage_ready := Mk_ready {
  sr_db : D;
  sr_sent : list (list Z);
  sr_subquery : list Z;
}.

(** From the accepted connection to the start of the threads: [rs] are the results
    of [SSL_read], [lens] those of [SSL_write], [sems] and [threads] those of
    creating semaphores and threads; [subquery], [schema_send_ser] and [args] are
    what the arrays hold. *)
Definition storage_prepare (db : D) (rs : list ssl_result) (lens sems threads : list Z)
    (subquery schema_send_ser args : list Z) (blk : Z -> list Z) : M (outcome storage_ready) :=
  r ← recv_loop 4096 rs subquery 0;
  match r with
  | None => mret Waits
  | Some subquery =>
      '(stmt, subquery) ← create_table_select subquery blk;
      text ← c_string stmt;
      let '(ret, _, db) := sqlite3_exec db text in
      if negb (ret =? 0) then mret (Exits 1) else
      let '(ret, rows, db) := sqlite3_exec db schema_query in
      cmd ← schema_callbacks rows blk None;
      if negb (ret =? 0) then mret (Exits 1) else
      cmd ← deref cmd;
      ser ← copy_string cmd schema_send_ser;
      s ← send_loop 4096 lens ser 0 [];
      match s with
      | None => mret Waits
      | Some sent =>
          if failed sems then mret (Exits (-1)) else
          args ← copy_string subquery args;
          mret (if failed threads then Exits 1 else Continues (Mk_ready db sent args))
      end
  end.

(** After the sending thread has been joined. *)
Definition storage_finish (db : D) : outcome D :=
  let '(ret, _, db) := sqlite3_exec db (str "DROP TABLE TABLE1;") in
  if negb (ret =? 0) then Exits 1 else Continues db.
End storage.

(** ** The host *)

Section host.
Context {D : Type} `{Sql D}.

(** Options and bytes sent. *)
Definition host_request (argv : list (list Z)) (lens : list Z) : M (outcome (query_opts * list (list Z))) :=
  '(ret, opts) ← parse_options argv;
  if negb (ret =? 0) then mret (Exits 1) else
  q ← deref (sub_query opts);
  buf ← host_query_buffer q;
  s ← send_loop 4096 lens buf 0 [];
  match s with
  | None => mret Waits
  | Some sent => mret (Continues (opts, sent))
  end.

(** The schema is received and executed, and the threads are started. *)
Definition host_schema (mem_db : D) (rs : list ssl_result) (sems threads table_schema : list Z) : M (outcome D) :=
  r ← recv_loop 4096 rs table_schema 0;
  match r with
  | None => mret Waits
  | Some table_schema =>
      text ← c_string table_schema;
      let '(ret, _, mem_db) := sqlite3_exec mem_db text in
      if negb (ret =? 0) then mret (Exits (-1)) else
      if failed sems then mret (Exits (-1)) else
      mret (if failed threads then Exits 1 else Continues mem_db)
  end.

(** After both threads have been joined: the outer query; its result code is not
    looked at. *)
Definition host_answer (opts : query_opts) (mem_db : D) : M (list (list Z) * D) :=
  q ← deref (outer_query opts);
  let '(_, rows, mem_db) := sqlite3_exec mem_db q in
  mret (rows, mem_db).
End host.
Arguments storage_ready : clear implicits.

(** ** Strings in buffers *)

Definition nonzero (s : list Z) : Prop := Forall (fun c => c <> 0) s.

Lemma copy_string_spec s rest dst w :
  nonzero s -> (length s < length dst)%nat ->
  exists tl, copy_string (s ++ 0 :: rest) dst w = Done (s ++ 0 :: tl, w) /\ length (s ++ 0 :: tl) = length dst.
Proof.
  intros Hs Hl. unfold copy_string. rewrite (bind_done _ _ _ _ _ (strlen_spec s rest w Hs)).
  assert (Hr : buf_read 0 (Z.of_nat (length s) + 1) (s ++ 0 :: rest) w = Done (s ++ [0], w)).
  { replace (s ++ 0 :: rest) with ([] ++ (s ++ [0]) ++ rest) by (by rewrite <- app_assoc).
    apply buf_read_at; [done|]. rewrite length_app. cbn. lia. }
  rewrite (bind_done _ _ _ _ _ Hr). rewrite buf_write_front by (rewrite length_app; cbn; lia).
  eexists. rewrite <- app_assoc. split; [reflexivity|].
  cbn [app]. rewrite length_app. cbn. rewrite length_drop, length_app. cbn. lia.
Qed.

(** A string that does not fit is copied past the array. *)
Lemma copy_string_overflow s rest dst w :
  nonzero s -> (length dst <= length s)%nat -> copy_string (s ++ 0 :: rest) dst w = Fault OutOfBounds.
Proof.
  intros Hs Hl. unfold copy_string. rewrite (bind_done _ _ _ _ _ (strlen_spec s rest w Hs)).
  assert (Hr : buf_read 0 (Z.of_nat (length s) + 1) (s ++ 0 :: rest) w = Done (s ++ [0], w)).
  { replace (s ++ 0 :: rest) with ([] ++ (s ++ [0]) ++ rest) by (by rewrite <- app_assoc).
    apply buf_read_at; [done|]. rewrite length_app. cbn. lia. }
  rewrite (bind_done _ _ _ _ _ Hr). apply buf_write_too_long. rewrite length_app. cbn. lia.
Qed.

(** ** Transfers *)

(** What one side's loop gave to the connection arrives, cut differently. *)
Definition arrives (sent : list (list Z)) (rs : list ssl_result) : Prop :=
  exists cs, rs = SslData <$> cs /\ concat cs = concat sent /\ Forall (fun b : list Z => b <> []) cs.

(** The connection takes the 4096 bytes in pieces of any sizes. *)
Definition takes_all (lens : list Z) : Prop := Forall (fun l => 0 < l) lens /\ foldr Z.add 0 lens = 4096.

Lemma transfer_4096 buf lens w :
  length buf = 4096%nat -> takes_all lens ->
  exists sent, send_loop 4096 lens buf 0 [] w = Done (Some sent, w) /\
    forall rs old w', arrives sent rs -> length old = 4096%nat -> recv_loop 4096 rs old 0 w' = Done (Some buf, w').
Proof.
  intros Hb [Hl Hs]. change 4096 with (Z.of_nat 4096) in *. rewrite <- Hb in *.
  destruct (send_loop_spec (Z.of_nat (length buf)) lens [] buf [] w Hl Hs eq_refl) as (sent & E1 & Hc1 & _).
  exists sent. split; [exact E1|]. intros rs old w' (cs & -> & Hcs & Hne) Ho. rewrite Hc1 in Hcs.
  rewrite <- Hcs at 2. apply (recv_loop_spec _ cs [] old w' Hne); [by rewrite Hcs|by rewrite Hcs].
Qed.

(** ** The stages *)

Section stages.
  Context {D : Type} `{Sql D} (blk : Z -> list Z).

(** Whether the two texts the storage server builds fit the blocks [malloc] gives it:
    the statement made from the subquery, and the schema text with a semicolon and
    its 0, for which one byte less is requested. *)
Definition statement_fits (q : list Z) : bool :=
    bool_decide (length (statement q) <= length (blk (out_str_len (Z.of_nat (length q + 1)))))%nat.
Definition schema_fits (s : list Z) : bool :=
    bool_decide (length s + 2 <= length (blk (Z.of_nat (length s) + 1)))%nat.

(** A block of exactly the bytes requested is always too small for the schema. *)
Lemma exact_schema_overflows s : Z.of_nat (length (blk (Z.of_nat (length s) + 1))) = Z.of_nat (length s) + 1 -> schema_fits s = false.
  Proof. intros Hb. apply bool_decide_eq_false. lia. Qed.

Lemma statement_text q c rest w :
    nonzero (q ++ [c]) -> statement_fits q = true -> all_ok w ->
    exists dest w', create_table_select ((q ++ [c]) ++ 0 :: rest) blk w = Done ((dest, q ++ 0 :: 0 :: rest), w') /\
      all_ok w' /\ c_string dest w' = Done (create_table_cmd ++ [32] ++ q ++ [32] ++ limit_cmd, w').
  Proof.
    intros Hqc Hsz%bool_decide_eq_true Hw. pose proof Hqc as [Hq Hc]%Forall_app. apply Forall_cons in Hc as [Hc _].
    unfold create_table_select. rewrite (bind_done _ _ _ _ _ (strlen_spec _ rest w Hqc)), length_app.
    edestruct @bind_must_malloc as (w' & Hw' & ->); [exact Hw|]. rewrite make_query_string_run by done.
    fold (statement q).
    rewrite (bind_done _ _ _ _ _ (buf_write_front (statement q) _ w' Hsz)).
    eexists _, w'. split; [reflexivity|]. split; [done|]. set (more := drop _ _).
    replace (statement q ++ more) with ((create_table_cmd ++ [32] ++ q ++ [32] ++ limit_cmd) ++ 0 :: more)
      by (unfold statement; by rewrite <- !app_assoc).
    apply c_string_spec.
    repeat apply Forall_app_2; [|by repeat constructor|done|by repeat constructor|];
      apply (bool_decide_unpack _); vm_compute; exact I.
  Qed.

Lemma statement_overflow q c rest w :
    nonzero (q ++ [c]) -> statement_fits q = false -> all_ok w ->
    create_table_select ((q ++ [c]) ++ 0 :: rest) blk w = Fault OutOfBounds.
  Proof.
    intros Hqc Hsz%bool_decide_eq_false Hw. pose proof Hqc as [Hq Hc]%Forall_app. apply Forall_cons in Hc as [Hc _].
    unfold create_table_select. rewrite (bind_done _ _ _ _ _ (strlen_spec _ rest w Hqc)), length_app.
    edestruct @bind_must_malloc as (w' & Hw' & ->); [exact Hw|]. rewrite make_query_string_run by done.
    fold (statement q). apply bind_fault, buf_write_too_long. cbn [length]. lia.
  Qed.

Lemma schema_text s rest w :
    nonzero s -> schema_fits s = true -> all_ok w ->
    exists tl w', schema_callback (s ++ 0 :: rest) blk w = Done ((s ++ [59]) ++ 0 :: tl, w') /\ all_ok w'.
  Proof.
    intros Hs Hf%bool_decide_eq_true Hw. unfold schema_callback. rewrite (bind_done _ _ _ _ _ (strlen_spec s rest w Hs)).
    edestruct @bind_must_malloc as (w' & Hw' & ->); [exact Hw|]. rewrite (bind_done _ _ _ _ _ (c_string_spec s rest w' Hs)).
    rewrite buf_write_front by (rewrite length_app; cbn; lia).
    eexists _, w'. split; [|done]. rewrite <- !app_assoc. reflexivity.
  Qed.

Lemma schema_text_overflow s rest w :
    nonzero s -> schema_fits s = false -> all_ok w -> schema_callback (s ++ 0 :: rest) blk w = Fault OutOfBounds.
  Proof.
    intros Hs Hf%bool_decide_eq_false Hw. unfold schema_callback. rewrite (bind_done _ _ _ _ _ (strlen_spec s rest w Hs)).
    edestruct @bind_must_malloc as (w' & Hw' & ->); [exact Hw|]. rewrite (bind_done _ _ _ _ _ (c_string_spec s rest w' Hs)).
    apply buf_write_too_long. rewrite length_app. cbn. lia.
  Qed.

  (** The storage server up to the copy of the schema, given the 4096 bytes the host
      sent. *)
Lemma storage_prefix db db1 db2 q c s rs lens sems threads buf subquery ser args w :
    nonzero (q ++ [c]) -> (length (q ++ [c]) < 4096)%nat -> nonzero s ->
    statement_fits q = true -> schema_fits s = true ->
    sqlite3_exec db (create_table_cmd ++ [32] ++ q ++ [32] ++ limit_cmd) = (0, [], db1) ->
    sqlite3_exec db1 schema_query = (0, [s ++ [0]], db2) ->
    host_query_buffer (q ++ [c]) w = Done (buf, w) ->
    recv_loop 4096 rs subquery 0 w = Done (Some buf, w) -> all_ok w ->
    exists tl more w2, all_ok w2 /\ storage_prepare db rs lens sems threads subquery ser args blk w
      = (ser ← copy_string ((s ++ [59]) ++ 0 :: tl) ser;
         r ← send_loop 4096 lens ser 0 [];
         match r with
         | None => mret Waits
         | Some sent =>
             if failed sems then mret (Exits (-1)) else
             args ← copy_string (q ++ 0 :: more) args;
             mret (if failed threads then Exits 1 else Continues (Mk_ready db2 sent args))
         end) w2.
  Proof.
    intros Hqc Hl Hs Hf1 Hf2 Hex1 Hex2 Hbuf Hrecv Hw.
    unfold storage_prepare. rewrite (bind_done _ _ _ _ _ Hrecv). cbv iota beta.
    unfold host_query_buffer in Hbuf. rewrite buf_write_front in Hbuf by (rewrite length_app, length_replicate; cbn; lia).
    injection Hbuf as <-. rewrite <- app_assoc. cbn [app].
    destruct (statement_text q c (drop (length ((q ++ [c]) ++ [0])) (replicate 4096 0)) w Hqc Hf1 Hw)
      as (dest & w1 & E1 & Hw1 & Ht). rewrite (bind_done _ _ _ _ _ E1), (bind_done _ _ _ _ _ Ht), Hex1.
    change (negb (0 =? 0)) with false. cbv iota. rewrite Hex2.
    destruct (schema_text s [] w1 Hs Hf2 Hw1) as (tl & w2 & E2 & Hw2).
    assert (Ecb : schema_callbacks [s ++ [0]] blk None w1 = Done (Some ((s ++ [59]) ++ 0 :: tl), w2)).
    { cbn [schema_callbacks]. by rewrite (bind_done _ _ _ _ _ E2). }
    rewrite (bind_done _ _ _ _ _ Ecb). change (negb (0 =? 0)) with false. cbv iota. cbn [deref]. rewrite bind_ret.
    by eexists tl, _, w2.
  Qed.

(** Either text is written past a block that is too small for it. *)
Lemma storage_overflow db db1 db2 q c s rs lens sems threads buf subquery ser args w :
    nonzero (q ++ [c]) -> (length (q ++ [c]) < 4096)%nat -> nonzero s ->
    statement_fits q && schema_fits s = false ->
    sqlite3_exec db (create_table_cmd ++ [32] ++ q ++ [32] ++ limit_cmd) = (0, [], db1) ->
    sqlite3_exec db1 schema_query = (0, [s ++ [0]], db2) ->
    host_query_buffer (q ++ [c]) w = Done (buf, w) ->
    recv_loop 4096 rs subquery 0 w = Done (Some buf, w) -> all_ok w ->
    storage_prepare db rs lens sems threads subquery ser args blk w = Fault OutOfBounds.
  Proof.
    intros Hqc Hl Hs Hf Hex1 Hex2 Hbuf Hrecv Hw.
    unfold storage_prepare. rewrite (bind_done _ _ _ _ _ Hrecv). cbv iota beta.
    unfold host_query_buffer in Hbuf. rewrite buf_write_front in Hbuf by (rewrite length_app, length_replicate; cbn; lia).
    injection Hbuf as <-. rewrite <- app_assoc. cbn [app]. destruct (statement_fits q) eqn:Hf1.
    2:{ by apply bind_fault, statement_overflow. }
    destruct (statement_text q c (drop (length ((q ++ [c]) ++ [0])) (replicate 4096 0)) w Hqc Hf1 Hw)
      as (dest & w1 & E1 & Hw1 & Ht). rewrite (bind_done _ _ _ _ _ E1), (bind_done _ _ _ _ _ Ht), Hex1.
    change (negb (0 =? 0)) with false. cbv iota. rewrite Hex2.
    apply bind_fault. cbn [schema_callbacks]. by apply bind_fault, schema_text_overflow.
  Qed.

Lemma nonzero_semicolon s : nonzero s -> nonzero (s ++ [59]).
  Proof. intros Hs. apply Forall_app_2; [done|by repeat constructor]. Qed.

Lemma storage_stage db db1 db2 q c s rs lens sems threads buf subquery ser args w :
    Forall (fun r => r = 0) (sems ++ threads) ->
    nonzero (q ++ [c]) -> (length (q ++ [c]) < 4096)%nat -> nonzero s -> (length s + 2 <= 4096)%nat ->
    statement_fits q = true -> schema_fits s = true ->
    sqlite3_exec db (create_table_cmd ++ [32] ++ q ++ [32] ++ limit_cmd) = (0, [], db1) ->
    sqlite3_exec db1 schema_query = (0, [s ++ [0]], db2) ->
    host_query_buffer (q ++ [c]) w = Done (buf, w) ->
    recv_loop 4096 rs subquery 0 w = Done (Some buf, w) ->
    length ser = 4096%nat -> length args = 4096%nat -> takes_all lens -> all_ok w ->
    exists sent args' w', storage_prepare db rs lens sems threads subquery ser args blk w
        = Done (Continues (Mk_ready db2 sent args'), w') /\ all_ok w' /\
      (exists tl, args' = q ++ 0 :: tl) /\
      exists schema tl, schema = (s ++ [59]) ++ 0 :: tl /\
        forall rs2 old w2, arrives sent rs2 -> length old = 4096%nat -> recv_loop 4096 rs2 old 0 w2 = Done (Some schema, w2).
  Proof.
    intros [Hsem Hth]%Forall_app Hqc Hl Hs Hls Hf1 Hf2 Hex1 Hex2 Hbuf Hrecv Hser Hargs Hlens Hw.
    destruct (storage_prefix db db1 db2 q c s rs lens sems threads buf subquery ser args w) as (tl & more & w2 & Hw2 & ->); [done..|].
    destruct (copy_string_spec (s ++ [59]) tl ser w2 (nonzero_semicolon s Hs)) as (tl2 & E3 & Hl3);
      [rewrite length_app; cbn; lia|]. rewrite (bind_done _ _ _ _ _ E3).
    destruct (transfer_4096 ((s ++ [59]) ++ 0 :: tl2) lens w2 ltac:(lia) Hlens) as (sent & E4 & Harr).
    rewrite (bind_done _ _ _ _ _ E4), (none_failed _ Hsem), (none_failed _ Hth). cbv iota. pose proof Hqc as [Hq _]%Forall_app.
    destruct (copy_string_spec q more args w2 Hq) as (tl3 & E5 & _); [rewrite length_app in Hl; cbn in Hl; lia|].
    rewrite (bind_done _ _ _ _ _ E5). eexists sent, _, w2. split; [reflexivity|]. split; [done|].
    split; [by eexists|]. by exists ((s ++ [59]) ++ 0 :: tl2), tl2.
  Qed.
End stages.

(** ** The theorem *)

Section session.
  Context {DS DH B : Type} `{Sql DS} `{Sql DH} `{BtreeLaws B} {HP : HostPool} (table_of : DH -> B) (nf fmt n_cols : Z).
  Context (blk : Z -> list Z).

Lemma session_ok (db db1 db2 : DS) (mem_db mem_db1 : DH) argv outer q c s lens1 lens2
    sems1 threads1 sems2 threads2 subquery ser args table_schema w w2 :
    Forall (fun r => r = 0) (sems1 ++ threads1) -> Forall (fun r => r = 0) (sems2 ++ threads2) ->
    argv !! 4%nat = Some outer -> argv !! 6%nat = Some (q ++ [c]) ->
    nonzero (q ++ [c]) -> (length (q ++ [c]) < 4096)%nat -> nonzero s -> (length s + 2 <= 4096)%nat ->
    sqlite3_exec db (create_table_cmd ++ [32] ++ q ++ [32] ++ limit_cmd) = (0, [], db1) ->
    sqlite3_exec db1 schema_query = (0, [s ++ [0]], db2) ->
    sqlite3_exec mem_db (s ++ [59]) = (0, [], mem_db1) -> bt_rows (table_of mem_db1) = ∅ ->
    let rows := query_rows db2 q in
    Forall (row_ok nf fmt) rows -> Z.of_nat (length rows) <= MAX_ROWID ->
    length subquery = 4096%nat -> length ser = 4096%nat -> length args = 4096%nat -> length table_schema = 4096%nat ->
    takes_all lens1 -> takes_all lens2 -> all_ok w ->
    exists opts sent1, host_request argv lens1 w2 = Done (Continues (opts, sent1), w2) /\
      outer_query opts = Some outer /\
    forall rs1, arrives sent1 rs1 ->
    if negb (statement_fits blk q && schema_fits blk s)
    then storage_prepare db rs1 lens2 sems2 threads2 subquery ser args blk w = Fault OutOfBounds
    else exists sent2 args' w1, storage_prepare db rs1 lens2 sems2 threads2 subquery ser args blk w
        = Done (Continues (Mk_ready db2 sent2 args'), w1) /\ c_string args' w1 = Done (q, w1) /\
    forall rs2, arrives sent2 rs2 ->
      host_schema mem_db rs2 sems1 threads1 table_schema w2 = Done (Continues mem_db1, w2) /\
    forall buf n0 sy net hs,
      Z.of_nat (length buf) = payload_size ->
      rtc (sys_step (row_copied nf) (record_made fmt) nf) (sys_init rows schema_columns buf n0) sy ->
      finished sy -> p_failed (s_p sy) = false ->
      Forall2 packed (c_sent (s_c sy)) net ->
      rtc (host_step n_cols) (host_init net (table_of mem_db1)) hs -> k_pc hs = KEnd ->
      exists got, (got = rows \/ got = truncate_first rows) /\ (nf = schema_columns -> got = rows) /\
        bt_rows (h_db hs) = table (record_of fmt <$> got) /\
        forall i row, got !! i = Some row ->
          exists rec, bt_rows (h_db hs) !! (Z.of_nat i + 1) = Some rec /\
            forall w, exists cs,
              sqlite3VdbeRecordUnpack (length row) (Z.of_nat (length rec)) rec w = Done (cs, w) /\
              value_of <$> cs = value_of <$> row.
  Proof.
    intros [Hsem Hth]%Forall_app Hos2 Ha4 Ha6 Hqc Hl Hs Hls Hex1 Hex2 Hex3 Hempty rows Hok Hmax Hsub Hser Hargs Hsch Hlen1 Hlen2 Hw.
    pose proof (lookup_lt_Some _ _ _ Ha6) as Hargc.
    assert (Hbuf : exists buf, length buf = 4096%nat /\ forall w, host_query_buffer (q ++ [c]) w = Done (buf, w)).
    { eexists. split; [|intros w'; unfold host_query_buffer; apply buf_write_front; rewrite length_app, length_replicate; cbn; lia].
      rewrite length_app, length_drop, length_app, length_replicate. cbn [length]. lia. }
    destruct Hbuf as (buf & Hbl & Hbuf).
    destruct (transfer_4096 buf lens1 w2 Hbl Hlen1) as (sent1 & Esend & Harr1).
    exists (Mk_query_opts (Some outer) (Some (q ++ [c])) (argv !! 1%nat)), sent1. split.
    { unfold host_request, parse_options, arg. rewrite !bind_assoc.
      replace (Nat.ltb (length argv) 4) with false by (symmetry; apply Nat.ltb_ge; lia).
      replace (Nat.ltb (length argv) 6) with false by (symmetry; apply Nat.ltb_ge; lia).
      replace (Nat.ltb (length argv) 1) with false by (symmetry; apply Nat.ltb_ge; lia).
      rewrite Ha4, Ha6, bind_ret, bind_assoc, bind_ret, bind_assoc, !bind_ret.
      change (negb (0 =? 0)) with false. cbv iota. cbn [sub_query deref]. rewrite bind_ret.
      rewrite (bind_done _ _ _ _ _ (Hbuf w2)), (bind_done _ _ _ _ _ Esend). done. }
    split; [done|]. intros rs1 Hrs1. destruct (statement_fits blk q && schema_fits blk s) eqn:Hf; cbn [negb].
    2:{ eapply (storage_overflow blk db db1 db2 q c s rs1); [done..|by apply Hbuf|by apply Harr1|done]. }
    apply andb_true_iff in Hf as [Hf1 Hf2].
    destruct (storage_stage blk db db1 db2 q c s rs1 lens2 sems2 threads2 buf subquery ser args w)
      as (sent2 & args' & w1 & Est & Hw1 & (tl & ->) & schema & tl2 & -> & Harr2); [done|done|done|done|done|done|done|done|done|by apply Hbuf|by apply Harr1|done..|].
    exists sent2, (q ++ 0 :: tl), w1. split; [exact Est|]. pose proof Hqc as [Hq _]%Forall_app.
    split; [by apply c_string_spec|]. intros rs2 Hrs2. split.
    { unfold host_schema. rewrite (bind_done _ _ _ _ _ (Harr2 rs2 table_schema w2 Hrs2 Hsch)). cbv iota.
      rewrite (bind_done _ _ _ _ _ (c_string_spec (s ++ [59]) tl2 w2 (nonzero_semicolon s Hs))).
      by rewrite Hex3, (none_failed _ Hsem), (none_failed _ Hth). }
    intros b n0 sy net hs Hb. by apply (end_to_end_ok nf fmt n_cols rows b n0 sy net (table_of mem_db1) hs).
  Qed.

(** C2. A session from the command line to the host's table.  The host is started
    with an outer query and a subquery [q] followed by one more character (a
    semicolon) of fewer than 4096 characters; SQLite executes what it is given;
    the connection cuts the transfers in any way; semaphores and threads are
    created and memory is available.  The host's request is sent.  The storage server
    then writes past a block exactly when [malloc] gave it a block without room for
    the statement or for the schema text (a block of just the size requested
    never has room for the latter).  Otherwise its preparation succeeds: the
    statement it executes is ["CREATE TEMPORARY TABLE TABLE1 AS q LIMIT 0;"],
    the host executes the schema text of that table with a semicolon, and the
    query thread is given [q].  Whenever the threads of the storage server have
    then finished without a query error and the host's inserting thread has taken
    the end packet, in any interleaving, the host's table holds the records of
    the rows of [q] in order, or of the rows of [q] with the first row cut to its
    first column, each of which reads back as the values of its row.  As in
    [EndToEnd] a record is serialised from a block with a byte to spare. *)
Theorem session_end_to_end (db db1 db2 : DS) (mem_db mem_db1 : DH) argv outer q c s lens1 lens2
    sems1 threads1 sems2 threads2 subquery ser args table_schema w w2 :
    Forall (fun r => r = 0) (sems1 ++ threads1) -> Forall (fun r => r = 0) (sems2 ++ threads2) ->
    argv !! 4%nat = Some outer -> argv !! 6%nat = Some (q ++ [c]) ->
    nonzero (q ++ [c]) -> (length (q ++ [c]) < 4096)%nat -> nonzero s -> (length s + 2 <= 4096)%nat ->
    sqlite3_exec db (create_table_cmd ++ [32] ++ q ++ [32] ++ limit_cmd) = (0, [], db1) ->
    sqlite3_exec db1 schema_query = (0, [s ++ [0]], db2) ->
    sqlite3_exec mem_db (s ++ [59]) = (0, [], mem_db1) -> bt_rows (table_of mem_db1) = ∅ ->
    let rows := query_rows db2 q in
    Forall (row_ok nf fmt) rows -> Z.of_nat (length rows) <= MAX_ROWID ->
    length subquery = 4096%nat -> length ser = 4096%nat -> length args = 4096%nat -> length table_schema = 4096%nat ->
    takes_all lens1 -> takes_all lens2 -> all_ok w ->
    exists opts sent1, host_request argv lens1 w2 = Done (Continues (opts, sent1), w2) /\
      outer_query opts = Some outer /\
    forall rs1, arrives sent1 rs1 ->
    if negb (statement_fits blk q && schema_fits blk s)
    then storage_prepare db rs1 lens2 sems2 threads2 subquery ser args blk w = Fault OutOfBounds
    else exists sent2 args' w1, storage_prepare db rs1 lens2 sems2 threads2 subquery ser args blk w
        = Done (Continues (Mk_ready db2 sent2 args'), w1) /\ c_string args' w1 = Done (q, w1) /\
    forall rs2, arrives sent2 rs2 ->
      host_schema mem_db rs2 sems1 threads1 table_schema w2 = Done (Continues mem_db1, w2) /\
    forall buf n0 sy net hs,
      Z.of_nat (length buf) = payload_size ->
      rtc (sys_step (row_copied nf) (record_made fmt) nf) (sys_init rows schema_columns buf n0) sy ->
      finished sy -> p_failed (s_p sy) = false ->
      Forall2 packed (c_sent (s_c sy)) net ->
      rtc (host_step n_cols) (host_init net (table_of mem_db1)) hs -> k_pc hs = KEnd ->
      exists got, (got = rows \/ got = truncate_first rows) /\ (nf = schema_columns -> got = rows) /\
        bt_rows (h_db hs) = table (record_of fmt <$> got) /\
        forall i row, got !! i = Some row ->
          exists rec, bt_rows (h_db hs) !! (Z.of_nat i + 1) = Some rec /\
            forall w, exists cs,
              sqlite3VdbeRecordUnpack (length row) (Z.of_nat (length rec)) rec w = Done (cs, w) /\
              value_of <$> cs = value_of <$> row.
  Proof. apply session_ok. Qed.

  (** A schema text of more than 4094 characters is copied past [schema_send_ser]. *)
Lemma schema_overflow (db db1 db2 : DS) q c s rs lens sems threads buf subquery ser args w :
    nonzero (q ++ [c]) -> (length (q ++ [c]) < 4096)%nat -> nonzero s -> (4096 <= length s + 1)%nat ->
    statement_fits blk q = true -> schema_fits blk s = true ->
    sqlite3_exec db (create_table_cmd ++ [32] ++ q ++ [32] ++ limit_cmd) = (0, [], db1) ->
    sqlite3_exec db1 schema_query = (0, [s ++ [0]], db2) ->
    host_query_buffer (q ++ [c]) w = Done (buf, w) -> recv_loop 4096 rs subquery 0 w = Done (Some buf, w) ->
    length ser = 4096%nat -> all_ok w ->
    storage_prepare db rs lens sems threads subquery ser args blk w = Fault OutOfBounds.
  Proof.
    intros Hqc Hl Hs Hls Hf1 Hf2 Hex1 Hex2 Hbuf Hrecv Hser Hw.
    destruct (storage_prefix blk db db1 db2 q c s rs lens sems threads buf subquery ser args w) as (tl & more & w2 & _ & ->); [done..|].
    apply bind_fault, copy_string_overflow; [by apply nonzero_semicolon|rewrite length_app; cbn; lia].
  Qed.
End session.

(** ** Witness *)

(** A storage engine that counts statements and answers the second one with a
    schema, and a host engine whose first statement empties its table. *)
Definition toy_schema : list Z := str "CREATE TABLE TABLE1(a,b,c,d,e)".

Definition toy_storage : Sql nat := {|
  sqlite3_exec n _ := (0, if (n =? 1)%nat then [toy_schema ++ [0]] else [], S n);
  query_rows _ _ := [ex_row; ex_row];
|}.

Definition toy_host : Sql (gmap Z (list Z)) := {|
  sqlite3_exec _ _ := (0, [], ∅);
  query_rows _ _ := [];
|}.

#[local] Existing Instance secure_pool.
#[local] Existing Instance toy_storage.
#[local] Existing Instance toy_host.

Lemma w_nonzero l : bool_decide (Forall (fun c => c <> 0) l) = true -> nonzero l.
Proof. by intros H%bool_decide_eq_true. Qed.

(** A session with the subquery ["SELECT 1;"]. *)
Lemma session_end_to_end_witness :
  exists opts sent1 sent2 args' w1 (hs : host (gmap Z (list Z))) got,
    host_request [[0]; [1]; [2]; [3]; [4]; [5]; ex_short ++ [59]] [4096] [] = Done (Continues (opts, sent1), []) /\
    storage_prepare 0%nat (SslData <$> [concat sent1]) [1; 4095] [0; 0; 0] [0; 0; 0] (replicate 4096 0) (replicate 4096 0) (replicate 4096 0)
      (fun n => replicate (Z.to_nat (n + 1)) 170) [] = Done (Continues (Mk_ready 2%nat sent2 args'), w1) /\
    k_pc hs = KEnd /\ (got = [ex_row; ex_row] \/ got = [take 1 ex_row; ex_row]) /\
    bt_rows (h_db hs) = table (record_of 0 <$> got).
Proof.
  destruct example_run as (Hok & s & net & hs & Hr & Hf & Hnf & Hnet & Hh & Hk).
  assert (Hlen : forall n : nat, length (replicate n (0:Z)) = n) by (intros; apply length_replicate).
  destruct (session_end_to_end (DS:=nat) (DH:=gmap Z (list Z)) (fun d : gmap Z (list Z) => d) 5 0 4 (fun n => replicate (Z.to_nat (n + 1)) 170) 0%nat 1%nat 2%nat ∅ ∅
    [[0]; [1]; [2]; [3]; [4]; [5]; ex_short ++ [59]] [4] ex_short 59 toy_schema [4096] [1; 4095] [0; 0; 0] [0; 0] [0; 0; 0] [0; 0; 0]
    (replicate 4096 0) (replicate 4096 0) (replicate 4096 0) (replicate 4096 0) [] [])
    as (opts & sent1 & E1 & _ & Hst);
    [by repeat constructor|by repeat constructor|done|done|by apply w_nonzero|cbn; lia|by apply w_nonzero|vm_compute; lia|done|done|done|done|exact Hok
    |vm_compute; done|apply Hlen|apply Hlen|apply Hlen|apply Hlen|by split; [repeat constructor|]
    |by split; [repeat constructor|]|constructor|].
  assert (Hs1 : concat sent1 <> []).
  { intros E. destruct (Hst []) as (? & ? & ? & Hrun & _); [exists []; by rewrite E|]. by vm_compute in Hrun. }
  destruct (Hst (SslData <$> [concat sent1])) as (sent2 & args' & w1 & E2 & _ & Hsch).
  { exists [concat sent1]. split; [done|]. split; [cbn; by rewrite app_nil_r|by repeat constructor]. }
  assert (Hs2 : concat sent2 <> []).
  { intros E. destruct (Hsch []) as (Hrun & _); [exists []; by rewrite E|]. by vm_compute in Hrun. }
  destruct (Hsch (SslData <$> [concat sent2])) as (_ & Hend).
  { exists [concat sent2]. split; [done|]. split; [cbn; by rewrite app_nil_r|by repeat constructor]. }
  destruct (Hend toy_buf 0 s net hs toy_buf_length Hr Hf Hnf Hnet Hh Hk) as (got & Hgot & _ & Ht & _).
  by exists opts, sent1, sent2, args', w1, hs, got.
Defined.
