(* ===== verification/Start.v ===== *)
(** * Starting the storage server

    The stage of [main] before the first connection
    ([storage/secure/sec_ssd_server.c]): the database named on the command line is
    opened, the Merkle tree an earlier process saved is loaded from its file, and
    the database gets its passphrase together with that tree.  What
    [sqlite3_open] returns and the files of the machine are arguments. *)

From stdpp Require Import base tactics list numbers option.
From Stdlib Require Import ZArith Lia ZifyBool.
From S2P Require Import Prelude MtArrList Sha256 MtCrypto MerkleTree MtSerialize.
From S2P Require Import MerkleTheorems CipherUtil Openssl CodecCtx PageCodec PageProofs CodecProofs HookProofs.
From S2P Require Import CodecWitness Attach AttachProofs AttachWitness Server Session.

Local Open Scope Z_scope.

Section start.
Context {OS : OpenSSL} {NH : NodeHash} {rest : Type} {PO : PagerOps rest}.

(** [argv[i]] where the C library follows the pointer. *)
Definition string_arg (argv : list (list Z)) (i : nat) : M (list Z) :=
  s ← arg argv i;
  match s with None => throw NullDeref | Some s => mret s end.

(** The object for the tree is allocated first and written to without a check. *)
Definition storage_start (g : globals) (sqlite3_open : list Z -> Z * option (sqlite3 rest))
    (files : list Z -> option (list Z)) (argv : list (list Z)) : M (outcome (globals * option (sqlite3 rest))) :=
  room ← request;
  name ← string_arg argv 1;
  let '(ret, db) := sqlite3_open name in
  if negb (ret =? 0) then mret (Exits 1) else
  path ← string_arg argv 3;
  if negb room then throw NullDeref else
  tree ← deserialize_init_mt (files path);
  num_ele ← mt_get_size (obj_mt tree);
  passphrase ← string_arg argv 2;
  '(ret, g, db) ← sqlite3_key g db (Some passphrase) (i32 (Z.of_nat (length passphrase))) (Some tree);
  mret (if negb (ret =? SQLITE_OK) then Exits 1 else Continues (g, db)).
End start.

Section proofs.
Context {OS : OpenSSL} {L : OpenSSLLaws OS} {NH : NodeHash} {rest : Type} {PO : PagerOps rest}.

Lemma string_arg_ok argv i s w : argv !! i = Some s -> string_arg argv i w = Done (s, w).
Proof.
  intros E. unfold string_arg, arg. apply lookup_lt_Some in E as Hi.
  destruct (Nat.ltb_spec (length argv) i); [lia|]. by rewrite bind_ret, E.
Qed.

(** The database does not open: [main] ends before the tree is touched. *)
Lemma start_no_database g open files argv name db rc w :
  argv !! 1%nat = Some name -> open name = (rc, db) -> rc <> 0 -> all_ok w ->
  exists w', storage_start (rest := rest) g open files argv w = Done (Exits 1, w').
Proof.
  intros H1 Hopen Hrc Hw. unfold storage_start. destruct (request_ok w Hw) as (w1 & Er & _).
  rewrite (bind_done _ _ _ _ _ Er), (bind_done _ _ _ _ _ (string_arg_ok argv 1 name w1 H1)), Hopen.
  rewrite (proj2 (Z.eqb_neq rc 0) Hrc). by eexists.
Qed.

(** There is no tree to load: the stream that could not be opened is used. *)
Lemma start_no_tree g open files argv name db path w :
  argv !! 1%nat = Some name -> argv !! 3%nat = Some path -> open name = (0, db) -> files path = None -> all_ok w ->
  storage_start (rest := rest) g open files argv w = Fault NullDeref.
Proof.
  intros H1 H3 Hopen Hf Hw. unfold storage_start. destruct (request_ok w Hw) as (w1 & Er & _).
  rewrite (bind_done _ _ _ _ _ Er), (bind_done _ _ _ _ _ (string_arg_ok argv 1 name w1 H1)), Hopen.
  cbn [Z.eqb negb]. rewrite (bind_done _ _ _ _ _ (string_arg_ok argv 3 path w1 H3)), Hf. done.
Qed.

(** C28. The storage server starts on what an earlier process left: when the
    database opens and the file of the third argument holds the bytes
    [serialize_mt] made of a tree with the leaves [ls], [main] gets to its socket;
    the main database then has a codec that will derive its keys from the
    passphrase of the command line, and the codec's tree is the saved one: it
    counts the same leaves and answers for each of them as a tree with the leaves
    [ls] does. *)
Theorem storage_starts g {PL : PagerLaws g} open files argv name z path db d b mt ls w0 saved n w0' w :
  argv !! 1%nat = Some name -> argv !! 2%nat = Some z -> argv !! 3%nat = Some path ->
  z <> [] -> Z.of_nat (length z) < 2 ^ 31 ->
  open name = (0, Some db) -> aDb db !! 0%nat = Some d -> zDbSName d = main_name -> pBt d = Some b ->
  default_settings g -> codec_counted g (pPager b) -> EVP_get_cipherbyname = true ->
  tree_rep mt ls -> all_ok w0 -> serialize_mt (Some mt) w0 = Done ((n, Live (Some <$> saved)), w0') ->
  files path = Some saved -> all_ok w ->
  exists g' b' ctx c mt' w',
    storage_start g open files argv w
      = Done (Continues (g', Some (put_bt (Mk_sqlite3 (aDb db) 4096) 0 b')), w') /\
    pCodec (pPager b') = Some ctx /\ ctx_ready ctx z c /\ xCodec (pPager b') = negb (memDb (pPager b)) /\
    ctx_tree ctx mt' (Z.of_nat (length ls)) /\ reloaded_rep mt' ls /\
    forall off, 0 <= off < Z.of_nat (length ls) -> verifies mt' ls off.
Proof.
  intros H1 H2 H3 Hz Hlen Hopen Hd Hname Hb Hg Hcnt Hcn Hrep Hw0 Hsave Hf Hw.
  assert (saved = enc_tree (Z.of_nat (length ls)) (all_levels ls)) as ->.
  { destruct (save_spec mt ls w0 Hrep Hw0) as (w1 & E & _). rewrite E in Hsave.
    revert Hsave. generalize (enc_tree (Z.of_nat (length ls)) (all_levels ls)). intros f [= _ Hf' _].
    symmetry. by apply (inj (fmap Some)). }
  unfold storage_start. destruct (request_ok w Hw) as (w1 & Er & Hw1).
  rewrite (bind_done _ _ _ _ _ Er), (bind_done _ _ _ _ _ (string_arg_ok argv 1 name w1 H1)), Hopen.
  cbn [Z.eqb negb]. rewrite (bind_done _ _ _ _ _ (string_arg_ok argv 3 path w1 H3)), Hf.
  destruct (load_spec mt ls w1 Hrep Hw1) as (mt' & w2 & El & Hw2 & Hrel). rewrite (bind_done _ _ _ _ _ El).
  cbn [obj_mt]. rewrite (bind_done _ _ _ _ _ (reloaded_size mt' ls w2 Hrel)).
  rewrite (bind_done _ _ _ _ _ (string_arg_ok argv 2 z w2 H2)), i32_small by lia.
  assert (Hi : sqlcipher_find_db_index db (Some main_name) = 0%nat) by (by eapply known_db_found).
  destruct (key_attaches g db (Some main_name) d b z (Z.of_nat (length z)) mt' (Z.of_nat (length ls))
    (saved_size ls) 0 w2) as (g' & b' & ctx & c & w' & E & Hc & Hrdy & Ht & Hx & _); try done.
  { by rewrite Hi. }
  { by destruct z; [|cbn]. }
  { intros w''. by apply reloaded_size. }
  rewrite Hi in E. unfold sqlite3_key. rewrite (bind_done _ _ _ _ _ E).
  exists g', b', ctx, c, mt', w'. split; [done|]. split_and!; try done.
  intros off Hoff. by apply reloaded_verifies.
Qed.
End proofs.

(** ** A witness *)

#[local] Existing Instance toy_openssl.
#[local] Existing Instance toy_openssl_laws.

Definition w_leaves : list (list Z) := [leaf (w_mac 5 (replicate 16 0))].

(** The tree of one page, and its file. *)
Lemma w_saved : exists mt saved w, tree_rep mt w_leaves /\
  serialize_mt (Some mt) [] = Done ((saved_size w_leaves, Live (Some <$> saved)), w).
Proof.
  destruct w_leaf_tree as (mt & Hrep). destruct (save_spec mt _ [] Hrep) as (w & Hsave & _); [constructor|].
  by eexists mt, _, w.
Qed.

Lemma storage_starts_witness :
  exists mt saved w g' b' ctx c mt' w',
    tree_rep mt w_leaves /\ serialize_mt (Some mt) [] = Done ((saved_size w_leaves, Live (Some <$> saved)), w) /\
    storage_start init_globals (fun _ => (0, Some (w_db (w_pager false None)))) (fun _ => Some saved)
      [[]; [100]; [115]; [116]] []
      = Done (Continues (g', Some (put_bt (Mk_sqlite3 (aDb (w_db (w_pager false None))) 4096) 0 b')), w') /\
    pCodec (pPager b') = Some ctx /\ ctx_ready ctx [115] c /\ ctx_tree ctx mt' 1.
Proof.
  destruct w_saved as (mt & saved & w & Hrep & Hsave).
  destruct (storage_starts init_globals (fun _ => (0, Some (w_db (w_pager false None)))) (fun _ => Some saved)
    [[]; [100]; [115]; [116]] [100] [115] [116] (w_db (w_pager false None)) _
    (Mk_bt 0 4096 4096 0 0 0 (w_pager false None)) mt w_leaves [] saved (saved_size w_leaves) w [] eq_refl eq_refl eq_refl
    ltac:(done) ltac:(done) eq_refl eq_refl)
    as (g' & b' & ctx & c & mt' & w' & Hrun & Hc & Hrdy & _ & Ht & _);
    [done|done|repeat split; by left|by split|done|exact Hrep|constructor|exact Hsave|reflexivity|constructor|].
  exists mt, saved, w, g', b', ctx, c, mt', w'. split_and!; assumption.
Defined.
