(* ===== verification/Plain.v ===== *)
(** * The servers without encryption

    The baseline the secure servers are measured against
    ([host/non-secure/host_server.c], [storage/non-secure/ssd_server.c]).  The
    files share the code of the secure servers, the threads and SQLite's
    additions included; what differs is modelled here: the connection is a plain
    socket, the host's ring holds 1024 packets, the storage server creates no
    semaphores and does not drop the temporary table.  Each stage is shown to be
    the corresponding stage of the secure server on the same transfers. *)

From stdpp Require Import base tactics list numbers option relations fin_maps gmap.
From Stdlib Require Import ZArith Lia ZifyBool.
From S2P Require Import Prelude CipherUtil Openssl CodecCtx Pragma Varint Record RecordProofs Wire NdpInsert WireProofs.
From S2P Require Import Ring Pipeline PipelineProofs HostThreads EndToEnd Server ServerProofs Session.

Local Open Scope Z_scope.

(** [BUF_POOL_SIZE] of [include/host_server.h] *)
Definition plain_BUF_POOL_SIZE : Z := 1024.

Lemma plain_pool_pow2 : exists k, 0 <= k < 64 /\ plain_BUF_POOL_SIZE = 2 ^ k.
Proof. by exists 10. Qed.

Definition plain_pool : HostPool := {| pool_size := plain_BUF_POOL_SIZE; pool_pow2 := plain_pool_pow2 |}.

(** What [recv] does: bytes, 0 when the other side has closed the connection, or -1. *)
Inductive sock_result :=
  | SockData (bs : list Z)
  | SockClosed
  | SockError.

(** [while(nbuffer < n) { len = recv(socket, buf + nbuffer, n - nbuffer, 0); nbuffer += len; }] *)
Fixpoint plain_recv_loop (n : Z) (rs : list sock_result) (buf : list Z) (nbuffer : Z) : M (option (list Z)) :=
  if n <=? nbuffer then mret (Some buf)
  else match rs with
       | [] => mret None
       | SockData bs :: rs =>
           buf ← buf_write nbuffer bs buf;
           plain_recv_loop n rs buf (nbuffer + Z.of_nat (length bs))
       | SockClosed :: rs => plain_recv_loop n rs buf nbuffer
       | SockError :: rs => plain_recv_loop n rs buf (nbuffer - 1)
       end.

Section plain.
Context {D : Type} `{Sql D}.

(** [main] of the storage server from the accepted connection to the start of the
    threads; [lens] are the values [send] returns. *)
Definition plain_storage_prepare (db : D) (rs : list sock_result) (lens threads : list Z)
    (subquery schema_send_ser args : list Z) (blk : Z -> list Z) : M (outcome (storage_ready D)) :=
  r ← plain_recv_loop 4096 rs subquery 0;
  match r with
  | None => mret Waits
  | Some subquery =>
      '(stmt, subquery) ← create_table_select subquery blk;
      text ← c_string stmt;
      let '(ret, _, db) := sqlite3_exec db text in
      if negb (ret =? 0) then mret (Exits 1) else
      let '(ret, rows, db) := sqlite3_exec db schema_query in
      cmd ← schema_callbacks rows blk None;
      if negb (ret =? 0) then mret (Exits 1) else
      cmd ← deref cmd;
      ser ← copy_string cmd schema_send_ser;
      s ← send_loop 4096 lens ser 0 [];
      match s with
      | None => mret Waits
      | Some sent =>
          args ← copy_string subquery args;
          mret (if failed threads then Exits 1 else Continues (Mk_ready db sent args))
      end
  end.

(** [main] of the host: the request, and the schema until the threads are started. *)
Definition plain_host_request (argv : list (list Z)) (lens : list Z) : M (outcome (query_opts * list (list Z))) :=
  '(ret, opts) ← parse_options argv;
  if negb (ret =? 0) then mret (Exits 1) else
  q ← deref (sub_query opts);
  buf ← host_query_buffer q;
  s ← send_loop 4096 lens buf 0 [];
  match s with
  | None => mret Waits
  | Some sent => mret (Continues (opts, sent))
  end.

Definition plain_host_schema (mem_db : D) (rs : list sock_result) (sems threads table_schema : list Z) : M (outcome D) :=
  r ← plain_recv_loop 4096 rs table_schema 0;
  match r with
  | None => mret Waits
  | Some table_schema =>
      text ← c_string table_schema;
      let '(ret, _, mem_db) := sqlite3_exec mem_db text in
      if negb (ret =? 0) then mret (Exits (-1)) else
      if failed sems then mret (Exits (-1)) else
      mret (if failed threads then Exits 1 else Continues mem_db)
  end.
End plain.

(** ** The same stages *)

(** The result of [SSL_read] that has the effect of a result of [recv]. *)
Definition as_ssl (r : sock_result) : ssl_result :=
  match r with SockData bs => SslData bs | SockClosed => SslErr 0 | SockError => SslErr (-1) end.

Lemma plain_recv_eq n rs buf nbuffer w :
  plain_recv_loop n rs buf nbuffer w = recv_loop n (as_ssl <$> rs) buf nbuffer w.
Proof.
  revert buf nbuffer w. induction rs as [|r rs IH]; intros buf nbuffer w; [done|].
  destruct r; cbn [fmap list_fmap as_ssl plain_recv_loop recv_loop]; destruct (n <=? nbuffer); try done.
  - unfold mbind, M_bind. destruct (buf_write nbuffer bs buf w) as [[b w']|]; [apply IH|done].
  - by rewrite Z.add_0_r.
Qed.

Lemma plain_storage_eq {D} `{Sql D} (db : D) rs lens threads subquery ser args blk w :
  plain_storage_prepare db rs lens threads subquery ser args blk w
  = storage_prepare db (as_ssl <$> rs) lens [] threads subquery ser args blk w.
Proof. apply bind_ext_l, plain_recv_eq. Qed.

Lemma plain_schema_eq {D} `{Sql D} (mem_db : D) rs sems threads table_schema w :
  plain_host_schema mem_db rs sems threads table_schema w
  = host_schema mem_db (as_ssl <$> rs) sems threads table_schema w.
Proof. apply bind_ext_l, plain_recv_eq. Qed.

(** What [send] took arrives, cut differently. *)
Definition plain_arrives (sent : list (list Z)) (rs : list sock_result) : Prop :=
  exists cs, rs = SockData <$> cs /\ concat cs = concat sent /\ Forall (fun b : list Z => b <> []) cs.

Lemma plain_arrives_ssl sent rs : plain_arrives sent rs -> arrives sent (as_ssl <$> rs).
Proof.
  intros (cs & -> & Hc & Hne). exists cs. split; [|done]. rewrite <- list_fmap_compose. by apply list_fmap_ext.
Qed.

Section session.
  Context {DS DH B : Type} `{Sql DS} `{Sql DH} `{BtreeLaws B} (table_of : DH -> B) (nf fmt n_cols : Z).
  Context (blk : Z -> list Z).

#[local] Existing Instance plain_pool.

(** C33. A session of the servers without encryption.  Over a plain connection, with
    the host's ring of 1024 packets, the host's request is sent; the storage server
    writes past a block exactly when [malloc] gave it one without room for the
    statement or for the schema text, and otherwise preparation and schema
    succeed and the query thread is given the subquery.  Whenever the threads of
    the storage server have then finished without a query error and the host's
    inserting thread has taken the end packet, in any interleaving, the host's
    table holds the records of the rows of the subquery in order, or those rows
    with the first one cut to its first column. *)
Theorem plain_session_end_to_end (db db1 db2 : DS) (mem_db mem_db1 : DH) argv outer q c s lens1 lens2
    sems1 threads1 threads2 subquery ser args table_schema w w2 :
    Forall (fun r => r = 0) (sems1 ++ threads1) -> Forall (fun r => r = 0) threads2 ->
    argv !! 4%nat = Some outer -> argv !! 6%nat = Some (q ++ [c]) ->
    nonzero (q ++ [c]) -> (length (q ++ [c]) < 4096)%nat -> nonzero s -> (length s + 2 <= 4096)%nat ->
    sqlite3_exec db (create_table_cmd ++ [32] ++ q ++ [32] ++ limit_cmd) = (0, [], db1) ->
    sqlite3_exec db1 schema_query = (0, [s ++ [0]], db2) ->
    sqlite3_exec mem_db (s ++ [59]) = (0, [], mem_db1) -> bt_rows (table_of mem_db1) = ∅ ->
    let rows := query_rows db2 q in
    Forall (row_ok nf fmt) rows -> Z.of_nat (length rows) <= MAX_ROWID ->
    length subquery = 4096%nat -> length ser = 4096%nat -> length args = 4096%nat -> length table_schema = 4096%nat ->
    takes_all lens1 -> takes_all lens2 -> all_ok w ->
    exists opts sent1, plain_host_request argv lens1 w2 = Done (Continues (opts, sent1), w2) /\
      outer_query opts = Some outer /\
    forall rs1, plain_arrives sent1 rs1 ->
    if negb (statement_fits blk q && schema_fits blk s)
    then plain_storage_prepare db rs1 lens2 threads2 subquery ser args blk w = Fault OutOfBounds
    else exists sent2 args' w1, plain_storage_prepare db rs1 lens2 threads2 subquery ser args blk w
        = Done (Continues (Mk_ready db2 sent2 args'), w1) /\ c_string args' w1 = Done (q, w1) /\
    forall rs2, plain_arrives sent2 rs2 ->
      plain_host_schema mem_db rs2 sems1 threads1 table_schema w2 = Done (Continues mem_db1, w2) /\
    forall buf n0 sy net hs,
      Z.of_nat (length buf) = payload_size ->
      rtc (sys_step (row_copied nf) (record_made fmt) nf) (sys_init rows schema_columns buf n0) sy ->
      finished sy -> p_failed (s_p sy) = false ->
      Forall2 packed (c_sent (s_c sy)) net ->
      rtc (host_step n_cols) (host_init net (table_of mem_db1)) hs -> k_pc hs = KEnd ->
      exists got, (got = rows \/ got = truncate_first rows) /\ (nf = schema_columns -> got = rows) /\
        bt_rows (h_db hs) = table (record_of fmt <$> got).
Proof.
  intros Hos1 Hos2 Ha4 Ha6 Hqc Hl Hs Hls Hex1 Hex2 Hex3 Hempty rows Hok Hmax Hsub Hser Hargs Hsch Hlen1 Hlen2 Hw.
  destruct (session_ok table_of nf fmt n_cols blk db db1 db2 mem_db mem_db1 argv outer q c s lens1 lens2
    sems1 threads1 [] threads2 subquery ser args table_schema w w2) as (opts & sent1 & E1 & Ho & Hst); [done..|].
  exists opts, sent1. split; [exact E1|]. split; [done|]. intros rs1 Hrs1.
  specialize (Hst (as_ssl <$> rs1) (plain_arrives_ssl _ _ Hrs1)).
  destruct (negb _); [by rewrite plain_storage_eq|]. destruct Hst as (sent2 & args' & w1 & E2 & Hc & Hsc).
  exists sent2, args', w1. split; [by rewrite plain_storage_eq|]. split; [done|]. intros rs2 Hrs2.
  destruct (Hsc (as_ssl <$> rs2) (plain_arrives_ssl _ _ Hrs2)) as (E3 & Hend). split; [by rewrite plain_schema_eq|].
  intros buf n0 sy net hs Hb Hr Hf Hnf Hnet Hh Hk.
  destruct (Hend buf n0 sy net hs Hb Hr Hf Hnf Hnet Hh Hk) as (got & H1' & H2' & H3' & _). by exists got.
Qed.
End session.

(** ** Witness *)

#[local] Existing Instance plain_pool.
#[local] Existing Instance toy_storage.
#[local] Existing Instance toy_host.

(** A session with the subquery ["SELECT 1;"]. *)
Lemma plain_session_end_to_end_witness :
  exists opts sent1 sent2 args' w1 (hs : host (gmap Z (list Z))) got,
    plain_host_request [[0]; [1]; [2]; [3]; [4]; [5]; ex_short ++ [59]] [4096] [] = Done (Continues (opts, sent1), []) /\
    plain_storage_prepare 0%nat (SockData <$> [concat sent1]) [1; 4095] [0; 0; 0] (replicate 4096 0) (replicate 4096 0)
      (replicate 4096 0) (fun n => replicate (Z.to_nat (n + 1)) 170) [] = Done (Continues (Mk_ready 2%nat sent2 args'), w1) /\
    k_pc hs = KEnd /\ (got = [ex_row; ex_row] \/ got = [take 1 ex_row; ex_row]) /\
    bt_rows (h_db hs) = table (record_of 0 <$> got).
Proof.
  destruct (example_run (HP:=plain_pool)) as (Hok & s & net & hs & Hr & Hf & Hnf & Hnet & Hh & Hk).
  assert (Hlen : forall n : nat, length (replicate n (0:Z)) = n) by (intros; apply length_replicate).
  destruct (plain_session_end_to_end (DS:=nat) (DH:=gmap Z (list Z)) (fun d : gmap Z (list Z) => d) 5 0 4
    (fun n => replicate (Z.to_nat (n + 1)) 170) 0%nat 1%nat 2%nat ∅ ∅
    [[0]; [1]; [2]; [3]; [4]; [5]; ex_short ++ [59]] [4] ex_short 59 toy_schema [4096] [1; 4095] [0; 0; 0] [0; 0] [0; 0; 0]
    (replicate 4096 0) (replicate 4096 0) (replicate 4096 0) (replicate 4096 0) [] [])
    as (opts & sent1 & E1 & _ & Hst);
    [by repeat constructor|by repeat constructor|done|done|by apply w_nonzero|cbn; lia|by apply w_nonzero|vm_compute; lia
    |done|done|done|done|exact Hok|vm_compute; done|apply Hlen|apply Hlen|apply Hlen|apply Hlen|by split; [repeat constructor|]
    |by split; [repeat constructor|]|constructor|].
  assert (Hs1 : concat sent1 <> []).
  { intros E. destruct (Hst []) as (? & ? & ? & Hrun & _); [exists []; by rewrite E|]. by vm_compute in Hrun. }
  destruct (Hst (SockData <$> [concat sent1])) as (sent2 & args' & w1 & E2 & _ & Hsch).
  { exists [concat sent1]. split; [done|]. split; [cbn; by rewrite app_nil_r|by repeat constructor]. }
  assert (Hs2 : concat sent2 <> []).
  { intros E. destruct (Hsch []) as (Hrun & _); [exists []; by rewrite E|]. by vm_compute in Hrun. }
  destruct (Hsch (SockData <$> [concat sent2])) as (_ & Hend).
  { exists [concat sent2]. split; [done|]. split; [cbn; by rewrite app_nil_r|by repeat constructor]. }
  destruct (Hend toy_buf 0 s net hs toy_buf_length Hr Hf Hnf Hnet Hh Hk) as (got & Hgot & _ & Ht).
  by exists opts, sent1, sent2, args', w1, hs, got.
Defined.
